(* ===== verification/_CoqProject ===== *)
-Q . S2P
Prelude.v
Mem.v
CStr.v
FatFs.v
Heap.v
Updater.v
Launch.v
NxSd.v
Boot.v
I2c.v
Rtc.v
Pmic.v
Battery.v
Smmu.v
Util.v
Gpio.v
Ini.v
Elf.v
Gfx.v
Compr.v
Sprintf.v
Fuse.v
Irq.v
SdReg.v
Sdmmc.v
SdRw.v
Ipl.v
Clock.v
SdHost.v
SdDma.v
SdTime.v
Ums.v
UmsSafe.v
UmsIo.v
Se.v
SeXts.v
Periph.v
Uart.v
Joycon.v
