(* ===== verification/Prelude.v ===== *)
(** * NSX Manager: the RCM payload

    NSX Manager consists of a homebrew application that downloads packages
    (C++, src/src and src/include) and of a bare metal payload that the console
    boots through RCM to install them (C, src/apps/rcm-payload).  This library
    models the payload: [bootloader/], its main program, and the parts of
    [bdk/], the board support library, that the main program runs on.

    ** How the parts interact

    [ipl_main] (bootloader/main.c) brings the hardware up, mounts the SD card
    (bootloader/storage/nx_sd.c), and, when the application has left its flag
    file, removes the old installation ([performCleanup]) and moves the
    staged one into place ([finishUpdate]).  It then launches the next payload
    from the card ([launch_payload]).  All of this allocates from the BDK heap,
    reports on the frame buffer console, and reaches the PMIC, the charger,
    the fuel gauge and the clock over I2C.

    ** Files

    - [Prelude]: machine integers, the outcome monad [M] (a value, an access
      outside an object, or a loop that ran out of fuel, each with the state
      it left), tactics and lemmas shared by all files.
    - [Mem]: the byte addressed memory with [memcpy], [memset] and 32 bit
      accesses.
    - [CStr]: the C string functions the boot code uses.
    - [FatFs]: the interface to the file system library, as a class.
    - [Heap]: bdk/mem/heap.c, the allocator with its in-band list of nodes.
    - [Updater]: removal and move of packages in bootloader/main.c.
    - [Launch]: [reloc_patcher] and [launch_payload] of bootloader/main.c.
    - [NxSd]: bootloader/storage/nx_sd.c, mounting with fall back, reading and
      writing whole files.
    - [Boot]: the end of [ipl_main] and bootloader/config.c.
    - [I2c]: bdk/soc/i2c.c, with the classes [Mmio] for memory mapped
      registers and [I2c] for byte transfers, which the device drivers use.
    - [Rtc], [Pmic], [Battery]: bdk/rtc/max77620-rtc.c, bdk/power/max7762x.c,
      bdk/power/max17050.c and bq24193.c.
    - [Smmu]: bdk/mem/smmu.c, the page tables of the system MMU.
    - [Util], [Gpio]: bdk/utils/util.c and btn.c, the delays of
      bdk/soc/bpmp.c, bdk/soc/gpio.c.
    - [Ini]: bdk/utils/ini.c and dirlist.c.
    - [Elf]: bdk/ianos, the loader of ELF modules.
    - [Gfx]: bootloader/gfx/gfx.c, the frame buffer console.
    - [Compr]: bdk/libs/compr/lz.c and blz.c, the decompressors.
    - [Sprintf]: bdk/utils/sprintf.c, formatted output to memory.
    - [Fuse]: bdk/soc/fuse.c: fuse registers, the boot ROM patches with their
      error correcting codes, the test for a patched boot ROM.
    - [Irq]: bdk/soc/irq.c, the interrupt handlers.
    - [SdReg], [Sdmmc], [SdRw]: bdk/storage/sdmmc.c: the card registers, the
      protocol that identifies and sets up a card over a host controller (the
      class [SdDriver]), and the sector transfers.  The transfers call the
      front end in [NxSd] to reinitialise a card, and the front end runs on
      the protocol: [SdRw] ties the two together, with diskio.c above them.
    - [Clock]: bdk/soc/clock.c, the clock and reset controller: the devices,
      the PLLs, the clocks of the SD controllers with their two statics.
    - [SdHost]: bdk/storage/sdmmc_driver.c, the driver of the SD host
      controller, over its registers (the class [Sdhci]) and the drivers of
      clocks, pins, regulators and fuses.
    - [SdDma]: the controller as a state machine that moves data at its own
      pace, the driver's transfers over it, and the proof that the driver is
      an instance of the interface that [Sdmmc] and [SdRw] are verified
      against.  [SdTime]: the same device with a clock; commands return.
    - [Ums], [UmsSafe], [UmsIo]: bdk/usb/usb_gadget_ums.c, the mass storage
      gadget: the bulk-only transport, the SCSI commands and the loop that
      serves a host, over the USB controller and the sector transfers (the
      class [UmsDev]); what holds of every run; what READ and WRITE do.
    - [Se], [SeXts]: bdk/sec/se.c, the driver of the security engine over its
      registers, memory and the heap (the class [SeHw]); the encryption of
      disk sectors built on it.
    - [Periph]: the 5 V regulator, fan, temperature sensor, USB-PD controller
      (bdk/power, bdk/thermal) and the RAM disk (bdk/storage/ramdisk.c).
    - [Uart], [Joycon]: bdk/soc/uart.c and bdk/input/joycon.c.
    - [Ipl]: the start of [ipl_main]: the battery check, the configuration
      from the fuses, the report of errors, composed from the parts above.

    Hardware enters through classes: [Mmio] and [I2c] for registers and bytes,
    [FuseBox], [Ictlr], [SdLaws], [RegFile], [Car], [SdhciHw],
    [UmsDisk], [UmsWire], [SeLaws], [UartLine], [UsClock] for what a controller or chip does with
    them, [Display] and [Cpu] for code that is not modelled.  [Updater] and
    [Boot] use the heap through the class [Allocator], which gives the bounds
    of a block that [Heap.malloc_block_size] proves of the allocator.

    Definitions keep the names of the C functions; a loop is a Fixpoint named
    after its function or purpose.  Globals are fields of a state record.

    ** What the theorems show

    - Memory: every heap reachable by [malloc] and [free] is well formed;
      [malloc] returns fresh aligned blocks, [free] returns exactly the block
      given and coalesces, and no byte of a block in use changes.  The SMMU
      tables translate exactly the pages mapped.  The ELF loader places,
      zeroes and relocates exactly what the image says.
    - Installing: every file system call of the removal is allowed by the keep
      lists, whatever the file system answers; a payload is started only after
      a complete installation; the launched image is the file's bytes behind a
      patched relocation stub.
    - Storage: the order of the fall back modes, totality of mounting, and
      file reads into fresh blocks.
    - Devices: what the drivers leave in the registers of the PMIC, fuel
      gauge, clock and GPIO; bounded waiting; the calendar conversions are
      inverse to each other and agree with a calendar counted by days.
    - Text: the INI parser inverts printing; directory lists are sorted; the
      CRC table agrees with the bitwise definition; the console paints
      glyphs, numbers, formats, bitmaps and lines as specified.
    - Cards: the initialisation marks a card usable exactly when it
      succeeds; sector reads and writes are correct under any pattern of
      failures of a controller that obeys the laws [SdLaws] of a block device;
      a write staged in the upper buffer is shown with the sector that a
      reinitialisation may spoil.
    - SD host: a command that reads or writes data moves what it reports, and
      nothing else, whatever the controller's timing and errors; it returns
      within a round of the millisecond timer;
      the storage protocol over it delivers the content of the card.  The
      controller is assumed to be in the version 4 mode that the driver
      selects, and to obey the DMA protocol of the SD host specification.
    - Clocks: PLLC4 runs while a controller is fed by it; the clock of a card
      is within the limit of its bus mode; enabling a device touches it only.
    - Fuses: the code of the patch words corrects one wrong bit and detects
      two; the patches reported are the ones programmed in the groups that are
      reached; reading them ends
      and stays inside its array for any contents.
    - Battery check: in every run, it goes on or switches off only on an
      observation that calls for it, and at the first.
    - Delays: [usleep], with the halts of the processor (bdk/soc/bpmp.c) that
      it uses near a wrap of the counter, waits as long as asked.
    - Interrupts: in every reachable state an enabled source has a handler.
    - Decompressors: decoding inverts encoding (lz); the in place decoder
      ends and stays inside its area for any input (blz).
    - Mass storage: READ delivers the sectors asked for and WRITE stores the
      ones received, over interfaces with laws for the USB transfers and the
      card; no command writes outside the unit or to a read-only one; the
      fields of the state stay in their types; a WRITE that is
      accepted returns exactly when it asks for whole sectors inside the unit.
    - Security engine: encryption of sectors agrees with a reference for the
      XTS mode on lists of bytes, writes its destination only and gives its
      memory back; decryption undoes it.  The cipher is a parameter, of which
      only that it is invertible on blocks is assumed.
    - Peripherals: the 5 V supplies follow the set of devices in use; the fan
      duty; the RAM disk gives back what was written; a reception on a serial
      port fills the buffer and, if the packet is longer, goes past its end.
    - Joy-Con: in every reachable state, for any packets and hardware, the
      report is in range, also when a packet overwrites the members behind
      the receive buffer; a packet past the whole context ends the run.

    Several theorems and lemmas show defects of the code: they are stated of
    the code as it is.

    ** Bounds and fuel

    Integers are [Z] with the wrap around of their C type written out where
    it can occur.  Loops that are not bounded by their data take fuel; the
    theorems either give fuel that is enough (line drawing, sleeping, I2C
    waits, SD mounting in six rounds, the heap sweep in as many steps as there
    are nodes) or hold for every fuel (the safety of the removal, of which
    each prefix of an execution is safe).

    ** Not modelled

    - The C++ application: it is a user interface around network and archive
      libraries.
    - FatFs itself (bdk/libs/fatfs), LVGL, lz4 and the other vendored
      libraries; file system results are those of an arbitrary instance.
    - Start-up tables and register sequences without decisions of their own:
      hw_init, sdram parameters, display initialisation, pinmux.
    - Caches: memory has one content, so the cache maintenance around DMA has
      no effect in the model.
    - The remaining drivers of bdk (the USB controllers and the HID gadget,
      TSEC, display, touch input, memory training), which the parts
      above use only through interfaces or not at all.
    - In [ipl_main], the calls between the first mount and the error report
      that only set hardware up (libsys, minerva, display, clock boost).

    ** What is left

    What is left of the payload's own code is the setup of hardware (DRAM,
    display, the USB controllers, processors, pins): sequences of register
    writes and tables whose meaning is in documents outside the repository. *)

From stdpp Require Export base tactics list gmap numbers.
From Stdlib Require Export ZArith Lia.

Declare Scope nsx_scope.
Delimit Scope nsx_scope with nsx.
#[global] Open Scope Z_scope.

(** ** Machine integers

    A w-bit unsigned value is a [Z] in [0, 2^w); every operation of the C code
    that can leave that range is wrapped explicitly. *)

Definition u8 (z : Z) : Z := z mod 256.
Definition u16 (z : Z) : Z := z mod 65536.
Definition u32 (z : Z) : Z := z mod 4294967296.
Definition u64 (z : Z) : Z := z mod 18446744073709551616.

(** The two's complement reading of a 16- and of a 32-bit pattern. *)
Definition s16 (z : Z) : Z :=
  let v := u16 z in if 32768 <=? v then v - 65536 else v.
Definition s32 (z : Z) : Z :=
  let v := u32 z in if 2147483648 <=? v then v - 4294967296 else v.

(** C truth values. *)
Definition c_bool (b : bool) : Z := if b then 1 else 0.
Definition c_true (z : Z) : bool := negb (z =? 0).

(** [ALIGN(x, a)] and [BIT(n)] of utils/types.h, on u32 operands. *)
Definition ALIGN (x a : Z) : Z :=
  Z.land (u32 (x + a - 1)) (u32 (Z.lnot (a - 1))).
Definition BIT (n : Z) : Z := u32 (Z.shiftl 1 n).

(** ** Effects

    Code that updates state is a function from the state to an outcome and the
    state it left.  Besides returning a value the model can stop early:
    [Overrun] is a C access outside the object it belongs to, [NoFuel] is a
    loop that the fuel did not let finish.  The state is kept in all three
    cases, so a property of the state after any fuel is a property of every
    prefix of the execution. *)

Inductive outcome (A : Type) := Ret (x : A) | Overrun | NoFuel.
Arguments Ret {A} x.
Arguments Overrun {A}.
Arguments NoFuel {A}.

Definition M (S A : Type) : Type := S -> outcome A * S.

#[export] Instance M_ret {S} : MRet (M S) := fun A x s => (Ret x, s).
#[export] Instance M_bind {S} : MBind (M S) := fun A B k m s =>
  match m s with
  | (Ret x, s') => k x s'
  | (Overrun, s') => (Overrun, s')
  | (NoFuel, s') => (NoFuel, s')
  end.

Definition overrun {S A} : M S A := fun s => (Overrun, s).
Definition nofuel {S A} : M S A := fun s => (NoFuel, s).
Definition get {S} : M S S := fun s => (Ret s, s).
Definition put {S} (s : S) : M S unit := fun _ => (Ret tt, s).
Definition modify {S} (f : S -> S) : M S unit := fun s => (Ret tt, f s).

Lemma bind_Ret {S A B} (m : M S A) (k : A -> M S B) s y s' :
  (m ≫= k) s = (Ret y, s') -> exists x s1, m s = (Ret x, s1) /\ k x s1 = (Ret y, s').
Proof.
  unfold mbind, M_bind. destruct (m s) as [[x| |] s1]; intros H; try discriminate. eauto.
Qed.

Lemma bind_run {S A B} (m : M S A) (k : A -> M S B) s x s1 :
  m s = (Ret x, s1) -> (m ≫= k) s = k x s1.
Proof. intros E. unfold mbind, M_bind. by rewrite E. Qed.

Lemma bind_mret {S A B} (x : A) (k : A -> M S B) s : (mret x ≫= k) s = k x s.
Proof. done. Qed.

Lemma bind_assoc {S A B C} (m : M S A) (f : A -> M S B) (g : B -> M S C) s :
  ((m ≫= f) ≫= g) s = (m ≫= (fun x => f x ≫= g)) s.
Proof. unfold mbind, M_bind. by destruct (m s) as [[x| |] s']. Qed.

(** ** Tactics *)

Ltac zdm := Z.div_mod_to_equations; nia.

(** Case on every boolean comparison of the goal and the context. *)
Ltac zcases :=
  repeat match goal with
  | |- context [?a =? ?b] => destruct (Z.eqb_spec a b)
  | |- context [?a <? ?b] => destruct (Z.ltb_spec a b)
  | |- context [?a <=? ?b] => destruct (Z.leb_spec a b)
  | H : context [?a =? ?b] |- _ => destruct (Z.eqb_spec a b)
  | H : context [?a <? ?b] |- _ => destruct (Z.ltb_spec a b)
  | H : context [?a <=? ?b] |- _ => destruct (Z.leb_spec a b)
  end.

(** The same, pruning the cases that arithmetic refutes as they appear. *)
Ltac zcases_lia :=
  repeat match goal with
  | |- context [?a =? ?b] => destruct (Z.eqb_spec a b); try lia
  | |- context [?a <? ?b] => destruct (Z.ltb_spec a b); try lia
  | |- context [?a <=? ?b] => destruct (Z.leb_spec a b); try lia
  end.

Create HintDb nsx.

(** ** Generic lemmas *)

Lemma u8_range z : 0 <= u8 z < 256.
Proof. unfold u8. apply Z.mod_pos_bound. lia. Qed.
Lemma u16_range z : 0 <= u16 z < 65536.
Proof. unfold u16. apply Z.mod_pos_bound. lia. Qed.
Lemma u32_range z : 0 <= u32 z < 4294967296.
Proof. unfold u32. apply Z.mod_pos_bound. lia. Qed.

Lemma u8_id z : 0 <= z < 256 -> u8 z = z.
Proof. intros. apply Z.mod_small; lia. Qed.
Lemma u16_id z : 0 <= z < 65536 -> u16 z = z.
Proof. intros. apply Z.mod_small; lia. Qed.
Lemma u32_id z : 0 <= z < 4294967296 -> u32 z = z.
Proof. intros. apply Z.mod_small; lia. Qed.
Lemma u32_u32 z : u32 (u32 z) = u32 z.
Proof. apply u32_id, u32_range. Qed.
#[export] Hint Resolve u8_range u16_range u32_range : nsx.

(** Masking off the low bits of a power-of-two alignment. *)
Lemma land_lnot_pow2 z k :
  0 <= k <= 32 -> 0 <= z < 4294967296 ->
  Z.land z (u32 (Z.lnot (2 ^ k - 1))) = z - z mod 2 ^ k.
Proof.
  intros Hk Hz.
  assert (H2 : 0 < 2 ^ k) by (apply Z.pow_pos_nonneg; lia).
  replace (z - z mod 2 ^ k) with (2 ^ k * (z / 2 ^ k))
    by (pose proof (Z.div_mod z (2 ^ k)); lia).
  rewrite Z.mul_comm, <- Z.shiftl_mul_pow2, <- Z.shiftr_div_pow2 by lia.
  apply Z.bits_inj'. intros n Hn.
  unfold u32. change 4294967296 with (2 ^ 32) in *.
  rewrite Z.land_spec, Z.shiftl_spec by lia.
  destruct (Z.ltb_spec n 32).
  - rewrite Z.mod_pow2_bits_low by lia.
    rewrite Z.lnot_spec by lia.
    replace (2 ^ k - 1) with (Z.ones k) by (rewrite Z.ones_equiv; lia).
    destruct (Z.ltb_spec n k).
    + rewrite Z.ones_spec_low, (Z.testbit_neg_r _ (n - k)) by lia. by rewrite andb_false_r.
    + rewrite Z.ones_spec_high, Z.shiftr_spec, andb_true_r by lia. f_equal; lia.
  - rewrite Z.mod_pow2_bits_high, andb_false_r by lia.
    destruct (Z.ltb_spec n k); [by rewrite (Z.testbit_neg_r _ (n - k)) by lia|].
    rewrite Z.shiftr_spec by lia.
    destruct (Z.eq_dec z 0) as [->|]; [by rewrite Z.bits_0|].
    rewrite Z.bits_above_log2; [done|lia|].
    assert (Z.log2 z < 32) by (apply Z.log2_lt_pow2; lia). lia.
Qed.

Lemma ALIGN_spec x k :
  0 <= k <= 32 -> 0 <= x -> x + 2 ^ k - 1 < 4294967296 ->
  ALIGN x (2 ^ k) = (x + 2 ^ k - 1) - (x + 2 ^ k - 1) mod 2 ^ k.
Proof.
  intros Hk Hx Hlt.
  assert (0 < 2 ^ k) by (apply Z.pow_pos_nonneg; lia).
  unfold ALIGN. rewrite (u32_id (x + 2 ^ k - 1)) by lia.
  apply land_lnot_pow2; lia.
Qed.

Lemma lor_bound n a b :
  0 <= n -> 0 <= a < 2 ^ n -> 0 <= b < 2 ^ n -> 0 <= Z.lor a b < 2 ^ n.
Proof.
  intros Hn Ha Hb. assert (H0 : 0 <= Z.lor a b) by (apply Z.lor_nonneg; lia). split; [done|].
  destruct (Z.eq_dec (Z.lor a b) 0) as [->|]; [lia|].
  apply Z.log2_lt_pow2; [lia|]. rewrite Z.log2_lor by lia.
  assert (Hl : forall x, 0 <= x < 2 ^ n -> Z.log2 x < n \/ x = 0)
    by (intros x Hx; destruct (Z.eq_dec x 0); [by right|left; apply Z.log2_lt_pow2; lia]).
  destruct (Hl a Ha) as [?| ->], (Hl b Hb) as [?| ->]; rewrite ?Z.lor_0_l, ?Z.lor_0_r in *;
    change (Z.log2 0) with 0; try lia.
  - pose proof (Z.log2_nonneg a). lia.
  - pose proof (Z.log2_nonneg b). lia.
Qed.

(** Bits of bytes. *)
Lemma u8_testbit z n : 0 <= n -> Z.testbit (u8 z) n = (n <? 8) && Z.testbit z n.
Proof.
  intros Hn. unfold u8. change 256 with (2 ^ 8). destruct (Z.ltb_spec n 8).
  - by rewrite Z.mod_pow2_bits_low.
  - by rewrite Z.mod_pow2_bits_high by lia.
Qed.

Lemma byte_testbit_high z n : 0 <= z < 256 -> 8 <= n -> Z.testbit z n = false.
Proof.
  intros Hz Hn. rewrite <- (u8_id z), u8_testbit by lia. by rewrite (proj2 (Z.ltb_ge n 8)).
Qed.

(** A read-modify-write of the bits [mask] of a byte register. *)
Lemma field_update old x mask :
  0 <= old < 256 -> 0 <= mask < 256 ->
  let val := u8 (Z.lor (Z.land old (Z.lnot mask)) (Z.land x mask)) in
  Z.land val mask = Z.land x mask /\ Z.ldiff val mask = Z.ldiff old mask.
Proof.
  intros Ho Hm val. subst val. split; apply Z.bits_inj'; intros n Hn.
  - rewrite !Z.land_spec, u8_testbit, Z.lor_spec, !Z.land_spec, Z.lnot_spec by done.
    destruct (Z.ltb_spec n 8); [|by rewrite (byte_testbit_high mask), !andb_false_r].
    by destruct (Z.testbit old n), (Z.testbit mask n), (Z.testbit x n).
  - rewrite !Z.ldiff_spec, u8_testbit, Z.lor_spec, !Z.land_spec, Z.lnot_spec by done.
    destruct (Z.ltb_spec n 8); [|by rewrite (byte_testbit_high old)].
    by destruct (Z.testbit old n), (Z.testbit mask n), (Z.testbit x n).
Qed.

(** ** Reasoning about outcomes *)

(** [Q] holds when [m] returns, [E] when it stops without returning. *)
Definition wp {S A} (m : M S A) (s : S) (Q : A -> S -> Prop) (E : S -> Prop) : Prop :=
  match m s with
  | (Ret x, s') => Q x s'
  | (_, s') => E s'
  end.

Lemma wp_bind {S A B} (m : M S A) (k : A -> M S B) s Q E :
  wp m s (fun x s' => wp (k x) s' Q E) E -> wp (m ≫= k) s Q E.
Proof. unfold wp, mbind, M_bind. by destruct (m s) as [[x| |] s']. Qed.
Lemma wp_mono {S A} (m : M S A) s (Q Q' : A -> S -> Prop) (E E' : S -> Prop) :
  wp m s Q E -> (forall x s', Q x s' -> Q' x s') -> (forall s', E s' -> E' s') -> wp m s Q' E'.
Proof. unfold wp. destruct (m s) as [[x| |] s']; auto. Qed.
Lemma wp_ret {S A} (x : A) s (Q : A -> S -> Prop) E : Q x s -> wp (mret x) s Q E.
Proof. done. Qed.

(** [I] is kept by every prefix of [m]. *)
Definition keeps {S A} (I : S -> Prop) (m : M S A) : Prop := forall s, I s -> I (m s).2.

Lemma keeps_wp {S A} (I : S -> Prop) (m : M S A) s : keeps I m -> I s -> wp m s (fun _ => I) I.
Proof. intros Hm Hs. specialize (Hm s Hs). unfold wp. by destruct (m s) as [[x| |] s']. Qed.
Lemma keeps_bind {S A B} (I : S -> Prop) (m : M S A) (k : A -> M S B) :
  keeps I m -> (forall x, keeps I (k x)) -> keeps I (m ≫= k).
Proof.
  intros Hm Hk s Hs. specialize (Hm s Hs). unfold mbind, M_bind.
  destruct (m s) as [[x| |] s']; [by apply Hk|done|done].
Qed.
Lemma keeps_ret {S A} (I : S -> Prop) (x : A) : keeps I (mret x).
Proof. by intros s. Qed.
Lemma keeps_overrun {S A} (I : S -> Prop) : keeps I (overrun (A := A)).
Proof. by intros s. Qed.
Lemma keeps_nofuel {S A} (I : S -> Prop) : keeps I (nofuel (A := A)).
Proof. by intros s. Qed.
Lemma keeps_get {S} (I : S -> Prop) : keeps I get.
Proof. by intros s. Qed.
Lemma keeps_if {S A} (I : S -> Prop) (b : bool) (m1 m2 : M S A) :
  keeps I m1 -> keeps I m2 -> keeps I (if b then m1 else m2).
Proof. by destruct b. Qed.

Create HintDb keeps.
#[export] Hint Resolve keeps_ret keeps_overrun keeps_nofuel keeps_get : keeps.

(** Follow a program to its elementary steps. *)
Ltac kp :=
  repeat first
    [ solve [eauto 2 with keeps]
    | match goal with
      | |- keeps _ (mbind _ _) => apply keeps_bind; [|intros ?]
      | |- keeps _ (if _ then _ else _) => apply keeps_if
      | |- keeps _ (match ?x with _ => _ end) => destruct x
      | |- keeps _ (let '(_, _) := ?x in _) => destruct x
      end ].
