(* ===== verification/Mem.v ===== *)
(** * Mem

    The byte-addressed memory of the boot processor.  The BPMP runs without an
    MMU, so every address can be read and written; a location that the model
    has not been told about reads as zero, and every theorem quantifies over
    the memory it starts from. *)

From S2P Require Import Prelude.

Abbreviation mem := (gmap Z Z).

Definition ld8 (m : mem) (a : Z) : Z := u8 (default 0 (m !! a)).
Definition st8 (m : mem) (a v : Z) : mem := <[a := u8 v]> m.

Definition ld16 (m : mem) (a : Z) : Z := ld8 m a + 256 * ld8 m (a + 1).
Definition ld32 (m : mem) (a : Z) : Z :=
  ld8 m a + 256 * ld8 m (a + 1) + 65536 * ld8 m (a + 2) + 16777216 * ld8 m (a + 3).

Definition st16 (m : mem) (a v : Z) : mem := st8 (st8 m a v) (a + 1) (v / 256).
Definition st32 (m : mem) (a v : Z) : mem :=
  st8 (st8 (st8 (st8 m a v) (a + 1) (v / 256)) (a + 2) (v / 65536)) (a + 3) (v / 16777216).

(** The [len] bytes from [a] on. *)
Fixpoint ld_bytes (m : mem) (a : Z) (len : nat) : list Z :=
  match len with
  | O => []
  | S n => ld8 m a :: ld_bytes m (a + 1) n
  end.

Fixpoint st_bytes (m : mem) (a : Z) (bs : list Z) : mem :=
  match bs with
  | [] => m
  | b :: bs' => st_bytes (st8 m a b) (a + 1) bs'
  end.

(** [memset] and the forward byte copy [memcpy] of the C library. *)
Fixpoint memset (m : mem) (a v : Z) (len : nat) : mem :=
  match len with
  | O => m
  | S n => memset (st8 m a v) (a + 1) v n
  end.

Fixpoint memcpy (m : mem) (dst src : Z) (len : nat) : mem :=
  match len with
  | O => m
  | S n => memcpy (st8 m dst (ld8 m src)) (dst + 1) (src + 1) n
  end.

(** ** Reading back what was written *)

Lemma ld8_range m a : 0 <= ld8 m a < 256.
Proof. apply u8_range. Qed.

Lemma ld8_st8 m a v b : ld8 (st8 m a v) b = if a =? b then u8 v else ld8 m b.
Proof.
  unfold ld8, st8. destruct (Z.eqb_spec a b) as [->|Hn].
  - rewrite lookup_insert_eq. cbn. apply u8_id, u8_range.
  - by rewrite lookup_insert_ne.
Qed.

Lemma ld8_st8_eq m a v : ld8 (st8 m a v) a = u8 v.
Proof. by rewrite ld8_st8, Z.eqb_refl. Qed.

Lemma ld8_st8_ne m a v b : a <> b -> ld8 (st8 m a v) b = ld8 m b.
Proof. intros. rewrite ld8_st8. by destruct (Z.eqb_spec a b). Qed.

Lemma ld32_range m a : 0 <= ld32 m a < 4294967296.
Proof.
  unfold ld32. pose proof (ld8_range m a). pose proof (ld8_range m (a + 1)).
  pose proof (ld8_range m (a + 2)). pose proof (ld8_range m (a + 3)). lia.
Qed.
#[export] Hint Resolve ld8_range ld32_range : nsx.

Lemma ld8_st32_ne m a v b : ~ (a <= b < a + 4) -> ld8 (st32 m a v) b = ld8 m b.
Proof. intros. unfold st32. rewrite !ld8_st8_ne by lia. done. Qed.

Lemma le4_split v :
  0 <= v < 4294967296 ->
  u8 v + 256 * u8 (v / 256) + 65536 * u8 (v / 65536) + 16777216 * u8 (v / 16777216) = v.
Proof. intros. unfold u8. Z.div_mod_to_equations. lia. Qed.

Lemma ld32_st32_eq m a v : 0 <= v < 4294967296 -> ld32 (st32 m a v) a = v.
Proof.
  intros Hv. unfold ld32, st32. rewrite !ld8_st8.
  zcases_lia. by apply le4_split.
Qed.

(** Two memories that agree on an interval give the same loads there. *)
Definition same_on (lo hi : Z) (m m' : mem) : Prop :=
  forall x, lo <= x < hi -> ld8 m' x = ld8 m x.

#[export] Instance same_on_equiv lo hi : Equivalence (same_on lo hi).
Proof.
  split.
  - by intros m x _.
  - intros m m' H x Hx. by rewrite H.
  - intros m1 m2 m3 H1 H2 x Hx. by rewrite H2, H1.
Qed.

Lemma same_on_sub lo hi lo' hi' m m' :
  same_on lo hi m m' -> lo <= lo' -> hi' <= hi -> same_on lo' hi' m m'.
Proof. intros H ?? x ?. apply H. lia. Qed.

Lemma ld32_same m m' a : same_on a (a + 4) m m' -> ld32 m' a = ld32 m a.
Proof. intros H. unfold ld32. rewrite !H by lia. done. Qed.

Lemma ld32_st32_ne m a v b :
  b + 4 <= a \/ a + 4 <= b -> ld32 (st32 m a v) b = ld32 m b.
Proof. intros H. apply ld32_same. intros x Hx. apply ld8_st32_ne. lia. Qed.

Lemma st32_same_on m a v lo hi :
  hi <= a \/ a + 4 <= lo -> same_on lo hi m (st32 m a v).
Proof. intros H x Hx. apply ld8_st32_ne. lia. Qed.

Lemma ld8_st32_cong m m' a v x :
  ld8 m' x = ld8 m x -> ld8 (st32 m' a v) x = ld8 (st32 m a v) x.
Proof. intros H. unfold st32. rewrite !ld8_st8, H. done. Qed.

(** Rewrites loads through stores whose addresses [lia] separates. *)
Ltac mem_simpl :=
  repeat first
    [ rewrite ld32_st32_eq by (eauto with nsx; lia)
    | rewrite ld32_st32_ne by lia
    | rewrite ld8_st32_ne by lia
    | rewrite ld8_st8_eq
    | rewrite ld8_st8_ne by lia ].

(** ** Block operations *)

Lemma ld8_memset m a v n b :
  ld8 (memset m a v n) b = if (a <=? b) && (b <? a + Z.of_nat n) then u8 v else ld8 m b.
Proof.
  revert m a. induction n as [|n IH]; intros m a; cbn [memset].
  - destruct (Z.leb_spec a b), (Z.ltb_spec b (a + Z.of_nat 0)); cbn; done || lia.
  - rewrite IH, ld8_st8.
    destruct (Z.leb_spec (a + 1) b), (Z.ltb_spec b (a + 1 + Z.of_nat n)),
      (Z.leb_spec a b), (Z.ltb_spec b (a + Z.of_nat (S n))), (Z.eqb_spec a b);
      cbn; done || lia.
Qed.

Lemma ld8_st_bytes_ne m a bs b :
  ~ (a <= b < a + Z.of_nat (length bs)) -> ld8 (st_bytes m a bs) b = ld8 m b.
Proof.
  revert m a. induction bs as [|x bs IH]; intros m a H; cbn in *; [done|].
  rewrite IH by lia. apply ld8_st8_ne. lia.
Qed.

Lemma ld_bytes_st_bytes m a bs :
  Forall (fun b => 0 <= b < 256) bs ->
  ld_bytes (st_bytes m a bs) a (length bs) = bs.
Proof.
  revert m a. induction bs as [|x bs IH]; intros m a H; cbn; [done|].
  inversion_clear H. f_equal; [|by apply IH].
  rewrite ld8_st_bytes_ne, ld8_st8_eq by lia. by apply u8_id.
Qed.

Lemma ld8_memcpy_ne m dst src n b :
  ~ (dst <= b < dst + Z.of_nat n) -> ld8 (memcpy m dst src n) b = ld8 m b.
Proof.
  revert m dst src. induction n as [|n IH]; intros m dst src H; cbn [memcpy]; [done|].
  rewrite IH, ld8_st8_ne by lia. done.
Qed.

(** A copy between buffers that do not overlap moves the source bytes. *)
Lemma ld8_memcpy m dst src n i :
  dst + Z.of_nat n <= src \/ src + Z.of_nat n <= dst ->
  0 <= i < Z.of_nat n ->
  ld8 (memcpy m dst src n) (dst + i) = ld8 m (src + i).
Proof.
  revert m dst src i. induction n as [|n IH]; intros m dst src i Hd Hi; [lia|].
  cbn [memcpy]. destruct (Z.eq_dec i 0) as [->|].
  - rewrite !Z.add_0_r, ld8_memcpy_ne, ld8_st8_eq by lia. apply u8_id, ld8_range.
  - replace (dst + i) with (dst + 1 + (i - 1)) by lia.
    rewrite IH, ld8_st8_ne by lia. f_equal. lia.
Qed.

Lemma ld8_st_bytes m a bs i b :
  bs !! i = Some b -> ld8 (st_bytes m a bs) (a + Z.of_nat i) = u8 b.
Proof.
  revert m a i. induction bs as [|x bs IH]; intros m a [|i] Hi; cbn in *; try discriminate.
  - injection Hi as ->. rewrite Z.add_0_r, ld8_st_bytes_ne, ld8_st8_eq by lia. done.
  - replace (a + Z.of_nat (S i)) with (a + 1 + Z.of_nat i) by lia. by apply IH.
Qed.

Lemma ld_bytes_length m a n : length (ld_bytes m a n) = n.
Proof. revert a. induction n as [|n IH]; intros a; simpl; [done|]. by rewrite IH. Qed.

Lemma ld_bytes_lookup m a n i : (i < n)%nat -> ld_bytes m a n !! i = Some (ld8 m (a + Z.of_nat i)).
Proof.
  revert a i. induction n as [|n IH]; intros a [|i] Hi; simpl; try lia.
  - by rewrite Z.add_0_r.
  - rewrite IH by lia. do 2 f_equal. lia.
Qed.

Lemma ld_bytes_same m m' n : forall b,
  (forall x, b <= x < b + Z.of_nat n -> ld8 m' x = ld8 m x) -> ld_bytes m' b n = ld_bytes m b n.
Proof.
  induction n as [|n IH]; intros b Hx; [done|]. cbn [ld_bytes]. f_equal; [apply Hx; lia|].
  apply IH. intros x Hin. apply Hx. lia.
Qed.
