(* ===== verification/CStr.v ===== *)
(** * CStr

    NUL-terminated strings as [string] values, with the C library functions the
    boot code applies to them. *)

From S2P Require Export Prelude.
From Stdlib Require Import Ascii.
From stdpp Require Export strings.

#[global] Open Scope Z_scope.

Definition strlen (s : string) : Z := Z.of_nat (String.length s).

(** [tolower] in the C locale. *)
Definition tolower (c : Ascii.ascii) : Ascii.ascii :=
  let n := Ascii.N_of_ascii c in
  if (65 <=? n)%N && (n <=? 90)%N then Ascii.ascii_of_N (n + 32) else c.

Fixpoint toLower (s : string) : string :=
  match s with
  | EmptyString => EmptyString
  | String c s => String (tolower c) (toLower s)
  end.

(** [strcmp(a, b) == 0] *)
Definition streq (a b : string) : bool := String.eqb a b.

(** [strstr(s, sub) != NULL] *)
Fixpoint strstr (s sub : string) : bool :=
  String.prefix sub s ||
  match s with
  | EmptyString => false
  | String _ s => strstr s sub
  end.

(** [strtok] with the delimiter '/': the tokens in order. *)
Definition slash : Ascii.ascii := "/"%char.
Fixpoint strtok_from (cur s : string) : list string :=
  match s with
  | EmptyString => if String.eqb cur "" then [] else [cur]
  | String c s =>
      if Ascii.eqb c slash
      then (if String.eqb cur "" then [] else [cur]) ++ strtok_from "" s
      else strtok_from (cur +:+ String c "") s
  end.
Definition strtok (s : string) : list string := strtok_from "" s.

(** What is left in the buffer after [strtok] ran over it: the leading
    delimiters and the first token, up to the NUL that ended it. *)
Fixpoint strtok_rest (intok : bool) (s : string) : string :=
  match s with
  | EmptyString => EmptyString
  | String c s =>
      if Ascii.eqb c slash
      then if intok then EmptyString else String c (strtok_rest false s)
      else String c (strtok_rest true s)
  end.
Definition strtok_head (s : string) : string := strtok_rest false s.

(** [s[0..n)] *)
Definition str_take (n : nat) (s : string) : string := String.substring 0 n s.

(** ** Lemmas *)

Lemma str_nil_app b : "" +:+ b = b.
Proof. reflexivity. Qed.
Lemma str_cons_app c a b : String c a +:+ b = String c (a +:+ b).
Proof. reflexivity. Qed.

Lemma string_length_app a b : String.length (a +:+ b) = (String.length a + String.length b)%nat.
Proof. induction a as [|c a IH]; [done|]. rewrite str_cons_app. cbn. by rewrite IH. Qed.

Lemma strlen_app a b : strlen (a +:+ b) = strlen a + strlen b.
Proof. unfold strlen. rewrite string_length_app. lia. Qed.

Lemma strlen_nonneg a : 0 <= strlen a.
Proof. unfold strlen. lia. Qed.

Lemma string_app_assoc a b c : (a +:+ b) +:+ c = a +:+ (b +:+ c).
Proof. induction a as [|x a IH]; [done|]. by rewrite !str_cons_app, IH. Qed.

Lemma toLower_length s : String.length (toLower s) = String.length s.
Proof. induction s as [|c s IH]; cbn; [done|]. by rewrite IH. Qed.

Lemma tolower_idem c : tolower (tolower c) = tolower c.
Proof. destruct c as [[] [] [] [] [] [] [] []]; reflexivity. Qed.

Lemma toLower_idem s : toLower (toLower s) = toLower s.
Proof. induction s as [|c s IH]; cbn; [done|]. by rewrite tolower_idem, IH. Qed.

Lemma toLower_app a b : toLower (a +:+ b) = toLower a +:+ toLower b.
Proof. induction a as [|c a IH]; [done|]. rewrite str_cons_app. cbn. by rewrite IH. Qed.

Lemma str_take_app a b : str_take (String.length a) (a +:+ b) = a.
Proof.
  unfold str_take. induction a as [|c a IH]; [by destruct b|].
  rewrite str_cons_app. cbn. f_equal. exact IH.
Qed.

Lemma str_take_length n s : (n <= String.length s)%nat -> String.length (str_take n s) = n.
Proof.
  unfold str_take. revert n. induction s as [|c s IH]; intros [|n] H; cbn in *; try done; try lia.
  f_equal. apply IH. lia.
Qed.

Lemma str_take_toLower n s : str_take n (toLower s) = toLower (str_take n s).
Proof.
  unfold str_take. revert n. induction s as [|c s IH]; intros [|n]; cbn; try done.
  f_equal. apply IH.
Qed.

Lemma streq_spec a b : reflect (a = b) (streq a b).
Proof. apply String.eqb_spec. Qed.

Lemma prefix_app a b : String.prefix a (a +:+ b) = true.
Proof.
  induction a as [|c a IH]; [by destruct b|]. rewrite str_cons_app. cbn.
  destruct (Ascii.ascii_dec c c); [exact IH|congruence].
Qed.

Lemma prefix_inv a s : String.prefix a s = true -> exists t, s = a +:+ t.
Proof.
  revert s. induction a as [|c a IH]; intros s H; [by exists s|].
  destruct s as [|d s]; cbn in H; [done|]. destruct (Ascii.ascii_dec c d) as [->|]; [|done].
  destruct (IH _ H) as [t ->]. by exists t.
Qed.

(** [strstr] finds a needle exactly when the haystack contains it. *)
Lemma strstr_spec s sub : strstr s sub = true <-> exists p q, s = p +:+ sub +:+ q.
Proof.
  split.
  - induction s as [|c s IH]; cbn [strstr]; intros H.
    + apply orb_true_iff in H as [H|H]; [|done].
      destruct (prefix_inv _ _ H) as [t Ht]. by exists "", t.
    + apply orb_true_iff in H as [H|H].
      * destruct (prefix_inv _ _ H) as [t Ht]. by exists "", t.
      * destruct (IH H) as (p & q & ->). by exists (String c p), q.
  - intros (p & q & ->). induction p as [|c p IH].
    + rewrite str_nil_app. destruct (sub +:+ q) eqn:E; cbn [strstr]; rewrite <- E, prefix_app; done.
    + rewrite str_cons_app. cbn [strstr]. rewrite IH. by rewrite orb_true_r.
Qed.
