(* ===== verification/FatFs.v ===== *)
(** * FatFs

    The file system calls of libs/fatfs/ff.h that the boot code makes, as an
    interface: a type class of operations on an abstract volume state.  Clients
    are verified against every instance of the class; [ff.c] itself is not
    modelled.  The last section gives a small in-memory volume as an instance,
    which the witnesses of the client theorems run on. *)

From S2P Require Export CStr.

(** [FRESULT] codes. *)
Definition FR_OK : Z := 0.
Definition FR_NO_FILE : Z := 4.
Definition FR_NO_PATH : Z := 5.
Definition FR_DENIED : Z := 7.
Definition FR_EXIST : Z := 8.

(** Attribute bits. *)
Definition AM_HID : Z := 2.
Definition AM_DIR : Z := 16.

Record FILINFO := FilInfo { fname : string; fattrib : Z }.
Definition is_dir (fno : FILINFO) : bool := c_true (Z.land (fattrib fno) AM_DIR).

Class FatFs (F : Type) := {
  fdir : Type;
  f_stat : string -> F -> Z;
  f_unlink : string -> F -> Z * F;
  f_rename : string -> string -> F -> Z * F;
  f_mkdir : string -> F -> Z * F;
  f_opendir : string -> F -> Z * fdir * F;
  f_readdir : fdir -> F -> Z * FILINFO * fdir * F;
  f_closedir : fdir -> F -> F;
  (** [f_open] for reading, [f_size] and [f_read] of that many bytes: the result
      of opening, the size, and the result of reading with the bytes that were
      transferred. *)
  f_open_read : string -> F -> Z;
  f_size : string -> F -> Z;
  f_read_all : string -> F -> Z * list Z;
  (** [f_open] with [FA_CREATE_ALWAYS | FA_WRITE], and [f_write] of a buffer. *)
  f_create : string -> F -> Z * F;
  f_write_all : string -> list Z -> F -> Z * F;
  (** [f_mount] of a volume ([true]) and of the null pointer ([false]). *)
  f_mount : bool -> F -> Z * F
}.

(** Calls that change the volume, as the boot code issues them. *)
Inductive fs_call :=
| CallUnlink (p : string)
| CallRename (old new : string)
| CallMkdir (p : string)
| CallOpendir (p : string).

(** What the boot code can be seen doing: file system calls and console output. *)
Inductive event :=
| EvFs (c : fs_call)
| EvPrint (s : string).

#[export] Instance fs_call_eq_dec : EqDecision fs_call.
Proof. solve_decision. Defined.
#[export] Instance event_eq_dec : EqDecision event.
Proof. solve_decision. Defined.

(** The boot code's world: the volume, the trace (latest event first) and the
    global [tmpPrintAgain] of bootloader/main.c. *)
Record world (F : Type) := World {
  w_fs : F;
  w_trace : list event;
  w_again : bool
}.
Arguments World {F}.
Arguments w_fs {F}.
Arguments w_trace {F}.
Arguments w_again {F}.

Section Calls.
Context {F : Type} `{FatFs F}.

Definition log (e : event) : M (world F) unit :=
  modify (fun w => World (w_fs w) (e :: w_trace w) (w_again w)).
Definition set_fs (f : F) : M (world F) unit :=
  modify (fun w => World f (w_trace w) (w_again w)).
Definition set_again (b : bool) : M (world F) unit :=
  modify (fun w => World (w_fs w) (w_trace w) b).
Definition print (s : string) : M (world F) unit := log (EvPrint s).

Definition do_stat (p : string) : M (world F) Z :=
  w ← get; mret (f_stat p (w_fs w)).
Definition do_unlink (p : string) : M (world F) Z :=
  log (EvFs (CallUnlink p));;
  w ← get; let '(r, f) := f_unlink p (w_fs w) in
  set_fs f;; mret r.
Definition do_rename (a b : string) : M (world F) Z :=
  log (EvFs (CallRename a b));;
  w ← get; let '(r, f) := f_rename a b (w_fs w) in
  set_fs f;; mret r.
Definition do_mkdir (p : string) : M (world F) Z :=
  log (EvFs (CallMkdir p));;
  w ← get; let '(r, f) := f_mkdir p (w_fs w) in
  set_fs f;; mret r.
Definition do_opendir (p : string) : M (world F) (Z * fdir) :=
  log (EvFs (CallOpendir p));;
  w ← get; let '(r, d, f) := f_opendir p (w_fs w) in
  set_fs f;; mret (r, d).
Definition do_readdir (d : fdir) : M (world F) (Z * FILINFO * fdir) :=
  w ← get; let '(r, i, d, f) := f_readdir d (w_fs w) in
  set_fs f;; mret (r, i, d).
Definition do_closedir (d : fdir) : M (world F) unit :=
  w ← get; set_fs (f_closedir d (w_fs w)).

End Calls.

(** ** Trace policies

    A policy says which file system calls are allowed after which trace.  A
    program obeys it when every call it makes, in every prefix of every run, is
    allowed by what happened before. *)

Section Policy.
Context {F : Type} `{FatFs F}.
Variable allowed : list event -> fs_call -> Prop.

Definition obeys (t : list event) : Prop :=
  forall t1 c t2, t = t1 ++ EvFs c :: t2 -> allowed t2 c.

Lemma obeys_print s t : obeys t -> obeys (EvPrint s :: t).
Proof.
  intros Ht [|e t1] c t2 E; [discriminate|]. injection E as _ E. by eapply Ht.
Qed.

Lemma obeys_call c t : allowed t c -> obeys t -> obeys (EvFs c :: t).
Proof.
  intros Hc Ht [|e t1] c' t2 E; [by injection E as <- <-|]. injection E as _ E. by eapply Ht.
Qed.

(** From trace [t], [m] obeys the policy and returns only with [post]. *)
Definition ok {A} (t : list event) (m : M (world F) A)
    (post : A -> list event -> Prop) : Prop :=
  forall w, w_trace w = t -> obeys t ->
  t `suffix_of` w_trace (snd (m w)) /\ obeys (w_trace (snd (m w))) /\
  forall x, fst (m w) = Ret x -> post x (w_trace (snd (m w))).

Lemma ok_ret {A} t (x : A) (post : A -> list event -> Prop) : post x t -> ok t (mret x) post.
Proof. intros Hp w <- Ht. cbn. split_and!; [done|done|]. by intros y [= <-]. Qed.

Lemma ok_bind {A B} t (m : M (world F) A) (k : A -> M (world F) B) post1 post2 :
  ok t m post1 ->
  (forall x t', t `suffix_of` t' -> post1 x t' -> ok t' (k x) post2) ->
  ok t (m ≫= k) post2.
Proof.
  intros Hm Hk w Hw Ht. unfold mbind, M_bind. destruct (Hm w Hw Ht) as (H1 & H2 & H3).
  destruct (m w) as [[x| |] w']; cbn [fst snd] in *; [|by split_and!..].
  destruct (Hk x _ H1 (H3 x eq_refl) w' eq_refl H2) as (K1 & K2 & K3).
  split_and!; [by etrans|done|done].
Qed.

Lemma ok_weaken {A} t (m : M (world F) A) (p q : A -> list event -> Prop) :
  ok t m p -> (forall x t', p x t' -> q x t') -> ok t m q.
Proof. intros Hm Hpq w Hw Ht. destruct (Hm w Hw Ht) as (? & ? & ?). split_and!; auto. Qed.

Lemma ok_overrun {A} t (post : A -> list event -> Prop) : ok t overrun post.
Proof. intros w <- Ht. cbn. by split_and!. Qed.
Lemma ok_nofuel {A} t (post : A -> list event -> Prop) : ok t nofuel post.
Proof. intros w <- Ht. cbn. by split_and!. Qed.

Lemma ok_get t (post : world F -> list event -> Prop) : (forall w, post w t) -> ok t get post.
Proof. intros Hp w <- Ht. cbn. split_and!; [done|done|]. intros x [= <-]. apply Hp. Qed.

Lemma ok_set_fs t f : ok t (set_fs f) (fun _ t' => t' = t).
Proof. intros w <- Ht. cbn. by split_and!. Qed.
Lemma ok_set_again t b : ok t (set_again b) (fun _ t' => t' = t).
Proof. intros w <- Ht. cbn. by split_and!. Qed.

Lemma ok_print t s : ok t (print s) (fun _ t' => t' = EvPrint s :: t).
Proof.
  intros w <- Ht. cbn. split_and!; [by apply suffix_cons_r|by apply obeys_print|done].
Qed.

Lemma ok_stat t p : ok t (do_stat p) (fun _ t' => t' = t).
Proof. intros w <- Ht. cbn. by split_and!. Qed.

Lemma ok_readdir t d : ok t (do_readdir d) (fun _ t' => t' = t).
Proof.
  intros w <- Ht. unfold do_readdir, mbind, M_bind, get.
  destruct (f_readdir d (w_fs w)) as [[[r i] d'] f]. cbn. by split_and!.
Qed.
Lemma ok_closedir t d : ok t (do_closedir d) (fun _ t' => t' = t).
Proof. intros w <- Ht. cbn. by split_and!. Qed.

Lemma ok_unlink t p :
  allowed t (CallUnlink p) -> ok t (do_unlink p) (fun _ t' => t' = EvFs (CallUnlink p) :: t).
Proof.
  intros Ha w <- Ht. unfold do_unlink, log, modify, mbind, M_bind, get. cbn.
  destruct (f_unlink p (w_fs w)) as [r f]. cbn.
  split_and!; [by apply suffix_cons_r|by apply obeys_call|done].
Qed.
Lemma ok_rename t a b :
  allowed t (CallRename a b) ->
  ok t (do_rename a b) (fun _ t' => t' = EvFs (CallRename a b) :: t).
Proof.
  intros Ha w <- Ht. unfold do_rename, log, modify, mbind, M_bind, get. cbn.
  destruct (f_rename a b (w_fs w)) as [r f]. cbn.
  split_and!; [by apply suffix_cons_r|by apply obeys_call|done].
Qed.
Lemma ok_mkdir t p :
  allowed t (CallMkdir p) -> ok t (do_mkdir p) (fun _ t' => t' = EvFs (CallMkdir p) :: t).
Proof.
  intros Ha w <- Ht. unfold do_mkdir, log, modify, mbind, M_bind, get. cbn.
  destruct (f_mkdir p (w_fs w)) as [r f]. cbn.
  split_and!; [by apply suffix_cons_r|by apply obeys_call|done].
Qed.
Lemma ok_opendir t p :
  allowed t (CallOpendir p) ->
  ok t (do_opendir p) (fun _ t' => t' = EvFs (CallOpendir p) :: t).
Proof.
  intros Ha w <- Ht. unfold do_opendir, log, modify, mbind, M_bind, get. cbn.
  destruct (f_opendir p (w_fs w)) as [[r d] f]. cbn.
  split_and!; [by apply suffix_cons_r|by apply obeys_call|done].
Qed.

End Policy.

(** ** A volume in memory

    A map from absolute lower-case paths to attributes.  A directory handle is
    the list of entries that are still to be read. *)

Module MemVolume.

Definition volume : Type := gmap string Z.

Definition norm (p : string) : string :=
  match p with
  | String c _ => if Ascii.eqb c slash then toLower p else "/" +:+ toLower p
  | EmptyString => "/"
  end.

(** The path prefix of what is inside directory [d]. *)
Definition inside (d : string) : string := if String.eqb d "/" then "/" else d +:+ "/".

Fixpoint strip (pre s : string) : option string :=
  match pre, s with
  | EmptyString, _ => Some s
  | String a pre, String b s => if Ascii.eqb a b then strip pre s else None
  | _, _ => None
  end.

Fixpoint plain (s : string) : bool :=
  match s with
  | EmptyString => true
  | String c s => negb (Ascii.eqb c slash) && plain s
  end.

Definition child (d : string) (e : string * Z) : option FILINFO :=
  match strip (inside d) (fst e) with
  | Some n => if plain n && negb (String.eqb n "") then Some (FilInfo n (snd e)) else None
  | None => None
  end.
Definition children (d : string) (v : gmap string Z) : list FILINFO :=
  omap (child d) (map_to_list v).

Definition exists_at (p : string) (v : gmap string Z) : bool :=
  match v !! p with Some _ => true | None => false end.
Definition dir_at (p : string) (v : gmap string Z) : bool :=
  String.eqb p "/" ||
  match v !! p with Some a => c_true (Z.land a AM_DIR) | None => false end.

Definition unlink (p : string) (v : gmap string Z) : Z * gmap string Z :=
  let p := norm p in
  if negb (exists_at p v) then (FR_NO_FILE, v)
  else if dir_at p v && negb (bool_decide (children p v = [])) then (FR_DENIED, v)
  else (FR_OK, delete p v).

(** Where [p] goes when [a] is renamed to [b]. *)
Definition reroot (a b p : string) : string :=
  if String.eqb p a then b
  else match strip (a +:+ "/") p with Some r => b +:+ "/" +:+ r | None => p end.

Definition rename (a b : string) (v : gmap string Z) : Z * gmap string Z :=
  let a := norm a in let b := norm b in
  if negb (exists_at a v) then (FR_NO_FILE, v)
  else if exists_at b v then (FR_EXIST, v)
  else (FR_OK, list_to_map (map (fun e => (reroot a b (fst e), snd e)) (map_to_list v))).

Definition mkdir (p : string) (v : gmap string Z) : Z * gmap string Z :=
  let p := norm p in
  if exists_at p v then (FR_EXIST, v) else (FR_OK, <[p := AM_DIR]> v).

#[global] Instance mem_fatfs : FatFs (gmap string Z) := {
  fdir := list FILINFO;
  f_stat p v := if exists_at (norm p) v then FR_OK else FR_NO_FILE;
  f_unlink := unlink;
  f_rename := rename;
  f_mkdir := mkdir;
  f_opendir p v :=
    if dir_at (norm p) v then (FR_OK, children (norm p) v, v) else (FR_NO_PATH, [], v);
  f_readdir d v :=
    match d with
    | i :: d => (FR_OK, FilInfo (if plain (fname i) then fname i else "") (fattrib i), d, v)
    | [] => (FR_OK, FilInfo "" 0, [], v)
    end;
  f_closedir _ v := v;
  f_open_read p v := if exists_at (norm p) v then FR_OK else FR_NO_FILE;
  f_size _ _ := 0;
  f_read_all _ _ := (FR_OK, []);
  f_create p v := (FR_OK, <[norm p := 0]> v);
  f_write_all _ _ v := (FR_OK, v);
  f_mount _ v := (FR_OK, v)
}.

Lemma plain_readdir d v r i d' v' :
  f_readdir d v = (r, i, d', v') -> plain (fname i) = true.
Proof.
  destruct d as [|j d]; cbn; intros [= <- <- <- <-]; cbn; [done|].
  by destruct (plain (fname j)) eqn:E.
Qed.

(** A volume from a list of directories and a list of files. *)
Definition mk (dirs files : list string) : gmap string Z :=
  list_to_map (map (fun p => (p, AM_DIR)) dirs ++ map (fun p => (p, 0)) files).
Definition start (v : gmap string Z) : world (gmap string Z) := World v [] false.

End MemVolume.
