(* ===== verification/Heap.v ===== *)
(** * Heap

    The allocator of bdk/mem/heap.c: a doubly linked list of 32-byte headers
    placed in front of the blocks they describe, searched first-fit, split on
    allocation and coalesced on release.

    The functions work on the byte memory of [Mem]: a [hnode_t] is four 32-bit
    words at its address.  The second half of the file states what the list of
    headers represents (a list of blocks that tile the heap without gaps) and
    proves that every function implements its block-list counterpart. *)

From S2P Require Import Prelude Mem.

(** ** Data: [hnode_t], [heap_t], [heap_monitor_t] of heap.h *)

(** [sizeof(hnode_t)]: four words and a four-word cache line filler. *)
Definition sizeof_hnode : Z := 32.

Definition hn_used (m : mem) (n : Z) : Z := ld32 m n.
Definition hn_size (m : mem) (n : Z) : Z := ld32 m (n + 4).
Definition hn_prev (m : mem) (n : Z) : Z := ld32 m (n + 8).
Definition hn_next (m : mem) (n : Z) : Z := ld32 m (n + 12).
Definition set_used (m : mem) (n v : Z) : mem := st32 m n v.
Definition set_size (m : mem) (n v : Z) : mem := st32 m (n + 4) v.
Definition set_prev (m : mem) (n v : Z) : mem := st32 m (n + 8) v.
Definition set_next (m : mem) (n v : Z) : mem := st32 m (n + 12) v.

Record heap_t := Heap { hp_start : Z; hp_first : Z }.
Record heap_monitor_t := HeapMonitor { mon_total : Z; mon_used : Z }.

(** ** Operations *)

Definition _heap_create (start : Z) : heap_t := Heap start 0.

(** The taken branch of the search loop: [node] is unused and large enough. *)
Definition heap_take (m : mem) (node size : Z) : mem :=
  let new_size := u32 (hn_size m node - size) in
  let new_node := u32 (node + sizeof_hnode + size) in
  if Z.shiftl sizeof_hnode 2 <=? new_size then
    let m := set_size m new_node (u32 (new_size - sizeof_hnode)) in
    let m := set_used m new_node 0 in
    let m := set_next m new_node (hn_next m node) in
    let m := if c_true (hn_next m new_node)
             then set_prev m (hn_next m new_node) new_node else m in
    let m := set_prev m new_node node in
    let m := set_next m node new_node in
    let m := set_size m node size in
    set_used m node 1
  else
    let m := set_size m node (u32 (size + new_size)) in
    set_used m node 1.

(** The code after the search loop: a fresh node behind the last one. *)
Definition heap_append (m : mem) (node size : Z) : Z * mem :=
  let new_node := u32 (node + sizeof_hnode + hn_size m node) in
  let m := set_used m new_node 1 in
  let m := set_size m new_node size in
  let m := set_prev m new_node node in
  let m := set_next m new_node 0 in
  let m := set_next m node new_node in
  (u32 (new_node + sizeof_hnode), m).

(** The [while (true)] of [_heap_alloc]; [None] is running out of fuel. *)
Fixpoint heap_search (fuel : nat) (m : mem) (node size : Z) : option (Z * mem) :=
  match fuel with
  | O => None
  | S fuel =>
      if negb (c_true (hn_used m node)) && (size <=? hn_size m node) then
        Some (u32 (node + sizeof_hnode), heap_take m node size)
      else if c_true (hn_next m node) then
        heap_search fuel m (hn_next m node) size
      else Some (heap_append m node size)
  end.

Definition _heap_alloc (fuel : nat) (h : heap_t) (m : mem) (size : Z)
    : option (Z * heap_t * mem) :=
  let size := ALIGN size sizeof_hnode in
  if negb (c_true (hp_first h)) then
    let node := hp_start h in
    let m := set_used m node 1 in
    let m := set_size m node size in
    let m := set_prev m node 0 in
    let m := set_next m node 0 in
    Some (u32 (node + sizeof_hnode), Heap (hp_start h) node, m)
  else
    match heap_search fuel m (hp_first h) size with
    | Some (addr, m) => Some (addr, h, m)
    | None => None
    end.

(** The [while (node)] of [_heap_free]. *)
Fixpoint heap_sweep (fuel : nat) (m : mem) (node : Z) : option mem :=
  if negb (c_true node) then Some m
  else match fuel with
  | O => None
  | S fuel =>
      let m :=
        if negb (c_true (hn_used m node)) then
          if c_true (hn_prev m node) && negb (c_true (hn_used m (hn_prev m node))) then
            let m := set_size m (hn_prev m node)
                       (u32 (hn_size m (hn_prev m node) + (hn_size m node + sizeof_hnode))) in
            let m := set_next m (hn_prev m node) (hn_next m node) in
            if c_true (hn_next m node)
            then set_prev m (hn_next m node) (hn_prev m node) else m
          else m
        else m in
      heap_sweep fuel m (hn_next m node)
  end.

Definition _heap_free (fuel : nat) (h : heap_t) (m : mem) (addr : Z) : option mem :=
  let node := u32 (addr - sizeof_hnode) in
  let m := set_used m node 0 in
  heap_sweep fuel m (hp_first h).

Definition heap_init (base : Z) : heap_t := _heap_create base.
Definition heap_copy (h : heap_t) : heap_t := h.

Definition malloc := _heap_alloc.

Definition calloc (fuel : nat) (h : heap_t) (m : mem) (num size : Z)
    : option (Z * heap_t * mem) :=
  match _heap_alloc fuel h m (u32 (num * size)) with
  | Some (res, h, m) =>
      Some (res, h, memset m res 0 (Z.to_nat (ALIGN (u32 (num * size)) sizeof_hnode)))
  | None => None
  end.

Definition free (fuel : nat) (h : heap_t) (m : mem) (buf : Z) : option mem :=
  if hp_start h <=? buf then _heap_free fuel h m buf else Some m.

(** [heap_monitor] without the optional statistics print. *)
Fixpoint monitor_loop (fuel : nat) (m : mem) (node : Z) (mon : heap_monitor_t)
    : option heap_monitor_t :=
  match fuel with
  | O => None
  | S fuel =>
      let sz := hn_size m node + sizeof_hnode in
      let mon := if c_true (hn_used m node)
                 then HeapMonitor (mon_total mon) (u32 (mon_used mon + sz))
                 else HeapMonitor (u32 (mon_total mon + sz)) (mon_used mon) in
      if c_true (hn_next m node) then monitor_loop fuel m (hn_next m node) mon
      else Some mon
  end.

Definition heap_monitor (fuel : nat) (h : heap_t) (m : mem) : option heap_monitor_t :=
  match monitor_loop fuel m (hp_first h) (HeapMonitor 0 0) with
  | Some mon => Some (HeapMonitor (u32 (mon_total mon + mon_used mon)) (mon_used mon))
  | None => None
  end.

(** ** The abstract heap: a list of blocks *)

Record block := Blk { b_used : bool; b_size : Z }.

(** Bytes taken by a block with its header, and by a list of them. *)
Definition b_span (b : block) : Z := sizeof_hnode + b_size b.
Fixpoint extent (bs : list block) : Z :=
  match bs with [] => 0 | b :: bs => b_span b + extent bs end.

(** First fit.  The offset returned is that of the block's payload. *)
Fixpoint spec_alloc (bs : list block) (size off : Z) : list block * Z :=
  match bs with
  | [] => ([Blk true size], off + sizeof_hnode)
  | b :: bs =>
      if negb (b_used b) && (size <=? b_size b) then
        if 4 * sizeof_hnode <=? b_size b - size then
          (Blk true size :: Blk false (b_size b - size - sizeof_hnode) :: bs,
           off + sizeof_hnode)
        else (Blk true (b_size b) :: bs, off + sizeof_hnode)
      else let '(r, o) := spec_alloc bs size (off + b_span b) in (b :: r, o)
  end.

(** Merge every run of unused blocks, [l] being the block on the left. *)
Fixpoint coalesce (l : block) (bs : list block) : list block :=
  match bs with
  | [] => [l]
  | b :: bs =>
      if negb (b_used b) && negb (b_used l)
      then coalesce (Blk false (b_size l + b_span b)) bs
      else l :: coalesce b bs
  end.
Definition coalesce_all (bs : list block) : list block :=
  match bs with [] => [] | b :: bs => coalesce b bs end.

(** Clear the [used] flag of the block whose payload is at [addr]. *)
Fixpoint mark_free (a : Z) (bs : list block) (addr : Z) : list block :=
  match bs with
  | [] => []
  | b :: bs => (if a + sizeof_hnode =? addr then Blk false (b_size b) else b)
               :: mark_free (a + b_span b) bs addr
  end.

(** Header addresses, and payload intervals of the used blocks. *)
Fixpoint hdrs (a : Z) (bs : list block) : list Z :=
  match bs with [] => [] | b :: bs => a :: hdrs (a + b_span b) bs end.
Fixpoint payloads (a : Z) (bs : list block) : list (Z * Z) :=
  match bs with
  | [] => []
  | b :: bs => (if b_used b then [(a + sizeof_hnode, a + b_span b)] else [])
               ++ payloads (a + b_span b) bs
  end.

(** ** Representation *)

Definition node_at (m : mem) (a : Z) (b : block) (prev next : Z) : Prop :=
  hn_used m a = c_bool (b_used b) /\ hn_size m a = b_size b /\
  hn_prev m a = prev /\ hn_next m a = next.

(** Headers of [bs] from [a] on; [prev] precedes the first one. *)
Fixpoint seg (m : mem) (prev a : Z) (bs : list block) : Prop :=
  match bs with
  | [] => True
  | b :: bs' =>
      node_at m a b prev (match bs' with [] => 0 | _ => a + b_span b end) /\
      seg m a (a + b_span b) bs'
  end.

Definition wf_block (b : block) : Prop := 0 <= b_size b /\ b_size b mod sizeof_hnode = 0.

Record heap_rep (h : heap_t) (m : mem) (bs : list block) : Prop := HeapRep {
  rep_start : 0 < hp_start h;
  rep_first : hp_first h = match bs with [] => 0 | _ => hp_start h end;
  rep_seg : seg m 0 (hp_start h) bs;
  rep_wf : Forall wf_block bs;
  rep_end : hp_start h + extent bs < 4294967296
}.

(** No two unused blocks are neighbours. *)
Fixpoint no_adjacent_free (bs : list block) : Prop :=
  match bs with
  | [] => True
  | b :: bs' =>
      match bs' with
      | [] => True
      | b' :: _ => b_used b = true \/ b_used b' = true
      end /\ no_adjacent_free bs'
  end.

(** ** Representation lemmas *)

Ltac heap_unfold :=
  unfold node_at, hn_used, hn_size, hn_prev, hn_next,
    set_used, set_size, set_prev, set_next, b_span, sizeof_hnode in *.

Lemma extent_nonneg bs : Forall wf_block bs -> 0 <= extent bs.
Proof.
  induction 1 as [|b bs [? _] _ IH]; cbn; unfold b_span, sizeof_hnode; lia.
Qed.

Lemma c_true_c_bool b : c_true (c_bool b) = b.
Proof. by destruct b. Qed.

Lemma node_at_same m m' a b p n :
  node_at m a b p n -> same_on a (a + 16) m m' -> node_at m' a b p n.
Proof.
  intros (H1 & H2 & H3 & H4) Hs. heap_unfold.
  rewrite !(ld32_same m m') by (eapply same_on_sub; eauto; lia). done.
Qed.

Lemma seg_same m m' p a bs :
  Forall wf_block bs -> seg m p a bs -> same_on a (a + extent bs) m m' -> seg m' p a bs.
Proof.
  intros Hw. revert p a. induction Hw as [|b bs [Hb _] Hw IH]; intros p a Hs Hm; cbn in *; [done|].
  pose proof (extent_nonneg _ Hw). unfold b_span, sizeof_hnode in *. destruct Hs as [Hn Hs]. split.
  - eapply node_at_same; eauto. eapply same_on_sub; eauto; lia.
  - apply IH; [done|]. eapply same_on_sub; eauto; lia.
Qed.

(** Redirecting the back pointer of the first header. *)
Lemma seg_set_prev m p p' a b bs :
  Forall wf_block (b :: bs) -> 0 <= p' < 4294967296 ->
  seg m p a (b :: bs) -> seg (set_prev m a p') p' a (b :: bs).
Proof.
  intros Hw Hp [Hn Hs]. inversion_clear Hw as [|?? [Hb _] Hw'].
  pose proof (extent_nonneg _ Hw'). split.
  - heap_unfold. destruct Hn as (? & ? & ? & ?). mem_simpl. done.
  - heap_unfold. eapply seg_same; eauto. apply st32_same_on. lia.
Qed.

Lemma hdrs_ge a bs h : Forall wf_block bs -> h ∈ hdrs a bs -> a <= h.
Proof.
  intros Hw. revert a. induction Hw as [|b bs [Hb _] Hw IH]; intros a Hin; cbn in Hin.
  - by apply not_elem_of_nil in Hin.
  - apply elem_of_cons in Hin as [->|Hin]; [lia|].
    apply IH in Hin. unfold b_span, sizeof_hnode in *. lia.
Qed.

Lemma hdrs_lt a bs h : Forall wf_block bs -> h ∈ hdrs a bs -> h + sizeof_hnode <= a + extent bs.
Proof.
  intros Hw. revert a. induction Hw as [|b bs [Hb _] Hw IH]; intros a Hin; cbn in *.
  - by apply not_elem_of_nil in Hin.
  - pose proof (extent_nonneg _ Hw). unfold b_span, sizeof_hnode in *.
    apply elem_of_cons in Hin as [->|Hin]; [lia|]. apply IH in Hin. lia.
Qed.

(** Memory is unchanged except in the headers of [bs] laid out from [a]. *)
Definition frame (a : Z) (bs : list block) (m m' : mem) : Prop :=
  forall x, (forall h, h ∈ hdrs a bs -> ~ (h <= x < h + 16)) -> ld8 m' x = ld8 m x.

Lemma frame_below a bs m m' lo hi :
  Forall wf_block bs -> frame a bs m m' -> hi <= a -> same_on lo hi m m'.
Proof.
  intros Hw Hf Hhi x Hx. apply Hf. intros h Hh%hdrs_ge; [lia|done].
Qed.

Lemma frame_cons a b bs m m' :
  frame (a + b_span b) bs m m' -> frame a (b :: bs) m m'.
Proof. intros Hf x Hx. apply Hf. intros h Hh. apply Hx. cbn. set_solver. Qed.

(** ** [_heap_alloc] *)

Lemma align32 size :
  0 <= size -> size + 31 < 4294967296 ->
  let s := ALIGN size sizeof_hnode in size <= s < size + 32 /\ s mod 32 = 0.
Proof.
  intros H0 H1. unfold sizeof_hnode. cbn zeta.
  pose proof (ALIGN_spec size 5 ltac:(lia) H0) as E. change (2 ^ 5) with 32 in E.
  rewrite E by lia. Z.div_mod_to_equations. lia.
Qed.

Lemma spec_alloc_shape bs size off r o :
  spec_alloc bs size off = (r, o) ->
  match r with [] => False | _ => True end.
Proof.
  destruct bs as [|b bs]; cbn.
  - by intros [= <- <-].
  - destruct (negb _ && _); [destruct (_ <=? _)|destruct (spec_alloc _ _ _)];
      by intros [= <- <-].
Qed.

Lemma spec_alloc_wf bs size off :
  Forall wf_block bs -> 0 <= size -> size mod 32 = 0 ->
  Forall wf_block (fst (spec_alloc bs size off)).
Proof.
  intros Hw H0 H1. revert off.
  induction Hw as [|b bs [Hb Hm] Hw IH]; intros off; cbn [spec_alloc].
  - repeat constructor; done.
  - destruct (negb _ && _) eqn:E.
    + apply andb_true_iff in E as [_ E%Z.leb_le]. unfold sizeof_hnode in *.
      destruct (Z.leb_spec (4 * 32) (b_size b - size)); cbn; repeat constructor;
        cbn; unfold sizeof_hnode; try done; try lia; Z.div_mod_to_equations; lia.
    + specialize (IH (off + b_span b)). destruct (spec_alloc _ _ _); cbn in *. by constructor.
Qed.

Lemma hdr_here a b bs : a ∈ hdrs a (b :: bs).
Proof. left. Qed.
Lemma hdr_later a b bs h : h ∈ hdrs (a + b_span b) bs -> h ∈ hdrs a (b :: bs).
Proof. by right. Qed.
#[local] Hint Resolve hdr_here hdr_later : nsx.

(** Specialise a "no header contains [x]" hypothesis to the first headers. *)
Ltac not_in_hdrs Hx h := pose proof (Hx h ltac:(eauto 6 with nsx)).

(** Splitting or taking the whole of an unused block that fits. *)
Lemma heap_take_spec m p a b bs size :
  Forall wf_block (b :: bs) -> seg m p a (b :: bs) -> 0 < a ->
  a + extent (b :: bs) < 4294967296 -> 0 <= size <= b_size b -> b_used b = false ->
  let r := fst (spec_alloc (b :: bs) size a) in
  seg (heap_take m a size) p a r /\ frame a r m (heap_take m a size).
Proof.
  intros Hw [Hn Hs] Ha Hend Hsz Hu. inversion_clear Hw as [|?? [Hb _] Hw'].
  pose proof (extent_nonneg _ Hw') as He. cbn [spec_alloc extent] in *.
  rewrite Hu. cbn [negb andb]. rewrite (proj2 (Z.leb_le size _)) by lia.
  destruct Hn as (Hn1 & Hn2 & Hn3 & Hn4).
  unfold heap_take. change (Z.shiftl sizeof_hnode 2) with 128. change (4 * sizeof_hnode) with 128.
  rewrite Hn2, !(u32_id (b_size b - size)), (u32_id (a + sizeof_hnode + size))
    by (unfold b_span, sizeof_hnode in *; lia).
  destruct (Z.leb_spec 128 (b_size b - size)) as [Hsp|Hsp]; cbn [fst].
  - (* split *)
    rewrite (u32_id (b_size b - size - sizeof_hnode)) by (unfold b_span, sizeof_hnode in *; lia).
    set (q := a + sizeof_hnode + size).
    set (r := _ :: _ :: bs).
    assert (Hq : q = a + b_span (Blk true size)) by (unfold q, b_span, sizeof_hnode in *; cbn [b_size]; lia).
    assert (Hqe : q + b_span (Blk false (b_size b - size - sizeof_hnode)) = a + b_span b)
      by (unfold q, b_span, sizeof_hnode in *; cbn [b_size]; lia).
    assert (Hfr : forall x, (forall h, h ∈ hdrs a r -> ~ (h <= x < h + 16)) ->
              ~ (a <= x < a + 16) /\ ~ (q <= x < q + 16) /\
              (bs = [] \/ ~ (a + b_span b <= x < a + b_span b + 16))).
    { intros x Hx. split_and!; [by apply Hx; left|apply Hx; right; rewrite Hq; left|].
      destruct bs; [by left|right]. apply Hx. right. right. rewrite <- Hq, Hqe. left. }
    heap_unfold. cbn [b_used b_size] in *. subst q. 
    destruct bs as [|b' bs]; mem_simpl; rewrite Hn4.
    + cbn [c_true Z.eqb negb]. split.
      * subst r. cbn [seg]. heap_unfold. cbn [b_used b_size c_bool]. rewrite <- Hq.
        mem_simpl. done.
      * intros x Hx. apply Hfr in Hx as (? & ? & _). mem_simpl. done.
    + unfold c_true. rewrite (proj2 (Z.eqb_neq (a + (32 + b_size b)) 0)) by lia. cbn [negb].
      cbn [extent] in *. heap_unfold. pose proof Hw' as Hw2. inversion_clear Hw2 as [|?? [Hb' _] Hw''].
      pose proof (extent_nonneg _ Hw''). split.
      * subst r. split; [|split].
        -- heap_unfold. cbn [b_used b_size c_bool]. rewrite <- Hq. mem_simpl. done.
        -- heap_unfold. cbn [b_used b_size c_bool]. rewrite <- Hq, Hqe. mem_simpl. done.
        -- heap_unfold. cbn [b_used b_size]. rewrite <- Hq, Hqe.
           apply (seg_same (set_prev m (a + (32 + b_size b)) (a + 32 + size)));
             [done| |].
           ++ eapply seg_set_prev; [done|lia|exact Hs].
           ++ intros x Hx. heap_unfold. cbn [extent] in Hx. rewrite !ld8_st32_ne by lia.
              apply ld8_st32_cong. mem_simpl. done.
      * intros x Hx. apply Hfr in Hx as (? & ? & [|]); [done|]. mem_simpl. done.
  - (* the whole block *)
    replace (u32 (size + (b_size b - size))) with (b_size b)
      by (unfold b_span, sizeof_hnode in *; rewrite u32_id; lia).
    split.
    + split.
      * heap_unfold. cbn [b_used b_size c_bool]. mem_simpl. done.
      * eapply seg_same; [done|exact Hs|]. heap_unfold.
        intros x Hx. cbn [b_size] in Hx. mem_simpl. done.
    + intros x Hx. not_in_hdrs Hx a. heap_unfold. mem_simpl. done.
Qed.

(** A fresh block behind the last one. *)
Lemma heap_append_spec m p a b size :
  wf_block b -> seg m p a [b] -> 0 < a -> 0 <= size ->
  a + extent [b] + sizeof_hnode + size < 4294967296 ->
  let r := [b; Blk true size] in
  let '(addr, m') := heap_append m a size in
  addr = a + b_span b + sizeof_hnode /\ seg m' p a r /\ frame a r m m'.
Proof.
  intros [Hb _] [(Hn1 & Hn2 & Hn3 & Hn4) _] Ha Hsz Hend. cbn [extent] in Hend.
  unfold heap_append. rewrite Hn2.
  rewrite (u32_id (a + sizeof_hnode + b_size b)) by (unfold b_span, sizeof_hnode in *; lia).
  replace (a + sizeof_hnode + b_size b) with (a + b_span b) by (unfold b_span; lia).
  split_and!.
  - unfold b_span, sizeof_hnode in *. rewrite u32_id; lia.
  - split; [|split; [|done]]; heap_unfold; cbn [b_used b_size c_bool]; mem_simpl; done.
  - intros x Hx. not_in_hdrs Hx a. not_in_hdrs Hx (a + b_span b). heap_unfold. mem_simpl. done.
Qed.

Lemma spec_alloc_skip b bs size off :
  negb (b_used b) && (size <=? b_size b) = false ->
  spec_alloc (b :: bs) size off =
    let '(r, o) := spec_alloc bs size (off + b_span b) in (b :: r, o).
Proof. intros E. cbn. by rewrite E. Qed.

Lemma heap_search_spec size :
  0 <= size -> size mod 32 = 0 ->
  forall bs b m p a fuel,
  Forall wf_block (b :: bs) -> seg m p a (b :: bs) -> 0 < a ->
  a + extent (b :: bs) + sizeof_hnode + size < 4294967296 ->
  (length (b :: bs) <= fuel)%nat ->
  let '(r, addr) := spec_alloc (b :: bs) size a in
  exists m', heap_search fuel m a size = Some (addr, m') /\ seg m' p a r /\ frame a r m m'.
Proof.
  intros Hs0 Hs1. induction bs as [|b' bs IH]; intros b m p a fuel Hw Hs Ha Hend Hfuel;
    (destruct fuel as [|fuel]; [cbn in Hfuel; lia|]);
    pose proof Hs as [(Hn1 & Hn2 & Hn3 & Hn4) Hs']; cbn [heap_search];
    rewrite Hn1, Hn2, Hn4, c_true_c_bool;
    pose proof Hw as Hw1; inversion_clear Hw1 as [|?? Hb Hw']; pose proof Hb as [Hb0 _];
    pose proof (extent_nonneg _ Hw') as He; cbn [extent] in Hend;
    (destruct (negb (b_used b) && (size <=? b_size b)) eqn:Efit;
     [apply andb_true_iff in Efit as [Eu%negb_true_iff Ef%Z.leb_le]|]).
  1, 3: pose proof (heap_take_spec m p a b _ size Hw Hs Ha
          ltac:(unfold sizeof_hnode in *; cbn [extent]; lia) (conj Hs0 Ef) Eu) as [H1 H2];
    cbn [spec_alloc] in *; rewrite Eu in *; cbn [negb andb] in *;
    rewrite (proj2 (Z.leb_le size (b_size b)) Ef) in *;
    (rewrite u32_id by (cbn [extent] in *; unfold b_span, sizeof_hnode in *; lia));
    destruct (_ <=? _); eauto.
  - cbn [spec_alloc]. rewrite Efit. cbn [c_true Z.eqb negb].
    pose proof (heap_append_spec m p a b size Hb Hs Ha Hs0 ltac:(cbn [extent]; lia)) as H.
    destruct (heap_append m a size) as [addr m']. destruct H as (-> & ? & ?). eauto.
  - rewrite spec_alloc_skip by done.
    unfold c_true at 1. rewrite (proj2 (Z.eqb_neq (a + b_span b) 0)) by (unfold b_span, sizeof_hnode; lia).
    cbn [negb].
    specialize (IH b' m a (a + b_span b) fuel Hw' Hs'
      ltac:(unfold b_span, sizeof_hnode; lia) ltac:(cbn [extent] in *; lia)
      ltac:(cbn in *; lia)).
    pose proof (spec_alloc_wf _ size (a + b_span b) Hw' Hs0 Hs1) as Hwr.
    destruct (spec_alloc (b' :: bs) size (a + b_span b)) as [r addr] eqn:Er.
        destruct IH as (m' & -> & Hseg & Hfr). apply spec_alloc_shape in Er. cbn [fst] in Hwr.
    exists m'. split_and!; [done| |by apply frame_cons].
    split; [|done]. destruct r; [done|]. eapply node_at_same; [split_and!; done|].
    eapply frame_below; eauto. unfold b_span, sizeof_hnode. lia.
Qed.

Lemma spec_alloc_addr bs size off :
  Forall wf_block bs -> off + sizeof_hnode <= snd (spec_alloc bs size off).
Proof.
  intros Hw. revert off. induction Hw as [|b bs [Hb _] Hw IH]; intros off; [cbn; lia|].
  destruct (negb (b_used b) && (size <=? b_size b)) eqn:E.
  - cbn [spec_alloc]. rewrite E. destruct (4 * sizeof_hnode <=? _); cbn; lia.
  - rewrite spec_alloc_skip by done. specialize (IH (off + b_span b)).
    destruct (spec_alloc _ _ _). cbn in *. unfold b_span, sizeof_hnode in *. lia.
Qed.

(** The heap grows by at most the new block. *)
Lemma spec_alloc_extent bs size off :
  0 <= size ->
  extent bs <= extent (fst (spec_alloc bs size off)) <= extent bs + sizeof_hnode + size.
Proof.
  intros Hs. revert off. induction bs as [|b bs IH]; intros off.
  - cbn. unfold b_span, sizeof_hnode. cbn. lia.
  - destruct (negb (b_used b) && (size <=? b_size b)) eqn:E.
    + cbn [spec_alloc]. rewrite E.
      destruct (4 * sizeof_hnode <=? _); cbn [fst extent]; unfold b_span, sizeof_hnode; cbn [b_size]; lia.
    + rewrite spec_alloc_skip by done. specialize (IH (off + b_span b)).
      destruct (spec_alloc _ _ _). cbn [fst extent] in *. lia.
Qed.

(** [_heap_alloc] in terms of the block list; [free_space] is the room that the
    request needs behind the last block. *)
Lemma heap_alloc_spec h m bs size fuel :
  heap_rep h m bs -> 0 <= size ->
  hp_start h + extent bs + 2 * sizeof_hnode + size < 4294967296 ->
  (length bs <= fuel)%nat ->
  let '(r, addr) := spec_alloc bs (ALIGN size sizeof_hnode) (hp_start h) in
  exists h' m', _heap_alloc fuel h m size = Some (addr, h', m') /\
    hp_start h' = hp_start h /\ heap_rep h' m' r /\ frame (hp_start h) r m m'.
Proof.
  intros [Hst Hfi Hseg Hwf Hend] Hs0 Hroom Hfuel.
  pose proof (extent_nonneg _ Hwf) as He. unfold sizeof_hnode in Hroom.
  destruct (align32 size Hs0 ltac:(lia)) as [Ha1 Ha2]. unfold _heap_alloc.
  set (s := ALIGN size sizeof_hnode) in *.
  pose proof (spec_alloc_wf bs s (hp_start h) Hwf ltac:(lia) Ha2) as Hwr.
  rewrite Hfi. destruct bs as [|b bs].
  - cbn [spec_alloc c_true Z.eqb negb fst extent] in *.
    rewrite u32_id by (unfold sizeof_hnode; lia).
    do 2 eexists. split; [done|]. split; [done|]. split; [split|]; cbn [hp_start hp_first]; try done.
    + split; [|done]. heap_unfold. cbn [b_used b_size c_bool]. mem_simpl. done.
    + cbn [extent]. unfold b_span, sizeof_hnode. cbn. lia.
    + intros x Hx. not_in_hdrs Hx (hp_start h). heap_unfold. mem_simpl. done.
  - assert (c_true (hp_start h) = true) as ->
      by (unfold c_true; rewrite (proj2 (Z.eqb_neq _ _)) by lia; done).
    cbn [negb].
    pose proof (heap_search_spec s ltac:(lia) Ha2 bs b m 0 (hp_start h) fuel Hwf Hseg Hst
      ltac:(unfold sizeof_hnode; lia) Hfuel) as H.
    pose proof (spec_alloc_extent (b :: bs) s (hp_start h) ltac:(lia)) as Hext.
    destruct (spec_alloc (b :: bs) s (hp_start h)) as [r addr] eqn:Er.
    destruct H as (m' & -> & ? & ?). apply spec_alloc_shape in Er. cbn [fst] in *.
    do 2 eexists. split; [done|]. split; [done|]. split; [|done]. split; try done.
    + rewrite Hfi. by destruct r.
    + unfold b_span, sizeof_hnode in *. lia.
Qed.

(** ** [_heap_free] *)

Lemma coalesce_wf l bs : Forall wf_block (l :: bs) -> Forall wf_block (coalesce l bs).
Proof.
  revert l. induction bs as [|b bs IH]; intros l Hw; cbn; [done|].
  inversion_clear Hw as [|?? [Hl0 Hl1] Hw']. inversion_clear Hw' as [|?? [Hb0 Hb1] Hw''].
  destruct (negb _ && _).
  - apply IH. constructor; [|done]. unfold wf_block, b_span, sizeof_hnode in *. cbn [b_size].
    split; [lia|]. Z.div_mod_to_equations. lia.
  - constructor; [done|]. apply IH. by constructor.
Qed.

Lemma coalesce_extent l bs : extent (coalesce l bs) = extent (l :: bs).
Proof.
  revert l. induction bs as [|b bs IH]; intros l; cbn [coalesce]; [done|].
  destruct (negb _ && _); [|cbn [extent]; rewrite IH; done].
  rewrite IH. cbn [extent]. unfold b_span, sizeof_hnode. cbn [b_size]. lia.
Qed.

Lemma coalesce_shape l bs :
  match coalesce l bs with [] => False | _ => True end.
Proof.
  revert l. induction bs as [|b bs IH]; intros l; cbn [coalesce]; [done|].
  destruct (negb _ && _); [apply IH|done].
Qed.

(** One merge step of the sweep. *)
Lemma heap_merge_spec m p la l b bs :
  Forall wf_block (l :: b :: bs) -> seg m p la (l :: b :: bs) -> 0 < la ->
  la + extent (l :: b :: bs) < 4294967296 ->
  b_used b = false -> b_used l = false ->
  let node := la + b_span l in
  let m1 := set_size m (hn_prev m node)
              (u32 (hn_size m (hn_prev m node) + (hn_size m node + sizeof_hnode))) in
  let m2 := set_next m1 (hn_prev m1 node) (hn_next m1 node) in
  let m3 := if c_true (hn_next m2 node)
            then set_prev m2 (hn_next m2 node) (hn_prev m2 node) else m2 in
  seg m3 p la (Blk false (b_size l + b_span b) :: bs) /\
  hn_next m3 node = match bs with [] => 0 | _ => node + b_span b end /\
  frame la (l :: b :: bs) m m3.
Proof.
  intros Hw [(Hl1 & Hl2 & Hl3 & Hl4) [(Hb1 & Hb2 & Hb3 & Hb4) Hs]] Hla Hend Eb El node.
  inversion_clear Hw as [|?? [Hl0 _] Hw']. inversion_clear Hw' as [|?? [Hb0 _] Hw''].
  pose proof (extent_nonneg _ Hw'') as He. cbn [extent] in Hend. fold node in Hb1, Hb2, Hb3, Hb4, Hs.
  cbv zeta. rewrite Hb3, Hl2, Hb2, (u32_id (b_size l + _)) by (heap_unfold; lia).
  set (m1 := set_size m la _).
  assert (hn_prev m1 node = la /\ hn_next m1 node = hn_next m node) as [-> ->]
    by (subst m1 node; heap_unfold; mem_simpl; done).
  set (m2 := set_next m1 la _).
  assert (hn_prev m2 node = la /\ hn_next m2 node = hn_next m node) as [-> ->]
    by (subst m1 m2 node; heap_unfold; mem_simpl; done).
  rewrite Hb4 in *. subst m1 m2 node. heap_unfold.
  destruct bs as [|c bs].
  - cbn [c_true Z.eqb negb]. split_and!.
    + cbn [seg]. heap_unfold. cbn [b_used b_size]. mem_simpl. rewrite El in Hl1.
      split_and!; done || lia.
    + by mem_simpl.
    + intros x Hx. not_in_hdrs Hx la. not_in_hdrs Hx (la + b_span l). heap_unfold.
      mem_simpl. done.
  - unfold c_true. rewrite (proj2 (Z.eqb_neq (la + (32 + b_size l) + (32 + b_size b)) 0)) by lia.
    cbn [negb]. pose proof Hw'' as Hw3. inversion_clear Hw3 as [|?? [Hc0 _] Hw4].
    pose proof (extent_nonneg _ Hw4) as He'. cbn [extent] in Hend. heap_unfold.
    assert (Hnx : la + (32 + (b_size l + (32 + b_size b))) = la + (32 + b_size l) + (32 + b_size b))
      by lia.
    split_and!.
    + split; heap_unfold; cbn [b_used b_size]; rewrite Hnx.
      * mem_simpl. rewrite El in Hl1. split_and!; done || lia.
      * apply (seg_same (set_prev m (la + (32 + b_size l) + (32 + b_size b)) la)); [done| |].
        -- eapply seg_set_prev; [done|lia|exact Hs].
        -- intros x Hx. heap_unfold. apply ld8_st32_cong. mem_simpl. done.
    + by mem_simpl.
    + intros x Hx. not_in_hdrs Hx la. not_in_hdrs Hx (la + b_span l).
      not_in_hdrs Hx (la + b_span l + b_span b). heap_unfold. mem_simpl. done.
Qed.

Lemma frame_trans a bs m m1 m2 : frame a bs m m1 -> frame a bs m1 m2 -> frame a bs m m2.
Proof. intros H1 H2 x Hx. by rewrite H2, H1. Qed.

Lemma frame_weaken a bs bs' m m' :
  (forall h, h ∈ hdrs a bs -> h ∈ hdrs a bs') -> frame a bs m m' -> frame a bs' m m'.
Proof. intros H Hf x Hx. apply Hf. auto. Qed.

Lemma hdrs_merge a l b bs h :
  h ∈ hdrs a (Blk false (b_size l + b_span b) :: bs) -> h ∈ hdrs a (l :: b :: bs).
Proof.
  cbn. intros [->|Hin]%elem_of_cons; [left|right; right].
  replace (a + b_span l + b_span b) with (a + b_span (Blk false (b_size l + b_span b))); [done|].
  unfold b_span. cbn [b_size]. lia.
Qed.

Lemma heap_sweep_spec rest : forall l m p la fuel,
  Forall wf_block (l :: rest) -> seg m p la (l :: rest) -> 0 < la ->
  la + extent (l :: rest) < 4294967296 -> (length rest <= fuel)%nat ->
  exists m', heap_sweep fuel m (match rest with [] => 0 | _ => la + b_span l end) = Some m' /\
    seg m' p la (coalesce l rest) /\ frame la (l :: rest) m m'.
Proof.
  induction rest as [|b rest IH]; intros l m p la fuel Hw Hs Hla Hend Hfuel.
  - exists m. destruct fuel; (split; [done|split; [exact Hs|by intros x]]).
  - destruct fuel as [|fuel]; [cbn in Hfuel; lia|]. cbn [heap_sweep].
    pose proof Hw as Hw0. inversion_clear Hw0 as [|?? [Hl0 Hlm] Hw'].
    pose proof Hw' as Hw0. inversion_clear Hw0 as [|?? [Hb0 Hbm] Hw''].
    assert (c_true (la + b_span l) = true) as ->.
    { unfold c_true, b_span, sizeof_hnode.
      rewrite (proj2 (Z.eqb_neq _ _)) by lia. done. }
    pose proof Hs as [(Hl1 & Hl2 & Hl3 & Hl4) [(Hb1 & Hb2 & Hb3 & Hb4) Hs']].
    cbn [negb coalesce]. rewrite Hb1, c_true_c_bool, Hb3, Hl1, c_true_c_bool.
    assert (c_true la = true) as -> by (unfold c_true; rewrite (proj2 (Z.eqb_neq _ _)); [done|lia]).
    destruct (b_used b) eqn:Eb; cbn [negb andb]; [|destruct (b_used l) eqn:El; cbn [negb]].
    1, 2: rewrite Hb4; cbn [extent] in Hend;
      destruct (IH b m la (la + b_span l) fuel Hw' (proj2 Hs)
        ltac:(unfold b_span, sizeof_hnode; lia) ltac:(cbn [extent]; lia) ltac:(cbn in *; lia))
        as (m' & E & H1 & H2);
      exists m'; (split; [destruct rest; exact E|]); (split; [|by apply frame_cons]);
      (split; [|done]); pose proof (coalesce_shape b rest); (destruct (coalesce b rest); [done|]);
      (eapply node_at_same; [exact (proj1 Hs)|]);
      (eapply frame_below; [exact Hw'|exact H2|unfold b_span, sizeof_hnode; lia]).
    pose proof (heap_merge_spec m p la l b rest Hw Hs Hla Hend Eb El) as (Hm & Hnx & Hfr).
    cbv zeta in Hm, Hnx, Hfr. rewrite Hb3 in *.
    set (m3 := if c_true _ then _ else _) in *. rewrite Hnx.
    replace (la + b_span l + b_span b) with (la + b_span (Blk false (b_size l + b_span b)))
      by (unfold b_span; cbn [b_size]; lia).
    destruct (IH (Blk false (b_size l + b_span b)) m3 p la fuel) as (m' & E & H1 & H2); auto.
    + constructor; [|done]. unfold wf_block, b_span, sizeof_hnode in *. cbn [b_size].
      split; [lia|]. Z.div_mod_to_equations. lia.
    + cbn [extent] in *. unfold b_span, sizeof_hnode in *. cbn [b_size]. lia.
    + cbn in *. lia.
    + exists m'. split_and!; [exact E|exact H1|].
      eapply frame_trans; [done|]. eapply frame_weaken; [|exact H2]. apply hdrs_merge.
Qed.

Lemma mark_free_below a bs addr :
  Forall wf_block bs -> addr - sizeof_hnode < a -> mark_free a bs addr = bs.
Proof.
  intros Hw. revert a. induction Hw as [|b bs [Hb _] Hw IH]; intros a Ha; cbn; [done|].
  rewrite (proj2 (Z.eqb_neq _ _)) by (unfold sizeof_hnode in *; lia).
  rewrite IH; [done|]. unfold b_span, sizeof_hnode in *. lia.
Qed.

Lemma mark_free_wf a bs addr : Forall wf_block bs -> Forall wf_block (mark_free a bs addr).
Proof.
  intros Hw. revert a. induction Hw as [|b bs Hb Hw IH]; intros a; cbn; constructor; [|done].
  by destruct (_ =? _).
Qed.

Lemma mark_free_span (c : bool) b : b_span (if c then Blk false (b_size b) else b) = b_span b.
Proof. by destruct c. Qed.

Lemma mark_free_extent a bs addr : extent (mark_free a bs addr) = extent bs.
Proof.
  revert a. induction bs as [|b bs IH]; intros a; cbn; [done|].
  rewrite IH, mark_free_span. done.
Qed.

Lemma mark_free_hdrs a bs addr : hdrs a (mark_free a bs addr) = hdrs a bs.
Proof.
  revert a. induction bs as [|b bs IH]; intros a; cbn; [done|].
  by rewrite mark_free_span, IH.
Qed.

Lemma mark_free_length a bs addr : length (mark_free a bs addr) = length bs.
Proof. revert a. induction bs as [|b bs IH]; intros a; cbn; [done|]. by rewrite IH. Qed.

(** Clearing the flag of the header in front of [addr]. *)
Lemma mark_free_seg m p a bs addr :
  Forall wf_block bs -> seg m p a bs -> addr - sizeof_hnode ∈ hdrs a bs ->
  seg (set_used m (addr - sizeof_hnode) 0) p a (mark_free a bs addr).
Proof.
  intros Hw. revert p a. induction Hw as [|b bs Hb Hw IH]; intros p a Hs Hin; cbn [hdrs] in Hin.
  - by apply not_elem_of_nil in Hin.
  - pose proof Hb as [Hb0 _]. pose proof (extent_nonneg _ Hw) as He.
    destruct Hs as [Hn Hs]. cbn [mark_free seg]. rewrite mark_free_span.
    apply elem_of_cons in Hin as [Ha|Hin].
    + rewrite (proj2 (Z.eqb_eq (a + sizeof_hnode) addr)) by (unfold sizeof_hnode in *; lia).
      rewrite mark_free_below by (done || unfold b_span, sizeof_hnode in *; lia).
      rewrite Ha. destruct Hn as (? & ? & ? & ?). split.
      * heap_unfold. cbn [b_used b_size c_bool]. mem_simpl. done.
      * eapply seg_same; eauto. heap_unfold. apply st32_same_on. lia.
    + pose proof (hdrs_ge _ _ _ Hw Hin).
      rewrite (proj2 (Z.eqb_neq (a + sizeof_hnode) addr)) by (unfold b_span, sizeof_hnode in *; lia).
      split; [|by apply IH].
      assert (match mark_free (a + b_span b) bs addr with [] => 0 | _ => a + b_span b end =
              match bs with [] => 0 | _ => a + b_span b end) as -> by (by destruct bs).
      eapply node_at_same; eauto. unfold set_used. apply st32_same_on.
      unfold b_span, sizeof_hnode in *. lia.
Qed.

(** The block list is determined by the memory. *)
Lemma seg_inj m p a bs bs' :
  seg m p a bs -> seg m p a bs' -> (bs = [] <-> bs' = []) -> 0 < a ->
  Forall wf_block bs -> Forall wf_block bs' -> bs = bs'.
Proof.
  revert p a bs'. induction bs as [|b bs IH]; intros p a [|b' bs'] Hs Hs' Hn Ha Hw Hw';
    try done; try (by destruct Hn as [Hn1 Hn2]; try discriminate (Hn1 eq_refl);
      discriminate (Hn2 eq_refl)).
  destruct Hs as [(H1 & H2 & H3 & H4) Hs]. destruct Hs' as [(H1' & H2' & H3' & H4') Hs'].
  inversion_clear Hw as [|?? [Hb _] Hwb]. inversion_clear Hw' as [|?? [Hb' _] Hwb'].
  assert (b = b') as <-.
  { destruct b as [u s], b' as [u' s']. cbn in *. destruct u, u'; cbn in *; congruence. }
  f_equal. eapply IH; eauto; [|unfold b_span, sizeof_hnode; lia].
  rewrite H4 in H4'. unfold b_span, sizeof_hnode in *.
  destruct bs, bs'; try done; lia.
Qed.

Lemma heap_rep_inj h m bs bs' : heap_rep h m bs -> heap_rep h m bs' -> bs = bs'.
Proof.
  intros [Hst Hf Hs Hw He] [Hst' Hf' Hs' Hw' He']. eapply seg_inj; eauto.
  rewrite Hf in Hf'. destruct bs, bs'; done || lia.
Qed.

(** [_heap_free] in terms of the block list. *)
Lemma heap_free_spec h m bs addr fuel :
  heap_rep h m bs -> addr - sizeof_hnode ∈ hdrs (hp_start h) bs -> (length bs <= fuel)%nat ->
  exists m', _heap_free fuel h m addr = Some m' /\
    heap_rep h m' (coalesce_all (mark_free (hp_start h) bs addr)) /\
    frame (hp_start h) bs m m'.
Proof.
  intros [Hst Hfi Hseg Hwf Hend] Hin Hfuel. unfold _heap_free.
  pose proof (hdrs_ge _ _ _ Hwf Hin) as Hge.
  assert (addr - sizeof_hnode < 4294967296) as Hlt by (pose proof (hdrs_lt _ _ _ Hwf Hin); unfold sizeof_hnode in *; lia).
  rewrite u32_id by lia.
  pose proof (mark_free_seg m 0 _ _ _ Hwf Hseg Hin) as Hs'.
  pose proof (mark_free_wf (hp_start h) _ addr Hwf) as Hw'.
  pose proof (mark_free_extent (hp_start h) bs addr) as He'.
  pose proof (mark_free_hdrs (hp_start h) bs addr) as Hh'.
  assert (Hf0 : frame (hp_start h) bs m (set_used m (addr - sizeof_hnode) 0)).
  { intros x Hx. pose proof (Hx _ Hin). unfold set_used. mem_simpl. done. }
  set (m0 := set_used _ _ _) in *. rewrite Hfi.
  pose proof (mark_free_length (hp_start h) bs addr) as Hl'.
  destruct bs as [|b0 bs0]; [by apply not_elem_of_nil in Hin|].
  remember (mark_free (hp_start h) (b0 :: bs0) addr) as ms eqn:Ems.
  destruct ms as [|b bs]; [done|]. cbn [coalesce_all].
  destruct fuel as [|fuel]; [cbn in Hfuel; lia|]. cbn [heap_sweep].
  assert (c_true (hp_start h) = true) as ->
    by (unfold c_true; rewrite (proj2 (Z.eqb_neq _ _)); [done|lia]).
  pose proof Hs' as [(H1 & H2 & H3 & H4) _]. rewrite H3. cbn [c_true Z.eqb negb andb].
  match goal with |- context [if ?c then m0 else m0] =>
    replace (if c then m0 else m0) with m0 by (by destruct c) end.
  rewrite H4.
  destruct (heap_sweep_spec bs b m0 0 (hp_start h) fuel Hw' Hs' Hst) as (m' & E & Hs2 & Hf2).
  - rewrite He'. done.
  - cbn in *. lia.
  - exists m'. split; [exact E|]. split; [split|].
    + done.
    + pose proof (coalesce_shape b bs). rewrite Hfi. by destruct (coalesce b bs).
    + done.
    + by apply coalesce_wf.
    + by rewrite coalesce_extent, He'.
    + eapply frame_trans; [exact Hf0|]. unfold frame in *. by rewrite Hh' in Hf2.
Qed.

(** ** Payloads *)

Lemma payloads_in a bs lo hi :
  Forall wf_block bs -> (lo, hi) ∈ payloads a bs ->
  a + sizeof_hnode <= lo /\ lo <= hi <= a + extent bs /\ (lo - a) mod 32 = 0.
Proof.
  intros Hw. revert a. induction Hw as [|b bs [Hb Hm] Hw IH]; intros a Hin; cbn in *.
  - by apply not_elem_of_nil in Hin.
  - pose proof (extent_nonneg _ Hw). apply elem_of_app in Hin as [Hin|Hin].
    + destruct (b_used b); [|by apply not_elem_of_nil in Hin].
      apply list_elem_of_singleton in Hin as [= -> ->]. unfold b_span, sizeof_hnode in *.
      split_and!; try lia. Z.div_mod_to_equations. lia.
    + apply IH in Hin. unfold b_span, sizeof_hnode in *.
      split_and!; try lia. Z.div_mod_to_equations. lia.
Qed.

Lemma payload_not_hdr a bs lo hi x h :
  Forall wf_block bs -> (lo, hi) ∈ payloads a bs -> lo <= x < hi ->
  h ∈ hdrs a bs -> ~ (h <= x < h + 16).
Proof.
  intros Hw. revert a. induction Hw as [|b bs [Hb Hm] Hw IH]; intros a Hp Hx Hh; cbn in *.
  - by apply not_elem_of_nil in Hp.
  - apply elem_of_app in Hp as [Hp|Hp]; apply elem_of_cons in Hh as [->|Hh].
    + destruct (b_used b); [|by apply not_elem_of_nil in Hp].
      apply list_elem_of_singleton in Hp as [= -> ->]. unfold sizeof_hnode in *. lia.
    + destruct (b_used b); [|by apply not_elem_of_nil in Hp].
      apply list_elem_of_singleton in Hp as [= -> ->].
      pose proof (hdrs_ge _ _ _ Hw Hh). lia.
    + pose proof (payloads_in _ _ _ _ Hw Hp). unfold b_span, sizeof_hnode in *. lia.
    + eauto.
Qed.

Lemma payload_hdr a bs lo hi : (lo, hi) ∈ payloads a bs -> lo - sizeof_hnode ∈ hdrs a bs.
Proof.
  revert a. induction bs as [|b bs IH]; intros a Hp; cbn in *; [by apply not_elem_of_nil in Hp|].
  apply elem_of_app in Hp as [Hp|Hp]; [|right; auto].
  destruct (b_used b); [|by apply not_elem_of_nil in Hp].
  apply list_elem_of_singleton in Hp as [= -> ->].
  replace (a + sizeof_hnode - sizeof_hnode) with a by lia. left.
Qed.

Lemma frame_payload a bs m m' lo hi :
  Forall wf_block bs -> frame a bs m m' -> (lo, hi) ∈ payloads a bs -> same_on lo hi m m'.
Proof. intros Hw Hf Hp x Hx. apply Hf. intros h Hh. eapply payload_not_hdr; eauto. Qed.

(** The new block is large enough and clear of every block in use. *)
Lemma spec_alloc_payload bs size a r addr :
  Forall wf_block bs -> 0 <= size -> spec_alloc bs size a = (r, addr) ->
  exists hi, (addr, hi) ∈ payloads a r /\ addr + size <= hi /\
    forall lo hi', (lo, hi') ∈ payloads a bs ->
      (lo, hi') ∈ payloads a r /\ (hi' < addr \/ hi < lo).
Proof.
  intros Hw H0. revert a r. induction Hw as [|b bs Hb Hw IH]; intros a r.
  - intros [= <- <-]. exists (a + b_span (Blk true size)). cbn.
    split; [left|]. split; [unfold b_span, sizeof_hnode; cbn; lia|].
    intros ?? Hin. by apply not_elem_of_nil in Hin.
  - pose proof Hb as [Hb0 _]. pose proof (extent_nonneg _ Hw) as He.
    destruct (negb (b_used b) && (size <=? b_size b)) eqn:E.
    + cbn [spec_alloc]. rewrite E. apply andb_true_iff in E as [Eu%negb_true_iff Ef%Z.leb_le].
      destruct (4 * sizeof_hnode <=? b_size b - size); intros [= <- <-]; cbn [payloads b_used];
        rewrite Eu; cbn [app].
      * exists (a + b_span (Blk true size)). split; [left|].
        split; [unfold b_span, sizeof_hnode; cbn; lia|]. intros lo hi' Hin.
        replace (a + b_span (Blk true size) + b_span (Blk false (b_size b - size - sizeof_hnode)))
          with (a + b_span b) by (unfold b_span; cbn; lia).
        split; [by right|]. pose proof (payloads_in _ _ _ _ Hw Hin) as (? & _).
        unfold b_span, sizeof_hnode in *. cbn [b_size]. lia.
      * exists (a + b_span b). split; [left|]. split; [unfold b_span, sizeof_hnode; lia|].
        intros lo hi' Hin. split; [by right|]. pose proof (payloads_in _ _ _ _ Hw Hin) as (? & _).
        unfold b_span, sizeof_hnode in *. lia.
    + rewrite spec_alloc_skip by done.
      destruct (spec_alloc bs size (a + b_span b)) as [r' o] eqn:Er. intros [= <- <-].
      destruct (IH _ _ Er) as (hi & Hin & Hsz & Hold). exists hi. cbn [payloads].
      split; [by apply elem_of_app; right|]. split; [done|].
      intros lo hi' [Hp|Hp]%elem_of_app; [|destruct (Hold _ _ Hp); by rewrite elem_of_app; auto].
      split; [by apply elem_of_app; left|]. left.
      destruct (b_used b); [|by apply not_elem_of_nil in Hp].
      apply list_elem_of_singleton in Hp as [= -> ->].
      pose proof (spec_alloc_addr bs size (a + b_span b) Hw) as Hadr. rewrite Er in Hadr.
      cbn in Hadr. unfold sizeof_hnode in *. lia.
Qed.

Lemma spec_alloc_length bs size a r addr :
  spec_alloc bs size a = (r, addr) -> (length r <= S (length bs))%nat.
Proof.
  revert a r. induction bs as [|b bs IH]; intros a r; cbn [spec_alloc].
  - by intros [= <- <-].
  - destruct (negb (b_used b) && (size <=? b_size b)).
    + destruct (4 * sizeof_hnode <=? b_size b - size); intros [= <- <-]; cbn; lia.
    + destruct (spec_alloc bs size (a + b_span b)) as [r' o] eqn:Er. intros [= <- <-].
      apply IH in Er. cbn. lia.
Qed.

(** Nothing but the new block becomes used. *)
Lemma spec_alloc_payload_inv bs size a r addr lo hi :
  spec_alloc bs size a = (r, addr) -> (lo, hi) ∈ payloads a r ->
  (lo, hi) ∈ payloads a bs \/ lo = addr.
Proof.
  revert a r. induction bs as [|b bs IH]; intros a r; cbn [spec_alloc].
  - intros [= <- <-]. cbn. rewrite list_elem_of_singleton. intros [= -> ->]. by right.
  - destruct (negb (b_used b) && (size <=? b_size b)) eqn:E.
    + apply andb_true_iff in E as [Eu%negb_true_iff _].
      destruct (4 * sizeof_hnode <=? b_size b - size); intros [= <- <-]; cbn [payloads b_used];
        rewrite Eu; cbn [app]; rewrite elem_of_cons; intros [[= -> ->]|Hin]; auto; left.
      replace (a + b_span (Blk true size) + b_span (Blk false (b_size b - size - sizeof_hnode)))
        with (a + b_span b) in Hin by (unfold b_span; cbn; lia). done.
    + destruct (spec_alloc bs size (a + b_span b)) as [r' o] eqn:Er. intros [= <- <-].
      cbn [payloads]. rewrite !elem_of_app. intros [?|Hin]; [by left; left|].
      destruct (IH _ _ Er Hin); auto.
Qed.

(** The new block is less than 128 bytes larger than the request: a larger remainder is split
    off. *)
Lemma spec_alloc_slack bs size a r addr :
  Forall wf_block bs -> 0 <= size -> size mod 32 = 0 -> spec_alloc bs size a = (r, addr) ->
  exists hi, (addr, hi) ∈ payloads a r /\ size <= hi - addr <= size + 96.
Proof.
  intros Hw H0 Hm. revert a r. induction Hw as [|b bs [Hb0 Hb] Hw IH]; intros a r; cbn [spec_alloc].
  - intros [= <- <-]. eexists. split; [left|]. unfold b_span, sizeof_hnode; cbn; lia.
  - destruct (negb (b_used b) && (size <=? b_size b)) eqn:E.
    + apply andb_true_iff in E as [Eu%negb_true_iff Ef%Z.leb_le].
      destruct (Z.leb_spec (4 * sizeof_hnode) (b_size b - size)); intros [= <- <-];
        (eexists; split; [left|]); unfold b_span, sizeof_hnode in *; cbn [b_size]; [lia|].
      Z.div_mod_to_equations. lia.
    + destruct (spec_alloc bs size (a + b_span b)) as [r' o] eqn:Er. intros [= <- <-].
      destruct (IH _ _ Er) as (hi & Hin & Hsz). exists hi. cbn [payloads].
      split; [by apply elem_of_app; right|done].
Qed.

Lemma payloads_coalesce a l bs : payloads a (coalesce l bs) = payloads a (l :: bs).
Proof.
  revert a l. induction bs as [|b bs IH]; intros a l; cbn [coalesce]; [done|].
  destruct (negb (b_used b) && negb (b_used l)) eqn:E.
  - apply andb_true_iff in E as [Eb%negb_true_iff El%negb_true_iff].
    rewrite IH. cbn [payloads b_used]. rewrite Eb, El. cbn [app]. f_equal.
    unfold b_span. cbn [b_size]. lia.
  - cbn [payloads]. by rewrite IH.
Qed.

Lemma elem_of_opt_singleton {A} (c : bool) (x y : A) :
  x ∈ (if c then [y] else []) <-> c = true /\ x = y.
Proof.
  destruct c; [rewrite list_elem_of_singleton; intuition|].
  split; [intros H; by apply not_elem_of_nil in H|by intros [? _]].
Qed.

Lemma payloads_mark_free a bs addr lo hi :
  (lo, hi) ∈ payloads a (mark_free a bs addr) <-> (lo, hi) ∈ payloads a bs /\ lo <> addr.
Proof.
  revert a. induction bs as [|b bs IH]; intros a; cbn [mark_free payloads].
  - split; [intros H|intros [H _]]; by apply not_elem_of_nil in H.
  - rewrite mark_free_span, !elem_of_app, IH, !elem_of_opt_singleton.
    destruct (Z.eqb_spec (a + sizeof_hnode) addr) as [He|He]; cbn [b_used];
      intuition congruence.
Qed.

Lemma coalesce_no_adjacent l bs :
  no_adjacent_free (coalesce l bs) /\
  (b_used l = true -> match coalesce l bs with c :: _ => b_used c = true | [] => True end).
Proof.
  revert l. induction bs as [|b bs IH]; intros l; cbn [coalesce]; [by repeat split; auto|].
  destruct (negb (b_used b) && negb (b_used l)) eqn:E.
  - apply andb_true_iff in E as [Eb%negb_true_iff El%negb_true_iff].
    split; [apply IH|congruence].
  - destruct (IH b) as [H1 H2]. split; [|done]. cbn [no_adjacent_free]. split; [|done].
    destruct (coalesce b bs) as [|c cs] eqn:Ec; [done|].
    apply andb_false_iff in E as [Eb%negb_false_iff|El%negb_false_iff]; [|by left].
    right. by apply H2.
Qed.

(** ** Allocation preserves the absence of adjacent free blocks *)

Lemma spec_alloc_no_adjacent bs size off :
  no_adjacent_free bs ->
  no_adjacent_free (fst (spec_alloc bs size off)) /\
  match bs, fst (spec_alloc bs size off) with
  | b :: _, c :: _ => b_used b = true -> b_used c = true
  | _, c :: _ => b_used c = true
  | _, _ => True
  end.
Proof.
  revert off. induction bs as [|b bs IH]; intros off Hna; [cbn; auto|].
  destruct (negb (b_used b) && (size <=? b_size b)) eqn:E.
  - cbn [spec_alloc]. rewrite E. apply andb_true_iff in E as [Eu%negb_true_iff _].
    cbn [no_adjacent_free] in Hna. destruct Hna as [Hh Ht].
    destruct (4 * sizeof_hnode <=? _); cbn [fst no_adjacent_free b_used]; split_and!; auto.
    + destruct bs; [done|]. destruct Hh; [congruence|auto].
    + destruct bs; auto.
  - rewrite spec_alloc_skip by done. destruct Hna as [Hh Ht].
    destruct (IH (off + b_span b) Ht) as [H1 H2].
    destruct bs as [|b' bs'];
      [cbn; auto|destruct (spec_alloc (b' :: bs') size (off + b_span b)) as [r o]].
    cbn [fst no_adjacent_free] in *. split_and!; auto. destruct r as [|c r]; [done|].
    destruct Hh; auto.
Qed.

(** ** The monitor *)

Fixpoint used_extent (bs : list block) : Z :=
  match bs with [] => 0 | b :: bs => (if b_used b then b_span b else 0) + used_extent bs end.

Lemma used_extent_le bs : Forall wf_block bs -> 0 <= used_extent bs <= extent bs.
Proof.
  induction 1 as [|b bs [Hb _] Hw IH]; cbn; [lia|].
  unfold b_span, sizeof_hnode in *. destruct (b_used b); lia.
Qed.

Lemma monitor_loop_spec bs : forall b m p a fuel t u,
  Forall wf_block (b :: bs) -> seg m p a (b :: bs) -> 0 < a ->
  (length (b :: bs) <= fuel)%nat -> 0 <= t -> 0 <= u ->
  a + extent (b :: bs) < 4294967296 -> t + u + extent (b :: bs) < 4294967296 ->
  monitor_loop fuel m a (HeapMonitor t u) =
    Some (HeapMonitor (t + (extent (b :: bs) - used_extent (b :: bs)))
                      (u + used_extent (b :: bs))).
Proof.
  induction bs as [|b' bs IH]; intros b m p a fuel t u Hw Hs Ha Hf Ht Hu He Hb;
    (destruct fuel as [|fuel]; [cbn in Hf; lia|]);
    pose proof Hs as [(H1 & H2 & H3 & H4) Hs']; cbn [monitor_loop];
    inversion_clear Hw as [|?? [Hb0 _] Hw']; pose proof (extent_nonneg _ Hw') as Hx;
    rewrite H1, H2, H4, c_true_c_bool; cbn [mon_total mon_used extent used_extent] in *.
  - cbn [c_true Z.eqb negb]. unfold b_span, sizeof_hnode in *.
    destruct (b_used b); rewrite u32_id by lia; do 2 f_equal; lia.
  - assert (c_true (a + b_span b) = true) as ->.
    { unfold c_true, b_span, sizeof_hnode. rewrite (proj2 (Z.eqb_neq _ _)) by lia. done. }
    destruct (b_used b); rewrite u32_id by (unfold b_span, sizeof_hnode in *; lia);
      (rewrite (IH b' m a) by (done || (cbn [length extent] in *; unfold b_span, sizeof_hnode in *; lia)));
      cbn [extent used_extent]; unfold b_span, sizeof_hnode; do 2 f_equal; lia.
Qed.

(** Writing into the payload of a block in use keeps the heap well formed. *)
Lemma heap_rep_payload_write h m m' bs lo hi :
  heap_rep h m bs -> (lo, hi) ∈ payloads (hp_start h) bs ->
  (forall x, ~ (lo <= x < hi) -> ld8 m' x = ld8 m x) -> heap_rep h m' bs.
Proof.
  intros [Hst Hfi Hseg Hwf Hend] Hin Hfr. split; try done.
  assert (Hh : forall a x, a ∈ hdrs (hp_start h) bs -> a <= x < a + 16 -> ld8 m' x = ld8 m x).
  { intros a x Ha Hx. apply Hfr. intros Hx'. by eapply payload_not_hdr. }
  clear Hfi Hend Hin Hfr. revert Hh Hseg. generalize (hp_start h) 0.
  induction Hwf as [|b bs Hb Hwf IH]; intros a p Hh Hseg; [done|]. destruct Hseg as [Hn Hs]. split.
  - eapply node_at_same; [exact Hn|]. intros x Hx. apply (Hh a); [left|done].
  - apply IH; [|done]. intros a' x Ha'. apply Hh. by right.
Qed.

(** [malloc], in the form its clients use. *)
Lemma malloc_spec h m bs size fuel :
  heap_rep h m bs -> 0 <= size ->
  hp_start h + extent bs + 2 * sizeof_hnode + size < 4294967296 -> (length bs <= fuel)%nat ->
  exists addr hi h' m' bs',
    malloc fuel h m size = Some (addr, h', m') /\ heap_rep h' m' bs' /\
    hp_start h' = hp_start h /\
    (addr, hi) ∈ payloads (hp_start h) bs' /\ addr + size <= hi /\
    (addr - hp_start h) mod 32 = 0 /\
    (forall lo hi', (lo, hi') ∈ payloads (hp_start h) bs ->
      (lo, hi') ∈ payloads (hp_start h) bs' /\ (hi' < addr \/ hi < lo) /\ same_on lo hi' m m') /\
    (forall lo hi', (lo, hi') ∈ payloads (hp_start h) bs' ->
      (lo, hi') ∈ payloads (hp_start h) bs \/ lo = addr) /\
    (length bs' <= S (length bs))%nat.
Proof.
  intros Hrep Hs Hroom Hf. pose proof (heap_alloc_spec h m bs size fuel Hrep Hs Hroom Hf) as H.
  pose proof Hrep as [_ _ _ Hwf _]. pose proof (extent_nonneg _ Hwf). pose proof (rep_start _ _ _ Hrep).
  destruct (align32 size Hs ltac:(unfold sizeof_hnode in *; lia)) as [Hal _].
  destruct (spec_alloc bs (ALIGN size sizeof_hnode) (hp_start h)) as [r addr] eqn:Er.
  destruct H as (h' & m' & E & Hst & Hrep' & Hfr).
  destruct (spec_alloc_payload bs (ALIGN size sizeof_hnode) _ _ _ Hwf ltac:(lia) Er) as (hi & Hin & Hsz & Hold).
  pose proof (rep_wf _ _ _ Hrep') as Hwr.
  exists addr, hi, h', m', r. split_and!; try done; try lia.
  - by destruct (payloads_in _ _ _ _ Hwr Hin) as (_ & _ & ?).
  - intros lo hi' Hlo. destruct (Hold _ _ Hlo) as [Ho1 Ho2]. split_and!; try done.
    eapply frame_payload; eauto.
  - intros lo hi'. by apply (spec_alloc_payload_inv bs (ALIGN size sizeof_hnode)).
  - by eapply spec_alloc_length.
Qed.

(** [free], in the form its clients use. *)
Lemma free_spec h m bs addr hi fuel :
  heap_rep h m bs -> (addr, hi) ∈ payloads (hp_start h) bs -> (length bs <= fuel)%nat ->
  exists m' bs',
    free fuel h m addr = Some m' /\ heap_rep h m' bs' /\
    no_adjacent_free bs' /\ extent bs' = extent bs /\
    (forall lo hi', (lo, hi') ∈ payloads (hp_start h) bs' <->
                    (lo, hi') ∈ payloads (hp_start h) bs /\ lo <> addr) /\
    (forall lo hi', (lo, hi') ∈ payloads (hp_start h) bs -> same_on lo hi' m m').
Proof.
  intros Hrep Hin Hf. pose proof (rep_wf _ _ _ Hrep) as Hwf.
  destruct (payloads_in _ _ _ _ Hwf Hin) as (Hge & _).
  destruct (heap_free_spec h m bs addr fuel Hrep) as (m' & E & Hrep' & Hfr); [|done|].
  { by eapply payload_hdr. }
  exists m', (coalesce_all (mark_free (hp_start h) bs addr)).
  unfold free. rewrite (proj2 (Z.leb_le _ _)) by (unfold sizeof_hnode in *; lia).
  pose proof (mark_free_extent (hp_start h) bs addr) as Hext.
  split; [done|]. split; [done|].
  assert (Hp : payloads (hp_start h) (coalesce_all (mark_free (hp_start h) bs addr)) =
               payloads (hp_start h) (mark_free (hp_start h) bs addr)).
  { destruct (mark_free _ _ _); cbn [coalesce_all]; [done|]. apply payloads_coalesce. }
  split_and!.
  - destruct (mark_free _ _ _); [done|]. apply coalesce_no_adjacent.
  - rewrite <- Hext. destruct (mark_free _ _ _); [done|]. apply coalesce_extent.
  - intros lo hi'. rewrite Hp. apply payloads_mark_free.
  - intros lo hi' Hlo. eapply frame_payload; eauto.
Qed.

(** ** Properties *)

(** C1: [malloc] on a well-formed heap with room for the request returns a block that is
    aligned to the header size, at least as large as asked, disjoint from every block in use,
    and it changes no byte of any block in use; nothing else becomes used, and the heap stays
    well formed. *)
Theorem malloc_correct h m bs size fuel :
  heap_rep h m bs -> 0 <= size ->
  hp_start h + extent bs + 2 * sizeof_hnode + size < 4294967296 -> (length bs <= fuel)%nat ->
  exists addr hi h' m' bs',
    malloc fuel h m size = Some (addr, h', m') /\ heap_rep h' m' bs' /\
    hp_start h' = hp_start h /\
    (addr, hi) ∈ payloads (hp_start h) bs' /\ addr + size <= hi /\
    (addr - hp_start h) mod 32 = 0 /\
    (forall lo hi', (lo, hi') ∈ payloads (hp_start h) bs ->
      (lo, hi') ∈ payloads (hp_start h) bs' /\ (hi' < addr \/ hi < lo) /\ same_on lo hi' m m') /\
    (forall lo hi', (lo, hi') ∈ payloads (hp_start h) bs' ->
      (lo, hi') ∈ payloads (hp_start h) bs \/ lo = addr).
Proof.
  intros Hrep Hs Hroom Hf. destruct (malloc_spec h m bs size fuel Hrep Hs Hroom Hf)
    as (addr & hi & h' & m' & bs' & ? & ? & ? & ? & ? & ? & ? & ? & _).
  exists addr, hi, h', m', bs'. by split_and!.
Qed.

(** C2: [free] of a block in use releases exactly that block: every other block in use stays
    where it is with its bytes unchanged, nothing else becomes used, the heap keeps its extent,
    and no two unused blocks are left next to each other. *)
Theorem free_correct h m bs addr hi fuel :
  heap_rep h m bs -> (addr, hi) ∈ payloads (hp_start h) bs -> (length bs <= fuel)%nat ->
  exists m' bs',
    free fuel h m addr = Some m' /\ heap_rep h m' bs' /\
    no_adjacent_free bs' /\ extent bs' = extent bs /\
    (forall lo hi', (lo, hi') ∈ payloads (hp_start h) bs' <->
                    (lo, hi') ∈ payloads (hp_start h) bs /\ lo <> addr) /\
    (forall lo hi', (lo, hi') ∈ payloads (hp_start h) bs -> same_on lo hi' m m').
Proof. apply free_spec. Qed.

(** How large the block of [malloc] is: the request rounded up to 32 bytes, and up to 96 bytes
    more when an unused block too small to split is reused.  This is the bound that the clients
    of [Updater] are verified against. *)
Theorem malloc_block_size h m bs size fuel :
  heap_rep h m bs -> 0 <= size ->
  hp_start h + extent bs + 2 * sizeof_hnode + size < 4294967296 -> (length bs <= fuel)%nat ->
  exists addr hi h' m' bs',
    malloc fuel h m size = Some (addr, h', m') /\ heap_rep h' m' bs' /\
    (addr, hi) ∈ payloads (hp_start h) bs' /\
    ALIGN size 32 <= hi - addr <= ALIGN size 32 + 96.
Proof.
  intros Hrep Hs Hroom Hf. pose proof (heap_alloc_spec h m bs size fuel Hrep Hs Hroom Hf) as H.
  pose proof Hrep as [Hst0 _ _ Hwf _]. pose proof (extent_nonneg _ Hwf).
  destruct (align32 size Hs ltac:(unfold sizeof_hnode in *; lia)) as [Hal Hmod].
  destruct (spec_alloc bs (ALIGN size sizeof_hnode) (hp_start h)) as [r addr] eqn:Er.
  destruct H as (h' & m' & E & Hst & Hrep' & Hfr).
  destruct (spec_alloc_slack bs (ALIGN size sizeof_hnode) _ _ _ Hwf ltac:(lia) Hmod Er) as (hi & Hin & Hsz).
  by exists addr, hi, h', m', r.
Qed.

(** A heap operation of a client: an allocation for which there is room below the
    top of the address space, or the release of a block in use. *)
Inductive heap_step (fuel : nat) : heap_t * mem -> heap_t * mem -> Prop :=
| step_malloc h m bs size addr h' m' :
    heap_rep h m bs -> (length bs <= fuel)%nat -> 0 <= size ->
    hp_start h + extent bs + 2 * sizeof_hnode + size < 4294967296 ->
    malloc fuel h m size = Some (addr, h', m') ->
    heap_step fuel (h, m) (h', m')
| step_free h m bs addr hi m' :
    heap_rep h m bs -> (length bs <= fuel)%nat ->
    (addr, hi) ∈ payloads (hp_start h) bs ->
    free fuel h m addr = Some m' ->
    heap_step fuel (h, m) (h, m').

(** C3: every heap reachable from [heap_init] by allocations that fit below the top of the
    address space and releases of blocks in use is well formed, with no two adjacent unused
    blocks. *)
Theorem heap_reachable_wf fuel base m0 h m :
  0 < base < 4294967296 -> rtc (heap_step fuel) (heap_init base, m0) (h, m) ->
  exists bs, heap_rep h m bs /\ no_adjacent_free bs.
Proof.
  intros Hb Hsteps.
  cut (forall s, rtc (heap_step fuel) s (h, m) ->
         (exists bs, heap_rep (fst s) (snd s) bs /\ no_adjacent_free bs) ->
         exists bs, heap_rep h m bs /\ no_adjacent_free bs).
  { intros H. apply (H _ Hsteps). exists []. split; [|done].
    split; cbn; try done; lia. }
  clear. intros s Hs. remember (h, m) as s' eqn:Es.
  induction Hs as [s|s1 s2 s3 Hstep Hs IH]; subst; [done|]. intros (bs & Hrep & Hna).
  apply IH; [done|]. clear IH Hs. destruct Hstep as [h1 m1 bs1 size addr h2 m2 Hr Hf Hs Hroom E
    |h1 m1 bs1 addr hi m2 Hr Hf Hin E]; cbn [fst snd] in *.
  - pose proof (heap_rep_inj _ _ _ _ Hrep Hr) as ->.
    pose proof (heap_alloc_spec _ _ _ _ _ Hr Hs Hroom Hf) as H.
    pose proof (spec_alloc_no_adjacent bs1 (ALIGN size sizeof_hnode) (hp_start h1) Hna) as [Hna' _].
    destruct (spec_alloc _ _ _) as [r a]. destruct H as (h' & m' & E' & _ & Hr' & _).
    unfold malloc in E. rewrite E' in E. injection E as -> -> ->. eauto.
  - pose proof (heap_free_spec h1 m1 bs1 addr fuel Hr (payload_hdr _ _ _ _ Hin) Hf)
      as (m' & E' & Hr' & _).
    destruct (payloads_in _ _ _ _ (rep_wf _ _ _ Hr) Hin) as (Hge & _).
    unfold free in E. rewrite (proj2 (Z.leb_le _ _)) in E by (unfold sizeof_hnode in *; lia).
    rewrite E' in E. injection E as <-. eexists. split; [exact Hr'|].
    destruct (mark_free _ _ _); [done|]. apply coalesce_no_adjacent.
Qed.

(** [calloc] whose product does not overflow returns a block of zeros, and changes no byte
    of a block in use. *)
Theorem calloc_correct h m bs num size fuel :
  heap_rep h m bs -> 0 <= num * size ->
  hp_start h + extent bs + 2 * sizeof_hnode + num * size < 4294967296 -> (length bs <= fuel)%nat ->
  exists addr h' m',
    calloc fuel h m num size = Some (addr, h', m') /\
    (forall i, 0 <= i < num * size -> ld8 m' (addr + i) = 0) /\
    (forall lo hi, (lo, hi) ∈ payloads (hp_start h) bs -> same_on lo hi m m').
Proof.
  intros Hrep Hs Hroom Hf. pose proof (rep_start _ _ _ Hrep) as Hst.
  pose proof (extent_nonneg _ (rep_wf _ _ _ Hrep)) as He. unfold calloc.
  rewrite u32_id by (unfold sizeof_hnode in *; lia). set (n := num * size) in *.
  pose proof (heap_alloc_spec h m bs n fuel Hrep Hs Hroom Hf) as H.
  destruct (align32 n Hs ltac:(unfold sizeof_hnode in *; lia)) as [Hal _].
  pose proof (rep_wf _ _ _ Hrep) as Hwf.
  destruct (spec_alloc bs (ALIGN n sizeof_hnode) (hp_start h)) as [r addr] eqn:Er.
  destruct H as (h' & m' & E & _ & Hrep' & Hfr). rewrite E.
  destruct (spec_alloc_payload bs (ALIGN n sizeof_hnode) _ _ _ Hwf ltac:(lia) Er)
    as (hi & Hin & Hsz & Hold).
  do 3 eexists. split; [done|]. split.
  - intros i Hi. rewrite ld8_memset, (proj2 (Z.leb_le _ _)), (proj2 (Z.ltb_lt _ _)) by lia. done.
  - intros lo hi' Hlo. destruct (Hold _ _ Hlo) as [Hlo' Hd].
    pose proof (frame_payload _ _ _ _ lo hi' (rep_wf _ _ _ Hrep') Hfr Hlo') as Hsame.
    intros x Hx. rewrite <- (Hsame x Hx), ld8_memset. rewrite Z2Nat.id by lia.
    destruct (Z.leb_spec addr x), (Z.ltb_spec x (addr + ALIGN n sizeof_hnode)); done || lia.
Qed.

(** [heap_monitor] reports the bytes held by blocks in use and the extent of the whole
    heap, headers included. *)
Theorem heap_monitor_correct h m b bs fuel :
  heap_rep h m (b :: bs) -> (length (b :: bs) <= fuel)%nat ->
  heap_monitor fuel h m = Some (HeapMonitor (extent (b :: bs)) (used_extent (b :: bs))).
Proof.
  intros [Hst Hfi Hseg Hwf Hend] Hf. unfold heap_monitor. rewrite Hfi.
  pose proof (used_extent_le _ Hwf). pose proof (extent_nonneg _ Hwf).
  rewrite (monitor_loop_spec bs b m 0) by (done || lia). cbn [mon_total mon_used].
  rewrite u32_id by lia. do 2 f_equal; lia.
Qed.

(** A request within 31 bytes of the top of the 32-bit range is rounded up to zero: the
    allocator then behaves as for an empty request and hands out a block of no bytes. *)
Theorem malloc_size_wraps h m size fuel :
  4294967265 <= size < 4294967296 -> malloc fuel h m size = malloc fuel h m 0.
Proof.
  intros Hs. unfold malloc, _heap_alloc.
  replace (ALIGN size sizeof_hnode) with 0; [done|].
  unfold ALIGN, sizeof_hnode. unfold u32 at 1.
  replace ((size + 32 - 1) mod 4294967296) with (size + 31 - 4294967296)
    by (Z.div_mod_to_equations; lia).
  change (u32 (Z.lnot (32 - 1))) with (u32 (Z.lnot (2 ^ 5 - 1))).
  rewrite land_lnot_pow2 by lia. change (2 ^ 5) with 32.
  rewrite Z.mod_small; lia.
Qed.

(** ** Witnesses *)

(** A heap as the boot code sets it up, after one allocation of 100 bytes. *)
Definition ex_base : Z := 2415919104.
Ltac ex_rep_tac :=
  split; [done|done|vm_compute; auto 20|repeat constructor; done|done].
Definition ex_heap : heap_t := Heap ex_base ex_base.
Definition ex_mem : mem := set_next (set_prev (set_size (set_used ∅ ex_base 1) ex_base 128) ex_base 0) ex_base 0.

Lemma ex_rep : heap_rep ex_heap ex_mem [Blk true 128].
Proof.
  split; [done|done| |repeat constructor; done|done].
  vm_compute. auto 10.
Qed.

Lemma malloc_correct_witness : exists addr h' m', malloc 1 ex_heap ex_mem 40 = Some (addr, h', m').
Proof.
  destruct (malloc_correct ex_heap ex_mem [Blk true 128] 40 1 ex_rep
    ltac:(done) ltac:(done) ltac:(done)) as (a & _ & h' & m' & _ & E & _).
  by exists a, h', m'.
Defined.

Lemma malloc_block_size_witness : exists addr h' m', malloc 1 ex_heap ex_mem 8 = Some (addr, h', m').
Proof.
  destruct (malloc_block_size ex_heap ex_mem [Blk true 128] 8 1 ex_rep
    ltac:(done) ltac:(done) ltac:(done)) as (a & _ & h' & m' & _ & E & _).
  by exists a, h', m'.
Defined.

Lemma free_correct_witness : exists m', free 1 ex_heap ex_mem (ex_base + 32) = Some m'.
Proof.
  destruct (free_correct ex_heap ex_mem [Blk true 128] (ex_base + 32) (ex_base + 160) 1 ex_rep
    ltac:(left) ltac:(done)) as (m' & _ & E & _).
  by exists m'.
Defined.

(** The heap after allocations of 100, 40 and 8 bytes and the release of the middle one, each
    state computed by the allocator itself. *)
Definition ex_after (r : option (Z * heap_t * mem)) : heap_t * mem :=
  match r with Some (_, h, m) => (h, m) | None => (heap_init ex_base, ∅) end.
Definition ex_s1 : heap_t * mem := ex_after (malloc 3 (heap_init ex_base) ∅ 100).
Definition ex_s2 : heap_t * mem := ex_after (malloc 3 (fst ex_s1) (snd ex_s1) 40).
Definition ex_s3 : heap_t * mem := ex_after (malloc 3 (fst ex_s2) (snd ex_s2) 8).
Definition ex_m4 : mem := default ∅ (free 3 (fst ex_s3) (snd ex_s3) (ex_base + 192)).

Lemma heap_reachable_wf_witness :
  hn_used (snd ex_s3) (ex_base + 160) = 1 /\ hn_used ex_m4 (ex_base + 160) = 0 /\
  exists bs, heap_rep (fst ex_s3) ex_m4 bs /\ no_adjacent_free bs.
Proof.
  split; [vm_compute; reflexivity|]. split; [vm_compute; reflexivity|].
  apply (heap_reachable_wf 3 ex_base ∅); [done|].
  apply (rtc_l _ _ ex_s1).
  { eapply (step_malloc 3 (heap_init ex_base) ∅ [] 100 (ex_base + 32) (fst ex_s1) (snd ex_s1));
      [split; done|cbn; lia|done|done|vm_compute; reflexivity]. }
  apply (rtc_l _ _ ex_s2).
  { eapply (step_malloc 3 (fst ex_s1) (snd ex_s1) [Blk true 128] 40 (ex_base + 192)
      (fst ex_s2) (snd ex_s2)); [ex_rep_tac|cbn; lia|done|done|vm_compute; reflexivity]. }
  apply (rtc_l _ _ ex_s3).
  { eapply (step_malloc 3 (fst ex_s2) (snd ex_s2) [Blk true 128; Blk true 64] 8 (ex_base + 288)
      (fst ex_s3) (snd ex_s3)); [ex_rep_tac|cbn; lia|done|done|vm_compute; reflexivity]. }
  apply (rtc_l _ _ (fst ex_s3, ex_m4)); [|apply rtc_refl].
  eapply (step_free 3 (fst ex_s3) (snd ex_s3) [Blk true 128; Blk true 64; Blk true 32]
    (ex_base + 192) (ex_base + 256)); [ex_rep_tac|cbn; lia| |vm_compute; reflexivity].
  right. left.
Defined.

Lemma calloc_correct_witness : exists addr h' m', calloc 1 ex_heap ex_mem 4 10 = Some (addr, h', m').
Proof.
  destruct (calloc_correct ex_heap ex_mem [Blk true 128] 4 10 1 ex_rep
    ltac:(done) ltac:(done) ltac:(done)) as (a & h' & m' & E & _).
  by exists a, h', m'.
Defined.

Lemma heap_monitor_correct_witness : heap_monitor 1 ex_heap ex_mem = Some (HeapMonitor 160 160).
Proof. apply (heap_monitor_correct ex_heap ex_mem (Blk true 128) [] 1 ex_rep). done. Defined.

Lemma malloc_size_wraps_witness : malloc 1 ex_heap ex_mem 4294967295 = malloc 1 ex_heap ex_mem 0.
Proof. apply malloc_size_wraps. lia. Defined.
