(* ===== verification/Updater.v ===== *)
(** * Updater

    The SD card work of bootloader/main.c: removing the old package while
    keeping the user's data ([performCleanup], [delete_node]) and moving the
    staged package into place ([finishUpdate]).

    Strings are values; every copy into a buffer of known size is checked, and
    a copy that does not fit ends the model with [Overrun].  How many bytes a
    block from [malloc(n)] holds depends on the blocks the allocator can reuse:
    the code is verified against every allocator that keeps the bounds proved
    of heap.c in [Heap] ([malloc_block_size]). *)

From S2P Require Import FatFs.

(** ** What may be deleted *)

Definition folder_keep : list string :=
  [ "/apgtmppackfolder"; "/backup"; "/emummc"; "/emutendo"; "/jksv"; "/nintendo";
    "/retroarch"; "/roms"; "/switch/checkpoint/saves"; "/switch/tinfoil/themes" ].

Definition canDeleteFolder (cPath : string) : bool :=
  negb (existsb (fun x => streq x cPath) folder_keep).

Definition file_keep_folders : list string :=
  [ "/switch/checkpoint/saves"; "/switch/edizon/saves"; "/switch/tinfoil/themes" ].

Definition file_keep : list string :=
  [ "/switch/retroarch_switch.nro"; "/switch/tinfoil/credentials.json";
    "/switch/tinfoil/gdrive.token"; "/switch/tinfoil/locations.conf";
    "/switch/tinfoil/options.json" ].

Definition canDeleteFile (cPath : string) : bool :=
  if existsb (fun x => streq x cPath) file_keep then false
  else negb (existsb (fun x => strstr cPath x) file_keep_folders).

(** ** Buffers *)

(** The allocator as its clients see it: the bytes behind the pointer that
    [malloc(n)] stored into the named variable.  The state [F] of everything the
    code does not own stands for the allocator's too.  A block holds the request
    rounded up to 32 bytes, and up to 96 bytes more when an unused block that is
    too small to split was reused. *)
Class Allocator (F : Type) := {
  malloc_cap : string -> Z -> F -> Z;
  malloc_cap_lo var n f : 0 <= n < 2147483648 -> ALIGN n 32 <= malloc_cap var n f;
  malloc_cap_hi var n f : 0 <= n < 2147483648 -> malloc_cap var n f <= ALIGN n 32 + 96
}.

(** Store [s] with its NUL into a buffer of [cap] bytes. *)
Definition store {S} (cap : Z) (s : string) : M S string :=
  if strlen s + 1 <=? cap then mret s else overrun.

Section Updater.
Context {F : Type} `{FatFs F} `{!Allocator F}.

(** The size of the block that [var = malloc(n)] gets now. *)
Definition do_malloc (var : string) (n : Z) : M (world F) Z :=
  w ← get; mret (malloc_cap var n (w_fs w)).

Definition easy_rename (old new : string) : M (world F) Z :=
  r ← do_stat old;
  if r =? FR_OK then
    r ← do_stat new;
    res ← (if r =? FR_OK then do_unlink new else mret FR_OK);
    if res =? FR_OK then do_rename old new else mret res
  else mret FR_OK.

(** The loop of [easy_move] over the tokens of [new]; [tmp2] is the directory
    path built so far, [cap1] and [cap2] are the sizes of the blocks behind [tmp1]
    and [tmp2]. *)
Fixpoint make_dirs (cap1 cap2 : Z) (tokens : list string) (tmp2 : string) : M (world F) unit :=
  match tokens with
  | [] => mret tt
  | p :: tokens =>
      if strstr p "." then make_dirs cap1 cap2 tokens tmp2
      else
        tmp1 ← store cap1 ("/" +:+ p);
        tmp2 ← store cap2 (tmp2 +:+ tmp1);
        r ← do_stat tmp2;
        (if r =? FR_OK then mret tt else (do_mkdir tmp2;; mret tt));;
        make_dirs cap1 cap2 tokens tmp2
  end.

(** [new] is a block of [cap] bytes, overwritten by the function. *)
Definition easy_move (old new : string) (cap : Z) : M (world F) Z :=
  cap1 ← do_malloc "tmp1" 256;
  cap2 ← do_malloc "tmp2" 256;
  make_dirs cap1 cap2 (strtok new) "";;
  new ← store cap (strtok_head new +:+ old);
  easy_rename old new.

(** The file branch of [delete_node]: [path] is lowered in place. *)
Definition delete_file (path : string) : M (world F) string :=
  let path := toLower path in
  if canDeleteFile path then
    do_unlink path;; mret path
  else
    set_again true;;
    cap ← do_malloc "tmp1" 256;
    tmp1 ← store cap ("/apgtmppackfolder" +:+ path);
    easy_move path tmp1 cap;;
    mret path.

(** [delete_node(path, sz_buff, fno)]: the result code and what is left in the
    path buffer.  One unit of fuel is spent per directory opened and per entry
    read.  A name that does not fit into the buffer is an [Overrun]: the code
    sets the result to 100 there but goes on to use the unterminated buffer. *)
Fixpoint delete_node (fuel : nat) (path : string) (sz_buff : Z) : M (world F) (Z * string) :=
  match fuel with
  | O => nofuel
  | S fuel =>
      '(res, dir) ← do_opendir path;
      if negb (res =? FR_OK) then mret (res, path)
      else
        '(res, path, dir) ← delete_entries fuel dir path sz_buff;
        do_closedir dir;;
        (if res =? FR_OK then (do_unlink path;; mret tt) else mret tt);;
        mret (res, path)
  end
with delete_entries (fuel : nat) (dir : fdir) (path : string) (sz_buff : Z)
    : M (world F) (Z * string * fdir) :=
  match fuel with
  | O => nofuel
  | S fuel =>
      '(res, fno, dir) ← do_readdir dir;
      if negb (res =? FR_OK) || streq (fname fno) "" then mret (res, path, dir)
      else
        full ← store sz_buff (path +:+ "/" +:+ fname fno);
        '(res, full) ←
          (if is_dir fno then delete_node fuel full sz_buff
           else (full ← delete_file full; mret (FR_OK, full)));
        let path := str_take (String.length path) full in
        if negb (res =? FR_OK) then mret (res, path, dir)
        else delete_entries fuel dir path sz_buff
  end.

(** The loop body of [performCleanup] for one root entry. *)
Definition cleanup_entry (fuel : nat) (fno : FILINFO) : M (world F) unit :=
  cap ← do_malloc "file" 8;
  file ← store cap ("/" +:+ fname fno);
  set_again false;;
  let file := toLower file in
  if is_dir fno then
    if canDeleteFolder file then
      cap ← do_malloc "tmpFolderName" 256;
      tmpFolderName ← store cap (fname fno);
      print ("Apagando " +:+ tmpFolderName +:+ "... ");;
      buff ← store 256 file;
      delete_node fuel buff 256;;
      w ← get;
      if w_again w then print ("Apagando " +:+ tmpFolderName +:+ "... OK!")
      else print "OK!"
    else if streq "/apgtmppackfolder" file then mret tt
    else print ("Pulando " +:+ fname fno)
  else
    if canDeleteFile file then
      print ("Apagando " +:+ fname fno +:+ "... ");;
      do_unlink file;;
      print "OK!"
    else
      print ("Pulando " +:+ fname fno);;
      cap ← do_malloc "tmp1" 256;
      tmp1 ← store cap ("/apgtmppackfolder" +:+ file);
      easy_rename file tmp1;;
      mret tt.

Fixpoint cleanup_loop (fuel : nat) (dir : fdir) : M (world F) (Z * fdir) :=
  match fuel with
  | O => nofuel
  | S fuel =>
      '(res, fno, dir) ← do_readdir dir;
      if negb (res =? FR_OK) || streq (fname fno) "" then mret (res, dir)
      else
        cleanup_entry fuel fno;;
        cleanup_loop fuel dir
  end.

Definition performCleanup (fuel : nat) : M (world F) Z :=
  print "Removendo tudo do antigo pacote...";;
  '(res, dir) ← do_opendir "/";
  if res =? FR_OK then
    '(res, dir) ← cleanup_loop fuel dir;
    do_closedir dir;;
    mret res
  else mret res.

(** The loop of [finishUpdate]; every path is assembled in a block of
    two pointer sizes, that is 8 bytes. *)
Fixpoint finish_loop (fuel : nat) (dir : fdir) : M (world F) (Z * fdir) :=
  match fuel with
  | O => nofuel
  | S fuel =>
      '(res, fno, dir) ← do_readdir dir;
      if negb (res =? FR_OK) || streq (fname fno) "" then mret (res, dir)
      else
        cap ← do_malloc "fileOrig" 8;
        fileOrig ← store cap ("/apgtmppackfolder/" +:+ fname fno);
        cap ← do_malloc "fileDest" 8;
        fileDest ← store cap ("/" +:+ fname fno);
        do_rename fileOrig fileDest;;
        finish_loop fuel dir
  end.

Definition finishUpdate (fuel : nat) : M (world F) Z :=
  print "Movendo arquivos novos...";;
  '(res, dir) ← do_opendir "/apgtmppackfolder";
  if res =? FR_OK then
    '(_, dir) ← finish_loop fuel dir;
    '(res, _) ← delete_node fuel "/apgtmppackfolder" 256;
    do_closedir dir;;
    mret res
  else mret res.

End Updater.

(** ** Safety of the removal

    For every file system, every amount of fuel and every way the run ends, the
    calls made by the removal obey the policy below. *)

Definition staging : string := "/apgtmppackfolder".
Definition staged (p : string) : Prop := String.prefix staging p = true.
Definition opened (t : list event) (p : string) : Prop :=
  exists q, EvFs (CallOpendir q) ∈ t /\ toLower q = toLower p.
Definition under (r p : string) : Prop := p = r \/ exists s, p = r +:+ "/" +:+ s.

Fixpoint no_slash (s : string) : bool :=
  match s with
  | EmptyString => true
  | String c s => negb (Ascii.eqb c slash) && no_slash s
  end.

(** An entry of the root directory. *)
Definition root_entry (p : string) : Prop := exists n, no_slash n = true /\ p = "/" +:+ n.

(** Which calls the removal may make, given the directories [dirok] that may
    be emptied:  only deletable files and directories opened before are
    unlinked, protected files are moved into the staging folder, and new
    directories are created nowhere else. *)
Definition removal_policy (dirok : string -> Prop) (t : list event) (c : fs_call) : Prop :=
  match c with
  | CallUnlink p =>
      staged p \/
      (toLower p = p /\ canDeleteFile p = true /\ (dirok p \/ root_entry p)) \/
      (opened t p /\ dirok (toLower p))
  | CallRename old new =>
      toLower old = old /\ canDeleteFile old = false /\ new = staging +:+ old /\
      (dirok old \/ root_entry old)
  | CallMkdir p => staged p
  | CallOpendir p => p = "/" \/ dirok (toLower p)
  end.

Definition rooted (p : string) : Prop := exists s, p = "/" +:+ s.

Lemma toLower_slash c : tolower c = slash -> c = slash.
Proof. destruct c as [[] [] [] [] [] [] [] []]; cbn; intros H; try done; discriminate. Qed.

Lemma rooted_toLower p q : toLower p = toLower q -> rooted q -> rooted p.
Proof.
  intros E [s ->]. destruct p as [|c p]; [discriminate|]. cbn in E. injection E as E1 E2.
  apply toLower_slash in E1 as ->. by exists p.
Qed.

Lemma rooted_app p q : rooted p -> rooted (p +:+ q).
Proof. intros [s ->]. exists (s +:+ q). by rewrite string_app_assoc. Qed.

Lemma staged_app p q : staged p -> staged (p +:+ q).
Proof.
  intros Hp. destruct (prefix_inv _ _ Hp) as [r ->]. unfold staged.
  rewrite string_app_assoc. apply prefix_app.
Qed.

Lemma opened_mono t t' p : t `suffix_of` t' -> opened t p -> opened t' p.
Proof. intros [l ->] (q & Hq & E). exists q. split; [|done]. apply elem_of_app. by right. Qed.

Section Removal.
Context {F : Type} `{FatFs F} `{!Allocator F}.
Variable dirok : string -> Prop.
Hypothesis dirok_child : forall p n, dirok p -> dirok (p +:+ "/" +:+ n).

#[local] Abbreviation okr := (ok (F:=F) (removal_policy dirok)).

Lemma ok_store t cap s : okr t (store cap s) (fun x t' => x = s /\ t' = t).
Proof. unfold store. destruct (_ <=? _); [by apply ok_ret|apply ok_overrun]. Qed.

Lemma ok_malloc t var n : okr t (do_malloc var n) (fun _ t' => t' = t).
Proof. intros w <- Ht. cbn. by split_and!. Qed.

Lemma ok_easy_rename t old new :
  staged new -> removal_policy dirok t (CallRename old new) ->
  (forall t', t `suffix_of` t' -> removal_policy dirok t' (CallRename old new)) ->
  okr t (easy_rename old new) (fun _ _ => True).
Proof.
  intros Hnew Hren Hmono. unfold easy_rename.
  eapply ok_bind; [apply ok_stat|]. intros r ? _ ->. destruct (r =? FR_OK); [|by apply ok_ret].
  eapply ok_bind; [apply ok_stat|]. intros r' ? _ ->.
  eapply (ok_bind _ _ _ _ (fun _ _ => True)).
  - destruct (r' =? FR_OK); [|by apply ok_ret].
    eapply ok_weaken; [apply ok_unlink; by left|done].
  - intros res t' Hs _. destruct (res =? FR_OK); [|by apply ok_ret].
    eapply ok_weaken; [apply ok_rename; auto|done].
Qed.

Lemma ok_make_dirs cap1 cap2 tokens : forall t tmp2,
  (staged tmp2 \/ exists l, tmp2 = "" /\ tokens = "apgtmppackfolder" :: l) ->
  okr t (make_dirs cap1 cap2 tokens tmp2) (fun _ _ => True).
Proof.
  induction tokens as [|p tokens IH]; intros t tmp2 Hst; cbn [make_dirs]; [by apply ok_ret|].
  destruct (strstr p ".") eqn:Ep.
  - apply IH. destruct Hst as [Hst|(l & _ & E)]; [by left|].
    injection E as -> ->. discriminate Ep.
  - assert (staged (tmp2 +:+ "/" +:+ p)) as Hst'.
    { destruct Hst as [Hst|(l & -> & E)]; [by apply staged_app|]. by injection E as -> ->. }
    eapply ok_bind; [apply ok_store|]. intros ? ? _ [-> ->].
    eapply ok_bind; [apply ok_store|]. intros ? ? _ [-> ->].
    eapply ok_bind; [apply ok_stat|]. intros r ? _ ->.
    eapply (ok_bind _ _ _ _ (fun _ _ => True)); [|intros; apply IH; by left].
    destruct (r =? FR_OK); [by apply ok_ret|].
    eapply ok_bind; [by apply ok_mkdir|]. intros. by apply ok_ret.
Qed.

Lemma ok_delete_file t path :
  rooted path -> dirok (toLower path) ->
  okr t (delete_file path) (fun r _ => r = toLower path).
Proof.
  intros Hr Hd. unfold delete_file. destruct (canDeleteFile (toLower path)) eqn:Ec.
  - eapply ok_bind; [apply ok_unlink; right; left; auto using toLower_idem|].
    intros. by apply ok_ret.
  - pose proof (toLower_idem path) as Hid.
    assert (Hr' : rooted (toLower path)) by (eapply rooted_toLower; [apply toLower_idem|done]).
    destruct Hr' as [s Es]. rewrite Es in *.
    eapply ok_bind; [apply ok_set_again|]. intros ? ? _ ->.
    eapply ok_bind; [apply ok_malloc|]. intros cap ? _ ->.
    eapply ok_bind; [apply ok_store|]. intros ? ? _ [-> ->].
    eapply (ok_bind _ _ _ _ (fun _ _ => True)); [|intros; by apply ok_ret].
    unfold easy_move.
    eapply ok_bind; [apply ok_malloc|]. intros cap1 ? _ ->.
    eapply ok_bind; [apply ok_malloc|]. intros cap2 ? _ ->.
    eapply (ok_bind _ _ _ _ (fun _ _ => True)).
    { apply ok_make_dirs. right. eexists. split; [done|]. reflexivity. }
    intros ? t1 _ _. eapply ok_bind; [apply ok_store|]. intros ? ? _ [-> ->].
    apply ok_easy_rename; [by apply (prefix_app staging)| |intros]; cbn; auto.
Qed.

Lemma ok_delete fuel :
  (forall t path sz, rooted path -> dirok (toLower path) ->
     okr t (delete_node fuel path sz) (fun '(_, p) _ => toLower p = toLower path)) /\
  (forall t dir path sz, rooted path -> dirok (toLower path) ->
     okr t (delete_entries fuel dir path sz) (fun '(_, p, _) _ => toLower p = toLower path)).
Proof.
  induction fuel as [|fuel [IHn IHe]]; [split; intros; apply ok_nofuel|]. split.
  - intros t path sz Hr Hd. cbn [delete_node].
    eapply ok_bind; [apply ok_opendir; by right|]. intros [res dir] ? _ ->.
    destruct (negb (res =? FR_OK)); [by apply ok_ret|].
    eapply ok_bind; [by apply IHe|]. intros [[res' path'] dir'] t' Hs Ep.
    eapply ok_bind; [apply ok_closedir|]. intros ? ? _ ->.
    eapply (ok_bind _ _ _ _ (fun _ _ => True)); [|intros; by apply ok_ret].
    destruct (res' =? FR_OK); [|by apply ok_ret].
    eapply ok_bind; [apply ok_unlink|intros; by apply ok_ret].
    right. right. rewrite Ep. split; [|done].
    eapply opened_mono; [exact Hs|]. exists path. split; [left|done].
  - intros t dir path sz Hr Hd. cbn [delete_entries].
    eapply ok_bind; [apply ok_readdir|]. intros [[res fno] dir'] ? _ ->.
    destruct (negb (res =? FR_OK) || streq (fname fno) ""); [by apply ok_ret|].
    eapply ok_bind; [apply ok_store|]. intros ? ? _ [-> ->].
    set (full := path +:+ "/" +:+ fname fno).
    assert (Hrf : rooted full) by (by apply rooted_app).
    assert (Hdf : dirok (toLower full)).
    { unfold full. rewrite !toLower_app. by apply dirok_child. }
    eapply (ok_bind _ _ _ _ (fun '(_, p) _ => toLower p = toLower full)).
    { destruct (is_dir fno); [by apply IHn|].
      eapply ok_bind; [by apply ok_delete_file|]. intros ? ? _ ->.
      apply ok_ret. apply toLower_idem. }
    intros [res' full'] t' Hs Ef.
    assert (Etk : toLower (str_take (String.length path) full') = toLower path).
    { rewrite <- str_take_toLower, Ef. unfold full. rewrite toLower_app, <- (toLower_length path).
      apply str_take_app. }
    destruct (negb (res' =? FR_OK)); [by apply ok_ret|].
    eapply ok_weaken; [apply IHe|].
    + eapply rooted_toLower; eauto.
    + by rewrite Etk.
    + intros [[? p] ?] ? E. by rewrite E.
Qed.

End Removal.

(** *** The clean install *)

(** Directory entries carry plain names. *)
Class PlainNames (F : Type) `{FatFs F} :=
  plain_names : forall d (f : F) r i d' f', f_readdir d f = (r, i, d', f') -> no_slash (fname i) = true.

(** What [performCleanup] may empty: a folder of the root that is not on the
    list of folders to keep, and what is below it. *)
Definition clean_dir (p : string) : Prop :=
  exists n, no_slash n = true /\ canDeleteFolder ("/" +:+ n) = true /\ under ("/" +:+ n) p.

Lemma clean_dir_child p n : clean_dir p -> clean_dir (p +:+ "/" +:+ n).
Proof.
  intros (k & Hk & Hc & [->|[s ->]]); exists k; (split; [done|]; split; [done|]); right.
  - by exists n.
  - exists (s +:+ "/" +:+ n). by rewrite !string_app_assoc.
Qed.

Lemma no_slash_toLower s : no_slash (toLower s) = no_slash s.
Proof.
  induction s as [|c s IH]; cbn; [done|]. rewrite IH. f_equal. f_equal.
  destruct (Ascii.eqb_spec (tolower c) slash) as [E|E], (Ascii.eqb_spec c slash) as [E'|E']; try done.
  - by apply toLower_slash in E.
  - subst. by contradict E.
Qed.

Section Cleanup.
Context {F : Type} `{PlainNames F} `{!Allocator F}.

#[local] Abbreviation okc := (ok (F:=F) (removal_policy clean_dir)).

Lemma ok_readdir_plain t d :
  okc t (do_readdir d) (fun '(_, i, _) t' => t' = t /\ no_slash (fname i) = true).
Proof.
  intros w <- Ht. unfold do_readdir, mbind, M_bind, get.
  destruct (f_readdir d (w_fs w)) as [[[r i] d'] f] eqn:E. cbn. split_and!; [done|done|].
  intros [[? ?] ?] [= <- <- <-]. split; [done|]. by eapply plain_names.
Qed.

Lemma ok_cleanup_entry t fuel fno :
  no_slash (fname fno) = true -> okc t (cleanup_entry fuel fno) (fun _ _ => True).
Proof.
  intros Hn. unfold cleanup_entry.
  eapply ok_bind; [apply ok_malloc|]. intros cap ? _ ->.
  eapply ok_bind; [apply ok_store|]. intros ? ? _ [-> ->].
  eapply ok_bind; [apply ok_set_again|]. intros ? ? _ ->.
  set (n := toLower (fname fno)).
  assert (Hn' : no_slash n = true) by (unfold n; by rewrite no_slash_toLower).
  change (toLower ("/" +:+ fname fno)) with ("/" +:+ n). cbv zeta.
  assert (Hre : root_entry ("/" +:+ n)) by (by exists n).
  assert (Hlow : toLower ("/" +:+ n) = "/" +:+ n) by (unfold n; by rewrite toLower_app, toLower_idem).
  destruct (is_dir fno).
  - destruct (canDeleteFolder ("/" +:+ n)) eqn:Ec.
    + eapply ok_bind; [apply ok_malloc|]. intros cap' ? _ ->.
      eapply ok_bind; [apply ok_store|]. intros ? ? _ [-> ->].
      eapply ok_bind; [apply ok_print|]. intros ? ? _ ->.
      eapply ok_bind; [apply ok_store|]. intros ? ? _ [-> ->].
      eapply ok_bind; [apply (ok_delete clean_dir clean_dir_child)|].
      * by exists n.
      * exists n. split_and!; [done|done|left]. exact Hlow.
      * intros ? t' _ _. eapply (ok_bind _ _ _ _ (fun _ _ => True)); [by apply ok_get|].
        intros w ? _ _. destruct (w_again w); (eapply ok_weaken; [apply ok_print|done]).
    + destruct (streq _ _); [by apply ok_ret|]. eapply ok_weaken; [apply ok_print|done].
  - destruct (canDeleteFile ("/" +:+ n)) eqn:Ec.
    + eapply ok_bind; [apply ok_print|]. intros ? ? _ ->.
      eapply ok_bind; [apply ok_unlink; right; left; auto|]. intros ? ? _ ->.
      eapply ok_weaken; [apply ok_print|done].
    + eapply ok_bind; [apply ok_print|]. intros ? ? _ ->.
      eapply ok_bind; [apply ok_malloc|]. intros cap' ? _ ->.
      eapply ok_bind; [apply ok_store|]. intros ? ? _ [-> ->].
      eapply (ok_bind _ _ _ _ (fun _ _ => True)); [|intros; by apply ok_ret].
      apply ok_easy_rename; [by apply (prefix_app staging)| |intros]; cbn; auto.
Qed.

Lemma ok_cleanup_loop fuel : forall t dir, okc t (cleanup_loop fuel dir) (fun _ _ => True).
Proof.
  induction fuel as [|fuel IH]; intros t dir; [apply ok_nofuel|]. cbn [cleanup_loop].
  eapply ok_bind; [apply ok_readdir_plain|]. intros [[res fno] dir'] ? _ [-> Hn].
  destruct (negb (res =? FR_OK) || streq (fname fno) ""); [by apply ok_ret|].
  eapply ok_bind; [by apply ok_cleanup_entry|]. intros. apply IH.
Qed.

Lemma ok_performCleanup t fuel : okc t (performCleanup fuel) (fun _ _ => True).
Proof.
  unfold performCleanup. eapply ok_bind; [apply ok_print|]. intros ? ? _ ->.
  eapply ok_bind; [apply ok_opendir; by left|]. intros [res dir] ? _ ->.
  destruct (res =? FR_OK); [|by apply ok_ret].
  eapply ok_bind; [apply ok_cleanup_loop|]. intros [res' dir'] ? _ _.
  eapply ok_bind; [apply ok_closedir|]. intros. by apply ok_ret.
Qed.

(** C4: whatever the file system answers and however the run ends, the clean install only
    unlinks deletable files and directories it has opened, moves protected files into the
    staging folder, creates directories only there, and opens only the root and folders that
    may be deleted. *)
Theorem performCleanup_policy fuel (w : world F) :
  w_trace w = [] -> obeys (removal_policy clean_dir) (w_trace (snd (performCleanup fuel w))).
Proof.
  intros Hw. apply (ok_performCleanup [] fuel w Hw). intros [|? ?] ? ? E; discriminate E.
Qed.

End Cleanup.

(** *** User folders of the root are never entered *)

(** The folders of the root that the code keeps. *)
Definition kept_roots : list string :=
  [ "backup"; "emummc"; "emutendo"; "jksv"; "nintendo"; "retroarch"; "roms" ].

(** The path a call removes, moves away or lists. *)
Definition target (c : fs_call) : option string :=
  match c with
  | CallUnlink p | CallRename p _ | CallOpendir p => Some p
  | CallMkdir _ => None
  end.

Lemma top_unique n k p q :
  no_slash n = true -> no_slash k = true ->
  n +:+ String slash p = k +:+ String slash q -> n = k.
Proof.
  revert k. induction n as [|c n IH]; intros [|d k] Hn Hk E; try done.
  - unfold String.append in E. injection E as <- _. discriminate Hk.
  - rewrite str_cons_app in E. injection E as -> _. discriminate Hn.
  - rewrite !str_cons_app in E. injection E as -> E. cbn in Hn, Hk.
    apply andb_true_iff in Hn as [_ Hn]. apply andb_true_iff in Hk as [_ Hk].
    f_equal. eauto.
Qed.

Lemma no_slash_app_slash n k q : no_slash n = true -> n = k +:+ String slash q -> False.
Proof.
  intros Hn ->. induction k as [|c k IH].
  - cbn in Hn. discriminate Hn.
  - rewrite str_cons_app in Hn. cbn in Hn. apply andb_true_iff in Hn as [_ Hn]. auto.
Qed.

Lemma kept_root_spec k :
  k ∈ kept_roots ->
  no_slash k = true /\ canDeleteFolder ("/" +:+ k) = false /\
  forall q, String.prefix staging ("/" +:+ k +:+ q) = false.
Proof.
  unfold kept_roots. rewrite !elem_of_cons, elem_of_nil.
  intros [->|[->|[->|[->|[->|[->|[->|[]]]]]]]]; by split_and!.
Qed.

Lemma staged_lower p : staged p -> staged (toLower p).
Proof.
  intros Hp. destruct (prefix_inv _ _ Hp) as [r ->]. rewrite toLower_app. apply (prefix_app staging).
Qed.

Lemma clean_dir_not_kept k s :
  k ∈ kept_roots -> clean_dir ("/" +:+ k +:+ "/" +:+ s) -> False.
Proof.
  intros Hk%kept_root_spec (n & Hn & Hc & Hu). destruct Hk as (Hk & Hkc & _).
  destruct Hu as [E|[q E]].
  - injection E as E. by eapply no_slash_app_slash; [exact Hn|].
  - injection E as E. apply top_unique in E; [|done|done].
    rewrite E, str_nil_app, Hc in Hkc. discriminate Hkc.
Qed.

(** C20: nothing inside the user's own root folders (backup, emummc, emutendo, jksv, nintendo,
    retroarch, roms) is removed, moved away or even listed by the clean install, in any letter
    case and on any file system. *)
Theorem performCleanup_keeps_user_folders {F} `{PlainNames F} `{!Allocator F} fuel (w : world F) k s c p :
  w_trace w = [] -> k ∈ kept_roots ->
  EvFs c ∈ w_trace (snd (performCleanup fuel w)) -> target c = Some p ->
  toLower p <> "/" +:+ k +:+ "/" +:+ s.
Proof.
  intros Hw Hk Hin Ht Ep.
  pose proof (ok_performCleanup [] fuel w Hw ltac:(by intros [|? ?] ? ? E; discriminate E))
    as (_ & Hob & _).
  apply list_elem_of_split in Hin as (t1 & t2 & Et). pose proof (Hob _ _ _ Et) as Hal.
  pose proof (kept_root_spec _ Hk) as (Hns & _ & Hst).
  assert (Hnst : staged p -> False).
  { intros Hp%staged_lower. unfold staged in Hp. rewrite Ep, Hst in Hp. discriminate. }
  assert (Hnre : root_entry (toLower p) -> False).
  { intros (n & Hn & E). rewrite Ep in E. injection E as E.
    by eapply no_slash_app_slash; [exact Hn|]. }
  assert (Hncd : clean_dir (toLower p) -> False).
  { rewrite Ep. by apply clean_dir_not_kept. }
  destruct c; cbn in Ht, Hal; try discriminate; injection Ht as ->.
  - destruct Hal as [?|[(El & _ & [Hd|Hr])|[_ Hd]]]; auto;
      rewrite El in Hncd, Hnre; auto.
  - destruct Hal as (El & _ & _ & [Hd|Hr]); rewrite El in Hncd, Hnre; auto.
  - destruct Hal as [->|?]; auto.
    apply (f_equal String.length) in Ep. rewrite !string_length_app in Ep. cbn in Ep. lia.
Qed.

(** ** Runs on a volume in memory *)

#[export] Instance mem_plain : PlainNames (gmap string Z).
Proof.
  intros d v r i d' v' E. apply MemVolume.plain_readdir in E.
  revert E. generalize (fname i). intros s. induction s as [|c s IH]; cbn; [done|].
  intros [H1 H2]%andb_true_iff. by rewrite H1, IH.
Qed.

(** An allocator with nothing to reuse. *)
#[export] Instance mem_alloc : Allocator (gmap string Z).
Proof. refine {| malloc_cap _ n _ := ALIGN n 32 |}; intros; lia. Defined.

(** Evaluates a run and compares the volume it leaves with the decision procedure
    for map equality. *)
Ltac run_volume :=
  split; [vm_compute; reflexivity|apply (bool_decide_unpack _); vm_compute; exact I].

Definition ex_card : gmap string Z := MemVolume.mk
  [ "/switch"; "/switch/tinfoil"; "/emummc"; "/atmosphere" ]
  [ "/switch/tinfoil/options.json"; "/switch/app.nro"; "/emummc/sd.ini"; "/atmosphere/package3";
    "/boot.dat" ].

(** The clean install on a small card. *)
Example performCleanup_run :
  let rw := performCleanup 40 (MemVolume.start ex_card) in
  fst rw = Ret FR_OK /\
  w_fs (snd rw) = MemVolume.mk
    [ "/emummc"; "/apgtmppackfolder"; "/apgtmppackfolder/switch"; "/apgtmppackfolder/switch/tinfoil" ]
    [ "/emummc/sd.ini"; "/apgtmppackfolder/switch/tinfoil/options.json" ].
Proof. run_volume. Qed.

Lemma performCleanup_policy_witness :
  obeys (removal_policy clean_dir) (w_trace (snd (performCleanup 40 (MemVolume.start ex_card)))).
Proof. apply performCleanup_policy. reflexivity. Defined.

Lemma performCleanup_keeps_user_folders_witness :
  toLower "/atmosphere" <> "/" +:+ "emummc" +:+ "/" +:+ "sd.ini".
Proof.
  apply (performCleanup_keeps_user_folders 40 (MemVolume.start ex_card) "emummc" "sd.ini"
           (CallOpendir "/atmosphere")).
  - reflexivity.
  - unfold kept_roots. by right; left.
  - apply (bool_decide_unpack _). vm_compute. exact I.
  - reflexivity.
Defined.

(** ** Buffers that are too small *)

Lemma store_overrun {S} cap s (st : S) : cap < strlen s + 1 -> store cap s st = (Overrun, st).
Proof. intros Hc. unfold store. by rewrite (proj2 (Z.leb_gt _ _)). Qed.

Lemma store_fits {S} cap s (st : S) : strlen s + 1 <= cap -> store cap s st = (Ret s, st).
Proof. intros Hc. unfold store. by rewrite (proj2 (Z.leb_le _ _)). Qed.

Section Overruns.
Context {F : Type} `{FatFs F} `{!Allocator F}.

Lemma malloc_cap_8 var f : 32 <= malloc_cap var 8 f <= 128.
Proof.
  pose proof (malloc_cap_lo var 8 f ltac:(lia)). pose proof (malloc_cap_hi var 8 f ltac:(lia)).
  change (ALIGN 8 32) with 32 in *. lia.
Qed.

(** C21: [finishUpdate] assembles "/apgtmppackfolder/" and the entry's name in a block sized by
    two pointers.  A staged entry whose name is longer than 13 characters is written past the
    end of a fresh block, and one whose name is longer than 109 characters past the end of
    every block the allocator can give; every shorter name fits and is renamed. *)
Theorem finish_long_name_overruns fuel dir (w : world F) fno dir' f' :
  f_readdir dir (w_fs w) = (FR_OK, fno, dir', f') -> fname fno <> "" ->
  (109 < strlen (fname fno) \/
   (13 < strlen (fname fno) /\ malloc_cap "fileOrig" 8 f' = ALIGN 8 32) ->
   fst (finish_loop (S fuel) dir w) = Overrun) /\
  (strlen (fname fno) <= 13 ->
   finish_loop (S fuel) dir w =
   (do_rename ("/apgtmppackfolder/" +:+ fname fno) ("/" +:+ fname fno);; finish_loop fuel dir')
     (World f' (w_trace w) (w_again w))).
Proof.
  intros E Hne. cbn [finish_loop].
  unfold do_readdir, do_malloc, mbind, M_bind, get, set_fs, modify, mret, M_ret.
  rewrite E. cbn [fst snd w_fs]. change (negb (FR_OK =? FR_OK)) with false. cbn [orb].
  destruct (streq_spec (fname fno) "") as [En|_]; [done|].
  pose proof (malloc_cap_8 "fileOrig" f') as Ho. pose proof (malloc_cap_8 "fileDest" f') as Hd.
  split; intros Hl.
  - rewrite store_overrun; [done|]. rewrite strlen_app.
    change (strlen "/apgtmppackfolder/") with 18. change (ALIGN 8 32) with 32 in Hl. cbn [w_fs]. lia.
  - rewrite store_fits by (rewrite strlen_app; change (strlen "/apgtmppackfolder/") with 18; cbn [w_fs] in *; lia).
    cbn [w_fs]. rewrite store_fits by (rewrite strlen_app; change (strlen "/") with 1; lia).
    reflexivity.
Qed.

(** [performCleanup] writes past every block it can get for a root entry whose name is longer
    than 126 characters, and past a fresh one for a name longer than 30. *)
Theorem cleanup_long_name_overruns fuel fno (w : world F) :
  126 < strlen (fname fno) \/
  (30 < strlen (fname fno) /\ malloc_cap "file" 8 (w_fs w) = ALIGN 8 32) ->
  fst (cleanup_entry fuel fno w) = Overrun.
Proof.
  intros Hl. unfold cleanup_entry, do_malloc, mbind, M_bind, get, mret, M_ret.
  pose proof (malloc_cap_8 "file" (w_fs w)) as Hc.
  rewrite store_overrun; [done|]. rewrite strlen_app.
  change (strlen "/") with 1. change (ALIGN 8 32) with 32 in Hl. lia.
Qed.

End Overruns.

(** An allocator that always reuses the largest block it may. *)
Definition roomy_alloc : Allocator (gmap string Z).
Proof. refine {| malloc_cap _ n _ := ALIGN n 32 + 96 |}; intros; lia. Defined.

Definition ex_long : string :=
  "a-staged-file-whose-name-is-longer-than-a-hundred-and-nine-characters-overruns-even-the-largest-block-of-the-heap.txt".

Lemma finish_long_name_overruns_witness :
  fst (finish_loop 1 [FilInfo "hekate_ctcaer_5.5.6.bin" 0] (MemVolume.start ∅)) = Overrun /\
  fst (@finish_loop _ MemVolume.mem_fatfs roomy_alloc 1 [FilInfo ex_long 0] (MemVolume.start ∅)) = Overrun.
Proof.
  split.
  - eapply (@finish_long_name_overruns _ MemVolume.mem_fatfs mem_alloc 0
      [FilInfo "hekate_ctcaer_5.5.6.bin" 0]); [reflexivity|done|].
    right. split; [vm_compute; reflexivity|reflexivity].
  - eapply (@finish_long_name_overruns _ MemVolume.mem_fatfs roomy_alloc 0
      [FilInfo ex_long 0]); [reflexivity|done|].
    left. vm_compute. reflexivity.
Defined.

Lemma cleanup_long_name_overruns_witness :
  fst (cleanup_entry 1 (FilInfo "a-file-name-of-thirty-two-chars." 0) (MemVolume.start ∅)) = Overrun.
Proof.
  apply cleanup_long_name_overruns. right. split; [vm_compute; reflexivity|reflexivity].
Defined.

(** A staged folder whose name is taken at the destination is lost: [finishUpdate] ignores
    the failed rename, empties the staging folder and reports success.  Here the new package
    brings a file for the kept folder "retroarch". *)
Theorem finishUpdate_drops_conflicts :
  let card := MemVolume.mk
    [ "/retroarch"; "/apgtmppackfolder"; "/apgtmppackfolder/retroarch" ]
    [ "/retroarch/old.cfg"; "/apgtmppackfolder/retroarch/new.cfg" ] in
  let rw := finishUpdate 40 (MemVolume.start card) in
  fst rw = Ret FR_OK /\ w_fs (snd rw) = MemVolume.mk [ "/retroarch" ] [ "/retroarch/old.cfg" ].
Proof. run_volume. Qed.

(** A package without conflicts is moved into place completely. *)
Example finishUpdate_run :
  let card := MemVolume.mk
    [ "/emummc"; "/apgtmppackfolder"; "/apgtmppackfolder/switch"; "/apgtmppackfolder/bootloader" ]
    [ "/emummc/sd.ini"; "/apgtmppackfolder/switch/app.nro"; "/apgtmppackfolder/boot.dat" ] in
  let rw := finishUpdate 40 (MemVolume.start card) in
  fst rw = Ret FR_OK /\
  w_fs (snd rw) = MemVolume.mk [ "/emummc"; "/switch"; "/bootloader" ]
                        [ "/emummc/sd.ini"; "/switch/app.nro"; "/boot.dat" ].
Proof. run_volume. Qed.
