(* ===== verification/Launch.v ===== *)
(** * Launch

    Chainloading of bootloader/main.c: [reloc_patcher] prepares a relocation
    stub in DRAM, [launch_payload] reads a payload file behind it and jumps. *)

From S2P Require Import Mem FatFs.

Definition IPL_LOAD_ADDR : Z := 0x40008000.
Definition RELOC_META_OFF : Z := 0x7C.
Definition PATCHED_RELOC_SZ : Z := 0x94.
Definition PATCHED_RELOC_STACK : Z := 0x40007000.
Definition PATCHED_RELOC_ENTRY : Z := 0x40010000.
Definition EXT_PAYLOAD_ADDR : Z := 0xC0000000.
Definition RCM_PAYLOAD_ADDR : Z := EXT_PAYLOAD_ADDR + ALIGN PATCHED_RELOC_SZ 0x10.
Definition COREBOOT_END_ADDR : Z := 0xD0000000.
Definition CBFS_DRAM_EN_ADDR : Z := 0x4003e000.
Definition CBFS_DRAM_MAGIC : Z := 0x4452414D.

(** [byte_swap_32] of utils/util.h. *)
Definition byte_swap_32 (num : Z) : Z :=
  Z.lor (Z.lor (Z.lor (Z.land (Z.shiftr num 24) 0xff) (Z.land (u32 (Z.shiftl num 8)) 0xff0000))
               (Z.land (Z.shiftr num 8) 0xff00))
        (Z.land (u32 (Z.shiftl num 24)) 0xff000000).

(** [reloc_patcher(payload_dst, payload_src, payload_size)]; [coreboot_addr] is
    the static variable of that name. *)
Definition reloc_patcher (coreboot_addr : Z) (payload_dst payload_src payload_size : Z)
    (m : mem) : mem :=
  let m := memcpy m payload_src IPL_LOAD_ADDR (Z.to_nat PATCHED_RELOC_SZ) in
  let relocator := payload_src + RELOC_META_OFF in
  let m := st32 m relocator (u32 (payload_dst - ALIGN PATCHED_RELOC_SZ 0x10)) in
  let m := st32 m (relocator + 4) PATCHED_RELOC_STACK in
  let m := st32 m (relocator + 8) (u32 (payload_dst + payload_size)) in
  let m := st32 m (relocator + 12) payload_dst in
  if payload_size =? 0x7000 then
    let m := memcpy m (payload_src + ALIGN PATCHED_RELOC_SZ 0x10) coreboot_addr
               (Z.to_nat 0x7000) in
    st32 m CBFS_DRAM_EN_ADDR CBFS_DRAM_MAGIC
  else m.

(** How a launch attempt ends: back to the caller with the value 1, or in a jump
    after [hw_reinit_workaround(coreboot, magic)]. *)
Inductive launched :=
| Returned (v : Z) (m : mem)
| Jumped (addr : Z) (coreboot : bool) (magic : Z) (m : mem).

Section Launch.
Context {F : Type} `{FatFs F}.

(** [mounted] is what [sd_mount()] returns, [t210b01] is [h_cfg.t210b01],
    [coreboot0] is [coreboot_addr] before the call and [b_cfg] the boot
    configuration block.  On a read error the bytes that were transferred are in
    memory. *)
Definition launch_payload (mounted t210b01 : bool) (coreboot0 : Z) (b_cfg : list Z)
    (path : string) (update : bool) (f : F) (m : mem) : launched :=
  if negb mounted then Returned 1 m
  else if c_true (f_open_read path f) then Returned 1 m
  else
    let '(rd, data) := f_read_all path f in
    let size := u32 (f_size path f) in
    let small := size <? 0x30000 in
    let coreboot_addr := if small then coreboot0 else u32 (COREBOOT_END_ADDR - size) in
    let buf := if small then RCM_PAYLOAD_ADDR else coreboot_addr in
    if negb small && t210b01 then Returned 1 m
    else
      let m := st_bytes m buf data in
      if c_true rd then Returned 1 m
      else
        let '(m, coreboot, magic) :=
          if small then
            let m := if update
                     then st_bytes m (RCM_PAYLOAD_ADDR + PATCHED_RELOC_SZ) b_cfg
                     else reloc_patcher coreboot_addr PATCHED_RELOC_ENTRY EXT_PAYLOAD_ADDR
                            (ALIGN size 0x10) m in
            (m, false, byte_swap_32 (ld32 m (buf + size - 4)))
          else
            (reloc_patcher coreboot_addr PATCHED_RELOC_ENTRY EXT_PAYLOAD_ADDR 0x7000 m, true, 0) in
        Jumped (if update then RCM_PAYLOAD_ADDR else EXT_PAYLOAD_ADDR) coreboot magic m.

End Launch.

(** ** The image that is jumped to *)

Lemma reloc_patcher_stub c dst size m :
  0 <= dst < 0x100000000 -> 0 <= size < 0x100000000 ->
  let m' := reloc_patcher c dst EXT_PAYLOAD_ADDR size m in
  ld32 m' (EXT_PAYLOAD_ADDR + 0x7C) = u32 (dst - 0xA0) /\
  ld32 m' (EXT_PAYLOAD_ADDR + 0x80) = PATCHED_RELOC_STACK /\
  ld32 m' (EXT_PAYLOAD_ADDR + 0x84) = u32 (dst + size) /\
  ld32 m' (EXT_PAYLOAD_ADDR + 0x88) = dst /\
  (forall i, 0 <= i < 0x7C \/ 0x8C <= i < 0x94 ->
     ld8 m' (EXT_PAYLOAD_ADDR + i) = ld8 m (IPL_LOAD_ADDR + i)).
Proof.
  intros Hd Hs. cbv zeta. unfold reloc_patcher. change (ALIGN PATCHED_RELOC_SZ 0x10) with 0xA0.
  unfold EXT_PAYLOAD_ADDR, RELOC_META_OFF, CBFS_DRAM_EN_ADDR.
  set (m0 := memcpy m _ _ _).
  set (m4 := st32 (st32 (st32 (st32 m0 _ _) _ _) _ _) _ _).
  assert (Hm4 : forall x, 0xC0000000 <= x < 0xC00000A0 ->
            ld8 (if size =? 0x7000
                 then st32 (memcpy m4 (0xC0000000 + 0xA0) c (Z.to_nat 0x7000)) 0x4003e000 CBFS_DRAM_MAGIC
                 else m4) x = ld8 m4 x).
  { intros x Hx. destruct (size =? 0x7000); [|done].
    rewrite ld8_st32_ne, ld8_memcpy_ne by lia. done. }
  set (m5 := if size =? 0x7000 then _ else m4) in *.
  assert (Hs5 : forall x, 0xC0000000 <= x -> x + 4 <= 0xC00000A0 -> ld32 m5 x = ld32 m4 x).
  { intros x H1 H2. apply ld32_same. intros y Hy. apply Hm4. lia. }
  rewrite !Hs5 by lia. pose proof (u32_range (dst - 0xA0)). pose proof (u32_range (dst + size)).
  change (0xC0000000 + 0x80) with (0xC0000000 + 0x7C + 4).
  change (0xC0000000 + 0x84) with (0xC0000000 + 0x7C + 8).
  change (0xC0000000 + 0x88) with (0xC0000000 + 0x7C + 12).
  unfold m4, PATCHED_RELOC_STACK. split_and!; try (mem_simpl; done).
  intros i Hi. rewrite Hm4 by lia. unfold m4. mem_simpl.
  apply ld8_memcpy; unfold IPL_LOAD_ADDR, PATCHED_RELOC_SZ; lia.
Qed.

(** A payload body is left alone by the patcher unless its size is 0x7000. *)
Lemma reloc_patcher_body c dst size m x :
  size <> 0x7000 -> RCM_PAYLOAD_ADDR <= x ->
  ld8 (reloc_patcher c dst EXT_PAYLOAD_ADDR size m) x = ld8 m x.
Proof.
  intros Hs Hx. unfold reloc_patcher. rewrite (proj2 (Z.eqb_neq _ _) Hs).
  change RCM_PAYLOAD_ADDR with 0xC00000A0 in Hx.
  unfold EXT_PAYLOAD_ADDR, RELOC_META_OFF, PATCHED_RELOC_SZ. mem_simpl.
  apply ld8_memcpy_ne. lia.
Qed.

Section Properties.
Context {F : Type} `{FatFs F}.

(** C22: launching a payload of less than 192 KiB whose size does not round up to 0x7000 jumps to
    a relocation stub that moves exactly this payload: the stub is the loader's own code, copied
    byte by byte from where it runs, with its four metadata words patched to the entry point,
    the stack and the aligned end; the file's bytes follow it unchanged, and the magic handed
    to the hardware reset is the byte-swapped last word of the file. *)
Theorem launch_payload_image t210b01 c0 b_cfg path (f : F) m data :
  f_open_read path f = FR_OK -> f_read_all path f = (FR_OK, data) ->
  f_size path f = Z.of_nat (length data) ->
  Forall (fun b => 0 <= b < 256) data ->
  Z.of_nat (length data) < 0x30000 -> ALIGN (Z.of_nat (length data)) 0x10 <> 0x7000 ->
  exists magic m',
    launch_payload true t210b01 c0 b_cfg path false f m =
      Jumped EXT_PAYLOAD_ADDR false magic m' /\
    (forall i b, data !! i = Some b -> ld8 m' (RCM_PAYLOAD_ADDR + Z.of_nat i) = b) /\
    ld32 m' (EXT_PAYLOAD_ADDR + 0x88) = PATCHED_RELOC_ENTRY /\
    ld32 m' (EXT_PAYLOAD_ADDR + 0x84) =
      PATCHED_RELOC_ENTRY + ALIGN (Z.of_nat (length data)) 0x10 /\
    ld32 m' (EXT_PAYLOAD_ADDR + 0x80) = PATCHED_RELOC_STACK /\
    ld32 m' (EXT_PAYLOAD_ADDR + 0x7C) = PATCHED_RELOC_ENTRY - 0xA0 /\
    (forall i, 0 <= i < 0x7C \/ 0x8C <= i < 0x94 ->
       ld8 m' (EXT_PAYLOAD_ADDR + i) = ld8 m (IPL_LOAD_ADDR + i)) /\
    magic = byte_swap_32 (ld32 m' (RCM_PAYLOAD_ADDR + Z.of_nat (length data) - 4)).
Proof.
  intros Ho Hr Hfs Hb Hlen Hal. unfold launch_payload. rewrite Ho, Hr, Hfs.
  cbn [negb c_true FR_OK Z.eqb]. set (n := Z.of_nat (length data)) in *.
  assert (0 <= n) by lia. rewrite u32_id by lia.
  rewrite (proj2 (Z.ltb_lt n 0x30000) Hlen). cbn [negb andb].
  assert (Han : 0 <= ALIGN n 0x10 < 0x30010).
  { pose proof (ALIGN_spec n 4 ltac:(lia) ltac:(lia)) as E. change (2 ^ 4) with 16 in E.
    rewrite E by lia. Z.div_mod_to_equations. lia. }
  do 2 eexists. split; [done|].
  destruct (reloc_patcher_stub c0 PATCHED_RELOC_ENTRY (ALIGN n 0x10)
    (st_bytes m RCM_PAYLOAD_ADDR data)) as (H1 & H2 & H3 & H4 & H5);
    [unfold PATCHED_RELOC_ENTRY; lia|lia|].
  split_and!; [|done| |done|by rewrite H1| |done].
  - intros i b Hi. rewrite reloc_patcher_body by lia.
    rewrite (ld8_st_bytes _ _ _ _ _ Hi). apply u8_id.
    by eapply Forall_lookup_1 in Hb.
  - rewrite H3. apply u32_id. unfold PATCHED_RELOC_ENTRY. lia.
  - intros i Hi. rewrite (H5 i Hi). apply ld8_st_bytes_ne.
    change RCM_PAYLOAD_ADDR with 0xC00000A0. unfold IPL_LOAD_ADDR. lia.
Qed.

(** A payload whose size rounds up to exactly 0x7000 is taken for a coreboot image: its first
    0x7000 bytes are replaced by whatever lies at the stale coreboot address before the jump. *)
Theorem launch_payload_clobbers_7000 t210b01 c0 b_cfg path (f : F) m data :
  f_open_read path f = FR_OK -> f_read_all path f = (FR_OK, data) ->
  f_size path f = Z.of_nat (length data) ->
  Z.of_nat (length data) < 0x30000 -> ALIGN (Z.of_nat (length data)) 0x10 = 0x7000 ->
  0 <= c0 -> c0 + 0x7000 <= EXT_PAYLOAD_ADDR ->
  exists magic m',
    launch_payload true t210b01 c0 b_cfg path false f m =
      Jumped EXT_PAYLOAD_ADDR false magic m' /\
    forall i, 0 <= i < 0x7000 -> ld8 m' (RCM_PAYLOAD_ADDR + i) = ld8 m (c0 + i).
Proof.
  intros Ho Hr Hfs Hlen Hal Hc0 Hc1. unfold launch_payload. rewrite Ho, Hr, Hfs.
  cbn [negb c_true FR_OK Z.eqb]. set (n := Z.of_nat (length data)) in *.
  assert (0 <= n) by lia. rewrite u32_id by lia.
  rewrite (proj2 (Z.ltb_lt n 0x30000) Hlen), Hal. cbn [negb andb].
  do 2 eexists. split; [done|]. intros i Hi.
  unfold reloc_patcher. rewrite Z.eqb_refl.
  change (ALIGN PATCHED_RELOC_SZ 0x10) with 0xA0.
  change RCM_PAYLOAD_ADDR with (0xC0000000 + 0xA0).
  unfold EXT_PAYLOAD_ADDR, RELOC_META_OFF, PATCHED_RELOC_SZ, CBFS_DRAM_EN_ADDR in *.
  rewrite ld8_st32_ne by lia. rewrite ld8_memcpy by lia.
  rewrite !ld8_st32_ne by lia. rewrite ld8_memcpy_ne by lia.
  apply ld8_st_bytes_ne. lia.
Qed.

(** An image of 192 KiB or more is never launched on a Mariko unit; the memory is left as it
    was. *)
Theorem launch_payload_no_coreboot_on_mariko mounted c0 b_cfg path update (f : F) m :
  0x30000 <= u32 (f_size path f) ->
  launch_payload mounted true c0 b_cfg path update f m = Returned 1 m.
Proof.
  intros Hsz. unfold launch_payload. destruct mounted; [|done]. cbn [negb].
  destruct (c_true _); [done|]. destruct (f_read_all path f) as [rd data].
  by rewrite (proj2 (Z.ltb_ge _ _) Hsz).
Qed.

End Properties.

(** ** Witnesses: a card with one file *)

Definition one_file : FatFs (list Z) := {|
  fdir := unit;
  f_stat _ _ := FR_OK;
  f_unlink _ f := (FR_DENIED, f);
  f_rename _ _ f := (FR_DENIED, f);
  f_mkdir _ f := (FR_DENIED, f);
  f_opendir _ f := (FR_NO_PATH, tt, f);
  f_readdir _ f := (FR_OK, FilInfo "" 0, tt, f);
  f_closedir _ f := f;
  f_open_read _ _ := FR_OK;
  f_size _ f := Z.of_nat (length f);
  f_read_all _ f := (FR_OK, f);
  f_create _ f := (FR_DENIED, f);
  f_write_all _ _ f := (FR_DENIED, f);
  f_mount _ f := (FR_OK, f)
|}.

(** A loader image of which four bytes of code are in memory. *)
Definition ex_ipl : mem := st32 ∅ IPL_LOAD_ADDR 0xE59F0074.

Lemma launch_payload_image_witness :
  exists magic m', @launch_payload _ one_file true false 0 [] "payload.bin" false [1; 2; 3; 4; 5] ex_ipl =
    Jumped EXT_PAYLOAD_ADDR false magic m' /\
    ld8 m' (EXT_PAYLOAD_ADDR + 3) = 0xE5 /\ ld8 m' (RCM_PAYLOAD_ADDR + 4) = 5.
Proof.
  destruct (@launch_payload_image _ one_file false 0 [] "payload.bin" [1; 2; 3; 4; 5] ex_ipl
    [1; 2; 3; 4; 5]) as (magic & m' & E & Hd & _ & _ & _ & _ & Hc & _); try reflexivity.
  - repeat constructor; lia.
  - vm_compute. discriminate.
  - exists magic, m'. split; [exact E|]. split.
    + rewrite Hc by lia. reflexivity.
    + apply (Hd 4%nat). reflexivity.
Defined.

Lemma launch_payload_clobbers_7000_witness :
  exists magic m',
    @launch_payload _ one_file true false 0 [] "payload.bin" false (replicate (Z.to_nat 0x7000) 7) ∅ =
    Jumped EXT_PAYLOAD_ADDR false magic m'.
Proof.
  destruct (@launch_payload_clobbers_7000 _ one_file false 0 [] "payload.bin" (replicate (Z.to_nat 0x7000) 7) ∅
    (replicate (Z.to_nat 0x7000) 7)) as (magic & m' & E & _).
  - reflexivity.
  - reflexivity.
  - reflexivity.
  - vm_compute. reflexivity.
  - vm_compute. reflexivity.
  - lia.
  - vm_compute. discriminate.
  - eauto.
Defined.

Lemma launch_payload_no_coreboot_on_mariko_witness :
  @launch_payload _ one_file true true 0 [] "payload.bin" false (replicate (Z.to_nat 0x30000) 0) ∅ = Returned 1 ∅.
Proof.
  apply launch_payload_no_coreboot_on_mariko. vm_compute. discriminate.
Defined.
