(* ===== verification/NxSd.v ===== *)
(** * NxSd

    The SD card front end of bootloader/storage/nx_sd.c: initialisation with
    fallback to slower modes, mounting, and whole-file reads and writes.  The
    card driver (bdk/storage/sdmmc.c) and FatFs are used through interfaces. *)

From S2P Require Import Mem FatFs Heap.

(** ** Constants of nx_sd.h and sdmmc_driver.h *)

Definition SD_INIT_FAIL : Z := 0.
Definition SD_1BIT_HS25 : Z := 1.
Definition SD_4BIT_HS25 : Z := 2.
Definition SD_UHS_SDR82 : Z := 3.
Definition SD_UHS_SDR104 : Z := 4.

Definition SD_ERROR_INIT_FAIL : Z := 0.
Definition SD_ERROR_RW_FAIL : Z := 1.
Definition SD_ERROR_RW_RETRY : Z := 2.

Definition SDMMC_BUS_WIDTH_1 : Z := 0.
Definition SDMMC_BUS_WIDTH_4 : Z := 1.
Definition SDHCI_TIMING_SD_HS25 : Z := 7.
Definition SDHCI_TIMING_UHS_SDR82 : Z := 12.

(** The card driver: [sdmmc_storage_init_sd], [sdmmc_storage_end] and
    [sdmmc_get_sd_inserted] on an abstract hardware state. *)
Class SdHw (H : Type) := {
  storage_init_sd : Z -> Z -> H -> bool * H;
  storage_end : H -> H;
  sd_inserted : H -> bool * H
}.

(** ** State: the statics of nx_sd.c, with the hardware and the volume *)

Record sd (H F : Type) := Sd {
  sd_mounted : bool;
  sd_errors : Z * Z * Z;
  sd_mode : Z;
  sd_mute : bool;
  sd_hw : H;
  sd_fs : F
}.
Arguments Sd {H F}.
Arguments sd_mounted {H F}.
Arguments sd_errors {H F}.
Arguments sd_mode {H F}.
Arguments sd_mute {H F}.
Arguments sd_hw {H F}.
Arguments sd_fs {H F}.

Section NxSd.
Context {H F : Type} `{SdHw H} `{FatFs F}.
Implicit Types s : sd H F.

Definition with_mode s v : sd H F := Sd (sd_mounted s) (sd_errors s) v (sd_mute s) (sd_hw s) (sd_fs s).
Definition with_hw s v : sd H F := Sd (sd_mounted s) (sd_errors s) (sd_mode s) (sd_mute s) v (sd_fs s).
Definition with_errors s v : sd H F := Sd (sd_mounted s) v (sd_mode s) (sd_mute s) (sd_hw s) (sd_fs s).
Definition with_mounted s v : sd H F := Sd v (sd_errors s) (sd_mode s) (sd_mute s) (sd_hw s) (sd_fs s).
Definition with_fs s v : sd H F := Sd (sd_mounted s) (sd_errors s) (sd_mode s) (sd_mute s) (sd_hw s) v.
Definition with_mute s v : sd H F := Sd (sd_mounted s) (sd_errors s) (sd_mode s) v (sd_hw s) (sd_fs s).

(** [sd_errors] is an array of three 16-bit counters. *)
Definition sd_error_count_increment (type : Z) s : sd H F :=
  let '(e0, e1, e2) := sd_errors s in
  if type =? SD_ERROR_INIT_FAIL then with_errors s (u16 (e0 + 1), e1, e2)
  else if type =? SD_ERROR_RW_FAIL then with_errors s (e0, u16 (e1 + 1), e2)
  else if type =? SD_ERROR_RW_RETRY then with_errors s (e0, e1, u16 (e2 + 1))
  else s.

Definition sd_get_error_count s : Z * Z * Z := sd_errors s.
Definition sd_get_mode s : Z := sd_mode s.

Definition sd_get_card_removed s : bool * sd H F :=
  let '(ins, hw) := sd_inserted (sd_hw s) in
  (negb ins, with_hw s hw).

Definition sd_init_retry (power_cycle : bool) s : bool * sd H F :=
  let s := if power_cycle
           then let s := with_mode s (u32 (sd_mode s - 1)) in
                with_hw s (storage_end (sd_hw s))
           else s in
  let init bus_width type s :=
    let '(r, hw) := storage_init_sd bus_width type (sd_hw s) in (r, with_hw s hw) in
  if sd_mode s =? SD_INIT_FAIL then (false, s)
  else if sd_mode s =? SD_1BIT_HS25 then init SDMMC_BUS_WIDTH_1 SDHCI_TIMING_SD_HS25 s
  else if sd_mode s =? SD_4BIT_HS25 then init SDMMC_BUS_WIDTH_4 SDHCI_TIMING_SD_HS25 s
  else if sd_mode s =? SD_UHS_SDR82 then init SDMMC_BUS_WIDTH_4 SDHCI_TIMING_UHS_SDR82 s
  else init SDMMC_BUS_WIDTH_4 SDHCI_TIMING_UHS_SDR82 (with_mode s SD_UHS_SDR82).

(** The [while (true)] of [sd_initialize]; [res] is its local of that name
    (true: the last attempt failed). *)
Fixpoint init_loop (fuel : nat) (res : bool) s : option (bool * sd H F) :=
  match fuel with
  | O => None
  | S fuel =>
      if negb res then Some (true, s)
      else
        let '(ins, hw) := sd_inserted (sd_hw s) in
        let s := with_hw s hw in
        if negb ins then
          let s := with_mode s SD_UHS_SDR82 in
          Some (false, with_hw s (storage_end (sd_hw s)))
        else
          let '(e0, e1, e2) := sd_errors s in
          let s := with_errors s (u16 (e0 + 1), e1, e2) in
          if sd_mode s =? SD_INIT_FAIL then
            Some (false, with_hw s (storage_end (sd_hw s)))
          else
            let '(r, s) := sd_init_retry true s in
            init_loop fuel (negb r) s
  end.

Definition sd_initialize (fuel : nat) (power_cycle : bool) s : option (bool * sd H F) :=
  let s := if power_cycle then with_hw s (storage_end (sd_hw s)) else s in
  let '(r, s) := sd_init_retry false s in
  init_loop fuel (negb r) s.

(** [sd_mount]; the error prints only unmute the console. *)
Definition sd_mount (fuel : nat) s : option (bool * sd H F) :=
  if sd_mounted s then Some (true, s)
  else match sd_initialize fuel false s with
  | None => None
  | Some (false, s) =>
      let s := with_mute s false in
      let '(_, hw) := sd_inserted (sd_hw s) in
      Some (false, with_hw s hw)
  | Some (true, s) =>
      let '(res, fs) := f_mount true (sd_fs s) in
      let s := with_fs s fs in
      if res =? FR_OK then Some (true, with_mounted s true)
      else Some (false, with_mute s false)
  end.

Definition _sd_deinit s : sd H F :=
  let s := if sd_mode s =? SD_INIT_FAIL then with_mode s SD_UHS_SDR82 else s in
  if sd_mounted s then
    let s := with_fs s (snd (f_mount false (sd_fs s))) in
    let s := with_hw s (storage_end (sd_hw s)) in
    with_mounted s false
  else s.
Definition sd_unmount := _sd_deinit.
Definition sd_end := _sd_deinit.

(** [sd_file_read]: the address of a fresh heap block with the file's contents,
    or 0.  The second component is what is stored through [fsize], if anything. *)
Definition sd_file_read (fuel : nat) (path : string) (h : heap_t) (m : mem) s
    : option (Z * option Z * heap_t * mem) :=
  if negb (f_open_read path (sd_fs s) =? FR_OK) then Some (0, None, h, m)
  else
    let '(rd, data) := f_read_all path (sd_fs s) in
    let size := u32 (f_size path (sd_fs s)) in
    match malloc fuel h m size with
    | None => None
    | Some (buf, h, m) =>
        let m := st_bytes m buf data in
        if negb (rd =? FR_OK) then
          match free fuel h m buf with
          | Some m => Some (0, Some size, h, m)
          | None => None
          end
        else Some (buf, Some size, h, m)
    end.

Definition sd_save_to_file (buf : list Z) (filename : string) s : Z * sd H F :=
  let '(res, fs) := f_create filename (sd_fs s) in
  let s := with_fs s fs in
  if c_true res then (res, s)
  else (0, with_fs s (snd (f_write_all filename buf (sd_fs s)))).

(** ** Properties *)

(** The card driver was asked for [n] power cycles and said no each time. *)
Lemma sd_init_retry_mode pc s r s' :
  0 <= sd_mode s <= 4 -> (pc = true -> 0 < sd_mode s) ->
  sd_init_retry pc s = (r, s') ->
  sd_mode s' = (if pc then Z.min (sd_mode s - 1) 3 else Z.min (sd_mode s) 3) /\
  (r = true -> 0 < sd_mode s') /\
  sd_mounted s' = sd_mounted s /\ sd_errors s' = sd_errors s /\ sd_fs s' = sd_fs s.
Proof.
  intros Hm Hpc. unfold sd_init_retry.
  set (s0 := if pc then _ else s).
  assert (Hs0 : sd_mode s0 = (if pc then sd_mode s - 1 else sd_mode s) /\
                sd_mounted s0 = sd_mounted s /\ sd_errors s0 = sd_errors s /\ sd_fs s0 = sd_fs s).
  { subst s0. destruct pc; cbn; [|done]. rewrite u32_id by (specialize (Hpc eq_refl); lia). done. }
  destruct Hs0 as (E0 & E1 & E2 & E3).
  assert (0 <= sd_mode s0 <= 4) by (rewrite E0; destruct pc; [specialize (Hpc eq_refl)|]; lia).
  unfold SD_INIT_FAIL, SD_1BIT_HS25, SD_4BIT_HS25, SD_UHS_SDR82.
  zcases_lia; intros E;
    try (match type of E with (let '(_, _) := ?x in _) = _ => destruct x end);
    injection E as <- <-; cbn; split_and!; try done; destruct pc; try lia; try done.
Qed.

(** Fuel for [init_loop]: one round per mode left, one to give up, one to see
    the success of the last attempt. *)
Lemma init_loop_spec fuel : forall res s,
  0 <= sd_mode s <= 4 -> (res = false -> 0 < sd_mode s) ->
  (Z.to_nat (Z.min (sd_mode s) 4) + 2 <= fuel)%nat ->
  exists ok s', init_loop fuel res s = Some (ok, s') /\
    0 <= sd_mode s' <= 4 /\ sd_mounted s' = sd_mounted s /\ sd_fs s' = sd_fs s /\
    (ok = true -> 0 < sd_mode s' <= sd_mode s) /\
    (ok = false -> sd_mode s' = SD_INIT_FAIL \/ sd_mode s' = SD_UHS_SDR82).
Proof.
  induction fuel as [|fuel IH]; intros res s Hm Hr Hf; [lia|]. cbn [init_loop].
  destruct res; cbn [negb].
  2:{ specialize (Hr eq_refl). do 2 eexists. split; [done|]. split_and!; auto; lia. }
  destruct (sd_inserted (sd_hw s)) as [[] hw]; cbn [negb].
  2:{ do 2 eexists. split; [done|]. cbn. unfold SD_UHS_SDR82. split_and!; auto; lia. }
  destruct (sd_errors s) as [[e0 e1] e2] eqn:Ee. cbn [sd_errors with_hw].
  rewrite Ee. unfold SD_INIT_FAIL.
  set (s1 := with_errors (with_hw s hw) _). change (sd_mode s1) with (sd_mode s).
  destruct (Z.eqb_spec (sd_mode s) 0) as [E0|E0].
  - do 2 eexists. split; [done|]. cbn. split_and!; auto; lia.
  - destruct (sd_init_retry true s1) as [r s2] eqn:Er.
    apply sd_init_retry_mode in Er as (M & Hr' & Hmt & _ & Hfs); [|change (sd_mode s1) with (sd_mode s); lia..].
    change (sd_mode s1) with (sd_mode s) in M. cbn [sd_mounted sd_fs with_errors with_hw s1] in Hmt, Hfs.
    destruct (IH (negb r) s2) as (ok & s' & E & ? & ? & ? & Hok & ?).
    + lia.
    + by destruct r; auto.
    + lia.
    + exists ok, s'. rewrite E. split_and!; auto; try lia; try congruence.
      intros ->. specialize (Hok eq_refl). lia.
Qed.

Lemma sd_initialize_spec pc s :
  0 <= sd_mode s <= 4 ->
  exists ok s', sd_initialize 6 pc s = Some (ok, s') /\
    0 <= sd_mode s' <= 4 /\ sd_mounted s' = sd_mounted s /\ sd_fs s' = sd_fs s /\
    (ok = true -> 0 < sd_mode s' <= sd_mode s) /\
    (ok = false -> sd_mode s' = SD_INIT_FAIL \/ sd_mode s' = SD_UHS_SDR82).
Proof.
  intros Hm. unfold sd_initialize. set (s0 := if pc then _ else s).
  assert (Hs0 : sd_mode s0 = sd_mode s /\ sd_mounted s0 = sd_mounted s /\ sd_fs s0 = sd_fs s)
    by (subst s0; by destruct pc).
  destruct Hs0 as (E0 & E1 & E2).
  destruct (sd_init_retry false s0) as [r s1] eqn:Er.
  apply sd_init_retry_mode in Er as (M & Hr & Hmt & _ & Hfs); [|lia|done].
  destruct (init_loop_spec 6 (negb r) s1) as (ok & s' & E & ? & ? & ? & Hok & ?).
  - lia.
  - by destruct r; auto.
  - lia.
  - exists ok, s'. rewrite E. split_and!; auto; try lia; try congruence.
    intros ->. specialize (Hok eq_refl). lia.
Qed.

(** [sd_mount] always comes back: it gives up after at most one attempt per speed mode, its
    result says whether the card is mounted, and the mode stays in range. *)
Theorem sd_mount_total s :
  0 <= sd_mode s <= 4 ->
  exists ok s', sd_mount 6 s = Some (ok, s') /\ sd_mounted s' = ok /\ 0 <= sd_mode s' <= 4.
Proof.
  intros Hm. unfold sd_mount. destruct (sd_mounted s) eqn:Emt; [eauto|].
  destruct (sd_initialize_spec false s Hm) as (ok & s1 & E & ? & Hmt & _). rewrite E.
  destruct ok.
  - destruct (f_mount true (sd_fs s1)) as [res fs]. destruct (res =? FR_OK).
    + do 2 eexists. split; [done|]. by cbn.
    + do 2 eexists. split; [done|]. cbn. split; [congruence|done].
  - cbn. destruct (sd_inserted (sd_hw s1)) as [ins hw].
    do 2 eexists. split; [done|]. cbn. split; [congruence|done].
Qed.

(** After [sd_end] nothing is mounted and the next mount has at least one mode to try, even
    when the last initialisation had exhausted them. *)
Theorem sd_end_ready s :
  0 <= sd_mode s <= 4 ->
  sd_mounted (sd_end s) = false /\ 0 < sd_mode (sd_end s) <= 4 /\
  (sd_mounted s = false -> sd_hw (sd_end s) = sd_hw s).
Proof.
  intros Hm. unfold sd_end, _sd_deinit, SD_INIT_FAIL, SD_UHS_SDR82.
  destruct (Z.eqb_spec (sd_mode s) 0); cbn; destruct (sd_mounted s) eqn:E; cbn;
    split_and!; try done; lia.
Qed.

(** Blocks in use in both heaps alike, with the same bytes. *)
Definition same_blocks (a : Z) (bs bs' : list block) (m m' : mem) : Prop :=
  (forall lo hi, (lo, hi) ∈ payloads a bs' <-> (lo, hi) ∈ payloads a bs) /\
  (forall lo hi, (lo, hi) ∈ payloads a bs -> same_on lo hi m m').

(** C25: [sd_file_read] with room on the heap always returns.  A file that cannot be opened gives
    the null pointer and touches nothing.  A file that cannot be read gives the null pointer
    with its size stored, and exactly the blocks in use before, with their bytes.  A file that
    is read gives a fresh block, clear of every block in use before, that holds the bytes read;
    all other blocks are as before. *)
Theorem sd_file_read_correct fuel path h m bs s :
  let fs := sd_fs s in
  let size := u32 (f_size path fs) in
  let '(rd, data) := f_read_all path fs in
  heap_rep h m bs -> (length bs < fuel)%nat ->
  hp_start h + extent bs + 2 * sizeof_hnode + size < 4294967296 ->
  Z.of_nat (length data) <= size -> (rd = FR_OK -> Z.of_nat (length data) = size) ->
  Forall (fun b => 0 <= b < 256) data ->
  exists buf fsize h' m' bs',
    sd_file_read fuel path h m s = Some (buf, fsize, h', m') /\
    heap_rep h' m' bs' /\ hp_start h' = hp_start h /\
    if negb (f_open_read path fs =? FR_OK) then buf = 0 /\ fsize = None /\ h' = h /\ m' = m
    else fsize = Some size /\
      if negb (rd =? FR_OK) then buf = 0 /\ same_blocks (hp_start h) bs bs' m m'
      else
        exists hi, (buf, hi) ∈ payloads (hp_start h) bs' /\ buf + size <= hi /\
          ld_bytes m' buf (length data) = data /\
          (forall lo hi', (lo, hi') ∈ payloads (hp_start h) bs ->
             (lo, hi') ∈ payloads (hp_start h) bs' /\ (hi' < buf \/ hi < lo) /\
             same_on lo hi' m m') /\
          (forall lo hi', (lo, hi') ∈ payloads (hp_start h) bs' ->
             (lo, hi') ∈ payloads (hp_start h) bs \/ lo = buf).
Proof.
  cbn zeta. unfold sd_file_read. destruct (f_read_all path (sd_fs s)) as [rd data].
  set (size := u32 (f_size path (sd_fs s))). intros Hrep Hf Hroom Hlen Hok Hb.
  destruct (f_open_read path (sd_fs s) =? FR_OK); cbn [negb]; [|by exists 0, None, h, m, bs].
  pose proof (rep_start _ _ _ Hrep). pose proof (extent_nonneg _ (rep_wf _ _ _ Hrep)).
  destruct (malloc_spec h m bs size fuel Hrep ltac:(lia) Hroom ltac:(lia))
    as (buf & hi & h' & m' & bs' & E & Hrep' & Hst & Hin & Hhi & _ & Hold & Hnew & Hl).
  rewrite E.
  assert (Hfr : forall x, ~ (buf <= x < hi) -> ld8 (st_bytes m' buf data) x = ld8 m' x).
  { intros x Hx. apply ld8_st_bytes_ne. lia. }
  assert (Hrep2 : heap_rep h' (st_bytes m' buf data) bs').
  { rewrite <- Hst in Hin. eapply heap_rep_payload_write; eauto. }
  assert (Hsame : forall lo hi', (lo, hi') ∈ payloads (hp_start h) bs ->
            same_on lo hi' m (st_bytes m' buf data)).
  { intros lo hi' Hlo. destruct (Hold _ _ Hlo) as (_ & Hd & Hs). intros x Hx.
    rewrite Hfr by lia. by apply Hs. }
  destruct (Z.eqb_spec rd FR_OK) as [->|Hrd]; cbn [negb].
  - do 5 eexists. split; [done|]. split; [exact Hrep2|]. split; [done|]. split; [done|].
    exists hi. split_and!; [done|done|by apply ld_bytes_st_bytes| |done].
    intros lo hi' Hlo. destruct (Hold _ _ Hlo) as (? & ? & _). split_and!; auto.
  - destruct (free_spec h' (st_bytes m' buf data) bs' buf hi fuel Hrep2)
      as (m2 & bs2 & E2 & Hrep3 & _ & _ & Hp & Hs2); [by rewrite Hst|lia|].
    rewrite E2. rewrite Hst in Hp, Hs2.
    do 5 eexists. split; [done|]. split; [exact Hrep3|]. split; [done|]. split; [done|].
    split; [done|]. split; intros lo hi'; rewrite ?Hp.
    + split.
      * intros [Hlo Hne]. destruct (Hnew _ _ Hlo); done.
      * intros Hlo. destruct (Hold _ _ Hlo) as (Hlo' & Hd & _). split; [done|]. intros ->.
        pose proof (payloads_in _ _ _ _ (rep_wf _ _ _ Hrep) Hlo). lia.
    + intros Hlo x Hx. destruct (Hold _ _ Hlo) as (Hlo' & _). 
      pose proof (Hsame _ _ Hlo x Hx). pose proof (Hs2 _ _ Hlo' x Hx). congruence.
Qed.

End NxSd.

(** ** The order of the attempts *)

(** A card driver that also records the bus width, the timing and the result of
    every initialisation it is asked for. *)
Definition logged {H} (hw : SdHw H) : SdHw (H * list (Z * Z * bool)) := {|
  storage_init_sd b t h :=
    let '(r, h') := storage_init_sd b t (fst h) in (r, (h', snd h ++ [(b, t, r)]));
  storage_end h := (storage_end (fst h), snd h);
  sd_inserted h := let '(r, h') := sd_inserted (fst h) in (r, (h', snd h))
|}.

(** From the fastest mode down. *)
Definition fallback_order : list (Z * Z) :=
  [ (SDMMC_BUS_WIDTH_4, SDHCI_TIMING_UHS_SDR82);
    (SDMMC_BUS_WIDTH_4, SDHCI_TIMING_SD_HS25);
    (SDMMC_BUS_WIDTH_1, SDHCI_TIMING_SD_HS25) ].

(** The modes that are left from the current one on. *)
Definition order_from (mode : Z) : list (Z * Z) := drop (Z.to_nat (3 - mode)) fallback_order.

Definition failed (l : list (Z * Z)) : list (Z * Z * bool) := map (fun x => (x, false)) l.

(** What the log says of a run that ended with [ok] after [k] failures. *)
Definition attempts_ok (order : list (Z * Z)) (ok : bool) (k : nat) (log : list (Z * Z * bool)) : Prop :=
  if ok then exists x, order !! k = Some x /\ log = failed (take k order) ++ [(x, true)]
  else (k <= length order)%nat /\ log = failed (take k order).

(** One step of the case analysis over the answers of the card. *)
Ltac sd_attempt :=
  match goal with
  | |- context [u32 (SD_UHS_SDR82 - 1)] =>
      change (u32 (SD_UHS_SDR82 - 1)) with SD_4BIT_HS25; cbn
  | |- context [u32 (SD_4BIT_HS25 - 1)] =>
      change (u32 (SD_4BIT_HS25 - 1)) with SD_1BIT_HS25; cbn
  | |- context [u32 (SD_1BIT_HS25 - 1)] =>
      change (u32 (SD_1BIT_HS25 - 1)) with SD_INIT_FAIL; cbn
  | |- context [sd_init_retry] => unfold sd_init_retry; cbn
  | |- context [storage_init_sd ?b ?t ?h] => destruct (storage_init_sd b t h) as [[] ?]; cbn
  | |- context [sd_inserted ?h] => destruct (sd_inserted h) as [[] ?] eqn:?; cbn
  | |- context [match ?e with _ => _ end] => destruct e as [[? ?] ?]; cbn
  end.

Ltac sd_attempts_done :=
  solve [split; [reflexivity|]; split; [|split];
    [ first [ split; [vm_compute; lia|reflexivity] | eexists; split; reflexivity ]
    | first [ discriminate | intros _; reflexivity ]
    | first [ discriminate | intros _ _; split; reflexivity
            | intros _ Hall; exfalso; eauto ] ] ].

(** C23: [sd_initialize] always returns within six rounds, also for a card that never
    initialises.  It tries the modes that are left from the fastest down, each once, and stops
    at the first success, in that mode; when it fails with the card inserted throughout, every
    mode has been tried and the mode is [SD_INIT_FAIL]. *)
Theorem sd_initialize_attempts {H F} (hw : SdHw H) pc (s : sd (H * list (Z * Z * bool)) F) :
  0 <= sd_mode s <= 4 -> snd (sd_hw s) = [] ->
  exists ok s' k,
    @sd_initialize _ _ (logged hw) 6 pc s = Some (ok, s') /\
    attempts_ok (order_from (sd_mode s)) ok k (snd (sd_hw s')) /\
    (ok = true -> sd_mode s' = Z.min (sd_mode s) 3 - Z.of_nat k) /\
    (ok = false -> (forall h, fst (sd_inserted h) = true) ->
       k = length (order_from (sd_mode s)) /\ sd_mode s' = SD_INIT_FAIL).
Proof.
  destruct s as [mt er md mu [h l] f]. cbn [sd_mode sd_hw snd]. intros Hm ->.
  assert (Hins : forall h' h2, sd_inserted h' = (false, h2) -> (forall h, fst (sd_inserted h) = true) -> False).
  { intros h' h2 E Hall. specialize (Hall h'). rewrite E in Hall. discriminate. }
  unfold sd_initialize, attempts_ok.
  assert (Hmd : md = SD_INIT_FAIL \/ md = SD_1BIT_HS25 \/ md = SD_4BIT_HS25 \/ md = SD_UHS_SDR82 \/
                md = SD_UHS_SDR104)
    by (unfold SD_INIT_FAIL, SD_1BIT_HS25, SD_4BIT_HS25, SD_UHS_SDR82, SD_UHS_SDR104; lia).
  destruct Hmd as [->|[->|[->|[->| ->]]]]; destruct pc; cbn; repeat sd_attempt;
    match goal with |- exists ok s' k, Some (?o, ?t) = _ /\ _ =>
      exists o, t;
      first [ exists 0%nat; sd_attempts_done | exists 1%nat; sd_attempts_done
            | exists 2%nat; sd_attempts_done | exists 3%nat; sd_attempts_done ]
    end.
Qed.

(** ** Witnesses *)

(** A card that answers only in the slowest mode. *)
Definition slow_card : SdHw unit := {|
  storage_init_sd b _ h := (b =? SDMMC_BUS_WIDTH_1, h);
  storage_end h := h;
  sd_inserted h := (true, h)
|}.

Definition ex_sd : sd unit (gmap string Z) := Sd false (0, 0, 0) SD_UHS_SDR82 false tt ∅.
Definition ex_sd_log : sd (unit * list (Z * Z * bool)) (gmap string Z) :=
  Sd false (0, 0, 0) SD_UHS_SDR82 false (tt, []) ∅.

Lemma sd_mount_total_witness :
  exists ok s', @sd_mount _ _ slow_card _ 6 ex_sd = Some (ok, s') /\ sd_mounted s' = ok.
Proof.
  destruct (@sd_mount_total _ _ slow_card _ ex_sd) as (ok & s' & E & Em & _); [by cbn|eauto].
Defined.

Lemma sd_end_ready_witness : sd_mounted (@sd_end _ _ slow_card _ ex_sd) = false.
Proof. apply (@sd_end_ready _ _ slow_card _ ex_sd). by cbn. Defined.

(** A card that never initialises: all three modes are tried, and the call returns. *)
Definition dead_card : SdHw unit := {|
  storage_init_sd _ _ h := (false, h);
  storage_end h := h;
  sd_inserted h := (true, h)
|}.

Lemma sd_initialize_attempts_witness :
  (exists s', @sd_initialize _ _ (logged dead_card) 6 false ex_sd_log = Some (false, s') /\
     snd (sd_hw s') = failed fallback_order /\ sd_mode s' = SD_INIT_FAIL) /\
  exists ok s' k, @sd_initialize _ _ (logged slow_card) 6 false ex_sd_log = Some (ok, s') /\
    attempts_ok fallback_order ok k (snd (sd_hw s')).
Proof.
  split.
  - destruct (sd_initialize_attempts dead_card false ex_sd_log) as (ok & s' & k & E & Ha & _ & Hf);
      [by cbn|done|].
    assert (Hok : ok = false) by (vm_compute in E; by injection E). subst ok.
    destruct (Hf eq_refl ltac:(done)) as [-> Hm]. destruct Ha as [_ Ha].
    exists s'. split; [exact E|]. split; [exact Ha|exact Hm].
  - destruct (sd_initialize_attempts slow_card false ex_sd_log) as (ok & s' & k & E & Ha & _);
      [by cbn|done|].
    exists ok, s', k. split; [exact E|exact Ha].
Defined.

(** A volume with one file of four bytes, and the same volume with a read error after two of
    them. *)
Definition file_fs (rd : Z) (data : list Z) : FatFs unit := {|
  fdir := unit;
  f_stat _ _ := FR_OK;
  f_unlink _ f := (FR_DENIED, f);
  f_rename _ _ f := (FR_DENIED, f);
  f_mkdir _ f := (FR_DENIED, f);
  f_opendir _ f := (FR_NO_PATH, tt, f);
  f_readdir _ f := (FR_OK, FilInfo "" 0, tt, f);
  f_closedir _ f := f;
  f_open_read p _ := if String.eqb p "a" then FR_OK else FR_NO_FILE;
  f_size _ _ := 4;
  f_read_all _ _ := (rd, data);
  f_create _ f := (FR_DENIED, f);
  f_write_all _ _ f := (FR_DENIED, f);
  f_mount _ f := (FR_OK, f)
|}.
Definition ex_sd' : sd unit unit := Sd true (0, 0, 0) SD_UHS_SDR82 false tt tt.

Lemma sd_file_read_correct_witness :
  (exists buf h' m',
    @sd_file_read unit _ (file_fs FR_OK [7; 8; 9; 10]) 2 "a" ex_heap ex_mem ex_sd' =
      Some (buf, Some 4, h', m') /\ ld_bytes m' buf 4 = [7; 8; 9; 10]) /\
  (exists h' m' bs',
    @sd_file_read unit _ (file_fs 1 [7; 8]) 2 "a" ex_heap ex_mem ex_sd' = Some (0, Some 4, h', m') /\
    same_blocks ex_base [Blk true 128] bs' ex_mem m').
Proof.
  split.
  - destruct (@sd_file_read_correct unit _ (file_fs FR_OK [7; 8; 9; 10]) 2 "a" ex_heap ex_mem
      [Blk true 128] ex_sd') as (buf & fs & h' & m' & bs' & E & _ & _ & -> & hi & _ & _ & Hd & _);
      [apply ex_rep|cbn; lia|done|done|done|repeat constructor; lia|].
    exists buf, h', m'. split; [exact E|exact Hd].
  - destruct (@sd_file_read_correct unit _ (file_fs 1 [7; 8]) 2 "a" ex_heap ex_mem
      [Blk true 128] ex_sd') as (buf & fs & h' & m' & bs' & E & _ & _ & -> & -> & Hs);
      [apply ex_rep|cbn; lia|done|done|done|repeat constructor; lia|].
    exists h', m', bs'. split; [exact E|exact Hs].
Defined.
