(* ===== verification/Boot.v ===== *)
(** * Boot

    The last part of [ipl_main] in bootloader/main.c: with the card mounted, run
    the clean install if it was asked for, put renamed files in place, and leave
    to the next payload. *)

From S2P Require Import Mem FatFs Updater Launch.

(** [hekate_config] of bootloader/config.h. *)
Record hekate_config := HekateConfig {
  backlight : Z;
  cfg_t210b01 : bool;
  rcm_patched : bool;
  cfg_errors : Z
}.

Definition GP_HIDREV_MAJOR_T210B01 : Z := 2.

(** [set_default_configuration] of bootloader/config.c, from the two hardware
    queries it makes. *)
Definition set_default_configuration (patched : bool) (chip_id : Z) : hekate_config :=
  HekateConfig 100 (chip_id =? GP_HIDREV_MAJOR_T210B01) patched 0.

(** Where control goes. *)
Inductive boot_end :=
| Halted
| PowerOffReboot
| JumpTo (addr : Z).

Section Boot.
Context {F : Type} `{FatFs F} `{!Allocator F}.
Variable cfg : hekate_config.
Variable b_cfg : list Z.
Variable coreboot0 : Z.
Variable m0 : mem.

Definition flag_file : string := "/cleaninstall.flag".

(** [launch_payload(path, false)] at the end of the boot: either the jump, or a
    return, with the card unmounted by [sd_end].  [mounted] is the result of
    the [sd_mount] inside. *)
Definition try_launch (mounted : bool) (path : string) : M (world F) (option Z) :=
  w ← get;
  match launch_payload mounted (cfg_t210b01 cfg) coreboot0 b_cfg path false (w_fs w) m0 with
  | Jumped addr _ _ _ => mret (Some addr)
  | Returned _ _ => set_fs (snd (f_mount false (w_fs w)));; mret None
  end.

(** Move [old] to [new] when it exists. *)
Definition rename_if_present (old new : string) : M (world F) unit :=
  r ← do_stat old;
  if r =? FR_OK then (easy_rename old new;; mret tt) else mret tt.

(** The clean install; [false] means the code halts after it. *)
Definition clean_install (fuel : nat) : M (world F) bool :=
  do_unlink flag_file;;
  res ← performCleanup fuel;
  if res =? FR_OK then
    res ← finishUpdate fuel;
    if res =? FR_OK then print "Tudo pronto! continuando...";; mret true
    else
      print "Falha ao mover arquivos do novo pacote!";;
      print "Procure assistencia tecnica ou reconfigure";;
      print "seu microSD manualmente.";;
      print "Processo interrompido!";;
      mret false
  else
    print "Falha ao executar limpeza!";;
    print "Verifique se o console inicia corretamente.";;
    print "Se ele nao iniciar procure assistencia ou";;
    print "configure seu microSD manualmente.";;
    print "Processo interrompido!";;
    mret false.

(** The way out.  [remounted] is the result of mounting the card again for a
    second payload. *)
Definition leave (remounted : bool) : M (world F) boot_end :=
  if cfg_t210b01 cfg || rcm_patched cfg then
    easy_rename "payload.bin.apg" "payload.bin";;
    mret PowerOffReboot
  else
    r ← do_stat "bootloader/update.bin";
    j ← (if r =? FR_OK then try_launch true "bootloader/update.bin" else mret None);
    match j with
    | Some addr => mret (JumpTo addr)
    | None =>
        r ← do_stat "atmosphere/reboot_payload.bin";
        j ← (if r =? FR_OK then try_launch remounted "atmosphere/reboot_payload.bin" else mret None);
        match j with
        | Some addr => mret (JumpTo addr)
        | None => print "Falha ao executar o payload!";; mret Halted
        end
    end.

(** After the clean install: the renames, then out. *)
Definition finish_boot (remounted : bool) : M (world F) boot_end :=
  rename_if_present "atmosphere/fusee-secondary.bin.apg" "atmosphere/fusee-secondary.bin";;
  rename_if_present "sept/payload.bin.apg" "sept/payload.bin";;
  rename_if_present "atmosphere/stratosphere.romfs.apg" "atmosphere/stratosphere.romfs";;
  rename_if_present "atmosphere/package3.apg" "atmosphere/package3";;
  leave remounted.

(** From [sd_mount()] to the end of [ipl_main]. *)
Definition update_and_launch (fuel : nat) (mounted remounted : bool) : M (world F) boot_end :=
  if mounted then
    r ← do_stat flag_file;
    go ← (if r =? FR_OK then clean_install fuel else mret true);
    if go : bool then finish_boot remounted else mret Halted
  else mret Halted.

(** ** Properties *)

(** [clean_install] succeeds only through a complete cleanup and move. *)
Lemma clean_install_true fuel w w' :
  clean_install fuel w = (Ret true, w') ->
  exists r w1 w2 w3,
    do_unlink flag_file w = (Ret r, w1) /\
    performCleanup fuel w1 = (Ret FR_OK, w2) /\ finishUpdate fuel w2 = (Ret FR_OK, w3).
Proof.
  unfold clean_install. intros E.
  apply bind_Ret in E as (r & w1 & E1 & E). apply bind_Ret in E as (res & w2 & E2 & E).
  destruct (Z.eqb_spec res FR_OK) as [->|]; [|by vm_compute in E; discriminate E].
  apply bind_Ret in E as (res & w3 & E3 & E).
  destruct (Z.eqb_spec res FR_OK) as [->|]; [|by vm_compute in E; discriminate E].
  by exists r, w1, w2, w3.
Qed.

(** C26: a payload is started, or the console rebooted into one, only with the card mounted, and
    if the clean install was requested only after its removal and its move both reported
    success. *)
Theorem boot_requires_complete_install fuel mounted remounted w e w' :
  update_and_launch fuel mounted remounted w = (Ret e, w') -> e <> Halted ->
  mounted = true /\
  (f_stat flag_file (w_fs w) = FR_OK ->
   exists r w1 w2 w3,
     do_unlink flag_file w = (Ret r, w1) /\
     performCleanup fuel w1 = (Ret FR_OK, w2) /\ finishUpdate fuel w2 = (Ret FR_OK, w3)).
Proof.
  unfold update_and_launch. intros E He. destruct mounted; [|injection E as <- <-; done].
  split; [done|]. intros Hf. apply bind_Ret in E as (r & w1 & E1 & E).
  injection E1 as <- <-. rewrite Hf in E. cbn [FR_OK Z.eqb] in E.
  apply bind_Ret in E as (go & w2 & E2 & E). destruct go.
  - by apply clean_install_true in E2.
  - by injection E as <- <-.
Qed.

(** When the first payload file exists but cannot be launched, the second one is never tried:
    the attempt has unmounted the card, so that the file looks absent and the code halts. *)
Theorem boot_no_fallback remounted w :
  (forall p f, f_stat p (snd (f_mount false f)) <> FR_OK) ->
  cfg_t210b01 cfg || rcm_patched cfg = false ->
  f_stat "bootloader/update.bin" (w_fs w) = FR_OK ->
  (exists v m, launch_payload true (cfg_t210b01 cfg) coreboot0 b_cfg "bootloader/update.bin" false
     (w_fs w) m0 = Returned v m) ->
  fst (leave remounted w) = Ret Halted.
Proof.
  intros Hum Hc Hs (v & m & Hl). unfold leave. rewrite Hc.
  unfold try_launch, do_stat, mbind, M_bind, get, mret, M_ret. cbn -[launch_payload].
  rewrite Hs. cbn -[launch_payload]. rewrite Hl. cbn.
  destruct (Z.eqb_spec (f_stat "atmosphere/reboot_payload.bin" (snd (f_mount false (w_fs w)))) FR_OK)
    as [E|_]; [by apply Hum in E|]. done.
Qed.

End Boot.

(** ** Witnesses *)

(** A volume that answers only while it is mounted. *)
Definition FR_NOT_ENABLED : Z := 12.
Definition mountable : FatFs (bool * list string) := {|
  fdir := unit;
  f_stat p (v : bool * list string) :=
    if fst v then (if bool_decide (p ∈ snd v) then FR_OK else FR_NO_FILE) else FR_NOT_ENABLED;
  f_unlink _ v := (FR_DENIED, v);
  f_rename _ _ v := (FR_DENIED, v);
  f_mkdir _ v := (FR_DENIED, v);
  f_opendir _ v := (FR_NO_PATH, tt, v);
  f_readdir _ v := (FR_OK, FilInfo "" 0, tt, v);
  f_closedir _ v := v;
  f_open_read p (v : bool * list string) := if fst v && bool_decide (p ∈ snd v) then FR_OK else FR_NO_FILE;
  f_size _ _ := 64;
  f_read_all _ _ := (1, []);
  f_create _ v := (FR_DENIED, v);
  f_write_all _ _ v := (FR_DENIED, v);
  f_mount b (v : bool * list string) := (FR_OK, (b, snd v))
|}.

(** A card with the request, something to remove and a package to move. *)
Definition boot_card : gmap string Z := MemVolume.mk
  [ "/atmosphere"; "/apgtmppackfolder" ]
  [ "/cleaninstall.flag"; "/atmosphere/package3"; "/apgtmppackfolder/boot.dat" ].
Definition mariko : hekate_config := set_default_configuration true GP_HIDREV_MAJOR_T210B01.

Lemma boot_requires_complete_install_witness :
  fst (update_and_launch mariko [] 0 ∅ 40 true true (MemVolume.start boot_card)) = Ret PowerOffReboot /\
  exists r w1 w2 w3,
    do_unlink flag_file (MemVolume.start boot_card) = (Ret r, w1) /\
    performCleanup 40 w1 = (Ret FR_OK, w2) /\ finishUpdate 40 w2 = (Ret FR_OK, w3).
Proof.
  assert (E : fst (update_and_launch mariko [] 0 ∅ 40 true true (MemVolume.start boot_card)) =
    Ret PowerOffReboot) by (vm_compute; reflexivity).
  split; [exact E|].
  destruct (update_and_launch mariko [] 0 ∅ 40 true true (MemVolume.start boot_card)) as [o w'] eqn:Er.
  cbn [fst] in E. subst o.
  apply (@boot_requires_complete_install _ MemVolume.mem_fatfs mem_alloc _ _ _ _ _ _ _ _ _ _ Er); [discriminate|].
  vm_compute. reflexivity.
Defined.

Lemma boot_no_fallback_witness :
  fst (@leave _ mountable (set_default_configuration false 1) [] 0 ∅ true
         (World (true, ["bootloader/update.bin"; "atmosphere/reboot_payload.bin"]) [] false)) = Ret Halted.
Proof.
  apply boot_no_fallback.
  - intros p f. cbn. discriminate.
  - reflexivity.
  - reflexivity.
  - by eexists _, _.
Defined.
