(* ===== verification/I2c.v ===== *)
(** * I2c

    The I2C controller driver of bdk/soc/i2c.c over an interface for memory
    mapped registers and timers ([Mmio]), and the interface that the drivers of
    the I2C chips are verified against ([I2c]), which this driver implements. *)

From S2P Require Export Prelude.

(** ** Registers and timers *)

(** [vu32] reads and writes, the microsecond and millisecond timers and the
    delays of bdk/utils/util.c.  Reads change the device too. *)
Class Mmio (D : Type) := {
  rd32 : Z -> D -> Z * D;
  wr32 : Z -> Z -> D -> D;
  tmr_us : D -> Z * D;
  tmr_ms : D -> Z * D;
  sleep_us : Z -> D -> D
}.

Section MmioCalls.
Context {D : Type} `{Mmio D}.

Definition rd (a : Z) : M D Z := fun d => let '(v, d) := rd32 a d in (Ret v, d).
Definition wr (a v : Z) : M D unit := modify (wr32 a (u32 v)).
Definition get_tmr_us : M D Z := fun d => let '(v, d) := tmr_us d in (Ret v, d).
Definition get_tmr_ms : M D Z := fun d => let '(v, d) := tmr_ms d in (Ret v, d).
Definition usleep (us : Z) : M D unit := modify (sleep_us us).
End MmioCalls.

(** ** The interface to the chip drivers *)

(** [i2c_send_buf_small(idx, dev, reg, buf, size)] and
    [i2c_recv_buf_small(buf, size, idx, dev, reg)]; the latter returns the bytes
    it put into the buffer. *)
Class I2c (D : Type) := {
  i2c_send_buf_small : Z -> Z -> Z -> list Z -> M D Z;
  i2c_recv_buf_small : Z -> Z -> Z -> Z -> M D (Z * list Z);
  i2c_sleep : Z -> M D unit
}.

Definition I2C_1 : Z := 0.
Definition I2C_5 : Z := 4.

Section Bytes.
Context {D : Type} `{I2c D}.

Definition i2c_send_byte (idx dev reg val : Z) : M D Z :=
  i2c_send_buf_small idx dev reg [u8 val].

(** The byte stays 0 when nothing was received. *)
Definition i2c_recv_byte (idx dev reg : Z) : M D Z :=
  '(_, bs) ← i2c_recv_buf_small 1 idx dev reg;
  mret (match bs with b :: _ => u8 b | [] => 0 end).
End Bytes.

(** ** Little-endian words *)

Fixpoint le_word (bs : list Z) : Z :=
  match bs with
  | [] => 0
  | b :: bs => u8 b + 256 * le_word bs
  end.

Fixpoint le_bytes (n : nat) (v : Z) : list Z :=
  match n with
  | O => []
  | S n => u8 v :: le_bytes n (v / 256)
  end.

Lemma le_word_range bs : 0 <= le_word bs < 256 ^ Z.of_nat (length bs).
Proof.
  induction bs as [|b bs IH]; cbn [le_word length]; [done|].
  pose proof (u8_range b). rewrite Nat2Z.inj_succ, Z.pow_succ_r by lia. lia.
Qed.

Lemma le_bytes_word bs :
  Forall (fun b => 0 <= b < 256) bs -> le_bytes (length bs) (le_word bs) = bs.
Proof.
  induction 1 as [|b bs Hb _ IH]; [done|]. cbn [length le_word le_bytes].
  rewrite (u8_id b) by done. f_equal.
  - unfold u8. rewrite Z.mul_comm, Z.mod_add by lia. by apply Z.mod_small.
  - rewrite Z.mul_comm, Z.div_add, Z.div_small by lia. by rewrite Z.add_0_l.
Qed.

(** ** The controller driver *)

Definition I2C_CNFG : Z := 0x00.
Definition I2C_CMD_ADDR0 : Z := 0x04.
Definition I2C_CMD_DATA1 : Z := 0x0C.
Definition I2C_CMD_DATA2 : Z := 0x10.
Definition I2C_STATUS : Z := 0x1C.
Definition I2C_TX_FIFO : Z := 0x50.
Definition I2C_RX_FIFO : Z := 0x54.
Definition I2C_FIFO_CONTROL : Z := 0x5C.
Definition I2C_FIFO_STATUS : Z := 0x60.
Definition I2C_INT_EN : Z := 0x64.
Definition I2C_INT_STATUS : Z := 0x68.
Definition I2C_CLK_DIVISOR : Z := 0x6C.
Definition I2C_BUS_CLEAR_CONFIG : Z := 0x84.
Definition I2C_BUS_CLEAR_STATUS : Z := 0x88.
Definition I2C_CONFIG_LOAD : Z := 0x8C.

Definition CMD1_WRITE : Z := 0.
Definition CMD1_READ : Z := BIT 6.
Definition NORMAL_MODE_GO : Z := BIT 9.
Definition PACKET_MODE_GO : Z := BIT 10.
Definition NEW_MASTER_FSM : Z := BIT 11.
Definition DEBOUNCE_CNT_4T : Z := Z.shiftl 2 12.
Definition ADDR0_WRITE : Z := 0.
Definition ADDR0_READ : Z := 1.
Definition I2C_STATUS_NOACK : Z := 0xF.
Definition I2C_STATUS_BUSY : Z := BIT 8.
Definition MSTR_CONFIG_LOAD : Z := BIT 0.
Definition TIMEOUT_CONFIG_LOAD : Z := BIT 2.
Definition I2C_PACKET_PROT_I2C : Z := BIT 4.
Definition I2C_HEADER_CONT_XFER : Z := BIT 15.
Definition I2C_HEADER_REP_START : Z := BIT 16.
Definition I2C_HEADER_IE_ENABLE : Z := BIT 17.
Definition I2C_HEADER_READ : Z := BIT 19.
Definition RX_FIFO_FLUSH : Z := BIT 0.
Definition TX_FIFO_FLUSH : Z := BIT 1.
Definition RX_FIFO_FULL_CNT : Z := 0xF.
Definition TX_FIFO_EMPTY_CNT : Z := 0xF0.
Definition BUS_CLEAR_DONE : Z := BIT 11.
Definition NO_ACK : Z := BIT 3.
Definition RX_FIFO_DATA_REQ : Z := BIT 0.
Definition TX_FIFO_DATA_REQ : Z := BIT 1.

(** ALL_PACKETS_COMPLETE, PACKET_COMPLETE, NO_ACK, ARB_LOST, TX_FIFO_OVER and
    RX_FIFO_UNDER. *)
Definition pkt_ints : Z :=
  Z.lor (BIT 6) (Z.lor (BIT 7) (Z.lor NO_ACK (Z.lor (BIT 2) (Z.lor (BIT 5) (BIT 4))))).

Definition i2c_addrs (idx : Z) : Z :=
  match idx with
  | 0 => 0x7000C000 | 1 => 0x7000C400 | 2 => 0x7000C500
  | 3 => 0x7000C700 | 4 => 0x7000D000 | 5 => 0x7000D100
  | _ => 0
  end.

(** [base[I2C_CNFG] = (base[I2C_CNFG] & 0xFFFFF9FF) | go]. *)
Definition with_go (cnfg go : Z) : Z := Z.lor (Z.land cnfg 0xFFFFF9FF) go.

Section Driver.
Context {D : Type} `{Mmio D}.

Fixpoint load_wait (n : nat) (base : Z) : M D unit :=
  match n with
  | O => mret tt
  | S n =>
      usleep 1;;
      v ← rd (base + I2C_CONFIG_LOAD);
      if negb (c_true (Z.land v MSTR_CONFIG_LOAD)) then mret tt else load_wait n base
  end.

Definition _i2c_load_cfg_wait (base : Z) : M D unit :=
  wr (base + I2C_CONFIG_LOAD) (Z.lor (BIT 5) (Z.lor TIMEOUT_CONFIG_LOAD MSTR_CONFIG_LOAD));;
  load_wait 20 base.

(** Wait for the bus until [timeout]; [false] when it ran out. *)
Fixpoint busy_wait (fuel : nat) (base timeout : Z) : M D bool :=
  match fuel with
  | O => nofuel
  | S fuel =>
      s ← rd (base + I2C_STATUS);
      if c_true (Z.land s I2C_STATUS_BUSY) then
        t ← get_tmr_us;
        if timeout <? t then mret false else busy_wait fuel base timeout
      else mret true
  end.

(** Start the transaction and wait for it: the common end of the single
    transfers; [false] means that the function returns 0. *)
Definition run_single (fuel : nat) (base : Z) : M D bool :=
  _i2c_load_cfg_wait base;;
  c ← rd (base + I2C_CNFG);
  wr (base + I2C_CNFG) (with_go c NORMAL_MODE_GO);;
  t ← get_tmr_us;
  done_ ← busy_wait fuel base (u32 (t + 200000));
  if negb done_ then mret false
  else
    s ← rd (base + I2C_STATUS);
    mret (negb (c_true (Z.land s I2C_STATUS_NOACK))).

Definition single_cnfg (size cmd : Z) : Z :=
  Z.lor (u32 (Z.shiftl (u32 (size - 1)) 1)) (Z.lor DEBOUNCE_CNT_4T (Z.lor NEW_MASTER_FSM cmd)).

Definition _i2c_send_single (fuel : nat) (i2c_idx dev_addr : Z) (buf : list Z) : M D Z :=
  let size := Z.of_nat (length buf) in
  if 8 <? size then mret 0
  else
    let base := i2c_addrs i2c_idx in
    wr (base + I2C_CMD_ADDR0) (Z.lor (u32 (Z.shiftl dev_addr 1)) ADDR0_WRITE);;
    (if 4 <? size then
       wr (base + I2C_CMD_DATA1) (le_word (take 4 buf));;
       wr (base + I2C_CMD_DATA2) (le_word (drop 4 buf))
     else wr (base + I2C_CMD_DATA1) (le_word buf));;
    wr (base + I2C_CNFG) (single_cnfg size CMD1_WRITE);;
    ok ← run_single fuel base;
    mret (c_bool ok).

(** The bytes that reach the caller's buffer are the second component. *)
Definition _i2c_recv_single (fuel : nat) (i2c_idx size dev_addr : Z) : M D (Z * list Z) :=
  if 8 <? size then mret (0, [])
  else
    let base := i2c_addrs i2c_idx in
    wr (base + I2C_CMD_ADDR0) (Z.lor (u32 (Z.shiftl dev_addr 1)) ADDR0_READ);;
    wr (base + I2C_CNFG) (single_cnfg size CMD1_READ);;
    ok ← run_single fuel base;
    if negb ok then mret (0, [])
    else
      d1 ← rd (base + I2C_CMD_DATA1);
      if 4 <? size then
        d2 ← rd (base + I2C_CMD_DATA2);
        mret (1, le_bytes 4 d1 ++ le_bytes (Z.to_nat (size - 4)) d2)
      else mret (1, le_bytes (Z.to_nat size) d1).

(** ** Packet transfers: 0 is success here, 1 a failure *)

Fixpoint send_pkt_loop (fuel : nat) (base timeout : Z) (buf : list Z) : M D Z :=
  match fuel with
  | O => nofuel
  | S fuel =>
      match buf with
      | [] => mret 0
      | _ =>
          s ← rd (base + I2C_FIFO_STATUS);
          buf ← (if c_true (Z.land s TX_FIFO_EMPTY_CNT)
                 then (wr (base + I2C_TX_FIFO) (le_word (take 4 buf));; mret (drop 4 buf))
                 else mret buf);
          t ← get_tmr_ms;
          if timeout <? t then mret 1 else send_pkt_loop fuel base timeout buf
      end
  end.

Fixpoint recv_pkt_loop (fuel : nat) (base timeout size : Z) (buf : list Z) : M D (Z * list Z) :=
  match fuel with
  | O => nofuel
  | S fuel =>
      if negb (c_true size) then mret (0, buf)
      else
        s ← rd (base + I2C_FIFO_STATUS);
        '(size, buf) ←
          (if c_true (Z.land s RX_FIFO_FULL_CNT) then
             let rcv_size := Z.min size 4 in
             v ← rd (base + I2C_RX_FIFO);
             mret (size - rcv_size, buf ++ le_bytes (Z.to_nat rcv_size) v)
           else mret (size, buf));
        t ← get_tmr_ms;
        if timeout <? t then mret (1, buf) else recv_pkt_loop fuel base timeout size buf
  end.

Fixpoint fifo_wait (fuel : nat) (base timeout : Z) : M D unit :=
  match fuel with
  | O => nofuel
  | S fuel =>
      s ← rd (base + I2C_FIFO_STATUS);
      if c_true (Z.land s TX_FIFO_EMPTY_CNT) then mret tt
      else
        t ← get_tmr_ms;
        if timeout <? t then mret tt else fifo_wait fuel base timeout
  end.

(** Interrupts on, address, mode, FIFO flush, packet mode. *)
Definition pkt_start (base dev_addr ints cmd : Z) : M D unit :=
  wr (base + I2C_INT_EN) (Z.lor pkt_ints ints);;
  i ← rd (base + I2C_INT_STATUS);
  wr (base + I2C_INT_STATUS) i;;
  wr (base + I2C_CMD_ADDR0) (Z.lor (u32 (Z.shiftl dev_addr 1)) ADDR0_READ);;
  wr (base + I2C_CNFG) (Z.lor DEBOUNCE_CNT_4T (Z.lor NEW_MASTER_FSM cmd));;
  wr (base + I2C_FIFO_CONTROL) (Z.lor RX_FIFO_FLUSH TX_FIFO_FLUSH);;
  _i2c_load_cfg_wait base;;
  c ← rd (base + I2C_CNFG);
  wr (base + I2C_CNFG) (with_go c PACKET_MODE_GO).

(** [NOACK] check, packet mode and interrupts off; [res] becomes 1 on [NOACK].
    The second status register is read only if the first one shows nothing. *)
Definition pkt_end (base res : Z) : M D Z :=
  s ← rd (base + I2C_STATUS);
  nack ← (if c_true (Z.land s I2C_STATUS_NOACK) then mret true
          else (i ← rd (base + I2C_INT_STATUS); mret (c_true (Z.land i NO_ACK))));
  usleep 20;;
  c ← rd (base + I2C_CNFG);
  wr (base + I2C_CNFG) (Z.land c 0xFFFFF9FF);;
  wr (base + I2C_INT_EN) 0;;
  mret (if nack : bool then 1 else res).

Definition pkt_header (base size flags dev_addr : Z) : M D unit :=
  wr (base + I2C_TX_FIFO) I2C_PACKET_PROT_I2C;;
  wr (base + I2C_TX_FIFO) (u32 (size - 1));;
  wr (base + I2C_TX_FIFO) (Z.lor flags (u32 (Z.shiftl dev_addr 1))).

Definition _i2c_send_pkt (fuel : nat) (i2c_idx : Z) (buf : list Z) (dev_addr : Z) : M D Z :=
  let size := Z.of_nat (length buf) in
  if 32 <? size then mret 0
  else
    let base := i2c_addrs i2c_idx in
    pkt_start base dev_addr TX_FIFO_DATA_REQ CMD1_WRITE;;
    pkt_header base size (Z.lor I2C_HEADER_IE_ENABLE I2C_HEADER_CONT_XFER) dev_addr;;
    t ← get_tmr_ms;
    res ← send_pkt_loop fuel base (u32 (t + 400)) buf;
    pkt_end base res.

Definition _i2c_recv_pkt (fuel : nat) (i2c_idx size dev_addr reg : Z) : M D (Z * list Z) :=
  if 32 <? size then mret (0, [])
  else
    let base := i2c_addrs i2c_idx in
    pkt_start base dev_addr RX_FIFO_DATA_REQ CMD1_READ;;
    pkt_header base 1 I2C_HEADER_REP_START dev_addr;;
    wr (base + I2C_TX_FIFO) reg;;
    t ← get_tmr_ms;
    fifo_wait fuel base (u32 (t + 400));;
    pkt_header base size I2C_HEADER_READ dev_addr;;
    t ← get_tmr_ms;
    '(res, buf) ← recv_pkt_loop fuel base (u32 (t + 400)) size [];
    res ← pkt_end base res;
    mret (res, buf).

Fixpoint clear_wait (n : nat) (base : Z) : M D unit :=
  match n with
  | O => mret tt
  | S n =>
      usleep 20000;;
      v ← rd (base + I2C_INT_STATUS);
      if c_true (Z.land v BUS_CLEAR_DONE) then mret tt else clear_wait n base
  end.

Definition i2c_init (i2c_idx : Z) : M D unit :=
  let base := i2c_addrs i2c_idx in
  wr (base + I2C_CLK_DIVISOR) (Z.lor (Z.shiftl 5 16) 1);;
  wr (base + I2C_BUS_CLEAR_CONFIG) (Z.lor (Z.shiftl 9 16) (Z.lor (BIT 1) (BIT 0)));;
  _i2c_load_cfg_wait base;;
  clear_wait 10 base;;
  rd (base + I2C_BUS_CLEAR_STATUS);;
  i ← rd (base + I2C_INT_STATUS);
  wr (base + I2C_INT_STATUS) i.

(** ** The public functions *)

Definition i2c_recv_buf (fuel : nat) (size i2c_idx dev_addr : Z) : M D (Z * list Z) :=
  _i2c_recv_single fuel i2c_idx size dev_addr.

Definition i2c_send_buf_big (fuel : nat) (i2c_idx dev_addr : Z) (buf : list Z) : M D Z :=
  if 32 <? Z.of_nat (length buf) then mret 0 else _i2c_send_pkt fuel i2c_idx buf dev_addr.

Definition i2c_recv_buf_big (fuel : nat) (size i2c_idx dev_addr reg : Z) : M D (Z * list Z) :=
  _i2c_recv_pkt fuel i2c_idx size dev_addr reg.

(** The copy goes to a local array of four bytes. *)
Definition send_buf_small (fuel : nat) (i2c_idx dev_addr reg : Z) (buf : list Z) : M D Z :=
  let size := Z.of_nat (length buf) in
  if 7 <? size then mret 0
  else if 4 <? 1 + size then overrun
  else _i2c_send_single fuel i2c_idx dev_addr (u8 reg :: buf).

Definition recv_buf_small (fuel : nat) (size i2c_idx dev_addr reg : Z) : M D (Z * list Z) :=
  res ← _i2c_send_single fuel i2c_idx dev_addr [u8 reg];
  if c_true res then _i2c_recv_single fuel i2c_idx size dev_addr else mret (res, []).

(** The driver implements the interface of the chip drivers. *)
#[local] Instance i2c_driver (fuel : nat) : I2c D := {
  i2c_send_buf_small := send_buf_small fuel;
  i2c_recv_buf_small := recv_buf_small fuel;
  i2c_sleep := usleep
}.

End Driver.

Lemma rd_ret {D} `{Mmio D} a (d : D) : exists v d', rd a d = (Ret v, d').
Proof. unfold rd. destruct (rd32 a d) as [v d']. by exists v, d'. Qed.

Lemma load_wait_ret {D} `{Mmio D} n base (d : D) : exists d', load_wait n base d = (Ret tt, d').
Proof.
  revert d. induction n as [|n IH]; intros d; [by eexists|]. cbn [load_wait].
  unfold mbind, M_bind, usleep, modify.
  destruct (rd_ret (base + I2C_CONFIG_LOAD) (sleep_us 1 d)) as (v & d' & ->).
  destruct (negb _); [by eexists|]. apply IH.
Qed.

(** ** What is written to the controller *)

(** A device that remembers the writes, the latest first. *)
#[local] Instance logged_mmio {D} `{Mmio D} : Mmio (D * list (Z * Z)) := {
  rd32 a s := let '(v, d) := rd32 a (fst s) in (v, (d, snd s));
  wr32 a v s := (wr32 a v (fst s), (a, v) :: snd s);
  tmr_us s := let '(v, d) := tmr_us (fst s) in (v, (d, snd s));
  tmr_ms s := let '(v, d) := tmr_ms (fst s) in (v, (d, snd s));
  sleep_us n s := (sleep_us n (fst s), snd s)
}.

Section Writes.
Context {D : Type} `{Mmio D}.
#[local] Abbreviation L := (D * list (Z * Z))%type.

(** [m] writes nothing. *)
Definition quiet {A} (m : M L A) : Prop := forall s, snd (snd (m s)) = snd s.

Lemma quiet_ret {A} (x : A) : quiet (mret x).
Proof. by intros s. Qed.
Lemma quiet_rd a : quiet (rd a).
Proof. intros [d l]. unfold rd. cbn. by destruct (rd32 a d). Qed.
Lemma quiet_tmr : quiet get_tmr_us.
Proof. intros [d l]. unfold get_tmr_us. cbn. by destruct (tmr_us d). Qed.
Lemma quiet_usleep n : quiet (usleep n).
Proof. by intros s. Qed.
Lemma quiet_bind {A B} (m : M L A) (k : A -> M L B) :
  quiet m -> (forall x, quiet (k x)) -> quiet (m ≫= k).
Proof.
  intros Hm Hk s. unfold mbind, M_bind. specialize (Hm s).
  destruct (m s) as [[x| |] s']; cbn [snd] in *; [|done..]. by rewrite Hk.
Qed.

Lemma quiet_load_wait n base : quiet (load_wait n base).
Proof.
  induction n as [|n IH]; [apply quiet_ret|]. cbn [load_wait].
  apply quiet_bind; [apply quiet_usleep|intros _]. apply quiet_bind; [apply quiet_rd|intros v].
  by destruct (negb _); [apply quiet_ret|].
Qed.

Lemma quiet_busy_wait fuel base t : quiet (busy_wait fuel base t).
Proof.
  induction fuel as [|fuel IH]; [by intros s|]. cbn [busy_wait].
  apply quiet_bind; [apply quiet_rd|intros v]. destruct (c_true _); [|apply quiet_ret].
  apply quiet_bind; [apply quiet_tmr|intros t']. by destruct (t <? t'); [apply quiet_ret|].
Qed.

Lemma bind_wr {B} a v (k : unit -> M L B) d l :
  (wr a v ≫= k) (d, l) = k tt (wr32 a (u32 v) d, (a, u32 v) :: l).
Proof. done. Qed.

(** Writes of [run_single], the latest first. *)
Lemma run_single_writes fuel base d l :
  (exists c, snd (snd (run_single fuel base (d, l))) =
    [(base + I2C_CNFG, u32 (with_go c NORMAL_MODE_GO)); (base + I2C_CONFIG_LOAD, 0x25)] ++ l).
Proof.
  unfold run_single, _i2c_load_cfg_wait.
  assert (Hend : forall (c : Z) s,
    snd (snd ((wr (base + I2C_CNFG) (with_go c NORMAL_MODE_GO);;
      t ← get_tmr_us; done_ ← busy_wait fuel base (u32 (t + 200000));
      if negb done_ then mret false
      else s ← rd (base + I2C_STATUS); mret (negb (c_true (Z.land s I2C_STATUS_NOACK)))) s)) =
    (base + I2C_CNFG, u32 (with_go c NORMAL_MODE_GO)) :: snd s).
  { intros c [d1 l1]. rewrite bind_wr. match goal with |- snd (snd (?m _)) = _ => assert (Hq : quiet m) end.
    { apply quiet_bind; [apply quiet_tmr|intros t]. apply quiet_bind; [apply quiet_busy_wait|intros b].
      destruct b; [|apply quiet_ret]. apply quiet_bind; [apply quiet_rd|intros; apply quiet_ret]. }
    apply Hq. }
  unfold mbind at 1, M_bind at 1. unfold mbind at 1, M_bind at 1. cbn [wr modify].
  pose proof (quiet_load_wait 20 base (wr32 (base + I2C_CONFIG_LOAD)
    (u32 (Z.lor (BIT 5) (Z.lor TIMEOUT_CONFIG_LOAD MSTR_CONFIG_LOAD))) (d, l))) as Hl.
  destruct (load_wait_ret 20 base (wr32 (base + I2C_CONFIG_LOAD)
    (u32 (Z.lor (BIT 5) (Z.lor TIMEOUT_CONFIG_LOAD MSTR_CONFIG_LOAD))) (d, l))) as [s1 E].
  rewrite E in *. cbn [snd] in Hl.
  unfold mbind at 1, M_bind at 1. unfold rd at 1.
  destruct (rd32 (base + I2C_CNFG) s1) as [c s2] eqn:E2.
  exists c. rewrite Hend.
  replace (snd s2) with (snd s1); [by rewrite Hl|].
  pose proof (quiet_rd (base + I2C_CNFG) s1) as Hq. unfold rd in Hq. rewrite E2 in Hq. by cbn in Hq.
Qed.

(** A single transfer of up to eight bytes writes exactly: the device address, the bytes in
    little-endian order in one or two data registers, the size, then the load and the go bit,
    in this order and nothing after the go bit. *)
Theorem i2c_send_single_writes fuel idx dev buf d l :
  (length buf <= 8)%nat ->
  let base := i2c_addrs idx in
  exists c,
    snd (snd (_i2c_send_single fuel idx dev buf (d, l))) =
    [ (base + I2C_CNFG, u32 (with_go c NORMAL_MODE_GO)); (base + I2C_CONFIG_LOAD, 0x25);
      (base + I2C_CNFG, u32 (single_cnfg (Z.of_nat (length buf)) CMD1_WRITE)) ] ++
    (if 4 <? Z.of_nat (length buf)
     then [ (base + I2C_CMD_DATA2, le_word (drop 4 buf)); (base + I2C_CMD_DATA1, le_word (take 4 buf)) ]
     else [ (base + I2C_CMD_DATA1, le_word buf) ]) ++
    [ (base + I2C_CMD_ADDR0, u32 (Z.shiftl dev 1)) ] ++ l.
Proof.
  intros Hlen base. unfold _i2c_send_single. rewrite (proj2 (Z.ltb_ge 8 _)) by lia.
  assert (Hw : forall w, (length w <= 4)%nat -> u32 (le_word w) = le_word w).
  { intros w Hw. apply u32_id. pose proof (le_word_range w) as [H1 H2]. split; [done|].
    eapply Z.lt_le_trans; [exact H2|]. change 4294967296 with (256 ^ 4). apply Z.pow_le_mono_r; lia. }
  fold base. rewrite bind_wr. unfold ADDR0_WRITE. rewrite Z.lor_0_r, u32_u32.
  destruct (Z.ltb_spec 4 (Z.of_nat (length buf))) as [H4|H4].
  - rewrite bind_assoc, !bind_wr.
    rewrite !Hw by (rewrite ?length_take, ?length_drop; lia).
    match goal with |- context [(_ ≫= _) (?d1, ?l1)] => destruct (run_single_writes fuel base d1 l1) as [c Hc] end.
    exists c. unfold mbind, M_bind. destruct (run_single _ _ _) as [[x| |] s]; cbn [snd mret M_ret] in *;
      by rewrite Hc.
  - rewrite !bind_wr, Hw by lia.
    match goal with |- context [(_ ≫= _) (?d1, ?l1)] => destruct (run_single_writes fuel base d1 l1) as [c Hc] end.
    exists c. unfold mbind, M_bind. destruct (run_single _ _ _) as [[x| |] s]; cbn [snd mret M_ret] in *;
      by rewrite Hc.
Qed.

(** A register write of more than three bytes overruns the driver's four-byte buffer, although
    the function accepts up to seven. *)
Theorem i2c_send_buf_small_overruns fuel idx dev reg buf (d : D) :
  (3 < length buf <= 7)%nat -> fst (send_buf_small fuel idx dev reg buf d) = Overrun.
Proof.
  intros Hl. unfold send_buf_small.
  rewrite (proj2 (Z.ltb_ge 7 _)), (proj2 (Z.ltb_lt 4 _)) by lia. done.
Qed.

End Writes.

(** ** Transfers end *)

(** Time as the microsecond timer shows it, 32 bits wide, and how far one
    access can move it. *)
Class Ticking (D : Type) `{Mmio D} := {
  now : D -> Z;
  tick_us d : fst (tmr_us d) = u32 (now d) /\ now d < now (snd (tmr_us d)) <= now d + 100;
  tick_rd a d : now d <= now (snd (rd32 a d)) <= now d + 100;
  tick_wr a v d : now d <= now (wr32 a v d) <= now d + 100;
  tick_sleep n d : 0 <= n -> now d <= now (sleep_us n d) <= now d + n + 100
}.

Section Termination.
Context {D : Type} `{Ticking D}.

(** From a time of at most [t0], [m] returns at a time that is at most [k] later. *)
Definition within {A} (t0 k : Z) (m : M D A) : Prop :=
  forall d, 0 <= now d <= t0 -> exists x d', m d = (Ret x, d') /\ now d <= now d' <= now d + k.

Lemma within_bind {A B} t0 k1 k2 (m : M D A) (f : A -> M D B) :
  within t0 k1 m -> (forall x, within (t0 + k1) k2 (f x)) -> within t0 (k1 + k2) (m ≫= f).
Proof.
  intros Hm Hf d Hd. destruct (Hm d Hd) as (x & d1 & E1 & Ht1).
  destruct (Hf x d1) as (y & d2 & E2 & Ht2); [lia|].
  exists y, d2. split; [|lia]. by rewrite (bind_run _ _ _ _ _ E1).
Qed.
Lemma within_weaken {A} t0 k k' (m : M D A) : within t0 k m -> k <= k' -> within t0 k' m.
Proof. intros Hm Hk d Hd. destruct (Hm d Hd) as (x & d' & E & Ht). exists x, d'. split; [done|lia]. Qed.
Lemma within_ret {A} t0 (x : A) : within t0 0 (mret x).
Proof. intros d Hd. exists x, d. split; [done|lia]. Qed.
Lemma within_if {A} t0 k (b : bool) (m1 m2 : M D A) :
  within t0 k m1 -> within t0 k m2 -> within t0 k (if b then m1 else m2).
Proof. by destruct b. Qed.
Lemma within_rd t0 a : within t0 100 (rd a).
Proof. intros d Hd. unfold rd. pose proof (tick_rd a d). destruct (rd32 a d) as [v d']. by exists v, d'. Qed.
Lemma within_wr t0 a v : within t0 100 (wr a v).
Proof. intros d Hd. pose proof (tick_wr a (u32 v) d). by eexists _, _. Qed.
Lemma within_tmr t0 : within t0 100 get_tmr_us.
Proof.
  intros d Hd. unfold get_tmr_us. pose proof (tick_us d) as [_ Ht]. destruct (tmr_us d) as [v d'].
  exists v, d'. cbn [snd] in Ht. split; [done|lia].
Qed.
Lemma within_sleep t0 n : 0 <= n -> within t0 (n + 100) (usleep n).
Proof. intros Hn d Hd. pose proof (tick_sleep n d Hn). eexists _, _. split; [done|lia]. Qed.

Lemma within_load_wait t0 n base : within t0 (Z.of_nat n * 201) (load_wait n base).
Proof.
  revert t0. induction n as [|n IH]; intros t0; [apply within_ret|]. cbn [load_wait].
  eapply within_weaken.
  - eapply within_bind; [by apply (within_sleep _ 1)|intros _].
    eapply within_bind; [apply within_rd|intros v].
    instantiate (1 := Z.of_nat n * 201). destruct (negb _); [|apply IH].
    eapply within_weaken; [apply within_ret|lia].
  - lia.
Qed.

(** The busy loop returns when the fuel covers the time to the timeout. *)
Lemma busy_wait_returns fuel base t d :
  0 <= now d -> now d <= t + 200 -> t + 500 < 0x100000000 -> t + 200 - now d < Z.of_nat fuel ->
  exists b d', busy_wait fuel base t d = (Ret b, d').
Proof.
  revert d. induction fuel as [|fuel IH]; intros d Hp Hd Ht Hf; [lia|].
  cbn [busy_wait]. unfold mbind, M_bind, rd. pose proof (tick_rd (base + I2C_STATUS) d) as Hr.
  destruct (rd32 (base + I2C_STATUS) d) as [s d1]. cbn [snd] in Hr.
  destruct (c_true _); [|by eexists _, _]. unfold get_tmr_us. pose proof (tick_us d1) as [Hv Hn].
  destruct (tmr_us d1) as [v d2]. cbn [fst snd] in *. subst v. rewrite u32_id by lia.
  destruct (Z.ltb_spec t (now d1)); [by eexists _, _|]. apply IH; lia.
Qed.

(** A single send always returns: the wait for the bus ends at the timeout of 200 ms even if
    the controller stays busy, as long as the 32-bit timer does not wrap meanwhile. *)
Theorem i2c_send_single_returns fuel idx dev buf d :
  200401 <= Z.of_nat fuel -> 0 <= now d -> now d + 210000 < 0x100000000 ->
  exists r d', _i2c_send_single fuel idx dev buf d = (Ret r, d').
Proof.
  intros Hfuel Hp Hd. unfold _i2c_send_single. destruct (8 <? _); [by eexists _, _|].
  set (base := i2c_addrs idx). set (t0 := now d).
  assert (Hrun : forall d1, t0 <= now d1 <= t0 + 400 ->
    exists b d2, run_single fuel base d1 = (Ret b, d2)).
  { intros d1 Hd1. unfold run_single.
    edestruct (within_bind (now d1) 100 4020 (wr (base + I2C_CONFIG_LOAD)
       (Z.lor (BIT 5) (Z.lor TIMEOUT_CONFIG_LOAD MSTR_CONFIG_LOAD))) (fun _ => load_wait 20 base)
       (within_wr _ _ _) (fun _ => within_load_wait _ 20 base) d1) as (u1 & d2 & E & Ht2); [lia|].
    change (_i2c_load_cfg_wait base d1 = (Ret u1, d2)) in E. rewrite (bind_run _ _ _ _ _ E).
    destruct (within_rd (now d2) (base + I2C_CNFG) d2) as (c & d3 & E3 & Ht3); [lia|].
    rewrite (bind_run _ _ _ _ _ E3).
    destruct (within_wr (now d3) (base + I2C_CNFG) (with_go c NORMAL_MODE_GO) d3) as (u & d4 & E4 & Ht4); [lia|].
    rewrite (bind_run _ _ _ _ _ E4). pose proof (tick_us d4) as [Hv Hn].
    assert (E5 : get_tmr_us d4 = (Ret (now d4), snd (tmr_us d4))).
    { unfold get_tmr_us. destruct (tmr_us d4) as [v d5]. cbn [fst snd] in *. subst v.
      by rewrite u32_id by lia. }
    rewrite (bind_run _ _ _ _ _ E5), u32_id by lia.
    destruct (busy_wait_returns fuel base (now d4 + 200000) (snd (tmr_us d4))) as (b & d6 & E6); try lia.
    rewrite (bind_run _ _ _ _ _ E6). destruct b; cbn [negb]; [|by eexists _, _].
    destruct (rd_ret (base + I2C_STATUS) d6) as (v & d7 & E7).
    rewrite (bind_run _ _ _ _ _ E7). by eexists _, _. }
  destruct (within_wr t0 (base + I2C_CMD_ADDR0) (Z.lor (u32 (Z.shiftl dev 1)) ADDR0_WRITE) d)
    as (? & d1 & E1 & Ht1); [lia|]. rewrite (bind_run _ _ _ _ _ E1).
  match goal with |- context [(if ?b then ?x else ?y) ≫= _] =>
    destruct (within_if (t0 + 100) 200 b x y) with (d := d1) as (? & d2 & E2 & Ht2) end.
  { eapply within_weaken; [eapply within_bind; [apply within_wr|intros; apply within_wr]|lia]. }
  { eapply within_weaken; [apply within_wr|lia]. }
  { lia. }
  rewrite (bind_run _ _ _ _ _ E2).
  destruct (within_wr (now d2) (base + I2C_CNFG) (single_cnfg (Z.of_nat (length buf)) CMD1_WRITE) d2)
    as (? & d3 & E3 & Ht3); [lia|]. rewrite (bind_run _ _ _ _ _ E3).
  destruct (Hrun d3) as (b & d4 & E4); [lia|]. rewrite (bind_run _ _ _ _ _ E4). by eexists _, _.
Qed.

End Termination.

(** ** Witnesses *)

(** A controller that stays busy, with a clock. *)
#[local] Instance stuck : Mmio Z := {
  rd32 _ d := (0xFFFFFFFF, d);
  wr32 _ _ d := d;
  tmr_us d := (u32 d, d + 1);
  tmr_ms d := (u32 (d / 1000), d + 1);
  sleep_us n d := d + n
}.
#[local] Instance stuck_ticking : Ticking Z.
Proof. refine {| now d := d |}; intros; cbn; lia. Defined.

Lemma i2c_send_single_returns_witness :
  exists r d', _i2c_send_single (Z.to_nat 200401) I2C_5 0x3C [0x41; 0x80] (1000 : Z) = (Ret r, d').
Proof. apply i2c_send_single_returns; cbn; lia. Defined.

Lemma i2c_send_single_writes_witness :
  exists c, snd (snd (_i2c_send_single 1 I2C_5 0x3C [0x41; 0x80] (1000 : Z, []))) =
    [ (0x7000D000, u32 (with_go c NORMAL_MODE_GO)); (0x7000D08C, 0x25); (0x7000D000, 0x2802);
      (0x7000D00C, 0x8041); (0x7000D004, 0x78) ].
Proof. apply (i2c_send_single_writes 1 I2C_5 0x3C [0x41; 0x80] (1000 : Z) []). cbn. lia. Defined.

Lemma i2c_send_buf_small_overruns_witness :
  fst (send_buf_small 1 I2C_5 0x3C 0 [1; 2; 3; 4] (1000 : Z)) = Overrun.
Proof. apply i2c_send_buf_small_overruns. cbn. lia. Defined.

(** ** Chips as register files

    A chip that acknowledges every transfer and keeps what is written to a
    register until the next write: the setting in which the register contents
    after a driver operation are stated. *)

Abbreviation regs_t := (gmap (Z * Z * Z) (list Z)).

Class RegFile (D : Type) `{I2c D} := {
  chip_regs : D -> regs_t;
  chip_send i a r bs d : exists d',
    i2c_send_buf_small i a r bs d = (Ret 1, d') /\ chip_regs d' = <[(i, a, r) := bs]> (chip_regs d);
  chip_recv n i a r d : exists d',
    i2c_recv_buf_small n i a r d =
      (Ret (1, take (Z.to_nat n) (default [] (chip_regs d !! (i, a, r)))), d') /\
    chip_regs d' = chip_regs d;
  chip_sleep n d : exists d', i2c_sleep n d = (Ret tt, d') /\ chip_regs d' = chip_regs d
}.

(** The byte in a register. *)
Definition reg_byte (m : regs_t) (i a r : Z) : Z :=
  match default [] (m !! (i, a, r)) with b :: _ => u8 b | [] => 0 end.

Section RegFile.
Context {D : Type} `{RegFile D}.

Lemma chip_send_byte i a r v d : exists d',
  i2c_send_byte i a r v d = (Ret 1, d') /\ chip_regs d' = <[(i, a, r) := [u8 v]]> (chip_regs d).
Proof. unfold i2c_send_byte. apply chip_send. Qed.

Lemma chip_recv_byte i a r d : exists d',
  i2c_recv_byte i a r d = (Ret (reg_byte (chip_regs d) i a r), d') /\ chip_regs d' = chip_regs d.
Proof.
  unfold i2c_recv_byte, reg_byte. destruct (chip_recv 1 i a r d) as (d' & E & Er).
  exists d'. split; [|done]. rewrite (bind_run _ _ _ _ _ E). unfold mret, M_ret.
  by destruct (default [] (chip_regs d !! (i, a, r))) as [|b [|b' bs]].
Qed.

End RegFile.

Lemma reg_byte_insert m i a r v : reg_byte (<[(i, a, r) := [u8 v]]> m) i a r = u8 v.
Proof. unfold reg_byte. rewrite lookup_insert_eq. cbn. apply u8_id, u8_range. Qed.
Lemma reg_byte_insert_ne m k bs i a r :
  k <> (i, a, r) -> reg_byte (<[k := bs]> m) i a r = reg_byte m i a r.
Proof. intros Hk. unfold reg_byte. by rewrite lookup_insert_ne. Qed.
Lemma reg_byte_range m i a r : 0 <= reg_byte m i a r < 256.
Proof. unfold reg_byte. destruct (default _ _); [lia|apply u8_range]. Qed.

(** The registers themselves as the device. *)
#[export] Instance regs_i2c : I2c regs_t := {
  i2c_send_buf_small i a r bs m := (Ret 1, <[(i, a, r) := bs]> m);
  i2c_recv_buf_small n i a r m := (Ret (1, take (Z.to_nat n) (default [] (m !! (i, a, r)))), m);
  i2c_sleep n m := (Ret tt, m)
}.
#[export] Instance regs_regfile : RegFile regs_t.
Proof. refine {| chip_regs m := m |}; intros; by eexists. Defined.
