(* ===== verification/Rtc.v ===== *)
(** * Rtc

    The PMIC clock driver of bdk/rtc/max77620-rtc.c: reading the time registers,
    stopping the alarms, and the conversions between seconds since 1970 and
    dates. *)

From S2P Require Import I2c.

Record rtc_time_t := RtcTime {
  weekday : Z; sec : Z; min : Z; hour : Z; day : Z; month : Z; year : Z
}.

#[export] Instance rtc_time_eq_dec : EqDecision rtc_time_t.
Proof. solve_decision. Defined.

Definition MAX77620_RTC_I2C_ADDR : Z := 0x68.
Definition MAX77620_RTC_NR_TIME_REGS : Z := 7.
Definition MAX77620_RTC_CONTROL_REG : Z := 0x03.
Definition MAX77620_RTC_24H : Z := BIT 1.
Definition MAX77620_RTC_UPDATE0_REG : Z := 0x04.
Definition MAX77620_RTC_WRITE_UPDATE : Z := BIT 0.
Definition MAX77620_RTC_READ_UPDATE : Z := BIT 4.
Definition MAX77620_RTC_SEC_REG : Z := 0x07.
Definition MAX77620_RTC_MIN_REG : Z := 0x08.
Definition MAX77620_RTC_HOUR_REG : Z := 0x09.
Definition MAX77620_RTC_HOUR_PM_MASK : Z := BIT 6.
Definition MAX77620_RTC_WEEKDAY_REG : Z := 0x0A.
Definition MAX77620_RTC_MONTH_REG : Z := 0x0B.
Definition MAX77620_RTC_YEAR_REG : Z := 0x0C.
Definition MAX77620_RTC_DATE_REG : Z := 0x0D.
Definition MAX77620_ALARM1_SEC_REG : Z := 0x0E.
Definition MAX77620_RTC_ALARM_EN_MASK : Z := BIT 7.

(** ** Reading the clock *)

(** The hour, from the control register and the hour register. *)
Definition rtc_hour (ctl hour : Z) : Z :=
  if negb (c_true (Z.land ctl MAX77620_RTC_24H)) && c_true (Z.land hour MAX77620_RTC_HOUR_PM_MASK)
  then Z.land (Z.land hour 0x1F) 0xF + 12
  else Z.land hour 0x1F.

(** The loop that finds the lowest set bit, [n] more rounds to go. *)
Fixpoint rtc_weekday (n : nat) (weekday val : Z) : Z :=
  match n with
  | O => weekday
  | S n =>
      let weekday := weekday + 1 in
      if c_true (Z.land val 1) then weekday else rtc_weekday n weekday (Z.shiftr val 1)
  end.

Section Chip.
Context {D : Type} `{I2c D}.

Definition rtc_read (reg : Z) : M D Z := i2c_recv_byte I2C_5 MAX77620_RTC_I2C_ADDR reg.
Definition rtc_write (reg val : Z) : M D unit :=
  i2c_send_byte I2C_5 MAX77620_RTC_I2C_ADDR reg val;; mret tt.

Definition max77620_rtc_get_time : M D rtc_time_t :=
  rtc_write MAX77620_RTC_UPDATE0_REG MAX77620_RTC_READ_UPDATE;;
  val ← rtc_read MAX77620_RTC_CONTROL_REG;
  s ← rtc_read MAX77620_RTC_SEC_REG;
  m ← rtc_read MAX77620_RTC_MIN_REG;
  h ← rtc_read MAX77620_RTC_HOUR_REG;
  wd ← rtc_read MAX77620_RTC_WEEKDAY_REG;
  d ← rtc_read MAX77620_RTC_DATE_REG;
  mo ← rtc_read MAX77620_RTC_MONTH_REG;
  y ← rtc_read MAX77620_RTC_YEAR_REG;
  mret (RtcTime (rtc_weekday 8 0 wd) (Z.land s 0x7F) (Z.land m 0x7F) (rtc_hour val h)
          (Z.land d 0x1F) (u8 (Z.land mo 0xF - 1)) (Z.land y 0x7F + 2000)).

(** Clear the enable bit of the [n] alarm registers from [i] on. *)
Fixpoint stop_alarm_loop (n : nat) (i : Z) : M D unit :=
  match n with
  | O => mret tt
  | S n =>
      val ← rtc_read (MAX77620_ALARM1_SEC_REG + i);
      rtc_write (MAX77620_ALARM1_SEC_REG + i) (Z.land val (u8 (Z.lnot MAX77620_RTC_ALARM_EN_MASK)));;
      stop_alarm_loop n (i + 1)
  end.

Definition max77620_rtc_stop_alarm : M D unit :=
  rtc_write MAX77620_RTC_UPDATE0_REG MAX77620_RTC_READ_UPDATE;;
  stop_alarm_loop (Z.to_nat (MAX77620_RTC_NR_TIME_REGS * 2)) 0;;
  rtc_write MAX77620_RTC_UPDATE0_REG MAX77620_RTC_WRITE_UPDATE.

End Chip.

(** ** Dates *)

(** The date part of [max77620_rtc_epoch_to_date], from the day number: year,
    month and day as [u32]. *)
Definition day_to_date (epoch : Z) : Z * Z * Z :=
  let tmp := u32 (u64 (4 * epoch + 102032) / 146097 + 15) in
  let tmp := u32 (u64 (epoch + 2442113 + tmp - Z.shiftr tmp 2)) in
  let year := u32 (u32 (20 * tmp) - 2442) / 7305 in
  let edays := u32 (tmp - 365 * year - Z.shiftr year 2) in
  let month := u32 (edays * 1000) / 30601 in
  let day := u32 (edays - month * 30 - u32 (month * 601) / 1000) in
  if month <? 14 then (u32 (year - 4716), u32 (month - 1), day)
  else (u32 (year - 4715), u32 (month - 13), day).

Definition max77620_rtc_epoch_to_date (epoch : Z) : rtc_time_t :=
  let s := epoch mod 60 in
  let epoch := epoch / 60 in
  let m := epoch mod 60 in
  let epoch := epoch / 60 in
  let h := epoch mod 24 in
  let epoch := epoch / 24 in
  let '(y, mo, d) := day_to_date epoch in
  RtcTime 0 (u8 s) (u8 m) (u8 h) (u8 d) (u8 mo) (u16 y).

(** The day number of [max77620_rtc_date_to_epoch], before the multiplication. *)
Definition date_to_day (y mo d : Z) : Z :=
  let '(month, year) := if mo <? 3 then (u32 (mo + 12), u32 (y - 1)) else (mo, y) in
  let epoch := u32 (u32 (u32 (u32 (365 * year) + Z.shiftr year 2) - year / 100) + year / 400) in
  let epoch := u32 (epoch + u32 (u32 (u32 (30 * month) + u32 (3 * u32 (month + 1)) / 5) + d)) in
  u32 (epoch - 719561).

Definition max77620_rtc_date_to_epoch (time : rtc_time_t) : Z :=
  let epoch := date_to_day (year time) (month time) (day time) in
  let epoch := u32 (epoch * 86400) in
  u32 (epoch + u32 (u32 (3600 * hour time + 60 * min time) + sec time)).

(** ** The calendar *)

Definition leap (y : Z) : bool :=
  ((y mod 4 =? 0) && negb (y mod 100 =? 0)) || (y mod 400 =? 0).
Definition month_days (y mo : Z) : Z :=
  match mo with
  | 2 => if leap y then 29 else 28
  | 4 | 6 | 9 | 11 => 30
  | _ => 31
  end.
Definition next_day (ymd : Z * Z * Z) : Z * Z * Z :=
  let '(y, mo, d) := ymd in
  if d <? month_days y mo then (y, mo, d + 1)
  else if mo <? 12 then (y, mo + 1, 1) else (y + 1, 1, 1).

(** The date that is [n] days after 1970-01-01 in the Gregorian calendar. *)
Fixpoint civil (n : nat) : Z * Z * Z :=
  match n with
  | O => (1970, 1, 1)
  | S n => next_day (civil n)
  end.

(** What both conversions must satisfy at day [i]: the following date is that
    of the following day, the way back is exact, and the fields fit. *)
Definition good (i : Z) : bool :=
  let '(y, mo, d) := day_to_date i in
  bool_decide (next_day (y, mo, d) = day_to_date (i + 1)) && (date_to_day y mo d =? i) &&
  ((1970 <=? y) && (y <? 2107)) && ((1 <=? mo) && (mo <=? 12)) && ((1 <=? d) && (d <=? 31)).

Definition year_of (i : Z) : Z := fst (fst (day_to_date i)).

Fixpoint check_range (f : Z -> bool) (n : nat) (i : Z) : bool :=
  match n with
  | O => true
  | S n => f i && check_range f n (i + 1)
  end.

Lemma check_range_spec f n i j :
  check_range f n i = true -> i <= j < i + Z.of_nat n -> f j = true.
Proof.
  revert i. induction n as [|n IH]; intros i Hg Hj; [lia|].
  cbn [check_range] in Hg. apply andb_true_iff in Hg as [Hi Hg].
  destruct (Z.eq_dec j i) as [->|]; [done|]. apply (IH (i + 1)); [done|lia].
Qed.

(** The first four years, and from 2098 on. *)
Lemma good_first : check_range (fun i => good i && (year_of i <=? 1973)) 1461 0 = true.
Proof. vm_compute. reflexivity. Qed.
Lemma good_last : check_range good 2959 46752 = true.
Proof. vm_compute. reflexivity. Qed.

(** Before 2100-03-01 the date is this function of [i + 2442125], and nothing
    wraps. *)
Definition date_of (t : Z) : Z * Z * Z :=
  let year := (20 * t - 2442) / 7305 in
  let edays := t - 365 * year - year / 4 in
  let month := edays * 1000 / 30601 in
  let day := edays - month * 30 - month * 601 / 1000 in
  if month <? 14 then (year - 4716, month - 1, day) else (year - 4715, month - 13, day).

Lemma day_to_date_of i : 0 <= i <= 47540 -> day_to_date i = date_of (i + 2442125).
Proof.
  intros Hi. unfold day_to_date, date_of.
  assert (E1 : u32 (u64 (4 * i + 102032) / 146097 + 15) = (4 * i + 102032) / 146097 + 15).
  { unfold u64. rewrite Z.mod_small by lia. apply u32_id. zdm. }
  rewrite E1. clear E1. set (a := (4 * i + 102032) / 146097).
  assert (Ha : a = 0 \/ a = 1) by (subst a; zdm).
  assert (E2 : u32 (u64 (i + 2442113 + (a + 15) - Z.shiftr (a + 15) 2)) = i + 2442125).
  { replace (Z.shiftr (a + 15) 2) with (a + 3) by (destruct Ha as [-> | ->]; reflexivity).
    replace (i + 2442113 + (a + 15) - (a + 3)) with (i + 2442125) by lia.
    unfold u64. rewrite (Z.mod_small (i + 2442125)) by lia. apply u32_id. lia. }
  rewrite E2. set (t := i + 2442125) in *. assert (Ht : 2442125 <= t <= 2489665) by lia.
  rewrite (u32_id (20 * t)), (u32_id (20 * t - 2442)) by lia.
  set (year := (20 * t - 2442) / 7305). rewrite Z.shiftr_div_pow2 by lia. change (2 ^ 2) with 4.
  assert (Hy : 6685 <= year <= 6816) by (subst year; zdm).
  assert (He : 122 <= t - 365 * year - year / 4 <= 489) by (subst year; zdm).
  rewrite (u32_id (t - 365 * year - year / 4)) by lia.
  set (edays := t - 365 * year - year / 4) in *. rewrite (u32_id (edays * 1000)) by lia.
  set (mo := edays * 1000 / 30601).
  assert (Hmo : 3 <= mo <= 15) by (subst mo; zdm).
  assert (Hd : 0 <= edays - mo * 30 - mo * 601 / 1000 <= 60) by (subst mo; zdm).
  rewrite (u32_id (mo * 601)), (u32_id (edays - mo * 30 - mo * 601 / 1000)) by lia.
  destruct (Z.ltb_spec mo 14); rewrite !u32_id by lia; done.
Qed.

(** Every 1461 days the same dates come again four years later. *)
Lemma day_to_date_shift i y mo d :
  0 <= i -> i + 1461 <= 47540 -> day_to_date i = (y, mo, d) ->
  day_to_date (i + 1461) = (y + 4, mo, d).
Proof.
  intros H0 H1. rewrite !day_to_date_of by lia. unfold date_of.
  replace (20 * (i + 1461 + 2442125) - 2442) with (20 * (i + 2442125) - 2442 + 4 * 7305) by lia.
  rewrite Z.div_add by lia. set (year := (20 * (i + 2442125) - 2442) / 7305).
  replace ((year + 4) / 4) with (year / 4 + 1)
    by (change (year + 4) with (year + 1 * 4); by rewrite Z.div_add by lia).
  replace (i + 1461 + 2442125 - 365 * (year + 4) - (year / 4 + 1))
    with (i + 2442125 - 365 * year - year / 4) by lia.
  destruct (_ <? 14); intros [= <- <- <-]; do 2 f_equal; lia.
Qed.

Lemma leap_century y : 1970 <= y <= 2099 -> leap y = (y mod 4 =? 0).
Proof.
  intros Hy. unfold leap. zcases; cbn; try reflexivity; exfalso; Z.div_mod_to_equations; lia.
Qed.

Lemma next_day_shift y mo d : 1970 <= y <= 2095 ->
  next_day (y + 4, mo, d) = (let '(y', mo', d') := next_day (y, mo, d) in (y' + 4, mo', d')).
Proof.
  intros Hy. assert (Hl : leap (y + 4) = leap y).
  { rewrite !leap_century by lia. change (y + 4) with (y + 1 * 4). by rewrite Z.mod_add. }
  unfold next_day, month_days. rewrite Hl.
  destruct (d <? _); [done|]. destruct (mo <? 12); [done|]. do 2 f_equal; lia.
Qed.

(** The day number without the wrap-around, for a year that starts in March. *)
Lemma day_of_march_year y m d :
  1969 <= y <= 2099 -> 3 <= m <= 14 -> 1 <= d <= 31 -> (y = 1969 -> 13 <= m) ->
  u32 (u32 (u32 (u32 (u32 (u32 (365 * y) + Z.shiftr y 2) - y / 100) + y / 400) +
    u32 (u32 (u32 (30 * m) + u32 (3 * u32 (m + 1)) / 5) + d)) - 719561) =
  365 * y + y / 4 - 15 + (30 * m + 3 * (m + 1) / 5 + d) - 719561.
Proof.
  intros Hy Hm Hd Hb. rewrite Z.shiftr_div_pow2 by lia. change (2 ^ 2) with 4.
  assert (Hq : y / 4 = 492 \/ 493 <= y / 4 <= 524) by zdm.
  assert (Hc : 19 <= y / 100 <= 20) by zdm. assert (Hc' : y / 400 = y / 100 - 15) by zdm.
  assert (Hf : 2 <= 3 * (m + 1) / 5 <= 9) by zdm.
  assert (Hf' : 13 <= m -> 8 <= 3 * (m + 1) / 5) by (intros; zdm).
  rewrite (u32_id (365 * y)) by lia. rewrite (u32_id (365 * y + y / 4)) by lia.
  rewrite (u32_id (365 * y + y / 4 - y / 100)) by lia.
  rewrite (u32_id (365 * y + y / 4 - y / 100 + y / 400)) by lia.
  rewrite (u32_id (m + 1)), (u32_id (30 * m)), (u32_id (3 * (m + 1))) by lia.
  rewrite (u32_id (30 * m + 3 * (m + 1) / 5)) by lia.
  rewrite (u32_id (30 * m + 3 * (m + 1) / 5 + d)) by lia.
  rewrite (u32_id (365 * y + y / 4 - y / 100 + y / 400 + _)) by lia.
  rewrite u32_id; [lia|]. destruct Hq; lia.
Qed.

Lemma date_to_day_shift y mo d :
  1970 <= y <= 2095 -> 1 <= mo <= 12 -> 1 <= d <= 31 ->
  date_to_day (y + 4) mo d = date_to_day y mo d + 1461.
Proof.
  intros Hy Hm Hd. unfold date_to_day.
  assert (Hq : forall z, (z + 4) / 4 = z / 4 + 1)
    by (intros z; change (z + 4) with (z + 1 * 4); by rewrite Z.div_add).
  destruct (Z.ltb_spec mo 3).
  - rewrite !(u32_id (mo + 12)), !(u32_id (y - 1)), !(u32_id (y + 4 - 1)) by lia.
    replace (y + 4 - 1) with (y - 1 + 4) by lia. rewrite !day_of_march_year, Hq by lia. lia.
  - rewrite !day_of_march_year, Hq by lia. lia.
Qed.

Lemma year_shift i : 0 <= i -> i + 1461 <= 47540 -> year_of (i + 1461) = year_of i + 4.
Proof.
  intros H0 H1. unfold year_of. destruct (day_to_date i) as [[y mo] d] eqn:E.
  by rewrite (day_to_date_shift _ _ _ _ H0 H1 E).
Qed.

Lemma good_shift i :
  0 <= i -> i + 1 + 1461 <= 47540 -> year_of i <= 2095 -> good i = true -> good (i + 1461) = true.
Proof.
  intros H0 H1. unfold good, year_of. destruct (day_to_date i) as [[y mo] d] eqn:E. cbn [fst].
  rewrite !andb_true_iff, bool_decide_eq_true, !Z.leb_le, !Z.ltb_lt, !Z.eqb_eq.
  intros Hy [[[[En Ed] [Hy1 Hy2]] [Hm1 Hm2]] [Hd1 Hd2]].
  rewrite (day_to_date_shift _ _ _ _ H0 ltac:(lia) E).
  destruct (next_day (y, mo, d)) as [[y' mo'] d'] eqn:En'.
  rewrite next_day_shift, En' by lia. replace (i + 1461 + 1) with (i + 1 + 1461) by lia.
  rewrite (day_to_date_shift (i + 1) y' mo' d') by (lia || done).
  rewrite date_to_day_shift by lia.
  rewrite !andb_true_iff, bool_decide_eq_true, !Z.leb_le, !Z.ltb_lt, !Z.eqb_eq.
  split_and!; (done || lia).
Qed.

Lemma good_all i : 0 <= i < 49711 -> good i = true.
Proof.
  intros Hi. destruct (Z.le_gt_cases 46752 i);
    [apply (check_range_spec good 2959 46752); [apply good_last|lia]|].
  assert (Hk : forall k j, 0 <= j < 1461 -> Z.of_nat k <= 31 ->
    good (j + 1461 * Z.of_nat k) = true /\ year_of (j + 1461 * Z.of_nat k) <= 1973 + 4 * Z.of_nat k).
  { induction k as [|k IH]; intros j Hj Hb.
    - rewrite Z.add_0_r. pose proof (check_range_spec _ _ _ j good_first ltac:(lia)) as Hg.
      apply andb_true_iff in Hg as [Hg Hy]. split; [done|lia].
    - replace (j + 1461 * Z.of_nat (S k)) with (j + 1461 * Z.of_nat k + 1461) by lia.
      destruct (IH j) as [Hg Hy]; [lia..|]. split; [apply good_shift; lia || done|].
      rewrite year_shift; lia. }
  pose proof (Z.div_mod i 1461 ltac:(lia)) as Em. pose proof (Z.mod_pos_bound i 1461 ltac:(lia)).
  rewrite Em, Z.add_comm, <- (Z2Nat.id (i / 1461)) by (apply Z.div_pos; lia).
  apply Hk; [done|]. rewrite Z2Nat.id by (apply Z.div_pos; lia). lia.
Qed.

Lemma good_parts i : 0 <= i < 49711 -> exists y mo d,
  day_to_date i = (y, mo, d) /\ next_day (y, mo, d) = day_to_date (i + 1) /\
  date_to_day y mo d = i /\ 1970 <= y < 2107 /\ 1 <= mo <= 12 /\ 1 <= d <= 31.
Proof.
  intros Hi. pose proof (good_all i Hi) as Hg. unfold good in Hg.
  destruct (day_to_date i) as [[y mo] d]. exists y, mo, d.
  rewrite !andb_true_iff, bool_decide_eq_true, !Z.leb_le, !Z.ltb_lt, Z.eqb_eq in Hg.
  by destruct Hg as [[[[? ?] ?] ?] ?].
Qed.

(** ** Properties *)

(** C27: every 32-bit time survives the conversion to a date and back. *)
Theorem rtc_epoch_roundtrip e :
  0 <= e < 0x100000000 -> max77620_rtc_date_to_epoch (max77620_rtc_epoch_to_date e) = e.
Proof.
  intros He. unfold max77620_rtc_date_to_epoch, max77620_rtc_epoch_to_date.
  assert (Hn : 0 <= e / 60 / 60 / 24 < 49711) by zdm.
  destruct (good_parts _ Hn) as (y & mo & d & -> & _ & Hday & Hy & Hm & Hd).
  cbn [year month day hour min sec].
  assert (Hs : 0 <= e mod 60 < 60 /\ 0 <= (e / 60) mod 60 < 60 /\ 0 <= (e / 60 / 60) mod 24 < 24) by zdm.
  rewrite (u16_id y), (u8_id mo), (u8_id d), !(u8_id (_ mod _)), Hday by lia.
  assert (E : e = e / 60 / 60 / 24 * 86400 + 3600 * ((e / 60 / 60) mod 24) +
                  60 * ((e / 60) mod 60) + e mod 60) by zdm.
  rewrite (u32_id (_ * 86400)), (u32_id (3600 * _ + _)), (u32_id (3600 * _ + _ + _)), u32_id by lia. lia.
Qed.

(** The date of a time is that of the Gregorian calendar, counting days from 1970-01-01, and
    the time of the day is the remainder. *)
Theorem rtc_epoch_calendar e :
  0 <= e < 0x100000000 ->
  let t := max77620_rtc_epoch_to_date e in
  (year t, month t, day t) = civil (Z.to_nat (e / 86400)) /\
  3600 * hour t + 60 * min t + sec t = e mod 86400 /\
  0 <= hour t < 24 /\ 0 <= min t < 60 /\ 0 <= sec t < 60.
Proof.
  intros He. unfold max77620_rtc_epoch_to_date.
  replace (e / 60 / 60 / 24) with (e / 86400) by (rewrite !Z.div_div by lia; done).
  assert (Hc : forall n, (n < Z.to_nat 49711)%nat -> day_to_date (Z.of_nat n) = civil n).
  { induction n as [|n IH]; intros Hn; [reflexivity|]. cbn [civil]. rewrite <- IH by lia.
    destruct (good_parts (Z.of_nat n)) as (y & mo & d & E & En & _); [lia|].
    rewrite E, En. f_equal. lia. }
  assert (Hn : 0 <= e / 86400 < 49711) by zdm.
  destruct (good_parts _ Hn) as (y & mo & d & E & _ & _ & Hy & Hm & Hd).
  rewrite E. cbn [year month day hour min sec].
  rewrite <- Hc by lia. rewrite Z2Nat.id, E by lia.
  assert (Hs : 0 <= e mod 60 < 60 /\ 0 <= (e / 60) mod 60 < 60 /\ 0 <= (e / 60 / 60) mod 24 < 24) by zdm.
  rewrite (u16_id y), (u8_id mo), (u8_id d), !(u8_id (_ mod _)) by lia.
  split_and!; try lia; try done. zdm.
Qed.

(** In the 12-hour format noon is read as hour 24: twelve is added to the hour
    12 as to any other hour of the afternoon. *)
Lemma rtc_hour_noon : rtc_hour 0 (64 + 12) = 24.
Proof. reflexivity. Qed.

(** On a weekday register with exactly one of the low seven bits set the loop
    finds its number, counting from 1. *)
Lemma rtc_weekday_bit n : 0 <= n < 7 -> rtc_weekday 8 0 (2 ^ n) = n + 1.
Proof.
  intros Hn. assert (n = 0 \/ n = 1 \/ n = 2 \/ n = 3 \/ n = 4 \/ n = 5 \/ n = 6) by lia.
  by repeat match goal with H : _ \/ _ |- _ => destruct H as [-> | H] | H : n = _ |- _ => subst n end.
Qed.

Section Alarms.
Context {D : Type} `{RegFile D}.

Definition rtc_reg (d : D) (r : Z) : Z := reg_byte (chip_regs d) I2C_5 MAX77620_RTC_I2C_ADDR r.

(** The loop clears the enable bits of its registers and touches nothing else. *)
Lemma stop_alarm_loop_spec n i d : exists d',
  stop_alarm_loop n i d = (Ret tt, d') /\
  (forall r, MAX77620_ALARM1_SEC_REG + i <= r < MAX77620_ALARM1_SEC_REG + i + Z.of_nat n ->
     rtc_reg d' r = Z.land (rtc_reg d r) 0x7F) /\
  (forall k a r, ~ (k = I2C_5 /\ a = MAX77620_RTC_I2C_ADDR /\
     MAX77620_ALARM1_SEC_REG + i <= r < MAX77620_ALARM1_SEC_REG + i + Z.of_nat n) ->
     chip_regs d' !! (k, a, r) = chip_regs d !! (k, a, r)).
Proof.
  revert i d. induction n as [|n IH]; intros i d.
  { exists d. split_and!; [done| |done]. intros r Hr. lia. }
  cbn [stop_alarm_loop]. unfold rtc_read, rtc_write.
  destruct (chip_recv_byte I2C_5 MAX77620_RTC_I2C_ADDR (MAX77620_ALARM1_SEC_REG + i) d) as (d1 & E1 & R1).
  rewrite (bind_run _ _ _ _ _ E1), bind_assoc. set (v := reg_byte _ _ _ _).
  destruct (chip_send_byte I2C_5 MAX77620_RTC_I2C_ADDR (MAX77620_ALARM1_SEC_REG + i)
    (Z.land v (u8 (Z.lnot MAX77620_RTC_ALARM_EN_MASK))) d1) as (d2 & E2 & R2).
  rewrite (bind_run _ _ _ _ _ E2). change (u8 (Z.lnot MAX77620_RTC_ALARM_EN_MASK)) with 0x7F in *.
  destruct (IH (i + 1) d2) as (d3 & E3 & Hin & Hout). exists d3. split_and!; [exact E3|..].
  - intros r Hr. destruct (Z.eq_dec r (MAX77620_ALARM1_SEC_REG + i)) as [->|Hne].
    + unfold rtc_reg, reg_byte at 1. rewrite Hout by (intros (_ & _ & ?); lia).
      rewrite R2, lookup_insert_eq. cbn. fold v. rewrite u8_id by apply u8_range. apply u8_id.
      change 0x7F with (Z.ones 7). rewrite Z.land_ones by lia. pose proof (Z.mod_pos_bound v (2 ^ 7)). lia.
    + rewrite Hin by lia. unfold rtc_reg. by rewrite R2, reg_byte_insert_ne, R1 by congruence.
  - intros k a r Hk. rewrite Hout by (intros (? & ? & ?); apply Hk; split_and!; (done || lia)).
    rewrite R2, lookup_insert_ne, R1; [done|]. intros [= <- <- <-]. apply Hk. split_and!; (done || lia).
Qed.

(** Stopping the alarms clears the enable bit of all fourteen alarm registers, keeps their
    other bits and every other register of the chip except the update register, which ends with
    the write request. *)
Theorem rtc_stop_alarm_correct d : exists d',
  max77620_rtc_stop_alarm d = (Ret tt, d') /\
  (forall r, 0x0E <= r <= 0x1B -> rtc_reg d' r = Z.land (rtc_reg d r) 0x7F) /\
  (forall k a r, ~ (k = I2C_5 /\ a = MAX77620_RTC_I2C_ADDR /\ (0x0E <= r <= 0x1B \/ r = 4)) ->
     chip_regs d' !! (k, a, r) = chip_regs d !! (k, a, r)) /\
  rtc_reg d' MAX77620_RTC_UPDATE0_REG = MAX77620_RTC_WRITE_UPDATE.
Proof.
  unfold max77620_rtc_stop_alarm, rtc_write.
  destruct (chip_send_byte I2C_5 MAX77620_RTC_I2C_ADDR MAX77620_RTC_UPDATE0_REG
    MAX77620_RTC_READ_UPDATE d) as (d1 & E1 & R1).
  rewrite bind_assoc, (bind_run _ _ _ _ _ E1). rewrite bind_mret.
  destruct (stop_alarm_loop_spec (Z.to_nat (MAX77620_RTC_NR_TIME_REGS * 2)) 0 d1) as (d2 & E2 & Hin & Hout).
  change (Z.of_nat (Z.to_nat (MAX77620_RTC_NR_TIME_REGS * 2))) with 14 in *.
  unfold MAX77620_ALARM1_SEC_REG in *. rewrite (bind_run _ _ _ _ _ E2).
  destruct (chip_send_byte I2C_5 MAX77620_RTC_I2C_ADDR MAX77620_RTC_UPDATE0_REG
    MAX77620_RTC_WRITE_UPDATE d2) as (d3 & E3 & R3).
  rewrite (bind_run _ _ _ _ _ E3). exists d3. unfold MAX77620_RTC_UPDATE0_REG in *. split_and!; [done|..].
  - intros r Hr. unfold rtc_reg. rewrite R3, reg_byte_insert_ne by (intros [=]; lia).
    fold (rtc_reg d2 r). rewrite Hin by lia. unfold rtc_reg.
    by rewrite R1, reg_byte_insert_ne by (intros [=]; lia).
  - intros k a r Hk. rewrite R3, lookup_insert_ne by (intros [= <- <- <-]; apply Hk; auto).
    rewrite Hout by (intros (? & ? & ?); apply Hk; split_and!; [done|done|lia]).
    rewrite R1, lookup_insert_ne by (intros [= <- <- <-]; apply Hk; auto). done.
  - unfold rtc_reg. rewrite R3. apply reg_byte_insert.
Qed.

End Alarms.

Lemma rtc_epoch_roundtrip_witness :
  max77620_rtc_date_to_epoch (max77620_rtc_epoch_to_date 1600000000) = 1600000000.
Proof. apply rtc_epoch_roundtrip. lia. Defined.

Lemma rtc_epoch_calendar_witness :
  let t := max77620_rtc_epoch_to_date 951782400 in
  (year t, month t, day t) = civil (Z.to_nat (951782400 / 86400)) /\
  (year t, month t, day t) = (2000, 2, 29).
Proof. split; [apply (rtc_epoch_calendar 951782400); lia|vm_compute; reflexivity]. Defined.

Lemma rtc_stop_alarm_correct_witness :
  exists d', max77620_rtc_stop_alarm
      (<[(I2C_5, MAX77620_RTC_I2C_ADDR, 0x15) := [0x83]]> ∅ : regs_t) = (Ret tt, d') /\
    rtc_reg d' 0x15 = 3.
Proof.
  destruct (rtc_stop_alarm_correct (<[(I2C_5, MAX77620_RTC_I2C_ADDR, 0x15) := [0x83]]> ∅ : regs_t))
    as (d' & E & Hin & _).
  exists d'. split; [exact E|]. rewrite Hin by lia. vm_compute. reflexivity.
Defined.
