(* ===== verification/Pmic.v ===== *)
(** * Pmic

    The regulator driver of bdk/power/max7762x.c for the MAX77620, MAX77621 and
    MAX77812 chips, over the I2C interface. *)

From S2P Require Import I2c.
From stdpp Require Import strings.
#[local] Open Scope Z_scope.

Definition REGULATOR_SD : Z := 0.
Definition REGULATOR_LDO : Z := 1.
Definition REGULATOR_BC0 : Z := 2.
Definition REGULATOR_BC1 : Z := 3.

Definition REGULATOR_LDO8 : Z := 12.
Definition REGULATOR_CPU0 : Z := 13.
Definition REGULATOR_MAX : Z := 15.

Definition MAX77620_I2C_ADDR : Z := 0x3C.
Definition MAX77621_CPU_I2C_ADDR : Z := 0x1B.
Definition MAX77621_GPU_I2C_ADDR : Z := 0x1C.
Definition MAX77812_PHASE31_CPU_I2C_ADDR : Z := 0x31.
Definition MAX77812_PHASE211_CPU_I2C_ADDR : Z := 0x33.

Definition MAX77620_REG_CNFGGLBL1 : Z := 0x00.
Definition MAX77620_REG_STATSD : Z := 0x14.
Definition MAX77620_REG_SD_CFG2 : Z := 0x22.
Definition MAX77620_REG_GPIO0 : Z := 0x36.
Definition MAX77620_REG_AME_GPIO : Z := 0x40.
Definition MAX77620_REG_CID4 : Z := 0x5C.
Definition MAX77620_LDO_CFG2_POK_MASK : Z := BIT 3.
Definition MAX77620_SD_CNF2_ROVS_EN_SD0 : Z := BIT 2.
Definition MAX77620_FPS_SRC_NONE : Z := 3.
Definition MAX77621_VOUT_ENABLE_MASK : Z := 0x80.
Definition MAX77621_CONTROL1_REG : Z := 0x02.
Definition MAX77621_CONTROL2_REG : Z := 0x03.

(** The union of [max77620_regulator_t] is its four bytes: FPS register, source,
    power-down and power-up period; or the two control registers with their two
    settings; or enable mask and shift. *)
Record max77620_regulator_t := Regulator {
  rname : string;
  uv_step : Z; uv_min : Z; uv_default : Z; uv_max : Z;
  rtype : Z; volt_addr : Z; cfg_addr : Z; volt_mask : Z;
  un0 : Z; un1 : Z; un2 : Z; un3 : Z
}.

Definition _pmic_regulators : list max77620_regulator_t := [
  Regulator "sd0"  12500 600000  625000 1400000 REGULATOR_SD  0x16 0x1D 0x3F 0x4F 1 7 1;
  Regulator "sd1"  12500 600000 1125000 1125000 REGULATOR_SD  0x17 0x1E 0x7F 0x50 0 1 5;
  Regulator "sd2"  12500 600000 1325000 1350000 REGULATOR_SD  0x18 0x1F 0xFF 0x51 1 5 2;
  Regulator "sd3"  12500 600000 1800000 1800000 REGULATOR_SD  0x19 0x20 0xFF 0x52 0 3 3;
  Regulator "ldo0" 25000 800000 1200000 1200000 REGULATOR_LDO 0x23 0x24 0x3F 0x46 3 7 0;
  Regulator "ldo1" 25000 800000 1050000 1050000 REGULATOR_LDO 0x25 0x26 0x3F 0x47 3 7 0;
  Regulator "ldo2" 50000 800000 1800000 3300000 REGULATOR_LDO 0x27 0x28 0x3F 0x48 3 7 0;
  Regulator "ldo3" 50000 800000 3100000 3100000 REGULATOR_LDO 0x29 0x2A 0x3F 0x49 3 7 0;
  Regulator "ldo4" 12500 800000  850000 1000000 REGULATOR_LDO 0x2B 0x2C 0x3F 0x4A 0 7 1;
  Regulator "ldo5" 50000 800000 1800000 1800000 REGULATOR_LDO 0x2D 0x2E 0x3F 0x4B 3 7 0;
  Regulator "ldo6" 50000 800000 2900000 2900000 REGULATOR_LDO 0x2F 0x30 0x3F 0x4C 3 7 0;
  Regulator "ldo7" 50000 800000 1050000 1050000 REGULATOR_LDO 0x31 0x32 0x3F 0x4D 1 4 3;
  Regulator "ldo8" 50000 800000 1050000 2800000 REGULATOR_LDO 0x33 0x34 0x3F 0x4E 3 7 0;
  Regulator "max77621_CPU" 6250 606250 1000000 1400000 REGULATOR_BC0 0x00 0x01 0x7F 0x02 0xB0 0x9D 0xC1;
  Regulator "max77621_GPU" 6250 606250 1200000 1400000 REGULATOR_BC0 0x00 0x01 0x7F 0x02 0xB0 0x9D 0xC1;
  Regulator "max77812_CPU" 5000 250000  600000 1525000 REGULATOR_BC1 0x26 0x06 0xFF 0x40 6 0 0 ].

Definition null_regulator : max77620_regulator_t := Regulator "" 0 0 0 0 0 0 0 0 0 0 0 0.
Definition regulator (id : Z) : max77620_regulator_t :=
  nth (Z.to_nat id) _pmic_regulators null_regulator.

Section Pmic.
Context {D : Type} `{I2c D}.

(** [FUSE(FUSE_RESERVED_ODM28_T210B01)].  Fuses do not change, so the address
    that the code caches in a static variable is a function of it. *)
Variable odm28 : Z.

Definition _max77812_get_address : Z :=
  if negb (c_true (Z.land odm28 1)) then MAX77812_PHASE31_CPU_I2C_ADDR
  else MAX77812_PHASE211_CPU_I2C_ADDR.

Definition _max7762x_get_i2c_address (id : Z) : Z :=
  let t := rtype (regulator id) in
  if (t =? REGULATOR_SD) || (t =? REGULATOR_LDO) then MAX77620_I2C_ADDR
  else if t =? REGULATOR_BC0 then
    (if id =? REGULATOR_CPU0 then MAX77621_CPU_I2C_ADDR else MAX77621_GPU_I2C_ADDR)
  else if t =? REGULATOR_BC1 then _max77812_get_address
  else 0.

Fixpoint set_reg_loop (retries : nat) (addr reg val : Z) : M D unit :=
  match retries with
  | O => mret tt
  | S retries =>
      r ← i2c_send_byte I2C_5 addr reg val;
      if c_true r then mret tt
      else (i2c_sleep 50;; set_reg_loop retries addr reg val)
  end.
Definition _max7762x_set_reg (addr reg val : Z) : M D unit := set_reg_loop 100 addr reg val.

Definition max77620_regulator_get_status (id : Z) : M D Z :=
  if REGULATOR_LDO8 <? id then mret 0
  else
    let reg := regulator id in
    if rtype reg =? REGULATOR_SD then
      let mask := u8 (Z.shiftl 1 (7 - id)) in
      v ← i2c_recv_byte I2C_5 MAX77620_I2C_ADDR MAX77620_REG_STATSD;
      mret (if c_true (Z.land v mask) then 0 else 1)
    else
      v ← i2c_recv_byte I2C_5 MAX77620_I2C_ADDR (cfg_addr reg);
      mret (if c_true (Z.land v MAX77620_LDO_CFG2_POK_MASK) then 1 else 0).

Definition max77620_regulator_config_fps (id : Z) : M D Z :=
  if REGULATOR_LDO8 <? id then mret 0
  else
    let reg := regulator id in
    _max7762x_set_reg MAX77620_I2C_ADDR (un0 reg)
      (u8 (Z.lor (Z.shiftl (un1 reg) 6) (Z.lor (Z.shiftl (un3 reg) 3) (Z.shiftl (un2 reg) 0))));;
    mret 1.

(** The voltage is in microvolts although the parameter is called [mv]. *)
Definition max7762x_regulator_set_voltage (id mv : Z) : M D Z :=
  if REGULATOR_MAX <? id then mret 0
  else
    let reg := regulator id in
    if (mv <? uv_min reg) || (uv_max reg <? mv) then mret 0
    else
      let addr := _max7762x_get_i2c_address id in
      let mult := u32 (mv + uv_step reg - 1 - uv_min reg) / uv_step reg in
      val ← i2c_recv_byte I2C_5 addr (volt_addr reg);
      let val := u8 (Z.lor (Z.land val (Z.lnot (volt_mask reg))) (Z.land mult (volt_mask reg))) in
      _max7762x_set_reg addr (volt_addr reg) val;;
      (if rtype reg =? REGULATOR_BC0
       then _max7762x_set_reg addr (cfg_addr reg) (Z.lor MAX77621_VOUT_ENABLE_MASK val)
       else mret tt);;
      i2c_sleep 1000;;
      mret 1.

(** Register address, value, mask and shift of the enable field. *)
Definition enable_field (id : Z) : option (Z * Z * Z * Z) :=
  let reg := regulator id in
  let t := rtype reg in
  if t =? REGULATOR_SD then Some (cfg_addr reg, 3, 0x30, 4)
  else if t =? REGULATOR_LDO then Some (volt_addr reg, 3, 0xC0, 6)
  else if t =? REGULATOR_BC0 then Some (volt_addr reg, 1, 0x80, 7)
  else if t =? REGULATOR_BC1 then Some (cfg_addr reg, 1, un0 reg, un1 reg)
  else None.

Definition max7762x_regulator_enable (id : Z) (enable : bool) : M D Z :=
  if REGULATOR_MAX <? id then mret 0
  else
    match enable_field id with
    | None => mret 0
    | Some (reg_addr, enable_val, enable_mask, enable_shift) =>
        let addr := _max7762x_get_i2c_address id in
        val ← i2c_recv_byte I2C_5 addr reg_addr;
        let val := Z.land val (u8 (Z.lnot enable_mask)) in
        let val := if enable then u8 (Z.lor val (Z.shiftl enable_val enable_shift)) else val in
        _max7762x_set_reg addr reg_addr val;;
        i2c_sleep 1000;;
        mret 1
    end.

Definition max77620_config_gpio (gpio_id : Z) (enable : bool) : M D unit :=
  if 7 <? gpio_id then mret tt
  else
    val ← i2c_recv_byte I2C_5 MAX77620_I2C_ADDR MAX77620_REG_AME_GPIO;
    i2c_send_byte I2C_5 MAX77620_I2C_ADDR MAX77620_REG_AME_GPIO (Z.land val (Z.lnot (BIT gpio_id)));;
    let val := if enable then Z.lor (Z.shiftl 1 3) (Z.lor (Z.shiftl 0 1) (Z.shiftl 1 0))
               else Z.lor (Z.shiftl 1 1) (Z.shiftl 0 0) in
    i2c_send_byte I2C_5 MAX77620_I2C_ADDR (MAX77620_REG_GPIO0 + gpio_id) val;;
    mret tt.

Definition max77621_config_default (id : Z) (por : bool) : M D unit :=
  let reg := regulator id in
  if negb (rtype reg =? REGULATOR_BC0) then mret tt
  else
    let addr := _max7762x_get_i2c_address id in
    if por then
      max7762x_regulator_set_voltage id 1000000;;
      max7762x_regulator_enable id false;;
      i2c_send_byte I2C_5 addr MAX77621_CONTROL1_REG (un0 reg);;
      i2c_send_byte I2C_5 addr MAX77621_CONTROL2_REG (un2 reg);;
      mret tt
    else
      i2c_send_byte I2C_5 addr MAX77621_CONTROL1_REG (un1 reg);;
      i2c_send_byte I2C_5 addr MAX77621_CONTROL2_REG (un3 reg);;
      mret tt.

(** The loop over the regulators from [i] on, [n] of them. *)
Fixpoint config_default_loop (n : nat) (i : Z) : M D unit :=
  match n with
  | O => mret tt
  | S n =>
      max77620_regulator_config_fps i;;
      max7762x_regulator_set_voltage i (uv_default (regulator i));;
      (if negb (un1 (regulator i) =? MAX77620_FPS_SRC_NONE)
       then (max7762x_regulator_enable i true;; mret tt) else mret tt);;
      config_default_loop n (i + 1)
  end.

Definition max77620_config_default : M D unit :=
  cid ← i2c_recv_byte I2C_5 MAX77620_I2C_ADDR MAX77620_REG_CID4;
  if negb (cid =? 0x35) then mret tt
  else
    config_default_loop (Z.to_nat REGULATOR_LDO8) 1;;
    _max7762x_set_reg MAX77620_I2C_ADDR MAX77620_REG_SD_CFG2 MAX77620_SD_CNF2_ROVS_EN_SD0.

Definition max77620_low_battery_monitor_config (enable : bool) : M D unit :=
  _max7762x_set_reg MAX77620_I2C_ADDR MAX77620_REG_CNFGGLBL1
    (Z.lor (BIT 7) (Z.lor (if enable then BIT 6 else 0) (Z.lor (Z.shiftl 1 4) (Z.shiftl 1 1)))).

End Pmic.

(** ** Voltages and enables *)

Section Properties.
Context {D : Type} `{RegFile D}.
Variable odm28 : Z.

Lemma set_reg_spec addr reg val d : exists d',
  _max7762x_set_reg addr reg val d = (Ret tt, d') /\
  chip_regs d' = <[(I2C_5, addr, reg) := [u8 val]]> (chip_regs d).
Proof.
  unfold _max7762x_set_reg. cbn [set_reg_loop].
  destruct (chip_send_byte I2C_5 addr reg val d) as (d' & E & R).
  exists d'. by rewrite (bind_run _ _ _ _ _ E).
Qed.

(** Every entry of the table is sane: positive step, byte masks that are a run
    of low bits, a range within 32 bits. *)
Lemma regulator_sane id :
  0 <= id <= REGULATOR_MAX ->
  let reg := regulator id in
  0 < uv_step reg < 100000 /\ 0 <= uv_min reg <= uv_max reg /\ uv_max reg < 4000000 /\
  0 <= volt_mask reg < 256 /\ volt_mask reg = Z.ones (Z.log2 (volt_mask reg) + 1) /\
  (id <> 0 -> (uv_max reg + uv_step reg - 1 - uv_min reg) / uv_step reg <= volt_mask reg).
Proof.
  unfold REGULATOR_MAX. intros Hid.
  assert (Hc : forallb (fun id =>
    let reg := regulator id in
    (0 <? uv_step reg) && (uv_step reg <? 100000) && (0 <=? uv_min reg) && (uv_min reg <=? uv_max reg) &&
    (uv_max reg <? 4000000) && (0 <=? volt_mask reg) && (volt_mask reg <? 256) &&
    (volt_mask reg =? Z.ones (Z.log2 (volt_mask reg) + 1)) &&
    ((id =? 0) || ((uv_max reg + uv_step reg - 1 - uv_min reg) / uv_step reg <=? volt_mask reg)))
    (map Z.of_nat (seq 0 16)) = true) by reflexivity.
  rewrite forallb_forall in Hc. specialize (Hc id).
  rewrite !andb_true_iff, orb_true_iff, !Z.leb_le, !Z.ltb_lt, !Z.eqb_eq in Hc.
  destruct Hc as [[[[[[[[? ?] ?] ?] ?] ?] ?] ?] Hfit].
  { apply in_map_iff. exists (Z.to_nat id). split; [lia|]. apply in_seq. lia. }
  cbv zeta. split_and!; try done. intros Hne. by destruct Hfit.
Qed.

(** The multiplier rounds up. *)
Lemma mult_bounds mv step mn :
  0 < step -> 0 <= mn <= mv -> mv < 4000000 -> step < 100000 ->
  let mult := u32 (mv + step - 1 - mn) / step in
  mult = (mv + step - 1 - mn) / step /\ mv <= mn + mult * step < mv + step.
Proof.
  intros Hs Hmn Hmv Hst mult. subst mult. rewrite u32_id by lia. split; [done|].
  pose proof (Z.div_mod (mv + step - 1 - mn) step ltac:(lia)).
  pose proof (Z.mod_pos_bound (mv + step - 1 - mn) step Hs). nia.
Qed.

(** A voltage within a regulator's range is programmed: the voltage field selects the
    smallest step that is not below the request, the other bits of the register are kept, and
    nothing else changes but the DVS register of the MAX77621.  The SoC rail sd0 is covered up
    to 1387500 uV, where its six-bit field ends. *)
Theorem set_voltage_correct id mv d :
  0 <= id <= REGULATOR_MAX -> uv_min (regulator id) <= mv <= uv_max (regulator id) ->
  (id = 0 -> mv <= 1387500) ->
  let reg := regulator id in
  let addr := _max7762x_get_i2c_address odm28 id in
  let old := reg_byte (chip_regs d) I2C_5 addr (volt_addr reg) in
  exists d' val,
    max7762x_regulator_set_voltage odm28 id mv d = (Ret 1, d') /\
    chip_regs d' =
      (if rtype reg =? REGULATOR_BC0 then <[(I2C_5, addr, cfg_addr reg) := [u8 (Z.lor 0x80 val)]]> else (fun m => m))
        (<[(I2C_5, addr, volt_addr reg) := [val]]> (chip_regs d)) /\
    mv <= uv_min reg + Z.land val (volt_mask reg) * uv_step reg < mv + uv_step reg /\
    Z.ldiff val (volt_mask reg) = Z.ldiff old (volt_mask reg).
Proof.
  intros Hid Hmv Hsd0 reg addr old. unfold max7762x_regulator_set_voltage.
  destruct (regulator_sane id Hid) as (Hs & Hm & Hu & Hk & Hones & Hfit). fold reg in Hs, Hm, Hu, Hk, Hones, Hfit, Hmv.
  cbv zeta. fold reg. rewrite (proj2 (Z.ltb_ge REGULATOR_MAX id)) by lia.
  rewrite (proj2 (Z.ltb_ge mv (uv_min reg))), (proj2 (Z.ltb_ge (uv_max reg) mv)) by lia. cbn [orb].
  fold addr. set (mult := u32 (mv + uv_step reg - 1 - uv_min reg) / uv_step reg).
  destruct (mult_bounds mv (uv_step reg) (uv_min reg)) as [Em Hb]; [lia..|]. fold mult in Em, Hb.
  assert (Hmask : Z.land mult (volt_mask reg) = mult).
  { rewrite Hones. rewrite Z.land_ones by (pose proof (Z.log2_nonneg (volt_mask reg)); lia).
    apply Z.mod_small. split; [rewrite Em; apply Z.div_pos; lia|].
    assert (Hle : mult <= volt_mask reg).
    { rewrite Em. destruct (Z.eq_dec id 0) as [->|Hne].
      - specialize (Hsd0 eq_refl). apply Z.lt_succ_r, Z.div_lt_upper_bound; [lia|].
        change (uv_step reg) with 12500. change (uv_min reg) with 600000. change (volt_mask reg) with 63. lia.
      - etrans; [|apply Hfit, Hne]. apply Z.div_le_mono; lia. }
    rewrite Hones, Z.ones_equiv in Hle. lia. }
  destruct (chip_recv_byte I2C_5 addr (volt_addr reg) d) as (d1 & E1 & R1).
  rewrite (bind_run _ _ _ _ _ E1). fold old.
  destruct (field_update old mult (volt_mask reg)) as [Hf1 Hf2]; [apply reg_byte_range|lia|].
  set (val := u8 (Z.lor _ _)) in *. rewrite Hmask in Hf1.
  destruct (set_reg_spec addr (volt_addr reg) val d1) as (d2 & E2 & R2).
  rewrite (bind_run _ _ _ _ _ E2). rewrite (u8_id val), R1 in R2 by apply u8_range.
  assert (Hdvs : exists d3, (if rtype reg =? REGULATOR_BC0
      then _max7762x_set_reg addr (cfg_addr reg) (Z.lor MAX77621_VOUT_ENABLE_MASK val) else mret tt) d2 = (Ret tt, d3) /\
      chip_regs d3 = (if rtype reg =? REGULATOR_BC0
        then <[(I2C_5, addr, cfg_addr reg) := [u8 (Z.lor 0x80 val)]]> else (fun m => m)) (chip_regs d2)).
  { destruct (rtype reg =? REGULATOR_BC0); [apply set_reg_spec|by exists d2]. }
  destruct Hdvs as (d3 & E3 & R3). rewrite (bind_run _ _ _ _ _ E3).
  destruct (chip_sleep 1000 d3) as (d4 & E4 & R4). rewrite (bind_run _ _ _ _ _ E4).
  exists d4, val. split_and!; [done|by rewrite R4, R3, R2|rewrite Hf1; lia..|done].
Qed.

(** A request above 1387500 uV on the SoC rail sd0, up to the 1400000 uV that its table entry
    allows, selects the lowest voltage of 600000 uV: the multiplier 64 does not fit the field. *)
Theorem set_voltage_sd0_wraps mv d :
  1387500 < mv <= 1400000 ->
  exists d' val,
    max7762x_regulator_set_voltage odm28 0 mv d = (Ret 1, d') /\
    chip_regs d' = <[(I2C_5, MAX77620_I2C_ADDR, 0x16) := [val]]> (chip_regs d) /\
    Z.land val 0x3F = 0.
Proof.
  intros Hmv. unfold max7762x_regulator_set_voltage. cbv zeta.
  change (REGULATOR_MAX <? 0) with false. change (regulator 0) with (nth 0 _pmic_regulators null_regulator).
  cbn [nth _pmic_regulators uv_min uv_max uv_step volt_addr volt_mask rtype cfg_addr].
  rewrite (proj2 (Z.ltb_ge mv _)), (proj2 (Z.ltb_ge _ mv)) by lia. cbn [orb].
  change (_max7762x_get_i2c_address odm28 0) with MAX77620_I2C_ADDR.
  replace (u32 (mv + 12500 - 1 - 600000) / 12500) with 64 by (rewrite u32_id by lia; zdm).
  destruct (chip_recv_byte I2C_5 MAX77620_I2C_ADDR 0x16 d) as (d1 & E1 & R1).
  rewrite (bind_run _ _ _ _ _ E1). set (old := reg_byte _ _ _ _).
  destruct (field_update old 64 0x3F) as [Hf _]; [apply reg_byte_range|lia|].
  set (val := u8 (Z.lor _ _)) in *.
  destruct (set_reg_spec MAX77620_I2C_ADDR 0x16 val d1) as (d2 & E2 & R2).
  rewrite (bind_run _ _ _ _ _ E2). rewrite (u8_id val), R1 in R2 by apply u8_range.
  change (REGULATOR_SD =? REGULATOR_BC0) with false. cbn iota. rewrite bind_mret.
  destruct (chip_sleep 1000 d2) as (d3 & E3 & R3). rewrite (bind_run _ _ _ _ _ E3).
  exists d3, val. by rewrite R3, R2.
Qed.

(** The enable field of every regulator is a byte mask that holds its value. *)
Lemma enable_field_sane id :
  0 <= id <= REGULATOR_MAX -> exists r v m s,
    enable_field id = Some (r, v, m, s) /\ 0 <= m < 256 /\ Z.land (Z.shiftl v s) m = Z.shiftl v s /\
    Z.shiftl v s <> 0.
Proof.
  unfold REGULATOR_MAX. intros Hid.
  assert (Hc : forallb (fun id => match enable_field id with
      | Some (r, v, m, s) => (0 <=? m) && (m <? 256) && (Z.land (Z.shiftl v s) m =? Z.shiftl v s) &&
                             negb (Z.shiftl v s =? 0)
      | None => false end) (map Z.of_nat (seq 0 16)) = true) by reflexivity.
  rewrite forallb_forall in Hc. specialize (Hc id).
  destruct (enable_field id) as [[[[r v] m] s]|].
  - exists r, v, m, s. split; [done|].
    rewrite !andb_true_iff, negb_true_iff, Z.eqb_neq, Z.eqb_eq, Z.leb_le, Z.ltb_lt in Hc.
    destruct Hc as [[[? ?] ?] ?]; [|done].
    apply in_map_iff. exists (Z.to_nat id). split; [lia|]. apply in_seq. lia.
  - exfalso. discriminate Hc. apply in_map_iff. exists (Z.to_nat id). split; [lia|]. apply in_seq. lia.
Qed.

(** Switching a regulator sets its enable field to the on value or to zero and keeps every
    other bit and every other register. *)
Theorem regulator_enable_correct id enable d :
  0 <= id <= REGULATOR_MAX -> exists r v m s d' val,
    enable_field id = Some (r, v, m, s) /\ Z.shiftl v s <> 0 /\
    max7762x_regulator_enable odm28 id enable d = (Ret 1, d') /\
    chip_regs d' = <[(I2C_5, _max7762x_get_i2c_address odm28 id, r) := [val]]> (chip_regs d) /\
    Z.land val m = (if enable then Z.shiftl v s else 0) /\
    Z.ldiff val m = Z.ldiff (reg_byte (chip_regs d) I2C_5 (_max7762x_get_i2c_address odm28 id) r) m.
Proof.
  intros Hid. destruct (enable_field_sane id Hid) as (r & v & m & s & Ef & Hm & Hv & Hne).
  unfold max7762x_regulator_enable. rewrite (proj2 (Z.ltb_ge REGULATOR_MAX id)), Ef by lia.
  set (addr := _max7762x_get_i2c_address odm28 id).
  destruct (chip_recv_byte I2C_5 addr r d) as (d1 & E1 & R1).
  rewrite (bind_run _ _ _ _ _ E1). set (old := reg_byte _ _ _ _).
  pose proof (reg_byte_range (chip_regs d) I2C_5 addr r) as Ho. fold old in Ho.
  set (val := if enable then _ else _).
  assert (Hval : val = u8 (Z.lor (Z.land old (Z.lnot m)) (Z.land (if enable then Z.shiftl v s else 0) m))).
  { assert (Hl : Z.land old (u8 (Z.lnot m)) = Z.land old (Z.lnot m)).
    { apply Z.bits_inj'. intros n Hn. rewrite !Z.land_spec, u8_testbit by done.
      destruct (Z.ltb_spec n 8); [done|]. by rewrite (byte_testbit_high old). }
    unfold val. rewrite Hl. destruct enable; [by rewrite Hv|].
    rewrite Z.land_0_l, Z.lor_0_r. symmetry. rewrite <- Hl. apply u8_id.
    rewrite Hl. split; [apply Z.land_nonneg; lia|]. rewrite <- (u8_id old), <- Z.ldiff_land by done.
    pose proof (u8_range (Z.ldiff old m)). enough (Z.ldiff (u8 old) m = u8 (Z.ldiff old m)) by lia.
    apply Z.bits_inj'. intros n Hn. rewrite u8_testbit, !Z.ldiff_spec, u8_testbit by done.
    by destruct (n <? 8). }
  destruct (field_update old (if enable then Z.shiftl v s else 0) m) as [Hf1 Hf2]; [done..|].
  rewrite <- Hval in Hf1, Hf2.
  destruct (set_reg_spec addr r val d1) as (d2 & E2 & R2).
  rewrite (bind_run _ _ _ _ _ E2).
  rewrite (u8_id val), R1 in R2 by (rewrite Hval; apply u8_range).
  destruct (chip_sleep 1000 d2) as (d3 & E3 & R3). rewrite (bind_run _ _ _ _ _ E3).
  exists r, v, m, s, d3, val. split_and!; try done; [by rewrite R3, R2|].
  rewrite Hf1. destruct enable; [done|apply Z.land_0_l].
Qed.

End Properties.

(** The rail for the SD card at 1.8 V and at 3.3 V. *)
Example ldo2_levels :
  Z.land (reg_byte (snd (max7762x_regulator_set_voltage 0 6 1800000 ∅)) I2C_5 MAX77620_I2C_ADDR 0x27) 0x3F = 20 /\
  Z.land (reg_byte (snd (max7762x_regulator_set_voltage 0 6 3300000 ∅)) I2C_5 MAX77620_I2C_ADDR 0x27) 0x3F = 50.
Proof. split; vm_compute; reflexivity. Qed.

Lemma set_voltage_correct_witness :
  exists d' val, max7762x_regulator_set_voltage 0 6 1810000 (∅ : regs_t) = (Ret 1, d') /\
    1810000 <= 800000 + Z.land val 0x3F * 50000 < 1860000.
Proof.
  destruct (set_voltage_correct 0 6 1810000 (∅ : regs_t)) as (d' & val & E & _ & Hv & _).
  - unfold REGULATOR_MAX. lia.
  - split; vm_compute; discriminate.
  - lia.
  - exists d', val. split; [exact E|exact Hv].
Defined.

Lemma set_voltage_sd0_wraps_witness :
  exists d' val, max7762x_regulator_set_voltage 0 0 1400000 (∅ : regs_t) = (Ret 1, d') /\
    chip_regs d' = <[(I2C_5, MAX77620_I2C_ADDR, 0x16) := [val]]> (chip_regs (∅ : regs_t)) /\ Z.land val 0x3F = 0.
Proof. apply (set_voltage_sd0_wraps 0 1400000 (∅ : regs_t)). lia. Defined.

Lemma regulator_enable_correct_witness :
  exists r v m s d' val,
    enable_field 6 = Some (r, v, m, s) /\ Z.shiftl v s <> 0 /\
    max7762x_regulator_enable 0 6 true (∅ : regs_t) = (Ret 1, d') /\
    chip_regs d' = <[(I2C_5, _max7762x_get_i2c_address 0 6, r) := [val]]> (chip_regs (∅ : regs_t)) /\
    Z.land val m = Z.shiftl v s /\ Z.ldiff val m = Z.ldiff (reg_byte (chip_regs (∅ : regs_t)) I2C_5 (_max7762x_get_i2c_address 0 6) r) m.
Proof. apply (regulator_enable_correct 0 6 true (∅ : regs_t)). unfold REGULATOR_MAX. lia. Defined.
