(* ===== verification/Battery.v ===== *)
(** * Battery

    The fuel gauge driver of bdk/power/max17050.c and the charger driver of
    bdk/power/bq24193.c, over the I2C interface. *)

From S2P Require Import I2c.

(** ** Fuel gauge *)

Definition MAXIM17050_I2C_ADDR : Z := 0x36.
Definition BASE_SNS_UOHM : Z := 5000.
Definition MAX17050_BOARD_CGAIN : Z := 2.
Definition MAX17050_BOARD_SNS_RESISTOR_UOHM : Z := 5000.

Definition MAX17050_STATUS : Z := 0x00.
Definition MAX17050_RepCap : Z := 0x05.
Definition MAX17050_RepSOC : Z := 0x06.
Definition MAX17050_Age : Z := 0x07.
Definition MAX17050_TEMP : Z := 0x08.
Definition MAX17050_VCELL : Z := 0x09.
Definition MAX17050_Current : Z := 0x0A.
Definition MAX17050_AvgCurrent : Z := 0x0B.
Definition MAX17050_RemCap : Z := 0x0F.
Definition MAX17050_FullCAP : Z := 0x10.
Definition MAX17050_Cycles : Z := 0x17.
Definition MAX17050_DesignCap : Z := 0x18.
Definition MAX17050_AvgVCELL : Z := 0x19.
Definition MAX17050_MinMaxVolt : Z := 0x1B.
Definition MAX17050_CONFIG : Z := 0x1D.
Definition MAX17050_FullCAPNom : Z := 0x23.
Definition MAX17050_LearnCFG : Z := 0x28.
Definition MAX17050_V_empty : Z := 0x3A.
Definition MAX17050_dQacc : Z := 0x45.
Definition MAX17050_dPacc : Z := 0x46.
Definition MAX17050_VFSOC0 : Z := 0x48.
Definition MAX17050_MinVolt : Z := 0x50.
Definition MAX17050_MaxVolt : Z := 0x51.
Definition MAX17050_VFSOC0Enable : Z := 0x60.
Definition MAX17050_OCVInternal : Z := 0xFB.

Definition STATUS_POR_BIT : Z := BIT 1.
Definition VFSOC0_LOCK : Z := 0x0000.
Definition VFSOC0_UNLOCK : Z := 0x0080.

(** The device and the driver's [battery_voltage]. *)
Record gauge (D : Type) := Gauge { g_dev : D; battery_voltage : Z }.
Arguments Gauge {D}.
Arguments g_dev {D}.
Arguments battery_voltage {D}.

(** How each property is computed from the 16 bits of its register; [None] for a
    property the function does not know. *)
Definition max17050_decode (reg : Z) : option (Z * (Z -> Z)) :=
  let volt data := Z.shiftr data 3 * 625 / 1000 in
  let cap data := data * (BASE_SNS_UOHM / MAX17050_BOARD_SNS_RESISTOR_UOHM) / MAX17050_BOARD_CGAIN in
  let curr data := s16 data * (1562500 / (MAX17050_BOARD_SNS_RESISTOR_UOHM * MAX17050_BOARD_CGAIN)) in
  if reg =? MAX17050_Age then Some (MAX17050_Age, fun data => Z.shiftr data 8)
  else if reg =? MAX17050_Cycles then Some (MAX17050_Cycles, fun data => data)
  else if reg =? MAX17050_MinVolt then Some (MAX17050_MinMaxVolt, fun data => Z.land data 0xFF * 20)
  else if reg =? MAX17050_MaxVolt then Some (MAX17050_MinMaxVolt, fun data => Z.shiftr data 8 * 20)
  else if reg =? MAX17050_V_empty then Some (MAX17050_V_empty, fun data => Z.shiftr data 7 * 10)
  else if reg =? MAX17050_VCELL then Some (MAX17050_VCELL, volt)
  else if reg =? MAX17050_AvgVCELL then Some (MAX17050_AvgVCELL, volt)
  else if reg =? MAX17050_OCVInternal then Some (MAX17050_OCVInternal, volt)
  else if reg =? MAX17050_RepSOC then Some (MAX17050_RepSOC, fun data => data)
  else if reg =? MAX17050_DesignCap then Some (MAX17050_DesignCap, cap)
  else if reg =? MAX17050_FullCAP then Some (MAX17050_FullCAP, cap)
  else if reg =? MAX17050_RepCap then Some (MAX17050_RepCap, cap)
  else if reg =? MAX17050_TEMP then Some (MAX17050_TEMP, fun data => Z.quot (s16 data * 10) 256)
  else if reg =? MAX17050_Current then Some (MAX17050_Current, curr)
  else if reg =? MAX17050_AvgCurrent then Some (MAX17050_AvgCurrent, curr)
  else None.

Section Gauge.
Context {D : Type} `{I2c D}.

Definition max17050_get_cached_batt_volt (g : gauge D) : Z := battery_voltage g.

(** A 16-bit register; the halves that were not received stay 0. *)
Definition max17050_get_reg (reg : Z) : M D Z :=
  '(_, bs) ← i2c_recv_buf_small 2 I2C_1 MAXIM17050_I2C_ADDR (u8 reg);
  mret (le_word (take 2 bs)).

(** The return value and what is stored through the pointer. *)
Definition max17050_get_property (reg : Z) : M (gauge D) (Z * option Z) := fun g =>
  match max17050_decode reg with
  | None => (Ret (-1, None), g)
  | Some (r, f) =>
      match max17050_get_reg r (g_dev g) with
      | (Ret data, d) =>
          let value := f data in
          (Ret (0, Some value), Gauge d (if reg =? MAX17050_VCELL then value else battery_voltage g))
      | (Overrun, d) => (Overrun, Gauge d (battery_voltage g))
      | (NoFuel, d) => (NoFuel, Gauge d (battery_voltage g))
      end
  end.

Definition send16 (reg value : Z) : M D Z :=
  i2c_send_buf_small I2C_1 MAXIM17050_I2C_ADDR reg (le_bytes 2 value).

(** [retries] rounds are left. *)
Fixpoint write_verify_loop (retries : nat) (reg value ret : Z) : M D Z :=
  match retries with
  | O => mret ret
  | S retries =>
      ret ← send16 reg value;
      read_value ← max17050_get_reg reg;
      if read_value =? value then mret ret
      else write_verify_loop retries reg value (-1)
  end.
Definition _max17050_write_verify_reg (reg value : Z) : M D Z := write_verify_loop 8 reg value 0.

Definition _max17050_override_por (reg value : Z) : M D unit :=
  if c_true value then (send16 reg value;; mret tt) else mret tt.

Definition _max17050_load_new_capacity_params : M D unit :=
  let fullcap := 0x2476 in let dq_acc := 0x10bc in let dp_acc := 0x5e09 in let repSoc := 0x6400 in
  _max17050_write_verify_reg MAX17050_RemCap fullcap;;
  _max17050_write_verify_reg MAX17050_RepCap fullcap;;
  _max17050_write_verify_reg MAX17050_dQacc dq_acc;;
  _max17050_write_verify_reg MAX17050_dPacc dp_acc;;
  _max17050_write_verify_reg MAX17050_FullCAP fullcap;;
  _max17050_write_verify_reg MAX17050_FullCAPNom fullcap;;
  send16 MAX17050_RepSOC repSoc;;
  mret tt.

Definition _max17050_reset_vfsoc0_reg : M D unit :=
  send16 MAX17050_VFSOC0Enable VFSOC0_UNLOCK;;
  _max17050_write_verify_reg MAX17050_VFSOC0 0x6440;;
  send16 MAX17050_VFSOC0Enable VFSOC0_LOCK;;
  mret tt.

Definition _max17050_update_capacity_regs : M D unit :=
  _max17050_write_verify_reg MAX17050_FullCAP 0x2476;;
  _max17050_write_verify_reg MAX17050_FullCAPNom 0x2476;;
  mret tt.

Definition _max17050_write_config_regs : M D unit :=
  send16 MAX17050_CONFIG 0x7254;;
  send16 MAX17050_LearnCFG 0x2473;;
  mret tt.

Definition _max17050_override_por_values : M D unit :=
  _max17050_override_por MAX17050_dQacc 0x10bc;;
  _max17050_override_por MAX17050_dPacc 0x5e09.

Definition _max17050_set_por_bit (value : Z) : M D unit :=
  _max17050_write_verify_reg MAX17050_STATUS value;; mret tt.

Definition max17050_fix_configuration : M D Z :=
  _max17050_set_por_bit STATUS_POR_BIT;;
  _max17050_override_por_values;;
  i2c_sleep 500000;;
  _max17050_write_config_regs;;
  _max17050_update_capacity_regs;;
  i2c_sleep 350000;;
  _max17050_reset_vfsoc0_reg;;
  _max17050_load_new_capacity_params;;
  _max17050_set_por_bit 0x8801;;
  mret 0.

(** Whatever the gauge answers, a verified write ends after at most eight rounds, and a
    result other than -1 means that the last value read back from the register is the one
    written. *)
Theorem write_verify_sound reg value d r d' :
  _max17050_write_verify_reg reg value d = (Ret r, d') -> r <> -1 ->
  exists d1 d2, send16 reg value d1 = (Ret r, d2) /\ max17050_get_reg reg d2 = (Ret value, d').
Proof.
  unfold _max17050_write_verify_reg.
  assert (Hgen : forall n ret d, (n = 0%nat -> ret = -1) ->
    write_verify_loop n reg value ret d = (Ret r, d') -> r <> -1 ->
    exists d1 d2, send16 reg value d1 = (Ret r, d2) /\ max17050_get_reg reg d2 = (Ret value, d')).
  { induction n as [|n IH]; intros ret d0 Hn E Hr.
    - injection E as <- <-. by specialize (Hn eq_refl).
    - cbn [write_verify_loop] in E. apply bind_Ret in E as (x & d1 & E1 & E).
      apply bind_Ret in E as (v & d2 & E2 & E). destruct (Z.eqb_spec v value) as [->|].
      + injection E as <- <-. by exists d0, d1.
      + by apply IH in E. }
  intros E Hr. by apply (Hgen 8%nat 0 d).
Qed.

End Gauge.

(** ** Charger *)

Definition BQ24193_I2C_ADDR : Z := 0x6B.
Definition BQ24193_InputSource : Z := 0x00.
Definition BQ24193_PORConfig : Z := 0x01.
Definition BQ24193_ChrgCurr : Z := 0x02.
Definition BQ24193_ChrgVolt : Z := 0x04.
Definition BQ24193_ChrgTermTimer : Z := 0x05.
Definition BQ24193_IRCompThermal : Z := 0x06.
Definition BQ24193_Misc : Z := 0x07.
Definition BQ24193_Status : Z := 0x08.
Definition BQ24193_FaultReg : Z := 0x09.
Definition BQ24193_VendorPart : Z := 0x0A.
Definition BQ24193_IRTHERMAL_THERM_MASK : Z := 3.

Inductive BQ24193_reg_prop :=
| BQ24193_InputVoltageLimit | BQ24193_InputCurrentLimit | BQ24193_SystemMinimumVoltage
| BQ24193_FastChargeCurrentLimit | BQ24193_ChargeVoltageLimit | BQ24193_RechargeThreshold
| BQ24193_ThermalRegulation | BQ24193_ChargeStatus | BQ24193_TempStatus | BQ24193_DevID
| BQ24193_ProductNumber.

(** [((data >> n) & 1) ? v : 0]. *)
Definition bit_value (data n v : Z) : Z := if c_true (Z.land (Z.shiftr data n) 1) then v else 0.

Definition input_voltage_limit (data : Z) : Z :=
  let data := Z.shiftr (Z.land data 0x78) 3 in
  bit_value data 0 80 + bit_value data 1 160 + bit_value data 2 320 + bit_value data 3 640 + 3880.

Definition input_current_limit (data : Z) : Z :=
  match Z.land data 7 with
  | 0 => 100 | 1 => 150 | 2 => 500 | 3 => 900 | 4 => 1200 | 5 => 1500 | 6 => 2000 | _ => 3000
  end.

(** From two reads of the same register. *)
Definition fast_charge_limit (data data2 : Z) : Z :=
  let data := Z.shiftr (Z.land data 0xFC) 2 in
  let value := bit_value data 0 64 + bit_value data 1 128 + bit_value data 2 256 +
               bit_value data 3 512 + bit_value data 4 1024 + bit_value data 5 2048 + 512 in
  if c_true (Z.land data2 1) then value * 20 / 100 else value.

Definition charge_voltage_limit (data : Z) : Z :=
  let data := Z.shiftr (Z.land data 0xFC) 2 in
  bit_value data 0 16 + bit_value data 1 32 + bit_value data 2 64 + bit_value data 3 128 +
  bit_value data 4 256 + bit_value data 5 512 + 3504.

Definition recharge_threshold (data : Z) : Z :=
  if c_true (Z.land data BQ24193_IRTHERMAL_THERM_MASK) then 300 else 100.

Definition thermal_regulation (data : Z) : Z :=
  match Z.land data BQ24193_IRTHERMAL_THERM_MASK with 0 => 60 | 1 => 80 | 2 => 100 | _ => 120 end.

Section Charger.
Context {D : Type} `{I2c D}.

Definition bq24193_get_reg (reg : Z) : M D Z := i2c_recv_byte I2C_1 BQ24193_I2C_ADDR reg.

Definition bq24193_get_property (prop : BQ24193_reg_prop) : M D Z :=
  match prop with
  | BQ24193_InputVoltageLimit =>
      data ← bq24193_get_reg BQ24193_InputSource; mret (input_voltage_limit data)
  | BQ24193_InputCurrentLimit =>
      data ← bq24193_get_reg BQ24193_InputSource; mret (input_current_limit data)
  | BQ24193_SystemMinimumVoltage =>
      data ← bq24193_get_reg BQ24193_PORConfig;
      mret (Z.shiftr (Z.land data (Z.shiftl 7 1)) 1 * 100 + 3000)
  | BQ24193_FastChargeCurrentLimit =>
      data ← bq24193_get_reg BQ24193_ChrgCurr;
      data2 ← bq24193_get_reg BQ24193_ChrgCurr;
      mret (fast_charge_limit data data2)
  | BQ24193_ChargeVoltageLimit =>
      data ← bq24193_get_reg BQ24193_ChrgVolt; mret (charge_voltage_limit data)
  | BQ24193_RechargeThreshold =>
      data ← bq24193_get_reg BQ24193_ChrgVolt; mret (recharge_threshold data)
  | BQ24193_ThermalRegulation =>
      data ← bq24193_get_reg BQ24193_IRCompThermal; mret (thermal_regulation data)
  | BQ24193_ChargeStatus =>
      data ← bq24193_get_reg BQ24193_Status; mret (Z.shiftr (Z.land data (Z.shiftl 3 4)) 4)
  | BQ24193_TempStatus =>
      data ← bq24193_get_reg BQ24193_FaultReg; mret (Z.land data 7)
  | BQ24193_DevID =>
      data ← bq24193_get_reg BQ24193_VendorPart; mret (Z.land data 3)
  | BQ24193_ProductNumber =>
      data ← bq24193_get_reg BQ24193_VendorPart; mret (Z.shiftr (Z.land data (Z.shiftl 7 3)) 3)
  end.

Definition bq24193_enable_charger : M D unit :=
  reg ← bq24193_get_reg BQ24193_PORConfig;
  let reg := Z.land reg (u8 (Z.lnot (Z.shiftl 3 4))) in
  let reg := Z.lor reg (Z.shiftl 1 4) in
  i2c_send_byte I2C_1 BQ24193_I2C_ADDR BQ24193_PORConfig reg;; mret tt.

Definition bq24193_fake_battery_removal : M D unit :=
  value ← bq24193_get_reg BQ24193_ChrgTermTimer;
  i2c_send_byte I2C_1 BQ24193_I2C_ADDR BQ24193_ChrgTermTimer
    (Z.land value (u8 (Z.lnot (Z.shiftl 3 4))));;
  value ← bq24193_get_reg BQ24193_Misc;
  i2c_send_byte I2C_1 BQ24193_I2C_ADDR BQ24193_Misc (Z.lor value (Z.shiftl 1 5));; mret tt.

End Charger.

(** ** Properties *)

Section Reconfigured.
Context {D : Type} `{RegFile D}.

Definition gauge_reg (m : regs_t) (r : Z) : Z :=
  le_word (take 2 (default [] (m !! (I2C_1, MAXIM17050_I2C_ADDR, r)))).

Lemma send16_spec reg value d : exists d',
  send16 reg value d = (Ret 1, d') /\
  chip_regs d' = <[(I2C_1, MAXIM17050_I2C_ADDR, reg) := le_bytes 2 value]> (chip_regs d).
Proof. apply chip_send. Qed.

Lemma gauge_reg_insert m r v :
  0 <= v < 65536 ->
  gauge_reg (<[(I2C_1, MAXIM17050_I2C_ADDR, r) := le_bytes 2 v]> m) r = v.
Proof.
  intros Hv. unfold gauge_reg. rewrite lookup_insert_eq. cbn -[u8 Z.div Z.mul Z.add].
  rewrite !(u8_id (u8 _)) by apply u8_range. unfold u8. zdm.
Qed.
Lemma gauge_reg_insert_ne m r r' bs :
  r <> r' -> gauge_reg (<[(I2C_1, MAXIM17050_I2C_ADDR, r') := bs]> m) r = gauge_reg m r.
Proof. intros Hr. unfold gauge_reg. rewrite lookup_insert_ne; [done|congruence]. Qed.

Lemma write_verify_spec reg value d :
  0 <= value < 65536 -> 0 <= reg < 256 -> exists d',
  _max17050_write_verify_reg reg value d = (Ret 1, d') /\
  chip_regs d' = <[(I2C_1, MAXIM17050_I2C_ADDR, reg) := le_bytes 2 value]> (chip_regs d).
Proof.
  intros Hv Hr. unfold _max17050_write_verify_reg. cbn [write_verify_loop].
  destruct (send16_spec reg value d) as (d1 & E1 & R1). rewrite (bind_run _ _ _ _ _ E1).
  unfold max17050_get_reg. rewrite (u8_id reg) by done.
  destruct (chip_recv 2 I2C_1 MAXIM17050_I2C_ADDR reg d1) as (d2 & E2 & R2).
  rewrite bind_assoc, (bind_run _ _ _ _ _ E2), bind_mret.
  assert (Hg : le_word (take 2 (take (Z.to_nat 2)
    (default [] (chip_regs d1 !! (I2C_1, MAXIM17050_I2C_ADDR, reg))))) = value).
  { rewrite take_take. change (2 `min` Z.to_nat 2)%nat with 2%nat.
    fold (gauge_reg (chip_regs d1) reg). rewrite R1. by apply gauge_reg_insert. }
  rewrite Hg, Z.eqb_refl. exists d2. by rewrite R2.
Qed.

(** Run the next step of the goal and remember what it did to the registers. *)
Local Ltac gstep :=
  first
    [ match goal with |- context [(_max17050_write_verify_reg ?r ?v ≫= _) ?d] =>
        let d' := fresh "d" in let E := fresh "E" in let R := fresh "R" in
        destruct (write_verify_spec r v d) as (d' & E & R); [vm_compute; split; congruence..|];
        rewrite (bind_run _ _ _ _ _ E); clear E end
    | match goal with |- context [(send16 ?r ?v ≫= _) ?d] =>
        let d' := fresh "d" in let E := fresh "E" in let R := fresh "R" in
        destruct (send16_spec r v d) as (d' & E & R); rewrite (bind_run _ _ _ _ _ E); clear E end
    | match goal with |- context [(i2c_sleep ?n ≫= _) ?d] =>
        let d' := fresh "d" in let E := fresh "E" in let R := fresh "R" in
        destruct (chip_sleep n d) as (d' & E & R); rewrite (bind_run _ _ _ _ _ E); clear E end
    | rewrite bind_assoc
    | rewrite bind_mret ].

(** The writes of the reconfiguration, in order. *)
Definition reconfiguration : list (Z * Z) := [
  (MAX17050_STATUS, 2); (MAX17050_dQacc, 0x10bc); (MAX17050_dPacc, 0x5e09);
  (MAX17050_CONFIG, 0x7254); (MAX17050_LearnCFG, 0x2473);
  (MAX17050_FullCAP, 0x2476); (MAX17050_FullCAPNom, 0x2476);
  (MAX17050_VFSOC0Enable, 0x80); (MAX17050_VFSOC0, 0x6440); (MAX17050_VFSOC0Enable, 0);
  (MAX17050_RemCap, 0x2476); (MAX17050_RepCap, 0x2476); (MAX17050_dQacc, 0x10bc);
  (MAX17050_dPacc, 0x5e09); (MAX17050_FullCAP, 0x2476); (MAX17050_FullCAPNom, 0x2476);
  (MAX17050_RepSOC, 0x6400); (MAX17050_STATUS, 0x8801) ].
Definition write_all (l : list (Z * Z)) (m : regs_t) : regs_t :=
  fold_left (fun m e => <[(I2C_1, MAXIM17050_I2C_ADDR, fst e) := le_bytes 2 (snd e)]> m) l m.

(** On a responsive gauge the reconfiguration succeeds and is exactly its eighteen register
    writes in order: the capacity registers hold the design capacity, the gauge reports a full
    battery, the open-circuit register is locked again and the status asks for a reload. *)
Theorem fix_configuration_correct d : exists d',
  max17050_fix_configuration d = (Ret 0, d') /\
  chip_regs d' = write_all reconfiguration (chip_regs d) /\
  gauge_reg (chip_regs d') MAX17050_FullCAP = 0x2476 /\ gauge_reg (chip_regs d') MAX17050_RepSOC = 0x6400 /\
  gauge_reg (chip_regs d') MAX17050_VFSOC0Enable = VFSOC0_LOCK /\
  gauge_reg (chip_regs d') MAX17050_STATUS = 0x8801.
Proof.
  unfold max17050_fix_configuration, _max17050_set_por_bit, _max17050_override_por_values,
    _max17050_override_por, _max17050_write_config_regs, _max17050_update_capacity_regs,
    _max17050_reset_vfsoc0_reg, _max17050_load_new_capacity_params.
  change (c_true 0x10bc) with true. change (c_true 0x5e09) with true. cbn iota zeta.
  repeat gstep.
  match goal with |- exists d', (mret 0) ?dl = _ /\ _ => exists dl end. split; [done|].
  match goal with |- chip_regs ?dl = _ /\ _ => assert (Er : chip_regs dl = write_all reconfiguration (chip_regs d)) end.
  { repeat match goal with R : chip_regs ?x = _ |- context [chip_regs ?x] => rewrite R; clear R end.
    reflexivity. }
  rewrite Er. split; [done|]. unfold write_all, reconfiguration. cbn [fold_left fst snd].
  split_and!;
    repeat first [rewrite gauge_reg_insert by (split; vm_compute; congruence)
                 |rewrite gauge_reg_insert_ne by (vm_compute; congruence)]; reflexivity.
Qed.

Definition charger_reg (m : regs_t) (r : Z) : Z := reg_byte m I2C_1 BQ24193_I2C_ADDR r.

(** Enabling the charger selects charge mode in the configuration field of its register and
    changes no other bit and no other register. *)
Theorem enable_charger_correct d : exists d' val,
  bq24193_enable_charger d = (Ret tt, d') /\
  chip_regs d' = <[(I2C_1, BQ24193_I2C_ADDR, BQ24193_PORConfig) := [val]]> (chip_regs d) /\
  Z.land (Z.shiftr val 4) 3 = 1 /\
  Z.ldiff val 0x30 = Z.ldiff (charger_reg (chip_regs d) BQ24193_PORConfig) 0x30.
Proof.
  unfold bq24193_enable_charger, bq24193_get_reg, charger_reg.
  destruct (chip_recv_byte I2C_1 BQ24193_I2C_ADDR BQ24193_PORConfig d) as (d1 & E1 & R1).
  rewrite (bind_run _ _ _ _ _ E1). set (old := reg_byte _ _ _ _).
  pose proof (reg_byte_range (chip_regs d) I2C_1 BQ24193_I2C_ADDR BQ24193_PORConfig) as Ho. fold old in Ho.
  destruct (chip_send_byte I2C_1 BQ24193_I2C_ADDR BQ24193_PORConfig
    (Z.lor (Z.land old (u8 (Z.lnot (Z.shiftl 3 4)))) (Z.shiftl 1 4)) d1) as (d2 & E2 & R2).
  rewrite (bind_run _ _ _ _ _ E2). exists d2. eexists. split_and!; [done|by rewrite R2, R1|..].
  - apply Z.bits_inj'. intros n Hn. rewrite Z.land_spec, Z.shiftr_spec, u8_testbit by lia.
    rewrite Z.lor_spec, Z.land_spec. change (u8 (Z.lnot (Z.shiftl 3 4))) with 0xCF. change (Z.shiftl 1 4) with 16.
    destruct (Z.eq_dec n 0) as [->|]; [cbn; by rewrite andb_false_r|].
    destruct (Z.eq_dec n 1) as [->|]; [cbn; by rewrite andb_false_r|].
    rewrite (Z.bits_above_log2 3), (Z.bits_above_log2 1) by (cbn; lia). by rewrite andb_false_r.
  - apply Z.bits_inj'. intros n Hn. rewrite !Z.ldiff_spec, u8_testbit, Z.lor_spec, Z.land_spec by lia.
    change (u8 (Z.lnot (Z.shiftl 3 4))) with 0xCF. change (Z.shiftl 1 4) with 16.
    destruct (Z.ltb_spec n 8); [|by rewrite (byte_testbit_high old)].
    assert (Hn8 : n = 0 \/ n = 1 \/ n = 2 \/ n = 3 \/ n = 4 \/ n = 5 \/ n = 6 \/ n = 7) by lia.
    repeat destruct Hn8 as [->|Hn8]; try subst n; cbn; by rewrite ?andb_true_r, ?andb_false_r, ?orb_false_r.
Qed.

End Reconfigured.

(** For every register value the charger limits are affine in their field: 80 mV steps from
    3880 mV, 64 mA steps from 512 mA (a fifth of it in 20% mode), 16 mV steps from 3504 mV. *)
Theorem charger_limits data :
  0 <= data < 256 ->
  input_voltage_limit data = 3880 + 80 * (data / 8 mod 16) /\
  charge_voltage_limit data = 3504 + 16 * (data / 4) /\
  fast_charge_limit data data =
    (if data mod 2 =? 1 then (512 + 64 * (data / 4)) / 5 else 512 + 64 * (data / 4)).
Proof.
  intros Hd.
  assert (Hc : forallb (fun data =>
    (input_voltage_limit data =? 3880 + 80 * (data / 8 mod 16)) &&
    (charge_voltage_limit data =? 3504 + 16 * (data / 4)) &&
    (fast_charge_limit data data =?
      (if data mod 2 =? 1 then (512 + 64 * (data / 4)) / 5 else 512 + 64 * (data / 4))))
    (map Z.of_nat (seq 0 256)) = true) by (vm_compute; reflexivity).
  rewrite forallb_forall in Hc. specialize (Hc data).
  rewrite !andb_true_iff, !Z.eqb_eq in Hc. destruct Hc as [[H1 H2] H3]; [|done].
  apply in_map_iff. exists (Z.to_nat data). split; [lia|]. apply in_seq. lia.
Qed.

(** The recharge threshold is read with the mask of another register: the bit of
    the battery-low voltage counts too. *)
Lemma recharge_threshold_reads_battlow : recharge_threshold 2 = 300 /\ Z.land 2 1 = 0.
Proof. split; reflexivity. Qed.

(** ** Witnesses *)

Lemma write_verify_sound_witness :
  exists d1 d2 : regs_t, send16 MAX17050_RepCap 0x2476 d1 = (Ret 1, d2) /\
    max17050_get_reg MAX17050_RepCap d2 =
      (Ret 0x2476, snd (_max17050_write_verify_reg MAX17050_RepCap 0x2476 (∅ : regs_t))).
Proof. apply (write_verify_sound MAX17050_RepCap 0x2476 (∅ : regs_t)); [vm_compute; reflexivity|lia]. Defined.

Lemma charger_limits_witness :
  input_voltage_limit 0x7A = 3880 + 80 * (0x7A / 8 mod 16) /\ input_voltage_limit 0x7A = 5080.
Proof. split; [apply (charger_limits 0x7A); lia|reflexivity]. Defined.

Lemma fix_configuration_correct_witness :
  exists d', max17050_fix_configuration (∅ : regs_t) = (Ret 0, d') /\
    gauge_reg (chip_regs d') MAX17050_FullCAP = 0x2476.
Proof. destruct (fix_configuration_correct (∅ : regs_t)) as (d' & E & _ & Hc & _). by exists d'. Defined.

Lemma enable_charger_correct_witness :
  exists d' val, bq24193_enable_charger (∅ : regs_t) = (Ret tt, d') /\ Z.land (Z.shiftr val 4) 3 = 1.
Proof. destruct (enable_charger_correct (∅ : regs_t)) as (d' & val & E & _ & Hv & _). by exists d', val. Defined.
