(* ===== verification/Smmu.v ===== *)
(** * Smmu

    The system memory management unit of bdk/mem/smmu.c: the page allocator, page
    directories and page tables in memory, and the mapping of pages.  The page
    walk is the specification: mapping is a functional update of it. *)

From S2P Require Import Prelude Mem.

Definition SMMU_HEAP_ADDR : Z := 0xA0000000.
Definition MC_SMMU_TLB_CONFIG : Z := 0x14.
Definition MC_SMMU_PTC_CONFIG : Z := 0x18.
Definition MC_SMMU_PTB_ASID : Z := 0x1c.
Definition MC_SMMU_PTB_DATA : Z := 0x20.
Definition MC_SMMU_TLB_FLUSH : Z := 0x30.
Definition MC_SMMU_PTC_FLUSH : Z := 0x34.
Definition MC_SMMU_TSEC_ASID : Z := 0x294.

Definition SMMU_PAGE_SIZE : Z := 4096.
Definition SMMU_PDIR_COUNT : nat := 1024.
Definition SMMU_PTBL_COUNT : nat := 1024.
Definition SMMU_PFN_MASK : Z := 0x000FFFFF.
Definition SMMU_ADDR_TO_PFN (addr : Z) : Z := Z.shiftr addr 12.
Definition SMMU_ADDR_TO_PDN (addr : Z) : Z := Z.shiftr addr 22.
Definition SMMU_PDN_TO_ADDR (pdn : Z) : Z := u32 (Z.shiftl pdn 22).
(** _READABLE, _WRITABLE and _NONSECURE. *)
Definition _PDE_ATTR : Z := 0xE0000000.
Definition _PDE_NEXT : Z := 0x10000000.
Definition _PDE_VACANT (pdn : Z) : Z := Z.lor (Z.shiftl pdn 10) _PDE_ATTR.
Definition _PTE_VACANT (addr : Z) : Z := Z.lor (Z.shiftr addr 12) _PDE_ATTR.
Definition SMMU_MK_PDIR (page attr : Z) : Z := Z.lor (Z.shiftr page 12) attr.
Definition SMMU_MK_PDE (page attr : Z) : Z := Z.lor (Z.shiftr page 12) attr.
Definition _NOP : Z := 0xD503201F.

(** What reaches the hardware besides memory. *)
Inductive mc_event :=
| McWrite (reg val : Z)
| BootCpu (entry : Z).

(** [smmu_used], [_pageheap], the memory and the accesses to the memory
    controller, the latest first. *)
Record smmu := Smmu {
  smmu_used : bool;
  _pageheap : Z;
  s_mem : mem;
  s_log : list mc_event
}.

Definition with_mem (s : smmu) (m : mem) : smmu := Smmu (smmu_used s) (_pageheap s) m (s_log s).
Definition MC (reg val : Z) (s : smmu) : smmu :=
  Smmu (smmu_used s) (_pageheap s) (s_mem s) (McWrite reg val :: s_log s).

Definition page_alloc (num : Z) (s : smmu) : Z * smmu :=
  let res := _pageheap s in
  (res, Smmu (smmu_used s) (u32 (res + u32 (0x1000 * num)))
          (memset (s_mem s) res 0 (Z.to_nat (u32 (0x1000 * num)))) (s_log s)).

(** Entries [pdn] to [pdn + n - 1] of a directory. *)
Fixpoint fill_pdir (n : nat) (pdir pdn : Z) (m : mem) : mem :=
  match n with
  | O => m
  | S n => fill_pdir n pdir (pdn + 1) (st32 m (pdir + 4 * pdn) (_PDE_VACANT pdn))
  end.

Definition smmu_alloc_pdir (s : smmu) : Z * smmu :=
  let '(pdir, s) := page_alloc 1 s in
  (pdir, with_mem s (fill_pdir SMMU_PDIR_COUNT pdir 0 (s_mem s))).

(** A register read, which orders the writes before it and has no effect on
    memory.  The translation of [smmu_map_correct] is by the tables in memory;
    the caches of translations in the controller are not part of it. *)
Definition smmu_flush_regs (s : smmu) : smmu := s.

Definition smmu_flush_all (s : smmu) : smmu :=
  let s := MC MC_SMMU_PTC_FLUSH 0 s in
  let s := smmu_flush_regs s in
  let s := MC MC_SMMU_TLB_FLUSH 0 s in
  smmu_flush_regs s.

Section Payload.
(** Where [smmu_payload] was linked. *)
Variable smmu_payload : Z.

Definition smmu_init (secmon_base : Z) (s : smmu) : smmu :=
  let s := MC MC_SMMU_PTB_ASID 0 s in
  let s := MC MC_SMMU_PTB_DATA 0 s in
  let s := MC MC_SMMU_TLB_CONFIG 0x30000030 s in
  let s := MC MC_SMMU_PTC_CONFIG 0x28000F3F s in
  let s := MC MC_SMMU_PTC_FLUSH 0 s in
  let s := MC MC_SMMU_TLB_FLUSH 0 s in
  with_mem s (st32 (s_mem s) (smmu_payload + 0x30) secmon_base).

Definition smmu_enable (s : smmu) : smmu :=
  if smmu_used s then s
  else
    let s := Smmu true (_pageheap s) (s_mem s) (BootCpu smmu_payload :: s_log s) in
    smmu_flush_all s.

Definition smmu_is_used (s : smmu) : bool := smmu_used s.

Definition smmu_exit (s : smmu) : smmu :=
  with_mem s (st32 (s_mem s) (smmu_payload + 0x14) _NOP).

End Payload.

Definition smmu_init_domain4 (dev_base asid : Z) (s : smmu) : Z * smmu :=
  let '(pdir, s) := smmu_alloc_pdir s in
  let s := MC MC_SMMU_PTB_ASID asid s in
  let s := MC MC_SMMU_PTB_DATA (SMMU_MK_PDIR pdir _PDE_ATTR) s in
  let s := smmu_flush_regs s in
  let s := MC dev_base (Z.lor 0x80000000 (Z.lor (u32 (Z.shiftl asid 24))
             (Z.lor (u32 (Z.shiftl asid 16)) (Z.lor (u32 (Z.shiftl asid 8)) asid)))) s in
  (pdir, smmu_flush_regs s).

(** Entries [pn] to [pn + n - 1] of a table, for pages from [addr] on. *)
Fixpoint fill_ptbl (n : nat) (ptbl pn addr : Z) (m : mem) : mem :=
  match n with
  | O => m
  | S n => fill_ptbl n ptbl (pn + 1) (u32 (addr + SMMU_PAGE_SIZE))
             (st32 m (ptbl + 4 * pn) (_PTE_VACANT addr))
  end.

(** The address of the entry, and the state: the table is created on demand. *)
Definition smmu_get_pte (pdir iova : Z) (s : smmu) : Z * smmu :=
  let ptn := SMMU_ADDR_TO_PFN iova in
  let pdn := SMMU_ADDR_TO_PDN iova in
  let pde := ld32 (s_mem s) (pdir + 4 * pdn) in
  let '(ptbl, s) :=
    if negb (pde =? _PDE_VACANT pdn) then (u32 (Z.shiftl (Z.land pde SMMU_PFN_MASK) 12), s)
    else
      let '(ptbl, s) := page_alloc 1 s in
      let m := fill_ptbl SMMU_PTBL_COUNT ptbl 0 (SMMU_PDN_TO_ADDR pdn) (s_mem s) in
      let m := st32 m (pdir + 4 * pdn) (SMMU_MK_PDE ptbl (Z.lor _PDE_ATTR _PDE_NEXT)) in
      (ptbl, smmu_flush_all (with_mem s m)) in
  (ptbl + 4 * (ptn mod 1024), s).

Fixpoint map_loop (cnt : nat) (pdir addr page attr : Z) (s : smmu) : smmu :=
  match cnt with
  | O => s
  | S cnt =>
      let '(pte, s) := smmu_get_pte pdir addr s in
      let s := with_mem s (st32 (s_mem s) pte (Z.lor (SMMU_ADDR_TO_PFN page) attr)) in
      map_loop cnt pdir (u32 (addr + 0x1000)) (u32 (page + 0x1000)) attr s
  end.

Definition smmu_map (pdir addr page : Z) (cnt : nat) (attr : Z) (s : smmu) : smmu :=
  smmu_flush_all (map_loop cnt pdir addr page attr s).

Definition smmu_init_for_tsec (s : smmu) : Z * smmu := smmu_init_domain4 MC_SMMU_TSEC_ASID 1 s.

Definition smmu_deinit_for_tsec (s : smmu) : smmu :=
  let s := MC MC_SMMU_PTB_ASID 1 s in
  let s := MC MC_SMMU_PTB_DATA 0 s in
  let s := MC MC_SMMU_TSEC_ASID 0 s in
  smmu_flush_regs s.

(** ** The page walk *)

Definition pde_at (m : mem) (pdir pdn : Z) : Z := ld32 m (pdir + 4 * pdn).
Definition table_of (pde : Z) : Z := Z.shiftl (Z.land pde SMMU_PFN_MASK) 12.

(** The entry that decides about [iova]: that of the table the directory entry
    points to, or else the directory entry as a section of 1024 pages. *)
Definition walk (m : mem) (pdir iova : Z) : Z :=
  let pde := pde_at m pdir (SMMU_ADDR_TO_PDN iova) in
  let pn := SMMU_ADDR_TO_PFN iova mod 1024 in
  if Z.testbit pde 28 then ld32 m (table_of pde + 4 * pn) else Z.lor pde pn.

(** ** Entries *)

Lemma pfn_range t : 0 <= t < 0x100000000 -> 0 <= Z.shiftr t 12 < 2 ^ 20.
Proof. intros Ht. rewrite Z.shiftr_div_pow2 by lia. zdm. Qed.

Lemma mk_pde_table t :
  0 <= t < 0x100000000 -> t mod 4096 = 0 ->
  let pde := SMMU_MK_PDE t (Z.lor _PDE_ATTR _PDE_NEXT) in
  table_of pde = t /\ Z.testbit pde 28 = true /\ 0 <= pde < 0x100000000.
Proof.
  intros Ht Ha pde. pose proof (pfn_range t Ht) as Hp. subst pde.
  unfold SMMU_MK_PDE, table_of. change (Z.lor _PDE_ATTR _PDE_NEXT) with 0xF0000000. split_and!.
  - rewrite Z.land_lor_distr_l. change (Z.land 0xF0000000 SMMU_PFN_MASK) with 0. rewrite Z.lor_0_r.
    change SMMU_PFN_MASK with (Z.ones 20). rewrite Z.land_ones, Z.mod_small by lia.
    rewrite Z.shiftr_div_pow2, Z.shiftl_mul_pow2 by lia. zdm.
  - rewrite Z.lor_spec. apply orb_true_r.
  - apply (lor_bound 32); lia.
  - apply (lor_bound 32); lia.
Qed.

Lemma pde_vacant_section pdn :
  0 <= pdn < 1024 -> Z.testbit (_PDE_VACANT pdn) 28 = false /\ 0 <= _PDE_VACANT pdn < 0x100000000.
Proof.
  intros Hp. unfold _PDE_VACANT, _PDE_ATTR. split.
  - rewrite Z.lor_spec, Z.shiftl_spec by lia. change (Z.testbit 0xE0000000 28) with false.
    rewrite orb_false_r. rewrite <- (Z.mod_small pdn (2 ^ 10)) by lia. by rewrite Z.mod_pow2_bits_high.
  - apply (lor_bound 32); [lia| |lia]. rewrite Z.shiftl_mul_pow2 by lia. lia.
Qed.

Lemma pte_vacant_bound a : 0 <= a < 0x100000000 -> 0 <= _PTE_VACANT a < 0x100000000.
Proof. intros Ha. pose proof (pfn_range a Ha). unfold _PTE_VACANT, _PDE_ATTR. apply (lor_bound 32); lia. Qed.

Lemma pdn_range iova : 0 <= iova < 0x100000000 -> 0 <= SMMU_ADDR_TO_PDN iova < 1024.
Proof. intros Hi. unfold SMMU_ADDR_TO_PDN. rewrite Z.shiftr_div_pow2 by lia. zdm. Qed.

(** A vacant directory entry maps every page of its section to itself. *)
Lemma pde_vacant_pte iova :
  0 <= iova < 0x100000000 ->
  Z.lor (_PDE_VACANT (SMMU_ADDR_TO_PDN iova)) (SMMU_ADDR_TO_PFN iova mod 1024) = _PTE_VACANT iova.
Proof.
  intros Hi. unfold _PDE_VACANT, _PTE_VACANT, SMMU_ADDR_TO_PDN, SMMU_ADDR_TO_PFN.
  rewrite <- Z.lor_assoc, (Z.lor_comm _PDE_ATTR), Z.lor_assoc. f_equal.
  change 1024 with (2 ^ 10). rewrite <- Z.land_ones by lia.
  apply Z.bits_inj'. intros n Hn. rewrite Z.lor_spec, Z.land_spec, Z.shiftl_spec by lia.
  destruct (Z.ltb_spec n 10).
  - rewrite Z.ones_spec_low, (Z.testbit_neg_r _ (n - 10)) by lia. by rewrite andb_true_r.
  - rewrite Z.ones_spec_high, andb_false_r, orb_false_r, !Z.shiftr_spec by lia. f_equal. lia.
Qed.

(** ** Well-formed directories *)

Definition page_in_heap (s : smmu) (t : Z) : Prop :=
  t mod 4096 = 0 /\ SMMU_HEAP_ADDR <= t /\ t + 4096 <= _pageheap s.

(** Every entry is vacant or points to a table of its own in the page heap. *)
Record wf (s : smmu) (pdir : Z) : Prop := {
  wf_heap : _pageheap s mod 4096 = 0 /\ _pageheap s < 0x100000000;
  wf_pdir : page_in_heap s pdir;
  wf_pde pdn : 0 <= pdn < 1024 ->
    pde_at (s_mem s) pdir pdn = _PDE_VACANT pdn \/
    exists t, page_in_heap s t /\ t <> pdir /\
      pde_at (s_mem s) pdir pdn = SMMU_MK_PDE t (Z.lor _PDE_ATTR _PDE_NEXT);
  wf_own p q : 0 <= p < 1024 -> 0 <= q < 1024 -> p <> q ->
    Z.testbit (pde_at (s_mem s) pdir p) 28 = true -> Z.testbit (pde_at (s_mem s) pdir q) 28 = true ->
    table_of (pde_at (s_mem s) pdir p) <> table_of (pde_at (s_mem s) pdir q)
}.

Lemma page_in_heap_range s t :
  _pageheap s < 0x100000000 -> page_in_heap s t -> 0 <= t < 0x100000000.
Proof. intros Hh (_ & H1 & H2). unfold SMMU_HEAP_ADDR in H1. lia. Qed.

(** The entry of a directory: vacant, or the address of its table. *)
Lemma wf_entry s pdir pdn :
  wf s pdir -> 0 <= pdn < 1024 ->
  let pde := pde_at (s_mem s) pdir pdn in
  (pde = _PDE_VACANT pdn /\ Z.testbit pde 28 = false) \/
  (pde <> _PDE_VACANT pdn /\ Z.testbit pde 28 = true /\ page_in_heap s (table_of pde) /\ table_of pde <> pdir).
Proof.
  intros Hw Hp pde. destruct (pde_vacant_section pdn Hp) as [Hv _].
  destruct (wf_pde _ _ Hw pdn Hp) as [E|(t & Ht & Hne & E)]; fold pde in E.
  - left. by rewrite E.
  - right. destruct (mk_pde_table t) as (Et & Eb & _);
      [eapply page_in_heap_range; [apply Hw|done]|apply Ht|].
    rewrite <- E in Et, Eb. split_and!; [intros Ev; rewrite Ev in Eb; congruence|done|by rewrite Et..].
Qed.

(** ** Filling tables *)

Lemma fill_ptbl_frame n ptbl pn addr m x :
  0 <= pn -> ~ (ptbl + 4 * pn <= x < ptbl + 4 * (pn + Z.of_nat n)) ->
  ld8 (fill_ptbl n ptbl pn addr m) x = ld8 m x.
Proof.
  revert pn addr m. induction n as [|n IH]; intros pn addr m Hp Hx; [done|]. cbn [fill_ptbl].
  rewrite IH by lia. apply ld8_st32_ne. lia.
Qed.

Lemma fill_ptbl_entry n ptbl pn addr m i :
  0 <= pn -> pn <= i < pn + Z.of_nat n -> 0 <= addr -> addr + 4096 * Z.of_nat n <= 0x100000000 ->
  ld32 (fill_ptbl n ptbl pn addr m) (ptbl + 4 * i) = _PTE_VACANT (addr + 4096 * (i - pn)).
Proof.
  revert pn addr m. induction n as [|n IH]; intros pn addr m Hp Hi Ha Hb; [lia|]. cbn [fill_ptbl].
  destruct (Z.eq_dec i pn) as [->|Hne].
  - rewrite Z.sub_diag, Z.mul_0_r, Z.add_0_r.
    rewrite (ld32_same (st32 m (ptbl + 4 * pn) (_PTE_VACANT addr))).
    + apply ld32_st32_eq, pte_vacant_bound. lia.
    + intros x Hx. apply fill_ptbl_frame; lia.
  - unfold SMMU_PAGE_SIZE. rewrite u32_id by lia. rewrite IH by lia. f_equal. lia.
Qed.

(** ** Looking up an entry *)

(** Walks that see the same directory entry and the same table agree. *)
Lemma walk_same m m' pdir iova :
  pde_at m' pdir (SMMU_ADDR_TO_PDN iova) = pde_at m pdir (SMMU_ADDR_TO_PDN iova) ->
  (let pde := pde_at m pdir (SMMU_ADDR_TO_PDN iova) in
   Z.testbit pde 28 = true -> same_on (table_of pde) (table_of pde + 4096) m m') ->
  walk m' pdir iova = walk m pdir iova.
Proof.
  intros E Hs. unfold walk. rewrite E. destruct (Z.testbit _ 28) eqn:Eb; [|done].
  apply ld32_same. eapply same_on_sub; [by apply Hs| |].
  - pose proof (Z.mod_pos_bound (SMMU_ADDR_TO_PFN iova) 1024). lia.
  - pose proof (Z.mod_pos_bound (SMMU_ADDR_TO_PFN iova) 1024). lia.
Qed.

Lemma pte_vacant_of_section j :
  0 <= j < 0x100000000 ->
  _PTE_VACANT (SMMU_PDN_TO_ADDR (SMMU_ADDR_TO_PDN j) + 4096 * (SMMU_ADDR_TO_PFN j mod 1024)) = _PTE_VACANT j.
Proof.
  intros Hj. unfold _PTE_VACANT, SMMU_PDN_TO_ADDR, SMMU_ADDR_TO_PDN, SMMU_ADDR_TO_PFN. f_equal.
  rewrite !Z.shiftr_div_pow2, Z.shiftl_mul_pow2 by lia. rewrite u32_id by zdm. zdm.
Qed.

Lemma pages_disjoint a b :
  a mod 4096 = 0 -> b mod 4096 = 0 -> a <> b -> a + 4096 <= b \/ b + 4096 <= a.
Proof. intros Ha Hb Hne. Z.div_mod_to_equations. lia. Qed.

Lemma page_in_heap_mono s s' t :
  _pageheap s <= _pageheap s' -> page_in_heap s t -> page_in_heap s' t.
Proof. intros Hh (H1 & H2 & H3). split_and!; [done|done|lia]. Qed.

(** The directory with a fresh table [t] for entry [pdn]. *)
Section FreshTable.
Variables (s s' : smmu) (pdir pdn t : Z).
Hypothesis Hw : wf s pdir.
Hypothesis Hpdn : 0 <= pdn < 1024.
Hypothesis Ht : t = _pageheap s.
Hypothesis Hh : _pageheap s' = t + 4096.
Hypothesis Hb : t + 4096 < 0x100000000.
Hypothesis Hvac : pde_at (s_mem s) pdir pdn = _PDE_VACANT pdn.
Hypothesis Hnew : pde_at (s_mem s') pdir pdn = SMMU_MK_PDE t (Z.lor _PDE_ATTR _PDE_NEXT).
Hypothesis Hframe : forall x, ~ (t <= x < t + 4096) -> ~ (pdir + 4 * pdn <= x < pdir + 4 * pdn + 4) ->
  ld8 (s_mem s') x = ld8 (s_mem s) x.
Hypothesis Hfill : forall i, 0 <= i < 1024 ->
  ld32 (s_mem s') (t + 4 * i) = _PTE_VACANT (SMMU_PDN_TO_ADDR pdn + 4096 * i).

Lemma fresh_page : page_in_heap s' t /\ t <> pdir.
Proof.
  destruct (wf_heap _ _ Hw) as [? ?], (wf_pdir _ _ Hw) as (? & ? & ?).
  unfold page_in_heap. rewrite Hh, Ht. split_and!; [done|lia..].
Qed.

Lemma fresh_new : table_of (pde_at (s_mem s') pdir pdn) = t /\ Z.testbit (pde_at (s_mem s') pdir pdn) 28 = true.
Proof.
  rewrite Hnew. destruct fresh_page as [(Ha & H1 & _) _]. unfold SMMU_HEAP_ADDR in H1.
  destruct (mk_pde_table t) as (E1 & E2 & _); [lia|done|done].
Qed.

Lemma fresh_other q : 0 <= q < 1024 -> q <> pdn -> pde_at (s_mem s') pdir q = pde_at (s_mem s) pdir q.
Proof.
  intros Hq Hne. unfold pde_at. apply ld32_same. intros x Hx.
  destruct (wf_pdir _ _ Hw) as (? & ? & ?). apply Hframe; lia.
Qed.

Lemma fresh_wf : wf s' pdir.
Proof.
  destruct fresh_page as [Hp Hne], fresh_new as [En Eb]. destruct (wf_heap _ _ Hw) as [Ha Hm].
  assert (Hmono : _pageheap s <= _pageheap s') by lia.
  assert (Hold : forall q, 0 <= q < 1024 -> q <> pdn -> Z.testbit (pde_at (s_mem s') pdir q) 28 = true ->
    table_of (pde_at (s_mem s') pdir q) <> t).
  { intros q Hq Hqn Hqb. rewrite fresh_other in Hqb |- * by done.
    destruct (wf_entry s pdir q Hw Hq) as [[_ ?]|(_ & _ & (_ & _ & ?) & _)]; [congruence|lia]. }
  split.
  - rewrite Hh. split; [|lia]. rewrite Ht, <- Z.add_mod_idemp_l, Ha by lia. done.
  - by eapply page_in_heap_mono, Hw.
  - intros q Hq. destruct (Z.eq_dec q pdn) as [->|Hqn]; [right; by exists t|].
    rewrite fresh_other by done. destruct (wf_pde _ _ Hw q Hq) as [?|(t' & ? & ? & ?)]; [by left|right].
    exists t'. split_and!; [by eapply page_in_heap_mono|done|done].
  - intros p q Hpp Hq Hpq Hbp Hbq.
    destruct (Z.eq_dec p pdn) as [->|Hpn]; [rewrite En; apply not_eq_sym, Hold; (done || congruence)|].
    destruct (Z.eq_dec q pdn) as [->|Hqn]; [rewrite En; by apply Hold|].
    rewrite !fresh_other in * by done. by apply Hw.
Qed.

Lemma fresh_walk j : 0 <= j < 0x100000000 -> walk (s_mem s') pdir j = walk (s_mem s) pdir j.
Proof.
  intros Hj. pose proof (pdn_range j Hj) as Hjp. destruct fresh_new as [En Eb].
  destruct (pde_vacant_section pdn Hpdn) as [Eb0 _].
  destruct (Z.eq_dec (SMMU_ADDR_TO_PDN j) pdn) as [Ej|Ej].
  - unfold walk. rewrite Ej, Eb, En, Hvac, Eb0.
    rewrite Hfill by (apply Z.mod_pos_bound; lia). rewrite <- Ej.
    by rewrite pte_vacant_of_section, pde_vacant_pte.
  - apply walk_same; [by apply fresh_other|]. cbv zeta. intros Hbj x Hx.
    destruct (wf_entry s pdir _ Hw Hjp) as [[_ ?]|(_ & _ & (Hal & Hlo & Hhi) & Hne)]; [congruence|].
    destruct (wf_pdir _ _ Hw) as (Hal' & Hlo' & Hhi').
    destruct (pages_disjoint _ _ Hal Hal' Hne); apply Hframe; lia.
Qed.
End FreshTable.

Lemma get_pte_spec s pdir iova :
  wf s pdir -> 0 <= iova < 0x100000000 -> _pageheap s + 4096 < 0x100000000 ->
  let '(pte, s') := smmu_get_pte pdir iova s in
  let pde := pde_at (s_mem s') pdir (SMMU_ADDR_TO_PDN iova) in
  wf s' pdir /\ _pageheap s <= _pageheap s' <= _pageheap s + 4096 /\
  Z.testbit pde 28 = true /\ pte = table_of pde + 4 * (SMMU_ADDR_TO_PFN iova mod 1024) /\
  forall j, 0 <= j < 0x100000000 -> walk (s_mem s') pdir j = walk (s_mem s) pdir j.
Proof.
  intros Hw Hi Hh. unfold smmu_get_pte. set (pdn := SMMU_ADDR_TO_PDN iova).
  pose proof (pdn_range iova Hi) as Hpdn. fold pdn in Hpdn.
  fold (pde_at (s_mem s) pdir pdn).
  destruct (wf_entry s pdir pdn Hw Hpdn) as [[Ev Eb]|(Ev & Eb & Ht & Hne)].
  2: { rewrite (proj2 (Z.eqb_neq _ _) Ev). cbn [negb]. split_and!; try done; try lia.
       f_equal. apply u32_id. eapply page_in_heap_range; [|apply Ht]. lia. }
  rewrite Ev, Z.eqb_refl. cbn [negb page_alloc].
  change (u32 (0x1000 * 1)) with 4096. cbn [s_mem].
  set (t := _pageheap s). set (m1 := memset _ _ _ _). set (m2 := fill_ptbl _ _ _ _ _).
  set (s' := smmu_flush_all _). assert (HN : Z.of_nat SMMU_PTBL_COUNT = 1024) by reflexivity.
  destruct (wf_pdir _ _ Hw) as (Hal & Hlo & Hhi). fold t in Hhi, Hh. destruct (wf_heap _ _ Hw) as [Hha Hhb]. fold t in Hha, Hhb.
  assert (Hlo2 : SMMU_PDN_TO_ADDR pdn = pdn * 2 ^ 22).
  { unfold SMMU_PDN_TO_ADDR. rewrite Z.shiftl_mul_pow2 by lia. apply u32_id. lia. }
  destruct (mk_pde_table t) as (Et & Ebt & Hpr); [unfold SMMU_HEAP_ADDR in Hlo; lia|done|].
  set (pde := SMMU_MK_PDE t (Z.lor _PDE_ATTR _PDE_NEXT)) in *.
  assert (Hm : s_mem s' = st32 m2 (pdir + 4 * pdn) pde) by done.
  assert (Hheap : _pageheap s' = t + 4096) by (apply u32_id; unfold SMMU_HEAP_ADDR in Hlo; lia).
  clearbody s'.
  assert (Hnew : pde_at (s_mem s') pdir pdn = pde) by (rewrite Hm; by apply ld32_st32_eq).
  assert (Hframe : forall x, ~ (t <= x < t + 4096) -> ~ (pdir + 4 * pdn <= x < pdir + 4 * pdn + 4) ->
    ld8 (s_mem s') x = ld8 (s_mem s) x).
  { intros x Hx1 Hx2. rewrite Hm, ld8_st32_ne by done. subst m2.
    rewrite fill_ptbl_frame by (rewrite ?HN; lia). subst m1. rewrite ld8_memset.
    change (Z.of_nat (Z.to_nat 4096)) with 4096. fold t.
    destruct (Z.leb_spec t x), (Z.ltb_spec x (t + 4096)); cbn [andb]; lia. }
  assert (Hfill : forall i, 0 <= i < 1024 ->
    ld32 (s_mem s') (t + 4 * i) = _PTE_VACANT (SMMU_PDN_TO_ADDR pdn + 4096 * i)).
  { intros i Hi'. rewrite Hm, ld32_st32_ne by lia. subst m2.
    rewrite fill_ptbl_entry by (rewrite ?HN, ?Hlo2; lia). by rewrite Z.sub_0_r. }
  split; [by apply (fresh_wf s s' pdir pdn t)|]. split; [lia|].
  rewrite Hnew, Et. split; [done|]. split; [done|].
  intros j Hj. by apply (fresh_walk s s' pdir pdn t).
Qed.

(** ** Mapping pages *)

Lemma page_eq_split a b :
  SMMU_ADDR_TO_PDN a = SMMU_ADDR_TO_PDN b ->
  SMMU_ADDR_TO_PFN a mod 1024 = SMMU_ADDR_TO_PFN b mod 1024 ->
  SMMU_ADDR_TO_PFN a = SMMU_ADDR_TO_PFN b.
Proof.
  unfold SMMU_ADDR_TO_PDN, SMMU_ADDR_TO_PFN. rewrite !Z.shiftr_div_pow2 by lia. intros H1 H2.
  change (2 ^ 22) with (2 ^ 12 * 2 ^ 10) in H1. rewrite <- !Z.div_div in H1 by lia.
  change 1024 with (2 ^ 10) in H2.
  rewrite (Z.div_mod (a / 2 ^ 12) (2 ^ 10)), (Z.div_mod (b / 2 ^ 12) (2 ^ 10)) by lia. by rewrite H1, H2.
Qed.

(** Storing an entry changes the walk of exactly one page. *)
Lemma store_pte_spec s pdir iova v :
  wf s pdir -> 0 <= iova < 0x100000000 -> 0 <= v < 0x100000000 ->
  let pde := pde_at (s_mem s) pdir (SMMU_ADDR_TO_PDN iova) in
  Z.testbit pde 28 = true ->
  let s' := with_mem s (st32 (s_mem s) (table_of pde + 4 * (SMMU_ADDR_TO_PFN iova mod 1024)) v) in
  wf s' pdir /\
  forall j, 0 <= j < 0x100000000 -> walk (s_mem s') pdir j =
    if SMMU_ADDR_TO_PFN j =? SMMU_ADDR_TO_PFN iova then v else walk (s_mem s) pdir j.
Proof.
  intros Hw Hi Hv pde Hb s'. pose proof (pdn_range iova Hi) as Hpdn.
  pose proof (Z.mod_pos_bound (SMMU_ADDR_TO_PFN iova) 1024 ltac:(lia)) as Hpn.
  set (pn := SMMU_ADDR_TO_PFN iova mod 1024) in *.
  destruct (wf_entry s pdir _ Hw Hpdn) as [[_ Hf]|(_ & _ & Ht & Hne)]; [fold pde in Hf; congruence|].
  fold pde in Ht, Hne.
  destruct (wf_pdir _ _ Hw) as (Hal & Hlo & Hhi). destruct Ht as (Hal' & Hlo' & Hhi').
  assert (Hpde : forall q, 0 <= q < 1024 -> pde_at (s_mem s') pdir q = pde_at (s_mem s) pdir q).
  { intros q Hq. unfold pde_at, s'. cbn [s_mem with_mem]. apply ld32_st32_ne.
    destruct (pages_disjoint _ _ Hal' Hal Hne); lia. }
  split.
  - destruct Hw as [W1 W2 W3 W4]. split; [done|done| |].
    + intros q Hq. rewrite Hpde by done. by apply W3.
    + intros p q Hp Hq Hpq. rewrite !Hpde by done. by apply W4.
  - intros j Hj. pose proof (pdn_range j Hj) as Hjp.
    pose proof (Z.mod_pos_bound (SMMU_ADDR_TO_PFN j) 1024 ltac:(lia)) as Hjn.
    destruct (Z.eqb_spec (SMMU_ADDR_TO_PFN j) (SMMU_ADDR_TO_PFN iova)) as [E|E].
    + assert (Ep : SMMU_ADDR_TO_PDN j = SMMU_ADDR_TO_PDN iova).
      { unfold SMMU_ADDR_TO_PFN, SMMU_ADDR_TO_PDN in *. change 22 with (12 + 10).
        rewrite <- !Z.shiftr_shiftr by lia. by rewrite E. }
      unfold walk. rewrite Hpde, Ep by done. fold pde. rewrite Hb, E. fold pn. by apply ld32_st32_eq.
    + unfold walk. rewrite Hpde by done. destruct (Z.testbit (pde_at (s_mem s) pdir (SMMU_ADDR_TO_PDN j)) 28) eqn:Ebj; [|done].
      apply ld32_st32_ne.
      destruct (Z.eq_dec (SMMU_ADDR_TO_PDN j) (SMMU_ADDR_TO_PDN iova)) as [Ep|Ep].
      * rewrite Ep. fold pde. assert (SMMU_ADDR_TO_PFN j mod 1024 <> pn)
          by (intros En; apply E, page_eq_split; done). lia.
      * pose proof (wf_own _ _ Hw _ _ Hjp Hpdn Ep Ebj Hb) as Hown. fold pde in Hown.
        destruct (wf_entry s pdir _ Hw Hjp) as [[_ ?]|(_ & _ & (Hal2 & _) & _)]; [congruence|].
        destruct (pages_disjoint _ _ Hal2 Hal' Hown); lia.
Qed.

Lemma pfn_of_page a k :
  a mod 4096 = 0 -> SMMU_ADDR_TO_PFN (a + 4096 * k) = SMMU_ADDR_TO_PFN a + k.
Proof.
  intros Ha. unfold SMMU_ADDR_TO_PFN. rewrite !Z.shiftr_div_pow2 by lia. change (2 ^ 12) with 4096.
  rewrite (Z.mul_comm 4096), Z.div_add; lia.
Qed.

Lemma map_loop_spec cnt s pdir addr page attr :
  wf s pdir -> addr mod 4096 = 0 -> page mod 4096 = 0 -> 0 <= addr -> 0 <= page ->
  addr + 4096 * Z.of_nat cnt <= 0x100000000 -> page + 4096 * Z.of_nat cnt <= 0x100000000 ->
  0 <= attr < 0x100000000 -> _pageheap s + 4096 * Z.of_nat cnt < 0x100000000 ->
  let s' := map_loop cnt pdir addr page attr s in
  wf s' pdir /\
  forall j, 0 <= j < 0x100000000 -> walk (s_mem s') pdir j =
    if (addr <=? j) && (j <? addr + 4096 * Z.of_nat cnt)
    then Z.lor (SMMU_ADDR_TO_PFN page + (j - addr) / 4096) attr
    else walk (s_mem s) pdir j.
Proof.
  revert s addr page. induction cnt as [|cnt IH]; intros s addr page Hw Ha Hp Ha0 Hp0 Hab Hpb Hat Hh.
  { split; [done|]. intros j Hj. destruct (Z.leb_spec addr j), (Z.ltb_spec j (addr + 4096 * Z.of_nat 0)); cbn; (done || lia). }
  cbn [map_loop]. pose proof (get_pte_spec s pdir addr Hw ltac:(lia) ltac:(lia)) as Hg.
  destruct (smmu_get_pte pdir addr s) as [pte s1]. destruct Hg as (Hw1 & Hh1 & Hb1 & -> & Hwalk1).
  set (v := Z.lor (SMMU_ADDR_TO_PFN page) attr).
  assert (Hv : 0 <= v < 0x100000000).
  { apply (lor_bound 32); [lia| |done]. pose proof (pfn_range page ltac:(lia)). unfold SMMU_ADDR_TO_PFN. lia. }
  destruct (store_pte_spec s1 pdir addr v Hw1 ltac:(lia) Hv Hb1) as [Hw2 Hwalk2].
  set (s2 := with_mem s1 _) in *. cbv zeta.
  destruct (Z.eq_dec (Z.of_nat cnt) 0) as [Hz|Hz].
  - assert (cnt = 0%nat) as -> by lia. cbn [map_loop]. split; [done|]. intros j Hj. rewrite Hwalk2, Hwalk1 by done.
    assert (Hpage : SMMU_ADDR_TO_PFN j = SMMU_ADDR_TO_PFN addr <-> addr <= j < addr + 4096).
    { unfold SMMU_ADDR_TO_PFN. rewrite !Z.shiftr_div_pow2 by lia. change (2 ^ 12) with 4096. clear -Ha. zdm. }
    destruct (Z.leb_spec addr j), (Z.ltb_spec j (addr + 4096 * Z.of_nat 1)); cbn [andb];
      destruct (Z.eqb_spec (SMMU_ADDR_TO_PFN j) (SMMU_ADDR_TO_PFN addr)); try lia; try done.
    rewrite Z.div_small, Z.add_0_r by lia. done.
  - rewrite !u32_id by lia.
    destruct (IH s2 (addr + 0x1000) (page + 0x1000)) as [Hw3 Hwalk3]; try lia; try done.
    1,2: rewrite <- Z.add_mod_idemp_l, ?Ha, ?Hp by lia; done.
    { change (_pageheap s2) with (_pageheap s1). lia. }
    split; [done|]. intros j Hj. rewrite Hwalk3, Hwalk2, Hwalk1 by done.
    assert (Hpage : SMMU_ADDR_TO_PFN j = SMMU_ADDR_TO_PFN addr <-> addr <= j < addr + 4096).
    { unfold SMMU_ADDR_TO_PFN. rewrite !Z.shiftr_div_pow2 by lia. change (2 ^ 12) with 4096. clear -Ha. zdm. }
    change (page + 0x1000) with (page + 4096 * 1). rewrite (pfn_of_page page 1) by done.
    destruct (Z.leb_spec addr j), (Z.ltb_spec j (addr + 4096 * Z.of_nat (S cnt))),
      (Z.leb_spec (addr + 4096) j), (Z.ltb_spec j (addr + 4096 + 4096 * Z.of_nat cnt)); cbn [andb]; try lia;
      destruct (Z.eqb_spec (SMMU_ADDR_TO_PFN j) (SMMU_ADDR_TO_PFN addr)); try lia; try done.
    + f_equal. replace (j - addr) with (j - (addr + 4096) + 1 * 4096) by lia. rewrite Z.div_add by lia. lia.
    + rewrite Z.div_small, Z.add_0_r by lia. done.
Qed.

(** C28: mapping is a functional update of the page walk: the [cnt] pages from [addr] lead to the
    consecutive frames from [page] with the given attributes, every other address translates as
    before, whether or not tables had to be created, and the directory stays well formed. *)
Theorem smmu_map_correct s pdir addr page cnt attr :
  wf s pdir -> addr mod 4096 = 0 -> page mod 4096 = 0 -> 0 <= addr -> 0 <= page ->
  addr + 4096 * Z.of_nat cnt <= 0x100000000 -> page + 4096 * Z.of_nat cnt <= 0x100000000 ->
  0 <= attr < 0x100000000 -> _pageheap s + 4096 * Z.of_nat cnt < 0x100000000 ->
  let s' := smmu_map pdir addr page cnt attr s in
  wf s' pdir /\
  forall j, 0 <= j < 0x100000000 -> walk (s_mem s') pdir j =
    if (addr <=? j) && (j <? addr + 4096 * Z.of_nat cnt)
    then Z.lor (SMMU_ADDR_TO_PFN page + (j - addr) / 4096) attr
    else walk (s_mem s) pdir j.
Proof.
  intros Hw Ha Hp Ha0 Hp0 Hab Hpb Hat Hh s'.
  destruct (map_loop_spec cnt s pdir addr page attr) as [[W1 W2 W3 W4] Hk]; try done.
Qed.

(** ** Fresh domains *)

Lemma fill_pdir_frame n pdir pdn m x :
  0 <= pdn -> ~ (pdir + 4 * pdn <= x < pdir + 4 * (pdn + Z.of_nat n)) ->
  ld8 (fill_pdir n pdir pdn m) x = ld8 m x.
Proof.
  revert pdn m. induction n as [|n IH]; intros pdn m Hp Hx; [done|]. cbn [fill_pdir].
  rewrite IH by lia. apply ld8_st32_ne. lia.
Qed.

Lemma fill_pdir_entry n pdir pdn m i :
  0 <= pdn -> pdn <= i < pdn + Z.of_nat n -> pdn + Z.of_nat n <= 1024 ->
  ld32 (fill_pdir n pdir pdn m) (pdir + 4 * i) = _PDE_VACANT i.
Proof.
  revert pdn m. induction n as [|n IH]; intros pdn m Hp Hi Hb; [lia|]. cbn [fill_pdir].
  destruct (Z.eq_dec i pdn) as [->|Hne]; [|by apply IH; lia].
  rewrite (ld32_same (st32 m (pdir + 4 * pdn) (_PDE_VACANT pdn))).
  - apply ld32_st32_eq, pde_vacant_section. lia.
  - intros x Hx. apply fill_pdir_frame; lia.
Qed.

(** A new domain: its directory is well formed, maps every address to itself,
    and is announced to the memory controller. *)
Lemma init_domain4_spec dev_base asid s :
  _pageheap s mod 4096 = 0 -> SMMU_HEAP_ADDR <= _pageheap s -> _pageheap s + 4096 < 0x100000000 ->
  let '(pdir, s') := smmu_init_domain4 dev_base asid s in
  pdir = _pageheap s /\ wf s' pdir /\ _pageheap s' = _pageheap s + 4096 /\
  (forall j, 0 <= j < 0x100000000 -> walk (s_mem s') pdir j = _PTE_VACANT j).
Proof.
  intros Ha Hl Hb. unfold smmu_init_domain4. cbn [smmu_alloc_pdir page_alloc].
  change (u32 (0x1000 * 1)) with 4096. set (t := _pageheap s) in *.
  set (s' := smmu_flush_regs _).
  assert (Hh : _pageheap s' = t + 4096) by (apply u32_id; unfold SMMU_HEAP_ADDR in Hl; lia).
  assert (Hm : exists m, s_mem s' = fill_pdir SMMU_PDIR_COUNT t 0 m) by (by eexists). clearbody s'.
  destruct Hm as [m Hm]. assert (HN : Z.of_nat SMMU_PDIR_COUNT = 1024) by reflexivity.
  assert (Hpde : forall q, 0 <= q < 1024 -> pde_at (s_mem s') t q = _PDE_VACANT q)
    by (intros q Hq; rewrite Hm; apply fill_pdir_entry; rewrite ?HN; lia).
  split; [done|]. split; [|split; [done|]].
  - split.
    + rewrite Hh. split; [|lia]. by rewrite <- Z.add_mod_idemp_l, Ha by lia.
    + unfold page_in_heap. rewrite Hh. split_and!; [done|done|lia].
    + intros q Hq. left. by apply Hpde.
    + intros p q Hp Hq _ Hbp. rewrite Hpde in Hbp by done.
      destruct (pde_vacant_section p Hp) as [E _]. congruence.
  - intros j Hj. unfold walk. rewrite Hpde by (by apply pdn_range).
    destruct (pde_vacant_section (SMMU_ADDR_TO_PDN j) (pdn_range j Hj)) as [-> _]. by apply pde_vacant_pte.
Qed.

(** The state at power-on. *)
Definition smmu_start : smmu := Smmu false SMMU_HEAP_ADDR ∅ [].

(** Two pages of a security engine's address space. *)
Lemma smmu_map_correct_witness :
  let '(pdir, s) := smmu_init_for_tsec smmu_start in
  let s' := smmu_map pdir 0x3FFF000 0x80000000 2 _PDE_ATTR s in
  walk (s_mem s') pdir 0x4000123 = Z.lor 0x80001 _PDE_ATTR /\
  walk (s_mem s') pdir 0x5000000 = _PTE_VACANT 0x5000000.
Proof.
  pose proof (init_domain4_spec MC_SMMU_TSEC_ASID 1 smmu_start eq_refl ltac:(vm_compute; discriminate) eq_refl) as Hi.
  unfold smmu_init_for_tsec. destruct (smmu_init_domain4 MC_SMMU_TSEC_ASID 1 smmu_start) as [pdir s].
  destruct Hi as (-> & Hw & Hh & Hid). change (_pageheap smmu_start) with 0xA0000000 in *.
  destruct (smmu_map_correct s 0xA0000000 0x3FFF000 0x80000000 2 _PDE_ATTR) as [_ Hk];
    unfold _PDE_ATTR; try done; try lia.
  cbv zeta. split; rewrite Hk by lia; [reflexivity|]. rewrite <- Hid by lia. reflexivity.
Defined.
