(* ===== verification/Util.v ===== *)
(** * Util

    bdk/utils/util.c: the CRC-32 routine, the timers and delays, the register
    configuration lists and the power states. *)

From S2P Require Import I2c Rtc.

(** ** CRC-32 *)

(** One round of the inner loop of the table construction. *)
Definition crc_step (rem : Z) : Z :=
  if c_true (Z.land rem 1) then Z.lxor (Z.shiftr rem 1) 0xedb88320 else Z.shiftr rem 1.
Definition crc_entry (i : Z) : Z := Nat.iter 8 crc_step i.

(** [table], which the first call allocates on the heap and fills and later
    calls reuse.  No other code has a pointer to it, so that every call finds
    the same entries, the ones computed here. *)
Definition crc_table : list Z := map (fun i => crc_entry (Z.of_nat i)) (seq 0 256).

Definition crc_byte (crc oct : Z) : Z :=
  Z.lxor (Z.shiftr crc 8) (nth (Z.to_nat (Z.lxor (Z.land crc 0xff) oct)) crc_table 0).

Definition crc32_calc (crc : Z) (buf : list Z) : Z :=
  Z.lxor (fold_left crc_byte buf (Z.lxor crc 0xFFFFFFFF)) 0xFFFFFFFF.

(** The definition of CRC-32: the message bits, the lowest of each byte first,
    are fed one by one into a shift register with the reflected polynomial. *)
Definition crc_bit (crc : Z) (b : bool) : Z :=
  let top := xorb (Z.testbit crc 0) b in
  let crc := Z.shiftr crc 1 in
  if top then Z.lxor crc 0xedb88320 else crc.
Definition byte_bits (b : Z) : list bool := map (fun i => Z.testbit b (Z.of_nat i)) (seq 0 8).
Definition crc32_reference (crc : Z) (buf : list Z) : Z :=
  Z.lxor (fold_left crc_bit (flat_map byte_bits buf) (Z.lxor crc 0xFFFFFFFF)) 0xFFFFFFFF.

Lemma crc_step_lxor c o :
  crc_step (Z.lxor c o) = Z.lxor (crc_bit c (Z.testbit o 0)) (Z.shiftr o 1).
Proof.
  unfold crc_step, crc_bit. rewrite <- Z.lxor_spec, Z.shiftr_lxor.
  assert (E : c_true (Z.land (Z.lxor c o) 1) = Z.testbit (Z.lxor c o) 0).
  { change 1 with (Z.ones 1). rewrite Z.land_ones by lia. change (2 ^ 1) with 2.
    rewrite Zmod_odd, <- Z.bit0_odd. by destruct (Z.testbit _ 0). }
  rewrite E. destruct (Z.testbit (Z.lxor c o) 0); [|done].
  rewrite !Z.lxor_assoc. f_equal. apply Z.lxor_comm.
Qed.

(** Feeding bits is stepping with the bits xored in beforehand. *)
Lemma crc_bits_step n c o :
  fold_left crc_bit (map (fun i => Z.testbit o (Z.of_nat i)) (seq 0 n)) c =
  Z.lxor (Nat.iter n crc_step (Z.lxor c o)) (Z.shiftr o (Z.of_nat n)).
Proof.
  revert c o. induction n as [|n IH]; intros c o.
  { cbn. by rewrite Z.shiftr_0_r, Z.lxor_assoc, Z.lxor_nilpotent, Z.lxor_0_r. }
  cbn [seq map fold_left]. rewrite <- seq_shift, map_map.
  rewrite (map_ext _ (fun i => Z.testbit (Z.shiftr o 1) (Z.of_nat i))).
  2: { intros i. rewrite Z.shiftr_spec by lia. f_equal. lia. }
  rewrite IH. change (Z.of_nat 0) with 0. rewrite <- crc_step_lxor, <- Nat.iter_succ_r.
  rewrite Z.shiftr_shiftr by lia. do 2 f_equal. lia.
Qed.

(** Bits above the ones that are shifted out only move. *)
Lemma crc_steps_high n c o :
  (forall i, 0 <= i < Z.of_nat n -> Z.testbit o i = false) ->
  Nat.iter n crc_step (Z.lxor c o) = Z.lxor (Nat.iter n crc_step c) (Z.shiftr o (Z.of_nat n)).
Proof.
  revert c o. induction n as [|n IH]; intros c o Ho; [cbn; by rewrite Z.shiftr_0_r|].
  rewrite !Nat.iter_succ_r, crc_step_lxor, (Ho 0) by lia.
  replace (crc_bit c false) with (crc_step c).
  2: { rewrite <- (Z.lxor_0_r c) at 1. rewrite crc_step_lxor. cbn. by rewrite Z.lxor_0_r. }
  rewrite IH.
  - rewrite Z.shiftr_shiftr by lia. do 2 f_equal. lia.
  - intros i Hi. rewrite Z.shiftr_spec by lia. apply Ho. lia.
Qed.

Lemma crc_byte_step crc oct :
  0 <= oct < 256 -> crc_byte crc oct = fold_left crc_bit (byte_bits oct) crc.
Proof.
  intros Ho. unfold byte_bits. rewrite crc_bits_step. change (Z.of_nat 8) with 8.
  replace (Z.shiftr oct 8) with 0 by (rewrite Z.shiftr_div_pow2 by lia; symmetry; by apply Z.div_small).
  rewrite Z.lxor_0_r. unfold crc_byte. set (lo := Z.lxor (Z.land crc 0xff) oct).
  assert (Hlo : 0 <= lo < 256).
  { assert (Hlb : forall i, 8 <= i -> Z.testbit lo i = false).
    { intros i Hi. unfold lo. change 0xff with (Z.ones 8).
      rewrite Z.lxor_spec, Z.land_spec, Z.ones_spec_high, andb_false_r, byte_testbit_high by lia. done. }
    enough (lo = u8 lo) as -> by apply u8_range.
    apply Z.bits_inj'. intros i Hi. rewrite u8_testbit by done.
    destruct (Z.ltb_spec i 8); [done|]. by apply Hlb. }
  unfold crc_table.
  rewrite (nth_indep _ 0 (crc_entry (Z.of_nat 0))) by (rewrite length_map, length_seq; lia).
  rewrite (map_nth (fun i => crc_entry (Z.of_nat i)) (seq 0 256) 0%nat), seq_nth by lia.
  cbn [plus]. rewrite Z2Nat.id by lia. unfold crc_entry.
  replace (Z.lxor crc oct) with (Z.lxor lo (Z.ldiff crc 0xff)).
  - rewrite (crc_steps_high 8), Z.lxor_comm.
    + f_equal. apply Z.bits_inj'. intros i Hi. rewrite !Z.shiftr_spec, Z.ldiff_spec by lia. change (Z.of_nat 8) with 8.
      rewrite (Z.bits_above_log2 0xff) by (cbn; lia). by rewrite andb_true_r.
    + intros i Hi. change 0xff with (Z.ones 8). rewrite Z.ldiff_spec, Z.ones_spec_low by lia. apply andb_false_r.
  - unfold lo. apply Z.bits_inj'. intros i Hi.
    rewrite !Z.lxor_spec, Z.ldiff_spec, Z.land_spec.
    by destruct (Z.testbit crc i), (Z.testbit oct i), (Z.testbit 0xff i).
Qed.

(** C29: the table-driven CRC is the bit-by-bit CRC-32 for every start value and every buffer. *)
Theorem crc32_calc_reference crc buf :
  Forall (fun b => 0 <= b < 256) buf -> crc32_calc crc buf = crc32_reference crc buf.
Proof.
  intros Hb. unfold crc32_calc, crc32_reference. f_equal. generalize (Z.lxor crc 0xFFFFFFFF). clear crc.
  induction Hb as [|b buf Hb _ IH]; intros crc; [done|].
  cbn [flat_map fold_left]. rewrite fold_left_app, <- crc_byte_step by done. apply IH.
Qed.

(** A buffer may be processed in pieces. *)
Lemma crc32_calc_app crc a b : crc32_calc crc (a ++ b) = crc32_calc (crc32_calc crc a) b.
Proof.
  unfold crc32_calc. by rewrite fold_left_app, (Z.lxor_assoc (fold_left _ a _)), Z.lxor_nilpotent, Z.lxor_0_r.
Qed.

(** The check value of CRC-32: the digits 1 to 9. *)
Example crc32_check : crc32_calc 0 (map (fun i => 0x31 + Z.of_nat i) (seq 0 9)) = 0xCBF43926.
Proof. vm_compute. reflexivity. Qed.

Lemma crc32_calc_reference_witness : crc32_calc 0 [0x61; 0x62] = crc32_reference 0 [0x61; 0x62].
Proof. apply crc32_calc_reference. repeat constructor; lia. Defined.

(** ** Timers and delays *)

Module Timer.
Section Timer.
Context {D : Type} `{Mmio D}.

(** *** Halts of the BPMP (bdk/soc/bpmp.c) *)

Definition FLOW_CTLR_BASE : Z := 0x60007000.
Definition FLOW_CTLR_HALT_COP_EVENTS : Z := 0x4.
Definition HALT_COP_MSEC : Z := BIT 24.
Definition HALT_COP_USEC : Z := BIT 25.
Definition HALT_COP_JTAG : Z := BIT 28.
Definition HALT_COP_WAIT_EVENT : Z := BIT 30.
Definition HALT_COP_MAX_CNT : Z := 0xFF.

Definition halt_word (unit n : Z) : Z := Z.lor (Z.lor HALT_COP_WAIT_EVENT unit) n.

(** The loop of [bpmp_usleep] and [bpmp_msleep]; [left] is what is left of the
    argument. *)
Fixpoint bpmp_loop (unit : Z) (fuel : nat) (left : Z) : M D Datatypes.unit :=
  match fuel with
  | O => nofuel
  | S fuel =>
      if negb (c_true left) then mret tt
      else
        let delay := if HALT_COP_MAX_CNT <? left then HALT_COP_MAX_CNT else left in
        let left := u32 (left - delay) in
        wr (FLOW_CTLR_BASE + FLOW_CTLR_HALT_COP_EVENTS) (halt_word unit delay);;
        bpmp_loop unit fuel left
  end.
Definition bpmp_usleep (fuel : nat) (us : Z) : M D unit := bpmp_loop HALT_COP_USEC fuel us.
Definition bpmp_msleep (fuel : nat) (ms : Z) : M D unit := bpmp_loop HALT_COP_MSEC fuel ms.
Definition bpmp_halt : M D unit :=
  wr (FLOW_CTLR_BASE + FLOW_CTLR_HALT_COP_EVENTS) (Z.lor HALT_COP_WAIT_EVENT HALT_COP_JTAG).

(** *** Timers *)

Definition TMR_BASE : Z := 0x60005000.
Definition RTC_BASE : Z := 0x7000E000.
Definition TIMERUS_CNTR_1US : Z := 0x10.
Definition APBDEV_RTC_SECONDS : Z := 0x8.
Definition APBDEV_RTC_SHADOW_SECONDS : Z := 0xC.
Definition APBDEV_RTC_MILLI_SECONDS : Z := 0x10.

Definition get_tmr_s : M D Z := rd (RTC_BASE + APBDEV_RTC_SECONDS).
Definition get_tmr_ms : M D Z :=
  ms ← rd (RTC_BASE + APBDEV_RTC_MILLI_SECONDS);
  s ← rd (RTC_BASE + APBDEV_RTC_SHADOW_SECONDS);
  mret (u32 (ms + u32 (s * 1000))).
Definition get_tmr_us : M D Z := rd (TMR_BASE + TIMERUS_CNTR_1US).

(** Poll [timer] until more than [n] units have passed since [start]. *)
Fixpoint wait_loop (timer : M D Z) (fuel : nat) (start n : Z) : M D unit :=
  match fuel with
  | O => nofuel
  | S fuel =>
      t ← timer;
      if u32 (t - start) <=? n then wait_loop timer fuel start n else mret tt
  end.

Definition msleep (fuel : nat) (ms : Z) : M D unit :=
  start ← get_tmr_ms;
  wait_loop get_tmr_ms fuel start ms.

Definition usleep (fuel : nat) (us : Z) : M D unit :=
  start ← get_tmr_us;
  if u32 (start + us) <? start then bpmp_usleep fuel us
  else wait_loop get_tmr_us fuel start us.

(** The configuration list: register index and value. *)
Fixpoint exec_cfg (base : Z) (ops : list (Z * Z)) : M D unit :=
  match ops with
  | [] => mret tt
  | (off, val) :: ops => wr (base + 4 * off) val;; exec_cfg base ops
  end.

(** Time, in units of which [rate] make a microsecond.  The counter shows the
    microsecond of some moment of the access that reads it; an access takes time,
    and no longer than [latency].  A halt for [n] microseconds lasts at least that
    long, and ends no more than [latency] after it. *)
Class UsClock := {
  tick : D -> Z;
  rate : Z;
  latency : Z;
  clk_rate : 0 < rate;
  clk_latency : 0 < latency;
  clk_read d :
    let '(v, d') := rd32 (TMR_BASE + TIMERUS_CNTR_1US) d in
    tick d < tick d' <= tick d + latency /\
    exists t, tick d <= t <= tick d' /\ v = u32 (t / rate);
  clk_halt n d : 0 < n <= HALT_COP_MAX_CNT ->
    tick d + n * rate <=
      tick (wr32 (FLOW_CTLR_BASE + FLOW_CTLR_HALT_COP_EVENTS) (halt_word HALT_COP_USEC n) d)
      <= tick d + n * rate + latency
}.

Section clock.
Context `{UsClock}.

Lemma read_us d : exists t d', get_tmr_us d = (Ret (u32 (t / rate)), d') /\
  tick d <= t <= tick d' /\ tick d < tick d' <= tick d + latency.
Proof.
  pose proof (clk_read d) as Hr. unfold get_tmr_us, rd.
  destruct (rd32 (TMR_BASE + TIMERUS_CNTR_1US) d) as [v d']. destruct Hr as [Ht (t & Hm & ->)]. eauto.
Qed.

Lemma halt_word_u32 n : 0 <= n <= HALT_COP_MAX_CNT -> u32 (halt_word HALT_COP_USEC n) = halt_word HALT_COP_USEC n.
Proof.
  intros Hn. unfold HALT_COP_MAX_CNT in Hn.
  assert (Hall : forallb (fun k => u32 (halt_word HALT_COP_USEC (Z.of_nat k)) =? halt_word HALT_COP_USEC (Z.of_nat k))
                   (seq 0 256) = true) by (vm_compute; reflexivity).
  rewrite forallb_forall in Hall. specialize (Hall (Z.to_nat n)).
  rewrite Z2Nat.id in Hall by lia. apply Z.eqb_eq, Hall, in_seq. lia.
Qed.

(** Rounds of the halt loop for [us] microseconds. *)
Definition halts (us : Z) : Z := (us + 254) / 255.

Lemma bpmp_usleep_waits fuel us d : 0 <= us < 0x100000000 -> us < Z.of_nat fuel ->
  exists d', bpmp_usleep fuel us d = (Ret tt, d') /\
    tick d + us * rate <= tick d' <= tick d + us * rate + halts us * latency.
Proof.
  unfold bpmp_usleep. pose proof clk_latency as Hl0.
  revert us d. induction fuel as [|fuel IH]; intros us d Hus Hf; [lia|]. cbn [bpmp_loop].
  unfold c_true. destruct (Z.eqb_spec us 0) as [->|Hne]; cbn [negb].
  { exists d. split; [done|]. change (halts 0) with 0. lia. }
  set (n := if HALT_COP_MAX_CNT <? us then HALT_COP_MAX_CNT else us).
  assert (Hn : 0 < n <= us /\ n <= HALT_COP_MAX_CNT /\ (n = us \/ n = 255)).
  { unfold n, HALT_COP_MAX_CNT. destruct (Z.ltb_spec 255 us); lia. }
  rewrite u32_id by lia. unfold wr at 1, modify. rewrite halt_word_u32 by lia.
  pose proof (clk_halt n d ltac:(lia)) as Hh. set (d1 := wr32 _ _ d) in *.
  unfold mbind, M_bind. destruct (IH (us - n) d1) as (d' & E & Hd'); [lia|lia|].
  exists d'. split; [done|].
  assert (Hh1 : halts (us - n) + 1 = halts us).
  { unfold halts. destruct Hn as (? & ? & [->| ->]).
    - rewrite Z.sub_diag. change ((0 + 254) / 255) with 0. unfold HALT_COP_MAX_CNT in *.
      apply (Z.div_unique _ _ _ (us - 1)); lia.
    - replace (us + 254) with (us - 255 + 254 + 1 * 255) by lia. by rewrite Z.div_add. }
  nia.
Qed.

(** How late a delay of [us] microseconds may end. *)
Definition slack (us : Z) : Z := rate + (halts us + 3) * latency.

Lemma wait_loop_waits fuel t0 us d :
  0 <= us -> (us + 2) * rate + 3 * latency < 0x100000000 * rate ->
  t0 <= tick d <= t0 + (us + 1) * rate + latency ->
  t0 + (us + 1) * rate + latency - tick d < Z.of_nat fuel ->
  exists d', wait_loop get_tmr_us fuel (u32 (t0 / rate)) us d = (Ret tt, d') /\
    t0 + us * rate < tick d' <= t0 + (us + 1) * rate + 2 * latency.
Proof.
  pose proof clk_rate as Hr0. pose proof clk_latency as Hl0. intros Hus Hmax. revert d.
  induction fuel as [|fuel IH]; intros d Hd Hf; [lia|]. cbn [wait_loop].
  destruct (read_us d) as (t & d1 & E & Ht & Hd1). rewrite (bind_run _ _ _ _ _ E).
  assert (Hlo : t0 / rate <= t / rate) by (apply Z.div_le_mono; lia).
  assert (Hhi : t / rate - t0 / rate < 0x100000000).
  { pose proof (Z.mul_div_le t rate Hr0). pose proof (Z.mul_succ_div_gt t0 rate Hr0). nia. }
  replace (u32 (u32 (t / rate) - u32 (t0 / rate))) with (t / rate - t0 / rate).
  2: { unfold u32. rewrite <- Zminus_mod. symmetry. apply Z.mod_small. lia. }
  pose proof (Z.mul_div_le t rate Hr0). pose proof (Z.mul_succ_div_gt t rate Hr0).
  pose proof (Z.mul_div_le t0 rate Hr0). pose proof (Z.mul_succ_div_gt t0 rate Hr0).
  destruct (Z.leb_spec (t / rate - t0 / rate) us) as [Hle|Hgt].
  - apply IH; [nia|lia].
  - exists d1. split; [done|]. split; [nia|lia].
Qed.

(** C30: [usleep] always returns, and never before the time asked for has passed.  It is late by at
    most one microsecond, three accesses, and in the case of a counter about to wrap, where the
    processor is halted instead, one access for every 255 microseconds.  This holds for every
    value of the counter and every delay that stays two microseconds and three accesses short of
    2^32 microseconds. *)
Theorem usleep_waits fuel us d :
  0 <= us -> (us + 2) * rate + 3 * latency < 0x100000000 * rate ->
  (us + 2) * rate + 3 * latency < Z.of_nat fuel ->
  exists d', usleep fuel us d = (Ret tt, d') /\
    tick d + us * rate < tick d' <= tick d + us * rate + slack us.
Proof.
  pose proof clk_rate as Hr0. pose proof clk_latency as Hl0. intros Hus Hmax Hf.
  assert (Hh : 0 <= halts us) by (apply Z.div_pos; lia).
  assert (Hu : us < 0x100000000) by nia. unfold usleep, slack.
  destruct (read_us d) as (t0 & d1 & E & Ht & Hd1). rewrite (bind_run _ _ _ _ _ E).
  destruct (_ <? _).
  - destruct (bpmp_usleep_waits fuel us d1) as (d' & E' & Hd'); [lia|nia|]. exists d'. split; [done|]. nia.
  - destruct (wait_loop_waits fuel t0 us d1) as (d' & E' & Hd'); [done|done|nia|nia|].
    exists d'. split; [done|]. nia.
Qed.
End clock.

End Timer.

(** A clock of ten units to the microsecond on which every access takes three of
    them. *)
#[local] Instance counter : Mmio Z := {
  rd32 _ d := (u32 ((d + 3) / 10), d + 3);
  wr32 a v d := if a =? FLOW_CTLR_BASE + FLOW_CTLR_HALT_COP_EVENTS then d + 10 * (v mod 256) + 3 else d;
  tmr_us d := (u32 (d / 10), d + 3);
  tmr_ms d := (u32 (d / 10000), d + 3);
  sleep_us n d := d + 10 * n
}.
#[local] Instance counter_clock : UsClock.
Proof.
  refine {| tick d := d; rate := 10; latency := 5 |}; try lia.
  - intros d. cbn. split; [lia|]. exists (d + 3). split; [lia|done].
  - intros n d Hn. cbn [wr32 counter]. rewrite Z.eqb_refl.
    replace (halt_word HALT_COP_USEC n mod 256) with n; [lia|].
    unfold halt_word, HALT_COP_MAX_CNT in *. change 256 with (2 ^ 8).
    rewrite <- Z.land_ones, Z.land_lor_distr_l by lia.
    change (Z.land (Z.lor HALT_COP_WAIT_EVENT HALT_COP_USEC) (Z.ones 8)) with 0.
    rewrite Z.lor_0_l, Z.land_ones by lia. symmetry. apply Z.mod_small. change (2 ^ 8) with 256. lia.
Defined.

(** A delay of 50 microseconds, in the middle of the range of the counter and right before it
    wraps. *)
Lemma usleep_waits_witness :
  (exists d', usleep 600 50 (1000 : Z) = (Ret tt, d') /\ 1500 < d' <= 1530) /\
  (exists d', usleep 600 50 (42949672900 : Z) = (Ret tt, d') /\ 42949673400 < d' <= 42949673430).
Proof.
  split.
  - destruct (usleep_waits (D := Z) 600 50 1000) as (d' & E & Hd'); [lia|vm_compute; reflexivity..|].
    exists d'. split; [exact E|]. change (slack (D := Z) 50) with 30 in Hd'. cbn in Hd'. lia.
  - destruct (usleep_waits (D := Z) 600 50 42949672900) as (d' & E & Hd'); [lia|vm_compute; reflexivity..|].
    exists d'. split; [exact E|]. change (slack (D := Z) 50) with 30 in Hd'. cbn in Hd'. lia.
Defined.
End Timer.

(** ** Power states *)

Inductive power_state_t :=
| REBOOT_RCM | REBOOT_BYPASS_FUSES | POWER_OFF | POWER_OFF_RESET | POWER_OFF_REBOOT.

(** What [power_set_state] does outside the PMIC before it halts. *)
Inductive power_action :=
| PmcResetToRcm
| Panic (val : Z)
| PmicOnly.

Definition MAX77620_I2C_ADDR : Z := 0x3C.
Definition MAX77620_REG_ONOFFCNFG1 : Z := 0x41.
Definition MAX77620_REG_ONOFFCNFG2 : Z := 0x42.
Definition MAX77620_ONOFFCNFG1_PWR_OFF : Z := BIT 1.
Definition MAX77620_ONOFFCNFG1_SFT_RST : Z := BIT 7.
Definition MAX77620_ONOFFCNFG2_WK_ALARM2 : Z := BIT 1.
Definition MAX77620_ONOFFCNFG2_WK_ALARM1 : Z := BIT 2.
Definition MAX77620_ONOFFCNFG2_SFT_RST_WK : Z := BIT 7.

Section Power.
Context {D : Type} `{I2c D}.

Definition soft_reset (state : power_state_t) : M D power_action :=
  reg ← i2c_recv_byte I2C_5 MAX77620_I2C_ADDR MAX77620_REG_ONOFFCNFG2;
  let reg :=
    match state with
    | POWER_OFF_RESET =>
        Z.land reg (u8 (Z.lnot (Z.lor MAX77620_ONOFFCNFG2_SFT_RST_WK
          (Z.lor MAX77620_ONOFFCNFG2_WK_ALARM1 MAX77620_ONOFFCNFG2_WK_ALARM2))))
    | _ => Z.lor reg MAX77620_ONOFFCNFG2_SFT_RST_WK
    end in
  i2c_send_byte I2C_5 MAX77620_I2C_ADDR MAX77620_REG_ONOFFCNFG2 reg;;
  i2c_send_byte I2C_5 MAX77620_I2C_ADDR MAX77620_REG_ONOFFCNFG1 MAX77620_ONOFFCNFG1_SFT_RST;;
  mret PmicOnly.

(** From the stop of the alarms to the end of the switch. *)
Definition set_power_state (state : power_state_t) : M D power_action :=
  max77620_rtc_stop_alarm;;
  match state with
  | REBOOT_RCM => mret PmcResetToRcm
  | REBOOT_BYPASS_FUSES => mret (Panic 0x21)
  | POWER_OFF =>
      i2c_send_byte I2C_5 MAX77620_I2C_ADDR MAX77620_REG_ONOFFCNFG1 MAX77620_ONOFFCNFG1_PWR_OFF;;
      mret PmicOnly
  | POWER_OFF_RESET | POWER_OFF_REBOOT => soft_reset state
  end.

End Power.

(** ** The whole sequences *)

Section PowerDown.
Context {D : Type} `{Mmio D} `{I2c D}.
(** [sd_end] and [hw_reinit_workaround(false, 0)]. *)
Variables sd_end hw_reinit_workaround : M D unit.

Definition PMC_BASE : Z := 0x7000E400.
Definition APBDEV_PMC_CNTRL : Z := 0x0.
Definition PMC_CNTRL_MAIN_RST : Z := BIT 4.
Definition APBDEV_PMC_SCRATCH0 : Z := 0x50.
Definition PMC_SCRATCH0_MODE_RCM : Z := BIT 1.
Definition APBDEV_PMC_SCRATCH200 : Z := 0x840.
Definition TIMER_TMR9_TMR_PTV : Z := 0x80.
Definition TIMER_PER_EN : Z := BIT 30.
Definition TIMER_EN : Z := BIT 31.
Definition TIMER_WDT4_CONFIG : Z := 0x100 + 0x80.
Definition TIMER_PMCRESET_EN : Z := BIT 15.
Definition TIMER_WDT4_COMMAND : Z := 0x108 + 0x80.
Definition TIMER_START_CNT : Z := BIT 0.
Definition TIMER_WDT4_UNLOCK_PATTERN : Z := 0x10C + 0x80.
Definition TIMER_MAGIC_PTRN : Z := 0xC45A.

(** [while (true) m;]. *)
Fixpoint forever (fuel : nat) (m : M D unit) : M D unit :=
  match fuel with O => nofuel | S fuel => m;; forever fuel m end.

(** The watchdog that resets the chip is started, and waited for. *)
Definition panic (fuel : nat) (val : Z) : M D unit :=
  wr (PMC_BASE + APBDEV_PMC_SCRATCH200) val;;
  wr (Timer.TMR_BASE + TIMER_WDT4_UNLOCK_PATTERN) TIMER_MAGIC_PTRN;;
  wr (Timer.TMR_BASE + TIMER_TMR9_TMR_PTV) (Z.lor TIMER_EN TIMER_PER_EN);;
  wr (Timer.TMR_BASE + TIMER_WDT4_CONFIG)
    (Z.lor (Z.lor (Z.land 9 0xF) (Z.shiftl (Z.land 1 0xFF) 4)) TIMER_PMCRESET_EN);;
  wr (Timer.TMR_BASE + TIMER_WDT4_COMMAND) TIMER_START_CNT;;
  forever fuel (Timer.usleep fuel 1).

Definition power_set_state (fuel : nat) (state : power_state_t) : M D unit :=
  sd_end;;
  hw_reinit_workaround;;
  act ← set_power_state state;
  match act with
  | PmcResetToRcm =>
      wr (PMC_BASE + APBDEV_PMC_SCRATCH0) PMC_SCRATCH0_MODE_RCM;;
      v ← rd (PMC_BASE + APBDEV_PMC_CNTRL);
      wr (PMC_BASE + APBDEV_PMC_CNTRL) (Z.lor v PMC_CNTRL_MAIN_RST)
  | Panic val => panic fuel val
  | PmicOnly => mret tt
  end;;
  forever fuel Timer.bpmp_halt.

Definition power_set_state_ex (fuel : nat) (param : power_state_t) : M D unit := power_set_state fuel param.

Lemma forever_never_returns fuel m d x d' : forever fuel m d <> (Ret x, d').
Proof.
  revert d. induction fuel as [|fuel IH]; intros d; cbn [forever]; [discriminate|].
  intros E. apply bind_Ret in E as (? & d1 & _ & E). by apply IH in E.
Qed.

(** Neither of the two comes back to its caller, whatever the hardware does. *)
Lemma power_set_state_never_returns fuel state d x d' : power_set_state fuel state d <> (Ret x, d').
Proof.
  intros E. unfold power_set_state in E. do 4 (apply bind_Ret in E as (? & ? & _ & E)).
  by apply forever_never_returns in E.
Qed.
Lemma panic_never_returns fuel val d x d' : panic fuel val d <> (Ret x, d').
Proof.
  intros E. unfold panic in E. do 5 (apply bind_Ret in E as (? & ? & _ & E)).
  by apply forever_never_returns in E.
Qed.
End PowerDown.

Definition pmic_reg {D} `{RegFile D} (d : D) (r : Z) : Z := reg_byte (chip_regs d) I2C_5 MAX77620_I2C_ADDR r.

(** Both soft resets start the reset sequence; the console wakes up again after
    it exactly when it is to reboot. *)
Lemma soft_reset_wakes {D} `{RegFile D} state (d : D) :
  exists d', soft_reset state d = (Ret PmicOnly, d') /\
    pmic_reg d' MAX77620_REG_ONOFFCNFG1 = MAX77620_ONOFFCNFG1_SFT_RST /\
    Z.testbit (pmic_reg d' MAX77620_REG_ONOFFCNFG2) 7 =
      match state with POWER_OFF_RESET => false | _ => true end.
Proof.
  unfold soft_reset, pmic_reg.
  destruct (chip_recv_byte I2C_5 MAX77620_I2C_ADDR MAX77620_REG_ONOFFCNFG2 d) as (d1 & E1 & R1).
  rewrite (bind_run _ _ _ _ _ E1). set (reg := match state with POWER_OFF_RESET => _ | _ => _ end).
  destruct (chip_send_byte I2C_5 MAX77620_I2C_ADDR MAX77620_REG_ONOFFCNFG2 reg d1) as (d2 & E2 & R2).
  rewrite (bind_run _ _ _ _ _ E2).
  destruct (chip_send_byte I2C_5 MAX77620_I2C_ADDR MAX77620_REG_ONOFFCNFG1 MAX77620_ONOFFCNFG1_SFT_RST d2)
    as (d3 & E3 & R3).
  rewrite (bind_run _ _ _ _ _ E3). exists d3. split; [done|]. rewrite R3, R2. split; [apply reg_byte_insert|].
  rewrite reg_byte_insert_ne, reg_byte_insert, u8_testbit by (lia || discriminate). unfold reg.
  destruct state; rewrite ?Z.lor_spec, ?Z.land_spec; cbn; by rewrite ?orb_true_r, ?andb_false_r.
Qed.
