(* ===== verification/Gpio.v ===== *)
(** * Gpio

    The GPIO driver of bdk/soc/gpio.c over memory mapped registers, and the
    buttons of bdk/utils/btn.c on top of it and of the PMIC. *)

From S2P Require Import I2c.

(** ** Pins *)

Definition GPIO_BASE : Z := 0x6000D000.

(** Offset of a register of kind [k] (0x00 CNF, 0x10 OE, 0x20 OUT, 0x30 IN,
    0x40 INT_STA, 0x50 INT_ENB, 0x60 INT_LVL, 0x70 INT_CLR). *)
Definition gpio_offset (k port : Z) : Z :=
  k + Z.shiftl (Z.shiftr port 2) 8 + Z.shiftl (port mod 4) 2.
Definition GPIO_CNF_OFFSET := gpio_offset 0x00.
Definition GPIO_OE_OFFSET := gpio_offset 0x10.
Definition GPIO_OUT_OFFSET := gpio_offset 0x20.
Definition GPIO_IN_OFFSET := gpio_offset 0x30.
Definition GPIO_INT_STA_OFFSET := gpio_offset 0x40.
Definition GPIO_INT_ENB_OFFSET := gpio_offset 0x50.
Definition GPIO_INT_LVL_OFFSET := gpio_offset 0x60.
Definition GPIO_INT_CLR_OFFSET := gpio_offset 0x70.

Definition gpio_bank_irq_ids : list Z := [32; 33; 34; 35; 55; 87; 89; 125].

Section Gpio.
Context {D : Type} `{Mmio D}.

(** [GPIO(off) |= pins] or [GPIO(off) &= ~pins], then a read that commits it. *)
Definition gpio_update (off pins : Z) (set : bool) : M D unit :=
  v ← rd (GPIO_BASE + off);
  wr (GPIO_BASE + off) (if set then Z.lor v pins else Z.land v (u32 (Z.lnot pins)));;
  rd (GPIO_BASE + off);;
  mret tt.

Definition gpio_config (port pins : Z) (mode : bool) : M D unit :=
  gpio_update (GPIO_CNF_OFFSET port) pins mode.

Definition gpio_output_enable (port pins : Z) (enable : bool) : M D unit :=
  gpio_update (GPIO_OE_OFFSET port) pins enable.

Definition gpio_write (port pins : Z) (high : bool) : M D unit :=
  gpio_update (GPIO_OUT_OFFSET port) pins high.

Definition gpio_read (port pins : Z) : M D Z :=
  v ← rd (GPIO_BASE + GPIO_IN_OFFSET port);
  mret (if c_true (Z.land v pins) then 1 else 0).

Definition _gpio_interrupt_clear (port pins : Z) : M D unit :=
  gpio_update (GPIO_INT_CLR_OFFSET port) pins true.

Definition gpio_interrupt_status (port pins : Z) : M D Z :=
  enb ← rd (GPIO_BASE + GPIO_INT_ENB_OFFSET port);
  let enabled := Z.land enb pins in
  sta ← rd (GPIO_BASE + GPIO_INT_STA_OFFSET port);
  let status := c_true (Z.land sta pins) && c_true enabled in
  (if status then _gpio_interrupt_clear port pins else mret tt);;
  mret (c_bool status).

Definition gpio_interrupt_enable (port pins : Z) (enable : bool) : M D unit :=
  _gpio_interrupt_clear port pins;;
  gpio_update (GPIO_INT_ENB_OFFSET port) pins enable.

(** Set or clear the bits [pins] of [val]. *)
Definition set_bits (val pins : Z) (b : bool) : Z :=
  if b then Z.lor val pins else Z.land val (u32 (Z.lnot pins)).

Definition gpio_interrupt_level (port pins : Z) (high edge delta : bool) : M D unit :=
  let off := GPIO_BASE + GPIO_INT_LVL_OFFSET port in
  val ← rd off;
  let val := set_bits val pins high in
  let val := set_bits val (u32 (Z.shiftl pins 8)) edge in
  let val := set_bits val (u32 (Z.shiftl pins 16)) delta in
  wr off val;;
  rd off;;
  _gpio_interrupt_clear port pins.

(** [None] is a read outside the table. *)
Definition gpio_get_bank_irq_id (port : Z) : option Z :=
  gpio_bank_irq_ids !! Z.to_nat (Z.shiftr port 2).

End Gpio.

(** ** Buttons *)

Definition BTN_POWER : Z := BIT 0.
Definition BTN_VOL_DOWN : Z := BIT 1.
Definition BTN_VOL_UP : Z := BIT 2.
Definition BTN_SINGLE : Z := BIT 7.
Definition GPIO_PORT_X : Z := 23.
Definition GPIO_PIN_6 : Z := BIT 6.
Definition GPIO_PIN_7 : Z := BIT 7.
Definition PMIC_ADDR : Z := 0x3C.
Definition MAX77620_REG_ONOFFSTAT : Z := 0x15.
Definition MAX77620_ONOFFSTAT_EN0 : Z := BIT 2.

Section Buttons.
Context {D : Type} `{Mmio D} `{I2c D}.

Definition btn_read_vol : M D Z :=
  dn ← gpio_read GPIO_PORT_X GPIO_PIN_7;
  up ← gpio_read GPIO_PORT_X GPIO_PIN_6;
  mret (Z.lor (if c_true dn then 0 else BTN_VOL_DOWN) (if c_true up then 0 else BTN_VOL_UP)).

Definition btn_read : M D Z :=
  dn ← gpio_read GPIO_PORT_X GPIO_PIN_7;
  up ← gpio_read GPIO_PORT_X GPIO_PIN_6;
  pw ← i2c_recv_byte I2C_5 PMIC_ADDR MAX77620_REG_ONOFFSTAT;
  mret (Z.lor (Z.lor (if c_true dn then 0 else BTN_VOL_DOWN) (if c_true up then 0 else BTN_VOL_UP))
          (if c_true (Z.land pw MAX77620_ONOFFSTAT_EN0) then BTN_POWER else 0)).

(** The waiting functions depend on the buttons only through [btn_read]. *)
Section Waiting.
Variable read : M D Z.

Fixpoint btn_wait_loop (fuel : nat) (btn : Z) (pwr : bool) : M D Z :=
  match fuel with
  | O => nofuel
  | S fuel =>
      res ← read;
      let '(pwr, res) :=
        if negb (c_true (Z.land res BTN_POWER)) && pwr then (false, res)
        else if pwr then (pwr, Z.land res (u8 (Z.lnot BTN_POWER)))
        else (pwr, res) in
      if btn =? res then btn_wait_loop fuel btn pwr else mret res
  end.

Definition btn_wait (fuel : nat) : M D Z :=
  btn ← read;
  if c_true (Z.land btn BTN_POWER)
  then btn_wait_loop fuel (Z.land btn (u8 (Z.lnot BTN_POWER))) true
  else btn_wait_loop fuel btn false.

Fixpoint timeout_loop (fuel : nat) (timeout mask res : Z) : M D Z :=
  match fuel with
  | O => nofuel
  | S fuel =>
      t ← get_tmr_ms;
      if t <? timeout then
        if res =? mask then mret res
        else (r ← read; timeout_loop fuel timeout mask (Z.land r mask))
      else mret res
  end.

Definition btn_wait_timeout (fuel : nat) (time_ms mask : Z) : M D Z :=
  t ← get_tmr_ms;
  r ← read;
  timeout_loop fuel (u32 (t + time_ms)) mask (Z.land r mask).

(** [inl] is the early return, [inr] the last state of the buttons at the
    timeout. *)
Fixpoint single_loop (fuel : nat) (timeout single mask res : Z) : M D (Z + Z) :=
  match fuel with
  | O => nofuel
  | S fuel =>
      t ← get_tmr_ms;
      if t <? timeout then
        if Z.land res mask =? mask then
          if c_true single && c_true (Z.land res (Z.lnot mask))
          then (r ← read; single_loop fuel timeout single mask r)
          else mret (inl (Z.land res mask))
        else (r ← read; single_loop fuel timeout single mask r)
      else mret (inr res)
  end.

Definition btn_wait_timeout_single (fuel : nat) (time_ms mask : Z) : M D Z :=
  let single := Z.land mask BTN_SINGLE in
  let mask := Z.land mask (u8 (Z.lnot BTN_SINGLE)) in
  t ← get_tmr_ms;
  res ← read;
  out ← single_loop fuel (u32 (t + time_ms)) single mask res;
  match out with
  | inl v => mret v
  | inr res => mret (if negb (c_true single) || negb (c_true time_ms) then Z.land res mask else 0)
  end.

(** A result of the single-button wait that is not zero, for a nonzero time, is the full mask
    asked for; with the single flag no other button was down in the reading it was taken from. *)
Theorem btn_single_sound fuel time_ms mask d r d' :
  0 <= mask < 256 -> c_true time_ms = true -> c_true (Z.land mask BTN_SINGLE) = true ->
  btn_wait_timeout_single fuel time_ms mask d = (Ret r, d') -> r <> 0 ->
  let mask' := Z.land mask (u8 (Z.lnot BTN_SINGLE)) in
  r = mask' /\ exists d1 d2 res,
    read d1 = (Ret res, d2) /\ Z.land res mask' = mask' /\ Z.land res (Z.lnot mask') = 0.
Proof.
  intros Hm Ht Hs E Hr mask'. unfold btn_wait_timeout_single in E. fold mask' in E.
  apply bind_Ret in E as (t & d1 & E1 & E). apply bind_Ret in E as (res & d2 & E2 & E).
  apply bind_Ret in E as (out & d3 & E3 & E). rewrite Hs in E. cbn [negb orb] in E. rewrite Ht in E.
  destruct out as [v|v]; injection E as <- <-; [|done].
  assert (Hloop : forall fuel res dr d2 d3, read dr = (Ret res, d2) ->
    single_loop fuel (u32 (t + time_ms)) (Z.land mask BTN_SINGLE) mask' res d2 = (Ret (inl v), d3) ->
    v = mask' /\ exists d1 d2 res, read d1 = (Ret res, d2) /\ Z.land res mask' = mask' /\
      Z.land res (Z.lnot mask') = 0).
  { clear -Hs. induction fuel as [|fuel IH]; intros res dr d2 d3 Er E; [discriminate|].
    cbn [single_loop] in E. apply bind_Ret in E as (t' & da & Ea & E).
    destruct (t' <? _); [|discriminate]. destruct (Z.eqb_spec (Z.land res mask') mask') as [Em|Em].
    - rewrite Hs in E. cbn [andb] in E. destruct (c_true (Z.land res (Z.lnot mask'))) eqn:Ec.
      + apply bind_Ret in E as (r & db & Eb & E). by eapply IH.
      + injection E as <- <-. split; [done|]. exists dr, d2, res. split_and!; [done|done|].
        unfold c_true in Ec. apply negb_false_iff, Z.eqb_eq in Ec. done.
    - apply bind_Ret in E as (r & db & Eb & E). by eapply IH. }
  by eapply Hloop.
Qed.

End Waiting.
End Buttons.

(** ** The register map *)

(** No two registers of the eight kinds and 32 ports share an offset. *)
Lemma gpio_offset_inj k1 p1 k2 p2 :
  0 <= p1 < 32 -> 0 <= p2 < 32 -> 0 <= k1 < 8 -> 0 <= k2 < 8 ->
  gpio_offset (16 * k1) p1 = gpio_offset (16 * k2) p2 -> k1 = k2 /\ p1 = p2.
Proof.
  unfold gpio_offset. rewrite !Z.shiftl_mul_pow2, !Z.shiftr_div_pow2 by lia. intros.
  change (2 ^ 2) with 4 in *. change (2 ^ 8) with 256 in *.
  pose proof (Z.div_mod p1 4). pose proof (Z.div_mod p2 4).
  pose proof (Z.mod_pos_bound p1 4). pose proof (Z.mod_pos_bound p2 4). lia.
Qed.

(** A bus on which a register keeps the value written to it. *)
Abbreviation bus := (gmap Z Z).
#[export] Instance bus_mmio : Mmio bus := {
  rd32 a m := (default 0 (m !! a), m);
  wr32 a v m := <[a := v]> m;
  tmr_us m := (0, m);
  tmr_ms m := (0, m);
  sleep_us _ m := m
}.

(** Writing pins sets or clears exactly these bits of the output register of the port and
    leaves every other register of every port alone. *)
Theorem gpio_write_correct port pins high (m : bus) :
  0 <= pins < 0x100000000 -> 0 <= default 0 (m !! (GPIO_BASE + GPIO_OUT_OFFSET port)) < 0x100000000 ->
  exists m', gpio_write port pins high m = (Ret tt, m') /\
    (forall n, 0 <= n -> Z.testbit (default 0 (m' !! (GPIO_BASE + GPIO_OUT_OFFSET port))) n =
      if Z.testbit pins n then high else Z.testbit (default 0 (m !! (GPIO_BASE + GPIO_OUT_OFFSET port))) n) /\
    (forall a, a <> GPIO_BASE + GPIO_OUT_OFFSET port -> m' !! a = m !! a).
Proof.
  intros Hp Hv. unfold gpio_write, gpio_update, mbind, M_bind, rd, wr, modify. cbn [rd32 wr32 bus_mmio].
  set (off := GPIO_BASE + GPIO_OUT_OFFSET port) in *. set (v := default 0 (m !! off)) in *.
  eexists. split; [reflexivity|]. split; [|intros a Ha; by apply lookup_insert_ne].
  intros n Hn. rewrite lookup_insert_eq. cbn [default].
  assert (Hhi : forall x i, 0 <= x < 0x100000000 -> 32 <= i -> Z.testbit x i = false).
  { intros x i Hx Hi. rewrite <- (Z.mod_small x (2 ^ 32)), Z.mod_pow2_bits_high by lia. done. }
  assert (Hu : forall x, 0 <= n -> Z.testbit (u32 x) n = (n <? 32) && Z.testbit x n).
  { intros x _. unfold u32. change 4294967296 with (2 ^ 32). destruct (Z.ltb_spec n 32).
    - by rewrite Z.mod_pow2_bits_low. - by rewrite Z.mod_pow2_bits_high by lia. }
  cbn [from_option]. unfold id. rewrite Hu by done. destruct high.
  - rewrite Z.lor_spec. destruct (Z.ltb_spec n 32); [by destruct (Z.testbit pins n), (Z.testbit v n)|].
    by rewrite !Hhi by lia.
  - rewrite Z.land_spec, Hu, Z.lnot_spec by done.
    destruct (Z.ltb_spec n 32); [by destruct (Z.testbit pins n), (Z.testbit v n)|].
    by rewrite !Hhi by lia.
Qed.

(** ** Witnesses *)

Lemma gpio_write_correct_witness :
  exists m', gpio_write GPIO_PORT_X GPIO_PIN_6 true (∅ : bus) = (Ret tt, m') /\
    Z.testbit (default 0 (m' !! (GPIO_BASE + GPIO_OUT_OFFSET GPIO_PORT_X))) 6 = true.
Proof.
  destruct (gpio_write_correct GPIO_PORT_X GPIO_PIN_6 true (∅ : bus)) as (m' & E & Hb & _);
    [split; vm_compute; congruence..|].
  exists m'. split; [exact E|]. rewrite Hb by lia. reflexivity.
Defined.

Lemma btn_single_sound_witness :
  fst (btn_wait_timeout_single (fun d : bus => (Ret BTN_VOL_UP, d)) 5 100 (BTN_SINGLE + BTN_VOL_UP) ∅) =
    Ret BTN_VOL_UP /\
  exists d1 d2 res, (Ret BTN_VOL_UP, d1 : bus) = (Ret res, d2) /\ Z.land res BTN_VOL_UP = BTN_VOL_UP /\
    Z.land res (Z.lnot BTN_VOL_UP) = 0.
Proof.
  split; [reflexivity|].
  destruct (btn_single_sound (fun d : bus => (Ret BTN_VOL_UP, d)) 5 100 (BTN_SINGLE + BTN_VOL_UP) ∅ BTN_VOL_UP ∅)
    as (_ & d1 & d2 & res & H1 & H2 & H3); try reflexivity; [split; vm_compute; congruence|discriminate|].
  exists d1, d2, res. split_and!; [exact H1|exact H2|exact H3].
Defined.
