(* ===== verification/Ini.v ===== *)
(** * Ini

    The directory listing of bdk/utils/dirlist.c and the parser of
    bdk/utils/ini.c.  Text is a list of bytes; the line buffer of the parser keeps
    the bytes of earlier lines, as in the code. *)

From S2P Require Import Prelude.
From Stdlib Require Import Sorted.

Definition LF : Z := 10.
Definition SPACE : Z := 32.

(** The string that starts at the head of a buffer. *)
Fixpoint cstr (l : list Z) : list Z :=
  match l with
  | [] => []
  | b :: l => if b =? 0 then [] else b :: cstr l
  end.

(** ** Directory listings *)

Module Dirlist.

(** [fname] and the [AM_DIR] and [AM_HID] bits of a directory entry. *)
Record entry := Entry { e_name : list Z; e_dir : bool; e_hid : bool }.

Definition max_entries : nat := 61.

(** The first byte of a name, 0 if it is empty. *)
Definition first (l : list Z) : Z := match l with [] => 0 | b :: _ => b end.

Definition listed (hidden : bool) (e : entry) : bool :=
  negb (first (e_name e) =? 46) && (hidden || negb (e_hid e)).

(** The reading loops: entries that satisfy [want] go to the next slot until all
    slots are full; [k] slots are filled. *)
Fixpoint collect (want : entry -> bool) (k : nat) (es : list entry) : list (list Z) :=
  match es with
  | [] => []
  | e :: es =>
      if want e then
        e_name e :: (if (max_entries - 1 <? S k)%nat then [] else collect want (S k) es)
      else collect want k es
  end.

(** [strcmp(a, b) > 0]. *)
Fixpoint strcmp_gt (a b : list Z) : bool :=
  match a, b with
  | [], _ => false
  | _ :: _, [] => true
  | x :: a, y :: b => if x =? y then strcmp_gt a b else y <? x
  end.

(** The inner loop for the entry [x] at position [i]: the entry that ends up
    there, and the ones behind it. *)
Fixpoint inner (x : list Z) (ys : list (list Z)) : list Z * list (list Z) :=
  match ys with
  | [] => (x, [])
  | y :: ys =>
      let '(x, y) := if strcmp_gt x y then (y, x) else (x, y) in
      let '(x, ys) := inner x ys in
      (x, y :: ys)
  end.

Fixpoint reorder (n : nat) (l : list (list Z)) : list (list Z) :=
  match n, l with
  | S n, x :: l => let '(x, l) := inner x l in x :: reorder n l
  | _, _ => l
  end.

(** [dirlist(directory, pattern, hidden, parse_dirs)].  [es] are the entries the
    file system returns before the end or the first error, for the plain
    directory ([pattern = false]) or for the pattern; [None] if it cannot be
    opened or nothing matches.  The result is the null pointer or the slots. *)
Definition dirlist (es : option (list entry)) (pattern hidden parse_dirs : bool) : option (list (list Z)) :=
  let want e :=
    (if pattern then negb (e_dir e) else if parse_dirs then e_dir e else negb (e_dir e)) && listed hidden e in
  let names := match es with Some es => collect want 0 es | None => [] end in
  match names with
  | [] => None
  | _ => Some (reorder (length names) names)
  end.

(** ** Correctness *)

Definition str_le (a b : list Z) : Prop := strcmp_gt a b = false.

Lemma str_le_refl a : str_le a a.
Proof. unfold str_le. induction a as [|x a IH]; cbn; [done|]. by rewrite Z.eqb_refl. Qed.

Lemma str_gt_le a b : strcmp_gt a b = true -> str_le b a.
Proof.
  unfold str_le. revert b. induction a as [|x a IH]; intros [|y b]; cbn; try done.
  rewrite (Z.eqb_sym y x). destruct (Z.eqb_spec x y) as [->|]; [by apply IH|].
  destruct (Z.ltb_spec y x), (Z.ltb_spec x y); (done || lia).
Qed.

Lemma str_le_trans a b c : str_le a b -> str_le b c -> str_le a c.
Proof.
  unfold str_le. revert b c. induction a as [|x a IH]; intros [|y b] [|z c]; cbn; try done.
  destruct (Z.eqb_spec x y), (Z.eqb_spec y z), (Z.eqb_spec x z); subst; eauto; zcases; (done || lia).
Qed.

Lemma inner_spec x ys x' ys' :
  inner x ys = (x', ys') ->
  x' :: ys' ≡ₚ x :: ys /\ str_le x' x /\ Forall (str_le x') ys' /\ length ys' = length ys.
Proof.
  revert x x' ys'. induction ys as [|y ys IH]; intros x x' ys' E; cbn [inner] in E.
  { injection E as <- <-. split_and!; [done|apply str_le_refl|done|done]. }
  destruct (strcmp_gt x y) eqn:Ec.
  - destruct (inner y ys) as [x1 ys1] eqn:E1. injection E as <- <-.
    destruct (IH _ _ _ E1) as (Hp & Hle & Hall & Hlen).
    assert (Hx : str_le x1 x) by (eapply str_le_trans; [exact Hle|by apply str_gt_le]).
    split_and!; [|done|by constructor|cbn; lia].
    by rewrite perm_swap, Hp.
  - destruct (inner x ys) as [x1 ys1] eqn:E1. injection E as <- <-.
    destruct (IH _ _ _ E1) as (Hp & Hle & Hall & Hlen).
    split_and!; [|done|constructor; [by eapply str_le_trans|done]|cbn; lia].
    rewrite perm_swap, Hp. apply perm_swap.
Qed.

Lemma reorder_spec n l :
  (length l <= n)%nat -> reorder n l ≡ₚ l /\ StronglySorted str_le (reorder n l).
Proof.
  revert l. induction n as [|n IH]; intros [|x l] Hn; cbn [reorder]; try (cbn in Hn; lia);
    try (split; [done|constructor]).
  destruct (inner x l) as [x' l'] eqn:E. destruct (inner_spec _ _ _ _ E) as (Hp & _ & Hall & Hlen).
  destruct (IH l') as [Hp' Hs]; [cbn in Hn; lia|]. split.
  - by rewrite Hp', Hp.
  - constructor; [done|]. by rewrite Hp'.
Qed.

Lemma collect_spec want k es :
  (k < max_entries)%nat ->
  (length (collect want k es) <= max_entries - k)%nat /\
  (collect want k es = map e_name (List.filter want es) \/
   length (collect want k es) = (max_entries - k)%nat /\
   collect want k es `prefix_of` map e_name (List.filter want es)).
Proof.
  revert k. induction es as [|e es IH]; intros k Hk; [cbn; split; [lia|by left]|].
  cbn [collect List.filter]. destruct (want e) eqn:Ew.
  - cbn [map]. destruct (Nat.ltb_spec (max_entries - 1) (S k)).
    + cbn [length]. split; [lia|]. right. split; [lia|]. apply prefix_cons, prefix_nil.
    + destruct (IH (S k) ltac:(lia)) as [Hl [E|[E Hpre]]]; cbn [length].
      * split; [lia|]. left. by rewrite E.
      * split; [lia|]. right. split; [lia|]. by apply prefix_cons.
  - by apply IH.
Qed.

(** The listing holds the wanted entries in ASCII order, each as often as the directory
    returned it; only after 61 of them are further entries left out. *)
Theorem dirlist_correct es pattern hidden parse_dirs names :
  dirlist (Some es) pattern hidden parse_dirs = Some names ->
  let want e :=
    (if pattern then negb (e_dir e) else if parse_dirs then e_dir e else negb (e_dir e)) && listed hidden e in
  StronglySorted str_le names /\ (length names <= 61)%nat /\
  exists l, names ≡ₚ l /\ l `prefix_of` map e_name (List.filter want es) /\
    ((length names < 61)%nat -> l = map e_name (List.filter want es)).
Proof.
  unfold dirlist. set (want := fun e : entry => _). intros E.
  destruct (collect_spec want 0 es) as [Hl Hc]; [unfold max_entries; lia|].
  set (l := collect want 0 es) in *. cbv zeta. fold want.
  assert (En : names = reorder (length l) l) by (destruct l; congruence). subst names.
  destruct (reorder_spec (length l) l) as [Hp Hs]; [done|].
  pose proof (Permutation_length Hp) as Hlen. clearbody l. change max_entries with 61%nat in *.
  split; [done|]. split; [lia|]. exists l. split; [done|].
  destruct Hc as [->|[El Hpre]]; [by split|]. split; [done|]. lia.
Qed.

Lemma dirlist_correct_witness :
  exists l, [[97]; [98; 97]] ≡ₚ l /\
    l `prefix_of` map e_name (List.filter (fun e => negb (e_dir e) && listed false e)
      [Entry [98; 97] false false; Entry [46; 97] false false; Entry [97] false false]).
Proof.
  destruct (dirlist_correct
    [Entry [98; 97] false false; Entry [46; 97] false false; Entry [97] false false]
    true false false [[97]; [98; 97]] eq_refl) as (_ & _ & l & Hp & Hpre & _).
  by exists l.
Defined.

End Dirlist.

(** ** The parser *)

Definition INI_CHOICE : Z := 3.
Definition INI_CAPTION : Z := 5.
Definition INI_NEWLINE : Z := 0xFE.
Definition INI_COMMENT : Z := 0xFF.

(** [ini_sec_t] with its list of [ini_kv_t]; a name of [None] is the null
    pointer. *)
Record ini_sec_t := IniSec {
  s_name : option (list Z);
  s_type : Z;
  s_color : Z;
  s_kvs : list (list Z * list Z)
}.

(** Leading and trailing space, one of each. *)
Definition strip_head (s : list Z) : list Z :=
  match s with b :: r => if b =? SPACE then r else s | [] => s end.
Fixpoint strip_last (s : list Z) : list Z :=
  match s with
  | [] => []
  | [b] => if b =? SPACE then [] else [b]
  | b :: s => b :: strip_last s
  end.
Definition _strdup (s : list Z) : list Z := strip_last (strip_head s).

(** The position where the loop of [_find_section_name] stops: within the first
    [lblen] bytes, at [schar] or a newline, or else at [lblen]. *)
Fixpoint find_pos (lbuf : list Z) (lblen : nat) (schar : Z) : nat :=
  match lblen, lbuf with
  | S n, b :: lbuf => if (b =? schar) || (b =? LF) then O else S (find_pos lbuf n schar)
  | _, _ => O
  end.
Definition _find_section_name (lbuf : list Z) (lblen : nat) (schar : Z) : nat * list Z :=
  let i := find_pos lbuf lblen schar in (i, <[i := 0]> lbuf).

(** [f_gets(lbuf, 512, &fp)] for the text [line]: its bytes and a NUL, over what
    the buffer held. *)
Definition gets_into (lbuf line : list Z) : list Z :=
  line ++ 0 :: drop (S (length line)) lbuf.

(** The sections so far, the current section and the line buffer. *)
Record parser := Parser { p_dst : list ini_sec_t; p_csec : option ini_sec_t; p_buf : list Z }.

(** [_ini_create_section]: the current section is appended, a new one starts. *)
Definition _ini_create_section (p : parser) (name : option (list Z)) (type color : Z) : parser :=
  Parser (p_dst p ++ match p_csec p with Some c => [c] | None => [] end)
    (Some (IniSec (option_map _strdup name) type color [])) (p_buf p).

Definition head_is (lbuf : list Z) (b : Z) : bool :=
  match lbuf with x :: _ => x =? b | [] => false end.

(** The body of the inner loop for one fetched line.  [None] is an access behind
    the buffer. *)
Definition parse_line (p : parser) (line : list Z) : option parser :=
  let lbuf := gets_into (p_buf p) line in
  let lblen := length (cstr lbuf) in
  let lbuf := match lblen with
              | O => lbuf
              | S n => if nth n lbuf 0 =? LF then <[n := 0]> lbuf else lbuf
              end in
  let p := Parser (p_dst p) (p_csec p) lbuf in
  if (2 <? lblen)%nat && head_is lbuf 91 then
    let '(_, lbuf) := _find_section_name lbuf lblen 93 in
    Some (_ini_create_section (Parser (p_dst p) (p_csec p) lbuf) (Some (cstr (drop 1 lbuf))) INI_CHOICE 0)
  else if (1 <? lblen)%nat && head_is lbuf 123 then
    let '(_, lbuf) := _find_section_name lbuf lblen 125 in
    Some (_ini_create_section (Parser (p_dst p) (p_csec p) lbuf) (Some (cstr (drop 1 lbuf)))
            INI_CAPTION 0xFF0AB9E6)
  else if (2 <? lblen)%nat && head_is lbuf 35 then
    Some (_ini_create_section p (Some (cstr (drop 1 lbuf))) INI_COMMENT 0)
  else if (lblen <? 2)%nat then
    Some (_ini_create_section p None INI_NEWLINE 0)
  else
    match p_csec p with
    | Some c =>
        if s_type c =? INI_CHOICE then
          let '(i, lbuf) := _find_section_name lbuf lblen 61 in
          if (512 <=? i + 1)%nat then None
          else
            let kv := (_strdup (cstr lbuf), _strdup (cstr (drop (i + 1) lbuf))) in
            Some (Parser (p_dst p)
              (Some (IniSec (s_name c) (s_type c) (s_color c) (s_kvs c ++ [kv]))) lbuf)
        else Some p
    | None => Some p
    end.

Fixpoint parse_lines (p : parser) (lines : list (list Z)) : option parser :=
  match lines with
  | [] => Some p
  | line :: lines =>
      match parse_line p line with
      | Some p => parse_lines p lines
      | None => None
      end
  end.

(** One file: [lines] are the texts that the calls of [f_gets] return until the
    end of the file, at least one.  The current section is appended at the end. *)
Definition parse_file (dst : list ini_sec_t) (lbuf : list Z) (lines : list (list Z))
    : option (list ini_sec_t * list Z) :=
  match parse_lines (Parser dst None lbuf) (match lines with [] => [[]] | _ => lines end) with
  | Some p => Some (p_dst p ++ match p_csec p with Some c => [c] | None => [] end, p_buf p)
  | None => None
  end.

(** The value of key "payload" of a section. *)
Definition ini_check_payload_section (cfg : option ini_sec_t) : option (list Z) :=
  match cfg with
  | None => None
  | Some cfg => snd <$> List.find (fun kv => bool_decide ([112; 97; 121; 108; 111; 97; 100] = fst kv)) (s_kvs cfg)
  end.

(** ** Reading several files *)

(** The files of a listing from slot [k] on, each opened or not; a file that
    cannot be opened ends the parse with the sections read so far and the result
    0.  The loop ends at a slot that is empty, and [None] is the read behind the
    last of the 61 slots when there is none. *)
Fixpoint parse_dir (k : nat) (dst : list ini_sec_t) (lbuf : list Z) (files : list (option (list (list Z))))
    : option (Z * list ini_sec_t) :=
  match files with
  | [] => if (Dirlist.max_entries <=? k)%nat then None else Some (1, dst)
  | None :: _ => Some (0, dst)
  | Some lines :: files =>
      match parse_file dst lbuf lines with
      | Some (dst, lbuf) => parse_dir (S k) dst lbuf files
      | None => None
      end
  end.

(** [ini_parse]: [file] is the single file, [listing] the files that [dirlist]
    found; [lbuf] is the uninitialised line buffer. *)
Definition ini_parse (dst : list ini_sec_t) (lbuf : list Z) (is_dir : bool)
    (file : option (list (list Z))) (listing : option (list (option (list (list Z)))))
    : option (Z * list ini_sec_t) :=
  if is_dir then
    match listing with
    | None => Some (0, dst)
    | Some files => parse_dir 0 dst lbuf files
    end
  else
    match file with
    | None => Some (0, dst)
    | Some lines =>
        match parse_file dst lbuf lines with Some (dst, _) => Some (1, dst) | None => None end
    end.

(** ** Writing and reading back *)

Inductive item :=
| Choice (name : list Z) (kvs : list (list Z * list Z))
| Caption (name : list Z)
| Comment (text : list Z)
| Newline.

Definition print_kv (kv : list Z * list Z) : list Z := fst kv ++ 61 :: snd kv ++ [LF].
Definition print_item (i : item) : list (list Z) :=
  match i with
  | Choice name kvs => (91 :: name ++ [93; LF]) :: map print_kv kvs
  | Caption name => [123 :: name ++ [125; LF]]
  | Comment text => [35 :: text ++ [LF]]
  | Newline => [[LF]]
  end.
Definition item_sec (i : item) : ini_sec_t :=
  match i with
  | Choice name kvs => IniSec (Some name) INI_CHOICE 0 kvs
  | Caption name => IniSec (Some name) INI_CAPTION 0xFF0AB9E6 []
  | Comment text => IniSec (Some text) INI_COMMENT 0 []
  | Newline => IniSec None INI_NEWLINE 0 []
  end.

(** Text on one line: no NUL, no newline, no space at either end, and short. *)
Definition plain (s : list Z) : Prop :=
  Forall (fun b => b <> 0 /\ b <> LF) s /\ _strdup s = s /\ (length s <= 200)%nat.
Definition plain_kv (kv : list Z * list Z) : Prop :=
  plain (fst kv) /\ plain (snd kv) /\ Forall (fun b => b <> 61) (fst kv) /\
  match fst kv with b :: _ => b <> 91 /\ b <> 123 /\ b <> 35 | [] => True end.
Definition plain_item (i : item) : Prop :=
  match i with
  | Choice name kvs => plain name /\ Forall (fun b => b <> 93) name /\ Forall plain_kv kvs
  | Caption name => plain name /\ Forall (fun b => b <> 125) name
  | Comment text => plain text /\ text <> []
  | Newline => True
  end.

Lemma cstr_app s t : Forall (fun b => b <> 0) s -> cstr (s ++ 0 :: t) = s.
Proof.
  induction 1 as [|b s Hb _ IH]; [done|]. cbn. by rewrite (proj2 (Z.eqb_neq b 0)), IH.
Qed.

Lemma insert_middle {A} (l1 : list A) x y l2 : <[length l1 := x]> (l1 ++ y :: l2) = l1 ++ x :: l2.
Proof. induction l1 as [|z l1 IH]; cbn; [done|]. by rewrite <- IH. Qed.

Lemma find_pos_app pre schar post n :
  Forall (fun b => b <> schar /\ b <> LF) pre -> (length pre < n)%nat ->
  find_pos (pre ++ schar :: post) n schar = length pre.
Proof.
  intros Hp. revert n. induction Hp as [|b pre [Hb1 Hb2] _ IH]; intros [|n] Hn; cbn in *; try lia.
  - by rewrite Z.eqb_refl.
  - rewrite (proj2 (Z.eqb_neq b schar)), (proj2 (Z.eqb_neq b LF)) by done. cbn. rewrite IH; lia.
Qed.

(** What the parser sees of a line [body] that ends in a newline. *)
Lemma fetched buf body :
  Forall (fun b => b <> 0) body ->
  let lbuf := gets_into buf (body ++ [LF]) in
  let lblen := length (cstr lbuf) in
  lblen = S (length body) /\ exists rest,
  match lblen with
  | O => lbuf
  | S n => if nth n lbuf 0 =? LF then <[n := 0]> lbuf else lbuf
  end = body ++ 0 :: rest.
Proof.
  intros Hb lbuf lblen.
  assert (El : lblen = S (length body)).
  { unfold lblen, lbuf, gets_into. rewrite cstr_app, length_app by (apply Forall_app; split; [done|by repeat constructor]).
    cbn. lia. }
  split; [done|]. rewrite El. unfold lbuf, gets_into. rewrite <- app_assoc. cbn [app].
  rewrite nth_middle, Z.eqb_refl, insert_middle. by eexists.
Qed.

Lemma plain_nz s : plain s -> Forall (fun b => b <> 0) s.
Proof. intros (H & _). eapply List.Forall_impl; [|exact H]. by intros b [? _]. Qed.
Lemma plain_not s c : plain s -> Forall (fun b => b <> c) s -> Forall (fun b => b <> c /\ b <> LF) s.
Proof.
  intros (H & _) Hc. induction H as [|b s [_ Hb] _ IH]; inversion_clear Hc; constructor; auto.
Qed.

(** The current section that a new one pushes to the list. *)
Definition pending (p : parser) : list ini_sec_t :=
  p_dst p ++ match p_csec p with Some c => [c] | None => [] end.

(** Run [parse_line] on a line whose text the parser fetches as [body]. *)
Lemma parse_line_fetched p body :
  Forall (fun b => b <> 0) body -> exists rest,
  let lbuf := body ++ 0 :: rest in
  let lblen := S (length body) in
  parse_line p (body ++ [LF]) =
    (let p := Parser (p_dst p) (p_csec p) lbuf in
     if (2 <? lblen)%nat && head_is lbuf 91 then
       Some (_ini_create_section (Parser (p_dst p) (p_csec p) (snd (_find_section_name lbuf lblen 93)))
               (Some (cstr (drop 1 (snd (_find_section_name lbuf lblen 93))))) INI_CHOICE 0)
     else if (1 <? lblen)%nat && head_is lbuf 123 then
       Some (_ini_create_section (Parser (p_dst p) (p_csec p) (snd (_find_section_name lbuf lblen 125)))
               (Some (cstr (drop 1 (snd (_find_section_name lbuf lblen 125))))) INI_CAPTION 0xFF0AB9E6)
     else if (2 <? lblen)%nat && head_is lbuf 35 then
       Some (_ini_create_section p (Some (cstr (drop 1 lbuf))) INI_COMMENT 0)
     else if (lblen <? 2)%nat then Some (_ini_create_section p None INI_NEWLINE 0)
     else
       match p_csec p with
       | Some c =>
           if s_type c =? INI_CHOICE then
             let '(i, lbuf) := _find_section_name lbuf lblen 61 in
             if (512 <=? i + 1)%nat then None
             else Some (Parser (p_dst p) (Some (IniSec (s_name c) (s_type c) (s_color c)
                    (s_kvs c ++ [(_strdup (cstr lbuf), _strdup (cstr (drop (i + 1) lbuf)))]))) lbuf)
           else Some p
       | None => Some p
       end).
Proof.
  intros Hb. destruct (fetched (p_buf p) body Hb) as [El [rest Er]]. exists rest.
  unfold parse_line. rewrite Er, El. reflexivity.
Qed.

(** The name in a heading [open name close]. *)
Lemma heading_name open close name rest n :
  plain name -> open <> close -> open <> LF -> Forall (fun b => b <> close) name ->
  (S (length name) < n)%nat ->
  _strdup (cstr (drop 1 (snd (_find_section_name (open :: name ++ close :: rest) n close)))) = name.
Proof.
  intros Hn Hoc Hol Hnc Hlen. unfold _find_section_name.
  change (open :: name ++ close :: rest) with ((open :: name) ++ close :: rest).
  rewrite find_pos_app; [|constructor; [done|by apply plain_not]|done]. cbn [snd].
  rewrite insert_middle. change (drop 1 ((open :: name) ++ 0 :: rest)) with (name ++ 0 :: rest).
  rewrite cstr_app by by apply plain_nz. apply Hn.
Qed.

Lemma line_heading open close name :
  plain name -> open <> 0 -> close <> 0 -> Forall (fun b => b <> 0) (open :: name ++ [close]).
Proof.
  intros Hn Ho Hc. constructor; [done|]. apply Forall_app. split; [by apply plain_nz|by repeat constructor].
Qed.

Lemma head_is_cons b l c : head_is (b :: l) c = (b =? c).
Proof. done. Qed.

Lemma parse_choice p name :
  plain name -> Forall (fun b => b <> 93) name -> exists buf,
  parse_line p (91 :: name ++ [93; LF]) =
    Some (Parser (pending p) (Some (IniSec (Some name) INI_CHOICE 0 [])) buf).
Proof.
  intros Hn Hc. replace (91 :: name ++ [93; LF]) with ((91 :: name ++ [93]) ++ [LF]) by (cbn; by rewrite <- app_assoc).
  destruct (parse_line_fetched p (91 :: name ++ [93])) as [rest ->]; [by apply line_heading|].
  cbv zeta. cbn [app]. rewrite <- app_assoc, head_is_cons. cbn [app length]. rewrite length_app. cbn [length].
  rewrite (proj2 (Nat.ltb_lt 2 _)) by lia. change (91 =? 91) with true. cbn [andb].
  eexists. unfold _ini_create_section. cbn [option_map p_dst p_csec p_buf].
  rewrite heading_name by (done || lia). reflexivity.
Qed.

Lemma parse_caption p name :
  plain name -> Forall (fun b => b <> 125) name -> exists buf,
  parse_line p (123 :: name ++ [125; LF]) =
    Some (Parser (pending p) (Some (IniSec (Some name) INI_CAPTION 0xFF0AB9E6 [])) buf).
Proof.
  intros Hn Hc. replace (123 :: name ++ [125; LF]) with ((123 :: name ++ [125]) ++ [LF]) by (cbn; by rewrite <- app_assoc).
  destruct (parse_line_fetched p (123 :: name ++ [125])) as [rest ->]; [by apply line_heading|].
  cbv zeta. cbn [app]. rewrite <- app_assoc, !head_is_cons. cbn [app length]. rewrite length_app. cbn [length].
  rewrite (proj2 (Nat.ltb_lt 1 _)) by lia. change (123 =? 123) with true. change (123 =? 91) with false.
  rewrite andb_false_r. cbn [andb].
  eexists. unfold _ini_create_section. cbn [option_map p_dst p_csec p_buf].
  rewrite heading_name by (done || lia). reflexivity.
Qed.

Lemma parse_comment p text :
  plain text -> text <> [] -> exists buf,
  parse_line p (35 :: text ++ [LF]) =
    Some (Parser (pending p) (Some (IniSec (Some text) INI_COMMENT 0 [])) buf).
Proof.
  intros Hn Hne. change (35 :: text ++ [LF]) with ((35 :: text) ++ [LF]).
  destruct (parse_line_fetched p (35 :: text)) as [rest ->]; [constructor; [done|by apply plain_nz]|].
  cbv zeta. cbn [app length]. rewrite !head_is_cons.
  rewrite (proj2 (Nat.ltb_lt 2 _)) by (destruct text; cbn; [done|lia]).
  change (35 =? 123) with false. change (35 =? 91) with false. change (35 =? 35) with true.
  rewrite !andb_false_r. cbn [andb]. change (drop 1 (35 :: text ++ 0 :: rest)) with (text ++ 0 :: rest).
  rewrite cstr_app by by apply plain_nz.
  eexists. unfold _ini_create_section. cbn [option_map p_dst p_csec p_buf].
  replace (_strdup text) with text by (symmetry; apply Hn). reflexivity.
Qed.

Lemma parse_newline p : exists buf,
  parse_line p [LF] = Some (Parser (pending p) (Some (IniSec None INI_NEWLINE 0 [])) buf).
Proof.
  change [LF] with ([] ++ [LF]). destruct (parse_line_fetched p []) as [rest ->]; [constructor|].
  by eexists.
Qed.

Lemma parse_kv p c kv :
  plain_kv kv -> p_csec p = Some c -> s_type c = INI_CHOICE -> exists buf,
  parse_line p (print_kv kv) =
    Some (Parser (p_dst p) (Some (IniSec (s_name c) (s_type c) (s_color c) (s_kvs c ++ [kv]))) buf).
Proof.
  destruct kv as [k v]. intros (Hk & Hv & Heq & Hhd) Hcs Ht. unfold print_kv. cbn [fst snd] in *.
  replace (k ++ 61 :: v ++ [LF]) with ((k ++ 61 :: v) ++ [LF]) by (by rewrite <- app_assoc).
  destruct (parse_line_fetched p (k ++ 61 :: v)) as [rest ->].
  { apply Forall_app. split; [by apply plain_nz|]. constructor; [done|by apply plain_nz]. }
  cbv zeta. rewrite <- app_assoc. cbn [app].
  assert (Hh : forall c, c = 91 \/ c = 123 \/ c = 35 -> head_is (k ++ 61 :: v ++ 0 :: rest) c = false).
  { intros c' Hc'. destruct k as [|b k]; cbn [head_is app]; apply Z.eqb_neq; [lia|]. destruct Hhd as (? & ? & ?). lia. }
  rewrite !Hh by auto. rewrite !andb_false_r. rewrite length_app. cbn [length].
  rewrite (proj2 (Nat.ltb_ge _ 2)) by lia. cbn [p_csec p_dst]. rewrite Hcs, Ht, Z.eqb_refl.
  unfold _find_section_name. rewrite find_pos_app; [|by apply plain_not|lia].
  destruct Hk as (Hk1 & Hk2 & Hk3), Hv as (Hv1 & Hv2 & Hv3).
  rewrite (proj2 (Nat.leb_gt 512 _)) by lia. rewrite insert_middle.
  rewrite cstr_app by (apply plain_nz; by split_and!).
  replace (drop (length k + 1) (k ++ 0 :: v ++ 0 :: rest)) with (v ++ 0 :: rest).
  2: { rewrite <- drop_drop, drop_app_length. done. }
  rewrite cstr_app by (apply plain_nz; by split_and!). rewrite Hk2, Hv2. by eexists.
Qed.

Lemma parse_kvs p c kvs :
  Forall plain_kv kvs -> p_csec p = Some c -> s_type c = INI_CHOICE -> exists buf,
  parse_lines p (map print_kv kvs) =
    Some (Parser (p_dst p) (Some (IniSec (s_name c) (s_type c) (s_color c) (s_kvs c ++ kvs))) buf).
Proof.
  intros Hk. revert p c. induction Hk as [|kv kvs Hkv _ IH]; intros p c Hc Ht.
  { exists (p_buf p). cbn. rewrite app_nil_r. destruct p as [dst cs buf], c. cbn in *. by subst cs. }
  cbn [map parse_lines]. destruct (parse_kv p c kv Hkv Hc Ht) as [buf ->].
  match goal with |- context [parse_lines ?q _] => edestruct (IH q) as [buf' ->]; [reflexivity|exact Ht|] end.
  cbn. exists buf'. by rewrite <- app_assoc.
Qed.

Lemma parse_item p i : plain_item i -> exists buf,
  parse_lines p (print_item i) = Some (Parser (pending p) (Some (item_sec i)) buf).
Proof.
  intros Hi. destruct i as [name kvs|name|text|]; cbn [print_item plain_item parse_lines item_sec] in *.
  - destruct Hi as (Hn & Hc & Hk). destruct (parse_choice p name Hn Hc) as [buf ->].
    match goal with |- context [parse_lines ?q _] =>
      edestruct (parse_kvs q) as [buf' ->]; [exact Hk|reflexivity|reflexivity|] end. by eexists.
  - destruct Hi as (Hn & Hc). destruct (parse_caption p name Hn Hc) as [buf ->]. by eexists.
  - destruct Hi as (Hn & Hc). destruct (parse_comment p text Hn Hc) as [buf ->]. by eexists.
  - destruct (parse_newline p) as [buf ->]. by eexists.
Qed.

Lemma parse_lines_app p a b :
  parse_lines p (a ++ b) = match parse_lines p a with Some p => parse_lines p b | None => None end.
Proof. revert p. induction a as [|l a IH]; intros p; cbn; [done|]. by destruct (parse_line p l). Qed.

Lemma parse_items p its : Forall plain_item its -> exists p',
  parse_lines p (flat_map print_item its) = Some p' /\ pending p' = pending p ++ map item_sec its.
Proof.
  intros Hi. revert p. induction Hi as [|i its Hi _ IH]; intros p; cbn [flat_map map].
  { exists p. by rewrite app_nil_r. }
  rewrite parse_lines_app. destruct (parse_item p i Hi) as [buf ->].
  destruct (IH (Parser (pending p) (Some (item_sec i)) buf)) as (p' & -> & E). exists p'. split; [done|].
  rewrite E. unfold pending at 1. cbn. by rewrite <- app_assoc.
Qed.

(** C31: what is written as an INI file is read back: parsing the printed sections, captions,
    comments and empty lines appends exactly them, with their keys and values, whatever the
    line buffer held before. *)
Theorem ini_roundtrip dst buf its :
  Forall plain_item its -> its <> [] -> exists buf',
  parse_file dst buf (flat_map print_item its) = Some (dst ++ map item_sec its, buf').
Proof.
  intros Hi Hne. unfold parse_file.
  assert (Hl : match flat_map print_item its with [] => [[]] | _ => flat_map print_item its end = flat_map print_item its).
  { destruct its as [|[] its]; done. }
  rewrite Hl. destruct (parse_items (Parser dst None buf) its Hi) as (p' & -> & E).
  exists (p_buf p'). fold (pending p'). rewrite E. unfold pending. cbn. by rewrite app_nil_r.
Qed.

(** A line of a section without "=" takes its value from what earlier lines
    left in the buffer: here key "b" gets the value of the line before it. *)
Lemma ini_stale_value :
  parse_file [] (repeat 0 512)
    [ [91; 120; 93; 10]; [97; 98; 99; 61; 100; 101; 102; 10]; [98; 98; 10] ] =
  Some ([ IniSec (Some [120]) INI_CHOICE 0
            [ ([97; 98; 99], [100; 101; 102]); ([98; 98], [100; 101; 102]) ] ],
        [98; 98; 0; 0; 100; 101; 102] ++ repeat 0 505).
Proof. vm_compute. reflexivity. Qed.

Lemma ini_roundtrip_witness :
  exists buf', parse_file [] (repeat 0 512)
      (flat_map print_item [Caption [104; 105]; Choice [120] [([107], [118; 49])]; Newline]) =
    Some ([] ++ map item_sec [Caption [104; 105]; Choice [120] [([107], [118; 49])]; Newline], buf').
Proof.
  apply ini_roundtrip; [|discriminate].
  repeat constructor; cbn; discriminate || lia.
Defined.

(** A directory with as many files as the listing has slots makes the parser
    read behind the listing, even if every file is parsed. *)
Lemma ini_dir_full_overruns dst lbuf file files :
  length files = Dirlist.max_entries -> Forall (fun f => f <> None) files ->
  ini_parse dst lbuf true file (Some files) = None.
Proof.
  intros Hl Hf. unfold ini_parse.
  assert (Hgen : forall k dst lbuf, (Dirlist.max_entries <= k + length files)%nat -> parse_dir k dst lbuf files = None).
  { clear Hl dst lbuf. induction Hf as [|f files Hf _ IH]; intros k dst lbuf Hk; cbn [parse_dir length] in *.
    - by rewrite (proj2 (Nat.leb_le _ _)) by lia.
    - destruct f as [lines|]; [|done]. destruct (parse_file dst lbuf lines) as [[dst' lbuf']|]; [|done].
      apply IH. lia. }
  apply Hgen. lia.
Qed.
