(* ===== verification/Elf.v ===== *)
(** * Elf

    The ELF library loader: bdk/ianos/elfload/elfload.c and elfreloc_arm.c, with
    the callbacks and the driver of bdk/ianos/ianos.c.  The file is a region of
    the byte memory that starts at [fb] ([fileBuf]); reading from it cannot
    fail, as the code's read callback is a plain copy. *)

From S2P Require Import Prelude Mem.

Inductive el_status :=
| EL_OK | EL_EIO | EL_ENOMEM | EL_NOTELF | EL_WRONGBITS | EL_WRONGENDIAN | EL_WRONGARCH
| EL_WRONGOS | EL_NOTEXEC | EL_NODYN | EL_BADREL.

Definition ET_EXEC : Z := 2.
Definition ET_DYN : Z := 3.
Definition EM_ARM : Z := 40.
Definition EV_CURRENT : Z := 1.
Definition ELFCLASS32 : Z := 1.
Definition ELFDATA2LSB : Z := 1.
Definition PT_LOAD : Z := 1.
Definition PT_DYNAMIC : Z := 2.
Definition SHT_SYMTAB : Z := 2.
Definition SHT_STRTAB : Z := 3.
Definition DT_NULL : Z := 0.
Definition DT_REL : Z := 17.
Definition R_ARM_NONE : Z := 0.
Definition R_ARM_ABS32 : Z := 2.
Definition R_ARM_GLOB_DAT : Z := 21.
Definition R_ARM_JUMP_SLOT : Z := 22.
Definition R_ARM_RELATIVE : Z := 23.

(** The fields of [Elf32_Ehdr], [Elf32_Phdr], [Elf32_Shdr] that are used. *)
Record Elf_Ehdr := Ehdr {
  e_ident : list Z; e_type : Z; e_machine : Z; e_version : Z; e_entry : Z;
  e_phoff : Z; e_shoff : Z; e_phentsize : Z; e_phnum : Z; e_shentsize : Z; e_shnum : Z; e_shstrndx : Z
}.
Record Elf_Phdr := Phdr {
  p_type : Z; p_offset : Z; p_vaddr : Z; p_paddr : Z; p_filesz : Z; p_memsz : Z; p_align : Z
}.
Record Elf_Shdr := Shdr { sh_type : Z; sh_offset : Z; sh_size : Z }.
Record Elf_Dyn := Dyn { d_tag : Z; d_val : Z }.

Record el_ctx := Ctx {
  base_load_paddr : Z; base_load_vaddr : Z;
  ctx_memsz : Z; ctx_align : Z;
  ehdr : Elf_Ehdr;
  shstr : option Elf_Shdr; symtab : option Elf_Shdr;
  dynoff : Z; dynsize : Z
}.

(** Structures as they lie in memory. *)
Definition ehdr_at (m : mem) (a : Z) : Elf_Ehdr :=
  Ehdr (ld_bytes m a 16) (ld16 m (a + 16)) (ld16 m (a + 18)) (ld32 m (a + 20)) (ld32 m (a + 24))
    (ld32 m (a + 28)) (ld32 m (a + 32)) (ld16 m (a + 42)) (ld16 m (a + 44)) (ld16 m (a + 46))
    (ld16 m (a + 48)) (ld16 m (a + 50)).
Definition phdr_at (m : mem) (a : Z) : Elf_Phdr :=
  Phdr (ld32 m a) (ld32 m (a + 4)) (ld32 m (a + 8)) (ld32 m (a + 12)) (ld32 m (a + 16))
    (ld32 m (a + 20)) (ld32 m (a + 28)).
Definition shdr_at (m : mem) (a : Z) : Elf_Shdr :=
  Shdr (ld32 m (a + 4)) (ld32 m (a + 16)) (ld32 m (a + 20)).
Definition dyn_at (m : mem) (a : Z) : Elf_Dyn := Dyn (ld32 m a) (ld32 m (a + 4)).

Section Loader.
Variable fb : Z.

Definition EL_PHOFF (eh : Elf_Ehdr) (num : Z) : Z := u32 (e_phoff eh + num * e_phentsize eh).
Definition EL_SHOFF (eh : Elf_Ehdr) (num : Z) : Z := u32 (e_shoff eh + num * e_shentsize eh).

(** The search loops over the [n] entries from [i] on; [None] is the index -1. *)
Fixpoint findphdr (m : mem) (eh : Elf_Ehdr) (type : Z) (n : nat) (i : Z) : option (Elf_Phdr * Z) :=
  match n with
  | O => None
  | S n =>
      let ph := phdr_at m (fb + EL_PHOFF eh i) in
      if p_type ph =? type then Some (ph, i) else findphdr m eh type n (i + 1)
  end.
Definition el_findphdr (m : mem) (eh : Elf_Ehdr) (type i : Z) : option (Elf_Phdr * Z) :=
  findphdr m eh type (Z.to_nat (e_phnum eh - i)) i.

Fixpoint findshdr (m : mem) (eh : Elf_Ehdr) (type : Z) (n : nat) (i : Z) : option (Elf_Shdr * Z) :=
  match n with
  | O => None
  | S n =>
      let sh := shdr_at m (fb + EL_SHOFF eh i) in
      if sh_type sh =? type then Some (sh, i) else findshdr m eh type n (i + 1)
  end.
Definition el_findshdr (m : mem) (eh : Elf_Ehdr) (type i : Z) : option (Elf_Shdr * Z) :=
  findshdr m eh type (Z.to_nat (e_shnum eh - i)) i.

(** The loop that measures the loadable segments; one unit of fuel per segment. *)
Fixpoint extents (fuel : nat) (m : mem) (eh : Elf_Ehdr) (i memsz align : Z) : option (Z * Z) :=
  match fuel with
  | O => None
  | S fuel =>
      match el_findphdr m eh PT_LOAD i with
      | None => Some (memsz, align)
      | Some (ph, i) =>
          let phend := u32 (p_vaddr ph + p_memsz ph) in
          extents fuel m eh (i + 1) (if memsz <? phend then phend else memsz)
            (if align <? p_align ph then p_align ph else align)
      end
  end.

Definition el_validate (eh : Elf_Ehdr) : el_status :=
  let id n := nth n (e_ident eh) 0 in
  if negb ((id 0%nat =? 0x7f) && (id 1%nat =? 69) && (id 2%nat =? 76) && (id 3%nat =? 70)) then EL_NOTELF
  else if negb (id 4%nat =? ELFCLASS32) then EL_WRONGBITS
  else if negb (id 5%nat =? ELFDATA2LSB) then EL_WRONGENDIAN
  else if negb (id 6%nat =? EV_CURRENT) then EL_NOTELF
  else if negb (e_type eh =? ET_EXEC) && negb (e_type eh =? ET_DYN) then EL_NOTEXEC
  else if negb (e_machine eh =? EM_ARM) then EL_WRONGARCH
  else if negb (e_version eh =? EV_CURRENT) then EL_NOTELF
  else EL_OK.

(** [None] is lack of fuel; else a status, with the context when it is
    [EL_OK]. *)
Definition el_init (fuel : nat) (m : mem) : option (el_status * option el_ctx) :=
  let eh := ehdr_at m fb in
  match el_validate eh with
  | EL_OK =>
      match extents fuel m eh 0 0 1 with
      | None => None
      | Some (memsz, align) =>
          if e_type eh =? ET_DYN then
            match el_findphdr m eh PT_DYNAMIC 0 with
            | None => Some (EL_NODYN, None)
            | Some (ph, _) =>
                let shstr := fst <$> el_findshdr m eh SHT_STRTAB (u32 (e_shstrndx eh - 1)) in
                match el_findshdr m eh SHT_SYMTAB 0 with
                | None => Some (EL_NODYN, None)
                | Some (sh, _) =>
                    Some (EL_OK, Some (Ctx 0 0 memsz align eh shstr (Some sh) (p_offset ph) (p_filesz ph)))
                end
            end
          else Some (EL_OK, Some (Ctx 0 0 memsz align eh None None 0 0))
      end
  | st => Some (st, None)
  end.

(** [pread] of the file into memory, and the zero fill behind it; the count of
    the fill is a [size_t]. *)
Definition load_segment (m : mem) (dest : Z) (ph : Elf_Phdr) : mem :=
  let m := memcpy m dest (fb + p_offset ph) (Z.to_nat (p_filesz ph)) in
  memset m (u32 (dest + p_filesz ph)) 0 (Z.to_nat (u32 (p_memsz ph - p_filesz ph))).

(** [el_load] with the callback that returns the virtual address; a null
    address is out of memory. *)
Fixpoint load_loop (fuel : nat) (ctx : el_ctx) (i : Z) (m : mem) : option (el_status * mem) :=
  match fuel with
  | O => None
  | S fuel =>
      match el_findphdr m (ehdr ctx) PT_LOAD i with
      | None => Some (EL_OK, m)
      | Some (ph, i) =>
          let vload := u32 (p_vaddr ph + base_load_vaddr ctx) in
          if vload =? 0 then Some (EL_ENOMEM, m)
          else load_loop fuel ctx (i + 1) (load_segment m vload ph)
      end
  end.
Definition el_load (fuel : nat) (ctx : el_ctx) (m : mem) : option (el_status * mem) :=
  load_loop fuel ctx 0 m.

(** ** Relocation *)

Fixpoint finddyn (m : mem) (off tag : Z) (n : nat) : Elf_Dyn :=
  match n with
  | O => Dyn DT_NULL 0
  | S n =>
      let dyn := dyn_at m (fb + off) in
      if d_tag dyn =? tag then dyn else finddyn m (u32 (off + 8)) tag n
  end.
Definition el_finddyn (m : mem) (ctx : el_ctx) (tag : Z) : Elf_Dyn :=
  finddyn m (dynoff ctx) tag (Z.to_nat (dynsize ctx / 8)).

(** Offset, size and entry size of the table. *)
Definition el_findrelocs (m : mem) (ctx : el_ctx) (type : Z) : Z * Z * Z :=
  let rel := el_finddyn m ctx type in
  let relsz := el_finddyn m ctx (type + 1) in
  let relent := el_finddyn m ctx (type + 2) in
  if (d_tag rel =? DT_NULL) || (d_tag relsz =? DT_NULL) || (d_tag relent =? DT_NULL) then (0, 0, 0)
  else (d_val rel, d_val relsz, d_val relent).

Definition el_applyrel (ctx : el_ctx) (r_offset r_info : Z) (m : mem) : el_status * mem :=
  let sym := Z.shiftr r_info 8 in
  let type := u8 r_info in
  let p := u32 (r_offset + base_load_paddr ctx) in
  if type =? R_ARM_NONE then (EL_OK, m)
  else if (type =? R_ARM_JUMP_SLOT) || (type =? R_ARM_ABS32) || (type =? R_ARM_GLOB_DAT) then (EL_OK, m)
  else if type =? R_ARM_RELATIVE then
    if c_true sym then (EL_BADREL, m)
    else (EL_OK, st32 m p (u32 (ld32 m p + base_load_vaddr ctx)))
  else (EL_BADREL, m).

Fixpoint rel_loop (n : nat) (ctx : el_ctx) (rel : Z) (m : mem) : el_status * mem :=
  match n with
  | O => (EL_OK, m)
  | S n =>
      match el_applyrel ctx (ld32 m rel) (ld32 m (rel + 4)) m with
      | (EL_OK, m) => rel_loop n ctx (rel + 8) m
      | r => r
      end
  end.

Definition el_relocate (ctx : el_ctx) (m : mem) : el_status * mem :=
  if negb (e_type (ehdr ctx) =? ET_DYN) then (EL_OK, m)
  else
    let '(tableoff, tablesize, entrysize) := el_findrelocs m ctx DT_REL in
    if negb (entrysize =? 8) && c_true tablesize then (EL_BADREL, m)
    else rel_loop (Z.to_nat (tablesize / 8)) ctx (u32 (base_load_paddr ctx + tableoff)) m.

(** ** The driver *)

Definition DRAM_LIB_ADDR : Z := 0xE0000000.
Definition EXEC_ELF : Z := 1.
Definition AR64_ELF : Z := 3.

(** How the loader ends: the entry point it called, or 0; memory; and whether the
    file buffer was freed. *)
Record loaded := Loaded { l_entry : Z; l_mem : mem; l_freed : bool }.

(** [ianos_loader] once the file is in memory; [alloc n] is [malloc(n)]. *)
Definition ianos_loader (fuel : nat) (alloc : Z -> Z) (type : Z) (m : mem) : option loaded :=
  match el_init fuel m with
  | None => None
  | Some (EL_OK, Some ctx) =>
      let t := Z.land type 0xFFFF in
      let elfBuf := if (t =? EXEC_ELF) || (t =? AR64_ELF) then DRAM_LIB_ADDR else alloc (ctx_memsz ctx) in
      if elfBuf =? 0 then Some (Loaded 0 m false)
      else
        let ctx := Ctx elfBuf elfBuf (ctx_memsz ctx) (ctx_align ctx) (ehdr ctx) (shstr ctx) (symtab ctx)
                     (dynoff ctx) (dynsize ctx) in
        match el_load fuel ctx m with
        | None => None
        | Some (EL_OK, m) =>
            match el_relocate ctx m with
            | (EL_OK, m) => Some (Loaded (u32 (e_entry (ehdr ctx) + elfBuf)) m true)
            | (_, m) => Some (Loaded 0 m true)
            end
        | Some (_, m) => Some (Loaded 0 m true)
        end
  | Some (_, _) => Some (Loaded 0 m false)
  end.

End Loader.

(** ** Loading *)

Section Image.
Variables (fb fsz : Z) (ctx : el_ctx) (m0 : mem).
Let eh := ehdr ctx.
Let base := base_load_vaddr ctx.

(** Program header [j], as the file has it. *)
Definition seg (j : Z) : Elf_Phdr := phdr_at m0 (fb + EL_PHOFF eh j).
Definition loadable (j : Z) : Prop := 0 <= j < e_phnum eh /\ p_type (seg j) = PT_LOAD.
Definition dest (j : Z) : Z := base + p_vaddr (seg j).
Definition in_dest (j x : Z) : Prop := dest j <= x < dest j + p_memsz (seg j).

(** A file whose segments can be loaded at the base: its header table and the
    contents lie in it, no segment is longer in the file than in memory, the
    segments end below 2^32, and neither overlap each other nor the file. *)
Record loadable_file : Prop := {
  lf_table j : 0 <= j < e_phnum eh -> 0 <= EL_PHOFF eh j /\ EL_PHOFF eh j + 32 <= fsz;
  lf_file j : loadable j -> 0 <= p_offset (seg j) /\ p_offset (seg j) + p_filesz (seg j) <= fsz;
  lf_size j : loadable j -> 0 <= p_filesz (seg j) <= p_memsz (seg j);
  lf_room j : loadable j -> 0 < dest j /\ dest j + p_memsz (seg j) < 0x100000000;
  lf_apart j k : loadable j -> loadable k -> j <> k ->
    dest j + p_memsz (seg j) <= dest k \/ dest k + p_memsz (seg k) <= dest j;
  lf_away j : loadable j -> dest j + p_memsz (seg j) <= fb \/ fb + fsz <= dest j
}.
Hypothesis Hlf : loadable_file.

(** The bytes of segment [j] in memory [m]: the file's, then zeros. *)
Definition image (j : Z) (m : mem) : Prop :=
  forall k, 0 <= k < p_memsz (seg j) ->
  ld8 m (dest j + k) = if k <? p_filesz (seg j) then ld8 m0 (fb + p_offset (seg j) + k) else 0.

Lemma phdr_stable m j :
  same_on fb (fb + fsz) m0 m -> 0 <= j < e_phnum eh -> phdr_at m (fb + EL_PHOFF eh j) = seg j.
Proof.
  intros Hs Hj. destruct (lf_table Hlf j Hj) as [H1 H2]. unfold seg, phdr_at.
  f_equal; apply ld32_same; (eapply same_on_sub; [exact Hs|lia|lia]).
Qed.

Lemma load_segment_image m j :
  loadable j -> same_on fb (fb + fsz) m0 m ->
  let m' := load_segment fb m (dest j) (seg j) in
  image j m' /\ forall x, ~ in_dest j x -> ld8 m' x = ld8 m x.
Proof.
  intros Hj Hs m'. destruct (lf_file Hlf j Hj), (lf_size Hlf j Hj), (lf_room Hlf j Hj).
  pose proof (lf_away Hlf j Hj) as Haway. unfold m', load_segment, image, in_dest.
  rewrite !u32_id by lia.
  assert (Hn1 : Z.of_nat (Z.to_nat (p_filesz (seg j))) = p_filesz (seg j)) by lia.
  assert (Hn2 : Z.of_nat (Z.to_nat (p_memsz (seg j) - p_filesz (seg j))) = p_memsz (seg j) - p_filesz (seg j)) by lia.
  split.
  - intros k Hk. rewrite ld8_memset, Hn2. destruct (Z.ltb_spec k (p_filesz (seg j))).
    + rewrite (proj2 (Z.leb_gt _ (dest j + k))) by lia. cbn [andb].
      rewrite ld8_memcpy by lia. apply Hs. lia.
    + rewrite (proj2 (Z.leb_le _ (dest j + k))), (proj2 (Z.ltb_lt (dest j + k) _)) by lia. done.
  - intros x Hx. rewrite ld8_memset, Hn2.
    destruct (Z.leb_spec (dest j + p_filesz (seg j)) x),
      (Z.ltb_spec x (dest j + p_filesz (seg j) + (p_memsz (seg j) - p_filesz (seg j))));
      cbn [andb]; try lia; apply ld8_memcpy_ne; lia.
Qed.

Lemma findphdr_step m i :
  0 <= i < e_phnum eh -> same_on fb (fb + fsz) m0 m ->
  el_findphdr fb m eh PT_LOAD i =
    if p_type (seg i) =? PT_LOAD then Some (seg i, i) else el_findphdr fb m eh PT_LOAD (i + 1).
Proof.
  intros Hi Hs. unfold el_findphdr.
  replace (Z.to_nat (e_phnum eh - i)) with (S (Z.to_nat (e_phnum eh - (i + 1)))) by lia.
  cbn [findphdr]. by rewrite phdr_stable.
Qed.

Lemma load_loop_spec n : forall fuel i m,
  Z.of_nat n = e_phnum eh - i -> 0 <= i -> (n < fuel)%nat -> same_on fb (fb + fsz) m0 m ->
  exists m', load_loop fb fuel ctx i m = Some (EL_OK, m') /\
    same_on fb (fb + fsz) m0 m' /\
    (forall j, i <= j -> loadable j -> image j m') /\
    (forall x, (forall j, i <= j -> loadable j -> ~ in_dest j x) -> ld8 m' x = ld8 m x).
Proof.
  induction n as [|n IH]; intros [|fuel] i m Hn Hi Hf Hs; try lia.
  { exists m. cbn [load_loop]. unfold el_findphdr. fold eh.
    replace (Z.to_nat (e_phnum eh - i)) with 0%nat by lia. cbn [findphdr].
    split_and!; [done|done| |done]. intros j Hj [? _]. lia. }
  assert (Hsel : loadable i \/ p_type (seg i) <> PT_LOAD)
    by (destruct (Z.eq_dec (p_type (seg i)) PT_LOAD); [left; split; [lia|done]|by right]).
  destruct Hsel as [Hl|Hl].
  - cbn [load_loop]. fold eh. rewrite findphdr_step by (done || lia).
    rewrite (proj2 (Z.eqb_eq (p_type (seg i)) PT_LOAD)) by apply Hl.
    destruct (lf_room Hlf i Hl). pose proof (lf_size Hlf i Hl). unfold dest in *. fold base.
    rewrite (Z.add_comm (p_vaddr _)), u32_id by lia. rewrite (proj2 (Z.eqb_neq _ 0)) by lia.
    fold (dest i). destruct (load_segment_image m i Hl Hs) as [Him Hfr].
    set (m1 := load_segment fb m (dest i) (seg i)) in *.
    assert (Hs1 : same_on fb (fb + fsz) m0 m1).
    { intros x Hx. rewrite Hfr; [by apply Hs|]. unfold in_dest. destruct (lf_away Hlf i Hl); unfold dest in *; lia. }
    destruct (IH fuel (i + 1) m1) as (m' & E & Hs' & Hall & Hframe); [lia|lia|lia|done|].
    exists m'. split_and!; [exact E|done| |].
    + intros j Hj Hlj. destruct (Z.eq_dec j i) as [->|]; [|apply Hall; [lia|done]].
      intros k Hk. rewrite Hframe; [by apply Him|]. intros j' Hj' Hlj' Hin. unfold in_dest in Hin.
      destruct (lf_apart Hlf i j' Hl Hlj'); lia.
    + intros x Hx. rewrite Hframe by (intros j Hj; apply Hx; lia). apply Hfr, Hx; [lia|done].
  - destruct (IH (S fuel) (i + 1) m) as (m' & E & Hs' & Hall & Hframe); [lia|lia|lia|done|].
    exists m'. split_and!; [|done| |].
    + rewrite <- E. cbn [load_loop]. fold eh. rewrite (findphdr_step m i) by (done || lia).
      by rewrite (proj2 (Z.eqb_neq _ _) Hl).
    + intros j Hj Hlj. destruct (Z.eq_dec j i) as [->|]; [by destruct Hlj|apply Hall; [lia|done]].
    + intros x Hx. apply Hframe. intros j Hj. apply Hx. lia.
Qed.

End Image.

(** C32: loading a well-formed file succeeds and puts every loadable segment at its address: first
    its bytes of the file, then zeros up to its size in memory; no other byte of memory changes,
    and in particular the file itself is intact.  The fuel is one more than the number of
    program headers. *)
Theorem el_load_correct fb fsz ctx m :
  loadable_file fb fsz ctx m -> 0 <= e_phnum (ehdr ctx) ->
  exists m', el_load fb (S (Z.to_nat (e_phnum (ehdr ctx)))) ctx m = Some (EL_OK, m') /\
    (forall j, loadable fb ctx m j -> image fb ctx m j m') /\
    (forall x, (forall j, loadable fb ctx m j -> ~ in_dest fb ctx m j x) -> ld8 m' x = ld8 m x) /\
    same_on fb (fb + fsz) m m'.
Proof.
  intros Hlf Hn. unfold el_load.
  destruct (load_loop_spec fb fsz ctx m Hlf (Z.to_nat (e_phnum (ehdr ctx)))
    (S (Z.to_nat (e_phnum (ehdr ctx)))) 0 m) as (m' & E & Hs & Hall & Hfr); [lia|lia|lia|done|].
  exists m'. split_and!; [done| | |done].
  - intros j Hj. apply Hall; [|done]. by destruct Hj as [[? _] _].
  - intros x Hx. apply Hfr. intros j _. apply Hx.
Qed.

(** ** Relocating *)

Definition rel_target (ctx : el_ctx) (m : mem) (rel k : Z) : Z := u32 (ld32 m (rel + 8 * k) + base_load_paddr ctx).

(** A table of [n] relative relocations at [rel], whose targets are apart from
    each other and from the table. *)
Record relative_table (ctx : el_ctx) (m : mem) (rel n : Z) : Prop := {
  rt_type k : 0 <= k < n -> ld32 m (rel + 8 * k + 4) = R_ARM_RELATIVE;
  rt_away k : 0 <= k < n ->
    rel_target ctx m rel k + 4 <= rel \/ rel + 8 * n <= rel_target ctx m rel k;
  rt_apart j k : 0 <= j < n -> 0 <= k < n -> j <> k ->
    rel_target ctx m rel j + 4 <= rel_target ctx m rel k \/ rel_target ctx m rel k + 4 <= rel_target ctx m rel j
}.

Lemma relative_table_tail ctx m rel n v :
  0 <= n -> relative_table ctx m rel (n + 1) ->
  let m1 := st32 m (rel_target ctx m rel 0) v in
  relative_table ctx m1 (rel + 8) n /\
  forall k, 0 <= k < n -> rel_target ctx m1 (rel + 8) k = rel_target ctx m rel (k + 1).
Proof.
  intros Hn Ht m1. pose proof (rt_away _ _ _ _ Ht 0 ltac:(lia)) as H0.
  assert (Hld : forall a, rel + 8 <= a -> a + 4 <= rel + 8 * (n + 1) -> ld32 m1 a = ld32 m a)
    by (intros a Ha1 Ha2; apply ld32_st32_ne; lia).
  assert (Htg : forall k, 0 <= k < n -> rel_target ctx m1 (rel + 8) k = rel_target ctx m rel (k + 1)).
  { intros k Hk. unfold rel_target. rewrite Hld by lia. do 3 f_equal. lia. }
  split; [|done]. split.
  - intros k Hk. rewrite Hld by lia. rewrite <- (rt_type _ _ _ _ Ht (k + 1)) by lia. f_equal. lia.
  - intros k Hk. rewrite Htg by done. pose proof (rt_away _ _ _ _ Ht (k + 1) ltac:(lia)). lia.
  - intros j k Hj Hk Hne. rewrite !Htg by done. apply (rt_apart _ _ _ _ Ht); lia.
Qed.

Lemma rel_loop_spec n : forall ctx rel m,
  relative_table ctx m rel (Z.of_nat n) ->
  exists m', rel_loop n ctx rel m = (EL_OK, m') /\
    (forall k, 0 <= k < Z.of_nat n -> ld32 m' (rel_target ctx m rel k) =
       u32 (ld32 m (rel_target ctx m rel k) + base_load_vaddr ctx)) /\
    (forall x, (forall k, 0 <= k < Z.of_nat n ->
       ~ (rel_target ctx m rel k <= x < rel_target ctx m rel k + 4)) -> ld8 m' x = ld8 m x).
Proof.
  induction n as [|n IH]; intros ctx rel m Ht.
  { exists m. split_and!; [done|lia|done]. }
  rewrite Nat2Z.inj_succ, <- Z.add_1_r in Ht |- *. cbn [rel_loop].
  set (p := rel_target ctx m rel 0). set (v := u32 (ld32 m p + base_load_vaddr ctx)).
  assert (E : el_applyrel ctx (ld32 m rel) (ld32 m (rel + 4)) m = (EL_OK, st32 m p v)).
  { pose proof (rt_type _ _ _ _ Ht 0 ltac:(lia)) as Hty. rewrite Z.mul_0_r, Z.add_0_r in Hty.
    unfold el_applyrel. rewrite Hty. unfold v, p, rel_target. rewrite Z.mul_0_r, Z.add_0_r. reflexivity. }
  rewrite E. destruct (relative_table_tail ctx m rel (Z.of_nat n) v ltac:(lia) Ht) as [Ht1 Htg].
  fold p in Ht1, Htg. destruct (IH ctx (rel + 8) (st32 m p v) Ht1) as (m' & E' & Hval & Hfr).
  assert (Hp0 : forall k, 0 <= k < Z.of_nat n -> p + 4 <= rel_target ctx m rel (k + 1) \/ rel_target ctx m rel (k + 1) + 4 <= p)
    by (intros k Hk; apply (rt_apart _ _ _ _ Ht); lia).
  exists m'. split_and!; [exact E'| |].
  - intros k Hk. destruct (Z.eq_dec k 0) as [->|Hk0].
    + fold p. rewrite (ld32_same (st32 m p v) m' p); [apply ld32_st32_eq, u32_range|].
      intros x Hx. apply Hfr. intros k Hk'. rewrite Htg by done. specialize (Hp0 k Hk'). lia.
    + specialize (Hval (k - 1) ltac:(lia)). rewrite Htg in Hval by lia. rewrite Z.sub_add in Hval.
      rewrite Hval, ld32_st32_ne; [done|]. specialize (Hp0 (k - 1) ltac:(lia)). rewrite Z.sub_add in Hp0. lia.
  - intros x Hx. rewrite Hfr.
    + apply ld8_st32_ne. apply (Hx 0). lia.
    + intros k Hk. rewrite Htg by done. apply Hx. lia.
Qed.

(** Relocating a library whose table holds relative relocations with separate targets
    succeeds, adds the load address to every target word exactly once, and changes no other
    byte. *)
Theorem el_relocate_correct fb ctx m tableoff n :
  e_type (ehdr ctx) = ET_DYN -> el_findrelocs fb m ctx DT_REL = (tableoff, 8 * n, 8) -> 0 <= n ->
  let rel := u32 (base_load_paddr ctx + tableoff) in
  relative_table ctx m rel n ->
  exists m', el_relocate fb ctx m = (EL_OK, m') /\
    (forall k, 0 <= k < n -> ld32 m' (rel_target ctx m rel k) =
       u32 (ld32 m (rel_target ctx m rel k) + base_load_vaddr ctx)) /\
    (forall x, (forall k, 0 <= k < n ->
       ~ (rel_target ctx m rel k <= x < rel_target ctx m rel k + 4)) -> ld8 m' x = ld8 m x).
Proof.
  intros Hty Hr Hn rel Ht. unfold el_relocate. rewrite Hty, Hr. cbn [negb andb Z.eqb].
  change (ET_DYN =? ET_DYN) with true. change (8 =? 8) with true. cbn [negb andb].
  replace (8 * n / 8) with n by (rewrite Z.mul_comm, Z.div_mul; lia).
  rewrite <- (Z2Nat.id n) in Ht by done.
  destruct (rel_loop_spec (Z.to_nat n) ctx rel m Ht) as (m' & E & Hv & Hf). rewrite Z2Nat.id in * by done.
  by exists m'.
Qed.

(** A segment that is longer in the file than in memory makes the zero fill run
    over almost the whole address space. *)
Lemma load_segment_underflow ph :
  0 <= p_memsz ph < p_filesz ph -> p_filesz ph < 0x100000000 ->
  u32 (p_memsz ph - p_filesz ph) = 0x100000000 + p_memsz ph - p_filesz ph.
Proof.
  intros H1 H2. unfold u32. rewrite <- (Z.mod_add _ 1) by lia. rewrite Z.mod_small; lia.
Qed.

(** ** Witnesses *)

(** A file at 0x1000: one program header and four bytes for a segment of eight
    bytes at 0x100, loaded at base 0x2000. *)
Definition ex_file : list Z :=
  [1;0;0;0; 32;0;0;0; 0;1;0;0; 0;1;0;0; 4;0;0;0; 8;0;0;0; 7;0;0;0; 4;0;0;0; 11;22;33;44].
Definition ex_mem : mem := st_bytes ∅ 0x1000 ex_file.
Definition ex_ctx : el_ctx :=
  Ctx 0x2000 0x2000 0x108 4 (Ehdr [] ET_EXEC EM_ARM 1 0x100 0 0 32 1 0 0 0) None None 0 0.

Lemma ex_loadable_only j : loadable 0x1000 ex_ctx ex_mem j -> j = 0.
Proof. intros [Hj _]. change (e_phnum (ehdr ex_ctx)) with 1 in Hj. lia. Qed.

Lemma ex_seg : seg 0x1000 ex_ctx ex_mem 0 = Phdr 1 32 0x100 0x100 4 8 4.
Proof. vm_compute. reflexivity. Qed.

Lemma el_load_correct_witness :
  exists m', el_load 0x1000 2 ex_ctx ex_mem = Some (EL_OK, m') /\
    ld8 m' 0x2102 = 33 /\ ld8 m' 0x2105 = 0.
Proof.
  destruct (el_load_correct 0x1000 36 ex_ctx ex_mem) as (m' & E & Him & _).
  - split.
    + intros j Hj. change (e_phnum (ehdr ex_ctx)) with 1 in Hj. assert (j = 0) as -> by lia. split; vm_compute; discriminate.
    + intros j Hj. rewrite (ex_loadable_only j Hj), ex_seg. cbn. lia.
    + intros j Hj. rewrite (ex_loadable_only j Hj), ex_seg. cbn. lia.
    + intros j Hj. unfold dest. rewrite (ex_loadable_only j Hj), ex_seg. cbn. lia.
    + intros j k Hj Hk Hne. by rewrite (ex_loadable_only j Hj), (ex_loadable_only k Hk) in Hne.
    + intros j Hj. unfold dest. rewrite (ex_loadable_only j Hj), ex_seg. cbn. lia.
  - vm_compute. discriminate.
  - exists m'. split; [exact E|].
    assert (Hl : loadable 0x1000 ex_ctx ex_mem 0) by (split; [vm_compute; split; congruence|vm_compute; reflexivity]).
    specialize (Him 0 Hl). unfold image, dest in Him. rewrite ex_seg in Him. cbn [p_vaddr p_memsz p_filesz p_offset] in Him.
    change (base_load_vaddr ex_ctx + 0x100) with 0x2100 in Him.
    pose proof (Him 2 ltac:(lia)) as H2. pose proof (Him 5 ltac:(lia)) as H5. cbn [Z.add Pos.add Z.ltb] in H2, H5.
    split; [etrans; [exact H2|vm_compute; reflexivity]|exact H5].
Defined.

(** A library with one relocation: the dynamic table at 0x1000, the relocation
    entry at 0x2000, its target at 0x2010. *)
Definition ex_dyn : mem :=
  st32 (st_bytes (st_bytes ∅ 0x1000 [17;0;0;0; 0;0;0;0; 18;0;0;0; 8;0;0;0; 19;0;0;0; 8;0;0;0])
    0x2000 [16;0;0;0; 23;0;0;0]) 0x2010 0x40.
Definition ex_lib : el_ctx :=
  Ctx 0x2000 0x2000 0x20 4 (Ehdr [] ET_DYN EM_ARM 1 0 0 0 32 0 0 0 0) None None 0 24.

Lemma el_relocate_correct_witness :
  exists m', el_relocate 0x1000 ex_lib ex_dyn = (EL_OK, m') /\ ld32 m' 0x2010 = 0x2040.
Proof.
  destruct (el_relocate_correct 0x1000 ex_lib ex_dyn 0 1) as (m' & E & Hv & _).
  - reflexivity.
  - vm_compute. reflexivity.
  - lia.
  - split.
    + intros k Hk. assert (k = 0) as -> by lia. vm_compute. reflexivity.
    + intros k Hk. assert (k = 0) as -> by lia. right. vm_compute. discriminate.
    + intros j k Hj Hk Hne. lia.
  - exists m'. split; [exact E|]. specialize (Hv 0 ltac:(lia)). vm_compute in Hv. exact Hv.
Defined.
