(* ===== verification/Gfx.v ===== *)
(** * Gfx

    bootloader/gfx/gfx.c: the frame buffer, the text console on it, the
    formatted output of the boot messages, lines and images.

    The frame buffer is a store of 32-bit pixels indexed from [gfx_ctxt.fb].
    Pointers are 32 bits wide and a pixel is four bytes, so pixel indices that
    differ by 2^30 name the same pixel ([px]).  The store is not bounded by
    the frame buffer: the theorems say which pixels are written. *)

From stdpp Require Import strings.
From S2P Require Import Prelude.
#[local] Open Scope Z_scope.

(** ** Data *)

Record gfx_ctxt_t := mk_gfx_ctxt {
  fb : gmap Z Z;
  width : Z;
  height : Z;
  stride : Z
}.

Record gfx_con_t := mk_gfx_con {
  fntsz : Z;
  con_x : Z;
  con_y : Z;
  savedx : Z;
  savedy : Z;
  fgcol : Z;
  fillbg : Z;
  bgcol : Z;
  mute : bool
}.

(** The globals of the file. *)
Record gfx := mk_gfx {
  gfx_ctxt : gfx_ctxt_t;
  gfx_con : gfx_con_t;
  gfx_con_init_done : bool
}.

Definition set_fb (m : gmap Z Z) (g : gfx) : gfx :=
  mk_gfx (mk_gfx_ctxt m (width (gfx_ctxt g)) (height (gfx_ctxt g)) (stride (gfx_ctxt g)))
    (gfx_con g) (gfx_con_init_done g).
Definition set_con (c : gfx_con_t) (g : gfx) : gfx :=
  mk_gfx (gfx_ctxt g) c (gfx_con_init_done g).
Definition with_pos (x y : Z) (c : gfx_con_t) : gfx_con_t :=
  mk_gfx_con (fntsz c) x y (savedx c) (savedy c) (fgcol c) (fillbg c) (bgcol c) (mute c).
Definition with_col (fg fill bg : Z) (c : gfx_con_t) : gfx_con_t :=
  mk_gfx_con (fntsz c) (con_x c) (con_y c) (savedx c) (savedy c) fg fill bg (mute c).
Definition with_fntsz (s : Z) (c : gfx_con_t) : gfx_con_t :=
  mk_gfx_con s (con_x c) (con_y c) (savedx c) (savedy c) (fgcol c) (fillbg c) (bgcol c) (mute c).

Definition px (i : Z) : Z := i mod 1073741824.

(** The rows of the 8x8 glyphs of the characters 32 to 126. *)
Definition _gfx_font : list (list Z) := [
  [0; 0; 0; 0; 0; 0; 0; 0];
  [0; 48; 48; 24; 24; 0; 12; 0];
  [0; 34; 34; 34; 0; 0; 0; 0];
  [0; 102; 102; 255; 102; 255; 102; 102];
  [0; 24; 124; 6; 60; 96; 62; 24];
  [0; 70; 102; 48; 24; 12; 102; 98];
  [0; 60; 102; 60; 28; 230; 102; 252];
  [0; 24; 12; 6; 0; 0; 0; 0];
  [0; 48; 24; 12; 12; 24; 48; 0];
  [0; 12; 24; 48; 48; 24; 12; 0];
  [0; 102; 60; 255; 60; 102; 0; 0];
  [0; 24; 24; 126; 24; 24; 0; 0];
  [0; 0; 0; 0; 24; 24; 12; 0];
  [0; 0; 0; 62; 0; 0; 0; 0];
  [0; 0; 0; 0; 0; 24; 24; 0];
  [0; 64; 96; 48; 24; 12; 6; 0];
  [0; 60; 102; 118; 110; 102; 60; 0];
  [0; 24; 28; 24; 24; 24; 126; 0];
  [0; 60; 98; 48; 12; 6; 126; 0];
  [0; 60; 98; 56; 96; 102; 60; 0];
  [0; 108; 108; 102; 254; 96; 96; 0];
  [0; 126; 6; 126; 96; 102; 60; 0];
  [0; 60; 6; 62; 102; 102; 60; 0];
  [0; 126; 48; 48; 24; 24; 24; 0];
  [0; 60; 102; 60; 102; 102; 60; 0];
  [0; 60; 102; 124; 96; 102; 60; 0];
  [0; 0; 24; 0; 0; 0; 24; 0];
  [0; 0; 24; 0; 24; 24; 12; 0];
  [0; 112; 28; 6; 6; 28; 112; 0];
  [0; 0; 62; 0; 62; 0; 0; 0];
  [0; 14; 56; 96; 96; 56; 14; 0];
  [0; 60; 102; 48; 24; 0; 24; 0];
  [0; 60; 102; 118; 118; 6; 70; 60];
  [0; 60; 102; 126; 102; 102; 102; 0];
  [0; 62; 102; 62; 102; 102; 62; 0];
  [0; 60; 102; 6; 6; 102; 60; 0];
  [0; 30; 54; 102; 102; 54; 30; 0];
  [0; 126; 6; 30; 6; 6; 126; 0];
  [0; 62; 6; 30; 6; 6; 6; 0];
  [0; 60; 102; 6; 118; 102; 60; 0];
  [0; 102; 102; 126; 102; 102; 102; 0];
  [0; 60; 24; 24; 24; 24; 60; 0];
  [0; 120; 48; 48; 48; 54; 28; 0];
  [0; 102; 54; 30; 30; 54; 102; 0];
  [0; 6; 6; 6; 6; 6; 126; 0];
  [0; 70; 110; 126; 86; 70; 70; 0];
  [0; 102; 110; 126; 118; 102; 102; 0];
  [0; 60; 102; 102; 102; 102; 60; 0];
  [0; 62; 102; 62; 6; 6; 6; 0];
  [0; 60; 102; 102; 102; 60; 112; 0];
  [0; 62; 102; 62; 30; 54; 102; 0];
  [0; 60; 102; 12; 48; 102; 60; 0];
  [0; 126; 24; 24; 24; 24; 24; 0];
  [0; 102; 102; 102; 102; 102; 60; 0];
  [0; 102; 102; 102; 102; 60; 24; 0];
  [0; 70; 70; 86; 126; 110; 70; 0];
  [0; 102; 60; 24; 60; 102; 102; 0];
  [0; 102; 102; 60; 24; 24; 24; 0];
  [0; 126; 48; 24; 12; 6; 126; 0];
  [0; 60; 12; 12; 12; 12; 12; 60];
  [0; 6; 12; 24; 48; 96; 64; 0];
  [0; 60; 48; 48; 48; 48; 48; 60];
  [0; 24; 60; 102; 0; 0; 0; 0];
  [0; 0; 0; 0; 0; 0; 0; 255];
  [0; 12; 24; 48; 0; 0; 0; 0];
  [0; 0; 60; 96; 124; 102; 124; 0];
  [0; 6; 6; 62; 102; 102; 62; 0];
  [0; 0; 60; 6; 6; 6; 60; 0];
  [0; 96; 96; 124; 102; 102; 124; 0];
  [0; 0; 60; 102; 126; 6; 60; 0];
  [0; 56; 12; 62; 12; 12; 12; 0];
  [0; 0; 124; 102; 124; 64; 60; 0];
  [0; 6; 6; 62; 102; 102; 102; 0];
  [0; 24; 0; 28; 24; 24; 60; 0];
  [0; 48; 0; 48; 48; 48; 30; 0];
  [0; 6; 6; 54; 30; 54; 102; 0];
  [0; 28; 24; 24; 24; 24; 60; 0];
  [0; 0; 102; 254; 254; 214; 198; 0];
  [0; 0; 62; 102; 102; 102; 102; 0];
  [0; 0; 60; 102; 102; 102; 60; 0];
  [0; 0; 62; 102; 102; 62; 6; 0];
  [0; 0; 124; 102; 102; 124; 96; 0];
  [0; 0; 62; 102; 6; 6; 6; 0];
  [0; 0; 124; 6; 60; 96; 62; 0];
  [0; 24; 126; 24; 24; 24; 112; 0];
  [0; 0; 102; 102; 102; 102; 124; 0];
  [0; 0; 102; 102; 102; 60; 24; 0];
  [0; 0; 198; 214; 254; 124; 108; 0];
  [0; 0; 102; 60; 24; 60; 102; 0];
  [0; 0; 102; 102; 124; 96; 60; 0];
  [0; 0; 126; 48; 24; 12; 126; 0];
  [0; 24; 8; 8; 4; 8; 8; 24];
  [0; 8; 8; 8; 8; 8; 8; 8];
  [0; 12; 8; 8; 16; 8; 8; 12];
  [0; 0; 0; 76; 50; 0; 0; 0] ].

(** ** Clearing *)

(** The pixel that [memset] of a byte makes. *)
Definition grey (color : Z) : Z := color * 16843009.

Fixpoint fill_from (n : nat) (i v : Z) (m : gmap Z Z) : gmap Z Z :=
  match n with
  | O => m
  | S n => fill_from n (i + 1) v (<[px i := v]> m)
  end.

(** [memset] over [bytes] bytes, a multiple of four, from the pixel [i]. *)
Definition gfx_memset (i color bytes : Z) (g : gfx) : gfx :=
  set_fb (fill_from (Z.to_nat (bytes / 4)) i (grey (u8 color)) (fb (gfx_ctxt g))) g.

Definition gfx_clear_grey (color : Z) (g : gfx) : gfx :=
  gfx_memset 0 color (u32 (width (gfx_ctxt g) * height (gfx_ctxt g) * 4)) g.

Definition gfx_clear_partial_grey (color pos_x h : Z) (g : gfx) : gfx :=
  gfx_memset (u32 (pos_x * stride (gfx_ctxt g))) color (u32 (h * 4 * stride (gfx_ctxt g))) g.

Definition gfx_clear_color (color : Z) (g : gfx) : gfx :=
  set_fb (fill_from (Z.to_nat (u32 (width (gfx_ctxt g) * height (gfx_ctxt g)))) 0 color
            (fb (gfx_ctxt g))) g.

Definition gfx_init_ctxt (m : gmap Z Z) (w h s : Z) (g : gfx) : gfx :=
  mk_gfx (mk_gfx_ctxt m w h s) (gfx_con g) (gfx_con_init_done g).

Definition gfx_con_init (g : gfx) : gfx :=
  mk_gfx (gfx_ctxt g) (mk_gfx_con 16 0 0 0 0 0xFFCCCCCC 1 0xFF1B1B1B false) true.

Definition gfx_con_setcol (fg fill bg : Z) (g : gfx) : gfx :=
  set_con (with_col fg fill bg (gfx_con g)) g.

Definition gfx_con_getpos (g : gfx) : Z * Z := (con_x (gfx_con g), con_y (gfx_con g)).

Definition gfx_con_setpos (x y : Z) (g : gfx) : gfx :=
  set_con (with_pos x y (gfx_con g)) g.

(** ** Characters *)

(** One glyph pixel: the colour it leaves in the frame buffer. *)
Definition paint (c : gfx_con_t) (bit : bool) (i : Z) (m : gmap Z Z) : gmap Z Z :=
  if bit then <[px i := fgcol c]> m
  else if c_true (fillbg c) then <[px i := bgcol c]> m
  else m.

(** The loop over the columns of one frame buffer row: [w] pixels per bit. *)
Definition putc_bit16 (c : gfx_con_t) (s : gmap Z Z * Z * Z) : gmap Z Z * Z * Z :=
  let '(m, p, v) := s in
  let bit := c_true (Z.land v 1) in
  (paint c bit (p + 1) (paint c bit p m), p + 2, Z.shiftr v 1).

Definition putc_bit8 (c : gfx_con_t) (s : gmap Z Z * Z * Z) : gmap Z Z * Z * Z :=
  let '(m, p, v) := s in
  (paint c (c_true (Z.land v 1)) p m, p + 1, Z.shiftr v 1).

Definition putc_line16 (c : gfx_con_t) (st v : Z) (s : gmap Z Z * Z) : gmap Z Z * Z :=
  let '(m, p, _) := Nat.iter 8 (putc_bit16 c) (s.1, s.2, v) in (m, p + u32 (st - 16)).

Definition putc_line8 (c : gfx_con_t) (st v : Z) (s : gmap Z Z * Z) : gmap Z Z * Z :=
  let '(m, p, _) := Nat.iter 8 (putc_bit8 c) (s.1, s.2, v) in (m, p + u32 (st - 8)).

(** The loop over the glyph rows. *)
Fixpoint putc_rows (line : Z -> gmap Z Z * Z -> gmap Z Z * Z) (rows : list Z)
    (s : gmap Z Z * Z) : gmap Z Z * Z :=
  match rows with
  | [] => s
  | v :: rows => putc_rows line rows (line v s)
  end.

Definition glyph (c : Z) : list Z := default [] (_gfx_font !! Z.to_nat (c - 32)).

Definition gfx_putc (c : Z) (g : gfx) : gfx :=
  let con := gfx_con g in
  let st := stride (gfx_ctxt g) in
  let p := con_x con + u32 (con_y con * st) in
  if fntsz con =? 16 then
    if (32 <=? c) && (c <=? 126) then
      let '(m, _) :=
        putc_rows (fun v s => putc_line16 con st v (putc_line16 con st v s)) (glyph c)
          (fb (gfx_ctxt g), p) in
      set_con (with_pos (u32 (con_x con + 16)) (con_y con) con) (set_fb m g)
    else if c =? 10 then
      let y := u32 (con_y con + 16) in
      let y := if u32 (height (gfx_ctxt g) - 16) <? y then 0 else y in
      set_con (with_pos 0 y con) g
    else g
  else
    if (32 <=? c) && (c <=? 126) then
      let '(m, _) := putc_rows (putc_line8 con st) (glyph c) (fb (gfx_ctxt g), p) in
      set_con (with_pos (u32 (con_x con + 8)) (con_y con) con) (set_fb m g)
    else if c =? 10 then
      let y := u32 (con_y con + 8) in
      let y := if u32 (height (gfx_ctxt g) - 8) <? y then 0 else y in
      set_con (with_pos 0 y con) g
    else g.

(** A string argument: the characters before the NUL, which is the end of the
    list and not one of its elements; [None] for a null pointer. *)
Definition putc_all (s : list Z) (g : gfx) : gfx := fold_left (fun g c => gfx_putc c g) s g.

Definition gfx_puts (s : option (list Z)) (g : gfx) : gfx :=
  match s with
  | None => g
  | Some s =>
      if negb (gfx_con_init_done g) || mute (gfx_con g) then g else putc_all s g
  end.

Definition gfx_put_sep (sz : Z) (g : gfx) : gfx :=
  let prevFontSize := u8 (fntsz (gfx_con g)) in
  let g := set_con (with_fntsz sz (gfx_con g)) g in
  let g := gfx_putc 10 g in
  set_con (with_fntsz prevFontSize (gfx_con g)) g.
Definition gfx_put_small_sep : gfx -> gfx := gfx_put_sep 8.
Definition gfx_put_big_sep : gfx -> gfx := gfx_put_sep 16.

(** ** Numbers *)

Definition chars (s : string) : list Z :=
  map (fun a => Z.of_N (Ascii.N_of_ascii a)) (String.list_ascii_of_string s).

Definition digits : list Z := chars "0123456789ABCDEFghijklmnopqrstuvwxyz".

(** The characters of [buf] from [p] on; [buf] holds 64 of them before the
    NUL, and storing one more is an access below the array. *)
Definition push (ch : Z) (p : list Z) : option (list Z) :=
  if (length p <? 64)%nat then Some (ch :: p) else None.

(** The do-while loop over the digits: the characters and the counter. *)
Fixpoint putn_digits (fuel : nat) (v base c : Z) (p : list Z) : outcome (list Z * Z) :=
  match fuel with
  | O => NoFuel
  | S fuel =>
      let c := c - 1 in
      match digits !! Z.to_nat (v mod u32 base) with
      | None => Overrun
      | Some ch =>
          match push ch p with
          | None => Overrun
          | Some p =>
              let v := v / u32 base in
              if v =? 0 then Ret (p, c) else putn_digits fuel v base c p
          end
      end
  end.

(** [while (c > 0)]: it runs [n] = [c] times. *)
Fixpoint putn_fill (n : nat) (fill : Z) (p : list Z) : option (list Z) :=
  match n with
  | O => Some p
  | S n => match push fill p with None => None | Some p => putn_fill n fill p end
  end.

(** The characters from [p] on when both loops are done. *)
Definition putn_text (v base fill fcnt : Z) : outcome (list Z) :=
  match putn_digits 65 v base fcnt [] with
  | Ret (p, c) =>
      match (if c_true (u8 fill) then putn_fill (Z.to_nat c) (u8 fill) p else Some p) with
      | Some p => Ret p
      | None => Overrun
      end
  | Overrun => Overrun
  | NoFuel => NoFuel
  end.

Definition _gfx_putn (v base fill fcnt : Z) : M gfx unit := fun g =>
  if 36 <? base then (Ret tt, g)
  else
    match putn_text v base fill fcnt with
    | Ret p => (Ret tt, gfx_puts (Some p) g)
    | Overrun => (Overrun, g)
    | NoFuel => (NoFuel, g)
    end.

(** ** Formatted output *)

(** The variable arguments, in order. *)
Inductive va := VaU32 (v : Z) | VaStr (s : option (list Z)).

Definition cur (fmt : list Z) : Z := match fmt with [] => 0 | c :: _ => c end.
Definition isdigit (c : Z) : bool := (48 <=? c) && (c <=? 57).

(** The optional fill character and width after a percent sign. *)
Definition printf_width (fmt : list Z) : Z * Z * list Z :=
  if isdigit (cur fmt) || (cur fmt =? 32) then
    let fcnt := cur fmt in
    let fmt := tl fmt in
    if isdigit (cur fmt) then (fcnt, cur fmt - 48, tl fmt) else (32, fcnt - 48, fmt)
  else (0, 0, fmt).

Definition is_hex (c : Z) : bool :=
  (c =? 112) || (c =? 80) || (c =? 120) || (c =? 88).

(** The switch on the conversion character. *)
Definition printf_conv (c fill fcnt : Z) (ap : list va) : M gfx (list va) :=
  if c =? 99 then
    match ap with VaU32 v :: ap => modify (gfx_putc (u8 v));; mret ap | _ => overrun end
  else if c =? 115 then
    match ap with VaStr s :: ap => modify (gfx_puts s);; mret ap | _ => overrun end
  else if c =? 100 then
    match ap with VaU32 v :: ap => _gfx_putn v 10 fill fcnt;; mret ap | _ => overrun end
  else if is_hex c then
    match ap with VaU32 v :: ap => _gfx_putn v 16 fill fcnt;; mret ap | _ => overrun end
  else if c =? 107 then
    match ap with
    | VaU32 v :: ap =>
        modify (fun g => gfx_con_setcol v (fillbg (gfx_con g)) (bgcol (gfx_con g)) g);; mret ap
    | _ => overrun
    end
  else if c =? 75 then
    match ap with
    | VaU32 v :: ap => modify (fun g => gfx_con_setcol (fgcol (gfx_con g)) 1 v g);; mret ap
    | _ => overrun
    end
  else if c =? 37 then modify (gfx_putc 37);; mret ap
  else modify (gfx_putc 37);; modify (gfx_putc c);; mret ap.

(** The format is the list of the characters before its NUL. *)
Fixpoint printf_loop (fuel : nat) (fmt : list Z) (ap : list va) : M gfx unit :=
  match fuel with
  | O => nofuel
  | S fuel =>
      match fmt with
      | [] => mret tt
      | c :: fmt =>
          if c =? 37 then
            let '(fill, fcnt, fmt) := printf_width fmt in
            match fmt with
            | [] => mret tt
            | c :: fmt => ap ← printf_conv c fill fcnt ap; printf_loop fuel fmt ap
            end
          else modify (gfx_putc c);; printf_loop fuel fmt ap
      end
  end.

Definition gfx_printf (fmt : list Z) (ap : list va) : M gfx unit := fun g =>
  if negb (gfx_con_init_done g) || mute (gfx_con g) then (Ret tt, g)
  else printf_loop (S (length fmt)) fmt ap g.

(** ** Hex dump *)

(** [n] characters of the text column, from [buf[i]]. *)
Fixpoint dump_text (n : nat) (buf : list Z) (i : Z) : M gfx unit :=
  match n with
  | O => mret tt
  | S n =>
      match buf !! Z.to_nat i with
      | None => overrun
      | Some c =>
          modify (gfx_putc (if (32 <=? c) && (c <=? 126) then c else 46));;
          dump_text n buf (i + 1)
      end
  end.

Fixpoint repeat_m (n : nat) (m : M gfx unit) : M gfx unit :=
  match n with O => mret tt | S n => m;; repeat_m n m end.

Definition hexdump_body (base : Z) (buf : list Z) (len i : Z) : M gfx unit :=
  (if i mod 16 =? 0 then
     (if negb (i =? 0) then
        modify (gfx_puts (Some (chars "| ")));; dump_text 16 buf (i - 16);;
        modify (gfx_putc 10)
      else mret tt);;
     gfx_printf (chars "%08x: ") [VaU32 (u32 (base + i))]
   else mret tt);;
  match buf !! Z.to_nat i with
  | None => overrun
  | Some b =>
      gfx_printf (chars "%02x ") [VaU32 b];;
      if i =? len - 1 then
        let ln := negb (len mod 16 =? 0) in
        let k := if ln then Z.land len 15 - 1 else 15 in
        (if ln then repeat_m (Z.to_nat (16 - k)) (modify (gfx_puts (Some (chars "   "))))
         else mret tt);;
        modify (gfx_puts (Some (chars "| ")));;
        dump_text (Z.to_nat (if ln then k else k + 1)) buf (i - k);;
        modify (gfx_putc 10)
      else mret tt
  end.

(** [for (i = 0; i < len; i++)]: [n] rounds are left. *)
Fixpoint hexdump_loop (n : nat) (base : Z) (buf : list Z) (len i : Z) : M gfx unit :=
  match n with
  | O => mret tt
  | S n => hexdump_body base buf len i;; hexdump_loop n base buf len (i + 1)
  end.

Definition gfx_hexdump (base : Z) (buf : list Z) (len : Z) : M gfx unit := fun g =>
  if negb (gfx_con_init_done g) || mute (gfx_con g) then (Ret tt, g)
  else
    let prevFontSize := u8 (fntsz (gfx_con g)) in
    (modify (fun g => set_con (with_fntsz 8 (gfx_con g)) g);;
     hexdump_loop (Z.to_nat len) base buf len 0;;
     modify (gfx_putc 10);;
     modify (fun g => set_con (with_fntsz prevFontSize (gfx_con g)) g)) g.

(** ** Lines and images *)

Definition abs (x : Z) : Z := if x <? 0 then - x else x.

Definition gfx_set_pixel (x y color : Z) (g : gfx) : gfx :=
  set_fb (<[px (u32 (x + y * stride (gfx_ctxt g))) := color]> (fb (gfx_ctxt g))) g.

(** The loop of [gfx_line].  The coordinates and the error term are C ints;
    with coordinates below 2^29 in size no sum of the loop leaves the range of
    int, so they are plain integers here. *)
Fixpoint line_loop (fuel : nat) (dx dy sx sy x1 y1 color err x0 y0 : Z) : M gfx unit :=
  match fuel with
  | O => nofuel
  | S fuel =>
      modify (gfx_set_pixel x0 y0 color);;
      if (x0 =? x1) && (y0 =? y1) then mret tt
      else
        let e2 := err in
        let '(err, x0) := if - dx <? e2 then (err - dy, x0 + sx) else (err, x0) in
        let '(err, y0) := if e2 <? dy then (err + dx, y0 + sy) else (err, y0) in
        line_loop fuel dx dy sx sy x1 y1 color err x0 y0
  end.

Definition gfx_line (fuel : nat) (x0 y0 x1 y1 color : Z) : M gfx unit :=
  let dx := abs (x1 - x0) in
  let sx := if x0 <? x1 then 1 else -1 in
  let dy := abs (y1 - y0) in
  let sy := if y0 <? y1 then 1 else -1 in
  let err := Z.quot (if dy <? dx then dx else - dy) 2 in
  line_loop fuel dx dy sx sy x1 y1 color err x0 y0.

(** [for (x = pos_x; x < pos_x + size_x; x++)]: [n] columns are left; [src]
    gives the pixel for the column [x]. *)
Fixpoint rect_row (n : nat) (src : Z -> option Z) (x y : Z) : M gfx unit :=
  match n with
  | O => mret tt
  | S n =>
      match src x with
      | None => overrun
      | Some v => modify (gfx_set_pixel x y v);; rect_row n src (x + 1) y
      end
  end.

Fixpoint rect_rows (n nx : nat) (src : Z -> Z -> option Z) (pos_x y : Z) : M gfx unit :=
  match n with
  | O => mret tt
  | S n => rect_row nx (src y) pos_x y;; rect_rows n nx src pos_x (y + 1)
  end.

(** The number of rounds of [for (y = pos; y < (u32)(pos + size); y++)]. *)
Definition span (pos size : Z) : nat := Z.to_nat (u32 (pos + size) - pos).

Definition set_rect (src : Z -> Z -> option Z) (size_x size_y pos_x pos_y : Z) : M gfx unit :=
  rect_rows (span pos_y size_y) (span pos_x size_x) src pos_x pos_y.

(** [pos] counts the pixels written so far: a row writes [span pos_x size_x]. *)
Definition rect_pos (size_x pos_x pos_y x y : Z) : Z :=
  (y - pos_y) * Z.of_nat (span pos_x size_x) + (x - pos_x).

Definition gfx_set_rect_grey (buf : list Z) (size_x size_y pos_x pos_y : Z) : M gfx unit :=
  set_rect (fun y x =>
    b ← buf !! Z.to_nat (rect_pos size_x pos_x pos_y x y); mret (grey b))
    size_x size_y pos_x pos_y.

Definition gfx_set_rect_rgb (buf : list Z) (size_x size_y pos_x pos_y : Z) : M gfx unit :=
  set_rect (fun y x =>
    let pos := 3 * rect_pos size_x pos_x pos_y x y in
    b2 ← buf !! Z.to_nat (pos + 2);
    b1 ← buf !! Z.to_nat (pos + 1);
    b0 ← buf !! Z.to_nat pos;
    mret (Z.lor (Z.lor b2 (Z.shiftl b1 8)) (Z.shiftl b0 16)))
    size_x size_y pos_x pos_y.

Definition gfx_set_rect_argb (buf : list Z) (size_x size_y pos_x pos_y : Z) : M gfx unit :=
  set_rect (fun y x => buf !! Z.to_nat (rect_pos size_x pos_x pos_y x y))
    size_x size_y pos_x pos_y.

Definition gfx_render_bmp_argb (buf : list Z) (size_x size_y pos_x pos_y : Z) : M gfx unit :=
  set_rect (fun y x =>
    buf !! Z.to_nat (u32 (u32 (u32 (size_y + pos_y - 1 - y) * size_x) + x - pos_x)))
    size_x size_y pos_x pos_y.

(** ** Lines *)

Definition draw (color : Z) (path : list (Z * Z)) (g : gfx) : gfx :=
  fold_left (fun g p => gfx_set_pixel p.1 p.2 color g) path g.

Section line.
Context (x0 y0 dx dy sx sy color : Z).
Context (Hdx : 0 <= dx) (Hdy : 0 <= dy) (Hsx : sx * sx = 1) (Hsy : sy * sy = 1).

(** The path left to draw after [i] steps along the long axis and [m] along
    the other one. *)
Definition on_x (i : Z) (p : Z * Z) : Prop :=
  p.1 = x0 + sx * i /\ Z.abs (2 * (sy * (p.2 - y0) * dx - i * dy)) <= dx.
Definition on_y (i : Z) (p : Z * Z) : Prop :=
  p.2 = y0 + sy * i /\ Z.abs (2 * (sx * (p.1 - x0) * dy - i * dx)) <= dy.

Definition traces (on : Z -> Z * Z -> Prop) (i n : Z) (x1 y1 : Z) (path : list (Z * Z)) : Prop :=
  length path = S (Z.to_nat n) /\ path !! Z.to_nat n = Some (x1, y1) /\
  forall (k : nat) p, path !! k = Some p -> on (i + Z.of_nat k) p.

Lemma traces_one on i x1 y1 : on i (x1, y1) -> traces on i 0 x1 y1 [(x1, y1)].
Proof.
  intros H. repeat split. intros [|k] p Hp; [|done]. simplify_eq/=. by rewrite Z.add_0_r.
Qed.

Lemma traces_cons on i n x1 y1 p path :
  0 <= n -> on i p -> traces on (i + 1) n x1 y1 path -> traces on i (n + 1) x1 y1 (p :: path).
Proof.
  intros Hn Hp (Hl & Hla & Hk). split; [simpl; rewrite Hl; lia|]. split.
  - by replace (Z.to_nat (n + 1)) with (S (Z.to_nat n)) by lia.
  - intros [|k] q Hq; simplify_eq/=; [by rewrite Z.add_0_r|].
    replace (i + Z.of_nat (S k)) with (i + 1 + Z.of_nat k) by lia. eauto.
Qed.

Lemma step_diff z s a b : s * s = 1 -> z + s * a = z + s * b -> a = b.
Proof.
  intros Hs E. assert (E' : s * (a - b) = 0) by lia.
  enough (a - b = 0) by lia. rewrite <- (Z.mul_1_l (a - b)), <- Hs, <- Z.mul_assoc, E'. lia.
Qed.

Lemma line_loop_x (n : nat) : dy < dx -> forall i m g fuel,
  i = dx - Z.of_nat n -> 0 <= i -> 0 <= dx / 2 - i * dy + m * dx < dx -> (n < fuel)%nat ->
  exists path,
    line_loop fuel dx dy sx sy (x0 + sx * dx) (y0 + sy * dy) color
      (dx / 2 - i * dy + m * dx) (x0 + sx * i) (y0 + sy * m) g
    = (Ret tt, draw color path g) /\
    path !! 0%nat = Some (x0 + sx * i, y0 + sy * m) /\
    traces on_x i (Z.of_nat n) (x0 + sx * dx) (y0 + sy * dy) path.
Proof.
  intros Hd. assert (Hh : 0 <= dx - 2 * (dx / 2) <= 1) by zdm.
  induction n as [|n IH]; intros i m g fuel Hi Hi0 He Hf; (destruct fuel as [|fuel]; [lia|]); simpl.
  - assert (i = dx) as -> by lia. assert (m = dy) as -> by nia.
    rewrite !Z.eqb_refl. simpl. exists [(x0 + sx * dx, y0 + sy * dy)]. split; [done|]. split; [done|].
    apply traces_one. split; [done|]. simpl.
    replace (sy * (y0 + sy * dy - y0)) with (sy * sy * dy) by ring. rewrite Hsy. lia.
  - rewrite (proj2 (Z.eqb_neq _ _)) by (intros E; apply step_diff in E; [lia|done]). simpl.
    unfold mbind at 1, M_bind at 1, modify. simpl.
    rewrite (proj2 (Z.ltb_lt (- dx) _)) by lia.
    assert (Hon : on_x i (x0 + sx * i, y0 + sy * m)).
    { split; [done|]. simpl.
      replace (sy * (y0 + sy * m - y0)) with (sy * sy * m) by ring. rewrite Hsy. lia. }
    destruct (Z.ltb_spec (dx / 2 - i * dy + m * dx) dy) as [Hlt|Hge].
    + destruct (IH (i + 1) (m + 1) (gfx_set_pixel (x0 + sx * i) (y0 + sy * m) color g) fuel)
        as (path & E & Hhd & Ht); [lia|lia|nia|lia|].
      exists ((x0 + sx * i, y0 + sy * m) :: path). split; [|split; [done|]].
      * simpl. rewrite <- E. f_equal; ring.
      * rewrite Nat2Z.inj_succ. apply traces_cons; [lia|done|done].
    + destruct (IH (i + 1) m (gfx_set_pixel (x0 + sx * i) (y0 + sy * m) color g) fuel)
        as (path & E & Hhd & Ht); [lia|lia|nia|lia|].
      exists ((x0 + sx * i, y0 + sy * m) :: path). split; [|split; [done|]].
      * simpl. rewrite <- E. f_equal; ring.
      * rewrite Nat2Z.inj_succ. apply traces_cons; [lia|done|done].
Qed.

Lemma line_loop_y (n : nat) : dx <= dy -> 0 < dy -> forall i m g fuel,
  i = dy - Z.of_nat n -> 0 <= i -> - dy < - (dy / 2) + i * dx - m * dy <= 0 -> (n < fuel)%nat ->
  exists path,
    line_loop fuel dx dy sx sy (x0 + sx * dx) (y0 + sy * dy) color
      (- (dy / 2) + i * dx - m * dy) (x0 + sx * m) (y0 + sy * i) g
    = (Ret tt, draw color path g) /\
    path !! 0%nat = Some (x0 + sx * m, y0 + sy * i) /\
    traces on_y i (Z.of_nat n) (x0 + sx * dx) (y0 + sy * dy) path.
Proof.
  intros Hd Hpos. assert (Hh : 0 <= dy - 2 * (dy / 2) <= 1) by zdm.
  induction n as [|n IH]; intros i m g fuel Hi Hi0 He Hf; (destruct fuel as [|fuel]; [lia|]); simpl.
  - assert (i = dy) as -> by lia. assert (m = dx) as -> by nia.
    rewrite !Z.eqb_refl. simpl. exists [(x0 + sx * dx, y0 + sy * dy)]. split; [done|]. split; [done|].
    apply traces_one. split; [done|]. simpl.
    replace (sx * (x0 + sx * dx - x0)) with (sx * sx * dx) by ring. rewrite Hsx. lia.
  - rewrite andb_comm, (proj2 (Z.eqb_neq _ _)) by
      (intros E; apply step_diff in E; [lia|done]). simpl.
    unfold mbind at 1, M_bind at 1, modify. simpl.
    rewrite (proj2 (Z.ltb_lt _ dy)) by lia.
    assert (Hon : on_y i (x0 + sx * m, y0 + sy * i)).
    { split; [done|]. simpl.
      replace (sx * (x0 + sx * m - x0)) with (sx * sx * m) by ring. rewrite Hsx. lia. }
    destruct (Z.ltb_spec (- dx) (- (dy / 2) + i * dx - m * dy)) as [Hlt|Hge].
    + destruct (IH (i + 1) (m + 1) (gfx_set_pixel (x0 + sx * m) (y0 + sy * i) color g) fuel)
        as (path & E & Hhd & Ht); [lia|lia|nia|lia|].
      exists ((x0 + sx * m, y0 + sy * i) :: path). split; [|split; [done|]].
      * simpl. rewrite <- E. f_equal; ring.
      * rewrite Nat2Z.inj_succ. apply traces_cons; [lia|done|done].
    + destruct (IH (i + 1) m (gfx_set_pixel (x0 + sx * m) (y0 + sy * i) color g) fuel)
        as (path & E & Hhd & Ht); [lia|lia|nia|lia|].
      exists ((x0 + sx * m, y0 + sy * i) :: path). split; [|split; [done|]].
      * simpl. rewrite <- E. f_equal; ring.
      * rewrite Nat2Z.inj_succ. apply traces_cons; [lia|done|done].
Qed.
End line.

Lemma abs_eq x : abs x = Z.abs x.
Proof. unfold abs. zcases; lia. Qed.

Definition sgn1 (a b : Z) : Z := if a <? b then 1 else -1.

Lemma sgn1_step a b : sgn1 a b * sgn1 a b = 1 /\ b = a + sgn1 a b * Z.abs (b - a).
Proof. unfold sgn1. zcases; lia. Qed.

(** [gfx_line] terminates after max(|dx|, |dy|) + 1 pixels.  The path starts at the first end
    point, ends at the second, advances by one along the longer axis with every pixel, and is
    never further than half a pixel from the straight line along the other axis. *)
Theorem gfx_line_correct (g : gfx) (fuel : nat) (x0 y0 x1 y1 color : Z) :
  let dx := Z.abs (x1 - x0) in
  let dy := Z.abs (y1 - y0) in
  (Z.to_nat (Z.max dx dy) < fuel)%nat ->
  exists path,
    gfx_line fuel x0 y0 x1 y1 color g = (Ret tt, draw color path g) /\
    length path = S (Z.to_nat (Z.max dx dy)) /\
    path !! 0%nat = Some (x0, y0) /\ path !! Z.to_nat (Z.max dx dy) = Some (x1, y1) /\
    forall (k : nat) x y, path !! k = Some (x, y) ->
      if dy <? dx
      then x = x0 + sgn1 x0 x1 * Z.of_nat k /\
           Z.abs (2 * (sgn1 y0 y1 * (y - y0) * dx - Z.of_nat k * dy)) <= dx
      else y = y0 + sgn1 y0 y1 * Z.of_nat k /\
           Z.abs (2 * (sgn1 x0 x1 * (x - x0) * dy - Z.of_nat k * dx)) <= dy.
Proof.
  intros dx dy Hf. destruct (sgn1_step x0 x1) as [Hsx Hx1], (sgn1_step y0 y1) as [Hsy Hy1].
  fold dx in Hx1. fold dy in Hy1. assert (0 <= dx /\ 0 <= dy) as [Hdx Hdy] by (subst dx dy; lia).
  unfold gfx_line. rewrite !abs_eq. fold dx dy (sgn1 x0 x1) (sgn1 y0 y1).
  clearbody dx dy. generalize dependent (sgn1 x0 x1). intros sx Hsx Hx1.
  generalize dependent (sgn1 y0 y1). intros sy Hsy Hy1. subst x1 y1.
  destruct (Z.ltb_spec dy dx) as [Hlt|Hge].
  - rewrite Z.quot_div_nonneg by lia.
    destruct (line_loop_x x0 y0 dx dy sx sy color Hdx Hdy Hsx Hsy (Z.to_nat dx) Hlt 0 0 g fuel)
      as (path & E & Hhd & Hl & Hla & Hk); [lia|lia|zdm|lia|].
    exists path. rewrite Z.max_l by lia. rewrite Z2Nat.id in Hl, Hla by lia. rewrite !Z.mul_0_l, !Z.mul_0_r, !Z.add_0_r, Z.sub_0_r in *.
    split; [done|]. split; [done|]. split; [done|]. split; [done|].
    intros k x y Hp. by specialize (Hk _ _ Hp).
  - rewrite Z.quot_opp_l, Z.quot_div_nonneg by lia.
    destruct (Z.eq_dec dy 0) as [->|Hnz].
    + assert (dx = 0) as -> by lia. destruct fuel as [|fuel]; [lia|].
      exists [(x0, y0)]. rewrite !Z.mul_0_r, !Z.add_0_r. simpl. rewrite !Z.eqb_refl.
      repeat split. all: destruct k; simplify_eq/=; lia.
    + destruct (line_loop_y x0 y0 dx dy sx sy color Hdx Hdy Hsx Hsy (Z.to_nat dy) Hge ltac:(lia) 0 0 g fuel)
        as (path & E & Hhd & Hl & Hla & Hk); [lia|lia|zdm|lia|].
      exists path. rewrite Z.max_r by lia. rewrite Z2Nat.id in Hl, Hla by lia. rewrite !Z.mul_0_l, !Z.mul_0_r, !Z.add_0_r, Z.sub_0_r in *.
      split; [done|]. split; [done|]. split; [done|]. split; [done|].
      intros k x y Hp. by specialize (Hk _ _ Hp).
Qed.

(** ** Images *)

Lemma px_small i : 0 <= i < 1073741824 -> px i = i.
Proof. apply Z.mod_small. Qed.

Lemma set_fb_fb g : set_fb (fb (gfx_ctxt g)) g = g.
Proof. by destruct g as [[] ? ?]. Qed.
Lemma set_fb_set_fb m m' g : set_fb m (set_fb m' g) = set_fb m g.
Proof. done. Qed.

(** The pixel [q] of the image that [src] draws over [m]. *)
Definition blit (src : Z -> Z -> option Z) (st x w y h : Z) (m : gmap Z Z) (q : Z) : option Z :=
  let dx := q mod st - x in
  let dy := q / st - y in
  if (0 <=? dx) && (dx <? w) && (0 <=? dy) && (dy <? h) then src (q / st) (q mod st) else m !! q.

Section rect.
Context (st : Z) (Hst : 0 < st).

Lemma coord_div x y : 0 <= x < st -> (x + y * st) / st = y /\ (x + y * st) mod st = x.
Proof.
  intros Hx. rewrite Z.div_add, Z_mod_plus_full, Z.div_small, Z.mod_small by lia. lia.
Qed.

Lemma rect_row_spec n src : forall x y g,
  stride (gfx_ctxt g) = st -> 0 <= x -> x + Z.of_nat n <= st ->
  0 <= y -> (y + 1) * st <= 1073741824 ->
  (forall k, x <= k < x + Z.of_nat n -> is_Some (src k)) ->
  exists m,
    rect_row n src x y g = (Ret tt, set_fb m g) /\
    forall q, 0 <= q ->
      m !! q = blit (fun _ => src) st x (Z.of_nat n) y 1 (fb (gfx_ctxt g)) q.
Proof.
  induction n as [|n IH]; intros x y g Hg Hx Hn Hy Hb Hs.
  - exists (fb (gfx_ctxt g)). simpl. rewrite set_fb_fb. split; [done|]. intros q Hq.
    unfold blit. zcases; simpl; done || lia.
  - simpl. destruct (Hs x) as [v Hv]; [lia|]. rewrite Hv.
    unfold mbind, M_bind, modify.
    destruct (IH (x + 1) y (gfx_set_pixel x y v g)) as (m & E & Hm); [exact Hg|lia|lia|lia|lia|..].
    { intros k Hk. apply Hs. lia. }
    exists m. split; [done|]. intros q Hq. rewrite Hm by done.
    unfold gfx_set_pixel. simpl. rewrite Hg.
    rewrite u32_id, px_small by nia.
    pose proof (coord_div x y ltac:(lia)) as [Hd Hr].
    unfold blit. destruct (Z.eq_dec q (x + y * st)) as [->|Hne].
    + rewrite Hd, Hr, lookup_insert_eq. rewrite !Z.sub_diag. zcases_lia. simpl. by rewrite Hv.
    + rewrite lookup_insert_ne by done.
      assert (~ (q mod st = x /\ q / st = y)).
      { intros [<- <-]. apply Hne. pose proof (Z.div_mod q st). lia. }
      zcases_lia; simpl; try done; try (exfalso; lia).
Qed.

Lemma rect_rows_spec n nx src x : forall y g,
  stride (gfx_ctxt g) = st -> 0 <= x -> x + Z.of_nat nx <= st ->
  0 <= y -> (y + Z.of_nat n) * st <= 1073741824 ->
  (forall i j, y <= i < y + Z.of_nat n -> x <= j < x + Z.of_nat nx -> is_Some (src i j)) ->
  exists m,
    rect_rows n nx src x y g = (Ret tt, set_fb m g) /\
    forall q, 0 <= q ->
      m !! q = blit src st x (Z.of_nat nx) y (Z.of_nat n) (fb (gfx_ctxt g)) q.
Proof.
  induction n as [|n IH]; intros y g Hg Hx Hnx Hy Hb Hs.
  - exists (fb (gfx_ctxt g)). simpl. rewrite set_fb_fb. split; [done|]. intros q Hq.
    unfold blit. zcases; simpl; done || lia.
  - simpl. destruct (rect_row_spec nx (src y) x y g) as (m1 & E1 & Hm1); [done..|nia| |].
    { intros k Hk. apply Hs; lia. }
    rewrite (bind_run _ _ _ _ _ E1).
    destruct (IH (y + 1) (set_fb m1 g)) as (m & E & Hm); [exact Hg|lia|lia|lia|nia|..].
    { intros i j Hi Hj. apply Hs; lia. }
    exists m. split; [done|]. intros q Hq. rewrite Hm by done. simpl.
    unfold blit at 1. rewrite Hm1 by done. unfold blit.
    destruct (Z.eq_dec (q / st) y) as [->|Hne]; zcases_lia; done.
Qed.
End rect.

Lemma span_small pos size : 0 <= pos -> 0 <= size -> pos + size < 4294967296 ->
  span pos size = Z.to_nat size.
Proof. intros. unfold span. rewrite u32_id by lia. f_equal. lia. Qed.

(** The region of a rectangle of the frame buffer. *)
Definition in_fb (g : gfx) (size_x size_y pos_x pos_y : Z) : Prop :=
  0 <= size_x /\ 0 <= size_y /\ 0 <= pos_x /\ 0 <= pos_y /\
  0 < stride (gfx_ctxt g) <= 1073741824 /\
  pos_x + size_x <= stride (gfx_ctxt g) /\
  (pos_y + size_y) * stride (gfx_ctxt g) <= 1073741824.

Lemma set_rect_spec src size_x size_y pos_x pos_y g :
  in_fb g size_x size_y pos_x pos_y ->
  (forall i j, pos_y <= i < pos_y + size_y -> pos_x <= j < pos_x + size_x -> is_Some (src i j)) ->
  exists m,
    set_rect src size_x size_y pos_x pos_y g = (Ret tt, set_fb m g) /\
    forall x y, 0 <= x < stride (gfx_ctxt g) -> 0 <= y ->
      m !! (x + y * stride (gfx_ctxt g)) =
        if (pos_x <=? x) && (x <? pos_x + size_x) && (pos_y <=? y) && (y <? pos_y + size_y)
        then src y x else fb (gfx_ctxt g) !! (x + y * stride (gfx_ctxt g)).
Proof.
  intros (? & ? & ? & ? & [Hst ?] & ? & Hb) Hs. unfold set_rect.
  assert (pos_x + size_x < 4294967296 /\ pos_y + size_y < 4294967296) as [? ?] by nia.
  rewrite !span_small by lia.
  destruct (rect_rows_spec (stride (gfx_ctxt g)) Hst (Z.to_nat size_y) (Z.to_nat size_x)
              src pos_x pos_y g) as (m & E & Hm); rewrite ?Z2Nat.id; try done.
  exists m. split; [done|]. intros x y Hx Hy. rewrite Hm by nia. rewrite !Z2Nat.id by lia.
  unfold blit. destruct (coord_div (stride (gfx_ctxt g)) Hst x y Hx) as [-> ->].
  zcases; simpl; done || lia.
Qed.

(** [gfx_render_bmp_argb] shows a bitmap, whose rows are stored bottom up, at its position:
    pixel (x, y) of the rectangle is the bitmap's, and no other pixel of the screen changes. *)
Theorem gfx_render_bmp_correct (g : gfx) (buf : list Z) (size_x size_y pos_x pos_y : Z) :
  in_fb g size_x size_y pos_x pos_y ->
  Z.of_nat (length buf) = size_x * size_y ->
  exists m,
    gfx_render_bmp_argb buf size_x size_y pos_x pos_y g = (Ret tt, set_fb m g) /\
    forall x y, 0 <= x < stride (gfx_ctxt g) -> 0 <= y ->
      m !! (x + y * stride (gfx_ctxt g)) =
        if (pos_x <=? x) && (x <? pos_x + size_x) && (pos_y <=? y) && (y <? pos_y + size_y)
        then buf !! Z.to_nat ((size_y - 1 - (y - pos_y)) * size_x + (x - pos_x))
        else fb (gfx_ctxt g) !! (x + y * stride (gfx_ctxt g)).
Proof.
  intros Hin Hlen. unfold gfx_render_bmp_argb.
  assert (Hidx : forall i j, pos_y <= i < pos_y + size_y -> pos_x <= j < pos_x + size_x ->
    u32 (u32 (u32 (size_y + pos_y - 1 - i) * size_x) + j - pos_x) =
      (size_y - 1 - (i - pos_y)) * size_x + (j - pos_x) /\
    0 <= (size_y - 1 - (i - pos_y)) * size_x + (j - pos_x) < size_x * size_y).
  { destruct Hin as (? & ? & ? & ? & ? & ? & ?). intros i j Hi Hj.
    assert (size_x * size_y <= stride (gfx_ctxt g) * (pos_y + size_y))
      by (apply Z.mul_le_mono_nonneg; lia).
    assert (pos_y + size_y <= (pos_y + size_y) * stride (gfx_ctxt g)) by nia.
    rewrite (u32_id (size_y + pos_y - 1 - i)) by lia.
    assert (Ha : exists a, size_y - 1 - (i - pos_y) = a /\ size_y + pos_y - 1 - i = a /\ 0 <= a <= size_y - 1)
      by (eexists; split; [done|lia]).
    destruct Ha as (a & -> & -> & Ha).
    assert (0 <= a * size_x <= (size_y - 1) * size_x) by (split; nia).
    rewrite (u32_id (a * size_x)), u32_id by lia. lia. }
  destruct (set_rect_spec (fun y x =>
      buf !! Z.to_nat (u32 (u32 (u32 (size_y + pos_y - 1 - y) * size_x) + x - pos_x)))
      size_x size_y pos_x pos_y g) as (m & E & Hm); [done|..].
  { intros i j Hi Hj. destruct (Hidx i j Hi Hj) as [-> ?]. apply lookup_lt_is_Some. lia. }
  exists m. split; [done|]. intros x y Hx Hy. rewrite Hm by done.
  zcases; simpl; try done. by destruct (Hidx y x ltac:(lia) ltac:(lia)) as [-> ?].
Qed.

(** ** Glyphs *)

(** What a glyph bit makes of the pixel below it. *)
Definition colour (c : gfx_con_t) (bit : bool) (old : option Z) : option Z :=
  if bit then Some (fgcol c) else if c_true (fillbg c) then Some (bgcol c) else old.

Lemma paint_lookup c bit i m q : 0 <= i < 1073741824 ->
  paint c bit i m !! q = if q =? i then colour c bit (m !! q) else m !! q.
Proof.
  intros Hi. unfold paint, colour. rewrite px_small by done.
  destruct (Z.eqb_spec q i) as [->|Hne]; destruct bit, (c_true (fillbg c));
    rewrite ?lookup_insert_eq, ?lookup_insert_ne by done; done.
Qed.

Lemma low_bit v n : 0 <= n -> c_true (Z.land (Z.shiftr v n) 1) = Z.testbit v n.
Proof.
  intros Hn. change 1 with (Z.ones 1). rewrite Z.land_ones by lia. change (2 ^ 1) with 2.
  rewrite <- Z.bit0_mod, Z.shiftr_spec, Z.add_0_l by lia. by destruct (Z.testbit v n).
Qed.

Lemma shiftr_step v (n : nat) : Z.shiftr (Z.shiftr v (Z.of_nat n)) 1 = Z.shiftr v (Z.of_nat (S n)).
Proof. rewrite Z.shiftr_shiftr by lia. f_equal. lia. Qed.

(** A routine that draws the eight bits of a glyph row, [w] pixels wide each,
    and moves on to the next row of the frame buffer. *)
Definition draws_line (c : gfx_con_t) (st w : Z) (line : Z -> gmap Z Z * Z -> gmap Z Z * Z) : Prop :=
  forall v m p, 0 <= p -> p + 8 * w <= 1073741824 ->
  exists m', line v (m, p) = (m', p + st) /\
    forall q, m' !! q =
      if (p <=? q) && (q <? p + 8 * w) then colour c (Z.testbit v ((q - p) / w)) (m !! q) else m !! q.

Lemma bits8_spec c v m p (n : nat) : 0 <= p -> p + Z.of_nat n <= 1073741824 ->
  exists m', Nat.iter n (putc_bit8 c) (m, p, v) = (m', p + Z.of_nat n, Z.shiftr v (Z.of_nat n)) /\
    forall q, m' !! q =
      if (p <=? q) && (q <? p + Z.of_nat n) then colour c (Z.testbit v (q - p)) (m !! q) else m !! q.
Proof.
  intros Hp. induction n as [|n IH]; intros Hn.
  - exists m. rewrite Z.add_0_r. split; [done|]. intros q. zcases; simpl; done || lia.
  - destruct IH as (m' & E & Hm'); [lia|]. eexists. split.
    + rewrite Nat.iter_succ, E. unfold putc_bit8. rewrite shiftr_step.
      replace (p + Z.of_nat n + 1) with (p + Z.of_nat (S n)) by lia. reflexivity.
    + intros q. rewrite paint_lookup, Hm', low_bit by lia.
      destruct (Z.eqb_spec q (p + Z.of_nat n)) as [->|Hne]; zcases_lia; simpl; try done.
      by rewrite Z.add_simpl_l.
Qed.

Lemma bits16_spec c v m p (n : nat) : 0 <= p -> p + 2 * Z.of_nat n <= 1073741824 ->
  exists m', Nat.iter n (putc_bit16 c) (m, p, v) = (m', p + 2 * Z.of_nat n, Z.shiftr v (Z.of_nat n)) /\
    forall q, m' !! q =
      if (p <=? q) && (q <? p + 2 * Z.of_nat n)
      then colour c (Z.testbit v ((q - p) / 2)) (m !! q) else m !! q.
Proof.
  intros Hp. induction n as [|n IH]; intros Hn.
  - exists m. rewrite Z.mul_0_r, Z.add_0_r. split; [done|]. intros q. zcases; simpl; done || lia.
  - destruct IH as (m' & E & Hm'); [lia|]. eexists. split.
    + rewrite Nat.iter_succ, E. unfold putc_bit16. rewrite shiftr_step.
      replace (p + 2 * Z.of_nat n + 2) with (p + 2 * Z.of_nat (S n)) by lia. reflexivity.
    + intros q. rewrite !paint_lookup, Hm', low_bit by lia.
      destruct (Z.eqb_spec q (p + 2 * Z.of_nat n + 1)) as [->|Hne1];
        [|destruct (Z.eqb_spec q (p + 2 * Z.of_nat n)) as [->|Hne]]; zcases_lia; simpl; try done.
      all: repeat f_equal; zdm.
Qed.

Lemma putc_line8_draws c st : 8 <= st < 4294967296 -> draws_line c st 1 (putc_line8 c st).
Proof.
  intros Hst v m p Hp Hb. destruct (bits8_spec c v m p 8) as (m' & E & Hm'); [lia|lia|].
  exists m'. unfold putc_line8. cbn [fst snd]. rewrite E, u32_id by lia. split; [f_equal; lia|].
  intros q. by rewrite Hm', Z.div_1_r.
Qed.

Lemma putc_line16_draws c st : 16 <= st < 4294967296 -> draws_line c st 2 (putc_line16 c st).
Proof.
  intros Hst v m p Hp Hb. destruct (bits16_spec c v m p 8) as (m' & E & Hm'); [lia|lia|].
  exists m'. unfold putc_line16. cbn [fst snd]. rewrite E, u32_id by lia. split; [f_equal; lia|].
  intros q. by rewrite Hm'.
Qed.

(** Drawing every row twice is drawing the doubled list of rows. *)
Definition twice (rows : list Z) : list Z := flat_map (fun v => [v; v]) rows.

Lemma putc_rows_twice line rows : forall s,
  putc_rows (fun v s => line v (line v s)) rows s = putc_rows line (twice rows) s.
Proof. induction rows as [|v rows IH]; intros s; [done|]. simpl. apply IH. Qed.

Lemma twice_nth rows : forall i, nth i (twice rows) 0 = nth (i / 2) rows 0.
Proof.
  induction rows as [|v rows IH]; intros i; [by destruct i, (_ / 2)%nat|].
  destruct i as [|[|i]]; [done|done|]. simpl nth at 1. rewrite IH.
  replace (S (S i)) with (1 * 2 + i)%nat by lia. by rewrite Nat.div_add_l by lia.
Qed.

Lemma twice_length rows : length (twice rows) = (2 * length rows)%nat.
Proof. induction rows as [|v rows IH]; [done|]. simpl in *. lia. Qed.

Section rows.
Context (c : gfx_con_t) (st w : Z) (line : Z -> gmap Z Z * Z -> gmap Z Z * Z).
Context (Hline : draws_line c st w line) (Hw : 0 < w) (Hst : 8 * w <= st).

Lemma putc_rows_spec rows : forall m p, 0 <= p ->
  p + Z.of_nat (length rows) * st + 8 * w <= 1073741824 + st ->
  forall q, (putc_rows line rows (m, p)).1 !! q =
    let r := (q - p) / st in
    if (p <=? q) && (r <? Z.of_nat (length rows)) && ((q - p) mod st <? 8 * w)
    then colour c (Z.testbit (nth (Z.to_nat r) rows 0) ((q - p) mod st / w)) (m !! q)
    else m !! q.
Proof.
  induction rows as [|v rows IH]; intros m p Hp Hb q.
  - simpl. destruct (Z.leb_spec p q); [|done]. simpl.
    assert (0 <= (q - p) / st) by (apply Z.div_pos; lia).
    rewrite (proj2 (Z.ltb_ge _ 0)) by lia. done.
  - rewrite length_cons, Nat2Z.inj_succ in *. simpl.
    destruct (Hline v m p Hp) as (m1 & -> & Hm1); [nia|].
    rewrite IH by nia. simpl. rewrite Hm1.
    replace (q - (p + st)) with (q - p + (-1) * st) by lia.
    rewrite Z.div_add, Z_mod_plus_full by lia.
    destruct (Z.leb_spec p q) as [Hq|Hq].
    2: { rewrite (proj2 (Z.leb_gt (p + st) q)) by lia. done. }
    assert (Hdm : q - p = st * ((q - p) / st) + (q - p) mod st /\ 0 <= (q - p) mod st < st /\
      0 <= (q - p) / st) by (split; [apply Z.div_mod; lia|split;
        [apply Z.mod_pos_bound; lia|apply Z.div_pos; lia]]).
    destruct (Z.leb_spec (p + st) q) as [Hge|Hlt]; simpl.
    + assert (1 <= (q - p) / st) by nia. rewrite (proj2 (Z.ltb_ge q (p + 8 * w))) by lia.
      replace (Z.to_nat ((q - p) / st)) with (S (Z.to_nat ((q - p) / st + -1))) by lia.
      zcases_lia; done.
    + assert ((q - p) / st = 0) as Hz by (apply Z.div_small; lia). rewrite Hz in *.
      rewrite Z.mod_small by lia. simpl. zcases_lia; done.
Qed.
End rows.

Lemma glyph_length c : 32 <= c <= 126 -> length (glyph c) = 8%nat.
Proof.
  intros Hc. unfold glyph.
  assert (HF : Forall (fun r => length r = 8%nat) _gfx_font) by (unfold _gfx_font; repeat constructor).
  assert (Hl : length _gfx_font = 95%nat) by reflexivity.
  destruct (lookup_lt_is_Some_2 _gfx_font (Z.to_nat (c - 32))) as [r Hr]; [lia|].
  rewrite Hr. simpl. by eapply Forall_lookup_1 in HF.
Qed.

(** The screen offset of a pixel relative to the pen, by column and row. *)
Lemma pen_offset st x y w qx qy : 0 < w <= st - x -> 0 <= x -> 0 <= qx < st ->
  let d := (qx + qy * st) - (x + y * st) in
  (0 <=? d) && (d mod st <? w) = (y <=? qy) && (x <=? qx) && (qx <? x + w) /\
  (x <= qx -> d / st = qy - y /\ d mod st = qx - x).
Proof.
  intros Hw Hx Hq d. assert (Hd : d = (qx - x) + (qy - y) * st) by (subst d; lia).
  destruct (Z.leb_spec x qx) as [Hle|Hgt].
  - assert (E : d / st = qy - y /\ d mod st = qx - x).
    { rewrite Hd, Z.div_add, Z_mod_plus_full, Z.div_small, Z.mod_small by lia. lia. }
    split; [|done]. destruct E as [_ ->]. zcases; simpl; done || nia.
  - split; [|lia]. rewrite andb_false_r. simpl.
    replace d with ((qx - x + st) + (qy - y - 1) * st) by lia.
    rewrite Z_mod_plus_full, Z.mod_small by lia. zcases; simpl; done || lia.
Qed.

(** A printable character paints its font glyph, scaled to the font size, in the box at the
    pen: set bits take the foreground colour, clear bits the background colour when the
    background is filled.  No pixel outside the box changes, and the pen moves right by one
    box. *)
Theorem gfx_putc_glyph (g : gfx) (c : Z) :
  let con := gfx_con g in
  let st := stride (gfx_ctxt g) in
  let sz := fntsz con in
  let w := sz / 8 in
  32 <= c <= 126 -> sz = 8 \/ sz = 16 ->
  0 <= con_x con -> con_x con + sz <= st -> 0 <= con_y con ->
  (con_y con + sz) * st <= 1073741824 ->
  exists m,
    gfx_putc c g = set_con (with_pos (con_x con + sz) (con_y con) con) (set_fb m g) /\
    forall qx qy, 0 <= qx < st -> 0 <= qy ->
      m !! (qx + qy * st) =
        if (con_x con <=? qx) && (qx <? con_x con + sz) &&
           (con_y con <=? qy) && (qy <? con_y con + sz)
        then colour con
               (Z.testbit (nth (Z.to_nat ((qy - con_y con) / w)) (glyph c) 0)
                          ((qx - con_x con) / w))
               (fb (gfx_ctxt g) !! (qx + qy * st))
        else fb (gfx_ctxt g) !! (qx + qy * st).
Proof.
  intros con st sz w Hc Hsz Hx Hxs Hy Hb.
  assert (Hst : st < 4294967296) by nia. assert (8 <= sz) by lia.
  assert (Hy32 : 0 <= con_y con * st < 4294967296) by nia.
  pose (rows := if sz =? 16 then twice (glyph c) else glyph c).
  assert (Hrl : Z.of_nat (length rows) = sz).
  { subst rows. destruct Hsz as [-> | ->]; simpl; rewrite ?twice_length, glyph_length by done; done. }
  assert (Hrn : forall i, 0 <= i -> nth (Z.to_nat i) rows 0 = nth (Z.to_nat (i / w)) (glyph c) 0).
  { intros i Hi. subst rows w. destruct Hsz as [-> | ->]; simpl.
    - by rewrite Z.div_1_r.
    - rewrite twice_nth. change (16 / 8) with 2. rewrite Z2Nat.inj_div by lia. done. }
  assert (HW : 8 * w = sz) by (subst w; destruct Hsz as [-> | ->]; done).
  pose (line := if sz =? 16 then putc_line16 con st else putc_line8 con st).
  assert (Hl : draws_line con st w line).
  { subst line w. destruct Hsz as [-> | ->]; simpl;
      [apply putc_line8_draws|apply putc_line16_draws]; lia. }
  exists (putc_rows line rows (fb (gfx_ctxt g), con_x con + con_y con * st)).1. split.
  - unfold gfx_putc. fold con st sz. rewrite (u32_id (con_y con * st)) by lia.
    rewrite (proj2 (Z.leb_le 32 c)), (proj2 (Z.leb_le c 126)) by lia. simpl.
    subst rows line. destruct Hsz as [E | E]; rewrite E; simpl.
    + destruct (putc_rows _ _ _) as [m p]. simpl. by rewrite u32_id by lia.
    + rewrite <- putc_rows_twice. destruct (putc_rows _ _ _) as [m p]. simpl.
      by rewrite u32_id by lia.
  - intros qx qy Hqx Hqy.
    rewrite (putc_rows_spec con st w line Hl) by nia. cbv zeta. rewrite Hrl, HW.
    destruct (pen_offset st (con_x con) (con_y con) sz qx qy) as [Hbox Hoff]; [lia..|].
    cbv zeta in Hbox, Hoff. set (d := qx + qy * st - (con_x con + con_y con * st)) in *.
    replace (con_x con + con_y con * st <=? qx + qy * st) with (0 <=? d)
      by (subst d; zcases; done || lia).
    rewrite <- andb_assoc, (andb_comm (_ <? sz)), andb_assoc, Hbox.
    destruct (Z.leb_spec (con_x con) qx) as [Hle|Hgt]; [|by rewrite andb_false_r].
    destruct (Hoff Hle) as [-> ->].
    destruct (Z.leb_spec (con_y con) qy) as [Hley|Hgty]; [|by rewrite !andb_false_r].
    rewrite Hrn by lia. zcases; simpl; done || lia.
Qed.

(** ** Numbers *)

(** The digits of [v], most significant first. *)
Fixpoint numeral (fuel : nat) (base v : Z) (acc : list Z) : list Z :=
  match fuel with
  | O => acc
  | S fuel =>
      let acc := v mod base :: acc in
      if v / base =? 0 then acc else numeral fuel base (v / base) acc
  end.

Definition horner (base : Z) (ds : list Z) : Z := fold_left (fun a d => a * base + d) ds 0.

Lemma horner_app base ds : forall a,
  fold_left (fun a d => a * base + d) ds a = a * base ^ Z.of_nat (length ds) + horner base ds.
Proof.
  induction ds as [|d ds IH]; intros a; unfold horner; cbn [fold_left length]; [lia|].
  rewrite IH, (IH (0 * base + d)). rewrite Nat2Z.inj_succ, Z.pow_succ_r by lia. ring.
Qed.

Lemma horner_cons base d ds :
  horner base (d :: ds) = d * base ^ Z.of_nat (length ds) + horner base ds.
Proof. unfold horner. cbn [fold_left]. apply (horner_app base ds (0 * base + d)). Qed.

Definition digit (d : Z) : Z := nth (Z.to_nat d) digits 0.

Lemma digits_lookup d : 0 <= d < 36 -> digits !! Z.to_nat d = Some (digit d).
Proof.
  intros Hd. unfold digit. rewrite nth_lookup.
  destruct (lookup_lt_is_Some_2 digits (Z.to_nat d)) as [x Hx]; [|by rewrite Hx].
  change (length digits) with 36%nat. lia.
Qed.

Section numeral.
Context (base : Z) (Hbase : 2 <= base <= 36).

(** The digits end after [fuel] steps, and none of them is lost. *)
Lemma numeral_spec fuel : forall v acc, 0 <= v < 2 ^ Z.of_nat fuel -> (0 < fuel)%nat ->
  Forall (fun d => 0 <= d < base) acc ->
  let ds := numeral fuel base v acc in
  Forall (fun d => 0 <= d < base) ds /\
  horner base ds = v * base ^ Z.of_nat (length acc) + horner base acc /\
  (length ds <= fuel + length acc)%nat /\
  exists d ds', ds = d :: ds' /\ (d <> 0 \/ v = 0 /\ ds' = acc).
Proof.
  induction fuel as [|fuel IH]; intros v acc Hv Hf Hacc; [lia|]. cbn zeta. simpl numeral.
  pose proof (Z.div_mod v base ltac:(lia)) as Hdm.
  pose proof (Z.mod_pos_bound v base ltac:(lia)) as Hm.
  assert (Hacc' : Forall (fun d => 0 <= d < base) (v mod base :: acc)) by (by constructor).
  destruct (Z.eqb_spec (v / base) 0) as [E|E].
  - split; [done|]. rewrite E in Hdm. replace (v mod base) with v by lia. split; [apply horner_cons|].
    split; [simpl; lia|]. exists v, acc. split; [done|]. destruct (Z.eq_dec v 0); [right|left]; done.
  - assert (0 <= v / base) by (apply Z.div_pos; lia).
    rewrite Nat2Z.inj_succ, Z.pow_succ_r in Hv by lia.
    destruct fuel as [|fuel]; [simpl in Hv; nia|].
    destruct (IH (v / base) (v mod base :: acc)) as (H1 & H2 & H3 & d & ds' & H4 & H5); [nia|lia|done|].
    split; [done|]. split.
    + rewrite H2, horner_cons, length_cons, Nat2Z.inj_succ, Z.pow_succ_r by lia.
      rewrite Hdm at 3. ring.
    + split; [simpl in *; lia|]. exists d, ds'. split; [done|]. left. destruct H5 as [|[? _]]; done.
Qed.

(** The digit loop of [_gfx_putn] writes the numeral in front of [p]. *)
Lemma putn_digits_spec k fuel : forall v c acc,
  0 <= v < 2 ^ Z.of_nat fuel -> (0 < fuel)%nat -> (fuel + length acc <= 64)%nat ->
  putn_digits (fuel + k) v base c (map digit acc) =
    Ret (map digit (numeral fuel base v acc),
         c - Z.of_nat (length (numeral fuel base v acc)) + Z.of_nat (length acc)).
Proof.
  induction fuel as [|fuel IH]; intros v c acc Hv Hf Hl; [lia|]. simpl putn_digits. simpl numeral.
  pose proof (Z.div_mod v base ltac:(lia)) as Hdm.
  pose proof (Z.mod_pos_bound v base ltac:(lia)) as Hm.
  rewrite (u32_id base), digits_lookup by lia. unfold push.
  rewrite length_map, (proj2 (Nat.ltb_lt _ _)) by lia.
  destruct (Z.eqb_spec (v / base) 0) as [E|E].
  - do 2 f_equal. rewrite length_cons. lia.
  - assert (0 <= v / base) by (apply Z.div_pos; lia).
    rewrite Nat2Z.inj_succ, Z.pow_succ_r in Hv by lia.
    destruct fuel as [|fuel]; [simpl in Hv; nia|].
    change (digit (v mod base) :: map digit acc) with (map digit (v mod base :: acc)).
    rewrite IH by (simpl length; nia || lia). do 2 f_equal. rewrite length_cons. lia.
Qed.
End numeral.

Lemma putn_fill_spec fill n : forall p, (n + length p <= 64)%nat ->
  putn_fill n fill p = Some (replicate n fill ++ p).
Proof.
  induction n as [|n IH]; intros p Hl; [done|]. simpl putn_fill. unfold push.
  rewrite (proj2 (Nat.ltb_lt _ _)) by lia. rewrite IH by (simpl; lia). f_equal.
  by rewrite replicate_S_end, <- app_assoc.
Qed.

(** The text of a number: its digits, padded on the left to [fcnt] characters
    when there is a fill character. *)
Definition number (base v fill fcnt : Z) : list Z :=
  let ds := map digit (numeral 32 base v []) in
  (if c_true fill then replicate (Z.to_nat (fcnt - Z.of_nat (length ds))) fill else []) ++ ds.

Lemma putn_text_number (v base fill fcnt : Z) :
  2 <= base <= 36 -> 0 <= v < 4294967296 -> 0 <= fill < 256 -> fcnt <= 64 ->
  putn_text v base fill fcnt = Ret (number base v fill fcnt).
Proof.
  intros Hb Hv Hf Hc. unfold putn_text, number.
  change 65%nat with (32 + 33)%nat.
  pose proof (putn_digits_spec base Hb 33 32 v fcnt [] Hv ltac:(lia) ltac:(cbn [length]; lia)) as E.
  cbn [map] in E. rewrite E. clear E.
  destruct (numeral_spec base Hb 32 v [] Hv ltac:(lia) ltac:(constructor)) as (_ & _ & Hlen & _).
  rewrite Z.add_0_r, u8_id, length_map by done. destruct (c_true fill); [|done].
  rewrite putn_fill_spec; [done|]. rewrite length_map. cbn [length] in *. lia.
Qed.

Lemma putn_number (g : gfx) (v base fill fcnt : Z) :
  2 <= base <= 36 -> 0 <= v < 4294967296 -> 0 <= fill < 256 -> fcnt <= 64 ->
  _gfx_putn v base fill fcnt g = (Ret tt, gfx_puts (Some (number base v fill fcnt)) g).
Proof.
  intros Hb Hv Hf Hc. unfold _gfx_putn. rewrite (proj2 (Z.ltb_ge 36 base)) by lia.
  by rewrite putn_text_number.
Qed.

(** [_gfx_putn] prints the numeral of the number: its digits evaluate to the number in the
    base, there is no leading zero, and with a fill character it is padded on the left to the
    requested width, which the 65 byte buffer always has room for. *)
Theorem gfx_putn_correct (g : gfx) (v base fill fcnt : Z) :
  2 <= base <= 36 -> 0 <= v < 4294967296 -> 0 < fill < 256 -> fcnt <= 64 ->
  exists ds : list Z,
    _gfx_putn v base fill fcnt g =
      (Ret tt, gfx_puts (Some (replicate (Z.to_nat (fcnt - Z.of_nat (length ds))) fill
                               ++ map digit ds)) g) /\
    horner base ds = v /\ Forall (fun d => 0 <= d < base) ds /\
    (ds = [0] \/ exists d ds', ds = d :: ds' /\ d <> 0).
Proof.
  intros Hb Hv Hf Hc. exists (numeral 32 base v []).
  destruct (numeral_spec base Hb 32 v []) as (H1 & H2 & _ & d & ds' & H4 & H5); [exact Hv|lia|constructor|].
  split; [|split; [rewrite H2; change (horner base []) with 0; cbn [length]; lia|split; [done|]]].
  - rewrite putn_number by lia. unfold number, c_true. rewrite (proj2 (Z.eqb_neq fill 0)) by lia.
    by rewrite length_map.
  - destruct H5 as [?|[-> ->]]; [right; eauto|]. left. done.
Qed.

(** ** Formats *)

(** The field width of a number: none, a width padded with blanks, or a fill
    digit or blank followed by a width. *)
Inductive pad := NoPad | Width (w : Z) | Fill (f w : Z).

Inductive directive :=
| DText (c : Z)
| DChar (v : Z)
| DStr (s : option (list Z))
| DDec (p : pad) (v : Z)
| DHex (p : pad) (v : Z)
| DFg (v : Z)
| DBg (v : Z)
| DPercent.

Definition pad_ok (p : pad) : Prop :=
  match p with
  | NoPad => True
  | Width w => 0 <= w <= 9
  | Fill f w => (isdigit f = true \/ f = 32) /\ 0 <= w <= 9
  end.

Definition directive_ok (d : directive) : Prop :=
  match d with
  | DText c => c <> 37
  | DDec p _ | DHex p _ => pad_ok p
  | _ => True
  end.

(** The format string and the arguments of a list of directives. *)
Definition pad_text (p : pad) : list Z :=
  match p with NoPad => [] | Width w => [48 + w] | Fill f w => [f; 48 + w] end.

Definition fmt_of (d : directive) : list Z :=
  match d with
  | DText c => [c]
  | DChar _ => chars "%c"
  | DStr _ => chars "%s"
  | DDec p _ => 37 :: pad_text p ++ chars "d"
  | DHex p _ => 37 :: pad_text p ++ chars "x"
  | DFg _ => chars "%k"
  | DBg _ => chars "%K"
  | DPercent => chars "%%"
  end.

Definition args_of (d : directive) : list va :=
  match d with
  | DChar v | DDec _ v | DHex _ v | DFg v | DBg v => [VaU32 v]
  | DStr s => [VaStr s]
  | _ => []
  end.

(** What a directive asks for. *)
Definition pad_fill (p : pad) : Z := match p with NoPad => 0 | Width _ => 32 | Fill f _ => f end.
Definition pad_width (p : pad) : Z := match p with NoPad => 0 | Width w | Fill _ w => w end.

Definition obey (d : directive) : gfx -> gfx :=
  match d with
  | DText c => gfx_putc c
  | DChar v => gfx_putc (u8 v)
  | DStr s => gfx_puts s
  | DDec p v => gfx_puts (Some (number 10 v (pad_fill p) (pad_width p)))
  | DHex p v => gfx_puts (Some (number 16 v (pad_fill p) (pad_width p)))
  | DFg v => fun g => gfx_con_setcol v (fillbg (gfx_con g)) (bgcol (gfx_con g)) g
  | DBg v => fun g => gfx_con_setcol (fgcol (gfx_con g)) 1 v g
  | DPercent => gfx_putc 37
  end.

Definition args_ok (d : directive) : Prop :=
  match d with DDec _ v | DHex _ v => 0 <= v < 4294967296 | _ => True end.

Lemma isdigit_spec c : isdigit c = true <-> 48 <= c <= 57.
Proof. unfold isdigit. rewrite andb_true_iff, !Z.leb_le. done. Qed.

Lemma printf_width_pad p c rest : pad_ok p -> isdigit c = false -> c <> 32 ->
  printf_width (pad_text p ++ c :: rest) = (pad_fill p, pad_width p, c :: rest).
Proof.
  intros Hp Hc Hsp. unfold printf_width.
  destruct p as [|w|f w]; simpl in *.
  - rewrite Hc. by rewrite (proj2 (Z.eqb_neq c 32)).
  - rewrite (proj2 (isdigit_spec (48 + w))) by lia. simpl. rewrite Hc. do 2 f_equal. lia.
  - destruct Hp as [Hf Hw].
    assert (isdigit f || (f =? 32) = true) as -> by
      (destruct Hf as [-> | ->]; [done|by rewrite orb_true_r]).
    rewrite (proj2 (isdigit_spec (48 + w))) by lia. do 2 f_equal. lia.
Qed.

Lemma pad_ranges p : pad_ok p -> 0 <= pad_fill p < 256 /\ pad_width p <= 64.
Proof.
  destruct p as [|w|f w]; simpl; try lia. intros [[Hf%isdigit_spec|Hf] Hw]; lia.
Qed.

(** One round of the format loop obeys one directive. *)
Lemma printf_round fuel d rest ap g : directive_ok d -> args_ok d ->
  printf_loop (S fuel) (fmt_of d ++ rest) (args_of d ++ ap) g = printf_loop fuel rest ap (obey d g).
Proof.
  intros Hok Hv. destruct d as [c|v|s|p v|p v|v|v|]; try done; cbn [directive_ok args_ok] in *;
    cbn [printf_loop fmt_of args_of app obey Z.eqb Pos.eqb].
  - by rewrite (proj2 (Z.eqb_neq c 37)).
  - rewrite <- app_assoc. change (chars "d" ++ rest) with (100 :: rest).
    rewrite printf_width_pad by done.
    pose proof (pad_ranges p Hok). unfold printf_conv, mbind, M_bind. simpl.
    by rewrite putn_number by (done || lia).
  - rewrite <- app_assoc. change (chars "x" ++ rest) with (120 :: rest).
    rewrite printf_width_pad by done.
    pose proof (pad_ranges p Hok). unfold printf_conv, mbind, M_bind. simpl.
    by rewrite putn_number by (done || lia).
Qed.

Lemma fmt_of_length d : (1 <= length (fmt_of d))%nat.
Proof. destruct d; simpl; lia. Qed.

Lemma printf_loop_directives ds : forall fuel g, (length (concat (map fmt_of ds)) < fuel)%nat ->
  Forall directive_ok ds -> Forall args_ok ds ->
  printf_loop fuel (concat (map fmt_of ds)) (concat (map args_of ds)) g =
    (Ret tt, fold_left (fun g d => obey d g) ds g).
Proof.
  induction ds as [|d ds IH]; intros fuel g Hf Hok Hv; (destruct fuel as [|fuel]; [lia|]); [done|].
  inversion_clear Hok. inversion_clear Hv. simpl map in *. simpl concat in *.
  rewrite length_app in Hf. pose proof (fmt_of_length d).
  rewrite printf_round by done. apply IH; [lia|done..].
Qed.

(** C33: [gfx_printf] on a format made of text and of the supported conversions, with the matching
    arguments, performs the conversions in order: characters, strings, padded decimal and
    hexadecimal numbers and colour changes, each of which takes its own argument. *)
Theorem gfx_printf_correct (g : gfx) (ds : list directive) :
  gfx_con_init_done g = true -> mute (gfx_con g) = false ->
  Forall directive_ok ds -> Forall args_ok ds ->
  gfx_printf (concat (map fmt_of ds)) (concat (map args_of ds)) g =
    (Ret tt, fold_left (fun g d => obey d g) ds g).
Proof.
  intros Hi Hm Hok Hv. unfold gfx_printf. rewrite Hi, Hm. simpl negb. cbn [orb].
  apply printf_loop_directives; [lia|done..].
Qed.

(** ** The pen *)

(** The pen is never moved to a new line by a character, only by a line feed:
    text longer than a line runs over the right edge, and on the last line of
    the 720 x 1280 screen it is written behind the frame buffer. *)
Definition screen : gfx :=
  gfx_con_init (gfx_init_ctxt ∅ 720 1280 720 (mk_gfx (mk_gfx_ctxt ∅ 0 0 0)
    (mk_gfx_con 0 0 0 0 0 0 0 0 false) false)).

Lemma putc_past_last_line :
  fb (gfx_ctxt (gfx_putc 65 (gfx_con_setpos 720 1264 screen))) !! (720 * 1280) = Some 0xFF1B1B1B.
Proof. vm_compute. reflexivity. Qed.

(** The last, incomplete row of a hex dump: it is padded by one column too
    many, and the text column lacks the last byte (here the 'C'). *)
Definition dumped : gfx := gfx_con_setcol 1 0 0 (set_con (with_fntsz 8 (gfx_con screen)) screen).

Lemma hexdump_drops_last_byte :
  gfx_hexdump 0 [65; 66; 67] 3 dumped =
    (Ret tt, putc_all (chars "00000000: 41 42 43 " ++ concat (replicate 14 (chars "   "))
                       ++ chars "| AB" ++ [10; 10]) dumped).
Proof. vm_compute. reflexivity. Qed.

(** ** Witnesses *)

Lemma gfx_line_correct_witness :
  exists path,
    gfx_line 8 3 5 10 2 7 screen = (Ret tt, draw 7 path screen) /\
    path !! 0%nat = Some (3, 5) /\ path !! 7%nat = Some (10, 2).
Proof.
  destruct (gfx_line_correct screen 8 3 5 10 2 7) as (path & E & _ & H1 & H2 & _);
    [vm_compute; lia|]. eauto.
Defined.

Lemma gfx_render_bmp_correct_witness :
  exists m, gfx_render_bmp_argb [1; 2; 3; 4; 5; 6] 3 2 100 200 screen = (Ret tt, set_fb m screen) /\
    m !! (100 + 200 * 720) = Some 4 /\ m !! (102 + 201 * 720) = Some 3.
Proof.
  destruct (gfx_render_bmp_correct screen [1; 2; 3; 4; 5; 6] 3 2 100 200) as (m & E & Hm);
    [unfold in_fb; simpl; lia|done|].
  exists m. split; [done|]. simpl stride in Hm. split; apply Hm; lia.
Defined.

Lemma gfx_putc_glyph_witness :
  exists m, gfx_putc 65 screen = set_con (with_pos 16 0 (gfx_con screen)) (set_fb m screen) /\
    m !! (4 + 2 * 720) = colour (gfx_con screen) (Z.testbit (nth 1 (glyph 65) 0) 2) None.
Proof.
  destruct (gfx_putc_glyph screen 65) as (m & E & Hm);
    [lia|by right|simpl; lia|simpl; lia|simpl; lia|simpl; lia|].
  exists m. split; [done|]. apply (Hm 4 2); simpl; lia.
Defined.

Lemma gfx_putn_correct_witness :
  exists ds, _gfx_putn 0xBEEF 16 48 8 screen =
    (Ret tt, gfx_puts (Some (replicate (Z.to_nat (8 - Z.of_nat (length ds))) 48 ++ map digit ds)) screen)
    /\ horner 16 ds = 0xBEEF.
Proof.
  destruct (gfx_putn_correct screen 0xBEEF 16 48 8) as (ds & E & H & _); [lia..|]. eauto.
Defined.

Lemma gfx_printf_correct_witness :
  gfx_printf (chars "%k%08x: %s") [VaU32 1; VaU32 0xBEEF; VaStr (Some [65])] screen =
    (Ret tt, fold_left (fun g d => obey d g)
       [DFg 1; DHex (Fill 48 8) 0xBEEF; DText 58; DText 32; DStr (Some [65])] screen).
Proof.
  apply (gfx_printf_correct screen
    [DFg 1; DHex (Fill 48 8) 0xBEEF; DText 58; DText 32; DStr (Some [65])]);
    [done|done|..]; repeat constructor; simpl; lia.
Defined.
