(* ===== verification/Compr.v ===== *)
(** * Compr

    The decompressors of bdk/libs/compr: the LZ77 decoder of lz.c and the
    backwards, in place decoder of blz.c. *)

From S2P Require Import Prelude Mem.

(** ** lz.c

    The input is what is left of it, [in[inpos..insize)]; the output is the
    bytes written so far.  A read past the input, or from before the output,
    is an overrun. *)
Module Lz.

(** The do-while loop of [_LZ_ReadVarSize]: the value and the rest. *)
Fixpoint _LZ_ReadVarSize (y : Z) (inp : list Z) : outcome (Z * list Z) :=
  match inp with
  | [] => Overrun
  | b :: inp =>
      let y := Z.lor (u32 (Z.shiftl y 7)) (Z.land b 0x7f) in
      if c_true (Z.land b 0x80) then _LZ_ReadVarSize y inp else Ret (y, inp)
  end.

(** The copy from the history window, [n] bytes. *)
Fixpoint copy_history (n : nat) (offset : Z) (out : list Z) : outcome (list Z) :=
  match n with
  | O => Ret out
  | S n =>
      let i := Z.of_nat (length out) - offset in
      if i <? 0 then Overrun
      else match out !! Z.to_nat i with
           | None => Overrun
           | Some b => copy_history n offset (out ++ [b])
           end
  end.

(** One round of the main loop: the input and output after it. *)
Definition lz_round (marker : Z) (inp out : list Z) : outcome (list Z * list Z) :=
  match inp with
  | [] => Overrun
  | symbol :: inp =>
      if symbol =? marker then
        match inp with
        | [] => Overrun
        | b :: inp' =>
            if b =? 0 then Ret (inp', out ++ [marker])
            else
              match _LZ_ReadVarSize 0 inp with
              | Ret (len, inp) =>
                  match _LZ_ReadVarSize 0 inp with
                  | Ret (offset, inp) =>
                      match copy_history (Z.to_nat len) offset out with
                      | Ret out => Ret (inp, out)
                      | Overrun => Overrun
                      | NoFuel => NoFuel
                      end
                  | Overrun => Overrun
                  | NoFuel => NoFuel
                  end
              | Overrun => Overrun
              | NoFuel => NoFuel
              end
        end
      else Ret (inp, out ++ [symbol])
  end.

(** [do ... while (inpos < insize)] *)
Fixpoint lz_loop (fuel : nat) (marker : Z) (inp out : list Z) : outcome (list Z) :=
  match fuel with
  | O => NoFuel
  | S fuel =>
      match lz_round marker inp out with
      | Ret (inp, out) => match inp with [] => Ret out | _ => lz_loop fuel marker inp out end
      | Overrun => Overrun
      | NoFuel => NoFuel
      end
  end.

(** The output; its length is the value returned.  The positions of the source
    are the lengths of what has been read and written; as u32 they are the same
    for buffers below 4 GB, and the console has 4 GB of memory. *)
Definition LZ_Uncompress (inp : list Z) : outcome (list Z) :=
  match inp with
  | [] => Ret []
  | marker :: rest => lz_loop (length inp) marker rest []
  end.

(** ** The format *)

Inductive token := Lit (b : Z) | Marker | Ref (len offset : Z).

(** A number in base 128, most significant digit first, the high bit set on
    all digits but the last. *)
Fixpoint var_digits (fuel : nat) (n : Z) (acc : list Z) : list Z :=
  match fuel with
  | O => acc
  | S fuel => if n =? 0 then acc else var_digits fuel (n / 128) (n mod 128 + 128 :: acc)
  end.
Definition var_size (n : Z) : list Z := var_digits 5 (n / 128) [n mod 128].

Definition encode_token (marker : Z) (t : token) : list Z :=
  match t with
  | Lit b => [b]
  | Marker => [marker; 0]
  | Ref len offset => marker :: var_size len ++ var_size offset
  end.

(** The bytes a token stands for behind the output [out]; a reference may
    overlap the bytes it produces. *)
Fixpoint history (n offset : nat) (out : list Z) : list Z :=
  match n with
  | O => out
  | S n => history n offset (out ++ [nth (length out - offset) out 0])
  end.
Definition expand_token (marker : Z) (out : list Z) (t : token) : list Z :=
  match t with
  | Lit b => out ++ [b]
  | Marker => out ++ [marker]
  | Ref len offset => history (Z.to_nat len) (Z.to_nat offset) out
  end.

Fixpoint valid (marker : Z) (out : list Z) (ts : list token) : Prop :=
  match ts with
  | [] => True
  | t :: ts =>
      match t with
      | Lit b => b <> marker
      | Marker => True
      | Ref len offset =>
          0 < len < 4294967296 /\ 0 < offset <= Z.of_nat (length out) /\ offset < 4294967296
      end /\ valid marker (expand_token marker out t) ts
  end.

Definition encode (marker : Z) (ts : list token) : list Z :=
  marker :: concat (map (encode_token marker) ts).
Definition expand (marker : Z) (ts : list token) : list Z :=
  fold_left (expand_token marker) ts [].

(** *** Numbers *)

(** A property of bytes that is decided by trying all of them. *)
Lemma byte_check (f : Z -> bool) b :
  forallb (fun i => f (Z.of_nat i)) (seq 0 256) = true -> 0 <= b < 256 -> f b = true.
Proof.
  intros Hf Hb. rewrite forallb_forall in Hf. rewrite <- (Z2Nat.id b) by lia.
  apply Hf, in_seq. lia.
Qed.

Lemma high_bit b : 0 <= b < 256 -> c_true (Z.land b 0x80) = (128 <=? b).
Proof.
  intros Hb. apply eqb_prop.
  apply (byte_check (fun b => eqb (c_true (Z.land b 0x80)) (128 <=? b))); [by vm_compute|done].
Qed.

Lemma low_bits b : Z.land b 0x7f = b mod 128.
Proof. change 0x7f with (Z.ones 7). by rewrite Z.land_ones. Qed.

(** One digit joined to the number read so far. *)
Lemma join_digit n : 0 <= n < 4294967296 ->
  Z.lor (u32 (Z.shiftl (n / 128) 7)) (n mod 128) = n.
Proof.
  intros Hn. rewrite Z.shiftl_mul_pow2 by lia. change (2 ^ 7) with 128.
  pose proof (Z.div_mod n 128 ltac:(lia)). pose proof (Z.mod_pos_bound n 128 ltac:(lia)).
  rewrite u32_id by lia.
  rewrite <- (Z.shiftl_mul_pow2 _ 7) by lia.
  assert (Hz : Z.land (Z.shiftl (n / 128) 7) (n mod 128) = 0).
  { apply Z.bits_inj'. intros i Hi. rewrite Z.land_spec, Z.bits_0.
    destruct (Z.lt_ge_cases i 7).
    - by rewrite Z.shiftl_spec_low by lia.
    - change 128 with (2 ^ 7). by rewrite Z.mod_pow2_bits_high, andb_false_r by lia. }
  rewrite <- Z.lxor_lor, <- Z.add_nocarry_lxor by done.
  rewrite Z.shiftl_mul_pow2 by lia. change (2 ^ 7) with 128. lia.
Qed.

Lemma read_digits fuel : forall n acc, 0 <= n < 128 ^ Z.of_nat fuel -> n < 4294967296 ->
  _LZ_ReadVarSize 0 (var_digits fuel n acc) = _LZ_ReadVarSize n acc.
Proof.
  induction fuel as [|fuel IH]; intros n acc Hn Hmax.
  - simpl in Hn. by replace n with 0 by lia.
  - simpl var_digits. destruct (Z.eqb_spec n 0) as [->|Hnz]; [done|].
    rewrite Nat2Z.inj_succ, Z.pow_succ_r in Hn by lia.
    pose proof (Z.div_mod n 128 ltac:(lia)). pose proof (Z.mod_pos_bound n 128 ltac:(lia)).
    rewrite IH by lia. cbn [_LZ_ReadVarSize].
    rewrite high_bit, (proj2 (Z.leb_le 128 _)), low_bits by lia.
    replace ((n mod 128 + 128) mod 128) with (n mod 128) by zdm. by rewrite join_digit by lia.
Qed.

Lemma var_digits_app fuel : forall n acc rest,
  var_digits fuel n acc ++ rest = var_digits fuel n (acc ++ rest).
Proof.
  induction fuel as [|fuel IH]; intros n acc rest; [done|]. simpl. destruct (n =? 0); [done|]. apply IH.
Qed.

Lemma read_var_size n rest : 0 <= n < 4294967296 ->
  _LZ_ReadVarSize 0 (var_size n ++ rest) = Ret (n, rest).
Proof.
  intros Hn. unfold var_size. rewrite var_digits_app. rewrite read_digits by
    (change (128 ^ Z.of_nat 5) with 34359738368; zdm).
  cbn [app _LZ_ReadVarSize]. pose proof (Z.mod_pos_bound n 128 ltac:(lia)).
  rewrite high_bit, (proj2 (Z.leb_gt 128 _)), low_bits, Z.mod_small by lia.
  by rewrite join_digit.
Qed.

(** The first byte of a positive number is not the zero that stands for the
    marker itself. *)
Lemma var_digits_head fuel : forall n acc b,
  (forall x, head acc = Some x -> 0 < x) -> 0 <= n ->
  head (var_digits fuel n acc) = Some b -> 0 < b.
Proof.
  induction fuel as [|fuel IH]; intros n acc b Hacc Hn; simpl; [apply Hacc|].
  destruct (Z.eqb_spec n 0); [apply Hacc|].
  apply IH; [|zdm]. intros x Hx. simplify_eq/=. pose proof (Z.mod_pos_bound n 128 ltac:(lia)). lia.
Qed.

Lemma var_size_head n : 0 < n -> exists b t, var_size n = b :: t /\ b <> 0.
Proof.
  intros Hn. unfold var_size. destruct (Z.eq_dec (n / 128) 0) as [E|E].
  - rewrite E. simpl. do 2 eexists. split; [done|]. zdm.
  - cbn [var_digits]. rewrite (proj2 (Z.eqb_neq _ 0)) by done.
    set (acc := _ :: _). assert (Hacc : forall x, head acc = Some x -> 0 < x).
    { intros x Hx. subst acc. simplify_eq/=. zdm. }
    destruct (var_digits 4 (n / 128 / 128) acc) as [|b t] eqn:Ed.
    + exfalso. assert (Hne : forall f m a, a <> [] -> var_digits f m a <> []).
      { induction f as [|f IH]; intros m a Ha; simpl; [done|]. destruct (m =? 0); [done|]. by apply IH. }
      by apply (Hne 4%nat (n / 128 / 128) acc).
    + exists b, t. split; [done|].
      assert (0 < b); [|lia]. eapply (var_digits_head 4); [exact Hacc| |by rewrite Ed]. zdm.
Qed.

(** *** Decoding *)

Lemma copy_history_spec n : forall offset out, 0 < offset <= Z.of_nat (length out) ->
  copy_history n offset out = Ret (history n (Z.to_nat offset) out).
Proof.
  induction n as [|n IH]; intros offset out Ho; [done|]. simpl.
  rewrite (proj2 (Z.ltb_ge _ 0)) by lia.
  replace (Z.to_nat (Z.of_nat (length out) - offset)) with (length out - Z.to_nat offset)%nat by lia.
  destruct (lookup_lt_is_Some_2 out (length out - Z.to_nat offset)) as [b Hb]; [lia|].
  rewrite Hb, nth_lookup, Hb. simpl. apply IH. rewrite length_app. simpl. lia.
Qed.

Lemma lz_round_token marker t out rest ts :
  valid marker out (t :: ts) ->
  lz_round marker (encode_token marker t ++ rest) out = Ret (rest, expand_token marker out t).
Proof.
  intros [Ht _]. destruct t as [b| |len offset]; simpl.
  - by rewrite (proj2 (Z.eqb_neq b marker)).
  - by rewrite Z.eqb_refl.
  - rewrite Z.eqb_refl. destruct Ht as (Hl & Ho & Ho').
    destruct (var_size_head len) as (b & t & E & Hb); [lia|].
    rewrite <- app_assoc. pose proof (read_var_size len (var_size offset ++ rest) ltac:(lia)) as R1.
    rewrite E in R1 |- *. rewrite <- app_comm_cons in R1 |- *.
    rewrite (proj2 (Z.eqb_neq b 0)) by done. rewrite R1.
    rewrite read_var_size, copy_history_spec by lia. done.
Qed.

Lemma encode_token_length marker t : (1 <= length (encode_token marker t))%nat.
Proof. destruct t; simpl; lia. Qed.

Lemma lz_loop_tokens ts : forall fuel marker out, ts <> [] ->
  (length (concat (map (encode_token marker) ts)) <= fuel)%nat -> valid marker out ts ->
  lz_loop fuel marker (concat (map (encode_token marker) ts)) out =
    Ret (fold_left (expand_token marker) ts out).
Proof.
  induction ts as [|t ts IH]; intros fuel marker out Hne Hf Hv; [done|].
  simpl map in *. simpl concat in *. rewrite length_app in Hf. pose proof (encode_token_length marker t).
  destruct fuel as [|fuel]; [lia|]. cbn [lz_loop]. rewrite (lz_round_token _ _ _ _ ts) by done.
  destruct Hv as [_ Hv]. destruct ts as [|t' ts]; [done|].
  pose proof (encode_token_length marker t').
  destruct (concat (map (encode_token marker) (t' :: ts))) as [|x l] eqn:E.
  - simpl in E. apply (f_equal length) in E. rewrite length_app in E. simpl in E. lia.
  - rewrite <- E in *. apply IH; [done|lia|done].
Qed.

(** C34: [LZ_Uncompress] inverts the LZ77 encoding: on the encoding of any sequence of literals,
    marker bytes and back references into the output (overlapping ones included), whose numbers
    fit in 32 bits, it returns exactly the bytes the sequence stands for. *)
Theorem lz_roundtrip (marker : Z) (ts : list token) :
  ts <> [] -> valid marker [] ts ->
  LZ_Uncompress (encode marker ts) = Ret (expand marker ts).
Proof.
  intros Hne Hv. unfold LZ_Uncompress, encode, expand. apply lz_loop_tokens; [done|simpl; lia|done].
Qed.

(** An input of the marker alone is read past its end. *)
Lemma lz_single_byte_overruns marker : LZ_Uncompress [marker] = Overrun.
Proof. done. Qed.

Lemma lz_roundtrip_witness :
  LZ_Uncompress [7; 1; 2; 7; 5; 2; 7; 0] = Ret [1; 2; 1; 2; 1; 2; 1; 7].
Proof.
  apply (lz_roundtrip 7 [Lit 1; Lit 2; Ref 5 2; Marker]); [done|]. simpl. lia.
Defined.

End Lz.

(** ** blz.c *)
Module Blz.

Record blz_footer := mk_footer { cmp_and_hdr_size : Z; header_size : Z; addl_size : Z }.
Definition sizeof_footer : Z := 12.

(** The footer at the end of the data, [None] where a null pointer is
    returned. *)
Definition blz_get_footer (m : mem) (compData compDataLen : Z) : option (Z * blz_footer) :=
  if compDataLen <? sizeof_footer then None
  else
    let p := compData + (compDataLen - sizeof_footer) in
    Some (p, mk_footer (ld32 m p) (ld32 m (p + 4)) (ld32 m (p + 8))).

(** The address of [base[ofs]] in a 32 bit address space. *)
Definition at_ofs (base ofs : Z) : Z := u32 (base + ofs).

(** [for (j = 0; j < seg_size; j++)]: [n] bytes are left. *)
Fixpoint copy_seg (n : nat) (base out_ofs seg_ofs j : Z) (m : mem) : mem :=
  match n with
  | O => m
  | S n =>
      copy_seg n base out_ofs seg_ofs (j + 1)
        (st8 m (at_ofs base (out_ofs + j)) (ld8 m (at_ofs base (out_ofs + j + seg_ofs))))
  end.

(** A step of the loop over the bits of [control]: the new offsets and memory,
    or the value returned. *)
Inductive step_result := Return (r : Z) (m : mem) | Continue (m : mem) (cmp_ofs out_ofs : Z).

Definition blz_bit (base : Z) (bit : bool) (m : mem) (cmp_ofs out_ofs : Z) : step_result :=
  let next m cmp_ofs out_ofs :=
    if out_ofs =? 0 then Return 1 m else Continue m cmp_ofs out_ofs in
  if bit then
    if cmp_ofs <? 2 then Return 0 m
    else
      let cmp_ofs := cmp_ofs - 2 in
      let seg_val := Z.lor (Z.shiftl (ld8 m (at_ofs base (cmp_ofs + 1))) 8) (ld8 m (at_ofs base cmp_ofs)) in
      let seg_size := Z.land (Z.shiftr seg_val 12) 0xF + 3 in
      let seg_ofs := Z.land seg_val 0x0FFF + 3 in
      let seg_size := if out_ofs <? seg_size then out_ofs else seg_size in
      let out_ofs := out_ofs - seg_size in
      next (copy_seg (Z.to_nat seg_size) base out_ofs seg_ofs 0 m) cmp_ofs out_ofs
  else
    if cmp_ofs <? 1 then Return 0 m
    else
      let out_ofs := out_ofs - 1 in
      let cmp_ofs := cmp_ofs - 1 in
      next (st8 m (at_ofs base out_ofs) (ld8 m (at_ofs base cmp_ofs))) cmp_ofs out_ofs.

(** [for (i = 0; i < 8; i++)], [n] rounds left. *)
Fixpoint blz_bits (n : nat) (base control : Z) (m : mem) (cmp_ofs out_ofs : Z) : step_result :=
  match n with
  | O => Continue m cmp_ofs out_ofs
  | S n =>
      match blz_bit base (c_true (Z.land control 0x80)) m cmp_ofs out_ofs with
      | Return r m => Return r m
      | Continue m cmp_ofs out_ofs => blz_bits n base (u8 (Z.shiftl control 1)) m cmp_ofs out_ofs
      end
  end.

(** [while (out_ofs)] *)
Fixpoint blz_loop (fuel : nat) (base : Z) (m : mem) (cmp_ofs out_ofs : Z) : outcome (Z * mem) :=
  if out_ofs =? 0 then Ret (1, m)
  else match fuel with
  | O => NoFuel
  | S fuel =>
      let cmp_ofs := u32 (cmp_ofs - 1) in
      let control := ld8 m (at_ofs base cmp_ofs) in
      match blz_bits 8 base control m cmp_ofs out_ofs with
      | Return r m => Ret (r, m)
      | Continue m cmp_ofs out_ofs => blz_loop fuel base m cmp_ofs out_ofs
      end
  end.

Definition blz_uncompress_inplace (fuel : nat) (m : mem) (dataBuf compSize : Z) (f : blz_footer)
    : outcome (Z * mem) :=
  let cmp_start := dataBuf + compSize - cmp_and_hdr_size f in
  blz_loop fuel cmp_start m (u32 (cmp_and_hdr_size f - header_size f))
    (u32 (cmp_and_hdr_size f + addl_size f)).

Definition blz_uncompress_srcdest (fuel : nat) (m : mem) (compData compDataLen dstData dstSize : Z)
    : outcome (Z * mem) :=
  match blz_get_footer m compData compDataLen with
  | None => Ret (0, m)
  | Some (p, footer) =>
      let n := p - compData in
      let m := memcpy m dstData compData (Z.to_nat n) in
      let m := memset m (dstData + n) 0 (Z.to_nat (u32 (dstSize - n))) in
      blz_uncompress_inplace fuel m dstData compDataLen footer
  end.

(** *** Writes stay in the output *)

(** [m'] differs from [m] only in [base, base + n). *)
Definition within (base n : Z) (m m' : mem) : Prop :=
  forall a, ~ (base <= a < base + n) -> ld8 m' a = ld8 m a.

Lemma within_refl base n m : within base n m m.
Proof. done. Qed.

Lemma within_trans base n m1 m2 m3 : within base n m1 m2 -> within base n m2 m3 -> within base n m1 m3.
Proof. intros H1 H2 a Ha. rewrite H2, H1; done. Qed.

Section area.
Context (base n : Z) (Hbase : 0 <= base) (Hn : base + n <= 4294967296).

Lemma within_st8 m ofs v : 0 <= ofs < n -> within base n m (st8 m (at_ofs base ofs) v).
Proof.
  intros Ho a Ha. unfold at_ofs. rewrite u32_id by lia. apply ld8_st8_ne. lia.
Qed.

Lemma copy_seg_within k : forall out_ofs seg_ofs j m,
  0 <= out_ofs -> 0 <= j -> out_ofs + j + Z.of_nat k <= n ->
  within base n m (copy_seg k base out_ofs seg_ofs j m).
Proof.
  induction k as [|k IH]; intros out_ofs seg_ofs j m Ho Hj Hk; simpl; [apply within_refl|].
  eapply within_trans; [|apply IH; lia]. apply within_st8; lia.
Qed.

(** After a step: the memory changed in the output only, and either the end
    was reached or output was produced. *)
Definition step_ok (out_ofs : Z) (m : mem) (r : step_result) : Prop :=
  match r with
  | Return v m' => within base n m m' /\ (v = 0 \/ v = 1)
  | Continue m' _ out_ofs' => within base n m m' /\ 0 < out_ofs' < out_ofs
  end.

Lemma blz_bit_ok bit m cmp_ofs out_ofs : 0 < out_ofs <= n ->
  step_ok out_ofs m (blz_bit base bit m cmp_ofs out_ofs).
Proof.
  intros Ho. unfold blz_bit. destruct bit.
  - destruct (cmp_ofs <? 2); [split; [apply within_refl|by left]|].
    set (sz := Z.land _ 0xF + 3). assert (Hsz : 3 <= sz).
    { subst sz. enough (0 <= Z.land (Z.shiftr (Z.lor (Z.shiftl (ld8 m (at_ofs base (cmp_ofs - 2 + 1))) 8)
        (ld8 m (at_ofs base (cmp_ofs - 2)))) 12) 0xF) by lia. apply Z.land_nonneg. by right. }
    set (seg := if out_ofs <? sz then out_ofs else sz).
    assert (Hseg : 0 < seg <= out_ofs) by (subst seg; zcases; lia).
    set (m' := copy_seg _ _ _ _ _ _).
    assert (Hw : within base n m m') by (subst m'; apply copy_seg_within; lia).
    destruct (Z.eqb_spec (out_ofs - seg) 0); split; [done|by right|done|lia].
  - destruct (cmp_ofs <? 1); [split; [apply within_refl|by left]|].
    assert (Hw : within base n m (st8 m (at_ofs base (out_ofs - 1)) (ld8 m (at_ofs base (cmp_ofs - 1)))))
      by (apply within_st8; lia).
    destruct (Z.eqb_spec (out_ofs - 1) 0); split; [done|by right|done|lia].
Qed.

Lemma blz_bits_ok k : forall control m cmp_ofs out_ofs,
  (0 < k)%nat -> 0 < out_ofs <= n ->
  step_ok out_ofs m (blz_bits k base control m cmp_ofs out_ofs).
Proof.
  induction k as [|k IH]; intros control m cmp_ofs out_ofs Hk Ho; [lia|]. cbn [blz_bits].
  pose proof (blz_bit_ok (c_true (Z.land control 0x80)) m cmp_ofs out_ofs Ho) as H1.
  destruct (blz_bit _ _ _ _ _) as [v m1|m1 c1 o1]; [done|]. destruct H1 as [Hw Ho1].
  destruct k as [|k]; [done|].
  pose proof (IH (u8 (Z.shiftl control 1)) m1 c1 o1 ltac:(lia) ltac:(lia)) as H2.
  destruct (blz_bits (S k) _ _ _ _ _) as [v m2|m2 c2 o2]; destruct H2 as [Hw2 H2].
  - split; [by eapply within_trans|done].
  - split; [by eapply within_trans|lia].
Qed.

Lemma blz_loop_ok fuel : forall m cmp_ofs out_ofs,
  0 <= out_ofs <= n -> (Z.to_nat out_ofs <= fuel)%nat ->
  exists v m', blz_loop fuel base m cmp_ofs out_ofs = Ret (v, m') /\
    (v = 0 \/ v = 1) /\ within base n m m'.
Proof.
  induction fuel as [|fuel IH]; intros m cmp_ofs out_ofs Ho Hf; cbn [blz_loop];
    (destruct (Z.eqb_spec out_ofs 0) as [|Hnz]; [do 2 eexists; split; [done|]; split; [by right|apply within_refl]|]);
    [lia|].
  set (control := ld8 m _).
  pose proof (blz_bits_ok 8 control m (u32 (cmp_ofs - 1)) out_ofs ltac:(lia) ltac:(lia)) as H1.
  destruct (blz_bits 8 _ _ _ _ _) as [v m1|m1 c1 o1]; destruct H1 as [Hw H1].
  - do 2 eexists. split; [done|]. done.
  - destruct (IH m1 c1 o1) as (v & m' & E & Hv & Hw'); [lia|lia|].
    exists v, m'. split; [done|]. split; [done|]. by eapply within_trans.
Qed.

End area.

(** Whatever the compressed data and its footer hold, the in place decoder returns 0 or 1, and
    it writes only to the output that the footer announces: the bytes from the start of the
    compressed data on, as many as the sum of the compressed and the additional size. *)
Theorem blz_inplace_safe (m : mem) (dataBuf compSize : Z) (f : blz_footer) (fuel : nat) :
  let n := u32 (cmp_and_hdr_size f + addl_size f) in
  let cmp_start := dataBuf + compSize - cmp_and_hdr_size f in
  0 <= cmp_start -> cmp_start + n <= 4294967296 -> (Z.to_nat n <= fuel)%nat ->
  exists v m', blz_uncompress_inplace fuel m dataBuf compSize f = Ret (v, m') /\
    (v = 0 \/ v = 1) /\ within cmp_start n m m'.
Proof.
  intros n cmp_start Hs He Hf. unfold blz_uncompress_inplace. fold n cmp_start.
  pose proof (u32_range (cmp_and_hdr_size f + addl_size f)) as Hr. fold n in Hr.
  apply blz_loop_ok; lia.
Qed.

(** The check for the end of the data comes after a control byte is read: with
    nothing left, the byte before the data is taken for one. *)
Lemma blz_underread base : 0 < base < 4294967296 -> at_ofs base (u32 (0 - 1)) = base - 1.
Proof. intros Hb. unfold at_ofs, u32. zdm. Qed.

(** Three literals and a back reference, decoded in place. *)
Definition packed : mem := st_bytes ∅ 0x1000 [0; 0; 7; 8; 9; 0x10].

Lemma blz_inplace_safe_witness :
  exists m', blz_uncompress_inplace 6 packed 0x1000 6 (mk_footer 6 0 0) = Ret (1, m') /\
    ld_bytes m' 0x1000 6 = [7; 8; 9; 7; 8; 9] /\ ld8 m' 0xFFF = ld8 packed 0xFFF.
Proof.
  assert (Hr : exists m', blz_uncompress_inplace 6 packed 0x1000 6 (mk_footer 6 0 0) = Ret (1, m') /\
    ld_bytes m' 0x1000 6 = [7; 8; 9; 7; 8; 9]) by (eexists; split; vm_compute; reflexivity).
  destruct (blz_inplace_safe packed 0x1000 6 (mk_footer 6 0 0) 6) as (v & m' & E & _ & Hw);
    [vm_compute; done|vm_compute; done|vm_compute; lia|].
  destruct Hr as (m1 & E1 & Hb). rewrite E in E1. injection E1 as -> ->.
  exists m1. split; [exact E|]. split; [exact Hb|]. apply Hw. vm_compute. intros [H _]. by apply H.
Defined.
End Blz.
