(* ===== verification/Sprintf.v ===== *)
(** * Sprintf

    bdk/utils/sprintf.c: formatted output to memory.  The scanning of the
    format and the conversion of numbers are the same code as in
    bootloader/gfx/gfx.c, and so are their definitions here. *)

From stdpp Require Import strings.
From S2P Require Import Prelude Mem Gfx.
#[local] Open Scope Z_scope.

(** The memory and [*sout_buf]. *)
Record sout := Sout { s_mem : mem; s_pos : Z }.

Definition _s_putc (c : Z) (s : sout) : sout := Sout (st8 (s_mem s) (s_pos s) c) (s_pos s + 1).

Definition _s_puts (str : list Z) (s : sout) : sout := fold_left (fun s c => _s_putc c s) str s.

Definition _s_putn (v base fill fcnt : Z) : M sout unit := fun s =>
  if 36 <? base then (Ret tt, s)
  else
    match putn_text v base fill fcnt with
    | Ret p => (Ret tt, _s_puts p s)
    | Overrun => (Overrun, s)
    | NoFuel => (NoFuel, s)
    end.

(** The switch on the conversion character; the colour conversions do nothing. *)
Definition s_conv (c fill fcnt : Z) (ap : list va) : M sout (list va) :=
  if c =? 99 then
    match ap with VaU32 v :: ap => modify (_s_putc (u8 v));; mret ap | _ => overrun end
  else if c =? 115 then
    match ap with VaStr (Some s) :: ap => modify (_s_puts s);; mret ap | _ => overrun end
  else if c =? 100 then
    match ap with VaU32 v :: ap => _s_putn v 10 fill fcnt;; mret ap | _ => overrun end
  else if is_hex c then
    match ap with VaU32 v :: ap => _s_putn v 16 fill fcnt;; mret ap | _ => overrun end
  else if (c =? 107) || (c =? 75) then mret ap
  else if c =? 37 then modify (_s_putc 37);; mret ap
  else modify (_s_putc 37);; modify (_s_putc c);; mret ap.

Fixpoint s_loop (fuel : nat) (fmt : list Z) (ap : list va) : M sout unit :=
  match fuel with
  | O => nofuel
  | S fuel =>
      match fmt with
      | [] => mret tt
      | c :: fmt =>
          if c =? 37 then
            let '(fill, fcnt, fmt) := printf_width fmt in
            match fmt with
            | [] => mret tt
            | c :: fmt => ap ← s_conv c fill fcnt ap; s_loop fuel fmt ap
            end
          else modify (_s_putc c);; s_loop fuel fmt ap
      end
  end.

Definition s_printf (out_buf : Z) (fmt : list Z) (ap : list va) : M mem unit := fun m =>
  let '(o, s) := (s_loop (S (length fmt)) fmt ap;; modify (_s_putc 0)) (Sout m out_buf) in
  (o, s_mem s).

(** ** Properties *)

(** The text of a directive; the ones this routine supports with an argument
    that is not a null pointer. *)
Definition text_of (d : directive) : list Z :=
  match d with
  | DText c => [c]
  | DChar v => [u8 v]
  | DStr s => default [] s
  | DDec p v => number 10 v (pad_fill p) (pad_width p)
  | DHex p v => number 16 v (pad_fill p) (pad_width p)
  | DFg _ | DBg _ => []
  | DPercent => [37]
  end.

Definition supported (d : directive) : Prop :=
  match d with
  | DFg _ | DBg _ => False
  | DStr s => is_Some s
  | _ => True
  end.

Lemma s_putn_number (s : sout) (v base fill fcnt : Z) :
  2 <= base <= 36 -> 0 <= v < 4294967296 -> 0 <= fill < 256 -> fcnt <= 64 ->
  _s_putn v base fill fcnt s = (Ret tt, _s_puts (number base v fill fcnt) s).
Proof.
  intros Hb Hv Hf Hc. unfold _s_putn. rewrite (proj2 (Z.ltb_ge 36 base)) by lia.
  by rewrite putn_text_number.
Qed.

(** One round of the format loop writes the text of one directive. *)
Lemma s_round fuel d rest ap s : directive_ok d -> args_ok d -> supported d ->
  s_loop (S fuel) (fmt_of d ++ rest) (args_of d ++ ap) s = s_loop fuel rest ap (_s_puts (text_of d) s).
Proof.
  intros Hok Hv Hs. destruct d as [c|v|str|p v|p v|v|v|]; try done;
    cbn [directive_ok args_ok supported] in *; cbn [s_loop fmt_of args_of app text_of Z.eqb Pos.eqb].
  - by rewrite (proj2 (Z.eqb_neq c 37)).
  - by destruct Hs as [str' ->].
  - rewrite <- app_assoc. change (chars "d" ++ rest) with (100 :: rest).
    rewrite printf_width_pad by done.
    pose proof (pad_ranges p Hok). unfold s_conv, mbind, M_bind. simpl.
    by rewrite s_putn_number by (done || lia).
  - rewrite <- app_assoc. change (chars "x" ++ rest) with (120 :: rest).
    rewrite printf_width_pad by done.
    pose proof (pad_ranges p Hok). unfold s_conv, mbind, M_bind. simpl.
    by rewrite s_putn_number by (done || lia).
Qed.

Lemma s_puts_app t1 t2 s : _s_puts (t1 ++ t2) s = _s_puts t2 (_s_puts t1 s).
Proof. apply fold_left_app. Qed.

Lemma s_puts_mem t : forall s,
  _s_puts t s = Sout (st_bytes (s_mem s) (s_pos s) t) (s_pos s + Z.of_nat (length t)).
Proof.
  induction t as [|c t IH]; intros [m p]; simpl.
  - f_equal. lia.
  - unfold _s_puts in *. simpl. rewrite IH. simpl. f_equal. lia.
Qed.

Lemma s_loop_directives ds : forall fuel s, (length (concat (map fmt_of ds)) < fuel)%nat ->
  Forall directive_ok ds -> Forall args_ok ds -> Forall supported ds ->
  s_loop fuel (concat (map fmt_of ds)) (concat (map args_of ds)) s =
    (Ret tt, _s_puts (concat (map text_of ds)) s).
Proof.
  induction ds as [|d ds IH]; intros fuel s Hf Hok Hv Hs; (destruct fuel as [|fuel]; [lia|]); [done|].
  inversion_clear Hok. inversion_clear Hv. inversion_clear Hs. simpl map in *. simpl concat in *.
  rewrite length_app in Hf. pose proof (fmt_of_length d).
  rewrite s_round by done. rewrite s_puts_app. apply IH; [lia|done..].
Qed.

(** [s_printf] on a format made of text and of the conversions it supports, with the matching
    arguments, writes the text of the conversions in order and a terminating zero to the buffer,
    and nothing else. *)
Theorem s_printf_correct (m : mem) (out_buf : Z) (ds : list directive) :
  Forall directive_ok ds -> Forall args_ok ds -> Forall supported ds ->
  s_printf out_buf (concat (map fmt_of ds)) (concat (map args_of ds)) m =
    (Ret tt, st_bytes m out_buf (concat (map text_of ds) ++ [0])).
Proof.
  intros Hok Hv Hs. unfold s_printf.
  rewrite (bind_run _ _ _ tt (_s_puts (concat (map text_of ds)) (Sout m out_buf)))
    by (apply s_loop_directives; [lia|done..]).
  change (modify (_s_putc 0) ?s) with (Ret tt, _s_puts [0] s).
  rewrite <- s_puts_app, s_puts_mem. reflexivity.
Qed.

(** The colour conversions leave their argument to the next conversion: what
    [gfx_printf] prints as the number 5 appears here as the colour. *)
Lemma s_printf_colour_shifts :
  s_printf 0x1000 (chars "%k%d") [VaU32 42; VaU32 5] ∅ =
    (Ret tt, st_bytes ∅ 0x1000 (chars "42" ++ [0])).
Proof. vm_compute. reflexivity. Qed.

Lemma s_printf_correct_witness :
  s_printf 0x1000 (chars "%s=%02x%%") [VaStr (Some [65]); VaU32 11] ∅ =
    (Ret tt, st_bytes ∅ 0x1000 (chars "A=0B%" ++ [0])).
Proof.
  apply (s_printf_correct ∅ 0x1000 [DStr (Some [65]); DText 61; DHex (Fill 48 2) 11; DPercent]);
    repeat constructor; simpl; try lia. by exists [65].
Defined.
