(* ===== verification/Fuse.v ===== *)
(** * Fuse

    bdk/soc/fuse.c and [hw_get_chip_id] of bdk/soc/hw_init.c: the fuse
    registers, the reading of the fuse array, the error correcting codes of the
    boot ROM patches stored there, and the test for a patched boot ROM that
    decides how [Boot.leave] goes on. *)

From Stdlib Require Import Btauto.
From S2P Require Import Prelude Mem I2c.

(** ** Registers *)

Definition FUSE (off : Z) : Z := 0x7000F800 + off.
Definition FUSE_CTRL : Z := 0x0.
Definition FUSE_ADDR : Z := 0x4.
Definition FUSE_RDATA : Z := 0x8.
Definition FUSE_DISABLEREGPROGRAM : Z := 0x2C.
Definition FUSE_FIRST_BOOTROM_PATCH_SIZE : Z := 0x19C.
Definition FUSE_RESERVED_SW : Z := 0x1C0.
Definition FUSE_RESERVED_ODMX (x : Z) : Z := 0x1C8 + 4 * x.
Definition FUSE_READ : Z := 1.
Definition FUSE_CMD_MASK : Z := 3.
Definition APB_MISC_GP_HIDREV : Z := 0x70000000 + 0x804.
Definition GP_HIDREV_MAJOR_T210 : Z := 1.
Definition GP_HIDREV_MAJOR_T210B01 : Z := 2.

Definition FUSE_NX_HW_TYPE_ICOSA : Z := 0.
Definition FUSE_NX_HW_TYPE_IOWA : Z := 1.
Definition FUSE_NX_HW_TYPE_HOAG : Z := 2.
Definition FUSE_NX_HW_STATE_PROD : Z := 0.
Definition FUSE_NX_HW_STATE_DEV : Z := 1.

(** ** The codes *)

(** [evp_thunk_template] *)
Definition evp_thunk_template : list Z := [
  0xe92d0007; 0xe1a0200e; 0xe2422002; 0xe5922000; 0xe20220ff; 0xe1a02082;
  0xe59f001c; 0xe59f101c; 0xe0411000; 0xe59f0018; 0xe0800001; 0xe0822000;
  0xe3822001; 0xe8bd0003; 0xe12fff12; 0x001007b0; 0x001007f8; 0x40004c30 ].
Definition evp_thunk_template_len : Z := 72.

Definition hash_vals : list Z := [1; 2; 4; 8; 0; 3; 5; 6; 7; 9; 10; 11].

(** The number of set bits, counted in a [u8]. *)
Definition fuse_count_burnt (val : Z) : Z :=
  fold_left (fun n i => if c_true (Z.land (Z.shiftr val i) 1) then u8 (n + 1) else n) (seqZ 0 32) 0.

(** The argument is the words in use, [words[0..count)]; [count] is at least 1. *)
Definition _parity32_even (words : list Z) : Z :=
  let acc := match words with w :: ws => fold_left Z.lxor ws w | [] => 0 end in
  let half := Z.lxor (Z.land acc 0xffff) (Z.shiftr acc 16) in
  let lo := Z.land half 0xff in
  let hi := Z.shiftr half 8 in
  let x := Z.lxor hi lo in
  let nibble := Z.lxor (Z.land x 0xf) (Z.shiftr x 4) in
  let lo := Z.land nibble 3 in
  let hi := Z.shiftr nibble 2 in
  let x := Z.lxor hi lo in
  Z.lxor (Z.land x 1) (Z.shiftr x 1).

(** The hash loop of [_patch_hash_one]. *)
Definition hash_one (word : Z) : Z :=
  fold_left (fun hash '(i, v) => if c_true (Z.land word (BIT (20 + i))) then Z.lxor hash v else hash)
    (zip (seqZ 0 12) hash_vals) 0.

(** The loop that looks for the bit with the given hash. *)
Definition find_hash (hash : Z) : option Z :=
  match List.find (fun '(_, v) => v =? hash) (zip (seqZ 0 12) hash_vals) with
  | Some (i, _) => Some i
  | None => None
  end.

(** The result and [*word]. *)
Definition _patch_hash_one (word : Z) : Z * Z :=
  let bits20_31 := Z.land word 0xfff00000 in
  let parity_bit := _parity32_even [bits20_31] in
  let hash := hash_one word in
  if hash =? 0 then
    if parity_bit =? 0 then (0, word) else (1, Z.lxor word (BIT 24))
  else if parity_bit =? 0 then (3, word)
  else
    match find_hash hash with
    | Some i => (1, Z.lxor word (BIT (20 + i)))
    | None => (2, word)
    end.

(** The bits of word [i], then of all words. *)
Definition hash_word (hash i w : Z) : Z :=
  if c_true w then
    fold_left (fun hash bitpos =>
      if c_true (Z.land (Z.shiftr w bitpos) 1)
      then Z.lxor hash (u32 (0x4000 + i * 32 + bitpos)) else hash) (seqZ 0 32) hash
  else hash.
Fixpoint hash_words (hash i : Z) (words : list Z) {struct words} : Z :=
  match words with
  | [] => hash
  | w :: words => hash_words (hash_word hash i w) (i + 1) words
  end.

(** The result and [words[0..count)]. *)
Definition _patch_hash_multi (words : list Z) : Z * list Z :=
  match words with
  | [] => (0, [])
  | word0 :: rest =>
      let parity_bit := _parity32_even words in
      let bits0_14 := Z.land word0 0x7fff in
      let bit15 := Z.land word0 0x8000 in
      let bits16_19 := Z.land word0 0xf0000 in
      let hash := Z.lxor (hash_words 0 0 (bits16_19 :: rest)) bits0_14 in
      let word0 := Z.lxor (Z.lxor bits16_19 bit15) bits0_14 in
      let words := word0 :: rest in
      if hash =? 0 then
        if parity_bit =? 0 then (0, words) else (1, Z.lxor word0 0x8000 :: rest)
      else if parity_bit =? 0 then (3, words)
      else
        let bitcount := u32 (hash - 0x4000) in
        if (bitcount <? 16) || (Z.of_nat (length words) * 32 <=? bitcount) then
          let num_set := fold_left (fun n bitpos =>
            if c_true (Z.land (Z.shiftr hash bitpos) 1) then n + 1 else n) (seqZ 0 15) 0 in
          if negb (num_set =? 1) then (2, words)
          else (1, Z.lxor word0 hash :: rest)
        else
          (1, alter (fun w => Z.lxor w (BIT (Z.land hash 0x1f))) (Z.to_nat (bitcount / 32)) words)
  end.

(** ** The fuse array *)

Section Fuse.
Context {D : Type} `{Mmio D}.

Definition hw_get_chip_id : M D Z :=
  v ← rd APB_MISC_GP_HIDREV;
  mret (if GP_HIDREV_MAJOR_T210B01 <=? Z.land (Z.shiftr v 4) 0xF
        then GP_HIDREV_MAJOR_T210B01 else GP_HIDREV_MAJOR_T210).

Definition fuse_disable_program : M D unit := wr (FUSE FUSE_DISABLEREGPROGRAM) 1.

Definition fuse_read_odm (idx : Z) : M D Z := rd (FUSE (FUSE_RESERVED_ODMX idx)).

(** The reads of [&&] stop at the first test that fails. *)
Definition has_new_keygen : M D bool :=
  chip ← hw_get_chip_id;
  if chip =? GP_HIDREV_MAJOR_T210B01 then mret true
  else
    odm4 ← fuse_read_odm 4;
    if negb (c_true (Z.land odm4 0x800)) then mret false
    else
      odm0 ← fuse_read_odm 0;
      if negb (odm0 =? 0x8E61ECAE) then mret false
      else odm1 ← fuse_read_odm 1; mret (odm1 =? 0xF2BA3BB2).

Definition fuse_read_odm_keygen_rev : M D Z :=
  new ← has_new_keygen;
  if new : bool then (odm2 ← fuse_read_odm 2; mret (Z.land odm2 0x1F)) else mret 0.

Definition fuse_read_dramid (raw_id : bool) : M D Z :=
  odm4 ← fuse_read_odm 4;
  let dramid := Z.shiftr (Z.land odm4 0xF8) 3 in
  if raw_id then mret dramid
  else
    chip ← hw_get_chip_id;
    if chip =? GP_HIDREV_MAJOR_T210
    then mret (if 6 <? dramid then 0 else dramid)
    else mret (if 27 <? dramid then 8 else dramid).

Definition fuse_read_hw_state : M D Z :=
  odm4 ← fuse_read_odm 4;
  mret (if negb (Z.land odm4 3 =? 3) then FUSE_NX_HW_STATE_PROD else FUSE_NX_HW_STATE_DEV).

Definition fuse_read_hw_type : M D Z :=
  chip ← hw_get_chip_id;
  if chip =? GP_HIDREV_MAJOR_T210B01 then
    odm4 ← fuse_read_odm 4;
    let t := Z.shiftr (Z.land odm4 0xF0000) 16 in
    mret (if t =? 1 then FUSE_NX_HW_TYPE_IOWA
          else if t =? 2 then FUSE_NX_HW_TYPE_HOAG else FUSE_NX_HW_TYPE_ICOSA)
  else mret FUSE_NX_HW_TYPE_ICOSA.

Fixpoint fuse_wait_idle (fuel : nat) : M D unit :=
  match fuel with
  | O => nofuel
  | S fuel =>
      ctrl ← rd (FUSE FUSE_CTRL);
      if negb (Z.land (Z.shiftr ctrl 16) 0x1f =? 4) then fuse_wait_idle fuel else mret tt
  end.

Definition fuse_read (fuel : nat) (addr : Z) : M D Z :=
  wr (FUSE FUSE_ADDR) addr;;
  a ← rd (FUSE FUSE_ADDR);
  wr (FUSE FUSE_CTRL) (Z.lor (Z.land a (u32 (Z.lnot FUSE_CMD_MASK))) FUSE_READ);;
  fuse_wait_idle fuel;;
  rd (FUSE FUSE_RDATA).

(** [n] reads at rising addresses. *)
Fixpoint read_up (fuel n : nat) (addr : Z) {struct n} : M D (list Z) :=
  match n with
  | O => mret []
  | S n => w ← fuse_read fuel addr; ws ← read_up fuel n (addr + 1); mret (w :: ws)
  end.

(** What is stored at [words]. *)
Definition fuse_read_array (fuel : nat) : M D (list Z) :=
  chip ← hw_get_chip_id;
  read_up fuel (if chip =? GP_HIDREV_MAJOR_T210B01 then 256%nat else 192%nat) 0.

(** [words[i] = fuse_read(word_addr--)], [n] times. *)
Fixpoint read_words (fuel n : nat) (word_addr : Z) {struct n} : M D (list Z) :=
  match n with
  | O => mret []
  | S n =>
      w ← fuse_read fuel word_addr;
      ws ← read_words fuel n (u32 (word_addr - 1));
      mret (w :: ws)
  end.

Definition ARRAY_SIZE_words : Z := 80.
Definition ipatch_count (word0 : Z) : Z := Z.land (Z.shiftr word0 16) 0xF.
Definition next_count (word0 : Z) : Z := Z.shiftr word0 25.
Definition ipatch_addr (word : Z) : Z := u32 (Z.shiftr word 16 * 2).

(** The calls of [ipatch] for [words[1..n]]. *)
Definition ipatch_calls (n : nat) (words : list Z) : option (list (Z * Z)) :=
  mapM (fun i => word ← words !! S i; Some (ipatch_addr word, Z.land word 0xFFFF)) (seq 0 n).

(** The loop of [fuse_read_ipatch]: its result and the calls of [ipatch].
    [rounds] bounds the loop, [fuel] the wait of each read. *)
Fixpoint ipatch_loop (rounds fuel : nat) (words : list Z) (word_count word_addr total_read : Z)
    (calls : list (Z * Z)) {struct rounds} : M D (Z * list (Z * Z)) :=
  match rounds with
  | O => nofuel
  | S rounds =>
      if negb (c_true word_count) then mret (0, calls)
      else
        let total_read := u32 (total_read + word_count) in
        if ARRAY_SIZE_words <=? total_read then mret (0, calls)
        else
          new ← read_words fuel (Z.to_nat word_count) word_addr;
          let word_addr := u32 (word_addr - word_count) in
          let word0 := nth 0 new 0 in
          let '(r, used) := _patch_hash_multi new in
          if 2 <=? r then mret (1, calls)
          else
            let words := used ++ drop (length used) words in
            match ipatch_calls (Z.to_nat (ipatch_count (nth 0 words 0))) words with
            | None => overrun
            | Some cs =>
                let words := <[0%nat := word0]> words in
                if next_count word0 =? 0 then mret (0, calls ++ cs)
                else
                  let '(r, word0) := _patch_hash_one word0 in
                  if 2 <=? r then mret (3, calls ++ cs)
                  else ipatch_loop rounds fuel words (next_count word0) word_addr total_read (calls ++ cs)
            end
  end.

(** [words0] is what the array on the stack holds at the start. *)
Definition fuse_read_ipatch (fuel : nat) (words0 : list Z) : M D (Z * list (Z * Z)) :=
  v ← rd (FUSE FUSE_FIRST_BOOTROM_PATCH_SIZE);
  ipatch_loop 81 fuel words0 (Z.land v 0x7F) 191 0 [].

(** *** The thunks *)

(** [iram_evp_thunks] is an address; the state is the memory, [*iram_evp_thunks_len],
    [evp_thunk_written] and [evp_thunk_dst_addr]. *)
Record evp := Evp { e_mem : mem; e_len : Z; e_written : bool; e_dst : Z }.

Definition word_bytes (ws : list Z) : list Z := concat (map (le_bytes 4) ws).

(** The copy of the thunk instructions of one group; [None] when it reads past
    the array. *)
Definition evp_copy (iram_evp_thunks : Z) (words : list Z) (word_count : Z) (e : evp) : option evp :=
  let count := ipatch_count (nth 0 words 0) in
  let insn_count := u32 (word_count - count - 1) in
  if negb (c_true insn_count) then Some e
  else
    let e :=
      if e_written e then e
      else Evp (st_bytes (e_mem e) iram_evp_thunks (word_bytes evp_thunk_template))
             evp_thunk_template_len true (u32 (iram_evp_thunks + evp_thunk_template_len)) in
    let thunk_patch_len := u32 (insn_count * 4) in
    if 4 * (Z.of_nat (length words) - (count + 1)) <? thunk_patch_len then None
    else
      let bytes := take (Z.to_nat thunk_patch_len)
                     (word_bytes (drop (Z.to_nat (count + 1)) words)) in
      Some (Evp (st_bytes (e_mem e) (e_dst e) bytes) (u32 (e_len e + thunk_patch_len)) true
              (u32 (e_dst e + thunk_patch_len))).

Fixpoint evp_loop (rounds fuel : nat) (iram_evp_thunks : Z) (words : list Z)
    (word_count word_addr total_read : Z) (e : evp) {struct rounds} : M D (Z * evp) :=
  match rounds with
  | O => nofuel
  | S rounds =>
      if negb (c_true word_count) then mret (0, e)
      else
        let total_read := u32 (total_read + word_count) in
        if ARRAY_SIZE_words <=? total_read then mret (0, e)
        else
          new ← read_words fuel (Z.to_nat word_count) word_addr;
          let word_addr := u32 (word_addr - word_count) in
          let word0 := nth 0 new 0 in
          let '(r, used) := _patch_hash_multi new in
          if 2 <=? r then mret (1, e)
          else
            let words := used ++ drop (length used) words in
            match evp_copy iram_evp_thunks words word_count e with
            | None => overrun
            | Some e =>
                let words := <[0%nat := word0]> words in
                if next_count word0 =? 0 then mret (0, e)
                else
                  let '(r, word0) := _patch_hash_one word0 in
                  if 2 <=? r then mret (3, e)
                  else evp_loop rounds fuel iram_evp_thunks words (next_count word0) word_addr total_read e
            end
  end.

Definition fuse_read_evp_thunk (fuel : nat) (words0 : list Z) (iram_evp_thunks len : Z) (m : mem)
    : M D (Z * evp) :=
  let m := memset m iram_evp_thunks 0 (Z.to_nat len) in
  v ← rd (FUSE FUSE_FIRST_BOOTROM_PATCH_SIZE);
  evp_loop 81 fuel iram_evp_thunks words0 (Z.land v 0x7F) 191 0 (Evp m len false 0).

(** *** The patched boot ROM *)

(** The inner loop of [fuse_check_patched_rcm] from [i] on, [n] rounds. *)
Fixpoint rcm_patch_loop (fuel n : nat) (word_addr i : Z) {struct n} : M D bool :=
  match n with
  | O => mret false
  | S n =>
      word ← fuse_read fuel (u32 (word_addr - (i + 1)));
      if ipatch_addr word =? 0x769A then mret true
      else rcm_patch_loop fuel n word_addr (i + 1)
  end.

Fixpoint rcm_loop (rounds fuel : nat) (word_count word_addr : Z) {struct rounds} : M D bool :=
  match rounds with
  | O => nofuel
  | S rounds =>
      if negb (c_true word_count) then mret false
      else
        word0 ← fuse_read fuel word_addr;
        hit ← rcm_patch_loop fuel (Z.to_nat (ipatch_count word0)) word_addr 0;
        if hit : bool then mret true
        else rcm_loop rounds fuel (next_count word0) (u32 (word_addr - word_count))
  end.

Definition fuse_check_patched_rcm (rounds fuel : nat) : M D bool :=
  sw ← rd (FUSE FUSE_RESERVED_SW);
  patched ← (if c_true (Z.land sw (Z.shiftl 1 7)) then mret true
             else chip ← hw_get_chip_id; mret (chip =? GP_HIDREV_MAJOR_T210B01));
  if patched : bool then mret true
  else
    v ← rd (FUSE FUSE_FIRST_BOOTROM_PATCH_SIZE);
    rcm_loop rounds fuel (Z.land v 0x7F) 191.

End Fuse.

(** ** The codes correct one error and detect two *)

(** Bit [p] of a word changed, and bit [p] of the array of words. *)
Definition flip1 (w b : Z) : Z := Z.lxor w (2 ^ b).
Definition flip (p : Z) (ws : list Z) : list Z :=
  alter (fun w => flip1 w (p mod 32)) (Z.to_nat (p / 32)) ws.

(** *** Bits *)

Lemma c_true_testbit w b : 0 <= b -> c_true (Z.land (Z.shiftr w b) 1) = Z.testbit w b.
Proof.
  intros Hb. change 1 with (Z.ones 1). rewrite Z.land_ones by lia. unfold c_true.
  rewrite Z.shiftr_div_pow2 by done. change (2 ^ 1) with 2.
  rewrite <- Z.bit0_mod, <- Z.shiftr_div_pow2, Z.shiftr_spec by lia. rewrite Z.add_0_l.
  by destruct (Z.testbit w b).
Qed.

Lemma c_true_land_BIT w b : 0 <= b < 32 -> c_true (Z.land w (BIT b)) = Z.testbit w b.
Proof.
  intros Hb. unfold BIT. rewrite Z.shiftl_1_l, u32_id
    by (split; [apply Z.pow_nonneg; lia|change 4294967296 with (2 ^ 32); apply Z.pow_lt_mono_r; lia]).
  unfold c_true. destruct (Z.testbit w b) eqn:E.
  - apply negb_true_iff, Z.eqb_neq. intros E0. apply (f_equal (fun z => Z.testbit z b)) in E0.
    rewrite Z.land_spec, E, Z.pow2_bits_true, Z.bits_0 in E0 by lia. done.
  - apply negb_false_iff, Z.eqb_eq, Z.bits_inj'. intros n Hn. rewrite Z.land_spec, Z.bits_0.
    destruct (Z.eq_dec b n) as [->|]; [by rewrite E|].
    by rewrite Z.pow2_bits_false, andb_false_r by lia.
Qed.

Lemma flip1_testbit w b n : 0 <= b -> Z.testbit (flip1 w b) n = xorb (Z.testbit w n) (b =? n).
Proof. intros Hb. unfold flip1. rewrite Z.lxor_spec, Z.pow2_bits_eqb by lia. done. Qed.

Lemma flip1_twice w b : flip1 (flip1 w b) b = w.
Proof. unfold flip1. by rewrite Z.lxor_assoc, Z.lxor_nilpotent, Z.lxor_0_r. Qed.

Lemma land_flip1 w b mask : 0 <= b ->
  Z.land (flip1 w b) mask = if Z.testbit mask b then flip1 (Z.land w mask) b else Z.land w mask.
Proof.
  intros Hb. apply Z.bits_inj'. intros n Hn. destruct (Z.testbit mask b) eqn:E;
    rewrite ?flip1_testbit, ?Z.land_spec, ?flip1_testbit by done;
    destruct (Z.eqb_spec b n) as [->|]; rewrite ?E, ?xorb_false_r; try done;
    by rewrite ?andb_true_r, ?andb_false_r.
Qed.

(** *** Sums modulo two *)

(** The sum of the values whose index satisfies [f]. *)
Definition xsum (f : Z -> bool) (l : list (Z * Z)) : Z :=
  foldr (fun '(i, v) h => if f i then Z.lxor v h else h) 0 l.

Lemma xsum_cons (f : Z -> bool) i v l :
  xsum f ((i, v) :: l) = if f i then Z.lxor v (xsum f l) else xsum f l.
Proof. done. Qed.

Lemma fold_xsum (f : Z -> bool) l : forall h,
  fold_left (fun h (x : Z * Z) => let '(i, v) := x in if f i then Z.lxor h v else h) l h = Z.lxor h (xsum f l).
Proof.
  induction l as [|[i v] l IH]; intros h; [by rewrite Z.lxor_0_r|].
  rewrite xsum_cons. cbn. rewrite IH. destruct (f i); [|done]. by rewrite Z.lxor_assoc.
Qed.

Lemma xsum_ext (f g : Z -> bool) l : Forall (fun x : Z * Z => f (fst x) = g (fst x)) l -> xsum f l = xsum g l.
Proof. induction 1 as [|[i v] l E _ IH]; [done|]. cbn in E. by rewrite !xsum_cons, E, IH. Qed.

Lemma xsum_flip (f : Z -> bool) k v l : NoDup (map fst l) -> (k, v) ∈ l ->
  xsum (fun i => xorb (f i) (k =? i)) l = Z.lxor (xsum f l) v.
Proof.
  induction l as [|[i u] l IH]; intros Hn Hk; [by apply elem_of_nil in Hk|].
  inversion_clear Hn as [|? ? Hi Hn']. rewrite !xsum_cons.
  apply elem_of_cons in Hk as [E|Hk].
  - injection E as -> ->. rewrite Z.eqb_refl.
    rewrite (xsum_ext (fun i0 => xorb (f i0) (i =? i0)) f l).
    + destruct (f i); cbn; [|by rewrite Z.lxor_comm].
      by rewrite (Z.lxor_comm u), Z.lxor_assoc, Z.lxor_nilpotent, Z.lxor_0_r.
    + apply Forall_forall. intros [j w] Hj%list_elem_of_In. cbn. rewrite (proj2 (Z.eqb_neq i j)), xorb_false_r; [done|].
      intros ->. by apply Hi, (list_elem_of_fmap_2 fst l (j, w)).
  - assert (k <> i) by (intros ->; by apply Hi, (list_elem_of_fmap_2 fst l (i, v))).
    rewrite (proj2 (Z.eqb_neq k i)), xorb_false_r, IH by done.
    destruct (f i); [by rewrite Z.lxor_assoc|done].
Qed.

(** *** Parity *)

(** The parity of one word is linear. *)
Definition parity (acc : Z) : Z := _parity32_even [acc].

Lemma parity_lxor a b : parity (Z.lxor a b) = Z.lxor (parity a) (parity b).
Proof.
  unfold parity, _parity32_even. cbn [fold_left]. apply Z.bits_inj'. intros n Hn.
  repeat first [rewrite Z.lxor_spec | rewrite Z.land_spec | rewrite Z.shiftr_spec by lia].
  btauto.
Qed.

Lemma parity_flip1 w b : 0 <= b < 32 -> parity (flip1 w b) = Z.lxor (parity w) 1.
Proof.
  intros Hb. unfold flip1. rewrite parity_lxor. f_equal.
  assert (Hall : forallb (fun i => parity (2 ^ Z.of_nat i) =? 1) (seq 0 32) = true) by (vm_compute; done).
  rewrite forallb_forall in Hall. specialize (Hall (Z.to_nat b)).
  rewrite Z2Nat.id in Hall by lia. apply Z.eqb_eq, Hall, in_seq. lia.
Qed.

Definition xor_all (ws : list Z) : Z := foldr Z.lxor 0 ws.

Lemma parity_words ws : _parity32_even ws = parity (xor_all ws).
Proof.
  assert (Hf : forall l a, fold_left Z.lxor l a = Z.lxor a (xor_all l)).
  { induction l as [|w l IH]; intros a; cbn; [by rewrite Z.lxor_0_r|].
    by rewrite IH, Z.lxor_assoc. }
  unfold parity, _parity32_even. destruct ws as [|w ws]; [done|]. cbn [fold_left].
  by rewrite Hf.
Qed.

Lemma xor_all_alter ws i b : (i < length ws)%nat ->
  xor_all (alter (fun w => flip1 w b) i ws) = flip1 (xor_all ws) b.
Proof.
  revert i. induction ws as [|w ws IH]; intros [|i] Hi; cbn in *; try lia.
  - unfold flip1. by rewrite !Z.lxor_assoc, (Z.lxor_comm (2 ^ b)).
  - rewrite IH by lia. unfold flip1. by rewrite Z.lxor_assoc.
Qed.

Lemma parity_flip p ws : 0 <= p < 32 * Z.of_nat (length ws) ->
  _parity32_even (flip p ws) = Z.lxor (_parity32_even ws) 1.
Proof.
  intros Hp. rewrite !parity_words. unfold flip. rewrite xor_all_alter by zdm.
  apply parity_flip1. zdm.
Qed.

(** *** The code of one word *)

Lemma hash_one_xsum w : hash_one w = xsum (fun i => Z.testbit w (20 + i)) (zip (seqZ 0 12) hash_vals).
Proof.
  unfold hash_one. rewrite (fold_xsum (fun i => c_true (Z.land w (BIT (20 + i))))), Z.lxor_0_l.
  apply xsum_ext. repeat constructor; cbn [fst]; apply c_true_land_BIT; lia.
Qed.

(** The hash of a single bit. *)
Definition hash_val (b : Z) : Z := nth (Z.to_nat (b - 20)) hash_vals 0.

(** Try all twelve bits. *)
Lemma bits20_31 (P : Z -> bool) b :
  forallb (fun i => P (20 + Z.of_nat i)) (seq 0 12) = true -> 20 <= b < 32 -> P b = true.
Proof.
  intros Hf Hb. rewrite forallb_forall in Hf. replace b with (20 + Z.of_nat (Z.to_nat (b - 20))) by lia.
  apply Hf, in_seq. lia.
Qed.

Lemma hash_one_flip w b : 20 <= b < 32 -> hash_one (flip1 w b) = Z.lxor (hash_one w) (hash_val b).
Proof.
  intros Hb. rewrite !hash_one_xsum. rewrite <- (xsum_flip _ (b - 20)).
  - apply xsum_ext. apply Forall_true. intros x. rewrite flip1_testbit by lia. f_equal.
    destruct (Z.eqb_spec b (20 + fst x)), (Z.eqb_spec (b - 20) (fst x)); done || lia.
  - apply (NoDup_seqZ 0 12).
  - pose proof (bits20_31 (fun b => bool_decide ((b - 20, hash_val b) ∈ zip (seqZ 0 12) hash_vals)) b
      ltac:(by vm_compute) Hb) as Hm.
    by apply bool_decide_eq_true in Hm.
Qed.

Definition codeword1 (w : Z) : Prop := hash_one w = 0 /\ parity (Z.land w 0xfff00000) = 0.

Lemma parity_bits20_31 w b : 20 <= b < 32 ->
  parity (Z.land (flip1 w b) 0xfff00000) = Z.lxor (parity (Z.land w 0xfff00000)) 1.
Proof.
  intros Hb. rewrite land_flip1 by lia.
  rewrite (bits20_31 (fun b => Z.testbit 0xfff00000 b)) by (done || by vm_compute).
  apply parity_flip1. lia.
Qed.

Lemma flip1_BIT w b : 0 <= b < 32 -> Z.lxor w (BIT b) = flip1 w b.
Proof.
  intros Hb. unfold BIT, flip1. rewrite Z.shiftl_1_l, u32_id; [done|].
  split; [apply Z.pow_nonneg; lia|]. change 4294967296 with (2 ^ 32). apply Z.pow_lt_mono_r; lia.
Qed.

(** One bit in error is put right, two are reported. *)
Lemma patch_hash_one_correct w : codeword1 w ->
  _patch_hash_one w = (0, w) /\
  (forall b, 20 <= b < 32 -> _patch_hash_one (flip1 w b) = (1, w)) /\
  (forall b c, 20 <= b < 32 -> 20 <= c < 32 -> b <> c -> fst (_patch_hash_one (flip1 (flip1 w b) c)) = 3).
Proof.
  intros [Hh Hp]. unfold _patch_hash_one. fold (parity (Z.land w 0xfff00000)).
  split_and!.
  - by rewrite Hh, Hp.
  - intros b Hb. fold (parity (Z.land (flip1 w b) 0xfff00000)).
    rewrite parity_bits20_31, hash_one_flip, Hh, Hp, Z.lxor_0_l by done. cbn [Z.lxor Z.eqb].
    assert (Hc : (if hash_val b =? 0 then b =? 24
                  else match find_hash (hash_val b) with Some i => b =? 20 + i | None => false end) = true)
      by (apply (bits20_31 (fun b => if hash_val b =? 0 then b =? 24
            else match find_hash (hash_val b) with Some i => b =? 20 + i | None => false end));
          [by vm_compute|done]).
    destruct (hash_val b =? 0).
    + apply Z.eqb_eq in Hc. subst b. by rewrite flip1_BIT, flip1_twice by lia.
    + destruct (find_hash _) as [i|]; [|done]. apply Z.eqb_eq in Hc.
      by rewrite <- Hc, flip1_BIT, flip1_twice by lia.
  - intros b c Hb Hc Hbc. fold (parity (Z.land (flip1 (flip1 w b) c) 0xfff00000)).
    rewrite !parity_bits20_31, !hash_one_flip, Hh, Hp, Z.lxor_0_l by done.
    destruct (Z.eqb_spec (Z.lxor (hash_val b) (hash_val c)) 0) as [E|_]; [|done].
    apply Z.lxor_eq in E. exfalso. apply Hbc.
    pose (sep b c := negb (hash_val b =? hash_val c) || (b =? c)).
    pose proof (bits20_31 (fun b => forallb (fun i => sep b (20 + Z.of_nat i)) (seq 0 12)) b
      ltac:(by vm_compute) Hb) as Hd.
    apply (bits20_31 (sep b)) with (b := c) in Hd; [|done]. unfold sep in Hd.
    rewrite E, Z.eqb_refl in Hd. by apply Z.eqb_eq in Hd.
Qed.

(** *** The code of the words of a group *)

Lemma fold_bits w (g : Z -> Z) l : Forall (fun b => 0 <= b) l -> forall h,
  fold_left (fun h b => if c_true (Z.land (Z.shiftr w b) 1) then Z.lxor h (g b) else h) l h =
    Z.lxor h (xsum (Z.testbit w) (map (fun b => (b, g b)) l)).
Proof.
  induction 1 as [|b l Hb _ IH]; intros h; [by rewrite Z.lxor_0_r|].
  cbn [map fold_left]. rewrite xsum_cons, IH, c_true_testbit by done.
  destruct (Z.testbit w b); [by rewrite Z.lxor_assoc|done].
Qed.

Lemma hash_word_xsum h i w :
  hash_word h i w = Z.lxor h (xsum (Z.testbit w) (map (fun b => (b, u32 (0x4000 + i * 32 + b))) (seqZ 0 32))).
Proof.
  unfold hash_word. destruct (c_true w) eqn:E.
  - apply (fold_bits w (fun b => u32 (0x4000 + i * 32 + b))).
    repeat constructor; discriminate.
  - unfold c_true in E. apply negb_false_iff, Z.eqb_eq in E. subst w.
    rewrite (xsum_ext _ (fun _ => false)) by (apply Forall_true; intros; apply Z.bits_0).
    by rewrite Z.lxor_0_r.
Qed.

Lemma hash_word_flip h i w b : 0 <= b < 32 ->
  hash_word h i (flip1 w b) = Z.lxor (hash_word h i w) (u32 (0x4000 + i * 32 + b)).
Proof.
  intros Hb. rewrite !hash_word_xsum, Z.lxor_assoc. f_equal. rewrite <- (xsum_flip _ b).
  - apply xsum_ext. apply Forall_true. intros x. apply flip1_testbit. lia.
  - rewrite map_map, map_id. apply NoDup_seqZ.
  - apply (list_elem_of_fmap_2 (fun b => (b, u32 (0x4000 + i * 32 + b)))), elem_of_seqZ. lia.
Qed.

Lemma hash_words_acc ws : forall h i, hash_words h i ws = Z.lxor h (hash_words 0 i ws).
Proof.
  induction ws as [|w ws IH]; intros h i; cbn [hash_words]; [by rewrite Z.lxor_0_r|].
  rewrite IH, (IH (hash_word 0 i w)), !hash_word_xsum. by rewrite Z.lxor_0_l, Z.lxor_assoc.
Qed.

Lemma hash_words_alter ws b : 0 <= b < 32 -> forall j i, (j < length ws)%nat ->
  hash_words 0 i (alter (fun w => flip1 w b) j ws) =
    Z.lxor (hash_words 0 i ws) (u32 (0x4000 + (i + Z.of_nat j) * 32 + b)).
Proof.
  intros Hb. induction ws as [|w ws IH]; intros [|j] i Hj; cbn [length] in Hj; try lia.
  - cbn [alter list_alter hash_words]. rewrite Z.add_0_r, hash_word_flip by done.
    rewrite hash_words_acc, (hash_words_acc ws (hash_word 0 i w)), !Z.lxor_assoc. f_equal.
    apply Z.lxor_comm.
  - change (alter ?f (S j) (w :: ws)) with (w :: alter f j ws). cbn [hash_words].
    rewrite hash_words_acc, (hash_words_acc ws), IH by lia. rewrite Z.lxor_assoc. do 3 f_equal. lia.
Qed.

(** What the decoder computes of a group, and what an error at position [p]
    adds to it.  Bits 20 to 31 of the first word are not part of this code. *)
Definition syndrome (ws : list Z) : Z :=
  match ws with
  | [] => 0
  | w :: rest => Z.lxor (hash_words 0 0 (Z.land w 0xf0000 :: rest)) (Z.land w 0x7fff)
  end.
Definition error_syndrome (p : Z) : Z :=
  if p <? 15 then 2 ^ p
  else if (p =? 15) || ((20 <=? p) && (p <? 32)) then 0
  else 0x4000 + p.
Definition protected (ws : list Z) (p : Z) : Prop :=
  0 <= p < 20 \/ 32 <= p < 32 * Z.of_nat (length ws).

Lemma flip_first p w rest : 0 <= p < 32 -> flip p (w :: rest) = flip1 w p :: rest.
Proof. intros Hp. unfold flip. by rewrite Z.div_small, Z.mod_small by lia. Qed.
Lemma flip_rest p w rest : 32 <= p -> flip p (w :: rest) = w :: flip (p - 32) rest.
Proof.
  intros Hp. unfold flip.
  assert (E : p / 32 = (p - 32) / 32 + 1) by zdm.
  assert (0 <= (p - 32) / 32) by (apply Z.div_pos; lia).
  replace (Z.to_nat (p / 32)) with (S (Z.to_nat ((p - 32) / 32))) by lia.
  replace (p mod 32) with ((p - 32) mod 32) by zdm. done.
Qed.

Lemma below32 (P : Z -> bool) b :
  forallb (fun i => P (Z.of_nat i)) (seq 0 32) = true -> 0 <= b < 32 -> P b = true.
Proof.
  intros Hf Hb. rewrite forallb_forall in Hf. rewrite <- (Z2Nat.id b) by lia. apply Hf, in_seq. lia.
Qed.

Lemma syndrome_flip p ws : 0 <= p < 32 * Z.of_nat (length ws) -> Z.of_nat (length ws) <= 127 ->
  syndrome (flip p ws) = Z.lxor (syndrome ws) (error_syndrome p).
Proof.
  intros Hp Hl. destruct ws as [|w rest]; [cbn in Hp; lia|]. cbn [length] in *.
  destruct (Z.lt_ge_cases p 32).
  - rewrite flip_first by lia. unfold syndrome. rewrite !land_flip1 by lia.
    unfold error_syndrome.
    pose proof (below32 (fun p => eqb (Z.testbit 0xf0000 p) ((16 <=? p) && (p <? 20))) p
      ltac:(by vm_compute) ltac:(lia)) as H1%eqb_prop.
    pose proof (below32 (fun p => eqb (Z.testbit 0x7fff p) (p <? 15)) p
      ltac:(by vm_compute) ltac:(lia)) as H2%eqb_prop.
    rewrite H1, H2. cbn [hash_words].
    destruct (Z.ltb_spec p 15).
    + rewrite (proj2 (Z.leb_gt 16 p)) by lia. cbn [andb]. unfold flip1. by rewrite Z.lxor_assoc.
    + destruct (Z.leb_spec 16 p), (Z.ltb_spec p 20); cbn [andb]; try lia;
        rewrite ?hash_word_flip by lia.
      * rewrite (proj2 (Z.eqb_neq p 15)), (proj2 (Z.leb_gt 20 p)) by lia. cbn [orb andb].
        rewrite u32_id by lia. rewrite hash_words_acc, (hash_words_acc rest (hash_word _ _ _)).
        replace (0x4000 + 0 * 32 + p) with (0x4000 + p) by lia.
        rewrite !Z.lxor_assoc. f_equal. rewrite Z.lxor_comm, !Z.lxor_assoc. f_equal.
      * rewrite (proj2 (Z.leb_le 20 p)), (proj2 (Z.ltb_lt p 32)), orb_true_r by lia.
        by rewrite Z.lxor_0_r.
      * rewrite (proj2 (Z.eqb_eq p 15)) by lia. by rewrite Z.lxor_0_r.
  - rewrite flip_rest by done. unfold syndrome, error_syndrome. cbn [hash_words].
    rewrite (proj2 (Z.ltb_ge p 15)), (proj2 (Z.eqb_neq p 15)), (proj2 (Z.ltb_ge p 32)) by lia.
    rewrite andb_false_r. cbn [orb]. rewrite hash_words_acc, (hash_words_acc rest).
    unfold flip. rewrite hash_words_alter by zdm.
    replace (0x4000 + (0 + 1 + Z.of_nat (Z.to_nat ((p - 32) / 32))) * 32 + (p - 32) mod 32)
      with (0x4000 + p) by zdm.
    rewrite u32_id by lia. rewrite !Z.lxor_assoc. do 2 f_equal. apply Z.lxor_comm.
Qed.

(** The words the decoder leaves: the link to the next group is removed. *)
Definition unlinked (ws : list Z) : list Z :=
  match ws with [] => [] | w :: rest => Z.land w 0xfffff :: rest end.

Definition codeword (ws : list Z) : Prop := syndrome ws = 0 /\ _parity32_even ws = 0.

Lemma word0_fields w :
  Z.lxor (Z.lxor (Z.land w 0xf0000) (Z.land w 0x8000)) (Z.land w 0x7fff) = Z.land w 0xfffff.
Proof.
  rewrite (Z.land_comm w 0xf0000), (Z.land_comm w 0x8000), (Z.land_comm w 0x7fff), (Z.land_comm w).
  change 0xfffff with (Z.lxor (Z.lxor 0xf0000 0x8000) 0x7fff).
  apply Z.bits_inj'. intros n Hn. rewrite !Z.lxor_spec, !Z.land_spec, !Z.lxor_spec. btauto.
Qed.

(** The decoder as a function of syndrome and parity. *)
Definition correction (ws : list Z) (hash parity_bit : Z) : Z * list Z :=
  if hash =? 0 then if parity_bit =? 0 then (0, ws) else (1, flip 15 ws)
  else if parity_bit =? 0 then (3, ws)
  else
    let bitcount := u32 (hash - 0x4000) in
    if (bitcount <? 16) || (Z.of_nat (length ws) * 32 <=? bitcount) then
      let num_set := fold_left (fun n bitpos =>
        if c_true (Z.land (Z.shiftr hash bitpos) 1) then n + 1 else n) (seqZ 0 15) 0 in
      if negb (num_set =? 1) then (2, ws) else (1, alter (fun w => Z.lxor w hash) 0%nat ws)
    else (1, alter (fun w => Z.lxor w (BIT (Z.land hash 0x1f))) (Z.to_nat (bitcount / 32)) ws).

Lemma patch_hash_multi_correction ws : ws <> [] ->
  _patch_hash_multi ws = correction (unlinked ws) (syndrome ws) (_parity32_even ws).
Proof.
  destruct ws as [|w rest]; [done|]. intros _. unfold _patch_hash_multi, correction, unlinked, syndrome.
  by rewrite word0_fields.
Qed.

Lemma flip_length p ws : length (flip p ws) = length ws.
Proof. apply length_alter. Qed.
Lemma flip_nonempty p ws : ws <> [] -> flip p ws <> [].
Proof. intros Hw E. apply (f_equal length) in E. rewrite flip_length in E. by destruct ws. Qed.
Lemma flip_twice p ws : flip p (flip p ws) = ws.
Proof.
  unfold flip. apply list_eq. intros i. destruct (decide (i = Z.to_nat (p / 32))) as [->|].
  - rewrite !list_lookup_alter_eq. destruct (ws !! _); [|done]. cbn. by rewrite flip1_twice.
  - by rewrite !list_lookup_alter_ne.
Qed.

(** Removing the link and an error: the error disappears with the link, or stays. *)
Lemma unlinked_flip p ws : 0 <= p ->
  unlinked (flip p ws) = if (20 <=? p) && (p <? 32) then unlinked ws else flip p (unlinked ws).
Proof.
  intros Hp. destruct ws as [|w rest].
  { cbn. by destruct (_ && _). }
  destruct (Z.lt_ge_cases p 32).
  - rewrite flip_first by lia. cbn [unlinked]. rewrite land_flip1 by done.
    pose proof (below32 (fun p => eqb (Z.testbit 0xfffff p) (p <? 20)) p
      ltac:(by vm_compute) ltac:(lia)) as ->%eqb_prop.
    rewrite (proj2 (Z.ltb_lt p 32)) by lia.
    destruct (Z.ltb_spec p 20), (Z.leb_spec 20 p); try lia; [|done].
    cbn [andb]. by rewrite flip_first by lia.
  - rewrite flip_rest by done. cbn [unlinked]. rewrite (proj2 (Z.ltb_ge p 32)), andb_false_r by lia.
    by rewrite flip_rest by done.
Qed.

Lemma protected_not_link ws p : protected ws p -> (20 <=? p) && (p <? 32) = false.
Proof. intros [|]; apply andb_false_iff; [left; apply Z.leb_gt|right; apply Z.ltb_ge]; lia. Qed.

(** The correction undoes the error its syndrome belongs to. *)
Lemma correction_error p ws : protected ws p -> ws <> [] -> Z.of_nat (length ws) <= 127 ->
  correction ws (error_syndrome p) 1 = (1, flip p ws).
Proof.
  intros Hp Hne Hl. assert (Hl1 : 1 <= Z.of_nat (length ws)) by (destruct ws; [done|cbn; lia]).
  unfold error_syndrome.
  destruct (Z.ltb_spec p 15) as [H15|H15].
  - assert (Hc : (2 ^ p =? 0) = false /\ (u32 (2 ^ p - 0x4000) <? 16) || (4064 <=? u32 (2 ^ p - 0x4000)) = true /\
       fold_left (fun n bitpos => if c_true (Z.land (Z.shiftr (2 ^ p) bitpos) 1) then n + 1 else n) (seqZ 0 15) 0 = 1).
    { assert (Hp' : 0 <= p < 15) by (destruct Hp; lia).
      assert (Ho : p = 0 \/ p = 1 \/ p = 2 \/ p = 3 \/ p = 4 \/ p = 5 \/ p = 6 \/ p = 7 \/ p = 8 \/ p = 9 \/
        p = 10 \/ p = 11 \/ p = 12 \/ p = 13 \/ p = 14) by lia.
      repeat destruct Ho as [->|Ho]; try (subst p); vm_compute; done. }
    destruct Hc as (Hz & Hb & Hn). unfold correction. rewrite Hz, Hn. cbn [Z.eqb negb Pos.eqb].
    replace ((u32 (2 ^ p - 0x4000) <? 16) || (Z.of_nat (length ws) * 32 <=? u32 (2 ^ p - 0x4000))) with true.
    + destruct ws as [|w rest]; [done|]. rewrite flip_first by (destruct Hp; lia). done.
    + symmetry. apply orb_true_iff in Hb as [->|Hb]; [done|]. apply Z.leb_le in Hb.
      apply orb_true_iff. right. apply Z.leb_le. lia.
  - destruct (Z.eqb_spec p 15) as [->|H15'].
    { cbn [orb]. unfold correction. cbn [Z.eqb]. done. }
    rewrite (protected_not_link ws p Hp). cbn [orb].
    assert (Hp' : 16 <= p < 32 * Z.of_nat (length ws)) by (destruct Hp; lia).
    unfold correction. rewrite (proj2 (Z.eqb_neq (0x4000 + p) 0)) by lia. cbn [Z.eqb].
    replace (0x4000 + p - 0x4000) with p by lia. rewrite u32_id by lia.
    rewrite (proj2 (Z.ltb_ge p 16)), (proj2 (Z.leb_gt (Z.of_nat (length ws) * 32) p)) by lia. cbn [orb].
    unfold flip. do 2 f_equal.
    change 0x1f with (Z.ones 5). rewrite Z.land_ones by lia. change (2 ^ 5) with 32.
    replace ((0x4000 + p) mod 32) with (p mod 32) by zdm.
    unfold flip1. pose proof (Z.mod_pos_bound p 32 ltac:(lia)).
    unfold BIT. rewrite Z.shiftl_1_l, u32_id; [done|].
    split; [apply Z.pow_nonneg; lia|]. change 4294967296 with (2 ^ 32). apply Z.pow_lt_mono_r; lia.
Qed.

Lemma error_syndrome_inj ws p q : protected ws p -> protected ws q -> Z.of_nat (length ws) <= 127 ->
  error_syndrome p = error_syndrome q -> p = q.
Proof.
  intros Hp Hq Hl. assert (Hpow : forall n, 0 <= n < 15 -> 0 < 2 ^ n <= 0x4000).
  { intros n Hn. split; [apply Z.pow_pos_nonneg; lia|]. change 0x4000 with (2 ^ 14). apply Z.pow_le_mono_r; lia. }
  pose proof (Hpow p) as Hp1. pose proof (Hpow q) as Hq1. unfold protected, error_syndrome in *.
  destruct (Z.ltb_spec p 15), (Z.ltb_spec q 15);
    destruct (Z.eqb_spec p 15), (Z.eqb_spec q 15), (Z.leb_spec 20 p), (Z.leb_spec 20 q),
      (Z.ltb_spec p 32), (Z.ltb_spec q 32); cbn [orb andb]; try lia.
  all: intros E; apply Z.pow_inj_r in E; lia.
Qed.

(** A code word is accepted, one wrong bit is put right; in the link, which
    this code does not cover, it leaves the patch words alone. *)
Lemma patch_hash_multi_decodes (ws : list Z) :
  ws <> [] -> Z.of_nat (length ws) <= 127 -> codeword ws ->
  _patch_hash_multi ws = (0, unlinked ws) /\
  (forall p, protected ws p -> _patch_hash_multi (flip p ws) = (1, unlinked ws)) /\
  (forall p, 20 <= p < 32 -> _patch_hash_multi (flip p ws) = (1, flip 15 (unlinked ws))).
Proof.
  intros Hne Hl [Hs Hp].
  assert (Hl1 : 1 <= Z.of_nat (length ws)) by (destruct ws; [done|cbn; lia]).
  assert (Hu : length (unlinked ws) = length ws) by by destruct ws.
  split_and!.
  - rewrite patch_hash_multi_correction, Hs, Hp by done. done.
  - intros p Hpp. assert (0 <= p < 32 * Z.of_nat (length ws)) by (destruct Hpp; lia).
    rewrite patch_hash_multi_correction by by apply flip_nonempty.
    rewrite syndrome_flip, parity_flip, Hs, Hp, Z.lxor_0_l by done.
    rewrite unlinked_flip, (protected_not_link ws p Hpp) by lia.
    change (Z.lxor 0 1) with 1. rewrite correction_error.
    + by rewrite flip_twice.
    + unfold protected. rewrite flip_length, Hu. exact Hpp.
    + apply flip_nonempty. by destruct ws.
    + rewrite flip_length, Hu. done.
  - intros p Hpp. rewrite patch_hash_multi_correction by by apply flip_nonempty.
    rewrite syndrome_flip, parity_flip, Hs, Hp, Z.lxor_0_l, unlinked_flip by lia.
    unfold error_syndrome.
    rewrite (proj2 (Z.leb_le 20 p)), (proj2 (Z.ltb_lt p 32)), (proj2 (Z.ltb_ge p 15)), orb_true_r by lia.
    done.
Qed.

(** The code of a group of patch words corrects one error and detects two: a group that is a
    code word is accepted as it is, one wrong bit is put right, and two wrong bits are reported as
    an error that cannot be corrected. *)
Theorem patch_hash_multi_secded (ws : list Z) :
  ws <> [] -> Z.of_nat (length ws) <= 127 -> codeword ws ->
  _patch_hash_multi ws = (0, unlinked ws) /\
  (forall p, protected ws p -> _patch_hash_multi (flip p ws) = (1, unlinked ws)) /\
  (forall p q, protected ws p -> protected ws q -> p <> q ->
     fst (_patch_hash_multi (flip q (flip p ws))) = 3).
Proof.
  intros Hne Hl Hc. destruct (patch_hash_multi_decodes ws Hne Hl Hc) as (H0 & H1 & _).
  destruct Hc as [Hs Hp]. split_and!; [done|done|]. intros p q Hpp Hqq Hpq.
  assert (Hin : forall p, protected ws p -> 0 <= p < 32 * Z.of_nat (length ws))
    by (assert (1 <= Z.of_nat (length ws)) by (destruct ws; [done|cbn; lia]); intros ? [|]; lia).
  rewrite patch_hash_multi_correction by by apply flip_nonempty, flip_nonempty.
  rewrite !syndrome_flip, !parity_flip, Hs, Hp, Z.lxor_0_l by (rewrite ?flip_length; auto).
  unfold correction.
  destruct (Z.eqb_spec (Z.lxor (error_syndrome p) (error_syndrome q)) 0) as [E|_]; [|done].
  apply Z.lxor_eq in E. exfalso. by apply Hpq, (error_syndrome_inj ws).
Qed.

(** ** The chain of patch groups *)

(** A group as it was programmed, and the bit of it that reads back wrong. *)
Record group := Group { g_words : list Z; g_error : option Z }.
Definition stored (g : group) : list Z :=
  match g_error g with None => g_words g | Some p => flip p (g_words g) end.
Definition g_first (g : group) : Z := nth 0 (g_words g) 0.

(** The patches of a group: address and halfword of each patch word. *)
Definition patch_of (word : Z) : Z * Z := (ipatch_addr word, Z.land word 0xFFFF).
Definition patches (g : group) : list (Z * Z) :=
  map patch_of (take (Z.to_nat (ipatch_count (g_first g))) (tail (g_words g))).

Definition group_ok (g : group) : Prop :=
  g_words g <> [] /\ Z.of_nat (length (g_words g)) <= 127 /\
  codeword (g_words g) /\ codeword1 (g_first g) /\
  ipatch_count (g_first g) < Z.of_nat (length (g_words g)) /\
  (forall p, g_error g = Some p -> 0 <= p < 32 * Z.of_nat (length (g_words g))).

Definition first_length (gs : list group) : Z :=
  match gs with [] => 0 | g :: _ => Z.of_nat (length (g_words g)) end.

(** Every group links to the next by its length. *)
Fixpoint chain (gs : list group) : Prop :=
  match gs with
  | [] => True
  | g :: gs => group_ok g /\ next_count (g_first g) = first_length gs /\ chain gs
  end.

(** The groups up to the first whose link reads back as zero. *)
Fixpoint reached (gs : list group) : list group :=
  match gs with
  | [] => []
  | g :: gs => if next_count (nth 0 (stored g) 0) =? 0 then [g] else g :: reached gs
  end.

(** The groups are in the array from [addr] downwards. *)
Definition burnt (cells : Z -> Z) (addr : Z) (ws : list Z) : Prop :=
  forall i w, ws !! i = Some w -> cells (addr - Z.of_nat i) = w.
Definition all_words (gs : list group) : list Z := concat (map stored gs).

(** *** One group *)

Lemma stored_length g : length (stored g) = length (g_words g).
Proof. unfold stored. destruct (g_error g); [apply flip_length|done]. Qed.

Lemma ipatch_count_bits w v : (forall n, 16 <= n < 20 -> Z.testbit w n = Z.testbit v n) ->
  ipatch_count w = ipatch_count v.
Proof.
  intros Hb. unfold ipatch_count. apply Z.bits_inj'. intros n Hn.
  rewrite !Z.land_spec, !Z.shiftr_spec by done. change 0xF with (Z.ones 4).
  destruct (Z.lt_ge_cases n 4).
  - by rewrite Hb by lia.
  - by rewrite Z.ones_spec_high, !andb_false_r by lia.
Qed.
Lemma ipatch_count_unlinked w : ipatch_count (Z.land w 0xfffff) = ipatch_count w.
Proof.
  apply ipatch_count_bits. intros n Hn. rewrite Z.land_spec. change 0xfffff with (Z.ones 20).
  by rewrite Z.ones_spec_low, andb_true_r by lia.
Qed.
Lemma ipatch_count_flip1 w p : 0 <= p < 16 -> ipatch_count (flip1 w p) = ipatch_count w.
Proof.
  intros Hp. apply ipatch_count_bits. intros n Hn. rewrite flip1_testbit by lia.
  by rewrite (proj2 (Z.eqb_neq p n)), xorb_false_r by lia.
Qed.
Lemma ipatch_count_range w : 0 <= ipatch_count w < 16.
Proof.
  unfold ipatch_count. change 0xF with (Z.ones 4). rewrite Z.land_ones by lia.
  change (2 ^ 4) with 16. apply Z.mod_pos_bound. lia.
Qed.
Lemma next_count_flip1 w p : 0 <= p < 25 -> next_count (flip1 w p) = next_count w.
Proof.
  intros Hp. unfold next_count. apply Z.bits_inj'. intros n Hn.
  rewrite !Z.shiftr_spec, flip1_testbit by lia.
  by rewrite (proj2 (Z.eqb_neq p (n + 25))), xorb_false_r by lia.
Qed.

(** Whatever bit of a stored group is wrong, its patch words come out right. *)
Lemma decode_group g : group_ok g -> exists r w,
  _patch_hash_multi (stored g) = (r, w :: tail (g_words g)) /\ r < 2 /\
  ipatch_count w = ipatch_count (g_first g).
Proof.
  intros (Hne & Hl & Hc & _ & _ & He).
  destruct (patch_hash_multi_decodes (g_words g) Hne Hl Hc) as (Hz & Ho & Hk).
  unfold stored, g_first in *. destruct (g_words g) as [|w0 rest] eqn:Ew; [done|]. cbn [tail nth].
  destruct (g_error g) as [p|]; [|exists 0, (Z.land w0 0xfffff); by rewrite ipatch_count_unlinked].
  specialize (He p eq_refl).
  destruct (decide (20 <= p < 32)) as [Hp|Hp].
  - exists 1, (flip1 (Z.land w0 0xfffff) 15). rewrite Hk by done. cbn [unlinked].
    by rewrite flip_first, ipatch_count_flip1, ipatch_count_unlinked by lia.
  - exists 1, (Z.land w0 0xfffff). rewrite Ho by (unfold protected; lia). by rewrite ipatch_count_unlinked.
Qed.

(** So does its link. *)
Lemma hash_one_low w p : 0 <= p < 20 -> hash_one (flip1 w p) = hash_one w.
Proof.
  intros Hp. rewrite !hash_one_xsum. apply xsum_ext. repeat constructor; cbn [fst];
    rewrite flip1_testbit by lia; rewrite (proj2 (Z.eqb_neq _ _)), xorb_false_r by lia; done.
Qed.

Lemma decode_link g : group_ok g -> exists r w,
  _patch_hash_one (nth 0 (stored g) 0) = (r, w) /\ r < 2 /\ next_count w = next_count (g_first g).
Proof.
  intros (Hne & Hl & _ & Hc & _ & He). unfold stored, g_first in *.
  destruct (g_words g) as [|w0 rest] eqn:Ew; [done|]. cbn [nth] in *.
  destruct (patch_hash_one_correct w0 Hc) as (Hz & Ho & _).
  destruct (g_error g) as [p|]; [|by exists 0, w0]. specialize (He p eq_refl).
  destruct (Z.lt_ge_cases p 32); [|rewrite flip_rest by done; by exists 0, w0].
  rewrite flip_first by lia. cbn [nth].
  destruct (Z.lt_ge_cases p 20); [|by exists 1, w0; rewrite Ho by lia].
  assert (Hc' : codeword1 (flip1 w0 p)).
  { destruct Hc as [Hh Hp]. split; [by rewrite hash_one_low by lia|]. rewrite land_flip1 by lia.
    pose proof (below32 (fun p => eqb (Z.testbit 0xfff00000 p) (20 <=? p)) p
      ltac:(by vm_compute) ltac:(lia)) as ->%eqb_prop.
    by rewrite (proj2 (Z.leb_gt 20 p)) by lia. }
  exists 0, (flip1 w0 p). rewrite next_count_flip1 by lia.
  by rewrite (proj1 (patch_hash_one_correct _ Hc')).
Qed.

(** ** The fuse controller *)

(** What the controller keeps: the fuse array, the address and data registers,
    how many polls it stays busy, and the registers that only configure it. *)
Record fuse_hw := FuseHw {
  fz_cells : Z -> Z;
  fz_regs : Z -> Z;
  fz_addr : Z;
  fz_rdata : Z;
  fz_busy : nat
}.

(** A read of the control register shows state 4 in bits 16 to 20 when the
    controller is idle; a read command takes [latency] polls. *)
Definition hw_rd (a : Z) (s : fuse_hw) : Z * fuse_hw :=
  if a =? FUSE FUSE_CTRL then
    match fz_busy s with
    | O => (Z.shiftl 4 16, s)
    | S n => (0, FuseHw (fz_cells s) (fz_regs s) (fz_addr s) (fz_rdata s) n)
    end
  else if a =? FUSE FUSE_ADDR then (fz_addr s, s)
  else if a =? FUSE FUSE_RDATA then (fz_rdata s, s)
  else (fz_regs s a, s).
Definition hw_wr (latency : nat) (a v : Z) (s : fuse_hw) : fuse_hw :=
  if a =? FUSE FUSE_ADDR then FuseHw (fz_cells s) (fz_regs s) v (fz_rdata s) (fz_busy s)
  else if (a =? FUSE FUSE_CTRL) && (Z.land v FUSE_CMD_MASK =? FUSE_READ) then
    FuseHw (fz_cells s) (fz_regs s) (fz_addr s) (fz_cells s (fz_addr s)) latency
  else s.

(** A device that contains such a controller. *)
Class FuseBox (D : Type) `{Mmio D} := {
  fz : D -> fuse_hw;
  fz_latency : nat;
  fz_rd : forall a d, hw_rd a (fz d) = (fst (rd32 a d), fz (snd (rd32 a d)));
  fz_wr : forall a v d, fz (wr32 a v d) = hw_wr fz_latency a v (fz d)
}.

(** The array and the configuration, which no read changes. *)
Definition contents {D} `{FuseBox D} (d : D) : (Z -> Z) * (Z -> Z) := (fz_cells (fz d), fz_regs (fz d)).

Lemma hw_rd_addr s : hw_rd (FUSE FUSE_ADDR) s = (fz_addr s, s).
Proof. done. Qed.
Lemma hw_rd_rdata s : hw_rd (FUSE FUSE_RDATA) s = (fz_rdata s, s).
Proof. done. Qed.

Section Box.
Context {D : Type} `{FuseBox D}.

Lemma rd_fz a d : exists d', rd a d = (Ret (fst (hw_rd a (fz d))), d') /\ fz d' = snd (hw_rd a (fz d)).
Proof.
  pose proof (fz_rd a d) as E. unfold rd. destruct (rd32 a d) as [v d']. rewrite E.
  by exists d'.
Qed.

(** A configuration register. *)
Lemma rd_reg a d : a <> FUSE FUSE_CTRL -> a <> FUSE FUSE_ADDR -> a <> FUSE FUSE_RDATA ->
  exists d', rd a d = (Ret (fz_regs (fz d) a), d') /\ contents d' = contents d.
Proof.
  intros H1 H2 H3. destruct (rd_fz a d) as (d' & E & Ed). exists d'. rewrite E. unfold contents.
  rewrite Ed. unfold hw_rd. rewrite !(proj2 (Z.eqb_neq _ _)) by done. done.
Qed.

Lemma wait_idle_run fuel : forall d, (fz_busy (fz d) < fuel)%nat ->
  exists d', fuse_wait_idle fuel d = (Ret tt, d') /\ contents d' = contents d /\
    fz_rdata (fz d') = fz_rdata (fz d).
Proof.
  induction fuel as [|fuel IH]; intros d Hb; [lia|]. cbn [fuse_wait_idle].
  destruct (rd_fz (FUSE FUSE_CTRL) d) as (d1 & E & Ed). rewrite (bind_run _ _ _ _ _ E).
  unfold hw_rd in *. rewrite Z.eqb_refl in *. destruct (fz_busy (fz d)) as [|n] eqn:En.
  - exists d1. cbn [fst snd] in *. unfold contents. by rewrite Ed.
  - cbn [fst snd] in *. change (negb (Z.land (Z.shiftr 0 16) 0x1f =? 4)) with true. cbn iota.
    destruct (IH d1) as (d2 & E2 & Hc & Hr); [rewrite Ed; cbn; lia|].
    exists d2. unfold contents in *. by rewrite E2, Hc, Hr, Ed.
Qed.

Lemma read_command a : 0 <= a < 4294967296 ->
  Z.land (u32 (Z.lor (Z.land a (u32 (Z.lnot FUSE_CMD_MASK))) FUSE_READ)) FUSE_CMD_MASK = FUSE_READ.
Proof.
  intros Ha. change FUSE_CMD_MASK with (Z.ones 2) at 2. rewrite Z.land_ones by lia. change (2 ^ 2) with 4.
  assert (Hm : forall z, u32 z mod 4 = z mod 4)
    by (intros z; apply Z.mod_mod_divide; by exists 1073741824).
  rewrite Hm. change 4 with (2 ^ 2). rewrite <- Z.land_ones by lia.
  apply Z.bits_inj'. intros n Hn. rewrite Z.land_spec, Z.lor_spec, Z.land_spec.
  destruct (Z.lt_ge_cases n 2).
  - assert (n = 0 \/ n = 1) as [->| ->] by lia; cbn; by rewrite ?andb_false_r.
  - rewrite Z.ones_spec_high, andb_false_r by lia.
    symmetry. apply Z.bits_above_log2; [done|]. change (Z.log2 FUSE_READ) with 0. lia.
Qed.

(** A read of the array gives the word at the address and changes nothing. *)
Lemma fuse_read_run fuel a d : 0 <= a < 4294967296 -> (fz_latency < fuel)%nat ->
  exists d', fuse_read fuel a d = (Ret (fz_cells (fz d) a), d') /\ contents d' = contents d.
Proof.
  intros Ha Hf. unfold fuse_read.
  set (d1 := wr32 (FUSE FUSE_ADDR) (u32 a) d).
  rewrite (bind_run _ _ _ tt d1) by done.
  assert (E1 : fz d1 = FuseHw (fz_cells (fz d)) (fz_regs (fz d)) a (fz_rdata (fz d)) (fz_busy (fz d))).
  { unfold d1. rewrite fz_wr, u32_id by done. done. }
  destruct (rd_fz (FUSE FUSE_ADDR) d1) as (d2 & E2 & Ed2). rewrite (bind_run _ _ _ _ _ E2).
  rewrite hw_rd_addr, E1 in *. cbn [fst snd fz_addr] in *.
  set (cmd := Z.lor _ FUSE_READ). set (d3 := wr32 (FUSE FUSE_CTRL) (u32 cmd) d2).
  rewrite (bind_run _ _ _ tt d3) by done.
  assert (E3 : fz d3 = FuseHw (fz_cells (fz d)) (fz_regs (fz d)) a (fz_cells (fz d) a) fz_latency).
  { unfold d3. rewrite fz_wr, Ed2. unfold hw_wr.
    change (FUSE FUSE_CTRL =? FUSE FUSE_ADDR) with false. rewrite Z.eqb_refl. unfold cmd.
    by rewrite read_command. }
  destruct (wait_idle_run fuel d3) as (d4 & E4 & Hc & Hr); [by rewrite E3|].
  rewrite (bind_run _ _ _ _ _ E4).
  destruct (rd_fz (FUSE FUSE_RDATA) d4) as (d5 & E5 & Ed5). exists d5. rewrite E5.
  rewrite hw_rd_rdata in *. cbn [fst snd] in *. split; [by rewrite Hr, E3|].
  unfold contents in *. by rewrite Ed5, Hc, E3.
Qed.

(** *** Reading the chain *)

Lemma read_words_run fuel ws : (fz_latency < fuel)%nat -> forall addr d,
  Z.of_nat (length ws) <= addr < 4294967296 -> burnt (fz_cells (fz d)) addr ws ->
  exists d', read_words fuel (length ws) addr d = (Ret ws, d') /\ contents d' = contents d.
Proof.
  intros Hf. induction ws as [|w ws IH]; intros addr d Ha Hb; cbn [length read_words] in *; [by exists d|].
  destruct (fuse_read_run fuel addr d) as (d1 & E1 & Hc1); [lia|done|].
  rewrite (bind_run _ _ _ _ _ E1). injection Hc1 as Hcells Hregs.
  pose proof (Hb 0%nat w eq_refl) as Hw. rewrite Z.sub_0_r in Hw.
  destruct (IH (u32 (addr - 1)) d1) as (d2 & E2 & Hc2).
  - rewrite u32_id by lia. lia.
  - rewrite u32_id by lia. intros i v Hv. rewrite Hcells, <- (Hb (S i) v Hv). f_equal. lia.
  - rewrite (bind_run _ _ _ _ _ E2). exists d2. split; [by rewrite Hw|].
    rewrite Hc2. unfold contents. by rewrite Hcells, Hregs.
Qed.

Lemma ipatch_calls_run {A B} (f : A -> B) (l : list A) n : forall k, (k + n <= length l)%nat ->
  mapM (fun i => word ← l !! i; Some (f word)) (seq k n) = Some (map f (take n (drop k l))).
Proof.
  induction n as [|n IH]; intros k Hk; [done|]. cbn [seq mapM].
  destruct (lookup_lt_is_Some_2 l k) as [w Hw]; [lia|]. rewrite Hw. cbn [mbind option_bind].
  rewrite IH by lia. cbn. by rewrite (drop_S _ _ _ Hw).
Qed.

Lemma group_calls (w : Z) (ws rest : list Z) n : (n <= length ws)%nat ->
  ipatch_calls n ((w :: ws) ++ rest) = Some (map patch_of (take n ws)).
Proof.
  intros Hn. unfold ipatch_calls. change (fun i => word ← ((w :: ws) ++ rest) !! S i; _) with
    (fun i => word ← (ws ++ rest) !! i; Some (patch_of word)).
  rewrite (ipatch_calls_run patch_of (ws ++ rest) n 0) by (rewrite length_app; lia).
  by rewrite drop_0, take_app_le by done.
Qed.

(** What a loop of the readers does with the first group, whatever it does with
    its words. *)
Lemma burnt_app cells addr ws1 ws2 : burnt cells addr (ws1 ++ ws2) ->
  burnt cells addr ws1 /\ burnt cells (addr - Z.of_nat (length ws1)) ws2.
Proof.
  intros Hb. split; intros i w Hi.
  - apply Hb. by apply lookup_app_l_Some.
  - rewrite <- (Hb (length ws1 + i)%nat w); [f_equal; lia|].
    by rewrite lookup_app_r, Nat.add_comm, Nat.add_sub by lia.
Qed.

Lemma ipatch_loop_chain gs : forall rounds fuel words addr total calls d,
  (fz_latency < fuel)%nat -> (length gs < rounds)%nat -> chain gs ->
  burnt (fz_cells (fz d)) addr (all_words gs) -> addr = 191 - total -> 0 <= total ->
  total + Z.of_nat (length (all_words gs)) < ARRAY_SIZE_words ->
  exists d', ipatch_loop rounds fuel words (first_length gs) addr total calls d =
    (Ret (0, calls ++ concat (map patches (reached gs))), d').
Proof.
  induction gs as [|g gs IH]; intros rounds fuel words addr total calls d Hf Hr Hc Hb Ha Ht Hs;
    (destruct rounds as [|rounds]; [cbn in Hr; lia|]); [exists d; cbn; by rewrite app_nil_r|].
  destruct Hc as (Hok & Hlink & Hc). change (all_words (g :: gs)) with (stored g ++ all_words gs) in *.
  rewrite length_app in Hs. pose proof (stored_length g) as Hl. unfold ARRAY_SIZE_words in *.
  apply burnt_app in Hb as [Hb1 Hb2].
  assert (Hne : 0 < Z.of_nat (length (g_words g))) by (destruct Hok as (Hn & _); destruct (g_words g); [done|cbn; lia]).
  cbn [ipatch_loop first_length]. unfold c_true. rewrite (proj2 (Z.eqb_neq _ 0)) by lia. cbn [negb].
  rewrite u32_id by lia. unfold ARRAY_SIZE_words. rewrite (proj2 (Z.leb_gt 80 _)) by lia.
  rewrite Nat2Z.id, <- Hl. destruct (read_words_run fuel (stored g) Hf addr d) as (d1 & E1 & Hc1); [lia|done|].
  rewrite (bind_run _ _ _ _ _ E1).
  destruct (decode_group g Hok) as (r & w & -> & Hr2 & Hn). rewrite (proj2 (Z.leb_gt 2 r)) by lia.
  change (nth 0 ((w :: ?x) ++ ?y) 0) with w. rewrite Hn.
  destruct Hok as (Hw & Hl127 & Hcw & Hcw1 & Hip & He). pose proof (ipatch_count_range (g_first g)).
  rewrite group_calls by (destruct (g_words g); [done|cbn [tail length] in *; lia]).
  fold (patches g). cbn [reached].
  destruct (next_count (nth 0 (stored g) 0) =? 0) eqn:En; [exists d1; cbn [map concat]; by rewrite app_nil_r|].
  destruct (decode_link g) as (r1 & w1 & -> & Hr1 & Hn1); [done|]. rewrite (proj2 (Z.leb_gt 2 r1)) by lia.
  rewrite Hn1, Hlink. injection Hc1 as Hcells Hregs.
  destruct (IH rounds fuel (<[0%nat := nth 0 (stored g) 0]> ((w :: tail (g_words g)) ++
      drop (length (w :: tail (g_words g))) words)) (u32 (addr - Z.of_nat (length (stored g))))
      (total + Z.of_nat (length (stored g))) (calls ++ patches g) d1) as (d2 & E2);
    [done|cbn in Hr; lia|done| |rewrite u32_id by lia; lia|lia|unfold ARRAY_SIZE_words; lia|].
  - rewrite u32_id, Hcells by lia. done.
  - exists d2. rewrite E2. cbn [map concat]. by rewrite app_assoc.
Qed.

Lemma chain_length gs : chain gs -> (length gs <= length (all_words gs))%nat.
Proof.
  induction gs as [|g gs IH]; intros Hc; [done|]. destruct Hc as ((Hn & _) & _ & Hc).
  change (all_words (g :: gs)) with (stored g ++ all_words gs).
  rewrite length_app, stored_length. specialize (IH Hc). destruct (g_words g); [done|]. cbn. lia.
Qed.

(** When no link of a group that is not the last reads back as zero, all groups
    are reached. *)
Lemma reached_all gs :
  (forall l g g' r, gs = l ++ g :: g' :: r -> next_count (nth 0 (stored g) 0) <> 0) -> reached gs = gs.
Proof.
  induction gs as [|g gs IH]; intros Hnz; [done|]. cbn [reached].
  destruct gs as [|g' r]; [by destruct (_ =? 0)|].
  rewrite (proj2 (Z.eqb_neq _ _) (Hnz [] g g' r eq_refl)). f_equal. apply IH.
  intros l h h' r' E. apply (Hnz (g :: l) h h' r'). by rewrite E.
Qed.

(** C35: reading the boot ROM patches from a fuse array that holds a chain of groups, in which one
    bit of every group may read back wrong, returns with success and reports exactly the patches
    of the groups that are reached, in order and corrected.  These are all groups, except that
    the chain ends at a group whose link reads back as zero: the code looks at the link before it
    corrects it, so a wrong bit can hide the groups behind it. *)
Theorem fuse_read_ipatch_correct (gs : list group) (fuel : nat) (words0 : list Z) (d : D) :
  (fz_latency < fuel)%nat -> chain gs -> burnt (fz_cells (fz d)) 191 (all_words gs) ->
  Z.of_nat (length (all_words gs)) < ARRAY_SIZE_words ->
  Z.land (fz_regs (fz d) (FUSE FUSE_FIRST_BOOTROM_PATCH_SIZE)) 0x7F = first_length gs ->
  exists d', fuse_read_ipatch fuel words0 d = (Ret (0, concat (map patches (reached gs))), d').
Proof.
  intros Hf Hc Hb Hl Hs. unfold fuse_read_ipatch.
  destruct (rd_reg (FUSE FUSE_FIRST_BOOTROM_PATCH_SIZE) d) as (d1 & E & [=Hcells Hregs]); [done..|].
  rewrite (bind_run _ _ _ _ _ E), Hs. pose proof (chain_length gs Hc). unfold ARRAY_SIZE_words in *.
  apply (ipatch_loop_chain gs); unfold ARRAY_SIZE_words; rewrite ?Hcells; done || lia.
Qed.

(** *** The test for a patched boot ROM *)

Lemma rcm_patch_loop_run fuel ws word_addr : (fz_latency < fuel)%nat ->
  forall i d, 0 <= i -> i + 1 + Z.of_nat (length ws) <= word_addr < 4294967296 ->
  burnt (fz_cells (fz d)) (word_addr - (i + 1)) ws ->
  exists d', rcm_patch_loop fuel (length ws) word_addr i d =
      (Ret (existsb (fun w => ipatch_addr w =? 0x769A) ws), d') /\ contents d' = contents d.
Proof.
  intros Hf. induction ws as [|w ws IH]; intros i d Hi Ha Hb; cbn [length rcm_patch_loop existsb] in *;
    [by exists d|].
  rewrite u32_id by lia.
  destruct (fuse_read_run fuel (word_addr - (i + 1)) d) as (d1 & E1 & Hc1); [lia|done|].
  rewrite (bind_run _ _ _ _ _ E1). pose proof (Hb 0%nat w eq_refl) as Hw. rewrite Z.sub_0_r in Hw.
  rewrite Hw. destruct (ipatch_addr w =? 0x769A); [by exists d1|]. cbn [orb].
  destruct (IH (i + 1) d1) as (d2 & E2 & Hc2); [lia|lia| |by exists d2; rewrite E2, Hc2].
  injection Hc1 as Hcells _. intros j v Hv. rewrite Hcells, <- (Hb (S j) v Hv). f_equal. lia.
Qed.

(** The address [fuse_check_patched_rcm] looks for. *)
Definition patches_rcm (g : group) : bool := existsb (fun p => fst p =? 0x769A) (patches g).

Lemma existsb_patches g :
  existsb (fun w => ipatch_addr w =? 0x769A) (take (Z.to_nat (ipatch_count (g_first g))) (tail (g_words g))) =
  patches_rcm g.
Proof. unfold patches_rcm, patches. induction (take _ _) as [|w l IH]; [done|]. cbn. by rewrite IH. Qed.

Lemma rcm_loop_chain gs : forall rounds fuel addr d,
  (fz_latency < fuel)%nat -> (length gs < rounds)%nat -> chain gs ->
  Forall (fun g => g_error g = None) gs ->
  burnt (fz_cells (fz d)) addr (all_words gs) -> Z.of_nat (length (all_words gs)) <= addr < 4294967296 ->
  exists d', rcm_loop rounds fuel (first_length gs) addr d = (Ret (existsb patches_rcm gs), d').
Proof.
  induction gs as [|g gs IH]; intros rounds fuel addr d Hf Hr Hc He Hb Ha;
    (destruct rounds as [|rounds]; [cbn in Hr; lia|]); [by exists d|].
  destruct Hc as (Hok & Hlink & Hc). inversion_clear He as [|? ? Eg He'].
  change (all_words (g :: gs)) with (stored g ++ all_words gs) in *. rewrite length_app in Ha.
  unfold stored in Ha, Hb. rewrite Eg in Ha, Hb. apply burnt_app in Hb as [Hb1 Hb2].
  destruct Hok as (Hn & _ & _ & _ & Hip & _). pose proof (ipatch_count_range (g_first g)) as Hr16.
  unfold g_first in Hlink, Hip, Hr16. destruct (g_words g) as [|w0 rest] eqn:Ew; [done|].
  cbn [nth length] in *.
  cbn [rcm_loop first_length]. rewrite Ew. unfold c_true. rewrite (proj2 (Z.eqb_neq _ 0)) by (cbn [length]; lia).
  cbn [negb]. destruct (fuse_read_run fuel addr d) as (d1 & E1 & [=Hcells Hregs]); [lia|done|].
  pose proof (Hb1 0%nat w0 eq_refl) as Hw0. rewrite Z.sub_0_r in Hw0. rewrite Hw0 in E1.
  rewrite (bind_run _ _ _ _ _ E1).
  destruct (rcm_patch_loop_run fuel (take (Z.to_nat (ipatch_count w0)) rest) addr Hf 0 d1)
    as (d2 & E2 & Hc2); [lia| | |].
  { rewrite length_take. lia. }
  { intros j v Hv. rewrite Hcells. apply lookup_take_Some in Hv as [Hv _].
    rewrite <- (Hb1 (S j) v Hv). f_equal. lia. }
  rewrite length_take, Nat.min_l in E2 by lia. rewrite (bind_run _ _ _ _ _ E2).
  pose proof (existsb_patches g) as Hx. unfold g_first in Hx. rewrite Ew in Hx. cbn [nth tail] in Hx.
  rewrite Hx. cbn [existsb]. destruct (patches_rcm g); [by exists d2|]. cbn [orb].
  rewrite Hlink. injection Hc2 as Hcells2 _. apply IH; try done.
  - cbn in Hr. lia.
  - rewrite u32_id, Hcells2, Hcells by (cbn [length]; lia). done.
  - rewrite u32_id by (cbn [length]; lia). cbn [length]. lia.
Qed.

Lemma existsb_concat_patches gs :
  existsb patches_rcm gs = existsb (fun p => fst p =? 0x769A) (concat (map patches gs)).
Proof.
  induction gs as [|g gs IH]; [done|]. cbn [existsb map concat]. by rewrite existsb_app, IH.
Qed.

(** On a console that is neither a T210B01 nor has the USB3 recovery mode enabled, and whose
    fuses read back as programmed, the boot ROM counts as patched exactly when one of the patches
    of the fuse array is at the address of the recovery mode code. *)
Theorem fuse_check_patched_rcm_correct (gs : list group) (rounds fuel : nat) (d : D) :
  (fz_latency < fuel)%nat -> (length gs < rounds)%nat -> chain gs ->
  Forall (fun g => g_error g = None) gs ->
  burnt (fz_cells (fz d)) 191 (all_words gs) -> Z.of_nat (length (all_words gs)) <= 191 ->
  Z.land (fz_regs (fz d) (FUSE FUSE_FIRST_BOOTROM_PATCH_SIZE)) 0x7F = first_length gs ->
  Z.testbit (fz_regs (fz d) (FUSE FUSE_RESERVED_SW)) 7 = false ->
  Z.land (Z.shiftr (fz_regs (fz d) APB_MISC_GP_HIDREV) 4) 0xF < GP_HIDREV_MAJOR_T210B01 ->
  exists d', fuse_check_patched_rcm rounds fuel d =
    (Ret (existsb (fun p => fst p =? 0x769A) (concat (map patches gs))), d').
Proof.
  intros Hf Hr Hc He Hb Hl Hs Hsw Hid. unfold fuse_check_patched_rcm.
  destruct (rd_reg (FUSE FUSE_RESERVED_SW) d) as (d1 & E1 & [=Hc1 Hr1]); [done..|].
  rewrite (bind_run _ _ _ _ _ E1).
  change (Z.shiftl 1 7) with (BIT 7). rewrite c_true_land_BIT, Hsw by lia.
  destruct (rd_reg APB_MISC_GP_HIDREV d1) as (d2 & E2 & [=Hc2 Hr2]); [done..|].
  unfold hw_get_chip_id. rewrite bind_assoc, bind_assoc, (bind_run _ _ _ _ _ E2), !bind_mret.
  rewrite Hr1, (proj2 (Z.leb_gt _ _)) by done. cbn [Z.eqb].
  destruct (rd_reg (FUSE FUSE_FIRST_BOOTROM_PATCH_SIZE) d2) as (d3 & E3 & [=Hc3 Hr3]); [done..|].
  change (GP_HIDREV_MAJOR_T210 =? GP_HIDREV_MAJOR_T210B01) with false. cbn iota.
  rewrite (bind_run _ _ _ _ _ E3), Hr2, Hr1, Hs, <- existsb_concat_patches.
  apply rcm_loop_chain; rewrite ?Hc3, ?Hc2, ?Hc1; done || lia.
Qed.

End Box.

(** ** Any contents of the array *)

(** Whatever the fuses hold, [fuse_read_ipatch] returns and stays inside its
    array: the sum of the group sizes bounds both. *)
Section Total.
Context {D : Type} `{FuseBox D}.

Lemma read_words_any fuel n : (fz_latency < fuel)%nat -> forall addr d, 0 <= addr < 4294967296 ->
  exists ws d', read_words fuel n addr d = (Ret ws, d') /\ length ws = n /\ contents d' = contents d /\
    (forall w, w ∈ ws -> exists a, w = fz_cells (fz d) a).
Proof.
  intros Hf. induction n as [|n IH]; intros addr d Ha; cbn [read_words].
  { exists [], d. split_and!; try done. intros w Hw. by apply elem_of_nil in Hw. }
  destruct (fuse_read_run fuel addr d Ha Hf) as (d1 & E1 & Hc1). rewrite (bind_run _ _ _ _ _ E1).
  destruct (IH (u32 (addr - 1)) d1 (u32_range _)) as (ws & d2 & E2 & Hl & Hc2 & Hw).
  rewrite (bind_run _ _ _ _ _ E2). exists (fz_cells (fz d) addr :: ws), d2. split_and!; try done.
  - cbn. by rewrite Hl.
  - by rewrite Hc2.
  - injection Hc1 as Hcells _. rewrite Hcells in Hw. intros w [->|Hin]%elem_of_cons; [by eexists|by apply Hw].
Qed.

Lemma correction_length ws h p : length (snd (correction ws h p)) = length ws.
Proof. unfold correction. repeat case_match; cbn [snd]; by rewrite ?flip_length, ?length_alter. Qed.

Lemma patch_hash_multi_length ws : length (snd (_patch_hash_multi ws)) = length ws.
Proof.
  destruct ws as [|w rest]; [done|]. rewrite patch_hash_multi_correction, correction_length by done. done.
Qed.

Lemma next_count_one w : 0 <= w < 4294967296 -> 0 <= next_count (snd (_patch_hash_one w)) <= 127.
Proof.
  intros Hw. assert (Hx : forall b, 0 <= b < 32 -> 0 <= Z.lxor w (BIT b) < 4294967296).
  { intros b Hb. rewrite flip1_BIT by done. unfold flip1.
    assert (0 <= Z.lxor w (2 ^ b)) by (apply Z.lxor_nonneg; split; [|intros _; lia]; intros; apply Z.pow_nonneg; lia).
    split; [done|]. destruct (Z.eq_dec (Z.lxor w (2 ^ b)) 0) as [->|Hn]; [done|].
    apply (Z.log2_lt_pow2 _ 32); [lia|]. eapply Z.le_lt_trans; [apply Z.log2_lxor; [lia|apply Z.pow_nonneg; lia]|].
    rewrite Z.log2_pow2 by lia. apply Z.max_lub_lt; [|lia].
    destruct (Z.eq_dec w 0) as [->|]; [done|]. apply Z.log2_lt_pow2; lia. }
  assert (Hr : 0 <= snd (_patch_hash_one w) < 4294967296).
  { unfold _patch_hash_one. repeat case_match; cbn [snd]; try done; try (apply Hx; lia).
    apply Hx. unfold find_hash in *. repeat case_match; simplify_eq.
    match goal with E : List.find _ _ = Some _ |- _ => apply find_some in E as [Hin _] end.
    vm_compute in Hin. repeat destruct Hin as [[=]|Hin]; lia || done. }
  unfold next_count. rewrite Z.shiftr_div_pow2 by lia. change (2 ^ 25) with 33554432. zdm.
Qed.

Lemma ipatch_loop_total rounds : forall fuel words count addr total calls d,
  (fz_latency < fuel)%nat -> (forall a, 0 <= fz_cells (fz d) a < 4294967296) ->
  length words = 80%nat -> 0 <= count <= 127 -> 0 <= addr < 4294967296 ->
  0 <= total < 80 -> 80 < total + Z.of_nat rounds ->
  exists r cs d', ipatch_loop rounds fuel words count addr total calls d = (Ret (r, cs), d') /\
    (r = 0 \/ r = 1 \/ r = 3).
Proof.
  induction rounds as [|rounds IH]; intros fuel words count addr total calls d Hf Hcells Hw Hc Ha Ht Hr; [lia|].
  cbn [ipatch_loop]. unfold c_true. destruct (Z.eqb_spec count 0) as [->|Hc0]; cbn [negb].
  { exists 0, calls, d. auto. }
  rewrite u32_id by lia. destruct (Z.leb_spec ARRAY_SIZE_words (total + count)) as [|H80].
  { exists 0, calls, d. auto. }
  unfold ARRAY_SIZE_words in H80.
  destruct (read_words_any fuel (Z.to_nat count) Hf addr d Ha) as (ws & d1 & E1 & Hl & [=Hcells1 _] & Hin).
  rewrite (bind_run _ _ _ _ _ E1). pose proof (patch_hash_multi_length ws) as Hlm.
  destruct (_patch_hash_multi ws) as [r used]. cbn [snd] in Hlm. destruct (2 <=? r).
  { exists 1, calls, d1. auto. }
  set (words1 := used ++ drop (length used) words).
  assert (Hw1 : length words1 = 80%nat) by (unfold words1; rewrite length_app, length_drop; lia).
  destruct words1 as [|w1 words1]; [done|]. cbn [nth]. pose proof (ipatch_count_range w1).
  rewrite <- (app_nil_r (w1 :: words1)), group_calls by (cbn [length] in Hw1; lia).
  assert (Hw0 : 0 <= nth 0 ws 0 < 4294967296).
  { destruct ws as [|w ws]; [done|]. destruct (Hin w) as [a ->]; [by left|]. apply Hcells. }
  destruct (_ =? 0).
  { eexists 0, _, d1. auto. }
  pose proof (next_count_one (nth 0 ws 0) Hw0) as Hn.
  destruct (_patch_hash_one _) as [r1 word0]. cbn [snd] in Hn. destruct (2 <=? r1).
  { eexists 3, _, d1. auto. }
  apply IH; [done|by rewrite Hcells1| |done|apply u32_range|lia|lia].
  by rewrite length_insert, app_nil_r.
Qed.

(** Whatever the fuse array holds, reading the boot ROM patches returns, with one of the
    three results of the code, and never leaves the array on its stack. *)
Theorem fuse_read_ipatch_total (fuel : nat) (words0 : list Z) (d : D) :
  (fz_latency < fuel)%nat -> (forall a, 0 <= fz_cells (fz d) a < 4294967296) ->
  length words0 = 80%nat ->
  exists r cs d', fuse_read_ipatch fuel words0 d = (Ret (r, cs), d') /\ (r = 0 \/ r = 1 \/ r = 3).
Proof.
  intros Hf Hcells Hw. unfold fuse_read_ipatch.
  destruct (rd_reg (FUSE FUSE_FIRST_BOOTROM_PATCH_SIZE) d) as (d1 & E & [=Hc1 _]); [done..|].
  rewrite (bind_run _ _ _ _ _ E). change 0x7F with (Z.ones 7). rewrite Z.land_ones by lia.
  pose proof (Z.mod_pos_bound (fz_regs (fz d) (FUSE FUSE_FIRST_BOOTROM_PATCH_SIZE)) (2 ^ 7) ltac:(lia)).
  apply ipatch_loop_total; [done|by rewrite Hc1|done|change (2 ^ 7) with 128 in *; lia|lia..].
Qed.

End Total.

(** ** Findings and witnesses *)

(** A group with more patches than words makes the count of thunk instructions
    wrap around: the copy leaves the array. *)
Lemma evp_copy_overruns iram words count e : length words = 80%nat ->
  0 < count <= ipatch_count (nth 0 words 0) -> evp_copy iram words count e = None.
Proof.
  intros Hl Hc. unfold evp_copy. pose proof (ipatch_count_range (nth 0 words 0)) as Hr.
  set (k := ipatch_count (nth 0 words 0)) in *.
  assert (E : u32 (count - k - 1) = 4294967296 + (count - k - 1)) by (unfold u32; zdm).
  rewrite E. unfold c_true. rewrite (proj2 (Z.eqb_neq _ 0)) by lia. cbn [negb].
  assert (E4 : u32 ((4294967296 + (count - k - 1)) * 4) = 4294967296 + (count - k - 1) * 4) by (unfold u32; zdm).
  rewrite E4. by rewrite (proj2 (Z.ltb_lt _ _)) by lia.
Qed.

(** A controller with the programmed words and two polls per read. *)
#[global] Instance fuse_hw_mmio : Mmio fuse_hw := {|
  rd32 := hw_rd; wr32 := hw_wr 2; tmr_us s := (0, s); tmr_ms s := (0, s); sleep_us _ s := s
|}.
#[global, program] Instance fuse_hw_box : FuseBox fuse_hw := {| fz s := s; fz_latency := 2 |}.
Next Obligation. intros. unfold rd32, fuse_hw_mmio. by destruct (hw_rd a d). Qed.
Next Obligation. done. Qed.

Definition two_groups : list group :=
  [ Group [0x5520053; 0x3b4d2000; 0x12345678] (Some 40); Group [0x1c001; 0x10002] (Some 3) ].
Definition intact_groups : list group := map (fun g => Group (g_words g) None) two_groups.
Definition box (gs : list group) : fuse_hw :=
  FuseHw (fun a => nth (Z.to_nat (191 - a)) (all_words gs) 0)
    (fun a => if a =? FUSE FUSE_FIRST_BOOTROM_PATCH_SIZE then first_length gs
              else if a =? APB_MISC_GP_HIDREV then 0x10 else 0) 0 0 0.

Lemma box_burnt gs : burnt (fz_cells (box gs)) 191 (all_words gs).
Proof.
  intros i w Hi. cbn [box fz_cells].
  replace (Z.to_nat (191 - (191 - Z.of_nat i))) with i by lia. by apply nth_lookup_Some.
Qed.

Lemma two_groups_chain : chain two_groups /\ chain intact_groups.
Proof.
  unfold two_groups, intact_groups. cbn [chain map two_groups]. unfold group_ok.
  split_and!; try (intros ? Hp; cbn [g_error] in Hp; injection Hp as <-);
    first [ reflexivity | discriminate | intros Hx; exfalso; by apply Hx
          | intros _; vm_compute; discriminate | vm_compute; discriminate | by vm_compute ].
Qed.

(** An error in the link that makes it read as zero ends the chain before the
    link is corrected: the second group is lost and success reported. *)
Lemma link_error_truncates :
  fst (fuse_read_ipatch 3 (repeat 0 80)
         (box [ Group [0x5520053; 0x3b4d2000; 0x12345678] (Some 26); Group [0x1c001; 0x10002] None ])) =
    Ret (0, [(0x769A, 0x2000); (0x2468, 0x5678)]).
Proof. vm_compute. reflexivity. Qed.

Lemma patch_hash_multi_secded_witness :
  _patch_hash_multi (flip 40 [0x5520053; 0x3b4d2000; 0x12345678]) = (1, [0x20053; 0x3b4d2000; 0x12345678]) /\
  fst (_patch_hash_multi (flip 90 (flip 7 [0x5520053; 0x3b4d2000; 0x12345678]))) = 3.
Proof.
  destruct (patch_hash_multi_secded [0x5520053; 0x3b4d2000; 0x12345678]) as (_ & H1 & H2);
    [done|vm_compute; discriminate|by vm_compute|].
  split; [apply H1|apply H2]; unfold protected; cbn; lia.
Defined.

Lemma fuse_read_ipatch_correct_witness :
  exists d', fuse_read_ipatch 3 (repeat 0 80) (box two_groups) =
    (Ret (0, [(0x769A, 0x2000); (0x2468, 0x5678); (2, 2)]), d').
Proof.
  apply (fuse_read_ipatch_correct two_groups 3 (repeat 0 80) (box two_groups)).
  - cbn. lia.
  - apply two_groups_chain.
  - apply box_burnt.
  - reflexivity.
  - reflexivity.
Defined.

Lemma fuse_check_patched_rcm_correct_witness :
  exists d', fuse_check_patched_rcm 5 3 (box intact_groups) = (Ret true, d').
Proof.
  apply (fuse_check_patched_rcm_correct intact_groups 5 3 (box intact_groups)).
  - cbn. lia.
  - cbn. lia.
  - apply two_groups_chain.
  - repeat constructor.
  - apply box_burnt.
  - vm_compute. discriminate.
  - reflexivity.
  - reflexivity.
  - reflexivity.
Defined.

Lemma fuse_read_ipatch_total_witness :
  exists r cs d', fuse_read_ipatch 3 (repeat 0 80)
    (FuseHw (fun _ => 0xFFFFFFFF) (fun _ => 0x7F) 0 0 0) = (Ret (r, cs), d') /\ (r = 0 \/ r = 1 \/ r = 3).
Proof.
  apply (fuse_read_ipatch_total 3 (repeat 0 80)).
  - cbn. lia.
  - intros a. cbn. lia.
  - reflexivity.
Defined.
