(* ===== verification/Irq.v ===== *)
(** * Irq

    bdk/soc/irq.c: the table of interrupt handlers and the enabling of sources
    in the interrupt controllers. *)

From stdpp Require Import relations.
From S2P Require Import Prelude I2c.

(** ** Registers and data *)

Definition ICTLR (cidx off : Z) : Z := 0x60004000 + 0x100 * cidx + off.
Definition PRI_ICTLR_FIR_CLR : Z := 0x1C.
Definition PRI_ICTLR_COP_IER : Z := 0x30.
Definition PRI_ICTLR_COP_IER_SET : Z := 0x34.
Definition PRI_ICTLR_COP_IER_CLR : Z := 0x38.
Definition PRI_ICTLR_COP_IEP_CLASS : Z := 0x3C.
Definition EVP_COP_IRQ_STS : Z := 0x6000F000 + 0x220.
Definition FLOW_CTLR_HALT_COP_EVENTS : Z := 0x60007000 + 0x4.
Definition HALT_COP_STOP_UNTIL_IRQ : Z := BIT 31.

Definition IRQ_MAX_HANDLERS : nat := 16.
Definition IRQ_NONE : Z := 0.
Definition IRQ_HANDLED : Z := 1.
Definition IRQ_ERROR : Z := 2.
Definition IRQ_ENABLED : Z := 0.
Definition IRQ_NO_SLOTS_AVAILABLE : Z := 1.
Definition IRQ_ALREADY_REGISTERED : Z := 2.
Definition IRQ_FLAG_ONE_OFF : Z := BIT 0.
Definition IRQ_FLAG_REPLACEABLE : Z := BIT 1.

(** [handler] is the address of the function, 0 for none. *)
Record irq_ctxt_t := IrqCtxt { irq : Z; handler : Z; data : Z; flags : Z }.
Definition empty_slot : irq_ctxt_t := IrqCtxt 0 0 0 0.

(** The processor's interrupt mask (start.S) and a call of a handler.  A handler
    acts on the device state only: it does not itself register, release or
    enable sources.  No file of the payload calls [irq_request] with a handler
    that would. *)
Class Cpu (D : Type) := {
  irq_enable_cpu_irq_exceptions : D -> D;
  irq_disable_cpu_irq_exceptions : D -> D;
  call_handler : Z -> Z -> Z -> D -> Z * D
}.

Record irq_state (D : Type) := IrqState {
  q_dev : D;
  irqs : list irq_ctxt_t;
  irq_init_done : bool
}.
Arguments IrqState {D}.
Arguments q_dev {D}.
Arguments irqs {D}.
Arguments irq_init_done {D}.

Section Irq.
Context {D : Type} `{Mmio D} `{Cpu D}.

Definition on_hw {A} (m : M D A) : M (irq_state D) A := fun s =>
  let '(o, d) := m (q_dev s) in (o, IrqState d (irqs s) (irq_init_done s)).
Definition set_irqs (l : list irq_ctxt_t) : M (irq_state D) unit :=
  modify (fun s => IrqState (q_dev s) l (irq_init_done s)).
Definition set_init (b : bool) : M (irq_state D) unit :=
  modify (fun s => IrqState (q_dev s) (irqs s) b).

(** ** Sources *)

Definition _irq_enable_source (irq : Z) : M D unit :=
  let ctrl_idx := Z.shiftr irq 5 in
  let bit := irq mod 32 in
  c ← rd (ICTLR ctrl_idx PRI_ICTLR_COP_IEP_CLASS);
  wr (ICTLR ctrl_idx PRI_ICTLR_COP_IEP_CLASS) (Z.land c (u32 (Z.lnot (BIT bit))));;
  wr (ICTLR ctrl_idx PRI_ICTLR_COP_IER_SET) (BIT bit).

Definition _irq_disable_source (irq : Z) : M D unit :=
  wr (ICTLR (Z.shiftr irq 5) PRI_ICTLR_COP_IER_CLR) (BIT (irq mod 32)).

Fixpoint disable_and_ack (n : nat) (ctrl_idx : Z) : M D unit :=
  match n with
  | O => mret tt
  | S n =>
      e ← rd (ICTLR ctrl_idx PRI_ICTLR_COP_IER);
      wr (ICTLR ctrl_idx PRI_ICTLR_COP_IER_CLR) e;;
      wr (ICTLR ctrl_idx PRI_ICTLR_FIR_CLR) e;;
      disable_and_ack n (ctrl_idx + 1)
  end.
Definition _irq_disable_and_ack_all : M D unit := disable_and_ack 6 0.

Definition _irq_ack_source (irq : Z) : M D unit :=
  wr (ICTLR (Z.shiftr irq 5) PRI_ICTLR_FIR_CLR) (BIT (irq mod 32)).

(** ** The table *)

(** The loop of [irq_free] over the slots. *)
Fixpoint free_slots (i : Z) (l : list irq_ctxt_t) : M D (list irq_ctxt_t) :=
  match l with
  | [] => mret []
  | c :: l =>
      if (irq c =? i) && c_true (handler c) then
        _irq_disable_source i;;
        l ← free_slots i l;
        mret (empty_slot :: l)
      else l ← free_slots i l; mret (c :: l)
  end.
Definition irq_free (i : Z) : M (irq_state D) unit :=
  s ← get;
  l ← on_hw (free_slots i (irqs s));
  set_irqs l.

Fixpoint free_all_slots (l : list irq_ctxt_t) : M D (list irq_ctxt_t) :=
  match l with
  | [] => mret []
  | c :: l =>
      if c_true (handler c) then
        _irq_disable_source (irq c);;
        l ← free_all_slots l;
        mret (empty_slot :: l)
      else l ← free_all_slots l; mret (c :: l)
  end.
Definition _irq_free_all : M (irq_state D) unit :=
  s ← get;
  l ← on_hw (free_all_slots (irqs s));
  set_irqs l.

(** The search of [_irq_handle_source]: the status and the slot it stopped at,
    [None] behind the last.  A null handler that is called is an overrun. *)
Fixpoint handle_slots (i : Z) (l : list irq_ctxt_t) (status : Z) : M D (Z * option irq_ctxt_t) :=
  match l with
  | [] => mret (status, None)
  | c :: l =>
      if irq c =? i then
        if negb (c_true (handler c)) then overrun
        else
          status ← (fun d => let '(r, d) := call_handler (handler c) (irq c) (data c) d in (Ret r, d));
          if status =? IRQ_HANDLED then mret (status, Some c)
          else handle_slots i l status
      else handle_slots i l status
  end.

Definition _irq_handle_source (i : Z) : M (irq_state D) Z :=
  on_hw (_irq_disable_source i);;
  on_hw (_irq_ack_source i);;
  s ← get;
  '(status, slot) ← on_hw (handle_slots i (irqs s) IRQ_NONE);
  if status =? IRQ_NONE then mret status
  else
    match slot with
    | None => overrun
    | Some c =>
        (if c_true (Z.land (flags c) IRQ_FLAG_ONE_OFF) then irq_free i
         else on_hw (_irq_enable_source i));;
        mret status
    end.

Definition irq_handler : M (irq_state D) unit :=
  v ← on_hw (rd EVP_COP_IRQ_STS);
  let i := Z.land v 0xFF in
  s ← get;
  if negb (irq_init_done s) then
    on_hw (_irq_disable_source i);;
    on_hw (_irq_ack_source i)
  else _irq_handle_source i;; mret tt.

Definition _irq_init : M (irq_state D) unit :=
  on_hw _irq_disable_and_ack_all;;
  set_irqs (replicate IRQ_MAX_HANDLERS empty_slot);;
  set_init true.

Definition irq_end : M (irq_state D) unit :=
  s ← get;
  if negb (irq_init_done s) then mret tt
  else
    _irq_free_all;;
    on_hw (modify irq_disable_cpu_irq_exceptions);;
    set_init false.

Definition irq_wait_event (i : Z) : M (irq_state D) unit :=
  on_hw (modify irq_disable_cpu_irq_exceptions);;
  on_hw (_irq_enable_source i);;
  on_hw (wr FLOW_CTLR_HALT_COP_EVENTS HALT_COP_STOP_UNTIL_IRQ);;
  on_hw (_irq_disable_source i);;
  on_hw (_irq_ack_source i);;
  on_hw (modify irq_enable_cpu_irq_exceptions).

Definition irq_disable_wait_event : M (irq_state D) unit :=
  on_hw (modify irq_enable_cpu_irq_exceptions).

(** The search of [irq_request]: the slot to fill, or the status to return. *)
Fixpoint find_slot (i : Z) (idx : nat) (l : list irq_ctxt_t) : nat + Z :=
  match l with
  | [] => inr IRQ_NO_SLOTS_AVAILABLE
  | c :: l =>
      if negb (c_true (handler c)) || ((irq c =? i) && c_true (Z.land (flags c) IRQ_FLAG_REPLACEABLE))
      then inl idx
      else if irq c =? i then inr IRQ_ALREADY_REGISTERED
      else find_slot i (S idx) l
  end.

Definition irq_request (i h dat fl : Z) : M (irq_state D) Z :=
  s ← get;
  (if irq_init_done s then mret tt else _irq_init);;
  s ← get;
  match find_slot i 0 (irqs s) with
  | inl idx =>
      set_irqs (<[idx := IrqCtxt i h dat fl]> (irqs s));;
      on_hw (_irq_enable_source i);;
      mret IRQ_ENABLED
  | inr status => mret status
  end.

End Irq.

(** ** The interrupt controllers *)

(** The effect of a register write on the enabled sources, six controllers of 32
    sources each. *)
Definition ictlr_wr (a v : Z) (en : Z -> bool) (j : Z) : bool :=
  if a =? ICTLR (j / 32) PRI_ICTLR_COP_IER_SET then en j || Z.testbit v (j mod 32)
  else if a =? ICTLR (j / 32) PRI_ICTLR_COP_IER_CLR then en j && negb (Z.testbit v (j mod 32))
  else en j.

Definition source (j : Z) : Prop := 0 <= j < 192.

(** A device with these controllers: reads leave the sources alone, the enable
    register shows them, and so do the processor's mask and the handlers. *)
Class Ictlr (D : Type) `{Mmio D} `{Cpu D} := {
  enabled : D -> Z -> bool;
  enabled_wr : forall a v d j, source j -> enabled (wr32 a v d) j = ictlr_wr a v (enabled d) j;
  enabled_rd : forall a d j, source j -> enabled (snd (rd32 a d)) j = enabled d j;
  enabled_ier : forall d j, source j ->
    Z.testbit (fst (rd32 (ICTLR (j / 32) PRI_ICTLR_COP_IER) d)) (j mod 32) = enabled d j;
  enabled_cpu_on : forall d j, source j -> enabled (irq_enable_cpu_irq_exceptions d) j = enabled d j;
  enabled_cpu_off : forall d j, source j -> enabled (irq_disable_cpu_irq_exceptions d) j = enabled d j;
  enabled_call : forall h i x d j, source j -> enabled (snd (call_handler h i x d)) j = enabled d j
}.

Lemma testbit_BIT b n : 0 <= b < 32 -> 0 <= n -> Z.testbit (u32 (BIT b)) n = (b =? n).
Proof.
  intros Hb Hn. unfold BIT. rewrite u32_u32, Z.shiftl_1_l, u32_id, Z.pow2_bits_eqb by
    first [ lia | split; [apply Z.pow_nonneg; lia|change 4294967296 with (2 ^ 32); apply Z.pow_lt_mono_r; lia] ].
  done.
Qed.
Lemma testbit_u32 v n : 0 <= n < 32 -> Z.testbit (u32 v) n = Z.testbit v n.
Proof. intros Hn. unfold u32. change 4294967296 with (2 ^ 32). apply Z.mod_pow2_bits_low. lia. Qed.

(** Addresses of the controller registers. *)
Lemma ICTLR_eqb c off c' off' : 0 <= off < 0x100 -> 0 <= off' < 0x100 ->
  (ICTLR c off =? ICTLR c' off') = (c =? c') && (off =? off').
Proof.
  intros Ho Ho'. unfold ICTLR. destruct (Z.eqb_spec c c') as [->|]; cbn [andb].
  - destruct (Z.eqb_spec off off'); [apply Z.eqb_eq|apply Z.eqb_neq]; lia.
  - apply Z.eqb_neq. lia.
Qed.

Section Enabled.
Context {D : Type} `{Ictlr D}.

Lemma ictlr_set i en j : 0 <= i -> source j ->
  ictlr_wr (ICTLR (Z.shiftr i 5) PRI_ICTLR_COP_IER_SET) (u32 (BIT (i mod 32))) en j = en j || (i =? j).
Proof.
  intros Hi Hj. unfold ictlr_wr. rewrite !ICTLR_eqb by done. rewrite Z.shiftr_div_pow2 by lia.
  change (2 ^ 5) with 32. cbn -[Z.div Z.modulo]. rewrite andb_true_r, andb_false_r.
  rewrite testbit_BIT by (apply Z.mod_pos_bound; lia).
  destruct (Z.eqb_spec (i / 32) (j / 32)) as [E|E].
  - f_equal. destruct (Z.eqb_spec (i mod 32) (j mod 32)), (Z.eqb_spec i j); try done; zdm.
  - rewrite (proj2 (Z.eqb_neq i j)), orb_false_r; [done|]. by intros ->.
Qed.

Lemma ictlr_clr i en j : 0 <= i -> source j ->
  ictlr_wr (ICTLR (Z.shiftr i 5) PRI_ICTLR_COP_IER_CLR) (u32 (BIT (i mod 32))) en j =
    en j && negb (i =? j).
Proof.
  intros Hi Hj. unfold ictlr_wr. rewrite !ICTLR_eqb by done. rewrite Z.shiftr_div_pow2 by lia.
  change (2 ^ 5) with 32. cbn -[Z.div Z.modulo]. rewrite andb_false_r, andb_true_r.
  rewrite testbit_BIT by (apply Z.mod_pos_bound; lia).
  destruct (Z.eqb_spec (i / 32) (j / 32)) as [E|E].
  - do 2 f_equal. destruct (Z.eqb_spec (i mod 32) (j mod 32)), (Z.eqb_spec i j); try done; zdm.
  - rewrite (proj2 (Z.eqb_neq i j)), andb_true_r; [done|]. by intros ->.
Qed.

(** A write to any other register of a controller. *)
Lemma ictlr_other c off v en j : 0 <= off < 0x100 -> off <> PRI_ICTLR_COP_IER_SET ->
  off <> PRI_ICTLR_COP_IER_CLR -> ictlr_wr (ICTLR c off) v en j = en j.
Proof.
  intros Ho Hs Hc. unfold ictlr_wr. rewrite !ICTLR_eqb by done.
  by rewrite (proj2 (Z.eqb_neq off PRI_ICTLR_COP_IER_SET)), (proj2 (Z.eqb_neq off PRI_ICTLR_COP_IER_CLR)),
    !andb_false_r.
Qed.

(** [m] returns and changes the enabled sources by [f]. *)
Definition acts {A} (m : M D A) (f : (Z -> bool) -> Z -> bool) : Prop :=
  forall d, exists x d', m d = (Ret x, d') /\ forall j, source j -> enabled d' j = f (enabled d) j.

Lemma wr_acts a v : acts (wr a v) (fun en j => ictlr_wr a (u32 v) en j).
Proof. intros d. exists tt, (wr32 a (u32 v) d). split; [done|]. intros j Hj. by apply enabled_wr. Qed.

Lemma disable_acts i : 0 <= i -> acts (_irq_disable_source i) (fun en j => en j && negb (i =? j)).
Proof.
  intros Hi d. destruct (wr_acts (ICTLR (Z.shiftr i 5) PRI_ICTLR_COP_IER_CLR) (BIT (i mod 32)) d)
    as (x & d' & E & He). exists x, d'. split; [done|]. intros j Hj. rewrite He by done.
  by apply ictlr_clr.
Qed.

Lemma ack_acts i : acts (_irq_ack_source i) (fun en j => en j).
Proof.
  intros d. destruct (wr_acts (ICTLR (Z.shiftr i 5) PRI_ICTLR_FIR_CLR) (BIT (i mod 32)) d)
    as (x & d' & E & He). exists x, d'. split; [done|]. intros j Hj. rewrite He by done.
  by apply ictlr_other.
Qed.

Lemma enable_acts i : 0 <= i -> acts (_irq_enable_source i) (fun en j => en j || (i =? j)).
Proof.
  intros Hi d. unfold _irq_enable_source, rd, mbind, M_bind.
  set (a := ICTLR (Z.shiftr i 5) PRI_ICTLR_COP_IEP_CLASS). pose proof (enabled_rd a d) as Hr.
  destruct (rd32 a d) as [c d1]. cbn [snd] in Hr. eexists tt, _. split; [reflexivity|].
  intros j Hj. rewrite enabled_wr, ictlr_set by done. f_equal.
  rewrite enabled_wr by done. unfold a. rewrite ictlr_other by done. by apply Hr.
Qed.

Lemma disable_and_ack_acts n : forall c, 0 <= c -> acts (disable_and_ack n c)
  (fun en j => en j && negb ((c <=? j / 32) && (j / 32 <? c + Z.of_nat n))).
Proof.
  induction n as [|n IH]; intros c Hc d; cbn [disable_and_ack].
  { exists tt, d. split; [done|]. intros j Hj.
    destruct (Z.leb_spec c (j / 32)), (Z.ltb_spec (j / 32) (c + Z.of_nat 0)); cbn [andb negb];
      rewrite ?andb_true_r; done || lia. }
  unfold rd, mbind at 1, M_bind at 1. pose proof (enabled_rd (ICTLR c PRI_ICTLR_COP_IER) d) as Hr.
  assert (Hb : forall j, source j -> j / 32 = c ->
    Z.testbit (fst (rd32 (ICTLR c PRI_ICTLR_COP_IER) d)) (j mod 32) = enabled d j)
    by (intros j Hj <-; by apply enabled_ier).
  destruct (rd32 (ICTLR c PRI_ICTLR_COP_IER) d) as [e d1]. cbn [fst snd] in *.
  unfold mbind at 1 2, M_bind at 1 2, wr, modify.
  set (d2 := wr32 _ _ (wr32 _ _ d1)).
  destruct (IH (c + 1) ltac:(lia) d2) as (x & d' & E & He). exists x, d'. split; [exact E|].
  intros j Hj. rewrite He by done.
  assert (Hd2 : enabled d2 j = enabled d j && negb (c =? j / 32)).
  { unfold d2. rewrite enabled_wr, ictlr_other, enabled_wr by done. unfold ictlr_wr.
    rewrite !ICTLR_eqb by done. cbn -[Z.div Z.modulo]. rewrite andb_false_r, andb_true_r.
    pose proof (Z.mod_pos_bound j 32 ltac:(lia)) as Hm. rewrite testbit_u32, Hr by done.
    destruct (Z.eqb_spec c (j / 32)) as [Ec|]; [|by rewrite andb_true_r].
    rewrite Hb by done. by destruct (enabled d j). }
  rewrite Hd2. replace (c + 1 + Z.of_nat n) with (c + Z.of_nat (S n)) by lia.
  destruct (enabled d j); [|done]. cbn [andb].
  destruct (Z.eqb_spec c (j / 32)), (Z.leb_spec c (j / 32)), (Z.leb_spec (c + 1) (j / 32)),
    (Z.ltb_spec (j / 32) (c + Z.of_nat (S n))); cbn [andb negb]; done || lia.
Qed.

Lemma disable_all_acts : acts _irq_disable_and_ack_all (fun _ _ => false).
Proof.
  intros d. destruct (disable_and_ack_acts 6 0 ltac:(lia) d) as (x & d' & E & He).
  exists x, d'. split; [exact E|]. intros j Hj. rewrite He by done. unfold source in Hj.
  assert (0 <= j / 32 < 6) by zdm.
  rewrite (proj2 (Z.leb_le 0 (j / 32))), (proj2 (Z.ltb_lt (j / 32) _)) by lia. by rewrite andb_false_r.
Qed.

End Enabled.

(** ** Every enabled source has a handler *)

Definition registered (l : list irq_ctxt_t) (j : Z) : Prop :=
  exists c, c ∈ l /\ irq c = j /\ handler c <> 0.

Section Table.
Context {D : Type} `{Ictlr D}.

(** Once the table is in use. *)
Definition irq_inv (s : irq_state D) : Prop :=
  irq_init_done s = true ->
  Forall (fun c => 0 <= irq c) (irqs s) /\
  forall j, source j -> enabled (q_dev s) j = true -> registered (irqs s) j.

Definition freed (i : Z) (c : irq_ctxt_t) : bool := (irq c =? i) && c_true (handler c).

Lemma c_true_spec z : reflect (z <> 0) (c_true z).
Proof. unfold c_true. destruct (Z.eqb_spec z 0) as [->|Hz]; cbn; [apply ReflectF|apply ReflectT]; auto. Qed.

Lemma free_slots_run i l : 0 <= i -> forall d, exists d',
  free_slots i l d = (Ret (map (fun c => if freed i c then empty_slot else c) l), d') /\
  forall j, source j -> enabled d' j = enabled d j && negb ((i =? j) && existsb (freed i) l).
Proof.
  intros Hi. induction l as [|c l IH]; intros d; cbn [free_slots map existsb].
  { exists d. split; [done|]. intros j _. by rewrite !andb_false_r, andb_true_r. }
  fold (freed i c). destruct (freed i c); cbn [orb].
  - destruct (disable_acts i Hi d) as (x & d1 & E1 & Ha). rewrite (bind_run _ _ _ _ _ E1).
    destruct (IH d1) as (d2 & E2 & Hb). rewrite (bind_run _ _ _ _ _ E2).
    exists d2. split; [done|]. intros j Hj. rewrite Hb, Ha by done.
    destruct (i =? j); cbn; by rewrite ?andb_false_r, ?andb_true_r.
  - destruct (IH d) as (d2 & E2 & Hb). rewrite (bind_run _ _ _ _ _ E2). by exists d2.
Qed.

Lemma free_all_run l : Forall (fun c => 0 <= irq c) l -> forall d, exists d',
  free_all_slots l d = (Ret (map (fun c => if c_true (handler c) then empty_slot else c) l), d') /\
  forall j, source j -> enabled d' j = true -> enabled d j = true /\ ~ registered l j.
Proof.
  induction 1 as [|c l Hc _ IH]; intros d; cbn [free_all_slots map].
  { exists d. split; [done|]. intros j _ Hj. split; [done|]. intros (c & Hin & _). by apply elem_of_nil in Hin. }
  assert (Hn : forall j, ~ registered l j -> (handler c <> 0 -> irq c <> j) -> ~ registered (c :: l) j).
  { intros j Hj Hcj (c' & [->|Hin]%elem_of_cons & E & Hh); [by apply Hcj|]. apply Hj. by exists c'. }
  destruct (c_true_spec (handler c)) as [Hh|Hh].
  - destruct (disable_acts (irq c) Hc d) as (x & d1 & E1 & Ha). rewrite (bind_run _ _ _ _ _ E1).
    destruct (IH d1) as (d2 & E2 & Hb). rewrite (bind_run _ _ _ _ _ E2).
    exists d2. split; [done|]. intros j Hj Ej. destruct (Hb j Hj Ej) as [He Hr].
    rewrite Ha in He by done. apply andb_prop in He as [He Hne]. split; [done|].
    apply Hn; [done|]. intros _ E. by rewrite E, Z.eqb_refl in Hne.
  - destruct (IH d) as (d2 & E2 & Hb). rewrite (bind_run _ _ _ _ _ E2).
    exists d2. split; [done|]. intros j Hj Ej. destruct (Hb j Hj Ej) as [He Hr]. split; [done|].
    by apply Hn.
Qed.

Lemma on_hw_run {A} (m : M D A) s x d' : m (q_dev s) = (Ret x, d') ->
  on_hw m s = (Ret x, IrqState d' (irqs s) (irq_init_done s)).
Proof. intros E. unfold on_hw. by rewrite E. Qed.

(** *** The operations keep the invariant *)

Lemma irq_free_inv i s : 0 <= i -> irq_inv s ->
  exists s', irq_free i s = (Ret tt, s') /\ irq_inv s' /\ irq_init_done s' = irq_init_done s.
Proof.
  intros Hi Hs. unfold irq_free. rewrite (bind_run get _ s s s) by done.
  destruct (free_slots_run i (irqs s) Hi (q_dev s)) as (d' & E & He).
  rewrite (bind_run _ _ _ _ _ (on_hw_run _ _ _ _ E)). eexists. split; [done|]. split; [|done].
  intros Hd. destruct (Hs Hd) as [Hp Hr]. cbn [irqs q_dev]. split.
  - clear -Hp. induction Hp as [|c l Hc _ IH]; cbn; constructor; [by destruct (freed i c)|done].
  - intros j Hj Ej. rewrite He in Ej by done. apply andb_prop in Ej as [Ej Hn].
    destruct (Hr j Hj Ej) as (c & Hin & <- & Hh).
    exists c. split; [|done]. apply list_elem_of_fmap. exists c. split; [|done].
    destruct (freed i c) eqn:Ef; [|done]. exfalso.
    assert (Hx : existsb (freed i) (irqs s) = true) by (apply existsb_exists; exists c; split; [by apply list_elem_of_In|done]).
    rewrite Hx, andb_true_r in Hn. unfold freed in Ef. apply andb_prop in Ef as [Ef _].
    rewrite Z.eqb_sym, Ef in Hn. done.
Qed.

Lemma find_slot_spec i l : forall n idx, find_slot i n l = inl idx ->
  exists k c, idx = (n + k)%nat /\ l !! k = Some c /\ (handler c = 0 \/ irq c = i).
Proof.
  induction l as [|c l IH]; intros n idx E; [done|]. cbn [find_slot] in E.
  destruct (c_true_spec (handler c)) as [Hh|Hh]; cbn [negb orb] in E.
  - destruct (Z.eqb_spec (irq c) i) as [Hi|Hi]; cbn [andb] in E.
    + destruct (c_true _); [|done]. injection E as <-. exists 0%nat, c. split_and!; [lia|done|by right].
    + apply IH in E as (k & c' & -> & Hk & Hc). exists (S k), c'. split_and!; [lia|done|done].
  - injection E as <-. exists 0%nat, c. split_and!; [lia|done|]. left. lia.
Qed.

Lemma registered_insert l k c c0 j : l !! k = Some c0 -> (handler c0 = 0 \/ irq c0 = irq c) ->
  handler c <> 0 -> registered l j -> registered (<[k := c]> l) j.
Proof.
  intros Hk Hc Hh (c' & Hin & <- & Hh'). apply list_elem_of_lookup in Hin as [k' Hk'].
  destruct (decide (k' = k)) as [->|Hne].
  - rewrite Hk in Hk'. injection Hk' as ->. destruct Hc as [Hc|Hc]; [done|].
    exists c. split; [|done]. apply list_elem_of_lookup. exists k. by eapply list_lookup_insert_eq, lookup_lt_Some.
  - exists c'. split; [|done]. apply list_elem_of_lookup. exists k'. by rewrite list_lookup_insert_ne.
Qed.

Lemma irq_init_inv s : exists s', _irq_init s = (Ret tt, s') /\ irq_inv s' /\ irq_init_done s' = true.
Proof.
  unfold _irq_init. destruct (disable_all_acts (q_dev s)) as ([] & d' & E & He).
  rewrite (bind_run _ _ _ _ _ (on_hw_run _ _ _ _ E)). eexists. split; [done|]. split; [|done].
  intros _. cbn [irqs q_dev]. split; [by repeat constructor|]. intros j Hj Ej. by rewrite He in Ej.
Qed.

Lemma irq_request_inv i h dat fl s : source i -> h <> 0 -> irq_inv s ->
  exists r s', irq_request i h dat fl s = (Ret r, s') /\ irq_inv s' /\
    (r = IRQ_ENABLED -> registered (irqs s') i /\ enabled (q_dev s') i = true).
Proof.
  intros Hi Hh Hs. unfold irq_request. rewrite (bind_run get _ s s s) by done.
  assert (Hinit : exists s1, (if irq_init_done s then mret tt else _irq_init) s = (Ret tt, s1) /\
    irq_inv s1 /\ irq_init_done s1 = true).
  { destruct (irq_init_done s) eqn:Ed; [by exists s|apply irq_init_inv]. }
  destruct Hinit as (s1 & E1 & Hs1 & Hd1). rewrite (bind_run _ _ _ _ _ E1).
  rewrite (bind_run get _ s1 s1 s1) by done. destruct (Hs1 Hd1) as [Hp Hr].
  destruct (find_slot i 0 (irqs s1)) as [idx|status] eqn:Ef.
  - apply find_slot_spec in Ef as (k & c0 & -> & Hk & Hc0). cbn [Nat.add].
    set (c := IrqCtxt i h dat fl). set (l := <[k := c]> (irqs s1)).
    rewrite (bind_run _ _ _ tt (IrqState (q_dev s1) l (irq_init_done s1))) by done.
    destruct (enable_acts i ltac:(unfold source in Hi; lia) (q_dev s1)) as ([] & d2 & E2 & He).
    rewrite (bind_run _ _ _ tt (IrqState d2 l (irq_init_done s1)))
      by (unfold on_hw; cbn [q_dev]; by rewrite E2).
    exists IRQ_ENABLED. eexists. split; [done|].
    assert (Hc : registered l i).
    { exists c. split; [|done]. apply list_elem_of_lookup. exists k. by eapply list_lookup_insert_eq, lookup_lt_Some. }
    split; [|intros _; split; [done|]; cbn [q_dev]; by rewrite He, Z.eqb_refl, orb_true_r].
    intros _. cbn [irqs q_dev]. split; [apply Forall_insert; [done|]; cbn; unfold source in Hi; lia|].
    intros j Hj Ej. rewrite He in Ej by done. apply orb_prop in Ej as [Ej|Ej].
    + eapply registered_insert; [done..|]. by apply Hr.
    + apply Z.eqb_eq in Ej. by subst j.
  - exists status, s1. split; [done|]. split; [done|]. intros ->.
    exfalso. clear -Ef. revert Ef. generalize 0%nat. induction (irqs s1) as [|c l IH]; intros n E; [done|].
    cbn [find_slot] in E. repeat case_match; try done. by eapply IH.
Qed.

Lemma irq_end_inv s : irq_inv s ->
  exists s', irq_end s = (Ret tt, s') /\ irq_inv s' /\
    (irq_init_done s = true -> forall j, source j -> enabled (q_dev s') j = false).
Proof.
  intros Hs. unfold irq_end. rewrite (bind_run get _ s s s) by done.
  destruct (irq_init_done s) eqn:Ed; cbn [negb]; [|by exists s].
  destruct (Hs Ed) as [Hp Hr]. unfold _irq_free_all. rewrite bind_assoc, (bind_run get _ s s s) by done.
  destruct (free_all_run (irqs s) Hp (q_dev s)) as (d' & E & He).
  rewrite bind_assoc, (bind_run _ _ _ _ _ (on_hw_run _ _ _ _ E)). eexists. split; [done|].
  split; [done|]. intros _ j Hj. cbn [q_dev]. rewrite enabled_cpu_off by done.
  destruct (enabled d' j) eqn:Ej; [|done]. destruct (He j Hj Ej) as [Ej' Hnr]. by destruct (Hnr (Hr j Hj Ej')).
Qed.

(** The handlers that are called leave the sources alone, and the slot the search
    stops at belongs to the source. *)
Lemma handle_slots_spec i l : forall status d r d',
  handle_slots i l status d = (Ret r, d') ->
  (forall j, source j -> enabled d' j = enabled d j) /\
  (forall c, snd r = Some c -> c ∈ l /\ irq c = i /\ handler c <> 0).
Proof.
  induction l as [|c l IH]; intros status d r d' E; cbn [handle_slots] in E.
  { injection E as <- <-. split; [done|]. intros c Hc. done. }
  assert (Hrest : forall st d1, (forall j, source j -> enabled d1 j = enabled d j) ->
    handle_slots i l st d1 = (Ret r, d') ->
    (forall j, source j -> enabled d' j = enabled d j) /\
    (forall c', snd r = Some c' -> c' ∈ c :: l /\ irq c' = i /\ handler c' <> 0)).
  { intros st d1 Hd1 E1. destruct (IH _ _ _ _ E1) as [He Hc]. split.
    - intros j Hj. by rewrite He, Hd1.
    - intros c' Hc'. destruct (Hc c' Hc') as [Hin Hx]. split; [by right|done]. }
  destruct (Z.eqb_spec (irq c) i) as [Hi|Hi]; [|by eapply Hrest].
  destruct (c_true_spec (handler c)) as [Hh|Hh]; cbn [negb] in E; [|done].
  apply bind_Ret in E as (st & d1 & E1 & E).
  pose proof (enabled_call (handler c) (irq c) (data c) d) as Hcall.
  destruct (call_handler _ _ _ d) as [v d2]. injection E1 as -> ->. cbn [snd] in Hcall.
  destruct (st =? IRQ_HANDLED); [|by eapply Hrest].
  injection E as <- <-. split; [done|]. intros c' [=<-]. split; [by left|done].
Qed.

Lemma on_hw_Ret {A} (m : M D A) s x s' : on_hw m s = (Ret x, s') ->
  exists d', m (q_dev s) = (Ret x, d') /\ s' = IrqState d' (irqs s) (irq_init_done s).
Proof. unfold on_hw. destruct (m (q_dev s)) as [o d'] eqn:E. intros [=-> <-]. by exists d'. Qed.

(** A step that only narrows the enabled sources keeps the invariant. *)
Lemma inv_narrow s d' : irq_inv s -> (forall j, source j -> enabled d' j = true -> enabled (q_dev s) j = true) ->
  irq_inv (IrqState d' (irqs s) (irq_init_done s)).
Proof.
  intros Hs He Hd. destruct (Hs Hd) as [Hp Hr]. split; [done|]. intros j Hj Ej. by apply Hr, He.
Qed.

Lemma quiesce_inv i s x s1 y s2 : 0 <= i -> irq_inv s ->
  on_hw (_irq_disable_source i) s = (Ret x, s1) -> on_hw (_irq_ack_source i) s1 = (Ret y, s2) ->
  irq_inv s2 /\ irqs s2 = irqs s /\ irq_init_done s2 = irq_init_done s.
Proof.
  intros Hi Hs E1 E2. apply on_hw_Ret in E1 as (d1 & E1 & ->). apply on_hw_Ret in E2 as (d2 & E2 & ->).
  destruct (disable_acts i Hi (q_dev s)) as (? & d1' & E1' & Ha). rewrite E1 in E1'. injection E1' as <- <-.
  destruct (ack_acts i d1) as (? & d2' & E2' & Hb). cbn [q_dev] in E2. rewrite E2 in E2'. injection E2' as <- <-.
  split; [|done]. apply (inv_narrow s); [done|]. intros j Hj Ej. rewrite Hb, Ha in Ej by done.
  by apply andb_prop in Ej as [Ej _].
Qed.

Lemma handle_source_inv i s r s' : 0 <= i -> irq_inv s -> _irq_handle_source i s = (Ret r, s') -> irq_inv s'.
Proof.
  intros Hi Hs E. unfold _irq_handle_source in E.
  apply bind_Ret in E as (x & s1 & E1 & E). apply bind_Ret in E as (y & s2 & E2 & E).
  destruct (quiesce_inv i s x s1 y s2 Hi Hs E1 E2) as (Hs2 & Hl & Hd).
  apply bind_Ret in E as (s2' & s2'' & [=<- <-] & E).
  apply bind_Ret in E as ([status slot] & s3 & E3 & E). apply on_hw_Ret in E3 as (d3 & E3 & ->).
  destruct (handle_slots_spec _ _ _ _ _ _ E3) as [He Hc]. cbn [snd] in Hc.
  assert (Hs3 : irq_inv (IrqState d3 (irqs s2) (irq_init_done s2)))
    by (apply (inv_narrow s2); [done|]; intros j Hj; by rewrite He).
  destruct (status =? IRQ_NONE); [by injection E as <- <-|]. destruct slot as [c|]; [|done].
  destruct (Hc c eq_refl) as (Hin & Hic & Hh).
  apply bind_Ret in E as ([] & s4 & E4 & E). injection E as <- <-.
  destruct (c_true (Z.land (flags c) IRQ_FLAG_ONE_OFF)).
  - destruct (irq_free_inv i _ Hi Hs3) as (s5 & E5 & Hs5 & _). rewrite E4 in E5. by injection E5 as <-.
  - apply on_hw_Ret in E4 as (d4 & E4 & ->). cbn [q_dev irqs irq_init_done] in *.
    destruct (enable_acts i Hi d3) as ([] & d4' & E4' & Hen). rewrite E4 in E4'. injection E4' as <-.
    intros Hd4. destruct (Hs3 Hd4) as [Hp Hr]. split; [done|]. intros j Hj Ej. cbn [q_dev irqs] in *.
    rewrite Hen in Ej by done. apply orb_prop in Ej as [Ej|Ej]; [by apply Hr|].
    apply Z.eqb_eq in Ej. subst j. by exists c.
Qed.

Lemma irq_handler_inv s s' : irq_inv s -> irq_handler s = (Ret tt, s') -> irq_inv s'.
Proof.
  intros Hs E. unfold irq_handler in E. apply bind_Ret in E as (v & s1 & E1 & E).
  apply on_hw_Ret in E1 as (d1 & E1 & ->).
  assert (Hs1 : irq_inv (IrqState d1 (irqs s) (irq_init_done s))).
  { apply (inv_narrow s); [done|]. intros j Hj. pose proof (enabled_rd EVP_COP_IRQ_STS (q_dev s) j Hj) as Hr.
    unfold rd in E1. destruct (rd32 _ _) as [v' d']. injection E1 as -> ->. by rewrite <- Hr. }
  apply bind_Ret in E as (s2 & s2' & [=<- <-] & E).
  assert (Hv : 0 <= Z.land v 0xFF) by (apply Z.land_nonneg; by right).
  destruct (negb _).
  - apply bind_Ret in E as ([] & s3 & E3 & E). by eapply quiesce_inv.
  - apply bind_Ret in E as (r & s3 & E3 & E). injection E as <-. by eapply handle_source_inv.
Qed.

Lemma irq_wait_inv i s s' : source i -> irq_inv s -> irq_wait_event i s = (Ret tt, s') -> irq_inv s'.
Proof.
  intros Hi Hs E. assert (Hi0 : 0 <= i) by (unfold source in Hi; lia). unfold irq_wait_event in E.
  apply bind_Ret in E as ([] & s1 & E1 & E). apply on_hw_Ret in E1 as (d1 & [=<-] & ->).
  apply bind_Ret in E as ([] & s2 & E2 & E). apply on_hw_Ret in E2 as (d2 & E2 & ->).
  apply bind_Ret in E as ([] & s3 & E3 & E). apply on_hw_Ret in E3 as (d3 & E3 & ->).
  apply bind_Ret in E as ([] & s4 & E4 & E). apply on_hw_Ret in E4 as (d4 & E4 & ->).
  apply bind_Ret in E as ([] & s5 & E5 & E). apply on_hw_Ret in E5 as (d5 & E5 & ->).
  apply on_hw_Ret in E as (d6 & [=<-] & ->). cbn [q_dev irqs irq_init_done] in *.
  apply (inv_narrow s); [done|]. intros j Hj. rewrite enabled_cpu_on by done.
  destruct (enable_acts i Hi0 (irq_disable_cpu_irq_exceptions (q_dev s))) as ([] & ? & E2' & Ha).
  rewrite E2 in E2'. injection E2' as <-.
  destruct (wr_acts FLOW_CTLR_HALT_COP_EVENTS HALT_COP_STOP_UNTIL_IRQ d2) as ([] & ? & E3' & Hb).
  rewrite E3 in E3'. injection E3' as <-.
  destruct (disable_acts i Hi0 d3) as ([] & ? & E4' & Hc). rewrite E4 in E4'. injection E4' as <-.
  destruct (ack_acts i d4) as ([] & ? & E5' & Hd). rewrite E5 in E5'. injection E5' as <-.
  rewrite Hd, Hc, Hb by done. unfold ictlr_wr.
  assert (Hf : forall off, 0 <= off < 0x100 -> (FLOW_CTLR_HALT_COP_EVENTS =? ICTLR (j / 32) off) = false).
  { intros off Ho. apply Z.eqb_neq. unfold FLOW_CTLR_HALT_COP_EVENTS, ICTLR. unfold source in Hj.
    assert (0 <= j / 32 < 6) by zdm. lia. }
  rewrite !Hf, Ha, enabled_cpu_off by done.
  destruct (enabled (q_dev s) j), (i =? j); done.
Qed.

(** Any sequence of calls and interrupts. *)
Inductive irq_step : irq_state D -> irq_state D -> Prop :=
| step_request i h dat fl s r s' :
    source i -> h <> 0 -> irq_request i h dat fl s = (Ret r, s') -> irq_step s s'
| step_free i s s' : 0 <= i -> irq_free i s = (Ret tt, s') -> irq_step s s'
| step_interrupt s s' : irq_handler s = (Ret tt, s') -> irq_step s s'
| step_wait i s s' : source i -> irq_wait_event i s = (Ret tt, s') -> irq_step s s'
| step_end s s' : irq_end s = (Ret tt, s') -> irq_step s s'.

Lemma irq_step_inv s s' : irq_inv s -> irq_step s s' -> irq_inv s'.
Proof.
  intros Hs Hstep. destruct Hstep as [i h dat fl s r s' Hi Hh E|i s s' Hi E|s s' E|i s s' Hi E|s s' E].
  - destruct (irq_request_inv i h dat fl s Hi Hh Hs) as (r1 & s1 & E1 & Hs1 & _).
    rewrite E in E1. by injection E1 as _ <-.
  - destruct (irq_free_inv i s Hi Hs) as (s1 & E1 & Hs1 & _). rewrite E in E1. by injection E1 as <-.
  - by eapply irq_handler_inv.
  - by eapply irq_wait_inv.
  - destruct (irq_end_inv s Hs) as (s1 & E1 & Hs1 & _). rewrite E in E1. by injection E1 as <-.
Qed.

Lemma irq_steps_inv s0 s : irq_inv s0 -> rtc irq_step s0 s -> irq_inv s.
Proof. intros Hs Hr. induction Hr as [|x y z Hxy _ IH]; [done|]. apply IH. by eapply irq_step_inv. Qed.

(** C36: after any sequence of requests, releases, interrupts and waits from the start of the
    program, every interrupt source that is enabled has a handler in the table; and ending the use
    of the table leaves no source enabled. *)
Theorem irq_sources_have_handlers (s0 s : irq_state D) :
  irq_init_done s0 = false -> rtc irq_step s0 s -> irq_init_done s = true ->
  (forall j, source j -> enabled (q_dev s) j = true -> registered (irqs s) j) /\
  exists s', irq_end s = (Ret tt, s') /\ forall j, source j -> enabled (q_dev s') j = false.
Proof.
  intros H00 Hr Hd. assert (Hs0 : irq_inv s0) by (intros Hx; by rewrite H00 in Hx).
  pose proof (irq_steps_inv s0 s Hs0 Hr) as Hs. destruct (Hs Hd) as [_ Hreg]. split; [done|].
  destruct (irq_end_inv s Hs) as (s' & E & _ & He). exists s'. auto.
Qed.

End Table.

(** ** Findings *)

Section Findings.
Context {D : Type} `{Mmio D} `{Cpu D}.

(** A handler that reports an error, with no later handler for the source, makes
    the code read the flags of the slot behind the table. *)
Lemma handle_error_overruns i h x fl (d : D) :
  h <> 0 -> i <> 0 -> (forall d', fst (call_handler h i x d') = IRQ_ERROR) ->
  fst (_irq_handle_source i (IrqState d (IrqCtxt i h x fl :: replicate 15 empty_slot) true)) = Overrun.
Proof.
  intros Hh Hi Hcall. unfold _irq_handle_source, on_hw, _irq_disable_source, _irq_ack_source, wr, modify,
    mbind, M_bind, get. cbn [q_dev irqs irq_init_done].
  cbn [handle_slots irq handler data replicate empty_slot]. rewrite Z.eqb_refl.
  unfold c_true. rewrite (proj2 (Z.eqb_neq h 0)) by done. cbn [negb]. unfold mbind, M_bind.
  set (d2 := wr32 _ _ _). specialize (Hcall d2). destruct (call_handler h i x d2) as [r d3].
  cbn [fst] in Hcall. subst r.
  assert (E0 : (0 =? i) = false) by (apply Z.eqb_neq; lia). rewrite !E0. done.
Qed.

(** Source 0 matches every free slot, whose null handler is then called. *)
Lemma handle_source_0_calls_null (d : D) :
  fst (_irq_handle_source 0 (IrqState d (replicate IRQ_MAX_HANDLERS empty_slot) true)) = Overrun.
Proof. done. Qed.
End Findings.

(** ** A controller *)

Module Board.
(** The enabled sources; handlers always succeed. *)
Definition mask (f : Z -> bool) : Z :=
  foldr (fun b m => if f b then Z.setbit m b else m) 0 (seqZ 0 32).
#[global] Instance mmio : Mmio (Z -> bool) := {|
  rd32 a d := (mask (fun b => d (32 * ((a - ICTLR 0 PRI_ICTLR_COP_IER) / 0x100) + b)), d);
  wr32 := ictlr_wr; tmr_us d := (0, d); tmr_ms d := (0, d); sleep_us _ d := d |}.
#[global] Instance cpu : Cpu (Z -> bool) := {|
  irq_enable_cpu_irq_exceptions d := d; irq_disable_cpu_irq_exceptions d := d;
  call_handler _ _ _ d := (IRQ_HANDLED, d) |}.

Lemma mask_testbit f b : 0 <= b < 32 -> Z.testbit (mask f) b = f b.
Proof.
  intros Hb. unfold mask. assert (Hin : b ∈ seqZ 0 32) by (apply elem_of_seqZ; lia).
  assert (Hl : forall l, Forall (fun x => 0 <= x) l ->
    Z.testbit (foldr (fun b m => if f b then Z.setbit m b else m) 0 l) b = bool_decide (b ∈ l) && f b).
  { induction 1 as [|x l Hx _ IH]; [by rewrite Z.bits_0|]. cbn [foldr].
    assert (Hd : bool_decide (b ∈ x :: l) = (x =? b) || bool_decide (b ∈ l)).
    { rewrite (bool_decide_ext _ (b = x \/ b ∈ l)) by apply elem_of_cons. rewrite bool_decide_or.
      f_equal. destruct (Z.eqb_spec x b); [by apply bool_decide_eq_true|apply bool_decide_eq_false; lia]. }
    rewrite Hd. destruct (f x) eqn:Ex.
    - rewrite Z.setbit_eqb, IH by done. destruct (Z.eqb_spec x b) as [->|]; [by rewrite Ex|done].
    - rewrite IH. destruct (Z.eqb_spec x b) as [->|]; [by rewrite Ex, !andb_false_r|done]. }
  rewrite Hl by (repeat constructor; discriminate). by rewrite (bool_decide_eq_true_2 _ Hin).
Qed.

#[global, program] Instance ictlr : Ictlr (Z -> bool) := {| enabled d := d |}.
Next Obligation. done. Qed.
Next Obligation. done. Qed.
Next Obligation.
  intros d j Hj. cbn [fst rd32 mmio]. rewrite mask_testbit by (apply Z.mod_pos_bound; lia).
  f_equal. unfold ICTLR.
  replace ((_ + _ - _) / 0x100) with (j / 32) by
    (replace (0x60004000 + 0x100 * (j / 32) + PRI_ICTLR_COP_IER - (0x60004000 + 0x100 * 0 + PRI_ICTLR_COP_IER))
       with ((j / 32) * 0x100) by lia; by rewrite Z.div_mul).
  zdm.
Qed.
Next Obligation. done. Qed.
Next Obligation. done. Qed.
Next Obligation. done. Qed.

Definition boot : irq_state (Z -> bool) := IrqState (fun _ => true) [] false.

(** Once an earlier slot is free, a source that is registered further on is
    registered again instead of being refused. *)
Lemma request_twice_after_free :
  let calls := irq_request 5 0x1000 0 0;; irq_request 7 0x2000 0 0;; irq_free 5;; irq_request 7 0x3000 0 0 in
  fst (calls boot) = Ret IRQ_ENABLED /\
  map irq (take 2 (irqs (snd (calls boot)))) = [7; 7].
Proof. split; vm_compute; reflexivity. Qed.

Lemma irq_sources_have_handlers_witness :
  let s := snd (irq_request 14 0x1000 0 0 boot) in
  enabled (q_dev s) 14 = true /\ enabled (q_dev s) 15 = false /\ registered (irqs s) 14.
Proof.
  assert (E : fst (irq_request 14 0x1000 0 0 boot) = Ret IRQ_ENABLED) by reflexivity.
  assert (Hd : irq_init_done (snd (irq_request 14 0x1000 0 0 boot)) = true) by reflexivity.
  assert (H14 : enabled (q_dev (snd (irq_request 14 0x1000 0 0 boot))) 14 = true) by reflexivity.
  split; [exact H14|]. split; [reflexivity|].
  refine (proj1 (irq_sources_have_handlers boot _ eq_refl _ Hd) 14 _ H14).
  - apply rtc_once. apply (step_request 14 0x1000 0 0 boot IRQ_ENABLED); [unfold source; lia|done|reflexivity].
  - unfold source. lia.
Defined.
End Board.
