(* ===== verification/SdReg.v ===== *)
(** * SdReg

    The registers of SD and MMC cards in bdk/storage/sdmmc.c: bit fields of a
    128 bit register, and what the driver makes of the CID, CSD, SCR, SD status
    and extended CSD. *)

From S2P Require Import Prelude Mem.

(** ** Data of sdmmc.h *)

Record mmc_cid_t := mk_cid {
  manfid : Z;
  prod_name : list Z;
  card_bga : Z;
  prv : Z;
  serial : Z;
  oemid : Z;
  year : Z;
  hwrev : Z;
  fwrev : Z;
  month : Z
}.

(** The fields the code never touches (r2w_factor, max_dtr, erase_size,
    write_blkbits) are left out. *)
Record mmc_csd_t := mk_csd {
  structure : Z;
  mmca_vsn : Z;
  cmdclass : Z;
  c_size : Z;
  read_blkbits : Z;
  capacity : Z;
  write_protect : Z;
  busspeed : Z
}.

Record mmc_ext_csd_t := mk_ext_csd {
  sectors : Z;
  bkops : Z;
  bkops_en : Z;
  rev : Z;
  ext_struct : Z;
  card_type : Z;
  bkops_status : Z;
  pre_eol_info : Z;
  dev_life_est_a : Z;
  dev_life_est_b : Z;
  boot_mult : Z;
  rpmb_mult : Z;
  dev_version : Z
}.

Record sd_scr_t := mk_scr { sda_vsn : Z; sda_spec3 : Z; bus_widths : Z; cmds : Z }.

Record sd_ssr_t := mk_ssr {
  ssr_bus_width : Z;
  speed_class : Z;
  uhs_grade : Z;
  video_class : Z;
  app_class : Z;
  au_size : Z;
  uhs_au_size : Z;
  protected_size : Z
}.

Definition cid0 : mmc_cid_t := mk_cid 0 [0; 0; 0; 0; 0; 0; 0; 0] 0 0 0 0 0 0 0 0.
Definition csd0 : mmc_csd_t := mk_csd 0 0 0 0 0 0 0 0.
Definition ext_csd0 : mmc_ext_csd_t := mk_ext_csd 0 0 0 0 0 0 0 0 0 0 0 0 0.
Definition scr0 : sd_scr_t := mk_scr 0 0 0 0.
Definition ssr0 : sd_ssr_t := mk_ssr 0 0 0 0 0 0 0 0.

(** ** Bit fields *)

Definition word (resp : list Z) (i : Z) : Z := nth (Z.to_nat i) resp 0.

Definition unstuff_bits (resp : list Z) (start size : Z) : Z :=
  let mask := u32 ((if size <? 32 then u32 (Z.shiftl 1 size) else 0) - 1) in
  let off := 3 - start / 32 in
  let shft := Z.land start 31 in
  let res := Z.shiftr (word resp off) shft in
  let res :=
    if 32 <? size + shft
    then Z.lor res (u32 (Z.shiftl (word resp (off - 1)) ((32 - shft) mod 32)))
    else res in
  Z.land res mask.

(** ** Parsing *)

Definition set_name (l : list Z) (i : nat) (v : Z) : list Z := <[i := u8 v]> l.

(** The six characters of the product name of an MMC. *)
Definition mmc_name (raw : list Z) (l : list Z) : list Z :=
  let l := set_name l 0 (unstuff_bits raw 96 8) in
  let l := set_name l 1 (unstuff_bits raw 88 8) in
  let l := set_name l 2 (unstuff_bits raw 80 8) in
  let l := set_name l 3 (unstuff_bits raw 72 8) in
  let l := set_name l 4 (unstuff_bits raw 64 8) in
  set_name l 5 (unstuff_bits raw 56 8).

(** [storage->cid] from [raw_cid], the version of the CSD and the revision of
    the extended CSD. *)
Definition _mmc_storage_parse_cid (raw : list Z) (mmca_vsn rev : Z) (c : mmc_cid_t) : mmc_cid_t :=
  let c :=
    if (mmca_vsn =? 0) || (mmca_vsn =? 1) then
      mk_cid (unstuff_bits raw 104 24) (set_name (prod_name c) 6 (unstuff_bits raw 48 8))
        (card_bga c) (prv c) (unstuff_bits raw 16 24) (oemid c) (year c)
        (u8 (unstuff_bits raw 44 4)) (u8 (unstuff_bits raw 40 4)) (month c)
    else if (mmca_vsn =? 2) || (mmca_vsn =? 3) || (mmca_vsn =? 4) then
      mk_cid (unstuff_bits raw 120 8) (prod_name c) (u8 (unstuff_bits raw 112 2))
        (u8 (unstuff_bits raw 48 8)) (unstuff_bits raw 16 32) (u16 (unstuff_bits raw 104 8))
        (year c) (hwrev c) (fwrev c) (month c)
    else c in
  let y := u16 (unstuff_bits raw 8 4 + 1997) in
  let y := if (5 <=? rev) && (y <? 2010) then u16 (y + 16) else y in
  mk_cid (manfid c) (mmc_name raw (prod_name c)) (card_bga c) (prv c) (serial c) (oemid c) y
    (hwrev c) (fwrev c) (u8 (unstuff_bits raw 12 4)).

(** [(1 + C_SIZE) << (C_SIZE_MULT + 2)] *)
Definition csd_capacity (raw : list Z) : Z :=
  u32 (Z.shiftl (1 + unstuff_bits raw 62 12) (unstuff_bits raw 47 3 + 2)).

Definition _mmc_storage_parse_csd (raw : list Z) (c : mmc_csd_t) : mmc_csd_t :=
  mk_csd (u8 (unstuff_bits raw 126 2)) (u8 (unstuff_bits raw 122 4)) (u16 (unstuff_bits raw 84 12))
    (c_size c) (unstuff_bits raw 80 4) (csd_capacity raw) (write_protect c) (busspeed c).

(** [storage->ext_csd] and [storage->sec_cnt] from the buffer at [buf]. *)
Definition _mmc_storage_parse_ext_csd (m : mem) (buf : Z) : mmc_ext_csd_t * Z :=
  let b i := ld8 m (buf + i) in
  (mk_ext_csd (ld32 m (buf + 212)) (b 502) (b 163) (b 192) (b 194) (b 196) (b 246) (b 267)
     (b 268) (b 269) (b 226) (b 168) (ld16 m (buf + 262)),
   ld32 m (buf + 212)).

Definition _sd_storage_parse_cid (raw : list Z) (c : mmc_cid_t) : mmc_cid_t :=
  let l := prod_name c in
  let l := set_name l 0 (unstuff_bits raw 96 8) in
  let l := set_name l 1 (unstuff_bits raw 88 8) in
  let l := set_name l 2 (unstuff_bits raw 80 8) in
  let l := set_name l 3 (unstuff_bits raw 72 8) in
  let l := set_name l 4 (unstuff_bits raw 64 8) in
  mk_cid (unstuff_bits raw 120 8) l (card_bga c) (prv c) (unstuff_bits raw 24 32)
    (u16 (unstuff_bits raw 104 16)) (u16 (unstuff_bits raw 12 8 + 2000))
    (u8 (unstuff_bits raw 60 4)) (u8 (unstuff_bits raw 56 4)) (u8 (unstuff_bits raw 8 4)).

Definition _sd_storage_parse_csd (raw : list Z) (c : mmc_csd_t) : mmc_csd_t :=
  let st := u8 (unstuff_bits raw 126 2) in
  let cc := u16 (unstuff_bits raw 84 12) in
  let bl := unstuff_bits raw 80 4 in
  let wp := u8 (unstuff_bits raw 12 2) in
  if st =? 0 then mk_csd st (mmca_vsn c) cc (c_size c) bl (csd_capacity raw) wp (busspeed c)
  else if st =? 1 then
    let cs := 1 + unstuff_bits raw 48 22 in
    mk_csd st (mmca_vsn c) cc cs 9 (u32 (Z.shiftl cs 10)) wp (busspeed c)
  else mk_csd st (mmca_vsn c) cc (c_size c) bl (capacity c) wp (busspeed c).

(** Sector count that [sdmmc_storage_init_sd] takes from the CSD; an unknown
    structure leaves it as it is. *)
Definition sd_sec_cnt (c : mmc_csd_t) (old : Z) : Z :=
  if structure c =? 0 then capacity c
  else if structure c =? 1 then u32 (Z.shiftl (c_size c) 10)
  else old.

(** The big endian words of the [n] bytes at [buf], stored byte swapped. *)
Fixpoint swap_words (n : nat) (m : mem) (buf : Z) : list Z :=
  match n with
  | O => []
  | S n => [ld8 m (buf + 3); ld8 m (buf + 2); ld8 m (buf + 1); ld8 m buf] ++ swap_words n m (buf + 4)
  end.

(** The little endian word at [raw[i]]. *)
Definition raw32 (raw : list Z) (i : nat) : Z :=
  nth i raw 0 + 256 * nth (i + 1) raw 0 + 65536 * nth (i + 2) raw 0 + 16777216 * nth (i + 3) raw 0.

(** The two low words of [resp] are the ones that are read. *)
Definition _sd_storage_parse_scr (raw : list Z) (c : sd_scr_t) : sd_scr_t :=
  let resp := [0; 0; raw32 raw 0; raw32 raw 4] in
  let vsn := u8 (unstuff_bits resp 56 4) in
  let bw := u8 (unstuff_bits resp 48 4) in
  let spec3 := if vsn =? 2 then u8 (unstuff_bits resp 47 1) else sda_spec3 c in
  mk_scr vsn spec3 bw (if c_true spec3 then u8 (unstuff_bits resp 32 2) else cmds c).

Definition ssr_speed_class (v : Z) : Z :=
  if v =? 0 then 0 else if v =? 1 then 2 else if v =? 2 then 4 else if v =? 3 then 6
  else if v =? 4 then 10 else u8 v.

Definition _sd_storage_parse_ssr (raw : list Z) : sd_ssr_t :=
  let ssr1 := [raw32 raw 0; raw32 raw 4; raw32 raw 8; raw32 raw 12] in
  let ssr2 := [raw32 raw 16; raw32 raw 20; raw32 raw 24; raw32 raw 28] in
  mk_ssr (if c_true (Z.land (unstuff_bits ssr1 126 2) 2) then 4 else 1)
    (ssr_speed_class (unstuff_bits ssr1 56 8))
    (u8 (unstuff_bits ssr1 12 4)) (u8 (unstuff_bits ssr1 0 8)) (u8 (unstuff_bits ssr2 80 4))
    (u8 (unstuff_bits ssr1 44 4)) (u8 (unstuff_bits ssr1 8 4)) (unstuff_bits ssr1 64 32).

(** The allocation unit in KiB. *)
Definition sd_storage_ssr_get_au (s : sd_ssr_t) : Z :=
  let au := if uhs_au_size s =? 0 then au_size s else uhs_au_size s in
  if au <=? 10 then u32 (Z.shiftl (if c_true au then 8 else 0) au)
  else if au =? 11 then 12288
  else if au =? 12 then 16384
  else if au =? 13 then 24576
  else if au =? 14 then 32768
  else if au =? 15 then 65536
  else au.

(** ** Properties *)

(** The register as one number, most significant word first. *)
Definition register (resp : list Z) : Z :=
  word resp 0 * 2 ^ 96 + word resp 1 * 2 ^ 64 + word resp 2 * 2 ^ 32 + word resp 3.

Definition words_ok (resp : list Z) : Prop := Forall (fun w => 0 <= w < 2 ^ 32) resp.

Lemma word_range resp i : words_ok resp -> 0 <= word resp i < 2 ^ 32.
Proof.
  intros Hr. unfold word. destruct (Nat.lt_ge_cases (Z.to_nat i) (length resp)) as [Hl|Hl].
  - unfold words_ok in Hr. rewrite Forall_forall in Hr. apply Hr, nth_In, Hl.
  - rewrite nth_overflow by done. lia.
Qed.

Lemma testbit_high w n : 0 <= w < 2 ^ 32 -> 32 <= n -> Z.testbit w n = false.
Proof.
  intros Hw Hn. rewrite <- (Z.mod_small w (2 ^ 32)) by done. apply Z.mod_pow2_bits_high. lia.
Qed.

(** Bit [n] of the number [a * 2^k + b] with [b] below [2^k]. *)
Lemma testbit_concat a b k n : 0 <= k -> 0 <= b < 2 ^ k -> 0 <= n ->
  Z.testbit (a * 2 ^ k + b) n = if n <? k then Z.testbit b n else Z.testbit a (n - k).
Proof.
  intros Hk Hb Hn. destruct (Z.ltb_spec n k) as [Hl|Hg].
  - rewrite <- (Z.mod_pow2_bits_low _ k n) by lia. rewrite Z.add_comm, Z_mod_plus_full, Z.mod_small by lia.
    done.
  - replace n with ((n - k) + k) at 1 by lia.
    rewrite <- Z.div_pow2_bits by lia. rewrite Z.add_comm, Z.div_add, Z.div_small by lia. done.
Qed.

Lemma register_testbit resp n : words_ok resp -> 0 <= n < 128 ->
  Z.testbit (register resp) n = Z.testbit (word resp (3 - n / 32)) (n mod 32).
Proof.
  intros Hr Hn.
  pose proof (word_range resp 0 Hr). pose proof (word_range resp 1 Hr).
  pose proof (word_range resp 2 Hr). pose proof (word_range resp 3 Hr).
  assert (E : register resp =
    ((word resp 0 * 2 ^ 32 + word resp 1) * 2 ^ 32 + word resp 2) * 2 ^ 32 + word resp 3)
    by (unfold register; lia).
  rewrite E, testbit_concat by lia.
  assert (Hc : n < 32 \/ 32 <= n < 64 \/ 64 <= n < 96 \/ 96 <= n < 128) by lia.
  destruct Hc as [Hc|[Hc|[Hc|Hc]]].
  - rewrite (proj2 (Z.ltb_lt n 32)) by lia. rewrite Z.div_small, Z.mod_small by lia. done.
  - rewrite (proj2 (Z.ltb_ge n 32)), testbit_concat, (proj2 (Z.ltb_lt (n - 32) 32)) by lia.
    f_equal; [f_equal|]; zdm.
  - rewrite (proj2 (Z.ltb_ge n 32)), testbit_concat, (proj2 (Z.ltb_ge (n - 32) 32)) by lia.
    rewrite testbit_concat, (proj2 (Z.ltb_lt (n - 32 - 32) 32)) by lia. f_equal; [f_equal|]; zdm.
  - rewrite (proj2 (Z.ltb_ge n 32)), testbit_concat, (proj2 (Z.ltb_ge (n - 32) 32)) by lia.
    rewrite testbit_concat, (proj2 (Z.ltb_ge (n - 32 - 32) 32)) by lia. f_equal; [f_equal|]; zdm.
Qed.

Lemma unstuff_mask size : 1 <= size <= 32 ->
  u32 ((if size <? 32 then u32 (Z.shiftl 1 size) else 0) - 1) = Z.ones size.
Proof.
  intros Hs. rewrite Z.ones_equiv. destruct (Z.ltb_spec size 32) as [Hl|Hg].
  - rewrite Z.shiftl_1_l.
    assert (2 ^ size <= 2 ^ 31) by (apply Z.pow_le_mono_r; lia).
    assert (2 ^ 1 <= 2 ^ size) by (apply Z.pow_le_mono_r; lia).
    change (2 ^ 31) with 2147483648 in *. rewrite (u32_id (2 ^ size)), u32_id by lia. lia.
  - replace size with 32 by lia. reflexivity.
Qed.

(** Bit [n] of the value [unstuff_bits] assembles from two words. *)
Lemma unstuff_word_bit resp start size n : words_ok resp ->
  0 <= start -> 1 <= size <= 32 -> start + size <= 128 -> 0 <= n < size ->
  let off := 3 - start / 32 in
  let shft := start mod 32 in
  Z.testbit
    (if 32 <? size + shft
     then Z.lor (Z.shiftr (word resp off) shft)
                (u32 (Z.shiftl (word resp (off - 1)) ((32 - shft) mod 32)))
     else Z.shiftr (word resp off) shft) n =
  Z.testbit (word resp (3 - (start + n) / 32)) ((start + n) mod 32).
Proof.
  intros Hr Hst Hsz Hb Hn off shft.
  assert (Hsh : 0 <= shft < 32) by (apply Z.mod_pos_bound; lia).
  assert (Hlow : n + shft < 32 -> (start + n) / 32 = start / 32 /\ (start + n) mod 32 = n + shft)
    by (subst shft; zdm).
  assert (Hhigh : 32 <= n + shft -> (start + n) / 32 = start / 32 + 1 /\ (start + n) mod 32 = n + shft - 32)
    by (subst shft; zdm).
  destruct (Z.ltb_spec 32 (size + shft)) as [Hw|Hw].
  - rewrite Z.lor_spec, Z.shiftr_spec by lia. rewrite (Z.mod_small (32 - shft)) by lia.
    unfold u32. change 4294967296 with (2 ^ 32).
    rewrite Z.mod_pow2_bits_low, Z.shiftl_spec by lia.
    destruct (Z.lt_ge_cases (n + shft) 32) as [Hl|Hg].
    + destruct (Hlow Hl) as [-> ->]. rewrite (Z.testbit_neg_r _ (n - _)), orb_false_r by lia. done.
    + destruct (Hhigh Hg) as [-> ->]. rewrite (testbit_high (word resp off)) by
        (lia || by apply word_range). simpl. f_equal; [f_equal|]; subst off; lia.
  - rewrite Z.shiftr_spec by lia. destruct (Hlow ltac:(lia)) as [-> ->]. done.
Qed.

(** [unstuff_bits] reads bits [start, start + size) of the 128 bit register
    that the four response words make up, also where the field spans two
    words. *)
Lemma unstuff_bits_correct (resp : list Z) (start size : Z) :
  words_ok resp -> 0 <= start -> 1 <= size <= 32 -> start + size <= 128 ->
  unstuff_bits resp start size = (register resp / 2 ^ start) mod 2 ^ size.
Proof.
  intros Hr Hst Hsz Hb. unfold unstuff_bits. rewrite unstuff_mask by done.
  change 31 with (Z.ones 5). rewrite !(Z.land_ones start) by lia. change (2 ^ 5) with 32.
  rewrite Z.land_ones, <- Z.shiftr_div_pow2 by lia.
  apply Z.bits_inj'. intros n Hn. destruct (Z.lt_ge_cases n size) as [Hl|Hg].
  - rewrite !Z.mod_pow2_bits_low by lia. rewrite unstuff_word_bit by (done || lia).
    rewrite Z.shiftr_spec by lia. rewrite (Z.add_comm n start).
    by rewrite register_testbit by (done || lia).
  - by rewrite !Z.mod_pow2_bits_high by lia.
Qed.

Definition field (raw : list Z) (start size : Z) : Z := (register raw / 2 ^ start) mod 2 ^ size.

Lemma field_range raw start size : 0 <= size -> 0 <= field raw start size < 2 ^ size.
Proof. intros. apply Z.mod_pos_bound. apply Z.pow_pos_nonneg; lia. Qed.

(** The size of a card in bytes by the SD specification, from its CSD. *)
Definition csd_bytes (raw : list Z) : Z :=
  if field raw 126 2 =? 0
  then (field raw 62 12 + 1) * 2 ^ (field raw 47 3 + 2) * 2 ^ field raw 80 4
  else (field raw 48 22 + 1) * 512 * 1024.

Lemma csd_capacity_spec raw : words_ok raw ->
  csd_capacity raw = (field raw 62 12 + 1) * 2 ^ (field raw 47 3 + 2).
Proof.
  intros Hr. unfold csd_capacity. rewrite !unstuff_bits_correct by (done || lia).
  fold (field raw 62 12) (field raw 47 3).
  pose proof (field_range raw 62 12 ltac:(lia)). pose proof (field_range raw 47 3 ltac:(lia)).
  rewrite Z.shiftl_mul_pow2 by lia.
  assert (2 ^ (field raw 47 3 + 2) <= 2 ^ 9) by (apply Z.pow_le_mono_r; lia).
  assert (0 < 2 ^ (field raw 47 3 + 2)) by (apply Z.pow_pos_nonneg; lia).
  change (2 ^ 9) with 512 in *. change (2 ^ 12) with 4096 in *.
  rewrite u32_id by nia. lia.
Qed.

(** The sector count taken from the CSD of an SD card, times the read block length the
    driver records with it, is the size of the card in bytes by the SD specification, for both
    CSD versions.  (A version 2 card with the largest C_SIZE would have 2^32 sectors.) *)
Theorem sd_csd_correct (raw : list Z) (c : mmc_csd_t) (old : Z) :
  words_ok raw -> field raw 126 2 = 0 \/ field raw 126 2 = 1 /\ field raw 48 22 < 2 ^ 22 - 1 ->
  let csd := _sd_storage_parse_csd raw c in
  structure csd = field raw 126 2 /\
  cmdclass csd = field raw 84 12 /\
  sd_sec_cnt csd old * 2 ^ read_blkbits csd = csd_bytes raw.
Proof.
  intros Hr Hs csd. subst csd. unfold _sd_storage_parse_csd, csd_bytes.
  rewrite !unstuff_bits_correct by (done || lia).
  fold (field raw 126 2) (field raw 84 12) (field raw 80 4) (field raw 12 2) (field raw 48 22).
  pose proof (field_range raw 84 12 ltac:(lia)). pose proof (field_range raw 48 22 ltac:(lia)).
  change (2 ^ 12) with 4096 in *. change (2 ^ 22) with 4194304 in *.
  rewrite (u16_id (field raw 84 12)) by lia.
  destruct Hs as [-> | [-> Hc]]; unfold sd_sec_cnt; simpl.
  - by rewrite csd_capacity_spec.
  - rewrite Z.shiftl_mul_pow2 by lia. change (2 ^ 10) with 1024. change (2 ^ 9) with 512.
    rewrite u32_id by lia. repeat split; lia.
Qed.


(** A 2 GB card has a version 1 CSD with blocks of 1024 bytes; the driver
    counts its blocks as sectors of 512 bytes, which is half of the card. *)
Lemma sd_capacity_2gb :
  let raw := [0; 0x000A03FF; 0xC0038000; 0] in
  csd_bytes raw = 2147483648 /\ sd_sec_cnt (_sd_storage_parse_csd raw csd0) 0 * 512 = 1073741824.
Proof. by vm_compute. Qed.

Lemma sd_csd_correct_witness :
  let raw := [0x400E0032; 0x5B590000; 0x7A127F80; 0x0A400000] in
  sd_sec_cnt (_sd_storage_parse_csd raw csd0) 0 * 2 ^ 9 = csd_bytes raw.
Proof.
  intros raw. apply (sd_csd_correct raw csd0 0).
  - repeat constructor; lia.
  - right. split; [reflexivity|]. vm_compute. reflexivity.
Defined.
