(* ===== verification/Sdmmc.v ===== *)
(** * Sdmmc

    The card protocol of bdk/storage/sdmmc.c: identification and set up of SD
    cards, eMMC and game cards, with the commands each step sends.

    The host controller (bdk/storage/sdmmc_driver.c) is used through the class
    [SdDriver]: its operations on an abstract device state, of which a data
    transfer also changes the memory.  Functions return a bool where the C
    code returns 0 or 1. *)

From S2P Require Import Prelude Mem SdReg.

(** ** Commands and requests (sdmmc_driver.h) *)

Record sdmmc_cmd_t := mk_cmd { c_cmd : Z; c_arg : Z; c_rsp_type : Z; c_check_busy : bool }.

Record sdmmc_req_t := mk_req {
  r_buf : Z;
  r_blksize : Z;
  r_num_sectors : Z;
  r_is_write : bool;
  r_is_multi_block : bool;
  r_is_auto_cmd12 : bool
}.

(** The storage context of sdmmc.h.  The raw CID and CSD are the four words of
    the response, the raw SCR and SSR are bytes. *)
Record sdmmc_storage_t := mk_storage {
  rca : Z;
  has_sector_access : bool;
  sec_cnt : Z;
  is_low_voltage : bool;
  partition : Z;
  initialized : bool;
  raw_cid : list Z;
  raw_csd : list Z;
  raw_scr : list Z;
  raw_ssr : list Z;
  cid : mmc_cid_t;
  csd : mmc_csd_t;
  ext_csd : mmc_ext_csd_t;
  scr : sd_scr_t;
  ssr : sd_ssr_t
}.

(** After [memset(storage, 0, sizeof(sdmmc_storage_t))]. *)
Definition storage0 : sdmmc_storage_t :=
  mk_storage 0 false 0 false 0 false (replicate 4 0) (replicate 4 0) (replicate 8 0) (replicate 64 0)
    cid0 csd0 ext_csd0 scr0 ssr0.

(** Assignments to single members. *)
Definition set_rca (v : Z) (s : sdmmc_storage_t) : sdmmc_storage_t :=
  mk_storage v (has_sector_access s) (sec_cnt s) (is_low_voltage s) (partition s) (initialized s)
    (raw_cid s) (raw_csd s) (raw_scr s) (raw_ssr s) (cid s) (csd s) (ext_csd s) (scr s) (ssr s).
Definition set_has_sector_access (v : bool) (s : sdmmc_storage_t) : sdmmc_storage_t :=
  mk_storage (rca s) v (sec_cnt s) (is_low_voltage s) (partition s) (initialized s)
    (raw_cid s) (raw_csd s) (raw_scr s) (raw_ssr s) (cid s) (csd s) (ext_csd s) (scr s) (ssr s).
Definition set_sec_cnt (v : Z) (s : sdmmc_storage_t) : sdmmc_storage_t :=
  mk_storage (rca s) (has_sector_access s) v (is_low_voltage s) (partition s) (initialized s)
    (raw_cid s) (raw_csd s) (raw_scr s) (raw_ssr s) (cid s) (csd s) (ext_csd s) (scr s) (ssr s).
Definition set_is_low_voltage (v : bool) (s : sdmmc_storage_t) : sdmmc_storage_t :=
  mk_storage (rca s) (has_sector_access s) (sec_cnt s) v (partition s) (initialized s)
    (raw_cid s) (raw_csd s) (raw_scr s) (raw_ssr s) (cid s) (csd s) (ext_csd s) (scr s) (ssr s).
Definition set_partition (v : Z) (s : sdmmc_storage_t) : sdmmc_storage_t :=
  mk_storage (rca s) (has_sector_access s) (sec_cnt s) (is_low_voltage s) v (initialized s)
    (raw_cid s) (raw_csd s) (raw_scr s) (raw_ssr s) (cid s) (csd s) (ext_csd s) (scr s) (ssr s).
Definition set_initialized (v : bool) (s : sdmmc_storage_t) : sdmmc_storage_t :=
  mk_storage (rca s) (has_sector_access s) (sec_cnt s) (is_low_voltage s) (partition s) v
    (raw_cid s) (raw_csd s) (raw_scr s) (raw_ssr s) (cid s) (csd s) (ext_csd s) (scr s) (ssr s).
Definition set_raw_cid (v : list Z) (s : sdmmc_storage_t) : sdmmc_storage_t :=
  mk_storage (rca s) (has_sector_access s) (sec_cnt s) (is_low_voltage s) (partition s) (initialized s)
    v (raw_csd s) (raw_scr s) (raw_ssr s) (cid s) (csd s) (ext_csd s) (scr s) (ssr s).
Definition set_raw_csd (v : list Z) (s : sdmmc_storage_t) : sdmmc_storage_t :=
  mk_storage (rca s) (has_sector_access s) (sec_cnt s) (is_low_voltage s) (partition s) (initialized s)
    (raw_cid s) v (raw_scr s) (raw_ssr s) (cid s) (csd s) (ext_csd s) (scr s) (ssr s).
Definition set_raw_scr (v : list Z) (s : sdmmc_storage_t) : sdmmc_storage_t :=
  mk_storage (rca s) (has_sector_access s) (sec_cnt s) (is_low_voltage s) (partition s) (initialized s)
    (raw_cid s) (raw_csd s) v (raw_ssr s) (cid s) (csd s) (ext_csd s) (scr s) (ssr s).
Definition set_raw_ssr (v : list Z) (s : sdmmc_storage_t) : sdmmc_storage_t :=
  mk_storage (rca s) (has_sector_access s) (sec_cnt s) (is_low_voltage s) (partition s) (initialized s)
    (raw_cid s) (raw_csd s) (raw_scr s) v (cid s) (csd s) (ext_csd s) (scr s) (ssr s).
Definition set_cid (v : mmc_cid_t) (s : sdmmc_storage_t) : sdmmc_storage_t :=
  mk_storage (rca s) (has_sector_access s) (sec_cnt s) (is_low_voltage s) (partition s) (initialized s)
    (raw_cid s) (raw_csd s) (raw_scr s) (raw_ssr s) v (csd s) (ext_csd s) (scr s) (ssr s).
Definition set_csd (v : mmc_csd_t) (s : sdmmc_storage_t) : sdmmc_storage_t :=
  mk_storage (rca s) (has_sector_access s) (sec_cnt s) (is_low_voltage s) (partition s) (initialized s)
    (raw_cid s) (raw_csd s) (raw_scr s) (raw_ssr s) (cid s) v (ext_csd s) (scr s) (ssr s).
Definition set_ext_csd (v : mmc_ext_csd_t) (s : sdmmc_storage_t) : sdmmc_storage_t :=
  mk_storage (rca s) (has_sector_access s) (sec_cnt s) (is_low_voltage s) (partition s) (initialized s)
    (raw_cid s) (raw_csd s) (raw_scr s) (raw_ssr s) (cid s) (csd s) v (scr s) (ssr s).
Definition set_scr (v : sd_scr_t) (s : sdmmc_storage_t) : sdmmc_storage_t :=
  mk_storage (rca s) (has_sector_access s) (sec_cnt s) (is_low_voltage s) (partition s) (initialized s)
    (raw_cid s) (raw_csd s) (raw_scr s) (raw_ssr s) (cid s) (csd s) (ext_csd s) v (ssr s).
Definition set_ssr (v : sd_ssr_t) (s : sdmmc_storage_t) : sdmmc_storage_t :=
  mk_storage (rca s) (has_sector_access s) (sec_cnt s) (is_low_voltage s) (partition s) (initialized s)
    (raw_cid s) (raw_csd s) (raw_scr s) (raw_ssr s) (cid s) (csd s) (ext_csd s) (scr s) v.
Definition set_busspeed (v : Z) (s : sdmmc_storage_t) : sdmmc_storage_t :=
  let c := csd s in
  set_csd (mk_csd (structure c) (mmca_vsn c) (cmdclass c) (c_size c) (read_blkbits c)
             (capacity c) (write_protect c) v) s.

(** ** Constants *)

Definition SDMMC_UPPER_BUFFER : Z := 0xE5000000.
Definition SDMMC_UP_BUF_SZ : Z := 0x8000000.
Definition DRAM_START : Z := 0x80000000.

Definition SDMMC_1 : Z := 0.
Definition SDMMC_2 : Z := 1.
Definition SDMMC_4 : Z := 3.
Definition SDMMC_POWER_1_8 : Z := 1.
Definition SDMMC_POWER_3_3 : Z := 2.
Definition BUS_WIDTH_1 : Z := 0.
Definition BUS_WIDTH_4 : Z := 1.
Definition BUS_WIDTH_8 : Z := 2.

Definition TIMING_MMC_ID : Z := 0.
Definition TIMING_MMC_LS26 : Z := 1.
Definition TIMING_MMC_HS52 : Z := 2.
Definition TIMING_MMC_HS200 : Z := 3.
Definition TIMING_MMC_HS400 : Z := 4.
Definition TIMING_SD_ID : Z := 5.
Definition TIMING_SD_DS12 : Z := 6.
Definition TIMING_SD_HS25 : Z := 7.
Definition TIMING_UHS_SDR12 : Z := 8.
Definition TIMING_UHS_SDR25 : Z := 9.
Definition TIMING_UHS_SDR50 : Z := 10.
Definition TIMING_UHS_SDR104 : Z := 11.
Definition TIMING_UHS_SDR82 : Z := 12.
Definition TIMING_UHS_DDR50 : Z := 13.
Definition TIMING_MMC_HS102 : Z := 14.

Definition R1_STATE_READY : Z := 1.
Definition R1_STATE_TRAN : Z := 4.
Definition R1_SKIP_STATE_CHECK : Z := 16.
Definition R1_ILLEGAL_COMMAND : Z := BIT 22.
Definition R1_CURRENT_STATE (x : Z) : Z := Z.shiftr (Z.land x 0x1E00) 9.

(** Bits 31 to 26, 24 to 19, 16, 15, 13 and 7. *)
Definition R1_ERRORS : Z := 0xFDF9A080.

Definition MMC_CARD_BUSY : Z := 0x80000000.
Definition SD_OCR_CCS : Z := BIT 30.
Definition SD_OCR_XPC : Z := BIT 28.
Definition SD_OCR_S18R : Z := BIT 24.
Definition SD_OCR_VDD_27_34 : Z := Z.shiftl 0x7F 15.
Definition SD_OCR_VDD_32_33 : Z := BIT 20.
Definition SD_OCR_VDD_18 : Z := BIT 7.

Definition SDMMC_SWITCH (mode index value : Z) : Z :=
  Z.lor (Z.lor (Z.shiftl mode 24) (Z.shiftl index 16)) (Z.shiftl value 8).

(** ** The host controller *)

(** [drv_execute] gives the result, the number of blocks when it is stored, and
    the new device and memory.  [drv_get_rsp] is [None] when it returns 0. *)
Class SdDriver (D : Type) := {
  drv_init : Z -> Z -> Z -> Z -> Z -> D -> bool * D;
  drv_end : D -> D;
  drv_execute : sdmmc_cmd_t -> option sdmmc_req_t -> D -> mem -> bool * option Z * D * mem;
  drv_get_rsp : Z -> D -> option (list Z);
  drv_stop : D -> D;
  drv_setup_clock : Z -> D -> bool * D;
  drv_tuning : Z -> Z -> D -> bool * D;
  drv_io_power : D -> Z;
  drv_bus_width : D -> Z;
  drv_set_bus_width : Z -> D -> D;
  drv_save_tap : D -> D;
  drv_powersave : Z -> D -> D;
  drv_low_voltage : D -> bool * D;
  drv_id : D -> Z;
  drv_divisor : D -> Z;
  drv_inserted : D -> bool * D;
  drv_power_cycle_start : D -> Z;
  drv_ms : D -> Z * D;
  drv_usleep : Z -> D -> D
}.

Record card (D : Type) := Card { storage : sdmmc_storage_t; dev : D; ram : mem }.
Arguments Card {D}.
Arguments storage {D}.
Arguments dev {D}.
Arguments ram {D}.

(** [if (!m) return 0; k] *)
Definition and_then {S} (m k : M S bool) : M S bool := b ← m; if (b : bool) then k else mret false.
Notation "m '&?' k" := (and_then m k) (at level 60, right associativity).

Section Sdmmc.
Context {D : Type} `{SdDriver D}.

Definition lift (f : D -> bool * D) : M (card D) bool := fun s =>
  let '(b, d) := f (dev s) in (Ret b, Card (storage s) d (ram s)).
Definition lift_ (f : D -> D) : M (card D) unit := fun s =>
  (Ret tt, Card (storage s) (f (dev s)) (ram s)).
Definition upd (f : sdmmc_storage_t -> sdmmc_storage_t) : M (card D) unit := fun s =>
  (Ret tt, Card (f (storage s)) (dev s) (ram s)).
Definition gets {A} (f : card D -> A) : M (card D) A := fun s => (Ret (f s), s).

Definition get_tmr_ms : M (card D) Z := fun s =>
  let '(t, d) := drv_ms (dev s) in (Ret t, Card (storage s) d (ram s)).
Definition usleep (us : Z) : M (card D) unit := lift_ (drv_usleep (u32 us)).
Definition msleep (ms : Z) : M (card D) unit := lift_ (drv_usleep (u32 (u32 ms * 1000))).

Definition execute_cmd (c : sdmmc_cmd_t) (r : option sdmmc_req_t) : M (card D) (bool * option Z) :=
  fun s =>
    let '(b, n, d, m) := drv_execute c r (dev s) (ram s) in (Ret (b, n), Card (storage s) d m).

(** The same where no block count is asked for. *)
Definition execute (c : sdmmc_cmd_t) (r : option sdmmc_req_t) : M (card D) bool :=
  p ← execute_cmd c r; mret p.1.

(** The first word of the last response; a local that holds [old] keeps it
    when there is no response of this type. *)
Definition get_rsp1 (type old : Z) : M (card D) Z :=
  gets (fun s => match drv_get_rsp type (dev s) with Some (w :: _) => w | _ => old end).
Definition get_rsp4 (old : list Z) : M (card D) (list Z) :=
  gets (fun s => match drv_get_rsp 2 (dev s) with Some l => l | None => old end).

(** ** Common functions *)

Definition _sdmmc_storage_check_card_status (res : Z) : bool := negb (c_true (Z.land res R1_ERRORS)).

(** The result, and the value left in [*resp]. *)
Definition _sdmmc_storage_execute_cmd_type1_ex (cmd arg : Z) (check_busy : bool)
    (expected_state mask : Z) : M (card D) bool :=
  execute (mk_cmd cmd arg 1 check_busy) None &?
  (resp ← get_rsp1 1 0;
   let resp := if c_true mask then Z.land resp (u32 (Z.lnot mask)) else resp in
   mret (_sdmmc_storage_check_card_status resp &&
         ((expected_state =? R1_SKIP_STATE_CHECK) || (R1_CURRENT_STATE resp =? expected_state)))).

Definition _sdmmc_storage_execute_cmd_type1 (cmd arg : Z) (check_busy : bool) (expected_state : Z)
    : M (card D) bool :=
  _sdmmc_storage_execute_cmd_type1_ex cmd arg check_busy expected_state 0.

Definition _sdmmc_storage_go_idle_state : M (card D) bool := execute (mk_cmd 0 0 0 false) None.

Definition rca_arg : M (card D) Z := gets (fun s => u32 (Z.shiftl (rca (storage s)) 16)).

Definition _sdmmc_storage_get_cid : M (card D) bool :=
  execute (mk_cmd 2 0 2 false) None &?
  (old ← gets (fun s => raw_cid (storage s)); r ← get_rsp4 old; upd (set_raw_cid r);; mret true).

Definition _sdmmc_storage_select_card : M (card D) bool :=
  a ← rca_arg; _sdmmc_storage_execute_cmd_type1 7 a true R1_SKIP_STATE_CHECK.

Definition _sdmmc_storage_get_csd : M (card D) bool :=
  a ← rca_arg;
  execute (mk_cmd 9 a 2 false) None &?
  (old ← gets (fun s => raw_csd (storage s)); r ← get_rsp4 old; upd (set_raw_csd r);; mret true).

Definition _sdmmc_storage_set_blocklen (blocklen : Z) : M (card D) bool :=
  _sdmmc_storage_execute_cmd_type1 16 blocklen false R1_STATE_TRAN.

Definition _sdmmc_storage_get_status (mask : Z) : M (card D) bool :=
  a ← rca_arg; _sdmmc_storage_execute_cmd_type1_ex 13 a false R1_STATE_TRAN mask.

Definition _sdmmc_storage_check_status : M (card D) bool := _sdmmc_storage_get_status 0.

(** One transfer of at most 65535 sectors; the block count starts at [blkcnt]. *)
Definition _sdmmc_storage_readwrite_ex (blkcnt sector num_sectors buf : Z) (is_write : bool)
    : M (card D) (bool * Z) :=
  p ← execute_cmd (mk_cmd (if is_write then 25 else 18) sector 1 false)
        (Some (mk_req buf 512 num_sectors is_write true true));
  let '(ok, n) := p in
  let blkcnt := default blkcnt n in
  if (ok : bool) then mret (true, blkcnt)
  else
    lift_ drv_stop;;
    _sdmmc_storage_get_status 0;;
    mret (false, blkcnt).

Definition sdmmc_storage_end : M (card D) bool :=
  _sdmmc_storage_go_idle_state &?
  (lift_ drv_end;; upd (set_initialized false);; mret true).

(** ** MMC *)

Definition _mmc_storage_get_op_cond_inner (power : Z) : M (card D) (option Z) :=
  let op arg :=
    ok ← execute (mk_cmd 1 arg 3 false) None;
    if (ok : bool)
    then gets (fun s => match drv_get_rsp 3 (dev s) with Some (w :: _) => Some w | _ => None end)
    else mret None in
  if power =? SDMMC_POWER_1_8 then op (Z.lor SD_OCR_CCS SD_OCR_VDD_18)
  else if power =? SDMMC_POWER_3_3 then op (Z.lor SD_OCR_CCS SD_OCR_VDD_27_34)
  else mret None.

Fixpoint mmc_op_cond_loop (fuel : nat) (power timeout : Z) : M (card D) bool :=
  match fuel with
  | O => nofuel
  | S fuel =>
      r ← _mmc_storage_get_op_cond_inner power;
      match r with
      | None => mret false
      | Some cond =>
          if c_true (Z.land cond MMC_CARD_BUSY) then
            (if c_true (Z.land cond SD_OCR_CCS) then upd (set_has_sector_access true) else mret tt);;
            mret true
          else
            t ← get_tmr_ms;
            if timeout <? t then mret false
            else usleep 1000;; mmc_op_cond_loop fuel power timeout
      end
  end.

Definition _mmc_storage_get_op_cond (fuel : nat) (power : Z) : M (card D) bool :=
  t ← get_tmr_ms; mmc_op_cond_loop fuel power (u32 (t + 1500)).

Definition _mmc_storage_set_relative_addr : M (card D) bool :=
  a ← rca_arg; _sdmmc_storage_execute_cmd_type1 3 a false R1_SKIP_STATE_CHECK.

Definition parse_mmc_csd : M (card D) unit :=
  upd (fun s => set_csd (_mmc_storage_parse_csd (raw_csd s) (csd s)) s).
Definition parse_mmc_cid : M (card D) unit :=
  upd (fun s => set_cid (_mmc_storage_parse_cid (raw_cid s) (mmca_vsn (csd s)) (rev (ext_csd s)) (cid s)) s).

Definition _mmc_storage_get_ext_csd (buf : Z) : M (card D) bool :=
  execute (mk_cmd 8 0 1 false) (Some (mk_req buf 512 1 false false false)) &?
  (tmp ← get_rsp1 1 0;
   m ← gets ram;
   upd (fun s => let '(e, n) := _mmc_storage_parse_ext_csd m buf in set_sec_cnt n (set_ext_csd e s));;
   mret (_sdmmc_storage_check_card_status tmp)).

Definition _mmc_storage_switch (arg : Z) : M (card D) bool :=
  _sdmmc_storage_execute_cmd_type1 6 arg true R1_SKIP_STATE_CHECK.

Definition _mmc_storage_switch_buswidth (bus_width : Z) : M (card D) bool :=
  if bus_width =? BUS_WIDTH_1 then mret true
  else
    let arg := if bus_width =? BUS_WIDTH_4 then SDMMC_SWITCH 3 183 1
               else if bus_width =? BUS_WIDTH_8 then SDMMC_SWITCH 3 183 2
               else 0 in
    _mmc_storage_switch arg &? _sdmmc_storage_check_status &?
    (lift_ (drv_set_bus_width bus_width);; mret true).

Definition _mmc_storage_enable_HS (check : bool) : M (card D) bool :=
  _mmc_storage_switch (SDMMC_SWITCH 3 185 1) &?
  (if check then _sdmmc_storage_check_status else mret true) &?
  lift (drv_setup_clock TIMING_MMC_HS52) &?
  (upd (set_busspeed 52);; if check then mret true else _sdmmc_storage_check_status).

Definition _mmc_storage_enable_HS200 : M (card D) bool :=
  _mmc_storage_switch (SDMMC_SWITCH 3 185 2) &?
  lift (drv_setup_clock TIMING_MMC_HS200) &?
  lift (drv_tuning TIMING_MMC_HS200 21) &?
  (upd (set_busspeed 200);; _sdmmc_storage_check_status).

Definition _mmc_storage_enable_HS400 : M (card D) bool :=
  _mmc_storage_enable_HS200 &?
  (lift_ drv_save_tap;;
   _mmc_storage_enable_HS false &?
   _mmc_storage_switch (SDMMC_SWITCH 3 183 6) &?
   _mmc_storage_switch (SDMMC_SWITCH 3 185 3) &?
   lift (drv_setup_clock TIMING_MMC_HS400) &?
   (upd (set_busspeed 400);; _sdmmc_storage_check_status)).

Definition _mmc_storage_enable_highspeed (card_type type : Z) : M (card D) bool :=
  let out := if c_true (Z.land card_type 2) then _mmc_storage_enable_HS true else mret true in
  p ← gets (fun s => drv_io_power (dev s));
  w ← gets (fun s => drv_bus_width (dev s));
  if negb (p =? SDMMC_POWER_1_8) then out
  else if (w =? BUS_WIDTH_8) && c_true (Z.land card_type 64) && (type =? TIMING_MMC_HS400)
  then _mmc_storage_enable_HS400
  else if (w =? BUS_WIDTH_8) ||
          ((w =? BUS_WIDTH_4) && c_true (Z.land card_type 16) &&
           ((type =? TIMING_MMC_HS400) || (type =? TIMING_MMC_HS200)))
  then _mmc_storage_enable_HS200
  else out.

(** Not called: the condition of its only call is constant 0. *)
Definition _mmc_storage_enable_bkops : M (card D) bool :=
  _mmc_storage_switch (SDMMC_SWITCH 1 163 2) &? _sdmmc_storage_check_status.

(** [usleep(1000 + (n + divisor - 1) / divisor)] *)
Definition wait_clocks (n : Z) : M (card D) unit :=
  d ← gets (fun s => drv_divisor (dev s)); usleep (1000 + u32 (n + d - 1) / d).

Definition sdmmc_storage_init_mmc (fuel : nat) (bus_width type : Z) : M (card D) bool :=
  upd (fun _ => set_rca 2 storage0);;
  lift (drv_init SDMMC_4 SDMMC_POWER_1_8 BUS_WIDTH_1 TIMING_MMC_ID 0) &?
  (wait_clocks 74000;; _sdmmc_storage_go_idle_state) &?
  _mmc_storage_get_op_cond fuel SDMMC_POWER_1_8 &?
  _sdmmc_storage_get_cid &?
  _mmc_storage_set_relative_addr &?
  _sdmmc_storage_get_csd &?
  (parse_mmc_csd;; lift (drv_setup_clock TIMING_MMC_LS26)) &?
  _sdmmc_storage_select_card &?
  _sdmmc_storage_set_blocklen 512 &?
  (raw ← gets (fun s => raw_csd (storage s));
   if unstuff_bits raw 122 4 <? 4 then
     upd (set_sec_cnt (csd_capacity raw));; mret true
   else
     _mmc_storage_switch_buswidth bus_width &?
     _mmc_storage_get_ext_csd SDMMC_UPPER_BUFFER &?
     (parse_mmc_cid;;
      ct ← gets (fun s => card_type (ext_csd (storage s)));
      _mmc_storage_enable_highspeed ct type) &?
     (lift_ (drv_powersave 1);; upd (set_initialized true);; mret true)).

Definition sdmmc_storage_set_mmc_partition (partition : Z) : M (card D) bool :=
  _mmc_storage_switch (SDMMC_SWITCH 3 179 partition) &?
  _sdmmc_storage_check_status &?
  (upd (set_partition partition);; mret true).

(** ** SD *)

Definition _sd_storage_execute_app_cmd (expected_state mask : Z) (cmd : sdmmc_cmd_t)
    (req : option sdmmc_req_t) : M (card D) bool :=
  a ← rca_arg;
  _sdmmc_storage_execute_cmd_type1_ex 55 a false expected_state mask &? execute cmd req.

Definition _sd_storage_execute_app_cmd_type1 (cmd arg : Z) (check_busy : bool) (expected_state : Z)
    : M (card D) bool :=
  a ← rca_arg;
  _sdmmc_storage_execute_cmd_type1 55 a false R1_STATE_TRAN &?
  _sdmmc_storage_execute_cmd_type1_ex cmd arg check_busy expected_state 0.

(** 0: version 2 or later, 1: version 1, 2: failed. *)
Definition _sd_storage_send_if_cond : M (card D) Z :=
  let vhd_pattern := Z.lor (BIT 8) 0xAA in
  ok ← execute (mk_cmd 8 vhd_pattern 5 false) None;
  if negb ok then mret 1
  else
    r ← gets (fun s => drv_get_rsp 5 (dev s));
    match r with
    | Some (resp :: _) => mret (if Z.land resp 0xFFF =? vhd_pattern then 0 else 2)
    | _ => mret 2
    end.

Definition _sd_storage_get_op_cond_once (is_version_1 bus_uhs_support : bool) : M (card D) (option Z) :=
  let arg := if is_version_1 then 0 else SD_OCR_XPC in
  let arg := Z.lor arg (if is_version_1 then 0 else SD_OCR_CCS) in
  let arg := Z.lor arg (if bus_uhs_support && negb is_version_1 then SD_OCR_S18R else 0) in
  let arg := Z.lor arg SD_OCR_VDD_32_33 in
  ok ← _sd_storage_execute_app_cmd R1_SKIP_STATE_CHECK (if is_version_1 then R1_ILLEGAL_COMMAND else 0)
         (mk_cmd 41 arg 3 false) None;
  if (ok : bool)
  then gets (fun s => match drv_get_rsp 3 (dev s) with Some (w :: _) => Some w | _ => None end)
  else mret None.

(** The switch to 1.8 V signalling; false where the code returns 0. *)
Definition sd_low_voltage (cond : Z) (bus_uhs_support : bool) : M (card D) bool :=
  if c_true (Z.land cond SD_OCR_S18R) && bus_uhs_support then
    id ← gets (fun s => drv_id (dev s));
    ok ← (if id =? SDMMC_1
          then _sdmmc_storage_execute_cmd_type1 11 0 false R1_STATE_READY else mret false);
    if (ok : bool)
    then lift drv_low_voltage &? (upd (set_is_low_voltage true);; mret true)
    else mret true
  else mret true.

Fixpoint sd_op_cond_loop (fuel : nat) (is_version_1 bus_uhs_support : bool) (timeout : Z)
    : M (card D) bool :=
  match fuel with
  | O => nofuel
  | S fuel =>
      r ← _sd_storage_get_op_cond_once is_version_1 bus_uhs_support;
      match r with
      | None => mret false
      | Some cond =>
          if c_true (Z.land cond MMC_CARD_BUSY) then
            (if c_true (Z.land cond SD_OCR_CCS) then upd (set_has_sector_access true) else mret tt);;
            sd_low_voltage cond bus_uhs_support
          else
            t ← get_tmr_ms;
            if timeout <? t then mret false
            else msleep 10;; sd_op_cond_loop fuel is_version_1 bus_uhs_support timeout
      end
  end.

Definition _sd_storage_get_op_cond (fuel : nat) (is_version_1 bus_uhs_support : bool)
    : M (card D) bool :=
  t ← get_tmr_ms; sd_op_cond_loop fuel is_version_1 bus_uhs_support (u32 (t + 1500)).

Fixpoint rca_loop (fuel : nat) (timeout : Z) : M (card D) bool :=
  match fuel with
  | O => nofuel
  | S fuel =>
      ok ← execute (mk_cmd 3 0 4 false) None;
      if negb ok then mret false
      else
        r ← gets (fun s => drv_get_rsp 4 (dev s));
        match r with
        | Some (resp :: _) =>
            if c_true (Z.shiftr resp 16) then upd (set_rca (Z.shiftr resp 16));; mret true
            else
              t ← get_tmr_ms;
              if timeout <? t then mret false
              else usleep 1000;; rca_loop fuel timeout
        | _ => mret false
        end
  end.

Definition _sd_storage_get_rca (fuel : nat) : M (card D) bool :=
  t ← get_tmr_ms; rca_loop fuel (u32 (t + 1500)).

(** A read of one block of [blksize] bytes into [buf]. *)
Definition block_req (buf blksize : Z) : option sdmmc_req_t :=
  Some (mk_req buf blksize 1 false false false).

Definition _sd_storage_get_scr (buf : Z) : M (card D) bool :=
  _sd_storage_execute_app_cmd R1_STATE_TRAN 0 (mk_cmd 51 0 1 false) (block_req buf 8) &?
  (tmp ← get_rsp1 1 0;
   m ← gets ram;
   upd (set_raw_scr (swap_words 2 m buf));;
   upd (fun s => set_scr (_sd_storage_parse_scr (raw_scr s) (scr s)) s);;
   mret (_sdmmc_storage_check_card_status tmp)).

Definition _sd_storage_switch_get (buf : Z) : M (card D) bool :=
  execute (mk_cmd 6 0xFFFFFF 1 false) (block_req buf 64) &?
  (tmp ← get_rsp1 1 0; mret (_sdmmc_storage_check_card_status tmp)).

Definition switchcmd (mode group arg : Z) : Z :=
  let c := Z.lor (u32 (Z.shiftl mode 31)) 0x00FFFFFF in
  let c := Z.land c (u32 (Z.lnot (Z.shiftl 0xF (group * 4)))) in
  Z.lor c (u32 (Z.shiftl arg (group * 4))).

Definition _sd_storage_switch (buf mode group arg : Z) : M (card D) bool :=
  execute (mk_cmd 6 (switchcmd mode group arg) 1 false) (block_req buf 64) &?
  (tmp ← get_rsp1 1 0; mret (_sdmmc_storage_check_card_status tmp)).

(** The comparison of the answer with the request only selects a message. *)
Definition _sd_storage_set_current_limit (current_limit buf : Z) : M (card D) unit :=
  let pwr := if c_true (Z.land current_limit 8) then 3
             else if c_true (Z.land current_limit 4) then 2
             else if c_true (Z.land current_limit 2) then 1
             else 0 in
  _sd_storage_switch buf 1 3 pwr;; mret tt.

Definition _sd_storage_enable_highspeed (hs_type buf : Z) : M (card D) bool :=
  _sd_storage_switch buf 0 0 hs_type &?
  (m ← gets ram;
   let type_out := Z.land (ld8 m (buf + 16)) 0xF in
   if negb (type_out =? hs_type) then mret false
   else
     let total := Z.lor (Z.shiftl (ld8 m buf) 8) (ld8 m (buf + 1)) in
     if total <=? 800 then
       _sd_storage_switch buf 1 0 hs_type &?
       (m ← gets ram; mret (type_out =? Z.land (ld8 m (buf + 16)) 0xF))
     else mret false).

(** The switch on the timing, with its fall through: the timing, bus speed
    function and MHz to use, [None] where the code returns 0. *)
Definition uhs_mode (type access_mode : Z) : option (Z * Z * Z) :=
  let has b := c_true (Z.land access_mode (BIT b)) in
  let sdr12 := if has 0 then Some (TIMING_UHS_SDR12, 0, 12) else None in
  let sdr25 := if has 1 then Some (TIMING_UHS_SDR25, 1, 25) else sdr12 in
  let sdr50 := if has 2 then Some (TIMING_UHS_SDR50, 2, 50) else sdr25 in
  let sdr104 mhz := if has 3 then Some (type, 3, mhz) else sdr50 in
  if type =? TIMING_UHS_SDR104 then sdr104 104
  else if type =? TIMING_UHS_SDR82 then sdr104 82
  else if type =? TIMING_UHS_SDR50 then sdr50
  else if type =? TIMING_UHS_SDR25 then sdr25
  else if type =? TIMING_UHS_SDR12 then sdr12
  else None.

Definition access_and_current (buf : Z) : M (card D) (Z * Z) :=
  m ← gets ram; mret (ld8 m (buf + 13), Z.lor (ld8 m (buf + 7)) (Z.shiftl (ld8 m (buf + 6)) 8)).

Definition _sd_storage_enable_uhs_low_volt (type buf : Z) : M (card D) bool :=
  w ← gets (fun s => drv_bus_width (dev s));
  if negb (w =? BUS_WIDTH_4) then mret false
  else
    _sd_storage_switch_get buf &?
    (p ← access_and_current buf;
     let '(access_mode, current_limit) := p in
     _sd_storage_set_current_limit current_limit buf;;
     match uhs_mode type access_mode with
     | None => mret false
     | Some (type, hs_type, mhz) =>
         upd (set_busspeed mhz);;
         _sd_storage_enable_highspeed hs_type buf &?
         lift (drv_setup_clock type) &?
         lift (drv_tuning type 19) &?
         _sdmmc_storage_check_status
     end).

Definition _sd_storage_enable_hs_high_volt (buf : Z) : M (card D) bool :=
  _sd_storage_switch_get buf &?
  (p ← access_and_current buf;
   let '(access_mode, current_limit) := p in
   _sd_storage_set_current_limit current_limit buf;;
   if negb (c_true (Z.land access_mode (BIT 1))) then mret true
   else
     _sd_storage_enable_highspeed 1 buf &?
     _sdmmc_storage_check_status &?
     lift (drv_setup_clock TIMING_SD_HS25)).

Definition _sd_storage_get_ssr (buf : Z) : M (card D) bool :=
  cc ← gets (fun s => cmdclass (csd (storage s)));
  if negb (c_true (Z.land cc (BIT 8))) then mret false
  else
    _sd_storage_execute_app_cmd R1_STATE_TRAN 0 (mk_cmd 13 0 1 false) (block_req buf 64) &?
    (tmp ← get_rsp1 1 0;
     m ← gets ram;
     upd (set_raw_ssr (swap_words 16 m buf));;
     upd (fun s => set_ssr (_sd_storage_parse_ssr (raw_ssr s)) s);;
     mret (_sdmmc_storage_check_card_status tmp)).

Definition _sdmmc_storage_get_bus_uhs_support (bus_width type : Z) : bool :=
  (TIMING_UHS_SDR12 <=? type) && (type <=? TIMING_UHS_DDR50) && (bus_width =? BUS_WIDTH_4).

Definition sdmmc_storage_init_wait_sd : M (card D) unit :=
  t ← get_tmr_ms;
  st ← gets (fun s => drv_power_cycle_start (dev s));
  let off := u32 (t - st) in
  if off <? 239 then msleep (239 - off) else mret tt.

Definition sd_wide_bus (bus_width : Z) (s : card D) : bool :=
  (bus_width =? BUS_WIDTH_4) && c_true (Z.land (bus_widths (scr (storage s))) 4)
  && c_true (Z.land (sda_vsn (scr (storage s))) 0xF).

(** From the selected card to the end: bus width, speed and card status. *)
Definition sd_set_bus (bus_width type buf : Z) : M (card D) bool :=
  wide ← gets (sd_wide_bus bus_width);
  (if (wide : bool) then
     _sd_storage_execute_app_cmd_type1 6 2 false R1_STATE_TRAN &?
     (lift_ (drv_set_bus_width BUS_WIDTH_4);; mret true)
   else mret true) &?
  (low ← gets (fun s => is_low_voltage (storage s));
   vsn ← gets (fun s => sda_vsn (scr (storage s)));
   if (low : bool) then
     _sd_storage_enable_uhs_low_volt type buf &? (lift_ (drv_powersave 1);; mret true)
   else if negb (type =? TIMING_SD_DS12) && c_true (Z.land vsn 0xF) then
     _sd_storage_enable_hs_high_volt buf &?
     (upd (set_busspeed (if (wide : bool) then 25 else 6));; mret true)
   else mret true) &?
  (_sd_storage_get_ssr buf;; mret true).

Definition sdmmc_storage_init_sd (fuel : nat) (bus_width type : Z) : M (card D) bool :=
  let buf := SDMMC_UPPER_BUFFER in
  sdmmc_storage_init_wait_sd;;
  upd (fun _ => storage0);;
  lift (drv_init SDMMC_1 SDMMC_POWER_3_3 BUS_WIDTH_1 TIMING_SD_ID 0) &?
  (wait_clocks 74000;; _sdmmc_storage_go_idle_state) &?
  (v ← _sd_storage_send_if_cond;
   if v =? 2 then mret false
   else _sd_storage_get_op_cond fuel (c_true v) (_sdmmc_storage_get_bus_uhs_support bus_width type)) &?
  _sdmmc_storage_get_cid &?
  (upd (fun s => set_cid (_sd_storage_parse_cid (raw_cid s) (cid s)) s);;
   _sd_storage_get_rca fuel) &?
  _sdmmc_storage_get_csd &?
  (upd (fun s => set_csd (_sd_storage_parse_csd (raw_csd s) (csd s)) s);;
   upd (fun s => set_sec_cnt (sd_sec_cnt (csd s) (sec_cnt s)) s);;
   low ← gets (fun s => is_low_voltage (storage s));
   if (low : bool) then mret true else lift (drv_setup_clock TIMING_SD_DS12)) &?
  _sdmmc_storage_select_card &?
  _sdmmc_storage_set_blocklen 512 &?
  _sd_storage_execute_app_cmd_type1 42 0 false R1_STATE_TRAN &?
  _sd_storage_get_scr buf &?
  sd_set_bus bus_width type buf &?
  (upd (set_initialized true);; mret true).

(** ** Game card *)

Definition _gc_storage_custom_cmd (buf : Z) : M (card D) bool :=
  ok ← execute (mk_cmd 60 0 1 true) (Some (mk_req buf 64 1 true false false));
  if negb ok then lift_ drv_stop;; mret false
  else
    r ← gets (fun s => drv_get_rsp 1 (dev s));
    match r with
    | Some (resp :: _) =>
        if negb (_sdmmc_storage_check_card_status resp) then mret false
        else _sdmmc_storage_check_status
    | _ => mret false
    end.

Definition sdmmc_storage_init_gc : M (card D) bool :=
  upd (fun _ => storage0);;
  lift (drv_init SDMMC_2 SDMMC_POWER_1_8 BUS_WIDTH_8 TIMING_MMC_HS102 0) &?
  (wait_clocks 10000;; lift (drv_tuning TIMING_MMC_HS102 21)) &?
  (lift_ (drv_powersave 1);; upd (set_initialized true);; mret true).

End Sdmmc.

(** ** What a run of the protocol leaves alone

    A relation between the state before and after that every elementary step
    respects is respected by the whole initialisation. *)

Definition stays {S A} (R : S -> S -> Prop) (m : M S A) : Prop := forall s, R s (m s).2.

Section stays.
Context {S : Type} (R : S -> S -> Prop) `{!PreOrder R}.

Lemma stays_ret {A} (x : A) : stays R (mret x).
Proof. intros s. simpl. reflexivity. Qed.

Lemma stays_nofuel {A} : stays R (@nofuel S A).
Proof. intros s. simpl. reflexivity. Qed.

Lemma stays_bind {A B} (m : M S A) (k : A -> M S B) :
  stays R m -> (forall x, stays R (k x)) -> stays R (m ≫= k).
Proof.
  intros Hm Hk s. specialize (Hm s). unfold mbind, M_bind.
  destruct (m s) as [[x| |] s1]; simpl in *; [|done..]. etransitivity; [exact Hm|apply Hk].
Qed.

Lemma stays_and (m k : M S bool) : stays R m -> stays R k -> stays R (m &? k).
Proof. intros Hm Hk. apply stays_bind; [done|]. intros []; [done|apply stays_ret]. Qed.

Lemma stays_if {A} (b : bool) (m k : M S A) : stays R m -> stays R k -> stays R (if b then m else k).
Proof. by destruct b. Qed.
End stays.

Lemma stays_gets {D A} (R : card D -> card D -> Prop) `{!PreOrder R} (f : card D -> A) :
  stays R (gets f).
Proof. intros s. simpl. reflexivity. Qed.

Create HintDb stays.

(** Walks through the binds, guards and branches of a routine. *)
Ltac walk :=
  repeat first
    [ progress intros
    | match goal with
      | |- stays _ (mret _) => apply stays_ret; apply _
      | |- stays _ nofuel => apply stays_nofuel; apply _
      | |- stays _ (gets _) => apply stays_gets; apply _
      | |- stays _ (and_then _ _) => apply stays_and; [apply _|..]
      | |- stays _ (mbind _ _) => apply stays_bind; [apply _|..]
      end
    | solve [eauto with stays]
    | match goal with
      | |- stays _ (if _ then _ else _) => apply stays_if
      | |- stays _ (match ?x with _ => _ end) => destruct x
      end ].

Section steps.
Context {D : Type} `{SdDriver D}.

(** Commands without data, and reads of a card register to the upper buffer. *)
Definition register_req (r : option sdmmc_req_t) : Prop :=
  r = None \/ exists k, 0 <= k <= 512 /\ r = block_req SDMMC_UPPER_BUFFER k.

(** A relation that the elementary steps of the initialisation respect. *)
Class Steps (R : card D -> card D -> Prop) := {
  steps_pre :: PreOrder R;
  steps_upd f : (forall x, initialized (f x) = initialized x) -> stays R (upd f);
  steps_init a b c d e : stays R (lift (drv_init a b c d e));
  steps_clock t : stays R (lift (drv_setup_clock t));
  steps_tuning t c : stays R (lift (drv_tuning t c));
  steps_low_voltage : stays R (lift drv_low_voltage);
  steps_bus_width w : stays R (lift_ (drv_set_bus_width w));
  steps_powersave p : stays R (lift_ (drv_powersave p));
  steps_ms : stays R get_tmr_ms;
  steps_sleep n : stays R (lift_ (drv_usleep n));
  steps_execute c r : register_req r -> stays R (execute_cmd c r)
}.

Context (R : card D -> card D -> Prop) `{!Steps R}.

Lemma stays_execute c r : register_req r -> stays R (execute c r).
Proof. intros Hr. apply stays_bind; [apply _|by apply steps_execute|]. intros. apply stays_ret, _. Qed.

#[local] Hint Resolve steps_init steps_clock steps_tuning steps_low_voltage steps_bus_width
  steps_powersave steps_ms steps_sleep stays_execute steps_execute : stays.
#[local] Hint Extern 1 (register_req None) => left; reflexivity : stays.
#[local] Hint Extern 1 (register_req (block_req _ _)) => right; eexists; split; [|reflexivity]; lia : stays.
#[local] Hint Extern 1 (stays _ (upd _)) => apply steps_upd; done : stays.

Lemma cmd_type1_stays c a b e m : stays R (_sdmmc_storage_execute_cmd_type1_ex c a b e m).
Proof. unfold _sdmmc_storage_execute_cmd_type1_ex, get_rsp1. walk. Qed.
#[local] Hint Resolve cmd_type1_stays : stays.

Lemma app_cmd_stays e m c r : register_req r -> stays R (_sd_storage_execute_app_cmd e m c r).
Proof. unfold _sd_storage_execute_app_cmd, rca_arg. walk. Qed.
#[local] Hint Resolve app_cmd_stays : stays.

Lemma check_status_stays : stays R _sdmmc_storage_check_status.
Proof. unfold _sdmmc_storage_check_status, _sdmmc_storage_get_status, rca_arg. walk. Qed.
#[local] Hint Resolve check_status_stays : stays.

Lemma sd_op_cond_stays fuel v u t : stays R (sd_op_cond_loop fuel v u t).
Proof.
  induction fuel as [|fuel IH]; cbn [sd_op_cond_loop]; [walk|].
  unfold _sd_storage_get_op_cond_once, sd_low_voltage, msleep, _sdmmc_storage_execute_cmd_type1. walk.
Qed.

Lemma rca_loop_stays fuel t : stays R (rca_loop fuel t).
Proof. induction fuel as [|fuel IH]; cbn [rca_loop]; unfold usleep; walk. Qed.
#[local] Hint Resolve sd_op_cond_stays rca_loop_stays : stays.

Lemma sd_switch_stays mode group arg : stays R (_sd_storage_switch SDMMC_UPPER_BUFFER mode group arg).
Proof. unfold _sd_storage_switch, get_rsp1. walk. Qed.
#[local] Hint Resolve sd_switch_stays : stays.

Lemma sd_highspeed_stays t : stays R (_sd_storage_enable_highspeed t SDMMC_UPPER_BUFFER).
Proof. unfold _sd_storage_enable_highspeed. walk. Qed.
#[local] Hint Resolve sd_highspeed_stays : stays.

Lemma sd_set_bus_stays w t : stays R (sd_set_bus w t SDMMC_UPPER_BUFFER).
Proof.
  unfold sd_set_bus, _sd_storage_execute_app_cmd_type1, _sd_storage_enable_uhs_low_volt,
    _sd_storage_enable_hs_high_volt, _sd_storage_get_ssr, _sd_storage_switch_get,
    _sd_storage_set_current_limit, access_and_current, _sdmmc_storage_execute_cmd_type1, rca_arg, get_rsp1.
  walk.
Qed.
#[local] Hint Resolve sd_set_bus_stays : stays.

Lemma get_cid_stays : stays R _sdmmc_storage_get_cid.
Proof. unfold _sdmmc_storage_get_cid, get_rsp4. walk. Qed.
Lemma get_csd_stays : stays R _sdmmc_storage_get_csd.
Proof. unfold _sdmmc_storage_get_csd, get_rsp4, rca_arg. walk. Qed.
Lemma get_scr_stays : stays R (_sd_storage_get_scr SDMMC_UPPER_BUFFER).
Proof. unfold _sd_storage_get_scr, get_rsp1. walk. Qed.
Lemma select_card_stays : stays R _sdmmc_storage_select_card.
Proof. unfold _sdmmc_storage_select_card, _sdmmc_storage_execute_cmd_type1, rca_arg. walk. Qed.
Lemma app_cmd_type1_stays c a b e : stays R (_sd_storage_execute_app_cmd_type1 c a b e).
Proof. unfold _sd_storage_execute_app_cmd_type1, _sdmmc_storage_execute_cmd_type1, rca_arg. walk. Qed.
Lemma init_wait_stays : stays R sdmmc_storage_init_wait_sd.
Proof. unfold sdmmc_storage_init_wait_sd, msleep. walk. Qed.
#[local] Hint Resolve get_cid_stays get_csd_stays get_scr_stays select_card_stays
  app_cmd_type1_stays init_wait_stays : stays.

Lemma send_if_cond_stays : stays R _sd_storage_send_if_cond.
Proof. unfold _sd_storage_send_if_cond. walk. Qed.
Lemma get_op_cond_stays fuel v u : stays R (_sd_storage_get_op_cond fuel v u).
Proof. unfold _sd_storage_get_op_cond. walk. Qed.
Lemma get_rca_stays fuel : stays R (_sd_storage_get_rca fuel).
Proof. unfold _sd_storage_get_rca. walk. Qed.
Lemma wait_clocks_stays n : stays R (wait_clocks n).
Proof. unfold wait_clocks, usleep. walk. Qed.
Lemma go_idle_stays : stays R _sdmmc_storage_go_idle_state.
Proof. unfold _sdmmc_storage_go_idle_state. walk. Qed.
Lemma set_blocklen_stays n : stays R (_sdmmc_storage_set_blocklen n).
Proof. unfold _sdmmc_storage_set_blocklen, _sdmmc_storage_execute_cmd_type1. walk. Qed.
#[local] Hint Resolve send_if_cond_stays get_op_cond_stays get_rca_stays wait_clocks_stays
  go_idle_stays set_blocklen_stays : stays.

(** Relations that do not look at the storage context at all. *)
Lemma init_sd_stays fuel w t :
  (forall f, stays R (upd f)) -> stays R (sdmmc_storage_init_sd fuel w t).
Proof.
  intros Hupd. unfold sdmmc_storage_init_sd. walk.
Qed.

End steps.

#[export] Hint Resolve steps_init steps_clock steps_tuning steps_low_voltage steps_bus_width steps_powersave steps_ms steps_sleep stays_execute steps_execute cmd_type1_stays app_cmd_stays check_status_stays sd_op_cond_stays rca_loop_stays sd_switch_stays sd_highspeed_stays sd_set_bus_stays get_cid_stays get_csd_stays get_scr_stays select_card_stays app_cmd_type1_stays init_wait_stays send_if_cond_stays get_op_cond_stays get_rca_stays wait_clocks_stays go_idle_stays set_blocklen_stays : stays.
#[export] Hint Extern 1 (Steps _) => typeclasses eauto : stays.
#[export] Hint Extern 1 (register_req None) => left; reflexivity : stays.
#[export] Hint Extern 1 (register_req (block_req _ _)) => right; eexists; split; [|reflexivity]; lia : stays.
#[export] Hint Extern 1 (stays _ (upd _)) => apply steps_upd; done : stays.

(** ** The result of the initialisation *)

Section decides.
Context {D : Type} `{SdDriver D}.

Definition keeps_initialized (s s' : card D) : Prop :=
  initialized (storage s') = initialized (storage s).

#[export] Instance keeps_initialized_steps : Steps keeps_initialized.
Proof.
  split.
  - split; [done|]. intros x y z. unfold keeps_initialized. congruence.
  - intros f Hf s. apply Hf.
  - intros a b c d e s. unfold lift. by destruct (drv_init a b c d e (dev s)).
  - intros t s. unfold lift. by destruct (drv_setup_clock t (dev s)).
  - intros t c s. unfold lift. by destruct (drv_tuning t c (dev s)).
  - intros s. unfold lift. by destruct (drv_low_voltage (dev s)).
  - done.
  - done.
  - intros s. unfold get_tmr_ms. by destruct (drv_ms (dev s)).
  - done.
  - intros c r _ s. unfold execute_cmd. by destruct (drv_execute c r (dev s) (ram s)) as [[[? ?] ?] ?].
Qed.

(** From a context that is not initialised, the result is the flag. *)
Definition result {A} (o : outcome A) (f : A -> bool) : bool := match o with Ret x => f x | _ => false end.
Definition decides (m : M (card D) bool) : Prop := forall s,
  initialized (storage s) = false -> initialized (storage (m s).2) = result (m s).1 id.

Lemma decides_bind {A} (m : M (card D) A) k :
  stays keeps_initialized m -> (forall x, decides (k x)) -> decides (m ≫= k).
Proof.
  intros Hm Hk s Hs. specialize (Hm s). unfold mbind, M_bind, keeps_initialized in *.
  destruct (m s) as [[x| |] s1]; simpl in *; [|congruence..]. apply Hk. congruence.
Qed.

Lemma decides_and m k : stays keeps_initialized m -> decides k -> decides (m &? k).
Proof. intros Hm Hk. apply decides_bind; [done|]. intros []; [done|]. by intros s Hs. Qed.

Lemma decides_end : decides (upd (set_initialized true);; mret true).
Proof. by intros s Hs. Qed.

Lemma init_wait_returns (s : card D) : exists s', sdmmc_storage_init_wait_sd s = (Ret tt, s').
Proof.
  unfold sdmmc_storage_init_wait_sd, get_tmr_ms, gets, msleep, lift_, mbind, M_bind.
  destruct (drv_ms (dev s)) as [t d]. simpl. destruct (_ <? 239); eauto.
Qed.

(** C19: [sdmmc_storage_init_sd] marks the storage context initialised exactly when it returns
    success, whatever the card and the controller answer and wherever it stops; a transfer on a
    context that failed to initialise is refused. *)
Theorem init_sd_initialized (fuel : nat) (bus_width type : Z) (s : card D) :
  initialized (storage (sdmmc_storage_init_sd fuel bus_width type s).2) =
    result (sdmmc_storage_init_sd fuel bus_width type s).1 id.
Proof.
  unfold sdmmc_storage_init_sd. destruct (init_wait_returns s) as [s1 E].
  rewrite (bind_run _ _ _ _ _ E). rewrite (bind_run (upd _) _ _ tt (Card storage0 (dev s1) (ram s1)))
    by done.
  set (s2 := Card _ _ _). assert (Hs2 : initialized (storage s2) = false) by done.
  clearbody s2. revert s2 Hs2.
  match goal with |- forall s2, _ -> _ = result (?m s2).1 id => change (decides m) end.
  repeat (apply decides_and; [walk|]). apply decides_end.
Qed.
End decides.

(** A request within the 32 bit address space, of blocks the controller can count. *)
Definition req_ok (q : sdmmc_req_t) : Prop :=
  0 <= r_buf q /\ 0 <= r_blksize q < 4096 /\ 0 <= r_num_sectors q /\
  r_buf q + r_blksize q * r_num_sectors q <= 4294967296.

(** ** Controller and card as a store of bytes

    [disk d a] is byte [a] of the card, 512 bytes to a sector.  The laws are
    what a block device promises: only a write command changes the card, a
    transfer touches only its own buffer, and a transfer that reports success
    has moved all its blocks.  A transfer that fails may have moved some. *)
Class SdLaws (D : Type) `{SdDriver D} := {
  disk : D -> Z -> Z;
  disk_init a b c d e x n : disk (drv_init a b c d e x).2 n = disk x n;
  disk_end x n : disk (drv_end x) n = disk x n;
  disk_stop x n : disk (drv_stop x) n = disk x n;
  disk_clock t x n : disk (drv_setup_clock t x).2 n = disk x n;
  disk_tuning t c x n : disk (drv_tuning t c x).2 n = disk x n;
  disk_low_voltage x n : disk (drv_low_voltage x).2 n = disk x n;
  disk_bus_width w x n : disk (drv_set_bus_width w x) n = disk x n;
  disk_powersave p x n : disk (drv_powersave p x) n = disk x n;
  disk_inserted x n : disk (drv_inserted x).2 n = disk x n;
  disk_ms x n : disk (drv_ms x).2 n = disk x n;
  disk_sleep u x n : disk (drv_usleep u x) n = disk x n;
  exec_none c d m ok r d' m' :
    drv_execute c None d m = (ok, r, d', m') ->
    (forall n, disk d' n = disk d n) /\ (forall a, ld8 m' a = ld8 m a);
  exec_read c q d m ok r d' m' :
    req_ok q -> drv_execute c (Some q) d m = (ok, r, d', m') -> r_is_write q = false ->
    (forall n, disk d' n = disk d n) /\
    (forall a, ~ (r_buf q <= a < r_buf q + r_blksize q * r_num_sectors q) -> ld8 m' a = ld8 m a);
  exec_read_data sector buf n d m r d' m' :
    0 < n <= 0xFFFF -> 0 <= sector < 4294967296 -> 0 <= buf -> buf + 512 * n <= 4294967296 ->
    drv_execute (mk_cmd 18 sector 1 false) (Some (mk_req buf 512 n false true true)) d m
      = (true, r, d', m') ->
    r = Some n /\ forall i, 0 <= i < 512 * n -> ld8 m' (buf + i) = disk d (512 * sector + i);
  exec_write sector buf n d m ok r d' m' :
    0 < n <= 0xFFFF -> 0 <= sector < 4294967296 -> 0 <= buf -> buf + 512 * n <= 4294967296 ->
    drv_execute (mk_cmd 25 sector 1 false) (Some (mk_req buf 512 n true true true)) d m
      = (ok, r, d', m') ->
    (forall a, ld8 m' a = ld8 m a) /\
    (forall a, ~ (512 * sector <= a < 512 * (sector + n)) -> disk d' a = disk d a) /\
    (ok = true -> r = Some n /\
       forall i, 0 <= i < 512 * n -> disk d' (512 * sector + i) = ld8 m (buf + i))
}.

Section laws.
Context {D : Type} `{SdLaws D}.

(** The card is as before, and so is the memory but for the block in the upper
    buffer that card registers are read to. *)
Definition frame (s s' : card D) : Prop :=
  (forall n, disk (dev s') n = disk (dev s) n) /\
  (forall a, ~ (SDMMC_UPPER_BUFFER <= a < SDMMC_UPPER_BUFFER + 512) -> ld8 (ram s') a = ld8 (ram s) a).

#[export] Instance frame_preorder : PreOrder frame.
Proof.
  split.
  - by split.
  - intros x y z [H1 H2] [H3 H4]. split; intros; [by rewrite H3|by rewrite H4, H2].
Qed.

Lemma frame_lift f : (forall x n, disk (f x).2 n = disk x n) -> stays frame (lift f).
Proof. intros Hf s. unfold lift. specialize (Hf (dev s)). destruct (f (dev s)). by split. Qed.

Lemma frame_lift_ f : (forall x n, disk (f x) n = disk x n) -> stays frame (lift_ f).
Proof. intros Hf s. split; [intros n; apply Hf|done]. Qed.

#[export] Instance frame_steps : Steps frame.
Proof.
  split; try apply _.
  - intros f _ s. by split.
  - intros. apply frame_lift. intros. apply disk_init.
  - intros. apply frame_lift. intros. apply disk_clock.
  - intros. apply frame_lift. intros. apply disk_tuning.
  - apply frame_lift. intros. apply disk_low_voltage.
  - intros. apply frame_lift_. intros. apply disk_bus_width.
  - intros. apply frame_lift_. intros. apply disk_powersave.
  - intros s. unfold get_tmr_ms. pose proof (disk_ms (dev s)). destruct (drv_ms (dev s)). by split.
  - intros. apply frame_lift_. intros. apply disk_sleep.
  - intros c r Hr s. unfold execute_cmd.
    destruct (drv_execute c r (dev s) (ram s)) as [[[ok n] d] m] eqn:E. simpl.
    destruct Hr as [-> | (k & Hk & ->)].
    + apply exec_none in E as [? ?]. by split.
    + apply exec_read in E as [Hd Hm]; [|unfold req_ok, SDMMC_UPPER_BUFFER; simpl; lia|done].
      split; [done|]. simpl in *. intros a Ha. apply Hm. lia.
Qed.

Lemma init_sd_frame fuel w t : stays frame (sdmmc_storage_init_sd fuel w t).
Proof. apply init_sd_stays; [apply _|]. intros f s. by split. Qed.

Lemma storage_end_frame : stays frame sdmmc_storage_end.
Proof.
  unfold sdmmc_storage_end. walk; [apply frame_lift_; intros; apply disk_end|].
  intros s. by split.
Qed.
End laws.

(** On an eight bit bus at 1.8 V the HS200 mode is entered whatever the card
    supports and whatever timing was asked for, short of HS400: the test of the
    bus width is not joined with the tests of the card type and timing. *)
Lemma highspeed_8bit_unconditional {D} `{SdDriver D} (c : card D) (card_type type : Z) :
  drv_io_power (dev c) = SDMMC_POWER_1_8 -> drv_bus_width (dev c) = BUS_WIDTH_8 ->
  type <> TIMING_MMC_HS400 ->
  _mmc_storage_enable_highspeed card_type type c = _mmc_storage_enable_HS200 c.
Proof.
  intros Hp Hw Ht. unfold _mmc_storage_enable_highspeed.
  rewrite (bind_run (gets _) _ c SDMMC_POWER_1_8 c) by (unfold gets; by rewrite Hp).
  rewrite (bind_run (gets _) _ c BUS_WIDTH_8 c) by (unfold gets; by rewrite Hw).
  rewrite (proj2 (Z.eqb_neq type TIMING_MMC_HS400)) by done. by rewrite andb_false_r.
Qed.
