(* ===== verification/SdRw.v ===== *)
(** * SdRw

    Sector transfers of bdk/storage/sdmmc.c on top of the card protocol
    ([Sdmmc]) and of the front end that reinitialises the card in a slower
    mode ([NxSd]): the two files call each other. *)

From S2P Require Import Prelude Mem FatFs NxSd SdReg Sdmmc.

(** The protocol is the card driver of the front end.  [fuel] bounds the
    rounds in which a card may report that it is busy.  The source's loops end
    by a timeout, so that an initialisation there always returns; here one that
    would take more than [fuel] rounds counts as failed.  The theorems below
    hold for every [fuel]: a run of the code is the run of the model for any
    [fuel] at least the number of rounds it makes. *)
Definition card_hw {D} `{SdDriver D} (fuel : nat) : SdHw (card D) := {|
  storage_init_sd w t c :=
    let '(o, c') := sdmmc_storage_init_sd fuel w t c in (result o id, c');
  storage_end c := (sdmmc_storage_end c).2;
  sd_inserted c :=
    let '(b, d) := drv_inserted (dev c) in (b, Card (storage c) d (ram c))
|}.

Section SdRw.
Context {D F : Type} `{SdDriver D}.
(** The rounds of the loops inside the initialisation. *)
Context (busy : nat).

#[local] Instance hw : SdHw (card D) := card_hw busy.
Implicit Types s : sd (card D) F.

Definition on_card {A} (m : M (card D) A) : M (sd (card D) F) A := fun s =>
  let '(o, c) := m (sd_hw s) in (o, with_hw s c).

(** The reinitialisation after five failed attempts. *)
Definition reinit (first_reinit : bool) : M (sd (card D) F) bool := fun s =>
  let s := sd_error_count_increment SD_ERROR_RW_FAIL s in
  if first_reinit then
    match sd_initialize 6 true s with
    | Some (res, s) => (Ret res, s)
    | None => (NoFuel, s)
    end
  else
    let '(res, s) := sd_init_retry true s in
    (Ret res, if res then s else sd_error_count_increment SD_ERROR_INIT_FAIL s).

(** The loops of [_sdmmc_storage_readwrite], entered at the transfer of the
    next chunk: [left] sectors from [off] on, to or from [bbuf]. *)
Fixpoint rw_loop (fuel : nat) (is_write : bool) (sector num_sectors buf : Z)
    (first_reinit : bool) (retries blkcnt off left bbuf : Z) : M (sd (card D) F) bool :=
  match fuel with
  | O => nofuel
  | S fuel =>
      p ← on_card (_sdmmc_storage_readwrite_ex blkcnt off (Z.min left 0xFFFF) bbuf is_write);
      let '(ok, blkcnt) := p in
      if (ok : bool) then
        let off := u32 (off + blkcnt) in
        let left := u32 (left - blkcnt) in
        let bbuf := u32 (bbuf + 512 * blkcnt) in
        if left =? 0 then mret true
        else rw_loop fuel is_write sector num_sectors buf first_reinit 5 0 off left bbuf
      else
        let retries := u32 (retries - 1) in
        modify (sd_error_count_increment SD_ERROR_RW_RETRY);;
        on_card (msleep 50);;
        if negb (retries =? 0) then
          rw_loop fuel is_write sector num_sectors buf first_reinit retries blkcnt off left bbuf
        else
          id ← on_card (gets (fun c => drv_id (dev c)));
          if id =? SDMMC_1 then
            res ← reinit first_reinit;
            if (res : bool)
            then rw_loop fuel is_write sector num_sectors buf false 3 0 sector num_sectors buf
            else mret false
          else mret false
  end.

Definition _sdmmc_storage_readwrite (fuel : nat) (sector num_sectors buf : Z) (is_write : bool)
    : M (sd (card D) F) bool := fun s =>
  if negb (initialized (storage (sd_hw s))) then (Ret false, s)
  else if num_sectors =? 0 then (Ret true, s)
  else rw_loop fuel is_write sector num_sectors buf true 5 0 sector num_sectors buf s.

(** The buffer is in DRAM and aligned for DMA. *)
Definition dma_buf (buf : Z) : bool := (DRAM_START <=? buf) && (buf mod 8 =? 0).

Definition copy (dst src len : Z) : M (card D) unit := fun c =>
  (Ret tt, Card (storage c) (dev c) (memcpy (ram c) dst src (Z.to_nat len))).

Definition sdmmc_storage_read (fuel : nat) (sector num_sectors buf : Z) : M (sd (card D) F) bool :=
  if dma_buf buf then _sdmmc_storage_readwrite fuel sector num_sectors buf false
  else if SDMMC_UP_BUF_SZ / 512 <? num_sectors then mret false
  else
    ok ← _sdmmc_storage_readwrite fuel sector num_sectors SDMMC_UPPER_BUFFER false;
    if (ok : bool)
    then on_card (copy buf SDMMC_UPPER_BUFFER (u32 (512 * num_sectors)));; mret true
    else mret false.

Definition sdmmc_storage_write (fuel : nat) (sector num_sectors buf : Z) : M (sd (card D) F) bool :=
  if dma_buf buf then _sdmmc_storage_readwrite fuel sector num_sectors buf true
  else if SDMMC_UP_BUF_SZ / 512 <? num_sectors then mret false
  else
    on_card (copy SDMMC_UPPER_BUFFER buf (u32 (512 * num_sectors)));;
    _sdmmc_storage_readwrite fuel sector num_sectors SDMMC_UPPER_BUFFER true.

(** ** bootloader/libs/fatfs/diskio.c

    The functions FatFs calls; there is one drive. *)

Definition RES_OK : Z := 0.
Definition RES_ERROR : Z := 1.

Definition disk_status (pdrv : Z) : Z := 0.
Definition disk_initialize (pdrv : Z) : Z := 0.
Definition disk_read (fuel : nat) (pdrv buff sector count : Z) : M (sd (card D) F) Z :=
  ok ← sdmmc_storage_read fuel sector count buff;
  mret (if (ok : bool) then RES_OK else RES_ERROR).
Definition disk_write (fuel : nat) (pdrv buff sector count : Z) : M (sd (card D) F) Z :=
  ok ← sdmmc_storage_write fuel sector count buff;
  mret (if (ok : bool) then RES_OK else RES_ERROR).
Definition disk_ioctl (pdrv cmd buff : Z) : Z := RES_OK.

End SdRw.

(** ** Properties *)

Section laws.
Context {D F : Type} `{SdLaws D}.
Context (busy : nat).
#[local] Instance hw' : SdHw (card D) := card_hw busy.
Implicit Types s : sd (card D) F.

(** *** The front end keeps the card and the memory *)

Lemma hw_init_frame w t (c : card D) : frame c (storage_init_sd w t c).2.
Proof.
  pose proof (init_sd_frame busy w t c) as Hf. simpl.
  by destruct (sdmmc_storage_init_sd busy w t c).
Qed.

Lemma hw_end_frame (c : card D) : frame c (storage_end c).
Proof. apply storage_end_frame. Qed.

Lemma hw_inserted_frame (c : card D) : frame c (sd_inserted c).2.
Proof.
  simpl. pose proof (disk_inserted (dev c)). destruct (drv_inserted (dev c)). by split.
Qed.

Definition sframe s s' : Prop := frame (sd_hw s) (sd_hw s').
#[local] Instance sframe_preorder : PreOrder sframe.
Proof.
  split; [intros s; unfold sframe; reflexivity|].
  intros x y z Hs1 Hs2. unfold sframe in *. by etransitivity.
Qed.

Lemma error_count_hw t s : sd_hw (sd_error_count_increment t s) = sd_hw s.
Proof. unfold sd_error_count_increment. destruct (sd_errors s) as [[? ?] ?]. by zcases. Qed.
Lemma error_count_mode t s : sd_mode (sd_error_count_increment t s) = sd_mode s.
Proof. unfold sd_error_count_increment. destruct (sd_errors s) as [[? ?] ?]. by zcases. Qed.

Lemma sd_init_retry_frame pc s : sframe s (sd_init_retry pc s).2.
Proof.
  unfold sd_init_retry. set (s0 := if pc then _ else s).
  assert (Hs0 : sframe s s0) by (subst s0; destruct pc; [apply hw_end_frame|reflexivity]).
  assert (Hi : forall w t s1, sframe s0 s1 ->
    sframe s (let '(r, h) := storage_init_sd w t (sd_hw s1) in (r, with_hw s1 h)).2).
  { intros w t s1 Hs1. pose proof (hw_init_frame w t (sd_hw s1)) as Hf.
    destruct (storage_init_sd w t (sd_hw s1)) as [r h]. simpl.
    etransitivity; [exact Hs0|]. etransitivity; [exact Hs1|exact Hf]. }
  zcases; [exact Hs0|..]; apply Hi; unfold sframe; simpl; reflexivity.
Qed.

Lemma init_loop_frame fuel : forall res s ok s',
  init_loop fuel res s = Some (ok, s') -> sframe s s'.
Proof.
  induction fuel as [|fuel IH]; intros res s ok s' E; [done|]. simpl in E.
  destruct res; simpl in E; [|by simplify_eq].
  pose proof (hw_inserted_frame (sd_hw s)) as Hi. simpl in Hi.
  destruct (drv_inserted (dev (sd_hw s))) as [ins d]. simpl in Hi, E.
  destruct ins; simpl in E.
  2: { simplify_eq. unfold sframe. simpl. etransitivity; [exact Hi|apply hw_end_frame]. }
  destruct (sd_errors s) as [[e0 e1] e2]. set (s1 := with_errors _ _) in E.
  assert (Hs1 : sframe s s1) by exact Hi.
  destruct (sd_mode s =? SD_INIT_FAIL).
  - simplify_eq. etransitivity; [exact Hs1|apply hw_end_frame].
  - pose proof (sd_init_retry_frame true s1) as Hr. destruct (sd_init_retry true s1) as [r s2].
    etransitivity; [exact Hs1|]. etransitivity; [exact Hr|by eapply IH].
Qed.

Lemma sd_initialize_frame fuel pc s ok s' : sd_initialize fuel pc s = Some (ok, s') -> sframe s s'.
Proof.
  unfold sd_initialize. set (s0 := if pc then _ else s).
  assert (Hs0 : sframe s s0) by (subst s0; destruct pc; [apply hw_end_frame|reflexivity]).
  pose proof (sd_init_retry_frame false s0) as Hr. destruct (sd_init_retry false s0) as [r s1].
  intros E%init_loop_frame. etransitivity; [exact Hs0|]. by etransitivity.
Qed.

(** The counter of transfers given up, [sd_errors[SD_ERROR_RW_FAIL]]. *)
Definition rw_fails s : Z := (sd_errors s).1.2.

Lemma error_count_fails t s : t <> SD_ERROR_RW_FAIL -> rw_fails (sd_error_count_increment t s) = rw_fails s.
Proof.
  intros Ht. unfold rw_fails, sd_error_count_increment. destruct (sd_errors s) as [[? ?] ?] eqn:E.
  unfold SD_ERROR_RW_FAIL in *. zcases; simpl; rewrite ?E; done.
Qed.

Lemma sd_init_retry_errors pc s : sd_errors (sd_init_retry pc s).2 = sd_errors s.
Proof.
  unfold sd_init_retry. set (s0 := if pc then _ else s).
  assert (Hs0 : sd_errors s0 = sd_errors s) by (subst s0; by destruct pc).
  assert (Hi : forall w t s1, sd_errors s1 = sd_errors s ->
    sd_errors (let '(r, h) := storage_init_sd w t (sd_hw s1) in (r, with_hw s1 h)).2 = sd_errors s).
  { intros w t s1 Hs1. by destruct (storage_init_sd w t (sd_hw s1)). }
  zcases; [exact Hs0|..]; by apply Hi.
Qed.

Lemma init_loop_fails fuel : forall res s ok s',
  init_loop fuel res s = Some (ok, s') -> rw_fails s' = rw_fails s.
Proof.
  induction fuel as [|fuel IH]; intros res s ok s' E; [done|]. simpl in E.
  destruct res; simpl in E; [|by simplify_eq].
  destruct (drv_inserted (dev (sd_hw s))) as [ins d].
  destruct ins; simpl in E; [|by simplify_eq].
  destruct (sd_errors s) as [[e0 e1] e2] eqn:Ee. set (s1 := with_errors _ _) in E.
  assert (Hs1 : rw_fails s1 = rw_fails s) by (unfold rw_fails; rewrite Ee; done).
  destruct (sd_mode s =? SD_INIT_FAIL); [by simplify_eq|].
  pose proof (sd_init_retry_errors true s1) as Hr. destruct (sd_init_retry true s1) as [r s2].
  apply IH in E. rewrite E, <- Hs1. clearbody s1. unfold rw_fails. cbn [snd] in Hr. by rewrite Hr.
Qed.

Lemma sd_initialize_fails fuel pc s ok s' :
  sd_initialize fuel pc s = Some (ok, s') -> rw_fails s' = rw_fails s.
Proof.
  unfold sd_initialize. set (s0 := if pc then _ else s).
  assert (Hs0 : rw_fails s0 = rw_fails s) by (subst s0; by destruct pc).
  pose proof (sd_init_retry_errors false s0) as Hr. destruct (sd_init_retry false s0) as [r s1].
  intros E%init_loop_fails. rewrite E, <- Hs0. clearbody s0. unfold rw_fails. cbn [snd] in Hr. by rewrite Hr.
Qed.

(** The reinitialisation returns, counted as a transfer given up; when it succeeds, a slower mode than before
    is left to try at most. *)
Lemma reinit_spec first s : 0 <= sd_mode s <= 4 -> (first = false -> 0 < sd_mode s) ->
  exists ok s', reinit busy first s = (Ret ok, s') /\ sframe s s' /\
    rw_fails s' = u16 (rw_fails s + 1) /\
    (ok = true -> 0 < sd_mode s' <= (if first then sd_mode s else sd_mode s - 1)).
Proof.
  intros Hm Hf. unfold reinit. set (s0 := sd_error_count_increment SD_ERROR_RW_FAIL s).
  assert (Hm0 : sd_mode s0 = sd_mode s) by apply error_count_mode.
  assert (Hs0 : sframe s s0) by (unfold sframe, s0; rewrite error_count_hw; reflexivity).
  assert (Hf0 : rw_fails s0 = u16 (rw_fails s + 1))
    by (unfold rw_fails, s0, sd_error_count_increment; by destruct (sd_errors s) as [[? ?] ?]).
  destruct first.
  - destruct (sd_initialize_spec true s0) as (ok & s' & E & _ & _ & _ & Hok & _); [lia|].
    exists ok, s'. unfold hw', hw in *. rewrite E. split; [done|].
    split; [etransitivity; [exact Hs0|by eapply sd_initialize_frame]|].
    split; [rewrite <- Hf0; by eapply sd_initialize_fails|]. rewrite <- Hm0. apply Hok.
  - pose proof (sd_init_retry_frame true s0) as Hr. specialize (Hf eq_refl).
    pose proof (sd_init_retry_errors true s0) as He.
    unfold hw', hw in *. destruct (sd_init_retry true s0) as [r s1] eqn:E.
    assert (Hf1 : rw_fails s1 = u16 (rw_fails s + 1)) by (unfold rw_fails in *; simpl in He; congruence).
    apply sd_init_retry_mode in E as (Emode & Hpos & _); [|lia|lia].
    do 2 eexists. split; [done|]. split; [|split].
    + etransitivity; [exact Hs0|]. etransitivity; [exact Hr|].
      destruct r; [reflexivity|]. unfold sframe. rewrite error_count_hw. reflexivity.
    + destruct r; [done|]. by rewrite error_count_fails.
    + intros ->. specialize (Hpos eq_refl). lia.
Qed.

(** *** One transfer *)

Lemma get_status_quiet (c : card D) : exists b c',
  _sdmmc_storage_get_status 0 c = (Ret b, c') /\
  (forall n, disk (dev c') n = disk (dev c) n) /\ (forall a, ld8 (ram c') a = ld8 (ram c) a).
Proof.
  unfold _sdmmc_storage_get_status, rca_arg, _sdmmc_storage_execute_cmd_type1_ex, execute, execute_cmd,
    and_then, get_rsp1, gets, mbind, M_bind. simpl.
  destruct (drv_execute _ None (dev c) (ram c)) as [[[ok n] d] m] eqn:E.
  apply exec_none in E. destruct ok; simpl; eauto.
Qed.

Lemma read_ex_spec (c : card D) blkcnt sector n buf : 0 < n <= 0xFFFF ->
  0 <= sector < 4294967296 -> 0 <= buf -> buf + 512 * n <= 4294967296 ->
  exists ok b c', _sdmmc_storage_readwrite_ex blkcnt sector n buf false c = (Ret (ok, b), c') /\
    (forall a, disk (dev c') a = disk (dev c) a) /\
    (forall a, ~ (buf <= a < buf + 512 * n) -> ld8 (ram c') a = ld8 (ram c) a) /\
    (ok = true -> b = n /\
       forall i, 0 <= i < 512 * n -> ld8 (ram c') (buf + i) = disk (dev c) (512 * sector + i)).
Proof.
  intros Hn Hs Hb Hbn. unfold _sdmmc_storage_readwrite_ex, execute_cmd, mbind at 1, M_bind at 1.
  destruct (drv_execute _ _ (dev c) (ram c)) as [[[ok r] d] m] eqn:E. cbv zeta iota beta.
  assert (Hq : req_ok (mk_req buf 512 n false true true)) by (unfold req_ok; simpl; lia).
  pose proof (exec_read _ _ _ _ _ _ _ _ Hq E eq_refl) as [Hd Hm]. simpl in Hm.
  destruct ok.
  - apply exec_read_data in E as [-> Hdata]; [|done..]. simpl. do 3 eexists. split; [done|]. simpl. auto.
  - unfold lift_. rewrite (bind_run _ _ _ tt (Card (storage c) (drv_stop d) m)) by done.
    destruct (get_status_quiet (Card (storage c) (drv_stop d) m)) as (b & c' & E' & Hd' & Hm').
    rewrite (bind_run _ _ _ _ _ E'). do 3 eexists. split; [done|]. simpl in *.
    split; [|split; [|done]].
    + intros a. by rewrite Hd', disk_stop.
    + intros a Ha. rewrite Hm'. auto.
Qed.

Lemma write_ex_spec (c : card D) blkcnt sector n buf : 0 < n <= 0xFFFF ->
  0 <= sector < 4294967296 -> 0 <= buf -> buf + 512 * n <= 4294967296 ->
  exists ok b c', _sdmmc_storage_readwrite_ex blkcnt sector n buf true c = (Ret (ok, b), c') /\
    (forall a, ld8 (ram c') a = ld8 (ram c) a) /\
    (forall a, ~ (512 * sector <= a < 512 * (sector + n)) -> disk (dev c') a = disk (dev c) a) /\
    (ok = true -> b = n /\
       forall i, 0 <= i < 512 * n -> disk (dev c') (512 * sector + i) = ld8 (ram c) (buf + i)).
Proof.
  intros Hn Hs Hb Hbn. unfold _sdmmc_storage_readwrite_ex, execute_cmd, mbind at 1, M_bind at 1.
  destruct (drv_execute _ _ (dev c) (ram c)) as [[[ok r] d] m] eqn:E. cbv zeta iota beta.
  apply exec_write in E as (Hm & Hd & Hok); [|done..].
  destruct ok.
  - destruct (Hok eq_refl) as [-> ?]. simpl. do 3 eexists. split; [done|]. simpl. auto.
  - unfold lift_. rewrite (bind_run _ _ _ tt (Card (storage c) (drv_stop d) m)) by done.
    destruct (get_status_quiet (Card (storage c) (drv_stop d) m)) as (b & c' & E' & Hd' & Hm').
    rewrite (bind_run _ _ _ _ _ E'). do 3 eexists. split; [done|]. simpl in *.
    split; [|split; [|done]].
    + intros a. by rewrite Hm'.
    + intros a Ha. rewrite Hd', disk_stop. auto.
Qed.
(** *** The transfer loop *)

(** The card and the memory are the same. *)
Definition same_card s s' : Prop :=
  (forall n, disk (dev (sd_hw s')) n = disk (dev (sd_hw s)) n) /\
  (forall a, ld8 (ram (sd_hw s')) a = ld8 (ram (sd_hw s)) a).

Lemma msleep_same ms s : exists s', on_card (msleep ms) s = (Ret tt, s') /\ same_card s s' /\
  sd_mode s' = sd_mode s /\ rw_fails s' = rw_fails s.
Proof.
  eexists. split; [reflexivity|]. split; [|by split].
  split; intros; simpl; [apply disk_sleep|done].
Qed.

Section loop.
Context (is_write : bool) (sector num buf : Z).
Context (Hsec : 0 <= sector) (Hnum : 0 < num) (Hend : sector + num <= 4294967296).
Context (Hbuf : 0 <= buf) (Hbend : buf + 512 * num <= 4294967296).

(** [I f k s]: the first [k] sectors are transferred, without a
    reinitialisation of the card so far if [f] is set.  [K s]: what holds after
    a transfer that was given up, too. *)
Context (I : bool -> Z -> sd (card D) F -> Prop) (K : sd (card D) F -> Prop).
Context (Istep : forall f k b s, 0 <= k < num -> I f k s ->
  let n := Z.min (num - k) 0xFFFF in
  exists ok b' c',
    _sdmmc_storage_readwrite_ex b (sector + k) n (buf + 512 * k) is_write (sd_hw s) = (Ret (ok, b'), c') /\
    I f k (with_hw s c') /\ (ok = true -> b' = n /\ I f (k + n) (with_hw s c'))).
Context (Isame : forall f k s s', same_card s s' -> sd_mode s' = sd_mode s ->
  rw_fails s' = rw_fails s -> I f k s -> I f k s').
Context (Ireinit : forall (f : bool) k s s', sframe s s' -> rw_fails s' = u16 (rw_fails s + 1) ->
  0 < sd_mode s' <= (if f then sd_mode s else sd_mode s - 1) -> sd_mode s <= 4 -> I f k s -> I false 0 s').
Context (IK : forall f k s s', sframe s s' -> I f k s -> K s').

(** Attempts that can still be made: [r] reinitialisations, each of which
    starts the transfer again. *)
Definition attempts (r left retries : Z) : Z := r * (5 * num + 4) + 5 * left + retries.
Definition reinits (first : bool) (mode : Z) : Z := if first then 5 else mode.

Lemma rw_loop_spec fuel : forall first retries b k s,
  0 <= k < num -> 1 <= retries <= 5 -> 0 <= sd_mode s <= 4 -> (first = false -> 0 < sd_mode s) ->
  attempts (reinits first (sd_mode s)) (num - k) retries <= Z.of_nat fuel ->
  I first k s ->
  exists ok s',
    rw_loop busy fuel is_write sector num buf first retries b (sector + k) (num - k) (buf + 512 * k) s
      = (Ret ok, s') /\
    K s' /\ (ok = true -> exists f, I f num s').
Proof.
  induction fuel as [|fuel IH]; intros first retries b k s Hk Hr Hm Hf Hfuel HI.
  { unfold attempts, reinits in Hfuel. destruct first; nia. }
  cbn [rw_loop].
  destruct (Istep first k b s Hk HI) as (ok & b' & c' & E & HI1 & Hok).
  rewrite (bind_run (on_card _) _ s (ok, b') (with_hw s c')) by (unfold on_card; by rewrite E).
  set (s1 := with_hw s c') in *. set (n := Z.min (num - k) 0xFFFF) in *.
  assert (Hn : 0 < n <= num - k) by lia.
  destruct ok.
  - destruct (Hok eq_refl) as [-> HI2].
    rewrite (u32_id (num - k - n)) by lia.
    destruct (Z.eqb_spec (num - k - n) 0) as [Ez|Ez].
    + do 2 eexists. split; [done|]. replace (k + n) with num in HI2 by lia.
      split; [|eauto]. eapply IK; [|exact HI2]. reflexivity.
    + rewrite !u32_id by lia.
      replace (sector + k + n) with (sector + (k + n)) by lia.
      replace (num - k - n) with (num - (k + n)) by lia.
      replace (buf + 512 * k + 512 * n) with (buf + 512 * (k + n)) by lia.
      apply IH; [lia|lia|done|done| |done].
      unfold attempts, reinits in *. change (sd_mode s1) with (sd_mode s). destruct first; nia.
  - clear Hok. set (s2 := sd_error_count_increment SD_ERROR_RW_RETRY s1).
    rewrite (bind_run (modify _) _ s1 tt s2) by done.
    destruct (msleep_same 50 s2) as (s3 & E3 & Hs3 & Hm3 & Hfl3). rewrite (bind_run _ _ _ _ _ E3).
    assert (Hm3' : sd_mode s3 = sd_mode s) by (rewrite Hm3; unfold s2; by rewrite error_count_mode).
    assert (HI3 : I first k s3).
    { eapply Isame; [exact Hs3|done|exact Hfl3|]. eapply Isame; [| | |exact HI1]; unfold s2.
      - split; intros; by rewrite error_count_hw.
      - apply error_count_mode.
      - by apply error_count_fails. }
    rewrite (u32_id (retries - 1)) by lia.
    destruct (Z.eqb_spec (retries - 1) 0) as [Er|Er]; cbn [negb].
    2: { apply IH; [done|lia|lia|rewrite Hm3'; done| |done].
         rewrite Hm3'. unfold attempts in *. lia. }
    rewrite (bind_run (on_card _) _ s3 (drv_id (dev (sd_hw s3))) (with_hw s3 (sd_hw s3))) by done.
    assert (HI4 : I first k (with_hw s3 (sd_hw s3))) by (eapply Isame; [..|exact HI3]; done).
    destruct (drv_id (dev (sd_hw s3)) =? SDMMC_1).
    2: { do 2 eexists. split; [done|]. split; [|done]. eapply IK; [|exact HI4]. reflexivity. }
    destruct (reinit_spec first (with_hw s3 (sd_hw s3))) as (ok & s4 & E4 & Hs4 & Hfl4 & Hok4).
    { change (sd_mode (with_hw s3 (sd_hw s3))) with (sd_mode s3). lia. }
    { change (sd_mode (with_hw s3 (sd_hw s3))) with (sd_mode s3). rewrite Hm3'. done. }
    rewrite (bind_run _ _ _ _ _ E4).
    change (sd_mode (with_hw s3 (sd_hw s3))) with (sd_mode s3) in Hok4.
    destruct ok; [|do 2 eexists; split; [done|]; split; [by eapply IK|done]]. specialize (Hok4 eq_refl).
    assert (HI0 : I false 0 s4)
      by (eapply Ireinit; [exact Hs4|exact Hfl4|exact Hok4|cbn; lia|exact HI4]).
    replace (rw_loop busy fuel is_write sector num buf false 3 0 sector num buf)
      with (rw_loop (F:=F) busy fuel is_write sector num buf false 3 0 (sector + 0) (num - 0) (buf + 512 * 0))
      by (f_equal; lia).
    apply IH; [lia|lia|destruct first; lia|intros; lia| |done].
    unfold attempts, reinits in *. destruct first; nia.
Qed.
End loop.
End laws.

Section correct.
Context {D F : Type} `{SdLaws D}.
Context (busy : nat).
Implicit Types s : sd (card D) F.

(** The rounds of the transfer loop: for each sector five attempts, once for
    each of the reinitialisations. *)
Definition rw_fuel (num : Z) : nat := Z.to_nat (30 * num + 25).

Definition in_upper (a : Z) : Prop := SDMMC_UPPER_BUFFER <= a < SDMMC_UPPER_BUFFER + 512.

Lemma rw_fuel_enough num : 0 < num ->
  attempts num (reinits true 0) (num - 0) 5 <= Z.of_nat (rw_fuel num).
Proof. intros. unfold attempts, reinits, rw_fuel. lia. Qed.

Lemma readwrite_run fuel sector num buf w s :
  initialized (storage (sd_hw s)) = true -> 0 < num ->
  _sdmmc_storage_readwrite busy fuel sector num buf w s =
    rw_loop busy fuel w sector num buf true 5 0 (sector + 0) (num - 0) (buf + 512 * 0) s.
Proof.
  intros Hi Hn. unfold _sdmmc_storage_readwrite. rewrite Hi. cbn [negb].
  rewrite (proj2 (Z.eqb_neq num 0)) by lia. do 2 f_equal; lia.
Qed.

Lemma readwrite_read sector num buf s :
  initialized (storage (sd_hw s)) = true -> 0 <= sd_mode s <= 4 ->
  0 <= sector -> 0 < num -> sector + num <= 4294967296 ->
  0 <= buf -> buf + 512 * num <= 4294967296 ->
  exists ok s', _sdmmc_storage_readwrite busy (rw_fuel num) sector num buf false s = (Ret ok, s') /\
    (forall a, disk (dev (sd_hw s')) a = disk (dev (sd_hw s)) a) /\
    (forall a, ~ (buf <= a < buf + 512 * num) -> ~ in_upper a ->
       ld8 (ram (sd_hw s')) a = ld8 (ram (sd_hw s)) a) /\
    (ok = true -> forall i, 0 <= i < 512 * num ->
       ld8 (ram (sd_hw s')) (buf + i) = disk (dev (sd_hw s)) (512 * sector + i)).
Proof.
  intros Hi Hm Hsec Hnum Hend Hbuf Hbend. rewrite readwrite_run by done.
  pose (K (t : sd (card D) F) :=
    (forall a, disk (dev (sd_hw t)) a = disk (dev (sd_hw s)) a) /\
    (forall a, ~ (buf <= a < buf + 512 * num) -> ~ in_upper a ->
       ld8 (ram (sd_hw t)) a = ld8 (ram (sd_hw s)) a)).
  pose (I (f : bool) k (t : sd (card D) F) :=
    (forall a, disk (dev (sd_hw t)) a = disk (dev (sd_hw s)) a) /\
    (forall a, ~ (buf <= a < buf + 512 * num) -> ~ in_upper a ->
       ld8 (ram (sd_hw t)) a = ld8 (ram (sd_hw s)) a) /\
    (forall i, 0 <= i < 512 * k -> ld8 (ram (sd_hw t)) (buf + i) = disk (dev (sd_hw s)) (512 * sector + i))).
  destruct (rw_loop_spec busy false sector num buf Hsec Hnum Hend Hbuf Hbend I K) with
    (fuel := rw_fuel num) (first := true) (retries := 5) (b := 0) (k := 0) (s := s)
    as (ok & s' & E & (HI1 & HI2) & Hok); try lia; try done.
  - intros f k b t Hk (Hd & Hmem & Hdone) n.
    destruct (read_ex_spec (sd_hw t) b (sector + k) n (buf + 512 * k)) as (ok & b' & c' & E & Hd' & Hm' & Hok);
      [subst n; lia..|].
    assert (Hfr : forall a, ~ (buf <= a < buf + 512 * num) -> ~ in_upper a ->
      ld8 (ram c') a = ld8 (ram (sd_hw s)) a).
    { intros a Ha Hu. rewrite Hm' by (subst n; lia). by apply Hmem. }
    assert (Hold : forall i, 0 <= i < 512 * k ->
      ld8 (ram c') (buf + i) = disk (dev (sd_hw s)) (512 * sector + i)).
    { intros i Hi'. rewrite Hm' by lia. by apply Hdone. }
    exists ok, b', c'. split; [done|]. split.
    + split; [|split]; simpl; [intros a; by rewrite Hd'|done|done].
    + intros Et. destruct (Hok Et) as [-> Hdata]. split; [done|].
      split; [|split]; simpl; [intros a; by rewrite Hd'|done|].
      intros i Hi'. destruct (Z.lt_ge_cases i (512 * k)); [apply Hold; lia|].
      replace (buf + i) with (buf + 512 * k + (i - 512 * k)) by lia.
      rewrite Hdata, Hd by lia. f_equal. lia.
  - intros f k t t' [Hd Hmem] _ _ (H1 & H2 & H3). split; [|split]; intros; rewrite ?Hd, ?Hmem; auto.
  - intros f k t t' [Hd Hmem] _ _ _ (H1 & H2 & H3). split; [|split].
    + intros a. by rewrite Hd.
    + intros a Ha Hu. rewrite Hmem by done. by apply H2.
    + intros i Hi'. lia.
  - intros f k t t' [Hd Hmem] (H1 & H2 & _). split.
    + intros a. by rewrite Hd.
    + intros a Ha Hu. rewrite Hmem by done. by apply H2.
  - apply rw_fuel_enough. lia.
  - split; [done|]. split; [done|]. intros i Hi'. lia.
  - exists ok, s'. split; [exact E|]. split; [done|]. split; [done|].
    intros Et. by destruct (Hok Et) as (f & _ & _ & ?).
Qed.

Lemma readwrite_write sector num buf s :
  initialized (storage (sd_hw s)) = true -> 0 <= sd_mode s <= 4 ->
  0 <= sector -> 0 < num -> sector + num <= 4294967296 ->
  0 <= buf -> buf + 512 * num <= 4294967296 ->
  (forall a, buf <= a < buf + 512 * num -> ~ in_upper a) ->
  exists ok s', _sdmmc_storage_readwrite busy (rw_fuel num) sector num buf true s = (Ret ok, s') /\
    (forall a, ~ in_upper a -> ld8 (ram (sd_hw s')) a = ld8 (ram (sd_hw s)) a) /\
    (forall a, ~ (512 * sector <= a < 512 * (sector + num)) ->
       disk (dev (sd_hw s')) a = disk (dev (sd_hw s)) a) /\
    (ok = true -> forall i, 0 <= i < 512 * num ->
       disk (dev (sd_hw s')) (512 * sector + i) = ld8 (ram (sd_hw s)) (buf + i)).
Proof.
  intros Hi Hm Hsec Hnum Hend Hbuf Hbend Hdis. rewrite readwrite_run by done.
  pose (K (t : sd (card D) F) :=
    (forall a, ~ in_upper a -> ld8 (ram (sd_hw t)) a = ld8 (ram (sd_hw s)) a) /\
    (forall a, ~ (512 * sector <= a < 512 * (sector + num)) ->
       disk (dev (sd_hw t)) a = disk (dev (sd_hw s)) a)).
  pose (I (f : bool) k (t : sd (card D) F) :=
    (forall a, ~ in_upper a -> ld8 (ram (sd_hw t)) a = ld8 (ram (sd_hw s)) a) /\
    (forall a, ~ (512 * sector <= a < 512 * (sector + num)) ->
       disk (dev (sd_hw t)) a = disk (dev (sd_hw s)) a) /\
    (forall i, 0 <= i < 512 * k -> disk (dev (sd_hw t)) (512 * sector + i) = ld8 (ram (sd_hw s)) (buf + i))).
  destruct (rw_loop_spec busy true sector num buf Hsec Hnum Hend Hbuf Hbend I K) with
    (fuel := rw_fuel num) (first := true) (retries := 5) (b := 0) (k := 0) (s := s)
    as (ok & s' & E & (HI1 & HI2) & Hok); try lia; try done.
  - intros f k b t Hk (Hmem & Hd & Hdone) n.
    destruct (write_ex_spec (sd_hw t) b (sector + k) n (buf + 512 * k)) as (ok & b' & c' & E & Hm' & Hd' & Hok);
      [subst n; lia..|].
    assert (Hfr : forall a, ~ (512 * sector <= a < 512 * (sector + num)) ->
      disk (dev c') a = disk (dev (sd_hw s)) a).
    { intros a Ha. rewrite Hd' by (subst n; lia). by apply Hd. }
    assert (Hold : forall i, 0 <= i < 512 * k ->
      disk (dev c') (512 * sector + i) = ld8 (ram (sd_hw s)) (buf + i)).
    { intros i Hi'. rewrite Hd' by lia. by apply Hdone. }
    exists ok, b', c'. split; [done|]. split.
    + split; [|split]; simpl; [intros a Ha; rewrite Hm'; auto|done|done].
    + intros Et. destruct (Hok Et) as [-> Hdata]. split; [done|].
      split; [|split]; simpl; [intros a Ha; rewrite Hm'; auto|done|].
      intros i Hi'. destruct (Z.lt_ge_cases i (512 * k)); [apply Hold; lia|].
      replace (512 * sector + i) with (512 * (sector + k) + (i - 512 * k)) by lia.
      rewrite Hdata by lia. replace (buf + 512 * k + (i - 512 * k)) with (buf + i) by lia.
      apply Hmem, Hdis. subst n. lia.
  - intros f k t t' [Hd Hmem] _ _ (H1 & H2 & H3). split; [|split]; intros; rewrite ?Hd, ?Hmem; auto.
  - intros f k t t' [Hd Hmem] _ _ _ (H1 & H2 & H3). split; [|split].
    + intros a Hu. rewrite Hmem by done. by apply H1.
    + intros a Ha. rewrite Hd. by apply H2.
    + intros i Hi'. lia.
  - intros f k t t' [Hd Hmem] (H1 & H2 & _). split.
    + intros a Hu. rewrite Hmem by done. by apply H1.
    + intros a Ha. rewrite Hd. by apply H2.
  - apply rw_fuel_enough. lia.
  - split; [done|]. split; [done|]. intros i Hi'. lia.
  - exists ok, s'. split; [exact E|]. split; [done|]. split; [done|].
    intros Et. by destruct (Hok Et) as (f & _ & _ & ?).
Qed.
(** A write from the upper buffer: a reinitialisation of the card replaces the
    first sector of what is still to be written, and nothing else. *)
Lemma readwrite_bounce sector num s :
  let buf := SDMMC_UPPER_BUFFER in
  initialized (storage (sd_hw s)) = true -> 0 <= sd_mode s <= 4 -> 0 <= rw_fails s < 65536 ->
  0 <= sector -> 0 < num <= SDMMC_UP_BUF_SZ / 512 -> sector + num <= 4294967296 ->
  exists ok s', _sdmmc_storage_readwrite busy (rw_fuel num) sector num buf true s = (Ret ok, s') /\
    (forall a, ~ in_upper a -> ld8 (ram (sd_hw s')) a = ld8 (ram (sd_hw s)) a) /\
    (forall a, ~ (512 * sector <= a < 512 * (sector + num)) ->
       disk (dev (sd_hw s')) a = disk (dev (sd_hw s)) a) /\
    (ok = true -> forall i, 0 <= i < 512 * num -> 512 <= i \/ rw_fails s' = rw_fails s ->
       disk (dev (sd_hw s')) (512 * sector + i) = ld8 (ram (sd_hw s)) (buf + i)).
Proof.
  intros buf Hi Hm Hfl Hsec Hnum Hend. change (SDMMC_UP_BUF_SZ / 512) with 262144 in Hnum.
  rewrite readwrite_run by (done || lia).
  pose (K (t : sd (card D) F) :=
    (forall a, ~ in_upper a -> ld8 (ram (sd_hw t)) a = ld8 (ram (sd_hw s)) a) /\
    (forall a, ~ (512 * sector <= a < 512 * (sector + num)) ->
       disk (dev (sd_hw t)) a = disk (dev (sd_hw s)) a)).
  pose (data lo k (t : sd (card D) F) := forall i, lo <= i < 512 * k ->
    disk (dev (sd_hw t)) (512 * sector + i) = ld8 (ram (sd_hw s)) (buf + i)).
  pose (I (f : bool) k (t : sd (card D) F) :=
    K t /\ data 512 k t /\
    if f then rw_fails t = rw_fails s /\ sd_mode t = sd_mode s /\
              (forall a, ld8 (ram (sd_hw t)) a = ld8 (ram (sd_hw s)) a) /\ data 0 k t
    else exists j, 1 <= j /\ 0 < sd_mode t /\ j + sd_mode t <= 5 /\ rw_fails t = u16 (rw_fails s + j)).
  assert (Hup : forall i, 512 <= i -> ~ in_upper (buf + i))
    by (unfold in_upper, buf, SDMMC_UPPER_BUFFER; lia).
  destruct (rw_loop_spec busy true sector num buf Hsec ltac:(lia) Hend
    ltac:(unfold buf, SDMMC_UPPER_BUFFER; lia) ltac:(unfold buf, SDMMC_UPPER_BUFFER; lia) I K) with
    (fuel := rw_fuel num) (first := true) (retries := 5) (b := 0) (k := 0) (s := s)
    as (ok & s' & E & [HK1 HK2] & Hok); try lia; try done.
  - intros f k b t Hk ([Hmem Hd] & Hdone & Hf) n.
    destruct (write_ex_spec (sd_hw t) b (sector + k) n (buf + 512 * k)) as (ok & b' & c' & E & Hm' & Hd' & Hok);
      [subst n; unfold buf, SDMMC_UPPER_BUFFER; lia..|].
    assert (HK : K (with_hw t c')).
    { split; simpl; [intros a Ha; rewrite Hm'; auto|].
      intros a Ha. rewrite Hd' by (subst n; lia). by apply Hd. }
    assert (Hold : forall lo, data lo k t -> data lo k (with_hw t c')).
    { intros lo Hlo i Hi'. simpl. rewrite Hd' by lia. by apply Hlo. }
    exists ok, b', c'. split; [done|]. split.
    { split; [done|]. split; [auto|]. destruct f; [|exact Hf].
      destruct Hf as (? & ? & Hr & ?). split; [done|]. split; [done|]. split; [|auto].
      intros a. simpl. rewrite Hm'. apply Hr. }
    intros Et. destruct (Hok Et) as [-> Hdata]. split; [done|].
    assert (Hnew : forall lo, data lo k t ->
      (forall i, Z.max lo (512 * k) <= i < 512 * (k + n) ->
         ld8 (ram (sd_hw t)) (buf + i) = ld8 (ram (sd_hw s)) (buf + i)) ->
      0 <= lo -> data lo (k + n) (with_hw t c')).
    { intros lo Hlo Hr Hl0 i Hi'. destruct (Z.lt_ge_cases i (512 * k)); [apply (Hold lo Hlo i); lia|].
      simpl. replace (512 * sector + i) with (512 * (sector + k) + (i - 512 * k)) by lia.
      rewrite Hdata by lia. replace (buf + 512 * k + (i - 512 * k)) with (buf + i) by lia.
      apply Hr. lia. }
    split; [done|]. split; [apply Hnew; [done| |lia]|].
    { intros i Hi'. apply Hmem, Hup. lia. }
    destruct f; [|exact Hf]. destruct Hf as (? & ? & Hr & ?). split; [done|]. split; [done|].
    split; [intros a; simpl; rewrite Hm'; apply Hr|]. apply Hnew; [done| |lia]. intros i _. apply Hr.
  - intros f k t t' [Hd Hmem] Emode Efl ([H1 H2] & H3 & Hf). split; [|split].
    + split; intros; rewrite ?Hd, ?Hmem; auto.
    + intros i Hi'. rewrite Hd. by apply H3.
    + destruct f; rewrite Emode, Efl; [|done]. destruct Hf as (? & ? & Hr & Hdt).
      split; [done|]. split; [done|]. split; [intros a; by rewrite Hmem|].
      intros i Hi'. rewrite Hd. by apply Hdt.
  - intros f k t t' [Hd Hmem] Efl Emode Hle ([H1 H2] & H3 & Hf). split; [|split].
    + split; [intros a Hu; rewrite Hmem by done; by apply H1|intros a Ha; rewrite Hd; by apply H2].
    + intros i Hi'. lia.
    + rewrite Efl. destruct f.
      * destruct Hf as (-> & _). exists 1. split; [lia|]. split; [lia|]. split; [lia|done].
      * destruct Hf as (j & Hj1 & Hj2 & Hj3 & ->). exists (j + 1). split; [lia|]. split; [lia|].
        split; [lia|]. unfold u16. rewrite Zplus_mod_idemp_l. f_equal. lia.
  - intros f k t t' [Hd Hmem] ([H1 H2] & _). split.
    + intros a Hu. rewrite Hmem by done. by apply H1.
    + intros a Ha. rewrite Hd. by apply H2.
  - apply rw_fuel_enough. lia.
  - split; [by split|]. split; [intros i Hi'; lia|]. split; [done|]. split; [done|]. split; [done|].
    intros i Hi'. lia.
  - exists ok, s'. split; [exact E|]. split; [done|]. split; [done|].
    intros Et i Hi'. destruct (Hok Et) as (f & _ & H3 & Hf). destruct f.
    + intros _. destruct Hf as (_ & _ & _ & Hdt). by apply Hdt.
    + intros [Hge|Heq]; [apply (H3 i); lia|]. destruct Hf as (j & ? & ? & ? & Ej). exfalso.
      rewrite Heq in Ej. unfold u16 in Ej. revert Ej. Z.div_mod_to_equations. lia.
Qed.
End correct.

(** ** A card that can be run

    A version 2 card of 512 bytes per sector whose next [fk_fail] data
    transfers fail; its registers read as zeros. *)
Module Fake.

Record fake := Fake { fk_disk : mem; fk_fail : nat; fk_type : Z; fk_csd : list Z }.

Definition respond (c : sdmmc_cmd_t) (d : fake) : fake :=
  Fake (fk_disk d) (fk_fail d) (c_rsp_type c) (fk_csd d).

Definition rsp (type : Z) (d : fake) : option (list Z) :=
  if negb (type =? fk_type d) then None
  else if type =? 1 then Some [0x800]
  else if type =? 2 then Some (fk_csd d)
  else if type =? 3 then Some [0xC0000000]
  else if type =? 4 then Some [0x10000]
  else if type =? 5 then Some [0x1AA]
  else None.

Definition bytes (q : sdmmc_req_t) : nat := Z.to_nat (r_blksize q * r_num_sectors q).

Definition exec (c : sdmmc_cmd_t) (r : option sdmmc_req_t) (d : fake) (m : mem)
    : bool * option Z * fake * mem :=
  let d := respond c d in
  match r with
  | None => (true, None, d, m)
  | Some q =>
      if negb (r_is_multi_block q) then
        (true, Some (r_num_sectors q), d,
         if r_is_write q then m else memset m (r_buf q) 0 (bytes q))
      else
        match fk_fail d with
        | S k => (false, None, Fake (fk_disk d) k (fk_type d) (fk_csd d), m)
        | O =>
            if r_is_write q then
              (true, Some (r_num_sectors q),
               Fake (st_bytes (fk_disk d) (512 * c_arg c) (ld_bytes m (r_buf q) (bytes q))) 0
                 (fk_type d) (fk_csd d), m)
            else
              (true, Some (r_num_sectors q), d,
               st_bytes m (r_buf q) (ld_bytes (fk_disk d) (512 * c_arg c) (bytes q)))
        end
  end.

#[global] Instance fake_driver : SdDriver fake := {|
  drv_init _ _ _ _ _ d := (true, d);
  drv_end d := d;
  drv_execute := exec;
  drv_get_rsp := rsp;
  drv_stop d := d;
  drv_setup_clock _ d := (true, d);
  drv_tuning _ _ d := (true, d);
  drv_io_power _ := SDMMC_POWER_1_8;
  drv_bus_width _ := BUS_WIDTH_1;
  drv_set_bus_width _ d := d;
  drv_save_tap d := d;
  drv_powersave _ d := d;
  drv_low_voltage d := (true, d);
  drv_id _ := SDMMC_1;
  drv_divisor _ := 1;
  drv_inserted d := (true, d);
  drv_power_cycle_start _ := 0;
  drv_ms d := (1000, d);
  drv_usleep _ d := d
|}.

(** Bytes moved from one store to another. *)
Lemma moved m m' a b n i : 0 <= i < Z.of_nat n ->
  ld8 (st_bytes m a (ld_bytes m' b n)) (a + i) = ld8 m' (b + i).
Proof.
  intros Hi. replace i with (Z.of_nat (Z.to_nat i)) by lia.
  rewrite (ld8_st_bytes _ _ _ _ (ld8 m' (b + Z.of_nat (Z.to_nat i)))).
  - apply u8_id, ld8_range.
  - apply ld_bytes_lookup. lia.
Qed.

Lemma not_moved m m' a b n x : ~ (a <= x < a + Z.of_nat n) ->
  ld8 (st_bytes m a (ld_bytes m' b n)) x = ld8 m x.
Proof. intros Hx. apply ld8_st_bytes_ne. by rewrite ld_bytes_length. Qed.

Lemma exec_read_frame c q d m ok r d' m' :
  exec c (Some q) d m = (ok, r, d', m') -> r_is_write q = false ->
  fk_disk d' = fk_disk d /\
  forall a, ~ (r_buf q <= a < r_buf q + r_blksize q * r_num_sectors q) -> ld8 m' a = ld8 m a.
Proof.
  unfold exec. intros E Hw. rewrite Hw in E.
  assert (Hb : forall a, ~ (r_buf q <= a < r_buf q + r_blksize q * r_num_sectors q) ->
    ~ (r_buf q <= a < r_buf q + Z.of_nat (bytes q))) by (unfold bytes; lia).
  destruct (r_is_multi_block q); simpl in E.
  - destruct (fk_fail d); simplify_eq; [|done]. split; [done|].
    intros a Ha. apply not_moved. auto.
  - simplify_eq. split; [done|]. intros a Ha. rewrite ld8_memset. apply Hb in Ha. zcases; simpl; done || lia.
Qed.

#[global] Instance fake_laws : SdLaws fake.
Proof.
  refine {| disk d a := ld8 (fk_disk d) a |}; try done.
  - intros c d m ok r d' m' E. simpl in E. by simplify_eq.
  - intros c q d m ok r d' m' _ E Hw. destruct (exec_read_frame _ _ _ _ _ _ _ _ E Hw) as [-> ?]. done.
  - intros sector buf n d m r d' m' Hn _ _ _ E. simpl in E. unfold exec in E. simpl in E.
    destruct (fk_fail d); simplify_eq. split; [done|]. intros i Hi. apply moved. unfold bytes. simpl. lia.
  - intros sector buf n d m ok r d' m' Hn _ _ _ E. simpl in E. unfold exec in E. simpl in E.
    destruct (fk_fail d); simplify_eq; [|done]. split; [done|]. split.
    + intros a Ha. simpl. apply not_moved. unfold bytes. simpl. lia.
    + intros _. split; [done|]. intros i Hi. simpl. apply moved. unfold bytes. simpl. lia.
Defined.

(** The front end with an initialised card. *)
Definition front (d : fake) (m : mem) : sd (card fake) unit :=
  Sd true (0, 0, 0) SD_UHS_SDR82 false (Card (set_initialized true storage0) d m) tt.

Definition csd_v2 : list Z := [0x400E0032; 0x5B590000; 0x7A127F80; 0x0A400000].
End Fake.

(** ** Sector reads and writes *)

Section storage.
Context {D F : Type} `{SdLaws D}.
Context (busy : nat).
Implicit Types s : sd (card D) F.

(** The buffer has nothing in common with the upper buffer. *)
Definition apart (buf len : Z) : Prop :=
  buf + len <= SDMMC_UPPER_BUFFER \/ SDMMC_UPPER_BUFFER + SDMMC_UP_BUF_SZ <= buf.

Definition in_up_buf (a : Z) : Prop := SDMMC_UPPER_BUFFER <= a < SDMMC_UPPER_BUFFER + SDMMC_UP_BUF_SZ.

Lemma in_upper_up_buf a : in_upper a -> in_up_buf a.
Proof. unfold in_upper, in_up_buf, SDMMC_UP_BUF_SZ. lia. Qed.

(** Reads, with and without the upper buffer. *)
Lemma storage_read_spec (sector num buf : Z) s :
  initialized (storage (sd_hw s)) = true -> 0 <= sd_mode s <= 4 ->
  0 <= sector -> 0 < num -> sector + num <= 4294967296 ->
  0 <= buf -> buf + 512 * num <= 4294967296 -> apart buf (512 * num) ->
  exists ok s', sdmmc_storage_read busy (rw_fuel num) sector num buf s = (Ret ok, s') /\
    (forall a, disk (dev (sd_hw s')) a = disk (dev (sd_hw s)) a) /\
    (forall a, ~ (buf <= a < buf + 512 * num) -> ~ in_up_buf a ->
       ld8 (ram (sd_hw s')) a = ld8 (ram (sd_hw s)) a) /\
    (ok = true -> forall i, 0 <= i < 512 * num ->
       ld8 (ram (sd_hw s')) (buf + i) = disk (dev (sd_hw s)) (512 * sector + i)).
Proof.
  intros Hi Hm Hsec Hnum Hend Hbuf Hbend Hap. unfold sdmmc_storage_read.
  destruct (dma_buf buf).
  - destruct (readwrite_read busy sector num buf s) as (ok & s' & E & Hd & Hmem & Hok); [done..|].
    exists ok, s'. split; [done|]. split; [done|]. split; [|done].
    intros a Ha Hu. apply Hmem; [done|]. intros Hup. by apply Hu, in_upper_up_buf.
  - destruct (Z.ltb_spec (SDMMC_UP_BUF_SZ / 512) num) as [Hbig|Hsmall].
    { exists false, s. done. }
    change (SDMMC_UP_BUF_SZ / 512) with 262144 in Hsmall.
    unfold apart, in_up_buf, SDMMC_UPPER_BUFFER, SDMMC_UP_BUF_SZ in *.
    destruct (readwrite_read busy sector num 0xE5000000 s) as (ok & s' & E & Hd & Hmem & Hok); [done..|lia|lia|].
    rewrite (bind_run _ _ _ _ _ E). destruct ok.
    2: { exists false, s'. split; [done|]. split; [done|]. split; [|done].
         intros a Ha Hu. apply Hmem; [lia|]. intros Hup. apply Hu. unfold in_upper, SDMMC_UPPER_BUFFER in Hup. lia. }
    eexists true, _. split; [reflexivity|]. simpl. rewrite (u32_id (512 * num)) by lia.
    split; [done|]. split.
    + intros a Ha Hu. rewrite ld8_memcpy_ne by lia. apply Hmem; [lia|].
      intros Hup. apply Hu. unfold in_upper, SDMMC_UPPER_BUFFER in Hup. lia.
    + intros _ i Hi'. rewrite ld8_memcpy by lia. by apply Hok.
Qed.

(** C5: a sector read returns, after any pattern of failed transfers, retries and
    reinitialisations of the card.  When it reports success the buffer holds the sectors asked
    for; in every case the card is unchanged, and so is the memory outside the buffer and the
    driver's upper buffer.  This includes buffers that are not suitable for DMA, which are read
    through the upper buffer. *)
Theorem sdmmc_storage_read_correct (sector num buf : Z) s :
  initialized (storage (sd_hw s)) = true -> 0 <= sd_mode s <= 4 ->
  0 <= sector -> 0 < num -> sector + num <= 4294967296 ->
  0 <= buf -> buf + 512 * num <= 4294967296 -> apart buf (512 * num) ->
  exists ok s', sdmmc_storage_read busy (rw_fuel num) sector num buf s = (Ret ok, s') /\
    (forall a, disk (dev (sd_hw s')) a = disk (dev (sd_hw s)) a) /\
    (forall a, ~ (buf <= a < buf + 512 * num) -> ~ in_up_buf a ->
       ld8 (ram (sd_hw s')) a = ld8 (ram (sd_hw s)) a) /\
    (ok = true -> forall i, 0 <= i < 512 * num ->
       ld8 (ram (sd_hw s')) (buf + i) = disk (dev (sd_hw s)) (512 * sector + i)).
Proof. apply storage_read_spec. Qed.

(** What FatFs gets: a read that reports success has filled the buffer. *)
Lemma disk_read_correct (pdrv sector num buf : Z) s :
  initialized (storage (sd_hw s)) = true -> 0 <= sd_mode s <= 4 ->
  0 <= sector -> 0 < num -> sector + num <= 4294967296 ->
  0 <= buf -> buf + 512 * num <= 4294967296 -> apart buf (512 * num) ->
  exists r s', disk_read busy (rw_fuel num) pdrv buf sector num s = (Ret r, s') /\
    (r = RES_OK -> forall i, 0 <= i < 512 * num ->
       ld8 (ram (sd_hw s')) (buf + i) = disk (dev (sd_hw s)) (512 * sector + i)).
Proof.
  intros Hi Hm Hsec Hnum Hend Hbuf Hbend Hap. unfold disk_read.
  destruct (storage_read_spec sector num buf s) as (ok & s' & E & _ & _ & Hok); [done..|].
  rewrite (bind_run _ _ _ _ _ E). eexists _, s'. split; [done|]. destruct ok; [auto|done].
Qed.

(** C6: a sector write from a buffer that is suitable for DMA returns, after any pattern of failed
    transfers, retries and reinitialisations.  When it reports success the sectors hold the
    buffer; in every case no other sector changes, nor does the memory outside the driver's
    upper buffer. *)
Theorem sdmmc_storage_write_correct (sector num buf : Z) s :
  initialized (storage (sd_hw s)) = true -> 0 <= sd_mode s <= 4 ->
  0 <= sector -> 0 < num -> sector + num <= 4294967296 ->
  dma_buf buf = true -> buf + 512 * num <= 4294967296 -> apart buf (512 * num) ->
  exists ok s', sdmmc_storage_write busy (rw_fuel num) sector num buf s = (Ret ok, s') /\
    (forall a, ~ in_up_buf a -> ld8 (ram (sd_hw s')) a = ld8 (ram (sd_hw s)) a) /\
    (forall a, ~ (512 * sector <= a < 512 * (sector + num)) ->
       disk (dev (sd_hw s')) a = disk (dev (sd_hw s)) a) /\
    (ok = true -> forall i, 0 <= i < 512 * num ->
       disk (dev (sd_hw s')) (512 * sector + i) = ld8 (ram (sd_hw s)) (buf + i)).
Proof.
  intros Hi Hm Hsec Hnum Hend Hdma Hbend Hap. unfold sdmmc_storage_write. rewrite Hdma.
  assert (Hbuf : 0 <= buf)
    by (apply andb_prop in Hdma as [Hd%Z.leb_le _]; unfold DRAM_START in Hd; lia).
  destruct (readwrite_write busy sector num buf s) as (ok & s' & E & Hmem & Hd & Hok); [done..| |].
  { intros a Ha Hu%in_upper_up_buf. unfold apart, in_up_buf in *. lia. }
  exists ok, s'. split; [done|]. split; [|done].
  intros a Hu. apply Hmem. intros Hup. by apply Hu, in_upper_up_buf.
Qed.
End storage.

(** C7: a sector write from a buffer that is not suitable for DMA is staged in the upper buffer,
    or refused without effect when it does not fit there.  It returns after any pattern of
    failed transfers, retries and reinitialisations; no other sector changes, nor does the
    memory outside the upper buffer.  When it reports success, every byte behind the first
    sector holds the data, and so does the first sector unless a transfer was given up and the
    card reinitialised on the way, which the error counter shows. *)
Theorem sdmmc_storage_write_bounce {D F} `{SdLaws D} (busy : nat) (sector num buf : Z)
    (s : sd (card D) F) :
  initialized (storage (sd_hw s)) = true -> 0 <= sd_mode s <= 4 -> 0 <= rw_fails s < 65536 ->
  0 <= sector -> 0 < num -> sector + num <= 4294967296 ->
  dma_buf buf = false -> 0 <= buf -> buf + 512 * num <= 4294967296 -> apart buf (512 * num) ->
  exists ok s', sdmmc_storage_write busy (rw_fuel num) sector num buf s = (Ret ok, s') /\
    (SDMMC_UP_BUF_SZ / 512 < num -> ok = false /\ s' = s) /\
    (forall a, ~ in_up_buf a -> ld8 (ram (sd_hw s')) a = ld8 (ram (sd_hw s)) a) /\
    (forall a, ~ (512 * sector <= a < 512 * (sector + num)) ->
       disk (dev (sd_hw s')) a = disk (dev (sd_hw s)) a) /\
    (ok = true -> forall i, 0 <= i < 512 * num -> 512 <= i \/ rw_fails s' = rw_fails s ->
       disk (dev (sd_hw s')) (512 * sector + i) = ld8 (ram (sd_hw s)) (buf + i)).
Proof.
  intros Hi Hm Hfl Hsec Hnum Hend Hdma Hbuf Hbend Hap. unfold sdmmc_storage_write. rewrite Hdma.
  destruct (Z.ltb_spec (SDMMC_UP_BUF_SZ / 512) num) as [Hbig|Hsmall]; [by exists false, s|].
  set (s1 := with_hw s (copy SDMMC_UPPER_BUFFER buf (u32 (512 * num)) (sd_hw s)).2).
  rewrite (bind_run (on_card _) _ s tt s1) by done.
  destruct (readwrite_bounce busy sector num s1) as (ok & s' & E & Hmem & Hd & Hok); [done..|].
  exists ok, s'. split; [exact E|]. split; [lia|].
  change (SDMMC_UP_BUF_SZ / 512) with 262144 in Hsmall.
  assert (Es1 : ram (sd_hw s1) = memcpy (ram (sd_hw s)) SDMMC_UPPER_BUFFER buf (Z.to_nat (512 * num)))
    by (simpl; by rewrite u32_id by lia).
  rewrite Es1 in Hmem, Hok. unfold apart, in_up_buf, SDMMC_UPPER_BUFFER, SDMMC_UP_BUF_SZ in *.
  split; [|split].
  - intros a Ha. rewrite Hmem.
    + apply ld8_memcpy_ne. lia.
    + unfold in_upper, SDMMC_UPPER_BUFFER. lia.
  - intros a Ha. by rewrite Hd.
  - intros Et i Hi' Hr. rewrite (Hok Et i Hi' Hr). apply ld8_memcpy; lia.
Qed.

(** A write from a buffer in IRAM on a card whose next five data transfers fail:
    it is retried after the card is reinitialised and reports success, although
    the sector written begins with card register bytes and not with the data. *)
Definition iram_buf : Z := 0x40008000.
Definition bounce_state : sd (card Fake.fake) unit :=
  Fake.front (Fake.Fake ∅ 5 0 Fake.csd_v2) (memset ∅ iram_buf 0xFF 512).

Lemma sdmmc_storage_write_bounce_corrupts :
  let '(o, s') := sdmmc_storage_write 5 (rw_fuel 1) 0 1 iram_buf bounce_state in
  o = Ret true /\ rw_fails s' = 1 /\
  disk (dev (sd_hw s')) 0 = 0 /\ ld8 (ram (sd_hw bounce_state)) iram_buf = 0xFF /\
  ld8 (ram (sd_hw s')) iram_buf = 0xFF /\ disk (dev (sd_hw s')) 511 = 0xFF.
Proof. vm_compute. repeat split. Qed.

(** An MMC of an old version is set up and reported as a success, but not
    marked initialised: every transfer on it is refused. *)
Definition old_mmc : card Fake.fake := Card storage0 (Fake.Fake ∅ 0 0 [0; 0; 0; 0]) ∅.

Lemma init_mmc_old_not_initialized :
  let '(o, c) := sdmmc_storage_init_mmc 5 BUS_WIDTH_8 TIMING_MMC_HS400 old_mmc in
  o = Ret true /\ initialized (storage c) = false.
Proof. vm_compute. by split. Qed.

(** ** Witnesses *)

Lemma sdmmc_storage_read_correct_witness :
  let s := Fake.front (Fake.Fake (memset ∅ 512 7 512) 2 0 Fake.csd_v2) ∅ in
  exists s', sdmmc_storage_read 5 (rw_fuel 1) 1 1 iram_buf s = (Ret true, s') /\
    ld8 (ram (sd_hw s')) (iram_buf + 3) = 7.
Proof.
  intros s.
  assert (Hok : (sdmmc_storage_read 5 (rw_fuel 1) 1 1 iram_buf s).1 = Ret true) by (vm_compute; done).
  destruct (sdmmc_storage_read_correct 5 1 1 iram_buf s) as (ok & s' & E & _ & _ & Hdata);
    [reflexivity|change (sd_mode s) with 3; lia|lia|lia|lia|vm_compute; done|vm_compute; done|left; vm_compute; done|].
  rewrite E in Hok. simpl in Hok. injection Hok as ->.
  exists s'. split; [exact E|]. rewrite (Hdata eq_refl 3) by lia. vm_compute. done.
Defined.

Lemma sdmmc_storage_write_correct_witness :
  let s := Fake.front (Fake.Fake ∅ 7 0 Fake.csd_v2) (memset ∅ 0x90000000 9 512) in
  exists s', sdmmc_storage_write 5 (rw_fuel 1) 4 1 0x90000000 s = (Ret true, s') /\
    disk (dev (sd_hw s')) (512 * 4 + 3) = 9.
Proof.
  intros s.
  assert (Hok : (sdmmc_storage_write 5 (rw_fuel 1) 4 1 0x90000000 s).1 = Ret true) by (vm_compute; done).
  destruct (sdmmc_storage_write_correct 5 4 1 0x90000000 s) as (ok & s' & E & _ & _ & Hdata);
    [reflexivity|change (sd_mode s) with 3; lia|lia|lia|lia|reflexivity|lia|left; vm_compute; done|].
  rewrite E in Hok. simpl in Hok. injection Hok as ->.
  exists s'. split; [exact E|]. rewrite (Hdata eq_refl 3) by lia. vm_compute. done.
Defined.

(** Two sectors from IRAM, with a retry and no reinitialisation. *)
Lemma sdmmc_storage_write_bounce_witness :
  let s := Fake.front (Fake.Fake ∅ 3 0 Fake.csd_v2) (memset ∅ iram_buf 9 1024) in
  exists s', sdmmc_storage_write 5 (rw_fuel 2) 4 2 iram_buf s = (Ret true, s') /\
    disk (dev (sd_hw s')) (512 * 4 + 600) = 9 /\ disk (dev (sd_hw s')) (512 * 4 + 3) = 9.
Proof.
  intros s.
  assert (Hok : (sdmmc_storage_write 5 (rw_fuel 2) 4 2 iram_buf s).1 = Ret true) by (vm_compute; done).
  assert (Hfl : rw_fails (sdmmc_storage_write 5 (rw_fuel 2) 4 2 iram_buf s).2 = 0) by (vm_compute; done).
  destruct (sdmmc_storage_write_bounce 5 4 2 iram_buf s) as (ok & s' & E & _ & _ & _ & Hdata);
    [reflexivity|change (sd_mode s) with 3; lia|change (rw_fails s) with 0; lia|lia|lia|lia
    |vm_compute; done|vm_compute; done|vm_compute; done|left; vm_compute; done|].
  rewrite E in Hok, Hfl. simpl in Hok, Hfl. injection Hok as ->.
  exists s'. split; [exact E|]. split.
  - rewrite (Hdata eq_refl 600) by lia. vm_compute. done.
  - rewrite (Hdata eq_refl 3); [vm_compute; done|lia|]. right. exact Hfl.
Defined.
