(* ===== verification/Ipl.v ===== *)
(** * Ipl

    The first half of [ipl_main] in bootloader/main.c: the check for a low
    battery, the default configuration and the report of errors.  It composes
    the gauge and charger, the buttons, the PMIC, the heap, the decompressor,
    the frame buffer and the fuses. *)

From stdpp Require Import strings.
From S2P Require Import Prelude Mem Heap I2c Pmic Battery Util Gpio Gfx Compr Fuse Boot.
#[local] Open Scope Z_scope.

(** The display driver of bdk/display/di.c.
    [display_init_framebuffer_pitch] returns the frame buffer. *)
Class Display (D : Type) := {
  display_init : D -> D;
  display_end : D -> D;
  display_init_framebuffer_pitch : D -> gmap Z Z * D;
  display_backlight_pwm_init : D -> D;
  display_backlight_brightness : Z -> Z -> D -> D
}.

(** What the battery check observes: a reading of charger and gauge, the time
    when it compares it with [timer] while the screen is on, the time at which
    the screen is turned on or kept on, and a reading of the volume keys. *)
Inductive seen :=
| SawBattery (charge volt : Z)
| SawTime (charge timer now : Z)
| Woke (now : Z)
| SawKeys (vol : Z).

(** The device with the gauge driver's variable, the heap and its memory, the
    graphics context, and the observations so far, latest first. *)
Record ipl (D : Type) := Ipl {
  i_gauge : gauge D;
  i_heap : heap_t;
  i_mem : mem;
  i_gfx : gfx;
  i_seen : list seen
}.
Arguments Ipl {D}.
Arguments i_gauge {D}.
Arguments i_heap {D}.
Arguments i_mem {D}.
Arguments i_gfx {D}.
Arguments i_seen {D}.


Definition ERR_LIBSYS_LP0 : Z := BIT 0.
Definition ERR_LIBSYS_MTC : Z := BIT 2.
Definition ERR_SD_BOOT_EN : Z := BIT 3.
Definition ERR_EXCEPTION : Z := BIT 31.

Definition EXCP_EN_ADDR : Z := 0x4003FFFC.
Definition EXCP_MAGIC : Z := 0x30505645.
Definition EXCP_TYPE_ADDR : Z := 0x4003FFF8.
Definition EXCP_LR_ADDR : Z := 0x4003FFF4.



Section Ipl.
Context {D : Type} `{Mmio D} `{I2c D} `{Display D}.

(** ** Running the parts *)

Definition on_gauge {A} (m : M (gauge D) A) : M (ipl D) A := fun s =>
  let '(o, g) := m (i_gauge s) in (o, Ipl g (i_heap s) (i_mem s) (i_gfx s) (i_seen s)).
Definition on_dev {A} (m : M D A) : M (ipl D) A := on_gauge (fun g =>
  let '(o, d) := m (g_dev g) in (o, Gauge d (battery_voltage g))).
Definition on_gfx {A} (m : M gfx A) : M (ipl D) A := fun s =>
  let '(o, g) := m (i_gfx s) in (o, Ipl (i_gauge s) (i_heap s) (i_mem s) g (i_seen s)).
Definition dev_do (f : D -> D) : M (ipl D) unit := on_dev (modify f).


(** ** _check_low_battery *)

(** [fuel] bounds the loop, the heap searches, the decoder and the button wait;
    [blz] is the address of [BATTERY_EMPTY_BLZ]. *)
Variables (fuel : nat) (blz : Z).














(** ** The configuration and the errors *)

(** [set_default_configuration] with the two queries it makes. *)
Definition default_configuration (rounds : nat) : M D hekate_config :=
  patched ← fuse_check_patched_rcm rounds fuel;
  chip ← hw_get_chip_id;
  mret (set_default_configuration patched chip).

Definition WPRINTF (text : string) (ap : list va) : M (ipl D) unit :=
  on_gfx (gfx_printf (chars "%k" ++ chars text ++ chars "%k" ++ [10])
            (VaU32 0xFFFFDD00 :: ap ++ [VaU32 0xFFCCCCCC])).

(** The text of the exception, one of four tags. *)
Definition excp_name (type : Z) : option string :=
  if type =? 0x545352 then Some "RESET"%string
  else if type =? 0x464455 then Some "UNDEF"%string
  else if type =? 0x54424150 then Some "PABRT"%string
  else if type =? 0x54424144 then Some "DABRT"%string
  else None.

Definition print_if (b : bool) (text : string) : M (ipl D) unit := if b then WPRINTF text [] else mret tt.
Definition nl : string := String (Ascii.ascii_of_nat 10) EmptyString.

(** [h_cfg.errors] in, [h_cfg.errors] out.  The scratch words are read and
    written in the memory. *)
Definition _show_errors (errors : Z) : M (ipl D) Z :=
  s ← get;
  let errors := if ld32 (i_mem s) EXCP_EN_ADDR =? EXCP_MAGIC then Z.lor errors ERR_EXCEPTION else errors in
  let err e := c_true (Z.land errors e) in
  if negb (c_true errors) then mret errors
  else
    on_gfx (modify (gfx_clear_grey 0x1B));;
    on_gfx (modify (gfx_con_setpos 0 0));;
    dev_do (display_backlight_brightness 150 1000);;
    print_if (err ERR_SD_BOOT_EN) ("Failed to mount SD!" ++ nl);;
    print_if (err ERR_LIBSYS_LP0) ("Missing LP0 (sleep mode) lib!" ++ nl);;
    print_if (err ERR_LIBSYS_MTC) ("Missing or old Minerva lib!" ++ nl);;
    print_if (err (Z.lor ERR_LIBSYS_LP0 ERR_LIBSYS_MTC)) (nl ++ "Update bootloader folder!" ++ nl ++ nl);;
    (if err ERR_EXCEPTION then
       WPRINTF ("An exception occurred (LR %08X):" ++ nl) [VaU32 (ld32 (i_mem s) EXCP_LR_ADDR)];;
       match excp_name (ld32 (i_mem s) EXCP_TYPE_ADDR) with
       | Some name => WPRINTF name []
       | None => mret tt
       end;;
       WPRINTF nl [];;
       modify (fun s => Ipl (i_gauge s) (i_heap s) (st32 (i_mem s) EXCP_EN_ADDR 0) (i_gfx s) (i_seen s))
     else mret tt);;
    WPRINTF "Press any key..." [];;
    on_dev (usleep 1000000);;
    on_dev (btn_wait btn_read fuel);;
    mret errors.

(** ** Properties *)

(** A part that observes nothing. *)
Definition silent {A} (m : M (ipl D) A) : Prop := forall s, i_seen (snd (m s)) = i_seen s.

Lemma silent_gauge {A} (m : M (gauge D) A) : silent (on_gauge m).
Proof. intros s. unfold on_gauge. by destruct (m (i_gauge s)). Qed.
Lemma silent_dev {A} (m : M D A) : silent (on_dev m).
Proof. apply silent_gauge. Qed.



Lemma silent_monitor : silent (on_dev (max77620_low_battery_monitor_config true)).
Proof. apply silent_dev. Qed.

(** *** What the observations call for *)







Section history.
Variable h0 : list seen.










End history.


End Ipl.

(** ** A console with an empty battery and no charger

    The device is the time in milliseconds; the gauge reads 2.9 V, no key is
    held.  The check turns the screen on, and after fifteen seconds switches the
    console off. *)

Module Empty.
Definition gauge_bytes (dev : Z) : list Z := if dev =? MAXIM17050_I2C_ADDR then [0; 0x91] else [0].
#[local] Instance mmio : Mmio Z := {|
  rd32 a s := (if (0x6000D000 <=? a) && (a <? 0x6000E000) then 0xFF else 0, s);
  wr32 a v s := if a =? Timer.FLOW_CTLR_BASE + Timer.FLOW_CTLR_HALT_COP_EVENTS then s + v mod 256 else s;
  tmr_us s := (0, s); tmr_ms s := (s, s); sleep_us _ s := s |}.
#[local] Instance i2c : I2c Z := {|
  i2c_send_buf_small _ _ _ _ := mret 1;
  i2c_recv_buf_small _ _ dev _ := mret (1, gauge_bytes dev);
  i2c_sleep _ := mret tt |}.
#[local] Instance display : Display Z := {|
  display_init s := s; display_end s := s; display_init_framebuffer_pitch s := (∅, s);
  display_backlight_pwm_init s := s; display_backlight_brightness _ _ s := s |}.
End Empty.
