(* ===== verification/Clock.v ===== *)
(** * Clock

    The clock and reset controller driver of bdk/soc/clock.c: the descriptors
    of the peripheral clocks, the PLLs, the clocks of the SDMMC controllers with
    their use count of PLLC4, and the frequency counters.  Loops that poll a
    status bit without a limit take fuel. *)

From S2P Require Import Prelude Sdmmc.
From S2P Require Import I2c Fuse.

(** ** Registers *)

Definition CLOCK_BASE : Z := 0x60006000.
Definition CLOCK (off : Z) : Z := CLOCK_BASE + off.

Definition RST_DEVICES_L : Z := 0x4.
Definition RST_DEVICES_H : Z := 0x8.
Definition RST_DEVICES_U : Z := 0xC.
Definition CLK_OUT_ENB_L : Z := 0x10.
Definition CLK_OUT_ENB_H : Z := 0x14.
Definition CLK_OUT_ENB_U : Z := 0x18.
Definition MISC_CLK_ENB : Z := 0x48.
Definition OSC_FREQ_DET : Z := 0x58.
Definition OSC_FREQ_DET_STATUS : Z := 0x5C.
Definition PTO_CLK_CNT_CNTL : Z := 0x60.
Definition PTO_CLK_CNT_STATUS : Z := 0x64.
Definition PLLC_BASE : Z := 0x80.
Definition PLLC_OUT : Z := 0x84.
Definition PLLC_MISC : Z := 0x88.
Definition PLLC_MISC_1 : Z := 0x8C.
Definition PLLU_BASE : Z := 0xC0.
Definition PLLU_MISC : Z := 0xCC.
Definition CLK_SOURCE_PWM : Z := 0x110.
Definition CLK_SOURCE_I2C1 : Z := 0x124.
Definition CLK_SOURCE_I2C5 : Z := 0x128.
Definition CLK_SOURCE_SDMMC1 : Z := 0x150.
Definition CLK_SOURCE_SDMMC2 : Z := 0x154.
Definition CLK_SOURCE_SDMMC4 : Z := 0x164.
Definition CLK_SOURCE_UARTA : Z := 0x178.
Definition CLK_SOURCE_UARTB : Z := 0x17C.
Definition CLK_SOURCE_HOST1X : Z := 0x180.
Definition CLK_SOURCE_I2C2 : Z := 0x198.
Definition CLK_SOURCE_UARTC : Z := 0x1A0.
Definition CLK_SOURCE_I2C3 : Z := 0x1B8.
Definition CLK_SOURCE_SDMMC3 : Z := 0x1BC.
Definition CLK_SOURCE_UARTD : Z := 0x1C0.
Definition CLK_SOURCE_CSITE : Z := 0x1D4.
Definition CLK_SOURCE_TSEC : Z := 0x1F4.
Definition CLK_OUT_ENB_X : Z := 0x280.
Definition RST_DEVICES_X : Z := 0x28C.
Definition CLK_OUT_ENB_Y : Z := 0x298.
Definition RST_DEVICES_Y : Z := 0x2A4.
Definition RST_DEV_L_SET : Z := 0x300.
Definition RST_DEV_L_CLR : Z := 0x304.
Definition RST_DEV_H_SET : Z := 0x308.
Definition RST_DEV_H_CLR : Z := 0x30C.
Definition RST_DEV_U_SET : Z := 0x310.
Definition RST_DEV_U_CLR : Z := 0x314.
Definition CLK_ENB_L_SET : Z := 0x320.
Definition CLK_ENB_L_CLR : Z := 0x324.
Definition CLK_ENB_H_SET : Z := 0x328.
Definition CLK_ENB_H_CLR : Z := 0x32C.
Definition CLK_ENB_U_SET : Z := 0x330.
Definition CLK_ENB_U_CLR : Z := 0x334.
Definition RST_DEVICES_V : Z := 0x358.
Definition RST_DEVICES_W : Z := 0x35C.
Definition CLK_OUT_ENB_V : Z := 0x360.
Definition CLK_OUT_ENB_W : Z := 0x364.
Definition CLK_SOURCE_I2C4 : Z := 0x3C4.
Definition CLK_SOURCE_SOR1 : Z := 0x410.
Definition CLK_SOURCE_SE : Z := 0x42C.
Definition UTMIP_PLL_CFG0 : Z := 0x480.
Definition UTMIP_PLL_CFG1 : Z := 0x484.
Definition UTMIP_PLL_CFG2 : Z := 0x488.
Definition UTMIPLL_HW_PWRDN_CFG0 : Z := 0x52C.
Definition PLLC4_BASE : Z := 0x5A4.
Definition PLLC_MISC_2 : Z := 0x5D0.
Definition CLK_SOURCE_I2C6 : Z := 0x65C.
Definition CLK_SOURCE_SDMMC_LEGACY_TM : Z := 0x694.
Definition CLK_SOURCE_UARTAPE : Z := 0x710.
Definition CLK_NO_SOURCE : Z := 0.
Definition CLK_NOT_USED : Z := 0.

Definition PLLCX_BASE_LOCK : Z := BIT 27.
Definition PLLCX_BASE_REF_DIS : Z := BIT 29.
Definition PLLCX_BASE_ENABLE : Z := BIT 30.
Definition PLLC_OUT1_RSTN_CLR : Z := BIT 0.
Definition PLLC_OUT1_CLKEN : Z := BIT 1.
Definition PLLC_MISC1_IDDQ : Z := BIT 27.
Definition PLLC_MISC_RESET : Z := BIT 30.
Definition PLLC4_BASE_IDDQ : Z := BIT 18.
Definition UTMIPLL_LOCK : Z := BIT 31.
Definition PTO_CNT_EN : Z := BIT 9.
Definition PTO_CNT_RST : Z := BIT 10.
Definition PTO_CLK_ENABLE : Z := BIT 13.
Definition PTO_SRC_SEL_SHIFT : Z := 14.
Definition PTO_SRC_SEL_MASK : Z := 0x1FF.
Definition PTO_DIV_SEL_DIV1 : Z := Z.shiftl 1 23.
Definition PTO_CLK_CNT_BUSY : Z := BIT 31.
Definition PTO_CLK_CNT : Z := 0xFFFFFF.
Definition OSC_FREQ_DET_TRIG : Z := BIT 31.
Definition OSC_FREQ_DET_BUSY : Z := BIT 31.
Definition OSC_FREQ_DET_CNT : Z := 0xFFFF.

Definition SDMMC_3 : Z := 2.
Definition CLK_H_KFUSE : Z := 8.
Definition CLK_L_SDMMC1 : Z := 14.
Definition CLK_L_SDMMC2 : Z := 9.
Definition CLK_U_SDMMC3 : Z := 5.
Definition CLK_L_SDMMC4 : Z := 15.

(** [~x] on u32. *)
Definition not32 (x : Z) : Z := u32 (Z.lnot x).

(** ** Descriptors *)

Record clock_t := Clock {
  c_reset : Z; c_enable : Z; c_source : Z; c_index : Z; c_src : Z; c_div : Z
}.

Definition _clock_uart : list clock_t :=
  [ Clock RST_DEVICES_L CLK_OUT_ENB_L CLK_SOURCE_UARTA 6 0 2;
    Clock RST_DEVICES_L CLK_OUT_ENB_L CLK_SOURCE_UARTB 7 0 2;
    Clock RST_DEVICES_H CLK_OUT_ENB_H CLK_SOURCE_UARTC 23 0 2;
    Clock RST_DEVICES_U CLK_OUT_ENB_U CLK_SOURCE_UARTD 1 0 2;
    Clock RST_DEVICES_Y CLK_OUT_ENB_Y CLK_SOURCE_UARTAPE 20 0 2 ].
Definition _clock_i2c : list clock_t :=
  [ Clock RST_DEVICES_L CLK_OUT_ENB_L CLK_SOURCE_I2C1 12 0 19;
    Clock RST_DEVICES_H CLK_OUT_ENB_H CLK_SOURCE_I2C2 22 0 4;
    Clock RST_DEVICES_U CLK_OUT_ENB_U CLK_SOURCE_I2C3 3 0 4;
    Clock RST_DEVICES_V CLK_OUT_ENB_V CLK_SOURCE_I2C4 7 0 19;
    Clock RST_DEVICES_H CLK_OUT_ENB_H CLK_SOURCE_I2C5 15 0 4;
    Clock RST_DEVICES_X CLK_OUT_ENB_X CLK_SOURCE_I2C6 6 0 19 ].
Definition _clock_se := Clock RST_DEVICES_V CLK_OUT_ENB_V CLK_SOURCE_SE 31 0 0.
Definition _clock_tzram := Clock RST_DEVICES_V CLK_OUT_ENB_V CLK_NO_SOURCE 30 0 0.
Definition _clock_host1x := Clock RST_DEVICES_L CLK_OUT_ENB_L CLK_SOURCE_HOST1X 28 4 3.
Definition _clock_tsec := Clock RST_DEVICES_U CLK_OUT_ENB_U CLK_SOURCE_TSEC 19 0 2.
Definition _clock_sor_safe := Clock RST_DEVICES_Y CLK_OUT_ENB_Y CLK_NO_SOURCE 30 0 0.
Definition _clock_sor0 := Clock RST_DEVICES_X CLK_OUT_ENB_X CLK_NOT_USED 22 0 0.
Definition _clock_sor1 := Clock RST_DEVICES_X CLK_OUT_ENB_X CLK_SOURCE_SOR1 23 0 2.
Definition _clock_kfuse := Clock RST_DEVICES_H CLK_OUT_ENB_H CLK_NO_SOURCE CLK_H_KFUSE 0 0.
Definition _clock_cl_dvfs := Clock RST_DEVICES_W CLK_OUT_ENB_W CLK_NO_SOURCE 27 0 0.
Definition _clock_coresight := Clock RST_DEVICES_U CLK_OUT_ENB_U CLK_SOURCE_CSITE 9 0 4.
Definition _clock_pwm := Clock RST_DEVICES_L CLK_OUT_ENB_L CLK_SOURCE_PWM 17 6 4.
Definition _clock_sdmmc_legacy_tm :=
  Clock RST_DEVICES_Y CLK_OUT_ENB_Y CLK_SOURCE_SDMMC_LEGACY_TM 1 4 66.

(** The oscillators: frequency in kHz and the range of their counts. *)
Record clock_osc_t := Osc { o_freq : Z; o_min : Z; o_max : Z }.
Definition _clock_osc_cnt : list clock_osc_t :=
  [ Osc 12000 706 757; Osc 13000 766 820; Osc 16800 991 1059; Osc 19200 1133 1210;
    Osc 26000 1535 1638; Osc 38400 2268 2418; Osc 48000 2836 3023 ].

(** ** Peripheral clocks *)

Section Clock.
Context {D : Type} `{Mmio D}.

(** [CLOCK(reg) = f(CLOCK(reg))] *)
Definition clock_upd (reg : Z) (f : Z -> Z) : M D unit :=
  v ← rd (CLOCK reg); wr (CLOCK reg) (f v).
Definition clock_or (reg x : Z) : M D unit := clock_upd reg (fun v => Z.lor v x).
Definition clock_and (reg x : Z) : M D unit := clock_upd reg (fun v => Z.land v x).
(** [msleep] of utils/util.h. *)
Definition clk_msleep (ms : Z) : M D unit := usleep (u32 (ms * 1000)).

Definition clock_enable (clk : clock_t) : M D unit :=
  let b := BIT (c_index clk) in
  clock_upd (c_reset clk) (fun v => Z.lor (Z.land v (not32 b)) b);;
  clock_and (c_enable clk) (not32 b);;
  (if c_true (c_source clk)
   then wr (CLOCK (c_source clk)) (Z.lor (c_div clk) (Z.shiftl (c_src clk) 29)) else mret tt);;
  clock_upd (c_enable clk) (fun v => Z.lor (Z.land v (not32 b)) b);;
  usleep 2;;
  clock_and (c_reset clk) (not32 b).

Definition clock_disable (clk : clock_t) : M D unit :=
  let b := BIT (c_index clk) in
  clock_upd (c_reset clk) (fun v => Z.lor (Z.land v (not32 b)) b);;
  clock_and (c_enable clk) (not32 b).

Definition clock_enable_fuse (enable : bool) : M D unit :=
  clock_upd MISC_CLK_ENB (fun v => Z.lor (Z.land v 0xEFFFFFFF) (Z.shiftl (c_bool enable) 28)).

(** A table entry; an index outside the table is an overrun. *)
Definition entry (l : list clock_t) (idx : Z) : M D clock_t :=
  match l !! Z.to_nat idx with Some c => mret c | None => overrun end.

Definition clock_enable_uart (idx : Z) : M D unit := c ← entry _clock_uart idx; clock_enable c.
Definition clock_disable_uart (idx : Z) : M D unit := c ← entry _clock_uart idx; clock_disable c.

Definition UART_SRC_CLK_DIV_EN : Z := BIT 24.
Definition clock_uart_use_src_div (idx baud : Z) : M D Z :=
  c ← entry _clock_uart idx;
  v ← rd (CLOCK (c_source c));
  let clk_src_div := Z.land v 0xE0000000 in
  if baud =? 1000000
  then wr (CLOCK (c_source c)) (Z.lor (Z.lor clk_src_div UART_SRC_CLK_DIV_EN) 49);; mret 0
  else wr (CLOCK (c_source c)) (Z.lor clk_src_div 2);; mret 1.

Definition clock_enable_i2c (idx : Z) : M D unit := c ← entry _clock_i2c idx; clock_enable c.
Definition clock_disable_i2c (idx : Z) : M D unit := c ← entry _clock_i2c idx; clock_disable c.

Definition clock_enable_se : M D unit :=
  clock_enable _clock_se;;
  chip ← hw_get_chip_id;
  if chip =? GP_HIDREV_MAJOR_T210B01 then clock_or CLK_SOURCE_SE 0x100 else mret tt.
Definition clock_enable_tzram : M D unit := clock_enable _clock_tzram.
Definition clock_enable_host1x : M D unit := clock_enable _clock_host1x.
Definition clock_disable_host1x : M D unit := clock_disable _clock_host1x.
Definition clock_enable_tsec : M D unit := clock_enable _clock_tsec.
Definition clock_disable_tsec : M D unit := clock_disable _clock_tsec.
Definition clock_enable_sor_safe : M D unit := clock_enable _clock_sor_safe.
Definition clock_disable_sor_safe : M D unit := clock_disable _clock_sor_safe.
Definition clock_enable_sor0 : M D unit := clock_enable _clock_sor0.
Definition clock_disable_sor0 : M D unit := clock_disable _clock_sor0.
Definition clock_enable_sor1 : M D unit := clock_enable _clock_sor1.
Definition clock_disable_sor1 : M D unit := clock_disable _clock_sor1.

Definition clock_enable_kfuse : M D unit :=
  wr (CLOCK RST_DEV_H_SET) (BIT CLK_H_KFUSE);;
  wr (CLOCK CLK_ENB_H_CLR) (BIT CLK_H_KFUSE);;
  wr (CLOCK CLK_ENB_H_SET) (BIT CLK_H_KFUSE);;
  usleep 10;;
  wr (CLOCK RST_DEV_H_CLR) (BIT CLK_H_KFUSE);;
  usleep 20.
Definition clock_disable_kfuse : M D unit := clock_disable _clock_kfuse.
Definition clock_enable_cl_dvfs : M D unit := clock_enable _clock_cl_dvfs.
Definition clock_disable_cl_dvfs : M D unit := clock_disable _clock_cl_dvfs.
Definition clock_enable_coresight : M D unit := clock_enable _clock_coresight.
Definition clock_disable_coresight : M D unit := clock_disable _clock_coresight.
Definition clock_enable_pwm : M D unit := clock_enable _clock_pwm.
Definition clock_disable_pwm : M D unit := clock_disable _clock_pwm.

(** ** PLLs *)

(** [while ((CLOCK(reg) & bit) != 0 is not stop) ;] *)
Fixpoint poll (fuel : nat) (reg bit : Z) (stop : bool) : M D unit :=
  match fuel with
  | O => nofuel
  | S fuel =>
      v ← rd (CLOCK reg);
      if Bool.eqb (c_true (Z.land v bit)) stop then mret tt else poll fuel reg bit stop
  end.

Definition clock_enable_pllc (fuel : nat) (divn : Z) : M D unit :=
  v ← rd (CLOCK PLLC_BASE);
  let pll_divn_curr := u8 (Z.land (Z.shiftr v 10) 0xFF) in
  v ← rd (CLOCK PLLC_BASE);
  if c_true (Z.land v PLLCX_BASE_ENABLE) && (pll_divn_curr =? divn) then mret tt
  else
    clock_upd PLLC_MISC (fun v => Z.lor (Z.land (Z.land v 0xFFF0000F) (not32 PLLC_MISC_RESET))
                                        (Z.shiftl 0x80000 4));;
    clock_or PLLC_MISC_2 (Z.shiftl 0xF0 8);;
    clock_and PLLC_BASE (not32 PLLCX_BASE_ENABLE);;
    clock_and PLLC_MISC_1 (not32 PLLC_MISC1_IDDQ);;
    usleep 10;;
    wr (CLOCK PLLC_BASE) (Z.lor (u32 (Z.shiftl divn 10)) 4);;
    clock_or PLLC_BASE PLLCX_BASE_ENABLE;;
    poll fuel PLLC_BASE PLLCX_BASE_LOCK true;;
    wr (CLOCK PLLC_OUT) (BIT 8);;
    clock_or PLLC_OUT (Z.lor PLLC_OUT1_CLKEN PLLC_OUT1_RSTN_CLR);;
    clk_msleep 1.

Definition clock_disable_pllc : M D unit :=
  clock_and PLLC_OUT (not32 (Z.lor PLLC_OUT1_CLKEN PLLC_OUT1_RSTN_CLR));;
  clock_and PLLC_BASE (not32 PLLCX_BASE_ENABLE);;
  clock_or PLLC_BASE PLLCX_BASE_REF_DIS;;
  clock_or PLLC_MISC_1 PLLC_MISC1_IDDQ;;
  clock_or PLLC_MISC PLLC_MISC_RESET;;
  usleep 10.

(** [while (!(PLLU_BASE & LOCK)) if (TMR > timeout) break;] *)
Fixpoint pllu_wait (fuel : nat) (timeout : Z) : M D unit :=
  match fuel with
  | O => nofuel
  | S fuel =>
      v ← rd (CLOCK PLLU_BASE);
      if c_true (Z.land v PLLCX_BASE_LOCK) then mret tt
      else
        t ← get_tmr_us;
        if timeout <? t then mret tt else pllu_wait fuel timeout
  end.

Definition clock_enable_pllu (fuel : nat) : M D unit :=
  clock_or PLLU_MISC (BIT 29);;
  v ← rd (CLOCK PLLU_BASE);
  let pllu_cfg := Z.lor (Z.lor (Z.lor (Z.lor (Z.land v 0xFFE00000) (BIT 24)) (Z.shiftl 1 16))
                         (Z.shiftl 0x19 8)) 2 in
  wr (CLOCK PLLU_BASE) pllu_cfg;;
  wr (CLOCK PLLU_BASE) (Z.lor pllu_cfg PLLCX_BASE_ENABLE);;
  t ← get_tmr_us;
  pllu_wait fuel (u32 (t + 1300));;
  usleep 10;;
  clock_or PLLU_BASE 0x2E00000.

Definition clock_disable_pllu : M D unit :=
  clock_and PLLU_BASE (not32 0x2E00000);;
  clock_and PLLU_BASE (not32 0x40000000);;
  clock_and PLLU_MISC (not32 0x20000000).

(** [while (!(UTMIPLL_HW_PWRDN_CFG0 & UTMIPLL_LOCK) && retries)] *)
Fixpoint utmipll_wait (retries : nat) : M D unit :=
  v ← rd (CLOCK UTMIPLL_HW_PWRDN_CFG0);
  if c_true (Z.land v UTMIPLL_LOCK) then mret tt
  else match retries with
       | O => mret tt
       | S retries => usleep 1;; utmipll_wait retries
       end.

Definition clock_enable_utmipll : M D unit :=
  clock_upd UTMIP_PLL_CFG0 (fun v => Z.lor (Z.lor (Z.land v 0xFF0000FF) (Z.shiftl 25 16)) (Z.shiftl 1 8));;
  clock_upd UTMIP_PLL_CFG2 (fun v => Z.lor (Z.land v 0xFF00003F) (Z.shiftl 24 18));;
  clock_upd UTMIP_PLL_CFG1 (fun v => Z.lor (Z.lor (Z.land v 0x7FFA000) (Z.shiftl 1 15)) 375);;
  utmipll_wait 10.

(** ** Frequency counters *)

(** The frequencies in kHz that belong to the counts. *)
Definition osc_freq (cnt : Z) : Z :=
  match List.find (fun o => (o_min o <=? cnt) && (cnt <=? o_max o)) _clock_osc_cnt with
  | Some o => o_freq o
  | None => 0
  end.
Definition dev_freq (cnt : Z) : Z := Z.lor (u32 (Z.shiftl cnt 8)) 0x3E / 125.

Definition clock_get_osc_freq (fuel : nat) : M D Z :=
  wr (CLOCK OSC_FREQ_DET) (Z.lor OSC_FREQ_DET_TRIG (2 - 1));;
  poll fuel OSC_FREQ_DET_STATUS OSC_FREQ_DET_BUSY false;;
  v ← rd (CLOCK OSC_FREQ_DET_STATUS);
  let cnt := Z.land v OSC_FREQ_DET_CNT in
  wr (CLOCK OSC_FREQ_DET) 0;;
  mret (osc_freq cnt).

Definition clock_get_dev_freq (fuel : nat) (id : Z) : M D Z :=
  let val := Z.lor (Z.lor (Z.lor (Z.shiftl (Z.land id PTO_SRC_SEL_MASK) PTO_SRC_SEL_SHIFT)
                                 PTO_DIV_SEL_DIV1) PTO_CLK_ENABLE) (16 - 1) in
  wr (CLOCK PTO_CLK_CNT_CNTL) val;; usleep 2;;
  wr (CLOCK PTO_CLK_CNT_CNTL) (Z.lor val PTO_CNT_RST);; usleep 2;;
  wr (CLOCK PTO_CLK_CNT_CNTL) val;; usleep 2;;
  wr (CLOCK PTO_CLK_CNT_CNTL) (Z.lor val PTO_CNT_EN);; usleep 502;;
  poll fuel PTO_CLK_CNT_STATUS PTO_CLK_CNT_BUSY false;;
  v ← rd (CLOCK PTO_CLK_CNT_STATUS);
  let cnt := Z.land v PTO_CLK_CNT in
  wr (CLOCK PTO_CLK_CNT_CNTL) 0;;
  mret (dev_freq cnt).

End Clock.

(** ** SDMMC clocks *)

Record clock_sdmmc_t := ClockSdmmc { sc_clock : Z; sc_real_clock : Z }.

(** The device and the statics of the file. *)
Record clocks (D : Type) := Clocks {
  clk_dev : D; pllc4_enabled : Z; _clock_sdmmc_table : list clock_sdmmc_t
}.
Arguments Clocks {D}.
Arguments clk_dev {D}.
Arguments pllc4_enabled {D}.
Arguments _clock_sdmmc_table {D}.

Definition clocks_init {D} (d : D) : clocks D := Clocks d 0 (replicate 4 (ClockSdmmc 0 0)).

Section SdmmcClock.
Context {D : Type} `{Mmio D}.

Definition on_car {A} (m : M D A) : M (clocks D) A := fun s =>
  let '(r, d) := m (clk_dev s) in (r, Clocks d (pllc4_enabled s) (_clock_sdmmc_table s)).
Definition set_pllc4 (f : Z -> Z) : M (clocks D) unit :=
  modify (fun s => Clocks (clk_dev s) (f (pllc4_enabled s)) (_clock_sdmmc_table s)).

Definition PLLC4_ENABLED : Z := BIT 31.
Definition PLLC4_IN_USE : Z := not32 PLLC4_ENABLED.

Definition _clock_enable_pllc4 (fuel : nat) (mask : Z) : M (clocks D) unit :=
  set_pllc4 (fun e => Z.lor e mask);;
  s ← get;
  if c_true (Z.land (pllc4_enabled s) PLLC4_ENABLED) then mret tt
  else
    on_car (
      clock_and PLLC4_BASE (not32 PLLCX_BASE_ENABLE);;
      clock_and PLLC4_BASE (not32 PLLC4_BASE_IDDQ);;
      usleep 10;;
      wr (CLOCK PLLC4_BASE) (Z.lor (Z.shiftl 104 8) 4);;
      clock_or PLLC4_BASE PLLCX_BASE_ENABLE;;
      poll fuel PLLC4_BASE PLLCX_BASE_LOCK true;;
      clk_msleep 1);;
    set_pllc4 (fun e => Z.lor e PLLC4_ENABLED).

Definition _clock_disable_pllc4 (mask : Z) : M (clocks D) unit :=
  set_pllc4 (fun e => Z.land e (not32 mask));;
  s ← get;
  if c_true (Z.land (pllc4_enabled s) PLLC4_IN_USE) ||
     negb (c_true (Z.land (pllc4_enabled s) PLLC4_ENABLED)) then mret tt
  else
    on_car (
      clk_msleep 1;;
      clock_and PLLC4_BASE (not32 PLLCX_BASE_ENABLE);;
      clock_or PLLC4_BASE PLLC4_BASE_IDDQ;;
      usleep 10);;
    set_pllc4 (fun _ => 0).

Definition _clock_sdmmc_is_reset (id : Z) : M D Z :=
  if id =? SDMMC_1 then v ← rd (CLOCK RST_DEVICES_L); mret (Z.land v (BIT CLK_L_SDMMC1))
  else if id =? SDMMC_2 then v ← rd (CLOCK RST_DEVICES_L); mret (Z.land v (BIT CLK_L_SDMMC2))
  else if id =? SDMMC_3 then v ← rd (CLOCK RST_DEVICES_U); mret (Z.land v (BIT CLK_U_SDMMC3))
  else if id =? SDMMC_4 then v ← rd (CLOCK RST_DEVICES_L); mret (Z.land v (BIT CLK_L_SDMMC4))
  else mret 0.

Definition _clock_sdmmc_set_reset (id : Z) : M D unit :=
  if id =? SDMMC_1 then wr (CLOCK RST_DEV_L_SET) (BIT CLK_L_SDMMC1)
  else if id =? SDMMC_2 then wr (CLOCK RST_DEV_L_SET) (BIT CLK_L_SDMMC2)
  else if id =? SDMMC_3 then wr (CLOCK RST_DEV_U_SET) (BIT CLK_U_SDMMC3)
  else if id =? SDMMC_4 then wr (CLOCK RST_DEV_L_SET) (BIT CLK_L_SDMMC4)
  else mret tt.

Definition _clock_sdmmc_clear_reset (id : Z) : M D unit :=
  if id =? SDMMC_1 then wr (CLOCK RST_DEV_L_CLR) (BIT CLK_L_SDMMC1)
  else if id =? SDMMC_2 then wr (CLOCK RST_DEV_L_CLR) (BIT CLK_L_SDMMC2)
  else if id =? SDMMC_3 then wr (CLOCK RST_DEV_U_CLR) (BIT CLK_U_SDMMC3)
  else if id =? SDMMC_4 then wr (CLOCK RST_DEV_L_CLR) (BIT CLK_L_SDMMC4)
  else mret tt.

Definition _clock_sdmmc_is_enabled (id : Z) : M D Z :=
  if id =? SDMMC_1 then v ← rd (CLOCK CLK_OUT_ENB_L); mret (Z.land v (BIT CLK_L_SDMMC1))
  else if id =? SDMMC_2 then v ← rd (CLOCK CLK_OUT_ENB_L); mret (Z.land v (BIT CLK_L_SDMMC2))
  else if id =? SDMMC_3 then v ← rd (CLOCK CLK_OUT_ENB_U); mret (Z.land v (BIT CLK_U_SDMMC3))
  else if id =? SDMMC_4 then v ← rd (CLOCK CLK_OUT_ENB_L); mret (Z.land v (BIT CLK_L_SDMMC4))
  else mret 0.

Definition _clock_sdmmc_set_enable (id : Z) : M D unit :=
  if id =? SDMMC_1 then wr (CLOCK CLK_ENB_L_SET) (BIT CLK_L_SDMMC1)
  else if id =? SDMMC_2 then wr (CLOCK CLK_ENB_L_SET) (BIT CLK_L_SDMMC2)
  else if id =? SDMMC_3 then wr (CLOCK CLK_ENB_U_SET) (BIT CLK_U_SDMMC3)
  else if id =? SDMMC_4 then wr (CLOCK CLK_ENB_L_SET) (BIT CLK_L_SDMMC4)
  else mret tt.

Definition _clock_sdmmc_clear_enable (id : Z) : M D unit :=
  if id =? SDMMC_1 then wr (CLOCK CLK_ENB_L_CLR) (BIT CLK_L_SDMMC1)
  else if id =? SDMMC_2 then wr (CLOCK CLK_ENB_L_CLR) (BIT CLK_L_SDMMC2)
  else if id =? SDMMC_3 then wr (CLOCK CLK_ENB_U_CLR) (BIT CLK_U_SDMMC3)
  else if id =? SDMMC_4 then wr (CLOCK CLK_ENB_L_CLR) (BIT CLK_L_SDMMC4)
  else mret tt.

Definition _clock_sdmmc_config_legacy_tm : M D unit :=
  let clk := _clock_sdmmc_legacy_tm in
  v ← rd (CLOCK (c_enable clk));
  if negb (c_true (Z.land v (BIT (c_index clk)))) then clock_enable clk else mret tt.

Definition SRC_PLLP_OUT0 : Z := 0.
Definition SRC_PLLC4_OUT2 : Z := 3.
Definition SRC4_PLLC4_OUT2_LJ : Z := 1.

(** The switch of [_clock_sdmmc_config_clock_host]: [*pclock], divisor, source. *)
Definition host_clock (id val : Z) : Z * Z * Z :=
  if val =? 25000 then (24728, 31, SRC_PLLP_OUT0)
  else if val =? 26000 then (25500, 30, SRC_PLLP_OUT0)
  else if val =? 40800 then (40800, 18, SRC_PLLP_OUT0)
  else if val =? 50000 then (48000, 15, SRC_PLLP_OUT0)
  else if val =? 52000 then (51000, 14, SRC_PLLP_OUT0)
  else if val =? 100000 then (99840, 2, SRC_PLLC4_OUT2)
  else if val =? 164000 then (163200, 3, SRC_PLLP_OUT0)
  else if val =? 200000 then
    (199680, 0,
     if id =? SDMMC_1 then SRC_PLLC4_OUT2
     else if id =? SDMMC_2 then SRC4_PLLC4_OUT2_LJ
     else if id =? SDMMC_3 then SRC_PLLC4_OUT2
     else if id =? SDMMC_4 then SRC4_PLLC4_OUT2_LJ
     else SRC_PLLP_OUT0)
  else (24728, 31, SRC_PLLP_OUT0).

Definition set_table (id : Z) (c : clock_sdmmc_t) : M (clocks D) unit :=
  modify (fun s => Clocks (clk_dev s) (pllc4_enabled s) (<[Z.to_nat id := c]> (_clock_sdmmc_table s))).

Definition source_reg (id : Z) : Z :=
  if id =? SDMMC_1 then CLK_SOURCE_SDMMC1
  else if id =? SDMMC_2 then CLK_SOURCE_SDMMC2
  else if id =? SDMMC_3 then CLK_SOURCE_SDMMC3 else CLK_SOURCE_SDMMC4.

(** What is stored at [pclock] when it returns 1. *)
Definition _clock_sdmmc_config_clock_host (fuel : nat) (id val : Z) : M (clocks D) (option Z) :=
  if SDMMC_4 <? id then mret None
  else
    let '(pclock, divisor, source) := host_clock id val in
    set_table id (ClockSdmmc val pclock);;
    (if c_true source then _clock_enable_pllc4 fuel (BIT id) else mret tt);;
    on_car (
      _clock_sdmmc_config_legacy_tm;;
      wr (CLOCK (source_reg id)) (Z.lor (u32 (Z.shiftl source 29)) divisor));;
    mret (Some pclock).

(** Returns what [*pclock] is then. *)
Definition clock_sdmmc_config_clock_source (fuel : nat) (pclock id val : Z) : M (clocks D) Z :=
  s ← get;
  match _clock_sdmmc_table s !! Z.to_nat id with
  | None => overrun
  | Some c =>
      if sc_clock c =? val then mret (sc_real_clock c)
      else
        is_enabled ← on_car (_clock_sdmmc_is_enabled id);
        (if c_true is_enabled then on_car (_clock_sdmmc_clear_enable id) else mret tt);;
        r ← _clock_sdmmc_config_clock_host fuel id val;
        (if c_true is_enabled then on_car (_clock_sdmmc_set_enable id) else mret tt);;
        on_car (_clock_sdmmc_is_reset id);;
        mret (default pclock r)
  end.

(** [None] when neither [*pclock] nor [*pdivisor] is written. *)
Definition clock_sdmmc_get_card_clock_div (type : Z) : option (Z * Z) :=
  if type =? TIMING_MMC_ID then Some (26000, 66)
  else if type =? TIMING_MMC_LS26 then Some (26000, 1)
  else if type =? TIMING_MMC_HS52 then Some (52000, 1)
  else if (type =? TIMING_MMC_HS200) || (type =? TIMING_MMC_HS400) || (type =? TIMING_UHS_SDR104)
    then Some (200000, 1)
  else if type =? TIMING_SD_ID then Some (25000, 64)
  else if (type =? TIMING_SD_DS12) || (type =? TIMING_UHS_SDR12) then Some (25000, 1)
  else if (type =? TIMING_SD_HS25) || (type =? TIMING_UHS_SDR25) then Some (50000, 1)
  else if type =? TIMING_UHS_SDR50 then Some (100000, 1)
  else if type =? TIMING_UHS_SDR82 then Some (164000, 1)
  else if type =? TIMING_UHS_DDR50 then Some (40800, 1)
  else if type =? TIMING_MMC_HS102 then Some (200000, 2)
  else None.

Definition clock_sdmmc_is_not_reset_and_enabled (id : Z) : M D bool :=
  r ← _clock_sdmmc_is_reset id;
  if c_true r then mret false else e ← _clock_sdmmc_is_enabled id; mret (c_true e).

(** The division by a clock of 0, for an [id] out of range, has no meaning. *)
Definition clock_sdmmc_enable (fuel : nat) (id val : Z) : M (clocks D) unit :=
  e ← on_car (_clock_sdmmc_is_enabled id);
  (if c_true e then on_car (_clock_sdmmc_clear_enable id) else mret tt);;
  on_car (_clock_sdmmc_set_reset id);;
  r ← _clock_sdmmc_config_clock_host fuel id val;
  on_car (_clock_sdmmc_set_enable id);;
  on_car (_clock_sdmmc_is_reset id);;
  let clock := default 0 r in
  (if clock =? 0 then overrun else on_car (usleep (u32 (100000 + clock - 1) / clock)));;
  on_car (_clock_sdmmc_clear_reset id);;
  on_car (_clock_sdmmc_is_reset id);;
  mret tt.

Definition clock_sdmmc_disable (id : Z) : M (clocks D) unit :=
  on_car (_clock_sdmmc_set_reset id);;
  on_car (_clock_sdmmc_clear_enable id);;
  on_car (_clock_sdmmc_is_reset id);;
  _clock_disable_pllc4 (BIT id).

End SdmmcClock.

(** ** The controller *)

(** The registers the theorems speak of: resets, enables, sources and the
    PLLC4 base register.  A reset or enable register can be written whole and
    through a register that sets and one that clears bits. *)
Definition reset_regs : list Z :=
  [RST_DEVICES_L; RST_DEVICES_H; RST_DEVICES_U; RST_DEVICES_V; RST_DEVICES_W; RST_DEVICES_X; RST_DEVICES_Y].
Definition enable_regs : list Z :=
  [CLK_OUT_ENB_L; CLK_OUT_ENB_H; CLK_OUT_ENB_U; CLK_OUT_ENB_V; CLK_OUT_ENB_W; CLK_OUT_ENB_X; CLK_OUT_ENB_Y].
Definition all_clocks : list clock_t :=
  _clock_uart ++ _clock_i2c ++
  [_clock_se; _clock_tzram; _clock_host1x; _clock_tsec; _clock_sor_safe; _clock_sor0; _clock_sor1;
   _clock_kfuse; _clock_cl_dvfs; _clock_coresight; _clock_pwm; _clock_sdmmc_legacy_tm].
Definition source_regs : list Z :=
  [CLK_SOURCE_SDMMC1; CLK_SOURCE_SDMMC2; CLK_SOURCE_SDMMC3; CLK_SOURCE_SDMMC4] ++
  List.filter c_true (c_source <$> all_clocks).
Definition plain_regs : list Z := reset_regs ++ enable_regs ++ source_regs.

(** The registers that set and clear bits of [r]. *)
Definition set_clr (r : Z) : option (Z * Z) :=
  if r =? RST_DEVICES_L then Some (RST_DEV_L_SET, RST_DEV_L_CLR)
  else if r =? RST_DEVICES_H then Some (RST_DEV_H_SET, RST_DEV_H_CLR)
  else if r =? RST_DEVICES_U then Some (RST_DEV_U_SET, RST_DEV_U_CLR)
  else if r =? CLK_OUT_ENB_L then Some (CLK_ENB_L_SET, CLK_ENB_L_CLR)
  else if r =? CLK_OUT_ENB_H then Some (CLK_ENB_H_SET, CLK_ENB_H_CLR)
  else if r =? CLK_OUT_ENB_U then Some (CLK_ENB_U_SET, CLK_ENB_U_CLR)
  else None.

(** What a write of [v] at address [a] makes of register [r] with contents [old]. *)
Definition car_write (a v : Z) (r old : Z) : Z :=
  if a =? CLOCK r then v
  else match set_clr r with
       | Some (s, c) =>
           if a =? CLOCK s then Z.lor old v
           else if a =? CLOCK c then Z.land old (not32 v) else old
       | None => old
       end.

Definition plain (r : Z) : bool := existsb (Z.eqb r) plain_regs.
Definition ctl (r : Z) : bool := existsb (Z.eqb r) (PLLC4_BASE :: plain_regs).

(** A device that contains the controller.  The lock bit of PLLC4 is the
    hardware's: it shows within [lock_wait] reads once the PLL is enabled. *)
Class Car (D : Type) `{Mmio D} := {
  creg : D -> Z -> Z;
  creg_range : forall d r, ctl r -> 0 <= creg d r < 0x100000000;
  creg_rd : forall a d r, ctl r -> creg (snd (rd32 a d)) r = creg d r;
  creg_us : forall d r, ctl r -> creg (snd (tmr_us d)) r = creg d r;
  creg_sleep : forall n d r, ctl r -> creg (sleep_us n d) r = creg d r;
  creg_wr : forall a v d r, ctl r -> creg (wr32 a v d) r = car_write a (u32 v) r (creg d r);
  creg_val : forall d r, plain r -> fst (rd32 (CLOCK r) d) = creg d r;
  creg_pllc4 : forall d b, 0 <= b -> b <> 27 ->
    Z.testbit (fst (rd32 (CLOCK PLLC4_BASE) d)) b = Z.testbit (creg d PLLC4_BASE) b;
  lock_wait : D -> nat;
  lock_max : nat;
  lock_bound : forall d, (lock_wait d <= lock_max)%nat;
  lock_rd : forall d, Z.testbit (creg d PLLC4_BASE) 30 = true ->
    Z.testbit (fst (rd32 (CLOCK PLLC4_BASE) d)) 27 = true \/
    (lock_wait (snd (rd32 (CLOCK PLLC4_BASE) d)) < lock_wait d)%nat
}.

(** Total correctness: [m] returns from [d] and [Q] holds then. *)
Definition runs {S A} (m : M S A) (s : S) (Q : A -> S -> Prop) : Prop :=
  exists x s', m s = (Ret x, s') /\ Q x s'.

Lemma runs_bind {S A B} (m : M S A) (k : A -> M S B) s Q :
  runs m s (fun x s' => runs (k x) s' Q) -> runs (m ≫= k) s Q.
Proof.
  intros (x & s1 & E1 & y & s2 & E2 & Hq). exists y, s2. by rewrite (bind_run _ _ _ _ _ E1).
Qed.
Lemma runs_mret {S A} (x : A) (s : S) (Q : A -> S -> Prop) : Q x s -> runs (mret x) s Q.
Proof. intros Hq. by exists x, s. Qed.
Lemma runs_weaken {S A} (m : M S A) s (P Q : A -> S -> Prop) :
  runs m s P -> (forall x s', P x s' -> Q x s') -> runs m s Q.
Proof. intros (x & s' & E & Hp) Hpq. exists x, s'. auto. Qed.

(** ** Bits *)

Lemma BIT_pow b : 0 <= b < 32 -> BIT b = 2 ^ b.
Proof.
  intros Hb. unfold BIT. rewrite Z.shiftl_1_l. apply u32_id.
  split; [apply Z.pow_nonneg; lia|change 4294967296 with (2 ^ 32); apply Z.pow_lt_mono_r; lia].
Qed.
Lemma BIT_testbit b n : 0 <= b < 32 -> Z.testbit (BIT b) n = (b =? n).
Proof. intros Hb. rewrite BIT_pow by done. apply Z.pow2_bits_eqb. lia. Qed.
Lemma u32_testbit v n : 0 <= n -> Z.testbit (u32 v) n = (n <? 32) && Z.testbit v n.
Proof.
  intros Hn. unfold u32. change 4294967296 with (2 ^ 32). destruct (Z.ltb_spec n 32); cbn [andb].
  - apply Z.mod_pow2_bits_low. lia.
  - apply Z.mod_pow2_bits_high. lia.
Qed.
Lemma not32_testbit v n : 0 <= n -> Z.testbit (not32 v) n = (n <? 32) && negb (Z.testbit v n).
Proof. intros Hn. unfold not32. by rewrite u32_testbit, Z.lnot_spec. Qed.
Lemma word_testbit v n : 0 <= v < 0x100000000 -> 32 <= n -> Z.testbit v n = false.
Proof.
  intros Hv Hn. rewrite <- (u32_id v) by lia. rewrite u32_testbit by lia.
  by rewrite (proj2 (Z.ltb_ge n 32)).
Qed.
Lemma setbit_testbit v b n : 0 <= b -> Z.testbit (Z.setbit v b) n = (b =? n) || Z.testbit v n.
Proof. intros Hb. apply Z.setbit_eqb. done. Qed.
Lemma clearbit_testbit v b n : Z.testbit (Z.clearbit v b) n = Z.testbit v n && negb (b =? n).
Proof. apply Z.clearbit_eqb. Qed.

(** Compare words bit by bit. *)
Ltac by_bits :=
  apply Z.bits_inj'; intros ?n ?Hn;
  repeat (rewrite ?setbit_testbit, ?clearbit_testbit, ?u32_testbit, ?Z.lor_spec, ?Z.land_spec,
            ?not32_testbit, ?BIT_testbit by lia);
  repeat match goal with
  | |- context [?n <? 32] => destruct (Z.ltb_spec n 32)
  | |- context [?b =? ?n] => destruct (Z.eqb_spec b n)
  | Hv : 0 <= ?v < 0x100000000 |- context [Z.testbit ?v ?n] =>
      rewrite (word_testbit v n Hv) by lia
  end; subst; try lia;
  repeat match goal with |- context [Z.testbit ?v ?n] => destruct (Z.testbit v n) end; try done.

Lemma set_word v b : 0 <= v < 0x100000000 -> 0 <= b < 32 ->
  u32 (Z.lor (Z.land v (not32 (BIT b))) (BIT b)) = Z.setbit v b.
Proof. intros Hv Hb. by_bits. Qed.
Lemma clear_word v b : 0 <= v < 0x100000000 -> 0 <= b < 32 ->
  u32 (Z.land v (not32 (BIT b))) = Z.clearbit v b.
Proof. intros Hv Hb. by_bits. Qed.
Lemma or_word v b : 0 <= b < 32 -> Z.lor v (u32 (BIT b)) = Z.setbit v b.
Proof. intros Hb. by_bits. Qed.
Lemma andn_word v b : 0 <= v < 0x100000000 -> 0 <= b < 32 ->
  Z.land v (not32 (u32 (BIT b))) = Z.clearbit v b.
Proof. intros Hv Hb. by_bits. Qed.

(** ** Registers as a map *)

Definition upd (r0 v : Z) (R : Z -> Z) : Z -> Z := fun r => if r0 =? r then v else R r.

Lemma ctl_in r : ctl r -> In r (PLLC4_BASE :: plain_regs).
Proof.
  intros Hr%Is_true_true. apply existsb_exists in Hr as (x & Hx & E%Z.eqb_eq). by subst x.
Qed.
Lemma plain_ctl r : plain r -> ctl r.
Proof. unfold plain, ctl. cbn [existsb]. intros Hr. by destruct (r =? PLLC4_BASE). Qed.

(** No register of the map is one that sets or clears bits of another, and no
    two share one. *)
Lemma ctl_not_set_clr r r0 : ctl r -> ctl r0 ->
  match set_clr r with Some (s, c) => r0 <> s /\ r0 <> c | None => True end.
Proof.
  set (ok := fun r r0 => match set_clr r with Some (s, c) => negb (r0 =? s) && negb (r0 =? c) | None => true end).
  assert (Hall : forallb (fun r => forallb (ok r) (PLLC4_BASE :: plain_regs)) (PLLC4_BASE :: plain_regs) = true)
    by (vm_compute; reflexivity).
  intros Hr%ctl_in Hr0%ctl_in. rewrite forallb_forall in Hall. apply Hall in Hr.
  rewrite forallb_forall in Hr. apply Hr in Hr0. unfold ok in Hr0.
  destruct (set_clr r) as [[s c]|]; [|done]. apply andb_prop in Hr0 as [K1 K2].
  apply negb_true_iff, Z.eqb_neq in K1, K2. done.
Qed.
Lemma set_clr_inj r r' s c s' c' : set_clr r = Some (s, c) -> set_clr r' = Some (s', c') -> s <> c' /\
  (s = s' -> r = r') /\ (c = c' -> r = r').
Proof.
  unfold set_clr. intros E E'.
  repeat match type of E with context [?a =? ?b] => destruct (Z.eqb_spec a b) end; simplify_eq;
  repeat match type of E' with context [?a =? ?b] => destruct (Z.eqb_spec a b) end; simplify_eq;
  (split; [discriminate|]); split; intros; first [congruence|discriminate].
Qed.

Lemma CLOCK_eqb r r' : (CLOCK r =? CLOCK r') = (r =? r').
Proof. unfold CLOCK. destruct (Z.eqb_spec r r'); [apply Z.eqb_eq|apply Z.eqb_neq]; lia. Qed.

Lemma car_write_whole r0 v r old : ctl r0 -> ctl r -> car_write (CLOCK r0) v r old = if r0 =? r then v else old.
Proof.
  intros K0 Hr. unfold car_write. rewrite CLOCK_eqb. destruct (r0 =? r); [done|].
  pose proof (ctl_not_set_clr r r0 Hr K0) as Hn. destruct (set_clr r) as [[s c]|]; [|done].
  rewrite !CLOCK_eqb, !(proj2 (Z.eqb_neq _ _)) by tauto. done.
Qed.
Lemma car_write_set r0 s c v r old : ctl r0 -> ctl r -> set_clr r0 = Some (s, c) ->
  car_write (CLOCK s) v r old = if r0 =? r then Z.lor old v else old.
Proof.
  intros K0 Hr E. unfold car_write. pose proof (ctl_not_set_clr r0 r K0 Hr) as Hn. rewrite E in Hn.
  rewrite CLOCK_eqb, (proj2 (Z.eqb_neq s r)) by (intros ->; tauto).
  destruct (set_clr r) as [[s' c']|] eqn:E'; rewrite ?CLOCK_eqb.
  - pose proof (set_clr_inj _ _ _ _ _ _ E E') as (K1 & K2 & K3).
    destruct (Z.eqb_spec s s') as [Es|Hs].
    + rewrite (proj2 (Z.eqb_eq r0 r)) by auto. done.
    + rewrite (proj2 (Z.eqb_neq s c')) by done.
      destruct (Z.eqb_spec r0 r) as [->|]; [congruence|done].
  - destruct (Z.eqb_spec r0 r) as [->|]; [congruence|done].
Qed.
Lemma car_write_clr r0 s c v r old : ctl r0 -> ctl r -> set_clr r0 = Some (s, c) ->
  car_write (CLOCK c) v r old = if r0 =? r then Z.land old (not32 v) else old.
Proof.
  intros K0 Hr E. unfold car_write. pose proof (ctl_not_set_clr r0 r K0 Hr) as Hn. rewrite E in Hn.
  rewrite CLOCK_eqb, (proj2 (Z.eqb_neq c r)) by (intros ->; tauto).
  destruct (set_clr r) as [[s' c']|] eqn:E'; rewrite ?CLOCK_eqb.
  - pose proof (set_clr_inj _ _ _ _ _ _ E' E) as (K1 & K2 & K3).
    rewrite (proj2 (Z.eqb_neq c s')) by done.
    destruct (Z.eqb_spec c c') as [Es|Hs].
    + rewrite (proj2 (Z.eqb_eq r0 r)) by (symmetry; auto). done.
    + destruct (Z.eqb_spec r0 r) as [->|]; [congruence|done].
  - destruct (Z.eqb_spec r0 r) as [->|]; [congruence|done].
Qed.

Section Registers.
Context {D : Type} `{Car D}.

(** The registers of [d] are as [R] says. *)
Definition holds (d : D) (R : Z -> Z) : Prop := forall r, ctl r -> creg d r = R r.

Lemma holds_refl d : holds d (creg d).
Proof. by intros r _. Qed.

Lemma runs_rd_any a d R Q : holds d R ->
  (forall v d', rd32 a d = (v, d') -> holds d' R -> Q v d') -> runs (rd a) d Q.
Proof.
  intros HR HQ. unfold runs, rd. destruct (rd32 a d) as [v d'] eqn:E. exists v, d'. split; [done|].
  apply HQ; [done|]. intros r Hr. rewrite <- HR by done. pose proof (creg_rd a d r Hr) as K1.
  by rewrite E in K1.
Qed.
Lemma runs_rd r d R Q : holds d R -> plain r ->
  (forall d', holds d' R -> Q (R r) d') -> runs (rd (CLOCK r)) d Q.
Proof.
  intros HR Hr HQ. eapply runs_rd_any; [done|]. intros v d' E HR'.
  pose proof (creg_val d r Hr) as Hv. rewrite E in Hv. cbn [fst] in Hv.
  rewrite Hv, HR by by apply plain_ctl. auto.
Qed.
Lemma runs_wr_gen a v d R R' Q : holds d R ->
  (forall r, ctl r -> car_write a (u32 v) r (R r) = R' r) ->
  (forall d', holds d' R' -> Q tt d') -> runs (wr a v) d Q.
Proof.
  intros HR Hc HQ. unfold runs, wr, modify. eexists tt, _. split; [done|]. apply HQ.
  intros r Hr. rewrite creg_wr, u32_u32 by done. by rewrite HR, Hc.
Qed.
Lemma runs_wr r0 v d R Q : holds d R -> ctl r0 ->
  (forall d', holds d' (upd r0 (u32 v) R) -> Q tt d') -> runs (wr (CLOCK r0) v) d Q.
Proof. intros HR K0. eapply runs_wr_gen; [done|]. intros r Hr. by apply car_write_whole. Qed.
Lemma runs_wr_set r0 s c v d R Q : holds d R -> ctl r0 -> set_clr r0 = Some (s, c) ->
  (forall d', holds d' (upd r0 (Z.lor (R r0) (u32 v)) R) -> Q tt d') -> runs (wr (CLOCK s) v) d Q.
Proof.
  intros HR K0 E. eapply runs_wr_gen; [done|]. intros r Hr. rewrite (car_write_set r0 s c) by done.
  unfold upd. by destruct (Z.eqb_spec r0 r) as [->|].
Qed.
Lemma runs_wr_clr r0 s c v d R Q : holds d R -> ctl r0 -> set_clr r0 = Some (s, c) ->
  (forall d', holds d' (upd r0 (Z.land (R r0) (not32 (u32 v))) R) -> Q tt d') -> runs (wr (CLOCK c) v) d Q.
Proof.
  intros HR K0 E. eapply runs_wr_gen; [done|]. intros r Hr. rewrite (car_write_clr r0 s c) by done.
  unfold upd. by destruct (Z.eqb_spec r0 r) as [->|].
Qed.
Lemma runs_sleep n d R Q : holds d R -> (forall d', holds d' R -> Q tt d') -> runs (usleep n) d Q.
Proof.
  intros HR HQ. eexists tt, _. split; [done|]. apply HQ. intros r Hr. by rewrite creg_sleep, HR.
Qed.
Lemma runs_upd r f d R Q : holds d R -> plain r ->
  (forall d', holds d' (upd r (u32 (f (R r))) R) -> Q tt d') -> runs (clock_upd r f) d Q.
Proof.
  intros HR Hr HQ. apply runs_bind. eapply runs_rd; [done..|]. intros d1 K1.
  eapply runs_wr; [done| |done]. by apply plain_ctl.
Qed.
Lemma holds_range d R r : holds d R -> ctl r -> 0 <= R r < 0x100000000.
Proof. intros HR Hr. rewrite <- HR by done. by apply creg_range. Qed.

(** *** Peripheral clocks *)

(** A descriptor as the tables have them. *)
Definition clock_ok (clk : clock_t) : Prop :=
  plain (c_reset clk) /\ plain (c_enable clk) /\ (c_source clk = 0 \/ plain (c_source clk)) /\
  c_reset clk <> c_enable clk /\ c_reset clk <> c_source clk /\ c_enable clk <> c_source clk /\
  0 <= c_index clk < 32.

Lemma all_clocks_ok : Forall clock_ok all_clocks.
Proof. repeat (constructor; [vm_compute; intuition discriminate|]). constructor. Qed.

(** The registers after [clock_enable]. *)
Definition enabled_regs (clk : clock_t) (R : Z -> Z) : Z -> Z := fun r =>
  if r =? c_reset clk then Z.clearbit (R r) (c_index clk)
  else if r =? c_enable clk then Z.setbit (R r) (c_index clk)
  else if c_true (c_source clk) && (r =? c_source clk)
       then u32 (Z.lor (c_div clk) (Z.shiftl (c_src clk) 29))
  else R r.

(** The registers while [clock_enable] holds the peripheral in reset. *)
Definition held_regs (clk : clock_t) (R : Z -> Z) : Z -> Z := fun r =>
  if r =? c_reset clk then Z.setbit (R r) (c_index clk)
  else if r =? c_enable clk then Z.clearbit (R r) (c_index clk) else R r.

Lemma holds_ext d R R' : holds d R -> (forall r, ctl r -> R r = R' r) -> holds d R'.
Proof. intros HR E r Hr. by rewrite HR, E. Qed.

Lemma runs_clock_disable clk d R Q : clock_ok clk -> holds d R ->
  (forall d', holds d' (held_regs clk R) -> Q tt d') -> runs (clock_disable clk) d Q.
Proof.
  intros (Hr & He & _ & N1 & _ & _ & Hi) HR HQ. pose proof (holds_range _ _ _ HR (plain_ctl _ Hr)) as Vr.
  pose proof (holds_range _ _ _ HR (plain_ctl _ He)) as Ve. unfold clock_disable, clock_and.
  apply runs_bind, (runs_upd _ _ _ R); [done..|]. intros d1 E1. eapply runs_upd; [done..|]. intros d2 E2.
  apply HQ. eapply holds_ext; [exact E2|]. intros r _. unfold upd, held_regs.
  rewrite (Z.eqb_sym (c_enable clk) r), (Z.eqb_sym (c_reset clk) r), (proj2 (Z.eqb_neq _ _) N1), set_word, clear_word by done.
  destruct (Z.eqb_spec r (c_reset clk)) as [->|]; [by rewrite (proj2 (Z.eqb_neq _ _) N1)|].
  by destruct (Z.eqb_spec r (c_enable clk)) as [->|].
Qed.

Lemma clear_set v b : 0 <= b -> Z.clearbit (Z.setbit v b) b = Z.clearbit v b.
Proof.
  intros Hb. apply Z.bits_inj'. intros k Hk. rewrite !clearbit_testbit, setbit_testbit by lia.
  by destruct (b =? k), (Z.testbit v k).
Qed.
Lemma set_clear v b : 0 <= b -> Z.setbit (Z.clearbit v b) b = Z.setbit v b.
Proof.
  intros Hb. apply Z.bits_inj'. intros k Hk. rewrite !setbit_testbit, clearbit_testbit by lia.
  by destruct (b =? k), (Z.testbit v k).
Qed.

Lemma runs_clock_enable clk d R Q : clock_ok clk -> holds d R ->
  (forall d', holds d' (enabled_regs clk R) -> Q tt d') -> runs (clock_enable clk) d Q.
Proof.
  intros Hok HR HQ. pose proof Hok as (Hr & He & Hs & N1 & N2 & N3 & Hi).
  assert (Hdis : runs (clock_disable clk) d (fun _ d' => holds d' (held_regs clk R)))
    by (eapply runs_clock_disable; eauto).
  destruct Hdis as ([] & d2 & E2 & K2). apply bind_Ret in E2 as ([] & d1 & E1 & E2).
  unfold clock_enable. apply runs_bind. exists tt, d1. split; [done|]. apply runs_bind. exists tt, d2.
  split; [done|]. clear E1 E2. set (R3 := fun r => if c_true (c_source clk) && (r =? c_source clk)
    then u32 (Z.lor (c_div clk) (Z.shiftl (c_src clk) 29)) else held_regs clk R r).
  apply runs_bind, (runs_weaken _ _ (fun _ d3 => holds d3 R3)).
  { unfold R3. destruct (c_true (c_source clk)) eqn:Es; cbn [andb]; [|by apply runs_mret].
    destruct Hs as [Hs|Hs]; [by rewrite Hs in Es|]. eapply runs_wr; [done|by apply plain_ctl|].
    intros d3 K3. eapply holds_ext; [done|]. intros r _. unfold upd. by rewrite Z.eqb_sym. }
  intros ? d3 K3. apply runs_bind. eapply runs_upd; [done..|]. intros d4 K4.
  apply runs_bind. eapply runs_sleep; [done|]. intros d5 K5. eapply runs_upd; [done..|]. intros d6 K6.
  apply HQ. eapply holds_ext; [exact K6|]. intros r _.
  pose proof (holds_range _ _ _ K3 (plain_ctl _ Hr)) as Vr. pose proof (holds_range _ _ _ K3 (plain_ctl _ He)) as Ve.
  unfold upd. rewrite (Z.eqb_sym (c_enable clk) (c_reset clk)), (proj2 (Z.eqb_neq _ _) N1), set_word, clear_word by done.
  unfold R3, held_regs, enabled_regs. rewrite (Z.eqb_sym (c_enable clk) (c_reset clk)), !(proj2 (Z.eqb_neq _ _) N1),
    (proj2 (Z.eqb_neq _ _) N2), (proj2 (Z.eqb_neq _ _) N3), !andb_false_r, !Z.eqb_refl,
    (Z.eqb_sym (c_reset clk) r), (Z.eqb_sym (c_enable clk) r), clear_set, set_clear by lia.
  destruct (Z.eqb_spec r (c_reset clk)) as [->|]; [done|]. by destruct (Z.eqb_spec r (c_enable clk)) as [->|].
Qed.

(** *** The clocks of the SDMMC controllers *)

Definition enb_reg (id : Z) : Z := if id =? SDMMC_3 then CLK_OUT_ENB_U else CLK_OUT_ENB_L.
Definition rst_reg (id : Z) : Z := if id =? SDMMC_3 then RST_DEVICES_U else RST_DEVICES_L.
Definition sd_bit (id : Z) : Z :=
  if id =? SDMMC_1 then CLK_L_SDMMC1 else if id =? SDMMC_2 then CLK_L_SDMMC2
  else if id =? SDMMC_3 then CLK_U_SDMMC3 else CLK_L_SDMMC4.

(** What the controllers' clocks look like: enabled, in reset, source register;
    and the base register of PLLC4. *)
Record view := View { en : Z -> bool; rs : Z -> bool; sr : Z -> Z; pll : Z }.
Definition fupd {A} (id : Z) (x : A) (f : Z -> A) : Z -> A := fun j => if j =? id then x else f j.
Definition view_of (R : Z -> Z) : view :=
  View (fun id => Z.testbit (R (enb_reg id)) (sd_bit id)) (fun id => Z.testbit (R (rst_reg id)) (sd_bit id))
    (fun id => R (source_reg id)) (R PLLC4_BASE).
Definition same_view (v w : view) : Prop :=
  (forall id, 0 <= id < 4 -> en v id = en w id /\ rs v id = rs w id /\ sr v id = sr w id) /\ pll v = pll w.
Definition shows (d : D) (v : view) : Prop := same_view (view_of (creg d)) v.

Ltac ids id := let H := fresh in
  assert (H : id = 0 \/ id = 1 \/ id = 2 \/ id = 3) by lia; destruct H as [->|[->|[->| ->]]].

Ltac bits_small := split; vm_compute; [discriminate|reflexivity].

Lemma enb_plain id : plain (enb_reg id).
Proof. unfold enb_reg. by destruct (id =? SDMMC_3). Qed.
Lemma rst_plain id : plain (rst_reg id).
Proof. unfold rst_reg. by destruct (id =? SDMMC_3). Qed.
Lemma src_plain id : plain (source_reg id).
Proof. unfold source_reg. by repeat destruct (id =? _). Qed.

Lemma shows_holds d R v : holds d R -> shows d v <-> same_view (view_of R) v.
Proof.
  intros HR. unfold shows, same_view, view_of. cbn [en rs sr pll].
  rewrite (HR PLLC4_BASE) by done. split; intros [Hv Hp]; (split; [|done]); intros id Hid;
  specialize (Hv id Hid); rewrite !HR in * by (first [apply plain_ctl, enb_plain|apply plain_ctl, rst_plain|apply plain_ctl, src_plain]); done.
Qed.
Lemma shows_same d d' v : shows d v -> holds d' (creg d) -> shows d' v.
Proof. intros Hv Hh. by apply (shows_holds _ _ _ Hh). Qed.

(** A step that makes the registers [f (creg d)] shows what [f] makes of the view. *)
Lemma shows_step d d' R' v v' : shows d v -> holds d' R' ->
  (same_view (view_of (creg d)) v -> same_view (view_of R') v') -> shows d' v'.
Proof. intros Hv Hh Hs. apply (shows_holds _ _ _ Hh), Hs, Hv. Qed.

Ltac view_solve := intros [Hw Hp]; split; [|exact Hp]; intros j Hj; specialize (Hw j Hj);
  unfold view_of, upd, fupd in *; cbn [en rs sr pll] in *; ids j;
  cbn -[Z.testbit Z.setbit Z.clearbit Z.lor Z.land u32 not32] in *;
  unfold CLK_L_SDMMC1, CLK_L_SDMMC2, CLK_L_SDMMC4, CLK_U_SDMMC3 in *;
  rewrite ?setbit_testbit, ?clearbit_testbit by lia;
  cbn [Z.eqb Pos.eqb negb]; rewrite ?orb_false_l, ?andb_true_r, ?andb_false_r, ?orb_true_l;
  destruct Hw as (? & ? & ?); auto.

Lemma runs_is_enabled id d v Q : 0 <= id < 4 -> shows d v ->
  (forall x d', c_true x = en v id -> shows d' v -> Q x d') -> runs (_clock_sdmmc_is_enabled id) d Q.
Proof.
  intros Hid Hv HQ. ids id; apply runs_bind; (eapply runs_rd; [apply holds_refl|done|]); intros d' Hd';
    apply runs_mret, HQ; try (by eapply shows_same); rewrite c_true_land_BIT by bits_small;
    destruct Hv as [Hv _]; specialize (Hv _ Hid); apply Hv.
Qed.
Lemma runs_is_reset id d v Q : 0 <= id < 4 -> shows d v ->
  (forall x d', c_true x = rs v id -> shows d' v -> Q x d') -> runs (_clock_sdmmc_is_reset id) d Q.
Proof.
  intros Hid Hv HQ. ids id; apply runs_bind; (eapply runs_rd; [apply holds_refl|done|]); intros d' Hd';
    apply runs_mret, HQ; try (by eapply shows_same); rewrite c_true_land_BIT by bits_small;
    destruct Hv as [Hv _]; specialize (Hv _ Hid); apply Hv.
Qed.

Ltac sd_write id := intros Hid Hv HQ; ids id;
  first [ eapply (runs_wr_set CLK_OUT_ENB_L); [apply holds_refl|done|reflexivity|]
        | eapply (runs_wr_set CLK_OUT_ENB_U); [apply holds_refl|done|reflexivity|]
        | eapply (runs_wr_clr CLK_OUT_ENB_L); [apply holds_refl|done|reflexivity|]
        | eapply (runs_wr_clr CLK_OUT_ENB_U); [apply holds_refl|done|reflexivity|]
        | eapply (runs_wr_set RST_DEVICES_L); [apply holds_refl|done|reflexivity|]
        | eapply (runs_wr_set RST_DEVICES_U); [apply holds_refl|done|reflexivity|]
        | eapply (runs_wr_clr RST_DEVICES_L); [apply holds_refl|done|reflexivity|]
        | eapply (runs_wr_clr RST_DEVICES_U); [apply holds_refl|done|reflexivity|] ];
  intros d' Hd'; apply HQ; (eapply shows_step; [done..|]);
  rewrite ?or_word, ?andn_word by (first [by apply creg_range|bits_small]); view_solve.

Lemma runs_set_enable id d v Q : 0 <= id < 4 -> shows d v ->
  (forall d', shows d' (View (fupd id true (en v)) (rs v) (sr v) (pll v)) -> Q tt d') ->
  runs (_clock_sdmmc_set_enable id) d Q.
Proof. sd_write id. Qed.
Lemma runs_clear_enable id d v Q : 0 <= id < 4 -> shows d v ->
  (forall d', shows d' (View (fupd id false (en v)) (rs v) (sr v) (pll v)) -> Q tt d') ->
  runs (_clock_sdmmc_clear_enable id) d Q.
Proof. sd_write id. Qed.
Lemma runs_set_reset id d v Q : 0 <= id < 4 -> shows d v ->
  (forall d', shows d' (View (en v) (fupd id true (rs v)) (sr v) (pll v)) -> Q tt d') ->
  runs (_clock_sdmmc_set_reset id) d Q.
Proof. sd_write id. Qed.
Lemma runs_clear_reset id d v Q : 0 <= id < 4 -> shows d v ->
  (forall d', shows d' (View (en v) (fupd id false (rs v)) (sr v) (pll v)) -> Q tt d') ->
  runs (_clock_sdmmc_clear_reset id) d Q.
Proof. sd_write id. Qed.

Lemma runs_legacy_tm d v Q : shows d v -> (forall d', shows d' v -> Q tt d') ->
  runs _clock_sdmmc_config_legacy_tm d Q.
Proof.
  intros Hv HQ. apply runs_bind. eapply runs_rd; [apply holds_refl|done|]. intros d1 Hd1.
  destruct (negb _).
  - eapply runs_clock_enable; [|done|].
    + by repeat split; auto.
    + intros d2 Hd2. apply HQ. eapply shows_step; [done..|]. unfold enabled_regs. view_solve.
  - apply runs_mret, HQ. by eapply shows_same.
Qed.

Lemma runs_wr_source id x d v Q : 0 <= id < 4 -> shows d v ->
  (forall d', shows d' (View (en v) (rs v) (fupd id (u32 x) (sr v)) (pll v)) -> Q tt d') ->
  runs (wr (CLOCK (source_reg id)) x) d Q.
Proof.
  intros Hid Hv HQ. ids id; (eapply runs_wr; [apply holds_refl|done|]); intros d' Hd'; apply HQ;
    (eapply shows_step; [done..|]); view_solve.
Qed.

(** *** PLLC4 *)

Definition set_pll (v : view) (w : Z) : view := View (en v) (rs v) (sr v) w.
(** Running at 38.4 MHz * 104 / 4, and off. *)
Definition pll_on (w : Z) : Prop :=
  Z.testbit w 30 = true /\ Z.testbit w 18 = false /\ Z.land w 0xFFFF = 0x6804.
Definition pll_off (w : Z) : Prop := Z.testbit w 30 = false /\ Z.testbit w 18 = true.
Definition but_lock (x y : Z) : Prop := forall b, 0 <= b -> b <> 27 -> Z.testbit x b = Z.testbit y b.

Lemma runs_pll_wr x d v Q : shows d v -> (forall d', shows d' (set_pll v (u32 x)) -> Q tt d') ->
  runs (wr (CLOCK PLLC4_BASE) x) d Q.
Proof.
  intros Hv HQ. eapply runs_wr; [apply holds_refl|done|]. intros d' Hd'. apply HQ.
  eapply shows_step; [done..|]. intros [Hw _]. split; [|done]. intros j Hj. specialize (Hw j Hj). by ids j.
Qed.
Lemma runs_pll_upd f d v Q : shows d v ->
  (forall x d', but_lock x (pll v) -> shows d' (set_pll v (u32 (f x))) -> Q tt d') ->
  runs (clock_upd PLLC4_BASE f) d Q.
Proof.
  intros Hv HQ. apply runs_bind. eapply runs_rd_any; [apply holds_refl|]. intros x d1 E Hd1.
  eapply runs_pll_wr; [by eapply shows_same|]. intros d2 Hd2. eapply HQ; [|done].
  intros b Hb Nb. pose proof (creg_pllc4 d b Hb Nb) as Hx. rewrite E in Hx.
  destruct Hv as [_ Hv]. rewrite <- Hv. exact Hx.
Qed.
Lemma runs_sleep_view n d v Q : shows d v -> (forall d', shows d' v -> Q tt d') -> runs (usleep n) d Q.
Proof.
  intros Hv HQ. eapply runs_sleep; [apply holds_refl|]. intros d' Hd'. apply HQ. by eapply shows_same.
Qed.
Lemma runs_poll_lock fuel : forall d v Q, shows d v -> Z.testbit (pll v) 30 = true -> (lock_wait d < fuel)%nat ->
  (forall d', shows d' v -> Q tt d') -> runs (poll fuel PLLC4_BASE PLLCX_BASE_LOCK true) d Q.
Proof.
  induction fuel as [|fuel IH]; intros d v Q Hv H30 Hf HQ; [lia|]. apply runs_bind.
  eapply runs_rd_any; [apply holds_refl|]. intros x d1 E Hd1. unfold PLLCX_BASE_LOCK.
  rewrite c_true_land_BIT by lia. destruct (lock_rd d) as [Hl|Hl].
  { destruct Hv as [_ Hv]. cbn [view_of pll] in Hv. by rewrite Hv. }
  - rewrite E in Hl. cbn [fst] in Hl. rewrite Hl. apply runs_mret, HQ. by eapply shows_same.
  - rewrite E in Hl. cbn [snd] in Hl. destruct (Z.testbit x 27); cbn [Bool.eqb].
    + apply runs_mret, HQ. by eapply shows_same.
    + eapply IH; [by eapply shows_same|done|lia|done].
Qed.

Lemma pll_on_word x : but_lock x (u32 (Z.lor (Z.shiftl 104 8) 4)) -> pll_on (u32 (Z.lor x PLLCX_BASE_ENABLE)).
Proof.
  intros Hx. unfold PLLCX_BASE_ENABLE. change (u32 (Z.lor (Z.shiftl 104 8) 4)) with 0x6804 in Hx.
  repeat split.
  - by rewrite u32_testbit, Z.lor_spec, BIT_testbit, orb_true_r by lia.
  - rewrite u32_testbit, Z.lor_spec, BIT_testbit, Hx by lia. reflexivity.
  - apply Z.bits_inj'. intros b Hb. rewrite Z.land_spec, u32_testbit, Z.lor_spec, BIT_testbit by lia.
    destruct (Z.ltb_spec b 16).
    + rewrite Hx, (proj2 (Z.ltb_lt b 32)), (proj2 (Z.eqb_neq 30 b)), orb_false_r by lia. cbn [andb].
      change 0xFFFF with (Z.ones 16). by rewrite Z.ones_spec_low, andb_true_r by lia.
    + change 0xFFFF with (Z.ones 16). rewrite Z.ones_spec_high, andb_false_r by lia.
      symmetry. rewrite Z.bits_above_log2; [done|lia|]. assert (Z.log2 0x6804 < 16) by reflexivity. lia.
Qed.
Lemma pll_off_word x y : but_lock x (u32 (Z.land y (not32 PLLCX_BASE_ENABLE))) ->
  pll_off (u32 (Z.lor x PLLC4_BASE_IDDQ)).
Proof.
  intros Hx. unfold PLLC4_BASE_IDDQ, PLLCX_BASE_ENABLE in *. split.
  - rewrite u32_testbit, Z.lor_spec, BIT_testbit, Hx by lia.
    rewrite u32_testbit, Z.land_spec, not32_testbit, BIT_testbit by lia. cbn. by rewrite andb_false_r.
  - by rewrite u32_testbit, Z.lor_spec, BIT_testbit, orb_true_r by lia.
Qed.

(** The device with the statics of the driver. *)
Definition stt (s : clocks D) (v : view) (e : Z) (T : list clock_sdmmc_t) : Prop :=
  shows (clk_dev s) v /\ pllc4_enabled s = e /\ _clock_sdmmc_table s = T.

Lemma runs_on_car {A} (m : M D A) s e T (Q : A -> clocks D -> Prop) :
  pllc4_enabled s = e -> _clock_sdmmc_table s = T ->
  runs m (clk_dev s) (fun x d => Q x (Clocks d e T)) -> runs (on_car m) s Q.
Proof.
  intros <- <- (x & d & E & Hq). exists x, (Clocks d (pllc4_enabled s) (_clock_sdmmc_table s)).
  unfold on_car. by rewrite E.
Qed.

Lemma runs_enable_pllc4 fuel mask s v e T Q : (lock_max < fuel)%nat -> stt s v e T ->
  (forall s' w, (if Z.testbit (Z.lor e mask) 31 then w = pll v else pll_on w) ->
     stt s' (set_pll v w) (if Z.testbit (Z.lor e mask) 31 then Z.lor e mask else Z.lor (Z.lor e mask) PLLC4_ENABLED) T ->
     Q tt s') -> runs (_clock_enable_pllc4 fuel mask) s Q.
Proof.
  intros Hf (Hv & He & HT) HQ. unfold _clock_enable_pllc4, set_pllc4.
  apply runs_bind. eexists tt, _. split; [done|]. rewrite He, HT.
  apply runs_bind. eexists _, _. split; [done|]. cbn [pllc4_enabled]. unfold PLLC4_ENABLED at 1.
  rewrite c_true_land_BIT by lia. destruct (Z.testbit (Z.lor e mask) 31).
  { apply runs_mret. apply (HQ _ (pll v)); [done|]. split; [|done]. by destruct v. }
  apply runs_bind, (runs_on_car _ _ (Z.lor e mask) T); [done..|]. cbn [clk_dev].
  apply runs_bind. eapply runs_pll_upd; [done|]. intros x1 d1 _ Hd1.
  apply runs_bind. eapply runs_pll_upd; [done|]. intros x2 d2 _ Hd2.
  apply runs_bind. eapply runs_sleep_view; [done|]. intros d3 Hd3.
  apply runs_bind. eapply runs_pll_wr; [done|]. intros d4 Hd4.
  apply runs_bind. eapply runs_pll_upd; [done|]. intros x5 d5 Hx5 Hd5. apply pll_on_word in Hx5.
  apply runs_bind. eapply runs_poll_lock; [done|apply Hx5|pose proof (lock_bound d5); lia|]. intros d6 Hd6.
  eapply runs_sleep_view; [done|]. intros d7 Hd7.
  eexists tt, _. split; [done|]. eapply HQ; [done|]. by split.
Qed.

Lemma runs_disable_pllc4 mask s v e T Q : stt s v e T ->
  let e' := Z.land e (not32 mask) in
  (forall s' w,
     (if c_true (Z.land e' PLLC4_IN_USE) || negb (Z.testbit e' 31) then w = pll v else pll_off w) ->
     stt s' (set_pll v w) (if c_true (Z.land e' PLLC4_IN_USE) || negb (Z.testbit e' 31) then e' else 0) T ->
     Q tt s') -> runs (_clock_disable_pllc4 mask) s Q.
Proof.
  intros (Hv & He & HT) e' HQ. unfold _clock_disable_pllc4, set_pllc4.
  apply runs_bind. eexists tt, _. split; [done|]. rewrite He, HT.
  apply runs_bind. eexists _, _. split; [done|]. cbn [pllc4_enabled]. fold e'. unfold PLLC4_ENABLED at 1.
  rewrite c_true_land_BIT by lia. destruct (_ || _).
  { apply runs_mret. apply (HQ _ (pll v)); [done|]. split; [|done]. by destruct v. }
  apply runs_bind, (runs_on_car _ _ e' T); [done..|]. cbn [clk_dev].
  apply runs_bind. eapply runs_sleep_view; [done|]. intros d1 Hd1.
  apply runs_bind. eapply runs_pll_upd; [done|]. intros x2 d2 _ Hd2.
  apply runs_bind. eapply runs_pll_upd; [done|]. intros x3 d3 Hx3 Hd3. apply pll_off_word in Hx3.
  eapply runs_sleep_view; [done|]. intros d4 Hd4.
  eexists tt, _. split; [done|]. eapply HQ; [done|]. by split.
Qed.

(** *** The invariant of the SDMMC clocks *)

(** The real clock and the source register that belong to a requested clock. *)
Definition programmed (id val : Z) : Z * Z :=
  let '(pclock, divisor, source) := host_clock id val in
  (pclock, u32 (Z.lor (u32 (Z.shiftl source 29)) divisor)).
(** The source field selects an output of PLLC4 unless it is 0. *)
Definition uses_pllc4 (src : Z) : bool := c_true (Z.shiftr src 29).

Lemma programmed_source id val : 0 <= id < 4 ->
  uses_pllc4 (snd (programmed id val)) = c_true (snd (host_clock id val)).
Proof.
  intros Hid. unfold programmed, host_clock. ids id;
    repeat match goal with |- context [if val =? ?x then _ else _] => destruct (val =? x); [reflexivity|] end;
    reflexivity.
Qed.

(** An enabled controller that is fed by PLLC4 is in the use mask; PLLC4 runs
    exactly while the mask is not empty; the table tells what the source
    registers hold. *)
Definition ok (v : view) (e : Z) (T : list clock_sdmmc_t) : Prop :=
  length T = 4%nat /\
  (forall b, 0 <= b -> Z.testbit e b = true -> b < 4 \/ b = 31) /\
  (forall id, 0 <= id < 4 -> en v id = true -> uses_pllc4 (sr v id) = true -> Z.testbit e id = true) /\
  (if Z.testbit e 31 then pll_on (pll v) /\ exists id, 0 <= id < 4 /\ Z.testbit e id = true
   else e = 0 /\ Z.testbit (pll v) 30 = false) /\
  (forall id c, 0 <= id < 4 -> T !! Z.to_nat id = Some c -> sc_clock c <> 0 ->
     (sc_real_clock c, sr v id) = programmed id (sc_clock c)).

Lemma ok_disabled id v e T r : ok v e T -> ok (View (fupd id false (en v)) r (sr v) (pll v)) e T.
Proof.
  intros (HT & Hb & Hu & Hp & Ht). split_and!; [done..| |done|done].
  intros j Hj. cbn [en sr]. unfold fupd. destruct (j =? id); [done|]. by apply Hu.
Qed.
Lemma ok_enabled id v e T r : ok v e T -> (uses_pllc4 (sr v id) = true -> Z.testbit e id = true) ->
  ok (View (fupd id true (en v)) r (sr v) (pll v)) e T.
Proof.
  intros (HT & Hb & Hu & Hp & Ht) Hi. split_and!; [done..| |done|done].
  intros j Hj. cbn [en sr]. unfold fupd. destruct (Z.eqb_spec j id) as [->|]; [by intros _|]. by apply Hu.
Qed.
Lemma ok_reset v e T r : ok v e T -> ok (View (en v) r (sr v) (pll v)) e T.
Proof. done. Qed.

(** Entering a controller into the mask. *)
Lemma ok_mask id v e T w : 0 <= id < 4 -> ok v e T ->
  (if Z.testbit (Z.lor e (BIT id)) 31 then w = pll v else pll_on w) ->
  let e' := if Z.testbit (Z.lor e (BIT id)) 31 then Z.lor e (BIT id)
            else Z.lor (Z.lor e (BIT id)) PLLC4_ENABLED in
  ok (set_pll v w) e' T /\ Z.testbit e' id = true /\ (forall j, 0 <= j -> Z.testbit e j = true -> Z.testbit e' j = true).
Proof.
  intros Hid (HT & Hb & Hu & Hp & Ht) Hw e'.
  assert (E31 : Z.testbit (Z.lor e (BIT id)) 31 = Z.testbit e 31)
    by (rewrite Z.lor_spec, BIT_testbit, (proj2 (Z.eqb_neq id 31)), orb_false_r by lia; done).
  subst e'. rewrite E31 in *.
  set (e' := if Z.testbit e 31 then Z.lor e (BIT id) else Z.lor (Z.lor e (BIT id)) PLLC4_ENABLED).
  assert (Hbit : forall j, 0 <= j -> Z.testbit e' j = Z.testbit e j || (id =? j) || (31 =? j)).
  { intros j Hj. subst e'. unfold PLLC4_ENABLED. destruct (Z.testbit e 31) eqn:E.
    - rewrite Z.lor_spec, BIT_testbit by lia. destruct (Z.eqb_spec 31 j) as [<-|]; rewrite ?E, ?orb_false_r; done.
    - rewrite !Z.lor_spec, !BIT_testbit by lia. done. }
  assert (Hmono : forall j, 0 <= j -> Z.testbit e j = true -> Z.testbit e' j = true)
    by (intros j Hj Ej; by rewrite Hbit, Ej).
  assert (Hidb : Z.testbit e' id = true) by (rewrite Hbit, Z.eqb_refl, orb_true_r by lia; done).
  split; [|done]. split_and!.
  - done.
  - intros b Hb0 Eb. rewrite Hbit in Eb by done. destruct (Z.testbit e b) eqn:E; [by apply Hb|].
    destruct (Z.eqb_spec id b); [lia|]. destruct (Z.eqb_spec 31 b); [lia|done].
  - intros j Hj Ej Uj. apply Hmono; [lia|]. by apply Hu.
  - rewrite Hbit, orb_true_r by lia. cbn [set_pll pll]. split; [|by exists id].
    destruct (Z.testbit e 31); [rewrite Hw; by apply Hp|done].
  - done.
Qed.

(** Leaving it. *)
Lemma ok_unmask id v e T w : 0 <= id < 4 -> ok v e T -> en v id = false ->
  let e' := Z.land e (not32 (BIT id)) in
  let keep := c_true (Z.land e' PLLC4_IN_USE) || negb (Z.testbit e' 31) in
  (if keep then w = pll v else pll_off w) ->
  ok (set_pll v w) (if keep then e' else 0) T.
Proof.
  intros Hid (HT & Hb & Hu & Hp & Ht) Hen e' keep Hw.
  assert (Hbit : forall j, 0 <= j < 32 -> Z.testbit e' j = Z.testbit e j && negb (id =? j)).
  { intros j Hj. subst e'. rewrite Z.land_spec, not32_testbit, BIT_testbit by lia.
    by rewrite (proj2 (Z.ltb_lt j 32)) by lia. }
  assert (Hhi : forall j, 0 <= j -> Z.testbit e' j = true -> Z.testbit e j = true).
  { intros j Hj E. subst e'. rewrite Z.land_spec in E. by apply andb_prop in E as [? _]. }
  assert (E31 : Z.testbit e' 31 = Z.testbit e 31)
    by (rewrite Hbit, (proj2 (Z.eqb_neq id 31)), andb_true_r by lia; done).
  assert (Hlow : c_true (Z.land e' PLLC4_IN_USE) = true <-> exists j, 0 <= j < 4 /\ Z.testbit e' j = true).
  { unfold c_true. rewrite negb_true_iff, Z.eqb_neq. split.
    - intros Hn. destruct (decide (Exists (fun j => Z.testbit e' j = true) [0; 1; 2; 3])) as [Hx|Hx].
      + apply Exists_exists in Hx as (j & Hj & Ej). exists j. split; [|done].
        cbn in Hj. lia.
      + exfalso. apply Hn, Z.bits_inj'. intros b Hb0. rewrite Z.bits_0, Z.land_spec.
        destruct (Z.testbit e' b) eqn:Eb; [|done]. destruct (Hb b Hb0 (Hhi _ Hb0 Eb)) as [?| ->].
        * exfalso. apply Hx, Exists_exists. exists b. split; [|done]. cbn. lia.
        * reflexivity.
    - intros (j & Hj & Ej) E0. apply (f_equal (fun z => Z.testbit z j)) in E0.
      rewrite Z.land_spec, Ej, Z.bits_0 in E0. unfold PLLC4_IN_USE, PLLC4_ENABLED in E0.
      rewrite not32_testbit, BIT_testbit, (proj2 (Z.ltb_lt j 32)), (proj2 (Z.eqb_neq 31 j)) in E0 by lia. done. }
  subst keep. rewrite E31 in *. split_and!; [done|..|done].
  - destruct (_ || _); [|by intros b; rewrite Z.bits_0]. intros b Hb0 Eb. by apply Hb, Hhi.
  - cbn [set_pll en sr]. intros j Hj Ej Uj. assert (Hej : Z.testbit e' j = true).
    { rewrite Hbit, (Hu j Hj Ej Uj) by lia. destruct (Z.eqb_spec id j) as [->|]; [congruence|done]. }
    rewrite (proj2 Hlow) by by exists j. done.
  - destruct (c_true (Z.land e' PLLC4_IN_USE)) eqn:El; cbn [orb] in *; subst; cbn [set_pll pll].
    + rewrite E31. destruct (Z.testbit e 31); [|].
      * split; [apply Hp|by apply Hlow].
      * destruct Hp as [-> Hp]. subst e'. rewrite Z.land_0_l in *. done.
    + destruct (Z.testbit e 31) eqn:E; cbn [negb] in *.
      * rewrite Z.bits_0. split; [done|apply Hw].
      * subst w. destruct Hp as [-> Hp]. subst e'. rewrite Z.land_0_l in *. done.
Qed.

(** *** The operations on the SDMMC clocks *)

Definition frame_but (id : Z) (v v' : view) : Prop :=
  forall j, 0 <= j < 4 -> j <> id -> en v' j = en v j /\ rs v' j = rs v j /\ sr v' j = sr v j.

Lemma fupd_same {A} id (x : A) f : fupd id x f id = x.
Proof. unfold fupd. by rewrite Z.eqb_refl. Qed.
Lemma fupd_other {A} id (x : A) f j : j <> id -> fupd id x f j = f j.
Proof. intros Hj. unfold fupd. by rewrite (proj2 (Z.eqb_neq _ _) Hj). Qed.

(** [if (is_enabled) _clock_sdmmc_clear_enable(id);] *)
Lemma runs_clear_if_enabled id s v e T : 0 <= id < 4 -> stt s v e T ->
  runs (if en v id then on_car (_clock_sdmmc_clear_enable id) else mret tt) s
    (fun _ s1 => stt s1 (View (fupd id false (en v)) (rs v) (sr v) (pll v)) e T).
Proof.
  intros Hid (Hd1 & He & HT). destruct (en v id) eqn:En.
  - apply (runs_on_car _ _ e T); [done..|]. eapply runs_clear_enable; [done..|]. intros d2 Hd2. by split_and!.
  - apply runs_mret. split_and!; [|done..]. destruct Hd1 as [Hd1 Hp]. split; [|done].
    intros j Hj. cbn [en rs sr]. specialize (Hd1 j Hj). destruct (Z.eq_dec j id) as [->|].
    + rewrite fupd_same. by rewrite En in Hd1.
    + by rewrite fupd_other.
Qed.

(** Programming the clock of a controller that is disabled. *)
Lemma runs_config_host fuel id val s v e T Q :
  (lock_max < fuel)%nat -> 0 <= id < 4 -> stt s v e T -> ok v e T -> en v id = false ->
  (forall s' e' w, let v' := View (en v) (rs v) (fupd id (snd (programmed id val)) (sr v)) w in
     let T' := <[Z.to_nat id := ClockSdmmc val (fst (programmed id val))]> T in
     stt s' v' e' T' -> ok v' e' T' ->
     (uses_pllc4 (snd (programmed id val)) = true -> Z.testbit e' id = true) ->
     Q (Some (fst (programmed id val))) s') ->
  runs (_clock_sdmmc_config_clock_host fuel id val) s Q.
Proof.
  intros Hf Hid (Hv & He & HT) Hok Hen HQ. unfold _clock_sdmmc_config_clock_host.
  rewrite (proj2 (Z.ltb_ge _ _)) by (unfold SDMMC_4; lia).
  pose proof (programmed_source id val Hid) as Hps.
  assert (Ep : programmed id val = (fst (fst (host_clock id val)),
    u32 (Z.lor (u32 (Z.shiftl (snd (host_clock id val)) 29)) (snd (fst (host_clock id val)))))).
  { unfold programmed. by destruct (host_clock id val) as [[? ?] ?]. }
  destruct (host_clock id val) as [[pclock divisor] source]. cbn [fst snd] in Ep, Hps.
  rewrite Ep in Hps, HQ. cbn [fst snd] in Hps, HQ.
  set (enc := u32 (Z.lor (u32 (Z.shiftl source 29)) divisor)) in *.
  set (T' := <[Z.to_nat id := ClockSdmmc val pclock]> T) in *.
  apply runs_bind. eexists tt, _. split; [done|]. apply runs_bind. rewrite He, HT. fold T'.
  apply (runs_weaken _ _ (fun _ s1 => exists e' w, stt s1 (set_pll v w) e' T' /\ ok (set_pll v w) e' T /\
    (c_true source = true -> Z.testbit e' id = true))).
  { destruct (c_true source).
    - apply (runs_enable_pllc4 _ _ _ v e T'); [done|by split_and!|]. intros s1 w Hw Hs1.
      pose proof (ok_mask id v e T w Hid Hok Hw) as (Hok1 & Hb & _).
      eexists _, w. split_and!; [exact Hs1|exact Hok1|intros _; exact Hb].
    - apply runs_mret. exists e, (pll v). destruct v. split_and!; [by split_and!|done|done]. }
  intros _ s1 (e' & w & (Hv1 & He1 & HT1) & Hok1 & Hsrc). apply runs_bind.
  apply (runs_on_car _ _ e' T'); [done..|]. apply runs_bind. eapply runs_legacy_tm; [done|]. intros d2 Hd2.
  eapply runs_wr_source; [done..|]. intros d3 Hd3. fold enc in Hd3. apply runs_mret.
  eapply (HQ _ e' w); [by split_and!| |by rewrite Hps].
  destruct Hok1 as (HlT & Hb & Hu & Hp & Ht). split_and!.
  - subst T'. by rewrite length_insert.
  - done.
  - intros j Hj. cbn [en sr]. unfold fupd. destruct (Z.eqb_spec j id) as [->|]; [congruence|]. by apply Hu.
  - done.
  - intros j c Hj Ej Hc. cbn [sr]. unfold fupd. destruct (Z.eqb_spec j id) as [->|Hne].
    + subst T'. rewrite list_lookup_insert_eq in Ej by lia. injection Ej as <-. cbn. by rewrite Ep.
    + subst T'. rewrite list_lookup_insert_ne in Ej by lia. by apply Ht.
Qed.

Lemma runs_config_source fuel pclock id val s v e T Q :
  (lock_max < fuel)%nat -> 0 <= id < 4 -> val <> 0 -> stt s v e T -> ok v e T ->
  (forall r s' v' e' T', stt s' v' e' T' -> ok v' e' T' -> frame_but id v v' ->
     en v' id = en v id -> rs v' id = rs v id -> (r, sr v' id) = programmed id val -> Q r s') ->
  runs (clock_sdmmc_config_clock_source fuel pclock id val) s Q.
Proof.
  intros Hf Hid Hval Hs Hok HQ. pose proof Hs as (Hv & He & HT).
  unfold clock_sdmmc_config_clock_source. apply runs_bind. eexists _, _. split; [done|]. rewrite HT.
  destruct (T !! Z.to_nat id) as [c|] eqn:Ec.
  2:{ apply lookup_ge_None in Ec. destruct Hok as [HlT _]. lia. }
  destruct (Z.eqb_spec (sc_clock c) val) as [Ecv|Ecv].
  { apply runs_mret. eapply (HQ _ _ v e T); [done|done|done|done|done|].
    rewrite <- Ecv. apply (proj2 (proj2 (proj2 (proj2 Hok)))); [done|done|congruence]. }
  apply runs_bind, (runs_on_car _ _ e T); [done..|]. eapply runs_is_enabled; [done..|]. intros x d1 Hx Hd1.
  rewrite Hx. apply runs_bind.
  eapply runs_weaken; [by apply (runs_clear_if_enabled id _ v e T)|].
  intros ? s1 Hs1. cbn beta in Hs1. apply runs_bind.
  eapply runs_config_host; [done|done|exact Hs1|by apply (ok_disabled id)|apply fupd_same|].
  cbn [en rs sr]. intros s2 e2 w2 Hs2 Hok2 Hu2. pose proof Hs2 as (Hv2 & He2 & HT2).
  set (v2 := View (fupd id false (en v)) (rs v) (fupd id (programmed id val).2 (sr v)) w2) in *. set (T2 := <[_ := _]> T) in *. cbn [default].
  assert (Hfr : forall f, (forall j, j <> id -> f j = en v j) -> frame_but id v (View f (rs v) (sr v2) w2)).
  { intros f Hf' j Hj Nj. unfold v2; cbn [en rs sr]. rewrite fupd_other by done. by rewrite Hf'. }
  apply runs_bind. destruct (en v id) eqn:En.
  - apply (runs_on_car _ _ e2 T2); [done..|]. eapply runs_set_enable; [done..|]. intros d3 Hd3.
    apply runs_bind, (runs_on_car _ _ e2 T2); [done..|]. eapply runs_is_reset; [done..|]. intros y d4 _ Hd4.
    apply runs_mret. apply (HQ _ _ (View (fupd id true (en v2)) (rs v2) (sr v2) (pll v2)) e2 T2); [by split_and!| | | | |].
    + apply (ok_enabled id v2); [done|]. unfold v2; cbn [sr]. by rewrite fupd_same.
    + apply Hfr. intros j Hj. unfold v2; cbn [en]. by rewrite !fupd_other.
    + unfold v2; cbn [en]. by rewrite fupd_same.
    + done.
    + unfold v2; cbn [sr]. rewrite fupd_same. by destruct (programmed id val).
  - apply runs_mret. apply runs_bind, (runs_on_car _ _ e2 T2); [done..|]. eapply runs_is_reset; [done..|].
    intros y d4 _ Hd4. apply runs_mret. apply (HQ _ _ v2 e2 T2); [by split_and!|done| | | |].
    + apply Hfr. intros j Hj. by rewrite fupd_other.
    + unfold v2; cbn [en]. by rewrite fupd_same.
    + done.
    + unfold v2; cbn [sr]. rewrite fupd_same. by destruct (programmed id val).
Qed.

Lemma host_clock_pos id val : 0 < fst (programmed id val) < 0x100000.
Proof.
  unfold programmed, host_clock.
  repeat match goal with |- context [if val =? ?x then _ else _] => destruct (val =? x); [cbn; lia|] end.
  cbn; lia.
Qed.

Lemma runs_sdmmc_enable fuel id val s v e T Q :
  (lock_max < fuel)%nat -> 0 <= id < 4 -> stt s v e T -> ok v e T ->
  (forall s' v' e' T', stt s' v' e' T' -> ok v' e' T' -> frame_but id v v' ->
     en v' id = true -> rs v' id = false -> sr v' id = snd (programmed id val) -> Q tt s') ->
  runs (clock_sdmmc_enable fuel id val) s Q.
Proof.
  intros Hf Hid Hs Hok HQ. pose proof Hs as (Hv & He & HT). unfold clock_sdmmc_enable.
  apply runs_bind, (runs_on_car _ _ e T); [done..|]. eapply runs_is_enabled; [done..|]. intros x d1 Hx Hd1.
  rewrite Hx. apply runs_bind.
  eapply runs_weaken; [by apply (runs_clear_if_enabled id _ v e T)|].
  intros ? s1 (Hv1 & He1 & HT1). apply runs_bind, (runs_on_car _ _ e T); [done..|].
  eapply runs_set_reset; [done..|]. cbn [en rs sr pll]. intros d2 Hd2. apply runs_bind.
  eapply (runs_config_host _ _ _ _ (View (fupd id false (en v)) (fupd id true (rs v)) (sr v) (pll v)) e T);
    [done|done|by split_and!|by apply (ok_disabled id)|apply fupd_same|].
  cbn [en rs sr]. set (T2 := <[_ := _]> T). intros s3 e3 w3 (Hv3 & He3 & HT3) Hok3 Hu3.
  apply runs_bind, (runs_on_car _ _ e3 T2); [done..|]. eapply runs_set_enable; [done..|].
  cbn [en rs sr pll]. intros d4 Hd4.
  apply runs_bind, (runs_on_car _ _ e3 T2); [done..|]. eapply runs_is_reset; [done..|]. intros y d5 _ Hd5.
  pose proof (host_clock_pos id val) as Hc. change (default 0 (Some (programmed id val).1)) with (programmed id val).1.
  rewrite (proj2 (Z.eqb_neq _ 0)) by lia.
  apply runs_bind, (runs_on_car _ _ e3 T2); [done..|]. eapply runs_sleep_view; [done|]. intros d6 Hd6.
  apply runs_bind, (runs_on_car _ _ e3 T2); [done..|]. eapply runs_clear_reset; [done..|].
  cbn [en rs sr pll]. intros d7 Hd7.
  apply runs_bind, (runs_on_car _ _ e3 T2); [done..|]. eapply runs_is_reset; [done..|]. intros z d8 _ Hd8.
  apply runs_mret.
  apply (HQ _ (View (fupd id true (fupd id false (en v))) (fupd id false (fupd id true (rs v)))
    (fupd id (programmed id val).2 (sr v)) w3) e3 T2); [by split_and!| | |apply fupd_same|apply fupd_same|apply fupd_same].
  - eapply (ok_enabled id (View (fupd id false (en v)) _ (fupd id (programmed id val).2 (sr v)) w3)); [done|].
    cbn [sr]. by rewrite fupd_same.
  - intros j Hj Nj. cbn [en rs sr]. by rewrite !fupd_other.
Qed.

Lemma runs_sdmmc_disable id s v e T Q : 0 <= id < 4 -> stt s v e T -> ok v e T ->
  (forall s' v' e' T', stt s' v' e' T' -> ok v' e' T' -> frame_but id v v' ->
     en v' id = false -> rs v' id = true -> Z.testbit e' id = false -> Q tt s') ->
  runs (clock_sdmmc_disable id) s Q.
Proof.
  intros Hid (Hv & He & HT) Hok HQ. unfold clock_sdmmc_disable.
  apply runs_bind, (runs_on_car _ _ e T); [done..|]. eapply runs_set_reset; [done..|]. intros d1 Hd1.
  apply runs_bind, (runs_on_car _ _ e T); [done..|]. eapply runs_clear_enable; [done..|]. intros d2 Hd2.
  cbn [en rs sr pll] in Hd2.
  apply runs_bind, (runs_on_car _ _ e T); [done..|]. eapply runs_is_reset; [done..|]. intros x d3 _ Hd3.
  set (v2 := View (fupd id false (en v)) (fupd id true (rs v)) (sr v) (pll v)) in *.
  assert (Hok2 : ok v2 e T) by by apply (ok_disabled id).
  assert (Hen : en v2 id = false) by apply fupd_same.
  apply (runs_disable_pllc4 _ _ v2 e T); [by split_and!|]. intros s' w Hw Hs'.
  pose proof (ok_unmask id v2 e T w Hid Hok2 Hen Hw) as Hok3.
  eapply HQ; [exact Hs'|exact Hok3| | | |].
  - intros j Hj Nj. cbn [set_pll en rs sr]. unfold v2; cbn [en rs sr]. by rewrite !fupd_other.
  - apply fupd_same.
  - apply fupd_same.
  - destruct (_ || _); [|apply Z.bits_0]. rewrite Z.land_spec, not32_testbit, BIT_testbit, Z.eqb_refl by lia.
    by rewrite !andb_false_r.
Qed.

(** *** Reachable states *)

Inductive sd_op := ConfigSource (pclock id val : Z) | Enable (id val : Z) | Disable (id : Z).
Definition sd_op_ok (o : sd_op) : Prop :=
  match o with
  | ConfigSource _ id val => 0 <= id < 4 /\ val <> 0
  | Enable id _ | Disable id => 0 <= id < 4
  end.
Definition run_op (fuel : nat) (o : sd_op) : M (clocks D) unit :=
  match o with
  | ConfigSource p id val => clock_sdmmc_config_clock_source fuel p id val;; mret tt
  | Enable id val => clock_sdmmc_enable fuel id val
  | Disable id => clock_sdmmc_disable id
  end.
Fixpoint run_ops (fuel : nat) (os : list sd_op) : M (clocks D) unit :=
  match os with [] => mret tt | o :: os => run_op fuel o;; run_ops fuel os end.

Definition good (s : clocks D) : Prop := exists v e T, stt s v e T /\ ok v e T.

Lemma run_op_good fuel o s : (lock_max < fuel)%nat -> sd_op_ok o -> good s ->
  runs (run_op fuel o) s (fun _ s' => good s').
Proof.
  intros Hf Ho (v & e & T & Hs & Hok). destruct o; cbn [run_op sd_op_ok] in *.
  - apply runs_bind. eapply runs_config_source; [done|apply Ho|apply Ho|done..|].
    intros r s' v' e' T' ? ? _ _ _ _. apply runs_mret. by exists v', e', T'.
  - eapply runs_sdmmc_enable; [done..|]. intros s' v' e' T' ? ? _ _ _ _. by exists v', e', T'.
  - eapply runs_sdmmc_disable; [done..|]. intros s' v' e' T' ? ? _ _ _ _. by exists v', e', T'.
Qed.
Lemma run_ops_good fuel os : forall s, (lock_max < fuel)%nat -> Forall sd_op_ok os -> good s ->
  runs (run_ops fuel os) s (fun _ s' => good s').
Proof.
  induction os as [|o os IH]; intros s Hf Hos Hs; [by apply runs_mret|]. inversion Hos; subst.
  apply runs_bind. eapply runs_weaken; [by apply run_op_good|]. intros [] s' Hs'. by apply IH.
Qed.

(** Controller [id] is clocked, and by PLLC4. *)
Definition clocked (d : D) (id : Z) : Prop := Z.testbit (creg d (enb_reg id)) (sd_bit id) = true.
Definition fed_by_pllc4 (d : D) (id : Z) : Prop := uses_pllc4 (creg d (source_reg id)) = true.

(** The state after start-up: PLLC4 off, and no controller clocked by it. *)
Definition fresh (s : clocks D) : Prop :=
  s = clocks_init (clk_dev s) /\ Z.testbit (creg (clk_dev s) PLLC4_BASE) 30 = false /\
  forall id, 0 <= id < 4 -> clocked (clk_dev s) id -> ~ fed_by_pllc4 (clk_dev s) id.

Lemma fresh_good s : fresh s -> good s.
Proof.
  intros (E & Hp & Hc). exists (view_of (creg (clk_dev s))), 0, (replicate 4 (ClockSdmmc 0 0)).
  split; [rewrite E; by repeat split|]. split_and!.
  - done.
  - intros b _. by rewrite Z.bits_0.
  - intros id Hid He Hu. destruct (Hc id Hid He Hu).
  - done.
  - intros id c Hid Ec Hc0. exfalso. apply Hc0. apply lookup_replicate in Ec as [-> _]. done.
Qed.

(** C37: whatever sequence of clock changes, starts and stops the drivers of the four SDMMC
    controllers make, every one returns, and afterwards PLLC4 runs at 998.4 MHz if any enabled
    controller is fed by it, and PLLC4 is enabled exactly while the use mask is not empty. *)
Theorem pllc4_on_while_used fuel os s :
  (lock_max < fuel)%nat -> fresh s -> Forall sd_op_ok os ->
  exists s', run_ops fuel os s = (Ret tt, s') /\
    (forall id, 0 <= id < 4 -> clocked (clk_dev s') id -> fed_by_pllc4 (clk_dev s') id ->
       pll_on (creg (clk_dev s') PLLC4_BASE)) /\
    (Z.testbit (creg (clk_dev s') PLLC4_BASE) 30 = true <->
     exists id, 0 <= id < 4 /\ Z.testbit (pllc4_enabled s') id = true).
Proof.
  intros Hf Hs Hos. apply fresh_good in Hs.
  destruct (run_ops_good fuel os s Hf Hos Hs) as ([] & s' & E & v & e & T & ((Hv & Hp) & He & _) & Hok).
  destruct Hok as (_ & Hb & Hu & Hpll & _). exists s'. split; [done|]. cbn [view_of pll] in Hp. rewrite Hp, He. split.
  - intros id Hid Hc Hfed. destruct (Hv id Hid) as (E1 & _ & E3). cbn [view_of en sr] in E1, E3.
    assert (Hbit : Z.testbit e id = true) by (apply Hu; [done|by rewrite <- E1|by rewrite <- E3]).
    destruct (Z.testbit e 31); [apply Hpll|]. destruct Hpll as [-> _]. by rewrite Z.bits_0 in Hbit.
  - destruct (Z.testbit e 31); [split; intros _; [apply Hpll|apply Hpll]|]. destruct Hpll as [-> ->].
    split; [done|]. intros (id & _ & Hi). by rewrite Z.bits_0 in Hi.
Qed.

(** *** Frequencies *)

(** The frequency in kHz of the output that a source register selects: PLLP at
    408 MHz or PLLC4_OUT2 at 199.68 MHz, divided by 1 + N/2.  [not_above src f]
    says that it is at most [f]. *)
Definition pll_khz (src : Z) : Z := if uses_pllc4 src then 199680 else 408000.
Definition not_above (src f : Z) : Prop := 2 * pll_khz src <= f * (Z.land src 0xFF + 2).

(** The most that the SD and MMC standards allow on the bus, in kHz. *)
Definition bus_limit (type : Z) : Z :=
  if (type =? TIMING_MMC_ID) || (type =? TIMING_SD_ID) then 400
  else if type =? TIMING_MMC_LS26 then 26000
  else if type =? TIMING_MMC_HS52 then 52000
  else if (type =? TIMING_SD_DS12) || (type =? TIMING_UHS_SDR12) then 25000
  else if (type =? TIMING_SD_HS25) || (type =? TIMING_UHS_SDR25) || (type =? TIMING_UHS_DDR50) then 50000
  else if type =? TIMING_UHS_SDR50 then 100000
  else if (type =? TIMING_UHS_SDR104) || (type =? TIMING_UHS_SDR82) then 208000
  else 200000.

Lemma programmed_exact id val : 0 <= id < 4 ->
  not_above (snd (programmed id val)) (fst (programmed id val)) /\
  ~ not_above (snd (programmed id val)) (fst (programmed id val) - 1).
Proof.
  intros Hid. unfold programmed, host_clock. ids id;
    repeat match goal with |- context [if val =? ?x then _ else _] =>
      destruct (val =? x); [vm_compute; split; [discriminate|auto]|] end;
    vm_compute; (split; [discriminate|auto]).
Qed.
Lemma card_clock_limit id type clock divisor : 0 <= id < 4 ->
  clock_sdmmc_get_card_clock_div type = Some (clock, divisor) ->
  0 < clock /\ 0 < divisor /\ not_above (snd (programmed id clock)) (bus_limit type * divisor).
Proof.
  unfold clock_sdmmc_get_card_clock_div, bus_limit. intros Hid E.
  repeat match type of E with context [type =? ?x] =>
    destruct (Z.eqb_spec type x) as [->|?]; cbn [orb] in E end; try discriminate;
    injection E as <- <-; ids id; vm_compute; repeat split; discriminate.
Qed.

(** C38: when the clock of a controller is set for a bus timing, in any state that earlier clock
    operations can lead to, the call returns and reports the clock it programmed rounded up to a
    kHz, and that clock divided by the card divisor is at most what the standards allow for the
    timing, also when the driver finds the clock set already. *)
Theorem card_clock_bounded fuel os s0 s pclock id type clock divisor :
  (lock_max < fuel)%nat -> fresh s0 -> Forall sd_op_ok os -> run_ops fuel os s0 = (Ret tt, s) ->
  0 <= id < 4 -> clock_sdmmc_get_card_clock_div type = Some (clock, divisor) ->
  exists r s', clock_sdmmc_config_clock_source fuel pclock id clock s = (Ret r, s') /\
    let src := creg (clk_dev s') (source_reg id) in
    not_above src r /\ ~ not_above src (r - 1) /\ not_above src (bus_limit type * divisor).
Proof.
  intros Hf H0' Hos Hrun Hid Hdiv. apply fresh_good in H0'.
  destruct (run_ops_good fuel os s0 Hf Hos H0') as ([] & s1 & E & v & e & T & Hs & Hok).
  rewrite E in Hrun. injection Hrun as <-.
  destruct (card_clock_limit id type clock divisor Hid Hdiv) as (Hc & _ & Hl).
  destruct (programmed_exact id clock Hid) as [Hle Hex].
  eapply (runs_config_source fuel pclock id clock s1 v e T); [done|done|lia|done|done|].
  intros r s' v' e' T' ((Hv & _) & _) _ _ _ _ Er. destruct (Hv id Hid) as (_ & _ & Esr).
  cbn [view_of sr] in Esr. rewrite <- Er in Hle, Hex, Hl. cbn [fst snd] in *. cbv zeta. by rewrite Esr.
Qed.

(** Enabling any of the peripheral clocks of the file programs its source, sets its enable bit,
    takes it out of reset, and changes no other bit of the reset, enable and source registers. *)
Theorem clock_enable_correct clk d : clk ∈ all_clocks ->
  exists d', clock_enable clk d = (Ret tt, d') /\
    forall r, ctl r -> creg d' r = enabled_regs clk (creg d) r.
Proof.
  intros Hc. pose proof all_clocks_ok as Hok. rewrite Forall_forall in Hok.
  apply list_elem_of_In in Hc. apply Hok in Hc.
  destruct (runs_clock_enable clk d (creg d) (fun _ d' => holds d' (enabled_regs clk (creg d))))
    as ([] & d' & E & Hd'); [done|apply holds_refl|auto|]. by exists d'.
Qed.

End Registers.

(** *** Frequency counters *)

(** An oscillator within 3% of a frequency of the table is recognised: two
    periods of the 32.768 kHz reference count [f * 2000 / 32768] cycles. *)
Lemma osc_freq_nominal f o : In o _clock_osc_cnt -> 97 * o_freq o <= 100 * f <= 103 * o_freq o ->
  osc_freq (f * 2000 / 32768) = o_freq o.
Proof.
  intros Ho Hf. set (c := f * 2000 / 32768).
  assert (Hc : 32768 * c <= f * 2000 < 32768 * c + 32768) by (subst c; zdm). clearbody c.
  cbn in Ho. unfold osc_freq, _clock_osc_cnt.
  repeat (destruct Ho as [<-|Ho]; [cbn [o_freq List.find o_min o_max] in *; zcases_lia; reflexivity|]). done.
Qed.

(** Sixteen periods of the reference measure a frequency to within 2 kHz. *)
Lemma dev_freq_exact f : 0 <= f -> f * 16000 / 32768 <= PTO_CLK_CNT ->
  f - 2 <= dev_freq (f * 16000 / 32768) <= f.
Proof.
  unfold PTO_CLK_CNT. intros Hf Hm. set (c := f * 16000 / 32768) in *.
  assert (Hc : 32768 * c <= f * 16000 < 32768 * c + 32768) by (subst c; zdm). clearbody c.
  assert (Hc0 : 0 <= c) by lia. unfold dev_freq. rewrite Z.shiftl_mul_pow2 by lia. change (2 ^ 8) with 256.
  rewrite u32_id by lia.
  assert (El : Z.lor (c * 256) 0x3E = c * 256 + 62).
  { symmetry. apply Z.add_nocarry_lor. apply Z.bits_inj'. intros b Hb. rewrite Z.land_spec, Z.bits_0.
    destruct (Z.ltb_spec b 8).
    - replace (c * 256) with (Z.shiftl c 8) by (rewrite Z.shiftl_mul_pow2; lia).
      by rewrite Z.shiftl_spec_low.
    - rewrite (Z.bits_above_log2 62), andb_false_r; [done|lia|]. assert (Z.log2 62 < 8) by reflexivity. lia. }
  rewrite El. zdm.
Qed.

(** ** Witnesses *)

Module Board.
(** The registers, and how many reads of PLLC4 still lack the lock bit. *)
Record board := { b_regs : Z -> Z; b_wait : nat }.

#[global] Instance mmio : Mmio board := {|
  rd32 a d :=
    let v := u32 (b_regs d (a - CLOCK_BASE)) in
    if a =? CLOCK PLLC4_BASE
    then (match b_wait d with O => Z.setbit v 27 | S _ => Z.clearbit v 27 end,
          {| b_regs := b_regs d; b_wait := Nat.pred (Nat.min 3 (b_wait d)) |})
    else (v, d);
  wr32 a v d :=
    {| b_regs := fun r => car_write a (u32 v) r (u32 (b_regs d r));
       b_wait := if a =? CLOCK PLLC4_BASE then 3 else Nat.min 3 (b_wait d) |};
  tmr_us d := (0, d);
  tmr_ms d := (0, d);
  sleep_us _ d := d
|}.

Lemma car_write_range a v r old : 0 <= v < 0x100000000 -> 0 <= old < 0x100000000 ->
  0 <= car_write a v r old < 0x100000000.
Proof.
  intros Hv Ho. unfold car_write. destruct (a =? _); [done|]. destruct (set_clr r) as [[s c]|]; [|done].
  destruct (a =? _); [by apply (lor_bound 32)|]. destruct (a =? _); [|done].
  replace (Z.land old (not32 v)) with (u32 (Z.land old (not32 v))); [apply u32_range|].
  apply Z.bits_inj'. intros b Hb. rewrite u32_testbit, Z.land_spec, not32_testbit by done.
  destruct (b <? 32), (Z.testbit old b); cbn; rewrite ?andb_false_r; done.
Qed.

#[global, program] Instance car : Car board := {|
  creg d r := u32 (b_regs d r); lock_wait d := Nat.min 3 (b_wait d); lock_max := 3 |}.
Next Obligation. intros. apply u32_range. Qed.
Next Obligation. intros. cbn. by destruct (a =? _). Qed.
Next Obligation. done. Qed.
Next Obligation. done. Qed.
Next Obligation.
  intros. cbn. apply u32_id, car_write_range; apply u32_range.
Qed.
Next Obligation.
  intros d r Hr. cbn. rewrite CLOCK_eqb. unfold CLOCK. replace (CLOCK_BASE + r - CLOCK_BASE) with r by lia.
  destruct (Z.eqb_spec r PLLC4_BASE) as [->|]; [|done]. by vm_compute in Hr.
Qed.
Next Obligation.
  intros d b Hb Nb.
  change (fst (rd32 (CLOCK PLLC4_BASE) d)) with (match b_wait d with
    O => Z.setbit (u32 (b_regs d PLLC4_BASE)) 27 | S _ => Z.clearbit (u32 (b_regs d PLLC4_BASE)) 27 end).
  destruct (b_wait d).
  - rewrite setbit_testbit, (proj2 (Z.eqb_neq 27 b)) by lia. done.
  - rewrite clearbit_testbit, (proj2 (Z.eqb_neq 27 b)), andb_true_r by lia. done.
Qed.
Next Obligation. intros. apply Nat.le_min_l. Qed.
Next Obligation.
  intros d _. change (rd32 (CLOCK PLLC4_BASE) d) with (match b_wait d with
    O => Z.setbit (u32 (b_regs d PLLC4_BASE)) 27 | S _ => Z.clearbit (u32 (b_regs d PLLC4_BASE)) 27 end,
    {| b_regs := b_regs d; b_wait := Nat.pred (Nat.min 3 (b_wait d)) |}). cbn [fst snd b_wait].
  destruct (b_wait d) as [|n]; [left; by rewrite setbit_testbit, Z.eqb_refl by lia|right; lia].
Qed.

(** All registers 0. *)
Definition d0 : board := {| b_regs := fun _ => 0; b_wait := 0 |}.

Lemma fresh0 : fresh (clocks_init d0).
Proof. split_and!; [done|reflexivity|]. intros id _ Hc. unfold clocked in Hc. cbn in Hc. by rewrite Z.bits_0 in Hc. Qed.

(** SDMMC1 at 200 MHz, then SDMMC4 at 200 MHz, then SDMMC1 stopped. *)
Definition ops0 : list sd_op := [Enable 0 25000; ConfigSource 0 0 200000; Enable 3 200000; Disable 0].

Lemma pllc4_on_while_used_witness :
  exists s', run_ops (D := board) 4 ops0 (clocks_init d0) = (Ret tt, s') /\
    (clocked (clk_dev s') 3 -> fed_by_pllc4 (clk_dev s') 3 -> pll_on (creg (clk_dev s') PLLC4_BASE)).
Proof.
  destruct (pllc4_on_while_used (D := board) 4 ops0 (clocks_init d0)) as (s' & E & Hu & _).
  - cbn. lia.
  - exact fresh0.
  - repeat constructor; lia.
  - exists s'. split; [done|]. apply (Hu 3). lia.
Defined.

Lemma card_clock_bounded_witness :
  exists r s' s, run_ops (D := board) 4 ops0 (clocks_init d0) = (Ret tt, s) /\
    clock_sdmmc_config_clock_source 4 0 0 25000 s = (Ret r, s') /\
    not_above (creg (clk_dev s') CLK_SOURCE_SDMMC1) (400 * 64).
Proof.
  destruct (run_ops_good (D := board) 4 ops0 (clocks_init d0)) as ([] & s & E & _);
    [cbn; lia|repeat constructor; lia|apply fresh_good, fresh0|].
  destruct (card_clock_bounded (D := board) 4 ops0 (clocks_init d0) s 0 0 TIMING_SD_ID 25000 64)
    as (r & s' & E' & _ & _ & Hb); [cbn; lia|exact fresh0|repeat constructor; lia|done|lia|done|].
  exists r, s', s. split_and!; [done|done|exact Hb].
Defined.

Lemma clock_enable_correct_witness :
  exists d', clock_enable _clock_host1x d0 = (Ret tt, d') /\ creg d' CLK_SOURCE_HOST1X = 0x80000003.
Proof.
  destruct (clock_enable_correct (D := board) _clock_host1x d0) as (d' & E & Hr); [vm_compute; repeat constructor|].
  exists d'. split; [done|]. rewrite Hr by done. reflexivity.
Defined.
End Board.
