(* ===== verification/SdHost.v ===== *)
(** * SdHost

    The SD host controller driver of bdk/storage/sdmmc_driver.c, as an
    implementation of the interface [SdDriver] that the protocol of Sdmmc and
    SdRw is verified against.

    The driver works on the registers of one controller, a version 4 SDHCI with
    single operation DMA.  Their accesses are the class [Sdhci]; the other
    devices are reached through [Mmio] and [I2c], and the clocks through the
    driver of Clock.  Loops take fuel. *)

From S2P Require Import Prelude Mem SdReg Sdmmc.
From S2P Require Import I2c Fuse Gpio Pmic Clock.
#[local] Open Scope Z_scope.

(** ** Registers *)

(** The members of [t210_sdmmc_t] that the driver uses. *)
Inductive sdreg :=
| blksize | blkcnt | argument | trnmod | cmdreg | rspreg0 | rspreg1 | rspreg2 | rspreg3 | prnsts
| hostctl | pwrcon | clkcon | timeoutcon | swrst | norintsts | errintsts | norintstsen | errintstsen
| hostctl2 | capareg | admaaddr | admaaddr_hi | venclkctl | vencapover | veniotrimctl | vendllcalcfg
| vendllcalcfgsts | ventunctl0 | ventunctl1 | sdmemcmppadctl | autocalcfg | autocalsts | iospare.

#[export] Instance sdreg_eq_dec : EqDecision sdreg.
Proof. solve_decision. Defined.

Definition sdwidth (r : sdreg) : Z :=
  match r with
  | hostctl | pwrcon | timeoutcon | swrst => 8
  | blksize | blkcnt | trnmod | cmdreg | clkcon | norintsts | errintsts | norintstsen | errintstsen
  | hostctl2 => 16
  | _ => 32
  end.

Class Sdhci (D : Type) := {
  sd_rd : sdreg -> D -> Z * D;
  sd_wr : sdreg -> Z -> D -> D
}.

Definition SDMMC_POWER_OFF : Z := 0.

Definition SDMMC_MASKINT_MASKED : Z := 0.
Definition SDMMC_MASKINT_NOERROR : Z := -1.
Definition SDMMC_MASKINT_ERROR : Z := -2.

Definition SDHCI_CMD_INHIBIT : Z := 0x1.
Definition SDHCI_DATA_INHIBIT : Z := 0x2.
Definition SDHCI_DATA_LVL_MASK : Z := 0xF00000.
Definition SDHCI_DATA_0_LVL_MASK : Z := 0x100000.
Definition SDHCI_TRNS_DMA : Z := 0x01.
Definition SDHCI_TRNS_BLK_CNT_EN : Z := 0x02.
Definition SDHCI_TRNS_AUTO_CMD12 : Z := 0x04.
Definition SDHCI_TRNS_AUTO_CMD23 : Z := 0x08.
Definition SDHCI_TRNS_READ : Z := 0x10.
Definition SDHCI_TRNS_MULTI : Z := 0x20.
Definition SDHCI_CMD_RESP_LEN136 : Z := 0x1.
Definition SDHCI_CMD_RESP_LEN48 : Z := 0x2.
Definition SDHCI_CMD_RESP_LEN48_BUSY : Z := 0x3.
Definition SDHCI_CMD_CRC : Z := 0x08.
Definition SDHCI_CMD_INDEX : Z := 0x10.
Definition SDHCI_CMD_DATA : Z := 0x20.
Definition SDHCI_CTRL_4BITBUS : Z := 0x02.
Definition SDHCI_CTRL_HISPD : Z := 0x04.
Definition SDHCI_CTRL_DMA_MASK : Z := 0x18.
Definition SDHCI_CTRL_8BITBUS : Z := 0x20.
Definition SDHCI_CTRL_UHS_MASK : Z := 0xFFF8.
Definition SDHCI_CTRL_VDD_180 : Z := 8.
Definition SDHCI_CTRL_EXEC_TUNING : Z := 0x40.
Definition SDHCI_CTRL_TUNED_CLK : Z := 0x80.
Definition SDHCI_HOST_VERSION_4_EN : Z := 0x1000.
Definition SDHCI_ADDRESSING_64BIT_EN : Z := 0x2000.
Definition SDHCI_CTRL_PRESET_VAL_EN : Z := 0x8000.
Definition SDHCI_POWER_ON : Z := 0x01.
Definition SDHCI_POWER_180 : Z := 0x0A.
Definition SDHCI_POWER_330 : Z := 0x0E.
Definition SDHCI_DIVIDER_SHIFT : Z := 8.
Definition SDHCI_DIVIDER_HI_SHIFT : Z := 6.
Definition SDHCI_DIV_MASK : Z := 0xFF00.
Definition SDHCI_DIV_HI_MASK : Z := 0xC0.
Definition SDHCI_PROG_CLOCK_MODE : Z := 0x20.
Definition SDHCI_CLOCK_CARD_EN : Z := 0x4.
Definition SDHCI_CLOCK_INT_STABLE : Z := 0x2.
Definition SDHCI_CLOCK_INT_EN : Z := 0x1.
Definition SDHCI_RESET_ALL : Z := 0x01.
Definition SDHCI_RESET_CMD : Z := 0x02.
Definition SDHCI_RESET_DATA : Z := 0x04.
Definition SDHCI_INT_RESPONSE : Z := 0x1.
Definition SDHCI_INT_DATA_END : Z := 0x2.
Definition SDHCI_INT_DMA_END : Z := 0x8.
Definition SDHCI_INT_DATA_AVAIL : Z := 0x20.
Definition SDHCI_INT_ERROR : Z := 0x8000.
Definition SDHCI_ERR_INT_ALL_EXCEPT_ADMA_BUSPWR : Z := 0x17F.
Definition SDHCI_CAN_64BIT : Z := 0x10000000.
Definition UHS_SDR12_BUS_SPEED : Z := 0.
Definition UHS_SDR25_BUS_SPEED : Z := 1.
Definition UHS_SDR104_BUS_SPEED : Z := 3.
Definition HS400_BUS_SPEED : Z := 5.

Definition TUN_CTRL0_TAP_VAL_UPDATED_BY_HW : Z := 0x20000.
Definition DLLCAL_CFG_EN_CALIBRATE : Z := 0x80000000.
Definition DLLCAL_CFG_STATUS_DLL_ACTIVE : Z := 0x80000000.
Definition PAD_E_INPUT_PWRD : Z := 0x80000000.
Definition COMP_VREF_SEL_MASK : Z := 0xFFFFFFF0.
Definition AUTO_CAL_ENABLE : Z := 0x20000000.
Definition AUTO_CAL_START : Z := 0x80000000.
Definition AUTO_CAL_ACTIVE : Z := 0x80000000.

Definition APB_MISC (off : Z) : Z := 0x70000000 + off.
Definition PINMUX_AUX (off : Z) : Z := 0x70003000 + off.
Definition PMC (off : Z) : Z := 0x7000E400 + off.
Definition GP_SDMMC1_CLK_LPBK_CONTROL : Z := 0x8D4.
Definition GP_VGPIO_GPIO_MUX_SEL : Z := 0xB74.
Definition GP_SDMMC1_PAD_CFGPADCTRL : Z := 0xA98.
Definition GP_EMMC2_PAD_CFGPADCTRL : Z := 0xA9C.
Definition GP_EMMC4_PAD_CFGPADCTRL : Z := 0xAB4.
Definition GP_EMMC4_PAD_PUPD_CFGPADCTRL : Z := 0xABC.
Definition PMC_NO_IOPOWER : Z := 0x44.
Definition PMC_PWR_DET_VAL : Z := 0xE4.
Definition PMC_SDMMC1_IO_EN : Z := BIT 12.
Definition PINMUX_SDMMC1 : list Z := [0x00; 0x04; 0x08; 0x0C; 0x10; 0x14].
Definition PINMUX_SDMMC2 : list Z :=
  [0x2B4; 0x2BC; 0x2B0; 0x2AC; 0x2A8; 0x2A4; 0x2A0; 0x29C; 0x298; 0x294].
Definition PINMUX_SDMMC1_CLK : Z := 0x00.
Definition PINMUX_DMIC3_CLK : Z := 0xB4.
Definition PINMUX_GPIO_PZ1 : Z := 0x280.
Definition PINMUX_PULL_MASK : Z := Z.shiftl 3 2.
Definition PINMUX_PULL_NONE : Z := Z.shiftl 0 2.
Definition PINMUX_PULL_DOWN : Z := Z.shiftl 1 2.
Definition PINMUX_PULL_UP : Z := Z.shiftl 2 2.
Definition PINMUX_INPUT_ENABLE : Z := BIT 6.
Definition PINMUX_SCHMT : Z := BIT 12.
Definition PINMUX_DRIVE_2X : Z := Z.shiftl 1 13.
Definition GPIO_PORT_E : Z := 4.
Definition GPIO_PORT_M : Z := 12.
Definition GPIO_PORT_Z : Z := 25.
Definition REGULATOR_LDO2 : Z := 6.

(** ** State *)

(** [sdmmc_t], without the pointer to the registers. *)
Record sdmmc_t := Sdm {
  s_id : Z;
  s_divisor : Z;
  clock_stopped : bool;
  powersave_enabled : Z;
  manual_cal : bool;
  card_clock_enabled : bool;
  venclkctl_set : bool;
  venclkctl_tap : Z;
  expected_rsp_type : Z;
  dma_addr_next : Z;
  s_rsp : list Z;
  s_rsp3 : Z;
  t210b01 : bool
}.
(** After [memset(sdmmc, 0, sizeof(sdmmc_t))]. *)
Definition sdmmc0 : sdmmc_t := Sdm 0 0 false 0 false false false 0 0 0 (replicate 4 0) 0 false.

Definition set_id v s := Sdm v (s_divisor s) (clock_stopped s) (powersave_enabled s) (manual_cal s)
  (card_clock_enabled s) (venclkctl_set s) (venclkctl_tap s) (expected_rsp_type s) (dma_addr_next s)
  (s_rsp s) (s_rsp3 s) (t210b01 s).
Definition set_divisor v s := Sdm (s_id s) v (clock_stopped s) (powersave_enabled s) (manual_cal s)
  (card_clock_enabled s) (venclkctl_set s) (venclkctl_tap s) (expected_rsp_type s) (dma_addr_next s)
  (s_rsp s) (s_rsp3 s) (t210b01 s).
Definition set_clock_stopped v s := Sdm (s_id s) (s_divisor s) v (powersave_enabled s) (manual_cal s)
  (card_clock_enabled s) (venclkctl_set s) (venclkctl_tap s) (expected_rsp_type s) (dma_addr_next s)
  (s_rsp s) (s_rsp3 s) (t210b01 s).
Definition set_powersave v s := Sdm (s_id s) (s_divisor s) (clock_stopped s) v (manual_cal s)
  (card_clock_enabled s) (venclkctl_set s) (venclkctl_tap s) (expected_rsp_type s) (dma_addr_next s)
  (s_rsp s) (s_rsp3 s) (t210b01 s).
Definition set_manual_cal v s := Sdm (s_id s) (s_divisor s) (clock_stopped s) (powersave_enabled s) v
  (card_clock_enabled s) (venclkctl_set s) (venclkctl_tap s) (expected_rsp_type s) (dma_addr_next s)
  (s_rsp s) (s_rsp3 s) (t210b01 s).
Definition set_card_clock v s := Sdm (s_id s) (s_divisor s) (clock_stopped s) (powersave_enabled s)
  (manual_cal s) v (venclkctl_set s) (venclkctl_tap s) (expected_rsp_type s) (dma_addr_next s)
  (s_rsp s) (s_rsp3 s) (t210b01 s).
Definition set_tap v s := Sdm (s_id s) (s_divisor s) (clock_stopped s) (powersave_enabled s)
  (manual_cal s) (card_clock_enabled s) true v (expected_rsp_type s) (dma_addr_next s)
  (s_rsp s) (s_rsp3 s) (t210b01 s).
Definition set_rsp_type v s := Sdm (s_id s) (s_divisor s) (clock_stopped s) (powersave_enabled s)
  (manual_cal s) (card_clock_enabled s) (venclkctl_set s) (venclkctl_tap s) v (dma_addr_next s)
  (s_rsp s) (s_rsp3 s) (t210b01 s).
Definition set_dma_next v s := Sdm (s_id s) (s_divisor s) (clock_stopped s) (powersave_enabled s)
  (manual_cal s) (card_clock_enabled s) (venclkctl_set s) (venclkctl_tap s) (expected_rsp_type s) v
  (s_rsp s) (s_rsp3 s) (t210b01 s).
Definition set_rsp v s := Sdm (s_id s) (s_divisor s) (clock_stopped s) (powersave_enabled s)
  (manual_cal s) (card_clock_enabled s) (venclkctl_set s) (venclkctl_tap s) (expected_rsp_type s)
  (dma_addr_next s) v (s_rsp3 s) (t210b01 s).
Definition set_rsp3 v s := Sdm (s_id s) (s_divisor s) (clock_stopped s) (powersave_enabled s)
  (manual_cal s) (card_clock_enabled s) (venclkctl_set s) (venclkctl_tap s) (expected_rsp_type s)
  (dma_addr_next s) (s_rsp s) v (t210b01 s).
Definition set_t210b01 v s := Sdm (s_id s) (s_divisor s) (clock_stopped s) (powersave_enabled s)
  (manual_cal s) (card_clock_enabled s) (venclkctl_set s) (venclkctl_tap s) (expected_rsp_type s)
  (dma_addr_next s) (s_rsp s) (s_rsp3 s) v.

(** The context, the device with the statics of the clock driver, and
    [sd_power_cycle_time_start]. *)
Record host (D : Type) := Host { hs : sdmmc_t; hclk : clocks D; power_start : Z }.
Arguments Host {D}.
Arguments hs {D}.
Arguments hclk {D}.
Arguments power_start {D}.

Section Host.
Context {D : Type} `{Mmio D} `{I2c D} `{Sdhci D}.
(** The rounds of the loops, and the fuse word that Pmic takes. *)
Context (fuel : nat) (odm28 : Z).

Definition on_clk {A} (m : M (clocks D) A) : M (host D) A := fun x =>
  let '(r, c) := m (hclk x) in (r, Host (hs x) c (power_start x)).
Definition on_dev {A} (m : M D A) : M (host D) A := on_clk (on_car m).
Definition ctx : M (host D) sdmmc_t := x ← get; mret (hs x).
Definition setf (f : sdmmc_t -> sdmmc_t) : M (host D) unit :=
  modify (fun x => Host (f (hs x)) (hclk x) (power_start x)).

Definition rdr (r : sdreg) : M (host D) Z :=
  on_dev (fun d => let '(v, d) := sd_rd r d in (Ret v, d)).
(** A store truncates to the width of the register. *)
Definition wrr (r : sdreg) (v : Z) : M (host D) unit :=
  on_dev (modify (sd_wr r (v mod 2 ^ sdwidth r))).
Definition updr (r : sdreg) (f : Z -> Z) : M (host D) unit := v ← rdr r; wrr r (f v).
Definition orr (r : sdreg) (x : Z) : M (host D) unit := updr r (fun v => Z.lor v x).
(** [r &= ~x] *)
Definition andn (r : sdreg) (x : Z) : M (host D) unit := updr r (fun v => Z.land v (Z.lnot x)).
Definition test (r : sdreg) (x : Z) : M (host D) bool := v ← rdr r; mret (c_true (Z.land v x)).

Definition sleep (us : Z) : M (host D) unit := on_dev (usleep us).
Definition ms : M (host D) Z := on_dev get_tmr_ms.
Definition us : M (host D) Z := on_dev get_tmr_us.
Definition mupd (a : Z) (f : Z -> Z) : M (host D) unit := on_dev (v ← rd a; wr a (f v)).
Definition mrd (a : Z) : M (host D) unit := on_dev (rd a;; mret tt).
Definition mwr (a v : Z) : M (host D) unit := on_dev (wr a v).
(** Commands that end in [k] when the test is met. *)
Definition when (b : bool) (m : M (host D) unit) : M (host D) unit := if b then m else mret tt.

(** ** Power and bus *)

Definition sdmmc_get_io_power : M (host D) Z :=
  p ← rdr pwrcon;
  mret (if negb (c_true (Z.land p SDHCI_POWER_ON)) then SDMMC_POWER_OFF
        else if c_true (Z.land p SDHCI_POWER_180) then SDMMC_POWER_1_8
        else if c_true (Z.land p SDHCI_POWER_330) then SDMMC_POWER_3_3
        else -1).

Definition _sdmmc_set_io_power (power : Z) : M (host D) bool :=
  let on := orr pwrcon SDHCI_POWER_ON;; mret true in
  if power =? SDMMC_POWER_OFF then andn pwrcon SDHCI_POWER_ON;; mret true
  else if power =? SDMMC_POWER_1_8 then wrr pwrcon SDHCI_POWER_180;; on
  else if power =? SDMMC_POWER_3_3 then wrr pwrcon SDHCI_POWER_330;; on
  else mret false.

Definition sdmmc_get_bus_width : M (host D) Z :=
  h ← rdr hostctl;
  mret (if c_true (Z.land h SDHCI_CTRL_8BITBUS) then BUS_WIDTH_8
        else if c_true (Z.land h SDHCI_CTRL_4BITBUS) then BUS_WIDTH_4 else BUS_WIDTH_1).

Definition sdmmc_set_bus_width (bus_width : Z) : M (host D) unit :=
  h ← rdr hostctl;
  let host_control := Z.land h (Z.lnot (Z.lor SDHCI_CTRL_4BITBUS SDHCI_CTRL_8BITBUS)) in
  if bus_width =? BUS_WIDTH_1 then wrr hostctl host_control
  else if bus_width =? BUS_WIDTH_4 then wrr hostctl (Z.lor host_control SDHCI_CTRL_4BITBUS)
  else if bus_width =? BUS_WIDTH_8 then wrr hostctl (Z.lor host_control SDHCI_CTRL_8BITBUS)
  else mret tt.

Definition sdmmc_save_tap_value : M (host D) unit :=
  v ← rdr venclkctl;
  setf (set_tap (Z.shiftr v 16)).

Definition tap_values_t210 : list Z := [4; 0; 3; 0].

Definition _sdmmc_config_tap_val (type : Z) : M (host D) bool :=
  s ← ctx;
  when (type =? TIMING_MMC_HS400)
    (updr vencapover (fun v => Z.lor (Z.land v 0xFFFFC0FF) (Z.shiftl 0x28 8)));;
  andn ventunctl0 TUN_CTRL0_TAP_VAL_UPDATED_BY_HW;;
  let set_tap_val tap_val :=
    updr venclkctl (fun v => Z.lor (Z.land v 0xFF00FFFF) (Z.shiftl tap_val 16));; mret true in
  if type =? TIMING_MMC_HS400 then
    if negb (venclkctl_set s) then mret false else set_tap_val (venclkctl_tap s)
  else if t210b01 s then set_tap_val 11
  else match tap_values_t210 !! Z.to_nat (s_id s) with
       | Some v => set_tap_val v
       | None => overrun
       end.

Definition _sdmmc_commit_changes : M (host D) unit := rdr clkcon;; mret tt.

(** ** Waiting *)

(** [while (((r & mask) != 0) != set) if (get_tmr_ms() > timeout) return 0;]
    Returns whether the bits were seen in time. *)
Fixpoint wait_bits (n : nat) (r : sdreg) (mask : Z) (set : bool) (timeout : Z) : M (host D) bool :=
  match n with
  | O => nofuel
  | S n =>
      b ← test r mask;
      if Bool.eqb b set then mret true
      else t ← ms; if timeout <? t then mret false else wait_bits n r mask set timeout
  end.

(** [while ((swrst & mask) && get_tmr_ms() < timeout) ;] *)
Fixpoint reset_wait (n : nat) (mask timeout : Z) : M (host D) unit :=
  match n with
  | O => nofuel
  | S n =>
      b ← test swrst mask;
      if negb b then mret tt
      else t ← ms; if t <? timeout then reset_wait n mask timeout else mret tt
  end.

Definition deadline (n : Z) : M (host D) Z := t ← ms; mret (u32 (t + n)).

Definition _sdmmc_reset : M (host D) unit :=
  orr swrst (Z.lor SDHCI_RESET_CMD SDHCI_RESET_DATA);;
  _sdmmc_commit_changes;;
  timeout ← deadline 2000;
  reset_wait fuel (Z.lor SDHCI_RESET_CMD SDHCI_RESET_DATA) timeout.

Definition _sdmmc_reset_all : M (host D) unit :=
  orr swrst SDHCI_RESET_ALL;;
  _sdmmc_commit_changes;;
  timeout ← deadline 2000;
  reset_wait fuel SDHCI_RESET_ALL timeout.

(** ** Calibration and clock *)

Definition _sdmmc_pad_config_fallback (power : Z) : M (host D) unit :=
  _sdmmc_commit_changes;;
  s ← ctx;
  if s_id s =? SDMMC_1 then
    if power =? SDMMC_POWER_OFF then mret tt
    else
      mupd (APB_MISC GP_SDMMC1_PAD_CFGPADCTRL) (fun v =>
        let cfg := Z.land v 0xF8080FFF in
        if t210b01 s then Z.lor cfg (Z.shiftl 0x808 12)
        else if power =? SDMMC_POWER_1_8 then Z.lor cfg (Z.shiftl 0xB0F 12)
        else if power =? SDMMC_POWER_3_3 then Z.lor cfg (Z.shiftl 0xC0C 12)
        else cfg);;
      mrd (APB_MISC GP_SDMMC1_PAD_CFGPADCTRL)
  else if s_id s =? SDMMC_2 then
    mupd (APB_MISC GP_EMMC2_PAD_CFGPADCTRL) (fun v =>
      if t210b01 s then Z.lor (Z.land v 0xF8080FFF) 0xA0A000
      else Z.lor (Z.land v 0xFFFFC003) 0x1040);;
    mrd (APB_MISC GP_EMMC2_PAD_CFGPADCTRL)
  else if s_id s =? SDMMC_4 then
    mupd (APB_MISC GP_EMMC4_PAD_CFGPADCTRL)
      (fun v => Z.lor (Z.land v 0xFFFFC003) (if t210b01 s then 0xA28 else 0x1040));;
    mrd (APB_MISC GP_EMMC4_PAD_CFGPADCTRL)
  else mret tt.

(** The C code marks a timeout by setting [timeout] to 0; a deadline that wraps
    around to 0 has the same effect. *)
Definition _sdmmc_autocal_execute (power : Z) : M (host D) unit :=
  should_enable_sd_clock ← test clkcon SDHCI_CLOCK_CARD_EN;
  when should_enable_sd_clock (andn clkcon SDHCI_CLOCK_CARD_EN);;
  e ← test sdmemcmppadctl PAD_E_INPUT_PWRD;
  when (negb e) (orr sdmemcmppadctl PAD_E_INPUT_PWRD;; _sdmmc_commit_changes;; sleep 1);;
  orr autocalcfg (Z.lor AUTO_CAL_ENABLE AUTO_CAL_START);;
  _sdmmc_commit_changes;;
  sleep 2;;
  timeout ← deadline 10;
  done ← wait_bits fuel autocalsts AUTO_CAL_ACTIVE false timeout;
  when (negb done || (timeout =? 0))
    (_sdmmc_pad_config_fallback power;; andn autocalcfg AUTO_CAL_ENABLE);;
  andn sdmemcmppadctl PAD_E_INPUT_PWRD;;
  when should_enable_sd_clock (orr clkcon SDHCI_CLOCK_CARD_EN).

Definition _sdmmc_dll_cal_execute : M (host D) bool :=
  e ← test clkcon SDHCI_CLOCK_CARD_EN;
  when (negb e) (orr clkcon SDHCI_CLOCK_CARD_EN);;
  orr vendllcalcfg DLLCAL_CFG_EN_CALIBRATE;;
  _sdmmc_commit_changes;;
  timeout ← deadline 5;
  result ← (ok ← wait_bits fuel vendllcalcfg DLLCAL_CFG_EN_CALIBRATE false timeout;
            if negb ok then mret false
            else timeout ← deadline 10;
                 wait_bits fuel vendllcalcfgsts DLLCAL_CFG_STATUS_DLL_ACTIVE false timeout);
  when (negb e) (andn clkcon SDHCI_CLOCK_CARD_EN);;
  mret result.

(** The registers of the bus mode in [sdmmc_setup_clock]. *)
Definition set_bus_mode (type : Z) : M (host D) unit :=
  let uhs speed :=
    updr hostctl2 (fun v => Z.lor (Z.land v SDHCI_CTRL_UHS_MASK) speed);;
    orr hostctl2 SDHCI_CTRL_VDD_180 in
  if (type =? TIMING_MMC_ID) || (type =? TIMING_MMC_LS26) || (type =? TIMING_SD_ID) || (type =? TIMING_SD_DS12)
  then andn hostctl SDHCI_CTRL_HISPD;; andn hostctl2 SDHCI_CTRL_VDD_180
  else if (type =? TIMING_MMC_HS52) || (type =? TIMING_SD_HS25)
  then orr hostctl SDHCI_CTRL_HISPD;; andn hostctl2 SDHCI_CTRL_VDD_180
  else if (type =? TIMING_MMC_HS200) || (type =? TIMING_UHS_SDR50) || (type =? TIMING_UHS_SDR104) ||
          (type =? TIMING_UHS_SDR82) || (type =? TIMING_UHS_DDR50) || (type =? TIMING_MMC_HS102)
  then uhs UHS_SDR104_BUS_SPEED
  else if type =? TIMING_MMC_HS400 then uhs HS400_BUS_SPEED
  else if type =? TIMING_UHS_SDR25 then uhs UHS_SDR25_BUS_SPEED
  else if type =? TIMING_UHS_SDR12 then uhs UHS_SDR12_BUS_SPEED
  else mret tt.

(** An unknown [type] leaves the clock and the divisor uninitialised. *)
Definition card_clock_div (type : Z) : M (host D) (Z * Z) :=
  match clock_sdmmc_get_card_clock_div type with Some p => mret p | None => overrun end.

Definition sdmmc_setup_clock (type : Z) : M (host D) bool :=
  should_enable_sd_clock ← test clkcon SDHCI_CLOCK_CARD_EN;
  when should_enable_sd_clock (andn clkcon SDHCI_CLOCK_CARD_EN);;
  _sdmmc_config_tap_val type;;
  _sdmmc_reset;;
  set_bus_mode type;;
  _sdmmc_commit_changes;;
  p ← card_clock_div type;
  let '(clock, divisor) := p in
  s ← ctx;
  clock ← on_clk (clock_sdmmc_config_clock_source fuel clock (s_id s) clock);
  setf (set_divisor (u32 (clock + divisor - 1) / divisor));;
  let div := Z.shiftr divisor 1 in
  let divisor := if 0xFF <? div then Z.shiftr div SDHCI_DIVIDER_SHIFT else 0 in
  updr clkcon (fun v => Z.lor (Z.lor (Z.land v (Z.lnot (Z.lor SDHCI_DIV_MASK SDHCI_DIV_HI_MASK)))
    (Z.shiftl div SDHCI_DIVIDER_SHIFT)) (Z.shiftl divisor SDHCI_DIVIDER_HI_SHIFT));;
  when should_enable_sd_clock (orr clkcon SDHCI_CLOCK_CARD_EN);;
  if type =? TIMING_MMC_HS400 then _sdmmc_dll_cal_execute else mret true.

Definition _sdmmc_card_clock_enable : M (host D) unit :=
  s ← ctx;
  when (manual_cal s && negb (c_true (powersave_enabled s)))
    (p ← sdmmc_get_io_power; _sdmmc_autocal_execute (u32 p));;
  when (negb (c_true (powersave_enabled s)))
    (e ← test clkcon SDHCI_CLOCK_CARD_EN; when (negb e) (orr clkcon SDHCI_CLOCK_CARD_EN));;
  setf (set_card_clock true).

Definition _sdmmc_sd_clock_disable : M (host D) unit :=
  setf (set_card_clock false);;
  andn clkcon SDHCI_CLOCK_CARD_EN.

Definition sdmmc_card_clock_powersave (powersave_enable : Z) : M (host D) unit :=
  s ← ctx;
  when (manual_cal s && negb (c_true powersave_enable) && card_clock_enabled s)
    (p ← sdmmc_get_io_power; _sdmmc_autocal_execute (u32 p));;
  setf (set_powersave powersave_enable);;
  if c_true powersave_enable then
    e ← test clkcon SDHCI_CLOCK_CARD_EN; when e (andn clkcon SDHCI_CLOCK_CARD_EN)
  else
    when (card_clock_enabled s)
      (e ← test clkcon SDHCI_CLOCK_CARD_EN; when (negb e) (orr clkcon SDHCI_CLOCK_CARD_EN)).

(** ** Commands and responses *)

(** The words a response leaves at [rsp], which holds [old]. *)
Definition _sdmmc_cache_rsp (old : list Z) (size type : Z) : M (host D) (bool * list Z) :=
  if (type =? 1) || (type =? 3) || (type =? 4) || (type =? 5) then
    if size <? 4 then mret (false, old)
    else r0 ← rdr rspreg0; mret (true, <[0%nat := r0]> old)
  else if type =? 2 then
    if size <? 0x10 then mret (false, old)
    else
      t0 ← rdr rspreg3; t1 ← rdr rspreg2; t2 ← rdr rspreg1; t3 ← rdr rspreg0;
      let join a b := Z.lor (u32 (Z.shiftl a 8)) (Z.land (Z.shiftr b 24) 0xFF) in
      mret (true, [join t0 t1; join t1 t2; join t2 t3; u32 (Z.shiftl t3 8)])
  else mret (false, old).

(** What is stored at [rsp], or [None] for the result 0. *)
Definition sdmmc_get_rsp (size type : Z) (s : sdmmc_t) : option (list Z) :=
  if negb (expected_rsp_type s =? type) then None
  else if (type =? 1) || (type =? 3) || (type =? 4) || (type =? 5) then
    if size <? 4 then None else Some (take 1 (s_rsp s))
  else if type =? 2 then
    if size <? 16 then None else Some (take 4 (s_rsp s))
  else None.

Definition _sdmmc_wait_cmd_data_inhibit (wait_dat : bool) : M (host D) bool :=
  _sdmmc_commit_changes;;
  timeout ← deadline 2000;
  ok ← wait_bits fuel prnsts SDHCI_CMD_INHIBIT false timeout;
  if negb ok then _sdmmc_reset;; mret false
  else if wait_dat then
    timeout ← deadline 2000;
    ok ← wait_bits fuel prnsts SDHCI_DATA_INHIBIT false timeout;
    if negb ok then _sdmmc_reset;; mret false else mret true
  else mret true.

Definition _sdmmc_wait_card_busy : M (host D) bool :=
  _sdmmc_commit_changes;;
  timeout ← deadline 2000;
  ok ← wait_bits fuel prnsts SDHCI_DATA_0_LVL_MASK true timeout;
  if negb ok then _sdmmc_reset;; mret false else mret true.

Definition _sdmmc_setup_read_small_block : M (host D) bool :=
  w ← sdmmc_get_bus_width;
  if w =? BUS_WIDTH_1 then mret false
  else
    when (w =? BUS_WIDTH_4) (wrr blksize 64);;
    when (w =? BUS_WIDTH_8) (wrr blksize 128);;
    wrr blkcnt 1;;
    wrr trnmod SDHCI_TRNS_READ;;
    mret true.

(** The response flags of a command; [None] for an unknown response type. *)
Definition rsp_flags (rsp_type : Z) (check_busy : bool) : option Z :=
  if rsp_type =? 0 then Some 0
  else if (rsp_type =? 1) || (rsp_type =? 4) || (rsp_type =? 5) then
    Some (Z.lor (Z.lor (if check_busy then SDHCI_CMD_RESP_LEN48_BUSY else SDHCI_CMD_RESP_LEN48)
                   SDHCI_CMD_INDEX) SDHCI_CMD_CRC)
  else if rsp_type =? 2 then Some (Z.lor SDHCI_CMD_RESP_LEN136 SDHCI_CMD_CRC)
  else if rsp_type =? 3 then Some SDHCI_CMD_RESP_LEN48
  else None.

Definition _sdmmc_send_cmd (cmd : sdmmc_cmd_t) (is_data_present : bool) : M (host D) bool :=
  match rsp_flags (c_rsp_type cmd) (c_check_busy cmd) with
  | None => mret false
  | Some cmdflags =>
      let cmdflags := if is_data_present then Z.lor cmdflags SDHCI_CMD_DATA else cmdflags in
      wrr argument (c_arg cmd);;
      wrr cmdreg (Z.lor (Z.shiftl (c_cmd cmd) 8) cmdflags);;
      mret true
  end.

Definition _sdmmc_send_tuning_cmd (cmd : Z) : M (host D) unit :=
  _sdmmc_send_cmd (mk_cmd (u16 cmd) 0 1 false) true;; mret tt.

(** [usleep((8000 + divisor - 1) / divisor)]; a divisor of 0 has no meaning. *)
Definition sleep_8_clocks : M (host D) unit :=
  s ← ctx;
  if s_divisor s =? 0 then overrun else sleep (u32 (8000 + s_divisor s - 1) / s_divisor s).

Fixpoint tuning_wait (n : nat) (timeout : Z) : M (host D) bool :=
  match n with
  | O => nofuel
  | S n =>
      t ← us;
      if t <? timeout then
        b ← test norintsts SDHCI_INT_DATA_AVAIL;
        if (b : bool) then
          wrr norintsts SDHCI_INT_DATA_AVAIL;;
          andn norintstsen SDHCI_INT_DATA_AVAIL;;
          _sdmmc_commit_changes;;
          sleep_8_clocks;;
          mret true
        else tuning_wait n timeout
      else mret false
  end.

Definition _sdmmc_tuning_execute_once (cmd : Z) : M (host D) bool :=
  s ← ctx;
  if c_true (powersave_enabled s) then mret false
  else
    ok ← _sdmmc_wait_cmd_data_inhibit true;
    if negb ok then mret false
    else
      _sdmmc_setup_read_small_block;;
      orr norintstsen SDHCI_INT_DATA_AVAIL;;
      updr norintsts (fun v => v);;
      andn clkcon SDHCI_CLOCK_CARD_EN;;
      _sdmmc_send_tuning_cmd cmd;;
      _sdmmc_commit_changes;;
      sleep 1;;
      _sdmmc_reset;;
      orr clkcon SDHCI_CLOCK_CARD_EN;;
      _sdmmc_commit_changes;;
      t ← us;
      ok ← tuning_wait fuel (u32 (t + 5000));
      if (ok : bool) then mret true
      else
        _sdmmc_reset;;
        andn norintstsen SDHCI_INT_DATA_AVAIL;;
        _sdmmc_commit_changes;;
        sleep_8_clocks;;
        mret false.

(** [for (u32 i = 0; i < max; i++)], [n] rounds. *)
Fixpoint tuning_loop (n : nat) (cmd : Z) : M (host D) unit :=
  match n with
  | O => mret tt
  | S n =>
      _sdmmc_tuning_execute_once cmd;;
      b ← test hostctl2 SDHCI_CTRL_EXEC_TUNING;
      if negb b then mret tt else tuning_loop n cmd
  end.

Definition sdmmc_tuning_execute (type cmd : Z) : M (host D) bool :=
  let go (max : nat) flag :=
    wrr ventunctl1 0;;
    updr ventunctl0 (fun v => Z.lor (Z.land v 0xFFFF1FFF) flag);;
    updr ventunctl0 (fun v => Z.lor (Z.land v 0xFFFFE03F) (Z.shiftl 1 6));;
    orr ventunctl0 TUN_CTRL0_TAP_VAL_UPDATED_BY_HW;;
    orr hostctl2 SDHCI_CTRL_EXEC_TUNING;;
    tuning_loop max cmd;;
    test hostctl2 SDHCI_CTRL_TUNED_CLK in
  if (type =? TIMING_MMC_HS200) || (type =? TIMING_MMC_HS400) || (type =? TIMING_UHS_SDR104) ||
     (type =? TIMING_UHS_SDR82) then go 128%nat (Z.shiftl 2 13)
  else if (type =? TIMING_UHS_SDR50) || (type =? TIMING_UHS_DDR50) || (type =? TIMING_MMC_HS102)
  then go 256%nat (Z.shiftl 4 13)
  else mret ((type =? TIMING_UHS_SDR12) || (type =? TIMING_UHS_SDR25)).

Definition _sdmmc_enable_internal_clock : M (host D) bool :=
  orr clkcon SDHCI_CLOCK_INT_EN;;
  _sdmmc_commit_changes;;
  timeout ← deadline 2000;
  ok ← wait_bits fuel clkcon SDHCI_CLOCK_INT_STABLE true timeout;
  if negb ok then mret false
  else
    andn hostctl2 SDHCI_CTRL_PRESET_VAL_EN;;
    andn clkcon SDHCI_PROG_CLOCK_MODE;;
    orr hostctl2 SDHCI_HOST_VERSION_4_EN;;
    c ← test capareg SDHCI_CAN_64BIT;
    if negb c then mret false
    else
      orr hostctl2 SDHCI_ADDRESSING_64BIT_EN;;
      andn hostctl SDHCI_CTRL_DMA_MASK;;
      updr timeoutcon (fun v => Z.lor (Z.land v 0xF0) 0xE);;
      mret true.

(** The offsets for pull-down and pull-up; [None] for the result 0. *)
Definition autocal_offsets (s : sdmmc_t) (power : Z) : option (Z * Z) :=
  if (s_id s =? SDMMC_2) || (s_id s =? SDMMC_4) then
    if power =? SDMMC_POWER_1_8 then Some (5, 5) else None
  else if s_id s =? SDMMC_1 then
    if power =? SDMMC_POWER_1_8 then Some (if t210b01 s then (6, 6) else (123, 123))
    else if power =? SDMMC_POWER_3_3 then Some (if t210b01 s then (0, 0) else (125, 0))
    else None
  else Some (0, 0).

Definition _sdmmc_autocal_config_offset (power : Z) : M (host D) bool :=
  s ← ctx;
  match autocal_offsets s power with
  | None => mret false
  | Some (off_pd, off_pu) =>
      updr autocalcfg (fun v => Z.lor (Z.lor (Z.land v 0xFFFF8080) (Z.shiftl off_pd 8)) off_pu);;
      mret true
  end.

Definition INT_ALL : Z := Z.lor (Z.lor SDHCI_INT_DMA_END SDHCI_INT_DATA_END) SDHCI_INT_RESPONSE.

Definition _sdmmc_enable_interrupts : M (host D) unit :=
  orr norintstsen INT_ALL;;
  orr errintstsen SDHCI_ERR_INT_ALL_EXCEPT_ADMA_BUSPWR;;
  updr norintsts (fun v => v);;
  updr errintsts (fun v => v).

Definition _sdmmc_mask_interrupts : M (host D) unit :=
  andn errintstsen SDHCI_ERR_INT_ALL_EXCEPT_ADMA_BUSPWR;;
  andn norintstsen INT_ALL.

(** The result and [*pout]. *)
Definition _sdmmc_check_mask_interrupt (mask : Z) : M (host D) (Z * Z) :=
  nor ← rdr norintsts;
  err ← rdr errintsts;
  if c_true (Z.land nor SDHCI_INT_ERROR) then wrr errintsts err;; mret (SDMMC_MASKINT_ERROR, nor)
  else if c_true (Z.land nor mask) then wrr norintsts (Z.land nor mask);; mret (SDMMC_MASKINT_MASKED, nor)
  else mret (SDMMC_MASKINT_NOERROR, nor).

Fixpoint response_loop (n : nat) (timeout : Z) : M (host D) bool :=
  match n with
  | O => nofuel
  | S n =>
      p ← _sdmmc_check_mask_interrupt SDHCI_INT_RESPONSE;
      let '(result, _) := p in
      if result =? SDMMC_MASKINT_MASKED then mret true
      else if negb (result =? SDMMC_MASKINT_NOERROR) then _sdmmc_reset;; mret false
      else t ← ms; if timeout <? t then _sdmmc_reset;; mret false else response_loop n timeout
  end.

Definition _sdmmc_wait_response : M (host D) bool :=
  _sdmmc_commit_changes;;
  timeout ← deadline 2000;
  response_loop fuel timeout.

(** The callers of [sdmmc_stop_transmission] ignore the response. *)
Definition _sdmmc_stop_transmission_inner : M (host D) bool :=
  ok ← _sdmmc_wait_cmd_data_inhibit false;
  if negb ok then mret false
  else
    _sdmmc_enable_interrupts;;
    _sdmmc_send_cmd (mk_cmd 12 0 1 true) false;;
    result ← _sdmmc_wait_response;
    _sdmmc_mask_interrupts;;
    if negb result then mret false
    else _sdmmc_cache_rsp [0] 4 1;; _sdmmc_wait_card_busy.

(** Run [m] with the clock of the card on. *)
Definition with_card_clock {A} (m : M (host D) A) : M (host D) A :=
  s ← ctx;
  when (manual_cal s && c_true (powersave_enabled s))
    (p ← sdmmc_get_io_power; _sdmmc_autocal_execute (u32 p));;
  e ← test clkcon SDHCI_CLOCK_CARD_EN;
  when (negb e) (orr clkcon SDHCI_CLOCK_CARD_EN;; _sdmmc_commit_changes;; sleep_8_clocks);;
  result ← m;
  sleep_8_clocks;;
  when (negb e) (andn clkcon SDHCI_CLOCK_CARD_EN);;
  mret result.

Definition sdmmc_stop_transmission : M (host D) bool :=
  s ← ctx;
  if negb (card_clock_enabled s) then mret false
  else with_card_clock _sdmmc_stop_transmission_inner.

(** ** Transfers *)

Definition trnmode (req : sdmmc_req_t) : Z :=
  let t := if r_is_multi_block req
           then Z.lor (Z.lor SDHCI_TRNS_MULTI SDHCI_TRNS_BLK_CNT_EN) SDHCI_TRNS_DMA else SDHCI_TRNS_DMA in
  let t := if r_is_write req then t else Z.lor t SDHCI_TRNS_READ in
  if r_is_auto_cmd12 req
  then Z.lor (Z.land t (Z.lnot (Z.lor SDHCI_TRNS_AUTO_CMD12 SDHCI_TRNS_AUTO_CMD23))) SDHCI_TRNS_AUTO_CMD12
  else t.

(** What is stored at [blkcnt_out], or [None] for the result 0. *)
Definition _sdmmc_config_dma (req : sdmmc_req_t) : M (host D) (option Z) :=
  if (r_blksize req =? 0) || (r_num_sectors req =? 0) then mret None
  else
    let count := if 0xFFFF <=? r_num_sectors req then 0xFFFF else r_num_sectors req in
    let addr := u32 (r_buf req) in
    if c_true (Z.land addr 7) then mret None
    else
      wrr admaaddr addr;;
      wrr admaaddr_hi 0;;
      setf (set_dma_next (Z.land (u32 (addr + 0x80000)) 0xFFF80000));;
      wrr blksize (Z.lor (r_blksize req) 0x7000);;
      wrr blkcnt count;;
      wrr trnmod (trnmode req);;
      mret (Some count).

(** The inner loop of [_sdmmc_update_dma]: [None] when the transfer is
    complete, or the negative result that ends the loop. *)
Fixpoint dma_poll (n : nat) : M (host D) (option Z) :=
  match n with
  | O => nofuel
  | S n =>
      p ← _sdmmc_check_mask_interrupt (Z.lor SDHCI_INT_DATA_END SDHCI_INT_DMA_END);
      let '(result, intr) := p in
      if result <? 0 then mret (Some result)
      else if c_true (Z.land intr SDHCI_INT_DATA_END) then mret None
      else
        when (c_true (Z.land intr SDHCI_INT_DMA_END))
          (s ← ctx;
           wrr admaaddr (dma_addr_next s);;
           wrr admaaddr_hi 0;;
           setf (set_dma_next (u32 (dma_addr_next s + 0x80000))));;
        dma_poll n
  end.

(** The middle loop: the value that is returned, or [None] at the timeout. *)
Fixpoint dma_wait (n : nat) (timeout : Z) : M (host D) (option bool) :=
  match n with
  | O => nofuel
  | S n =>
      r ← dma_poll fuel;
      match r with
      | None => mret (Some true)
      | Some result =>
          if negb (result =? SDMMC_MASKINT_NOERROR) then _sdmmc_reset;; mret (Some false)
          else t ← ms; if t <? timeout then dma_wait n timeout else mret None
      end
  end.

(** The outer loop: as long as the block count moves. *)
Fixpoint dma_rounds (n : nat) : M (host D) bool :=
  match n with
  | O => nofuel
  | S n =>
      count ← rdr blkcnt;
      timeout ← deadline 1500;
      r ← dma_wait fuel timeout;
      match r with
      | Some b => mret b
      | None =>
          now ← rdr blkcnt;
          if negb (now =? count) then dma_rounds n else _sdmmc_reset;; mret false
      end
  end.
Definition _sdmmc_update_dma : M (host D) bool := dma_rounds fuel.

(** The cache maintenance around a transfer has no part in the model, where
    memory has one content. *)
Definition _sdmmc_execute_cmd_inner (cmd : sdmmc_cmd_t) (req : option sdmmc_req_t)
    : M (host D) (bool * option Z) :=
  ok ← _sdmmc_wait_cmd_data_inhibit (c_check_busy cmd || bool_decide (is_Some req));
  if negb ok then mret (false, None)
  else
    conf ← match req with
           | None => mret (Some 0)
           | Some q => _sdmmc_config_dma q
           end;
    match conf with
    | None => mret (false, None)
    | Some count =>
        _sdmmc_enable_interrupts;;
        ok ← _sdmmc_send_cmd cmd (bool_decide (is_Some req));
        if negb ok then mret (false, None)
        else
          result ← _sdmmc_wait_response;
          result ← (if (result && c_true (c_rsp_type cmd) : bool) then
                      setf (set_rsp_type (c_rsp_type cmd));;
                      s ← ctx;
                      p ← _sdmmc_cache_rsp (s_rsp s) 0x10 (c_rsp_type cmd);
                      setf (set_rsp p.2);;
                      mret p.1
                    else mret result);
          result ← (if (result && bool_decide (is_Some req) : bool) then _sdmmc_update_dma else mret result);
          _sdmmc_mask_interrupts;;
          if negb result then mret (false, None)
          else
            (match req with
             | Some q => when (r_is_auto_cmd12 q) (v ← rdr rspreg3; setf (set_rsp3 v))
             | None => mret tt
             end);;
            let out := match req with Some _ => Some count | None => None end in
            if c_check_busy cmd || bool_decide (is_Some req)
            then b ← _sdmmc_wait_card_busy; mret (b, out)
            else mret (true, out)
    end.

Definition sdmmc_execute_cmd (cmd : sdmmc_cmd_t) (req : option sdmmc_req_t) : M (host D) (bool * option Z) :=
  s ← ctx;
  if negb (card_clock_enabled s) then mret (false, None)
  else with_card_clock (_sdmmc_execute_cmd_inner cmd req).

(** ** Controller set-up *)

Definition sdmmc_get_sd_inserted : M (host D) bool :=
  v ← on_dev (gpio_read GPIO_PORT_Z (BIT 1)); mret (negb (c_true v)).

Fixpoint schmitt (pins : list Z) : M (host D) unit :=
  match pins with
  | [] => mret tt
  | p :: pins => mupd (PINMUX_AUX p) (fun v => Z.lor v PINMUX_SCHMT);; schmitt pins
  end.
Definition _sdmmc_config_sdmmc1_schmitt : M (host D) unit := schmitt PINMUX_SDMMC1.
Definition _sdmmc_config_sdmmc2_schmitt : M (host D) unit := schmitt PINMUX_SDMMC2.

Definition _sdmmc_config_sdmmc1_pads (discharge : bool) : M (host D) unit :=
  on_dev (gpio_config GPIO_PORT_M 0x3F discharge);;
  on_dev (gpio_write GPIO_PORT_M 0x3F discharge);;
  on_dev (gpio_output_enable GPIO_PORT_M 0x3F discharge).

(** The pins CMD, DAT3, DAT2, DAT1 and DAT0. *)
Fixpoint reset_pins (pins : list Z) : M (host D) unit :=
  match pins with
  | [] => mret tt
  | p :: pins =>
      mwr (PINMUX_AUX p) (Z.lor (Z.lor PINMUX_DRIVE_2X PINMUX_INPUT_ENABLE) PINMUX_PULL_UP);; reset_pins pins
  end.

Definition _sdmmc_config_sdmmc1 (b01 : bool) : M (host D) bool :=
  mwr (PINMUX_AUX PINMUX_GPIO_PZ1) (Z.lor (Z.lor PINMUX_INPUT_ENABLE PINMUX_PULL_UP) 2);;
  mwr (APB_MISC GP_VGPIO_GPIO_MUX_SEL) 0;;
  on_dev (gpio_config GPIO_PORT_Z (BIT 1) true);;
  on_dev (gpio_output_enable GPIO_PORT_Z (BIT 1) false);;
  sleep 100;;
  ins ← sdmmc_get_sd_inserted;
  if negb ins then mret false
  else
    mwr (APB_MISC GP_SDMMC1_CLK_LPBK_CONTROL) 1;;
    clk ← on_dev (rd (PINMUX_AUX PINMUX_SDMMC1_CLK));
    when (negb (clk =? Z.lor (Z.lor PINMUX_DRIVE_2X PINMUX_INPUT_ENABLE) PINMUX_PULL_DOWN))
      (mwr (PINMUX_AUX PINMUX_SDMMC1_CLK) (Z.lor (Z.lor PINMUX_DRIVE_2X PINMUX_INPUT_ENABLE)
        (if b01 then PINMUX_PULL_NONE else PINMUX_PULL_DOWN)));;
    reset_pins (tail PINMUX_SDMMC1);;
    when b01 _sdmmc_config_sdmmc1_schmitt;;
    mupd (PMC PMC_NO_IOPOWER) (fun v => Z.land v (not32 PMC_SDMMC1_IO_EN));;
    mrd (PMC PMC_NO_IOPOWER);;
    mupd (PMC PMC_PWR_DET_VAL) (fun v => Z.lor v PMC_SDMMC1_IO_EN);;
    mrd (PMC PMC_PWR_DET_VAL);;
    mwr (PINMUX_AUX PINMUX_DMIC3_CLK) (Z.lor PINMUX_PULL_DOWN 2);;
    on_dev (gpio_config GPIO_PORT_E (BIT 4) true);;
    on_dev (gpio_write GPIO_PORT_E (BIT 4) true);;
    on_dev (gpio_output_enable GPIO_PORT_E (BIT 4) true);;
    sleep 10000;;
    on_dev (max7762x_regulator_set_voltage odm28 REGULATOR_LDO2 3300000);;
    on_dev (max7762x_regulator_enable odm28 REGULATOR_LDO2 true);;
    sleep 1000;;
    when (negb b01)
      (mupd (APB_MISC GP_SDMMC1_PAD_CFGPADCTRL) (fun v => Z.lor (Z.land v 0xFFFFFFF) 0x50000000);;
       mrd (APB_MISC GP_SDMMC1_PAD_CFGPADCTRL);;
       sleep 1000);;
    mret true.

Definition _sdmmc_config_emmc (id : Z) (b01 : bool) : M (host D) unit :=
  if id =? SDMMC_2 then
    if negb b01 then
      mupd (APB_MISC GP_EMMC2_PAD_CFGPADCTRL) (fun v => Z.land v 0xF8003FFF);;
      mrd (APB_MISC GP_EMMC2_PAD_CFGPADCTRL)
    else _sdmmc_config_sdmmc2_schmitt
  else if id =? SDMMC_4 then
    mupd (APB_MISC GP_EMMC4_PAD_CFGPADCTRL) (fun v => Z.land v 0xF8003FFF);;
    when b01 (mupd (APB_MISC GP_EMMC4_PAD_PUPD_CFGPADCTRL) (fun v => Z.land v 0xFFBFFFF9));;
    mupd (APB_MISC GP_EMMC4_PAD_CFGPADCTRL) (fun v => Z.lor v 1);;
    mrd (APB_MISC GP_EMMC4_PAD_CFGPADCTRL)
  else mret tt.

Definition trim_values_t210 : list Z := [2; 8; 3; 8].
Definition trim_values_t210b01 : list Z := [14; 13; 15; 13].

(** [trim_values] is chosen by the context as it was before it is cleared. *)
Definition sdmmc_init (id power bus_width type powersave_enable : Z) : M (host D) bool :=
  old ← ctx;
  let trim_values := if t210b01 old then trim_values_t210b01 else trim_values_t210 in
  if (SDMMC_4 <? id) || (id =? SDMMC_3) then mret false
  else
    setf (fun _ => set_clock_stopped true (set_id id sdmmc0));;
    chip ← on_dev hw_get_chip_id;
    let b01 := chip =? GP_HIDREV_MAJOR_T210B01 in
    setf (set_t210b01 b01);;
    conf ← (if id =? SDMMC_1 then
              ok ← _sdmmc_config_sdmmc1 b01;
              if negb ok then mret None
              else if b01 then mret (Some 0) else setf (set_manual_cal true);; mret (Some 7)
            else _sdmmc_config_emmc id b01;; mret (Some 7));
    match conf with
    | None => mret false
    | Some vref_sel =>
        e ← on_dev (clock_sdmmc_is_not_reset_and_enabled id);
        when e (_sdmmc_sd_clock_disable;; _sdmmc_commit_changes);;
        p ← card_clock_div type;
        on_clk (clock_sdmmc_enable fuel id p.1);;
        _sdmmc_reset_all;;
        setf (set_clock_stopped false);;
        orr iospare 0x80000;;
        updr veniotrimctl (fun v => Z.land v 0xFFFFFFFB);;
        match trim_values !! Z.to_nat id with
        | None => overrun
        | Some trim =>
            updr venclkctl (fun v => Z.lor (Z.land v 0xE0FFFFFB) (Z.shiftl trim 24));;
            updr sdmemcmppadctl (fun v => Z.lor (Z.land v COMP_VREF_SEL_MASK) vref_sel);;
            ok ← _sdmmc_autocal_config_offset power;
            if negb ok then mret false
            else
              _sdmmc_autocal_execute power;;
              ok ← _sdmmc_enable_internal_clock;
              if negb ok then mret false
              else
                sdmmc_set_bus_width bus_width;;
                _sdmmc_set_io_power power;;
                ok ← sdmmc_setup_clock type;
                if negb ok then mret false
                else
                  sdmmc_card_clock_powersave powersave_enable;;
                  _sdmmc_card_clock_enable;;
                  _sdmmc_commit_changes;;
                  mret true
        end
    end.

Definition sdmmc1_disable_power : M (host D) unit :=
  mupd (PINMUX_AUX PINMUX_SDMMC1_CLK) (fun v => Z.land v (not32 PINMUX_PULL_MASK));;
  _sdmmc_config_sdmmc1_pads true;;
  on_dev (max7762x_regulator_enable odm28 REGULATOR_LDO2 false);;
  sleep 4000;;
  on_dev (gpio_write GPIO_PORT_E (BIT 4) false);;
  t ← ms;
  modify (fun x => Host (hs x) (hclk x) t);;
  sleep 1000;;
  mupd (PMC PMC_NO_IOPOWER) (fun v => Z.lor v PMC_SDMMC1_IO_EN);;
  mrd (PMC PMC_NO_IOPOWER);;
  mupd (PMC PMC_PWR_DET_VAL) (fun v => Z.lor v PMC_SDMMC1_IO_EN);;
  mrd (PMC PMC_PWR_DET_VAL);;
  _sdmmc_config_sdmmc1_pads false;;
  mupd (PINMUX_AUX PINMUX_SDMMC1_CLK) (fun v => Z.lor v PINMUX_PULL_DOWN).

Definition sdmmc_end : M (host D) unit :=
  s ← ctx;
  if clock_stopped s then mret tt
  else
    _sdmmc_sd_clock_disable;;
    _sdmmc_set_io_power SDMMC_POWER_OFF;;
    _sdmmc_commit_changes;;
    when (s_id s =? SDMMC_1) sdmmc1_disable_power;;
    on_clk (clock_sdmmc_disable (s_id s));;
    setf (set_clock_stopped true).

Definition sdmmc_enable_low_voltage : M (host D) bool :=
  s ← ctx;
  if negb (s_id s =? SDMMC_1) then mret false
  else
    ok ← sdmmc_setup_clock TIMING_UHS_SDR12;
    if negb ok then mret false
    else
      _sdmmc_commit_changes;;
      on_dev (max7762x_regulator_set_voltage odm28 REGULATOR_LDO2 1800000);;
      sleep 150;;
      mupd (PMC PMC_PWR_DET_VAL) (fun v => Z.land v (not32 PMC_SDMMC1_IO_EN));;
      mrd (PMC PMC_PWR_DET_VAL);;
      _sdmmc_config_sdmmc1_schmitt;;
      _sdmmc_autocal_config_offset SDMMC_POWER_1_8;;
      _sdmmc_autocal_execute SDMMC_POWER_1_8;;
      _sdmmc_set_io_power SDMMC_POWER_1_8;;
      _sdmmc_commit_changes;;
      sleep 5000;;
      v ← test hostctl2 SDHCI_CTRL_VDD_180;
      if negb v then mret false
      else
        orr clkcon SDHCI_CLOCK_CARD_EN;;
        _sdmmc_commit_changes;;
        sleep 1000;;
        p ← rdr prnsts;
        mret (Z.land p SDHCI_DATA_LVL_MASK =? SDHCI_DATA_LVL_MASK).

(** After 3.3 V have been selected the power reads as 1.8 V: the code of 3.3 V
    contains the bits of the code of 1.8 V, which are tested first. *)
Lemma io_power_3_3_reads_1_8 (x x' : host D) p :
  rdr pwrcon x = (Ret p, x') -> p = Z.lor SDHCI_POWER_330 SDHCI_POWER_ON ->
  sdmmc_get_io_power x = (Ret SDMMC_POWER_1_8, x').
Proof. intros E ->. unfold sdmmc_get_io_power. by rewrite (bind_run _ _ _ _ _ E). Qed.

End Host.
