(* ===== verification/SdDma.v ===== *)
(** * SdDma

    The driver of SdHost implements the interface [SdDriver] and its laws: over
    a controller that moves data between card and memory a byte at a time, at
    its own pace, stops at every 512 KB boundary until it is given the next
    address, and latches the ends of transfers, a command that reports success
    has moved all its data, and nothing else is touched. *)

From S2P Require Import Prelude Mem FatFs SdReg NxSd Sdmmc SdRw.
From S2P Require Import I2c Fuse Gpio Pmic Clock SdHost.
#[local] Open Scope Z_scope.

(** ** The controller *)

(** A transfer under way: direction, command and argument, bytes moved and
    left, address in memory of the next byte, stopped at a boundary. *)
Record xfer := Xfer {
  x_wr : bool; x_cmd : Z; x_arg : Z; x_pos : Z; x_left : Z; x_addr : Z; x_stop : bool
}.

(** Card and memory, the registers that set up a transfer, the latched ends of
    transfer and of DMA buffer, a command that keeps the card busy, the clock of
    the card, and the transfer. *)
Record sdv := Sdv {
  v_card : mem; v_ram : mem;
  v_arg : Z; v_blksize : Z; v_blkcnt : Z; v_trnmod : Z; v_adma : Z;
  v_end : bool; v_dma : bool; v_busy : bool; v_clk : bool;
  v_xf : option xfer
}.

Definition idle (w : sdv) : Prop := v_xf w = None /\ v_busy w = false.

(** The boundary of the DMA buffer, from the block size register. *)
Definition bnd (w : sdv) : Z := 0x1000 * 2 ^ Z.land (Z.shiftr (v_blksize w) 12) 7.

(** *** What the controller does by itself *)

(** Block commands move data at the sector of their argument; the data of the
    other commands is not on the card. *)
Definition reads_blocks (cmd : Z) : Prop := cmd = 18.
Definition writes_blocks (cmd : Z) : bool := (cmd =? 24) || (cmd =? 25).

(** Byte [b] moves; [d] is whether a transfer that ends also latches the end of
    the DMA buffer. *)
Definition move (b : Z) (d : bool) (x : xfer) (w : sdv) : sdv :=
  let addr := x_addr x + 1 in
  let stop := addr mod bnd w =? 0 in
  let last := x_left x =? 1 in
  Sdv (if x_wr x && writes_blocks (x_cmd x)
       then st8 (v_card w) (512 * x_arg x + x_pos x) (ld8 (v_ram w) (x_addr x)) else v_card w)
      (if x_wr x then v_ram w else st8 (v_ram w) (x_addr x) b)
      (v_arg w) (v_blksize w) (v_blkcnt w) (v_trnmod w) (v_adma w)
      (v_end w || last) (v_dma w || (if last then d else stop)) (v_busy w) (v_clk w)
      (if last then None
       else Some (Xfer (x_wr x) (x_cmd x) (x_arg x) (x_pos x + 1) (x_left x - 1) addr stop)).

Inductive hstep (w : sdv) : sdv -> Prop :=
| step_move x b d :
    v_xf w = Some x -> x_stop x = false -> 0 < x_left x -> v_clk w = true ->
    (reads_blocks (x_cmd x) -> b = ld8 (v_card w) (512 * x_arg x + x_pos x)) ->
    hstep w (move b d x w)
| step_busy e :
    v_busy w = true ->
    hstep w (Sdv (v_card w) (v_ram w) (v_arg w) (v_blksize w) (v_blkcnt w) (v_trnmod w) (v_adma w)
               (v_end w || e) (v_dma w) false (v_clk w) (v_xf w)).

Inductive hsteps (w : sdv) : sdv -> Prop :=
| hsteps_refl : hsteps w w
| hsteps_step w1 w2 : hsteps w w1 -> hstep w1 w2 -> hsteps w w2.

(** *** What writes to its registers do *)

Definition with_xf (w : sdv) (x : option xfer) (busy : bool) : sdv :=
  Sdv (v_card w) (v_ram w) (v_arg w) (v_blksize w) (v_blkcnt w) (v_trnmod w) (v_adma w)
    (v_end w) (v_dma w) busy (v_clk w) x.

(** A command: data with DMA starts a transfer of one block or of the counted
    blocks; a busy response, or data without DMA, ends at some later time. *)
Definition start (v : Z) (w : sdv) : sdv :=
  if Z.testbit v 5 then
    if Z.testbit (v_trnmod w) 0 then
      let size := Z.land (v_blksize w) 0xFFF in
      let total := if Z.testbit (v_trnmod w) 5 then size * v_blkcnt w else size in
      with_xf w (Some (Xfer (negb (Z.testbit (v_trnmod w) 4)) (Z.shiftr v 8) (v_arg w) 0 total
                         (v_adma w) false)) (v_busy w)
    else with_xf w (v_xf w) true
  else if Z.testbit v 0 && Z.testbit v 1 then with_xf w (v_xf w) true else w.

(** The upper half of the address resumes a stopped transfer. *)
Definition resume (w : sdv) : sdv :=
  match v_xf w with
  | Some x =>
      if x_stop x
      then with_xf w (Some (Xfer (x_wr x) (x_cmd x) (x_arg x) (x_pos x) (x_left x) (v_adma w) false)) (v_busy w)
      else w
  | None => w
  end.

Definition wr_view (r : sdreg) (v : Z) (w : sdv) : sdv :=
  match r with
  | argument => Sdv (v_card w) (v_ram w) v (v_blksize w) (v_blkcnt w) (v_trnmod w) (v_adma w)
                  (v_end w) (v_dma w) (v_busy w) (v_clk w) (v_xf w)
  | blksize => Sdv (v_card w) (v_ram w) (v_arg w) v (v_blkcnt w) (v_trnmod w) (v_adma w)
                  (v_end w) (v_dma w) (v_busy w) (v_clk w) (v_xf w)
  | blkcnt => Sdv (v_card w) (v_ram w) (v_arg w) (v_blksize w) v (v_trnmod w) (v_adma w)
                  (v_end w) (v_dma w) (v_busy w) (v_clk w) (v_xf w)
  | trnmod => Sdv (v_card w) (v_ram w) (v_arg w) (v_blksize w) (v_blkcnt w) v (v_adma w)
                  (v_end w) (v_dma w) (v_busy w) (v_clk w) (v_xf w)
  | admaaddr => Sdv (v_card w) (v_ram w) (v_arg w) (v_blksize w) (v_blkcnt w) (v_trnmod w) v
                  (v_end w) (v_dma w) (v_busy w) (v_clk w) (v_xf w)
  | admaaddr_hi => resume w
  | clkcon => Sdv (v_card w) (v_ram w) (v_arg w) (v_blksize w) (v_blkcnt w) (v_trnmod w) (v_adma w)
                  (v_end w) (v_dma w) (v_busy w) (Z.testbit v 2) (v_xf w)
  | norintsts => Sdv (v_card w) (v_ram w) (v_arg w) (v_blksize w) (v_blkcnt w) (v_trnmod w) (v_adma w)
                  (v_end w && negb (Z.testbit v 1)) (v_dma w && negb (Z.testbit v 3))
                  (v_busy w) (v_clk w) (v_xf w)
  | swrst => if c_true (Z.land v 5)
             then Sdv (v_card w) (v_ram w) (v_arg w) (v_blksize w) (v_blkcnt w) (v_trnmod w) (v_adma w)
                    false false false (v_clk w) None
             else w
  | cmdreg => start v w
  | _ => w
  end.

Definition with_ram (m : mem) (w : sdv) : sdv :=
  Sdv (v_card w) m (v_arg w) (v_blksize w) (v_blkcnt w) (v_trnmod w) (v_adma w)
    (v_end w) (v_dma w) (v_busy w) (v_clk w) (v_xf w).

(** A device that contains such a controller and the memory.  The controller
    may go on at every access to any device. *)
Class SdhciHw (D : Type) `{Mmio D} `{I2c D} `{Sdhci D} := {
  vw : D -> sdv;
  put_ram : mem -> D -> D;
  hw_put m d : vw (put_ram m d) = with_ram m (vw d);
  hw_rd32 a d : hsteps (vw d) (vw (rd32 a d).2);
  hw_wr32 a v d : hsteps (vw d) (vw (wr32 a v d));
  hw_us d : hsteps (vw d) (vw (tmr_us d).2);
  hw_ms d : hsteps (vw d) (vw (tmr_ms d).2);
  hw_sleep n d : hsteps (vw d) (vw (sleep_us n d));
  hw_send a b c l d : hsteps (vw d) (vw (i2c_send_buf_small a b c l d).2);
  hw_recv a b c n d : hsteps (vw d) (vw (i2c_recv_buf_small a b c n d).2);
  hw_i2c_sleep n d : hsteps (vw d) (vw (i2c_sleep n d).2);
  hw_sd_rd r d : hsteps (vw d) (vw (sd_rd r d).2);
  hw_sd_wr r v d : exists w, hsteps (vw d) w /\ vw (sd_wr r v d) = wr_view r v w;
  (** The status shows what is latched; a free data line, that the card is not busy. *)
  hw_status d : Z.testbit (sd_rd norintsts d).1 1 = v_end (vw (sd_rd norintsts d).2) /\
    Z.testbit (sd_rd norintsts d).1 3 = v_dma (vw (sd_rd norintsts d).2);
  hw_dat0 d : Z.testbit (sd_rd prnsts d).1 20 = true -> v_busy (vw (sd_rd prnsts d).2) = false
}.

(** ** The device goes on by itself *)

Definition stable (P : sdv -> Prop) : Prop := forall w w', P w -> hstep w w' -> P w'.

Lemma stable_steps P w w' : stable P -> P w -> hsteps w w' -> P w'.
Proof. intros HP Hw Hs. induction Hs; eauto. Qed.

Lemma hsteps_trans w1 w2 w3 : hsteps w1 w2 -> hsteps w2 w3 -> hsteps w1 w3.
Proof. intros Ha Hb. induction Hb; [done|]. by eapply hsteps_step. Qed.

Section Keeps.
Context {D : Type} `{SdhciHw D}.

Definition dv (x : host D) : sdv := vw (clk_dev (hclk x)).
(** [P] of the controller, for the states of the three layers. *)
Definition ofD (P : sdv -> Prop) (d : D) : Prop := P (vw d).
Definition ofC (P : sdv -> Prop) (c : clocks D) : Prop := P (vw (clk_dev c)).
Definition ofH (P : sdv -> Prop) (x : host D) : Prop := P (dv x).

Context (P : sdv -> Prop) (HP : stable P).

Lemma kD_rd a : keeps (ofD P) (rd a).
Proof. intros d Hd. unfold rd. pose proof (hw_rd32 a d). destruct (rd32 a d). eapply (stable_steps P); [done|exact Hd|done]. Qed.
Lemma kD_wr a v : keeps (ofD P) (wr a v).
Proof. intros d Hd. eapply (stable_steps P); [done|exact Hd|apply hw_wr32]. Qed.
Lemma kD_us : keeps (ofD P) get_tmr_us.
Proof. intros d Hd. unfold get_tmr_us. pose proof (hw_us d). destruct (tmr_us d). eapply (stable_steps P); [done|exact Hd|done]. Qed.
Lemma kD_ms : keeps (ofD P) get_tmr_ms.
Proof. intros d Hd. unfold get_tmr_ms. pose proof (hw_ms d). destruct (tmr_ms d). eapply (stable_steps P); [done|exact Hd|done]. Qed.
Lemma kD_sleep n : keeps (ofD P) (usleep n).
Proof. intros d Hd. eapply (stable_steps P); [done|exact Hd|apply hw_sleep]. Qed.
Lemma kD_send a b c l : keeps (ofD P) (i2c_send_buf_small a b c l).
Proof. intros d Hd. eapply (stable_steps P); [done|exact Hd|apply hw_send]. Qed.
Lemma kD_recv a b c n : keeps (ofD P) (i2c_recv_buf_small a b c n).
Proof. intros d Hd. eapply (stable_steps P); [done|exact Hd|apply hw_recv]. Qed.
Lemma kD_i2c_sleep n : keeps (ofD P) (i2c_sleep n).
Proof. intros d Hd. eapply (stable_steps P); [done|exact Hd|apply hw_i2c_sleep]. Qed.
#[local] Hint Resolve kD_rd kD_wr kD_us kD_ms kD_sleep kD_send kD_recv kD_i2c_sleep : keeps.

Lemma kC_on_car {A} (m : M D A) : keeps (ofD P) m -> keeps (ofC P) (on_car m).
Proof. intros Hm c Hc. unfold on_car. specialize (Hm (clk_dev c) Hc). by destruct (m (clk_dev c)). Qed.
Lemma kC_set_pllc4 f : keeps (ofC P) (set_pllc4 f).
Proof. by intros c Hc. Qed.
Lemma kC_set_table id v : keeps (ofC P) (set_table id v).
Proof. by intros c Hc. Qed.
Lemma kH_on_clk {A} (m : M (clocks D) A) : keeps (ofC P) m -> keeps (ofH P) (on_clk m).
Proof. intros Hm x Hx. unfold on_clk. specialize (Hm (hclk x) Hx). by destruct (m (hclk x)). Qed.
Lemma kH_on_dev {A} (m : M D A) : keeps (ofD P) m -> keeps (ofH P) (on_dev m).
Proof. intros Hm. by apply kH_on_clk, kC_on_car. Qed.
Lemma kH_setf f : keeps (ofH P) (setf f).
Proof. by intros x Hx. Qed.
Lemma kH_start t : keeps (ofH P) (modify (fun x => Host (hs x) (hclk x) t)).
Proof. by intros x Hx. Qed.
#[local] Hint Resolve kC_on_car kC_set_pllc4 kC_set_table kH_on_clk kH_on_dev kH_setf kH_start : keeps.

(** *** The drivers of the other devices *)

Lemma kD_clock_upd r f : keeps (ofD P) (clock_upd r f).
Proof. unfold clock_upd. kp. Qed.
Lemma kD_poll n r b s : keeps (ofD P) (poll n r b s).
Proof. induction n; cbn [poll]; kp. Qed.
#[local] Hint Resolve kD_clock_upd kD_poll : keeps.
Lemma kD_clock_enable c : keeps (ofD P) (clock_enable c).
Proof. unfold clock_enable, clock_and. kp. Qed.
#[local] Hint Resolve kD_clock_enable : keeps.
Lemma kD_is_enabled id : keeps (ofD P) (_clock_sdmmc_is_enabled id).
Proof. unfold _clock_sdmmc_is_enabled. kp. Qed.
Lemma kD_is_reset id : keeps (ofD P) (_clock_sdmmc_is_reset id).
Proof. unfold _clock_sdmmc_is_reset. kp. Qed.
Lemma kD_set_enable id : keeps (ofD P) (_clock_sdmmc_set_enable id).
Proof. unfold _clock_sdmmc_set_enable. kp. Qed.
Lemma kD_clear_enable id : keeps (ofD P) (_clock_sdmmc_clear_enable id).
Proof. unfold _clock_sdmmc_clear_enable. kp. Qed.
Lemma kD_set_reset id : keeps (ofD P) (_clock_sdmmc_set_reset id).
Proof. unfold _clock_sdmmc_set_reset. kp. Qed.
Lemma kD_clear_reset id : keeps (ofD P) (_clock_sdmmc_clear_reset id).
Proof. unfold _clock_sdmmc_clear_reset. kp. Qed.
#[local] Hint Resolve kD_is_enabled kD_is_reset kD_set_enable kD_clear_enable kD_set_reset kD_clear_reset : keeps.
Lemma kC_enable_pllc4 n mask : keeps (ofC P) (_clock_enable_pllc4 n mask).
Proof. unfold _clock_enable_pllc4, clock_and, clock_or, clk_msleep. kp; apply kC_on_car; kp. Qed.
Lemma kC_disable_pllc4 mask : keeps (ofC P) (_clock_disable_pllc4 mask).
Proof. unfold _clock_disable_pllc4, clock_and, clock_or, clk_msleep. kp; apply kC_on_car; kp. Qed.
#[local] Hint Resolve kC_enable_pllc4 kC_disable_pllc4 : keeps.
Lemma kC_config_host n id v : keeps (ofC P) (_clock_sdmmc_config_clock_host n id v).
Proof.
  unfold _clock_sdmmc_config_clock_host, _clock_sdmmc_config_legacy_tm.
  destruct (host_clock id v) as [[? ?] ?]. kp; apply kC_on_car; kp.
Qed.
#[local] Hint Resolve kC_config_host : keeps.
Lemma kC_config_source n p id v : keeps (ofC P) (clock_sdmmc_config_clock_source n p id v).
Proof. unfold clock_sdmmc_config_clock_source. kp. Qed.
Lemma kC_sdmmc_enable n id v : keeps (ofC P) (clock_sdmmc_enable n id v).
Proof. unfold clock_sdmmc_enable. kp. Qed.
Lemma kC_sdmmc_disable id : keeps (ofC P) (clock_sdmmc_disable id).
Proof. unfold clock_sdmmc_disable. kp. Qed.
Lemma kD_not_reset id : keeps (ofD P) (clock_sdmmc_is_not_reset_and_enabled id).
Proof. unfold clock_sdmmc_is_not_reset_and_enabled. kp. Qed.
Lemma kD_chip_id : keeps (ofD P) hw_get_chip_id.
Proof. unfold hw_get_chip_id. kp. Qed.
Lemma kD_gpio off pins b : keeps (ofD P) (gpio_update off pins b).
Proof. unfold gpio_update. kp. Qed.
Lemma kD_gpio_read port pins : keeps (ofD P) (gpio_read port pins).
Proof. unfold gpio_read. kp. Qed.
Lemma kD_set_reg n a r v : keeps (ofD P) (set_reg_loop n a r v).
Proof. induction n; cbn [set_reg_loop]; unfold i2c_send_byte; kp. Qed.
#[local] Hint Resolve kC_config_source kC_sdmmc_enable kC_sdmmc_disable kD_not_reset kD_chip_id kD_gpio
  kD_gpio_read kD_set_reg : keeps.
Lemma kD_set_voltage o id v : keeps (ofD P) (max7762x_regulator_set_voltage o id v).
Proof. unfold max7762x_regulator_set_voltage, _max7762x_set_reg, i2c_recv_byte. kp. Qed.
Lemma kD_reg_enable o id b : keeps (ofD P) (max7762x_regulator_enable o id b).
Proof.
  unfold max7762x_regulator_enable, _max7762x_set_reg, i2c_recv_byte.
  destruct (enable_field id) as [[[[? ?] ?] ?]|]; kp.
Qed.
#[local] Hint Resolve kD_set_voltage kD_reg_enable : keeps.

(** *** Reading the controller *)

Lemma kH_rdr r : keeps (ofH P) (rdr r).
Proof.
  apply kH_on_dev. intros d Hd. pose proof (hw_sd_rd r d) as Hs. destruct (sd_rd r d).
  eapply (stable_steps P); [done|exact Hd|done].
Qed.
Lemma kH_sleep n : keeps (ofH P) (sleep n).
Proof. unfold sleep. kp. Qed.
Lemma kH_ms : keeps (ofH P) ms.
Proof. unfold ms. kp. Qed.
Lemma kH_us : keeps (ofH P) us.
Proof. unfold us. kp. Qed.
Lemma kH_mupd a f : keeps (ofH P) (mupd a f).
Proof. apply kH_on_dev. kp. Qed.
Lemma kH_mrd a : keeps (ofH P) (mrd a).
Proof. apply kH_on_dev. kp. Qed.
Lemma kH_mwr a v : keeps (ofH P) (mwr a v).
Proof. unfold mwr. kp. Qed.
Lemma kH_ctx : keeps (ofH P) ctx.
Proof. unfold ctx. kp. Qed.
Lemma kH_when b m : keeps (ofH P) m -> keeps (ofH P) (when b m).
Proof. unfold when. intros Hm. by apply keeps_if; [|apply keeps_ret]. Qed.
#[local] Hint Resolve kH_rdr kH_sleep kH_ms kH_us kH_mupd kH_mrd kH_mwr kH_ctx kH_when : keeps.
Lemma kH_test r m : keeps (ofH P) (test r m).
Proof. unfold test. kp. Qed.
Lemma kH_commit : keeps (ofH P) _sdmmc_commit_changes.
Proof. unfold _sdmmc_commit_changes. kp. Qed.
Lemma kH_deadline n : keeps (ofH P) (deadline n).
Proof. unfold deadline. kp. Qed.
#[local] Hint Resolve kH_test kH_commit kH_deadline : keeps.
Lemma kH_wait_bits n r m s t : keeps (ofH P) (wait_bits n r m s t).
Proof. induction n; cbn [wait_bits]; kp. Qed.
Lemma kH_reset_wait n m t : keeps (ofH P) (reset_wait n m t).
Proof. induction n; cbn [reset_wait]; kp. Qed.
Lemma kH_sleep_8 : keeps (ofH P) sleep_8_clocks.
Proof. unfold sleep_8_clocks. kp. Qed.
Lemma kH_io_power : keeps (ofH P) sdmmc_get_io_power.
Proof. unfold sdmmc_get_io_power. kp. Qed.
Lemma kH_bus_width : keeps (ofH P) sdmmc_get_bus_width.
Proof. unfold sdmmc_get_bus_width. kp. Qed.
Lemma kH_save_tap : keeps (ofH P) sdmmc_save_tap_value.
Proof. unfold sdmmc_save_tap_value. kp. Qed.
Lemma kH_inserted : keeps (ofH P) sdmmc_get_sd_inserted.
Proof. unfold sdmmc_get_sd_inserted. kp. Qed.
Lemma kH_cache_rsp o z t : keeps (ofH P) (_sdmmc_cache_rsp o z t).
Proof. unfold _sdmmc_cache_rsp. kp. Qed.
Lemma kH_card_clock_div t : keeps (ofH P) (card_clock_div t).
Proof. unfold card_clock_div. kp. Qed.
#[local] Hint Resolve kH_wait_bits kH_reset_wait kH_sleep_8 kH_io_power kH_bus_width kH_save_tap kH_inserted
  kH_cache_rsp kH_card_clock_div : keeps.

(** *** Set-up, where only commands could disturb [P] *)

Context (fuel : nat) (odm28 : Z).
Context (Pwr : forall r v w, r <> cmdreg -> P w -> P (wr_view r v w)).

Lemma kH_wrr r v : r <> cmdreg -> keeps (ofH P) (wrr r v).
Proof.
  intros Hr. apply kH_on_dev. intros d Hd. destruct (hw_sd_wr r (v mod 2 ^ sdwidth r) d) as (w & Hs & E).
  unfold modify, ofD. cbn [snd]. rewrite E. apply Pwr; [done|]. eapply (stable_steps P); [done|exact Hd|done].
Qed.
#[local] Hint Extern 1 (keeps _ (wrr _ _)) => apply kH_wrr; discriminate : keeps.
Lemma kH_updr r f : r <> cmdreg -> keeps (ofH P) (updr r f).
Proof. intros Hr. unfold updr. apply keeps_bind; [apply kH_rdr|intros]. by apply kH_wrr. Qed.
#[local] Hint Extern 1 (keeps _ (updr _ _)) => apply kH_updr; discriminate : keeps.
#[local] Hint Extern 1 (keeps _ (orr _ _)) => apply kH_updr; discriminate : keeps.
#[local] Hint Extern 1 (keeps _ (andn _ _)) => apply kH_updr; discriminate : keeps.

Ltac kw := kp; repeat (first [apply kH_when|apply kH_on_dev|apply kH_on_clk]; kp).

Lemma kH_set_io_power p : keeps (ofH P) (_sdmmc_set_io_power p).
Proof. unfold _sdmmc_set_io_power. kw. Qed.
Lemma kH_set_bus_width p : keeps (ofH P) (sdmmc_set_bus_width p).
Proof. unfold sdmmc_set_bus_width. kw. Qed.
Lemma kH_config_tap t : keeps (ofH P) (_sdmmc_config_tap_val t).
Proof. unfold _sdmmc_config_tap_val. kw. Qed.
Lemma kH_reset : keeps (ofH P) (_sdmmc_reset fuel).
Proof. unfold _sdmmc_reset. kw. Qed.
Lemma kH_reset_all : keeps (ofH P) (_sdmmc_reset_all fuel).
Proof. unfold _sdmmc_reset_all. kw. Qed.
Lemma kH_pad_fallback p : keeps (ofH P) (_sdmmc_pad_config_fallback p).
Proof. unfold _sdmmc_pad_config_fallback. kw. Qed.
#[local] Hint Resolve kH_set_io_power kH_set_bus_width kH_config_tap kH_reset kH_reset_all kH_pad_fallback : keeps.
Lemma kH_autocal p : keeps (ofH P) (_sdmmc_autocal_execute fuel p).
Proof. unfold _sdmmc_autocal_execute. kw. Qed.
Lemma kH_dll_cal : keeps (ofH P) (_sdmmc_dll_cal_execute fuel).
Proof. unfold _sdmmc_dll_cal_execute. kw. Qed.
Lemma kH_bus_mode t : keeps (ofH P) (set_bus_mode t).
Proof. unfold set_bus_mode. kw. Qed.
#[local] Hint Resolve kH_autocal kH_dll_cal kH_bus_mode : keeps.
Lemma kH_setup_clock t : keeps (ofH P) (sdmmc_setup_clock fuel t).
Proof. unfold sdmmc_setup_clock. kw. Qed.
Lemma kH_card_clock_enable : keeps (ofH P) (_sdmmc_card_clock_enable fuel).
Proof. unfold _sdmmc_card_clock_enable. kw. Qed.
Lemma kH_clock_disable : keeps (ofH P) _sdmmc_sd_clock_disable.
Proof. unfold _sdmmc_sd_clock_disable. kw. Qed.
Lemma kH_powersave p : keeps (ofH P) (sdmmc_card_clock_powersave fuel p).
Proof. unfold sdmmc_card_clock_powersave. kw. Qed.
Lemma kH_inhibit b : keeps (ofH P) (_sdmmc_wait_cmd_data_inhibit fuel b).
Proof. unfold _sdmmc_wait_cmd_data_inhibit. kw. Qed.
Lemma kH_card_busy : keeps (ofH P) (_sdmmc_wait_card_busy fuel).
Proof. unfold _sdmmc_wait_card_busy. kw. Qed.
Lemma kH_small_block : keeps (ofH P) _sdmmc_setup_read_small_block.
Proof. unfold _sdmmc_setup_read_small_block. kw. Qed.
Lemma kH_tuning_wait n t : keeps (ofH P) (tuning_wait n t).
Proof. induction n; cbn [tuning_wait]; kw. Qed.
Lemma kH_internal_clock : keeps (ofH P) (_sdmmc_enable_internal_clock fuel).
Proof. unfold _sdmmc_enable_internal_clock. kw. Qed.
Lemma kH_autocal_offset p : keeps (ofH P) (_sdmmc_autocal_config_offset p).
Proof. unfold _sdmmc_autocal_config_offset. kw. Qed.
Lemma kH_enable_interrupts : keeps (ofH P) _sdmmc_enable_interrupts.
Proof. unfold _sdmmc_enable_interrupts. kw. Qed.
Lemma kH_mask_interrupts : keeps (ofH P) _sdmmc_mask_interrupts.
Proof. unfold _sdmmc_mask_interrupts. kw. Qed.
Lemma kH_check_mask m : keeps (ofH P) (_sdmmc_check_mask_interrupt m).
Proof. unfold _sdmmc_check_mask_interrupt. kw. Qed.
#[local] Hint Resolve kH_setup_clock kH_card_clock_enable kH_clock_disable kH_powersave kH_inhibit kH_card_busy
  kH_small_block kH_tuning_wait kH_internal_clock kH_autocal_offset kH_enable_interrupts kH_mask_interrupts
  kH_check_mask : keeps.
Lemma kH_response_loop n t : keeps (ofH P) (response_loop fuel n t).
Proof. induction n; cbn [response_loop]; kw. Qed.
#[local] Hint Resolve kH_response_loop : keeps.
Lemma kH_wait_response : keeps (ofH P) (_sdmmc_wait_response fuel).
Proof. unfold _sdmmc_wait_response. kw. Qed.
Lemma kH_config_dma q : keeps (ofH P) (_sdmmc_config_dma q).
Proof. unfold _sdmmc_config_dma. kw. Qed.
Lemma kH_schmitt l : keeps (ofH P) (schmitt l).
Proof. induction l; cbn [schmitt]; kw. Qed.
Lemma kH_reset_pins l : keeps (ofH P) (reset_pins l).
Proof. induction l; cbn [reset_pins]; kw. Qed.
Lemma kH_pads b : keeps (ofH P) (_sdmmc_config_sdmmc1_pads b).
Proof. unfold _sdmmc_config_sdmmc1_pads, gpio_config, gpio_write, gpio_output_enable. kw. Qed.
#[local] Hint Resolve kH_wait_response kH_config_dma kH_schmitt kH_reset_pins kH_pads : keeps.
Lemma kH_config_sdmmc1 b : keeps (ofH P) (_sdmmc_config_sdmmc1 odm28 b).
Proof.
  unfold _sdmmc_config_sdmmc1, _sdmmc_config_sdmmc1_schmitt, gpio_config, gpio_write, gpio_output_enable. kw.
Qed.
Lemma kH_config_emmc id b : keeps (ofH P) (_sdmmc_config_emmc id b).
Proof. unfold _sdmmc_config_emmc, _sdmmc_config_sdmmc2_schmitt. kw. Qed.
Lemma kH_disable_power : keeps (ofH P) (sdmmc1_disable_power odm28).
Proof. unfold sdmmc1_disable_power, gpio_write. kw. Qed.
#[local] Hint Resolve kH_config_sdmmc1 kH_config_emmc kH_disable_power : keeps.
Lemma kH_init a b c d e : keeps (ofH P) (sdmmc_init fuel odm28 a b c d e).
Proof. unfold sdmmc_init. kw. Qed.
Lemma kH_end : keeps (ofH P) (sdmmc_end odm28).
Proof. unfold sdmmc_end. kw. Qed.
Lemma kH_low_voltage : keeps (ofH P) (sdmmc_enable_low_voltage fuel odm28).
Proof. unfold sdmmc_enable_low_voltage, _sdmmc_config_sdmmc1_schmitt. kw. Qed.
End Keeps.

(** ** Idle controllers *)

(** Nothing under way, and [F] of card and memory. *)
Definition quiet (F : mem -> mem -> Prop) (w : sdv) : Prop := idle w /\ F (v_card w) (v_ram w).
(** No transfer under way, though the card may be busy. *)
Definition calm (F : mem -> mem -> Prop) (w : sdv) : Prop := v_xf w = None /\ F (v_card w) (v_ram w).
Definition content (F : mem -> mem -> Prop) (w : sdv) : Prop := F (v_card w) (v_ram w).

Lemma quiet_stable F : stable (quiet F).
Proof. intros w w' [[Hx Hb] _] Hs. destruct Hs; congruence. Qed.
Lemma calm_stable F : stable (calm F).
Proof. intros w w' [Hx HF] Hs. destruct Hs; [congruence|]. by split. Qed.
Lemma quiet_wr F r v w : r <> cmdreg -> quiet F w -> quiet F (wr_view r v w).
Proof.
  intros Hr [[Hx Hb] HF]. destruct r; try done; cbn [wr_view].
  - by destruct (c_true _).
  - unfold resume. rewrite Hx. done.
Qed.
Lemma calm_wr F r v w : r <> cmdreg -> calm F w -> calm F (wr_view r v w).
Proof.
  intros Hr [Hx HF]. destruct r; try done; cbn [wr_view].
  - by destruct (c_true _).
  - unfold resume. rewrite Hx. done.
Qed.

Section Commands.
Context {D : Type} `{SdhciHw D}.
Context (fuel : nat) (odm28 : Z).
Implicit Types x : host D.

(** *** Elementary steps *)

(** [P] of the controller, and the next DMA address of the driver. *)
Definition ofN (P : sdv -> Prop) (n : Z) (x : host D) : Prop := P (dv x) /\ dma_addr_next (hs x) = n.

Lemma kN_on_dev {A} P n (m : M D A) : keeps (ofD P) m -> keeps (ofN P n) (on_dev m).
Proof.
  intros Hm x [Hx Hn]. unfold on_dev, on_clk, on_car. specialize (Hm (clk_dev (hclk x)) Hx).
  destruct (m (clk_dev (hclk x))). by split.
Qed.
Lemma kN_rdr P n r : stable P -> keeps (ofN P n) (rdr r).
Proof.
  intros HP. apply kN_on_dev. intros d Hd. pose proof (hw_sd_rd r d) as Hs. destruct (sd_rd r d).
  eapply (stable_steps P); [done|exact Hd|done].
Qed.
Lemma kN_ms P n : stable P -> keeps (ofN P n) ms.
Proof. intros HP. apply kN_on_dev. by apply kD_ms. Qed.
Lemma kN_commit P n : stable P -> keeps (ofN P n) _sdmmc_commit_changes.
Proof. intros HP. apply keeps_bind; [by apply kN_rdr|intros; apply keeps_ret]. Qed.
Lemma kN_deadline P n k : stable P -> keeps (ofN P n) (deadline k).
Proof. intros HP. apply keeps_bind; [by apply kN_ms|intros; apply keeps_ret]. Qed.

Lemma wp_wrr r v x (Q : unit -> host D -> Prop) E :
  (forall x' w, hsteps (dv x) w -> dv x' = wr_view r (v mod 2 ^ sdwidth r) w -> hs x' = hs x -> Q tt x') ->
  wp (wrr r v) x Q E.
Proof.
  intros HQ. unfold wp, wrr, on_dev, on_clk, on_car, modify.
  destruct (hw_sd_wr r (v mod 2 ^ sdwidth r) (clk_dev (hclk x))) as (w & Hs & Ev). by apply (HQ _ w).
Qed.
Lemma wp_rdr r x (Q : Z -> host D -> Prop) E :
  (forall v x', hsteps (dv x) (dv x') -> hs x' = hs x ->
     (r = norintsts -> Z.testbit v 1 = v_end (dv x') /\ Z.testbit v 3 = v_dma (dv x')) ->
     (r = prnsts -> Z.testbit v 20 = true -> v_busy (dv x') = false) -> Q v x') ->
  wp (rdr r) x Q E.
Proof.
  intros HQ. unfold wp, rdr, on_dev, on_clk, on_car.
  pose proof (hw_sd_rd r (clk_dev (hclk x))) as Hs. pose proof (hw_status (clk_dev (hclk x))) as Hst.
  pose proof (hw_dat0 (clk_dev (hclk x))) as Hd. destruct (sd_rd r (clk_dev (hclk x))) as [v d] eqn:Er.
  apply HQ; [exact Hs|done| |].
  - intros ->. rewrite Er in Hst. exact Hst.
  - intros ->. rewrite Er in Hd. exact Hd.
Qed.

(** A read or write keeps [P] and the next address. *)
Lemma ofN_rd P n x x' : stable P -> ofN P n x -> hsteps (dv x) (dv x') -> hs x' = hs x -> ofN P n x'.
Proof. intros HP [Hx Hn] Hs E. split; [by eapply stable_steps|by rewrite E]. Qed.

(** *** Resets *)

Lemma swrst_idle v w : quiet (fun c m => c = v_card w /\ m = v_ram w)
  (wr_view swrst (Z.lor v (Z.lor SDHCI_RESET_CMD SDHCI_RESET_DATA) mod 2 ^ sdwidth swrst) w).
Proof.
  cbn [wr_view sdwidth]. assert (Hc : c_true (Z.land (Z.lor v (Z.lor SDHCI_RESET_CMD SDHCI_RESET_DATA) mod 2 ^ 8) 5) = true).
  { unfold c_true. apply negb_true_iff, Z.eqb_neq. intros E0. apply (f_equal (fun z => Z.testbit z 2)) in E0.
    rewrite Z.land_spec, Z.mod_pow2_bits_low, Z.lor_spec, Z.bits_0 in E0 by lia. cbn in E0.
    by rewrite orb_true_r in E0. }
  rewrite Hc. done.
Qed.

(** Whatever was under way is over after a reset. *)
Lemma wp_reset F P x : stable P -> (forall w, P w -> content F w) -> ofH P x ->
  wp (_sdmmc_reset fuel) x (fun _ => ofH (quiet F)) (ofH (content F)).
Proof.
  intros HP HF Hx. unfold _sdmmc_reset, orr, updr. apply wp_bind, wp_bind, wp_rdr.
  intros v x1 Hs1 _ _ _. apply wp_wrr. intros x2 w Hs2 E2 _.
  assert (Hw : P w) by (eapply stable_steps; [done| |exact Hs2]; by eapply stable_steps).
  assert (Hx2 : ofH (quiet F) x2).
  { unfold ofH. rewrite E2. destruct (swrst_idle v w) as [Hi [Ec Em]]. split; [exact Hi|].
    rewrite Ec, Em. by apply HF. }
  apply (wp_mono _ _ (fun _ => ofH (quiet F)) _ (ofH (quiet F)) _); [|done|by intros ? []].
  apply keeps_wp; [|done].
  apply keeps_bind; [apply kH_commit, quiet_stable|intros ?].
  apply keeps_bind; [apply kH_deadline, quiet_stable|intros ?]. apply kH_reset_wait, quiet_stable.
Qed.

(** *** Responses *)

Lemma testbit_land_low v m b k : 0 <= b < k -> 0 <= k -> Z.testbit m b = false ->
  Z.testbit (Z.land v m mod 2 ^ k) b = false.
Proof. intros Hb Hk Hm. by rewrite Z.mod_pow2_bits_low, Z.land_spec, Hm, andb_false_r by lia. Qed.

(** Waiting for the response touches only the status of the response; when it
    fails the controller has been reset. *)
Lemma wp_response_loop F P n k : forall t x, stable P ->
  (forall v w, P w -> Z.testbit v 1 = false -> Z.testbit v 3 = false -> P (wr_view norintsts v w)) ->
  (forall w, P w -> content F w) -> ofN P n x ->
  wp (response_loop fuel k t) x (fun b x' => if b then ofN P n x' else ofH (quiet F) x') (ofH (content F)).
Proof.
  induction k as [|k IH]; intros t x HP Hw1 HF Hx; [apply HF, Hx|]. cbn [response_loop].
  apply wp_bind. unfold _sdmmc_check_mask_interrupt. apply wp_bind, wp_rdr. intros nor x1 Hs1 E1 _ _.
  apply (ofN_rd P n x x1 HP Hx Hs1) in E1. apply wp_bind, wp_rdr. intros err x2 Hs2 E2 _ _.
  apply (ofN_rd P n x1 x2 HP E1 Hs2) in E2. clear Hs1 Hs2 E1 Hx.
  assert (Hreset : forall x3, ofN P n x3 -> wp (_sdmmc_reset fuel ;; mret false) x3
    (fun b x' => if b then ofN P n x' else ofH (quiet F) x') (ofH (content F))).
  { intros x3 [Hx3 _]. apply wp_bind. eapply wp_mono; [by apply (wp_reset F P)| |done]. by intros. }
  destruct (c_true (Z.land nor SDHCI_INT_ERROR)).
  - apply wp_bind, wp_wrr. intros x3 w Hs3 Ev3 E3. apply wp_ret. cbn -[wp]. apply Hreset.
    split; [rewrite Ev3; eapply stable_steps; [done| |exact Hs3]; apply E2|rewrite E3; apply E2].
  - destruct (c_true (Z.land nor SDHCI_INT_RESPONSE)).
    + apply wp_bind, wp_wrr. intros x3 w Hs3 Ev3 E3. apply wp_ret. cbn -[wp]. apply wp_ret.
      split; [|rewrite E3; apply E2]. rewrite Ev3. apply Hw1; [|by apply testbit_land_low..].
      eapply stable_steps; [done| |exact Hs3]; apply E2.
    + apply wp_ret. cbn -[wp]. apply wp_bind.
      eapply wp_mono; [by apply (keeps_wp (ofN P n)); [apply kN_ms|]| |].
      * intros t' x3 Hx3. destruct (t <? t'); [by apply Hreset|by apply IH].
      * intros x3 [Hx3 _]. by apply HF.
Qed.

Lemma wp_wait_response F P n x : stable P ->
  (forall v w, P w -> Z.testbit v 1 = false -> Z.testbit v 3 = false -> P (wr_view norintsts v w)) ->
  (forall w, P w -> content F w) -> ofN P n x ->
  wp (_sdmmc_wait_response fuel) x (fun b x' => if b then ofN P n x' else ofH (quiet F) x') (ofH (content F)).
Proof.
  intros HP Hw1 HF Hx. unfold _sdmmc_wait_response. apply wp_bind.
  eapply wp_mono; [by apply (keeps_wp (ofN P n)); [apply kN_commit|]| |intros x1 [? _]; by apply HF].
  intros ?u x1 Hx1. apply wp_bind.
  eapply wp_mono; [by apply (keeps_wp (ofN P n)); [apply kN_deadline|]| |intros x2 [? _]; by apply HF].
  intros t x2 Hx2. by apply wp_response_loop.
Qed.

(** *** Busy cards *)

Lemma wp_wait_bits_dat0 P n : forall t x, stable P -> ofH P x ->
  wp (wait_bits n prnsts SDHCI_DATA_0_LVL_MASK true t) x
    (fun b x' => ofH P x' /\ (b = true -> v_busy (dv x') = false)) (ofH P).
Proof.
  induction n as [|n IH]; intros t x HP Hx; [done|]. cbn [wait_bits]. apply wp_bind, wp_bind, wp_rdr.
  intros v x1 Hs1 _ _ Hd. apply wp_ret. assert (Hx1 : ofH P x1) by by eapply (stable_steps P).
  destruct (c_true (Z.land v SDHCI_DATA_0_LVL_MASK)) eqn:Ev; cbn [Bool.eqb].
  - apply wp_ret. split; [done|]. intros _. apply Hd; [done|].
    change SDHCI_DATA_0_LVL_MASK with (BIT 20) in Ev. by rewrite c_true_land_BIT in Ev by lia.
  - apply wp_bind. eapply wp_mono; [apply keeps_wp; [by apply (kH_ms P)|done]| |done].
    intros t' x2 Hx2. destruct (t <? t'); [by apply wp_ret|by apply IH].
Qed.

Lemma wp_wait_card_busy F P x : stable P -> (forall w, P w -> content F w) ->
  (forall w, P w -> v_busy w = false -> quiet F w) -> ofH P x ->
  wp (_sdmmc_wait_card_busy fuel) x (fun _ => ofH (quiet F)) (ofH (content F)).
Proof.
  intros HP HF Hq Hx. unfold _sdmmc_wait_card_busy. apply wp_bind.
  eapply wp_mono; [apply keeps_wp; [by apply (kH_commit P)|done]| |intros; by apply HF].
  intros ?u x1 Hx1. apply wp_bind.
  eapply wp_mono; [apply keeps_wp; [by apply (kH_deadline P)|done]| |intros; by apply HF].
  intros t x2 Hx2. apply wp_bind. eapply wp_mono; [by apply (wp_wait_bits_dat0 P)| |intros; by apply HF].
  intros b x3 [Hx3 Hb]. destruct b; cbn [negb].
  - apply wp_ret. by apply Hq; [|apply Hb].
  - apply wp_bind. eapply wp_mono; [by apply (wp_reset F P)| |done]. by intros.
Qed.

(** *** Commands without data *)

(** After a command that may leave the card busy. *)
Definition after (busy : bool) (F : mem -> mem -> Prop) : sdv -> Prop := if busy then calm F else quiet F.
Lemma after_stable b F : stable (after b F).
Proof. destruct b; [apply calm_stable|apply quiet_stable]. Qed.
Lemma after_wr b F r v w : r <> cmdreg -> after b F w -> after b F (wr_view r v w).
Proof. destruct b; [apply calm_wr|apply quiet_wr]. Qed.
Lemma after_content b F w : after b F w -> content F w.
Proof. destruct b; by intros []. Qed.
Lemma after_quiet b F w : after b F w -> v_busy w = false -> quiet F w.
Proof. destruct b; [|done]. by intros [] ?. Qed.
Lemma quiet_after b F w : quiet F w -> after b F w.
Proof. intros [[] ?]. destruct b; by split. Qed.

Lemma cmd_testbit c f b : 0 <= b < 8 -> Z.testbit (Z.lor (Z.shiftl c 8) f mod 2 ^ sdwidth cmdreg) b = Z.testbit f b.
Proof.
  intros Hb. cbn [sdwidth]. rewrite Z.mod_pow2_bits_low, Z.lor_spec, Z.shiftl_spec_low by lia. done.
Qed.

Lemma rsp_flags_bits t b f : rsp_flags t b = Some f ->
  Z.testbit f 5 = false /\ (b = false -> Z.testbit f 0 && Z.testbit f 1 = false).
Proof.
  unfold rsp_flags. intros E.
  destruct (t =? 0); [injection E as <-; by split|].
  destruct ((t =? 1) || (t =? 4) || (t =? 5)); [injection E as <-; by destruct b|].
  destruct (t =? 2); [injection E as <-; by split|].
  destruct (t =? 3); [injection E as <-; by split|done].
Qed.

Lemma wp_send_nodata F c n x E : ofN (quiet F) n x ->
  wp (_sdmmc_send_cmd c false) x
    (fun b x' => ofN (after (c_check_busy c) F) n x' /\ (b = false -> ofH (quiet F) x')) E.
Proof.
  intros Hx. unfold _sdmmc_send_cmd. destruct (rsp_flags (c_rsp_type c) (c_check_busy c)) as [f|] eqn:Ef.
  2:{ apply wp_ret. destruct Hx. split; [split; [by apply quiet_after|done]|done]. }
  apply rsp_flags_bits in Ef as [Hf5 Hfb]. apply wp_bind, wp_wrr. intros x1 w Hs1 E1 En1.
  assert (Hx1 : ofN (quiet F) n x1).
  { split; [rewrite E1; apply quiet_wr; [done|]; eapply stable_steps; [apply quiet_stable|apply Hx|done]|].
    rewrite En1. apply Hx. }
  apply wp_bind, wp_wrr. intros x2 w2 Hs2 E2 En2. apply wp_ret. split; [|done]. split; [|rewrite En2; apply Hx1].
  rewrite E2. cbn [wr_view]. unfold start. rewrite !cmd_testbit, Hf5 by lia.
  assert (Hw2 : quiet F w2) by (eapply stable_steps; [apply quiet_stable|apply Hx1|done]).
  destruct (c_check_busy c).
  - destruct (Z.testbit f 0 && Z.testbit f 1); [|by apply quiet_after]. destruct Hw2 as [[] ?]. by split.
  - rewrite Hfb by done. done.
Qed.

(** A kept predicate through an operation, inside [wp]. *)
Ltac wkeep L := apply wp_bind; eapply wp_mono; [apply keeps_wp; [apply L|eassumption]| |]; cbv beta.

Definition cache (c : sdmmc_cmd_t) (result : bool) : M (host D) bool :=
  if (result && c_true (c_rsp_type c) : bool) then
    setf (set_rsp_type (c_rsp_type c));;
    s ← ctx;
    p ← _sdmmc_cache_rsp (s_rsp s) 0x10 (c_rsp_type c);
    setf (set_rsp p.2);;
    mret p.1
  else mret result.

Lemma kH_cache P c result : stable P -> keeps (ofH P) (cache c result).
Proof.
  intros HP. unfold cache. apply keeps_if; [|apply keeps_ret].
  apply keeps_bind; [by apply kH_setf|intros ?]. apply keeps_bind; [by apply kH_ctx|intros ?].
  apply keeps_bind; [by apply kH_cache_rsp|intros ?]. apply keeps_bind; [by apply kH_setf|intros ?].
  apply keeps_ret.
Qed.

Lemma inner_unfold c req : _sdmmc_execute_cmd_inner fuel c req =
  (ok ← _sdmmc_wait_cmd_data_inhibit fuel (c_check_busy c || bool_decide (is_Some req));
   if negb ok then mret (false, None)
   else
     conf ← match req with None => mret (Some 0) | Some q => _sdmmc_config_dma q end;
     match conf with
     | None => mret (false, None)
     | Some count =>
         _sdmmc_enable_interrupts;;
         ok ← _sdmmc_send_cmd c (bool_decide (is_Some req));
         if negb ok then mret (false, None)
         else
           result ← _sdmmc_wait_response fuel;
           result ← cache c result;
           result ← (if (result && bool_decide (is_Some req) : bool) then _sdmmc_update_dma fuel else mret result);
           _sdmmc_mask_interrupts;;
           if negb result then mret (false, None)
           else
             (match req with
              | Some q => when (r_is_auto_cmd12 q) (v ← rdr rspreg3; setf (set_rsp3 v))
              | None => mret tt
              end);;
             let out := match req with Some _ => Some count | None => None end in
             if c_check_busy c || bool_decide (is_Some req)
             then b ← _sdmmc_wait_card_busy fuel; mret (b, out)
             else mret (true, out)
     end).
Proof. done. Qed.

(** A command that got its response always has it cached. *)
Lemma wp_cache P c n x (Q : bool -> host D -> Prop) E : stable P -> rsp_flags (c_rsp_type c) (c_check_busy c) <> None ->
  ofN P n x -> (forall x', ofN P n x' -> Q true x') -> wp (cache c true) x Q E.
Proof.
  intros HP Hf Hx HQ. unfold cache. cbn [andb]. destruct (c_true (c_rsp_type c)) eqn:Ec; [|by apply wp_ret, HQ].
  apply wp_bind. unfold wp at 1, setf, modify. apply wp_bind. unfold wp at 1, ctx. cbn -[wp].
  set (x1 := Host _ _ _). assert (Hx1 : ofN P n x1) by exact Hx. clearbody x1. apply wp_bind.
  unfold _sdmmc_cache_rsp.
  assert (Ht : c_rsp_type c = 1 \/ c_rsp_type c = 2 \/ c_rsp_type c = 3 \/ c_rsp_type c = 4 \/ c_rsp_type c = 5).
  { unfold rsp_flags in Hf. unfold c_true in Ec. apply negb_true_iff, Z.eqb_neq in Ec.
    rewrite (proj2 (Z.eqb_neq _ 0) Ec) in Hf.
    destruct (Z.eqb_spec (c_rsp_type c) 1), (Z.eqb_spec (c_rsp_type c) 4), (Z.eqb_spec (c_rsp_type c) 5),
      (Z.eqb_spec (c_rsp_type c) 2), (Z.eqb_spec (c_rsp_type c) 3); cbn [orb] in Hf; try tauto. }
  assert (Hend : forall l x2, ofN P n x2 -> wp (setf (set_rsp l);; mret true) x2 Q E)
    by (intros l x2 Hx2; apply wp_bind; apply HQ; exact Hx2).
  destruct Ht as [-> | [-> | Ht]].
  - cbn -[wp]. apply wp_bind, wp_rdr. intros v x2 Hs2 E2 _ _. apply wp_ret. cbn -[wp]. apply Hend. by eapply ofN_rd.
  - cbn -[wp]. do 4 (apply wp_bind, wp_rdr; let v := fresh "v" in let x2 := fresh "x" in let Hs := fresh "Hs" in
      let E2 := fresh "E" in intros v x2 Hs E2 _ _). apply wp_ret. cbn -[wp]. apply Hend.
    by repeat (eapply ofN_rd; [done| |done|done]).
  - destruct Ht as [-> | [-> | ->]]; cbn -[wp]; (apply wp_bind, wp_rdr; intros v x2 Hs2 E2 _ _; apply wp_ret;
      cbn -[wp]; apply Hend; by eapply ofN_rd).
Qed.

Lemma send_some c data x : wp (_sdmmc_send_cmd c data) x
  (fun b _ => b = true -> rsp_flags (c_rsp_type c) (c_check_busy c) <> None) (fun _ => True).
Proof.
  unfold _sdmmc_send_cmd. destruct (rsp_flags _ _); [|by apply wp_ret].
  apply wp_bind, wp_wrr. intros. apply wp_bind, wp_wrr. intros. by apply wp_ret.
Qed.
Lemma wp_and {S A} (m : M S A) s (Q1 Q2 : A -> S -> Prop) (E1 E2 : S -> Prop) :
  wp m s Q1 E1 -> wp m s Q2 E2 -> wp m s (fun a s' => Q1 a s' /\ Q2 a s') (fun s' => E1 s' /\ E2 s').
Proof. unfold wp. destruct (m s) as [[x| |] s']; auto. Qed.

Lemma ofN_intro P x : ofH P x -> ofN P (dma_addr_next (hs x)) x.
Proof. by split. Qed.

(** After the response: the card is left quiet when it is waited for. *)
Lemma wp_inner_none F c x : ofH (quiet F) x ->
  wp (_sdmmc_execute_cmd_inner fuel c None) x (fun _ => ofH (quiet F)) (ofH (content F)).
Proof.
  intros Hx. rewrite inner_unfold.
  wkeep (kH_inhibit (quiet F) (quiet_stable F) fuel (quiet_wr F)); [|by intros ? []].
  intros ok x1 Hx1. destruct ok; [|by apply wp_ret]. cbn [negb]. apply wp_bind, wp_ret.
  wkeep (kH_enable_interrupts (quiet F) (quiet_stable F) (quiet_wr F)); [|by intros ? []].
  intros ?u x2 Hx2. apply wp_bind. rewrite bool_decide_false by by intros [].
  eapply wp_mono; [apply wp_and; [apply (wp_send_nodata F c (dma_addr_next (hs x2))), ofN_intro, Hx2|apply (send_some c false)]| |].
  2:{ intros x3 [Hx3 _]. exact Hx3. }
  intros ok x3 [[Hx3 Hq3] Hf3]. destruct ok; [|by apply wp_ret, Hq3]. cbn [negb]. specialize (Hf3 eq_refl).
  set (P := after (c_check_busy c) F) in *. assert (HP : stable P) by apply after_stable.
  apply wp_bind. eapply wp_mono; [apply (wp_wait_response F P); [done| |apply after_content|done]| |done].
  { intros v w Hw _ _. by apply after_wr. }
  intros b x4 Hx4. apply wp_bind. destruct b.
  2:{ eapply wp_mono; [apply keeps_wp; [apply (kH_cache (quiet F)), quiet_stable|exact Hx4]| |by intros ? []].
      intros b x5 Hx5. change (if b && false then _ else mret b) with (if b && false then _sdmmc_update_dma (D := D) fuel else mret b).
      rewrite andb_false_r. apply wp_bind, wp_ret.
      wkeep (kH_mask_interrupts (quiet F) (quiet_stable F) (quiet_wr F)); [|by intros ? []].
      intros ?u x6 Hx6. destruct b; [|by apply wp_ret]. cbn [negb]. apply wp_bind, wp_ret. rewrite orb_false_r.
      destruct (c_check_busy c); [|by apply wp_ret]. apply wp_bind.
      eapply wp_mono; [apply (wp_wait_card_busy F (quiet F)); [apply quiet_stable|by intros ? []|done|done]| |done].
      intros. by apply wp_ret. }
  apply (wp_cache P c (dma_addr_next (hs x2))); [done|done|done|]. intros x5 [Hx5 _]. cbn [andb].
  apply wp_bind, wp_ret.
  wkeep (kH_mask_interrupts P HP (after_wr _ F)); [|intros ? ?; by eapply after_content].
  intros ?u x6 Hx6. cbn [negb]. apply wp_bind, wp_ret. rewrite orb_false_r.
  subst P. destruct (c_check_busy c).
  - apply wp_bind. eapply wp_mono; [apply (wp_wait_card_busy F (calm F)); [apply calm_stable|by intros ? []| |done]| |done].
    + intros w [] ?. by split.
    + intros. by apply wp_ret.
  - by apply wp_ret.
Qed.

Lemma wp_stop_inner F x : ofH (quiet F) x ->
  wp (_sdmmc_stop_transmission_inner fuel) x (fun _ => ofH (quiet F)) (ofH (content F)).
Proof.
  intros Hx. unfold _sdmmc_stop_transmission_inner.
  wkeep (kH_inhibit (quiet F) (quiet_stable F) fuel (quiet_wr F)); [|by intros ? []].
  intros ok x1 Hx1. destruct ok; [|by apply wp_ret]. cbn [negb].
  wkeep (kH_enable_interrupts (quiet F) (quiet_stable F) (quiet_wr F)); [|by intros ? []].
  intros ?u x2 Hx2. apply wp_bind.
  eapply wp_mono; [apply (wp_send_nodata F _ (dma_addr_next (hs x2))), ofN_intro, Hx2| |intros ? Hx3; exact Hx3].
  intros ?u x3 [Hx3 _]. apply wp_bind.
  eapply wp_mono; [apply (wp_wait_response F (calm F)); [apply calm_stable| |by intros ? []|exact Hx3]| |done].
  { intros v w Hw _ _. by apply calm_wr. }
  intros b x4 Hx4. destruct b.
  - destruct Hx4 as [Hx4 _]. wkeep (kH_mask_interrupts (calm F) (calm_stable F) (calm_wr F)); [|by intros ? []].
    intros ?u x5 Hx5. cbn [negb].
    wkeep (kH_cache_rsp (calm F) (calm_stable F)); [|by intros ? []]. intros ?u x6 Hx6.
    apply (wp_wait_card_busy F (calm F)); [apply calm_stable|by intros ? []| |done]. intros w [] ?. by split.
  - wkeep (kH_mask_interrupts (quiet F) (quiet_stable F) (quiet_wr F)); [|by intros ? []].
    intros ?u x5 Hx5. by apply wp_ret.
Qed.

(** The clock of the card around an operation, which makes [G a] of card and
    memory when it returns [a]. *)
Lemma wp_with_card_clock {A} (F F' : mem -> mem -> Prop) (G : A -> mem -> mem -> Prop) (m : M (host D) A) x :
  (forall c r, F c r -> F' c r) -> (forall a c r, G a c r -> F' c r) ->
  (forall x, ofH (quiet F) x -> wp m x (fun a => ofH (quiet (G a))) (ofH (content F'))) ->
  ofH (quiet F) x ->
  wp (with_card_clock fuel m) x (fun a => ofH (quiet (G a))) (ofH (content F')).
Proof.
  intros HF HG Hm Hx. unfold with_card_clock. pose proof (quiet_stable F) as S. pose proof (quiet_wr F) as W.
  assert (HE : forall x', ofH (quiet F) x' -> ofH (content F') x') by (intros x' []; by apply HF).
  apply wp_bind. unfold ctx. apply wp_bind. unfold wp at 1, get. apply wp_ret.
  apply wp_bind. eapply wp_mono; [apply keeps_wp; [|exact Hx]| |exact HE].
  { apply kH_when, keeps_bind; [by apply kH_io_power|intros; by apply kH_autocal]. }
  intros ?u x1 Hx1. wkeep (kH_test (quiet F) S); [|exact HE]. intros e x2 Hx2. apply wp_bind.
  eapply wp_mono; [apply keeps_wp; [|exact Hx2]| |exact HE].
  { apply kH_when. apply keeps_bind; [by apply kH_updr|intros ?]. apply keeps_bind; [by apply kH_commit|intros ?].
    by apply kH_sleep_8. }
  intros ?u x3 Hx3. apply wp_bind. eapply wp_mono; [by apply Hm| |done]. intros a x4 Hx4.
  pose proof (quiet_stable (G a)) as S2. pose proof (quiet_wr (G a)) as W2.
  assert (HE2 : forall x', ofH (quiet (G a)) x' -> ofH (content F') x') by (intros x' []; by eapply HG).
  wkeep (kH_sleep_8 (quiet (G a)) S2); [|exact HE2]. intros ?u x5 Hx5. apply wp_bind.
  eapply wp_mono; [apply keeps_wp; [|exact Hx5]| |exact HE2].
  { apply kH_when. by apply kH_updr. }
  intros ?u x6 Hx6. by apply wp_ret.
Qed.

Lemma wp_ctx x (Q : sdmmc_t -> host D -> Prop) E : Q (hs x) x -> wp ctx x Q E.
Proof. done. Qed.

Lemma wp_execute_none F c x : ofH (quiet F) x ->
  wp (sdmmc_execute_cmd fuel c None) x (fun _ => ofH (quiet F)) (ofH (content F)).
Proof.
  intros Hx. unfold sdmmc_execute_cmd. apply wp_bind, wp_ctx. destruct (negb _); [by apply wp_ret|].
  apply (wp_with_card_clock F F (fun _ => F)); [done|done| |done]. intros. by apply wp_inner_none.
Qed.
Lemma wp_stop F x : ofH (quiet F) x ->
  wp (sdmmc_stop_transmission fuel) x (fun _ => ofH (quiet F)) (ofH (content F)).
Proof.
  intros Hx. unfold sdmmc_stop_transmission. apply wp_bind, wp_ctx. destruct (negb _); [by apply wp_ret|].
  apply (wp_with_card_clock F F (fun _ => F)); [done|done| |done]. intros. by apply wp_stop_inner.
Qed.

(** *** Tuning *)

(** The clock of the card is off, so nothing moves. *)
Definition gated (F : mem -> mem -> Prop) (w : sdv) : Prop := v_clk w = false /\ content F w.
Lemma gated_stable F : stable (gated F).
Proof. intros w w' [Hc HF] Hs. destruct Hs; [congruence|]. by split. Qed.

Lemma gated_start F v w : gated F w -> gated F (start v w).
Proof. intros [Hc HF]. unfold start. destruct (Z.testbit v 5), (Z.testbit (v_trnmod w) 0), (Z.testbit v 0 && Z.testbit v 1); done. Qed.

Lemma wp_tuning_once F cmd x : ofH (quiet F) x ->
  wp (_sdmmc_tuning_execute_once fuel cmd) x (fun _ => ofH (quiet F)) (ofH (content F)).
Proof.
  intros Hx. unfold _sdmmc_tuning_execute_once. pose proof (quiet_stable F) as S. pose proof (quiet_wr F) as W.
  pose proof (gated_stable F) as SG.
  assert (HE : forall x', ofH (quiet F) x' -> ofH (content F) x') by by intros ? [].
  assert (HG : forall x', ofH (gated F) x' -> ofH (content F) x') by by intros ? [].
  apply wp_bind, wp_ctx. destruct (c_true _); [by apply wp_ret|].
  wkeep (kH_inhibit (quiet F) S fuel W); [|exact HE]. intros ok x1 Hx1. destruct ok; [|by apply wp_ret]. cbn [negb].
  wkeep (kH_small_block (quiet F) S W); [|exact HE]. intros ?u x2 Hx2.
  apply wp_bind. eapply wp_mono; [apply keeps_wp; [by apply (kH_updr (quiet F) S W)|exact Hx2]| |exact HE]. intros ?u x3 Hx3.
  apply wp_bind. eapply wp_mono; [apply keeps_wp; [by apply (kH_updr (quiet F) S W)|exact Hx3]| |exact HE]. intros ?u x4 Hx4.
  apply wp_bind. unfold andn, updr. apply wp_bind, wp_rdr. intros v x5 Hs5 _ _ _. apply wp_wrr. intros x6 w6 Hs6 E6 _.
  assert (Hx6 : ofH (gated F) x6).
  { unfold ofH. rewrite E6. split.
    - cbn [wr_view v_clk sdwidth]. rewrite Z.mod_pow2_bits_low, Z.land_spec, Z.lnot_spec by lia. by rewrite andb_false_r.
    - assert (Hw : quiet F w6) by (eapply stable_steps; [done| |exact Hs6]; eapply stable_steps; [done|exact Hx4|done]).
      apply Hw. }
  apply wp_bind. unfold _sdmmc_send_tuning_cmd, _sdmmc_send_cmd. apply wp_bind. cbn -[wp]. apply wp_bind, wp_wrr.
  intros x7 w7 Hs7 E7 _. apply wp_bind, wp_wrr. intros x8 w8 Hs8 E8 _. apply wp_ret. apply wp_ret.
  assert (Hx8 : ofH (gated F) x8).
  { unfold ofH. rewrite E8. apply gated_start. eapply stable_steps; [done| |exact Hs8]. rewrite E7.
    assert (Hw : gated F w7) by (eapply stable_steps; [done|exact Hx6|done]). exact Hw. }
  wkeep (kH_commit (gated F) SG); [|exact HG]. intros ?u x9 Hx9.
  wkeep (kH_sleep (gated F) SG); [|exact HG]. intros ?u x10 Hx10.
  apply wp_bind. eapply wp_mono; [apply (wp_reset F (gated F)); [done|by intros ? []|done]| |done]. intros ?u x11 Hx11.
  assert (Hk : keeps (ofH (quiet F)) (orr clkcon SDHCI_CLOCK_CARD_EN;; _sdmmc_commit_changes;; t ← us;
    ok ← tuning_wait (D := D) fuel (u32 (t + 5000));
    if (ok : bool) then mret true
    else _sdmmc_reset fuel;; andn norintstsen SDHCI_INT_DATA_AVAIL;; _sdmmc_commit_changes;; sleep_8_clocks;; mret false)).
  { apply keeps_bind; [by apply (kH_updr (quiet F) S W)|intros ?]. apply keeps_bind; [by apply kH_commit|intros ?].
    apply keeps_bind; [by apply kH_us|intros ?]. apply keeps_bind; [by apply (kH_tuning_wait (quiet F) S W)|intros b].
    destruct b; [apply keeps_ret|]. apply keeps_bind; [by apply (kH_reset (quiet F) S fuel W)|intros ?].
    apply keeps_bind; [by apply (kH_updr (quiet F) S W)|intros ?]. apply keeps_bind; [by apply kH_commit|intros ?].
    apply keeps_bind; [by apply kH_sleep_8|intros ?]. apply keeps_ret. }
  eapply wp_mono; [apply keeps_wp; [exact Hk|exact Hx11]|done|exact HE].
Qed.

Lemma wp_tuning_loop F cmd k : forall x, ofH (quiet F) x ->
  wp (tuning_loop fuel k cmd) x (fun _ => ofH (quiet F)) (ofH (content F)).
Proof.
  induction k as [|k IH]; intros x Hx; [by apply wp_ret|]. cbn [tuning_loop]. apply wp_bind.
  eapply wp_mono; [by apply wp_tuning_once| |done]. intros ?u x1 Hx1.
  wkeep (kH_test (quiet F) (quiet_stable F)); [|by intros ? []]. intros b x2 Hx2.
  destruct (negb b); [by apply wp_ret|by apply IH].
Qed.
Lemma wp_tuning F t cmd x : ofH (quiet F) x ->
  wp (sdmmc_tuning_execute fuel t cmd) x (fun _ => ofH (quiet F)) (ofH (content F)).
Proof.
  intros Hx. unfold sdmmc_tuning_execute. pose proof (quiet_stable F) as S. pose proof (quiet_wr F) as W.
  assert (HE : forall x', ofH (quiet F) x' -> ofH (content F) x') by by intros ? [].
  assert (Hgo : forall k flag, wp (
    wrr ventunctl1 0;; updr ventunctl0 (fun v => Z.lor (Z.land v 0xFFFF1FFF) flag);;
    updr ventunctl0 (fun v => Z.lor (Z.land v 0xFFFFE03F) (Z.shiftl 1 6));;
    orr ventunctl0 TUN_CTRL0_TAP_VAL_UPDATED_BY_HW;; orr hostctl2 SDHCI_CTRL_EXEC_TUNING;;
    tuning_loop fuel k cmd;; test hostctl2 SDHCI_CTRL_TUNED_CLK) x (fun _ => ofH (quiet F)) (ofH (content F))).
  { intros k flag. apply wp_bind.
    eapply wp_mono; [apply keeps_wp; [by apply (kH_wrr (quiet F) S W)|exact Hx]| |exact HE]. intros ?u x1 Hx1.
    do 4 (apply wp_bind; eapply wp_mono; [apply keeps_wp; [by apply (kH_updr (quiet F) S W)|eassumption]| |exact HE];
          let x2 := fresh "x" in let Hx2 := fresh "Hx" in intros ?u x2 Hx2; cbv beta in Hx2).
    apply wp_bind. eapply wp_mono; [apply wp_tuning_loop; eassumption| |done]. intros ?u x6 Hx6.
    eapply wp_mono; [apply keeps_wp; [by apply (kH_test (quiet F))|exact Hx6]|done|exact HE]. }
  destruct (_ || _); [apply Hgo|]. destruct (_ || _); [apply Hgo|]. by apply wp_ret.
Qed.

(** ** Transfers *)

Section Transfer.
(** Direction, command and argument, buffer and length, and the card and the
    memory at the start. *)
Context (wr : bool) (cmd arg buf total : Z) (c0 m0 : mem).
Context (Hbuf : 0 <= buf) (Htot : 0 < total) (Hend : buf + total <= 4294967296).

(** [p] bytes have been moved, and nothing else. *)
Definition prog (p : Z) (c m : mem) : Prop :=
  if wr then
    m = m0 /\
    if writes_blocks cmd then
      forall a, ld8 c a = if (512 * arg <=? a) && (a <? 512 * arg + p)
                          then ld8 m0 (buf + (a - 512 * arg)) else ld8 c0 a
    else c = c0
  else
    c = c0 /\ (forall a, ~ (buf <= a < buf + p) -> ld8 m a = ld8 m0 a) /\
    (reads_blocks cmd -> forall i, 0 <= i < p -> ld8 m (buf + i) = ld8 c0 (512 * arg + i)).

Definition B : Z := 0x80000.

(** A transfer under way or complete; [n] is the address the driver will give
    at the next boundary. *)
Definition T (n : Z) (w : sdv) : Prop :=
  v_busy w = false /\ bnd w = B /\
  match v_xf w with
  | None => prog total (v_card w) (v_ram w)
  | Some x =>
      x_wr x = wr /\ x_cmd x = cmd /\ x_arg x = arg /\
      0 <= x_pos x < total /\ x_left x = total - x_pos x /\ x_addr x = buf + x_pos x /\
      v_end w = false /\ prog (x_pos x) (v_card w) (v_ram w) /\
      if x_stop x then x_addr x = n /\ n mod B = 0
      else v_dma w = false /\ n = u32 ((x_addr x / B + 1) * B)
  end.

Lemma prog_move b p c m : 0 <= p -> prog p c m ->
  (reads_blocks cmd -> b = ld8 c (512 * arg + p)) ->
  prog (p + 1)
    (if wr && writes_blocks cmd then st8 c (512 * arg + p) (ld8 m (buf + p)) else c)
    (if wr then m else st8 m (buf + p) b).
Proof.
  unfold prog. destruct wr; cbn [andb].
  - intros Hp [-> Hc] _. split; [done|]. destruct (writes_blocks cmd); [|done]. intros a.
    rewrite ld8_st8. destruct (Z.eqb_spec (512 * arg + p) a) as [<-|Hne].
    + rewrite u8_id by auto with nsx. rewrite (proj2 (Z.leb_le _ _)), (proj2 (Z.ltb_lt _ _)) by lia. cbn [andb].
      f_equal. lia.
    + rewrite Hc. destruct (Z.leb_spec (512 * arg) a); cbn [andb]; [|done].
      destruct (Z.ltb_spec a (512 * arg + p)), (Z.ltb_spec a (512 * arg + (p + 1))); lia || done.
  - intros Hp (-> & Hm & Hr) Hb. split; [done|]. split.
    + intros a Ha. rewrite ld8_st8_ne by lia. apply Hm. lia.
    + intros Hrd i Hi. destruct (Z.eq_dec i p) as [->|].
      * rewrite ld8_st8_eq, Hb, u8_id by auto with nsx. done.
      * rewrite ld8_st8_ne by lia. apply Hr; [done|lia].
Qed.

(** The next boundary. *)
Lemma next_boundary a : 0 <= a -> (a + 1) mod B = 0 -> (a / B + 1) * B = a + 1.
Proof. unfold B. zdm. Qed.
Lemma same_boundary a : 0 <= a -> (a + 1) mod B <> 0 -> (a + 1) / B = a / B.
Proof. unfold B. zdm. Qed.

Lemma T_stable n : stable (T n).
Proof.
  intros w w' (Hb & Hbnd & Hx) Hs. destruct Hs as [x b d Ex Hst Hleft Hclk Hrd|e Hbusy]; [|congruence].
  rewrite Ex in Hx. destruct Hx as (Ewr & Ec & Ea & Hpos & Hl & Had & He & Hp & Hstop).
  rewrite Hst in Hstop. destruct Hstop as [Hdma Hn].
  pose proof (prog_move b (x_pos x) _ _ (proj1 Hpos) Hp) as Hp'.
  rewrite <- Ewr, <- Ec, <- Ea, <- Had in Hp'. specialize (Hp' Hrd).
  unfold T, move. cbn [v_busy v_blksize v_xf v_end v_dma v_card v_ram bnd]. split; [done|]. split; [exact Hbnd|].
  destruct (Z.eqb_spec (x_left x) 1) as [E1|E1].
  - replace total with (x_pos x + 1) by lia. exact Hp'.
  - cbn [x_wr x_cmd x_arg x_pos x_left x_addr x_stop]. rewrite He, Hdma, Hbnd.
    split_and!; try done; try lia. destruct (Z.eqb_spec ((x_addr x + 1) mod B) 0) as [Em|Em].
    + rewrite Hn, next_boundary, u32_id by lia. done.
    + split; [done|]. rewrite same_boundary by lia. exact Hn.
Qed.

Definition moved (c m : mem) : Prop := exists p, 0 <= p <= total /\ prog p c m.
Lemma T_content n w : T n w -> content moved w.
Proof.
  intros (_ & _ & Hx). unfold content, moved. destruct (v_xf w) as [x|].
  - exists (x_pos x). split; [lia|]. apply Hx.
  - exists total. split; [lia|done].
Qed.
Lemma T_clear n v w : T n w -> Z.testbit v 1 = false -> Z.testbit v 3 = false -> T n (wr_view norintsts v w).
Proof.
  intros HT H1' H3'. cbn [wr_view]. rewrite H1', H3'. destruct w. unfold T, bnd in *. cbn in *.
  by rewrite !andb_true_r.
Qed.

(** *** The loops of [_sdmmc_update_dma] *)

Lemma testbit_mask v b k : 0 <= b < 4 -> Z.testbit (Z.land v k mod 2 ^ sdwidth norintsts) b = Z.testbit v b && Z.testbit k b.
Proof. intros Hb. cbn [sdwidth]. by rewrite Z.mod_pow2_bits_low, Z.land_spec by lia. Qed.

(** One look at the status.  The end of the transfer is seen only when it is
    complete; the end of the DMA buffer only when it has stopped at [n]. *)
Lemma wp_check_dma n x : ofN (T n) n x ->
  wp (_sdmmc_check_mask_interrupt (Z.lor SDHCI_INT_DATA_END SDHCI_INT_DMA_END)) x
    (fun '(result, intr) x' => ofN (T n) n x' /\
       (0 <= result -> Z.testbit intr 1 = true -> v_xf (dv x') = None) /\
       (0 <= result -> Z.testbit intr 3 = true ->
          match v_xf (dv x') with Some y => x_stop y = true /\ v_dma (dv x') = false | None => True end))
    (ofH (content moved)).
Proof.
  intros Hx. unfold _sdmmc_check_mask_interrupt. apply wp_bind, wp_rdr. intros nor x1 Hs1 E1 Hst _.
  apply (ofN_rd (T n) n x x1 (T_stable n) Hx Hs1) in E1. destruct (Hst eq_refl) as [Hb1 Hb3]. clear Hst Hs1 Hx.
  apply wp_bind, wp_rdr. intros err x2 Hs2 E2 _ _.
  pose proof (ofN_rd (T n) n x1 x2 (T_stable n) E1 Hs2 E2) as Hx2.
  destruct (c_true (Z.land nor SDHCI_INT_ERROR)).
  { apply wp_bind, wp_wrr. intros x3 w Hs3 Ev3 En3. apply wp_ret. split; [|unfold SDMMC_MASKINT_ERROR; split; lia].
    split; [rewrite Ev3; eapply stable_steps; [apply T_stable| |exact Hs3]; apply Hx2|rewrite En3; apply Hx2]. }
  destruct (c_true (Z.land nor _));
    [|apply wp_ret; split; [done|unfold SDMMC_MASKINT_NOERROR; split; lia]].
  apply wp_bind, wp_wrr. intros x3 w Hs3 Ev3 En3. apply wp_ret. rewrite Ev3.
  assert (Hw : T n w) by (eapply stable_steps; [apply T_stable| |exact Hs3]; apply Hx2).
  assert (Hnone : v_xf (dv x1) = None -> v_xf w = None).
  { intros Hn. destruct E1 as [(Hbusy & _) _]. assert (Hq : quiet (fun _ _ => True) (dv x1)) by done.
    apply (stable_steps _ _ w (quiet_stable _)) in Hq; [by destruct Hq as [[] _]|]. by eapply hsteps_trans. }
  assert (Hstopped : forall y, v_xf (dv x1) = Some y -> x_stop y = true -> v_xf w = Some y).
  { intros y Ey Hy. assert (Hq : v_xf (dv x1) = Some y /\ v_busy (dv x1) = false) by (split; [done|]; apply E1).
    assert (S : stable (fun w => v_xf w = Some y /\ v_busy w = false)).
    { intros w1 w2 [Hx1 Hb] Hs. destruct Hs; congruence. }
    apply (stable_steps _ _ (dv x2) S) in Hq; [|done]. apply (stable_steps _ _ w S) in Hq; [|done]. apply Hq. }
  assert (Hend3 : Z.testbit nor 1 = true -> v_xf w = None).
  { intros Hb. rewrite Hb1 in Hb. apply Hnone. destruct E1 as [(_ & _ & Hx1) _].
    destruct (v_xf (dv x1)); [|done]. destruct Hx1 as (_ & _ & _ & _ & _ & _ & He & _). congruence. }
  assert (Hdma3 : Z.testbit nor 3 = true -> match v_xf w with Some y => x_stop y = true | None => True end).
  { intros Hb. rewrite Hb3 in Hb. destruct (v_xf (dv x1)) as [y|] eqn:Ey; [|by rewrite Hnone].
    destruct E1 as [(_ & _ & Hx1) _]. rewrite Ey in Hx1. destruct Hx1 as (_ & _ & _ & _ & _ & _ & _ & _ & Hst).
    destruct (x_stop y) eqn:Es; [by rewrite (Hstopped y)|]. destruct Hst. congruence. }
  cbn [wr_view v_xf v_dma]. split_and!.
  - split; [|rewrite En3; apply Hx2]. rewrite Ev3. unfold T, bnd in *. cbn [wr_view v_busy v_blksize v_xf v_end v_dma v_card v_ram].
    destruct Hw as (W1 & W2 & W3). split; [done|]. split; [done|]. destruct (v_xf w) as [y|]; [|done].
    destruct W3 as (A1 & A2 & A3 & A4 & A5 & A6 & A7 & A8 & A9). split_and!; try done; try lia; [by rewrite A7|].
    destruct (x_stop y); [done|]. destruct A9 as [Ad An]. rewrite Ad. by split.
  - intros _. exact Hend3.
  - intros _ Hb. specialize (Hdma3 Hb). destruct (v_xf w); [|done]. split; [done|].
    rewrite testbit_mask, Hb by lia. cbn. by rewrite andb_false_r.
Qed.

(** Stopped at the boundary [n], or complete. *)
Definition stopped (n : Z) (w : sdv) : Prop :=
  T n w /\ match v_xf w with Some y => x_stop y = true /\ v_dma w = false | None => True end.
Lemma stopped_stable n : stable (stopped n).
Proof.
  intros w w' [(Hb & HT) Hy] Hs. destruct Hs as [x b d Ex Hst|e Hbusy]; [|congruence].
  rewrite Ex in Hy. destruct Hy. congruence.
Qed.

(** Giving the next address starts the transfer again where it stopped. *)
Lemma resume_T n w : stopped n w -> v_adma w = n mod 2 ^ 32 -> T (u32 (n + 0x80000)) (resume w).
Proof.
  intros [(Hb & Hbnd & HT) Hy] Ha. unfold resume. destruct (v_xf w) as [y|] eqn:Ey.
  - destruct Hy as [Hst Hd]. rewrite Hst in *. destruct HT as (A1 & A2 & A3 & A4 & A5 & A6 & A7 & A8 & A9 & A10).
    assert (Hn : 0 <= n < 4294967296) by lia. rewrite Z.mod_small in Ha by (change (2 ^ 32) with 4294967296; lia).
    unfold T, bnd in *. cbn. rewrite Ha. split_and!; try done; try lia.
    f_equal. unfold B in *. zdm.
  - unfold T. by rewrite Ey.
Qed.

Lemma wp_dma_poll k : forall n x, ofN (T n) n x ->
  wp (dma_poll k) x (fun r x' => exists n', ofN (T n') n' x' /\ (r = None -> v_xf (dv x') = None))
    (ofH (content moved)).
Proof.
  induction k as [|k IH]; intros n x Hx; [eapply T_content, Hx|]. cbn [dma_poll]. apply wp_bind.
  eapply wp_mono; [by apply wp_check_dma| |done]. intros [result intr] x1 (Hx1 & Hend1 & Hdma1).
  destruct (Z.ltb_spec result 0) as [|Hr0]; [by apply wp_ret; exists n|].
  change SDHCI_INT_DATA_END with (BIT 1). change SDHCI_INT_DMA_END with (BIT 3). rewrite !c_true_land_BIT by lia.
  destruct (Z.testbit intr 1) eqn:Hb1; [apply wp_ret; exists n; auto|]. apply wp_bind. unfold when.
  destruct (Z.testbit intr 3) eqn:Hb3; [|by apply wp_ret, (IH n)]. apply wp_bind, wp_ctx.
  assert (Hs1 : stopped n (dv x1)) by (split; [apply Hx1|exact (Hdma1 Hr0 eq_refl)]). destruct Hx1 as [_ En1]. rewrite En1.
  apply wp_bind, wp_wrr. intros x2 w2 Hs2 E2 En2. apply (stable_steps _ _ w2 (stopped_stable n)) in Hs1; [|done].
  assert (Hx2 : stopped n (dv x2) /\ v_adma (dv x2) = n mod 2 ^ 32) by (rewrite E2; exact (conj Hs1 eq_refl)).
  apply wp_bind, wp_wrr. intros x3 w3 Hs3 E3 En3.
  assert (S : stable (fun w => stopped n w /\ v_adma w = n mod 2 ^ 32)).
  { intros w w' [Hw Ha] Hs. split; [by eapply stopped_stable|]. by destruct Hs. }
  apply (stable_steps _ _ w3 S) in Hx2; [|done]. destruct Hx2 as [Hst Had].
  unfold wp at 1, setf, modify. apply (IH (u32 (n + 0x80000))).
  split; [|cbn [hs dma_addr_next set_dma_next]; reflexivity].
  unfold dv. cbn [hclk]. fold (dv x3). rewrite E3. cbn [wr_view]. by apply resume_T.
Qed.

Lemma wp_dma_wait k : forall n t x, ofN (T n) n x ->
  wp (dma_wait fuel k t) x (fun r x' =>
    match r with
    | Some true => ofH (quiet (prog total)) x'
    | Some false => ofH (quiet moved) x'
    | None => exists n', ofN (T n') n' x'
    end) (ofH (content moved)).
Proof.
  induction k as [|k IH]; intros n t x Hx; [eapply T_content, Hx|]. cbn [dma_wait]. apply wp_bind.
  eapply wp_mono; [by apply (wp_dma_poll fuel n)| |done]. intros r x1 (n1 & Hx1 & Hr1).
  destruct r as [result|].
  - destruct (negb _).
    + apply wp_bind. eapply wp_mono; [apply (wp_reset moved (T n1)); [apply T_stable|apply T_content|apply Hx1]| |done].
      intros ?u x2 Hx2. by apply wp_ret.
    + apply wp_bind. eapply wp_mono; [apply keeps_wp; [by apply (kN_ms (T n1) n1), T_stable|exact Hx1]| |].
      2:{ intros x2 [Hx2 _]. by eapply T_content. }
      cbv beta. intros t' x2 Hx2. destruct (t' <? t); [by apply (IH n1)|]. apply wp_ret. by exists n1.
  - apply wp_ret. specialize (Hr1 eq_refl). destruct Hx1 as [(Hb & _ & HT) _]. rewrite Hr1 in HT. by repeat split.
Qed.

Lemma wp_dma_rounds k : forall n x, ofN (T n) n x ->
  wp (dma_rounds fuel k) x (fun b x' =>
    if b then ofH (quiet (prog total)) x' else ofH (quiet moved) x') (ofH (content moved)).
Proof.
  assert (HE : forall n x', ofN (T n) n x' -> ofH (content moved) x') by (intros ? ? []; by eapply T_content).
  induction k as [|k IH]; intros n x Hx; [by eapply HE|]. cbn [dma_rounds].
  apply wp_bind. eapply wp_mono; [apply keeps_wp; [by apply (kN_rdr (T n) n), T_stable|exact Hx]| |apply HE].
  cbv beta. intros count x1 Hx1.
  apply wp_bind. eapply wp_mono; [apply keeps_wp; [by apply (kN_deadline (T n) n), T_stable|exact Hx1]| |apply HE].
  cbv beta. intros t x2 Hx2. apply wp_bind. eapply wp_mono; [by apply (wp_dma_wait fuel n)| |done].
  intros r x3 Hr. destruct r as [[]|]; [by apply wp_ret..|]. destruct Hr as (n3 & Hx3).
  apply wp_bind. eapply wp_mono; [apply keeps_wp; [by apply (kN_rdr (T n3) n3), T_stable|exact Hx3]| |apply HE].
  cbv beta. intros now x4 Hx4. destruct (negb _); [by apply (IH n3)|]. apply wp_bind.
  eapply wp_mono; [apply (wp_reset moved (T n3)); [apply T_stable|apply T_content|apply Hx4]| |done].
  intros ?u x5 Hx5. by apply wp_ret.
Qed.
End Transfer.

(** *** Setting a transfer up *)

Lemma idle_steps w w' : idle w -> hsteps w w' -> w' = w.
Proof. intros [Hx Hb] Hs. induction Hs as [|w1 w2 Hs IH Hst]; [done|]. subst w1. destruct Hst; congruence. Qed.

Section Data.
Context (c : sdmmc_cmd_t) (q : sdmmc_req_t) (c0 m0 : mem).
Context (Hq : req_ok q).

Definition count : Z := if 0xFFFF <=? r_num_sectors q then 0xFFFF else r_num_sectors q.
Definition bytes : Z := r_blksize q * (if r_is_multi_block q then count else Z.min 1 (r_num_sectors q)).
(** What the controller gets to know of the command. *)
Definition cmd_index : Z := u8 (c_cmd c).
Definition cmd_arg : Z := u32 (c_arg c).
Definition first_next : Z := u32 ((r_buf q / B + 1) * B).

Definition same (cd md : mem) : Prop := cd = c0 /\ md = m0.

Definition ready (w : sdv) : Prop :=
  idle w /\ same (v_card w) (v_ram w) /\ v_adma w = r_buf q /\ v_blksize w = r_blksize q + 0x7000 /\
  v_blkcnt w = count /\ v_trnmod w = trnmode q.
Definition armed (w : sdv) : Prop := ready w /\ v_end w = false /\ v_dma w = false.

Lemma idle_stable P : (forall w, P w -> idle w) -> stable P.
Proof. intros HP w w' Hw Hs. apply HP in Hw as [Hx Hb]. destruct Hs; congruence. Qed.
Lemma ready_stable : stable ready.
Proof. apply idle_stable. by intros w []. Qed.
Lemma armed_stable : stable armed.
Proof. apply idle_stable. by intros w [[] _]. Qed.

Lemma blksize_lor b : 0 <= b < 4096 -> Z.lor b 0x7000 mod 2 ^ 16 = b + 0x7000.
Proof.
  intros Hb. assert (E : Z.lor b 0x7000 = b + 0x7000).
  { symmetry. apply Z.add_nocarry_lor, Z.bits_inj'. intros n Hn. rewrite Z.land_spec, Z.bits_0.
    destruct (Z.ltb_spec n 12).
    - assert (Z.testbit 0x7000 n = false); [|by rewrite andb_comm; replace (Z.testbit 0x7000 n) with false].
      change 0x7000 with (Z.shiftl 7 12). apply Z.shiftl_spec_low. lia.
    - assert (Z.testbit b n = false); [|by replace (Z.testbit b n) with false].
      destruct (Z.eq_dec b 0) as [->|]; [apply Z.bits_0|]. apply Z.bits_above_log2; [lia|].
      assert (Z.log2 b < 12) by (apply Z.log2_lt_pow2; lia). lia. }
  rewrite E. apply Z.mod_small. lia.
Qed.

Lemma first_next_eq a : 0 <= a < 4294967296 -> Z.land (u32 (a + 0x80000)) 0xFFF80000 = u32 ((a / B + 1) * B).
Proof.
  intros Ha. change 0xFFF80000 with (u32 (Z.lnot (2 ^ 19 - 1))). rewrite land_lnot_pow2 by (first [lia|apply u32_range]).
  change (2 ^ 19) with B. unfold u32, B. zdm.
Qed.

Lemma trnmode_bits : Z.testbit (trnmode q) 0 = true /\ Z.testbit (trnmode q) 4 = negb (r_is_write q) /\
  Z.testbit (trnmode q) 5 = r_is_multi_block q /\ trnmode q mod 2 ^ 16 = trnmode q.
Proof. unfold trnmode. by destruct (r_is_multi_block q), (r_is_write q), (r_is_auto_cmd12 q). Qed.

(** A write to a register while the controller is idle. *)
Lemma wp_wrr_idle r v x (Q : unit -> host D -> Prop) E : idle (dv x) ->
  (forall x', dv x' = wr_view r (v mod 2 ^ sdwidth r) (dv x) -> hs x' = hs x -> Q tt x') -> wp (wrr r v) x Q E.
Proof. intros Hi HQ. apply wp_wrr. intros x' w Hs E' En. apply (idle_steps _ _ Hi) in Hs. subst w. auto. Qed.

Lemma wp_config_dma x E : ofH (quiet same) x ->
  wp (_sdmmc_config_dma q) x (fun r x' =>
    match r with
    | None => ofH (quiet same) x'
    | Some n => n = count /\ 0 < bytes /\ 0 < r_num_sectors q /\ ofN ready first_next x'
    end) E.
Proof.
  intros Hx. destruct Hq as (Hb & Hs & Hn & He). unfold _sdmmc_config_dma.
  destruct (Z.eqb_spec (r_blksize q) 0); [by apply wp_ret|].
  destruct (Z.eqb_spec (r_num_sectors q) 0); [by apply wp_ret|]. cbn [orb].
  assert (Hbuf : r_buf q < 4294967296) by nia.
  rewrite u32_id by lia. destruct (c_true (Z.land (r_buf q) 7)); [by apply wp_ret|].
  fold count. assert (Hc : 0 < count <= 0xFFFF) by (unfold count; zcases; lia).
  destruct Hx as [Hi [Ec Em]]. apply wp_bind, wp_wrr_idle; [done|]. intros x1 E1 En1.
  apply wp_bind, wp_wrr_idle; [by rewrite E1|]. intros x2 E2 En2. rewrite E1 in E2.
  unfold resume in E2. cbn [wr_view] in E2. unfold resume in E2. cbn [v_xf] in E2. destruct Hi as [Hi1 Hi2]. rewrite Hi1 in E2.
  apply wp_bind. unfold wp at 1, setf, modify. apply wp_bind, wp_wrr_idle; [unfold dv; cbn [hclk]; fold (dv x2); by rewrite E2|].
  intros x3 E3 En3. unfold dv at 2 in E3. cbn [hclk] in E3. fold (dv x2) in E3. rewrite E2 in E3. cbn [hs] in En3.
  apply wp_bind, wp_wrr_idle; [by rewrite E3|]. intros x4 E4 En4. rewrite E3 in E4.
  apply wp_bind, wp_wrr_idle; [by rewrite E4|]. intros x5 E5 En5. rewrite E4 in E5. apply wp_ret.
  split; [done|]. split; [unfold bytes; destruct (r_is_multi_block q); nia|]. split; [lia|]. split.
  - rewrite E5. cbn [wr_view]. unfold ready. cbn [v_card v_ram v_adma v_blksize v_blkcnt v_trnmod sdwidth].
    rewrite blksize_lor by lia. split_and!; try done.
    + apply Z.mod_small. change (2 ^ 32) with 4294967296. lia.
    + apply Z.mod_small. change (2 ^ 16) with 65536. lia.
    + apply trnmode_bits.
  - rewrite En5, En4, En3. cbn [dma_addr_next set_dma_next]. apply first_next_eq. lia.
Qed.

Lemma wp_arm x E : ofN ready first_next x ->
  wp _sdmmc_enable_interrupts x (fun _ => ofN armed first_next) E.
Proof.
  intros Hx. unfold _sdmmc_enable_interrupts, orr, updr.
  assert (Hrw : forall r f x1 (Q : unit -> host D -> Prop), r = norintstsen \/ r = errintstsen ->
    ofN ready first_next x1 -> (forall x', ofN ready first_next x' -> Q tt x') -> wp (v ← rdr r; wrr r (f v)) x1 Q E).
  { intros r f x1 Q Hr Hx1 HQ. apply wp_bind, wp_rdr. intros v x2 Hs2 En2 _ _.
    pose proof (ofN_rd _ _ _ _ ready_stable Hx1 Hs2 En2) as [Hx2 En]. apply wp_wrr_idle; [apply Hx2|].
    intros x3 E3 En3. apply HQ. split; [rewrite E3; by destruct Hr as [-> | ->]|by rewrite En3]. }
  apply wp_bind, Hrw; [by left|done|]. intros x1 Hx1. apply wp_bind, Hrw; [by right|done|]. intros x2 Hx2.
  apply wp_bind, wp_bind, wp_rdr. intros v x3 Hs3 En3 Hf _. destruct (Hf eq_refl) as [Hf1 Hf3].
  pose proof (ofN_rd _ _ _ _ ready_stable Hx2 Hs3 En3) as [Hx3 En]. apply wp_wrr_idle; [apply Hx3|].
  intros x4 E4 En4. assert (Hx4 : ofN armed first_next x4).
  { split; [|by rewrite En4]. rewrite E4. unfold armed, ready in *.
    cbn [wr_view v_end v_dma v_card v_ram v_adma v_blksize v_blkcnt v_trnmod sdwidth].
    rewrite !Z.mod_pow2_bits_low, Hf1, Hf3, !andb_negb_r by lia. done. }
  apply wp_bind, wp_rdr. intros v' x5 Hs5 En5 _ _. pose proof (ofN_rd _ _ _ _ armed_stable Hx4 Hs5 En5) as [Hx5 En'].
  apply wp_wrr_idle; [apply Hx5|]. intros x6 E6 En6. split; [by rewrite E6|by rewrite En6].
Qed.

Lemma cmd_shiftr k f : 0 <= f < 256 -> Z.shiftr (Z.lor (Z.shiftl k 8) f mod 2 ^ sdwidth cmdreg) 8 = u8 k.
Proof.
  intros Hf. apply Z.bits_inj'. intros n Hn. rewrite Z.shiftr_spec, u8_testbit by lia. cbn [sdwidth].
  destruct (Z.ltb_spec n 8).
  - rewrite Z.mod_pow2_bits_low, Z.lor_spec, Z.shiftl_spec, (byte_testbit_high f) by lia.
    rewrite orb_false_r. cbn [andb]. f_equal. lia.
  - by rewrite Z.mod_pow2_bits_high by lia.
Qed.

Lemma rsp_flags_range t b f : rsp_flags t b = Some f -> 0 <= Z.lor f SDHCI_CMD_DATA < 256 /\ Z.testbit (Z.lor f SDHCI_CMD_DATA) 5 = true.
Proof.
  unfold rsp_flags. intros E.
  destruct (t =? 0); [injection E as <-; by split|].
  destruct ((t =? 1) || (t =? 4) || (t =? 5)); [injection E as <-; by destruct b|].
  destruct (t =? 2); [injection E as <-; by split|].
  destruct (t =? 3); [injection E as <-; by split|done].
Qed.

(** The transfer that the command starts. *)
Definition TQ : Z -> sdv -> Prop := T (r_is_write q) cmd_index cmd_arg (r_buf q) bytes c0 m0.

Lemma prog_0 : prog (r_is_write q) cmd_index cmd_arg (r_buf q) c0 m0 0 c0 m0.
Proof.
  unfold prog. destruct (r_is_write q).
  - split; [done|]. destruct (writes_blocks cmd_index); [|done]. intros a. zcases; done || lia.
  - split; [done|]. split; [done|]. intros _ i Hi. lia.
Qed.

Lemma wp_send_data x E : 0 < bytes -> ofN armed first_next x ->
  wp (_sdmmc_send_cmd c true) x
    (fun b x' => if b then ofN (TQ first_next) first_next x' else ofH (quiet same) x') E.
Proof.
  intros Hbytes Hx. destruct Hq as (Hb & Hs & Hn & He). unfold _sdmmc_send_cmd.
  destruct (rsp_flags _ _) as [f|] eqn:Ef.
  2:{ apply wp_ret. destruct Hx as [[[Hi [Hsm _]] _] _]. by split. }
  apply rsp_flags_range in Ef as [Hf Hf5]. destruct Hx as [Hx En]. apply wp_bind, wp_wrr_idle; [apply Hx|].
  intros x1 E1 En1. apply wp_bind, wp_wrr_idle; [rewrite E1; apply Hx|]. intros x2 E2 En2. apply wp_ret.
  split; [|by rewrite En2, En1]. rewrite E2, E1. cbn [wr_view]. unfold start.
  destruct Hx as [((Hi1 & Hi2) & (Hc & Hm) & Ha & Hbs & Hbc & Ht) [Hend Hdma]].
  destruct trnmode_bits as (T0 & T4 & T5 & _).
  rewrite cmd_testbit, Hf5, cmd_shiftr by lia. cbn [v_trnmod v_blksize v_blkcnt v_adma v_arg v_busy].
  rewrite Ht, T0, T4, T5, Hbs, Hbc, Ha, negb_involutive. unfold TQ, T, with_xf.
  cbn [v_busy v_blksize v_xf v_end v_dma v_card v_ram bnd x_wr x_cmd x_arg x_pos x_left x_addr x_stop].
  assert (Hsz : Z.land (r_blksize q + 0x7000) 0xFFF = r_blksize q).
  { change 0xFFF with (Z.ones 12). rewrite Z.land_ones by lia. change (2 ^ 12) with 4096. zdm. }
  split; [done|]. split.
  { unfold bnd. cbn [v_blksize]. rewrite ?Hbs. replace (Z.shiftr (r_blksize q + 0x7000) 12) with 7; [done|].
    rewrite Z.shiftr_div_pow2 by lia. change (2 ^ 12) with 4096. zdm. }
  rewrite Hsz, Hc, Hm.
  assert (Eb : (if r_is_multi_block q then r_blksize q * count else r_blksize q) = bytes)
    by (unfold bytes in *; destruct (r_is_multi_block q); nia).
  rewrite Eb. split_and!; try done; try lia. apply prog_0.
Qed.

Definition progQ : Z -> mem -> mem -> Prop := prog (r_is_write q) cmd_index cmd_arg (r_buf q) c0 m0.
Definition movedQ : mem -> mem -> Prop := moved (r_is_write q) cmd_index cmd_arg (r_buf q) bytes c0 m0.
(** The result of a transfer. *)
Definition outcomeQ (r : bool * option Z) (cd md : mem) : Prop :=
  if r.1 then progQ bytes cd md /\ r.2 = Some count else movedQ cd md.

Lemma bytes_range : 0 <= bytes <= r_blksize q * r_num_sectors q.
Proof.
  destruct Hq as (Hb & Hs & Hn & He). unfold bytes, count.
  destruct (r_is_multi_block q), (Z.leb_spec 0xFFFF (r_num_sectors q)); nia.
Qed.
Lemma same_moved cd md : same cd md -> movedQ cd md.
Proof. intros [-> ->]. exists 0. pose proof bytes_range. split; [lia|apply prog_0]. Qed.
Lemma prog_moved cd md : progQ bytes cd md -> movedQ cd md.
Proof. intros Hp. exists bytes. pose proof bytes_range. split; [lia|exact Hp]. Qed.
Lemma outcome_moved r cd md : outcomeQ r cd md -> movedQ cd md.
Proof. unfold outcomeQ. destruct r.1; [|done]. intros [Hp _]. by apply prog_moved. Qed.

Lemma quiet_mono (F G : mem -> mem -> Prop) (x : host D) :
  (forall cd md, F cd md -> G cd md) -> ofH (quiet F) x -> ofH (quiet G) x.
Proof. intros HFG [Hi HF]. split; [done|]. by apply HFG. Qed.

Lemma wp_inner_some x : ofH (quiet same) x ->
  wp (_sdmmc_execute_cmd_inner fuel c (Some q)) x (fun r => ofH (quiet (outcomeQ r))) (ofH (content movedQ)).
Proof.
  intros Hx. rewrite inner_unfold. rewrite bool_decide_true by eauto.
  pose proof (quiet_stable same) as S. pose proof (quiet_wr same) as W.
  assert (HE : forall x', ofH (quiet same) x' -> ofH (content movedQ) x') by (intros ? []; by apply same_moved).
  assert (Hfail : forall x', ofH (quiet same) x' -> ofH (quiet (outcomeQ (false, None))) x')
    by (intros x'; apply quiet_mono, same_moved).
  wkeep (kH_inhibit (quiet same) S fuel W); [|exact HE]. intros ok x1 Hx1. destruct ok; [|by apply wp_ret, Hfail].
  cbn [negb]. apply wp_bind. eapply wp_mono; [by apply (wp_config_dma x1)| |intros ? HF; exact HF].
  intros [n|] x2; [|intros Hx2; by apply wp_ret, Hfail]. intros (-> & Hbytes & Hns & Hx2).
  apply wp_bind. eapply wp_mono; [by apply wp_arm| |intros ? HF; exact HF]. intros ?u x3 Hx3.
  apply wp_bind. eapply wp_mono; [apply wp_and; [by apply wp_send_data|apply (send_some c true)]| |].
  2:{ intros x4 [HF _]. exact HF. }
  intros ok x4 [Hx4 Hf4]. destruct ok; [|by apply wp_ret, Hfail]. cbn [negb]. specialize (Hf4 eq_refl).
  assert (Hb : 0 <= r_buf q) by apply Hq.
  assert (Hend : r_buf q + bytes <= 4294967296) by (pose proof bytes_range; destruct Hq as (? & ? & ? & ?); lia).
  assert (ST : forall n, stable (TQ n)) by (intros n; by apply T_stable).
  assert (HTC : forall n w, TQ n w -> content movedQ w) by (intros n w; by apply T_content).
  apply wp_bind. eapply wp_mono; [apply (wp_wait_response movedQ (TQ first_next)); [apply ST| |apply HTC|exact Hx4]| |done].
  { intros v w Hw Hv1 Hv3. by apply T_clear. }
  intros b x5 Hx5. apply wp_bind.
  assert (Hend0 : forall (b : bool) x6, (if b then ofH (quiet (progQ bytes)) x6 else ofH (quiet movedQ) x6) ->
    wp (_sdmmc_mask_interrupts;; if negb b then mret (false, None)
        else when (r_is_auto_cmd12 q) (v ← rdr rspreg3; setf (set_rsp3 v));;
             let out := Some count in
             if c_check_busy c || true then b ← _sdmmc_wait_card_busy fuel; mret (b, out) else mret (true, out))
      x6 (fun r => ofH (quiet (outcomeQ r))) (ofH (content movedQ))).
  { intros b6 x6 Hx6. destruct b6.
    - pose proof (quiet_stable (progQ bytes)) as SP.
      assert (HP : forall x', ofH (quiet (progQ bytes)) x' -> ofH (content movedQ) x')
        by (intros x' []; by apply prog_moved).
      wkeep (kH_mask_interrupts (quiet (progQ bytes)) SP (quiet_wr _)); [|exact HP]. intros ?u x7 Hx7. cbn [negb].
      apply wp_bind. eapply wp_mono; [apply keeps_wp; [|exact Hx7]| |exact HP].
      { apply kH_when. apply keeps_bind; [by apply kH_rdr|intros ?v; by apply kH_setf]. }
      cbv beta. intros ?u x8 Hx8. rewrite orb_true_r. apply wp_bind.
      eapply wp_mono; [apply (wp_wait_card_busy (progQ bytes) (quiet (progQ bytes))); [done|by intros ? []|done|exact Hx8]| |].
      2:{ intros x' Hx'. by apply prog_moved. }
      intros b8 x9 Hx9. apply wp_ret. eapply quiet_mono; [|exact Hx9]. intros cd md Hp. unfold outcomeQ. cbn [fst snd].
      destruct b8; [by split|by apply prog_moved].
    - wkeep (kH_mask_interrupts (quiet movedQ) (quiet_stable _) (quiet_wr _)); [|by intros ? []].
      intros ?u x7 Hx7. by apply wp_ret. }
  destruct b.
  2:{ apply wp_ret. apply wp_bind, wp_ret. by apply Hend0. }
  apply (wp_cache (TQ first_next) c first_next); [done|done|done|]. intros x6 Hx6. cbn [andb]. apply wp_bind.
  eapply wp_mono; [apply (wp_dma_rounds (r_is_write q) cmd_index cmd_arg (r_buf q) bytes c0 m0 Hb Hbytes Hend fuel first_next x6), Hx6| |done].
  intros b x7 Hx7. apply (Hend0 b x7). by destruct b.
Qed.

Lemma wp_execute_some x : ofH (quiet same) x ->
  wp (sdmmc_execute_cmd fuel c (Some q)) x (fun r => ofH (quiet (outcomeQ r))) (ofH (content movedQ)).
Proof.
  intros Hx. unfold sdmmc_execute_cmd. apply wp_bind, wp_ctx. destruct (negb _).
  { apply wp_ret. eapply quiet_mono; [|exact Hx]. apply same_moved. }
  apply (wp_with_card_clock same movedQ outcomeQ); [apply same_moved|apply outcome_moved| |done]. intros. by apply wp_inner_some.
Qed.
End Data.

(** ** The driver as an [SdDriver] *)

Definition idleb (w : sdv) : bool := match v_xf w with None => negb (v_busy w) | Some _ => false end.
Lemma idleb_idle w : idleb w = true <-> idle w.
Proof. unfold idleb, idle. destruct (v_xf w); [by split; [|intros []]|]. rewrite negb_true_iff. by split; [|intros []]. Qed.

(** The calls of the driver behind the interface of Sdmmc, which has neither a
    call that goes on for ever nor one that finds a transfer under way.  This is
    glue of the model and not code of the source: a call that does not return
    within the fuel counts as failed ([SdTime] bounds the fuel that a command
    needs), and no call is made while a transfer left by such a call is still
    under way.  The theorems above are about the driver itself. *)
Definition run {A} (m : M (host D) A) (dflt : A) (x : host D) : A * host D :=
  if idleb (dv x) then match m x with (Ret a, x') => (a, x') | (_, x') => (dflt, x') end
  else (dflt, x).

Definition load (m : mem) (x : host D) : host D :=
  Host (hs x) (Clocks (put_ram m (clk_dev (hclk x))) (pllc4_enabled (hclk x)) (_clock_sdmmc_table (hclk x)))
    (power_start x).

#[local] Instance driver : SdDriver (host D) := {|
  drv_init a b c d e := run (sdmmc_init fuel odm28 a b c d e) false;
  drv_end x := (run (sdmmc_end odm28) tt x).2;
  drv_execute c r x m :=
    let '((ok, n), x') := run (sdmmc_execute_cmd fuel c r) (false, None) (load m x) in
    (ok, n, x', v_ram (dv x'));
  drv_get_rsp type x := sdmmc_get_rsp (if type =? 2 then 16 else 4) type (hs x);
  drv_stop x := (run (sdmmc_stop_transmission fuel) false x).2;
  drv_setup_clock t := run (sdmmc_setup_clock fuel t) false;
  drv_tuning t c := run (sdmmc_tuning_execute fuel t c) false;
  drv_io_power x := (run sdmmc_get_io_power 0 x).1;
  drv_bus_width x := (run sdmmc_get_bus_width 0 x).1;
  drv_set_bus_width w x := (run (sdmmc_set_bus_width w) tt x).2;
  drv_save_tap x := (run sdmmc_save_tap_value tt x).2;
  drv_powersave p x := (run (sdmmc_card_clock_powersave fuel p) tt x).2;
  drv_low_voltage := run (sdmmc_enable_low_voltage fuel odm28) false;
  drv_id x := s_id (hs x);
  drv_divisor x := s_divisor (hs x);
  drv_inserted := run sdmmc_get_sd_inserted false;
  drv_power_cycle_start x := power_start x;
  drv_ms := run ms 0;
  drv_usleep n x := (run (sleep n) tt x).2
|}.

(** What a call leaves on the card. *)
Lemma run_card {A} (m : M (host D) A) dflt x :
  (forall F, ofH (quiet F) x -> wp m x (fun _ => ofH (quiet F)) (ofH (content F))) ->
  v_card (dv (run m dflt x).2) = v_card (dv x).
Proof.
  intros Hm. unfold run. destruct (idleb (dv x)) eqn:Ei; [|done]. apply idleb_idle in Ei.
  specialize (Hm (fun c _ => c = v_card (dv x)) (conj Ei eq_refl)). unfold wp in Hm.
  destruct (m x) as [[a| |] x']; [apply Hm|done|done].
Qed.
Lemma run_card_keeps {A} (m : M (host D) A) dflt x :
  (forall F, keeps (ofH (quiet F)) m) -> v_card (dv (run m dflt x).2) = v_card (dv x).
Proof.
  intros Hm. apply run_card. intros F Hx. eapply wp_mono; [by apply keeps_wp|done|by intros ? []].
Qed.

Lemma load_dv m x : dv (load m x) = with_ram m (dv x).
Proof. unfold dv, load. cbn [hclk clk_dev]. apply hw_put. Qed.

(** A transfer as the interface shows it. *)
Lemma drv_execute_some c q x m ok r x' m' : req_ok q ->
  drv_execute c (Some q) x m = (ok, r, x', m') ->
  movedQ c q (v_card (dv x)) m (v_card (dv x')) m' /\
  (ok = true -> r = Some (count q) /\ progQ c q (v_card (dv x)) m (bytes q) (v_card (dv x')) m').
Proof.
  intros Hq E. cbn [drv_execute driver] in E. unfold run in E. rewrite load_dv in E.
  change (idleb (with_ram m (dv x))) with (idleb (dv x)) in E. destruct (idleb (dv x)) eqn:Ei.
  2:{ injection E as <- <- <- <-. rewrite load_dv. split; [|done]. by apply same_moved. }
  apply idleb_idle in Ei.
  assert (Hx : ofH (quiet (same (v_card (dv x)) m)) (load m x)) by (unfold ofH; rewrite load_dv; done).
  pose proof (wp_execute_some c q _ _ Hq (load m x) Hx) as Hw. unfold wp in Hw.
  destruct (sdmmc_execute_cmd fuel c (Some q) (load m x)) as [[[ok' r']| |] x1].
  - injection E as -> -> -> <-. destruct Hw as [_ Hw]. split; [by apply (outcome_moved c q _ m Hq (ok, r))|].
    intros ->. by destruct Hw.
  - injection E as <- <- <- <-. by split.
  - injection E as <- <- <- <-. by split.
Qed.
Lemma drv_execute_none c x m ok r x' m' :
  drv_execute c None x m = (ok, r, x', m') -> v_card (dv x') = v_card (dv x) /\ m' = m.
Proof.
  intros E. cbn [drv_execute driver] in E. unfold run in E. rewrite load_dv in E.
  change (idleb (with_ram m (dv x))) with (idleb (dv x)) in E. destruct (idleb (dv x)) eqn:Ei.
  2:{ injection E as <- <- <- <-. by rewrite load_dv. }
  apply idleb_idle in Ei.
  assert (Hx : ofH (quiet (same (v_card (dv x)) m)) (load m x)) by (unfold ofH; rewrite load_dv; done).
  pose proof (wp_execute_none _ c (load m x) Hx) as Hw. unfold wp in Hw.
  destruct (sdmmc_execute_cmd fuel c None (load m x)) as [[[ok' r']| |] x1].
  - injection E as -> -> -> <-. destruct Hw as [_ []]. done.
  - injection E as <- <- <- <-. by destruct Hw.
  - injection E as <- <- <- <-. by destruct Hw.
Qed.

#[local] Instance driver_laws : SdLaws (host D).
Proof.
  refine {| disk x n := ld8 (v_card (dv x)) n |}; intros.
  - cbn [drv_init driver]. rewrite run_card_keeps; [done|]. intros F. apply kH_init; [apply quiet_stable|apply quiet_wr].
  - cbn [drv_end driver]. rewrite run_card_keeps; [done|]. intros F. apply kH_end; [apply quiet_stable|apply quiet_wr].
  - cbn [drv_stop driver]. rewrite run_card; [done|]. intros F. apply wp_stop.
  - cbn [drv_setup_clock driver]. rewrite run_card_keeps; [done|]. intros F. apply kH_setup_clock; [apply quiet_stable|apply quiet_wr].
  - cbn [drv_tuning driver]. rewrite run_card; [done|]. intros F. apply wp_tuning.
  - cbn [drv_low_voltage driver]. rewrite run_card_keeps; [done|]. intros F. apply kH_low_voltage; [apply quiet_stable|apply quiet_wr].
  - cbn [drv_set_bus_width driver]. rewrite run_card_keeps; [done|]. intros F. apply kH_set_bus_width; [apply quiet_stable|apply quiet_wr].
  - cbn [drv_powersave driver]. rewrite run_card_keeps; [done|]. intros F. apply kH_powersave; [apply quiet_stable|apply quiet_wr].
  - cbn [drv_inserted driver]. rewrite run_card_keeps; [done|]. intros F. apply kH_inserted, quiet_stable.
  - cbn [drv_ms driver]. rewrite run_card_keeps; [done|]. intros F. apply kH_ms, quiet_stable.
  - cbn [drv_usleep driver]. rewrite run_card_keeps; [done|]. intros F. apply kH_sleep, quiet_stable.
  - apply drv_execute_none in H3 as [-> ->]. done.
  - destruct (drv_execute_some _ _ _ _ _ _ _ _ H3 H4) as [(p & Hp & Hpr) _]. unfold prog in Hpr. rewrite H5 in Hpr.
    destruct Hpr as (-> & Hm & _). split; [done|]. intros a Ha. apply Hm. pose proof (bytes_range q H3). lia.
  - assert (Hq : req_ok (mk_req buf 512 n false true true)) by (unfold req_ok; cbn; lia).
    destruct (drv_execute_some _ _ _ _ _ _ _ _ Hq H7) as [_ Hok]. destruct (Hok eq_refl) as [-> (_ & _ & Hd)].
    assert (Hc : count (mk_req buf 512 n false true true) = n) by (unfold count; cbn; zcases; lia).
    unfold bytes in Hd. cbn [r_blksize r_is_multi_block] in Hd. rewrite Hc in *. split; [done|].
    intros i Hi. specialize (Hd eq_refl i Hi). cbn [r_buf] in Hd. unfold cmd_arg in Hd. cbn [c_arg] in Hd.
    by rewrite u32_id in Hd by lia.
  - assert (Hq : req_ok (mk_req buf 512 n true true true)) by (unfold req_ok; cbn; lia).
    destruct (drv_execute_some _ _ _ _ _ _ _ _ Hq H7) as [(p & Hp & -> & Hc0) Hok].
    assert (Hc : count (mk_req buf 512 n true true true) = n) by (unfold count; cbn; zcases; lia).
    unfold bytes in Hp. cbn [r_blksize r_is_multi_block] in Hp. rewrite Hc in Hp.
    change (writes_blocks (cmd_index (mk_cmd 25 sector 1 false))) with true in Hc0. cbn iota in Hc0.
    unfold cmd_arg in Hc0. cbn [c_arg r_buf] in Hc0. rewrite u32_id in Hc0 by lia. split; [done|]. split.
    + intros a Ha. rewrite Hc0. zcases; cbn [andb]; done || lia.
    + intros Ht. destruct (Hok Ht) as [-> [_ Hd]]. split; [by rewrite Hc|]. intros i Hi.
      change (writes_blocks (cmd_index (mk_cmd 25 sector 1 false))) with true in Hd. cbn iota in Hd. rewrite Hd.
      unfold cmd_arg, bytes. cbn [c_arg r_buf r_blksize r_is_multi_block]. rewrite u32_id, Hc by lia.
      rewrite (proj2 (Z.leb_le _ _)), (proj2 (Z.ltb_lt _ _)) by lia. cbn [andb]. f_equal. lia.
Defined.

(** The outcomes of a command with data. *)
Lemma execute_some c q x r x' : idle (dv x) -> req_ok q ->
  sdmmc_execute_cmd fuel c (Some q) x = (r, x') ->
  movedQ c q (v_card (dv x)) (v_ram (dv x)) (v_card (dv x')) (v_ram (dv x')) /\
  (forall b, r = Ret b -> idle (dv x')) /\
  (forall n, r = Ret (true, n) -> n = Some (count q) /\
     progQ c q (v_card (dv x)) (v_ram (dv x)) (bytes q) (v_card (dv x')) (v_ram (dv x'))).
Proof.
  intros Hi Hq E. pose proof (wp_execute_some c q _ _ Hq x (conj Hi (conj eq_refl eq_refl))) as Hw.
  unfold wp in Hw. rewrite E in Hw. destruct r as [b| |].
  - destruct Hw as [Hi' Ho]. split_and!; [by eapply outcome_moved|done|]. intros n En. injection En as ->.
    destruct Ho as [Hp Hn]. by split.
  - by split_and!.
  - by split_and!.
Qed.

(** ** What a command with data does *)

(** C8: a command that reads data, given to an idle controller, changes nothing on the card and
    nothing in memory outside the buffer, whatever the timing of the controller, the errors it
    reports and the point at which it gives up.  When it returns nothing is left under way.
    When it reports success the whole buffer has been transferred, across all the boundaries of
    the DMA buffer, and for a block read it holds the sectors of the argument. *)
Theorem sdmmc_execute_read_correct c q x r x' :
  idle (dv x) -> req_ok q -> r_is_write q = false ->
  sdmmc_execute_cmd fuel c (Some q) x = (r, x') ->
  v_card (dv x') = v_card (dv x) /\
  (forall a, ~ (r_buf q <= a < r_buf q + bytes q) -> ld8 (v_ram (dv x')) a = ld8 (v_ram (dv x)) a) /\
  (forall b, r = Ret b -> idle (dv x')) /\
  (forall n, r = Ret (true, n) -> n = Some (count q) /\
     (u8 (c_cmd c) = 18 -> forall i, 0 <= i < bytes q ->
        ld8 (v_ram (dv x')) (r_buf q + i) = ld8 (v_card (dv x)) (512 * u32 (c_arg c) + i))).
Proof.
  intros Hi Hq Hw E. destruct (execute_some c q x r x' Hi Hq E) as (Hm & Hret & Hok).
  destruct Hm as (p & Hp & Hpr). unfold prog in Hpr. rewrite Hw in Hpr. destruct Hpr as (Hc & Hm & _).
  split_and!; [done| |done|].
  - intros a Ha. apply Hm. lia.
  - intros n En. destruct (Hok n En) as [Hn Hpr]. split; [done|]. unfold progQ, prog in Hpr. rewrite Hw in Hpr. apply Hpr.
Qed.

(** C9: a command that writes data, given to an idle controller, leaves the memory alone, and the
    card with the exception of the first bytes of the sectors addressed, as many as were moved;
    those hold the data of the buffer.  When it reports success all of them do.  When it
    returns nothing is left under way. *)
Theorem sdmmc_execute_write_correct c q x r x' :
  idle (dv x) -> req_ok q -> r_is_write q = true -> writes_blocks (u8 (c_cmd c)) = true ->
  sdmmc_execute_cmd fuel c (Some q) x = (r, x') ->
  let base := 512 * u32 (c_arg c) in
  v_ram (dv x') = v_ram (dv x) /\
  (forall b, r = Ret b -> idle (dv x')) /\
  exists p, 0 <= p <= bytes q /\
    (forall a, ld8 (v_card (dv x')) a =
       if (base <=? a) && (a <? base + p) then ld8 (v_ram (dv x)) (r_buf q + (a - base))
       else ld8 (v_card (dv x)) a) /\
    (forall n, r = Ret (true, n) -> p = bytes q /\ n = Some (count q)).
Proof.
  intros Hi Hq Hw Hb E base. destruct (execute_some c q x r x' Hi Hq E) as (Hm & Hret & Hok).
  destruct Hm as (p & Hp & Hpr). unfold prog in Hpr. rewrite Hw in Hpr. destruct Hpr as [Hm Hc].
  change (writes_blocks (cmd_index c)) with (writes_blocks (u8 (c_cmd c))) in Hc. rewrite Hb in Hc.
  split_and!; [done|done|].
  assert (Hdec : (exists n, r = Ret (true, n)) \/ forall n, r <> Ret (true, n)).
  { destruct r as [[[] n]| |]; [by left; eexists|right; naive_solver..]. }
  destruct Hdec as [[n En]|Hne].
  - destruct (Hok n En) as [-> Hpr]. unfold progQ, prog in Hpr. rewrite Hw in Hpr. destruct Hpr as [_ Hc'].
    change (writes_blocks (cmd_index c)) with (writes_blocks (u8 (c_cmd c))) in Hc'. rewrite Hb in Hc'.
    exists (bytes q). split; [lia|]. split; [exact Hc'|]. intros n' En'. by simplify_eq.
  - exists p. split; [done|]. split; [exact Hc|]. intros n En. by destruct (Hne n).
Qed.

(** ** The card through the whole stack *)

(** C10: with the driver below it, the sector read of the storage layer delivers the content of the
    card behind the controller.  The interface that the storage layer is verified against is
    discharged by the driver over the controller, so after any pattern of failed transfers,
    resets, retries and reinitialisations a read that reports success has filled the buffer with
    the sectors asked for; in every case the card keeps its content, and the memory outside the
    buffer and the driver's upper buffer is unchanged. *)
Theorem sdmmc_storage_read_on_host {F : Type} (busy : nat) (sector num buf : Z) (s : sd (card (host D)) F) :
  initialized (storage (sd_hw s)) = true -> 0 <= sd_mode s <= 4 ->
  0 <= sector -> 0 < num -> sector + num <= 4294967296 ->
  0 <= buf -> buf + 512 * num <= 4294967296 -> apart buf (512 * num) ->
  exists ok s', sdmmc_storage_read busy (rw_fuel num) sector num buf s = (Ret ok, s') /\
    (forall a, ld8 (v_card (dv (dev (sd_hw s')))) a = ld8 (v_card (dv (dev (sd_hw s)))) a) /\
    (forall a, ~ (buf <= a < buf + 512 * num) -> ~ in_up_buf a ->
       ld8 (ram (sd_hw s')) a = ld8 (ram (sd_hw s)) a) /\
    (ok = true -> forall i, 0 <= i < 512 * num ->
       ld8 (ram (sd_hw s')) (buf + i) = ld8 (v_card (dv (dev (sd_hw s)))) (512 * sector + i)).
Proof. apply (storage_read_spec (H0 := driver_laws)). Qed.

End Commands.

(** ** A controller that meets the laws *)

Module Rig.
(** Controller, card and memory, and a timer that goes on with every reading. *)
Record rig := Mk { r_view : sdv; r_now : N }.

(** At most [n] bytes move, without waiting. *)
Fixpoint pump (n : nat) (w : sdv) : sdv :=
  match n with
  | O => w
  | S n =>
      match v_xf w with
      | Some x =>
          if negb (x_stop x) && (0 <? x_left x) && v_clk w
          then pump n (move (ld8 (v_card w) (512 * x_arg x + x_pos x)) false x w)
          else w
      | None => w
      end
  end.
Definition settle (w : sdv) : sdv :=
  if v_busy w
  then Sdv (v_card w) (v_ram w) (v_arg w) (v_blksize w) (v_blkcnt w) (v_trnmod w) (v_adma w)
         (v_end w || true) (v_dma w) false (v_clk w) (v_xf w)
  else w.

(** The block counter, for blocks of 8 bytes. *)
Definition blks (w : sdv) : Z :=
  match v_xf w with Some y => Z.max 0 (Z.min 0xFFFF ((x_left y + 7) / 8)) | None => 0 end.

Lemma pump_steps n : forall w, hsteps w (pump n w).
Proof.
  induction n as [|n IH]; intros w; [constructor|]. cbn [pump]. destruct (v_xf w) as [x|] eqn:Ex; [|constructor].
  destruct (x_stop x) eqn:Es; [constructor|]. destruct (Z.ltb_spec 0 (x_left x)); [|constructor].
  destruct (v_clk w) eqn:Ec; [|constructor]. cbn [negb andb].
  eapply hsteps_trans; [|apply IH]. eapply hsteps_step; [constructor|]. by apply step_move.
Qed.
Lemma settle_steps w : hsteps w (settle w).
Proof. unfold settle. destruct (v_busy w) eqn:E; [|constructor]. eapply hsteps_step; [constructor|]. by apply step_busy. Qed.

#[global] Instance mmio : Mmio rig := {|
  rd32 _ d := (0, d);
  wr32 _ _ d := d;
  tmr_us d := (u32 (Z.of_N (r_now d + 1)), Mk (r_view d) (r_now d + 1));
  tmr_ms d := (u32 (Z.of_N (r_now d + 1) / 1000), Mk (r_view d) (r_now d + 1));
  sleep_us n d := Mk (r_view d) (r_now d + Z.to_N n)
|}.
#[global] Instance i2c : I2c rig := {|
  i2c_send_buf_small _ _ _ _ := mret 0;
  i2c_recv_buf_small _ _ _ _ := mret (0, []);
  i2c_sleep _ := mret tt
|}.
#[global] Instance sdhci : Sdhci rig := {|
  sd_rd r d :=
    match r with
    | norintsts =>
        let w := pump 16 (r_view d) in
        (1 + (if v_end w then 2 else 0) + (if v_dma w then 8 else 0), Mk w (r_now d))
    | prnsts => (0x100000, Mk (settle (r_view d)) (r_now d))
    | clkcon => (if v_clk (r_view d) then 4 else 0, d)
    | blkcnt => (blks (r_view d), d)
    | _ => (0, d)
    end;
  sd_wr r v d := Mk (wr_view r v (r_view d)) (r_now d)
|}.

#[global, program] Instance hw : SdhciHw rig := {|
  vw := r_view; put_ram m d := Mk (with_ram m (r_view d)) (r_now d) |}.
Next Obligation. done. Qed.
Next Obligation. constructor. Qed.
Next Obligation. constructor. Qed.
Next Obligation. constructor. Qed.
Next Obligation. constructor. Qed.
Next Obligation. constructor. Qed.
Next Obligation. constructor. Qed.
Next Obligation. constructor. Qed.
Next Obligation. constructor. Qed.
Next Obligation. intros r d. destruct r; (constructor || apply pump_steps || apply settle_steps). Qed.
Next Obligation. intros r v d. exists (r_view d). split; [constructor|done]. Qed.
Next Obligation.
  intros d. cbn [sd_rd sdhci fst snd r_view]. generalize (pump 16 (r_view d)). intros w. by destruct (v_end w), (v_dma w).
Qed.
Next Obligation. intros d _. cbn [sd_rd sdhci fst snd r_view]. unfold settle. by destruct (v_busy (r_view d)) eqn:E. Qed.

(** A card with the bytes [data] from sector 3 on, memory with [data'] across a
    boundary of the DMA buffer, and a driver that has been set up. *)
Definition buf : Z := 0x8007FFF8.
Definition view (data data' : list Z) : sdv :=
  Sdv (st_bytes ∅ (512 * 3) data) (st_bytes ∅ buf data') 0 0 0 0 0 false false false true None.
Definition drv : sdmmc_t := set_divisor 25000 (set_card_clock true sdmmc0).
Definition start (data data' : list Z) : host rig :=
  Host drv (Clocks (Mk (view data data') 0) 0 []) 0.

(** Two blocks of 8 bytes, the first of which ends at the boundary. *)
Definition req (write : bool) : sdmmc_req_t := mk_req buf 8 2 write true true.
Definition numbers : list Z := [1; 2; 3; 4; 5; 6; 7; 8; 9; 10; 11; 12; 13; 14; 15; 16].
End Rig.

Lemma sdmmc_execute_read_correct_witness :
  let x := Rig.start Rig.numbers [] in
  let '(r, x') := sdmmc_execute_cmd 100 (mk_cmd 18 3 1 false) (Some (Rig.req false)) x in
  r = Ret (true, Some 2) /\ idle (dv x') /\ ld8 (v_ram (dv x')) (Rig.buf + 12) = 13.
Proof.
  intros x. assert (Ho : (sdmmc_execute_cmd 100 (mk_cmd 18 3 1 false) (Some (Rig.req false)) x).1 = Ret (true, Some 2))
    by (vm_compute; done).
  destruct (sdmmc_execute_cmd _ _ _ x) as [r x'] eqn:E. cbn [fst] in Ho. subst r.
  destruct (sdmmc_execute_read_correct 100 (mk_cmd 18 3 1 false) (Rig.req false) x (Ret (true, Some 2)) x')
    as (_ & _ & Hi & Hd); [split; reflexivity|clear E; unfold req_ok, Rig.req; cbn; unfold Rig.buf; lia|reflexivity|exact E|].
  clear E. split; [reflexivity|]. split; [exact (Hi _ eq_refl)|].
  destruct (Hd _ eq_refl) as [_ Hdata]. change Rig.buf with (r_buf (Rig.req false)). rewrite (Hdata eq_refl 12) by (vm_compute; done). vm_compute. done.
Defined.

Lemma sdmmc_execute_write_correct_witness :
  let x := Rig.start [] Rig.numbers in
  let '(r, x') := sdmmc_execute_cmd 100 (mk_cmd 25 3 1 false) (Some (Rig.req true)) x in
  r = Ret (true, Some 2) /\ idle (dv x') /\ ld8 (v_card (dv x')) (512 * 3 + 12) = 13.
Proof.
  intros x. assert (Ho : (sdmmc_execute_cmd 100 (mk_cmd 25 3 1 false) (Some (Rig.req true)) x).1 = Ret (true, Some 2))
    by (vm_compute; done).
  destruct (sdmmc_execute_cmd _ _ _ x) as [r x'] eqn:E. cbn [fst] in Ho. subst r.
  destruct (sdmmc_execute_write_correct 100 (mk_cmd 25 3 1 false) (Rig.req true) x (Ret (true, Some 2)) x')
    as (_ & Hi & p & _ & Hc & Hd); [split; reflexivity|clear E; unfold req_ok, Rig.req; cbn; unfold Rig.buf; lia|reflexivity|reflexivity|exact E|].
  clear E. split; [reflexivity|]. split; [exact (Hi _ eq_refl)|].
  destruct (Hd _ eq_refl) as [-> _]. rewrite Hc. vm_compute. done.
Defined.

Lemma sdmmc_storage_read_on_host_witness :
  let s := Sd true (0, 0, 0) SD_UHS_SDR82 false (Card (set_initialized true storage0) (Rig.start Rig.numbers []) ∅) tt in
  exists ok s', @sdmmc_storage_read _ _ (driver 100 0) 5 (rw_fuel 1) 3 1 0x90000000 s = (Ret ok, s') /\
    ld8 (v_card (dv (dev (sd_hw s')))) (512 * 3 + 4) = 5 /\
    (ok = true -> ld8 (ram (sd_hw s')) (0x90000000 + 4) = 5).
Proof.
  intros s. destruct (sdmmc_storage_read_on_host 100 0 5 3 1 0x90000000 s) as (ok & s' & E & Hc & _ & Hd);
    [reflexivity|change (sd_mode s) with 3; lia|lia|lia|lia|lia|lia|left; vm_compute; done|].
  exists ok, s'. split; [exact E|]. split; [rewrite Hc; vm_compute; done|].
  intros Hok. rewrite (Hd Hok 4) by lia. vm_compute. done.
Defined.
