(* ===== verification/SdTime.v ===== *)
(** * SdTime

    The waits of the SD host driver end.  Every loop of a command of SdHost is
    bounded by a time limit, by the data of the transfer or by the block
    counter of the controller, so a command returns.  The exception is the end
    of each round of the millisecond timer, every 49 days, where a limit may
    fall on its largest value and is never exceeded. *)

From S2P Require Import Prelude Mem FatFs SdReg NxSd Sdmmc SdRw.
From S2P Require Import I2c Fuse Gpio Pmic Clock SdHost SdDma.
#[local] Open Scope Z_scope.

(** ** Time *)

(** A device whose time goes on.  [tick] counts in units of which [rate] make a
    millisecond, no access goes back in time, and reading the timer takes at
    least one unit.  [blk_left] is the block counter of the controller, which only
    counts down until it is set again. *)
Class SdhciTime (D : Type) `{SdhciHw D} := {
  tick : D -> Z;
  rate : Z;
  blk_left : D -> Z;
  tm_rate : 0 < rate;
  tm_start d : 0 <= tick d;
  tm_rd32 a d : tick d <= tick (rd32 a d).2;
  tm_wr32 a v d : tick d <= tick (wr32 a v d);
  tm_sleep n d : tick d <= tick (sleep_us n d);
  tm_ms d : tick d < tick (tmr_ms d).2 /\ (tmr_ms d).1 = u32 (tick (tmr_ms d).2 / rate);
  tm_sd_rd r d : tick d <= tick (sd_rd r d).2;
  tm_sd_wr r v d : tick d <= tick (sd_wr r v d);
  lf_range d : 0 <= blk_left d <= 0xFFFF;
  lf_ms d : blk_left (tmr_ms d).2 <= blk_left d;
  lf_sd_rd r d : blk_left (sd_rd r d).2 <= blk_left d;
  lf_sd_wr r v d : r = norintsts \/ r = errintsts \/ r = admaaddr \/ r = admaaddr_hi ->
    blk_left (sd_wr r v d) <= blk_left d;
  lf_blkcnt d : (sd_rd blkcnt d).1 = blk_left (sd_rd blkcnt d).2
}.

Section Time.
Context {D : Type} `{SdhciTime D}.
Context (fuel : nat).
Implicit Types x : host D.

Definition now (x : host D) : Z := tick (clk_dev (hclk x)).
Definition blocks (x : host D) : Z := blk_left (clk_dev (hclk x)).

(** The millisecond timer starts again at zero every 2^32 milliseconds: the
    [period]th of its rounds begins at [base]. *)
Context (period : Z).
Definition base : Z := period * 4294967296.
(** What the timer shows in this round. *)
Definition mst (x : host D) : Z := now x / rate - base.

(** The end of the round is less than two seconds away, the longest time limit,
    or has passed. *)
Definition LATE : Z := 4294967296 - 2001.
Definition late (x : host D) : Prop := (base + LATE) * rate <= now x.

(** Neither before [t] nor before the round, and the clock of the card has been
    set up. *)
Definition J (t : Z) (x : host D) : Prop := Z.max t (base * rate) <= now x /\ s_divisor (hs x) <> 0.

(** *** Steps that only let time pass *)

Lemma kJ_on_dev {A} (m : M D A) t : (forall d, tick d <= tick (m d).2) -> keeps (J t) (on_dev m).
Proof.
  intros Hm x [Ht Hd]. unfold on_dev, on_clk, on_car. specialize (Hm (clk_dev (hclk x))).
  destruct (m (clk_dev (hclk x))). split; [|done]. unfold now in *. cbn in *. lia.
Qed.
Lemma kJ_rdr t r : keeps (J t) (rdr r).
Proof. apply kJ_on_dev. intros d. pose proof (tm_sd_rd r d). by destruct (sd_rd r d). Qed.
Lemma kJ_wrr t r v : keeps (J t) (wrr r v).
Proof. apply kJ_on_dev. intros d. apply tm_sd_wr. Qed.
Lemma kJ_sleep t n : keeps (J t) (sleep n).
Proof. apply kJ_on_dev. intros d. apply tm_sleep. Qed.
Lemma kJ_ms t : keeps (J t) ms.
Proof. apply kJ_on_dev. intros d. unfold get_tmr_ms. pose proof (tm_ms d). destruct (tmr_ms d). cbn in *. lia. Qed.
Lemma tick_rd a d : tick d <= tick (rd a d).2.
Proof. unfold rd. pose proof (tm_rd32 a d). by destruct (rd32 a d). Qed.
Lemma kJ_mupd t a f : keeps (J t) (mupd a f).
Proof.
  apply kJ_on_dev. intros d. unfold mbind, M_bind. pose proof (tick_rd a d) as Hr. destruct (rd a d) as [[v| |] d'].
  - pose proof (tm_wr32 a (u32 (f v)) d') as Hw. cbn in *. lia.
  - done.
  - done.
Qed.
Lemma kJ_mrd t a : keeps (J t) (mrd a).
Proof.
  apply kJ_on_dev. intros d. unfold mbind, M_bind. pose proof (tick_rd a d) as Hr. by destruct (rd a d) as [[v| |] d'].
Qed.
Lemma kJ_ctx t : keeps (J t) ctx.
Proof. by intros x Hx. Qed.
Lemma kJ_setf t f : (forall s, s_divisor (f s) = s_divisor s) -> keeps (J t) (setf f).
Proof. intros Hf x [Ht Hd]. split; [done|]. cbn. by rewrite Hf. Qed.
Lemma kJ_when t b m : keeps (J t) m -> keeps (J t) (when b m).
Proof. intros Hm. by apply keeps_if; [|apply keeps_ret]. Qed.
#[local] Hint Resolve kJ_rdr kJ_wrr kJ_sleep kJ_ms kJ_mupd kJ_mrd kJ_ctx kJ_when : keeps.
#[local] Hint Extern 1 (keeps _ (setf _)) => apply kJ_setf; reflexivity : keeps.

Ltac kj := kp; repeat (apply kJ_when; kp).

Lemma kJ_test t r m : keeps (J t) (test r m).
Proof. unfold test. kj. Qed.
Lemma kJ_updr t r f : keeps (J t) (updr r f).
Proof. unfold updr. kj. Qed.
Lemma kJ_orr t r v : keeps (J t) (orr r v).
Proof. apply kJ_updr. Qed.
Lemma kJ_andn t r v : keeps (J t) (andn r v).
Proof. apply kJ_updr. Qed.
Lemma kJ_commit t : keeps (J t) _sdmmc_commit_changes.
Proof. unfold _sdmmc_commit_changes. kj. Qed.
Lemma kJ_deadline t k : keeps (J t) (deadline k).
Proof. unfold deadline. kj. Qed.
#[local] Hint Resolve kJ_test kJ_updr kJ_orr kJ_andn kJ_commit kJ_deadline : keeps.
Lemma kJ_wait_bits t n r m b to : keeps (J t) (wait_bits n r m b to).
Proof. induction n; cbn [wait_bits]; kj. Qed.
Lemma kJ_reset_wait t n m to : keeps (J t) (reset_wait n m to).
Proof. induction n; cbn [reset_wait]; kj. Qed.
#[local] Hint Resolve kJ_wait_bits kJ_reset_wait : keeps.
Lemma kJ_reset t : keeps (J t) (_sdmmc_reset fuel).
Proof. unfold _sdmmc_reset. kj. Qed.
Lemma kJ_check_mask t m : keeps (J t) (_sdmmc_check_mask_interrupt m).
Proof. unfold _sdmmc_check_mask_interrupt. kj. Qed.
#[local] Hint Resolve kJ_reset kJ_check_mask : keeps.
Lemma kJ_response_loop t n to : keeps (J t) (response_loop fuel n to).
Proof. induction n; cbn [response_loop]; kj. Qed.
Lemma kJ_dma_poll t n : keeps (J t) (dma_poll n).
Proof. induction n; cbn [dma_poll]; kj. Qed.
#[local] Hint Resolve kJ_response_loop kJ_dma_poll : keeps.
Lemma kJ_dma_wait t n to : keeps (J t) (dma_wait fuel n to).
Proof. induction n; cbn [dma_wait]; kj. Qed.
#[local] Hint Resolve kJ_dma_wait : keeps.
Lemma kJ_dma_rounds t n : keeps (J t) (dma_rounds fuel n).
Proof. induction n; cbn [dma_rounds]; kj. Qed.

(** *** Programs that return *)

(** Unless it is late, [m] returns. *)
Definition ends {A} (m : M (host D) A) : Prop := forall x t, J t x -> wp m x (fun _ => J t) late.

Lemma ends_bind {A B} (m : M (host D) A) (k : A -> M (host D) B) :
  ends m -> (forall a, ends (k a)) -> ends (m ≫= k).
Proof.
  intros Hm Hk x t Hx. apply wp_bind. eapply wp_mono; [by apply Hm| |done]. intros a x' Hx'. by apply Hk.
Qed.
Lemma ends_ret {A} (a : A) : ends (mret a).
Proof. by intros x t Hx. Qed.
Lemma ends_if {A} (b : bool) (m1 m2 : M (host D) A) : ends m1 -> ends m2 -> ends (if b then m1 else m2).
Proof. by destruct b. Qed.
Lemma ends_if_false {A} (b : bool) (m1 m2 : M (host D) A) : ends m2 -> ends (if b && false then m1 else m2).
Proof. by rewrite andb_false_r. Qed.
Lemma ends_when b m : ends m -> ends (when b m).
Proof. intros Hm. by destruct b; [|apply ends_ret]. Qed.
(** A step that always returns. *)
Lemma ends_step {A} (m : M (host D) A) :
  (forall t, keeps (J t) m) -> (forall x, exists a x', m x = (Ret a, x')) -> ends m.
Proof.
  intros Hk Hm x t Hx. specialize (Hk t x Hx). unfold wp. destruct (Hm x) as (a & x' & E). by rewrite E in *.
Qed.
Lemma ends_on_dev {A} (m : M D A) : (forall t, keeps (J t) (on_dev m)) ->
  (forall d, exists a d', m d = (Ret a, d')) -> ends (on_dev m).
Proof.
  intros Hk Hm. apply ends_step; [done|]. intros x. unfold on_dev, on_clk, on_car.
  destruct (Hm (clk_dev (hclk x))) as (a & d' & ->). by eexists _, _.
Qed.
Lemma ends_rdr r : ends (rdr r).
Proof. apply ends_on_dev; [intros; apply kJ_rdr|]. intros d. destruct (sd_rd r d). by eexists _, _. Qed.
Lemma ends_wrr r v : ends (wrr r v).
Proof. apply ends_on_dev; [intros; apply kJ_wrr|]. intros d. by eexists _, _. Qed.
Lemma ends_sleep n : ends (sleep n).
Proof. apply ends_on_dev; [intros; apply kJ_sleep|]. intros d. by eexists _, _. Qed.
Lemma ends_ms : ends ms.
Proof.
  apply ends_on_dev; [intros; apply kJ_ms|]. intros d. unfold get_tmr_ms. destruct (tmr_ms d). by eexists _, _.
Qed.
Lemma ends_mupd a f : ends (mupd a f).
Proof.
  apply ends_on_dev; [intros; apply kJ_mupd|]. intros d. unfold mbind, M_bind, rd. destruct (rd32 a d).
  by eexists _, _.
Qed.
Lemma ends_mrd a : ends (mrd a).
Proof.
  apply ends_on_dev; [intros; apply kJ_mrd|]. intros d. unfold mbind, M_bind, rd. destruct (rd32 a d).
  by eexists _, _.
Qed.
Lemma ends_ctx : ends ctx.
Proof. apply ends_step; [intros; apply kJ_ctx|]. intros x. by eexists _, _. Qed.
Lemma ends_setf f : (forall s, s_divisor (f s) = s_divisor s) -> ends (setf f).
Proof. intros Hf. apply ends_step; [intros; by apply kJ_setf|]. intros x. by eexists _, _. Qed.
Lemma ends_sleep_8 : ends sleep_8_clocks.
Proof.
  intros x t Hx. unfold sleep_8_clocks. apply wp_bind, wp_ctx.
  rewrite (proj2 (Z.eqb_neq _ _) (proj2 Hx)). by apply ends_sleep.
Qed.
Create HintDb ends.
#[local] Hint Resolve ends_ret ends_rdr ends_wrr ends_sleep ends_ms ends_mupd ends_mrd ends_ctx ends_sleep_8 : ends.
#[local] Hint Extern 1 (ends (setf _)) => apply ends_setf; reflexivity : ends.

Ltac en :=
  repeat first
    [ solve [eauto 2 with ends]
    | match goal with
      | |- ends (mbind _ (deadline _)) => fail 1
      | |- ends (mbind _ _) => apply ends_bind; [|intros ?]
      | |- ends (if _ && false then _ else _) => apply ends_if_false
      | |- ends (if _ then _ else _) => apply ends_if
      | |- ends (when _ _) => apply ends_when
      | |- ends (match ?x with _ => _ end) => destruct x
      end ].

Lemma ends_test r m : ends (test r m).
Proof. unfold test. en. Qed.
Lemma ends_updr r f : ends (updr r f).
Proof. unfold updr. en. Qed.
Lemma ends_orr r v : ends (orr r v).
Proof. apply ends_updr. Qed.
Lemma ends_andn r v : ends (andn r v).
Proof. apply ends_updr. Qed.
Lemma ends_commit : ends _sdmmc_commit_changes.
Proof. unfold _sdmmc_commit_changes. en. Qed.
#[local] Hint Resolve ends_test ends_updr ends_orr ends_andn ends_commit : ends.

(** *** Loops with a time limit *)

(** The time in milliseconds, and a limit at [n] of them. *)
Lemma wp_ms_time x t (Q : Z -> host D -> Prop) : J t x ->
  (forall v x', J t x' -> now x < now x' -> v = u32 (now x' / rate) -> dv x' = dv x \/ hsteps (dv x) (dv x') ->
     hs x' = hs x -> blocks x' <= blocks x -> Q v x') -> wp ms x Q late.
Proof.
  intros [Ht Hd] HQ. unfold wp, ms, on_dev, on_clk, on_car, get_tmr_ms.
  pose proof (tm_ms (clk_dev (hclk x))) as [Hlt Hv]. pose proof (hw_ms (clk_dev (hclk x))) as Hs.
  pose proof (lf_ms (clk_dev (hclk x))) as Hl.
  destruct (tmr_ms (clk_dev (hclk x))) as [v d]. unfold J, blocks, now, dv in *. cbn in *.
  apply HQ; cbn; try done; [split; [lia|done]|by right].
Qed.

Lemma late_or x : late x \/ mst x < LATE.
Proof.
  unfold late, mst. pose proof tm_rate. destruct (Z.le_gt_cases ((base + LATE) * rate) (now x)); [by left|right].
  assert (now x / rate < base + LATE) by (apply Z.div_lt_upper_bound; lia). lia.
Qed.
Lemma mst_pos t x : J t x -> 0 <= mst x.
Proof.
  intros [Ht _]. unfold mst. pose proof tm_rate.
  assert (base <= now x / rate) by (apply Z.div_le_lower_bound; lia). lia.
Qed.
Lemma mst_u32 t x : J t x -> mst x < 4294967296 -> u32 (now x / rate) = mst x.
Proof.
  intros Hx Hlt. pose proof (mst_pos t x Hx). unfold u32, mst, base in *.
  symmetry. apply (Z.mod_unique _ _ period); lia.
Qed.

(** A limit of [k] milliseconds from now. *)
Lemma wp_deadline k x t (Q : Z -> host D -> Prop) : 0 <= k <= 2000 -> J t x ->
  (forall to x', J t x' -> hsteps (dv x) (dv x') -> hs x' = hs x -> blocks x' <= blocks x ->
     late x' \/ to = mst x' + k /\ to < 4294967296 -> Q to x') ->
  wp (deadline k) x Q late.
Proof.
  intros Hk Hx HQ. unfold deadline. apply wp_bind, (wp_ms_time x t); [done|].
  intros v x' Hx' Hlt -> Hs Es Hb. apply wp_ret. apply HQ; try done.
  { destruct Hs as [->|]; [constructor|done]. }
  destruct (late_or x') as [|Hn]; [by left|right]. pose proof (mst_pos t x' Hx'). unfold LATE in Hn.
  rewrite (mst_u32 t x'), u32_id by (done || lia). lia.
Qed.

(** What only lets time pass stays late. *)
Lemma late_keeps {A} (m : M (host D) A) t x : (forall t, keeps (J t) m) -> J t x -> late x ->
  wp m x (fun _ x' => J t x' /\ late x') late.
Proof.
  intros Hm Hx Hl. assert (Hx' : J ((base + LATE) * rate) x)
    by (destruct Hx; split; [unfold late in Hl; lia|done]).
  eapply wp_mono; [apply (wp_and _ _ _ _ _ _ (keeps_wp _ _ _ (Hm t) Hx) (keeps_wp _ _ _ (Hm _) Hx'))| |].
  - intros a x2 [Hx2 [Hl2 _]]. split; [done|]. unfold late. lia.
  - intros x2 [_ [Hl2 _]]. unfold late. lia.
Qed.

(** A loop whose every round takes time, and which goes on as long as the time
    is not after the limit [to]. *)
Lemma timed_loop {A} (loop : nat -> M (host D) A) (I : host D -> Prop) (Q : A -> host D -> Prop) to :
  (forall n x, I x -> late x -> wp (loop n) x Q late) ->
  (forall n x, I x ->
     (forall x', I x' -> now x < now x' -> late x' \/ mst x' <= to -> wp (loop n) x' Q late) ->
     wp (loop (S n)) x Q late) ->
  forall n x, I x -> mst x <= to -> (to + base + 1) * rate <= now x + Z.of_nat n -> wp (loop n) x Q late.
Proof.
  intros Hlate Hstep. pose proof tm_rate as Hr. induction n as [|n IH]; intros x Hx Hto Hn.
  - assert (now x < (to + base + 1) * rate); [|lia]. pose proof (Z.mul_succ_div_gt (now x) rate Hr).
    unfold mst in Hto. nia.
  - apply Hstep; [done|]. intros x' Hx' Hlt [Hl|Hto']; [by apply Hlate|]. apply IH; [done|done|lia].
Qed.

Lemma u32_late t x : J t x -> late x \/ u32 (now x / rate) = mst x.
Proof.
  intros Hx. destruct (late_or x) as [|Hn]; [by left|right]. apply (mst_u32 t); [done|]. unfold LATE in Hn. lia.
Qed.

(** The fuel is enough for the longest limit. *)
Context (Hfuel : 2001 * rate <= Z.of_nat fuel).

Lemma limit_fuel k x : 0 <= k <= 2000 -> (mst x + k + base + 1) * rate <= now x + Z.of_nat fuel.
Proof. intros Hk. unfold mst. pose proof tm_rate. pose proof (Z.mul_div_le (now x) rate tm_rate). nia. Qed.

(** A loop entered with a limit of [k] milliseconds. *)
Lemma ends_limit {A} k (loop : Z -> nat -> M (host D) A) : 0 <= k <= 2000 ->
  (forall to n t, keeps (J t) (loop to n)) ->
  (forall to n x t, J t x ->
     (forall x', J t x' -> now x < now x' -> late x' \/ mst x' <= to -> wp (loop to n) x' (fun _ => J t) late) ->
     wp (loop to (S n)) x (fun _ => J t) late) ->
  forall B (K : Z -> A -> M (host D) B), (forall to a, ends (K to a)) ->
  ends (to ← deadline k; a ← loop to fuel; K to a).
Proof.
  intros Hk Hkeep Hstep B K HK x t Hx. apply wp_bind, (wp_deadline k x t); [done|done|].
  intros to x1 Hx1 _ _ _ Hto.
  assert (Hlate : forall n x, J t x -> late x -> wp (loop to n) x (fun _ => J t) late).
  { intros n x2 Hx2 Hl. eapply wp_mono; [apply (late_keeps _ t x2); [intros; apply Hkeep|done|done]| |done].
    by intros a x3 []. }
  apply wp_bind. apply (wp_mono _ _ (fun _ => J t) _ late late); [|intros a x2 Hx2; by apply HK|done].
  destruct Hto as [Hl|[-> Hto]]; [by apply Hlate|].
  apply (timed_loop (loop _) (J t) _ (mst x1 + k)); [done| |done|lia|by apply limit_fuel].
  intros n x2 Hx2 Hrec. by apply Hstep.
Qed.

Lemma J_now t x : J t x -> J (now x) x.
Proof. intros []. split; [lia|done]. Qed.
Lemma J_trans t x x' : J t x -> J (now x) x' -> J t x'.
Proof. intros [] []. split; [lia|done]. Qed.

(** Reading the timer at the end of a round that began at [x]. *)
Lemma wp_round {A} (k : Z -> M (host D) A) x1 x t (Q : A -> host D -> Prop) :
  J t x -> J (now x) x1 ->
  (forall v x', J t x' -> hsteps (dv x1) (dv x') -> hs x' = hs x1 -> blocks x' <= blocks x1 ->
     now x < now x' -> late x' \/ v = mst x' -> wp (k v) x' Q late) ->
  wp (v ← ms; k v) x1 Q late.
Proof.
  intros Hx Hx1 Hk. apply wp_bind, (wp_ms_time x1 t); [by eapply J_trans|].
  intros v x2 Hx2 Hlt -> Hs Es Hb. apply Hk; try done.
  - destruct Hs as [->|]; [constructor|done].
  - destruct Hx1. lia.
  - by apply (u32_late t).
Qed.

Lemma ends_wait k r m b {A} (K : Z -> bool -> M (host D) A) : 0 <= k <= 2000 -> (forall to a, ends (K to a)) ->
  ends (to ← deadline k; a ← wait_bits fuel r m b to; K to a).
Proof.
  intros Hk. apply (ends_limit k (fun to n => wait_bits n r m b to)); [done|intros; apply kJ_wait_bits|].
  intros to n x t Hx Hrec. cbn [wait_bits]. apply wp_bind.
  eapply wp_mono; [apply (ends_test r m x (now x)), (J_now t), Hx| |done]. intros v x1 Hx1.
  destruct (Bool.eqb v b); [by apply wp_ret; eapply J_trans|].
  apply (wp_round _ x1 x t); [done|done|]. intros v' x2 Hx2 _ _ _ Hlt Hv.
  destruct (Z.ltb_spec to v'); [by apply wp_ret|]. apply Hrec; [done|done|]. destruct Hv; [by left|right; lia].
Qed.
Lemma ends_reset_limit k m : 0 <= k <= 2000 -> ends (to ← deadline k; reset_wait fuel m to).
Proof.
  intros Hk x t Hx.
  assert (He : ends (to ← deadline k; a ← reset_wait fuel m to; mret a)).
  { apply (ends_limit k (fun to n => reset_wait n m to)); [done|intros; apply kJ_reset_wait| |intros; apply ends_ret].
    clear x t Hx. intros to n x t Hx Hrec. cbn [reset_wait]. apply wp_bind.
    eapply wp_mono; [apply (ends_test swrst m x (now x)), (J_now t), Hx| |done]. intros v x1 Hx1.
    destruct (negb v); [by apply wp_ret; eapply J_trans|].
    apply (wp_round _ x1 x t); [done|done|]. intros v' x2 Hx2 _ _ _ Hlt Hv.
    destruct (Z.ltb_spec v' to); [|by apply wp_ret]. apply Hrec; [done|done|]. destruct Hv; [by left|right; lia]. }
  specialize (He x t Hx). unfold wp, mbind, M_bind in *. destruct (deadline k x) as [[to| |] x1]; [|done..].
  by destruct (reset_wait fuel m to x1) as [[a| |] x2].
Qed.
Lemma ends_reset : ends (_sdmmc_reset fuel).
Proof. unfold _sdmmc_reset. en. by apply ends_reset_limit. Qed.
#[local] Hint Resolve ends_reset : ends.

Ltac enw :=
  repeat first
    [ progress en
    | match goal with
      | |- ends (mbind _ (deadline _)) => apply ends_wait; [lia|intros ? ?]
      end ].

Lemma ends_wait_last k r m b : 0 <= k <= 2000 -> ends (to ← deadline k; wait_bits fuel r m b to).
Proof.
  intros Hk x t Hx. pose proof (ends_wait k r m b (fun _ a => mret a) Hk (fun _ a => ends_ret a) x t Hx) as He.
  unfold wp, mbind, M_bind in *. destruct (deadline k x) as [[to| |] x1]; [|done..].
  by destruct (wait_bits fuel r m b to x1) as [[a| |] x2].
Qed.

(** *** Commands *)

Lemma ends_check_mask m : ends (_sdmmc_check_mask_interrupt m).
Proof. unfold _sdmmc_check_mask_interrupt. en. Qed.
#[local] Hint Resolve ends_check_mask : ends.

Lemma ends_wait_response : ends (_sdmmc_wait_response fuel).
Proof.
  unfold _sdmmc_wait_response. apply ends_bind; [en|intros ?u].
  assert (He : ends (to ← deadline 2000; a ← response_loop fuel fuel to; mret a)).
  { apply (ends_limit 2000 (fun to n => response_loop fuel n to)); [lia|intros; apply kJ_response_loop| |intros; apply ends_ret].
    intros to n x t Hx Hrec. cbn [response_loop]. apply wp_bind.
    eapply wp_mono; [apply (ends_check_mask SDHCI_INT_RESPONSE x (now x)), (J_now t), Hx| |done].
    intros [result v] x1 Hx1. pose proof (J_trans _ _ _ Hx Hx1) as Hx1'.
    assert (Hfail : forall x2, J t x2 -> wp (_sdmmc_reset fuel;; mret false) x2 (fun _ => J t) late).
    { intros x2 Hx2. apply wp_bind. eapply wp_mono; [by apply (ends_reset x2 t)| |done].
      intros ?u' x3 Hx3. by apply wp_ret. }
    destruct (result =? SDMMC_MASKINT_MASKED); [by apply wp_ret|].
    destruct (negb _); [by apply Hfail|].
    apply (wp_round _ x1 x t); [done|done|]. intros v' x2 Hx2 _ _ _ Hlt Hv.
    destruct (Z.ltb_spec to v'); [by apply Hfail|]. apply Hrec; [done|done|]. destruct Hv; [by left|right; lia]. }
  intros x t Hx. specialize (He x t Hx). unfold wp, mbind, M_bind in *. destruct (deadline 2000 x) as [[to| |] x1]; [|done..].
  by destruct (response_loop fuel fuel to x1) as [[a| |] x2].
Qed.

Lemma ends_inhibit b : ends (_sdmmc_wait_cmd_data_inhibit fuel b).
Proof. unfold _sdmmc_wait_cmd_data_inhibit. enw. Qed.
Lemma ends_card_busy : ends (_sdmmc_wait_card_busy fuel).
Proof. unfold _sdmmc_wait_card_busy. enw. Qed.
Lemma ends_config_dma q : ends (_sdmmc_config_dma q).
Proof. unfold _sdmmc_config_dma. en. Qed.
Lemma ends_enable_interrupts : ends _sdmmc_enable_interrupts.
Proof. unfold _sdmmc_enable_interrupts. en. Qed.
Lemma ends_mask_interrupts : ends _sdmmc_mask_interrupts.
Proof. unfold _sdmmc_mask_interrupts. en. Qed.
Lemma ends_send c b : ends (_sdmmc_send_cmd c b).
Proof. unfold _sdmmc_send_cmd. en. Qed.
Lemma ends_cache_rsp o z t : ends (_sdmmc_cache_rsp o z t).
Proof. unfold _sdmmc_cache_rsp. en. Qed.
#[local] Hint Resolve ends_wait_response ends_inhibit ends_card_busy ends_config_dma ends_enable_interrupts
  ends_mask_interrupts ends_send ends_cache_rsp : ends.
Lemma ends_cache c b : ends (cache c b).
Proof. unfold cache. en. Qed.
#[local] Hint Resolve ends_cache : ends.

Lemma ends_inner_none c : ends (_sdmmc_execute_cmd_inner fuel c None).
Proof.
  rewrite inner_unfold. rewrite bool_decide_false by by intros [].
  en. cbv zeta. en.
Qed.

Lemma ends_pad_fallback p : ends (_sdmmc_pad_config_fallback p).
Proof. unfold _sdmmc_pad_config_fallback. en. Qed.
Lemma ends_io_power : ends sdmmc_get_io_power.
Proof. unfold sdmmc_get_io_power. en. Qed.
#[local] Hint Resolve ends_pad_fallback ends_io_power : ends.
Lemma ends_autocal p : ends (_sdmmc_autocal_execute fuel p).
Proof. unfold _sdmmc_autocal_execute. enw. Qed.
#[local] Hint Resolve ends_autocal : ends.

(** ** Transfers *)

(** *** The block counter *)

Definition within (c : Z) (x : host D) : Prop := blocks x <= c.
Lemma kB_on_dev {A} (m : M D A) c : (forall d, blk_left (m d).2 <= blk_left d) -> keeps (within c) (on_dev m).
Proof.
  intros Hm x Hx. unfold on_dev, on_clk, on_car. specialize (Hm (clk_dev (hclk x))). unfold within, blocks in *.
  destruct (m (clk_dev (hclk x))). cbn in *. lia.
Qed.
Lemma kB_rdr c r : keeps (within c) (rdr r).
Proof. apply kB_on_dev. intros d. pose proof (lf_sd_rd r d). by destruct (sd_rd r d). Qed.
Lemma kB_wrr c r v : r = norintsts \/ r = errintsts \/ r = admaaddr \/ r = admaaddr_hi -> keeps (within c) (wrr r v).
Proof. intros Hr. apply kB_on_dev. intros d. by apply lf_sd_wr. Qed.
Lemma kB_setf c f : keeps (within c) (setf f).
Proof. by intros x Hx. Qed.
Lemma kB_ctx c : keeps (within c) ctx.
Proof. by intros x Hx. Qed.
Lemma kB_when c b m : keeps (within c) m -> keeps (within c) (when b m).
Proof. intros Hm. by apply keeps_if; [|apply keeps_ret]. Qed.
#[local] Hint Resolve kB_rdr kB_setf kB_ctx : keeps.
#[local] Hint Extern 1 (keeps _ (wrr _ _)) => apply kB_wrr; tauto : keeps.
Lemma kB_check_mask c m : keeps (within c) (_sdmmc_check_mask_interrupt m).
Proof. unfold _sdmmc_check_mask_interrupt. kp. Qed.
#[local] Hint Resolve kB_check_mask : keeps.
Lemma kB_dma_poll c n : keeps (within c) (dma_poll n).
Proof. induction n; cbn [dma_poll]; kp; apply kB_when; kp. Qed.

Lemma wp_rdr_time r x t (Q : Z -> host D -> Prop) : J t x ->
  (forall v x', J t x' -> hsteps (dv x) (dv x') -> hs x' = hs x -> blocks x' <= blocks x ->
     (r = blkcnt -> v = blocks x') -> Q v x') -> wp (rdr r) x Q late.
Proof.
  intros [Ht Hd] HQ. unfold wp, rdr, on_dev, on_clk, on_car.
  pose proof (tm_sd_rd r (clk_dev (hclk x))) as Hle. pose proof (lf_sd_rd r (clk_dev (hclk x))) as Hl.
  pose proof (hw_sd_rd r (clk_dev (hclk x))) as Hs. pose proof (lf_blkcnt (clk_dev (hclk x))) as Hc.
  destruct (sd_rd r (clk_dev (hclk x))) as [v d] eqn:E. unfold J, blocks, now, dv in *. cbn in *.
  apply HQ; cbn; try done; [split; [lia|done]|]. intros ->. by rewrite E in Hc.
Qed.

(** *** Bytes that are left *)

Section Moves.
Context (wr : bool) (cmd arg buf total : Z) (c0 m0 : mem).
Context (Hbuf : 0 <= buf) (Htot : 0 < total) (Hend : buf + total <= 4294967296).
#[local] Abbreviation T := (T wr cmd arg buf total c0 m0).
#[local] Abbreviation stopped := (stopped wr cmd arg buf total c0 m0).

(** At most [L] bytes are left, and fewer at the next boundary. *)
Definition shrinks (L : Z) (w : sdv) : Prop :=
  match v_xf w with
  | Some y => x_left y <= L /\ (v_dma w = true -> x_left y < L)
  | None => v_end w = true
  end.
Lemma shrinks_stable L : stable (shrinks L).
Proof.
  intros w w' Hw Hs. unfold shrinks in *. destruct Hs as [x b d Ex Hst Hleft Hclk Hrd|e Hbusy].
  - rewrite Ex in Hw. unfold move. cbn [v_xf v_end v_dma]. destruct (Z.eqb_spec (x_left x) 1).
    + by rewrite orb_true_r.
    + cbn [x_left]. lia.
  - cbn [v_xf v_end v_dma]. destruct (v_xf w); [done|]. by rewrite Hw.
Qed.
Lemma shrinks_clear L v w : Z.testbit v 1 = false -> shrinks L w -> shrinks L (wr_view norintsts v w).
Proof.
  intros Hv Hw. unfold shrinks in *. cbn [wr_view v_xf v_end v_dma]. rewrite Hv.
  destruct (v_xf w); [|by rewrite Hw]. split; [lia|]. intros [Hd _]%andb_prop. by apply Hw.
Qed.

(** Stopped at the boundary [n] with less than [L] bytes left. *)
Definition halted (n L : Z) (w : sdv) : Prop := stopped n w /\ exists y, v_xf w = Some y /\ x_left y < L.
Lemma halted_stable n L : stable (halted n L).
Proof.
  intros w w' [Hst (y & Ey & Hl)] Hs. split; [by eapply stopped_stable|].
  destruct Hst as [(Hb & _) Hst]. rewrite Ey in Hst. destruct Hs; [|congruence].
  destruct Hst. congruence.
Qed.
Lemma resume_shrinks n L w : halted n L w -> exists l, 0 <= l < L /\ shrinks l (resume w).
Proof.
  intros [[(Hb & _ & HT) Hst] (y & Ey & Hl)]. rewrite Ey in *. destruct Hst as [Hst Hd]. exists (x_left y).
  split; [lia|]. unfold resume. rewrite Ey, Hst. unfold shrinks. cbn [v_xf v_dma x_left with_xf]. rewrite Hd. lia.
Qed.

(** One look at the status: nothing to see, the end, or a boundary. *)
Lemma wp_check_shrinks n L x : ofN (T n) n x -> shrinks L (dv x) ->
  wp (_sdmmc_check_mask_interrupt (Z.lor SDHCI_INT_DATA_END SDHCI_INT_DMA_END)) x
    (fun '(result, intr) x' =>
       (result < 0 -> shrinks L (dv x')) /\
       (0 <= result -> Z.testbit intr 1 = false ->
          Z.testbit intr 3 = true /\ exists y, v_xf (dv x') = Some y /\ x_left y < L))
    (fun _ => False).
Proof.
  intros Hx HL. unfold _sdmmc_check_mask_interrupt. apply wp_bind, wp_rdr. intros nor x1 Hs1 E1 Hst _.
  apply (ofN_rd (T n) n x x1 (T_stable _ _ _ _ _ _ _ Hbuf Hend n) Hx Hs1) in E1.
  apply (stable_steps _ _ _ (shrinks_stable L)) in Hs1 as HL1; [|done]. destruct (Hst eq_refl) as [Hb1 Hb3]. clear Hst.
  apply wp_bind, wp_rdr. intros err x2 Hs2 E2 _ _.
  apply (stable_steps _ _ _ (shrinks_stable L)) in Hs2 as HL2; [|done].
  destruct (c_true (Z.land nor SDHCI_INT_ERROR)).
  { apply wp_bind, wp_wrr. intros x3 w Hs3 Ev3 En3. apply wp_ret. split; [|unfold SDMMC_MASKINT_ERROR; lia].
    intros _. rewrite Ev3. by apply (stable_steps _ _ _ (shrinks_stable L)) in Hs3. }
  destruct (c_true (Z.land nor _)) eqn:Hm; [|apply wp_ret; split; [done|unfold SDMMC_MASKINT_NOERROR; lia]].
  apply wp_bind, wp_wrr. intros x3 w Hs3 Ev3 En3. apply wp_ret. split; [unfold SDMMC_MASKINT_MASKED; lia|].
  intros _ Hn1. assert (Hn3 : Z.testbit nor 3 = true).
  { destruct (Z.testbit nor 3) eqn:E3; [done|]. exfalso. unfold c_true in Hm. apply negb_true_iff, Z.eqb_neq in Hm.
    apply Hm, Z.bits_inj'. intros b Hb. rewrite Z.bits_0, Z.land_spec.
    change (Z.lor SDHCI_INT_DATA_END SDHCI_INT_DMA_END) with (Z.lor (BIT 1) (BIT 3)).
    rewrite Z.lor_spec, !BIT_testbit by lia. destruct (Z.eqb_spec 1 b) as [<-|]; [by rewrite Hn1|].
    destruct (Z.eqb_spec 3 b) as [<-|]; [by rewrite E3|]. apply andb_false_r. }
  split; [done|]. rewrite Hn1 in Hb1. rewrite Hn3 in Hb3. unfold shrinks in HL1.
  destruct (v_xf (dv x1)) as [y|] eqn:Ey; [|congruence]. exists y. split; [|by apply HL1].
  destruct E1 as [(Hbusy & _ & Hx1) _]. rewrite Ey in Hx1.
  destruct Hx1 as (_ & _ & _ & _ & _ & _ & _ & _ & Hst). destruct (x_stop y) eqn:Es; [|destruct Hst; congruence].
  assert (S : stable (fun w => v_xf w = Some y /\ v_busy w = false)).
  { intros w1 w2 [Hy Hb] Hs. destruct Hs; congruence. }
  assert (Hq : v_xf (dv x1) = Some y /\ v_busy (dv x1) = false) by done.
  apply (stable_steps _ _ (dv x2) S) in Hq; [|done]. apply (stable_steps _ _ w S) in Hq; [|done].
  rewrite Ev3. apply Hq.
Qed.

(** The transfer is under way with at most [L] bytes left. *)
Definition under_way (L : Z) (x : host D) : Prop := exists n, ofN (T n) n x /\ shrinks L (dv x).

Lemma under_way_steps L x x' : under_way L x -> hsteps (dv x) (dv x') -> hs x' = hs x -> under_way L x'.
Proof.
  intros (n & Hx & HL) Hs E. exists n. split; [by eapply ofN_rd; [apply T_stable| | |]|].
  by apply (stable_steps _ _ _ (shrinks_stable L)) in Hs.
Qed.
Lemma shrinks_mono L L' w : L <= L' -> shrinks L w -> shrinks L' w.
Proof. intros HL. unfold shrinks. destruct (v_xf w); [|done]. intros [Hl Hd]. split; [lia|]. intros E. specialize (Hd E). lia. Qed.

Lemma poll_returns k : forall L x, under_way L x -> 0 <= L < Z.of_nat k ->
  wp (dma_poll k) x (fun r x' => r <> None -> under_way L x') (fun _ => False).
Proof.
  induction k as [|k IH]; intros L x (n & Hx & HL) Hk; [lia|]. cbn [dma_poll]. apply wp_bind.
  eapply wp_mono; [apply (wp_and _ _ _ _ _ _ (wp_check_dma _ _ _ _ _ _ _ Hbuf Hend n x Hx) (wp_check_shrinks n L x Hx HL))| |by intros ? []].
  intros [result intr] x1 [(Hx1 & _ & Hdma1) [Hneg Hpos]].
  destruct (Z.ltb_spec result 0) as [Hr|Hr]; [apply wp_ret; intros _; exists n; auto|].
  change SDHCI_INT_DATA_END with (BIT 1). change SDHCI_INT_DMA_END with (BIT 3). rewrite !c_true_land_BIT by lia.
  destruct (Z.testbit intr 1) eqn:Hb1; [by apply wp_ret|]. destruct (Hpos Hr eq_refl) as [Hb3 Hy]. rewrite Hb3.
  apply wp_bind. unfold when. apply wp_bind, wp_ctx.
  assert (Hs1 : halted n L (dv x1)) by (split; [split; [apply Hx1|exact (Hdma1 Hr Hb3)]|exact Hy]).
  destruct Hx1 as [_ En1]. rewrite En1.
  apply wp_bind, wp_wrr. intros x2 w2 Hs2 E2 En2. apply (stable_steps _ _ w2 (halted_stable n L)) in Hs1; [|done].
  assert (Hx2 : halted n L (dv x2) /\ v_adma (dv x2) = n mod 2 ^ 32) by (rewrite E2; exact (conj Hs1 eq_refl)).
  apply wp_bind, wp_wrr. intros x3 w3 Hs3 E3 En3.
  assert (S : stable (fun w => halted n L w /\ v_adma w = n mod 2 ^ 32)).
  { intros w w' [Hw Ha] Hs. split; [by eapply halted_stable|]. by destruct Hs. }
  apply (stable_steps _ _ w3 S) in Hx2; [|done]. destruct Hx2 as [Hst Had].
  destruct (resume_shrinks n L w3 Hst) as (l & Hl & Hsl). destruct Hst as [Hst _].
  unfold wp at 1, setf, modify. eapply wp_mono; [apply (IH l); [|lia]| |done].
  - exists (u32 (n + 0x80000)). split; [split|]; [|cbn [hs dma_addr_next set_dma_next]; reflexivity|];
      unfold dv; cbn [hclk]; fold (dv x3); rewrite E3; cbn [wr_view]; [by apply resume_T|done].
  - intros r x4 Hr4 Hne. destruct (Hr4 Hne) as (n4 & Hx4 & HL4). exists n4. split; [done|].
    by apply (shrinks_mono l); [lia|].
Qed.

Context (L : Z) (HL : 0 <= L < Z.of_nat fuel).

(** Until a limit of [to] milliseconds. *)
Lemma wait_returns c t to n x : J t x -> blocks x <= c -> under_way L x ->
  late x \/ mst x <= to /\ (to + base + 1) * rate <= now x + Z.of_nat n ->
  wp (dma_wait fuel n to) x (fun r x' => J t x' /\ (r = None -> late x' \/ blocks x' <= c /\ under_way L x')) late.
Proof.
  intros Hx Hc Hu Hto.
  set (Q := fun (r : option bool) x' => J t x' /\ (r = None -> late x' \/ blocks x' <= c /\ under_way L x')).
  assert (Hlate : forall n x, J t x -> late x -> wp (dma_wait fuel n to) x Q late).
  { intros n' x1 Hx1 Hl1. eapply wp_mono; [apply (late_keeps _ t x1); [intros; apply kJ_dma_wait|done|done]| |done].
    intros r x2 [Hx2 Hl2]. split; [done|]. intros _. by left. }
  destruct Hto as [Hl|[Hto Hn]]; [by apply Hlate|].
  apply (timed_loop (fun n => dma_wait fuel n to) (fun x => J t x /\ blocks x <= c /\ under_way L x) Q to);
    [intros ? ? (? & _ & _); by apply Hlate| |done|done|done].
  clear n x Hx Hc Hu Hto Hn. intros n x (Hx & Hc & Hu) Hrec. cbn [dma_wait]. apply wp_bind.
  eapply wp_mono; [apply wp_and; [apply (poll_returns fuel L x Hu HL)|apply wp_and;
    [apply keeps_wp; [apply (kJ_dma_poll (now x))|apply (J_now t x Hx)]
    |apply keeps_wp; [apply (kB_dma_poll c)|exact Hc]]]| |by intros ? [[] _]].
  cbv beta. intros r x1 (Hu1 & Hx1 & Hc1). pose proof (J_trans _ _ _ Hx Hx1) as Hx1'.
  destruct r as [result|]; [|by apply wp_ret].
  destruct (negb _).
  { apply wp_bind. eapply wp_mono; [by apply (ends_reset x1 t)| |done]. intros ?u x2 Hx2. by apply wp_ret. }
  apply (wp_round _ x1 x t); [done|done|]. intros v x2 Hx2 Hs2 E2 Hb2 Hlt Hv.
  assert (Hu2 : under_way L x2) by (eapply under_way_steps; [by apply Hu1|done|done]).
  unfold within in Hc1. destruct (Z.ltb_spec v to).
  - apply Hrec; [split_and!; [done|lia|done]|done|]. destruct Hv; [by left|right; lia].
  - apply wp_ret. split; [done|]. intros _. right. split; [lia|done].
Qed.

Lemma rounds_return t k : forall x, J t x -> under_way L x -> blocks x + 1 < Z.of_nat k ->
  wp (dma_rounds fuel k) x (fun _ => J t) late.
Proof.
  induction k as [|k IH]; intros x Hx Hu Hk; [pose proof (lf_range (clk_dev (hclk x))); unfold blocks in *; lia|].
  cbn [dma_rounds]. apply wp_bind, (wp_rdr_time blkcnt x t); [done|]. intros count x1 Hx1 Hs1 E1 Hb1 Hv1.
  rewrite (Hv1 eq_refl). clear count Hv1. apply (under_way_steps _ _ x1) in Hu; [|done|done].
  apply wp_bind, (wp_deadline 1500 x1 t); [lia|done|]. intros to x2 Hx2 Hs2 E2 Hb2 Hto.
  apply (under_way_steps _ _ x2) in Hu; [|done|done].
  apply wp_bind. eapply wp_mono; [apply (wait_returns (blocks x1) t to fuel x2); [done|lia|done|]| |done].
  { destruct Hto as [|[-> _]]; [by left|right]. split; [lia|]. apply limit_fuel. lia. }
  intros r x3 [Hx3 Hr]. destruct r as [b|]; [by apply wp_ret|]. destruct (Hr eq_refl) as [Hl3|[Hb3 Hu3]].
  - eapply wp_mono; [apply (late_keeps _ t x3); [intros t'|done|done]| |done]; [|by intros ? ? []].
    apply keeps_bind; [apply kJ_rdr|intros v]. apply keeps_if; [apply kJ_dma_rounds|].
    apply keeps_bind; [apply kJ_reset|intros]. apply keeps_ret.
  - apply wp_bind, (wp_rdr_time blkcnt x3 t); [done|]. intros v x4 Hx4 Hs4 E4 Hb4 Hv4. rewrite (Hv4 eq_refl).
    destruct (Z.eqb_spec (blocks x4) (blocks x1)); cbn [negb].
    + apply wp_bind. eapply wp_mono; [by apply (ends_reset x4 t)| |done]. intros ?u x5 Hx5. by apply wp_ret.
    + apply IH; [done|by eapply under_way_steps|lia].
Qed.
End Moves.

(** *** Commands with data *)

(** A step that keeps [P] and returns. *)
Lemma wp_both {A} (P : sdv -> Prop) (m : M (host D) A) x t (Q : A -> host D -> Prop) :
  keeps (ofH P) m -> ends m -> ofH P x -> J t x ->
  (forall a x', ofH P x' -> J t x' -> Q a x') -> wp m x Q late.
Proof.
  intros Hk He Hx HJ HQ. eapply wp_mono; [apply (wp_and _ _ _ _ _ _ (keeps_wp _ _ _ Hk Hx) (He x t HJ))| |by intros ? []].
  intros a x' []. by apply HQ.
Qed.
(** A step with a postcondition that returns. *)
Lemma wp_also {A} (m : M (host D) A) x t (Q Q' : A -> host D -> Prop) E :
  ends m -> J t x -> wp m x Q' E -> (forall a x', Q' a x' -> J t x' -> Q a x') -> wp m x Q late.
Proof.
  intros He HJ Hm HQ. eapply wp_mono; [apply (wp_and _ _ _ _ _ _ Hm (He x t HJ))| |by intros ? []].
  intros a x' []. by apply HQ.
Qed.

Lemma clock_returns {A} F (m : M (host D) A) x t : ofH (quiet F) x -> J t x ->
  (forall x, ofH (quiet F) x -> J t x -> wp m x (fun _ => J t) late) ->
  wp (with_card_clock fuel m) x (fun _ => J t) late.
Proof.
  intros Hx HJ Hm. unfold with_card_clock. pose proof (quiet_stable F) as S. pose proof (quiet_wr F) as W.
  apply wp_bind, wp_ctx. apply wp_bind, (wp_both (quiet F) _ x t); [|en|done|done|].
  { apply kH_when, keeps_bind; [by apply kH_io_power|intros]. by apply kH_autocal. }
  intros ?u x1 Hx1 HJ1. apply wp_bind, (wp_both (quiet F) _ x1 t); [by apply kH_test|en|done|done|].
  intros e x2 Hx2 HJ2. apply wp_bind, (wp_both (quiet F) _ x2 t); [|en|done|done|].
  { apply kH_when, keeps_bind; [by apply kH_updr|intros]. apply keeps_bind; [by apply kH_commit|intros].
    by apply kH_sleep_8. }
  intros ?u x3 Hx3 HJ3. apply wp_bind. eapply wp_mono; [by apply Hm| |done]. cbv beta. intros a x4 HJ4.
  revert HJ4. apply (fun He : ends (sleep_8_clocks;; when (negb e) (andn clkcon SDHCI_CLOCK_CARD_EN);; mret a) => He x4 t).
  en.
Qed.

Section Data.
Context (c : sdmmc_cmd_t) (q : sdmmc_req_t).
Context (Hq : req_ok q) (Hbytes : bytes q + 1 < Z.of_nat fuel) (Hrounds : 65536 < Z.of_nat fuel).

(** The transfer starts with all its bytes left. *)
Lemma send_shrinks c0 m0 n x : 0 < bytes q -> ofN (armed q c0 m0) n x ->
  wp (_sdmmc_send_cmd c true) x (fun b x' => b = true -> shrinks (bytes q + 1) (dv x')) (fun _ => False).
Proof.
  intros Hb0 [Hx En]. destruct Hq as (Hb & Hs & Hn & He). unfold _sdmmc_send_cmd.
  destruct (rsp_flags _ _) as [f|] eqn:Ef; [|by apply wp_ret]. apply rsp_flags_range in Ef as [Hf Hf5].
  apply wp_bind, wp_wrr_idle; [apply Hx|]. intros x1 E1 En1.
  apply wp_bind, wp_wrr_idle; [rewrite E1; apply Hx|]. intros x2 E2 En2. apply wp_ret. intros _. rewrite E2, E1.
  destruct Hx as [((Hi1 & Hi2) & _ & Ha & Hbs & Hbc & Ht) [_ Hdma]].
  destruct (trnmode_bits q) as (T0 & T4 & T5 & _). cbn [wr_view]. unfold start, shrinks.
  rewrite cmd_testbit, Hf5 by lia. cbn [v_trnmod v_blksize v_blkcnt v_adma v_arg v_busy].
  rewrite Ht, T0. cbn [with_xf v_xf v_dma v_end x_left]. rewrite T5, Hbs, Hbc, Hdma. split; [|done].
  assert (Hsz : Z.land (r_blksize q + 0x7000) 0xFFF = r_blksize q).
  { change 0xFFF with (Z.ones 12). rewrite Z.land_ones by lia. change (2 ^ 12) with 4096. zdm. }
  rewrite Hsz. unfold bytes in *. destruct (r_is_multi_block q); nia.
Qed.

Lemma inner_returns x t : idle (dv x) -> J t x -> wp (_sdmmc_execute_cmd_inner fuel c (Some q)) x (fun _ => J t) late.
Proof.
  intros Hi HJ. set (c0 := v_card (dv x)). set (m0 := v_ram (dv x)).
  assert (Hx : ofH (quiet (same c0 m0)) x) by (split; [done|by split]).
  pose proof (quiet_stable (same c0 m0)) as S. pose proof (quiet_wr (same c0 m0)) as W.
  rewrite inner_unfold. rewrite bool_decide_true by eauto.
  apply wp_bind, (wp_both _ _ x t _ (kH_inhibit _ S fuel W _) (ends_inhibit _) Hx HJ). intros ok x1 Hx1 HJ1.
  destruct ok; [|by apply wp_ret]. cbn [negb].
  apply wp_bind, (wp_also _ x1 t _ _ _ (ends_config_dma q) HJ1 (wp_config_dma q c0 m0 Hq x1 (fun _ => True) Hx1)).
  intros [n|] x2 Hx2 HJ2; [|by apply wp_ret]. destruct Hx2 as (-> & Hb0 & _ & Hx2).
  apply wp_bind, (wp_also _ x2 t _ _ _ ends_enable_interrupts HJ2 (wp_arm q c0 m0 x2 (fun _ => True) Hx2)).
  intros ?u x3 Hx3 HJ3.
  apply wp_bind, (wp_also _ x3 t _ _ _ (ends_send c true) HJ3
    (wp_and _ _ _ _ _ _ (send_some c true x3) (wp_and _ _ _ _ _ _ (wp_send_data c q c0 m0 Hq x3 (fun _ => True) Hb0 Hx3)
      (send_shrinks c0 m0 _ x3 Hb0 Hx3)))).
  intros ok x4 (Hf & Hx4 & Hs4) HJ4. destruct ok; [|by apply wp_ret]. cbn [negb].
  specialize (Hf eq_refl). specialize (Hs4 eq_refl).
  assert (Hb : 0 <= r_buf q) by apply Hq.
  assert (Hend : r_buf q + bytes q <= 4294967296) by (pose proof (bytes_range q Hq); destruct Hq as (? & ? & ? & ?); lia).
  set (P := fun w => TQ c q c0 m0 (first_next q) w /\ shrinks (bytes q + 1) w).
  assert (HP : stable P).
  { intros w w' [Hw1 Hw2] Hs. split; [by eapply T_stable|by eapply shrinks_stable]. }
  assert (Hx4P : ofN P (first_next q) x4) by (destruct Hx4; by split).
  apply wp_bind, (wp_also _ x4 t _ _ _ ends_wait_response HJ4
    (wp_wait_response fuel (movedQ c q c0 m0) P (first_next q) x4 HP
      ltac:(intros v w [] ? ?; split; [by apply T_clear|by apply shrinks_clear])
      ltac:(intros w []; by eapply T_content) Hx4P)).
  intros b x5 Hx5 HJ5.
  assert (Hrest : forall b x, J t x ->
    wp (_sdmmc_mask_interrupts;; if negb b then mret (false, None)
        else when (r_is_auto_cmd12 q) (v ← rdr rspreg3; setf (set_rsp3 v));;
             let out := Some (count q) in
             if c_check_busy c || true then b ← _sdmmc_wait_card_busy fuel; mret (b, out) else mret (true, out))
      x (fun _ => J t) late).
  { intros b' x' HJ'. revert HJ'. match goal with |- _ -> wp ?m _ _ _ => apply (fun He : ends m => He x' t) end.
    en. cbv zeta. en. }
  destruct b.
  2:{ apply wp_bind, (wp_ret false), wp_bind, (wp_ret false). by apply Hrest. }
  apply wp_bind. eapply (wp_also _ x5 t); [apply ends_cache|done|apply (wp_cache P c (first_next q) x5 (fun b x' => b = true /\ ofN P (first_next q) x') (fun _ => True)); auto|].
  intros b x6 [-> Hx6] HJ6. cbn [andb]. apply wp_bind.
  eapply wp_mono; [apply (rounds_return (r_is_write q) (cmd_index c) (cmd_arg c) (r_buf q) (bytes q) c0 m0 Hb Hend (bytes q + 1))| |done].
  - lia.
  - exact HJ6.
  - destruct Hx6 as [[HT Hsh] En]. exists (first_next q). split; [by split|done].
  - pose proof (lf_range (clk_dev (hclk x6))). unfold blocks. lia.
  - cbv beta. intros b x7 HJ7. by apply Hrest.
Qed.
End Data.
End Time.

(** Which round of the millisecond timer it is. *)
Definition round_of {D} `{SdhciTime D} (x : host D) : Z := now x / rate / 4294967296.

(** C11: a command, with or without data, returns: it is given up when the controller does not
    answer, and a transfer ends when the data has been moved or when it stops making progress.
    The controller is any that follows the laws of [SdhciHw] (data moves byte by byte while a
    transfer is under way and no faster than its boundaries are acknowledged, the end and
    boundary bits of the status say what happened) and of [SdhciTime] (time goes on, the block
    counter does not count up by itself), with any delays and errors; it is idle at the start.
    The fuel covers two seconds of polling, the bytes of the transfer and the values of the
    counter.  The command is over before the last two seconds of the current round of the
    millisecond timer (2^32 ms, 49 days): there a limit may fall on the largest value of the
    timer, which is never exceeded. *)
Theorem sdmmc_execute_cmd_returns {D : Type} `{SdhciTime D} (fuel : nat) (c : sdmmc_cmd_t)
    (req : option sdmmc_req_t) (x : host D) (r : outcome (bool * option Z)) (x' : host D) :
  2001 * rate <= Z.of_nat fuel -> 65536 < Z.of_nat fuel ->
  (forall q, req = Some q -> req_ok q /\ bytes q + 1 < Z.of_nat fuel) ->
  idle (dv x) -> s_divisor (hs x) <> 0 ->
  sdmmc_execute_cmd fuel c req x = (r, x') ->
  now x' < (round_of x * 4294967296 + LATE) * rate ->
  exists ok n, r = Ret (ok, n).
Proof.
  intros Hfuel Hrounds Hreq Hi Hd E Hend. set (p := round_of x) in *.
  assert (HJ : J p (now x) x).
  { split; [|done]. pose proof tm_rate as Hr. subst p. unfold base, round_of.
    pose proof (Z.mul_div_le (now x) rate Hr).
    pose proof (Z.mul_div_le (now x / rate) 4294967296 ltac:(lia)). nia. }
  assert (Hw : wp (sdmmc_execute_cmd fuel c req) x (fun _ => J p (now x)) (late p)).
  { unfold sdmmc_execute_cmd. apply wp_bind, wp_ctx. destruct (negb _); [by apply wp_ret|].
    apply (clock_returns fuel p Hfuel (fun _ _ => True)); [by split|done|]. intros x1 [Hi1 _] HJ1.
    destruct req as [q|]; [|by apply ends_inner_none]. destruct (Hreq q eq_refl). by apply inner_returns. }
  unfold wp in Hw. rewrite E in Hw.
  destruct r as [[ok n]| |]; [by eexists _, _|exfalso; unfold late, base in Hw; lia..].
Qed.

(** ** Witness *)

Module Clockwork.
Import Rig.

Lemma blks_step w w' : hstep w w' -> blks w' <= blks w.
Proof.
  intros Hs. unfold blks. destruct Hs as [x b d Ex Hst Hleft Hclk Hrd|e Hb]; [|done]. rewrite Ex. unfold move. cbn [v_xf].
  destruct (x_left x =? 1); [lia|]. cbn [x_left].
  pose proof (Z.div_le_mono (x_left x - 1 + 7) (x_left x + 7) 8). lia.
Qed.
Lemma blks_steps w w' : hsteps w w' -> blks w' <= blks w.
Proof. induction 1 as [|w1 w2 Hs IH Hst]; [lia|]. apply blks_step in Hst. lia. Qed.

#[global, program] Instance time : SdhciTime rig := {|
  tick d := Z.of_N (r_now d); rate := 1000; blk_left d := blks (r_view d) |}.
Next Obligation. done. Qed.
Next Obligation. intros d. cbn. lia. Qed.
Next Obligation. intros a d. cbn. lia. Qed.
Next Obligation. intros a v d. cbn. lia. Qed.
Next Obligation. intros n d. cbn. lia. Qed.
Next Obligation. intros d. cbn [tmr_ms mmio fst snd r_now]. split; [lia|done]. Qed.
Next Obligation. intros r d. by destruct r. Qed.
Next Obligation. intros r v d. done. Qed.
Next Obligation. intros d. unfold blks. destruct (v_xf _); lia. Qed.
Next Obligation. intros d. done. Qed.
Next Obligation. intros r d. pose proof (hw_sd_rd r d) as Hs. cbn [vw hw] in Hs. exact (blks_steps _ _ Hs). Qed.
Next Obligation.
  intros r v d Hr. unfold blks. cbn [sd_wr sdhci r_view]. destruct Hr as [-> | [-> | [-> | ->]]]; cbn [wr_view v_xf]; try done.
  unfold resume. destruct (v_xf (r_view d)) as [y|] eqn:Ey; [|by rewrite Ey]. destruct (x_stop y); [done|by rewrite Ey].
Qed.
Next Obligation. intros d. done. Qed.
End Clockwork.

(** A read of two blocks of a controller that runs: it returns with the data. *)
Lemma sdmmc_execute_cmd_returns_witness :
  let x := Rig.start Rig.numbers [] in
  let fuel := Z.to_nat 3000000 in
  let res := sdmmc_execute_cmd fuel (mk_cmd 18 3 1 false) (Some (Rig.req false)) x in
  exists ok n, res.1 = Ret (ok, n).
Proof.
  intros x fuel res.
  assert (Ht : now res.2 < 4294965295000) by (vm_compute; reflexivity).
  apply (sdmmc_execute_cmd_returns fuel (mk_cmd 18 3 1 false) (Some (Rig.req false)) x res.1 res.2).
  - change (rate (D := Rig.rig)) with 1000. unfold fuel. lia.
  - unfold fuel. lia.
  - intros q Eq. injection Eq as <-. split; [unfold req_ok, Rig.req; cbn; unfold Rig.buf; lia|].
    change (bytes (Rig.req false)) with 16. unfold fuel. lia.
  - split; reflexivity.
  - discriminate.
  - apply surjective_pairing.
  - exact Ht.
Defined.
