(* ===== verification/Ums.v ===== *)
(** * Ums

    The USB mass storage gadget, bdk/usb/usb_gadget_ums.c: the bulk-only
    transport, the SCSI commands, and the loop that serves a host until the
    medium is ejected.

    The gadget works on a card and on the endpoints of a USB controller, which
    are the class [UmsDev]: the sector transfers of SdRw, and the operations
    [usb_ops] of the two controller drivers.  Loops take fuel. *)

From stdpp Require Import strings.
From S2P Require Import Prelude Mem Gpio Gfx Sprintf.
#[local] Open Scope Z_scope.

(** ** Constants *)

Definition UMS_MAX_LUN : Z := 1.
Definition USB_BULK_CB_WRAP_LEN : Z := 31.
Definition USB_BULK_CB_SIG : Z := 0x43425355.
Definition USB_BULK_IN_FLAG : Z := 0x80.
Definition USB_BULK_CS_WRAP_LEN : Z := 13.
Definition USB_BULK_CS_SIG : Z := 0x53425355.
Definition USB_STATUS_PASS : Z := 0.
Definition USB_STATUS_FAIL : Z := 1.
Definition USB_STATUS_PHASE_ERROR : Z := 2.

Definition UMS_DISK_LBA_SHIFT : Z := 9.
Definition UMS_DISK_LBA_SIZE : Z := 512.
Definition USB_EP_BUFFER_MAX_SIZE : Z := 0x10000.
Definition UMS_DISK_MAX_IO_TRANSFER_64K : Z := Z.shiftr USB_EP_BUFFER_MAX_SIZE UMS_DISK_LBA_SHIFT.
Definition UMS_DISK_MAX_IO_TRANSFER_32K : Z := UMS_DISK_MAX_IO_TRANSFER_64K / 2.
Definition UMS_SCSI_TRANSFER_512K : Z := Z.shiftr 0x80000 UMS_DISK_LBA_SHIFT.
Definition UMS_EP_OUT_MAX_XFER : Z := 0x800000.
Definition SCSI_MAX_CMD_SZ : Z := 16.

Definition SC_FORMAT_UNIT : Z := 0x04.
Definition SC_INQUIRY : Z := 0x12.
Definition SC_LOG_SENSE : Z := 0x4D.
Definition SC_MODE_SELECT_6 : Z := 0x15.
Definition SC_MODE_SELECT_10 : Z := 0x55.
Definition SC_MODE_SENSE_6 : Z := 0x1A.
Definition SC_MODE_SENSE_10 : Z := 0x5A.
Definition SC_PREVENT_ALLOW_MEDIUM_REMOVAL : Z := 0x1E.
Definition SC_READ_6 : Z := 0x08.
Definition SC_READ_10 : Z := 0x28.
Definition SC_READ_12 : Z := 0xA8.
Definition SC_READ_CAPACITY : Z := 0x25.
Definition SC_READ_FORMAT_CAPACITIES : Z := 0x23.
Definition SC_REQUEST_SENSE : Z := 0x03.
Definition SC_START_STOP_UNIT : Z := 0x1B.
Definition SC_SYNCHRONIZE_CACHE : Z := 0x35.
Definition SC_TEST_UNIT_READY : Z := 0x00.
Definition SC_VERIFY : Z := 0x2F.
Definition SC_WRITE_6 : Z := 0x0A.
Definition SC_WRITE_10 : Z := 0x2A.
Definition SC_WRITE_12 : Z := 0xAA.

Definition SS_NO_SENSE : Z := 0x0.
Definition SS_COMMUNICATION_FAILURE : Z := 0x40800.
Definition SS_INVALID_COMMAND : Z := 0x52000.
Definition SS_INVALID_FIELD_IN_CDB : Z := 0x52400.
Definition SS_LOGICAL_BLOCK_ADDRESS_OUT_OF_RANGE : Z := 0x52100.
Definition SS_MEDIUM_NOT_PRESENT : Z := 0x23A00.
Definition SS_MEDIUM_REMOVAL_PREVENTED : Z := 0x55302.
Definition SS_RESET_OCCURRED : Z := 0x62900.
Definition SS_SAVING_PARAMETERS_NOT_SUPPORTED : Z := 0x53900.
Definition SS_UNRECOVERED_READ_ERROR : Z := 0x31100.
Definition SS_WRITE_ERROR : Z := 0x30C02.
Definition SS_WRITE_PROTECTED : Z := 0x72700.

Definition UMS_RES_OK : Z := 0.
Definition UMS_RES_IO_ERROR : Z := -5.
Definition UMS_RES_PROT_FATAL : Z := -4.
Definition UMS_RES_INVALID_ARG : Z := -22.

Definition USB_XFER_START : Z := 0.
Definition USB_XFER_SYNCED_CMD : Z := 1000000.
Definition USB_XFER_SYNCED_DATA : Z := 2000000.
Definition USB_EP_BULK_OUT : Z := 2.
Definition USB_EP_BULK_IN : Z := 3.
Definition USB_EP_CFG_CLEAR : Z := 0.
Definition USB_EP_CFG_STALL : Z := 1.
Definition USB_RES_OK : Z := 0.
Definition USB_ERROR_TIMEOUT : Z := 3.
Definition USB_ERROR_XFER_ERROR : Z := 5.
Definition USB2_ERROR_XFER_EP_DISABLED : Z := 28.
Definition USB2_ERROR_XFER_NOT_ALIGNED : Z := 29.

Definition SDXC_BUF_ALIGNED : Z := 0xEF000000.
Definition USB_EP_BULK_IN_BUF_ADDR : Z := 0xFF000000.
Definition USB_EP_BULK_OUT_BUF_ADDR : Z := 0xFF800000.
Definition MMC_SD : Z := 0.
Definition MMC_EMMC : Z := 1.
Definition EMMC_GPP : Z := 0.
Definition EMMC_BOOT0 : Z := 1.
Definition EMMC_BOOT1 : Z := 2.
Definition EMC_PERIODIC_TRAIN_MS : Z := 250.

Definition SK (x : Z) : Z := u8 (Z.shiftr x 16).
Definition ASC (x : Z) : Z := u8 (Z.shiftr x 8).
Definition ASCQ (x : Z) : Z := u8 x.

(** ** State *)

Inductive ums_state :=
| UMS_STATE_NORMAL | UMS_STATE_ABORT_BULK_OUT | UMS_STATE_PROTOCOL_RESET | UMS_STATE_EXIT | UMS_STATE_TERMINATED.
#[export] Instance ums_state_eq_dec : EqDecision ums_state.
Proof. solve_decision. Defined.
(** The order of the enumeration. *)
Definition rank (s : ums_state) : Z :=
  match s with
  | UMS_STATE_NORMAL => 0 | UMS_STATE_ABORT_BULK_OUT => 1 | UMS_STATE_PROTOCOL_RESET => 2
  | UMS_STATE_EXIT => 3 | UMS_STATE_TERMINATED => 4
  end.

Inductive data_direction := DATA_DIR_UNKNOWN | DATA_DIR_FROM_HOST | DATA_DIR_TO_HOST | DATA_DIR_NONE.
#[export] Instance data_direction_eq_dec : EqDecision data_direction.
Proof. solve_decision. Defined.

Inductive buffer_state := BUF_STATE_EMPTY | BUF_STATE_FULL | BUF_STATE_BUSY.
#[export] Instance buffer_state_eq_dec : EqDecision buffer_state.
Proof. solve_decision. Defined.

(** [logical_unit_t], without the pointers to the storage, which is in the device. *)
Record logical_unit_t := Lun {
  num_sectors : Z;
  lun_offset : Z;
  unmounted : bool;
  ro : bool;
  lun_type : Z;
  lun_partition : Z;
  removable : bool;
  prevent_medium_removal : bool;
  info_valid : Z;
  sense_data : Z;
  sense_data_info : Z;
  unit_attention_data : Z
}.
Definition set_num_sectors v r := Lun v (lun_offset r) (unmounted r) (ro r) (lun_type r)
  (lun_partition r) (removable r) (prevent_medium_removal r) (info_valid r) (sense_data r)
  (sense_data_info r) (unit_attention_data r).
Definition set_unmounted v r := Lun (num_sectors r) (lun_offset r) v (ro r) (lun_type r)
  (lun_partition r) (removable r) (prevent_medium_removal r) (info_valid r) (sense_data r)
  (sense_data_info r) (unit_attention_data r).
Definition set_prevent_medium_removal v r := Lun (num_sectors r) (lun_offset r) (unmounted r) (ro r)
  (lun_type r) (lun_partition r) (removable r) v (info_valid r) (sense_data r) (sense_data_info r)
  (unit_attention_data r).
Definition set_info_valid v r := Lun (num_sectors r) (lun_offset r) (unmounted r) (ro r)
  (lun_type r) (lun_partition r) (removable r) (prevent_medium_removal r) v (sense_data r)
  (sense_data_info r) (unit_attention_data r).
Definition set_sense_data v r := Lun (num_sectors r) (lun_offset r) (unmounted r) (ro r)
  (lun_type r) (lun_partition r) (removable r) (prevent_medium_removal r) (info_valid r) v
  (sense_data_info r) (unit_attention_data r).
Definition set_sense_data_info v r := Lun (num_sectors r) (lun_offset r) (unmounted r) (ro r)
  (lun_type r) (lun_partition r) (removable r) (prevent_medium_removal r) (info_valid r)
  (sense_data r) v (unit_attention_data r).
Definition set_unit_attention_data v r := Lun (num_sectors r) (lun_offset r) (unmounted r) (ro r)
  (lun_type r) (lun_partition r) (removable r) (prevent_medium_removal r) (info_valid r)
  (sense_data r) (sense_data_info r) v.

(** [bulk_ctxt_t]; the endpoints are constants. *)
Record bulk_ctxt_t := Bulk {
  in_status : Z;
  in_length : Z;
  in_actual : Z;
  in_buf : Z;
  in_state : buffer_state;
  out_status : Z;
  out_length : Z;
  out_actual : Z;
  out_ignore : bool;
  out_buf : Z;
  out_state : buffer_state
}.
Definition set_in_status v r := Bulk v (in_length r) (in_actual r) (in_buf r) (in_state r)
  (out_status r) (out_length r) (out_actual r) (out_ignore r) (out_buf r) (out_state r).
Definition set_in_length v r := Bulk (in_status r) v (in_actual r) (in_buf r) (in_state r)
  (out_status r) (out_length r) (out_actual r) (out_ignore r) (out_buf r) (out_state r).
Definition set_in_actual v r := Bulk (in_status r) (in_length r) v (in_buf r) (in_state r)
  (out_status r) (out_length r) (out_actual r) (out_ignore r) (out_buf r) (out_state r).
Definition set_in_buf v r := Bulk (in_status r) (in_length r) (in_actual r) v (in_state r)
  (out_status r) (out_length r) (out_actual r) (out_ignore r) (out_buf r) (out_state r).
Definition set_in_state v r := Bulk (in_status r) (in_length r) (in_actual r) (in_buf r) v
  (out_status r) (out_length r) (out_actual r) (out_ignore r) (out_buf r) (out_state r).
Definition set_out_status v r := Bulk (in_status r) (in_length r) (in_actual r) (in_buf r)
  (in_state r) v (out_length r) (out_actual r) (out_ignore r) (out_buf r) (out_state r).
Definition set_out_length v r := Bulk (in_status r) (in_length r) (in_actual r) (in_buf r)
  (in_state r) (out_status r) v (out_actual r) (out_ignore r) (out_buf r) (out_state r).
Definition set_out_actual v r := Bulk (in_status r) (in_length r) (in_actual r) (in_buf r)
  (in_state r) (out_status r) (out_length r) v (out_ignore r) (out_buf r) (out_state r).
Definition set_out_ignore v r := Bulk (in_status r) (in_length r) (in_actual r) (in_buf r)
  (in_state r) (out_status r) (out_length r) (out_actual r) v (out_buf r) (out_state r).
Definition set_out_buf v r := Bulk (in_status r) (in_length r) (in_actual r) (in_buf r) (in_state r)
  (out_status r) (out_length r) (out_actual r) (out_ignore r) v (out_state r).
Definition set_out_state v r := Bulk (in_status r) (in_length r) (in_actual r) (in_buf r)
  (in_state r) (out_status r) (out_length r) (out_actual r) (out_ignore r) (out_buf r) v.

(** [usbd_gadget_ums_t], without the callbacks.  It is kept apart from the
    memory of the transfers, a variable on the stack of the
    payload (below [IPL_STACK_TOP], 0x83100000), while the transfers use the
    buffers from [SDXC_BUF_ALIGNED] (0xEF000000) upwards.  A READ(12) of more
    than 65536 sectors leaves these buffers upwards (usb_gadget_ums.c:529); what
    lies there, the frame buffers and descriptors, is not part of the model. *)
Record usbd_gadget_ums_t := Ums {
  bulk : bulk_ctxt_t;
  cmnd_size : Z;
  cmnd : list Z;
  lun_idx : Z;
  lun : logical_unit_t;
  state : ums_state;
  data_dir : data_direction;
  data_size : Z;
  data_size_from_cmnd : Z;
  tag : Z;
  residue : Z;
  usb_amount_left : Z;
  phase_error : bool;
  short_packet_received : bool;
  thread_wakeup_needed : bool;
  can_stall : bool;
  timeouts : Z;
  xusb : bool
}.
Definition set_bulk v r := Ums v (cmnd_size r) (cmnd r) (lun_idx r) (lun r) (state r) (data_dir r)
  (data_size r) (data_size_from_cmnd r) (tag r) (residue r) (usb_amount_left r) (phase_error r)
  (short_packet_received r) (thread_wakeup_needed r) (can_stall r) (timeouts r) (xusb r).
Definition set_cmnd_size v r := Ums (bulk r) v (cmnd r) (lun_idx r) (lun r) (state r) (data_dir r)
  (data_size r) (data_size_from_cmnd r) (tag r) (residue r) (usb_amount_left r) (phase_error r)
  (short_packet_received r) (thread_wakeup_needed r) (can_stall r) (timeouts r) (xusb r).
Definition set_cmnd v r := Ums (bulk r) (cmnd_size r) v (lun_idx r) (lun r) (state r) (data_dir r)
  (data_size r) (data_size_from_cmnd r) (tag r) (residue r) (usb_amount_left r) (phase_error r)
  (short_packet_received r) (thread_wakeup_needed r) (can_stall r) (timeouts r) (xusb r).
Definition set_lun_idx v r := Ums (bulk r) (cmnd_size r) (cmnd r) v (lun r) (state r) (data_dir r)
  (data_size r) (data_size_from_cmnd r) (tag r) (residue r) (usb_amount_left r) (phase_error r)
  (short_packet_received r) (thread_wakeup_needed r) (can_stall r) (timeouts r) (xusb r).
Definition set_lun v r := Ums (bulk r) (cmnd_size r) (cmnd r) (lun_idx r) v (state r) (data_dir r)
  (data_size r) (data_size_from_cmnd r) (tag r) (residue r) (usb_amount_left r) (phase_error r)
  (short_packet_received r) (thread_wakeup_needed r) (can_stall r) (timeouts r) (xusb r).
Definition set_state v r := Ums (bulk r) (cmnd_size r) (cmnd r) (lun_idx r) (lun r) v (data_dir r)
  (data_size r) (data_size_from_cmnd r) (tag r) (residue r) (usb_amount_left r) (phase_error r)
  (short_packet_received r) (thread_wakeup_needed r) (can_stall r) (timeouts r) (xusb r).
Definition set_data_dir v r := Ums (bulk r) (cmnd_size r) (cmnd r) (lun_idx r) (lun r) (state r) v
  (data_size r) (data_size_from_cmnd r) (tag r) (residue r) (usb_amount_left r) (phase_error r)
  (short_packet_received r) (thread_wakeup_needed r) (can_stall r) (timeouts r) (xusb r).
Definition set_data_size v r := Ums (bulk r) (cmnd_size r) (cmnd r) (lun_idx r) (lun r) (state r)
  (data_dir r) v (data_size_from_cmnd r) (tag r) (residue r) (usb_amount_left r) (phase_error r)
  (short_packet_received r) (thread_wakeup_needed r) (can_stall r) (timeouts r) (xusb r).
Definition set_data_size_from_cmnd v r := Ums (bulk r) (cmnd_size r) (cmnd r) (lun_idx r) (lun r)
  (state r) (data_dir r) (data_size r) v (tag r) (residue r) (usb_amount_left r) (phase_error r)
  (short_packet_received r) (thread_wakeup_needed r) (can_stall r) (timeouts r) (xusb r).
Definition set_tag v r := Ums (bulk r) (cmnd_size r) (cmnd r) (lun_idx r) (lun r) (state r)
  (data_dir r) (data_size r) (data_size_from_cmnd r) v (residue r) (usb_amount_left r)
  (phase_error r) (short_packet_received r) (thread_wakeup_needed r) (can_stall r) (timeouts r)
  (xusb r).
Definition set_residue v r := Ums (bulk r) (cmnd_size r) (cmnd r) (lun_idx r) (lun r) (state r)
  (data_dir r) (data_size r) (data_size_from_cmnd r) (tag r) v (usb_amount_left r) (phase_error r)
  (short_packet_received r) (thread_wakeup_needed r) (can_stall r) (timeouts r) (xusb r).
Definition set_usb_amount_left v r := Ums (bulk r) (cmnd_size r) (cmnd r) (lun_idx r) (lun r)
  (state r) (data_dir r) (data_size r) (data_size_from_cmnd r) (tag r) (residue r) v (phase_error r)
  (short_packet_received r) (thread_wakeup_needed r) (can_stall r) (timeouts r) (xusb r).
Definition set_phase_error v r := Ums (bulk r) (cmnd_size r) (cmnd r) (lun_idx r) (lun r) (state r)
  (data_dir r) (data_size r) (data_size_from_cmnd r) (tag r) (residue r) (usb_amount_left r) v
  (short_packet_received r) (thread_wakeup_needed r) (can_stall r) (timeouts r) (xusb r).
Definition set_short_packet_received v r := Ums (bulk r) (cmnd_size r) (cmnd r) (lun_idx r) (lun r)
  (state r) (data_dir r) (data_size r) (data_size_from_cmnd r) (tag r) (residue r)
  (usb_amount_left r) (phase_error r) v (thread_wakeup_needed r) (can_stall r) (timeouts r) (xusb r).
Definition set_thread_wakeup_needed v r := Ums (bulk r) (cmnd_size r) (cmnd r) (lun_idx r) (lun r)
  (state r) (data_dir r) (data_size r) (data_size_from_cmnd r) (tag r) (residue r)
  (usb_amount_left r) (phase_error r) (short_packet_received r) v (can_stall r) (timeouts r)
  (xusb r).
Definition set_timeouts v r := Ums (bulk r) (cmnd_size r) (cmnd r) (lun_idx r) (lun r) (state r)
  (data_dir r) (data_size r) (data_size_from_cmnd r) (tag r) (residue r) (usb_amount_left r)
  (phase_error r) (short_packet_received r) (thread_wakeup_needed r) (can_stall r) v (xusb r).

(** *** The device *)

(** A text for the label of the screen ([set_text]), or one for the console
    ([gfx_printf]): a format with its numbers. *)
Inductive message := SetText (fmt : string) (args : list Z) | Console (fmt : string) (args : list Z).

(** The card, the USB controller with [usb_ops], and the rest of the board.
    Transfers take the value of [*actual], which they need not change. *)
Class UmsDev (D : Type) := {
  dev_ram : D -> mem;
  dev_set_ram : mem -> D -> D;
  (** [sdmmc_storage_read] and [sdmmc_storage_write] of the unit: sector, count and buffer. *)
  dev_read : Z -> Z -> Z -> D -> bool * D;
  dev_write : Z -> Z -> Z -> D -> bool * D;
  cid_serial : D -> Z;
  sec_cnt : D -> Z;
  (** Buffer, length and time limit. *)
  usb_device_ep1_in_write : Z -> Z -> Z -> Z -> D -> Z * Z * D;
  usb_device_ep1_in_writing_finish : Z -> D -> Z * Z * D;
  usb_device_ep1_out_read : Z -> Z -> Z -> Z -> D -> Z * Z * D;
  usb_device_ep1_out_read_big : Z -> Z -> Z -> D -> Z * Z * D;
  usb_device_ep1_out_reading_finish : Z -> D -> Z * Z * D;
  usbd_flush_endpoint : Z -> D -> D;
  usbd_set_ep_stall : Z -> Z -> D -> D;
  usbd_handle_ep0_ctrl_setup : D -> Z * D;
  usb_device_get_port_in_sleep : D -> bool * D;
  usb_device_init : D -> Z * D;
  usbd_end : bool -> bool -> D -> D;
  usb_device_enumerate : D -> Z * D;
  usb_device_class_send_max_lun : Z -> D -> Z * D;
  is_t210 : D -> bool * D;
  (** [sd_mount] and [sd_unmount]; the initialisation of the eMMC and of its partition; its end. *)
  dev_mount_sd : D -> D;
  dev_mount_mmc : Z -> D -> D;
  dev_end : D -> D;
  dev_message : message -> D -> D;
  dev_ms : D -> Z * D;
  dev_msleep : Z -> D -> D;
  dev_buttons : D -> Z * D;
  system_maintenance : bool -> D -> D;
  minerva_periodic_training : D -> D
}.

(** The gadget, the device, and the statics of [_system_maintainance]. *)
Record gadget (D : Type) := Gadget {
  g_ums : usbd_gadget_ums_t; g_dev : D; timer_dram : Z; timer_status_bar : Z
}.
Arguments Gadget {D}.
Arguments g_ums {D}.
Arguments g_dev {D}.
Arguments timer_dram {D}.
Arguments timer_status_bar {D}.

Section Ums.
Context {D : Type} `{UmsDev D}.
Context (fuel : nat).

Definition ums : M (gadget D) usbd_gadget_ums_t := g ← get; mret (g_ums g).
Definition upd (f : usbd_gadget_ums_t -> usbd_gadget_ums_t) : M (gadget D) unit :=
  modify (fun g => Gadget (f (g_ums g)) (g_dev g) (timer_dram g) (timer_status_bar g)).
Definition upd_lun (f : logical_unit_t -> logical_unit_t) : M (gadget D) unit :=
  upd (fun u => set_lun (f (lun u)) u).
Definition upd_bulk (f : bulk_ctxt_t -> bulk_ctxt_t) : M (gadget D) unit :=
  upd (fun u => set_bulk (f (bulk u)) u).
Definition dev {A} (f : D -> A * D) : M (gadget D) A := fun g =>
  let '(a, d) := f (g_dev g) in (Ret a, Gadget (g_ums g) d (timer_dram g) (timer_status_bar g)).
Definition dev_ (f : D -> D) : M (gadget D) unit := dev (fun d => (tt, f d)).
Definition say (m : message) : M (gadget D) unit := dev_ (dev_message m).
(** Changes of memory. *)
Definition mem_ (f : mem -> mem) : M (gadget D) unit := dev_ (fun d => dev_set_ram (f (dev_ram d)) d).
Definition ram : M (gadget D) mem := g ← get; mret (dev_ram (g_dev g)).
Definition store (a v : Z) : M (gadget D) unit := mem_ (fun m => st8 m a v).
Definition when (b : bool) (m : M (gadget D) unit) : M (gadget D) unit := if b then m else mret tt.

Definition sense (v : Z) : M (gadget D) unit := upd_lun (set_sense_data v).
(** The sense data with the position of the error. *)
Definition sense_at (v info : Z) : M (gadget D) unit :=
  sense v;; upd_lun (set_sense_data_info info);; upd_lun (set_info_valid 1).
(** [ums->lun.sense_data = v; return UMS_RES_INVALID_ARG;] *)
Definition refuse (v : Z) : M (gadget D) Z := sense v;; mret UMS_RES_INVALID_ARG.

(** ** Bytes *)

Definition put_array_le_to_be16 (v p : Z) : M (gadget D) unit :=
  store p (Z.shiftr v 8);; store (p + 1) v.
Definition put_array_le_to_be32 (v p : Z) : M (gadget D) unit :=
  store p (Z.shiftr v 24);; store (p + 1) (Z.shiftr v 16);; store (p + 2) (Z.shiftr v 8);; store (p + 3) v.
(** Byte [i] of the command. *)
Definition cm (c : list Z) (i : nat) : Z := default 0 (c !! i).
Definition get_array_be_to_le16 (c : list Z) (i : nat) : Z :=
  u16 (Z.lor (Z.shiftl (cm c i) 8) (cm c (i + 1))).
Definition get_array_be_to_le24 (c : list Z) (i : nat) : Z :=
  u32 (Z.lor (Z.lor (Z.shiftl (cm c i) 16) (Z.shiftl (cm c (i + 1)) 8)) (cm c (i + 2))).
Definition get_array_be_to_le32 (c : list Z) (i : nat) : Z :=
  u32 (Z.lor (Z.lor (Z.lor (Z.shiftl (cm c i) 24) (Z.shiftl (cm c (i + 1)) 16)) (Z.shiftl (cm c (i + 2)) 8))
         (cm c (i + 3))).

(** ** Endpoints *)

Definition raise_exception (new_state : ums_state) : M (gadget D) unit :=
  u ← ums;
  when (rank (state u) <=? rank new_state)
    (upd (set_state new_state);; upd (set_thread_wakeup_needed true)).

Definition ums_handle_ep0_ctrl : M (gadget D) unit :=
  r ← dev usbd_handle_ep0_ctrl_setup;
  when (c_true r) (raise_exception UMS_STATE_PROTOCOL_RESET).

Definition ums_wedge_bulk_in_endpoint : M (gadget D) Z := mret UMS_RES_OK.
Definition ums_set_stall (ep : Z) : M (gadget D) Z :=
  dev_ (usbd_set_ep_stall ep USB_EP_CFG_STALL);; mret UMS_RES_OK.
Definition ums_clear_stall (ep : Z) : M (gadget D) Z :=
  dev_ (usbd_set_ep_stall ep USB_EP_CFG_CLEAR);; mret UMS_RES_OK.
Definition ums_flush_endpoint (ep : Z) : M (gadget D) unit := dev_ (usbd_flush_endpoint ep).

(** What follows a transfer: its status and the bytes moved. *)
Definition in_result (r : Z * Z) : M (gadget D) unit :=
  upd_bulk (set_in_status r.1);; upd_bulk (set_in_actual (u32 r.2)).
Definition out_result (r : Z * Z) : M (gadget D) unit :=
  upd_bulk (set_out_status r.1);; upd_bulk (set_out_actual (u32 r.2)).

Definition _ums_transfer_start (ep sync_timeout : Z) : M (gadget D) unit :=
  u ← ums;
  let b := bulk u in
  if ep =? USB_EP_BULK_IN then
    r ← dev (usb_device_ep1_in_write (in_buf b) (in_length b) (in_actual b) sync_timeout);
    in_result r;;
    (if r.1 =? USB_ERROR_XFER_ERROR then
       say (SetText "#FFDD00 Error:# EP IN transfer!" []);; ums_flush_endpoint USB_EP_BULK_IN
     else when (r.1 =? USB2_ERROR_XFER_NOT_ALIGNED) (say (SetText "#FFDD00 Error:# EP IN Buffer not aligned!" [])));;
    when (c_true sync_timeout) (upd_bulk (set_in_state BUF_STATE_EMPTY))
  else
    r ← dev (usb_device_ep1_out_read (out_buf b) (out_length b) (out_actual b) sync_timeout);
    out_result r;;
    (if r.1 =? USB_ERROR_XFER_ERROR then
       say (SetText "#FFDD00 Error:# EP OUT transfer!" []);; ums_flush_endpoint USB_EP_BULK_OUT
     else when (r.1 =? USB2_ERROR_XFER_NOT_ALIGNED) (say (SetText "#FFDD00 Error:# EP OUT Buffer not aligned!" [])));;
    when (c_true sync_timeout) (upd_bulk (set_out_state BUF_STATE_FULL)).

Definition _ums_transfer_out_big_read : M (gadget D) unit :=
  u ← ums;
  let b := bulk u in
  r ← dev (usb_device_ep1_out_read_big (out_buf b) (out_length b) (out_actual b));
  out_result r;;
  when (r.1 =? USB_ERROR_XFER_ERROR)
    (say (SetText "#FFDD00 Error:# EP OUT transfer!" []);; ums_flush_endpoint USB_EP_BULK_OUT);;
  upd_bulk (set_out_state BUF_STATE_FULL).

Definition _ums_transfer_finish (ep : Z) : M (gadget D) unit :=
  u ← ums;
  let b := bulk u in
  if ep =? USB_EP_BULK_IN then
    r ← dev (usb_device_ep1_in_writing_finish (in_actual b));
    in_result r;;
    when (r.1 =? USB_ERROR_XFER_ERROR)
      (say (SetText "#FFDD00 Error:# EP IN transfer!" []);; ums_flush_endpoint USB_EP_BULK_IN);;
    upd_bulk (set_in_state BUF_STATE_EMPTY)
  else
    r ← dev (usb_device_ep1_out_reading_finish (out_actual b));
    out_result r;;
    when (r.1 =? USB_ERROR_XFER_ERROR)
      (say (SetText "#FFDD00 Error:# EP OUT transfer!" []);; ums_flush_endpoint USB_EP_BULK_OUT);;
    upd_bulk (set_out_state BUF_STATE_FULL).

Definition _ums_reset_buffer (ep : Z) : M (gadget D) unit :=
  if ep =? USB_EP_BULK_IN then upd_bulk (set_in_buf USB_EP_BULK_IN_BUF_ADDR)
  else upd_bulk (set_out_buf USB_EP_BULK_OUT_BUF_ADDR).

(** ** Reading and writing *)

(** The first block of a READ or WRITE; [None] when a flag is not supported. *)
Definition get_lba (op6 : Z) : M (gadget D) (option Z) :=
  u ← ums;
  let c := cmnd u in
  if cm c 0 =? op6 then mret (Some (get_array_be_to_le24 c 1))
  else if c_true (Z.land (cm c 1) (Z.lnot 0x18))
  then sense SS_INVALID_FIELD_IN_CDB;; mret None
  else mret (Some (get_array_be_to_le32 c 2)).

Fixpoint scsi_read_loop (n : nat) (lba_offset amount_left max_io_transfer : Z) (first_read : bool)
    (sdmmc_buf : Z) : M (gadget D) unit :=
  match n with
  | O => nofuel
  | S n =>
      u ← ums;
      let amount := Z.min (Z.min amount_left max_io_transfer) (u32 (num_sectors (lun u) - lba_offset)) in
      if amount =? 0 then
        sense_at SS_LOGICAL_BLOCK_ADDRESS_OUT_OF_RANGE lba_offset;;
        upd_bulk (set_in_length 0);;
        upd_bulk (set_in_state BUF_STATE_FULL)
      else
        ok ← dev (dev_read (u32 (lun_offset (lun u) + lba_offset)) amount sdmmc_buf);
        let amount := if (ok : bool) then amount else 0 in
        when (negb first_read) (_ums_transfer_finish USB_EP_BULK_IN);;
        let lba_offset := u32 (lba_offset + amount) in
        let amount_left := u32 (amount_left - amount) in
        let bytes := u32 (Z.shiftl amount UMS_DISK_LBA_SHIFT) in
        upd (fun u => set_residue (u32 (residue u - bytes)) u);;
        upd_bulk (set_in_length bytes);;
        upd_bulk (set_in_state BUF_STATE_FULL);;
        upd_bulk (set_in_buf sdmmc_buf);;
        if amount =? 0 then
          say (SetText "#FFDD00 Error:# SDMMC Read!" []);;
          sense_at SS_UNRECOVERED_READ_ERROR lba_offset
        else if amount_left =? 0 then mret tt
        else
          _ums_transfer_start USB_EP_BULK_IN USB_XFER_START;;
          scsi_read_loop n lba_offset amount_left max_io_transfer false (u32 (sdmmc_buf + bytes))
  end.

Definition _scsi_read : M (gadget D) Z :=
  lba ← get_lba SC_READ_6;
  match lba with
  | None => mret UMS_RES_INVALID_ARG
  | Some lba_offset =>
      u ← ums;
      if num_sectors (lun u) <=? lba_offset then refuse SS_LOGICAL_BLOCK_ADDRESS_OUT_OF_RANGE
      else
        let amount_left := Z.shiftr (data_size_from_cmnd u) UMS_DISK_LBA_SHIFT in
        if amount_left =? 0 then mret UMS_RES_IO_ERROR
        else
          let max_io_transfer :=
            if UMS_SCSI_TRANSFER_512K <=? amount_left
            then UMS_DISK_MAX_IO_TRANSFER_64K else UMS_DISK_MAX_IO_TRANSFER_32K in
          scsi_read_loop fuel lba_offset amount_left max_io_transfer true SDXC_BUF_ALIGNED;;
          mret UMS_RES_IO_ERROR
  end.

(** The part of a round of [_scsi_write] that works on a filled buffer: whether
    the loop ends, and the position and the bytes left to write. *)
Definition scsi_write_buffer (lba_offset left_to_write : Z) : M (gadget D) (bool * Z * Z) :=
  u ← ums;
  let b := bulk u in
  if c_true (out_status b) then
    sense_at SS_COMMUNICATION_FAILURE lba_offset;;
    say (SetText "#FFDD00 Error:# Write - Comm failure %d!" [out_status b]);;
    mret (true, lba_offset, left_to_write)
  else
    let room := u32 (num_sectors (lun u) - lba_offset) in
    let amount := if room <? Z.shiftr (out_actual b) UMS_DISK_LBA_SHIFT
                  then u32 (Z.shiftl room UMS_DISK_LBA_SHIFT) else out_actual b in
    let amount := Z.min amount (out_length b) in
    let amount := amount - Z.land amount 511 in
    let empty_write lba_offset left_to_write :=
      if out_actual b <? out_length b then
        say (SetText "#FFDD00 Error:# Empty Write!" []);;
        upd (set_short_packet_received true);;
        mret (true, lba_offset, left_to_write)
      else mret (false, lba_offset, left_to_write) in
    if amount =? 0 then empty_write lba_offset left_to_write
    else
      ok ← dev (dev_write (u32 (lun_offset (lun u) + lba_offset)) (Z.shiftr amount UMS_DISK_LBA_SHIFT) (out_buf b));
      let amount := if (ok : bool) then amount else 0 in
      let lba_offset := u32 (lba_offset + Z.shiftr amount UMS_DISK_LBA_SHIFT) in
      let left_to_write := u32 (left_to_write - amount) in
      upd (fun u => set_residue (u32 (residue u - amount)) u);;
      if amount =? 0 then
        say (SetText "#FFDD00 Error:# SDMMC Write!" []);;
        sense_at SS_WRITE_ERROR lba_offset;;
        mret (true, lba_offset, left_to_write)
      else empty_write lba_offset left_to_write.

Fixpoint scsi_write_loop (n : nat) (usb_lba_offset lba_offset left_to_req left_to_write : Z)
    : M (gadget D) unit :=
  match n with
  | O => nofuel
  | S n =>
      if left_to_write =? 0 then mret tt
      else
        u ← ums;
        if c_true left_to_req && (num_sectors (lun u) <=? usb_lba_offset) then
          say (SetText "#FFDD00 Error:# Write - Past last sector!" []);;
          sense_at SS_LOGICAL_BLOCK_ADDRESS_OUT_OF_RANGE usb_lba_offset;;
          scsi_write_loop n usb_lba_offset lba_offset 0 left_to_write
        else
          let amount := Z.min left_to_req UMS_EP_OUT_MAX_XFER in
          when (c_true left_to_req)
            (upd (fun u => set_usb_amount_left (u32 (usb_amount_left u - amount)) u);;
             upd_bulk (set_out_length amount);;
             _ums_transfer_out_big_read);;
          let usb_lba_offset := u32 (usb_lba_offset + Z.shiftr amount UMS_DISK_LBA_SHIFT) in
          let left_to_req := u32 (left_to_req - amount) in
          u ← ums;
          if bool_decide (out_state (bulk u) = BUF_STATE_FULL) then
            upd_bulk (set_out_state BUF_STATE_EMPTY);;
            r ← scsi_write_buffer lba_offset left_to_write;
            let '(stop, lba_offset, left_to_write) := r in
            if (stop : bool) then mret tt
            else scsi_write_loop n usb_lba_offset lba_offset left_to_req left_to_write
          else scsi_write_loop n usb_lba_offset lba_offset left_to_req left_to_write
  end.

Definition _scsi_write : M (gadget D) Z :=
  u ← ums;
  if ro (lun u) then refuse SS_WRITE_PROTECTED
  else
    lba ← get_lba SC_WRITE_6;
    match lba with
    | None => mret UMS_RES_INVALID_ARG
    | Some lba_offset =>
        if num_sectors (lun u) <=? lba_offset then refuse SS_LOGICAL_BLOCK_ADDRESS_OUT_OF_RANGE
        else
          scsi_write_loop fuel lba_offset lba_offset (data_size_from_cmnd u) (data_size_from_cmnd u);;
          mret UMS_RES_IO_ERROR
    end.

Fixpoint scsi_verify_loop (n : nat) (lba_offset verification_length : Z) : M (gadget D) unit :=
  match n with
  | O => nofuel
  | S n =>
      if verification_length =? 0 then mret tt
      else
        u ← ums;
        let amount := Z.min (Z.min verification_length (Z.shiftr USB_EP_BUFFER_MAX_SIZE UMS_DISK_LBA_SHIFT))
                        (u32 (num_sectors (lun u) - lba_offset)) in
        if amount =? 0 then sense_at SS_LOGICAL_BLOCK_ADDRESS_OUT_OF_RANGE lba_offset
        else
          ok ← dev (dev_read (u32 (lun_offset (lun u) + lba_offset)) amount (in_buf (bulk u)));
          if negb ok then
            say (SetText "#FFDD00 Error:# File verify!" []);;
            sense_at SS_UNRECOVERED_READ_ERROR lba_offset
          else scsi_verify_loop n (u32 (lba_offset + amount)) (u32 (verification_length - amount))
  end.

Definition _scsi_verify : M (gadget D) Z :=
  u ← ums;
  let c := cmnd u in
  let lba_offset := get_array_be_to_le32 c 2 in
  if num_sectors (lun u) <=? lba_offset then refuse SS_LOGICAL_BLOCK_ADDRESS_OUT_OF_RANGE
  else if c_true (Z.land (cm c 1) (Z.lnot 0x10)) then refuse SS_INVALID_FIELD_IN_CDB
  else
    let verification_length := get_array_be_to_le16 c 7 in
    if verification_length =? 0 then mret UMS_RES_IO_ERROR
    else scsi_verify_loop fuel lba_offset verification_length;; mret UMS_RES_OK.

(** ** The other commands *)

(** [strlen]. *)
Fixpoint cstrlen (n : nat) (p : Z) : M (gadget D) Z :=
  match n with
  | O => nofuel
  | S n => m ← ram; if ld8 m p =? 0 then mret 0 else l ← cstrlen n (p + 1); mret (l + 1)
  end.
(** [strcpy] of a constant. *)
Definition strcpy (p : Z) (s : string) : M (gadget D) unit := mem_ (fun m => st_bytes m p (chars s ++ [0])).
(** [s_printf]. *)
Definition printf_at (p : Z) (fmt : string) (ap : list va) : M (gadget D) unit := fun g =>
  let '(o, m) := s_printf p (chars fmt) ap (dev_ram (g_dev g)) in
  (o, Gadget (g_ums g) (dev_set_ram m (g_dev g)) (timer_dram g) (timer_status_bar g)).
Definition clear (p len : Z) : M (gadget D) unit := mem_ (fun m => memset m p 0 (Z.to_nat len)).

(** The unit serial number page, at [buf]. *)
Definition inquiry_serial (buf : Z) : M (gadget D) Z :=
  u ← ums;
  store buf 0;; store (buf + 1) (cm (cmnd u) 2);; store (buf + 2) 0;; store (buf + 3) 20;;
  let buf := buf + 4 in
  g ← get;
  printf_at buf "%04X%s"
    [VaU32 (cid_serial (g_dev g)); VaStr (Some (chars (if lun_type (lun u) =? MMC_SD then " SD " else " eMMC ")))];;
  l ← cstrlen fuel buf;
  (if lun_partition (lun u) =? 0 then strcpy (buf + l) "RAW"
   else if lun_partition (lun u) =? EMMC_GPP + 1 then printf_at (buf + l) "GPP" []
   else if lun_partition (lun u) =? EMMC_BOOT0 + 1 then printf_at (buf + l) "BOOT0" []
   else when (lun_partition (lun u) =? EMMC_BOOT1 + 1) (printf_at (buf + l) "BOOT1" []));;
  l ← cstrlen fuel buf;
  mem_ (fun m => memset m (buf + l) 32 (Z.to_nat (20 - l)));;
  mret 24.

Definition inquiry_standard (buf : Z) : M (gadget D) Z :=
  u ← ums;
  store buf 0;; store (buf + 1) (if removable (lun u) then 0x80 else 0);;
  store (buf + 2) 6;; store (buf + 3) 2;; store (buf + 4) 31;;
  let buf := buf + 8 in
  strcpy buf "hekate";;
  let buf := buf + 8 in
  let medium := VaStr (Some (chars (if lun_type (lun u) =? MMC_SD then "SD " else "eMMC "))) in
  (if lun_partition (lun u) =? 0 then printf_at buf "%s" [VaStr (Some (chars "SD RAW"))]
   else if lun_partition (lun u) =? EMMC_GPP + 1 then printf_at buf "%s%s" [medium; VaStr (Some (chars "GPP"))]
   else if lun_partition (lun u) =? EMMC_BOOT0 + 1 then printf_at buf "%s%s" [medium; VaStr (Some (chars "BOOT0"))]
   else when (lun_partition (lun u) =? EMMC_BOOT1 + 1)
          (printf_at buf "%s%s" [medium; VaStr (Some (chars "BOOT1"))]));;
  let buf := buf + 16 in
  strcpy buf "1.00";;
  mret 36.

Definition _scsi_inquiry : M (gadget D) Z :=
  u ← ums;
  let buf := in_buf (bulk u) in
  clear buf 36;;
  if (cm (cmnd u) 1 =? 1) && (cm (cmnd u) 2 =? 0x80) then inquiry_serial buf else inquiry_standard buf.

(** [sense_data], [sense_data_info] and [info_valid] of no error. *)
Definition clear_sense : M (gadget D) unit :=
  sense SS_NO_SENSE;; upd_lun (set_sense_data_info 0);; upd_lun (set_info_valid 0).

Definition _scsi_request_sense : M (gadget D) Z :=
  u ← ums;
  let buf := in_buf (bulk u) in
  let sd := sense_data (lun u) in
  let sdinfo := sense_data_info (lun u) in
  let valid := Z.shiftl (info_valid (lun u)) 7 in
  clear_sense;;
  clear buf 18;;
  store buf (Z.lor valid 0x70);;
  store (buf + 2) (SK sd);;
  put_array_le_to_be32 sdinfo (buf + 3);;
  store (buf + 7) (18 - 8);;
  store (buf + 12) (ASC sd);;
  store (buf + 13) (ASCQ sd);;
  mret 18.

Definition _scsi_read_capacity : M (gadget D) Z :=
  u ← ums;
  let buf := in_buf (bulk u) in
  let lba := get_array_be_to_le32 (cmnd u) 2 in
  let pmi := cm (cmnd u) 8 in
  if (1 <? pmi) || ((pmi =? 0) && c_true lba) then refuse SS_INVALID_FIELD_IN_CDB
  else
    put_array_le_to_be32 (u32 (num_sectors (lun u) - 1)) buf;;
    put_array_le_to_be32 UMS_DISK_LBA_SIZE (buf + 4);;
    mret 8.

Definition _scsi_log_sense : M (gadget D) Z :=
  u ← ums;
  let c := cmnd u in
  let buf := in_buf (bulk u) in
  let pc := Z.shiftr (cm c 2) 6 in
  let page_code := Z.land (cm c 2) 0x3F in
  let sub_page_code := cm c 3 in
  if c_true (Z.land (cm c 1) 1) then refuse SS_SAVING_PARAMETERS_NOT_SUPPORTED
  else if negb (pc =? 1) then refuse SS_INVALID_FIELD_IN_CDB
  else
    clear buf 8;;
    if (page_code =? 0) && negb (c_true sub_page_code) then
      store buf 0;;
      store (buf + 4) 0;; store (buf + 5) 0x0D;;
      put_array_le_to_be16 (6 - 4) (buf + 2);;
      mret 6
    else if (page_code =? 0x0D) && negb (c_true sub_page_code) then
      store buf 0x0D;;
      let p := buf + 4 in
      put_array_le_to_be16 0 p;;
      store (p + 2) 1;; store (p + 3) 2;; store (p + 4) 0;; store (p + 5) 35;;
      put_array_le_to_be16 0 (p + 6);;
      store (p + 8) 1;; store (p + 9) 2;; store (p + 10) 0;; store (p + 11) 60;;
      put_array_le_to_be16 (16 - 4) (buf + 2);;
      mret 16
    else refuse SS_INVALID_FIELD_IN_CDB.

(** The caching page, at [buf]. *)
Definition caching_page (changeable_values : bool) (buf : Z) : M (gadget D) unit :=
  store buf 0x08;; store (buf + 1) 18;; clear (buf + 2) 18;;
  when (negb changeable_values)
    (store (buf + 2) 0x04;;
     put_array_le_to_be16 0xFFFF (buf + 4);;
     put_array_le_to_be16 0x0000 (buf + 6);;
     put_array_le_to_be16 0xFFFF (buf + 8);;
     put_array_le_to_be16 0xFFFF (buf + 10)).

Definition _scsi_mode_sense : M (gadget D) Z :=
  u ← ums;
  let c := cmnd u in
  let buf := in_buf (bulk u) in
  let pc := Z.shiftr (cm c 2) 6 in
  let page_code := Z.land (cm c 2) 0x3F in
  let changeable_values := pc =? 1 in
  let all_pages := page_code =? 0x3F in
  if c_true (Z.land (cm c 1) (Z.lnot 0x08)) then refuse SS_INVALID_FIELD_IN_CDB
  else if pc =? 3 then refuse SS_SAVING_PARAMETERS_NOT_SUPPORTED
  else
    clear buf 8;;
    let mode6 := cm c 0 =? SC_MODE_SENSE_6 in
    let header := if mode6 then 4 else 8 in
    store (buf + (if mode6 then 2 else 3)) (if ro (lun u) then 0x80 else 0x00);;
    if (page_code =? 0x08) || all_pages then
      caching_page changeable_values (buf + header);;
      let len := header + 20 in
      (if mode6 then store buf (len - 1) else put_array_le_to_be16 (len - 2) buf);;
      mret len
    else refuse SS_INVALID_FIELD_IN_CDB.

Definition _scsi_start_stop : M (gadget D) Z :=
  u ← ums;
  let c := cmnd u in
  if negb (removable (lun u)) then refuse SS_INVALID_COMMAND
  else if c_true (Z.land (cm c 1) (Z.lnot 0x01)) || c_true (Z.land (cm c 4) (Z.lnot 0x03))
  then refuse SS_INVALID_FIELD_IN_CDB
  else
    let loej := Z.land (cm c 4) 0x02 in
    let start := Z.land (cm c 4) 0x01 in
    if c_true start then
      if unmounted (lun u) then refuse SS_MEDIUM_NOT_PRESENT else mret UMS_RES_OK
    else if prevent_medium_removal (lun u) then
      say (SetText "#C7EA46 Status:# Unload attempt prevented" []);;
      refuse SS_MEDIUM_REMOVAL_PREVENTED
    else if negb (c_true loej) then mret UMS_RES_OK
    else upd_lun (set_unmounted true);; mret UMS_RES_OK.

Definition _scsi_prevent_allow_removal : M (gadget D) Z :=
  u ← ums;
  let c := cmnd u in
  if negb (removable (lun u)) then refuse SS_INVALID_COMMAND
  else if c_true (Z.land (cm c 4) (Z.lnot 0x01)) then refuse SS_INVALID_FIELD_IN_CDB
  else upd_lun (set_prevent_medium_removal (c_true (Z.land (cm c 4) 0x01)));; mret UMS_RES_OK.

Definition _scsi_read_format_capacities : M (gadget D) Z :=
  u ← ums;
  let buf := in_buf (bulk u) in
  store (buf + 2) 0;; store (buf + 1) 0;; store buf 0;; store (buf + 3) 8;;
  let buf := buf + 4 in
  put_array_le_to_be32 (num_sectors (lun u)) buf;;
  put_array_le_to_be32 UMS_DISK_LBA_SIZE (buf + 4);;
  store (buf + 4) 0x02;;
  mret 12.

(** ** The switch *)

(** Whether a byte of the command that the mask does not list is set. *)
Definition stray_bytes (c : list Z) (size mask : Z) : bool :=
  existsb (fun i => c_true (cm c i) && negb (c_true (Z.land mask (BIT (Z.of_nat i))))) (seq 1 (Z.to_nat size - 1)).

Definition phase_fault : M (gadget D) Z := upd (set_phase_error true);; mret UMS_RES_INVALID_ARG.

Definition _ums_check_scsi_cmd (size : Z) (dir : data_direction) (mask : Z) (needs_medium : bool)
    : M (gadget D) Z :=
  u ← ums;
  let dir := if data_size_from_cmnd u =? 0 then DATA_DIR_NONE else dir in
  when (data_size u <? data_size_from_cmnd u)
    (upd (set_data_size_from_cmnd (data_size u));; upd (set_phase_error true));;
  upd (set_residue (data_size u));;
  upd (set_usb_amount_left (data_size u));;
  u ← ums;
  if negb (bool_decide (data_dir u = dir)) && (0 <? data_size_from_cmnd u) then phase_fault
  else if negb (size =? cmnd_size u) && negb (size <=? cmnd_size u) then phase_fault
  else
    let size := if size =? cmnd_size u then size else cmnd_size u in
    when (negb (cm (cmnd u) 0 =? SC_REQUEST_SENSE)) clear_sense;;
    if c_true (unit_attention_data (lun u)) && negb (cm (cmnd u) 0 =? SC_INQUIRY)
       && negb (cm (cmnd u) 0 =? SC_REQUEST_SENSE)
    then
      sense (unit_attention_data (lun u));;
      upd_lun (set_unit_attention_data SS_NO_SENSE);;
      mret UMS_RES_INVALID_ARG
    else
      upd (fun u => set_cmnd (<[1%nat := Z.land (cm (cmnd u) 1) 0x1F]> (cmnd u)) u);;
      u ← ums;
      if stray_bytes (cmnd u) size mask then refuse SS_INVALID_FIELD_IN_CDB
      else if unmounted (lun u) && needs_medium then refuse SS_MEDIUM_NOT_PRESENT
      else mret UMS_RES_OK.

(** A case of the switch: the length the command asks for, the check, and what it does. *)
Definition command (len size : Z) (dir : data_direction) (mask : Z) (needs_medium : bool)
    (run : M (gadget D) Z) : M (gadget D) Z :=
  upd (set_data_size_from_cmnd len);;
  reply ← _ums_check_scsi_cmd size dir mask needs_medium;
  if reply =? 0 then run else mret reply.

Definition scsi_command : M (gadget D) Z :=
  u ← ums;
  let c := cmnd u in
  let op := cm c 0 in
  let len6 := cm c 4 in
  let len10 := get_array_be_to_le16 c 7 in
  let blocks6 := Z.shiftl (if len6 =? 0 then 256 else len6) UMS_DISK_LBA_SHIFT in
  let blocks10 := Z.shiftl len10 UMS_DISK_LBA_SHIFT in
  let blocks12 := u32 (Z.shiftl (get_array_be_to_le32 c 6) UMS_DISK_LBA_SHIFT) in
  let m123_4 := Z.lor (Z.shiftl 7 1) (Z.shiftl 1 4) in
  let m1_25_78 := Z.lor (Z.lor (Z.shiftl 1 1) (Z.shiftl 0xf 2)) (Z.shiftl 3 7) in
  let m1_25_69 := Z.lor (Z.lor (Z.shiftl 1 1) (Z.shiftl 0xf 2)) (Z.shiftl 0xf 6) in
  let m12_4 := Z.lor (Z.lor (Z.shiftl 1 1) (Z.shiftl 1 2)) (Z.shiftl 1 4) in
  let m12_78 := Z.lor (Z.lor (Z.shiftl 1 1) (Z.shiftl 1 2)) (Z.shiftl 3 7) in
  if op =? SC_INQUIRY then
    let mask := if (cm c 1 =? 1) && (cm c 2 =? 0x80) then m12_4 else Z.shiftl 1 4 in
    command len6 6 DATA_DIR_TO_HOST mask false _scsi_inquiry
  else if op =? SC_LOG_SENSE then command len10 10 DATA_DIR_TO_HOST m12_78 false _scsi_log_sense
  else if op =? SC_MODE_SELECT_6 then
    command len6 6 DATA_DIR_FROM_HOST (Z.lor (Z.shiftl 1 1) (Z.shiftl 1 4)) false (refuse SS_INVALID_COMMAND)
  else if op =? SC_MODE_SELECT_10 then
    command len10 10 DATA_DIR_FROM_HOST (Z.lor (Z.shiftl 1 1) (Z.shiftl 3 7)) false (refuse SS_INVALID_COMMAND)
  else if op =? SC_MODE_SENSE_6 then command len6 6 DATA_DIR_TO_HOST m12_4 false _scsi_mode_sense
  else if op =? SC_MODE_SENSE_10 then command len10 10 DATA_DIR_TO_HOST m12_78 false _scsi_mode_sense
  else if op =? SC_PREVENT_ALLOW_MEDIUM_REMOVAL then
    command 0 6 DATA_DIR_NONE (Z.shiftl 1 4) false _scsi_prevent_allow_removal
  else if op =? SC_READ_6 then command blocks6 6 DATA_DIR_TO_HOST m123_4 true _scsi_read
  else if op =? SC_READ_10 then command blocks10 10 DATA_DIR_TO_HOST m1_25_78 true _scsi_read
  else if op =? SC_READ_12 then command blocks12 12 DATA_DIR_TO_HOST m1_25_69 true _scsi_read
  else if op =? SC_READ_CAPACITY then
    command 8 10 DATA_DIR_TO_HOST (Z.lor (Z.shiftl 0xf 2) (Z.shiftl 1 8)) true _scsi_read_capacity
  else if op =? SC_READ_FORMAT_CAPACITIES then
    command len10 10 DATA_DIR_TO_HOST (Z.shiftl 3 7) true _scsi_read_format_capacities
  else if op =? SC_REQUEST_SENSE then command len6 6 DATA_DIR_TO_HOST (Z.shiftl 1 4) false _scsi_request_sense
  else if op =? SC_START_STOP_UNIT then
    command 0 6 DATA_DIR_NONE (Z.lor (Z.shiftl 1 1) (Z.shiftl 1 4)) false _scsi_start_stop
  else if op =? SC_SYNCHRONIZE_CACHE then
    command 0 10 DATA_DIR_NONE (Z.lor (Z.shiftl 0xf 2) (Z.shiftl 3 7)) true (mret 0)
  else if op =? SC_TEST_UNIT_READY then command 0 6 DATA_DIR_NONE 0 true (mret 0)
  else if op =? SC_VERIFY then command 0 10 DATA_DIR_NONE m1_25_78 true _scsi_verify
  else if op =? SC_WRITE_6 then command blocks6 6 DATA_DIR_FROM_HOST m123_4 true _scsi_write
  else if op =? SC_WRITE_10 then command blocks10 10 DATA_DIR_FROM_HOST m1_25_78 true _scsi_write
  else if op =? SC_WRITE_12 then command blocks12 12 DATA_DIR_FROM_HOST m1_25_69 true _scsi_write
  else command 0 (cmnd_size u) DATA_DIR_UNKNOWN 0xFF false (refuse SS_INVALID_COMMAND).

Definition _ums_parse_scsi_cmd : M (gadget D) Z :=
  upd (set_phase_error false);;
  upd (set_short_packet_received false);;
  reply ← scsi_command;
  let reply := if reply =? UMS_RES_INVALID_ARG then 0 else reply in
  u ← ums;
  when ((0 <=? reply) && bool_decide (data_dir u = DATA_DIR_TO_HOST))
    (let reply := Z.min reply (data_size_from_cmnd u) in
     upd_bulk (set_in_length reply);;
     upd_bulk (set_in_state BUF_STATE_FULL);;
     upd (fun u => set_residue (u32 (residue u - reply)) u));;
  mret UMS_RES_OK.

(** ** The end of a command *)

Fixpoint pad_loop (n : nat) (current_len_to_keep : Z) : M (gadget D) unit :=
  match n with
  | O => nofuel
  | S n =>
      u ← ums;
      if 0 <? usb_amount_left u then
        let nsend := Z.min (usb_amount_left u) USB_EP_BUFFER_MAX_SIZE in
        clear (in_buf (bulk u) + current_len_to_keep) (u32 (nsend - current_len_to_keep));;
        upd_bulk (set_in_length nsend);;
        _ums_transfer_start USB_EP_BULK_IN USB_XFER_SYNCED_DATA;;
        upd (fun u => set_usb_amount_left (u32 (usb_amount_left u - nsend)) u);;
        pad_loop n 0
      else mret tt
  end.

Definition pad_with_zeros : M (gadget D) Z :=
  upd_bulk (set_in_state BUF_STATE_EMPTY);;
  u ← ums;
  let current_len_to_keep := in_length (bulk u) in
  upd (set_usb_amount_left (u32 (current_len_to_keep + residue u)));;
  pad_loop fuel current_len_to_keep;;
  mret UMS_RES_OK.

Definition throw_away_data : M (gadget D) Z :=
  u ← ums;
  let b := bulk u in
  if negb (bool_decide (out_state b = BUF_STATE_EMPTY)) || (0 <? usb_amount_left u) then
    if bool_decide (out_state b = BUF_STATE_EMPTY) && (0 <? usb_amount_left u) then
      let amount := Z.min (usb_amount_left u) USB_EP_BUFFER_MAX_SIZE in
      upd_bulk (set_out_length amount);;
      _ums_transfer_start USB_EP_BULK_OUT USB_XFER_SYNCED_DATA;;
      upd (fun u => set_usb_amount_left (u32 (usb_amount_left u - amount)) u);;
      mret UMS_RES_OK
    else
      when (bool_decide (out_state b = BUF_STATE_FULL)) (upd_bulk (set_out_state BUF_STATE_EMPTY));;
      if negb (out_actual b =? out_length b) || negb (out_status b =? USB_RES_OK)
      then raise_exception UMS_STATE_ABORT_BULK_OUT;; mret UMS_RES_PROT_FATAL
      else mret UMS_RES_OK
  else mret UMS_RES_OK.

Definition finish_reply : M (gadget D) Z :=
  u ← ums;
  match data_dir u with
  | DATA_DIR_NONE => mret UMS_RES_OK
  | DATA_DIR_UNKNOWN =>
      if can_stall u then
        _ ← ums_set_stall USB_EP_BULK_OUT;
        rc ← ums_set_stall USB_EP_BULK_IN;
        say (SetText "#FFDD00 Error:# Direction unknown. Stalled both EP!" []);;
        mret rc
      else mret UMS_RES_OK
  | DATA_DIR_TO_HOST =>
      rc ← (if c_true (data_size u) then
              if negb (c_true (residue u)) then
                _ums_transfer_start USB_EP_BULK_IN USB_XFER_SYNCED_DATA;; mret UMS_RES_OK
              else if can_stall u then
                _ums_transfer_start USB_EP_BULK_IN USB_XFER_SYNCED_DATA;;
                rc ← ums_set_stall USB_EP_BULK_IN;
                say (SetText "#FFDD00 Error:# Residue. Stalled EP IN!" []);;
                mret rc
              else pad_with_zeros
            else mret UMS_RES_OK);
      _ums_reset_buffer USB_EP_BULK_IN;;
      mret rc
  | DATA_DIR_FROM_HOST =>
      if c_true (residue u) then
        if short_packet_received u
        then raise_exception UMS_STATE_ABORT_BULK_OUT;; mret UMS_RES_PROT_FATAL
        else throw_away_data
      else mret UMS_RES_OK
  end.

(** ** Command and status wrappers *)

(** The count of time-outs, when there was no packet or the medium is gone. *)
Definition count_timeouts : M (gadget D) unit :=
  u ← ums;
  let status := out_status (bulk u) in
  let add k := upd (fun u => set_timeouts (u32 (timeouts u + k)) u) in
  when ((status =? USB2_ERROR_XFER_EP_DISABLED)
        || ((status =? USB_ERROR_TIMEOUT) && removable (lun u) && negb (prevent_medium_removal (lun u))))
    (if status =? USB_ERROR_TIMEOUT then
       asleep ← dev usb_device_get_port_in_sleep;
       if (asleep : bool) then say (SetText "#C7EA46 Status:# EP in sleep" []);; add 14
       else when (negb (xusb u)) (add 4)
     else say (Console "USB: EP disabled" []);; dev_ (dev_msleep 500);; add 4);;
  when (unmounted (lun u)) (say (SetText "#C7EA46 Status:# Medium unmounted" []);; add 1);;
  u ← ums;
  when (20 <? timeouts u) (raise_exception UMS_STATE_EXIT).

(** The part of [received_cbw] that works on a received wrapper. *)
Definition save_cbw : M (gadget D) Z :=
  u ← ums;
  m ← ram;
  let p := out_buf (bulk u) in
  let signature := ld32 m p in
  let tag := ld32 m (p + 4) in
  let length := ld32 m (p + 8) in
  let flags := ld8 m (p + 12) in
  let lun_ := ld8 m (p + 13) in
  let size := ld8 m (p + 14) in
  if negb (out_actual (bulk u) =? USB_BULK_CB_WRAP_LEN) || negb (signature =? USB_BULK_CB_SIG) then
    say (Console "USB: invalid CBW: len %X sig 0x%X" [out_actual (bulk u); signature]);;
    _ ← ums_wedge_bulk_in_endpoint;
    upd_bulk (set_out_ignore true);;
    mret UMS_RES_INVALID_ARG
  else if (UMS_MAX_LUN <=? lun_) || c_true (Z.land flags (Z.lnot USB_BULK_IN_FLAG))
       || (size <=? 0) || (SCSI_MAX_CMD_SZ <? size) then
    say (Console "USB: non-meaningful CBW: lun = %X, flags = 0x%X, cmdlen %X" [lun_; flags; size]);;
    when (can_stall u)
      (_ ← ums_set_stall USB_EP_BULK_OUT;
       _ ← ums_set_stall USB_EP_BULK_IN;
       say (SetText "#FFDD00 Error:# CBW unknown - Stalled both EP!" []));;
    mret UMS_RES_INVALID_ARG
  else
    upd (set_cmnd_size size);;
    upd (fun u => set_cmnd (ld_bytes m (p + 15) (Z.to_nat size) ++ drop (Z.to_nat size) (cmnd u)) u);;
    upd (set_data_dir (if c_true (Z.land flags USB_BULK_IN_FLAG) then DATA_DIR_TO_HOST else DATA_DIR_FROM_HOST));;
    upd (set_data_size length);;
    when (length =? 0) (upd (set_data_dir DATA_DIR_NONE));;
    upd (set_lun_idx lun_);;
    upd (set_tag tag);;
    when (negb (unmounted (lun u))) (upd (set_timeouts 0));;
    mret UMS_RES_OK.

Definition received_cbw : M (gadget D) Z :=
  u ← ums;
  let b := bulk u in
  when (c_true (out_status b) || unmounted (lun u)) count_timeouts;;
  if c_true (out_status b) || out_ignore b then mret UMS_RES_INVALID_ARG else save_cbw.

Definition get_next_command : M (gadget D) Z :=
  upd_bulk (set_out_length USB_BULK_CB_WRAP_LEN);;
  _ums_transfer_start USB_EP_BULK_OUT USB_XFER_SYNCED_CMD;;
  rc ← received_cbw;
  upd_bulk (set_out_state BUF_STATE_EMPTY);;
  mret rc.

(** The status of a wrapper. *)
Definition csw_status (u : usbd_gadget_ums_t) : Z :=
  if phase_error u then USB_STATUS_PHASE_ERROR
  else if negb (sense_data (lun u) =? SS_NO_SENSE) then USB_STATUS_FAIL else USB_STATUS_PASS.

Definition send_status : M (gadget D) unit :=
  u ← ums;
  when (phase_error u) (say (SetText "#FFDD00 Error:# Phase-error!" []));;
  let p := in_buf (bulk u) in
  mem_ (fun m => st32 m p USB_BULK_CS_SIG);;
  mem_ (fun m => st32 m (p + 4) (tag u));;
  mem_ (fun m => st32 m (p + 8) (residue u));;
  store (p + 12) (csw_status u);;
  upd_bulk (set_in_length USB_BULK_CS_WRAP_LEN);;
  _ums_transfer_start USB_EP_BULK_IN USB_XFER_SYNCED_CMD.

Definition handle_exception : M (gadget D) unit :=
  ums_flush_endpoint USB_EP_BULK_IN;;
  ums_flush_endpoint USB_EP_BULK_OUT;;
  upd_bulk (set_in_state BUF_STATE_EMPTY);;
  upd_bulk (set_out_state BUF_STATE_EMPTY);;
  u ← ums;
  when (negb (bool_decide (state u = UMS_STATE_ABORT_BULK_OUT)))
    (upd_lun (set_prevent_medium_removal false);;
     sense SS_NO_SENSE;;
     upd_lun (set_unit_attention_data SS_NO_SENSE);;
     upd_lun (set_sense_data_info 0);;
     upd_lun (set_info_valid 0));;
  upd (set_state UMS_STATE_NORMAL);;
  match state u with
  | UMS_STATE_NORMAL | UMS_STATE_TERMINATED => mret tt
  | UMS_STATE_ABORT_BULK_OUT => send_status
  | UMS_STATE_PROTOCOL_RESET =>
      when (out_ignore (bulk u))
        (upd_bulk (set_out_ignore false);; _ ← ums_clear_stall USB_EP_BULK_IN; mret tt);;
      upd_lun (set_unit_attention_data SS_RESET_OCCURRED)
  | UMS_STATE_EXIT => upd (set_state UMS_STATE_TERMINATED)
  end.

(** ** The gadget *)

Definition _system_maintainance : M (gadget D) unit :=
  g ← get;
  time ← dev dev_ms;
  if timer_status_bar g <? time then
    dev_ (system_maintenance true);;
    t ← dev dev_ms;
    modify (fun g => Gadget (g_ums g) (g_dev g) (timer_dram g) (u32 (t + 30000)))
  else
    when (timer_dram g <? time)
      (dev_ minerva_periodic_training;;
       t ← dev dev_ms;
       modify (fun g => Gadget (g_ums g) (g_dev g) (u32 (t + EMC_PERIODIC_TRAIN_MS)) (timer_status_bar g))).

(** A step of a command, which is abandoned on an error or an exception. *)
Definition and_then (m : M (gadget D) Z) (k : M (gadget D) unit) : M (gadget D) unit :=
  rc ← m;
  u ← ums;
  if c_true rc || negb (bool_decide (state u = UMS_STATE_NORMAL)) then mret tt else k.

Definition serve_command : M (gadget D) unit :=
  ums_handle_ep0_ctrl;;
  and_then get_next_command (
  ums_handle_ep0_ctrl;;
  and_then _ums_parse_scsi_cmd (
  ums_handle_ep0_ctrl;;
  and_then finish_reply
  send_status)).

(** A round of the loop; [true] when the buttons end it. *)
Definition ums_round : M (gadget D) bool :=
  _system_maintainance;;
  b ← dev dev_buttons;
  u ← ums;
  let both := b =? Z.lor BTN_VOL_UP BTN_VOL_DOWN in
  if both && negb (prevent_medium_removal (lun u)) then mret true
  else
    when both (say (SetText "#C7EA46 Status:# Unload attempt prevented" []));;
    (if negb (bool_decide (state u = UMS_STATE_NORMAL)) then handle_exception else serve_command);;
    mret false.

Fixpoint ums_loop (n : nat) : M (gadget D) unit :=
  match n with
  | O => nofuel
  | S n =>
      stop ← ums_round;
      u ← ums;
      if (stop : bool) || bool_decide (state u = UMS_STATE_TERMINATED) then mret tt else ums_loop n
  end.

(** [usb_ctxt_t], without the callbacks. *)
Record usb_ctxt_t := UsbCtxt {
  ctxt_type : Z; ctxt_partition : Z; ctxt_offset : Z; ctxt_sectors : Z; ctxt_ro : bool
}.

(** [usbd_gadget_ums_t ums = {0}] with the parameters of the unit. *)
Definition ums_init (usbs : usb_ctxt_t) (xusb : bool) : usbd_gadget_ums_t :=
  Ums (Bulk 0 0 0 USB_EP_BULK_IN_BUF_ADDR BUF_STATE_EMPTY 0 0 0 false USB_EP_BULK_OUT_BUF_ADDR BUF_STATE_EMPTY)
    0 (replicate 16 0) 0
    (Lun 0 (ctxt_offset usbs) false (ctxt_ro usbs) (ctxt_type usbs) (ctxt_partition usbs) true false 0 0 0
       SS_RESET_OCCURRED)
    UMS_STATE_NORMAL DATA_DIR_UNKNOWN 0 0 0 0 0 false false false false 0 xusb.

(** The unit: connected, served until it is ejected. *)
Definition ums_connected (usbs : usb_ctxt_t) : M (gadget D) Z :=
  let error := say (SetText "#FFDD00 Error:# Timed out or canceled!" []);; mret 1 in
  say (SetText "#C7EA46 Status:# Waiting for connection" []);;
  r ← dev usb_device_enumerate;
  if c_true r then error
  else
    say (SetText "#C7EA46 Status:# Waiting for LUN" []);;
    r ← dev (usb_device_class_send_max_lun 0);
    if c_true r then error
    else
      say (SetText "#C7EA46 Status:# Started UMS" []);;
      g ← get;
      upd_lun (set_num_sectors (if c_true (ctxt_sectors usbs) then ctxt_sectors usbs else sec_cnt (g_dev g)));;
      ums_loop fuel;;
      say (SetText "#C7EA46 Status:# Disk ejected" []);;
      mret 0.

Definition usb_device_gadget_ums (usbs : usb_ctxt_t) : M (gadget D) Z :=
  t210 ← dev is_t210;
  say (SetText "#C7EA46 Status:# Started USB" []);;
  r ← dev usb_device_init;
  if c_true r then dev_ (usbd_end false true);; mret 1
  else
    upd (fun _ => ums_init usbs (negb t210));;
    say (SetText "#C7EA46 Status:# Mounting disk" []);;
    (if ctxt_type usbs =? MMC_SD then dev_ dev_mount_sd else dev_ (dev_mount_mmc (ctxt_partition usbs)));;
    res ← ums_connected usbs;
    when (ctxt_type usbs =? MMC_EMMC) (dev_ dev_end);;
    dev_ (usbd_end true false);;
    mret res.

End Ums.
