(* ===== verification/UmsSafe.v ===== *)
(** * UmsSafe

    What the mass storage gadget of Ums keeps, whatever the host sends: its
    fields stay in range, and it writes no sector outside the unit, nor any
    sector of a read-only unit. *)

From stdpp Require Import strings.
From S2P Require Import Prelude Mem Gpio Gfx Sprintf SdRw Ums.
#[local] Open Scope Z_scope.

(** ** Triples over an invariant *)

(** From a state of [I], [m] reaches only states of [I] and returns values of [Q]. *)
Definition safe {S A} (I : S -> Prop) (m : M S A) (Q : A -> Prop) : Prop :=
  forall s, I s -> wp m s (fun x s' => Q x /\ I s') I.

Section triples.
Context {S : Type} (I : S -> Prop).
Lemma safe_bind {A B} (m : M S A) (k : A -> M S B) P Q :
  safe I m P -> (forall x, P x -> safe I (k x) Q) -> safe I (m ≫= k) Q.
Proof.
  intros Hm Hk s Hs. apply wp_bind. eapply wp_mono; [exact (Hm s Hs)| |done].
  intros x s' [Hx Hs']. by apply Hk.
Qed.
Lemma safe_weaken {A} (m : M S A) (P Q : A -> Prop) : safe I m P -> (forall x, P x -> Q x) -> safe I m Q.
Proof. intros Hm H s Hs. eapply wp_mono; [exact (Hm s Hs)| |done]. naive_solver. Qed.
Lemma safe_ret {A} (x : A) (Q : A -> Prop) : Q x -> safe I (mret x) Q.
Proof. intros Hx s Hs. by split. Qed.
Lemma safe_nofuel {A} (Q : A -> Prop) : safe I nofuel Q.
Proof. by intros s Hs. Qed.
Lemma safe_if {A} (b : bool) (m1 m2 : M S A) Q :
  (b = true -> safe I m1 Q) -> (b = false -> safe I m2 Q) -> safe I (if b then m1 else m2) Q.
Proof. destruct b; auto. Qed.
Lemma safe_get : safe I get I.
Proof. by intros s Hs. Qed.
Lemma safe_keeps {A} (m : M S A) Q : safe I m Q -> keeps I m.
Proof. intros Hm s Hs. specialize (Hm s Hs). unfold wp in Hm. destruct (m s) as [[x| |] s']; [apply Hm|done|done]. Qed.
End triples.

Definition any {A} (x : A) : Prop := True.
Create HintDb safe.
#[export] Hint Resolve safe_nofuel : safe.

(** ** Fields in range *)

Definition is_u32 (z : Z) : Prop := 0 <= z < 4294967296.
Definition is_byte (z : Z) : Prop := 0 <= z < 256.

(** The integers have the width of their C types, the command is sixteen bytes,
    its size is at most that, and the OUT transfers fit their buffer. *)
Record ums_wf (u : usbd_gadget_ums_t) : Prop := {
  wf_in_length : is_u32 (in_length (bulk u));
  wf_in_actual : is_u32 (in_actual (bulk u));
  wf_in_buf : is_u32 (in_buf (bulk u));
  wf_out_length : 0 <= out_length (bulk u) <= UMS_EP_OUT_MAX_XFER;
  wf_out_actual : is_u32 (out_actual (bulk u));
  wf_out_buf : out_buf (bulk u) = USB_EP_BULK_OUT_BUF_ADDR;
  wf_cmnd_size : 0 <= cmnd_size u <= SCSI_MAX_CMD_SZ;
  wf_cmnd : length (cmnd u) = 16%nat;
  wf_bytes : Forall is_byte (cmnd u);
  wf_num_sectors : is_u32 (num_sectors (lun u));
  wf_offset : is_u32 (lun_offset (lun u));
  wf_info_valid : 0 <= info_valid (lun u) <= 1;
  wf_sense : 0 <= sense_data (lun u) < 2 ^ 24;
  wf_sense_info : is_u32 (sense_data_info (lun u));
  wf_attention : 0 <= unit_attention_data (lun u) < 2 ^ 24;
  wf_data_size : is_u32 (data_size u);
  wf_from_cmnd : is_u32 (data_size_from_cmnd u);
  wf_tag : is_u32 (tag u);
  wf_residue : is_u32 (residue u);
  wf_amount_left : is_u32 (usb_amount_left u);
  wf_lun_idx : 0 <= lun_idx u < UMS_MAX_LUN;
  wf_timeouts : is_u32 (timeouts u)
}.

Lemma is_u32_u32 z : is_u32 (u32 z).
Proof. apply u32_range. Qed.
Lemma is_u32_ld32 m a : is_u32 (ld32 m a).
Proof. apply ld32_range. Qed.
Lemma is_u32_min a b : is_u32 a -> 0 <= b -> is_u32 (Z.min a b).
Proof. unfold is_u32. lia. Qed.
#[export] Hint Resolve is_u32_u32 is_u32_ld32 is_u32_min : safe.

Lemma cm_byte c i : Forall is_byte c -> is_byte (cm c i).
Proof.
  intros Hc. unfold cm. destruct (c !! i) as [x|] eqn:E; simpl; [|unfold is_byte; lia].
  by eapply Forall_lookup_1 in E.
Qed.
Lemma be16_range c i : 0 <= get_array_be_to_le16 c i < 65536.
Proof. unfold get_array_be_to_le16, u16. apply Z.mod_pos_bound. lia. Qed.
Lemma be24_range c i : is_u32 (get_array_be_to_le24 c i).
Proof. apply u32_range. Qed.
Lemma be32_range c i : is_u32 (get_array_be_to_le32 c i).
Proof. apply u32_range. Qed.
#[export] Hint Resolve cm_byte be24_range be32_range : safe.

Lemma ld_bytes_at m n : forall b i, 0 <= i < Z.of_nat n -> ld_bytes m b n !! Z.to_nat i = Some (ld8 m (b + i)).
Proof.
  induction n as [|n IH]; intros b i Hi; [lia|]. cbn [ld_bytes].
  destruct (decide (i = 0)) as [->|Hne]; [by rewrite Z.add_0_r|].
  replace (Z.to_nat i) with (S (Z.to_nat (i - 1))) by lia. cbn. rewrite IH by lia. do 2 f_equal. lia.
Qed.

(** ** What the device keeps *)

(** A property of the device that all its operations but writes of sectors keep. *)
Record dev_keeps {D} `{UmsDev D} (P : D -> Prop) : Prop := {
  dk_ram : forall m d, P d -> P (dev_set_ram m d);
  dk_read : forall s n b d, P d -> P (dev_read s n b d).2;
  dk_in_write : forall b l a t d, P d -> P (usb_device_ep1_in_write b l a t d).2;
  dk_in_finish : forall a d, P d -> P (usb_device_ep1_in_writing_finish a d).2;
  dk_out_read : forall b l a t d, P d -> P (usb_device_ep1_out_read b l a t d).2;
  dk_out_big : forall b l a d, P d -> P (usb_device_ep1_out_read_big b l a d).2;
  dk_out_finish : forall a d, P d -> P (usb_device_ep1_out_reading_finish a d).2;
  dk_flush : forall e d, P d -> P (usbd_flush_endpoint e d);
  dk_stall : forall e c d, P d -> P (usbd_set_ep_stall e c d);
  dk_ctrl : forall d, P d -> P (usbd_handle_ep0_ctrl_setup d).2;
  dk_sleep : forall d, P d -> P (usb_device_get_port_in_sleep d).2;
  dk_enumerate : forall d, P d -> P (usb_device_enumerate d).2;
  dk_max_lun : forall l d, P d -> P (usb_device_class_send_max_lun l d).2;
  dk_message : forall t d, P d -> P (dev_message t d);
  dk_ms : forall d, P d -> P (dev_ms d).2;
  dk_msleep : forall n d, P d -> P (dev_msleep n d);
  dk_buttons : forall d, P d -> P (dev_buttons d).2;
  dk_maintenance : forall b d, P d -> P (system_maintenance b d);
  dk_training : forall d, P d -> P (minerva_periodic_training d)
}.

Section safety.
Context {D : Type} `{UmsDev D} (fuel : nat).
Context (N O : Z) (R : bool) (P : D -> Prop).
Hypothesis HP : dev_keeps P.
Hypothesis HW : forall lba n d, R = false -> 0 <= lba -> 0 < n -> lba + n <= N -> 512 * n <= UMS_EP_OUT_MAX_XFER ->
  P d -> P (dev_write (u32 (O + lba)) n USB_EP_BULK_OUT_BUF_ADDR d).2.

(** The unit is the one the loop was started with. *)
Definition lun_is (u : usbd_gadget_ums_t) : Prop :=
  num_sectors (lun u) = N /\ lun_offset (lun u) = O /\ ro (lun u) = R.
Definition ok (u : usbd_gadget_ums_t) : Prop := ums_wf u /\ lun_is u.
Definition inv (g : gadget D) : Prop := ok (g_ums g) /\ P (g_dev g).

Lemma safe_ums : safe inv ums ok.
Proof. intros g Hg. split; [apply Hg|exact Hg]. Qed.
Lemma safe_upd f : (forall u, ok u -> ok (f u)) -> safe inv (upd f) any.
Proof. intros Hf g [Hu Hd]. split; [done|]. split; [by apply Hf|done]. Qed.
Lemma safe_dev {A} (f : D -> A * D) : (forall d, P d -> P (f d).2) -> safe inv (dev f) any.
Proof.
  intros Hf g [Hu Hd]. unfold wp, dev. specialize (Hf _ Hd). destruct (f (g_dev g)) as [a d].
  split; [done|]. by split.
Qed.
Lemma safe_dev_ (f : D -> D) : (forall d, P d -> P (f d)) -> safe inv (dev_ f) any.
Proof. intros Hf. by apply safe_dev. Qed.
Lemma safe_mem_ f : safe inv (mem_ f) any.
Proof. apply safe_dev_. intros d. apply (dk_ram P HP). Qed.
Lemma safe_ram : safe inv ram any.
Proof. intros g Hg. by split. Qed.
Lemma safe_when b (m : M (gadget D) unit) : (b = true -> safe inv m any) -> safe inv (when b m) any.
Proof. destruct b; [auto|]. intros _ s Hs. by split. Qed.
Lemma safe_modify f : (forall g, inv g -> inv (f g)) -> safe inv (modify f) any.
Proof. intros Hf g Hg. split; [done|]. by apply Hf. Qed.

(** The obligations on a field that is set. *)
Ltac fld :=
  intros u [[] (?&?&?)]; split; [constructor; cbn in *; try done; try solve [auto with safe]|done].
Ltac sdev := (apply safe_dev + apply safe_dev_); intros; destruct HP; auto.

Lemma safe_status v : safe inv (upd_bulk (set_out_status v)) any.
Proof. apply safe_upd. fld. Qed.
Lemma safe_in_status v : safe inv (upd_bulk (set_in_status v)) any.
Proof. apply safe_upd. fld. Qed.
Lemma safe_in_actual v : safe inv (upd_bulk (set_in_actual (u32 v))) any.
Proof. apply safe_upd. fld. Qed.
Lemma safe_out_actual v : safe inv (upd_bulk (set_out_actual (u32 v))) any.
Proof. apply safe_upd. fld. Qed.
Lemma safe_in_state v : safe inv (upd_bulk (set_in_state v)) any.
Proof. apply safe_upd. fld. Qed.
Lemma safe_out_state v : safe inv (upd_bulk (set_out_state v)) any.
Proof. apply safe_upd. fld. Qed.
Lemma safe_out_ignore v : safe inv (upd_bulk (set_out_ignore v)) any.
Proof. apply safe_upd. fld. Qed.
Lemma safe_in_buf v : is_u32 v -> safe inv (upd_bulk (set_in_buf v)) any.
Proof. intros Hv. apply safe_upd. fld. Qed.
Lemma safe_in_length v : is_u32 v -> safe inv (upd_bulk (set_in_length v)) any.
Proof. intros Hv. apply safe_upd. fld. Qed.
Lemma safe_out_length v : 0 <= v <= UMS_EP_OUT_MAX_XFER -> safe inv (upd_bulk (set_out_length v)) any.
Proof. intros Hv. apply safe_upd. fld. Qed.
Lemma safe_sense v : 0 <= v < 2 ^ 24 -> safe inv (sense v) any.
Proof. intros Hv. apply safe_upd. fld. Qed.
Lemma safe_sense_info v : is_u32 v -> safe inv (upd_lun (set_sense_data_info v)) any.
Proof. intros Hv. apply safe_upd. fld. Qed.
Lemma safe_info_valid v : 0 <= v <= 1 -> safe inv (upd_lun (set_info_valid v)) any.
Proof. intros Hv. apply safe_upd. fld. Qed.
Lemma safe_attention v : 0 <= v < 2 ^ 24 -> safe inv (upd_lun (set_unit_attention_data v)) any.
Proof. intros Hv. apply safe_upd. fld. Qed.
Lemma safe_prevent v : safe inv (upd_lun (set_prevent_medium_removal v)) any.
Proof. apply safe_upd. fld. Qed.
Lemma safe_unmounted v : safe inv (upd_lun (set_unmounted v)) any.
Proof. apply safe_upd. fld. Qed.
Lemma safe_state v : safe inv (upd (set_state v)) any.
Proof. apply safe_upd. fld. Qed.
Lemma safe_wakeup v : safe inv (upd (set_thread_wakeup_needed v)) any.
Proof. apply safe_upd. fld. Qed.
Lemma safe_phase v : safe inv (upd (set_phase_error v)) any.
Proof. apply safe_upd. fld. Qed.
Lemma safe_short v : safe inv (upd (set_short_packet_received v)) any.
Proof. apply safe_upd. fld. Qed.
Lemma safe_dir v : safe inv (upd (set_data_dir v)) any.
Proof. apply safe_upd. fld. Qed.
Lemma safe_data_size v : is_u32 v -> safe inv (upd (set_data_size v)) any.
Proof. intros Hv. apply safe_upd. fld. Qed.
Lemma safe_from_cmnd v : is_u32 v -> safe inv (upd (set_data_size_from_cmnd v)) any.
Proof. intros Hv. apply safe_upd. fld. Qed.
Lemma safe_tag v : is_u32 v -> safe inv (upd (set_tag v)) any.
Proof. intros Hv. apply safe_upd. fld. Qed.
Lemma safe_residue v : is_u32 v -> safe inv (upd (set_residue v)) any.
Proof. intros Hv. apply safe_upd. fld. Qed.
Lemma safe_amount_left v : is_u32 v -> safe inv (upd (set_usb_amount_left v)) any.
Proof. intros Hv. apply safe_upd. fld. Qed.
Lemma safe_residue_f f : safe inv (upd (fun u => set_residue (u32 (f u)) u)) any.
Proof. apply safe_upd. fld. Qed.
Lemma safe_amount_left_f f : safe inv (upd (fun u => set_usb_amount_left (u32 (f u)) u)) any.
Proof. apply safe_upd. fld. Qed.
Lemma safe_timeouts_f f : safe inv (upd (fun u => set_timeouts (u32 (f u)) u)) any.
Proof. apply safe_upd. fld. Qed.
Lemma safe_timeouts : safe inv (upd (set_timeouts 0)) any.
Proof. apply safe_upd. fld. Qed.
Lemma safe_lun_idx v : 0 <= v < UMS_MAX_LUN -> safe inv (upd (set_lun_idx v)) any.
Proof. intros Hv. apply safe_upd. fld. Qed.
Lemma safe_cmnd_size v : 0 <= v <= SCSI_MAX_CMD_SZ -> safe inv (upd (set_cmnd_size v)) any.
Proof. intros Hv. apply safe_upd. fld. Qed.
#[local] Hint Resolve safe_status safe_in_status safe_in_actual safe_out_actual safe_in_state safe_out_state
  safe_out_ignore safe_in_buf safe_in_length safe_out_length safe_sense safe_sense_info safe_info_valid
  safe_attention safe_prevent safe_unmounted safe_state safe_wakeup safe_phase safe_short safe_dir
  safe_data_size safe_from_cmnd safe_tag safe_residue safe_amount_left safe_residue_f safe_amount_left_f
  safe_timeouts_f safe_timeouts safe_lun_idx safe_cmnd_size safe_mem_ safe_ram : safe.

(** Follow a program to its elementary steps; the ranges of values are left to [lia]. *)
Ltac rng := solve [eauto 3 with safe | unfold is_u32, is_byte in *; cbn in *; lia].
Ltac cst :=
  tryif (match goal with |- context [?x] => is_var x end) then fail else solve [split; vm_compute; congruence].
#[local] Hint Extern 1 (_ <= _ < _) => cst : safe.
#[local] Hint Extern 1 (_ <= _ <= _) => cst : safe.
#[local] Hint Extern 1 (is_u32 _) => cst : safe.
Ltac sf :=
  repeat first
    [ solve [eauto 2 with safe]
    | match goal with
      | |- safe _ (mbind _ ums) _ => eapply safe_bind; [apply safe_ums|intros ? ?]
      | |- safe _ (mbind _ _) _ =>
          first [ eapply safe_bind; [solve [eauto 2 with safe]|intros ? ?]
                | eapply (safe_bind _ _ _ any); [|intros ? ?] ]
      | |- safe _ (when _ _) _ => apply safe_when; intros ?
      | |- safe _ (if _ then _ else _) _ => apply safe_if; intros ?
      | |- safe _ (mret _) _ => apply safe_ret; try done
      | |- safe _ (say _) _ => sdev
      | |- safe _ (dev _) _ => solve [sdev]
      | |- safe _ (dev_ _) _ => solve [sdev]
      end ].

Lemma safe_sense_at v info : 0 <= v < 2 ^ 24 -> is_u32 info -> safe inv (sense_at v info) any.
Proof. intros Hv Hi. unfold sense_at. sf. Qed.
Lemma safe_store a v : safe inv (store a v) any.
Proof. apply safe_mem_. Qed.
Lemma safe_be16 v p : safe inv (put_array_le_to_be16 v p) any.
Proof. unfold put_array_le_to_be16. sf; apply safe_store. Qed.
Lemma safe_be32 v p : safe inv (put_array_le_to_be32 v p) any.
Proof. unfold put_array_le_to_be32. sf; apply safe_store. Qed.
Lemma safe_raise st : safe inv (raise_exception st) any.
Proof. unfold raise_exception. sf. Qed.
#[local] Hint Resolve safe_sense_at safe_store safe_be16 safe_be32 safe_raise : safe.
Lemma safe_ctrl : safe inv ums_handle_ep0_ctrl any.
Proof. unfold ums_handle_ep0_ctrl. sf. Qed.
Lemma safe_set_stall e : safe inv (ums_set_stall e) any.
Proof. unfold ums_set_stall. sf. Qed.
Lemma safe_clear_stall e : safe inv (ums_clear_stall e) any.
Proof. unfold ums_clear_stall. sf. Qed.
Lemma safe_flush e : safe inv (ums_flush_endpoint e) any.
Proof. unfold ums_flush_endpoint. sf. Qed.
#[local] Hint Resolve safe_ctrl safe_set_stall safe_clear_stall safe_flush : safe.
Lemma safe_in_result r : safe inv (in_result r) any.
Proof. unfold in_result. sf. Qed.
Lemma safe_out_result r : safe inv (out_result r) any.
Proof. unfold out_result. sf. Qed.
#[local] Hint Resolve safe_in_result safe_out_result : safe.
Lemma safe_start e t : safe inv (_ums_transfer_start e t) any.
Proof. unfold _ums_transfer_start. sf. Qed.
Lemma safe_big_read : safe inv _ums_transfer_out_big_read any.
Proof. unfold _ums_transfer_out_big_read. sf. Qed.
Lemma safe_finish e : safe inv (_ums_transfer_finish e) any.
Proof. unfold _ums_transfer_finish. sf. Qed.
Lemma safe_reset_buffer e : safe inv (_ums_reset_buffer e) any.
Proof. unfold _ums_reset_buffer. sf. apply safe_upd. fld. Qed.
#[local] Hint Resolve safe_start safe_big_read safe_finish safe_reset_buffer : safe.

(** *** Reading and writing *)

Definition is_reply (r : Z) : Prop := r = UMS_RES_INVALID_ARG \/ r = UMS_RES_IO_ERROR \/ 0 <= r <= 36.
Ltac rep := first [left; reflexivity | right; left; reflexivity | right; right; cst].
#[local] Hint Extern 1 (is_reply _) => rep : safe.

Lemma safe_refuse v : 0 <= v < 2 ^ 24 -> safe inv (refuse v) is_reply.
Proof. intros Hv. unfold refuse. sf. Qed.
#[local] Hint Resolve safe_refuse : safe.

Definition is_lba (o : option Z) : Prop := match o with Some l => is_u32 l | None => True end.
Lemma safe_get_lba op : safe inv (get_lba op) is_lba.
Proof.
  unfold get_lba. sf; [apply (be24_range _ 1)|apply (be32_range _ 2)].
Qed.
#[local] Hint Resolve safe_get_lba : safe.

Lemma safe_read_loop n : forall lba left max first buf, is_u32 lba -> is_u32 buf ->
  safe inv (scsi_read_loop n lba left max first buf) any.
Proof.
  induction n as [|n IH]; intros lba left max first buf Hl Hb; cbn [scsi_read_loop]; sf.
Qed.
#[local] Hint Resolve safe_read_loop : safe.
Lemma safe_read : safe inv (_scsi_read fuel) is_reply.
Proof.
  unfold _scsi_read. eapply safe_bind; [apply safe_get_lba|]. intros [lba|] Hl; sf.
Qed.

(** The trimmed amount of a filled buffer. *)
Definition trimmed (room actual len : Z) : Z :=
  let amount := if room <? Z.shiftr actual UMS_DISK_LBA_SHIFT
                then u32 (Z.shiftl room UMS_DISK_LBA_SHIFT) else actual in
  let amount := Z.min amount len in
  amount - Z.land amount 511.
Lemma round_512 a : a - Z.land a 511 = 512 * (a / 512).
Proof. change 511 with (Z.ones 9). rewrite Z.land_ones by lia. change (2 ^ 9) with 512. zdm. Qed.
Lemma trimmed_le room actual : 0 <= room -> 0 <= actual ->
  let amount := if room <? Z.shiftr actual UMS_DISK_LBA_SHIFT
                then u32 (Z.shiftl room UMS_DISK_LBA_SHIFT) else actual in
  0 <= amount /\ amount / 512 <= room.
Proof.
  intros Hr Ha. unfold UMS_DISK_LBA_SHIFT. cbv zeta.
  rewrite Z.shiftr_div_pow2, Z.shiftl_mul_pow2 by lia. change (2 ^ 9) with 512.
  destruct (Z.ltb_spec room (actual / 512)); [|lia].
  pose proof (u32_range (room * 512)). split; [lia|]. unfold u32.
  assert ((room * 512) mod 4294967296 <= room * 512) by (apply Z.mod_le; lia).
  transitivity (room * 512 / 512); [by apply Z.div_le_mono|]. by rewrite Z.div_mul.
Qed.
Lemma trimmed_range room actual len :
  0 <= room -> 0 <= actual -> 0 <= len -> trimmed room actual len <> 0 ->
  let sectors := Z.shiftr (trimmed room actual len) UMS_DISK_LBA_SHIFT in
  0 < sectors <= room /\ 512 * sectors = trimmed room actual len /\ trimmed room actual len <= len.
Proof.
  intros Hr Ha Hlen. pose proof (trimmed_le room actual Hr Ha) as [Hnn Hle]. unfold trimmed.
  set (a1 := if room <? _ then _ else _) in *. rewrite round_512. intros Hne. cbv zeta.
  unfold UMS_DISK_LBA_SHIFT. rewrite Z.shiftr_div_pow2 by lia. change (2 ^ 9) with 512.
  assert (Z.min a1 len / 512 <= a1 / 512) by (apply Z.div_le_mono; lia).
  replace (512 * (Z.min a1 len / 512) / 512) with (Z.min a1 len / 512) by zdm. clearbody a1. zdm.
Qed.

Lemma safe_write_buffer lba left : 0 <= lba <= N -> is_u32 left -> R = false ->
  safe inv (scsi_write_buffer lba left) (fun r => 0 <= r.1.2 <= N /\ is_u32 r.2).
Proof.
  intros Hl Hleft HR. unfold scsi_write_buffer.
  eapply safe_bind; [apply safe_ums|]. intros u [Hwf (HN & HO & _)]. cbv zeta.
  assert (HNu : is_u32 N) by (rewrite <- HN; apply Hwf).
  set (b := bulk u). rewrite HN, HO.
  assert (Hroom : u32 (N - lba) = N - lba) by (apply u32_id; unfold is_u32 in *; lia). rewrite Hroom.
  fold (trimmed (N - lba) (out_actual b) (out_length b)).
  pose proof (wf_out_length u Hwf) as Hlen. pose proof (wf_out_actual u Hwf) as Hact. fold b in Hlen, Hact.
  assert (Hempty : forall lba left, 0 <= lba <= N -> is_u32 left ->
    safe inv (if out_actual b <? out_length b then
        say (SetText "#FFDD00 Error:# Empty Write!" []);;
        upd (set_short_packet_received true);; mret (true, lba, left)
      else mret (false, lba, left)) (fun r : bool * Z * Z => 0 <= r.1.2 <= N /\ is_u32 r.2)).
  { intros l1 l2 H1 H2. sf. }
  apply safe_if; intros Hst; [sf; apply safe_sense_at; [cst|unfold is_u32 in *; lia]|].
  apply safe_if; intros Ham; [by apply Hempty|]. apply Z.eqb_neq in Ham.
  destruct (trimmed_range (N - lba) (out_actual b) (out_length b)) as (Hs & Es & Hle);
    [unfold is_u32 in *; lia..|exact Ham|].
  set (am := trimmed _ _ _) in *. set (k := Z.shiftr am UMS_DISK_LBA_SHIFT) in *.
  eapply (safe_bind _ _ _ any); [|intros done _].
  { apply safe_dev. intros d Hd. replace (out_buf b) with USB_EP_BULK_OUT_BUF_ADDR by (symmetry; apply Hwf). apply HW; [done|lia..|lia|done]. }
  assert (Hl' : 0 <= u32 (lba + Z.shiftr (if done : bool then am else 0) UMS_DISK_LBA_SHIFT) <= N).
  { destruct done; fold k; [|change (Z.shiftr 0 UMS_DISK_LBA_SHIFT) with 0];
      rewrite u32_id; unfold is_u32 in *; lia. }
  eapply safe_bind; [apply safe_residue_f|]. intros _ _.
  apply safe_if; intros _; [|apply Hempty; [done|apply is_u32_u32]].
  sf.
Qed.

Lemma safe_write_loop n : forall ulba lba req left, is_u32 ulba -> 0 <= lba <= N -> is_u32 req -> is_u32 left ->
  R = false -> safe inv (scsi_write_loop n ulba lba req left) any.
Proof.
  induction n as [|n IH]; intros ulba lba req left Hu Hl Hreq Hleft HR; cbn [scsi_write_loop]; [sf|].
  apply safe_if; intros _; [sf|].
  eapply safe_bind; [apply safe_ums|]. intros u Hok.
  apply safe_if; intros _.
  { sf. }
  eapply (safe_bind _ _ _ any).
  { sf. apply safe_out_length. unfold is_u32, UMS_EP_OUT_MAX_XFER in *. lia. }
  intros _ _. eapply safe_bind; [apply safe_ums|]. intros u' Hok'.
  apply safe_if; intros _; [|apply IH; auto with safe].
  eapply safe_bind; [apply safe_out_state|]. intros _ _.
  eapply safe_bind; [by apply safe_write_buffer|]. intros [[stop l1] l2] [H1 H2]. cbn in H1, H2.
  apply safe_if; intros _; [sf|apply IH; auto with safe].
Qed.

Lemma safe_write : safe inv (_scsi_write fuel) is_reply.
Proof.
  unfold _scsi_write. eapply safe_bind; [apply safe_ums|]. intros u [Hwf (HN & HO & HR)].
  apply safe_if; intros Hro; [sf|]. eapply safe_bind; [apply safe_get_lba|].
  intros [lba|] Hl; [|sf]. apply safe_if; intros Hlt; [sf|]. apply Z.leb_gt in Hlt.
  eapply safe_bind; [|intros _ _; sf].
  unfold is_lba, is_u32 in Hl.
  apply safe_write_loop; try done; try apply Hwf; [lia|congruence].
Qed.

Lemma safe_verify_loop n : forall lba len, is_u32 lba -> safe inv (scsi_verify_loop n lba len) any.
Proof. induction n as [|n IH]; intros lba len Hl; cbn [scsi_verify_loop]; sf. Qed.
#[local] Hint Resolve safe_verify_loop : safe.
Lemma safe_verify : safe inv (_scsi_verify fuel) is_reply.
Proof. unfold _scsi_verify. sf. Qed.
#[local] Hint Resolve safe_read safe_write safe_verify : safe.

(** *** The other commands *)

Lemma safe_cstrlen n : forall p, safe inv (cstrlen n p) any.
Proof. induction n as [|n IH]; intros p; cbn [cstrlen]; sf. Qed.
Lemma safe_strcpy p s : safe inv (strcpy p s) any.
Proof. apply safe_mem_. Qed.
Lemma safe_clear p l : safe inv (clear p l) any.
Proof. apply safe_mem_. Qed.
Lemma safe_printf p fmt ap : safe inv (printf_at p fmt ap) any.
Proof.
  intros g [Hu Hd]. unfold wp, printf_at. destruct (s_printf p (chars fmt) ap (dev_ram (g_dev g))) as [o m].
  assert (inv (Gadget (g_ums g) (dev_set_ram m (g_dev g)) (timer_dram g) (timer_status_bar g))).
  { split; [exact Hu|]. by apply (dk_ram P HP). }
  by destruct o.
Qed.
#[local] Hint Resolve safe_cstrlen safe_strcpy safe_clear safe_printf : safe.
Lemma safe_clear_sense : safe inv clear_sense any.
Proof. unfold clear_sense. sf. Qed.
#[local] Hint Resolve safe_clear_sense : safe.
Lemma safe_inquiry : safe inv (_scsi_inquiry fuel) is_reply.
Proof. unfold _scsi_inquiry, inquiry_serial, inquiry_standard. sf. Qed.
Lemma safe_request_sense : safe inv _scsi_request_sense is_reply.
Proof. unfold _scsi_request_sense. sf. Qed.
Lemma safe_read_capacity : safe inv _scsi_read_capacity is_reply.
Proof. unfold _scsi_read_capacity. sf. Qed.
Lemma safe_log_sense : safe inv _scsi_log_sense is_reply.
Proof. unfold _scsi_log_sense. sf. Qed.
Lemma safe_mode_sense : safe inv _scsi_mode_sense is_reply.
Proof.
  unfold _scsi_mode_sense, caching_page. sf.
  all: destruct (cm _ 0 =? SC_MODE_SENSE_6); rep.
Qed.
Lemma safe_start_stop : safe inv _scsi_start_stop is_reply.
Proof. unfold _scsi_start_stop. sf. Qed.
Lemma safe_prevent_allow : safe inv _scsi_prevent_allow_removal is_reply.
Proof. unfold _scsi_prevent_allow_removal. sf. Qed.
Lemma safe_format_capacities : safe inv _scsi_read_format_capacities is_reply.
Proof. unfold _scsi_read_format_capacities. sf. Qed.
#[local] Hint Resolve safe_inquiry safe_request_sense safe_read_capacity safe_log_sense safe_mode_sense
  safe_start_stop safe_prevent_allow safe_format_capacities : safe.

(** *** The switch, the replies and the wrappers *)

Lemma safe_cmnd_mask : safe inv (upd (fun u => set_cmnd (<[1%nat := Z.land (cm (cmnd u) 1) 0x1F]> (cmnd u)) u)) any.
Proof.
  apply safe_upd. fld. 1: by rewrite length_insert.
  apply Forall_insert; [done|]. change 0x1F with (Z.ones 5). rewrite Z.land_ones by lia.
  pose proof (Z.mod_pos_bound (cm (cmnd u) 1) (2 ^ 5) ltac:(lia)). unfold is_byte. lia.
Qed.
#[local] Hint Resolve safe_cmnd_mask : safe.

Lemma safe_phase_fault : safe inv phase_fault is_reply.
Proof. unfold phase_fault. sf. Qed.
#[local] Hint Resolve safe_phase_fault : safe.

Lemma safe_check size dir mask medium : safe inv (_ums_check_scsi_cmd size dir mask medium) is_reply.
Proof.
  unfold _ums_check_scsi_cmd.
  eapply safe_bind; [apply safe_ums|]. intros u [Hwf _]. pose proof (wf_data_size u Hwf).
  eapply (safe_bind _ _ _ any); [sf|]. intros _ _.
  eapply (safe_bind _ _ _ any); [sf|]. intros _ _.
  eapply (safe_bind _ _ _ any); [sf|]. intros _ _.
  eapply safe_bind; [apply safe_ums|]. intros v [Hwf' _]. pose proof (wf_attention v Hwf'). sf.
Qed.
#[local] Hint Resolve safe_check : safe.

Lemma safe_command len size dir mask medium m : is_u32 len -> safe inv m is_reply ->
  safe inv (command len size dir mask medium m) is_reply.
Proof. intros Hl Hm. unfold command. sf. Qed.

Lemma is_u32_byte z : is_byte z -> is_u32 z.
Proof. unfold is_byte, is_u32. lia. Qed.
Lemma is_u32_be16 c i : is_u32 (get_array_be_to_le16 c i).
Proof. pose proof (be16_range c i). unfold is_u32. lia. Qed.
Lemma is_u32_blocks16 z : 0 <= z < 65536 -> is_u32 (Z.shiftl z UMS_DISK_LBA_SHIFT).
Proof.
  intros Hz. unfold UMS_DISK_LBA_SHIFT. rewrite Z.shiftl_mul_pow2 by lia. unfold is_u32. lia.
Qed.

Lemma safe_scsi_command : safe inv (scsi_command fuel) is_reply.
Proof.
  unfold scsi_command. eapply safe_bind; [apply safe_ums|]. intros u [Hwf _]. cbv zeta.
  pose proof (cm_byte (cmnd u) 4 (wf_bytes u Hwf)) as H4.
  assert (H6 : is_u32 (Z.shiftl (if cm (cmnd u) 4 =? 0 then 256 else cm (cmnd u) 4) UMS_DISK_LBA_SHIFT)).
  { apply is_u32_blocks16. unfold is_byte in H4. destruct (cm _ _ =? 0); lia. }
  repeat (apply safe_if; intros _); apply safe_command;
    first [ by apply is_u32_byte | apply is_u32_be16 | exact H6 | apply is_u32_u32
          | apply is_u32_blocks16, be16_range | by eauto 2 with safe | sf ].
Qed.
#[local] Hint Resolve safe_scsi_command : safe.

Lemma safe_parse : safe inv (_ums_parse_scsi_cmd fuel) any.
Proof.
  unfold _ums_parse_scsi_cmd. sf.
  match goal with b : ok _ |- _ => destruct b as [b _]; pose proof (wf_from_cmnd _ b) end.
  match goal with b : _ && _ = true |- _ => apply andb_prop in b as [Hr%Z.leb_le _] end.
  apply safe_in_length. unfold is_u32 in *. lia.
Qed.

Lemma safe_pad_loop n : forall keep, safe inv (pad_loop n keep) any.
Proof.
  induction n as [|n IH]; intros keep; cbn [pad_loop]; sf.
  match goal with b : ok _ |- _ => destruct b as [b _]; pose proof (wf_amount_left _ b) end.
  apply safe_in_length. apply is_u32_min; [done|by vm_compute].
Qed.
#[local] Hint Resolve safe_pad_loop : safe.
Lemma safe_pad : safe inv (pad_with_zeros fuel) any.
Proof. unfold pad_with_zeros. sf. Qed.
Lemma safe_throw : safe inv throw_away_data any.
Proof.
  unfold throw_away_data. sf.
  match goal with b : ok _ |- _ => destruct b as [b _]; pose proof (wf_amount_left _ b) end.
  apply safe_out_length. unfold is_u32, USB_EP_BUFFER_MAX_SIZE, UMS_EP_OUT_MAX_XFER in *. lia.
Qed.
#[local] Hint Resolve safe_pad safe_throw : safe.
Lemma safe_finish_reply : safe inv (finish_reply fuel) any.
Proof.
  unfold finish_reply. eapply safe_bind; [apply safe_ums|]. intros u Hu. destruct (data_dir u); sf.
Qed.

Lemma safe_count : safe inv count_timeouts any.
Proof. unfold count_timeouts. sf. Qed.
#[local] Hint Resolve safe_count : safe.

Lemma ld_bytes_byte m n : forall a, Forall is_byte (ld_bytes m a n) /\ length (ld_bytes m a n) = n.
Proof.
  induction n as [|n IH]; intros a; cbn [ld_bytes]; [done|]. destruct (IH (a + 1)) as [IH1 IH2].
  split; [constructor; [apply ld8_range|done]|]. cbn. by rewrite IH2.
Qed.
Lemma safe_save_cmnd m p k : (k <= 16)%nat ->
  safe inv (upd (fun u => set_cmnd (ld_bytes m p k ++ drop k (cmnd u)) u)) any.
Proof.
  intros Hk. destruct (ld_bytes_byte m k p) as [Hb Hl]. apply safe_upd. fld.
  - rewrite length_app, Hl, length_drop. lia.
  - apply Forall_app. split; [done|]. by apply Forall_drop.
Qed.
Lemma safe_save_cbw : safe inv save_cbw any.
Proof.
  unfold save_cbw. eapply safe_bind; [apply safe_ums|]. intros u Hu.
  eapply safe_bind; [apply safe_ram|]. intros m _. cbv zeta.
  apply safe_if; intros _; [unfold ums_wedge_bulk_in_endpoint; sf|]. apply safe_if; intros Hc; [sf|].
  apply orb_false_elim in Hc as [Hc H16%Z.ltb_ge]. apply orb_false_elim in Hc as [Hc H0%Z.leb_gt].
  apply orb_false_elim in Hc as [H1%Z.leb_gt _]. unfold SCSI_MAX_CMD_SZ, UMS_MAX_LUN in *.
  pose proof (ld8_range m (out_buf (bulk u) + 13)).
  eapply safe_bind; [apply safe_cmnd_size; unfold SCSI_MAX_CMD_SZ; lia|]. intros _ _.
  eapply safe_bind; [apply safe_save_cmnd; lia|]. intros _ _. sf.
  apply safe_lun_idx. unfold UMS_MAX_LUN. lia.
Qed.
#[local] Hint Resolve safe_save_cbw : safe.
Lemma safe_received : safe inv received_cbw any.
Proof. unfold received_cbw. sf. Qed.
#[local] Hint Resolve safe_received : safe.
Lemma safe_next : safe inv get_next_command any.
Proof. unfold get_next_command. sf. Qed.
Lemma safe_send_status : safe inv send_status any.
Proof. unfold send_status. sf. Qed.
#[local] Hint Resolve safe_parse safe_finish_reply safe_next safe_send_status : safe.
Lemma safe_exception : safe inv handle_exception any.
Proof.
  unfold handle_exception. sf.
  match goal with |- safe _ (match state ?u with _ => _ end) _ => destruct (state u) end; sf.
Qed.
Lemma safe_maintainance : safe inv _system_maintainance any.
Proof.
  unfold _system_maintainance. eapply safe_bind; [apply safe_get|]. intros g _. sf.
  all: apply safe_modify; by intros g' [].
Qed.
Lemma safe_and_then m k : safe inv m any -> safe inv k any -> safe inv (and_then m k) any.
Proof. intros Hm Hk. unfold and_then. sf. Qed.
#[local] Hint Resolve safe_exception safe_maintainance safe_and_then : safe.
Lemma safe_serve : safe inv (serve_command fuel) any.
Proof. unfold serve_command. sf. apply safe_and_then; sf. apply safe_and_then; sf. Qed.
#[local] Hint Resolve safe_serve : safe.
Lemma safe_round : safe inv (ums_round fuel) any.
Proof. unfold ums_round. sf. Qed.
#[local] Hint Resolve safe_round : safe.
Lemma safe_loop n : safe inv (ums_loop fuel n) any.
Proof. induction n as [|n IH]; cbn [ums_loop]; sf. Qed.
End safety.

(** ** The card *)

(** What the gadget relies on: a card with bytes, which only writes of sectors
    change; those change the sectors they are given, and when they succeed the
    sectors hold the buffer.  The conditions are those of
    [sdmmc_storage_write_correct]. *)
Class UmsDisk (D : Type) `{UmsDev D} := {
  card : D -> Z -> Z;
  card_keeps : forall d0, dev_keeps (fun d => forall a, card d a = card d0 a);
  card_write : forall s n b d, 0 <= s -> 0 < n -> s + n <= 4294967296 ->
    dma_buf b = true -> b + 512 * n <= 4294967296 -> apart b (512 * n) ->
    (forall a, ~ (512 * s <= a < 512 * (s + n)) -> card (dev_write s n b d).2 a = card d a) /\
    ((dev_write s n b d).1 = true -> forall i, 0 <= i < 512 * n ->
       card (dev_write s n b d).2 (512 * s + i) = ld8 (dev_ram d) (b + i))
}.

Lemma dev_keeps_true {D} `{UmsDev D} : dev_keeps (fun _ => True).
Proof. by constructor. Qed.

(** A property of the bytes of the card is one the device keeps. *)
Lemma dev_keeps_card {D} `{UmsDisk D} (P : D -> Prop) :
  (forall d d', P d -> (forall a, card d' a = card d a) -> P d') -> dev_keeps P.
Proof.
  intros HP. constructor; intros; (eapply HP; [eassumption|]);
    first [ apply dk_ram | apply dk_read | apply dk_in_write | apply dk_in_finish | apply dk_out_read
          | apply dk_out_big | apply dk_out_finish | apply dk_flush | apply dk_stall | apply dk_ctrl
          | apply dk_sleep | apply dk_enumerate | apply dk_max_lun | apply dk_message | apply dk_ms
          | apply dk_msleep | apply dk_buttons | apply dk_maintenance | apply dk_training ];
    by first [apply card_keeps|done].
Qed.

Lemma ums_init_wf usbs x : is_u32 (ctxt_offset usbs) -> ums_wf (ums_init usbs x).
Proof.
  intros Ho. constructor; cbn; try done; try (split; vm_compute; congruence).
  by repeat constructor.
Qed.

Lemma out_buf_dma : dma_buf USB_EP_BULK_OUT_BUF_ADDR = true.
Proof. by vm_compute. Qed.

Section unit_of_card.
Context {D : Type} `{UmsDev D} (fuel : nat) (usbs : usb_ctxt_t) (P : D -> Prop) (HP : dev_keeps P).
Context (Ho : is_u32 (ctxt_offset usbs)) (Hs : is_u32 (ctxt_sectors usbs)) (Hc : forall d, is_u32 (sec_cnt d)).
Definition sectors_of (d : D) : Z := if c_true (ctxt_sectors usbs) then ctxt_sectors usbs else sec_cnt d.
Hypothesis HW : forall d0 lba n d, ctxt_ro usbs = false -> 0 <= lba -> 0 < n -> lba + n <= sectors_of d0 ->
  512 * n <= UMS_EP_OUT_MAX_XFER ->
  P d -> P (dev_write (u32 (ctxt_offset usbs + lba)) n USB_EP_BULK_OUT_BUF_ADDR d).2.

(** What holds of a run from the mounting of the unit to its end. *)
Definition served (g : gadget D) : Prop :=
  (exists d, num_sectors (lun (g_ums g)) = 0 \/ num_sectors (lun (g_ums g)) = sectors_of d) /\
  lun_offset (lun (g_ums g)) = ctxt_offset usbs /\ ro (lun (g_ums g)) = ctxt_ro usbs /\
  ums_wf (g_ums g) /\ P (g_dev g).

Lemma inv_served N g : (exists d, N = 0 \/ N = sectors_of d) ->
  inv N (ctxt_offset usbs) (ctxt_ro usbs) P g -> served g.
Proof. intros [d HN] [[Hwf (E1 & E2 & E3)] Hd]. split; [exists d; by rewrite E1|]. by split_and!. Qed.

Lemma connected_served g x : g_ums g = ums_init usbs x -> P (g_dev g) ->
  wp (ums_connected fuel usbs) g (fun _ => served) served.
Proof.
  intros Eg Hd. set (I := inv 0 (ctxt_offset usbs) (ctxt_ro usbs) P).
  assert (HI : I g) by (split; [split; [rewrite Eg; by apply ums_init_wf|by rewrite Eg]|done]).
  assert (Hserved : forall g, I g -> served g) by (intros g'; apply inv_served; exists (g_dev g); auto).
  assert (Hmsg : forall g t m, I g ->
    (forall g', I g' -> wp (A := Z) m g' (fun _ => served) served) ->
    wp (say t;; m) g (fun _ => served) served).
  { intros g1 t m Hg1 Hm. apply wp_bind.
    eapply wp_mono; [exact (safe_dev_ 0 _ _ P (dev_message t) (dk_message P HP t) g1 Hg1)| |exact Hserved].
    intros _ g' [_ Hg']. by apply Hm. }
  unfold ums_connected. apply Hmsg; [done|]. intros g1 H1. apply wp_bind.
  eapply wp_mono; [exact (safe_dev 0 _ _ P _ (dk_enumerate P HP) _ H1)| |exact Hserved].
  intros r g2 [_ H2]. destruct (c_true r); [apply Hmsg; [done|]; intros g3 H3; by apply Hserved|].
  apply Hmsg; [done|]. intros g3 H3. apply wp_bind.
  eapply wp_mono; [exact (safe_dev 0 _ _ P _ (dk_max_lun P HP 0) _ H3)| |exact Hserved].
  intros r2 g4 [_ H4]. destruct (c_true r2); [apply Hmsg; [done|]; intros g5 H5; by apply Hserved|].
  apply Hmsg; [done|]. intros g5 H5. apply wp_bind. unfold wp at 1, get at 1.
  fold (sectors_of (g_dev g5)). set (N := sectors_of (g_dev g5)).
  assert (HNu : is_u32 N) by (unfold N, sectors_of; destruct (c_true _); auto).
  apply wp_bind. unfold wp at 1, upd_lun, upd, modify at 1.
  set (g6 := Gadget _ _ _ _).
  assert (H6 : inv N (ctxt_offset usbs) (ctxt_ro usbs) P g6).
  { destruct H5 as [[[] (E1 & E2 & E3)] Hd5]. split; [|done]. split; [constructor; done|done]. }
  apply wp_bind. eapply wp_mono;
    [exact (safe_loop fuel N _ _ P HP (HW (g_dev g5)) fuel g6 H6)| |intros g'; apply inv_served; eauto].
  intros _ g7 [_ H7]. apply wp_bind. eapply wp_mono.
  - exact (safe_dev_ N _ _ P (dev_message _) (dk_message P HP _) g7 H7).
  - intros _ g8 [_ H8]. eapply inv_served; [|exact H8]. eauto.
  - intros g'. apply inv_served; eauto.
Qed.
End unit_of_card.

(** C16: whatever the host sends and the device returns, from the mounting of the unit to its end
    the fields of the gadget stay in the ranges of their C types, the command stays sixteen bytes
    with a size of at most sixteen, and the OUT transfers stay within their buffer. *)
Theorem ums_well_typed {D} `{UmsDev D} fuel usbs x g :
  is_u32 (ctxt_offset usbs) -> is_u32 (ctxt_sectors usbs) -> (forall d, is_u32 (sec_cnt d)) ->
  g_ums g = ums_init usbs x ->
  ums_wf (g_ums (ums_connected fuel usbs g).2).
Proof.
  intros Ho Hs Hc Eg.
  pose proof (connected_served fuel usbs (fun _ => True) dev_keeps_true Ho Hs Hc (ltac:(done)) g x Eg I) as Hr.
  unfold wp in Hr. destruct (ums_connected fuel usbs g) as [[r| |] g']; apply Hr.
Qed.

(** C14: whatever the host sends, and whichever of its steps fail, the gadget changes no byte of the
    card outside the sectors of its unit, and no byte at all when the unit is read-only.  The unit
    lies in the first 2^32 sectors of the card: the sector number [offset + lba] is a 32-bit sum. *)
Theorem ums_writes_confined {D} `{UmsDisk D} fuel usbs x capacity g :
  let sectors := if c_true (ctxt_sectors usbs) then ctxt_sectors usbs else capacity in
  (forall d, sec_cnt d = capacity) ->
  is_u32 (ctxt_offset usbs) -> is_u32 (ctxt_sectors usbs) -> is_u32 capacity ->
  ctxt_offset usbs + sectors <= 4294967296 ->
  g_ums g = ums_init usbs x ->
  forall a, card (g_dev (ums_connected fuel usbs g).2) a <> card (g_dev g) a ->
    ctxt_ro usbs = false /\ 512 * ctxt_offset usbs <= a < 512 * (ctxt_offset usbs + sectors).
Proof.
  intros sectors Hcap Ho Hs Hc HON Eg.
  set (P := fun d' => forall a, card d' a <> card (g_dev g) a ->
    ctxt_ro usbs = false /\ 512 * ctxt_offset usbs <= a < 512 * (ctxt_offset usbs + sectors)).
  assert (HP : dev_keeps P).
  { apply dev_keeps_card. intros d d' Hd E a. rewrite E. apply Hd. }
  assert (Hr : wp (ums_connected fuel usbs) g (fun _ => served usbs P) (served usbs P)).
  { apply connected_served with x; try done; [intros d; by rewrite Hcap|].
    intros d0 lba n d Hro Hl Hn Hend Hmax Hd a Ha.
    unfold sectors_of in Hend. rewrite Hcap in Hend. fold sectors in Hend.
    unfold UMS_EP_OUT_MAX_XFER, is_u32 in *. rewrite u32_id in Ha by lia.
    destruct (card_write (ctxt_offset usbs + lba) n USB_EP_BULK_OUT_BUF_ADDR d) as [Hout _];
      [lia..|exact out_buf_dma|unfold USB_EP_BULK_OUT_BUF_ADDR; lia|right; vm_compute; congruence|].
    destruct (decide (512 * (ctxt_offset usbs + lba) <= a < 512 * (ctxt_offset usbs + lba + n))) as [Hin|Hin].
    - split; [done|]. lia.
    - apply Hd. by rewrite <- Hout. }
  unfold wp in Hr. destruct (ums_connected fuel usbs g) as [[r| |] g']; apply Hr.
Qed.

(** ** A device *)

(** A card in memory, and a host with bytes to send.  A transfer that is started
    takes its data when it is waited for. *)
Module Stick.
Record fake := Fk {
  f_ram : mem; f_disk : mem; f_wire : list Z; f_host : list Z; f_flight : option (Z * list Z); f_ok : bool
}.
Definition set_ram (m : mem) (d : fake) : fake :=
  Fk m (f_disk d) (f_wire d) (f_host d) (f_flight d) (f_ok d).
Definition read (s n b : Z) (d : fake) : bool * fake :=
  (true, set_ram (st_bytes (f_ram d) b (ld_bytes (f_disk d) (512 * s) (Z.to_nat (512 * n)))) d).
Definition write (s n b : Z) (d : fake) : bool * fake :=
  (true, Fk (f_ram d) (st_bytes (f_disk d) (512 * s) (ld_bytes (f_ram d) b (Z.to_nat (512 * n))))
           (f_wire d) (f_host d) (f_flight d) (f_ok d)).
Definition in_write (b l a t : Z) (d : fake) : Z * Z * fake :=
  let data := ld_bytes (f_ram d) b (Z.to_nat l) in
  (USB_RES_OK, l,
   if t =? USB_XFER_START then Fk (f_ram d) (f_disk d) (f_wire d) (f_host d) (Some (b, data)) (f_ok d)
   else Fk (f_ram d) (f_disk d) (f_wire d ++ data) (f_host d) (f_flight d) (f_ok d)).
Definition in_finish (a : Z) (d : fake) : Z * Z * fake :=
  match f_flight d with
  | Some (b, data) =>
      (USB_RES_OK, a, Fk (f_ram d) (f_disk d) (f_wire d ++ ld_bytes (f_ram d) b (length data)) (f_host d) None (f_ok d))
  | None => (USB_RES_OK, a, d)
  end.
(** The host sends what it has; less than asked for is a short packet. *)
Definition out_read (b l a : Z) (d : fake) : Z * Z * fake :=
  let k := Z.to_nat l in
  let bs := take k (f_host d) in
  (USB_RES_OK, Z.of_nat (length bs),
   Fk (st_bytes (f_ram d) b bs) (f_disk d) (f_wire d) (drop k (f_host d)) (f_flight d)
     (f_ok d && (length bs =? k)%nat && (0 <=? l) && forallb (fun x => (0 <=? x) && (x <? 256)) bs)).

#[global] Instance fake_dev : UmsDev fake := {|
  dev_ram := f_ram; dev_set_ram := set_ram; dev_read := read; dev_write := write;
  cid_serial _ := 0x12345678; sec_cnt _ := 64;
  usb_device_ep1_in_write := in_write; usb_device_ep1_in_writing_finish := in_finish;
  usb_device_ep1_out_read b l a _ d := out_read b l a d; usb_device_ep1_out_read_big := out_read;
  usb_device_ep1_out_reading_finish a d := (USB_RES_OK, a, d);
  usbd_flush_endpoint _ d := d; usbd_set_ep_stall _ _ d := d; usbd_handle_ep0_ctrl_setup d := (0, d);
  usb_device_get_port_in_sleep d := (false, d); usb_device_init d := (0, d); usbd_end _ _ d := d;
  usb_device_enumerate d := (0, d); usb_device_class_send_max_lun _ d := (0, d); is_t210 d := (true, d);
  dev_mount_sd d := d; dev_mount_mmc _ d := d; dev_end d := d; dev_message _ d := d;
  dev_ms d := (0, d); dev_msleep _ d := d; dev_buttons d := (0, d); system_maintenance _ d := d;
  minerva_periodic_training d := d
|}.

Lemma fake_keeps d0 : dev_keeps (fun d => forall a, ld8 (f_disk d) a = ld8 (f_disk d0) a).
Proof.
  constructor; intros; cbn in *; try done.
  - unfold in_write. cbn. by destruct (_ =? _).
  - unfold in_finish. by destruct (f_flight d) as [[]|].
Qed.
Lemma fake_write s n b d : 0 < n ->
  (forall a, ~ (512 * s <= a < 512 * (s + n)) -> ld8 (f_disk (write s n b d).2) a = ld8 (f_disk d) a) /\
  (forall i, 0 <= i < 512 * n -> ld8 (f_disk (write s n b d).2) (512 * s + i) = ld8 (f_ram d) (b + i)).
Proof.
  intros Hn. cbn. destruct (ld_bytes_byte (f_ram d) (Z.to_nat (512 * n)) b) as [_ Hl]. split.
  - intros a Ha. apply ld8_st_bytes_ne. rewrite Hl. lia.
  - intros i Hi. rewrite <- (Z2Nat.id i) at 1 by lia.
    erewrite ld8_st_bytes; [|apply ld_bytes_at; lia]. apply u8_id, ld8_range.
Qed.
#[global] Instance fake_disk : UmsDisk fake.
Proof.
  refine {| card d a := ld8 (f_disk d) a; card_keeps := fake_keeps |}.
  intros s n b d _ Hn _ _ _ _. destruct (fake_write s n b d Hn) as [Hf Hd]. split; [exact Hf|]. intros _. exact Hd.
Defined.
End Stick.

(** A unit of thirty-two sectors from sector sixteen of a card. *)
Definition fake_ctxt (ro : bool) : usb_ctxt_t := UsbCtxt MMC_SD 0 16 32 ro.
Definition fake_gadget (host : list Z) : gadget Stick.fake :=
  Gadget (ums_init (fake_ctxt false) false) (Stick.Fk ∅ ∅ [] host None true) 0 0.

Lemma ums_well_typed_witness :
  is_u32 (ctxt_offset (fake_ctxt false)) /\ ums_wf (g_ums (ums_connected 3 (fake_ctxt false) (fake_gadget [])).2).
Proof.
  split; [split; vm_compute; congruence|].
  apply (ums_well_typed 3 (fake_ctxt false) false); [split; vm_compute; congruence..| |reflexivity].
  intros d. split; vm_compute; congruence.
Defined.

(** A host that asks whether the unit is ready and then writes one sector to block five of
    it, sector twenty-one of the card. *)
Definition cbw (len size : Z) (cmd : list Z) : list Z :=
  [0x55; 0x53; 0x42; 0x43; 1; 0; 0; 0; len mod 256; len / 256; 0; 0; 0; 0; size] ++
  cmd ++ replicate (16 - length cmd) 0.
Definition fake_writer : gadget Stick.fake :=
  fake_gadget (cbw 0 6 [0; 0; 0; 0; 0; 0] ++
               cbw 512 10 [0x2A; 0; 0; 0; 0; 5; 0; 0; 1; 0] ++ replicate 512 7).

Lemma ums_writes_confined_witness :
  let a := 512 * 21 + 3 in
  card (g_dev (ums_connected 6 (fake_ctxt false) fake_writer).2) a = 7 /\
  card (g_dev fake_writer) a = 0 /\
  ctxt_ro (fake_ctxt false) = false /\
  512 * ctxt_offset (fake_ctxt false) <= a < 512 * (ctxt_offset (fake_ctxt false) + 32).
Proof.
  intros a.
  assert (H1 : card (g_dev (ums_connected 6 (fake_ctxt false) fake_writer).2) a = 7) by (vm_compute; reflexivity).
  assert (H0 : card (g_dev fake_writer) a = 0) by (vm_compute; reflexivity).
  split; [exact H1|]. split; [exact H0|].
  apply (ums_writes_confined 6 (fake_ctxt false) false 64 fake_writer);
    [reflexivity|split; vm_compute; congruence..|vm_compute; congruence|reflexivity|].
  rewrite H1, H0. discriminate.
Defined.
