(* ===== verification/UmsIo.v ===== *)
(** * UmsIo

    What the mass storage gadget of Ums moves: the sectors a READ sends to the
    host, the writes that never return, and what is left of refused data. *)

From stdpp Require Import strings.
From S2P Require Import Prelude Mem Gpio Gfx Sprintf Sdmmc SdRw Ums UmsSafe.
#[local] Open Scope Z_scope.

(** ** Running the gadget *)

Section rules.
Context {D : Type} `{UmsDev D}.
Definition with_ums (u : usbd_gadget_ums_t) (g : gadget D) : gadget D :=
  Gadget u (g_dev g) (timer_dram g) (timer_status_bar g).
Definition with_dev (d : D) (g : gadget D) : gadget D :=
  Gadget (g_ums g) d (timer_dram g) (timer_status_bar g).
Lemma ums_bind {B} (k : usbd_gadget_ums_t -> M (gadget D) B) g : (ums ≫= k) g = k (g_ums g) g.
Proof. done. Qed.
Lemma dev_bind (f : D -> D) {B} (k : unit -> M (gadget D) B) g : (dev_ f ≫= k) g = k tt (with_dev (f (g_dev g)) g).
Proof. done. Qed.
End rules.

(** ** Writes that never return *)

Section stuck.
Context {D : Type} `{UmsDev D}.

(** With nothing left to request and the buffer used, the loop of [_scsi_write]
    goes round without a step. *)
Lemma write_loop_stuck n : forall ulba lba left (g : gadget D),
  left <> 0 -> out_state (bulk (g_ums g)) = BUF_STATE_EMPTY ->
  (scsi_write_loop n ulba lba 0 left g).1 = NoFuel.
Proof.
  induction n as [|n IH]; intros ulba lba left g Hl Hst; [done|]. cbn [scsi_write_loop].
  rewrite (proj2 (Z.eqb_neq left 0) Hl). rewrite ums_bind. change (c_true 0) with false. cbn [andb when].
  rewrite bind_mret, ums_bind, Hst.
  rewrite (bool_decide_eq_false_2 (BUF_STATE_EMPTY = BUF_STATE_FULL)) by done.
  by apply IH.
Qed.

(** A transfer of a filled buffer whose writes succeed goes on with what it did not write. *)
Lemma write_buffer_run lba left (g : gadget D) :
  let u := g_ums g in let b := bulk u in
  let am := trimmed (u32 (num_sectors (lun u) - lba)) (out_actual b) (out_length b) in
  out_status b = 0 -> out_actual b = out_length b -> 0 <= am ->
  (forall s n p d, (dev_write s n p d).1 = true) ->
  exists g', scsi_write_buffer lba left g =
    (Ret (false, if am =? 0 then lba else u32 (lba + Z.shiftr am UMS_DISK_LBA_SHIFT),
          if am =? 0 then left else u32 (left - am)), g') /\ bulk (g_ums g') = b.
Proof.
  intros u b am Hst Hact Ham Hw. unfold scsi_write_buffer. rewrite ums_bind. fold u b.
  rewrite Hst. change (c_true 0) with false. cbv zeta.
  change (_ - Z.land _ 511) with am.
  assert (Hlt : (out_actual b <? out_length b) = false) by (apply Z.ltb_ge; lia). rewrite Hlt.
  destruct (Z.eqb_spec am 0) as [E|E]; [by exists g|].
  unfold dev. unfold mbind at 1, M_bind at 1.
  match goal with |- context [dev_write ?s ?n ?p ?d] => specialize (Hw s n p d); destruct (dev_write s n p d) as [ok d1] end.
  cbn [fst] in Hw. subst ok. cbn [fst snd]. rewrite (proj2 (Z.eqb_neq am 0) E).
  eexists. split; [reflexivity|done].
Qed.

Lemma trimmed_whole room len : 0 <= room < 4294967296 -> 0 < len <= UMS_EP_OUT_MAX_XFER ->
  0 <= trimmed room len len <= len /\
  (len - trimmed room len len = 0 <-> len mod 512 = 0 /\ len / 512 <= room).
Proof.
  intros Hr Hl. unfold UMS_EP_OUT_MAX_XFER in Hl. unfold trimmed, UMS_DISK_LBA_SHIFT.
  rewrite Z.shiftr_div_pow2, Z.shiftl_mul_pow2 by lia. change (2 ^ 9) with 512. rewrite round_512.
  destruct (Z.ltb_spec room (len / 512)).
  - rewrite u32_id by zdm. rewrite Z.min_l by zdm. rewrite Z.div_mul by lia. zdm.
  - rewrite Z.min_id. zdm.
Qed.

(** The request of a whole transfer that succeeds. *)
Lemma big_read_run len (g : gadget D) d1 :
  let u := g_ums g in
  usb_device_ep1_out_read_big (out_buf (bulk u)) len (out_actual (bulk u)) (g_dev g) = (USB_RES_OK, len, d1) ->
  is_u32 len ->
  exists g', (upd (fun u => set_usb_amount_left (u32 (usb_amount_left u - len)) u);;
    upd_bulk (set_out_length len);; _ums_transfer_out_big_read) g = (Ret tt, g') /\
    lun (g_ums g') = lun u /\ out_state (bulk (g_ums g')) = BUF_STATE_FULL /\
    out_status (bulk (g_ums g')) = 0 /\ out_actual (bulk (g_ums g')) = len /\ out_length (bulk (g_ums g')) = len.
Proof.
  intros u E Hl. unfold _ums_transfer_out_big_read.
  unfold mbind, M_bind, upd_bulk, upd, modify, dev. cbn [g_ums g_dev bulk set_bulk set_usb_amount_left set_out_length
    out_buf out_length out_actual ums get mbind M_bind].
  unfold ums, get, mbind, M_bind, mret, M_ret. cbn. fold u. rewrite E. cbn.
  eexists. split; [reflexivity|]. cbn. split_and!; try done. by apply u32_id.
Qed.

(** The first round of the loop, and what follows it. *)
Lemma write_loop_once n lba len (g : gadget D) d1 :
  let u := g_ums g in
  is_u32 (num_sectors (lun u)) -> 0 <= lba < num_sectors (lun u) -> 0 < len <= UMS_EP_OUT_MAX_XFER ->
  usb_device_ep1_out_read_big (out_buf (bulk u)) len (out_actual (bulk u)) (g_dev g) = (USB_RES_OK, len, d1) ->
  (forall s n p d, (dev_write s n p d).1 = true) ->
  (scsi_write_loop (S (S n)) lba lba len len g).1 =
    if (len mod 512 =? 0) && (lba + len / 512 <=? num_sectors (lun u)) then Ret tt else NoFuel.
Proof.
  intros u HN Hlba Hlen Hbig Hw. unfold is_u32 in *.
  assert (Hlu : is_u32 len) by (unfold is_u32, UMS_EP_OUT_MAX_XFER in *; lia).
  remember (S n) as n' eqn:En. cbn [scsi_write_loop]. rewrite (proj2 (Z.eqb_neq len 0)) by lia.
  rewrite ums_bind. fold u. rewrite (proj2 (Z.leb_gt (num_sectors (lun u)) lba)), andb_false_r by lia.
  replace (c_true len) with true by (symmetry; apply negb_true_iff, Z.eqb_neq; lia).
  rewrite Z.min_l by lia. cbn [when].
  destruct (big_read_run len g d1 Hbig Hlu) as (g1 & E1 & El & Efull & Est & Eact & Elen).
  rewrite (bind_run _ _ _ _ _ E1). rewrite ums_bind, Efull, bool_decide_eq_true_2 by done.
  replace (u32 (len - len)) with 0 by (rewrite Z.sub_diag; done).
  set (g2 := with_ums (set_bulk (set_out_state BUF_STATE_EMPTY (bulk (g_ums g1))) (g_ums g1)) g1).
  rewrite (bind_run _ _ _ tt g2) by done.
  pose proof (write_buffer_run lba len g2) as Hb. cbn zeta in Hb.
  replace (num_sectors (lun (g_ums g2))) with (num_sectors (lun u)) in Hb by (symmetry; exact (f_equal num_sectors El)).
  replace (out_actual (bulk (g_ums g2))) with len in Hb by (symmetry; exact Eact).
  replace (out_length (bulk (g_ums g2))) with len in Hb by (symmetry; exact Elen).
  rewrite (u32_id (num_sectors (lun u) - lba)) in Hb by lia.
  destruct (trimmed_whole (num_sectors (lun u) - lba) len) as [Hr Hiff]; [lia|done|].
  set (am := trimmed _ _ _) in *.
  destruct Hb as (g3 & E3 & Eb); [done|done|lia|done|].
  rewrite (bind_run _ _ _ _ _ E3). clear E1 E3. subst n'. cbn [scsi_write_loop].
  assert (Hleft : (if am =? 0 then len else u32 (len - am)) = len - am).
  { destruct (Z.eqb_spec am 0); [lia|]. apply u32_id. unfold is_u32 in *. lia. }
  rewrite Hleft. destruct (Z.eqb_spec (len - am) 0) as [Ez|Ez].
  - apply Hiff in Ez as [Em Ed]. rewrite (proj2 (Z.eqb_eq _ _) Em), (proj2 (Z.leb_le _ _)) by lia. done.
  - replace (_ && _) with false.
    2: { symmetry. apply andb_false_iff. destruct (Z.eqb_spec (len mod 512) 0); [|by left]. right.
         apply Z.leb_gt. lia. }
    rewrite <- Z.eqb_neq in Ez.
    pose proof (write_loop_stuck (S n) (u32 (lba + Z.shiftr len UMS_DISK_LBA_SHIFT))
      (if am =? 0 then lba else u32 (lba + Z.shiftr am UMS_DISK_LBA_SHIFT)) (len - am) g3) as Hs.
    cbn [scsi_write_loop] in Hs. rewrite Ez in Hs. apply Hs; [by apply Z.eqb_neq|by rewrite Eb].
Qed.

(** The start of a WRITE, and whether the command is accepted. *)
Definition write_lba (u : usbd_gadget_ums_t) : Z :=
  if cm (cmnd u) 0 =? SC_WRITE_6 then get_array_be_to_le24 (cmnd u) 1 else get_array_be_to_le32 (cmnd u) 2.
Definition write_accepted (u : usbd_gadget_ums_t) : bool :=
  negb (ro (lun u)) &&
  ((cm (cmnd u) 0 =? SC_WRITE_6) || negb (c_true (Z.land (cm (cmnd u) 1) (Z.lnot 0x18)))) &&
  (write_lba u <? num_sectors (lun u)).

(** C15: when a WRITE of at most one transfer (8 MB) returns, for WRITE(6), (10) and (12).  A WRITE to
    a read-only unit, with unknown flags, or that starts behind the last sector is refused at
    once.  An accepted WRITE whose data arrives in full and whose writes to the card succeed
    returns exactly when the data is whole sectors and ends within the unit.  One that runs past
    the last sector, or that ends in a part of a sector, never returns, whatever the fuel: the
    loop goes round with nothing left to request and no buffer to write. *)
Theorem scsi_write_returns_iff fuel (g : gadget D) d1 :
  let u := g_ums g in
  let len := data_size_from_cmnd u in
  is_u32 (num_sectors (lun u)) -> 0 <= len <= UMS_EP_OUT_MAX_XFER ->
  usb_device_ep1_out_read_big (out_buf (bulk u)) len (out_actual (bulk u)) (g_dev g) = (USB_RES_OK, len, d1) ->
  (forall s n p d, (dev_write s n p d).1 = true) ->
  (2 <= fuel)%nat ->
  (_scsi_write fuel g).1 =
    if negb (write_accepted u) then Ret UMS_RES_INVALID_ARG
    else if (len mod 512 =? 0) && (write_lba u + len / 512 <=? num_sectors (lun u))
    then Ret UMS_RES_IO_ERROR else NoFuel.
Proof.
  intros u len HN Hlen Hbig Hw Hfuel. unfold write_accepted, _scsi_write. rewrite ums_bind. fold u.
  destruct (ro (lun u)); [done|]. cbn [negb andb].
  assert (Hlu : is_u32 (write_lba u)) by (unfold write_lba; destruct (_ =? _); apply u32_range).
  assert (Hgo : forall h : M (gadget D) (option Z),
    h g = (Ret (Some (write_lba u)), g) ->
    ((lba ← h;
      match lba with
      | None => mret UMS_RES_INVALID_ARG
      | Some lba_offset =>
          if num_sectors (lun u) <=? lba_offset then refuse SS_LOGICAL_BLOCK_ADDRESS_OUT_OF_RANGE
          else scsi_write_loop fuel lba_offset lba_offset len len;; mret UMS_RES_IO_ERROR
      end) g).1 =
    if negb (write_lba u <? num_sectors (lun u)) then Ret UMS_RES_INVALID_ARG
    else if (len mod 512 =? 0) && (write_lba u + len / 512 <=? num_sectors (lun u))
    then Ret UMS_RES_IO_ERROR else NoFuel).
  { intros h Eh. rewrite (bind_run _ _ _ _ _ Eh).
    destruct (Z.leb_spec (num_sectors (lun u)) (write_lba u)) as [Hge|Hlt].
    { by rewrite (proj2 (Z.ltb_ge _ _) Hge). }
    rewrite (proj2 (Z.ltb_lt _ _) Hlt). cbn [negb].
    destruct fuel as [|[|fuel]]; [lia..|]. destruct (Z.eq_dec len 0) as [E0|E0].
    { rewrite E0. cbn [scsi_write_loop Z.eqb]. rewrite (proj2 (Z.leb_le _ _)); [done|].
      change (0 / 512) with 0. lia. }
    pose proof (write_loop_once fuel (write_lba u) len g d1 HN (conj (proj1 Hlu) Hlt) ltac:(lia) Hbig Hw) as Hl.
    fold u in Hl. unfold mbind, M_bind. destruct (scsi_write_loop _ _ _ _ _ g) as [o g']. cbn [fst] in Hl.
    subst o. by destruct (_ && _). }
  unfold get_lba. fold len. rewrite bind_assoc, ums_bind. fold u. unfold write_lba in *.
  destruct (cm (cmnd u) 0 =? SC_WRITE_6); cbn [orb andb]; [by apply Hgo|].
  destruct (c_true (Z.land (cm (cmnd u) 1) (Z.lnot 0x18))); cbn [negb andb]; [done|by apply Hgo].
Qed.
End stuck.

(** ** Refused data *)

(** A command that takes data from the host and leaves some of it: one transfer
    of at most 64 KB is thrown away, and the rest is left in the endpoint when
    the status is sent. *)
Lemma finish_reply_leaves_data {D} `{UmsDev D} fuel (g : gadget D) :
  let u := g_ums g in
  data_dir u = DATA_DIR_FROM_HOST -> residue u <> 0 -> short_packet_received u = false ->
  out_state (bulk u) = BUF_STATE_EMPTY -> 0 < usb_amount_left u < 4294967296 ->
  exists g', finish_reply fuel g = (Ret UMS_RES_OK, g') /\
    usb_amount_left (g_ums g') = Z.max 0 (usb_amount_left u - USB_EP_BUFFER_MAX_SIZE).
Proof.
  intros u Hd Hr Hs Ho Ha. unfold finish_reply. rewrite ums_bind. fold u. rewrite Hd, Hs.
  replace (c_true (residue u)) with true by (symmetry; by apply negb_true_iff, Z.eqb_neq).
  unfold throw_away_data. rewrite ums_bind. fold u. rewrite Ho, bool_decide_eq_true_2 by done.
  rewrite (proj2 (Z.ltb_lt 0 _)) by lia. cbn [negb orb andb].
  set (am := Z.min (usb_amount_left u) USB_EP_BUFFER_MAX_SIZE). unfold upd_bulk at 1.
  set (g1 := with_ums (set_bulk (set_out_length am (bulk u)) u) g).
  rewrite (bind_run _ _ _ tt g1) by done.
  assert (Hst : exists g2, _ums_transfer_start USB_EP_BULK_OUT USB_XFER_SYNCED_DATA g1 = (Ret tt, g2) /\
    usb_amount_left (g_ums g2) = usb_amount_left u).
  { unfold _ums_transfer_start. rewrite ums_bind. change (USB_EP_BULK_OUT =? USB_EP_BULK_IN) with false. cbv iota zeta.
    unfold dev. unfold mbind at 1, M_bind at 1.
    destruct (usb_device_ep1_out_read _ _ _ _ _) as [[st act] d1].
    change (c_true USB_XFER_SYNCED_DATA) with true. cbn [when fst snd].
    destruct (st =? USB_ERROR_XFER_ERROR), (st =? USB2_ERROR_XFER_NOT_ALIGNED); eexists; (split; [reflexivity|done]). }
  destruct Hst as (g2 & E2 & Eam). rewrite (bind_run _ _ _ _ _ E2).
  eexists. split; [reflexivity|]. cbn. rewrite Eam. unfold am, USB_EP_BUFFER_MAX_SIZE in *.
  rewrite u32_id by lia. lia.
Qed.

(** ** What the host receives *)

(** The USB side: [wire] is what the host has received, [host] what it has still to
    send, [flight] the transfer under way with the data it was started on, and
    [sound] says that no transfer has failed or was short.  A transfer that was started and is then waited for delivers its
    data when the buffer has not changed meanwhile. *)
Class UmsWire (D : Type) `{UmsDisk D} := {
  wire : D -> list Z;
  host : D -> list Z;
  flight : D -> option (Z * list Z);
  sound : D -> Prop;
  wire_sync : forall b l a t d, t <> 0 ->
    let '(st, _, d') := usb_device_ep1_in_write b l a t d in
    (forall x, ld8 (dev_ram d') x = ld8 (dev_ram d) x) /\
    (sound d' -> sound d /\ st = USB_RES_OK /\
      (flight d = None -> wire d' = wire d ++ ld_bytes (dev_ram d) b (Z.to_nat l) /\ flight d' = None));
  wire_start : forall b l a d,
    let '(st, _, d') := usb_device_ep1_in_write b l a USB_XFER_START d in
    (forall x, ld8 (dev_ram d') x = ld8 (dev_ram d) x) /\
    (sound d' -> sound d /\ st = USB_RES_OK /\
      (flight d = None -> wire d' = wire d /\ flight d' = Some (b, ld_bytes (dev_ram d) b (Z.to_nat l))));
  wire_finish : forall a d,
    let '(st, _, d') := usb_device_ep1_in_writing_finish a d in
    (forall x, ld8 (dev_ram d') x = ld8 (dev_ram d) x) /\
    (sound d' -> sound d /\ st = USB_RES_OK /\
      (forall b data, flight d = Some (b, data) -> ld_bytes (dev_ram d) b (length data) = data ->
         wire d' = wire d ++ data /\ flight d' = None));
  wire_out : forall b l a d,
    let '(st, act, d') := usb_device_ep1_out_read_big b l a d in
    sound d' -> sound d /\ st = USB_RES_OK /\ act = l /\
      ld_bytes (dev_ram d') b (Z.to_nat l) = take (Z.to_nat l) (host d) /\ host d' = drop (Z.to_nat l) (host d);
  wire_write : forall s n b d, host (dev_write s n b d).2 = host d /\ (sound (dev_write s n b d).2 -> sound d);
  (** Reads of the card do not disturb the endpoint, and keep to their buffer:
      the conditions are those of [sdmmc_storage_read_correct]. *)
  wire_read : forall s n b d, 0 <= s -> 0 < n -> s + n <= 4294967296 ->
    0 <= b -> b + 512 * n <= 4294967296 -> apart b (512 * n) ->
    let '(done, d') := dev_read s n b d in
    wire d' = wire d /\ flight d' = flight d /\ (sound d' -> sound d) /\
    (forall x, ~ (b <= x < b + 512 * n) -> ~ in_up_buf x -> ld8 (dev_ram d') x = ld8 (dev_ram d) x) /\
    (done = true -> forall i, 0 <= i < 512 * n -> ld8 (dev_ram d') (b + i) = card d (512 * s + i));
  (** Messages and flushes end nothing that was sound, and memory is memory. *)
  wire_message : forall t d, wire (dev_message t d) = wire d /\ flight (dev_message t d) = flight d /\
    (sound (dev_message t d) -> sound d) /\ (forall x, ld8 (dev_ram (dev_message t d)) x = ld8 (dev_ram d) x);
  wire_flush : forall e d, (sound (usbd_flush_endpoint e d) -> sound d) /\
    (forall x, ld8 (dev_ram (usbd_flush_endpoint e d)) x = ld8 (dev_ram d) x);
  wire_ram : forall m d, (sound (dev_set_ram m d) -> sound d)
}.

(** The bytes of the card from [a]. *)
Fixpoint card_bytes {D} `{UmsDisk D} (d : D) (a : Z) (n : nat) : list Z :=
  match n with Datatypes.O => [] | S n => card d a :: card_bytes d (a + 1) n end.

Section wire.
Context {D : Type} `{UmsWire D}.

Definition B0 : bulk_ctxt_t := Bulk 0 0 0 0 BUF_STATE_EMPTY 0 0 0 false 0 BUF_STATE_EMPTY.

(** What a step on the endpoints keeps: the gadget but for its bulk context, the
    reply in it, the card and the memory. *)
Record quiet (g g' : gadget D) : Prop := {
  q_ums : set_bulk B0 (g_ums g') = set_bulk B0 (g_ums g);
  q_buf : in_buf (bulk (g_ums g')) = in_buf (bulk (g_ums g));
  q_len : in_length (bulk (g_ums g')) = in_length (bulk (g_ums g));
  q_mem : forall x, ld8 (dev_ram (g_dev g')) x = ld8 (dev_ram (g_dev g)) x;
  q_card : forall a, card (g_dev g') a = card (g_dev g) a;
  q_sound : sound (g_dev g') -> sound (g_dev g)
}.
#[local] Instance quiet_preorder : PreOrder quiet.
Proof.
  split; [by constructor|]. intros g1 g2 g3 [] []. constructor; try congruence; auto.
Qed.

Lemma card_message t d a : card (dev_message t d) a = card d a.
Proof. by apply (dk_message _ (card_keeps d)). Qed.
Lemma card_flush e d a : card (usbd_flush_endpoint e d) a = card d a.
Proof. by apply (dk_flush _ (card_keeps d)). Qed.

Lemma say_run t (g : gadget D) : exists g', say t g = (Ret tt, g') /\ quiet g g' /\
  wire (g_dev g') = wire (g_dev g) /\ flight (g_dev g') = flight (g_dev g).
Proof.
  destruct (wire_message t (g_dev g)) as (Hw & Hf & Hs & Hm).
  eexists. split; [reflexivity|]. split_and!; [constructor; cbn; auto using card_message|done|done].
Qed.
Lemma flush_run e (g : gadget D) : exists g', ums_flush_endpoint e g = (Ret tt, g') /\ quiet g g'.
Proof.
  destruct (wire_flush e (g_dev g)) as (Hs & Hm).
  eexists. split; [reflexivity|]. constructor; cbn; auto using card_flush.
Qed.

(** What follows a transfer: nothing when the endpoints are sound. *)
Lemma after_in (st : Z) (b : bool) t1 t2 (g : gadget D) :
  exists g', (if b then say t1;; ums_flush_endpoint USB_EP_BULK_IN else when (st =? USB2_ERROR_XFER_NOT_ALIGNED) (say t2)) g
    = (Ret tt, g') /\ quiet g g' /\ (st = USB_RES_OK -> b = false -> g' = g).
Proof.
  destruct b.
  - destruct (say_run t1 g) as (g1 & E1 & Q1 & _). destruct (flush_run USB_EP_BULK_IN g1) as (g2 & E2 & Q2).
    exists g2. split; [by rewrite (bind_run _ _ _ _ _ E1)|]. split; [by transitivity g1|done].
  - destruct (Z.eqb_spec st USB2_ERROR_XFER_NOT_ALIGNED) as [E|E]; cbn [when].
    + destruct (say_run t2 g) as (g1 & E1 & Q1 & _). exists g1. split_and!; [done|done|]. intros ->. by vm_compute in E.
    + exists g. split; [done|]. by split.
Qed.

Lemma transfer_in_run t (g : gadget D) :
  let b := in_buf (bulk (g_ums g)) in
  let data := ld_bytes (dev_ram (g_dev g)) b (Z.to_nat (in_length (bulk (g_ums g)))) in
  exists g', _ums_transfer_start USB_EP_BULK_IN t g = (Ret tt, g') /\ quiet g g' /\
    (sound (g_dev g') -> flight (g_dev g) = None ->
       if t =? USB_XFER_START then wire (g_dev g') = wire (g_dev g) /\ flight (g_dev g') = Some (b, data)
       else wire (g_dev g') = wire (g_dev g) ++ data /\ flight (g_dev g') = None).
Proof.
  intros b data. unfold _ums_transfer_start. rewrite ums_bind.
  change (USB_EP_BULK_IN =? USB_EP_BULK_IN) with true. cbv iota zeta. fold b.
  set (l := in_length (bulk (g_ums g))) in *. set (a := in_actual (bulk (g_ums g))).
  pose proof (fun x => dk_in_write _ (card_keeps (g_dev g)) b l a t (g_dev g) (fun _ => eq_refl) x) as Hcard.
  assert (Hlaw : let '(st, _, d') := usb_device_ep1_in_write b l a t (g_dev g) in
    (forall x, ld8 (dev_ram d') x = ld8 (dev_ram (g_dev g)) x) /\
    (sound d' -> sound (g_dev g) /\ st = USB_RES_OK /\ (flight (g_dev g) = None ->
       if t =? USB_XFER_START then wire d' = wire (g_dev g) /\ flight d' = Some (b, data)
       else wire d' = wire (g_dev g) ++ data /\ flight d' = None))).
  { destruct (Z.eqb_spec t USB_XFER_START) as [->|E]; [apply wire_start|by apply wire_sync]. }
  unfold dev at 1. unfold mbind at 1, M_bind at 1.
  destruct (usb_device_ep1_in_write b l a t (g_dev g)) as [[st act] d1]. cbn [fst snd] in Hcard |- *.
  destruct Hlaw as [Hmem Hsound].
  set (g1 := with_ums (set_bulk (set_in_actual (u32 act) (set_in_status st (bulk (g_ums g)))) (g_ums g)) (with_dev d1 g)).
  assert (Q1 : quiet g g1) by (constructor; cbn; [done..|naive_solver]).
  rewrite (bind_run (in_result _) _ _ tt g1) by done.
  edestruct (after_in st (st =? USB_ERROR_XFER_ERROR)) as (g2 & E2 & Q2 & Hsame).
  rewrite (bind_run _ _ _ _ _ E2).
  set (g3 := if c_true t then with_ums (set_bulk (set_in_state BUF_STATE_EMPTY (bulk (g_ums g2))) (g_ums g2)) g2 else g2).
  exists g3. split; [unfold g3; by destruct (c_true t)|].
  assert (Q3 : quiet g2 g3) by (unfold g3; destruct (c_true t); [by constructor|reflexivity]).
  split; [by transitivity g1; [|transitivity g2]|].
  assert (Ed : g_dev g3 = g_dev g2) by (unfold g3; by destruct (c_true t)). rewrite Ed.
  intros Hs Hf. destruct (Hsound (q_sound _ _ Q2 Hs)) as (_ & -> & Hlaw).
  rewrite (Hsame eq_refl eq_refl). by apply Hlaw.
Qed.

Lemma finish_in_run (g : gadget D) :
  exists g', _ums_transfer_finish USB_EP_BULK_IN g = (Ret tt, g') /\ quiet g g' /\
    (sound (g_dev g') -> forall b data, flight (g_dev g) = Some (b, data) ->
       ld_bytes (dev_ram (g_dev g)) b (length data) = data ->
       wire (g_dev g') = wire (g_dev g) ++ data /\ flight (g_dev g') = None).
Proof.
  unfold _ums_transfer_finish. rewrite ums_bind.
  change (USB_EP_BULK_IN =? USB_EP_BULK_IN) with true. cbv iota zeta.
  set (a := in_actual (bulk (g_ums g))).
  pose proof (fun x => dk_in_finish _ (card_keeps (g_dev g)) a (g_dev g) (fun _ => eq_refl) x) as Hcard.
  pose proof (wire_finish a (g_dev g)) as Hlaw.
  unfold dev at 1. unfold mbind at 1, M_bind at 1.
  destruct (usb_device_ep1_in_writing_finish a (g_dev g)) as [[st act] d1]. cbn [fst snd] in Hcard |- *.
  destruct Hlaw as [Hmem Hsound].
  set (g1 := with_ums (set_bulk (set_in_actual (u32 act) (set_in_status st (bulk (g_ums g)))) (g_ums g)) (with_dev d1 g)).
  assert (Q1 : quiet g g1) by (constructor; cbn; [done..|naive_solver]).
  rewrite (bind_run (in_result _) _ _ tt g1) by done.
  assert (Ha : exists g2, (when (st =? USB_ERROR_XFER_ERROR)
      (say (SetText "#FFDD00 Error:# EP IN transfer!" []);; ums_flush_endpoint USB_EP_BULK_IN)) g1 = (Ret tt, g2) /\
      quiet g1 g2 /\ (st = USB_RES_OK -> g2 = g1)).
  { destruct (after_in 0 (st =? USB_ERROR_XFER_ERROR) (SetText "#FFDD00 Error:# EP IN transfer!" [])
      (SetText "" []) g1) as (g2 & E2 & Q2 & Hsame).
    exists g2. destruct (st =? USB_ERROR_XFER_ERROR) eqn:E; cbn [when].
    - split; [exact E2|]. split; [done|]. intros ->. by vm_compute in E.
    - split; [exact E2|]. split; [done|]. intros _. by apply Hsame. }
  destruct Ha as (g2 & E2 & Q2 & Hsame). rewrite (bind_run _ _ _ _ _ E2).
  eexists. split; [reflexivity|].
  match goal with |- quiet _ ?g3 /\ _ => assert (Q3 : quiet g2 g3) by done; split; [transitivity g1; [done|by transitivity g2]|] end.
  cbn [g_dev]. intros Hs b data Hf Hb. destruct (Hsound (q_sound _ _ Q2 Hs)) as (_ & Hok & Hlaw).
  rewrite (Hsame Hok). by apply (Hlaw b data).
Qed.

(** *** Bytes *)

Lemma ld_bytes_card m (d : D) n : forall b a,
  (forall i, 0 <= i < Z.of_nat n -> ld8 m (b + i) = card d (a + i)) -> ld_bytes m b n = card_bytes d a n.
Proof.
  induction n as [|n IH]; intros b a Hi; [done|]. cbn [ld_bytes card_bytes]. f_equal.
  - specialize (Hi 0). rewrite !Z.add_0_r in Hi. apply Hi. lia.
  - apply IH. intros i Hin. specialize (Hi (1 + i)). rewrite !Z.add_assoc in Hi. apply Hi. lia.
Qed.
Lemma card_bytes_app (d : D) n m : forall a,
  card_bytes d a (n + m) = card_bytes d a n ++ card_bytes d (a + Z.of_nat n) m.
Proof.
  induction n as [|n IH]; intros a; cbn [card_bytes Nat.add app].
  - by rewrite Z.add_0_r.
  - f_equal. rewrite IH. do 2 f_equal. lia.
Qed.
Lemma card_bytes_same (d d' : D) n : (forall a, card d' a = card d a) -> forall a, card_bytes d' a n = card_bytes d a n.
Proof. intros E. induction n as [|n IH]; intros a; cbn; [done|]. by rewrite E, IH. Qed.

(** *** The reads of a command *)

(** The transfer that a round of the loop finds under way, before [buf]. *)
Definition pending (first : bool) (buf : Z) (fl : list Z) (d : D) : Prop :=
  if first then flight d = None
  else exists fb, flight d = Some (fb, fl) /\ SDXC_BUF_ALIGNED <= fb /\ fb + Z.of_nat (length fl) <= buf /\
    ld_bytes (dev_ram d) fb (length fl) = fl.

(** A read of the card with a transfer under way, and the end of that transfer. *)
Lemma read_step s am (first : bool) buf fl (g : gadget D) :
  0 <= s -> 0 < am -> s + am <= 4294967296 -> SDXC_BUF_ALIGNED <= buf -> buf + 512 * am <= 4294967296 ->
  (sound (g_dev g) -> pending first buf fl (g_dev g)) ->
  exists (done : bool) g1 g2, dev (dev_read s am buf) g = (Ret done, g1) /\
    when (negb first) (_ums_transfer_finish USB_EP_BULK_IN) g1 = (Ret tt, g2) /\
    set_bulk B0 (g_ums g2) = set_bulk B0 (g_ums g) /\
    (forall a, card (g_dev g2) a = card (g_dev g) a) /\
    (sound (g_dev g2) -> sound (g_dev g) /\
       wire (g_dev g2) = wire (g_dev g) ++ (if first then [] else fl) /\ flight (g_dev g2) = None) /\
    (done = true -> ld_bytes (dev_ram (g_dev g2)) buf (Z.to_nat (512 * am)) =
       card_bytes (g_dev g) (512 * s) (Z.to_nat (512 * am))).
Proof.
  intros Hs Ham Hend Hbuf Hbend Hp. unfold SDXC_BUF_ALIGNED in *.
  pose proof (fun x => dk_read _ (card_keeps (g_dev g)) s am buf (g_dev g) (fun _ => eq_refl) x) as Hcard.
  pose proof (wire_read s am buf (g_dev g)) as Hlaw.
  unfold dev. destruct (dev_read s am buf (g_dev g)) as [done d1]. cbn [snd] in Hcard.
  destruct Hlaw as (Hw & Hf & Hsd & Hmem & Hdata); try lia; [right; unfold SDMMC_UPPER_BUFFER, SDMMC_UP_BUF_SZ; lia|].
  exists done, (with_dev d1 g).
  assert (Hbytes : done = true -> ld_bytes (dev_ram d1) buf (Z.to_nat (512 * am)) =
    card_bytes (g_dev g) (512 * s) (Z.to_nat (512 * am))).
  { intros Hd. apply ld_bytes_card. intros i Hi. apply Hdata; [done|lia]. }
  destruct first; cbn [negb when].
  - exists (with_dev d1 g). split; [done|]. split; [done|]. split; [done|]. split; [exact Hcard|].
    split; [|exact Hbytes]. intros Hso. specialize (Hp (Hsd Hso)). cbn in Hp |- *.
    rewrite app_nil_r, Hf. by split_and!; auto.
  - destruct (finish_in_run (with_dev d1 g)) as (g2 & E2 & Q2 & Hfin). exists g2.
    split; [done|]. split; [exact E2|]. split; [apply (q_ums _ _ Q2)|].
    split; [intros a; by rewrite (q_card _ _ Q2)|]. split.
    + intros Hso. pose proof (Hsd (q_sound _ _ Q2 Hso)) as Hso0. destruct (Hp Hso0) as (fb & Efl & Hfb & Hfe & Hfd).
      split; [done|]. cbn [g_dev with_dev] in Hfin. rewrite <- Hw.
      apply (Hfin Hso fb fl); [by rewrite Hf|].
      transitivity (ld_bytes (dev_ram (g_dev g)) fb (length fl)); [|exact Hfd]. apply ld_bytes_same. intros x Hx. apply Hmem; [lia|].
      unfold SDXC_BUF_ALIGNED, in_up_buf, SDMMC_UPPER_BUFFER, SDMMC_UP_BUF_SZ in *. lia.
    + intros Hd. rewrite <- (Hbytes Hd). apply ld_bytes_same. intros x _. apply (q_mem _ _ Q2).
Qed.

(** The gadget but for its endpoints, the residue and the unit. *)
Definition L0 : logical_unit_t := Lun 0 0 false false 0 0 false false 0 0 0 0.
Definition cmd_of (u : usbd_gadget_ums_t) : usbd_gadget_ums_t := set_lun L0 (set_residue 0 (set_bulk B0 u)).
Definition cmd_lun (u : usbd_gadget_ums_t) : usbd_gadget_ums_t := set_residue 0 (set_bulk B0 u).

Lemma cmd_lun_of u u' : cmd_lun u' = cmd_lun u -> cmd_of u' = cmd_of u.
Proof. intros E. exact (f_equal (set_lun L0) E). Qed.

(** The end of the reads: a read error, or the last buffer ready with all the others sent. *)
Definition read_end (g : gadget D) (sent : list Z) (left : Z) (g' : gadget D) : Prop :=
  (forall a, card (g_dev g') a = card (g_dev g) a) /\
  cmd_of (g_ums g') = cmd_of (g_ums g) /\
  ((sense_data (lun (g_ums g')) = SS_UNRECOVERED_READ_ERROR /\ in_length (bulk (g_ums g')) = 0 /\
    0 < residue (g_ums g') <= residue (g_ums g)) \/
   (cmd_lun (g_ums g') = cmd_lun (g_ums g) /\ residue (g_ums g') = residue (g_ums g) - 512 * left /\
    (sound (g_dev g') -> flight (g_dev g') = None /\
       wire (g_dev g') ++ ld_bytes (dev_ram (g_dev g')) (in_buf (bulk (g_ums g')))
                            (Z.to_nat (in_length (bulk (g_ums g')))) = sent))).

Lemma blocks_bytes am : 0 <= am < 8388608 -> u32 (Z.shiftl am UMS_DISK_LBA_SHIFT) = 512 * am.
Proof. intros Ha. unfold UMS_DISK_LBA_SHIFT. rewrite Z.shiftl_mul_pow2 by lia. rewrite u32_id; lia. Qed.

Lemma read_loop_run N O n : forall lba left max (first : bool) buf fl (g : gadget D),
  num_sectors (lun (g_ums g)) = N -> lun_offset (lun (g_ums g)) = O -> 0 <= O -> N < 4294967296 -> O + N <= 4294967296 ->
  0 <= lba -> 0 < left -> lba + left <= N -> 0 < max <= 128 -> (Z.to_nat left <= n)%nat ->
  SDXC_BUF_ALIGNED <= buf -> buf + 512 * left <= 4294967296 ->
  512 * left <= residue (g_ums g) < 4294967296 ->
  (sound (g_dev g) -> pending first buf fl (g_dev g)) ->
  exists g', scsi_read_loop n lba left max first buf g = (Ret tt, g') /\
    (sound (g_dev g') -> sound (g_dev g)) /\
    read_end g (wire (g_dev g) ++ (if first then [] else fl) ++
                card_bytes (g_dev g) (512 * (O + lba)) (Z.to_nat (512 * left))) left g'.
Proof.
  induction n as [|n IH]; intros lba left max first buf fl g EN EO HO HN HON Hl Hleft Hend Hmax Hn Hbuf Hbend Hres Hp; [lia|].
  unfold SDXC_BUF_ALIGNED in *.
  cbn [scsi_read_loop]. rewrite ums_bind, EN, EO, (u32_id (N - lba)), (u32_id (O + lba)) by lia.
  set (am := Z.min (Z.min left max) (N - lba)). assert (Ham : 0 < am <= left /\ am <= 128) by lia.
  rewrite (proj2 (Z.eqb_neq am 0)) by lia.
  destruct (read_step (O + lba) am first buf fl g ltac:(lia) ltac:(lia) ltac:(lia) Hbuf ltac:(lia) Hp)
    as (done & g1 & g2 & E1 & E2 & Eu & Ec & Hs & Hb).
  rewrite (bind_run _ _ _ _ _ E1), (bind_run _ _ _ _ _ E2). clear E1 E2.
  assert (Er : residue (g_ums g2) = residue (g_ums g)) by exact (f_equal residue Eu).
  destruct done.
  2: { change (u32 (Z.shiftl 0 UMS_DISK_LBA_SHIFT)) with 0. change (0 =? 0) with true. cbv iota.
       unfold upd_bulk. rewrite !(bind_run (upd _) _ _ tt _ eq_refl).
       edestruct (say_run (SetText "#FFDD00 Error:# SDMMC Read!" [])) as (g3 & E3 & Q3 & _).
       rewrite (bind_run _ _ _ _ _ E3). unfold sense_at, sense, upd_lun.
       eexists. split; [reflexivity|]. split; [intros Hso; by apply Hs, (q_sound _ _ Q3)|].
       split; [intros a; cbn; rewrite (q_card _ _ Q3); apply Ec|].
       pose proof (q_ums _ _ Q3) as Eu3. split.
       - transitivity (cmd_of (g_ums g3)); [done|].
         transitivity (cmd_of (g_ums g2)); [exact (f_equal cmd_of Eu3)|exact (f_equal cmd_of Eu)].
       - left. split; [done|]. split; [exact (q_len _ _ Q3)|].
         change (0 < residue (g_ums g3) <= residue (g_ums g)).
         rewrite (f_equal residue Eu3 : residue (g_ums g3) = _). cbn. rewrite Er, Z.sub_0_r, u32_id by lia. lia. }
  rewrite blocks_bytes, (u32_id (lba + am)), (u32_id (left - am)), (proj2 (Z.eqb_neq am 0)) by lia.
  unfold upd_bulk. rewrite !(bind_run (upd _) _ _ tt _ eq_refl).
  match goal with |- context [(if _ then _ else _) ?g0] => set (g3 := g0) end.
  assert (Elun : lun (g_ums g3) = lun (g_ums g)) by exact (f_equal lun Eu).
  assert (Er3 : residue (g_ums g3) = residue (g_ums g) - 512 * am) by (cbn; rewrite Er, u32_id; lia).
  assert (Ecl : cmd_lun (g_ums g3) = cmd_lun (g_ums g)) by exact (f_equal cmd_lun Eu).
  assert (Hsplit : card_bytes (g_dev g) (512 * (O + lba)) (Z.to_nat (512 * left)) =
    card_bytes (g_dev g) (512 * (O + lba)) (Z.to_nat (512 * am)) ++
    card_bytes (g_dev g) (512 * (O + (lba + am))) (Z.to_nat (512 * (left - am)))).
  { replace (Z.to_nat (512 * left)) with (Z.to_nat (512 * am) + Z.to_nat (512 * (left - am)))%nat by lia.
    rewrite card_bytes_app. do 2 f_equal. lia. }
  specialize (Hb eq_refl).
  destruct (Z.eqb_spec (left - am) 0) as [Ez|Ez].
  - (* the last read *)
    exists g3. split; [done|]. split; [intros Hso; by apply Hs|]. split; [exact Ec|]. split; [by apply cmd_lun_of|].
    right. split; [done|]. split; [lia|]. intros Hso. destruct (Hs Hso) as (_ & Hw & Hf). split; [exact Hf|].
    change (wire (g_dev g2) ++ ld_bytes (dev_ram (g_dev g2)) buf (Z.to_nat (512 * am)) =
      wire (g_dev g) ++ (if first then [] else fl) ++ card_bytes (g_dev g) (512 * (O + lba)) (Z.to_nat (512 * left))).
    rewrite Hw, Hb, <- app_assoc. replace left with am by lia. done.
  - destruct (transfer_in_run USB_XFER_START g3) as (g4 & E4 & Q4 & Hst). rewrite (bind_run _ _ _ _ _ E4).
    rewrite (u32_id (buf + 512 * am)) by lia.
    assert (Eu4 : cmd_lun (g_ums g4) = cmd_lun (g_ums g)) by (rewrite <- Ecl; exact (f_equal (set_residue 0) (q_ums _ _ Q4))).
    assert (El4 : lun (g_ums g4) = lun (g_ums g)) by exact (f_equal lun Eu4).
    assert (Er4 : residue (g_ums g4) = residue (g_ums g) - 512 * am)
      by (rewrite <- Er3; exact (f_equal residue (q_ums _ _ Q4))).
    set (data := card_bytes (g_dev g) (512 * (O + lba)) (Z.to_nat (512 * am))) in *.
    assert (Hlen : length data = Z.to_nat (512 * am)) by (rewrite <- Hb; apply ld_bytes_byte).
    assert (Hc4 : forall a, card (g_dev g4) a = card (g_dev g) a) by (intros a; rewrite (q_card _ _ Q4); apply Ec).
    assert (Hs4 : sound (g_dev g4) -> sound (g_dev g) /\ flight (g_dev g4) = Some (buf, data) /\
      wire (g_dev g4) = wire (g_dev g) ++ (if first then [] else fl)).
    { intros Hso. pose proof (q_sound _ _ Q4 Hso) as Hso2. destruct (Hs Hso2) as (Ha & Hw2 & Hf2).
      destruct (Hst Hso Hf2) as [Hw4 Hf4]. rewrite Hw4, Hf4. split; [done|]. split; [|exact Hw2].
      do 2 f_equal. rewrite <- Hb. done. }
    destruct (IH (lba + am) (left - am) max false (buf + 512 * am) data g4) as (g' & E' & Hs' & Hc' & Hcmd' & Hend');
      [by rewrite El4|by rewrite El4|lia..| |].
    { intros Hso. destruct (Hs4 Hso) as (_ & Hf4 & _). exists buf. rewrite Hlen. unfold SDXC_BUF_ALIGNED.
      split; [done|]. split; [done|]. split; [lia|]. rewrite <- Hb. apply ld_bytes_same.
      intros x _. apply (q_mem _ _ Q4). }
    exists g'. split; [exact E'|]. split; [intros Hso; by apply Hs4, Hs'|].
    split; [intros a; by rewrite Hc'|]. split; [by rewrite Hcmd'; apply cmd_lun_of|].
    destruct Hend' as [(Ha & Hb' & Hd)|(Ha & Hb' & Hd)]; [left; by split_and!; try lia|right].
    split; [congruence|]. split; [lia|]. intros Hso. destruct (Hd Hso) as [Hf' Hw']. split; [done|].
    destruct (Hs4 (Hs' Hso)) as (_ & _ & Hw4).
    rewrite Hw', Hw4, Hsplit, <- !app_assoc, (card_bytes_same (g_dev g) (g_dev g4)) by done. done.
Qed.

(** *** A command that passes the check *)

Definition masked (c : list Z) : list Z := <[1%nat := Z.land (cm c 1) 0x1F]> c.
Definition no_sense (l : logical_unit_t) : logical_unit_t :=
  set_info_valid 0 (set_sense_data_info 0 (set_sense_data SS_NO_SENSE l)).
(** The gadget after the check. *)
Definition accepted (u : usbd_gadget_ums_t) : usbd_gadget_ums_t :=
  set_cmnd (masked (cmnd u)) (set_lun (no_sense (lun u))
    (set_usb_amount_left (data_size u) (set_residue (data_size u) u))).

Lemma check_run size dir mask medium (g : gadget D) :
  let u := g_ums g in
  0 < data_size_from_cmnd u <= data_size u -> data_dir u = dir -> size = cmnd_size u ->
  cm (cmnd u) 0 <> SC_REQUEST_SENSE -> unit_attention_data (lun u) = 0 -> unmounted (lun u) = false ->
  stray_bytes (masked (cmnd u)) size mask = false ->
  _ums_check_scsi_cmd size dir mask medium g = (Ret UMS_RES_OK, with_ums (accepted u) g).
Proof.
  intros u Hd Hdir Hsize Hop Hat Hum Hst. unfold _ums_check_scsi_cmd. rewrite ums_bind. fold u.
  rewrite (proj2 (Z.eqb_neq (data_size_from_cmnd u) 0)) by lia.
  rewrite (proj2 (Z.ltb_ge (data_size u) (data_size_from_cmnd u))) by lia. cbn [when]. rewrite bind_mret.
  rewrite !(bind_run (upd _) _ _ tt _ eq_refl), ums_bind. cbn [g_ums with_ums].
  change (data_dir (set_usb_amount_left _ _)) with (data_dir u).
  rewrite Hdir, bool_decide_eq_true_2 by done. cbn [negb andb].
  change (cmnd_size (set_usb_amount_left _ _)) with (cmnd_size u). rewrite <- Hsize, Z.eqb_refl. cbn [negb andb].
  change (cmnd (set_usb_amount_left _ _)) with (cmnd u). rewrite (proj2 (Z.eqb_neq _ _) Hop).
  cbn [negb when]. rewrite (bind_run clear_sense _ _ tt _ eq_refl).
  change (unit_attention_data (lun (set_usb_amount_left _ _))) with (unit_attention_data (lun u)). rewrite Hat.
  change (c_true 0) with false. cbn [andb]. rewrite (bind_run (upd _) _ _ tt _ eq_refl), ums_bind. cbn [g_ums].
  match goal with |- context [stray_bytes ?c _ _] => change c with (masked (cmnd u)) end. rewrite Hst.
  match goal with |- context [unmounted ?l] => change (unmounted l) with (unmounted (lun u)) end. by rewrite Hum.
Qed.

(** *** Padding *)

Lemma pad_loop_run n : forall keep (g : gadget D),
  0 <= usb_amount_left (g_ums g) -> usb_amount_left (g_ums g) + 65536 <= 65536 * Z.of_nat n -> usb_amount_left (g_ums g) < 4294967296 ->
  exists g', pad_loop n keep g = (Ret tt, g') /\ lun (g_ums g') = lun (g_ums g) /\
    phase_error (g_ums g') = phase_error (g_ums g) /\ (forall a, card (g_dev g') a = card (g_dev g) a) /\
    (sound (g_dev g') -> sound (g_dev g)).
Proof.
  induction n as [|n IH]; intros keep g Hnn Ha Hu; [lia|]. cbn [pad_loop]. rewrite ums_bind.
  destruct (Z.ltb_spec 0 (usb_amount_left (g_ums g))) as [Hp|Hp]; [|by exists g; split_and!].
  set (ns := Z.min (usb_amount_left (g_ums g)) USB_EP_BUFFER_MAX_SIZE).
  unfold clear, mem_, upd_bulk.
  rewrite dev_bind, (bind_run (upd _) _ _ tt _ eq_refl).
  match goal with |- context [(_ ≫= _) ?g0] => set (g1 := g0) end.
  assert (Hc1 : forall a, card (g_dev g1) a = card (g_dev g) a).
  { intros a. by apply (dk_ram _ (card_keeps (g_dev g))). }
  destruct (transfer_in_run USB_XFER_SYNCED_DATA g1) as (g2 & E2 & Q2 & _). rewrite (bind_run _ _ _ _ _ E2).
  rewrite (bind_run (upd _) _ _ tt _ eq_refl).
  assert (Eam : usb_amount_left (g_ums g2) = usb_amount_left (g_ums g)) by exact (f_equal usb_amount_left (q_ums _ _ Q2)).
  match goal with |- context [pad_loop n 0 ?g0] => set (g3 := g0) end.
  assert (E3 : usb_amount_left (g_ums g3) = usb_amount_left (g_ums g) - ns).
  { cbn. rewrite Eam. apply u32_id. unfold ns, USB_EP_BUFFER_MAX_SIZE. lia. }
  destruct (IH 0 g3) as (g' & E' & El & Ep & Ec & Hs); [unfold ns, USB_EP_BUFFER_MAX_SIZE in *; lia..|].
  exists g'. split; [exact E'|]. split_and!.
  - rewrite El. exact (f_equal lun (q_ums _ _ Q2)).
  - rewrite Ep. exact (f_equal phase_error (q_ums _ _ Q2)).
  - intros a. rewrite Ec. cbn. by rewrite (q_card _ _ Q2).
  - intros Hso. by apply (wire_ram _ _ (q_sound _ _ Q2 (Hs Hso))).
Qed.

(** ** READ *)

Lemma reset_bind {B} (k : unit -> M (gadget D) B) g : (_ums_reset_buffer USB_EP_BULK_IN ≫= k) g =
  k tt (with_ums (set_bulk (set_in_buf USB_EP_BULK_IN_BUF_ADDR (bulk (g_ums g))) (g_ums g)) g).
Proof. done. Qed.

(** The end of a command that sent all it was asked for. *)
Lemma finish_reply_whole fuel (g : gadget D) :
  let u := g_ums g in
  data_dir u = DATA_DIR_TO_HOST -> data_size u <> 0 -> residue u = 0 ->
  exists g', finish_reply fuel g = (Ret UMS_RES_OK, g') /\ set_bulk B0 (g_ums g') = set_bulk B0 u /\
    (forall a, card (g_dev g') a = card (g_dev g) a) /\
    (sound (g_dev g') -> sound (g_dev g) /\ (flight (g_dev g) = None ->
       wire (g_dev g') = wire (g_dev g) ++
         ld_bytes (dev_ram (g_dev g)) (in_buf (bulk u)) (Z.to_nat (in_length (bulk u))))).
Proof.
  intros u Hd Hsz Hr. unfold finish_reply. rewrite ums_bind. fold u. rewrite Hd.
  replace (c_true (data_size u)) with true by (symmetry; by apply negb_true_iff, Z.eqb_neq).
  rewrite Hr. change (negb (c_true 0)) with true. cbv iota.
  destruct (transfer_in_run USB_XFER_SYNCED_DATA g) as (g1 & E1 & Q1 & Hs). rewrite bind_assoc.
  rewrite (bind_run _ _ _ _ _ E1), bind_mret. rewrite reset_bind.
  eexists. split; [reflexivity|]. split; [exact (q_ums _ _ Q1)|]. split; [apply (q_card _ _ Q1)|].
  cbn [g_dev with_ums]. intros Hso. split; [by apply (q_sound _ _ Q1)|]. intros Hf. by apply Hs.
Qed.

(** The end of a command that sent less. *)
Lemma finish_reply_padded fuel (g : gadget D) :
  let u := g_ums g in
  data_dir u = DATA_DIR_TO_HOST -> data_size u <> 0 -> can_stall u = false -> in_length (bulk u) = 0 ->
  0 < residue u < 4294967296 -> residue u + 65536 <= 65536 * Z.of_nat fuel ->
  exists g', finish_reply fuel g = (Ret UMS_RES_OK, g') /\ lun (g_ums g') = lun u /\
    phase_error (g_ums g') = phase_error u /\ (forall a, card (g_dev g') a = card (g_dev g) a).
Proof.
  intros u Hd Hsz Hcs Hlen Hr Hru. unfold finish_reply. rewrite ums_bind. fold u. rewrite Hd, Hcs.
  replace (c_true (data_size u)) with true by (symmetry; by apply negb_true_iff, Z.eqb_neq).
  replace (c_true (residue u)) with true by (symmetry; apply negb_true_iff, Z.eqb_neq; lia). cbn [negb].
  unfold pad_with_zeros. rewrite !bind_assoc. unfold upd_bulk at 1.
  rewrite (bind_run (upd _) _ _ tt _ eq_refl), bind_assoc, ums_bind, bind_assoc. cbn [g_ums].
  rewrite (bind_run (upd _) _ _ tt _ eq_refl), bind_assoc.
  match goal with |- context [(pad_loop fuel ?k ≫= _) ?g0] => set (g1 := g0) end.
  assert (E1 : usb_amount_left (g_ums g1) = residue u).
  { change (u32 (in_length (bulk u) + residue u) = residue u). rewrite Hlen, u32_id; lia. }
  edestruct (pad_loop_run fuel) as (g2 & E2 & El & Ep & Ec & _); [rewrite E1; lia..|].
  rewrite (bind_run _ _ _ _ _ E2), bind_mret. rewrite reset_bind.
  eexists. split; [reflexivity|]. cbn. split_and!; [exact El|exact Ep|exact Ec].
Qed.

Lemma cm_masked c i : i <> 1%nat -> cm (masked c) i = cm c i.
Proof. intros Hi. unfold cm, masked. by rewrite list_lookup_insert_ne. Qed.
Lemma cm_masked_1 c : length c = 16%nat -> cm (masked c) 1 = Z.land (cm c 1) 0x1F.
Proof. intros Hl. unfold cm at 1, masked. by rewrite list_lookup_insert_eq by lia. Qed.
Lemma be32_masked c : get_array_be_to_le32 (masked c) 2 = get_array_be_to_le32 c 2.
Proof. unfold get_array_be_to_le32. by rewrite !cm_masked by done. Qed.

(** The mask of a ten-byte READ or WRITE: flags, address and length. *)
Definition mask_rw10 : Z := Z.lor (Z.lor (Z.shiftl 1 1) (Z.shiftl 0xf 2)) (Z.shiftl 3 7).

Lemma command_read10 fuel (g : gadget D) : cm (cmnd (g_ums g)) 0 = SC_READ_10 ->
  scsi_command fuel g =
  command (Z.shiftl (get_array_be_to_le16 (cmnd (g_ums g)) 7) UMS_DISK_LBA_SHIFT) 10 DATA_DIR_TO_HOST mask_rw10 true
    (_scsi_read fuel) g.
Proof. intros Hop. unfold scsi_command. rewrite ums_bind. cbv zeta. rewrite Hop. reflexivity. Qed.

(** [_scsi_read] of an accepted command. *)
Lemma scsi_read_run fuel k (g : gadget D) :
  let u := g_ums g in
  let lba := get_array_be_to_le32 (cmnd u) 2 in
  cm (cmnd u) 0 = SC_READ_10 -> Z.land (cm (cmnd u) 1) (Z.lnot 0x18) = 0 ->
  data_size_from_cmnd u = 512 * k -> 0 < k <= 65536 -> lba + k <= num_sectors (lun u) ->
  is_u32 (lun_offset (lun u)) -> is_u32 (num_sectors (lun u)) ->
  lun_offset (lun u) + num_sectors (lun u) <= 4294967296 ->
  512 * k <= residue u < 4294967296 -> (Z.to_nat k <= fuel)%nat ->
  (sound (g_dev g) -> flight (g_dev g) = None) ->
  exists g', _scsi_read fuel g = (Ret UMS_RES_IO_ERROR, g') /\ (sound (g_dev g') -> sound (g_dev g)) /\
    read_end g (wire (g_dev g) ++ card_bytes (g_dev g) (512 * (lun_offset (lun u) + lba)) (Z.to_nat (512 * k))) k g'.
Proof.
  intros u lba Hop Hfl Hsz Hk Hend HO HN HON Hres Hfuel Hf.
  pose proof (be32_range (cmnd u) 2) as Hlba. fold lba in Hlba. unfold is_u32 in *.
  unfold _scsi_read, get_lba. rewrite bind_assoc, ums_bind. fold u. rewrite Hop.
  change (SC_READ_10 =? SC_READ_6) with false. cbv iota. rewrite Hfl. change (c_true 0) with false. cbv iota.
  rewrite bind_mret, ums_bind. fold u lba. rewrite (proj2 (Z.leb_gt (num_sectors (lun u)) lba)) by lia.
  assert (Ek : Z.shiftr (data_size_from_cmnd u) UMS_DISK_LBA_SHIFT = k).
  { rewrite Hsz. unfold UMS_DISK_LBA_SHIFT. rewrite Z.shiftr_div_pow2 by lia. change (2 ^ 9) with 512. zdm. }
  rewrite Ek, (proj2 (Z.eqb_neq k 0)) by lia.
  set (mx := if _ <=? k then _ else _). assert (Hmx : 0 < mx <= 128).
  { unfold mx. destruct (_ <=? _); vm_compute; split; congruence. }
  destruct (read_loop_run (num_sectors (lun u)) (lun_offset (lun u)) fuel lba k mx true SDXC_BUF_ALIGNED [] g)
    as (g' & E' & Hs' & Hr'); try done; try lia; [unfold SDXC_BUF_ALIGNED; lia|].
  rewrite (bind_run _ _ _ _ _ E'). by exists g'.
Qed.

(** A ten-byte READ or WRITE of [k] sectors of the unit, as the host sends it. *)
Record rw10 (op : Z) (dir : data_direction) (u : usbd_gadget_ums_t) (k : Z) : Prop := {
  r_wf : ums_wf u;
  r_op : cm (cmnd u) 0 = op;
  r_size : cmnd_size u = 10;
  r_flags : Z.land (Z.land (cm (cmnd u) 1) 0x1F) (Z.lnot 0x18) = 0;
  r_stray : stray_bytes (masked (cmnd u)) 10 mask_rw10 = false;
  r_len : get_array_be_to_le16 (cmnd u) 7 = k;
  r_pos : 0 < k;
  r_data : data_size u = 512 * k;
  r_dir : data_dir u = dir;
  r_attention : unit_attention_data (lun u) = 0;
  r_mounted : unmounted (lun u) = false;
  r_stall : can_stall u = false;
  r_end : get_array_be_to_le32 (cmnd u) 2 + k <= num_sectors (lun u);
  r_unit : lun_offset (lun u) + num_sectors (lun u) <= 4294967296
}.
#[local] Abbreviation read10 := (rw10 SC_READ_10 DATA_DIR_TO_HOST).
#[local] Abbreviation write10 := (rw10 SC_WRITE_10 DATA_DIR_FROM_HOST).
(** Its first byte on the card. *)
Definition rw10_at (u : usbd_gadget_ums_t) : Z := 512 * (lun_offset (lun u) + get_array_be_to_le32 (cmnd u) 2).
Definition read10_bytes (d : D) (u : usbd_gadget_ums_t) (k : Z) : list Z :=
  card_bytes d (rw10_at u) (Z.to_nat (512 * k)).

(** The check accepts it. *)
Lemma command_rw10 op dir k m (g : gadget D) :
  rw10 op dir (g_ums g) k -> op <> SC_REQUEST_SENSE ->
  command (Z.shiftl (get_array_be_to_le16 (cmnd (g_ums g)) 7) UMS_DISK_LBA_SHIFT) 10 dir mask_rw10 true m g =
  m (with_ums (accepted (set_data_size_from_cmnd (512 * k) (g_ums g))) g).
Proof.
  intros [] Hop. rewrite r_len0. unfold UMS_DISK_LBA_SHIFT. rewrite Z.shiftl_mul_pow2 by lia.
  replace (k * 2 ^ 9) with (512 * k) by lia. unfold command. rewrite (bind_run (upd _) _ _ tt _ eq_refl).
  set (u1 := set_data_size_from_cmnd (512 * k) (g_ums g)). change (Gadget _ _ _ _) with (with_ums u1 g).
  rewrite (bind_run _ _ _ _ _ (check_run 10 dir mask_rw10 true (with_ums u1 g)
    (ltac:(cbn; lia)) r_dir0 (eq_sym r_size0)
    (ltac:(change (cm (cmnd (g_ums g)) 0 <> SC_REQUEST_SENSE); by rewrite r_op0)) r_attention0 r_mounted0 r_stray0)).
  done.
Qed.

Lemma command_read_run fuel k (g : gadget D) :
  let u := g_ums g in
  read10 u k -> (Z.to_nat k <= fuel)%nat -> (sound (g_dev g) -> flight (g_dev g) = None) ->
  exists g', scsi_command fuel g = (Ret UMS_RES_IO_ERROR, g') /\ (sound (g_dev g') -> sound (g_dev g)) /\
    read_end (with_ums (accepted (set_data_size_from_cmnd (512 * k) u)) g)
      (wire (g_dev g) ++ read10_bytes (g_dev g) u k) k g'.
Proof.
  intros u Hr Hfuel Hf. rewrite command_read10 by apply Hr. rewrite (command_rw10 _ _ k) by done. fold u.
  destruct Hr. pose proof (be16_range (cmnd u) 7) as Hk16. rewrite r_len0 in Hk16.
  set (u1 := set_data_size_from_cmnd (512 * k) u).
  set (g2 := with_ums (accepted u1) g).
  destruct (scsi_read_run fuel k g2) as (g' & E' & Hs' & Hr').
  - by change (cm (masked (cmnd u)) 0 = SC_READ_10); rewrite cm_masked.
  - change (Z.land (cm (masked (cmnd u)) 1) (Z.lnot 0x18) = 0). rewrite cm_masked_1; [done|apply r_wf0].
  - done.
  - lia.
  - change (get_array_be_to_le32 (masked (cmnd u)) 2 + k <= num_sectors (lun u)). by rewrite be32_masked.
  - apply r_wf0.
  - apply r_wf0.
  - done.
  - change (512 * k <= data_size u < 4294967296). lia.
  - done.
  - done.
  - exists g'. split; [exact E'|]. split; [exact Hs'|].
    change (cmnd (g_ums g2)) with (masked (cmnd u)) in Hr'. by rewrite be32_masked in Hr'.
Qed.

(** C12: a ten-byte READ of sectors of the unit returns.  When its status is "pass" and no USB
    transfer failed, the host has received exactly the sectors it asked for, although the
    reads of the card overlap with the transfers; otherwise the sense data says that the card
    could not be read.  The card is unchanged. *)
Theorem scsi_read_delivers fuel k (g : gadget D) :
  read10 (g_ums g) k -> (sound (g_dev g) -> flight (g_dev g) = None) -> k < Z.of_nat fuel ->
  exists g', (_ums_parse_scsi_cmd fuel;; finish_reply fuel) g = (Ret UMS_RES_OK, g') /\
    (forall a, card (g_dev g') a = card (g_dev g) a) /\
    (if csw_status (g_ums g') =? USB_STATUS_PASS
     then residue (g_ums g') = 0 /\
       (sound (g_dev g') -> wire (g_dev g') = wire (g_dev g) ++ read10_bytes (g_dev g) (g_ums g) k)
     else sense_data (lun (g_ums g')) = SS_UNRECOVERED_READ_ERROR).
Proof.
  intros Hr Hf Hfuel. pose proof (be16_range (cmnd (g_ums g)) 7) as Hk16. rewrite (r_len _ _ _ _ Hr) in Hk16.
  pose proof (r_pos _ _ _ _ Hr) as Hk.
  unfold _ums_parse_scsi_cmd.
  rewrite bind_assoc, (bind_run (upd _) _ _ tt _ eq_refl), bind_assoc, (bind_run (upd _) _ _ tt _ eq_refl), bind_assoc.
  match goal with |- context [(scsi_command fuel ≫= _) ?g0] => set (g1 := g0) end.
  assert (Hr1 : read10 (g_ums g1) k).
  { destruct Hr. constructor; try done. by destruct r_wf0. }
  destruct (command_read_run fuel k g1 Hr1 ltac:(lia) Hf) as (g2 & E2 & Hs2 & Hc2 & Hcmd & He).
  rewrite (bind_run _ _ _ _ _ E2). change (UMS_RES_IO_ERROR =? UMS_RES_INVALID_ARG) with false. cbv iota.
  rewrite bind_assoc, ums_bind. change (0 <=? UMS_RES_IO_ERROR) with false. cbn [andb when]. rewrite bind_assoc, !bind_mret.
  assert (Hd2 : data_dir (g_ums g2) = DATA_DIR_TO_HOST) by (rewrite <- (r_dir _ _ _ _ Hr); exact (f_equal data_dir Hcmd)).
  assert (Hsz2 : data_size (g_ums g2) = 512 * k) by (rewrite <- (r_data _ _ _ _ Hr); exact (f_equal data_size Hcmd)).
  assert (Hcs2 : can_stall (g_ums g2) = false) by (rewrite <- (r_stall _ _ _ _ Hr); exact (f_equal can_stall Hcmd)).
  assert (Hpe2 : phase_error (g_ums g2) = false) by exact (f_equal phase_error Hcmd).
  destruct He as [(Hse & Hlen & Hres)|(Hcl & Hres & Hw)].
  - change (residue (g_ums (with_ums _ g1))) with (data_size (g_ums g)) in Hres.
    rewrite (r_data _ _ _ _ Hr) in Hres.
    destruct (finish_reply_padded fuel g2) as (g3 & E3 & El & Ep & Ec); [done|lia|done|done|lia|lia|].
    exists g3. split; [exact E3|]. split; [intros a; rewrite Ec; apply Hc2|].
    unfold csw_status. by rewrite Ep, Hpe2, El, Hse.
  - change (residue (g_ums (with_ums _ g1))) with (data_size (g_ums g)) in Hres.
    rewrite (r_data _ _ _ _ Hr) in Hres.
    destruct (finish_reply_whole fuel g2) as (g3 & E3 & Eu & Ec & Hs); [done|lia|lia|].
    exists g3. split; [exact E3|]. split; [intros a; rewrite Ec; apply Hc2|].
    assert (Hse : sense_data (lun (g_ums g3)) = SS_NO_SENSE).
    { transitivity (sense_data (lun (g_ums g2))); [exact (f_equal (fun u => sense_data (lun u)) Eu)|].
      exact (f_equal (fun u => sense_data (lun u)) Hcl). }
    assert (Hpe : phase_error (g_ums g3) = false) by (rewrite <- Hpe2; exact (f_equal phase_error Eu)).
    unfold csw_status. rewrite Hpe, Hse. change (_ =? USB_STATUS_PASS) with true. cbv iota. split.
    + rewrite (f_equal residue Eu : residue (g_ums g3) = residue (g_ums g2)). lia.
    + intros Hso. destruct (Hs Hso) as [Hs3 Hwire]. destruct (Hw Hs3) as [Hf2 Hw2].
      rewrite (Hwire Hf2). exact Hw2.
Qed.

(** ** WRITE *)

Lemma trimmed_full room act q : 0 <= q -> 512 * q < 4294967296 -> q <= room -> 512 * q <= act < 4294967296 ->
  trimmed room act (512 * q) = 512 * q.
Proof.
  intros Hq Hq32 Hr Ha. unfold trimmed, UMS_DISK_LBA_SHIFT. rewrite Z.shiftr_div_pow2, Z.shiftl_mul_pow2 by lia.
  change (2 ^ 9) with 512. rewrite round_512. destruct (Z.ltb_spec room (act / 512)).
  - rewrite u32_id by zdm. rewrite Z.min_r by lia. zdm.
  - rewrite Z.min_r by lia. zdm.
Qed.

(** What a WRITE changes of the card: at most the [n] sectors from [s]. *)
Definition card_frame (s n : Z) (g g' : gadget D) : Prop :=
  forall a, ~ (512 * s <= a < 512 * (s + n)) -> card (g_dev g') a = card (g_dev g) a.
Definition dir_of (u : usbd_gadget_ums_t) : data_direction * bool := (data_dir u, phase_error u).
(** The loop of a WRITE was stopped by an error or a short packet: the status will show it. *)
Definition stopped (g : gadget D) : Prop :=
  sense_data (lun (g_ums g)) <> SS_NO_SENSE \/ 0 < residue (g_ums g).

(** A round that wrote the whole buffer, [q] sectors. *)
Definition wrote (s q : Z) (g g' : gadget D) : Prop :=
  cmd_lun (g_ums g') = cmd_lun (g_ums g) /\ bulk (g_ums g') = bulk (g_ums g) /\
  residue (g_ums g') = u32 (residue (g_ums g) - 512 * q) /\ host (g_dev g') = host (g_dev g) /\
  (forall i, 0 <= i < 512 * q ->
     card (g_dev g') (512 * s + i) = ld8 (dev_ram (g_dev g)) (USB_EP_BULK_OUT_BUF_ADDR + i)).

Lemma empty_write_run (lba left len act : Z) (g : gadget D) : exists g',
  (if act <? len then
     say (SetText "#FFDD00 Error:# Empty Write!" []);; upd (set_short_packet_received true);; mret (true, lba, left)
   else mret (false, lba, left)) g = (Ret (act <? len, lba, left), g') /\
  (forall a, card (g_dev g') a = card (g_dev g) a) /\ dir_of (g_ums g') = dir_of (g_ums g) /\
  (sound (g_dev g') -> sound (g_dev g)) /\ residue (g_ums g') = residue (g_ums g) /\ (len <= act -> g' = g).
Proof.
  destruct (Z.ltb_spec act len); [|by exists g].
  destruct (say_run (SetText "#FFDD00 Error:# Empty Write!" []) g) as (g1 & E1 & Q1 & _).
  rewrite (bind_run _ _ _ _ _ E1). eexists. split; [reflexivity|]. split; [apply (q_card _ _ Q1)|].
  split; [exact (f_equal dir_of (q_ums _ _ Q1))|]. split; [apply (q_sound _ _ Q1)|].
  split; [exact (f_equal residue (q_ums _ _ Q1))|lia].
Qed.

(** A message and sense data. *)
Lemma write_error_run t v info (r : bool * Z * Z) (g : gadget D) : v <> 0 -> exists g',
  (say t;; sense_at v info;; mret r) g = (Ret r, g') /\
  (forall a, card (g_dev g') a = card (g_dev g) a) /\ dir_of (g_ums g') = dir_of (g_ums g) /\
  (sound (g_dev g') -> sound (g_dev g)) /\ stopped g'.
Proof.
  intros Hv. destruct (say_run t g) as (g1 & E1 & Q1 & _). rewrite (bind_run _ _ _ _ _ E1).
  eexists. split; [reflexivity|]. split; [apply (q_card _ _ Q1)|].
  split; [exact (f_equal dir_of (q_ums _ _ Q1))|]. split; [apply (q_sound _ _ Q1)|by left].
Qed.

Lemma write_buffer_step N O lba r q (g : gadget D) :
  num_sectors (lun (g_ums g)) = N -> lun_offset (lun (g_ums g)) = O -> 0 <= O -> N < 4294967296 -> O + N <= 4294967296 ->
  0 <= lba -> 0 < q <= 16384 -> q <= r -> lba + q <= N -> 512 * r < 4294967296 ->
  out_buf (bulk (g_ums g)) = USB_EP_BULK_OUT_BUF_ADDR -> out_length (bulk (g_ums g)) = 512 * q ->
  is_u32 (out_actual (bulk (g_ums g))) -> 512 * r <= residue (g_ums g) < 4294967296 ->
  exists stop lba' left' g', scsi_write_buffer lba (512 * r) g = (Ret (stop, lba', left'), g') /\
    card_frame (O + lba) q g g' /\ dir_of (g_ums g') = dir_of (g_ums g) /\ (sound (g_dev g') -> sound (g_dev g)) /\
    if stop : bool then stopped g' else lba' = lba + q /\ left' = 512 * (r - q) /\ wrote (O + lba) q g g'.
Proof.
  intros EN EO HO HN HON Hl Hq Hqr Hend Hr Hb Hlen Hact Hres. unfold is_u32 in Hact.
  unfold scsi_write_buffer. rewrite ums_bind, EN, EO, Hb, Hlen. cbv zeta.
  rewrite (u32_id (N - lba)), (u32_id (O + lba)) by lia.
  set (st := out_status _). set (act := out_actual _) in *.
  destruct (c_true st).
  { destruct (say_run (SetText "#FFDD00 Error:# Write - Comm failure %d!" [st])
      (with_ums (set_lun (set_info_valid 1 (set_sense_data_info lba (set_sense_data SS_COMMUNICATION_FAILURE
         (lun (g_ums g))))) (g_ums g)) g)) as (g1 & E1 & Q1 & _).
    rewrite (bind_run (sense_at _ _) _ _ tt _ eq_refl). change (Gadget _ _ _ _) with (with_ums
      (set_lun (set_info_valid 1 (set_sense_data_info lba (set_sense_data SS_COMMUNICATION_FAILURE
         (lun (g_ums g))))) (g_ums g)) g). rewrite (bind_run _ _ _ _ _ E1).
    eexists _, _, _, _. split; [reflexivity|]. split; [intros a _; apply (q_card _ _ Q1)|].
    split; [exact (f_equal dir_of (q_ums _ _ Q1))|]. split; [apply (q_sound _ _ Q1)|]. left.
    rewrite (f_equal (fun u => sense_data (lun u)) (q_ums _ _ Q1) : sense_data (lun (g_ums g1)) = _). done. }
  fold (trimmed (N - lba) act (512 * q)).
  destruct (Z.eqb_spec (trimmed (N - lba) act (512 * q)) 0) as [Et|Et].
  { destruct (empty_write_run lba (512 * r) (512 * q) act g) as (g1 & E1 & Hc & Hd & Hs & He & _).
    assert (Hlt : (act <? 512 * q) = true).
    { apply Z.ltb_lt. destruct (Z.lt_ge_cases act (512 * q)); [done|]. rewrite trimmed_full in Et; lia. }
    rewrite Hlt in E1. rewrite Hlt. eexists _, _, _, g1. split; [exact E1|]. split; [intros a _; apply Hc|].
    split_and!; [done|done|]. right. lia. }
  destruct (trimmed_range (N - lba) act (512 * q)) as (Hn & Hn512 & Hle); [lia..|done|].
  set (am := trimmed _ _ _) in *. set (k := Z.shiftr am UMS_DISK_LBA_SHIFT) in *.
  destruct (card_write (O + lba) k USB_EP_BULK_OUT_BUF_ADDR (g_dev g)) as [Hframe Hdata];
    [lia..|exact out_buf_dma|unfold USB_EP_BULK_OUT_BUF_ADDR; lia|right; vm_compute; congruence|].
  destruct (wire_write (O + lba) k USB_EP_BULK_OUT_BUF_ADDR (g_dev g)) as [Hhost Hso].
  unfold dev at 1. unfold mbind at 1, M_bind at 1.
  destruct (dev_write (O + lba) k USB_EP_BULK_OUT_BUF_ADDR (g_dev g)) as [done d1].
  cbn [fst snd] in Hframe, Hdata, Hhost, Hso.
  rewrite (bind_run (upd _) _ _ tt _ eq_refl).
  match goal with |- context [(if _ then _ else _) ?g0] => set (g2 := g0) end.
  assert (Hcf : card_frame (O + lba) q g g2) by (intros a Ha; apply Hframe; lia).
  destruct done.
  2: { change (0 =? 0) with true. cbv iota.
       edestruct (write_error_run (SetText "#FFDD00 Error:# SDMMC Write!" []) SS_WRITE_ERROR) as (g3 & E3 & Hc & Hd & Hs & He);
         [done|]. rewrite E3. eexists _, _, _, g3. split; [reflexivity|].
       split; [intros a Ha; rewrite Hc; by apply Hcf|]. split; [by rewrite Hd|]. split; [auto|done]. }
  rewrite (proj2 (Z.eqb_neq am 0)) by done.
  edestruct empty_write_run as (g3 & E3 & Hc & Hd & Hs & He & Hsame). rewrite E3. clear E3.
  eexists _, _, _, g3. split; [reflexivity|]. split; [intros a Ha; rewrite Hc; by apply Hcf|].
  split; [by rewrite Hd|]. split; [auto|].
  destruct (Z.ltb_spec act (512 * q)) as [Hlt|Hge].
  { right. rewrite He. cbn. assert (am <= act).
    { unfold am, trimmed. rewrite round_512. pose proof (trimmed_le (N - lba) act) as Ht. cbv zeta in Ht. clear -Hlt Hact Hn Ht.
      destruct (Z.ltb_spec (N - lba) (Z.shiftr act UMS_DISK_LBA_SHIFT)); [|zdm].
      unfold UMS_DISK_LBA_SHIFT in *. rewrite Z.shiftr_div_pow2, Z.shiftl_mul_pow2 in * by lia.
      change (2 ^ 9) with 512 in *. rewrite u32_id in * by zdm. zdm. }
    rewrite u32_id; lia. }
  rewrite (Hsame Hge). clear Hsame.
  assert (Eam : am = 512 * q) by (apply trimmed_full; lia). assert (Ek : k = q) by lia.
  fold k. rewrite Ek, Eam, (u32_id (lba + q)), (u32_id (512 * r - 512 * q)) by lia.
  split; [done|]. split; [lia|]. split; [done|]. split; [done|]. split; [by rewrite <- Eam|].
  split; [exact Hhost|]. intros i Hi. apply Hdata; [done|lia].
Qed.

(** The gadget but for the endpoints and the counts of bytes. *)
Definition core (u : usbd_gadget_ums_t) : usbd_gadget_ums_t := set_usb_amount_left 0 (cmd_lun u).

Lemma big_read_step q (g : gadget D) :
  0 < q <= 16384 ->
  exists g', (upd (fun u => set_usb_amount_left (u32 (usb_amount_left u - 512 * q)) u);;
    upd_bulk (set_out_length (512 * q));; _ums_transfer_out_big_read) g = (Ret tt, g') /\
    core (g_ums g') = core (g_ums g) /\ residue (g_ums g') = residue (g_ums g) /\
    out_buf (bulk (g_ums g')) = out_buf (bulk (g_ums g)) /\ out_length (bulk (g_ums g')) = 512 * q /\
    is_u32 (out_actual (bulk (g_ums g'))) /\ out_state (bulk (g_ums g')) = BUF_STATE_FULL /\
    (forall a, card (g_dev g') a = card (g_dev g) a) /\
    (sound (g_dev g') -> sound (g_dev g) /\
       ld_bytes (dev_ram (g_dev g')) (out_buf (bulk (g_ums g))) (Z.to_nat (512 * q))
         = take (Z.to_nat (512 * q)) (host (g_dev g)) /\
       host (g_dev g') = drop (Z.to_nat (512 * q)) (host (g_dev g))).
Proof.
  intros Hq. rewrite (bind_run (upd _) _ _ tt _ eq_refl). unfold upd_bulk at 1. rewrite (bind_run (upd _) _ _ tt _ eq_refl).
  unfold _ums_transfer_out_big_read. rewrite ums_bind. cbv zeta.
  match goal with |- context [(dev (usb_device_ep1_out_read_big ?b ?l ?a) ≫= _) ?g0] =>
    change b with (out_buf (bulk (g_ums g))); change l with (512 * q); change a with (out_actual (bulk (g_ums g))); set (g1 := g0) end.
  set (b := out_buf (bulk (g_ums g))). set (a := out_actual (bulk (g_ums g))).
  pose proof (fun x => dk_out_big _ (card_keeps (g_dev g)) b (512 * q) a (g_dev g) (fun _ => eq_refl) x) as Hcard.
  pose proof (wire_out b (512 * q) a (g_dev g)) as Hlaw.
  unfold dev at 1. unfold mbind at 1, M_bind at 1. change (g_dev g1) with (g_dev g).
  destruct (usb_device_ep1_out_read_big b (512 * q) a (g_dev g)) as [[st act] d1]. cbn [fst snd] in Hcard |- *.
  set (g2 := with_ums (set_bulk (set_out_actual (u32 act) (set_out_status st (bulk (g_ums g1)))) (g_ums g1)) (with_dev d1 g1)).
  rewrite (bind_run (out_result _) _ _ tt g2) by done.
  assert (Hw : exists g3, (when (st =? USB_ERROR_XFER_ERROR)
      (say (SetText "#FFDD00 Error:# EP OUT transfer!" []);; ums_flush_endpoint USB_EP_BULK_OUT)) g2 = (Ret tt, g3) /\
      g_ums g3 = g_ums g2 /\ quiet g2 g3 /\ (st = USB_RES_OK -> g3 = g2)).
  { destruct (st =? USB_ERROR_XFER_ERROR) eqn:Est; cbn [when]; [|by exists g2].
    destruct (say_run (SetText "#FFDD00 Error:# EP OUT transfer!" []) g2) as (g3 & E3 & Q3 & _).
    destruct (flush_run USB_EP_BULK_OUT g3) as (g4 & E4 & Q4). exists g4.
    split; [by rewrite (bind_run _ _ _ _ _ E3)|].
    split; [unfold ums_flush_endpoint, say, dev_, dev in *; by simplify_eq|].
    split; [by transitivity g3|]. intros ->. by vm_compute in Est. }
  destruct Hw as (g3 & E3 & Eu3 & Q3 & Hsame). rewrite (bind_run _ _ _ _ _ E3).
  eexists. split; [reflexivity|]. cbn [g_ums g_dev upd_bulk]. rewrite Eu3.
  split; [done|]. split; [done|]. split; [done|]. split; [done|]. split; [apply is_u32_u32|]. split; [done|].
  split; [intros x; rewrite (q_card _ _ Q3); apply Hcard|].
  intros Hso. destruct (Hlaw (q_sound _ _ Q3 Hso)) as (Hs & Hok & _ & Hb & Hh). rewrite (Hsame Hok). by split_and!.
Qed.

(** The end of the writes: stopped, or all the data of the host on the card. *)
Definition write_end (s r : Z) (g g' : gadget D) : Prop :=
  card_frame s r g g' /\ dir_of (g_ums g') = dir_of (g_ums g) /\ (sound (g_dev g') -> sound (g_dev g)) /\
  (stopped g' \/
   core (g_ums g') = core (g_ums g) /\ residue (g_ums g') = residue (g_ums g) - 512 * r /\
   (sound (g_dev g') -> forall i, 0 <= i < 512 * r ->
      host (g_dev g) !! Z.to_nat i = Some (card (g_dev g') (512 * s + i)))).

Lemma write_loop_run N O n : forall lba r (g : gadget D),
  num_sectors (lun (g_ums g)) = N -> lun_offset (lun (g_ums g)) = O -> 0 <= O -> N < 4294967296 -> O + N <= 4294967296 ->
  0 <= lba -> 0 <= r -> lba + r <= N -> 512 * r < 4294967296 -> (Z.to_nat r < n)%nat ->
  out_buf (bulk (g_ums g)) = USB_EP_BULK_OUT_BUF_ADDR -> 512 * r <= residue (g_ums g) < 4294967296 ->
  exists g', scsi_write_loop n lba lba (512 * r) (512 * r) g = (Ret tt, g') /\ write_end (O + lba) r g g'.
Proof.
  induction n as [|n IH]; intros lba r g EN EO HO HN HON Hl Hr Hend Hr32 Hn Hb Hres; [lia|].
  cbn [scsi_write_loop]. destruct (Z.eqb_spec (512 * r) 0) as [Ez|Ez].
  { exists g. split; [done|]. split; [done|]. split; [done|]. split; [done|]. right. split; [done|].
    split; [lia|]. intros _ i Hi. lia. }
  rewrite ums_bind, EN, (proj2 (Z.leb_gt N lba)), andb_false_r by lia.
  set (q := Z.min r 16384).
  replace (Z.min (512 * r) UMS_EP_OUT_MAX_XFER) with (512 * q) by (unfold q, UMS_EP_OUT_MAX_XFER; lia).
  replace (c_true (512 * r)) with true by (symmetry; by apply negb_true_iff, Z.eqb_neq). cbn [when].
  destruct (big_read_step q g) as (g1 & E1 & Ec1 & Er1 & Eb1 & El1 & Ea1 & Es1 & Hc1 & Hs1); [lia|].
  rewrite (bind_run _ _ _ _ _ E1), ums_bind, Es1, bool_decide_eq_true_2 by done.
  unfold upd_bulk at 1. rewrite (bind_run (upd _) _ _ tt _ eq_refl).
  match goal with |- context [(scsi_write_buffer lba _ ≫= _) ?g0] => set (g2 := g0) end.
  assert (El2 : lun (g_ums g2) = lun (g_ums g)) by exact (f_equal lun Ec1).
  destruct (write_buffer_step N O lba r q g2) as (stop & lba' & left' & g3 & E3 & Hcf & Hd & Hs3 & Hpost);
    [by rewrite El2|by rewrite El2|lia..|by rewrite <- Hb, <- Eb1|exact El1|exact Ea1|change (512 * r <= residue (g_ums g1) < 4294967296); by rewrite Er1|].
  rewrite (bind_run _ _ _ _ _ E3).
  assert (Hcf' : card_frame (O + lba) q g g3) by (intros a Ha; rewrite Hcf by done; apply Hc1).
  assert (Hd' : dir_of (g_ums g3) = dir_of (g_ums g)) by (rewrite Hd; exact (f_equal dir_of Ec1)).
  destruct stop.
  { exists g3. split; [done|]. split; [intros a Ha; apply Hcf'; lia|]. split; [done|].
    split; [intros Hso; by apply Hs1, Hs3|by left]. }
  destruct Hpost as (-> & -> & Hcl & Hbk & Hr3 & Hh & Hdata).
  assert (Ec3 : core (g_ums g3) = core (g_ums g)) by (rewrite <- Ec1; exact (f_equal (set_usb_amount_left 0) Hcl)).
  assert (Er3 : residue (g_ums g3) = residue (g_ums g) - 512 * q).
  { rewrite Hr3. change (residue (g_ums g2)) with (residue (g_ums g1)). rewrite Er1. apply u32_id. lia. }
  replace (u32 (lba + Z.shiftr (512 * q) UMS_DISK_LBA_SHIFT)) with (lba + q).
  2: { unfold UMS_DISK_LBA_SHIFT. rewrite Z.shiftr_div_pow2 by lia. change (2 ^ 9) with 512.
       replace (512 * q / 512) with q by zdm. symmetry. apply u32_id. lia. }
  replace (u32 (512 * r - 512 * q)) with (512 * (r - q)) by (rewrite u32_id; lia).
  assert (El3 : lun (g_ums g3) = lun (g_ums g)) by exact (f_equal lun Ec3).
  destruct (IH (lba + q) (r - q) g3) as (g' & E' & Hcf4 & Hd4 & Hs4 & Hend4);
    [by rewrite El3|by rewrite El3|lia..|by rewrite Hbk; cbn; rewrite Eb1|lia|].
  exists g'. split; [exact E'|].
  split; [intros a Ha; rewrite Hcf4 by lia; apply Hcf'; lia|]. split; [congruence|].
  split; [intros Hso; by apply Hs1, Hs3, Hs4|].
  destruct Hend4 as [Hst|(Ec4 & Er4 & Hdat4)]; [by left|right].
  split; [congruence|]. split; [lia|]. intros Hso i Hi. specialize (Hdat4 Hso).
  destruct (Hs1 (Hs3 (Hs4 Hso))) as (_ & Hbytes & Hhost). change (host (g_dev g2)) with (host (g_dev g1)) in Hh.
  destruct (Z.lt_ge_cases i (512 * q)) as [Hlt|Hge].
  - rewrite Hcf4 by lia. rewrite Hdata by lia. change (dev_ram (g_dev g2)) with (dev_ram (g_dev g1)).
    rewrite <- (ld_bytes_at _ (Z.to_nat (512 * q))) by lia. rewrite <- Hb, Hbytes, lookup_take_lt by lia. done.
  - specialize (Hdat4 (i - 512 * q)). rewrite Hh, Hhost, lookup_drop in Hdat4.
    replace (Z.to_nat (512 * q) + Z.to_nat (i - 512 * q))%nat with (Z.to_nat i) in Hdat4 by lia.
    rewrite Hdat4 by lia. do 2 f_equal. lia.
Qed.

Lemma command_write10 fuel (g : gadget D) : cm (cmnd (g_ums g)) 0 = SC_WRITE_10 ->
  scsi_command fuel g =
  command (Z.shiftl (get_array_be_to_le16 (cmnd (g_ums g)) 7) UMS_DISK_LBA_SHIFT) 10 DATA_DIR_FROM_HOST mask_rw10 true
    (_scsi_write fuel) g.
Proof. intros Hop. unfold scsi_command. rewrite ums_bind. cbv zeta. rewrite Hop. reflexivity. Qed.

(** [_scsi_write] of a command that the check accepted. *)
Lemma command_write_run fuel k (g : gadget D) :
  let u := g_ums g in
  let s := lun_offset (lun u) + get_array_be_to_le32 (cmnd u) 2 in
  write10 u k -> ro (lun u) = false -> (Z.to_nat k < fuel)%nat ->
  exists g', scsi_command fuel g = (Ret UMS_RES_IO_ERROR, g') /\
    write_end s k (with_ums (accepted (set_data_size_from_cmnd (512 * k) u)) g) g'.
Proof.
  intros u s Hr Hro Hfuel. rewrite command_write10 by apply Hr. rewrite (command_rw10 _ _ k) by done. fold u.
  destruct Hr. pose proof (be16_range (cmnd u) 7) as Hk16. rewrite r_len0 in Hk16.
  pose proof (be32_range (cmnd u) 2) as Hlba. pose proof (wf_num_sectors _ r_wf0). pose proof (wf_offset _ r_wf0).
  unfold is_u32 in *. set (u1 := set_data_size_from_cmnd (512 * k) u). set (g2 := with_ums (accepted u1) g).
  unfold _scsi_write. rewrite ums_bind. change (ro (lun (g_ums g2))) with (ro (lun u)). rewrite Hro.
  unfold get_lba. rewrite bind_assoc, ums_bind. change (cmnd (g_ums g2)) with (masked (cmnd u)).
  rewrite cm_masked, r_op0 by done. change (SC_WRITE_10 =? SC_WRITE_6) with false. cbv iota.
  rewrite cm_masked_1, r_flags0 by apply r_wf0. change (c_true 0) with false. cbv iota.
  rewrite bind_mret, be32_masked. change (num_sectors (lun (g_ums g2))) with (num_sectors (lun u)).
  rewrite (proj2 (Z.leb_gt (num_sectors (lun u)) (get_array_be_to_le32 (cmnd u) 2))) by lia.
  change (data_size_from_cmnd (g_ums g2)) with (512 * k).
  destruct (write_loop_run (num_sectors (lun u)) (lun_offset (lun u)) fuel (get_array_be_to_le32 (cmnd u) 2) k g2)
    as (g' & E' & Hend); [done|done|lia..|apply r_wf0|change (512 * k <= data_size u < 4294967296); lia|].
  rewrite (bind_run _ _ _ _ _ E'). by exists g'.
Qed.

(** The end of a command that took data. *)
Lemma finish_reply_from_host fuel (g : gadget D) :
  data_dir (g_ums g) = DATA_DIR_FROM_HOST ->
  exists rc g', finish_reply fuel g = (Ret rc, g') /\ lun (g_ums g') = lun (g_ums g) /\
    residue (g_ums g') = residue (g_ums g) /\ phase_error (g_ums g') = phase_error (g_ums g) /\
    (forall a, card (g_dev g') a = card (g_dev g) a) /\ (residue (g_ums g) = 0 -> g' = g).
Proof.
  intros Hd. unfold finish_reply. rewrite ums_bind, Hd.
  destruct (Z.eqb_spec (residue (g_ums g)) 0) as [E|E].
  { rewrite E. change (c_true 0) with false. exists UMS_RES_OK, g. by split_and!. }
  replace (c_true (residue (g_ums g))) with true by (symmetry; by apply negb_true_iff, Z.eqb_neq).
  assert (Hraise : exists g', (raise_exception UMS_STATE_ABORT_BULK_OUT;; mret UMS_RES_PROT_FATAL) g =
    (Ret UMS_RES_PROT_FATAL, g') /\ lun (g_ums g') = lun (g_ums g) /\ residue (g_ums g') = residue (g_ums g) /\
    phase_error (g_ums g') = phase_error (g_ums g) /\ g_dev g' = g_dev g).
  { unfold raise_exception. rewrite bind_assoc, ums_bind. destruct (_ <=? _); eexists; by split_and!. }
  destruct (short_packet_received (g_ums g)).
  { destruct Hraise as (g' & E' & El & Er & Ep & Ed). exists UMS_RES_PROT_FATAL, g'. rewrite Ed. by split_and!. }
  clear Hraise. unfold throw_away_data. rewrite ums_bind.
  set (b := bulk (g_ums g)). set (left := usb_amount_left (g_ums g)).
  destruct (negb _ || _); [|by eexists _, g; split_and!].
  destruct (bool_decide (out_state b = BUF_STATE_EMPTY) && (0 <? left)).
  - unfold upd_bulk at 1. rewrite (bind_run (upd _) _ _ tt _ eq_refl).
    unfold _ums_transfer_start at 1. rewrite bind_assoc, ums_bind.
    change (USB_EP_BULK_OUT =? USB_EP_BULK_IN) with false. cbv iota zeta. rewrite bind_assoc.
    match goal with |- context [(dev (usb_device_ep1_out_read ?p ?l ?a ?t) ≫= _) ?g0] =>
      pose proof (fun x => dk_out_read _ (card_keeps (g_dev g)) p l a t (g_dev g) (fun _ => eq_refl) x) as Hcard;
      unfold dev at 1; unfold mbind at 1, M_bind at 1; change (g_dev g0) with (g_dev g);
      destruct (usb_device_ep1_out_read p l a t (g_dev g)) as [[st act] d1] end.
    cbn [fst snd] in Hcard |- *. rewrite bind_assoc, (bind_run (out_result _) _ _ tt _ eq_refl).
    match goal with |- context [(_ ≫= _) ?g0] => set (g2 := g0) end.
    assert (Hw : exists g3, (if st =? USB_ERROR_XFER_ERROR then
        say (SetText "#FFDD00 Error:# EP OUT transfer!" []);; ums_flush_endpoint USB_EP_BULK_OUT
      else when (st =? USB2_ERROR_XFER_NOT_ALIGNED) (say (SetText "#FFDD00 Error:# EP OUT Buffer not aligned!" []))) g2
      = (Ret tt, g3) /\ quiet g2 g3).
    { destruct (st =? USB_ERROR_XFER_ERROR); [|destruct (st =? _); cbn [when]].
      - destruct (say_run (SetText "#FFDD00 Error:# EP OUT transfer!" []) g2) as (g3 & E3 & Q3 & _).
        destruct (flush_run USB_EP_BULK_OUT g3) as (g4 & E4 & Q4). exists g4.
        split; [by rewrite (bind_run _ _ _ _ _ E3)|by transitivity g3].
      - destruct (say_run (SetText "#FFDD00 Error:# EP OUT Buffer not aligned!" []) g2) as (g3 & E3 & Q3 & _). by exists g3.
      - exists g2. by split. }
    destruct Hw as (g3 & E3 & Q3). rewrite bind_assoc, (bind_run _ _ _ _ _ E3).
    eexists _, _. split; [reflexivity|].
    split; [exact (f_equal lun (q_ums _ _ Q3))|]. split; [exact (f_equal residue (q_ums _ _ Q3))|].
    split; [exact (f_equal phase_error (q_ums _ _ Q3))|]. split; [|done].
    intros x. etransitivity; [apply (q_card _ _ Q3)|apply Hcard].
  - set (g1 := if bool_decide (out_state b = BUF_STATE_FULL)
               then with_ums (set_bulk (set_out_state BUF_STATE_EMPTY b) (g_ums g)) g else g).
    rewrite (bind_run (when _ _) _ _ tt g1) by (unfold g1; by destruct (bool_decide _)).
    assert (Hg1 : lun (g_ums g1) = lun (g_ums g) /\ residue (g_ums g1) = residue (g_ums g) /\
      phase_error (g_ums g1) = phase_error (g_ums g) /\ g_dev g1 = g_dev g) by (unfold g1; by destruct (bool_decide _)).
    destruct Hg1 as (El & Er & Ep & Ed).
    destruct (negb _ || negb _); [|eexists _, g1; rewrite Ed; by split_and!].
    unfold raise_exception. rewrite bind_assoc, ums_bind.
    destruct (_ <=? _); eexists _, _; (split; [reflexivity|]); cbn; rewrite Ed; by split_and!.
Qed.

(** C13: a ten-byte WRITE of sectors of the unit returns, and changes no other sector.  When its
    status is "pass" with no residue and no USB transfer failed, the sectors hold exactly the
    bytes that the host sent, in transfers of up to 8 MB. *)
Theorem scsi_write_stores fuel k (g : gadget D) :
  write10 (g_ums g) k -> ro (lun (g_ums g)) = false -> k < Z.of_nat fuel ->
  exists rc g', (_ums_parse_scsi_cmd fuel;; finish_reply fuel) g = (Ret rc, g') /\
    (forall a, ~ (rw10_at (g_ums g) <= a < rw10_at (g_ums g) + 512 * k) ->
       card (g_dev g') a = card (g_dev g) a) /\
    (csw_status (g_ums g') = USB_STATUS_PASS -> residue (g_ums g') = 0 -> sound (g_dev g') ->
     forall i, 0 <= i < 512 * k ->
       host (g_dev g) !! Z.to_nat i = Some (card (g_dev g') (rw10_at (g_ums g) + i))).
Proof.
  intros Hr Hro Hfuel. pose proof (r_pos _ _ _ _ Hr) as Hk. unfold _ums_parse_scsi_cmd.
  rewrite bind_assoc, (bind_run (upd _) _ _ tt _ eq_refl), bind_assoc, (bind_run (upd _) _ _ tt _ eq_refl), bind_assoc.
  match goal with |- context [(scsi_command fuel ≫= _) ?g0] => set (g1 := g0) end.
  assert (Hr1 : write10 (g_ums g1) k).
  { destruct Hr. constructor; try done. by destruct r_wf0. }
  destruct (command_write_run fuel k g1 Hr1 Hro ltac:(lia)) as (g2 & E2 & Hcf & Hdir & Hs2 & He).
  rewrite (bind_run _ _ _ _ _ E2). change (UMS_RES_IO_ERROR =? UMS_RES_INVALID_ARG) with false. cbv iota.
  rewrite bind_assoc, ums_bind. change (0 <=? UMS_RES_IO_ERROR) with false. cbn [andb when]. rewrite bind_assoc, !bind_mret.
  assert (Hd2 : data_dir (g_ums g2) = DATA_DIR_FROM_HOST).
  { rewrite <- (r_dir _ _ _ _ Hr). exact (f_equal fst Hdir). }
  destruct (finish_reply_from_host fuel g2 Hd2) as (rc & g3 & E3 & El & Er & Ep & Ec & Hsame).
  exists rc, g3. split; [exact E3|]. split.
  { intros a Ha. rewrite Ec. apply (Hcf a). unfold rw10_at in Ha. change (lun (g_ums g1)) with (lun (g_ums g)).
    change (cmnd (g_ums g1)) with (cmnd (g_ums g)). lia. }
  unfold csw_status. rewrite Ep, El, Er. intros Hp Hz Hso. specialize (Hsame Hz). subst g3.
  destruct He as [[Hse|Hpos]|(Hc & Hres & Hdata)]; [|lia|exact (Hdata Hso)].
  exfalso. destruct (phase_error (g_ums g2)); [done|].
  by rewrite (proj2 (Z.eqb_neq _ _) Hse) in Hp.
Qed.
End wire.

(** ** The device of UmsSafe *)

Lemma fake_in_write b l a t (d : Stick.fake) :
  let '(st, _, d') := Stick.in_write b l a t d in
  Stick.f_ram d' = Stick.f_ram d /\ st = USB_RES_OK /\ Stick.f_ok d' = Stick.f_ok d /\
  if t =? USB_XFER_START
  then Stick.f_wire d' = Stick.f_wire d /\ Stick.f_flight d' = Some (b, ld_bytes (Stick.f_ram d) b (Z.to_nat l))
  else Stick.f_wire d' = Stick.f_wire d ++ ld_bytes (Stick.f_ram d) b (Z.to_nat l) /\ Stick.f_flight d' = Stick.f_flight d.
Proof. unfold Stick.in_write. by destruct (t =? USB_XFER_START). Qed.

Lemma fake_out b l a (d : Stick.fake) :
  let '(st, act, d') := Stick.out_read b l a d in
  Stick.f_ok d' = true -> Stick.f_ok d = true /\ st = USB_RES_OK /\ act = l /\
    ld_bytes (Stick.f_ram d') b (Z.to_nat l) = take (Z.to_nat l) (Stick.f_host d) /\
    Stick.f_host d' = drop (Z.to_nat l) (Stick.f_host d).
Proof.
  cbn. intros Hok. apply andb_prop in Hok as [Hok Hb]. apply andb_prop in Hok as [Hok Hl%Z.leb_le].
  apply andb_prop in Hok as [Hok Hlen%Nat.eqb_eq]. split; [done|]. split; [done|]. split; [lia|]. split; [|done].
  set (bs := take _ _) in *. replace (Z.to_nat l) with (length bs). apply ld_bytes_st_bytes. apply Forall_forall. intros x Hx.
  rewrite forallb_forall in Hb. specialize (Hb x Hx). lia.
Qed.

Lemma fake_read s n b (d : Stick.fake) : 0 < n ->
  (forall x, ~ (b <= x < b + 512 * n) -> ld8 (Stick.f_ram (Stick.read s n b d).2) x = ld8 (Stick.f_ram d) x) /\
  (forall i, 0 <= i < 512 * n -> ld8 (Stick.f_ram (Stick.read s n b d).2) (b + i) = ld8 (Stick.f_disk d) (512 * s + i)).
Proof.
  intros Hn. cbn. destruct (ld_bytes_byte (Stick.f_disk d) (Z.to_nat (512 * n)) (512 * s)) as [_ Hl]. split.
  - intros a Ha. apply ld8_st_bytes_ne. rewrite Hl. lia.
  - intros i Hi. rewrite <- (Z2Nat.id i) at 1 by lia.
    erewrite ld8_st_bytes; [|apply ld_bytes_at; lia]. apply u8_id, ld8_range.
Qed.

#[global] Instance fake_wire : UmsWire Stick.fake.
Proof.
  refine {| wire := Stick.f_wire; host := Stick.f_host; flight := Stick.f_flight; sound d := Stick.f_ok d = true |}.
  - intros b l a t d Ht. pose proof (fake_in_write b l a t d) as Hw. cbn [usb_device_ep1_in_write Stick.fake_dev].
    destruct (Stick.in_write b l a t d) as [[st act] d']. rewrite (proj2 (Z.eqb_neq t USB_XFER_START) Ht) in Hw.
    destruct Hw as (Er & Es & Eo & Ew & Ef). cbn. rewrite Er, Eo, Ew, Ef. auto.
  - intros b l a d. pose proof (fake_in_write b l a USB_XFER_START d) as Hw. cbn [usb_device_ep1_in_write Stick.fake_dev].
    destruct (Stick.in_write b l a USB_XFER_START d) as [[st act] d'].
    destruct Hw as (Er & Es & Eo & Ew & Ef). cbn. rewrite Er, Eo, Ew, Ef. auto.
  - intros a d. cbn. unfold Stick.in_finish. destruct (Stick.f_flight d) as [[b data]|] eqn:E; cbn.
    + split; [done|]. intros Ho. split_and!; [done|done|]. intros b' data' Heq Hd. simplify_eq. by rewrite Hd.
    + split; [done|]. intros Ho. by split_and!.
  - intros b l a d. apply fake_out.
  - done.
  - intros s n b d Hs Hn _ _ _ _. destruct (fake_read s n b d Hn) as [Hm Hd].
    cbn [dev_read Stick.fake_dev]. unfold Stick.read in *. cbn [snd] in *. split_and!; try done; auto.
  - done.
  - done.
  - done.
Defined.

(** The gadget with a ten-byte command for one sector. *)
Definition fake_rw (op : Z) (dir : data_direction) : gadget Stick.fake :=
  Gadget
    (set_cmnd_size 10 (set_cmnd [op; 0; 0; 0; 0; 5; 0; 0; 1; 0; 0; 0; 0; 0; 0; 0]
      (set_data_size 512 (set_data_dir dir
        (set_lun (set_unit_attention_data 0 (set_num_sectors 32 (lun (ums_init (fake_ctxt false) false))))
           (ums_init (fake_ctxt false) false))))))
    (Stick.Fk ∅ ∅ [] (replicate 512 7) None true) 0 0.

Lemma fake_rw10 op dir : is_byte op -> rw10 op dir (g_ums (fake_rw op dir)) 1.
Proof.
  intros Ho. constructor; try reflexivity; try (cbn; lia).
  - constructor; try (cbn; unfold is_u32; lia); try (split; vm_compute; congruence); try reflexivity.
    repeat constructor; try apply Ho; try (vm_compute; congruence).
  - vm_compute. congruence.
Qed.

Lemma scsi_read_delivers_witness :
  rw10 SC_READ_10 DATA_DIR_TO_HOST (g_ums (fake_rw SC_READ_10 DATA_DIR_TO_HOST)) 1 /\
  exists g', (_ums_parse_scsi_cmd 2;; finish_reply 2) (fake_rw SC_READ_10 DATA_DIR_TO_HOST) = (Ret UMS_RES_OK, g') /\
    (forall a, card (g_dev g') a = card (g_dev (fake_rw SC_READ_10 DATA_DIR_TO_HOST)) a) /\
    (if csw_status (g_ums g') =? USB_STATUS_PASS
     then residue (g_ums g') = 0 /\
       (sound (g_dev g') -> wire (g_dev g') = wire (g_dev (fake_rw SC_READ_10 DATA_DIR_TO_HOST)) ++
          read10_bytes (g_dev (fake_rw SC_READ_10 DATA_DIR_TO_HOST)) (g_ums (fake_rw SC_READ_10 DATA_DIR_TO_HOST)) 1)
     else sense_data (lun (g_ums g')) = SS_UNRECOVERED_READ_ERROR).
Proof.
  assert (Hr : rw10 SC_READ_10 DATA_DIR_TO_HOST (g_ums (fake_rw SC_READ_10 DATA_DIR_TO_HOST)) 1).
  { apply fake_rw10. split; vm_compute; congruence. }
  split; [exact Hr|]. apply (scsi_read_delivers 2 1); [exact Hr|reflexivity|lia].
Defined.

Lemma scsi_write_stores_witness :
  rw10 SC_WRITE_10 DATA_DIR_FROM_HOST (g_ums (fake_rw SC_WRITE_10 DATA_DIR_FROM_HOST)) 1 /\
  exists rc g', (_ums_parse_scsi_cmd 2;; finish_reply 2) (fake_rw SC_WRITE_10 DATA_DIR_FROM_HOST) = (Ret rc, g') /\
    (forall a, ~ (rw10_at (g_ums (fake_rw SC_WRITE_10 DATA_DIR_FROM_HOST)) <= a
                  < rw10_at (g_ums (fake_rw SC_WRITE_10 DATA_DIR_FROM_HOST)) + 512 * 1) ->
       card (g_dev g') a = card (g_dev (fake_rw SC_WRITE_10 DATA_DIR_FROM_HOST)) a) /\
    (csw_status (g_ums g') = USB_STATUS_PASS -> residue (g_ums g') = 0 -> sound (g_dev g') ->
     forall i, 0 <= i < 512 * 1 ->
       host (g_dev (fake_rw SC_WRITE_10 DATA_DIR_FROM_HOST)) !! Z.to_nat i =
         Some (card (g_dev g') (rw10_at (g_ums (fake_rw SC_WRITE_10 DATA_DIR_FROM_HOST)) + i))).
Proof.
  assert (Hr : rw10 SC_WRITE_10 DATA_DIR_FROM_HOST (g_ums (fake_rw SC_WRITE_10 DATA_DIR_FROM_HOST)) 1).
  { apply fake_rw10. split; vm_compute; congruence. }
  split; [exact Hr|]. apply (scsi_write_stores 2 1); [exact Hr|reflexivity|lia].
Defined.

(** A WRITE of one sector to the last sector of the unit returns; one of two does not. *)
Definition fake_last (len : Z) : gadget Stick.fake :=
  Gadget
    (set_cmnd_size 10 (set_cmnd [SC_WRITE_10; 0; 0; 0; 0; 31; 0; 0; 2; 0; 0; 0; 0; 0; 0; 0]
      (set_data_size_from_cmnd len
        (set_lun (set_num_sectors 32 (lun (ums_init (fake_ctxt false) false))) (ums_init (fake_ctxt false) false)))))
    (Stick.Fk ∅ ∅ [] (replicate 1024 7) None true) 0 0.

Lemma scsi_write_returns_iff_witness :
  (_scsi_write 5 (fake_last 512)).1 = Ret UMS_RES_IO_ERROR /\ (_scsi_write 5 (fake_last 1024)).1 = NoFuel.
Proof.
  split.
  - apply (scsi_write_returns_iff 5 (fake_last 512) (Stick.out_read USB_EP_BULK_OUT_BUF_ADDR 512 0 (g_dev (fake_last 512))).2);
      first [reflexivity | lia | split; vm_compute; congruence].
  - apply (scsi_write_returns_iff 5 (fake_last 1024) (Stick.out_read USB_EP_BULK_OUT_BUF_ADDR 1024 0 (g_dev (fake_last 1024))).2);
      first [reflexivity | lia | split; vm_compute; congruence].
Defined.
