(* ===== verification/Se.v ===== *)
(** * Se

    bdk/sec/se.c: the driver of the security engine.  The engine is a set of
    registers that works on memory by itself; it, the heap and the scratch
    registers of the power controller are the class [SeHw]. *)

From S2P Require Import Prelude Mem.
#[local] Open Scope Z_scope.

(** ** Registers *)

Definition SE_OPERATION_REG_OFFSET : Z := 0x008.
Definition OP_START : Z := 1.
Definition OP_CTX_SAVE : Z := 3.
Definition SE_INT_STATUS_REG_OFFSET : Z := 0x010.
Definition SE_INT_OP_DONE : Z := Z.shiftl 1 4.
Definition SE_INT_ERROR : Z := Z.shiftl 1 16.
Definition SE_CONFIG_REG_OFFSET : Z := 0x014.
Definition SE_CONFIG_ENC_ALG (x : Z) : Z := Z.shiftl x 12.
Definition SE_CONFIG_DEC_ALG (x : Z) : Z := Z.shiftl x 8.
Definition SE_CONFIG_ENC_MODE (x : Z) : Z := Z.shiftl x 24.
Definition SE_CONFIG_DST (x : Z) : Z := Z.shiftl x 2.
Definition ALG_AES_ENC : Z := 1.
Definition ALG_AES_DEC : Z := 1.
Definition ALG_RNG : Z := 2.
Definition ALG_SHA : Z := 3.
Definition DST_MEMORY : Z := 0.
Definition DST_HASHREG : Z := 1.
Definition DST_KEYTAB : Z := 2.
Definition DST_SRK : Z := 3.
Definition MODE_KEY128 : Z := 0.
Definition MODE_SHA256 : Z := 5.
Definition SE_IN_LL_ADDR_REG_OFFSET : Z := 0x018.
Definition SE_OUT_LL_ADDR_REG_OFFSET : Z := 0x024.
Definition SE_HASH_RESULT_REG_OFFSET : Z := 0x030.
Definition SE_CONTEXT_SAVE_CONFIG_REG_OFFSET : Z := 0x070.
Definition SE_CONTEXT_SAVE_SRC (x : Z) : Z := Z.shiftl x 29.
Definition SE_CONTEXT_SAVE_WORD_QUAD (x : Z) : Z := x.
Definition AES_KEYTABLE : Z := 2.
Definition SRK : Z := 6.
Definition KEYS_0_3 : Z := 0.
Definition KEYS_4_7 : Z := 1.
Definition SE_KEY_INDEX_SHIFT : Z := 8.
Definition SE_CRYPTO_LAST_BLOCK : Z := 0x080.
Definition SE_SHA_CONFIG_REG_OFFSET : Z := 0x200.
Definition SHA_CONTINUE : Z := 0.
Definition SHA_INIT_HASH : Z := 1.
Definition SE_SHA_MSG_LENGTH_0_REG_OFFSET : Z := 0x204.
Definition SE_SHA_MSG_LEFT_0_REG_OFFSET : Z := 0x214.
Definition SE_SHA_MSG_LEFT_1_REG_OFFSET : Z := 0x218.
Definition SE_KEY_TABLE_ACCESS_LOCK_OFFSET : Z := 0x280.
Definition SE_KEY_TBL_DIS_KEY_LOCK_FLAG : Z := 0x80.
Definition SE_KEY_TABLE_ACCESS_REG_OFFSET : Z := 0x284.
Definition SE_KEY_TBL_DIS_KEY_ACCESS_FLAG : Z := 0x7F.
Definition SE_CRYPTO_REG_OFFSET : Z := 0x304.
Definition SE_CRYPTO_HASH (x : Z) : Z := x.
Definition SE_CRYPTO_XOR_POS (x : Z) : Z := Z.shiftl x 1.
Definition SE_CRYPTO_INPUT_SEL (x : Z) : Z := Z.shiftl x 3.
Definition SE_CRYPTO_VCTRAM_SEL (x : Z) : Z := Z.shiftl x 5.
Definition SE_CRYPTO_CORE_SEL (x : Z) : Z := Z.shiftl x 8.
Definition SE_CRYPTO_CTR_VAL (x : Z) : Z := Z.shiftl x 11.
Definition SE_CRYPTO_KEY_INDEX (x : Z) : Z := Z.shiftl x 24.
Definition HASH_DISABLE : Z := 0.
Definition XOR_BYPASS : Z := 0.
Definition XOR_TOP : Z := 2.
Definition XOR_BOTTOM : Z := 3.
Definition INPUT_RANDOM : Z := 1.
Definition INPUT_LNR_CTR : Z := 3.
Definition VCTRAM_AESOUT : Z := 2.
Definition VCTRAM_PREVAHB : Z := 3.
Definition CORE_DECRYPT : Z := 0.
Definition CORE_ENCRYPT : Z := 1.
Definition SE_CRYPTO_CTR_REG_OFFSET : Z := 0x308.
Definition SE_BLOCK_COUNT_REG_OFFSET : Z := 0x318.
Definition SE_KEYTABLE_REG_OFFSET : Z := 0x31c.
Definition SE_KEYTABLE_SLOT (x : Z) : Z := Z.shiftl x 4.
Definition SE_KEYTABLE_QUAD (x : Z) : Z := Z.shiftl x 2.
Definition QUAD_ORG_IV : Z := 2.
Definition SE_KEYTABLE_DATA0_REG_OFFSET : Z := 0x320.
Definition SE_CRYPTO_KEYTABLE_DST_REG_OFFSET : Z := 0x330.
Definition SE_CRYPTO_KEYTABLE_DST_KEY_INDEX (x : Z) : Z := Z.shiftl x 8.
Definition SE_RNG_CONFIG_REG_OFFSET : Z := 0x340.
Definition SE_RNG_CONFIG_SRC (x : Z) : Z := Z.shiftl x 2.
Definition SE_RNG_CONFIG_MODE (x : Z) : Z := x.
Definition RNG_SRC_ENTROPY : Z := 1.
Definition RNG_MODE_NORMAL : Z := 0.
Definition RNG_MODE_FORCE_RESEED : Z := 2.
Definition SE_RNG_RESEED_INTERVAL_REG_OFFSET : Z := 0x348.
Definition SE_RSA_KEYTABLE_ACCESS_LOCK_OFFSET : Z := 0x40C.
Definition SE_RSA_KEY_TBL_DIS_KEY_LOCK_FLAG : Z := 0x80.
Definition SE_RSA_KEYTABLE_ACCESS_REG_OFFSET : Z := 0x410.
Definition SE_RSA_KEY_TBL_DIS_KEY_READ_UPDATE_FLAG : Z := Z.lor (BIT 0) (BIT 1).
Definition SE_RSA_KEY_TBL_DIS_KEYUSE_FLAG : Z := BIT 2.
Definition SE_RSA_KEY_TBL_DIS_KEYUSE_FLAG_SHIFT : Z := BIT 2.
Definition SE_RSA_KEY_TBL_DIS_KEY_ALL_COMMON_FLAG : Z := 7.
Definition SE_RSA_KEY_TBL_DIS_KEY_ALL_FLAG : Z := 0x7F.
Definition SE_STATUS_0 : Z := 0x800.
Definition SE_STATUS_0_STATE_WAIT_IN : Z := 3.
Definition SE_ERR_STATUS_0 : Z := 0x804.
Definition SE_ERR_STATUS_0_SE_NS_ACCESS_CLEAR : Z := 0.
Definition SE_SPARE_0_REG_OFFSET : Z := 0x80c.
Definition TEGRA_SE_KEYSLOT_COUNT : Z := 16.
Definition TEGRA_SE_AES_MAX_KEY_SIZE : Z := 32.
Definition APBDEV_PMC_SECURE_SCRATCH4 : Z := 0xC0.
Definition APBDEV_PMC_SECURE_SCRATCH5 : Z := 0xC4.
Definition APBDEV_PMC_SECURE_SCRATCH6 : Z := 0x224.
Definition APBDEV_PMC_SECURE_SCRATCH7 : Z := 0x228.
(** The size of [se_ll_t]. *)
Definition sizeof_se_ll : Z := 12.

(** ** Doubling in the field of the tweaks *)

(** The loop from the last byte to the first; the carry that leaves the block. *)
Fixpoint gf_shift (l : list Z) : list Z * Z :=
  match l with
  | [] => ([], 0)
  | b :: l => let '(l, carry) := gf_shift l in (Z.lor (u8 (Z.shiftl b 1)) carry :: l, Z.shiftr b 7)
  end.
Definition gf256_mul_x (block : list Z) : list Z :=
  let '(l, carry) := gf_shift block in if c_true carry then <[15%nat := Z.lxor (nth 15 l 0) 0x87]> l else l.

(** The access bits of an RSA slot; a bit that is set allows what it stands for. *)
Definition rsa_access (flags : Z) : Z :=
  Z.lor (Z.land (Z.shiftr flags SE_RSA_KEY_TBL_DIS_KEYUSE_FLAG_SHIFT) SE_RSA_KEY_TBL_DIS_KEYUSE_FLAG)
    (Z.lxor (Z.land flags SE_RSA_KEY_TBL_DIS_KEY_READ_UPDATE_FLAG) SE_RSA_KEY_TBL_DIS_KEY_ALL_COMMON_FLAG).

(** ** The driver *)

(** The registers of the engine and of the power controller, memory, and the heap. *)
Class SeHw (D : Type) := {
  se_rd32 : Z -> D -> Z * D;
  se_wr32 : Z -> Z -> D -> D;
  pmc_rd32 : Z -> D -> Z * D;
  se_ram : D -> mem;
  se_set_ram : mem -> D -> D;
  se_malloc : Z -> D -> Z * D;
  se_free : Z -> D -> D
}.

(** The hardware and the two globals. *)
Record se (D : Type) := Se { se_dev : D; ll_dst : Z; ll_src : Z }.
Arguments Se {D}.
Arguments se_dev {D}.
Arguments ll_dst {D}.
Arguments ll_src {D}.

Section Se.
Context {D : Type} `{SeHw D}.
Context (fuel : nat).

Definition dev {A} (f : D -> A * D) : M (se D) A := fun s =>
  let '(a, d) := f (se_dev s) in (Ret a, Se d (ll_dst s) (ll_src s)).
Definition rdse (off : Z) : M (se D) Z := dev (se_rd32 off).
Definition wrse (off v : Z) : M (se D) unit := dev (fun d => (tt, se_wr32 off (u32 v) d)).
Definition rdpmc (off : Z) : M (se D) Z := dev (pmc_rd32 off).
Definition ram : M (se D) mem := s ← get; mret (se_ram (se_dev s)).
Definition mem_ (f : mem -> mem) : M (se D) unit := dev (fun d => (tt, se_set_ram (f (se_ram d)) d)).
Definition malloc (n : Z) : M (se D) Z := dev (se_malloc n).
Definition free (p : Z) : M (se D) unit := dev (fun d => (tt, se_free p d)).
Definition set_ll (dst src : Z) : M (se D) unit := modify (fun s => Se (se_dev s) dst src).

Definition _gf256_mul_x (block : Z) : M (se D) unit :=
  mem_ (fun m => st_bytes m block (gf256_mul_x (ld_bytes m block 16))).

Definition _se_ll_init (ll addr size : Z) : M (se D) unit :=
  mem_ (fun m => st32 m ll 0);; mem_ (fun m => st32 m (ll + 4) addr);; mem_ (fun m => st32 m (ll + 8) size).

Definition _se_ll_set (dst src : Z) : M (se D) unit :=
  wrse SE_IN_LL_ADDR_REG_OFFSET src;; wrse SE_OUT_LL_ADDR_REG_OFFSET dst.

Fixpoint op_wait (n : nat) : M (se D) unit :=
  match n with
  | O => nofuel
  | S n =>
      v ← rdse SE_INT_STATUS_REG_OFFSET;
      if c_true (Z.land v SE_INT_OP_DONE) then mret tt else op_wait n
  end.

Definition _se_wait : M (se D) bool :=
  op_wait fuel;;
  v ← rdse SE_INT_STATUS_REG_OFFSET;
  if c_true (Z.land v SE_INT_ERROR) then mret false
  else
    v ← rdse SE_STATUS_0;
    if c_true (Z.land v SE_STATUS_0_STATE_WAIT_IN) then mret false
    else
      v ← rdse SE_ERR_STATUS_0;
      mret (v =? SE_ERR_STATUS_0_SE_NS_ACCESS_CLEAR).

(** A descriptor for a buffer, if there is one. *)
Definition new_ll (buf size : Z) : M (se D) Z :=
  if c_true buf then p ← malloc sizeof_se_ll; _se_ll_init p buf size;; mret p else mret 0.

(** The calls of bpmp_mmu_maintenance around an operation write back and
    invalidate the caches of the processor; memory has no caches here, the
    engine and the processor see the same bytes, and the calls have no
    counterpart. *)
Definition _se_execute (op dst dst_size src src_size : Z) (is_oneshot : bool) : M (se D) bool :=
  set_ll 0 0;;
  pd ← new_ll dst dst_size;
  s ← get; set_ll pd (ll_src s);;
  ps ← new_ll src src_size;
  s ← get; set_ll (ll_dst s) ps;;
  _se_ll_set pd ps;;
  v ← rdse SE_ERR_STATUS_0; wrse SE_ERR_STATUS_0 v;;
  v ← rdse SE_INT_STATUS_REG_OFFSET; wrse SE_INT_STATUS_REG_OFFSET v;;
  wrse SE_OPERATION_REG_OFFSET op;;
  if is_oneshot then
    res ← _se_wait;
    s ← get;
    (if c_true src then free (ll_src s) else mret tt);;
    (if c_true dst then free (ll_dst s) else mret tt);;
    mret res
  else mret true.

Definition _se_execute_finalize : M (se D) bool :=
  res ← _se_wait;
  s ← get;
  (if c_true (ll_src s) then free (ll_src s);; set_ll (ll_dst s) 0 else mret tt);;
  s ← get;
  (if c_true (ll_dst s) then free (ll_dst s);; set_ll 0 (ll_src s) else mret tt);;
  mret res.

Definition _se_execute_oneshot (op dst dst_size src src_size : Z) : M (se D) bool :=
  _se_execute op dst dst_size src src_size true.

Definition _se_execute_one_block (op dst dst_size src src_size : Z) : M (se D) bool :=
  if negb (c_true src) || negb (c_true dst) then mret false
  else
    block ← malloc 0x10;
    mem_ (fun m => memset m block 0 16);;
    wrse SE_BLOCK_COUNT_REG_OFFSET 0;;
    mem_ (fun m => memcpy m block src (Z.to_nat src_size));;
    res ← _se_execute_oneshot op block 0x10 block 0x10;
    mem_ (fun m => memcpy m dst block (Z.to_nat dst_size));;
    free block;;
    mret res.

(** Words of memory, written to consecutive registers. *)
Fixpoint wr_words (off p : Z) (n : nat) : M (se D) unit :=
  match n with
  | O => mret tt
  | S n => m ← ram; wrse off (ld32 m p);; wr_words (off + 4) (p + 4) n
  end.
Definition _se_aes_ctr_set (ctr : Z) : M (se D) unit := wr_words SE_CRYPTO_CTR_REG_OFFSET ctr 4.

(** ** Access to the keys *)

Definition se_rsa_acc_ctrl (rs flags : Z) : M (se D) unit :=
  (if c_true (Z.land flags SE_RSA_KEY_TBL_DIS_KEY_ALL_FLAG) then
     wrse (SE_RSA_KEYTABLE_ACCESS_REG_OFFSET + 4 * rs) (rsa_access flags)
   else mret tt);;
  if c_true (Z.land flags SE_RSA_KEY_TBL_DIS_KEY_LOCK_FLAG) then
    v ← rdse SE_RSA_KEYTABLE_ACCESS_LOCK_OFFSET;
    wrse SE_RSA_KEYTABLE_ACCESS_LOCK_OFFSET (Z.land v (Z.lnot (BIT rs)))
  else mret tt.

Definition se_key_acc_ctrl (ks flags : Z) : M (se D) unit :=
  (if c_true (Z.land flags SE_KEY_TBL_DIS_KEY_ACCESS_FLAG) then
     wrse (SE_KEY_TABLE_ACCESS_REG_OFFSET + 4 * ks) (Z.lnot flags)
   else mret tt);;
  if c_true (Z.land flags SE_KEY_TBL_DIS_KEY_LOCK_FLAG) then
    v ← rdse SE_KEY_TABLE_ACCESS_LOCK_OFFSET;
    wrse SE_KEY_TABLE_ACCESS_LOCK_OFFSET (Z.land v (Z.lnot (BIT ks)))
  else mret tt.

Definition se_key_acc_ctrl_get (ks : Z) : M (se D) Z := rdse (SE_KEY_TABLE_ACCESS_REG_OFFSET + 4 * ks).

(** The words of a key or vector, from [i] on, in the slot that [sel] selects. *)
Fixpoint wr_keytable (sel : Z) (i : Z) (words : list Z) : M (se D) unit :=
  match words with
  | [] => mret tt
  | w :: words =>
      wrse SE_KEYTABLE_REG_OFFSET (Z.lor sel i);;
      wrse SE_KEYTABLE_DATA0_REG_OFFSET w;;
      wr_keytable sel (i + 1) words
  end.
(** The words at [p]. *)
Definition words_at (m : mem) (p : Z) (n : nat) : list Z := map (fun i => ld32 m (p + 4 * Z.of_nat i)) (seq 0 n).

Definition se_aes_key_set (ks key size : Z) : M (se D) unit :=
  if TEGRA_SE_AES_MAX_KEY_SIZE <? size then overrun
  else m ← ram; wr_keytable (SE_KEYTABLE_SLOT ks) 0 (words_at m key (Z.to_nat (size / 4))).
Definition se_aes_iv_set (ks iv : Z) : M (se D) unit :=
  m ← ram; wr_keytable (Z.lor (SE_KEYTABLE_SLOT ks) (SE_KEYTABLE_QUAD QUAD_ORG_IV)) 0 (words_at m iv 4).

Fixpoint rd_keytable (sel i : Z) (n : nat) : M (se D) (list Z) :=
  match n with
  | O => mret []
  | S n =>
      wrse SE_KEYTABLE_REG_OFFSET (Z.lor sel i);;
      w ← rdse SE_KEYTABLE_DATA0_REG_OFFSET;
      ws ← rd_keytable sel (i + 1) n;
      mret (w :: ws)
  end.
Fixpoint st_words (m : mem) (p : Z) (ws : list Z) : mem :=
  match ws with [] => m | w :: ws => st_words (st32 m p w) (p + 4) ws end.
(** [data] is what the array on the stack held; it shows where [size] is not a
    multiple of a word. *)
Definition se_aes_key_get (data : list Z) (ks key size : Z) : M (se D) unit :=
  if TEGRA_SE_AES_MAX_KEY_SIZE <? size then overrun
  else
    ws ← rd_keytable (SE_KEYTABLE_SLOT ks) 0 (Z.to_nat (size / 4));
    let left := Z.to_nat (4 * (size / 4)) in
    mem_ (fun m => st_bytes (st_words m key ws) (key + 4 * (size / 4)) (take (Z.to_nat (size mod 4)) (drop left data))).

Definition se_aes_key_clear (ks : Z) : M (se D) unit := wr_keytable (SE_KEYTABLE_SLOT ks) 0 (replicate 8 0).
Definition se_aes_iv_clear (ks : Z) : M (se D) unit :=
  wr_keytable (Z.lor (SE_KEYTABLE_SLOT ks) (SE_KEYTABLE_QUAD QUAD_ORG_IV)) 0 (replicate 4 0).

Definition se_aes_unwrap_key (ks_dst ks_src input : Z) : M (se D) bool :=
  wrse SE_CONFIG_REG_OFFSET (Z.lor (SE_CONFIG_DEC_ALG ALG_AES_DEC) (SE_CONFIG_DST DST_KEYTAB));;
  wrse SE_CRYPTO_REG_OFFSET (Z.lor (SE_CRYPTO_KEY_INDEX ks_src) (SE_CRYPTO_CORE_SEL CORE_DECRYPT));;
  wrse SE_BLOCK_COUNT_REG_OFFSET 0;;
  wrse SE_CRYPTO_KEYTABLE_DST_REG_OFFSET (SE_CRYPTO_KEYTABLE_DST_KEY_INDEX ks_dst);;
  _se_execute_oneshot OP_START 0 0 input 0x10.

(** ** AES *)

Definition aes_config (enc : bool) : Z :=
  Z.lor (if enc then SE_CONFIG_ENC_ALG ALG_AES_ENC else SE_CONFIG_DEC_ALG ALG_AES_DEC) (SE_CONFIG_DST DST_MEMORY).

Definition se_aes_crypt_ecb (ks : Z) (enc : bool) (dst dst_size src src_size : Z) : M (se D) bool :=
  wrse SE_CONFIG_REG_OFFSET (aes_config enc);;
  wrse SE_CRYPTO_REG_OFFSET
    (Z.lor (SE_CRYPTO_KEY_INDEX ks) (SE_CRYPTO_CORE_SEL (if enc then CORE_ENCRYPT else CORE_DECRYPT)));;
  wrse SE_BLOCK_COUNT_REG_OFFSET (Z.shiftr src_size 4 - 1);;
  _se_execute_oneshot OP_START dst dst_size src src_size.

Definition se_aes_crypt_cbc (ks : Z) (enc : bool) (dst dst_size src src_size : Z) : M (se D) bool :=
  wrse SE_CONFIG_REG_OFFSET (aes_config enc);;
  wrse SE_CRYPTO_REG_OFFSET
    (Z.lor (Z.lor (Z.lor (SE_CRYPTO_KEY_INDEX ks) (SE_CRYPTO_VCTRAM_SEL (if enc then VCTRAM_AESOUT else VCTRAM_PREVAHB)))
       (SE_CRYPTO_CORE_SEL (if enc then CORE_ENCRYPT else CORE_DECRYPT)))
       (SE_CRYPTO_XOR_POS (if enc then XOR_TOP else XOR_BOTTOM)));;
  wrse SE_BLOCK_COUNT_REG_OFFSET (Z.shiftr src_size 4 - 1);;
  _se_execute_oneshot OP_START dst dst_size src src_size.

Definition se_aes_crypt_block_ecb (ks : Z) (enc : bool) (dst src : Z) : M (se D) bool :=
  se_aes_crypt_ecb ks enc dst 0x10 src 0x10.

Definition ctr_crypto (ks : Z) : Z :=
  Z.lor (Z.lor (Z.lor (Z.lor (SE_CRYPTO_KEY_INDEX ks) (SE_CRYPTO_CORE_SEL CORE_ENCRYPT))
    (SE_CRYPTO_XOR_POS XOR_BOTTOM)) (SE_CRYPTO_INPUT_SEL INPUT_LNR_CTR)) (SE_CRYPTO_CTR_VAL 1).

Definition se_aes_crypt_ctr (ks dst dst_size src src_size ctr : Z) : M (se D) bool :=
  wrse SE_SPARE_0_REG_OFFSET 1;;
  wrse SE_CONFIG_REG_OFFSET (aes_config true);;
  wrse SE_CRYPTO_REG_OFFSET (ctr_crypto ks);;
  _se_aes_ctr_set ctr;;
  let src_size_aligned := Z.land src_size 0xFFFFFFF0 in
  let src_size_delta := Z.land src_size 0xF in
  res ← (if c_true src_size_aligned then
           wrse SE_BLOCK_COUNT_REG_OFFSET (Z.shiftr src_size 4 - 1);;
           _se_execute_oneshot OP_START dst dst_size src src_size_aligned
         else mret true);
  if negb res then mret false
  else if c_true (u32 (src_size - src_size_aligned)) && (src_size_aligned <? dst_size) then
    _se_execute_one_block OP_START (u32 (dst + src_size_aligned))
      (Z.min src_size_delta (u32 (dst_size - src_size_aligned)))
      (u32 (src + src_size_aligned)) src_size_delta
  else mret true.

(** *** Sectors *)

(** The bytes of the sector number, the last one lowest. *)
Fixpoint tweak_bytes (n : nat) (sec : Z) (acc : list Z) : list Z :=
  match n with O => acc | S n => tweak_bytes n (Z.shiftr sec 8) (Z.land sec 0xFF :: acc) end.

(** [dst[j] = src[j] ^ tweak[j]] for [n] bytes. *)
Fixpoint xor_bytes (n : nat) (m : mem) (dst src tweak : Z) : mem :=
  match n with
  | O => m
  | S n => xor_bytes n (st8 m dst (Z.lxor (ld8 m src) (ld8 m tweak))) (dst + 1) (src + 1) (tweak + 1)
  end.

Fixpoint xts_blocks (n : nat) (ks2 : Z) (enc : bool) (tweak pdst psrc : Z) : M (se D) bool :=
  match n with
  | O => mret true
  | S n =>
      mem_ (fun m => xor_bytes 16 m pdst psrc tweak);;
      ok ← se_aes_crypt_block_ecb ks2 enc pdst pdst;
      if negb ok then mret false
      else
        mem_ (fun m => xor_bytes 16 m pdst pdst tweak);;
        _gf256_mul_x tweak;;
        xts_blocks n ks2 enc tweak (pdst + 0x10) (psrc + 0x10)
  end.

Definition se_aes_xts_crypt_sec (ks1 ks2 : Z) (enc : bool) (sec dst src secsize : Z) : M (se D) bool :=
  tweak ← malloc 0x10;
  mem_ (fun m => st_bytes m tweak (tweak_bytes 16 sec []));;
  ok ← se_aes_crypt_block_ecb ks1 true tweak tweak;
  res ← (if negb ok then mret false else xts_blocks (Z.to_nat (secsize / 0x10)) ks2 enc tweak dst src);
  free tweak;;
  mret res.

Fixpoint xts_sectors (n : nat) (ks1 ks2 : Z) (enc : bool) (sec i dst src secsize : Z) : M (se D) bool :=
  match n with
  | O => mret true
  | S n =>
      ok ← se_aes_xts_crypt_sec ks1 ks2 enc (u64 (sec + i)) (u32 (dst + u32 (secsize * i)))
             (u32 (src + u32 (secsize * i))) secsize;
      if negb ok then mret false else xts_sectors n ks1 ks2 enc sec (i + 1) dst src secsize
  end.
Definition se_aes_xts_crypt (ks1 ks2 : Z) (enc : bool) (sec dst src secsize num_secs : Z) : M (se D) bool :=
  xts_sectors (Z.to_nat num_secs) ks1 ks2 enc sec 0 dst src secsize.

(** ** SHA-256 *)

Definition byte_swap_32 (v : Z) : Z :=
  Z.lor (Z.lor (Z.land (Z.shiftr v 24) 0xff) (Z.land (Z.shiftl v 8) 0xff0000))
    (Z.lor (Z.land (Z.shiftr v 8) 0xff00) (Z.land (Z.shiftl v 24) 0xff000000)).

Fixpoint wr_seq (off : Z) (vs : list Z) : M (se D) unit :=
  match vs with [] => mret tt | v :: vs => wrse off v;; wr_seq (off + 4) vs end.
Fixpoint rd_seq (off : Z) (n : nat) : M (se D) (list Z) :=
  match n with O => mret [] | S n => v ← rdse off; vs ← rd_seq (off + 4) n; mret (v :: vs) end.

(** The registers of the message left and of the hash, saved to memory. *)
Definition sha_save (hash msg_left : Z) : M (se D) unit :=
  (if c_true msg_left then
     v ← rdse SE_SHA_MSG_LEFT_0_REG_OFFSET; mem_ (fun m => st32 m msg_left v);;
     v ← rdse SE_SHA_MSG_LEFT_1_REG_OFFSET; mem_ (fun m => st32 m (msg_left + 4) v)
   else mret tt);;
  vs ← rd_seq SE_HASH_RESULT_REG_OFFSET 8;
  mem_ (fun m => st_words m hash (map byte_swap_32 vs)).

Definition se_calc_sha256 (hash msg_left src src_size total_size sha_cfg : Z) (is_oneshot : bool) : M (se D) bool :=
  if (0xFFFFFF <? src_size) || negb (c_true hash) then mret false
  else
    wrse SE_CONFIG_REG_OFFSET
      (Z.lor (Z.lor (SE_CONFIG_ENC_MODE MODE_SHA256) (SE_CONFIG_ENC_ALG ALG_SHA)) (SE_CONFIG_DST DST_HASHREG));;
    wrse SE_SHA_CONFIG_REG_OFFSET sha_cfg;;
    wrse SE_BLOCK_COUNT_REG_OFFSET 0;;
    let total_size := if total_size =? 0 then src_size else total_size in
    let bits := [Z.shiftl total_size 3; Z.shiftr total_size 29; 0; 0] in
    wr_seq SE_SHA_MSG_LENGTH_0_REG_OFFSET bits;;
    wr_seq SE_SHA_MSG_LEFT_0_REG_OFFSET bits;;
    (if (sha_cfg =? SHA_CONTINUE) && c_true msg_left then
       m ← ram;
       wrse SE_SHA_MSG_LEFT_0_REG_OFFSET (ld32 m msg_left);;
       m ← ram;
       wrse SE_SHA_MSG_LEFT_1_REG_OFFSET (ld32 m (msg_left + 4));;
       m ← ram;
       wr_seq SE_HASH_RESULT_REG_OFFSET (map byte_swap_32 (words_at m hash 8))
     else mret tt);;
    res ← _se_execute OP_START 0 0 src src_size is_oneshot;
    (if is_oneshot then sha_save hash msg_left else mret tt);;
    mret res.

Definition se_calc_sha256_oneshot (hash src src_size : Z) : M (se D) bool :=
  se_calc_sha256 hash 0 src src_size 0 SHA_INIT_HASH true.

Definition se_calc_sha256_finalize (hash msg_left : Z) : M (se D) bool :=
  res ← _se_execute_finalize;
  sha_save hash msg_left;;
  mret res.

(** ** Random numbers and the saved context *)

Definition se_gen_prng128 (dst : Z) : M (se D) bool :=
  wrse SE_CONFIG_REG_OFFSET
    (Z.lor (Z.lor (SE_CONFIG_ENC_MODE MODE_KEY128) (SE_CONFIG_ENC_ALG ALG_RNG)) (SE_CONFIG_DST DST_MEMORY));;
  wrse SE_CRYPTO_REG_OFFSET
    (Z.lor (Z.lor (SE_CRYPTO_HASH HASH_DISABLE) (SE_CRYPTO_XOR_POS XOR_BYPASS)) (SE_CRYPTO_INPUT_SEL INPUT_RANDOM));;
  wrse SE_RNG_CONFIG_REG_OFFSET (Z.lor (SE_RNG_CONFIG_SRC RNG_SRC_ENTROPY) (SE_RNG_CONFIG_MODE RNG_MODE_NORMAL));;
  wrse SE_RNG_RESEED_INTERVAL_REG_OFFSET 1;;
  wrse SE_BLOCK_COUNT_REG_OFFSET (Z.shiftr 16 4 - 1);;
  _se_execute_oneshot OP_START dst 16 0 0.

(** One quad of a key slot, saved to [buf] and copied to [key]. *)
Definition save_quad (buf key i quad : Z) : M (se D) unit :=
  wrse SE_CONTEXT_SAVE_CONFIG_REG_OFFSET
    (Z.lor (Z.lor (SE_CONTEXT_SAVE_SRC AES_KEYTABLE) (Z.shiftl i SE_KEY_INDEX_SHIFT)) (SE_CONTEXT_SAVE_WORD_QUAD quad));;
  wrse SE_CRYPTO_LAST_BLOCK 0;;
  _ ← _se_execute_oneshot OP_CTX_SAVE buf 0x10 0 0;
  mem_ (fun m => memcpy m key buf 16).

Fixpoint save_keys (n : nat) (i buf keys keysize : Z) : M (se D) unit :=
  match n with
  | O => mret tt
  | S n =>
      save_quad buf (keys + i * keysize) i KEYS_0_3;;
      (if 0x10 <? keysize then save_quad buf (keys + i * keysize + 0x10) i KEYS_4_7 else mret tt);;
      save_keys n (i + 1) buf keys keysize
  end.

(** [srk], an array on the stack, is at [srk]. *)
Definition se_get_aes_keys (srk buf keys keysize : Z) : M (se D) unit :=
  let aligned_buf := ALIGN buf 0x40 in
  wrse SE_CONFIG_REG_OFFSET
    (Z.lor (Z.lor (SE_CONFIG_ENC_MODE MODE_KEY128) (SE_CONFIG_ENC_ALG ALG_RNG)) (SE_CONFIG_DST DST_SRK));;
  wrse SE_CRYPTO_REG_OFFSET
    (Z.lor (Z.lor (SE_CRYPTO_KEY_INDEX 0) (SE_CRYPTO_CORE_SEL CORE_ENCRYPT)) (SE_CRYPTO_INPUT_SEL INPUT_RANDOM));;
  wrse SE_RNG_CONFIG_REG_OFFSET (Z.lor (SE_RNG_CONFIG_SRC RNG_SRC_ENTROPY) (SE_RNG_CONFIG_MODE RNG_MODE_FORCE_RESEED));;
  wrse SE_CRYPTO_LAST_BLOCK 0;;
  _ ← _se_execute_oneshot OP_START 0 0 0 0;
  wrse SE_CONFIG_REG_OFFSET
    (Z.lor (Z.lor (SE_CONFIG_ENC_MODE MODE_KEY128) (SE_CONFIG_ENC_ALG ALG_AES_ENC)) (SE_CONFIG_DST DST_MEMORY));;
  save_keys (Z.to_nat TEGRA_SE_KEYSLOT_COUNT) 0 aligned_buf keys keysize;;
  wrse SE_CONTEXT_SAVE_CONFIG_REG_OFFSET (SE_CONTEXT_SAVE_SRC SRK);;
  wrse SE_CRYPTO_LAST_BLOCK 0;;
  _ ← _se_execute_oneshot OP_CTX_SAVE 0 0 0 0;
  wrse SE_CONFIG_REG_OFFSET 0;;
  _ ← _se_execute_oneshot OP_CTX_SAVE 0 0 0 0;
  v ← rdpmc APBDEV_PMC_SECURE_SCRATCH4; mem_ (fun m => st32 m srk v);;
  v ← rdpmc APBDEV_PMC_SECURE_SCRATCH5; mem_ (fun m => st32 m (srk + 4) v);;
  v ← rdpmc APBDEV_PMC_SECURE_SCRATCH6; mem_ (fun m => st32 m (srk + 8) v);;
  v ← rdpmc APBDEV_PMC_SECURE_SCRATCH7; mem_ (fun m => st32 m (srk + 12) v);;
  se_aes_key_clear 3;;
  se_aes_key_set 3 srk 0x10;;
  _ ← se_aes_crypt_cbc 3 false keys (u32 (TEGRA_SE_KEYSLOT_COUNT * keysize))
    keys (u32 (TEGRA_SE_KEYSLOT_COUNT * keysize));
  se_aes_key_clear 3.
End Se.

(** ** RSA keys stay usable *)

(** Whatever the flags, the bit of key use is set: no caller can disable it. *)
Lemma rsa_keyuse_stuck flags : Z.testbit (rsa_access flags) 2 = true.
Proof.
  unfold rsa_access. rewrite Z.lor_spec, Z.lxor_spec, !Z.land_spec. cbn. by rewrite andb_false_r, orb_true_r.
Qed.
