(* ===== verification/SeXts.v ===== *)
(** * SeXts

    What the security engine and the heap do, as laws; the disk encryption mode
    built on them in bdk/sec/se.c ([se_aes_xts_crypt]) against a reference on
    lists; an engine that obeys the laws. *)

From S2P Require Import Prelude Mem Se.
#[local] Open Scope Z_scope.

(** ** What the hardware and the heap do *)

(** The registers that only hold what is written to them. *)
Definition plain (off : Z) : bool :=
  existsb (Z.eqb off) [SE_CONFIG_REG_OFFSET; SE_CRYPTO_REG_OFFSET; SE_BLOCK_COUNT_REG_OFFSET;
    SE_IN_LL_ADDR_REG_OFFSET; SE_OUT_LL_ADDR_REG_OFFSET].

(** Blockwise encryption or decryption of [n] blocks. *)
Fixpoint ecb (f : list Z -> list Z) (n : nat) (l : list Z) : list Z :=
  match n with Datatypes.O => [] | S n => f (take 16 l) ++ ecb f n (drop 16 l) end.

(** A cipher with its keys in slots; registers; a heap, as the addresses it owns
    ([space]) and the blocks it has given out; and at most one operation under
    way, which is done after a number of polls.  [clean] is the state in which
    the engine reports no error; [room], how many blocks of up to 16 bytes the
    heap can still give out. *)
Class SeLaws (D : Type) `{SeHw D} := {
  aes : bool -> list Z -> list Z -> list Z;
  aes_block : forall enc k b, length b = 16%nat ->
    length (aes enc k b) = 16%nat /\ Forall (fun x => 0 <= x < 256) (aes enc k b);
  aes_inverse : forall k b, length b = 16%nat -> Forall (fun x => 0 <= x < 256) b ->
    aes false k (aes true k b) = b;
  key : D -> Z -> list Z;
  reg : D -> Z -> Z;
  space : D -> Z -> Prop;
  block : D -> Z -> option Z;
  room : D -> nat;
  job : D -> option nat;
  polls : nat;
  clean : D -> Prop;
  (** Everything but the memory, the registers and the operation. *)
  same d d' := (forall k, key d' k = key d k) /\ (forall a, space d' a <-> space d a) /\
    (forall p, block d' p = block d p) /\ room d' = room d;
  l_ram : forall m d, let d' := se_set_ram m d in
    same d d' /\ (forall o, reg d' o = reg d o) /\ job d' = job d /\ se_ram d' = m;
  l_wr : forall off v d, plain off = true -> let d' := se_wr32 off v d in
    same d d' /\ (forall o, reg d' o = if o =? off then v else reg d o) /\ job d' = job d /\ se_ram d' = se_ram d;
  (** Acknowledging the status of an idle engine. *)
  l_ack : forall off v d, job d = None -> off = SE_ERR_STATUS_0 \/ off = SE_INT_STATUS_REG_OFFSET ->
    let d' := se_wr32 off v d in
    same d d' /\ (forall o, reg d' o = reg d o) /\ job d' = None /\ se_ram d' = se_ram d;
  (** Reading the status of an idle engine. *)
  l_rd : forall off d, job d = None -> off = SE_ERR_STATUS_0 \/ off = SE_INT_STATUS_REG_OFFSET \/ off = SE_STATUS_0 ->
    (se_rd32 off d).2 = d;
  l_clean : forall d, job d = None -> Z.land (se_rd32 SE_INT_STATUS_REG_OFFSET d).1 SE_INT_ERROR = 0 ->
    Z.land (se_rd32 SE_STATUS_0 d).1 SE_STATUS_0_STATE_WAIT_IN = 0 ->
    (se_rd32 SE_ERR_STATUS_0 d).1 = SE_ERR_STATUS_0_SE_NS_ACCESS_CLEAR -> clean d;
  l_start : forall d, job d = None -> let d' := se_wr32 SE_OPERATION_REG_OFFSET OP_START d in
    same d d' /\ (forall o, reg d' o = reg d o) /\ se_ram d' = se_ram d /\ exists n, job d' = Some n /\ (n < polls)%nat;
  l_poll : forall d n, job d = Some (S n) ->
    let '(v, d') := se_rd32 SE_INT_STATUS_REG_OFFSET d in
    Z.land v SE_INT_OP_DONE = 0 /\ same d d' /\ (forall o, reg d' o = reg d o) /\ job d' = Some n /\ se_ram d' = se_ram d;
  (** The end of an AES operation between two buffers that are equal or apart. *)
  l_ecb : forall d enc ks n sa da, job d = Some Datatypes.O ->
    reg d SE_CONFIG_REG_OFFSET = aes_config enc ->
    reg d SE_CRYPTO_REG_OFFSET =
      u32 (Z.lor (SE_CRYPTO_KEY_INDEX ks) (SE_CRYPTO_CORE_SEL (if enc then CORE_ENCRYPT else CORE_DECRYPT))) ->
    0 <= ks < 16 -> reg d SE_BLOCK_COUNT_REG_OFFSET = n - 1 -> 0 < n ->
    ld32 (se_ram d) (reg d SE_IN_LL_ADDR_REG_OFFSET + 4) = sa ->
    ld32 (se_ram d) (reg d SE_IN_LL_ADDR_REG_OFFSET + 8) = 16 * n ->
    ld32 (se_ram d) (reg d SE_OUT_LL_ADDR_REG_OFFSET + 4) = da ->
    ld32 (se_ram d) (reg d SE_OUT_LL_ADDR_REG_OFFSET + 8) = 16 * n ->
    da = sa \/ da + 16 * n <= sa \/ sa + 16 * n <= da ->
    let '(v, d') := se_rd32 SE_INT_STATUS_REG_OFFSET d in
    Z.land v SE_INT_OP_DONE <> 0 /\ same d d' /\ job d' = None /\
    (forall x, ~ (da <= x < da + 16 * n) -> ld8 (se_ram d') x = ld8 (se_ram d) x) /\
    (clean d' -> ld_bytes (se_ram d') da (Z.to_nat (16 * n)) =
       ecb (aes enc (key d ks)) (Z.to_nat n) (ld_bytes (se_ram d) sa (Z.to_nat (16 * n))));
  l_malloc : forall n d, 0 < n <= 16 -> (0 < room d)%nat -> let '(p, d') := se_malloc n d in
    0 < p /\ p + n <= 4294967296 /\ (forall a, p <= a < p + n -> space d a /\ ~ space d' a) /\
    (forall a, space d' a -> space d a) /\ (forall a, ~ space d a -> ld8 (se_ram d') a = ld8 (se_ram d) a) /\
    block d' p = Some n /\ (forall q k, block d q = Some k -> q <> p /\ block d' q = Some k) /\
    (forall k, key d' k = key d k) /\ (forall o, reg d' o = reg d o) /\ job d' = job d /\ (room d <= S (room d'))%nat;
  l_free : forall p n d, block d p = Some n -> let d' := se_free p d in
    (forall a, space d' a -> space d a \/ p <= a < p + n) /\
    (forall a, ~ space d' a -> ld8 (se_ram d') a = ld8 (se_ram d) a) /\
    (forall q k, q <> p -> block d q = Some k -> block d' q = Some k) /\
    (forall k, key d' k = key d k) /\ (forall o, reg d' o = reg d o) /\ job d' = job d /\ (S (room d) <= room d')%nat
}.

(** ** The reference: sectors in XTS mode *)

#[local] Notation byte x := (0 <= x < 256).
#[local] Notation bytes := (Forall (fun x => byte x)).

Lemma lxor_byte a b : byte a -> byte b -> byte (Z.lxor a b).
Proof.
  intros Ha Hb. split; [by apply Z.lxor_nonneg; lia|].
  destruct (Z.eq_dec (Z.lxor a b) 0) as [->|Hz]; [done|].
  apply Z.log2_lt_pow2 with (b := 8); [pose proof (proj2 (Z.lxor_nonneg a b)); lia|].
  pose proof (Z.log2_lxor a b ltac:(lia) ltac:(lia)).
  assert (forall x, byte x -> Z.log2 x < 8).
  { intros x Hx. destruct (Z.eq_dec x 0) as [->|]; [done|]. apply Z.log2_lt_pow2; [lia|]. change (2 ^ 8) with 256. lia. }
  pose proof (H0 a Ha). pose proof (H0 b Hb). lia.
Qed.

Definition xor_l : list Z -> list Z -> list Z := zip_with Z.lxor.

Lemma xor_l_ok a b n : length a = n -> length b = n -> bytes a -> bytes b -> length (xor_l a b) = n /\ bytes (xor_l a b).
Proof.
  intros La Lb Ha Hb. unfold xor_l. split; [rewrite length_zip_with; lia|].
  revert b n La Lb Hb. induction Ha as [|x a Hx Ha IH]; intros [|y b] n La Lb Hb; cbn in *; try constructor; try lia.
  - inversion_clear Hb. by apply lxor_byte.
  - inversion_clear Hb. eapply IH; [reflexivity| |done]. lia.
Qed.
Lemma xor_l_twice a b : length a = length b -> xor_l (xor_l a b) b = a.
Proof.
  revert b. induction a as [|x a IH]; intros [|y b] L; cbn in *; try done; try lia.
  f_equal; [|by apply IH; lia]. by rewrite Z.lxor_assoc, Z.lxor_nilpotent, Z.lxor_0_r.
Qed.

(** Bits below [2 ^ k] beside a multiple of it. *)
Lemma land_high_low x y k : 0 <= k -> 0 <= y < 2 ^ k -> Z.land (x * 2 ^ k) y = 0.
Proof.
  intros Hk Hy. apply Z.bits_inj'. intros i Hi. rewrite Z.land_spec, Z.bits_0.
  destruct (Z.lt_ge_cases i k); [by rewrite Z.mul_pow2_bits_low|].
  assert (Z.testbit y i = false) as ->; [|apply andb_false_r]. apply Z.testbit_false; [lia|].
  rewrite Z.div_small; [done|]. pose proof (Z.pow_le_mono_r 2 k i). lia.
Qed.
Lemma lxor_high_low x y k : 0 <= k -> 0 <= y < 2 ^ k -> Z.lxor (x * 2 ^ k) y = x * 2 ^ k + y.
Proof. intros Hk Hy. by rewrite Z.add_nocarry_lxor by (by apply land_high_low). Qed.
Lemma lor_high_low x y k : 0 <= k -> 0 <= y < 2 ^ k -> Z.lor (x * 2 ^ k) y = x * 2 ^ k + y.
Proof. intros Hk Hy. rewrite <- Z.lxor_lor by (by apply land_high_low). by apply lxor_high_low. Qed.

(** The number that a list of bytes stands for, the first byte highest. *)
Fixpoint be (l : list Z) : Z :=
  match l with [] => 0 | b :: l => b * 256 ^ Z.of_nat (length l) + be l end.

Lemma be_range l : bytes l -> 0 <= be l < 256 ^ Z.of_nat (length l).
Proof.
  induction 1 as [|b l Hb Hl IH]; [done|]. cbn [be length]. rewrite Nat2Z.inj_succ, Z.pow_succ_r by lia. nia.
Qed.

Lemma gf_shift_spec l : bytes l ->
  length (gf_shift l).1 = length l /\ bytes (gf_shift l).1 /\ 0 <= (gf_shift l).2 <= 1 /\
  be (gf_shift l).1 + (gf_shift l).2 * 256 ^ Z.of_nat (length l) = 2 * be l.
Proof.
  induction 1 as [|b l Hb Hl IH]; [done|]. cbn [gf_shift]. destruct (gf_shift l) as [l' c]. cbn [fst snd] in *.
  destruct IH as (L & B & Hc & V).
  assert (Ec : Z.shiftr b 7 = b / 128) by (by rewrite Z.shiftr_div_pow2 by lia).
  assert (Eb : Z.lor (u8 (Z.shiftl b 1)) c = 2 * b - 256 * (b / 128) + c).
  { rewrite Z.shiftl_mul_pow2 by lia. change (2 ^ 1) with 2. unfold u8.
    replace (b * 2) with (2 * b) by lia. replace ((2 * b) mod 256) with (2 * (b - 128 * (b / 128))).
    2:{ apply Z.mod_unique with (q := b / 128); pose proof (Z.div_mod b 128); pose proof (Z.mod_pos_bound b 128); lia. }
    replace (2 * (b - 128 * (b / 128))) with ((b - 128 * (b / 128)) * 2 ^ 1) by lia.
    rewrite lor_high_low by lia. lia. }
  rewrite Ec, Eb. clear Ec Eb. pose proof (Z.div_mod b 128). pose proof (Z.mod_pos_bound b 128).
  cbn [length be]. rewrite L, Nat2Z.inj_succ, Z.pow_succ_r by lia. split; [done|].
  split; [constructor; [lia|done]|]. split; [lia|]. nia.
Qed.

Lemma be_app l x : be (l ++ [x]) = 256 * be l + x.
Proof.
  induction l as [|b l IH]; cbn [be app]; [cbn; lia|]. rewrite IH, length_app. cbn [length].
  rewrite Nat2Z.inj_add, Z.pow_add_r by lia. change (256 ^ Z.of_nat 1) with 256. lia.
Qed.

(** The doubling, as arithmetic. *)
Lemma gf256_mul_x_be t : length t = 16%nat -> bytes t ->
  be (gf256_mul_x t) = if be t <? 2 ^ 127 then 2 * be t else Z.lxor (2 * be t - 2 ^ 128) 0x87.
Proof.
  intros L B. destruct (gf_shift_spec t B) as (L' & B' & Hc & V). unfold gf256_mul_x.
  destruct (gf_shift t) as [l c]. cbn [fst snd] in *. rewrite L in *.
  pose proof (be_range l B') as Hl. rewrite L' in Hl. change (256 ^ Z.of_nat 16) with (2 ^ 128) in *.
  change (2 ^ 128) with (2 * 2 ^ 127) in *. set (P := 2 ^ 127) in *.
  assert (c = 0 \/ c = 1) as [-> | ->] by lia.
  - rewrite (proj2 (Z.ltb_lt _ _)) by lia. cbn. lia.
  - rewrite (proj2 (Z.ltb_ge _ _)) by lia. cbn [c_true negb Z.eqb].
    destruct (exists_last (l := l)) as (h & x & ->); [by destruct l|]. rewrite length_app in L'. cbn in L'.
    assert (Eh : 15%nat = length h) by lia. rewrite Eh, app_nth2, Nat.sub_diag by lia. cbn [nth].
    rewrite insert_app_r_alt, Nat.sub_diag by lia. cbn [list_insert]. change (<[0%nat:=?y]> [x]) with [y].
    rewrite be_app in *. apply Forall_app in B' as [_ Bx]. inversion_clear Bx.
    replace (2 * be t - 2 * P) with (be h * 2 ^ 8 + x) by lia.
    rewrite <- lxor_high_low, Z.lxor_assoc, lxor_high_low by (try lia; by apply lxor_byte). lia.
Qed.

Lemma gf256_mul_x_ok t : length t = 16%nat -> bytes t -> length (gf256_mul_x t) = 16%nat /\ bytes (gf256_mul_x t).
Proof.
  intros L B. destruct (gf_shift_spec t B) as (L' & B' & _). unfold gf256_mul_x.
  destruct (gf_shift t) as [l c]. cbn [fst snd] in *. destruct (c_true c); [|split; [lia|done]].
  split; [rewrite length_insert; lia|]. apply Forall_insert; [done|]. apply lxor_byte; [|done].
  rewrite Forall_nth in B'. apply B'. lia.
Qed.

(** The bytes of a number, the first one highest. *)
Fixpoint to_be (n : nat) (v : Z) : list Z :=
  match n with Datatypes.O => [] | S n => (v / 256 ^ Z.of_nat n) mod 256 :: to_be n v end.

Lemma to_be_ok n v : length (to_be n v) = n /\ bytes (to_be n v).
Proof.
  induction n as [|n [L B]]; cbn [to_be length]; [done|]. rewrite L. split; [done|].
  constructor; [apply Z.mod_pos_bound; lia|done].
Qed.
(** Higher powers do not count. *)
Lemma to_be_low n v q : to_be n (q * 256 ^ Z.of_nat n + v) = to_be n v.
Proof.
  revert q. induction n as [|n IH]; intros q; [done|]. cbn [to_be]. rewrite Nat2Z.inj_succ, Z.pow_succ_r, Z.mul_assoc by lia.
  rewrite IH, Z.div_add_l, Z.add_comm, Z.mod_add by lia. done.
Qed.
Lemma to_be_be l : bytes l -> to_be (length l) (be l) = l.
Proof.
  induction 1 as [|b l Hb Hl IH]; [done|]. cbn [length to_be be]. pose proof (be_range l Hl).
  rewrite to_be_low, IH, Z.div_add_l, Z.div_small, Z.add_0_r, Z.mod_small by lia. done.
Qed.
Lemma to_be_snoc n v : to_be (S n) v = to_be n (v / 256) ++ [v mod 256].
Proof.
  induction n as [|n IH]; [cbn; by rewrite Z.div_1_r|]. cbn [to_be] in *. rewrite <- app_comm_cons, <- IH. f_equal.
  rewrite Nat2Z.inj_succ, Z.pow_succ_r, Z.div_div by lia. done.
Qed.
(** The bytes of the first tweak are the number of the sector. *)
Lemma tweak_bytes_be n : forall sec acc, tweak_bytes n sec acc = to_be n sec ++ acc.
Proof.
  induction n as [|n IH]; intros sec acc; [done|]. cbn [tweak_bytes]. rewrite IH, to_be_snoc, <- app_assoc. cbn [app].
  change 0xFF with (Z.ones 8). rewrite Z.land_ones, Z.shiftr_div_pow2 by lia. done.
Qed.

(** Multiplication by x in the field of 2^128 elements with the polynomial
    x^128 + x^7 + x^2 + x + 1, the first byte holding the highest powers. *)
Definition double (t : list Z) : list Z :=
  to_be 16 (let v := 2 * be t in if v <? 2 ^ 128 then v else Z.lxor (v - 2 ^ 128) 0x87).

Lemma gf256_mul_x_double t : length t = 16%nat -> bytes t -> gf256_mul_x t = double t.
Proof.
  intros L B. destruct (gf256_mul_x_ok t L B) as [L' B']. rewrite <- (to_be_be _ B'), L', gf256_mul_x_be by done.
  unfold double. f_equal. cbn zeta. destruct (Z.ltb_spec (be t) (2 ^ 127)), (Z.ltb_spec (2 * be t) (2 ^ 128)); lia || done.
Qed.

(** The blocks of a sector from the tweak [t] on, with [f] the block cipher.
    The tweak is doubled as a big-endian number, as [_gf256_mul_x] does it for
    the console's storage; IEEE 1619 doubles it as a little-endian one. *)
Fixpoint xts_ref (f : list Z -> list Z) (n : nat) (t data : list Z) : list Z :=
  match n with
  | Datatypes.O => []
  | S n => xor_l (f (xor_l (take 16 data) t)) t ++ xts_ref f n (double t) (drop 16 data)
  end.


Section modes.
Variables f g : list Z -> list Z.
Hypothesis Hf : forall b, length b = 16%nat -> length (f b) = 16%nat /\ bytes (f b).
Hypothesis Hfg : forall b, length b = 16%nat -> bytes b -> g (f b) = b.

Lemma xts_ref_ok n : forall t data, length t = 16%nat -> bytes t ->
  length data = (16 * n)%nat -> bytes data -> length (xts_ref f n t data) = (16 * n)%nat /\ bytes (xts_ref f n t data).
Proof.
  induction n as [|n IH]; intros t data Lt Bt Ld Bd; [done|]. cbn [xts_ref].
  destruct (xor_l_ok (take 16 data) t 16) as [L1 B1]; [rewrite length_take; lia|done|by apply Forall_take|done|].
  destruct (Hf _ L1) as [L2 B2]. destruct (xor_l_ok _ t 16 L2 Lt B2 Bt) as [L3 B3].
  destruct (to_be_ok 16 (let v := 2 * be t in if v <? 2 ^ 128 then v else Z.lxor (v - 2 ^ 128) 0x87)) as [Lg Bg].
  destruct (IH (double t) (drop 16 data)) as [L4 B4]; [done|done|rewrite length_drop; lia|by apply Forall_drop|].
  split; [rewrite length_app; lia|by apply Forall_app].
Qed.

(** Decryption undoes encryption. *)
Lemma xts_ref_inverse n : forall t data, length t = 16%nat -> bytes t ->
  length data = (16 * n)%nat -> bytes data -> xts_ref g n t (xts_ref f n t data) = data.
Proof.
  induction n as [|n IH]; intros t data Lt Bt Ld Bd; [by destruct data|]. cbn [xts_ref].
  destruct (xor_l_ok (take 16 data) t 16) as [L1 B1]; [rewrite length_take; lia|done|by apply Forall_take|done|].
  destruct (Hf _ L1) as [L2 B2]. destruct (xor_l_ok _ t 16 L2 Lt B2 Bt) as [L3 B3].
  destruct (to_be_ok 16 (let v := 2 * be t in if v <? 2 ^ 128 then v else Z.lxor (v - 2 ^ 128) 0x87)) as [Lg Bg].
  rewrite take_app_length', drop_app_length' by lia.
  rewrite xor_l_twice, Hfg, xor_l_twice by (try done; rewrite ?length_take; lia).
  rewrite IH by (done || (rewrite length_drop; lia) || by apply Forall_drop). apply take_drop.
Qed.
End modes.

(** ** Buffers *)

Lemma ld_bytes_app m a n k : ld_bytes m a (n + k) = ld_bytes m a n ++ ld_bytes m (a + Z.of_nat n) k.
Proof.
  revert a. induction n as [|n IH]; intros a; cbn [ld_bytes Nat.add app]; [by rewrite Z.add_0_r|].
  f_equal. rewrite IH. do 2 f_equal. lia.
Qed.
Lemma ld_bytes_range m a n : bytes (ld_bytes m a n).
Proof. revert a. induction n as [|n IH]; intros a; cbn [ld_bytes]; constructor; [apply ld8_range|done]. Qed.

Lemma xor_bytes_ne n : forall m dst src t x, ~ (dst <= x < dst + Z.of_nat n) -> ld8 (xor_bytes n m dst src t) x = ld8 m x.
Proof. induction n as [|n IH]; intros m dst src t x Hx; cbn [xor_bytes]; [done|]. rewrite IH, ld8_st8_ne by lia. done. Qed.

Lemma xor_bytes_run n : forall m dst src t,
  dst = src \/ dst + Z.of_nat n <= src \/ src + Z.of_nat n <= dst ->
  dst + Z.of_nat n <= t \/ t + Z.of_nat n <= dst ->
  ld_bytes (xor_bytes n m dst src t) dst n = xor_l (ld_bytes m src n) (ld_bytes m t n).
Proof.
  induction n as [|n IH]; intros m dst src t Hs Ht; [done|]. cbn [xor_bytes ld_bytes xor_l zip_with]. f_equal.
  - rewrite xor_bytes_ne, ld8_st8_eq by lia. apply u8_id, lxor_byte; apply ld8_range.
  - rewrite IH by lia. unfold xor_l. f_equal; apply ld_bytes_same; intros x Hx; apply ld8_st8_ne; lia.
Qed.

(** ** Sectors, with the cipher of the engine *)

Section sectors.
Context {D : Type} `{SeLaws D}.

(** A sector of [n] blocks. *)
Definition xts_sector_ref (enc : bool) (k1 k2 : list Z) (n : nat) (sec : Z) (data : list Z) : list Z :=
  xts_ref (aes enc k2) n (aes true k1 (to_be 16 sec)) data.

(** Sectors of [size] bytes. *)
Fixpoint sectors_ref (f : Z -> list Z -> list Z) (size n : nat) (sec : Z) (data : list Z) : list Z :=
  match n with
  | Datatypes.O => []
  | S n => f sec (take size data) ++ sectors_ref f size n (sec + 1) (drop size data)
  end.

Lemma xts_sector_ref_ok enc k1 k2 b sec data : length data = (16 * b)%nat -> bytes data ->
  length (xts_sector_ref enc k1 k2 b sec data) = (16 * b)%nat /\ bytes (xts_sector_ref enc k1 k2 b sec data).
Proof.
  intros L B. destruct (to_be_ok 16 sec) as [LT BT].
  destruct (aes_block true k1 (to_be 16 sec)) as [LA BA]; [exact LT|].
  apply xts_ref_ok; try done. apply aes_block.
Qed.

Lemma sectors_ref_ok enc k1 k2 b n : forall sec data, length data = (16 * b * n)%nat -> bytes data ->
  length (sectors_ref (xts_sector_ref enc k1 k2 b) (16 * b) n sec data) = (16 * b * n)%nat /\
  bytes (sectors_ref (xts_sector_ref enc k1 k2 b) (16 * b) n sec data).
Proof.
  induction n as [|n IH]; intros sec data L B; cbn [sectors_ref]; [by rewrite Nat.mul_0_r|].
  destruct (xts_sector_ref_ok enc k1 k2 b sec (take (16 * b) data)) as [L1 B1]; [rewrite length_take; lia|by apply Forall_take|].
  destruct (IH (sec + 1) (drop (16 * b) data)) as [L2 B2]; [rewrite length_drop; lia|by apply Forall_drop|].
  split; [rewrite length_app; lia|by apply Forall_app].
Qed.

(** Decryption of the sectors undoes their encryption. *)
Lemma sectors_ref_inverse k1 k2 b n : forall sec data, length data = (16 * b * n)%nat -> bytes data ->
  sectors_ref (xts_sector_ref false k1 k2 b) (16 * b) n sec (sectors_ref (xts_sector_ref true k1 k2 b) (16 * b) n sec data) = data.
Proof.
  induction n as [|n IH]; intros sec data L B; cbn [sectors_ref]; [destruct data; cbn in L; [done|lia]|].
  assert (Lt : length (take (16 * b) data) = (16 * b)%nat) by (rewrite length_take; lia).
  destruct (xts_sector_ref_ok true k1 k2 b sec (take (16 * b) data)) as [L1 B1]; [done|by apply Forall_take|].
  rewrite take_app_length', drop_app_length' by done.
  rewrite IH by (done || (rewrite length_drop; lia) || by apply Forall_drop).
  rewrite <- (take_drop (16 * b) data) at 3. f_equal. unfold xts_sector_ref.
  destruct (to_be_ok 16 sec) as [LT BT].
  destruct (aes_block true k1 (to_be 16 sec)) as [LA BA]; [exact LT|].
  apply xts_ref_inverse; try done; [apply aes_block|apply aes_inverse|by apply Forall_take].
Qed.
End sectors.

Section proofs.
Context {D : Type} `{SeLaws D}.

Definition with_dev (d : D) (s : se D) : se D := Se d (ll_dst s) (ll_src s).
Lemma dev_run {A} (f : D -> A * D) (s : se D) : dev f s = (Ret (f (se_dev s)).1, with_dev (f (se_dev s)).2 s).
Proof. unfold dev, with_dev. by destruct (f (se_dev s)). Qed.
Lemma dev_then {A B} (f : D -> A * D) (k : A -> M (se D) B) (s : se D) :
  (dev f ≫= k) s = k (f (se_dev s)).1 (with_dev (f (se_dev s)).2 s).
Proof. by rewrite (bind_run _ _ _ _ _ (dev_run f s)). Qed.

(** What an operation keeps: the keys, the blocks that were given out, and an
    idle engine; the heap owns no more than before. *)
Record keep (d d' : D) : Prop := {
  k_key : forall k, key d' k = key d k;
  k_space : forall a, space d' a -> space d a;
  k_block : forall q n, block d q = Some n -> block d' q = Some n;
  k_job : job d = None -> job d' = None;
  k_room : (room d <= room d')%nat
}.
#[local] Instance keep_preorder : PreOrder keep.
Proof. split; [by constructor|]. intros d1 d2 d3 [] []. constructor; try congruence; auto. lia. Qed.
Lemma same_keep d d' : same d d' -> (job d = None -> job d' = None) -> keep d d'.
Proof.
  intros (Hk & Hs & Hb & Hr) Hj. constructor; auto; [intros a; by rewrite Hs|intros q n; by rewrite Hb|lia].
Qed.

Lemma same_trans (d1 d2 d3 : D) : same d1 d2 -> same d2 d3 -> same d1 d3.
Proof.
  intros (Hk & Hs & Hb & Hr) (Hk' & Hs' & Hb' & Hr'). repeat split; try congruence; intros; [apply Hs, Hs'|apply Hs', Hs]; done.
Qed.

Lemma mem_keep m d : keep d (se_set_ram m d).
Proof. destruct (l_ram m d) as (Hs & _ & Hj & _). apply same_keep; [done|]. by rewrite Hj. Qed.
Lemma mem_ram m (d : D) : se_ram (se_set_ram m d) = m.
Proof. apply l_ram. Qed.

(** *** Descriptors *)

(** A new block [p] of [n] bytes between [d] and [d']. *)
Record fresh (p n : Z) (d d' : D) : Prop := {
  f_pos : 0 < p /\ p + n <= 4294967296;
  f_in : forall a, p <= a < p + n -> space d a /\ ~ space d' a;
  f_space : forall a, space d' a -> space d a;
  f_mem : forall a, ~ space d a -> ld8 (se_ram d') a = ld8 (se_ram d) a;
  f_block : block d' p = Some n;
  f_others : forall q k, block d q = Some k -> q <> p /\ block d' q = Some k;
  f_key : forall k, key d' k = key d k;
  f_reg : forall o, reg d' o = reg d o;
  f_job : job d' = job d;
  f_room : (room d <= S (room d'))%nat
}.
Lemma malloc_fresh n d : 0 < n <= 16 -> (0 < room d)%nat -> fresh (se_malloc n d).1 n d (se_malloc n d).2.
Proof.
  intros Hn Hr. pose proof (l_malloc n d Hn Hr) as Hm. destruct (se_malloc n d) as [p d']. cbn.
  destruct Hm as (? & ? & ? & ? & ? & ? & ? & ? & ? & ? & ?). by constructor.
Qed.
Lemma fresh_job p n d d' : fresh p n d d' -> job d = None -> job d' = None.
Proof. intros []. congruence. Qed.
(** Writing into it. *)
Lemma fresh_mem p n d d' m : fresh p n d d' -> (forall a, ~ (p <= a < p + n) -> ld8 m a = ld8 (se_ram d') a) ->
  fresh p n d (se_set_ram m d').
Proof.
  intros [] Hm. destruct (l_ram m d') as ((Hk & Hs & Hb & Hro) & Hr & Hj & Em). constructor; try done.
  - intros a Ha. rewrite Hs. auto.
  - intros a. rewrite Hs. auto.
  - intros a Ha. rewrite Em, Hm; [auto|]. intros Hin. apply Ha. by apply f_in0.
  - by rewrite Hb.
  - intros q k Hq. rewrite Hb. auto.
  - intros k. by rewrite Hk.
  - intros o. by rewrite Hr.
  - by rewrite Hj.
  - by rewrite Hro.
Qed.

Lemma new_ll_run buf size (s : se D) : (0 < room (se_dev s))%nat -> 0 < buf < 4294967296 -> 0 <= size < 4294967296 ->
  exists p d', new_ll buf size s = (Ret p, with_dev d' s) /\ fresh p 12 (se_dev s) d' /\
    ld32 (se_ram d') (p + 4) = buf /\ ld32 (se_ram d') (p + 8) = size.
Proof.
  intros Hroom Hb Hs. unfold new_ll. replace (c_true buf) with true by (symmetry; apply negb_true_iff, Z.eqb_neq; lia).
  unfold malloc. rewrite dev_then. pose proof (malloc_fresh sizeof_se_ll (se_dev s) ltac:(unfold sizeof_se_ll; lia) Hroom) as Hf.
  set (p := (se_malloc sizeof_se_ll (se_dev s)).1) in *. set (d1 := (se_malloc sizeof_se_ll (se_dev s)).2) in *.
  unfold _se_ll_init, mem_. rewrite bind_assoc, dev_then, bind_assoc, dev_then, dev_then. cbn [fst snd se_dev with_dev].
  rewrite !mem_ram. set (m1 := st32 (se_ram d1) p 0). set (m2 := st32 m1 (p + 4) buf).
  eexists p, _. split; [reflexivity|]. split.
  - apply fresh_mem; [apply fresh_mem; [apply fresh_mem; [exact Hf|]|]|]; intros a Ha; rewrite ?mem_ram;
      unfold m2, m1, sizeof_se_ll in *; rewrite ld8_st32_ne by lia; done.
  - rewrite mem_ram. split; [rewrite ld32_st32_ne by lia|]; unfold m2; by rewrite ld32_st32_eq by lia.
Qed.

(** *** Waiting *)

(** The polls before the last one. *)
Lemma op_wait_run n k (s : se D) : job (se_dev s) = Some k -> (k < n)%nat ->
  exists d1, same (se_dev s) d1 /\ (forall o, reg d1 o = reg (se_dev s) o) /\ se_ram d1 = se_ram (se_dev s) /\
    job d1 = Some Datatypes.O /\ exists n', op_wait n s = op_wait (S n') (with_dev d1 s).
Proof.
  revert n s. induction k as [|k IH]; intros n s Hj Hn.
  - exists (se_dev s). destruct n as [|n]; [lia|]. split_and!; try done. exists n. by destruct s.
  - destruct n as [|n]; [lia|]. pose proof (l_poll (se_dev s) k Hj) as Hp.
    cbn [op_wait]. unfold rdse at 1. rewrite dev_then.
    destruct (se_rd32 SE_INT_STATUS_REG_OFFSET (se_dev s)) as [v d1]. cbn [fst snd].
    destruct Hp as (Hv & Hs & Hr & Hj1 & Hm). rewrite Hv. change (c_true 0) with false. cbv iota.
    destruct (IH n (with_dev d1 s)) as (d2 & Hs2 & Hr2 & Hm2 & Hj2 & n' & E); [done|lia|].
    exists d2. cbn [se_dev with_dev] in *. split; [by eapply same_trans|]. split; [intros o; by rewrite Hr2|].
    split; [congruence|]. split; [done|]. by exists n'.
Qed.

(** The status of an idle engine. *)
Lemma status_run (s : se D) : job (se_dev s) = None ->
  exists ok : bool, (v ← rdse SE_INT_STATUS_REG_OFFSET;
    if c_true (Z.land v SE_INT_ERROR) then mret false
    else
      v ← rdse SE_STATUS_0;
      if c_true (Z.land v SE_STATUS_0_STATE_WAIT_IN) then mret false
      else
        v ← rdse SE_ERR_STATUS_0;
        mret (v =? SE_ERR_STATUS_0_SE_NS_ACCESS_CLEAR)) s = (Ret ok, s) /\ (ok = true -> clean (se_dev s)).
Proof.
  intros Hj. pose proof (l_clean (se_dev s) Hj) as Hcl. unfold rdse.
  assert (Es : forall off, off = SE_ERR_STATUS_0 \/ off = SE_INT_STATUS_REG_OFFSET \/ off = SE_STATUS_0 ->
    with_dev (se_rd32 off (se_dev s)).2 s = s) by (intros off Ho; rewrite l_rd by done; by destruct s).
  rewrite dev_then, Es by auto. destruct (c_true (Z.land _ SE_INT_ERROR)) eqn:E1; [by exists false|].
  rewrite dev_then, Es by auto. destruct (c_true (Z.land _ SE_STATUS_0_STATE_WAIT_IN)) eqn:E2; [by exists false|].
  rewrite dev_then, Es by auto. eexists. split; [reflexivity|]. intros E3%Z.eqb_eq.
  apply negb_false_iff, Z.eqb_eq in E1. apply negb_false_iff, Z.eqb_eq in E2. by apply Hcl.
Qed.

Context (fuel : nat) (Hfuel : (polls < fuel)%nat).

(** The end of a block operation. *)
Lemma se_wait_ecb enc ks n sa da (s : se D) k :
  let d := se_dev s in
  job d = Some k -> (k < polls)%nat ->
  reg d SE_CONFIG_REG_OFFSET = aes_config enc ->
  reg d SE_CRYPTO_REG_OFFSET =
    u32 (Z.lor (SE_CRYPTO_KEY_INDEX ks) (SE_CRYPTO_CORE_SEL (if enc then CORE_ENCRYPT else CORE_DECRYPT))) ->
  0 <= ks < 16 -> reg d SE_BLOCK_COUNT_REG_OFFSET = n - 1 -> 0 < n ->
  ld32 (se_ram d) (reg d SE_IN_LL_ADDR_REG_OFFSET + 4) = sa ->
  ld32 (se_ram d) (reg d SE_IN_LL_ADDR_REG_OFFSET + 8) = 16 * n ->
  ld32 (se_ram d) (reg d SE_OUT_LL_ADDR_REG_OFFSET + 4) = da ->
  ld32 (se_ram d) (reg d SE_OUT_LL_ADDR_REG_OFFSET + 8) = 16 * n ->
  da = sa \/ da + 16 * n <= sa \/ sa + 16 * n <= da ->
  exists (ok : bool) d', _se_wait fuel s = (Ret ok, with_dev d' s) /\ same d d' /\ job d' = None /\
    (forall x, ~ (da <= x < da + 16 * n) -> ld8 (se_ram d') x = ld8 (se_ram d) x) /\
    (ok = true -> ld_bytes (se_ram d') da (Z.to_nat (16 * n)) =
       ecb (aes enc (key d ks)) (Z.to_nat n) (ld_bytes (se_ram d) sa (Z.to_nat (16 * n)))).
Proof.
  intros d Hj Hk Hc Hcr Hks Hbc Hn Hsa Hss Hda Hds Hdis. unfold _se_wait.
  destruct (op_wait_run fuel k s Hj ltac:(lia)) as (d1 & Hs1 & Hr1 & Hm1 & Hj1 & n' & Ew). fold d in Hs1, Hr1, Hm1.
  pose proof (l_ecb d1 enc ks n sa da Hj1) as Hl. rewrite !Hr1, !Hm1 in Hl.
  assert (Eop : exists v d2, se_rd32 SE_INT_STATUS_REG_OFFSET d1 = (v, d2) /\ op_wait (S n') (with_dev d1 s) =
    (Ret tt, with_dev d2 s) /\ same d d2 /\ job d2 = None /\
    (forall x, ~ (da <= x < da + 16 * n) -> ld8 (se_ram d2) x = ld8 (se_ram d) x) /\
    (clean d2 -> ld_bytes (se_ram d2) da (Z.to_nat (16 * n)) =
       ecb (aes enc (key d ks)) (Z.to_nat n) (ld_bytes (se_ram d) sa (Z.to_nat (16 * n))))).
  { cbn [op_wait]. unfold rdse. rewrite dev_then. cbn [se_dev with_dev].
    destruct (se_rd32 SE_INT_STATUS_REG_OFFSET d1) as [v d2].
    destruct Hl as (Hv & Hs2 & Hj2 & Hm2 & Hcl); try done.
    exists v, d2. split; [done|]. cbn [fst snd]. unfold c_true. rewrite (proj2 (Z.eqb_neq _ _) Hv).
    split; [done|]. split; [by eapply same_trans|].
    split; [done|]. split; [done|]. destruct Hs1 as [Hk1 _]. by rewrite <- Hk1. }
  destruct Eop as (v & d2 & Er & Eop & Hs2 & Hj2 & Hm2 & Hcl).
  rewrite (bind_run _ _ _ tt (with_dev d2 s)) by (by rewrite Ew).
  destruct (status_run (with_dev d2 s) Hj2) as (ok & Est & Hok). rewrite Est.
  exists ok, d2. split; [done|]. split; [done|]. split; [done|]. split; [done|]. intros Ho. by apply Hcl, Hok.
Qed.

(** Handing the descriptors to the engine and starting it. *)
Lemma launch_run pd ps (s : se D) : job (se_dev s) = None ->
  0 <= pd < 4294967296 -> 0 <= ps < 4294967296 ->
  exists d', (forall B (k : unit -> M (se D) B), (_se_ll_set pd ps;;
    v ← rdse SE_ERR_STATUS_0; wrse SE_ERR_STATUS_0 v;;
    v ← rdse SE_INT_STATUS_REG_OFFSET; wrse SE_INT_STATUS_REG_OFFSET v;;
    (wrse SE_OPERATION_REG_OFFSET OP_START ≫= k)) s = k tt (with_dev d' s)) /\
    same (se_dev s) d' /\ se_ram d' = se_ram (se_dev s) /\
    reg d' SE_IN_LL_ADDR_REG_OFFSET = ps /\ reg d' SE_OUT_LL_ADDR_REG_OFFSET = pd /\
    (forall o, o <> SE_IN_LL_ADDR_REG_OFFSET -> o <> SE_OUT_LL_ADDR_REG_OFFSET -> reg d' o = reg (se_dev s) o) /\
    exists n, job d' = Some n /\ (n < polls)%nat.
Proof.
  intros Hj Hpd Hps. set (d0 := se_dev s) in *.
  destruct (l_wr SE_IN_LL_ADDR_REG_OFFSET ps d0 eq_refl) as (S1 & R1 & J1 & M1).
  set (d1 := se_wr32 SE_IN_LL_ADDR_REG_OFFSET ps d0) in *.
  destruct (l_wr SE_OUT_LL_ADDR_REG_OFFSET pd d1 eq_refl) as (S2 & R2 & J2 & M2).
  set (d2 := se_wr32 SE_OUT_LL_ADDR_REG_OFFSET pd d1) in *.
  assert (Hj2 : job d2 = None) by congruence.
  destruct (l_ack SE_ERR_STATUS_0 (u32 (se_rd32 SE_ERR_STATUS_0 d2).1) d2 Hj2) as (S3 & R3 & J3 & M3); [by left|].
  set (d3 := se_wr32 SE_ERR_STATUS_0 (u32 (se_rd32 SE_ERR_STATUS_0 d2).1) d2) in *.
  destruct (l_ack SE_INT_STATUS_REG_OFFSET (u32 (se_rd32 SE_INT_STATUS_REG_OFFSET d3).1) d3 J3) as (S4 & R4 & J4 & M4);
    [by right|].
  set (d4 := se_wr32 SE_INT_STATUS_REG_OFFSET (u32 (se_rd32 SE_INT_STATUS_REG_OFFSET d3).1) d3) in *.
  destruct (l_start d4 J4) as (S5 & R5 & M5 & J5).
  exists (se_wr32 SE_OPERATION_REG_OFFSET OP_START d4). split.
  { intros B k. unfold _se_ll_set, rdse, wrse. rewrite bind_assoc, !dev_then. cbn [fst snd se_dev with_dev].
    rewrite (u32_id ps), (u32_id pd) by lia. fold d0 d1 d2. rewrite (l_rd SE_ERR_STATUS_0 d2 Hj2) by auto. fold d3.
    rewrite (l_rd SE_INT_STATUS_REG_OFFSET d3 J3) by auto. change (u32 OP_START) with OP_START. reflexivity. }
  split; [by repeat (eapply same_trans; [eassumption|])|]. split; [by rewrite M5, M4, M3, M2, M1|].
  split; [by rewrite R5, R4, R3, R2, R1|]. split; [by rewrite R5, R4, R3, R2|]. split; [|done].
  intros o Hi Ho. rewrite R5, R4, R3, R2, R1. by rewrite !(proj2 (Z.eqb_neq _ _)).
Qed.

Lemma get_then {B} (k : se D -> M (se D) B) (s : se D) : (get ≫= k) s = k s s.
Proof. done. Qed.
Lemma modify_then {B} (f : se D -> se D) (k : unit -> M (se D) B) (s : se D) : (modify f ≫= k) s = k tt (f s).
Proof. done. Qed.

(** Giving a block back: it was given out between [d] and [d1], and is unchanged since. *)
Lemma free_keep p n d d1 d2 : fresh p n d d1 -> keep d1 d2 ->
  keep d (se_free p d2) /\ (forall a, ~ space d a -> ld8 (se_ram (se_free p d2)) a = ld8 (se_ram d2) a).
Proof.
  intros [Fp Fi Fs Fm Fb Fo Fk Fr Fj Fro] [Kk Ks Kb Kj Kro].
  destruct (l_free p n d2 (Kb _ _ Fb)) as (Gs & Gm & Gb & Gk & Gr & Gj & Gro).
  assert (Hsp : forall a, space (se_free p d2) a -> space d a).
  { intros a [Ha|Ha]%Gs; [by apply Fs, Ks|]. by apply Fi. }
  split.
  - constructor.
    + intros k. by rewrite Gk, Kk, Fk.
    + done.
    + intros q m Hq. destruct (Fo q m Hq) as [Hne Hq']. apply Gb; [done|]. by apply Kb.
    + intros Hj. rewrite Gj. apply Kj. congruence.
    + lia.
  - intros a Ha. apply Gm. intros Hs. by apply Ha, Hsp.
Qed.

(** Memory outside the heap and outside [n] bytes from [a] keeps its contents. *)
Definition only (d d' : D) (a n : Z) : Prop :=
  forall x, ~ space d x -> ~ (a <= x < a + n) -> ld8 (se_ram d') x = ld8 (se_ram d) x.
Definition apart (d : D) (a n : Z) : Prop :=
  0 < a /\ a + n <= 4294967296 /\ forall x, a <= x < a + n -> ~ space d x.

(** The registers of a block operation. *)
Definition ecb_regs (d : D) (enc : bool) (ks n : Z) : Prop :=
  reg d SE_CONFIG_REG_OFFSET = aes_config enc /\
  reg d SE_CRYPTO_REG_OFFSET =
    u32 (Z.lor (SE_CRYPTO_KEY_INDEX ks) (SE_CRYPTO_CORE_SEL (if enc then CORE_ENCRYPT else CORE_DECRYPT))) /\
  reg d SE_BLOCK_COUNT_REG_OFFSET = n - 1.

(** What an operation on [n] blocks does. *)
Definition ecb_done (enc : bool) (ks n da sa : Z) (d : D) (ok : bool) (d' : D) : Prop :=
  keep d d' /\ only d d' da (16 * n) /\
  (ok = true -> ld_bytes (se_ram d') da (Z.to_nat (16 * n)) =
     ecb (aes enc (key d ks)) (Z.to_nat n) (ld_bytes (se_ram d) sa (Z.to_nat (16 * n)))).

Lemma oneshot_ecb enc ks n sa da (s : se D) :
  let d := se_dev s in
  job d = None -> (2 <= room d)%nat -> ecb_regs d enc ks n -> 0 <= ks < 16 -> 0 < n ->
  apart d sa (16 * n) -> apart d da (16 * n) ->
  da = sa \/ da + 16 * n <= sa \/ sa + 16 * n <= da ->
  exists ok s', _se_execute_oneshot fuel OP_START da (16 * n) sa (16 * n) s = (Ret ok, s') /\
    ecb_done enc ks n da sa d ok (se_dev s') /\ job (se_dev s') = None.
Proof.
  intros d Hj Hroom (Rc & Ry & Rb) Hks Hn (Ha1 & Ha2 & Has) (Hd1 & Hd2 & Hds) Hdis.
  unfold _se_execute_oneshot, _se_execute, set_ll. rewrite modify_then.
  destruct (new_ll_run da (16 * n) (Se d 0 0)) as (pd & d1 & E1 & F1 & L1 & Z1); [cbn; lia|lia|lia|].
  rewrite (bind_run _ _ _ _ _ E1), get_then, modify_then.
  destruct (new_ll_run sa (16 * n) (Se d1 pd 0)) as (ps & d2 & E2 & F2 & L2 & Z2); [destruct F1; cbn in *; lia|lia|lia|].
  cbn [se_dev ll_dst ll_src with_dev] in *.
  rewrite (bind_run _ _ _ _ _ E2), get_then, modify_then. cbn [se_dev ll_dst ll_src with_dev] in *.
  destruct (launch_run pd ps (Se d2 pd ps)) as (d3 & E3 & S3 & M3 & Ri & Ro & Rx & kk & J3 & Hkk).
  { by apply (fresh_job _ _ _ _ F2), (fresh_job _ _ _ _ F1). } { destruct (f_pos _ _ _ _ F1). lia. } { destruct (f_pos _ _ _ _ F2). lia. }
  rewrite E3. clear E3. cbv iota. cbn [se_dev ll_dst ll_src with_dev] in *.
  assert (Em : forall x, ~ space d x -> ld8 (se_ram d3) x = ld8 (se_ram d) x).
  { intros x Hx. rewrite M3, (f_mem _ _ _ _ F2), (f_mem _ _ _ _ F1); [done|done|]. intros Hx'. by apply Hx, (f_space _ _ _ _ F1). }
  assert (Epd : forall o, 0 <= o <= 8 -> ld32 (se_ram d3) (pd + o) = ld32 (se_ram d1) (pd + o)).
  { intros o Ho. rewrite M3. apply ld32_same. intros x Hx. apply (f_mem _ _ _ _ F2), (f_in _ _ _ _ F1). lia. }
  destruct (se_wait_ecb enc ks n sa da (Se d3 pd ps) kk) as (ok & d4 & E4 & S4 & J4 & O4 & V4); cbn [se_dev]; try done.
  { rewrite Rx, (f_reg _ _ _ _ F2), (f_reg _ _ _ _ F1); done. }
  { rewrite Rx, (f_reg _ _ _ _ F2), (f_reg _ _ _ _ F1); done. }
  { rewrite Rx, (f_reg _ _ _ _ F2), (f_reg _ _ _ _ F1); done. }
  { by rewrite Ri, M3. } { by rewrite Ri, M3. } { by rewrite Ro, Epd by lia. } { by rewrite Ro, Epd by lia. }
  rewrite (bind_run _ _ _ _ _ E4), get_then. cbn [se_dev ll_dst ll_src with_dev] in *.
  replace (c_true sa) with true by (symmetry; apply negb_true_iff, Z.eqb_neq; lia).
  replace (c_true da) with true by (symmetry; apply negb_true_iff, Z.eqb_neq; lia).
  unfold free. rewrite !dev_then. cbn [fst snd se_dev with_dev ll_dst ll_src].
  assert (K4 : keep d2 d4).
  { apply same_keep; [by eapply same_trans|done]. }
  destruct (free_keep _ _ _ _ _ F2 K4) as [K5 O5]. destruct (free_keep _ _ _ _ _ F1 K5) as [K6 O6].
  eexists ok, _. split; [reflexivity|]. cbn [se_dev]. split; [|by apply K6]. split; [done|]. split.
  - intros x Hx Ho. rewrite O6, O5, O4, Em; try done. intros Hx'. by apply Hx, (f_space _ _ _ _ F1).
  - intros Hok. rewrite <- (ld_bytes_same (se_ram d) (se_ram d3)) by (intros x Hx; apply Em, Has; lia).
    transitivity (ld_bytes (se_ram d4) da (Z.to_nat (16 * n))).
    + apply ld_bytes_same. intros x Hx. assert (~ space d x) by (apply Hds; lia).
      rewrite O6, O5; try done. intros Hx'. by apply (Hds x ltac:(lia)), (f_space _ _ _ _ F1).
    + rewrite V4 by done. destruct S3 as [Hk _]. by rewrite Hk, (f_key _ _ _ _ F2), (f_key _ _ _ _ F1).
Qed.

(** ** Blocks *)

Lemma crypt_ecb_run enc ks n sa da (s : se D) :
  let d := se_dev s in
  job d = None -> (2 <= room d)%nat -> 0 <= ks < 16 -> 0 < n -> apart d sa (16 * n) -> apart d da (16 * n) ->
  da = sa \/ da + 16 * n <= sa \/ sa + 16 * n <= da ->
  exists ok s', se_aes_crypt_ecb fuel ks enc da (16 * n) sa (16 * n) s = (Ret ok, s') /\
    ecb_done enc ks n da sa d ok (se_dev s') /\ job (se_dev s') = None.
Proof.
  intros d Hj Hroom Hks Hn Ha Hd Hdis. unfold se_aes_crypt_ecb, wrse. rewrite !dev_then. cbn [fst snd se_dev with_dev].
  fold d. set (vy := u32 (Z.lor _ _)). set (vb := u32 (_ - 1)).
  destruct (l_wr SE_CONFIG_REG_OFFSET (u32 (aes_config enc)) d eq_refl) as (S1 & R1 & J1 & M1).
  set (d1 := se_wr32 SE_CONFIG_REG_OFFSET (u32 (aes_config enc)) d) in *.
  destruct (l_wr SE_CRYPTO_REG_OFFSET vy d1 eq_refl) as (S2 & R2 & J2 & M2).
  set (d2 := se_wr32 SE_CRYPTO_REG_OFFSET vy d1) in *.
  destruct (l_wr SE_BLOCK_COUNT_REG_OFFSET vb d2 eq_refl) as (S3 & R3 & J3 & M3).
  set (d3 := se_wr32 SE_BLOCK_COUNT_REG_OFFSET vb d2) in *.
  assert (Sd : same d d3) by (by eapply same_trans; [|eapply same_trans]).
  assert (Sp : forall a, space d3 a <-> space d a) by apply Sd. assert (Em : se_ram d3 = se_ram d) by congruence.
  destruct (oneshot_ecb enc ks n sa da (Se d3 (ll_dst s) (ll_src s))) as (ok & s' & E & (K & O & V) & Hj').
  - cbn. congruence.
  - cbn [se_dev]. destruct Sd as (_ & _ & _ & Hr). by rewrite Hr.
  - cbn [se_dev]. unfold ecb_regs. rewrite !R3, !R2, !R1. split; [by destruct enc|]. split; [done|]. unfold vb. cbn -[Z.mul Z.shiftr u32].
    rewrite Z.shiftr_div_pow2 by lia. change (2 ^ 4) with 16. rewrite Z.mul_comm, Z.div_mul by lia.
    apply u32_id. destruct Ha as (? & ? & _). lia.
  - done.
  - done.
  - destruct Ha as (? & ? & Hx). split_and!; try done. intros x Hin. cbn [se_dev]. rewrite Sp. by apply Hx.
  - destruct Hd as (? & ? & Hx). split_and!; try done. intros x Hin. cbn [se_dev]. rewrite Sp. by apply Hx.
  - done.
  - exists ok, s'. cbn [se_dev] in *. split; [exact E|]. split; [|done]. split; [|split].
    + etransitivity; [|exact K]. apply same_keep; [done|]. congruence.
    + intros x Hx Hr. rewrite O, Em; try done. by rewrite Sp.
    + intros Hok. rewrite V, Em by done. destruct Sd as [Hk _]. by rewrite Hk.
Qed.

(** ** Sectors *)

Lemma mem_then {B} f (k : unit -> M (se D) B) (s : se D) :
  (mem_ f ≫= k) s = k tt (with_dev (se_set_ram (f (se_ram (se_dev s))) (se_dev s)) s).
Proof. unfold mem_. by rewrite dev_then. Qed.

(** Memory outside the heap and two buffers keeps its contents. *)
Definition only2 (d d' : D) (a n b k : Z) : Prop :=
  forall x, ~ space d x -> ~ (a <= x < a + n) -> ~ (b <= x < b + k) -> ld8 (se_ram d') x = ld8 (se_ram d) x.

Lemma keep_apart d d' a n : keep d d' -> apart d a n -> apart d' a n.
Proof. intros K (? & ? & Ha). split_and!; try done. intros x Hx Hs. apply (Ha x Hx), (k_space _ _ K), Hs. Qed.
Lemma apart_sub d a n b k : apart d a n -> a <= b -> b + k <= a + n -> apart d b k.
Proof. intros (? & ? & Ha) Hb Hk. split_and!; try lia. intros x Hx. apply Ha. lia. Qed.

(** One block: combined with the tweak, enciphered, combined again. *)
Lemma xts_block_run ks2 enc t dst src (s : se D) :
  let d := se_dev s in
  job d = None -> (2 <= room d)%nat -> 0 <= ks2 < 16 -> apart d t 16 -> apart d dst 16 -> apart d src 16 ->
  dst = src \/ dst + 16 <= src \/ src + 16 <= dst -> dst + 16 <= t \/ t + 16 <= dst ->
  exists (ok : bool) s',
    (forall B (kf kt : M (se D) B),
      (mem_ (fun m => xor_bytes 16 m dst src t);;
       ok ← se_aes_crypt_block_ecb fuel ks2 enc dst dst;
       if negb ok then kf else (mem_ (fun m => xor_bytes 16 m dst dst t);; _gf256_mul_x t;; kt)) s =
      (if ok then kt else kf) s') /\
    keep d (se_dev s') /\ job (se_dev s') = None /\ only2 d (se_dev s') dst 16 t 16 /\
    (ok = true -> ld_bytes (se_ram (se_dev s')) dst 16 =
        xor_l (aes enc (key d ks2) (xor_l (ld_bytes (se_ram d) src 16) (ld_bytes (se_ram d) t 16))) (ld_bytes (se_ram d) t 16) /\
      ld_bytes (se_ram (se_dev s')) t 16 = gf256_mul_x (ld_bytes (se_ram d) t 16)).
Proof.
  intros d Hj Hroom Hks At Ad Asrc Hs Ht.
  set (m1 := xor_bytes 16 (se_ram d) dst src t). set (d1 := se_set_ram m1 d).
  assert (K1 : keep d d1) by apply mem_keep. assert (E1 : se_ram d1 = m1) by apply mem_ram.
  destruct (crypt_ecb_run enc ks2 1 dst dst (with_dev d1 s)) as (ok & s2 & Ecb & (K2 & O2 & V2) & J2).
  { by apply K1. } { cbn. etransitivity; [exact Hroom|apply K1]. } { done. } { done. } { by eapply keep_apart. } { by eapply keep_apart. } { by left. }
  cbn [se_dev with_dev] in K2, O2, V2. change (16 * 1) with 16 in *. change (Z.to_nat 16) with 16%nat in *.
  change (Z.to_nat 1) with 1%nat in *.
  assert (F2 : forall x, ~ space d x -> ~ (dst <= x < dst + 16) -> ld8 (se_ram (se_dev s2)) x = ld8 (se_ram d) x).
  { intros x Hx Ho. rewrite O2 by (try done; intros Hx'; by apply Hx, (k_space _ _ K1)). rewrite E1. by apply xor_bytes_ne. }
  assert (T2 : ld_bytes (se_ram (se_dev s2)) t 16 = ld_bytes (se_ram d) t 16).
  { apply ld_bytes_same. intros x Hx. apply F2; [apply At; lia|lia]. }
  destruct ok; cycle 1.
  { exists false, s2. split.
    - intros B kf kt. rewrite mem_then. fold d. fold m1 d1. unfold se_aes_crypt_block_ecb.
      by rewrite (bind_run _ _ _ _ _ Ecb).
    - split; [by etransitivity|]. split; [done|]. split; [|done]. intros x Hx Ho _. by apply F2. }
  set (d2 := se_dev s2) in *. set (m3 := xor_bytes 16 (se_ram d2) dst dst t). set (d3 := se_set_ram m3 d2).
  assert (E3 : se_ram d3 = m3) by apply mem_ram.
  set (T := ld_bytes (se_ram d) t 16) in *.
  assert (T3 : ld_bytes m3 t 16 = T).
  { rewrite <- T2. apply ld_bytes_same. intros x Hx. apply xor_bytes_ne. lia. }
  set (m4 := st_bytes m3 t (gf256_mul_x T)). set (d4 := se_set_ram m4 d3).
  assert (E4 : se_ram d4 = m4) by apply mem_ram.
  assert (LT : length T = 16%nat) by apply ld_bytes_length. assert (BT : bytes T) by apply ld_bytes_range.
  destruct (gf256_mul_x_ok T LT BT) as [LG BG].
  assert (M4 : forall x, ~ (t <= x < t + 16) -> ld8 m4 x = ld8 m3 x).
  { intros x Hx. unfold m4. apply ld8_st_bytes_ne. by rewrite LG. }
  exists true, (with_dev d4 s2). split; [|split; [|split; [|split]]]; cbn [se_dev with_dev].
  - intros B kf kt. rewrite mem_then. fold d. fold m1 d1. unfold se_aes_crypt_block_ecb.
    rewrite (bind_run _ _ _ _ _ Ecb). cbn [negb]. rewrite mem_then. fold d2. fold m3 d3.
    unfold _gf256_mul_x. rewrite mem_then. cbn [se_dev with_dev]. rewrite E3, T3. fold m4 d4. reflexivity.
  - transitivity d1; [done|]. transitivity d2; [done|]. transitivity d3; apply mem_keep.
  - apply (mem_keep m4), (mem_keep m3), J2.
  - intros x Hx Ho Hxt. rewrite E4, M4 by done. unfold m3. rewrite xor_bytes_ne by lia. by apply F2.
  - intros _. rewrite E4. split.
    + rewrite (ld_bytes_same m3) by (intros x Hx; apply M4; lia). unfold m3. rewrite xor_bytes_run by auto with lia.
      rewrite T2. f_equal. rewrite V2 by done. cbn [ecb]. rewrite app_nil_r, take_ge by (rewrite ld_bytes_length; lia).
      rewrite E1. unfold m1. rewrite xor_bytes_run by done. by rewrite (k_key _ _ K1).
    + unfold m4. rewrite <- LG at 1. by apply ld_bytes_st_bytes.
Qed.

(** What the blocks of a sector do, with the tweak at [t]. *)
Lemma xts_blocks_run ks2 enc t n : forall dst src (s : se D),
  let d := se_dev s in let len := 16 * Z.of_nat n in
  job d = None -> (2 <= room d)%nat -> 0 <= ks2 < 16 -> apart d t 16 -> (n <> Datatypes.O -> apart d dst len /\ apart d src len) ->
  dst = src \/ dst + len <= src \/ src + len <= dst ->
  dst + len <= t \/ t + 16 <= dst -> src + len <= t \/ t + 16 <= src ->
  exists ok s', xts_blocks fuel n ks2 enc t dst src s = (Ret ok, s') /\
    keep d (se_dev s') /\ job (se_dev s') = None /\ only2 d (se_dev s') dst len t 16 /\
    (ok = true -> ld_bytes (se_ram (se_dev s')) dst (16 * n) =
       xts_ref (aes enc (key d ks2)) n (ld_bytes (se_ram d) t 16) (ld_bytes (se_ram d) src (16 * n))).
Proof.
  induction n as [|n IH]; intros dst src s d len Hj Hroom Hks At Ab Hs Hd Hst.
  { exists true, s. by split_and!. }
  destruct Ab as [Ad As]; [done|].
  destruct (xts_block_run ks2 enc t dst src s) as (ok & s1 & E1 & K1 & J1 & O1 & V1); try done; try lia.
  { eapply apart_sub; [exact Ad|lia|lia]. } { eapply apart_sub; [exact As|lia|lia]. }
  cbn [xts_blocks]. rewrite E1. fold d in K1, O1, V1. clear E1.
  destruct ok; cycle 1.
  { exists false, s1. split; [done|]. split; [done|]. split; [done|]. split; [|done].
    intros x Hx Ho Hxt. apply O1; try done. lia. }
  destruct V1 as [V1 T1]; [done|]. set (d1 := se_dev s1) in *.
  destruct (IH (dst + 16) (src + 16) s1) as (ok & s2 & E2 & K2 & J2 & O2 & V2); fold d1; try done; try lia.
  { etransitivity; [exact Hroom|apply K1]. }
  { by eapply keep_apart. }
  { intros Hn. split.
    - eapply apart_sub; [exact (keep_apart _ _ _ _ K1 Ad)|lia|lia].
    - eapply apart_sub; [exact (keep_apart _ _ _ _ K1 As)|lia|lia]. }
  fold d1 in K2, O2, V2. exists ok, s2. split; [done|]. split; [by etransitivity|]. split; [done|]. split.
  - intros x Hx Ho Hxt. rewrite O2, O1; try done; try lia. intros Hx'. by apply Hx, (k_space _ _ K1).
  - intros ->. replace (16 * S n)%nat with (16 + 16 * n)%nat by lia. rewrite !ld_bytes_app. cbn [xts_ref].
    change (Z.of_nat 16) with 16. rewrite V2, T1, (k_key _ _ K1) by done.
    rewrite gf256_mul_x_double by (apply ld_bytes_length || apply ld_bytes_range).
    rewrite take_app_length', drop_app_length' by (by rewrite ld_bytes_length). f_equal.
    + rewrite <- V1. apply ld_bytes_same. intros x Hx. apply O2; try lia.
      intros Hx'. apply (k_space _ _ K1) in Hx'. by apply (proj2 (proj2 Ad) x); [lia|].
    + f_equal. apply ld_bytes_same. intros x Hx. apply O1; try lia. apply (proj2 (proj2 As)). lia.
Qed.

(** A buffer and a new block do not meet. *)
Lemma fresh_apart p k d d' a n : fresh p k d d' -> 0 < k -> apart d a n -> 0 < n -> a + n <= p \/ p + k <= a.
Proof.
  intros F Hk (_ & _ & Ha) Hn. destruct (Z.lt_ge_cases p (a + n)), (Z.lt_ge_cases a (p + k)); [|lia..].
  exfalso. eapply (Ha (Z.max a p)), (f_in _ _ _ _ F); lia.
Qed.

(** The first tweak, enciphered with the first key in a block of its own. *)
Lemma tweak_run ks1 sec (s : se D) :
  let d := se_dev s in
  job d = None -> (3 <= room d)%nat -> 0 <= ks1 < 16 ->
  exists t d1 (ok : bool) s2,
    (forall B (k : Z -> bool -> M (se D) B),
      (tweak ← malloc 0x10; mem_ (fun m => st_bytes m tweak (to_be 16 sec));;
       ok ← se_aes_crypt_block_ecb fuel ks1 true tweak tweak; k tweak ok) s = k t ok s2) /\
    fresh t 16 d d1 /\ keep d1 (se_dev s2) /\ job (se_dev s2) = None /\ apart (se_dev s2) t 16 /\
    (forall x, ~ space d x -> ld8 (se_ram (se_dev s2)) x = ld8 (se_ram d) x) /\
    (ok = true -> ld_bytes (se_ram (se_dev s2)) t 16 = aes true (key d ks1) (to_be 16 sec)).
Proof.
  intros d Hj Hroom Hk1. pose proof (malloc_fresh 0x10 d ltac:(lia) ltac:(lia)) as F0. set (t := (se_malloc 0x10 d).1) in *.
  set (d0 := (se_malloc 0x10 d).2) in *.
  destruct (to_be_ok 16 sec) as [LT BT].
  set (m1 := st_bytes (se_ram d0) t (to_be 16 sec)). set (d1 := se_set_ram m1 d0).
  assert (F1 : fresh t 0x10 d d1).
  { apply fresh_mem; [done|]. intros a Ha. unfold m1. apply ld8_st_bytes_ne. by rewrite LT. }
  destruct (f_pos _ _ _ _ F1) as [Hp1 Hp2].
  assert (At : apart d1 t 16) by (split_and!; try lia; intros x Hx; apply (f_in _ _ _ _ F1); lia).
  destruct (crypt_ecb_run true ks1 1 t t (with_dev d1 s)) as (ok & s2 & Ecb & (K2 & O2 & V2) & J2); try done.
  { by apply (fresh_job _ _ _ _ F1). } { pose proof (f_room _ _ _ _ F1). cbn. lia. } { by left. }
  exists t, d1, ok, s2. split; [|split; [done|split; [done|split; [done|split; [by eapply keep_apart|split]]]]].
  - intros B k. unfold malloc. rewrite dev_then. fold d. fold t d0. rewrite mem_then. cbn [se_dev with_dev]. fold m1 d1.
    unfold se_aes_crypt_block_ecb. exact (bind_run _ _ _ _ _ Ecb).
  - intros x Hx. rewrite O2.
    + by apply (f_mem _ _ _ _ F1).
    + intros Hx'. by apply Hx, (f_space _ _ _ _ F1).
    + intros Hx'. apply Hx, (f_in _ _ _ _ F1), Hx'.
  - intros Hok. specialize (V2 Hok). cbn [se_dev with_dev] in V2. change (Z.to_nat (16 * 1)) with 16%nat in V2. rewrite V2.
    assert (Em : se_ram d1 = m1) by apply mem_ram. rewrite Em, (f_key _ _ _ _ F1). change (Z.to_nat 1) with 1%nat. cbn [ecb].
    unfold m1. rewrite <- LT at 2. rewrite ld_bytes_st_bytes, app_nil_r, take_ge by (done || lia). done.
Qed.

Lemma xts_crypt_sec_run ks1 ks2 enc sec n dst src (s : se D) :
  let d := se_dev s in let len := 16 * Z.of_nat n in
  job d = None -> (3 <= room d)%nat -> 0 <= ks1 < 16 -> 0 <= ks2 < 16 -> (0 < n)%nat -> apart d dst len -> apart d src len ->
  dst = src \/ dst + len <= src \/ src + len <= dst ->
  exists ok s', se_aes_xts_crypt_sec fuel ks1 ks2 enc sec dst src len s = (Ret ok, s') /\
    keep d (se_dev s') /\ job (se_dev s') = None /\ only d (se_dev s') dst len /\
    (ok = true -> ld_bytes (se_ram (se_dev s')) dst (16 * n) =
       xts_sector_ref enc (key d ks1) (key d ks2) n sec (ld_bytes (se_ram d) src (16 * n))).
Proof.
  intros d len Hj Hroom Hk1 Hk2 Hn Ad As Hs. unfold se_aes_xts_crypt_sec. rewrite tweak_bytes_be, app_nil_r.
  destruct (tweak_run ks1 sec s Hj Hroom Hk1) as (t & d1 & ok & s2 & E & F1 & K2 & J2 & At & O2 & V2).
  rewrite E. clear E. fold d in F1, O2, V2. set (d2 := se_dev s2) in *.
  assert (Hsp : forall x, space d2 x -> space d x).
  { intros x Hx. by apply (f_space _ _ _ _ F1), (k_space _ _ K2). }
  assert (Ha : forall a, apart d a len -> apart d2 a len).
  { intros a (? & ? & Ha). split_and!; try done. intros x Hx Hx'. by apply (Ha x Hx), Hsp. }
  assert (Hkey : forall k, key d2 k = key d k) by (intros k; by rewrite (k_key _ _ K2), (f_key _ _ _ _ F1)).
  assert (Hex : exists (ok' : bool) s3,
    (if negb ok then mret false else xts_blocks fuel (Z.to_nat (len / 0x10)) ks2 enc t dst src) s2 = (Ret ok', s3) /\
    keep d2 (se_dev s3) /\ only2 d2 (se_dev s3) dst len t 16 /\
    (ok' = true -> ld_bytes (se_ram (se_dev s3)) dst (16 * n) =
       xts_sector_ref enc (key d ks1) (key d ks2) n sec (ld_bytes (se_ram d) src (16 * n)))).
  { destruct ok; cbn [negb]; [|by exists false, s2; split_and!].
    replace (Z.to_nat (len / 0x10)) with n by (unfold len; rewrite Z.mul_comm, Z.div_mul; lia).
    destruct (xts_blocks_run ks2 enc t n dst src s2) as (ok' & s3 & E3 & K3 & J3 & O3 & V3); try done; fold d2.
    { pose proof (f_room _ _ _ _ F1). pose proof (k_room _ _ K2). lia. } { intros _. auto. }
    { eapply fresh_apart; [exact F1|lia|exact Ad|lia]. } { eapply fresh_apart; [exact F1|lia|exact As|lia]. }
    exists ok', s3. fold d2 in K3, O3, V3. split; [done|]. split; [done|]. split; [done|]. intros Hok.
    rewrite V3, V2, Hkey by done. unfold xts_sector_ref. f_equal.
    apply ld_bytes_same. intros x Hx. apply O2, (proj2 (proj2 As)). lia. }
  destruct Hex as (ok' & s3 & E3 & K3 & O3 & V3). rewrite (bind_run _ _ _ _ _ E3). unfold free. rewrite dev_then.
  destruct (free_keep _ _ _ _ (se_dev s3) F1) as [K4 O4]; [by etransitivity|].
  eexists ok', _. split; [reflexivity|]. cbn [snd se_dev with_dev]. split; [done|]. split; [by apply K4|]. split.
  - intros x Hx Ho. rewrite O4, O3, O2; try done; [by intros Hx'; apply Hx, Hsp|].
    intros Hx'. apply Hx, (f_in _ _ _ _ F1), Hx'.
  - intros Hok. rewrite <- V3 by done. apply ld_bytes_same. intros x Hx. apply O4, (proj2 (proj2 Ad)). lia.
Qed.

(** *** Several sectors *)

(** The sectors from the [i]-th on. *)
Lemma xts_sectors_run ks1 ks2 enc sec b dst src n : forall i (s : se D),
  let d := se_dev s in let size := 16 * Z.of_nat b in let len := size * Z.of_nat n in
  let dst' := dst + size * i in let src' := src + size * i in
  job d = None -> (3 <= room d)%nat -> 0 <= ks1 < 16 -> 0 <= ks2 < 16 -> (0 < b)%nat -> 0 <= i ->
  0 < dst -> 0 < src -> 0 <= sec -> sec + i + Z.of_nat n <= 2 ^ 64 ->
  (n <> Datatypes.O -> apart d dst' len /\ apart d src' len) ->
  dst = src \/ dst' + len <= src' \/ src' + len <= dst' ->
  exists ok s', xts_sectors fuel n ks1 ks2 enc sec i dst src size s = (Ret ok, s') /\
    keep d (se_dev s') /\ job (se_dev s') = None /\ only d (se_dev s') dst' len /\
    (ok = true -> ld_bytes (se_ram (se_dev s')) dst' (16 * b * n) =
       sectors_ref (xts_sector_ref enc (key d ks1) (key d ks2) b) (16 * b) n (sec + i)
         (ld_bytes (se_ram d) src' (16 * b * n))).
Proof.
  induction n as [|n IH]; intros i s d size len dst' src' Hj Hroom Hk1 Hk2 Hb Hi Hd0 Hs0 Hsec0 Hsec Ab Hdis.
  { exists true, s. rewrite Nat.mul_0_r. by split_and!. }
  destruct Ab as [Ad As]; [done|]. cbn [xts_sectors].
  assert (Hlen : len = size + size * Z.of_nat n) by lia.
  assert (Hsi : 0 <= size * i) by nia. assert (Hsn : 0 <= size * Z.of_nat n) by nia.
  pose proof Ad as (_ & Hd2 & _). pose proof As as (_ & Hs2 & _).
  rewrite (u32_id (size * i)), (u32_id (dst + _)), (u32_id (src + _)) by lia. fold dst' src'.
  replace (u64 (sec + i)) with (sec + i) by (symmetry; apply Z.mod_small; lia).
  destruct (xts_crypt_sec_run ks1 ks2 enc (sec + i) b dst' src' s) as (ok & s1 & E1 & K1 & J1 & O1 & V1); try done; fold d.
  { eapply apart_sub; [exact Ad|lia|lia]. } { eapply apart_sub; [exact As|lia|lia]. } { lia. }
  fold size in E1. rewrite (bind_run _ _ _ _ _ E1). clear E1. fold d in K1, O1, V1. fold size in O1.
  destruct ok; cbn [negb]; cycle 1.
  { exists false, s1. split; [done|]. split; [done|]. split; [done|]. split; [|done].
    intros x Hx Ho. apply O1; [done|]. lia. }
  set (d1 := se_dev s1) in *.
  assert (E' : dst + size * (i + 1) = dst' + size /\ src + size * (i + 1) = src' + size) by lia.
  destruct (IH (i + 1) s1) as (ok & s2 & E2 & K2 & J2 & O2 & V2); fold d1; try done; try lia.
  { etransitivity; [exact Hroom|apply K1]. }
  { fold size. destruct E' as [-> ->]. intros Hn. split.
    - eapply apart_sub; [exact (keep_apart _ _ _ _ K1 Ad)|lia|lia].
    - eapply apart_sub; [exact (keep_apart _ _ _ _ K1 As)|lia|lia]. }
  fold d1 in K2, O2, V2. fold size in E2, O2, V2. destruct E' as [Ed Es]. rewrite Ed, Es in *.
  exists ok, s2. split; [done|]. split; [by etransitivity|]. split; [done|]. split.
  - intros x Hx Ho. rewrite O2, O1; try done; try lia. intros Hx'. by apply Hx, (k_space _ _ K1).
  - intros ->. replace (16 * b * S n)%nat with (16 * b + 16 * b * n)%nat by lia. rewrite !ld_bytes_app. cbn [sectors_ref].
    replace (Z.of_nat (16 * b)) with size by lia.
    rewrite take_app_length', drop_app_length' by (by rewrite ld_bytes_length).
    rewrite V2, !(k_key _ _ K1), <- V1 by done. replace (sec + (i + 1)) with (sec + i + 1) by lia. f_equal.
    + apply ld_bytes_same. intros x Hx. apply O2; try lia.
      intros Hx'. apply (k_space _ _ K1) in Hx'. by apply (proj2 (proj2 Ad) x); [lia|].
    + f_equal. apply ld_bytes_same. intros x Hx. apply O1; try lia. apply (proj2 (proj2 As)). lia.
Qed.


(** The setting of an operation on [n] sectors of [b] blocks. *)
Record xts_call (d : D) (ks1 ks2 sec dst src : Z) (b n : nat) : Prop := {
  x_job : job d = None;
  x_room : (3 <= room d)%nat;
  x_ks1 : 0 <= ks1 < 16;
  x_ks2 : 0 <= ks2 < 16;
  x_size : (0 < b)%nat;
  x_sec : 0 <= sec /\ sec + Z.of_nat n <= 2 ^ 64;
  x_dst : apart d dst (16 * Z.of_nat b * Z.of_nat n);
  x_src : apart d src (16 * Z.of_nat b * Z.of_nat n);
  x_dis : dst = src \/ dst + 16 * Z.of_nat b * Z.of_nat n <= src \/ src + 16 * Z.of_nat b * Z.of_nat n <= dst
}.

Lemma xts_crypt_run ks1 ks2 enc sec b n dst src (s : se D) :
  let d := se_dev s in let size := 16 * Z.of_nat b in
  xts_call d ks1 ks2 sec dst src b n ->
  exists ok s', se_aes_xts_crypt fuel ks1 ks2 enc sec dst src size (Z.of_nat n) s = (Ret ok, s') /\
    keep d (se_dev s') /\ job (se_dev s') = None /\ only d (se_dev s') dst (size * Z.of_nat n) /\
    (ok = true -> ld_bytes (se_ram (se_dev s')) dst (16 * b * n) =
       sectors_ref (xts_sector_ref enc (key d ks1) (key d ks2) b) (16 * b) n sec (ld_bytes (se_ram d) src (16 * b * n))).
Proof.
  intros d size []. unfold se_aes_xts_crypt. rewrite Nat2Z.id.
  pose proof (xts_sectors_run ks1 ks2 enc sec b dst src n 0 s) as Hr. cbn zeta in Hr. rewrite !Z.mul_0_r, !Z.add_0_r in Hr.
  destruct x_dst0 as (? & ? & ?), x_src0 as (? & ? & ?). apply Hr; try done; try lia.
Qed.
End proofs.

Section theorems.
Context {D : Type} `{SeLaws D} (fuel : nat).
Hypothesis Hfuel : (polls < fuel)%nat.

(** C17: [se_aes_xts_crypt] returns; the destination then holds the sectors of
    the source in XTS mode (each block combined with the tweak, passed through
    the cipher of the second key and combined again, the tweak of a sector its
    number under the first key and doubled from block to block) if it reports
    success; and, whatever it reports, it has written nothing outside the
    destination and the memory of the heap, has given back every block it took
    from the heap, has left the keys as they were and the engine idle.  The
    source is the destination itself or a buffer apart from it. *)
Theorem se_aes_xts_crypt_correct ks1 ks2 enc sec b n dst src (s : se D) :
  let d := se_dev s in let size := 16 * Z.of_nat b in
  xts_call d ks1 ks2 sec dst src b n ->
  exists ok s', se_aes_xts_crypt fuel ks1 ks2 enc sec dst src size (Z.of_nat n) s = (Ret ok, s') /\
    keep d (se_dev s') /\ job (se_dev s') = None /\ only d (se_dev s') dst (size * Z.of_nat n) /\
    (ok = true -> ld_bytes (se_ram (se_dev s')) dst (16 * b * n) =
       sectors_ref (xts_sector_ref enc (key d ks1) (key d ks2) b) (16 * b) n sec (ld_bytes (se_ram d) src (16 * b * n))).
Proof. by apply xts_crypt_run. Qed.

(** C18: Sectors that [se_aes_xts_crypt] has encrypted to a buffer, and then
    decrypted from there with the same keys and sector number, are the sectors
    it started from. *)
Theorem se_aes_xts_roundtrip ks1 ks2 sec b n src dst out (s s1 s2 : se D) :
  let size := 16 * Z.of_nat b in
  xts_call (se_dev s) ks1 ks2 sec dst src b n -> xts_call (se_dev s) ks1 ks2 sec out dst b n ->
  se_aes_xts_crypt fuel ks1 ks2 true sec dst src size (Z.of_nat n) s = (Ret true, s1) ->
  se_aes_xts_crypt fuel ks1 ks2 false sec out dst size (Z.of_nat n) s1 = (Ret true, s2) ->
  ld_bytes (se_ram (se_dev s2)) out (16 * b * n) = ld_bytes (se_ram (se_dev s)) src (16 * b * n).
Proof.
  intros size C1 C2 E1 E2.
  destruct (xts_crypt_run fuel Hfuel ks1 ks2 true sec b n dst src s C1) as (ok & s1' & E1' & K & J & _ & V1).
  fold size in E1'. rewrite E1 in E1'. injection E1' as <- <-.
  destruct (xts_crypt_run fuel Hfuel ks1 ks2 false sec b n out dst s1) as (ok & s2' & E2' & _ & _ & _ & V2).
  { destruct C2. constructor; try done; [|by eapply keep_apart..]. etransitivity; [eassumption|apply K]. }
  fold size in E2'. rewrite E2 in E2'. injection E2' as <- <-.
  rewrite V2, V1, !(k_key _ _ K) by done. apply sectors_ref_inverse; [apply ld_bytes_length|apply ld_bytes_range].
Qed.

End theorems.

(** ** An engine that obeys the laws *)

Module Toy.

Record toy := T { t_ram : mem; t_regs : gmap Z Z; t_job : option nat; t_heap : gmap Z Z }.

(** A cipher: the key is added to each byte. *)
Definition cipher (enc : bool) (k : list Z) (b : list Z) : list Z :=
  map (fun x => u8 (if enc then x + hd 0 k else x - hd 0 k)) b.
Definition slot_key (k : Z) : list Z := replicate 16 (k + 1).
Definition treg (d : toy) (o : Z) : Z := default 0 (t_regs d !! o).

(** The operation in the registers. *)
Definition perform (d : toy) : mem :=
  let m := t_ram d in
  let enc := treg d SE_CONFIG_REG_OFFSET =? aes_config true in
  let ks := Z.shiftr (treg d SE_CRYPTO_REG_OFFSET) 24 in
  let n := Z.to_nat (treg d SE_BLOCK_COUNT_REG_OFFSET + 1) in
  let sa := ld32 m (treg d SE_IN_LL_ADDR_REG_OFFSET + 4) in
  let da := ld32 m (treg d SE_OUT_LL_ADDR_REG_OFFSET + 4) in
  st_bytes m da (ecb (cipher enc (slot_key ks)) n (ld_bytes m sa (16 * n))).

Definition read (off : Z) (d : toy) : Z * toy :=
  if off =? SE_INT_STATUS_REG_OFFSET then
    match t_job d with
    | Some (S n) => (0, T (t_ram d) (t_regs d) (Some n) (t_heap d))
    | Some Datatypes.O => (SE_INT_OP_DONE, T (perform d) (t_regs d) None (t_heap d))
    | None => (SE_INT_OP_DONE, d)
    end
  else (0, d).
Definition write (off v : Z) (d : toy) : toy :=
  if plain off then T (t_ram d) (<[off := v]> (t_regs d)) (t_job d) (t_heap d)
  else if off =? SE_OPERATION_REG_OFFSET then T (t_ram d) (t_regs d) (Some 2%nat) (t_heap d)
  else d.

(** A heap of three blocks. *)
Definition slots : list Z := [0x1000; 0x1010; 0x1020].
Definition free_slot (h : gmap Z Z) (p : Z) : bool := match h !! p with None => true | Some _ => false end.
Definition take_block (n : Z) (d : toy) : Z * toy :=
  match List.filter (free_slot (t_heap d)) slots with
  | p :: _ => (p, T (t_ram d) (t_regs d) (t_job d) (<[p := n]> (t_heap d)))
  | [] => (0, d)
  end.
Definition give_block (p : Z) (d : toy) : toy := T (t_ram d) (t_regs d) (t_job d) (delete p (t_heap d)).

#[export] Instance toy_hw : SeHw toy := {|
  se_rd32 := read; se_wr32 := write; pmc_rd32 _ d := (0, d);
  se_ram := t_ram; se_set_ram m d := T m (t_regs d) (t_job d) (t_heap d);
  se_malloc := take_block; se_free := give_block
|}.

Lemma cipher_block enc k b : length b = 16%nat -> length (cipher enc k b) = 16%nat /\ bytes (cipher enc k b).
Proof.
  intros L. unfold cipher. split; [by rewrite length_map|]. apply Forall_map, Forall_true. intros x. apply Z.mod_pos_bound. lia.
Qed.
Lemma cipher_inverse k b : bytes b -> cipher false k (cipher true k b) = b.
Proof.
  unfold cipher. rewrite map_map. induction 1 as [|x b Hx Hb IH]; [done|]. cbn [map]. rewrite IH. f_equal.
  unfold u8. rewrite Zminus_mod_idemp_l. replace (x + hd 0 k - hd 0 k) with x by lia. by apply Z.mod_small.
Qed.

Lemma ecb_ok f n : (forall b, length b = 16%nat -> length (f b) = 16%nat /\ bytes (f b)) ->
  forall l, length l = (16 * n)%nat -> length (ecb f n l) = (16 * n)%nat /\ bytes (ecb f n l).
Proof.
  intros Hf. induction n as [|n IH]; intros l L; [done|]. cbn [ecb].
  destruct (Hf (take 16 l)) as [L1 B1]; [rewrite length_take; lia|].
  destruct (IH (drop 16 l)) as [L2 B2]; [rewrite length_drop; lia|].
  split; [rewrite length_app; lia|by apply Forall_app].
Qed.

Definition taken (d : toy) (p : Z) : option Z := if existsb (Z.eqb p) slots then t_heap d !! p else None.
Definition spare (d : toy) (a : Z) : Prop :=
  0x1000 <= a < 0x1030 /\ match t_heap d !! (16 * (a / 16)) with None => True | Some n => 16 * (a / 16) + n <= a end.
Definition roomy (d : toy) : nat := length (List.filter (free_slot (t_heap d)) slots).

Lemma in_slots p : existsb (Z.eqb p) slots = true -> p = 0x1000 \/ p = 0x1010 \/ p = 0x1020.
Proof. cbn. destruct (Z.eqb_spec p 0x1000), (Z.eqb_spec p 0x1010), (Z.eqb_spec p 0x1020); auto; discriminate. Qed.

Lemma taken_slot n d : (0 < roomy d)%nat ->
  let p := (take_block n d).1 in let d' := (take_block n d).2 in
  existsb (Z.eqb p) slots = true /\ t_heap d !! p = None /\ d' = T (t_ram d) (t_regs d) (t_job d) (<[p := n]> (t_heap d)) /\
  roomy d = S (roomy d').
Proof.
  unfold roomy, take_block, slots. cbn [List.filter]. unfold free_slot.
  destruct (t_heap d !! 0x1000) eqn:E0, (t_heap d !! 0x1010) eqn:E1, (t_heap d !! 0x1020) eqn:E2; cbn [length];
    intros Hr; try lia; cbn [fst snd t_heap];
    rewrite ?lookup_insert_eq, ?lookup_insert_ne, ?E0, ?E1, ?E2 by done; try done; repeat split; done.
Qed.
Lemma gave_slot p d : taken d p <> None -> roomy (give_block p d) = S (roomy d).
Proof.
  unfold taken. destruct (existsb _ _) eqn:Es; [|done]. intros Hp.
  unfold roomy, give_block, slots. cbn [List.filter t_heap]. unfold free_slot.
  destruct (in_slots _ Es) as [-> | [-> | ->]]; rewrite lookup_delete_eq, !lookup_delete_ne by done;
    destruct (t_heap d !! 0x1000), (t_heap d !! 0x1010), (t_heap d !! 0x1020); done.
Qed.
Lemma slot_of p a : existsb (Z.eqb p) slots = true -> p <= a < p + 16 -> 16 * (a / 16) = p /\ 0x1000 <= a < 0x1030.
Proof.
  pose proof (Z.div_mod a 16 ltac:(lia)). pose proof (Z.mod_pos_bound a 16 ltac:(lia)).
  intros [-> | [-> | ->]]%in_slots Ha; lia.
Qed.

(** The registers of an operation, read back. *)
Lemma decode enc ks : 0 <= ks < 16 ->
  (aes_config enc =? aes_config true) = enc /\
  Z.shiftr (u32 (Z.lor (SE_CRYPTO_KEY_INDEX ks) (SE_CRYPTO_CORE_SEL (if enc then CORE_ENCRYPT else CORE_DECRYPT)))) 24 = ks.
Proof.
  intros Hk. split; [by destruct enc|]. unfold SE_CRYPTO_KEY_INDEX, SE_CRYPTO_CORE_SEL.
  rewrite Z.shiftl_mul_pow2 by lia.
  assert (Hc : 0 <= Z.shiftl (if enc then CORE_ENCRYPT else CORE_DECRYPT) 8 < 2 ^ 24) by (by destruct enc).
  rewrite lor_high_low, u32_id, Z.shiftr_div_pow2, Z.div_add_l, Z.div_small by lia. lia.
Qed.

Lemma toy_ecb (d : toy) enc ks n sa da : t_job d = Some Datatypes.O ->
  treg d SE_CONFIG_REG_OFFSET = aes_config enc ->
  treg d SE_CRYPTO_REG_OFFSET =
    u32 (Z.lor (SE_CRYPTO_KEY_INDEX ks) (SE_CRYPTO_CORE_SEL (if enc then CORE_ENCRYPT else CORE_DECRYPT))) ->
  0 <= ks < 16 -> treg d SE_BLOCK_COUNT_REG_OFFSET = n - 1 -> 0 < n ->
  ld32 (t_ram d) (treg d SE_IN_LL_ADDR_REG_OFFSET + 4) = sa ->
  ld32 (t_ram d) (treg d SE_OUT_LL_ADDR_REG_OFFSET + 4) = da ->
  (forall x, ~ (da <= x < da + 16 * n) -> ld8 (perform d) x = ld8 (t_ram d) x) /\
  ld_bytes (perform d) da (Z.to_nat (16 * n)) =
    ecb (cipher enc (slot_key ks)) (Z.to_nat n) (ld_bytes (t_ram d) sa (Z.to_nat (16 * n))).
Proof.
  intros Hj Hc Hy Hk Hb Hn Hsa Hda. unfold perform. rewrite Hc, Hy, Hb, Hsa, Hda.
  destruct (decode enc ks Hk) as [-> ->]. replace (n - 1 + 1) with n by lia.
  replace (Z.to_nat (16 * n)) with (16 * Z.to_nat n)%nat by lia.
  destruct (ecb_ok (cipher enc (slot_key ks)) (Z.to_nat n)) with (l := ld_bytes (t_ram d) sa (16 * Z.to_nat n)) as [L B];
    [apply cipher_block|apply ld_bytes_length|].
  set (res := ecb _ _ _) in *. split.
  - intros x Hx. apply ld8_st_bytes_ne. rewrite L. lia.
  - rewrite <- L. by apply ld_bytes_st_bytes.
Qed.

#[export] Instance toy_laws : SeLaws toy.
Proof.
  refine (Build_SeLaws toy toy_hw cipher cipher_block (fun k b _ => cipher_inverse k b) (fun _ => slot_key) treg spare taken
    roomy t_job 3%nat (fun _ => True) _ _ _ _ _ _ _ _ _ _).
  - intros m d. split_and!; done.
  - intros off v d Hp. cbn. unfold write. rewrite Hp. split; [split_and!; done|]. split; [|split_and!; done]. intros o. unfold treg. cbn [t_regs].
    destruct (Z.eqb_spec o off) as [->|Hne]; [by rewrite lookup_insert_eq|by rewrite lookup_insert_ne].
  - intros off v d Hj [-> | ->]; cbn; split_and!; done.
  - intros off d Hj Hoff. cbn. unfold read. destruct (off =? _); [by rewrite Hj|done].
  - done.
  - intros d Hj. split_and!; [done..|]. exists 2%nat. split; [done|lia].
  - intros d n Hj. cbn. unfold read. cbn. rewrite Hj. split_and!; done.
  - intros d enc ks n sa da Hj Hc Hy Hks Hb Hn Hsa _ Hda _ _. cbn. unfold read. cbn. rewrite Hj.
    destruct (toy_ecb d enc ks n sa da) as [Hf Hv]; try done.
  - intros n d Hn Hr. destruct (taken_slot n d Hr) as (Hs & Hp & Hd & Hro). cbn [se_malloc toy_hw].
    destruct (take_block n d) as [p d']. cbn [fst snd] in *. subst d'.
    pose proof (in_slots p Hs). split; [lia|]. split; [lia|]. unfold spare, taken. cbn [t_heap t_ram se_ram toy_hw t_job]. rewrite Hs.
    split. { intros a Ha. destruct (slot_of p a Hs) as [-> Hin]; [lia|]. rewrite lookup_insert_eq, Hp. lia. }
    split. { intros a [Hin Hl]. split; [done|]. destruct (Z.eq_dec p (16 * (a / 16))) as [<-|]; [by rewrite Hp|].
      by rewrite lookup_insert_ne in Hl. }
    split; [done|]. split; [apply lookup_insert_eq|]. split.
    { intros q k. destruct (existsb (Z.eqb q) slots); [|done]. intros Hq. assert (q <> p) by congruence.
      split; [done|]. by rewrite lookup_insert_ne. }
    split_and!; try done. lia.
  - intros p n d Hb. pose proof (gave_slot p d ltac:(congruence)) as Hro. unfold taken in Hb.
    destruct (existsb (Z.eqb p) slots) eqn:Hs; [|done]. cbn [se_free toy_hw se_ram]. unfold give_block in *. unfold spare, taken. cbn [t_heap t_ram].
   
    split. { intros a [Hin Hl]. destruct (Z.eq_dec p (16 * (a / 16))) as [Ep|]; [|left; by rewrite lookup_delete_ne in Hl].
      rewrite <- Ep, Hb. pose proof (Z.div_mod a 16 ltac:(lia)). pose proof (Z.mod_pos_bound a 16 ltac:(lia)). lia. }
    split; [done|]. split; [|split_and!; done || lia].
    intros q k Hq Hk. destruct (existsb (Z.eqb q) slots); [|done]. by rewrite lookup_delete_ne.
Defined.

(** Two sectors of two blocks. *)
Definition before : se toy := Se (T (st_bytes ∅ 0x2000 (map Z.of_nat (seq 1 64))) ∅ None ∅) 0 0.
Definition encrypted : outcome bool * se toy := se_aes_xts_crypt 10 1 2 true 5 0x3000 0x2000 32 2 before.
Definition decrypted : outcome bool * se toy := se_aes_xts_crypt 10 1 2 false 5 0x4000 0x3000 32 2 (snd encrypted).

Lemma before_call dst src : 0x2000 <= src <= 0x5000 -> 0x2000 <= dst <= 0x5000 -> 64 <= Z.abs (dst - src) ->
  xts_call (se_dev before) 1 2 5 dst src 2 2.
Proof.
  intros Hs Hd Hx. constructor; try done; try lia; (split; [lia|]; split; [lia|]); intros x Hin (Hr & _); lia.
Qed.

Lemma fuel_enough : (polls (D := toy) < 10)%nat.
Proof. apply Nat.ltb_lt. reflexivity. Qed.

Lemma se_aes_xts_crypt_correct_witness :
  fst encrypted = Ret true /\ ld_bytes (se_ram (se_dev (snd encrypted))) 0x3000 64 =
    sectors_ref (xts_sector_ref true (slot_key 1) (slot_key 2) 2) 32 2 5 (map Z.of_nat (seq 1 64)) /\
  only (se_dev before) (se_dev (snd encrypted)) 0x3000 64.
Proof.
  assert (Hr : fst encrypted = Ret true) by (vm_compute; reflexivity). split; [exact Hr|].
  destruct (se_aes_xts_crypt_correct (D := toy) 10 fuel_enough 1 2 true 5 2 2 0x3000 0x2000 before (before_call 0x3000 0x2000 ltac:(lia) ltac:(lia) ltac:(lia)))
    as (ok & s' & E & _ & _ & Ho & Hv).
  change (encrypted = (Ret ok, s')) in E. rewrite E in *. injection Hr as ->. split; [|exact Ho]. exact (Hv eq_refl).
Defined.

Lemma se_aes_xts_roundtrip_witness :
  fst decrypted = Ret true /\ ld_bytes (se_ram (se_dev (snd decrypted))) 0x4000 64 = ld_bytes (se_ram (se_dev before)) 0x2000 64.
Proof.
  assert (H1 : fst encrypted = Ret true) by (vm_compute; reflexivity).
  assert (H2 : fst decrypted = Ret true) by (vm_compute; reflexivity). split; [exact H2|].
  apply (se_aes_xts_roundtrip (D := toy) 10 fuel_enough 1 2 5 2 2 0x2000 0x3000 0x4000 before (snd encrypted) (snd decrypted)
    (before_call 0x3000 0x2000 ltac:(lia) ltac:(lia) ltac:(lia)) (before_call 0x4000 0x3000 ltac:(lia) ltac:(lia) ltac:(lia))).
  - rewrite <- H1. change (encrypted = (fst encrypted, snd encrypted)). by destruct encrypted.
  - rewrite <- H2. change (decrypted = (fst decrypted, snd decrypted)). by destruct decrypted.
Defined.
End Toy.
