(* ===== verification/Periph.v ===== *)
(** * Periph

    Small peripherals: the 5 V regulator (bdk/power/regulator_5v.c), the fan
    (bdk/thermal/fan.c), the temperature sensor (bdk/thermal/tmp451.c), the
    USB-PD controller (bdk/power/bm92t36.c) and the RAM disk
    (bdk/storage/ramdisk.c). *)

From S2P Require Import Prelude Mem I2c Gpio Fuse.
#[local] Open Scope Z_scope.

(** ** Registers *)

Definition PINMUX_AUX (off : Z) : Z := 0x70003000 + off.
Definition PWM (off : Z) : Z := 0x7000A000 + off.
Definition PMC (off : Z) : Z := 0x7000E400 + off.
Definition PINMUX_AUX_SATA_LED_ACTIVE : Z := 0x4C.
Definition PINMUX_AUX_USB_VBUS_EN0 : Z := 0x1A8.
Definition PINMUX_AUX_CAM1_PWDN : Z := 0x1EC.
Definition PINMUX_AUX_LCD_GPIO2 : Z := 0x20C.
Definition PINMUX_PULL_DOWN : Z := Z.shiftl 1 2.
Definition PINMUX_PULL_UP : Z := Z.shiftl 2 2.
Definition PINMUX_TRISTATE : Z := BIT 4.
Definition PINMUX_PARKED : Z := BIT 5.
Definition PINMUX_INPUT_ENABLE : Z := BIT 6.
Definition PINMUX_LPDR : Z := BIT 8.
Definition PINMUX_IO_HV : Z := BIT 10.
Definition APBDEV_PMC_NO_IOPOWER : Z := 0x44.
Definition PMC_NO_IOPOWER_GPIO_IO_EN : Z := BIT 21.
Definition APBDEV_PMC_PWR_DET_VAL : Z := 0xE4.
Definition PMC_PWR_DET_GPIO_IO_EN : Z := BIT 21.
Definition PWM_CONTROLLER_PWM_CSR_1 : Z := 0x10.
Definition PWM_CSR_EN : Z := BIT 31.
Definition GPIO_PORT_A : Z := 0.
Definition GPIO_PORT_S : Z := 18.
Definition GPIO_PORT_V : Z := 21.
Definition GPIO_PORT_CC : Z := 28.
Definition GPIO_PIN_4 : Z := BIT 4.
Definition GPIO_PIN_5 : Z := BIT 5.
Definition REGULATOR_5V_FAN : Z := BIT 0.

(** The hardware and the statics of the two files. *)
Record rails (D : Type) := Rails {
  r_dev : D;
  reg_5v_dev : Z;
  batt_src : bool;
  fan_init : bool;
  curr_duty : Z
}.
Arguments Rails {D}.
Arguments r_dev {D}.
Arguments reg_5v_dev {D}.
Arguments batt_src {D}.
Arguments fan_init {D}.
Arguments curr_duty {D}.

(** ** The regulator and the fan *)

Section Rails.
Context {D : Type} `{Mmio D}.

Definition on_bus {A} (m : M D A) : M (rails D) A := fun s =>
  let '(r, d) := m (r_dev s) in (r, Rails d (reg_5v_dev s) (batt_src s) (fan_init s) (curr_duty s)).
Definition set_dev (v : Z) : M (rails D) unit :=
  modify (fun s => Rails (r_dev s) v (batt_src s) (fan_init s) (curr_duty s)).
Definition set_batt_src (b : bool) : M (rails D) unit :=
  modify (fun s => Rails (r_dev s) (reg_5v_dev s) b (fan_init s) (curr_duty s)).

(** The state of the supplies that are switched on with the first device. *)
Definition supply_on : M (rails D) unit :=
  on_bus (wr (PINMUX_AUX PINMUX_AUX_SATA_LED_ACTIVE) 1);;
  on_bus (gpio_config GPIO_PORT_A GPIO_PIN_5 true);;
  on_bus (gpio_output_enable GPIO_PORT_A GPIO_PIN_5 true);;
  on_bus (gpio_write GPIO_PORT_A GPIO_PIN_5 true);;
  set_batt_src true;;
  on_bus (wr (PINMUX_AUX PINMUX_AUX_USB_VBUS_EN0) (Z.lor PINMUX_LPDR 1));;
  on_bus (gpio_config GPIO_PORT_CC GPIO_PIN_4 true);;
  on_bus (gpio_output_enable GPIO_PORT_CC GPIO_PIN_4 true);;
  on_bus (gpio_write GPIO_PORT_CC GPIO_PIN_4 true);;
  v ← on_bus (rd (PMC APBDEV_PMC_NO_IOPOWER));
  on_bus (wr (PMC APBDEV_PMC_NO_IOPOWER) (Z.land v (Z.lnot PMC_NO_IOPOWER_GPIO_IO_EN)));;
  v ← on_bus (rd (PMC APBDEV_PMC_PWR_DET_VAL));
  on_bus (wr (PMC APBDEV_PMC_PWR_DET_VAL) (Z.land v (Z.lnot PMC_PWR_DET_GPIO_IO_EN))).

Definition regulator_5v_enable (dev : Z) : M (rails D) unit :=
  s ← get;
  (if c_true (reg_5v_dev s) then mret tt else supply_on);;
  s ← get;
  set_dev (Z.lor (reg_5v_dev s) dev).

Definition supply_off : M (rails D) unit :=
  on_bus (gpio_write GPIO_PORT_A GPIO_PIN_5 false);;
  on_bus (gpio_output_enable GPIO_PORT_A GPIO_PIN_5 false);;
  on_bus (gpio_config GPIO_PORT_A GPIO_PIN_5 false);;
  on_bus (wr (PINMUX_AUX PINMUX_AUX_SATA_LED_ACTIVE) (Z.lor PINMUX_PARKED PINMUX_INPUT_ENABLE));;
  set_batt_src false;;
  on_bus (gpio_write GPIO_PORT_CC GPIO_PIN_4 false);;
  on_bus (gpio_output_enable GPIO_PORT_CC GPIO_PIN_4 false);;
  on_bus (gpio_config GPIO_PORT_CC GPIO_PIN_4 false);;
  on_bus (wr (PINMUX_AUX PINMUX_AUX_USB_VBUS_EN0)
    (Z.lor (Z.lor (Z.lor PINMUX_IO_HV PINMUX_LPDR) PINMUX_PARKED) PINMUX_INPUT_ENABLE));;
  v ← on_bus (rd (PMC APBDEV_PMC_PWR_DET_VAL));
  on_bus (wr (PMC APBDEV_PMC_PWR_DET_VAL) (Z.lor v PMC_PWR_DET_GPIO_IO_EN)).

Definition regulator_5v_disable (dev : Z) : M (rails D) unit :=
  s ← get;
  set_dev (Z.land (reg_5v_dev s) (u8 (Z.lnot dev)));;
  s ← get;
  if c_true (reg_5v_dev s) then mret tt else supply_off.

Definition regulator_5v_get_dev_enabled (dev : Z) : M (rails D) bool :=
  s ← get; mret (c_true (Z.land (reg_5v_dev s) dev)).

Definition regulator_5v_batt_src_enable (enable : bool) : M (rails D) unit :=
  s ← get;
  if enable && negb (batt_src s) then on_bus (gpio_write GPIO_PORT_A GPIO_PIN_5 true)
  else if negb enable && batt_src s then on_bus (gpio_write GPIO_PORT_A GPIO_PIN_5 false)
  else mret tt.

(** *** The fan *)

Definition fan_setup : M (rails D) unit :=
  on_bus (wr (PINMUX_AUX PINMUX_AUX_CAM1_PWDN)
    (Z.lor (Z.lor (Z.lor PINMUX_TRISTATE PINMUX_INPUT_ENABLE) PINMUX_PULL_UP) 1));;
  on_bus (gpio_config GPIO_PORT_S GPIO_PIN_7 true);;
  on_bus (gpio_output_enable GPIO_PORT_S GPIO_PIN_7 false);;
  on_bus (wr (PWM PWM_CONTROLLER_PWM_CSR_1) (Z.lor PWM_CSR_EN (Z.shiftl 0x100 16)));;
  on_bus (wr (PINMUX_AUX PINMUX_AUX_LCD_GPIO2) 1);;
  on_bus (gpio_config GPIO_PORT_V GPIO_PIN_4 false);;
  modify (fun s => Rails (r_dev s) (reg_5v_dev s) (batt_src s) true (curr_duty s)).

Definition set_fan_duty (duty : Z) : M (rails D) unit :=
  s ← get;
  if curr_duty s =? duty then mret tt
  else
    (if fan_init s then mret tt else fan_setup);;
    let duty := if 236 <? duty then 236 else duty in
    let inv_duty := 236 - duty in
    (if inv_duty =? 236 then
       on_bus (wr (PWM PWM_CONTROLLER_PWM_CSR_1) (Z.lor PWM_CSR_EN (Z.shiftl 0x100 16)));;
       regulator_5v_disable REGULATOR_5V_FAN;;
       on_bus (wr (PINMUX_AUX PINMUX_AUX_LCD_GPIO2)
         (Z.lor (Z.lor (Z.lor PINMUX_INPUT_ENABLE PINMUX_PARKED) PINMUX_TRISTATE) PINMUX_PULL_DOWN))
     else
       regulator_5v_enable REGULATOR_5V_FAN;;
       on_bus (wr (PWM PWM_CONTROLLER_PWM_CSR_1) (Z.lor PWM_CSR_EN (Z.shiftl inv_duty 16)));;
       on_bus (wr (PINMUX_AUX PINMUX_AUX_LCD_GPIO2) 1));;
    modify (fun s => Rails (r_dev s) (reg_5v_dev s) (batt_src s) (fan_init s) (u16 duty)).

(** The polls of the tachometer: the loop ends when the timer is read at the
    very microsecond [timer]. *)
Fixpoint fan_poll (n : nat) (timer irq_count : Z) (should_read : bool) : M D Z :=
  match n with
  | O => nofuel
  | S n =>
      t ← get_tmr_us;
      if u32 (timer - t) =? 0 then mret irq_count
      else
        irq_val ← gpio_read GPIO_PORT_S GPIO_PIN_7;
        if c_true irq_val && should_read then fan_poll n timer (irq_count + 1) false
        else if negb (c_true irq_val) then fan_poll n timer irq_count true
        else fan_poll n timer irq_count should_read
  end.

(** [want_rpm] and [want_duty]: the pointers are given. *)
Definition get_fan_speed (fuel : nat) (want_duty want_rpm : bool) : M D (option Z * option Z) :=
  rpm ← (if want_rpm then
           t ← get_tmr_us;
           irq_count ← fan_poll fuel (t + 1000000) 1 true;
           mret (Some (60000000 / (1000000 * 2 / irq_count)))
         else mret None);
  duty ← (if want_duty then
            v ← rd (PWM PWM_CONTROLLER_PWM_CSR_1);
            mret (Some (u32 (236 - Z.land (Z.shiftr v 16) 0xFF)))
          else mret None);
  mret (duty, rpm).
End Rails.

(** ** The temperature sensor *)

Definition TMP451_I2C_ADDR : Z := 0x4C.
Definition TMP451_PCB_TEMP_REG : Z := 0x00.
Definition TMP451_SOC_TEMP_REG : Z := 0x01.
Definition TMP451_CONFIG_REG : Z := 0x09.
Definition TMP451_CNV_RATE_REG : Z := 0x0A.
Definition TMP451_SOC_TMP_DEC_REG : Z := 0x10.
Definition TMP451_SOC_TMP_OFH_REG : Z := 0x11.
Definition TMP451_SOC_TMP_OFL_REG : Z := 0x12.
Definition TMP451_PCB_TMP_DEC_REG : Z := 0x15.

Section Temperature.
Context {D : Type} `{Mmio D} `{I2c D}.

(** A temperature in degrees, or degrees and hundredths in two bytes. *)
Definition tmp451_get_temp (reg dec_reg : Z) (intenger : bool) : M D Z :=
  val ← i2c_recv_byte I2C_1 TMP451_I2C_ADDR reg;
  if intenger then mret val
  else
    let temp := u16 (Z.shiftl val 8) in
    val ← i2c_recv_byte I2C_1 TMP451_I2C_ADDR dec_reg;
    mret (Z.lor temp (Z.shiftr val 4 * 625 / 100)).
Definition tmp451_get_soc_temp : bool -> M D Z := tmp451_get_temp TMP451_SOC_TEMP_REG TMP451_SOC_TMP_DEC_REG.
Definition tmp451_get_pcb_temp : bool -> M D Z := tmp451_get_temp TMP451_PCB_TEMP_REG TMP451_PCB_TMP_DEC_REG.

Definition tmp451_send (reg val : Z) : M D unit :=
  _ ← i2c_send_byte I2C_1 TMP451_I2C_ADDR reg val; mret tt.

Definition tmp451_init : M D unit :=
  tmp451_send TMP451_CONFIG_REG 0x80;;
  chip ← hw_get_chip_id;
  (if chip =? GP_HIDREV_MAJOR_T210 then
     tmp451_send TMP451_SOC_TMP_OFH_REG 0;;
     tmp451_send TMP451_SOC_TMP_OFL_REG 0
   else
     tmp451_send TMP451_SOC_TMP_OFH_REG 0xF3;;
     tmp451_send TMP451_SOC_TMP_OFL_REG 0x80);;
  tmp451_send TMP451_CNV_RATE_REG 9;;
  _ ← tmp451_get_soc_temp false;
  tmp451_send TMP451_CNV_RATE_REG 2.

Definition tmp451_end : M D unit := tmp451_send TMP451_CONFIG_REG 0xC0.
End Temperature.

(** ** The USB-PD controller *)

Definition BM92T36_I2C_ADDR : Z := 0x18.
Definition STATUS1_REG : Z := 0x3.
Definition READ_PDOS_SRC_REG : Z := 0x8.
Definition CURRENT_PDO_REG : Z := 0x28.
Definition STATUS1_INSERT : Z := BIT 7.

(** Amperes in mA and volts. *)
Record usb_pd_object_t := UsbPdObject { amperage : Z; voltage : Z }.
Record usb_pd_objects_t := UsbPdObjects { pdo_no : Z; pdos : list usb_pd_object_t; selected_pdo : usb_pd_object_t }.

(** An object of 32 bits: 10 bits of amperes and 10 bits of volts. *)
Definition pd_object (bytes : list Z) : usb_pd_object_t :=
  let w := le_word bytes in
  UsbPdObject (Z.land w 0x3FF * 10) (Z.land (Z.shiftr w 10) 0x3FF * 50 / 1000).

(** [buf] with its first bytes replaced. *)
Definition overlay (bytes buf : list Z) : list Z := bytes ++ drop (length bytes) buf.

Section PowerDelivery.
Context {D : Type} `{Mmio D} (fuel : nat).

(** The bytes received, over what the array held; the result is not looked at. *)
Definition _bm92t36_read_reg (buf : list Z) (size reg : Z) : M D (list Z) :=
  '(_, bytes) ← i2c_recv_buf_big fuel size I2C_1 BM92T36_I2C_ADDR reg;
  mret (overlay bytes buf).

(** The objects from the [i]-th on; both arrays have seven. *)
Fixpoint get_pdos (n : nat) (i : Z) (words : list Z) : M D (list usb_pd_object_t) :=
  match n with
  | O => mret []
  | S n =>
      if 7 <=? i then overrun
      else
        objs ← get_pdos n (i + 1) words;
        mret (pd_object (take 4 (drop (Z.to_nat (4 * i)) words)) :: objs)
  end.

(** [buf] is what the array on the stack held. *)
Definition bm92t36_get_sink_info (buf : list Z) (want_inserted want_pd : bool) :
    M D (option bool * option usb_pd_objects_t) :=
  '(buf, inserted) ←
    (if want_inserted then
       buf ← _bm92t36_read_reg buf 2 STATUS1_REG;
       mret (buf, Some (c_true (Z.land (nth 0 buf 0) STATUS1_INSERT)))
     else mret (buf, None));
  if want_pd then
    buf ← _bm92t36_read_reg buf 29 READ_PDOS_SRC_REG;
    let no := nth 0 buf 0 / 4 in
    objs ← get_pdos (Z.to_nat no) 0 (take 28 (drop 1 buf));
    buf ← _bm92t36_read_reg buf 5 CURRENT_PDO_REG;
    mret (inserted, Some (UsbPdObjects no (objs ++ replicate (7 - length objs) (UsbPdObject 0 0)) (pd_object (take 4 (drop 1 buf)))))
  else mret (inserted, None).
End PowerDelivery.

(** ** The RAM disk *)

Definition RAM_DISK_ADDR : Z := 0xA4000000.
Definition RAM_DISK_SZ : Z := 0x41000000.
Definition RAMDISK_CLUSTER_SZ : Z := 32768.
Definition FM_EXFAT : Z := 4.

Definition ram_disk_read (m : mem) (sector sector_count buf : Z) : Z * mem :=
  let sector_off := u32 (RAM_DISK_ADDR + u32 (Z.shiftl sector 9)) in
  let bytes_count := u32 (Z.shiftl sector_count 9) in
  if RAM_DISK_SZ <? u32 (sector_off - RAM_DISK_ADDR) then (1, m)
  else (0, memcpy m buf sector_off (Z.to_nat bytes_count)).

Definition ram_disk_write (m : mem) (sector sector_count buf : Z) : Z * mem :=
  let sector_off := u32 (RAM_DISK_ADDR + u32 (Z.shiftl sector 9)) in
  let bytes_count := u32 (Z.shiftl sector_count 9) in
  if RAM_DISK_SZ <? u32 (sector_off - RAM_DISK_ADDR) then (1, m)
  else (0, memcpy m sector_off buf (Z.to_nat bytes_count)).

(** The file system library and the heap are parameters. *)
Section RamDiskInit.
Context {S : Type} (malloc : Z -> M S Z) (free : Z -> M S unit)
  (f_mount : option Z -> Z -> M S Z) (f_mkfs : Z -> Z -> Z -> Z -> M S Z).

Definition ram_disk_init (ram_fs : Z) : M S Z :=
  buf ← malloc 0x400000;
  _ ← f_mount None 1;
  res ← f_mkfs FM_EXFAT RAMDISK_CLUSTER_SZ buf 0x400000;
  res ← (if c_true res then mret res else f_mount (Some ram_fs) 1);
  free buf;;
  mret res.
End RamDiskInit.

(** ** What the regulator does *)

(** A field of a pin, as a register of the port has it. *)
Definition pin (m : bus) (off b : Z) : bool := Z.testbit (default 0 (m !! (GPIO_BASE + off))) b.
(** Both supplies are driven ([b]), or their pins are given back. *)
Definition supply (m : bus) (b : bool) : Prop :=
  pin m (GPIO_CNF_OFFSET GPIO_PORT_A) 5 = b /\ pin m (GPIO_OE_OFFSET GPIO_PORT_A) 5 = b /\
  pin m (GPIO_OUT_OFFSET GPIO_PORT_A) 5 = b /\ pin m (GPIO_CNF_OFFSET GPIO_PORT_CC) 4 = b /\
  pin m (GPIO_OE_OFFSET GPIO_PORT_CC) 4 = b /\ pin m (GPIO_OUT_OFFSET GPIO_PORT_CC) 4 = b.

(** The register that an update leaves. *)
Definition updated (off pins : Z) (b : bool) (m : bus) : bus :=
  let v := default 0 (m !! (GPIO_BASE + off)) in
  <[GPIO_BASE + off := u32 (if b then Z.lor v pins else Z.land v (u32 (Z.lnot pins)))]> m.
Lemma gpio_update_bus off pins b (m : bus) : gpio_update off pins b m = (Ret tt, updated off pins b m).
Proof. reflexivity. Qed.

Lemma u32_low_bit v b : 0 <= b < 32 -> Z.testbit (u32 v) b = Z.testbit v b.
Proof. intros Hb. unfold u32. change 4294967296 with (2 ^ 32). by rewrite Z.mod_pow2_bits_low by lia. Qed.

Lemma pin_updated off b v m : 0 <= b < 32 -> pin (updated off (BIT b) v m) off b = v.
Proof.
  intros Hb. unfold pin, updated. rewrite lookup_insert_eq. cbn [default from_option]. unfold id. rewrite u32_low_bit by done.
  assert (Hp : Z.testbit (BIT b) b = true) by (unfold BIT; rewrite u32_low_bit, Z.shiftl_spec, Z.sub_diag by lia; done).
  destruct v; rewrite ?Z.lor_spec, ?Z.land_spec, ?u32_low_bit, ?Z.lnot_spec, Hp by lia.
  - apply orb_true_r.
  - apply andb_false_r.
Qed.
Lemma pin_updated_ne off off' p b v m : off <> off' -> pin (updated off p v m) off' b = pin m off' b.
Proof. intros Hne. unfold pin, updated. rewrite lookup_insert_ne by lia. done. Qed.
Lemma pin_insert a x off b m : a <> GPIO_BASE + off -> pin (<[a := x]> m) off b = pin m off b.
Proof. intros Hne. unfold pin. by rewrite lookup_insert_ne. Qed.

(** Different addresses, by computation. *)
Ltac differ := let Hd := fresh in intros Hd; vm_compute in Hd; discriminate Hd.
Ltac pins :=
  repeat first [rewrite pin_updated by lia | rewrite pin_updated_ne by differ | rewrite pin_insert by differ].

Lemma on_bus_run {A} (f : M bus A) x m (s : rails bus) : f (r_dev s) = (Ret x, m) ->
  on_bus f s = (Ret x, Rails m (reg_5v_dev s) (batt_src s) (fan_init s) (curr_duty s)).
Proof. intros E. unfold on_bus. by rewrite E. Qed.
Lemma on_bus_gpio {B} off p b (k : unit -> M (rails bus) B) (s : rails bus) :
  (on_bus (gpio_update off p b) ≫= k) s =
  k tt (Rails (updated off p b (r_dev s)) (reg_5v_dev s) (batt_src s) (fan_init s) (curr_duty s)).
Proof. by rewrite (bind_run _ _ _ _ _ (on_bus_run _ _ _ _ (gpio_update_bus off p b (r_dev s)))). Qed.
Lemma on_bus_wr {B} a v (k : unit -> M (rails bus) B) (s : rails bus) :
  (on_bus (wr a v) ≫= k) s = k tt (Rails (<[a := u32 v]> (r_dev s)) (reg_5v_dev s) (batt_src s) (fan_init s) (curr_duty s)).
Proof. done. Qed.
Lemma on_bus_rd {B} a (k : Z -> M (rails bus) B) (s : rails bus) :
  (on_bus (rd a) ≫= k) s = k (default 0 (r_dev s !! a)) s.
Proof. by destruct s. Qed.
Lemma set_batt_src_then {B} b (k : unit -> M (rails bus) B) (s : rails bus) :
  (set_batt_src b ≫= k) s = k tt (Rails (r_dev s) (reg_5v_dev s) b (fan_init s) (curr_duty s)).
Proof. done. Qed.

Ltac bus_steps :=
  unfold gpio_config, gpio_output_enable, gpio_write;
  repeat (first [rewrite on_bus_gpio | rewrite on_bus_wr | rewrite on_bus_rd | rewrite set_batt_src_then];
          cbn [r_dev reg_5v_dev batt_src fan_init curr_duty]).

Lemma supply_on_run (s : rails bus) : exists m,
  supply_on s = (Ret tt, Rails m (reg_5v_dev s) true (fan_init s) (curr_duty s)) /\ supply m true.
Proof.
  unfold supply_on. bus_steps. eexists. split; [reflexivity|]. cbn [r_dev wr32 bus_mmio].
  unfold supply, GPIO_PIN_4, GPIO_PIN_5. split_and!; pins; done.
Qed.
Lemma supply_off_run (s : rails bus) : exists m,
  supply_off s = (Ret tt, Rails m (reg_5v_dev s) false (fan_init s) (curr_duty s)) /\ supply m false.
Proof.
  unfold supply_off. bus_steps. eexists. split; [reflexivity|]. cbn [r_dev wr32 bus_mmio].
  unfold supply, GPIO_PIN_4, GPIO_PIN_5. split_and!; pins; done.
Qed.

Inductive rail_op := Enable (dev : Z) | Disable (dev : Z).
Definition op_ok (o : rail_op) : Prop := match o with Enable d => 0 < d < 256 | Disable d => 0 <= d < 256 end.
Definition run_op (o : rail_op) : M (rails bus) unit :=
  match o with Enable d => regulator_5v_enable d | Disable d => regulator_5v_disable d end.
(** The devices that are in use, after an operation. *)
Definition devices (o : rail_op) (v : Z) : Z :=
  match o with Enable d => Z.lor v d | Disable d => Z.ldiff v d end.

(** The statics agree with the pins. *)
Definition rails_ok (s : rails bus) : Prop :=
  0 <= reg_5v_dev s < 256 /\ batt_src s = c_true (reg_5v_dev s) /\
  (c_true (reg_5v_dev s) = true -> supply (r_dev s) true).

Lemma byte_mask a b : 0 <= a < 256 -> Z.land a (u8 (Z.lnot b)) = Z.ldiff a b /\ 0 <= Z.ldiff a b < 256.
Proof.
  intros Ha.
  assert (Hhi : forall i, 8 <= i -> Z.testbit a i = false).
  { intros i Hi. rewrite <- (Z.mod_small a (2 ^ 8)), Z.mod_pow2_bits_high by lia. done. }
  assert (Hd : Z.ldiff a b = Z.ldiff a b mod 2 ^ 8).
  { apply Z.bits_inj'. intros i Hi. destruct (Z.lt_ge_cases i 8); [by rewrite Z.mod_pow2_bits_low|].
    rewrite Z.mod_pow2_bits_high, Z.ldiff_spec, Hhi by lia. done. }
  split; [|rewrite Hd; apply Z.mod_pos_bound; lia].
  apply Z.bits_inj'. intros i Hi. rewrite Z.land_spec, Z.ldiff_spec. unfold u8. change 256 with (2 ^ 8).
  destruct (Z.lt_ge_cases i 8); [by rewrite Z.mod_pow2_bits_low, Z.lnot_spec by lia|]. by rewrite Hhi by lia.
Qed.

Lemma run_op_ok o s : op_ok o -> rails_ok s -> exists s',
  run_op o s = (Ret tt, s') /\ reg_5v_dev s' = devices o (reg_5v_dev s) /\ rails_ok s' /\
  supply (r_dev s') (c_true (reg_5v_dev s')).
Proof.
  intros Ho (Hr & Hb & Hs). destruct o as [dev|dev]; cbn [run_op devices op_ok] in *.
  - assert (Hlor : c_true (Z.lor (reg_5v_dev s) dev) = true /\ 0 <= Z.lor (reg_5v_dev s) dev < 256).
    { split; [|apply (lor_bound 8); lia]. apply negb_true_iff, Z.eqb_neq. intros E%Z.lor_eq_0_iff. lia. }
    destruct Hlor as [Hc Hlor]. unfold regulator_5v_enable, mbind at 1, M_bind at 1. cbn [get].
    destruct (c_true (reg_5v_dev s)) eqn:Ec.
    + eexists. split; [reflexivity|]. cbn [reg_5v_dev r_dev batt_src]. rewrite Hc. split; [reflexivity|]. split; [|exact (Hs eq_refl)].
      split; [exact Hlor|]. cbn [reg_5v_dev r_dev batt_src]. rewrite Hc. split; [exact Hb|exact (fun _ => Hs eq_refl)].
    + destruct (supply_on_run s) as (m & E & Hm). rewrite (bind_run _ _ _ _ _ E). eexists. split; [reflexivity|].
      cbn [reg_5v_dev r_dev batt_src]. rewrite Hc. split; [reflexivity|]. split; [|exact Hm].
      split; [exact Hlor|]. cbn [reg_5v_dev r_dev batt_src]. rewrite Hc. split; [reflexivity|exact (fun _ => Hm)].
  - destruct (byte_mask (reg_5v_dev s) dev Hr) as [El Hl]. unfold regulator_5v_disable. unfold mbind at 1, M_bind at 1. cbn [get].
    unfold mbind at 1, M_bind at 1, set_dev, modify. unfold mbind, M_bind. cbn [get reg_5v_dev]. rewrite El.
    destruct (c_true (Z.ldiff (reg_5v_dev s) dev)) eqn:Ec.
    + eexists. split; [reflexivity|]. cbn [reg_5v_dev r_dev batt_src]. rewrite Ec. split; [reflexivity|].
      assert (Hold : c_true (reg_5v_dev s) = true).
      { apply negb_true_iff, Z.eqb_neq. intros Ez. rewrite Ez in Ec. discriminate. }
      split; [|exact (Hs Hold)]. split; [exact Hl|]. cbn [reg_5v_dev r_dev batt_src]. rewrite Ec.
      split; [congruence|exact (fun _ => Hs Hold)].
    + destruct (supply_off_run (Rails (r_dev s) (Z.ldiff (reg_5v_dev s) dev) (batt_src s) (fan_init s) (curr_duty s))) as (m & E & Hm).
      eexists. split; [exact E|]. cbn [reg_5v_dev r_dev batt_src]. rewrite Ec. split; [reflexivity|]. split; [|exact Hm].
      split; [exact Hl|]. cbn [reg_5v_dev r_dev batt_src]. rewrite Ec. split; [reflexivity|discriminate].
Qed.

Fixpoint run_ops (ops : list rail_op) : M (rails bus) unit :=
  match ops with [] => mret tt | o :: ops => run_op o;; run_ops ops end.

Lemma run_ops_ok ops : forall s, Forall op_ok ops -> rails_ok s -> (ops = [] -> supply (r_dev s) (c_true (reg_5v_dev s))) ->
  exists s', run_ops ops s = (Ret tt, s') /\ reg_5v_dev s' = fold_left (fun v o => devices o v) ops (reg_5v_dev s) /\
    supply (r_dev s') (c_true (reg_5v_dev s')).
Proof.
  induction ops as [|o ops IH]; intros s Ho Hs Hn; [exists s; auto|]. inversion_clear Ho as [|? ? H1 H2].
  destruct (run_op_ok o s H1 Hs) as (s1 & E1 & Hd & Hs1 & Hp1). destruct (IH s1 H2 Hs1 (fun _ => Hp1)) as (s2 & E2 & Hd2 & Hp2).
  exists s2. cbn [run_ops fold_left]. rewrite (bind_run _ _ _ _ _ E1), <- Hd. auto.
Qed.

(** The regulator follows the set of devices that use it: after any
    sequence of [regulator_5v_enable] and [regulator_5v_disable], from the
    start, [reg_5v_dev] holds the devices that were enabled and not disabled
    since, and both supplies are driven if there is one, and their pins are
    given back if there is none. *)
Theorem regulator_follows_devices ops (s : rails bus) :
  Forall op_ok ops -> ops <> [] -> reg_5v_dev s = 0 -> batt_src s = false ->
  exists s', run_ops ops s = (Ret tt, s') /\ reg_5v_dev s' = fold_left (fun v o => devices o v) ops 0 /\
    supply (r_dev s') (c_true (reg_5v_dev s')).
Proof.
  intros Ho Hn Hr Hb. destruct (run_ops_ok ops s Ho) as (s' & E & Hd & Hp); [|done|].
  - unfold rails_ok. rewrite Hr, Hb. split; [lia|]. split; [reflexivity|discriminate].
  - exists s'. rewrite Hr in Hd. auto.
Qed.

Lemma regulator_follows_devices_witness :
  exists s', run_ops [Enable 1; Enable 2; Disable 1; Disable 2] (Rails ∅ 0 false false 0) = (Ret tt, s') /\
    reg_5v_dev s' = 0 /\ supply (r_dev s') false.
Proof.
  destruct (regulator_follows_devices [Enable 1; Enable 2; Disable 1; Disable 2] (Rails ∅ 0 false false 0))
    as (s' & E & Hd & Hp); [repeat constructor; cbn; lia|discriminate|reflexivity|reflexivity|].
  exists s'. split; [exact E|]. split; [exact Hd|]. rewrite Hd in Hp. exact Hp.
Defined.

(** *** The battery supply cannot be switched back on *)

(** [regulator_5v_batt_src_enable] does not record what it did: after it has
    switched the supply off, the next call to switch it on does nothing. *)
Lemma batt_src_stuck (s : rails bus) : batt_src s = true -> exists s',
  (regulator_5v_batt_src_enable false;; regulator_5v_batt_src_enable true) s = (Ret tt, s') /\
  pin (r_dev s') (GPIO_OUT_OFFSET GPIO_PORT_A) 5 = false.
Proof.
  intros Hb. unfold regulator_5v_batt_src_enable, mbind, M_bind. cbn [get]. rewrite Hb. cbn [andb negb].
  unfold gpio_write. rewrite (on_bus_run _ _ _ _ (gpio_update_bus _ _ _ _)). cbn [get batt_src r_dev]. rewrite Hb.
  cbn [andb negb]. eexists. split; [reflexivity|]. cbn [r_dev].
  unfold GPIO_PIN_5. by pins.
Qed.

(** *** The fan *)

Definition pwm (s : rails bus) : Z := default 0 (r_dev s !! PWM PWM_CONTROLLER_PWM_CSR_1).

(** Registers that an operation on the pins of the supplies leaves alone. *)
Lemma pwm_off (s : rails bus) m : supply_off s = (Ret tt, m) -> pwm m = pwm s.
Proof.
  unfold supply_off. bus_steps. intros E. injection E as <-. unfold pwm. cbn [r_dev wr32 bus_mmio]. unfold updated.
  rewrite !lookup_insert_ne by differ. done.
Qed.

Lemma fan_setup_run (s : rails bus) : exists m,
  fan_setup s = (Ret tt, Rails m (reg_5v_dev s) (batt_src s) true (curr_duty s)).
Proof. unfold fan_setup. bus_steps. by eexists. Qed.
Lemma enable_run dev (s : rails bus) : exists s', regulator_5v_enable dev s = (Ret tt, s').
Proof.
  unfold regulator_5v_enable, mbind at 1, M_bind at 1. cbn [get]. destruct (c_true _); [by eexists|].
  destruct (supply_on_run s) as (m & E & _). rewrite (bind_run _ _ _ _ _ E). by eexists.
Qed.
Lemma disable_run dev (s : rails bus) : exists s', regulator_5v_disable dev s = (Ret tt, s') /\ pwm s' = pwm s.
Proof.
  unfold regulator_5v_disable. unfold mbind, M_bind. cbn [get]. unfold set_dev, modify.
  cbn [reg_5v_dev r_dev batt_src fan_init curr_duty]. destruct (c_true _); [by eexists|].
  set (s0 := Rails _ _ _ _ _). destruct (supply_off_run s0) as (m & E & _). eexists. split; [exact E|].
  exact (pwm_off _ _ E).
Qed.

(** The register for a duty; fully off has a bit of its own. *)
Definition pwm_word (duty : Z) : Z :=
  u32 (Z.lor PWM_CSR_EN (Z.shiftl (if duty =? 0 then 0x100 else 236 - Z.min duty 236) 16)).

Lemma set_fan_duty_run duty (s : rails bus) : 0 <= duty -> curr_duty s <> duty ->
  exists s', set_fan_duty duty s = (Ret tt, s') /\ pwm s' = pwm_word duty /\ curr_duty s' = Z.min duty 236.
Proof.
  intros Hd Hne. unfold set_fan_duty, mbind at 1, M_bind at 1. cbn [get]. rewrite (proj2 (Z.eqb_neq _ _) Hne).
  assert (Hs : exists s1, (if fan_init s then mret tt else fan_setup) s = (Ret tt, s1)).
  { destruct (fan_init s); [by eexists|]. destruct (fan_setup_run s) as [m E]. by eexists. }
  destruct Hs as [s1 E1]. rewrite (bind_run _ _ _ _ _ E1). cbv zeta.
  replace (if 236 <? duty then 236 else duty) with (Z.min duty 236) by (destruct (Z.ltb_spec 236 duty); lia).
  assert (Hu : u16 (Z.min duty 236) = Z.min duty 236) by (apply u16_id; lia). unfold pwm_word.
  destruct (Z.eqb_spec (236 - Z.min duty 236) 236), (Z.eqb_spec duty 0); try lia.
  - rewrite bind_assoc, on_bus_wr, bind_assoc. set (s2 := Rails _ _ _ _ _).
    destruct (disable_run REGULATOR_5V_FAN s2) as (s3 & E3 & P3). rewrite (bind_run _ _ _ _ _ E3), on_bus_wr.
    eexists. split; [reflexivity|]. split; [|exact Hu]. unfold pwm. cbn [r_dev]. rewrite lookup_insert_ne by differ.
    fold (pwm s3). rewrite P3. unfold pwm, s2. cbn [r_dev]. by rewrite lookup_insert_eq.
  - rewrite bind_assoc. destruct (enable_run REGULATOR_5V_FAN s1) as (s3 & E3). rewrite (bind_run _ _ _ _ _ E3).
    rewrite bind_assoc, on_bus_wr, on_bus_wr. eexists. split; [reflexivity|]. split; [|exact Hu].
    unfold pwm. cbn [r_dev]. rewrite lookup_insert_ne by differ. by rewrite lookup_insert_eq.
Qed.

Lemma pwm_word_duty duty : 0 <= duty ->
  u32 (236 - Z.land (Z.shiftr (pwm_word duty) 16) 0xFF) = if duty =? 0 then 236 else Z.min duty 236.
Proof.
  intros Hd. unfold pwm_word. destruct (Z.eqb_spec duty 0) as [->|Hn]; [reflexivity|].
  set (k := 236 - Z.min duty 236). replace (Z.min duty 236) with (236 - k) by lia. assert (Hk : 0 <= k < 236) by lia. clearbody k.
  assert (Hall : forallb (fun i => let k := Z.of_nat i in
    u32 (236 - Z.land (Z.shiftr (u32 (Z.lor PWM_CSR_EN (Z.shiftl k 16))) 16) 0xFF) =? 236 - k) (seq 0 236) = true)
    by (vm_compute; reflexivity).
  rewrite forallb_forall in Hall. specialize (Hall (Z.to_nat k)). cbv zeta in Hall. rewrite Z2Nat.id in Hall by lia.
  apply Z.eqb_eq, Hall, in_seq. lia.
Qed.

(** The duty that [get_fan_speed] reports is the one that was set, except that
    a fan that is off is reported as running at full speed. *)
Lemma fan_duty_read_back fuel duty (s : rails bus) : 0 <= duty -> curr_duty s <> duty ->
  exists s', set_fan_duty duty s = (Ret tt, s') /\
    fst (get_fan_speed fuel true false (r_dev s')) = Ret (Some (if duty =? 0 then 236 else Z.min duty 236), None).
Proof.
  intros Hd Hne. destruct (set_fan_duty_run duty s Hd Hne) as (s' & E & P & _). exists s'. split; [exact E|].
  rewrite <- pwm_word_duty, <- P by done. reflexivity.
Qed.

(** The polls end only at a reading of the timer that hits the microsecond: a
    timer that is never read then keeps the loop going. *)
Lemma fan_poll_misses {D} `{Mmio D} (P : D -> Prop) timer :
  (forall d, P d -> u32 (timer - fst (tmr_us d)) <> 0 /\ P (snd (tmr_us d))) ->
  (forall a d, P d -> P (snd (rd32 a d))) ->
  forall n c b d, P d -> fst (fan_poll n timer c b d) = NoFuel.
Proof.
  intros Ht Hr n. induction n as [|n IH]; intros c b d Hd; [done|]. cbn [fan_poll].
  destruct (Ht d Hd) as [Hne Hp]. unfold mbind at 1, M_bind at 1, get_tmr_us.
  destruct (tmr_us d) as [t d1]. cbn [fst snd] in *. rewrite (proj2 (Z.eqb_neq _ _) Hne).
  unfold mbind, M_bind, gpio_read, rd. pose proof (Hr (GPIO_BASE + GPIO_IN_OFFSET GPIO_PORT_S) d1 Hp) as Hp2.
  unfold mbind, M_bind. destruct (rd32 _ d1) as [v d2]. cbn [snd] in Hp2. cbn.
  destruct (_ && _); [by apply IH|]. destruct (negb _); by apply IH.
Qed.

(** ** The USB-PD controller *)

(** More than seven objects overrun the arrays. *)
Lemma get_pdos_run {D} `{Mmio D} n : forall i words (d : D), 0 <= i ->
  (exists objs, get_pdos n i words d = (Ret objs, d) /\ length objs = n /\ (n = Datatypes.O \/ i + Z.of_nat n <= 7)) \/
  (get_pdos n i words d = (Overrun, d) /\ 7 < i + Z.of_nat n).
Proof.
  induction n as [|n IH]; intros i words d Hi; [left; exists []; auto|]. cbn [get_pdos].
  destruct (Z.leb_spec 7 i); [right; split; [done|lia]|].
  destruct (IH (i + 1) words d) as [(objs & E & L & Hn)|[E Hn]]; [lia|left|right].
  - rewrite (bind_run _ _ _ _ _ E). eexists. split; [reflexivity|]. cbn [length]. split; [by rewrite L|].
    right. destruct Hn as [->|]; lia.
  - unfold mbind, M_bind. rewrite E. split; [done|lia].
Qed.

(** ** The RAM disk *)

(** Sectors written to the RAM disk are the ones read back from there, and
    a write to sectors of the disk changes nothing outside them.  The buffers
    are outside the disk. *)
Theorem ram_disk_roundtrip m sector count buf out :
  0 <= sector -> 0 < count -> (sector + count) * 512 <= RAM_DISK_SZ ->
  0 <= buf -> buf + 512 * count <= RAM_DISK_ADDR -> 0 <= out -> out + 512 * count <= RAM_DISK_ADDR ->
  let '(r1, m1) := ram_disk_write m sector count buf in
  let '(r2, m2) := ram_disk_read m1 sector count out in
  r1 = 0 /\ r2 = 0 /\
  (forall i, 0 <= i < 512 * count -> ld8 m2 (out + i) = ld8 m (buf + i)) /\
  (forall x, ~ (RAM_DISK_ADDR + 512 * sector <= x < RAM_DISK_ADDR + 512 * (sector + count)) -> ld8 m1 x = ld8 m x).
Proof.
  intros Hs Hc Hz Hb Hb2 Ho Ho2. unfold ram_disk_write, ram_disk_read. unfold RAM_DISK_SZ, RAM_DISK_ADDR in *.
  rewrite !Z.shiftl_mul_pow2 by lia. change (2 ^ 9) with 512.
  rewrite !(u32_id (sector * 512)), !(u32_id (count * 512)), !(u32_id (_ + sector * 512)) by lia.
  replace (0xA4000000 + sector * 512 - 0xA4000000) with (sector * 512) by lia. rewrite u32_id by lia.
  destruct (Z.ltb_spec 0x41000000 (sector * 512)); [lia|]. split; [done|]. split; [done|]. split.
  - intros i Hi. rewrite ld8_memcpy, ld8_memcpy by lia. done.
  - intros x Hx. apply ld8_memcpy_ne. lia.
Qed.

Lemma ram_disk_roundtrip_witness :
  let '(r1, m1) := ram_disk_write (st8 ∅ 0x1000 7) 3 1 0x1000 in
  let '(r2, m2) := ram_disk_read m1 3 1 0x2000 in
  r1 = 0 /\ r2 = 0 /\ ld8 m2 0x2000 = 7.
Proof.
  pose proof (ram_disk_roundtrip (st8 ∅ 0x1000 7) 3 1 0x1000 0x2000 ltac:(lia) ltac:(lia) ltac:(vm_compute; congruence)
    ltac:(lia) ltac:(vm_compute; congruence) ltac:(lia) ltac:(vm_compute; congruence)) as Hr.
  destruct (ram_disk_write _ _ _ _) as [r1 m1]. destruct (ram_disk_read _ _ _ _) as [r2 m2].
  destruct Hr as (-> & -> & Hd & _). split; [reflexivity|]. split; [reflexivity|].
  pose proof (Hd 0 ltac:(lia)) as H0. rewrite !Z.add_0_r in H0. rewrite H0. reflexivity.
Defined.

(** The number of sectors is not part of the check, nor is the first sector
    behind the disk refused. *)
Lemma ram_disk_write_past_end m buf v :
  fst (ram_disk_write m (RAM_DISK_SZ / 512) 1 buf) = 0 /\
  (0 <= buf -> buf + 512 <= RAM_DISK_ADDR -> ld8 m buf = v ->
    ld8 (snd (ram_disk_write m (RAM_DISK_SZ / 512) 1 buf)) (RAM_DISK_ADDR + RAM_DISK_SZ) = v).
Proof.
  split; [reflexivity|]. intros Hb Hb2 Hv. unfold ram_disk_write. cbn [snd].
  change (RAM_DISK_SZ <? _) with false. cbn [snd].
  change (u32 (RAM_DISK_ADDR + u32 (Z.shiftl (RAM_DISK_SZ / 512) 9))) with (RAM_DISK_ADDR + RAM_DISK_SZ).
  change (Z.to_nat (u32 (Z.shiftl 1 9))) with 512%nat. unfold RAM_DISK_ADDR, RAM_DISK_SZ in *.
  pose proof (ld8_memcpy m (0xA4000000 + 0x41000000) buf 512 0) as Hm. rewrite !Z.add_0_r in Hm. rewrite Hm by lia. done.
Qed.
