(* ===== verification/Uart.v ===== *)
(** * Uart

    bdk/soc/uart.c: the serial ports, over memory mapped registers, and
    [pinmux_config_uart] of bdk/soc/pinmux.c. *)

From S2P Require Import Prelude Mem I2c Clock.
#[local] Open Scope Z_scope.

Definition UART_BASE : Z := 0x70006000.
Definition uart_baseoff : list Z := [0; 0x40; 0x200; 0x300; 0x400].
Definition UART_B : Z := 1.
Definition UART_C : Z := 2.
Definition UART_TX_IDLE : Z := 0x1.
Definition UART_RX_IDLE : Z := 0x2.
Definition UART_INVERT_TXD : Z := 0x02.
Definition UART_IER_DLAB_IE_EORD : Z := 0x20.
Definition UART_LCR_DLAB : Z := 0x80.
Definition UART_LCR_WORD_LENGTH_8 : Z := 0x3.
Definition UART_LSR_RDR : Z := 0x1.
Definition UART_LSR_THRE : Z := 0x20.
Definition UART_LSR_TMTY : Z := 0x40.
Definition UART_IIR_FCR_TX_CLR : Z := 0x4.
Definition UART_IIR_FCR_RX_CLR : Z := 0x2.
Definition UART_IIR_FCR_EN_FIFO : Z := 0x1.

(** The members of [uart_t]. *)
Definition UART_THR_DLAB : Z := 0x00.
Definition UART_IER_DLAB : Z := 0x04.
Definition UART_IIR_FCR : Z := 0x08.
Definition UART_LCR : Z := 0x0C.
Definition UART_MCR : Z := 0x10.
Definition UART_LSR : Z := 0x14.
Definition UART_SPR : Z := 0x1C.
Definition UART_IRDA_CSR : Z := 0x20.

Section Uart.
Context {D : Type} `{Mmio D} (fuel : nat).

(** A member of a port; an index outside the table is an access outside it. *)
Definition uart_reg (idx off : Z) : M D Z :=
  match uart_baseoff !! Z.to_nat idx with
  | Some b => mret (UART_BASE + b + off)
  | None => overrun
  end.
Definition urd (idx off : Z) : M D Z := a ← uart_reg idx off; rd a.
Definition uwr (idx off v : Z) : M D unit := a ← uart_reg idx off; wr a v.

(** Wait until the bits of the line status are set ([b]) or clear. *)
Fixpoint lsr_wait (n : nat) (idx bits : Z) (b : bool) : M D unit :=
  match n with
  | O => nofuel
  | S n =>
      v ← urd idx UART_LSR;
      if Bool.eqb (c_true (Z.land v bits)) b then mret tt else lsr_wait n idx bits b
  end.

Definition uart_wait_idle (idx which : Z) : M D unit :=
  (if c_true (Z.land UART_TX_IDLE which) then lsr_wait fuel idx UART_LSR_TMTY true else mret tt);;
  if c_true (Z.land UART_RX_IDLE which) then lsr_wait fuel idx UART_LSR_RDR false else mret tt.

Definition uart_init (idx baud : Z) : M D unit :=
  uart_wait_idle idx UART_TX_IDLE;;
  clk_type ← clock_uart_use_src_div idx baud;
  let div := if c_true clk_type then u32 (u32 (8 * baud) + 408000000) / u32 (16 * baud) else 1 in
  uwr idx UART_IER_DLAB 0;;
  uwr idx UART_LCR (Z.lor UART_LCR_DLAB UART_LCR_WORD_LENGTH_8);;
  uwr idx UART_THR_DLAB (u8 div);;
  uwr idx UART_IER_DLAB (u8 (Z.shiftr div 8));;
  uwr idx UART_LCR UART_LCR_WORD_LENGTH_8;;
  urd idx UART_SPR;;
  uwr idx UART_IIR_FCR UART_IIR_FCR_EN_FIFO;;
  urd idx UART_SPR;;
  usleep 20;;
  uwr idx UART_MCR 0;;
  usleep 96;;
  uwr idx UART_IIR_FCR (Z.lor (Z.lor UART_IIR_FCR_EN_FIFO UART_IIR_FCR_TX_CLR) UART_IIR_FCR_RX_CLR);;
  usleep (u32 (3 * (u32 (baud + 999999) / baud)));;
  uart_wait_idle idx (Z.lor UART_TX_IDLE UART_RX_IDLE).

Fixpoint uart_send (idx : Z) (buf : list Z) : M D unit :=
  match buf with
  | [] => mret tt
  | b :: buf =>
      lsr_wait fuel idx UART_LSR_THRE true;;
      uwr idx UART_THR_DLAB b;;
      uart_send idx buf
  end.

(** The inner loop of [uart_recv]: until data is ready, the time is over, or
    more than [len] bytes have been stored. *)
Fixpoint recv_wait (n : nat) (idx timeout i len : Z) : M D unit :=
  match n with
  | O => nofuel
  | S n =>
      v ← urd idx UART_LSR;
      if c_true (Z.land v UART_LSR_RDR) then mret tt
      else
        t ← get_tmr_us;
        if timeout <? t then mret tt
        else if c_true len && (len <? i) then mret tt
        else recv_wait n idx timeout i len
  end.

(** The outer loop; [buf] is the array that is filled. *)
Fixpoint recv_loop (n : nat) (idx timeout i len : Z) (buf : list Z) : M D (Z * list Z) :=
  match n with
  | O => nofuel
  | S n =>
      recv_wait fuel idx timeout i len;;
      t ← get_tmr_us;
      if timeout <? t then mret (i, buf)
      else
        v ← urd idx UART_THR_DLAB;
        if i <? Z.of_nat (length buf) then
          t ← get_tmr_us;
          recv_loop n idx (u32 (t + 250)) (i + 1) len (<[Z.to_nat i := u8 v]> buf)
        else overrun
  end.

Definition uart_recv (idx : Z) (buf : list Z) (len : Z) : M D (Z * list Z) :=
  t ← get_tmr_us;
  '(i, buf) ← recv_loop fuel idx (u32 (t + 250)) 0 len buf;
  mret (if c_true i then (if c_true len then i - 1 else i) else 0, buf).

Definition uart_invert (idx : Z) (enable : bool) (invert_mask : Z) : M D unit :=
  v ← urd idx UART_IRDA_CSR;
  uwr idx UART_IRDA_CSR (if enable then Z.lor v invert_mask else Z.land v (Z.lnot invert_mask));;
  urd idx UART_SPR;;
  mret tt.

Definition uart_get_IIR (idx : Z) : M D Z := urd idx UART_IIR_FCR.

Definition uart_set_IIR (idx : Z) : M D unit :=
  v ← urd idx UART_IER_DLAB;
  uwr idx UART_IER_DLAB (Z.land v (Z.lnot UART_IER_DLAB_IE_EORD));;
  urd idx UART_SPR;;
  v ← urd idx UART_IER_DLAB;
  uwr idx UART_IER_DLAB (Z.lor v UART_IER_DLAB_IE_EORD);;
  urd idx UART_SPR;;
  mret tt.

(** At most ten polls while [test] holds of the line status. *)
Fixpoint fifo_polls (n : nat) (idx : Z) (test : Z -> bool) : M D unit :=
  match n with
  | O => mret tt
  | S n => v ← urd idx UART_LSR; if test v then usleep 100;; fifo_polls n idx test else mret tt
  end.

Definition uart_empty_fifo (idx which : Z) : M D unit :=
  uwr idx UART_MCR 0;;
  urd idx UART_SPR;;
  usleep 96;;
  uwr idx UART_IIR_FCR (Z.lor (Z.lor UART_IIR_FCR_EN_FIFO UART_IIR_FCR_TX_CLR) UART_IIR_FCR_RX_CLR);;
  urd idx UART_SPR;;
  usleep 18;;
  (if c_true (Z.land UART_IIR_FCR_TX_CLR which)
   then fifo_polls 10 idx (fun v => c_true (Z.land v UART_LSR_TMTY)) else mret tt);;
  if c_true (Z.land UART_IIR_FCR_RX_CLR which)
  then fifo_polls 10 idx (fun v => c_true (Z.land (c_bool (v =? 0)) UART_LSR_RDR)) else mret tt.

Definition pinmux_config_uart (idx : Z) : M D unit :=
  wr (0x70003000 + (0xE4 + 0x10 * idx)) 0;;
  wr (0x70003000 + (0xE8 + 0x10 * idx)) (Z.lor (BIT 6) (Z.shiftl 2 2));;
  wr (0x70003000 + (0xEC + 0x10 * idx)) 0;;
  wr (0x70003000 + (0xF0 + 0x10 * idx)) (Z.lor (BIT 6) (Z.shiftl 1 2)).
End Uart.

(** ** Reception *)

(** A port whose sender has a packet under way: the bytes that follow each
    other without a pause.  Accesses take at most fifty microseconds. *)
Class UartLine (D : Type) `{Ticking D} (base : Z) := {
  pending : D -> list Z;
  line_lsr d : let '(v, d') := rd32 (base + UART_LSR) d in
    c_true (Z.land v UART_LSR_RDR) = negb (bool_decide (pending d = [])) /\ pending d' = pending d;
  line_thr d b bs : pending d = b :: bs -> let '(v, d') := rd32 (base + UART_THR_DLAB) d in u8 v = b /\ pending d' = bs;
  line_thr_empty d : pending d = [] -> pending (snd (rd32 (base + UART_THR_DLAB) d)) = [];
  line_tmr d : pending (snd (tmr_us d)) = pending d;
  line_quick_rd a d : now (snd (rd32 a d)) <= now d + 50;
  line_quick_tmr d : now (snd (tmr_us d)) <= now d + 50
}.

Section Reception.
Context {D : Type} (idx base : Z) `{UartLine D base} (fuel : nat).
Hypothesis Hport : uart_baseoff !! Z.to_nat idx = Some (base - UART_BASE).
Hypothesis Hfuel : (300 <= fuel)%nat.

Lemma urd_run off d : urd idx off d = (Ret (fst (rd32 (base + off) d)), snd (rd32 (base + off) d)).
Proof.
  unfold urd, uart_reg. rewrite Hport. unfold mbind, M_bind, mret, M_ret, rd.
  replace (UART_BASE + (base - UART_BASE) + off) with (base + off) by lia. by destruct (rd32 _ d).
Qed.
Lemma tmr_run d : get_tmr_us d = (Ret (fst (tmr_us d)), snd (tmr_us d)).
Proof. unfold get_tmr_us. by destruct (tmr_us d). Qed.

(** Data is there at once. *)
Lemma recv_wait_ready n timeout i len d : (0 < n)%nat -> pending d <> [] -> exists d',
  recv_wait n idx timeout i len d = (Ret tt, d') /\ pending d' = pending d /\ now d <= now d' <= now d + 100.
Proof.
  intros Hn Hp. destruct n as [|n]; [lia|]. cbn [recv_wait]. rewrite (bind_run _ _ _ _ _ (urd_run _ d)).
  pose proof (line_lsr d) as Hl. pose proof (tick_rd (base + UART_LSR) d) as Ht. destruct (rd32 _ d) as [v d']. cbn [fst snd] in *.
  destruct Hl as [Hv Hp']. rewrite Hv, bool_decide_eq_false_2 by done. by exists d'.
Qed.
(** Without data, the wait ends when the time is over. *)
Lemma recv_wait_silent n : forall timeout i len d, pending d = [] -> (len = 0 \/ i <= len) ->
  0 <= now d <= timeout + 100 -> timeout + 200 < 4294967296 -> Z.max 0 (timeout - now d + 1) < Z.of_nat n ->
  exists d', recv_wait n idx timeout i len d = (Ret tt, d') /\ pending d' = [] /\ timeout < now d' <= timeout + 300.
Proof.
  induction n as [|n IH]; intros timeout i len d Hp Hlen Hn Ht Hf; [lia|]. cbn [recv_wait].
  rewrite (bind_run _ _ _ _ _ (urd_run _ d)).
  pose proof (line_lsr d) as Hl. pose proof (tick_rd (base + UART_LSR) d) as Htr. destruct (rd32 _ d) as [v d1]. cbn [fst snd] in *.
  destruct Hl as [Hv Hp1]. rewrite Hv, bool_decide_eq_true_2 by done. cbn [negb].
  rewrite (bind_run _ _ _ _ _ (tmr_run d1)). destruct (tick_us d1) as [Ev Hs]. pose proof (line_tmr d1) as Hp2. rewrite Ev, u32_id by lia.
  destruct (Z.ltb_spec timeout (now d1)).
  - eexists. split; [reflexivity|]. split; [congruence|]. lia.
  - replace (c_true len && (len <? i)) with false
      by (symmetry; unfold c_true; destruct (Z.eqb_spec len 0); [done|]; apply Z.ltb_ge; lia). apply IH; [congruence|lia..].
Qed.

(** How many bytes of a packet can be received: all that the buffer holds, up to
    the limit [len] if there is one. *)
Definition recv_limit (len : Z) (buf : list Z) : Z :=
  if c_true len then Z.min len (Z.of_nat (length buf)) else Z.of_nat (length buf).

(** The bytes [bs] arrive from position [i] on, and all can be received. *)
Lemma recv_loop_run len bs : forall n i timeout buf d,
  pending d = bs -> 0 <= i -> i + Z.of_nat (length bs) <= recv_limit len buf ->
  0 <= now d <= timeout - 150 -> timeout <= now d + 250 ->
  now d + 1000 * (Z.of_nat (length bs) + 1) < 4294967296 -> (length bs < n)%nat ->
  exists d', recv_loop fuel n idx timeout i len buf d =
    (Ret (i + Z.of_nat (length bs), take (Z.to_nat i) buf ++ bs ++ drop (Z.to_nat i + length bs) buf), d') /\ pending d' = [].
Proof.
  induction bs as [|b bs IH]; intros n i timeout buf d Hp Hi Hlen Hn Ht Hmax Hf; (destruct n as [|n]; [cbn in Hf; lia|]);
    cbn [recv_loop length] in *;
    (assert (Hl : (len = 0 \/ i <= len) /\ recv_limit len buf <= Z.of_nat (length buf));
      [revert Hlen; unfold recv_limit, c_true; destruct (Z.eqb_spec len 0); cbn [negb]; lia|destruct Hl as [Hl Hlb]]).
  - destruct (recv_wait_silent fuel timeout i len d) as (d1 & E1 & Hp1 & Ht1); [done|done|lia..|].
    rewrite (bind_run _ _ _ _ _ E1), (bind_run _ _ _ _ _ (tmr_run d1)). destruct (tick_us d1) as [Ev Hs].
    pose proof (line_tmr d1) as Hp2. rewrite Ev, u32_id by lia. rewrite (proj2 (Z.ltb_lt _ _)) by lia.
    eexists. split; [|by rewrite Hp2]. rewrite Nat.add_0_r. cbn [app]. by rewrite take_drop, Z.add_0_r.
  - destruct (recv_wait_ready fuel timeout i len d) as (d1 & E1 & Hp1 & Ht1); [lia|by rewrite Hp|].
    rewrite (bind_run _ _ _ _ _ E1), (bind_run _ _ _ _ _ (tmr_run d1)). destruct (tick_us d1) as [Ev Hs].
    pose proof (line_tmr d1) as Hp2. rewrite Ev, u32_id by lia. rewrite (proj2 (Z.ltb_ge _ _)) by lia.
    set (d2 := snd (tmr_us d1)) in *. rewrite (bind_run _ _ _ _ _ (urd_run _ d2)).
    assert (Hd2 : pending d2 = b :: bs) by (by rewrite Hp2, Hp1). pose proof (line_thr d2 b bs Hd2) as Hthr. pose proof (tick_rd (base + UART_THR_DLAB) d2) as Ht3.
    destruct (rd32 _ d2) as [v d3]. cbn [fst snd] in *. destruct Hthr as [Hv Hp3].
    rewrite (proj2 (Z.ltb_lt i _)) by lia.
    rewrite (bind_run _ _ _ _ _ (tmr_run d3)). destruct (tick_us d3) as [Ev3 Hs3]. pose proof (line_tmr d3) as Hp4.
    rewrite Ev3, (u32_id (now d3)), u32_id, Hv by lia.
    destruct (IH n (i + 1) (now d3 + 250) (<[Z.to_nat i := b]> buf) (snd (tmr_us d3))) as (d' & E & Hp'); try lia; [congruence| |].
    { unfold recv_limit in *. rewrite length_insert. lia. }
    exists d'. split; [|done]. rewrite E. f_equal. f_equal. f_equal; [lia|].
    rewrite insert_take_drop by lia. replace (Z.to_nat (i + 1)) with (S (Z.to_nat i)) by lia.
    assert (Lt : length (take (Z.to_nat i) buf) = Z.to_nat i) by (rewrite length_take; lia).
    rewrite take_app, drop_app, Lt. replace (S (Z.to_nat i) - Z.to_nat i)%nat with 1%nat by lia.
    replace (S (Z.to_nat i) + length bs - Z.to_nat i)%nat with (S (length bs)) by lia.
    rewrite (take_ge (take _ _)), (drop_ge (take _ _)) by (rewrite Lt; lia). cbn [take drop app]. rewrite drop_drop, <- app_assoc. cbn [app].
    cbn [take app]. by replace (S (Z.to_nat i) + length bs)%nat with (Z.to_nat i + S (length bs))%nat by lia.
Qed.

(** Past the limit the wait ends at once, with or without data, and not because
    the time is over. *)
Lemma recv_wait_past n timeout i len d : (0 < n)%nat -> pending d <> [] \/ (len <> 0 /\ len < i) ->
  0 <= now d <= timeout - 150 -> timeout + 200 < 4294967296 -> exists d',
  recv_wait n idx timeout i len d = (Ret tt, d') /\ pending d' = pending d /\ now d <= now d' <= now d + 100.
Proof.
  intros Hn Hc Ht Hmax. destruct (decide (pending d = [])) as [Hp|Hp]; [|by apply recv_wait_ready].
  destruct Hc as [?|[Hl0 Hli]]; [done|]. destruct n as [|n]; [lia|]. cbn [recv_wait].
  rewrite (bind_run _ _ _ _ _ (urd_run _ d)).
  pose proof (line_lsr d) as Hl. pose proof (tick_rd (base + UART_LSR) d) as Htr.
  pose proof (line_quick_rd (base + UART_LSR) d) as Hq. destruct (rd32 _ d) as [v d1]. cbn [fst snd] in *.
  destruct Hl as [Hv Hp1]. rewrite Hv, bool_decide_eq_true_2 by done. cbn [negb].
  rewrite (bind_run _ _ _ _ _ (tmr_run d1)). destruct (tick_us d1) as [Ev Hs]. pose proof (line_tmr d1) as Hp2.
  pose proof (line_quick_tmr d1) as Hq1. rewrite Ev, u32_id by lia. rewrite (proj2 (Z.ltb_ge _ _)) by lia.
  unfold c_true. rewrite (proj2 (Z.eqb_neq _ _) Hl0), (proj2 (Z.ltb_lt _ _) Hli). cbn [negb andb].
  eexists. split; [reflexivity|]. split; [congruence|lia].
Qed.

(** A packet that is too long is stored past the end of the buffer. *)
Lemma recv_loop_overruns len n : 0 <= len -> forall i timeout buf d,
  0 <= i <= Z.of_nat (length buf) -> recv_limit len buf < i + Z.of_nat (length (pending d)) ->
  0 <= now d <= timeout - 150 -> timeout <= now d + 250 ->
  now d + 1000 * (Z.of_nat (length buf) - i + 1) < 4294967296 -> Z.of_nat (length buf) - i < Z.of_nat n ->
  exists d', recv_loop fuel n idx timeout i len buf d = (Overrun, d').
Proof.
  intros Hl0. induction n as [|n IH]; intros i timeout buf d Hi Hlim Hn Ht Hmax Hf; [lia|]. cbn [recv_loop].
  destruct (recv_wait_past fuel timeout i len d) as (d1 & E1 & Hp1 & Ht1); [lia| |lia|lia|].
  { destruct (pending d); [right|by left]. revert Hlim. unfold recv_limit, c_true. cbn [length].
    destruct (Z.eqb_spec len 0); cbn [negb]; lia. }
  rewrite (bind_run _ _ _ _ _ E1), (bind_run _ _ _ _ _ (tmr_run d1)). destruct (tick_us d1) as [Ev Hs].
  pose proof (line_tmr d1) as Hp2. rewrite Ev, u32_id by lia. rewrite (proj2 (Z.ltb_ge _ _)) by lia.
  set (d2 := snd (tmr_us d1)) in *. rewrite (bind_run _ _ _ _ _ (urd_run _ d2)).
  pose proof (tick_rd (base + UART_THR_DLAB) d2) as Ht3.
  assert (Hd3 : Z.of_nat (length (pending d)) - 1 <= Z.of_nat (length (pending (snd (rd32 (base + UART_THR_DLAB) d2))))
                /\ (pending d = [] -> pending (snd (rd32 (base + UART_THR_DLAB) d2)) = [])).
  { rewrite <- Hp1, <- Hp2. destruct (pending d2) as [|b bs] eqn:Ep.
    - rewrite line_thr_empty by done. cbn. split; [lia|done].
    - pose proof (line_thr d2 b bs Ep) as Hthr. destruct (rd32 _ d2) as [v d3]. destruct Hthr as [_ Hp3].
      cbn [snd]. rewrite Hp3. cbn [length]. split; [lia|done]. }
  destruct (rd32 _ d2) as [v d3]. cbn [fst snd] in *. destruct Hd3 as [Hd3 Hd3'].
  destruct (Z.ltb_spec i (Z.of_nat (length buf))) as [Hlt|Hge]; [|by eexists].
  rewrite (bind_run _ _ _ _ _ (tmr_run d3)). destruct (tick_us d3) as [Ev3 Hs3]. pose proof (line_tmr d3) as Hp4.
  rewrite Ev3, (u32_id (now d3)), u32_id by lia. apply IH; rewrite ?length_insert; try lia.
  unfold recv_limit in *. rewrite length_insert, Hp4. lia.
Qed.
End Reception.

(** C39: a packet that a device sends without a pause, for every limit [len] (zero is no limit) and
    every buffer.  A packet that fits into the buffer and is no longer than the limit is stored
    from the start of the buffer, and the result is its length, or one less with a limit.  Any
    other packet is written past the end of the buffer: [len] does not stop the reception but the
    wait for data, so that behind it whatever the receive register holds is stored for ever. *)
Theorem uart_recv_outcome {D : Type} (idx base : Z) `{UartLine D base} (fuel : nat) len buf bs d :
  uart_baseoff !! Z.to_nat idx = Some (base - UART_BASE) ->
  (300 <= fuel)%nat -> (length bs < fuel)%nat -> (length buf < fuel)%nat -> 0 <= len ->
  pending d = bs -> 0 <= now d ->
  now d + 1000 * (Z.of_nat (length bs) + 2) < 4294967296 -> now d + 1000 * (Z.of_nat (length buf) + 2) < 4294967296 ->
  if Z.of_nat (length bs) <=? recv_limit len buf then
    exists d', uart_recv fuel idx buf len d =
      (Ret (Z.of_nat (length bs) - (if c_true len && negb (bool_decide (bs = [])) then 1 else 0),
            bs ++ drop (length bs) buf), d')
  else fst (uart_recv fuel idx buf len d) = Overrun.
Proof.
  intros Hport Hfuel Hlen Hbuf Hl Hp Hn Hmax Hmax'. unfold uart_recv. rewrite (bind_run _ _ _ _ _ (tmr_run d)).
  destruct (tick_us d) as [Ev Ht]. pose proof (line_tmr d) as Hp1. rewrite Ev, (u32_id (now d)), u32_id by lia.
  destruct (Z.leb_spec (Z.of_nat (length bs)) (recv_limit len buf)) as [Hle|Hgt].
  - destruct (recv_loop_run idx base fuel Hport Hfuel len bs fuel 0 (now d + 250) buf (snd (tmr_us d)))
      as (d' & E & _); try lia; [congruence|].
    rewrite (bind_run _ _ _ _ _ E). eexists. unfold mret, M_ret. do 3 f_equal. destruct bs as [|b bs].
    + cbn. by rewrite andb_false_r.
    + cbn [length]. unfold c_true. rewrite (proj2 (Z.eqb_neq _ 0)) by lia. cbn [negb].
      rewrite bool_decide_eq_false_2 by done. cbn [negb]. rewrite andb_true_r. destruct (negb _); lia.
  - destruct (recv_loop_overruns idx base fuel Hport Hfuel len fuel Hl 0 (now d + 250) buf (snd (tmr_us d)))
      as (d' & E); try lia; [rewrite Hp1, Hp; lia|].
    unfold mbind, M_bind. by rewrite E.
Qed.

(** A port that has received bytes, with a timer. *)
Module Line.
Record line := L { clock : Z; queue : list Z }.
Definition port : Z := UART_BASE + 0x40.
#[export] Instance line_mmio : Mmio line := {|
  rd32 a d :=
    if a =? port + UART_LSR then ((match queue d with [] => 0 | _ => 1 end), d)
    else if a =? port + UART_THR_DLAB then (hd 0 (queue d), L (clock d) (tl (queue d)))
    else (0, d);
  wr32 _ _ d := d;
  tmr_us d := (u32 (clock d), L (clock d + 1) (queue d));
  tmr_ms d := (u32 (clock d / 1000), L (clock d + 1) (queue d));
  sleep_us n d := L (clock d + n) (queue d)
|}.
#[export] Instance line_ticking : Ticking line.
Proof.
  refine (Build_Ticking line line_mmio clock _ _ _ _).
  - intros d. cbn [tmr_us line_mmio fst snd clock]. split; [done|lia].
  - intros a d. cbn [rd32 line_mmio]. destruct (a =? _); [cbn; lia|]. destruct (a =? _); cbn; lia.
  - intros a v d. cbn. lia.
  - intros n d Hn. cbn. lia.
Defined.
#[export] Instance line_uart : UartLine line port.
Proof.
  refine (Build_UartLine line line_mmio line_ticking port (fun d => map u8 (queue d)) _ _ _ _ _ _).
  - intros d. cbn [rd32 line_mmio]. rewrite Z.eqb_refl. by destruct (queue d) as [|b bs] eqn:E.
  - intros d b bs E. cbn [rd32 line_mmio]. change (port + UART_THR_DLAB =? port + UART_LSR) with false. rewrite Z.eqb_refl.
    cbn [queue]. destruct (queue d) as [|c q]; [discriminate|]. cbn in *. by injection E as <- <-.
  - intros d E. cbn [rd32 line_mmio]. change (port + UART_THR_DLAB =? port + UART_LSR) with false. rewrite Z.eqb_refl.
    cbn [queue snd]. by destruct (queue d).
  - done.
  - intros a d. cbn [rd32 line_mmio]. destruct (a =? _); [cbn; lia|]. destruct (a =? _); cbn; lia.
  - intros d. cbn. lia.
Defined.

Definition sent (n : nat) : line := L 1000 (replicate n 7).

(** Twelve bytes are received; 257 bytes overrun the buffer, and so do twelve with a limit of
    eleven. *)
Lemma uart_recv_outcome_witness :
  (exists d', uart_recv 300 UART_B (replicate 256 0) 256 (sent 12) = (Ret (11, replicate 12 7 ++ replicate 244 0), d')) /\
  fst (uart_recv 300 UART_B (replicate 256 0) 256 (sent 257)) = Overrun /\
  fst (uart_recv 300 UART_B (replicate 256 0) 11 (sent 12)) = Overrun.
Proof.
  split; [|split].
  - apply (uart_recv_outcome UART_B port 300 256 (replicate 256 0) (replicate 12 7) (sent 12));
      [reflexivity|lia|cbn; lia|cbn; lia|lia|reflexivity|cbn; lia|cbn; lia|cbn; lia].
  - apply (uart_recv_outcome UART_B port 300 256 (replicate 256 0) (replicate 257 7) (sent 257));
      [reflexivity|lia|cbn; lia|cbn; lia|lia|reflexivity|cbn; lia|cbn; lia|cbn; lia].
  - apply (uart_recv_outcome UART_B port 300 11 (replicate 256 0) (replicate 12 7) (sent 12));
      [reflexivity|lia|cbn; lia|cbn; lia|lia|reflexivity|cbn; lia|cbn; lia|cbn; lia].
Defined.
End Line.
