(* ===== verification/Joycon.v ===== *)
(** * Joycon

    bdk/input/joycon.c: the controllers on the two serial ports, over [Uart],
    the pins ([Gpio]) and the 5 V regulator ([Periph]). *)

From S2P Require Import Prelude Mem I2c Gpio Fuse Clock Periph Uart.
#[local] Open Scope Z_scope.

Definition JC_WIRED_CMD : Z := 0x91.
Definition JC_WIRED_HID : Z := 0x92.
Definition JC_WIRED_INIT_REPLY : Z := 0x94.
Definition JC_INIT_HANDSHAKE : Z := 0xA5.
Definition JC_HORI_INPUT_RPT_CMD : Z := 0x9A.
Definition JC_HORI_INPUT_RPT : Z := 0x00.
Definition JC_WIRED_CMD_MAC : Z := 0x01.
Definition JC_WIRED_CMD_10 : Z := 0x10.
Definition JC_HID_OUTPUT_RPT : Z := 0x01.
Definition JC_HID_RUMBLE_RPT : Z := 0x10.
Definition JC_HID_INPUT_RPT : Z := 0x30.
Definition JC_HID_SUBMCD_RPT : Z := 0x21.
Definition JC_HID_SUBCMD_SPI_READ : Z := 0x10.
Definition SPI_READ_OFFSET : nat := 0x20.
Definition JC_HID_SUBCMD_RUMBLE_CTL : Z := 0x48.
Definition JC_HID_SUBCMD_SND_RUMBLE : Z := 0xFF.
Definition JC_BTN_MASK_L : Z := 0xFF2900.
Definition JC_BTN_MASK_R : Z := 0x0056FF.
Definition JC_ID_L : Z := 0x01.
Definition JC_ID_R : Z := 0x02.
Definition JC_ID_HORI : Z := 0x20.
Definition JC_CRC8_INIT : Z := 0x00.
Definition JC_CRC8_POLY : Z := 0x8D.
Definition JC_BATT_LOW : Z := 4.
Definition JC_BATT_MID : Z := 6.
Definition JC_BATT_FULL : Z := 8.

Definition init_jc : list Z := [0xA1; 0xA2; 0xA3; 0xA4].
Definition init_handshake : list Z :=
  [0x19; 0x01; 0x03; 0x07; 0x00; JC_INIT_HANDSHAKE; 0x02; 0x01; 0x7E; 0x00; 0x00; 0x00].
Definition init_get_info : list Z :=
  [0x19; 0x01; 0x03; 0x07; 0x00; JC_WIRED_CMD; JC_WIRED_CMD_MAC; 0x00; 0x00; 0x00; 0x00; 0x24].
Definition init_finalize : list Z :=
  [0x19; 0x01; 0x03; 0x07; 0x00; JC_WIRED_CMD; JC_WIRED_CMD_10; 0x00; 0x00; 0x00; 0x00; 0x3D].
Definition nx_pad_status : list Z :=
  [0x19; 0x01; 0x03; 0x08; 0x00; JC_WIRED_HID; 0x00; 0x01; 0x00; 0x00; 0x69; 0x2D; 0x1F].
Definition hori_pad_status : list Z :=
  [0x19; 0x01; 0x03; 0x07; 0x00; JC_HORI_INPUT_RPT_CMD; 0x01; 0x00; 0x00; 0x00; 0x00; 0x48].

Definition GPIO_PORT_D : Z := 3.
Definition GPIO_PORT_E : Z := 4.
Definition GPIO_PORT_G : Z := 6.
Definition GPIO_PORT_H : Z := 7.
Definition GPIO_PORT_K : Z := 10.
Definition GPIO_PIN_0 : Z := BIT 0.
Definition GPIO_PIN_1 : Z := BIT 1.
Definition GPIO_PIN_3 : Z := BIT 3.
Definition PINMUX_AUX_SPDIF_IN : Z := 0x1A4.
Definition PINMUX_AUX_GPIO_PK3 : Z := 0x260.
Definition PINMUX_DRIVE_4X : Z := Z.shiftl 3 13.

(** ** State *)

(** [rumble_sent] and [connected] are bytes that are only tested for zero. *)
Record joycon_ctxt_t := JoyconCtxt {
  buf : list Z;
  uart : Z;
  type : Z;
  mac : list Z;
  hw_init_done : Z;
  last_received_time : Z;
  last_status_req_time : Z;
  rumble_sent : bool;
  connected : bool
}.

Record jc_bt_conn_t := JcBtConn { bt_type : Z; bt_mac : list Z; host_mac : list Z; ltk : list Z }.

Record jc_gamepad_rpt_t := JcGamepad {
  buttons : Z;
  lstick_x : Z;
  lstick_y : Z;
  rstick_x : Z;
  rstick_y : Z;
  center_stick_l : bool;
  center_stick_r : bool;
  conn_l : bool;
  conn_r : bool;
  batt_info_l : Z;
  batt_info_r : Z;
  bt_conn_l : jc_bt_conn_t;
  bt_conn_r : jc_bt_conn_t
}.

(** The hardware with the regulator, the statics of the file, and the battery
    voltage that max17050.c has cached. *)
Record jcs (D : Type) := Jcs {
  j_rails : rails D;
  jc_l : joycon_ctxt_t;
  jc_r : joycon_ctxt_t;
  jc_init_done : bool;
  hid_pkt_inc : Z;
  jc_gamepad : jc_gamepad_rpt_t;
  cached_batt_volt : Z
}.
Arguments Jcs {D}.
Arguments j_rails {D}.
Arguments jc_l {D}.
Arguments jc_r {D}.
Arguments jc_init_done {D}.
Arguments hid_pkt_inc {D}.
Arguments jc_gamepad {D}.
Arguments cached_batt_volt {D}.

(** Updates of one controller. *)
Definition with_buf (b : list Z) (c : joycon_ctxt_t) : joycon_ctxt_t :=
  JoyconCtxt b (uart c) (type c) (mac c) (hw_init_done c) (last_received_time c) (last_status_req_time c) (rumble_sent c) (connected c).
Definition with_info (t : Z) (m : list Z) (c : joycon_ctxt_t) : joycon_ctxt_t :=
  JoyconCtxt (buf c) (uart c) t m (hw_init_done c) (last_received_time c) (last_status_req_time c) (rumble_sent c) true.
Definition with_received (t : Z) (c : joycon_ctxt_t) : joycon_ctxt_t :=
  JoyconCtxt (buf c) (uart c) (type c) (mac c) (hw_init_done c) t (last_status_req_time c) (rumble_sent c) (connected c).
Definition with_status_req (t : Z) (c : joycon_ctxt_t) : joycon_ctxt_t :=
  JoyconCtxt (buf c) (uart c) (type c) (mac c) (hw_init_done c) (last_received_time c) t (rumble_sent c) (connected c).
Definition with_rumble (b : bool) (c : joycon_ctxt_t) : joycon_ctxt_t :=
  JoyconCtxt (buf c) (uart c) (type c) (mac c) (hw_init_done c) (last_received_time c) (last_status_req_time c) b (connected c).
Definition disconnected (c : joycon_ctxt_t) : joycon_ctxt_t :=
  JoyconCtxt (buf c) (uart c) (type c) (mac c) (hw_init_done c) (last_received_time c) (last_status_req_time c) false false.

(** The bytes of a [joycon_ctxt_t], with two bytes of padding at the end, and
    back: [buf] comes first, so what is received past its end is stored in the
    other members. *)
Definition ctx_bytes (c : joycon_ctxt_t) : list Z :=
  buf c ++ [uart c; type c] ++ mac c ++ le_bytes 4 (hw_init_done c) ++ le_bytes 4 (last_received_time c) ++
  le_bytes 4 (last_status_req_time c) ++ [c_bool (rumble_sent c); c_bool (connected c); 0; 0].
Definition ctx_of (b : list Z) : joycon_ctxt_t :=
  JoyconCtxt (take 0x100 b) (nth 0x100 b 0) (nth 0x101 b 0) (take 6 (drop 0x102 b))
    (le_word (take 4 (drop 0x108 b))) (le_word (take 4 (drop 0x10C b))) (le_word (take 4 (drop 0x110 b)))
    (c_true (nth 0x114 b 0)) (c_true (nth 0x115 b 0)).

(** Updates of the report; [l] is the left side. *)
Definition with_buttons (b : Z) (g : jc_gamepad_rpt_t) : jc_gamepad_rpt_t :=
  JcGamepad b (lstick_x g) (lstick_y g) (rstick_x g) (rstick_y g) (center_stick_l g) (center_stick_r g) (conn_l g) (conn_r g)
    (batt_info_l g) (batt_info_r g) (bt_conn_l g) (bt_conn_r g).
Definition with_stick (l : bool) (x y batt : Z) (g : jc_gamepad_rpt_t) : jc_gamepad_rpt_t :=
  if l then JcGamepad (buttons g) x y (rstick_x g) (rstick_y g) (center_stick_l g) (center_stick_r g) (conn_l g) (conn_r g)
    batt (batt_info_r g) (bt_conn_l g) (bt_conn_r g)
  else JcGamepad (buttons g) (lstick_x g) (lstick_y g) x y (center_stick_l g) (center_stick_r g) (conn_l g) (conn_r g)
    (batt_info_l g) batt (bt_conn_l g) (bt_conn_r g).
Definition with_conn (l r : bool) (g : jc_gamepad_rpt_t) : jc_gamepad_rpt_t :=
  JcGamepad (buttons g) (lstick_x g) (lstick_y g) (rstick_x g) (rstick_y g) (center_stick_l g) (center_stick_r g) l r
    (batt_info_l g) (batt_info_r g) (bt_conn_l g) (bt_conn_r g).
Definition with_batt (l r : Z) (g : jc_gamepad_rpt_t) : jc_gamepad_rpt_t :=
  JcGamepad (buttons g) (lstick_x g) (lstick_y g) (rstick_x g) (rstick_y g) (center_stick_l g) (center_stick_r g)
    (conn_l g) (conn_r g) l r (bt_conn_l g) (bt_conn_r g).
Definition bt_conn (l : bool) (g : jc_gamepad_rpt_t) : jc_bt_conn_t := if l then bt_conn_l g else bt_conn_r g.
Definition with_bt (l : bool) (b : jc_bt_conn_t) (g : jc_gamepad_rpt_t) : jc_gamepad_rpt_t :=
  JcGamepad (buttons g) (lstick_x g) (lstick_y g) (rstick_x g) (rstick_y g) (center_stick_l g) (center_stick_r g)
    (conn_l g) (conn_r g) (batt_info_l g) (batt_info_r g) (if l then b else bt_conn_l g) (if l then bt_conn_r g else b).

(** ** Packets *)

Fixpoint crc_bits (n : nat) (crc : Z) : Z :=
  match n with
  | O => crc
  | S n =>
      crc_bits n (if c_true (Z.land crc 0x80) then u8 (Z.lxor (Z.shiftl crc 1) JC_CRC8_POLY) else u8 (Z.shiftl crc 1))
  end.
Definition jc_crc (data : list Z) : Z := fold_left (fun crc b => crc_bits 8 (Z.lxor crc b)) data JC_CRC8_INIT.

(** [l] with [bs] written at [i]. *)
Definition poke (i : nat) (bs l : list Z) : list Z := take i l ++ bs ++ drop (i + length bs) l.

Definition sizeof_uart_hdr : Z := 5.
Definition sizeof_wired_hdr : Z := 12.
Definition sizeof_hid_out_rpt : Z := 11.

(** The bytes of [jc_wired_hdr_t]: the magic, the size, the command, five data bytes, the checksum. *)
Definition jc_packet_add_uart_hdr (out : list Z) (wired_cmd : Z) (data : option (list Z)) (crc : bool) : list Z * Z :=
  let out := poke 0 [0x19; 0x01; 0x3; sizeof_wired_hdr - sizeof_uart_hdr; 0; wired_cmd] out in
  let out := match data with Some d => poke 6 d out | None => out end in
  let out := poke 11 [if crc then jc_crc (take 7 (drop 4 out)) else 0] out in
  (out, sizeof_wired_hdr).

Definition jc_hid_output_rpt_craft (rpt : list Z) (payload : option (list Z)) (size : Z) (crc : bool) : list Z * Z :=
  let '(rpt, pkt_size) := jc_packet_add_uart_hdr rpt JC_WIRED_HID None crc in
  let pkt_size := u16 (pkt_size + size) in
  let rpt := poke 3 [u8 (nth 3 rpt 0 + size)] rpt in
  let rpt := poke 6 [u8 (Z.shiftr size 8); Z.land size 0xFF] rpt in
  let rpt := match payload with Some p => poke 12 (take (Z.to_nat size) p) rpt | None => rpt end in
  (rpt, pkt_size).

(** The sum over the pairing record; whether it is valid, and for a console. *)
Definition _jc_validate_pairing_info (b : list Z) (is_hos : bool) : bool * bool :=
  let crc := fold_left (fun crc i => u8 (crc + nth (4 + i) b 0)) (seq 0 0x22) 0 in
  let crc := u8 (crc + 0x68) in
  let is_hos := if Z.lxor crc 0x55 =? nth 2 b 0 then true else is_hos in
  let crc := u8 (u8 (crc - 0x68) + 0x08) in
  (is_hos || (Z.lxor crc 0x55 =? nth 2 b 0), is_hos).

(** ** Operations *)

Section Joycon.
Context {D : Type} `{Mmio D} (fuel : nat).
(** [bpmp_clk_rate_set(BPMP_CLK_NORMAL)] and [bpmp_clk_rate_set(BPMP_CLK_DEFAULT_BOOST)]. *)
Context (clk_normal clk_boost : M D unit).

Definition on_rails {A} (m : M (rails D) A) : M (jcs D) A := fun s =>
  let '(r, d) := m (j_rails s) in
  (r, Jcs d (jc_l s) (jc_r s) (jc_init_done s) (hid_pkt_inc s) (jc_gamepad s) (cached_batt_volt s)).
Definition hw {A} (m : M D A) : M (jcs D) A := on_rails (on_bus m).
(** The controller of a side. *)
Definition jc (l : bool) (s : jcs D) : joycon_ctxt_t := if l then jc_l s else jc_r s.
Definition upd_jc (l : bool) (f : joycon_ctxt_t -> joycon_ctxt_t) : M (jcs D) unit :=
  modify (fun s => Jcs (j_rails s) (if l then f (jc_l s) else jc_l s) (if l then jc_r s else f (jc_r s))
    (jc_init_done s) (hid_pkt_inc s) (jc_gamepad s) (cached_batt_volt s)).
Definition upd_pad (f : jc_gamepad_rpt_t -> jc_gamepad_rpt_t) : M (jcs D) unit :=
  modify (fun s => Jcs (j_rails s) (jc_l s) (jc_r s) (jc_init_done s) (hid_pkt_inc s) (f (jc_gamepad s)) (cached_batt_volt s)).
Definition set_pkt_inc (v : Z) : M (jcs D) unit :=
  modify (fun s => Jcs (j_rails s) (jc_l s) (jc_r s) (jc_init_done s) v (jc_gamepad s) (cached_batt_volt s)).

Definition joycon_send_raw (uart_port : Z) (b : list Z) : M (jcs D) unit :=
  hw (uart_send fuel uart_port b);;
  hw (uart_wait_idle fuel uart_port UART_TX_IDLE).

(** The report is an array of 0x50 bytes on the stack. *)
Definition jc_send_hid_output_rpt (u : Z) (payload : list Z) (size : Z) (crc : bool) : M (jcs D) unit :=
  if (0x50 <? sizeof_wired_hdr + size) || (Z.of_nat (length payload) <? size) then overrun
  else
    let '(rpt, rpt_size) := jc_hid_output_rpt_craft (replicate 0x50 0) (Some payload) size crc in
    joycon_send_raw u (take (Z.to_nat rpt_size) rpt).

Definition jc_hid_pkt_id_incr : M (jcs D) Z :=
  s ← get;
  set_pkt_inc (u32 (hid_pkt_inc s + 1));;
  mret (Z.land (u8 (hid_pkt_inc s)) 0xF).

Definition rumble_neutral : list Z := [0x00; 0x01; 0x40; 0x40; 0x00; 0x01; 0x40; 0x40].
Definition rumble_init : list Z := [0xc2; 0xc8; 0x03; 0x72; 0xc2; 0xc8; 0x03; 0x72].

(** To the right and to the left controller. *)
Definition send_both (r l : bool) (pkt : list Z) (size : Z) : M (jcs D) unit :=
  (if r then jc_send_hid_output_rpt UART_B pkt size false else mret tt);;
  if l then jc_send_hid_output_rpt UART_C pkt size false else mret tt.

(** The packet is an array of 0x30 bytes: the command, the number of the
    packet, the rumble data, the subcommand and its data. *)
Definition jc_send_hid_cmd (u subcmd : Z) (data : option (list Z)) (size : Z) : M (jcs D) unit :=
  let pkt := poke 2 rumble_neutral (replicate 0x30 0) in
  if subcmd =? JC_HID_SUBCMD_SND_RUMBLE then
    s ← get;
    let send_r := connected (jc_r s) && negb (rumble_sent (jc_r s)) in
    let send_l := connected (jc_l s) && negb (rumble_sent (jc_l s)) in
    id ← jc_hid_pkt_id_incr;
    let pkt := poke 10 [JC_HID_SUBCMD_RUMBLE_CTL; 1] (poke 0 [JC_HID_OUTPUT_RPT; id] pkt) in
    send_both send_r send_l pkt 0x10;;
    id ← jc_hid_pkt_id_incr;
    let pkt := poke 2 rumble_init (poke 0 [JC_HID_RUMBLE_RPT; id] pkt) in
    send_both send_r send_l pkt 10;;
    hw (usleep 15000);;
    id ← jc_hid_pkt_id_incr;
    let pkt := poke 2 rumble_neutral (poke 10 [JC_HID_SUBCMD_RUMBLE_CTL; 0] (poke 0 [JC_HID_OUTPUT_RPT; id] pkt)) in
    send_both send_r send_l pkt 0x10
  else
    s ← get;
    let crc_needed := c_true (Z.land (type (if uart (jc_l s) =? u then jc_l s else jc_r s)) JC_ID_HORI) in
    id ← jc_hid_pkt_id_incr;
    let pkt := poke 10 [subcmd] (poke 0 [JC_HID_OUTPUT_RPT; id] pkt) in
    match data with
    | Some d =>
        if 0x30 <? sizeof_hid_out_rpt + size then overrun
        else jc_send_hid_output_rpt u (poke 11 (take (Z.to_nat size) d) pkt) (sizeof_hid_out_rpt + size) crc_needed
    | None => jc_send_hid_output_rpt u pkt (sizeof_hid_out_rpt + size) crc_needed
    end.

(** *** Power *)

Definition jc_power_supply (u : Z) (enable : bool) : M (jcs D) unit :=
  on ← on_rails (regulator_5v_get_dev_enabled (u8 (Z.shiftl 1 u)));
  if enable then
    if (on : bool) then mret tt
    else
      on_rails (regulator_5v_enable (u8 (Z.shiftl 1 u)));;
      s ← get;
      if jc_init_done s then
        if u =? UART_C then hw (gpio_write GPIO_PORT_CC GPIO_PIN_3 true) else hw (gpio_write GPIO_PORT_K GPIO_PIN_3 true)
      else if u =? UART_C then
        hw (wr (PINMUX_AUX PINMUX_AUX_SPDIF_IN) (Z.lor PINMUX_PULL_DOWN 1));;
        hw (gpio_config GPIO_PORT_CC GPIO_PIN_3 true);;
        hw (gpio_output_enable GPIO_PORT_CC GPIO_PIN_3 true);;
        hw (gpio_write GPIO_PORT_CC GPIO_PIN_3 true)
      else
        hw (wr (PINMUX_AUX PINMUX_AUX_GPIO_PK3) (Z.lor (Z.lor PINMUX_DRIVE_4X PINMUX_PULL_DOWN) 2));;
        hw (gpio_config GPIO_PORT_K GPIO_PIN_3 true);;
        hw (gpio_output_enable GPIO_PORT_K GPIO_PIN_3 true);;
        hw (gpio_write GPIO_PORT_K GPIO_PIN_3 true)
  else if (on : bool) then
    on_rails (regulator_5v_disable (u8 (Z.shiftl 1 u)));;
    if u =? UART_C then hw (gpio_write GPIO_PORT_CC GPIO_PIN_3 false) else hw (gpio_write GPIO_PORT_K GPIO_PIN_3 false)
  else mret tt.

Definition jc_charging_decider (batt u : Z) : M (jcs D) unit :=
  s ← get;
  let system_batt_enough := 4000 <? cached_batt_volt s in
  if Z.shiftl (Z.shiftr batt 1) 1 <? JC_BATT_LOW then jc_power_supply u true
  else if (if system_batt_enough then JC_BATT_FULL else JC_BATT_MID) <? batt then jc_power_supply u false
  else mret tt.

(** *** Reception *)

(** The report of a side, from the bytes of [jc_hid_in_rpt_t]. *)
Definition input_report (t : Z) (p : list Z) (g : jc_gamepad_rpt_t) : jc_gamepad_rpt_t :=
  let b i := nth i p 0 in
  let btn_tmp := Z.lor (Z.lor (b 3%nat) (Z.shiftl (b 4%nat) 8)) (Z.shiftl (b 5%nat) 16) in
  let batt := Z.shiftr (b 2%nat) 4 in
  if c_true (Z.land t JC_ID_L) then
    with_stick true (Z.lor (b 6%nat) (Z.shiftl (Z.land (b 7%nat) 0xF) 8)) (Z.lor (Z.shiftr (b 7%nat) 4) (Z.shiftl (b 8%nat) 4)) batt
      (with_buttons (Z.lor (Z.land (buttons g) (u32 (Z.lnot JC_BTN_MASK_L))) (Z.land btn_tmp JC_BTN_MASK_L)) g)
  else if c_true (Z.land t JC_ID_R) then
    with_stick false (Z.lor (b 9%nat) (Z.shiftl (Z.land (b 10%nat) 0xF) 8)) (Z.lor (Z.shiftr (b 10%nat) 4) (Z.shiftl (b 11%nat) 4)) batt
      (with_buttons (Z.lor (Z.land (buttons g) (u32 (Z.lnot JC_BTN_MASK_R))) (Z.land btn_tmp JC_BTN_MASK_R)) g)
  else g.

(** The pairing record in the reply to a read of the flash. *)
Definition pairing_reply (c : joycon_ctxt_t) (p : list Z) (g : jc_gamepad_rpt_t) : jc_gamepad_rpt_t :=
  let spi := drop 15 p in
  let pair := drop 5 spi in
  if (nth 4 spi 0 =? 0x1A) && (nth 0 pair 0 =? 0x95) && (nth 1 pair 0 =? 0x22) then
    with_bt (c_true (Z.land (type c) JC_ID_L)) (JcBtConn (type c) (mac c) (take 6 (drop 4 pair)) (rev (take 16 (drop 10 pair)))) g
  else g.

Definition jc_parse_wired_hid (l : bool) (p : list Z) : M (jcs D) unit :=
  let cmd := nth 0 p 0 in
  (if (cmd =? JC_HORI_INPUT_RPT) || (cmd =? JC_HID_INPUT_RPT) then
     s ← get;
     upd_pad (input_report (type (jc l s)) p);;
     s ← get;
     upd_pad (with_conn (connected (jc_l s)) (connected (jc_r s)));;
     jc_charging_decider (Z.shiftr (nth 2 p 0) 4) (uart (jc l s))
   else if cmd =? JC_HID_SUBMCD_RPT then
     if nth 14 p 0 =? JC_HID_SUBCMD_SPI_READ then s ← get; upd_pad (pairing_reply (jc l s) p) else mret tt
   else mret tt);;
  t ← hw get_tmr_ms;
  upd_jc l (with_received (u32 t)).

Definition jc_parse_wired_init (l : bool) (data : list Z) : M (jcs D) unit :=
  if nth 0 data 0 =? JC_WIRED_CMD_MAC
  then upd_jc l (with_info (nth 6 data 0) (rev (take 6 (drop 7 data))))
  else mret tt.

Definition jc_uart_pkt_parse (l : bool) (packet : list Z) : M (jcs D) unit :=
  let cmd := nth 5 packet 0 in
  if (cmd =? JC_HORI_INPUT_RPT_CMD) || (cmd =? JC_WIRED_HID) then jc_parse_wired_hid l (drop 12 packet)
  else if cmd =? JC_WIRED_INIT_REPLY then jc_parse_wired_init l (drop 6 packet)
  else mret tt.

(** The packet is received to the start of the context.  One that ends in its
    members behind the buffer overwrites them; past the end of the context lie
    other statics, and the model ends with [Overrun]. *)
Definition jc_rcv_pkt (l : bool) : M (jcs D) unit :=
  s ← get;
  e ← hw (gpio_read GPIO_PORT_E GPIO_PIN_6);
  if c_true e && (uart (jc l s) =? UART_C) then mret tt
  else
    h ← hw (gpio_read GPIO_PORT_H GPIO_PIN_6);
    if c_true h && (uart (jc l s) =? UART_B) then mret tt
    else
      uart_irq ← hw (uart_get_IIR (uart (jc l s)));
      if negb (Z.land uart_irq 0x8 =? 0x8) then mret tt
      else
        '(len, b) ← hw (uart_recv fuel (uart (jc l s)) (ctx_bytes (jc l s)) 0x100);
        upd_jc l (fun _ => ctx_of b);;
        if (7 <? len) && bool_decide (take 3 b = [0x19; 0x81; 0x03]) then jc_uart_pkt_parse l (take 0x100 b) else mret tt.

(** *** Requests *)

(** The detection pins, turned off for a transfer. *)
Definition detect_r (on : bool) : M (jcs D) unit := hw (gpio_config GPIO_PORT_G GPIO_PIN_0 on).
Definition detect_l (on : bool) : M (jcs D) unit := hw (gpio_config GPIO_PORT_D GPIO_PIN_1 on).
Definition detect (u : Z) (on : bool) : M (jcs D) unit := if u =? UART_B then detect_r on else detect_l on.

Definition jc_send_init_rumble (l : bool) : M (jcs D) bool :=
  s ← get;
  if (connected (jc_r s) && negb (rumble_sent (jc_r s))) || (connected (jc_l s) && negb (rumble_sent (jc_l s))) then
    detect_r false;;
    detect_l false;;
    jc_send_hid_cmd (uart (jc l s)) JC_HID_SUBCMD_SND_RUMBLE None 0;;
    s ← get;
    (if connected (jc_l s) then upd_jc true (with_rumble true) else mret tt);;
    (if connected (jc_r s) then upd_jc false (with_rumble true) else mret tt);;
    (if uart (jc l s) =? UART_B then detect_l true else detect_r true);;
    mret true
  else mret false.

Definition jc_req_nx_pad_status (l : bool) : M (jcs D) unit :=
  s ← get;
  let is_nxpad := negb (c_true (Z.land (type (jc l s)) JC_ID_HORI)) in
  sent_rumble ← (if is_nxpad then jc_send_init_rumble l else mret false);
  if (sent_rumble : bool) then mret tt
  else
    s ← get;
    t ← hw get_tmr_ms;
    if (u32 t <? last_status_req_time (jc l s)) || negb (connected (jc l s)) then mret tt
    else
      detect (uart (jc l s)) false;;
      joycon_send_raw (uart (jc l s)) (if is_nxpad then nx_pad_status else hori_pad_status);;
      detect (uart (jc l s)) true;;
      t ← hw get_tmr_ms;
      upd_jc l (with_status_req (u32 (t + 15))).

(** *** Pairing data *)

Definition clear_host (l : bool) : M (jcs D) unit :=
  upd_pad (fun g => with_bt l (JcBtConn (bt_type (bt_conn l g)) (bt_mac (bt_conn l g)) (replicate 6 0) (replicate 16 0)) g).

(** What the search for the records of both sides has found. *)
Record search := Search { found_l : bool; found_r : bool; addr_l : Z; addr_r : Z; hos_l : bool; hos_r : bool }.
Definition found (l : bool) (q : search) : bool := if l then found_l q else found_r q.
Definition slot_addr (l : bool) (q : search) : Z := if l then addr_l q else addr_r q.
Definition next_slot (l : bool) (q : search) : search :=
  if l then Search (found_l q) (found_r q) (u32 (addr_l q + 0x26)) (addr_r q) (hos_l q) (hos_r q)
  else Search (found_l q) (found_r q) (addr_l q) (u32 (addr_r q + 0x26)) (hos_l q) (hos_r q).
Definition set_found (l is_hos : bool) (q : search) : search :=
  if l then Search true (found_r q) (addr_l q) (addr_r q) (is_hos || hos_l q) (hos_r q)
  else Search (found_l q) true (addr_l q) (addr_r q) (hos_l q) (is_hos || hos_r q).

(** The request for a record: its address and size. *)
Definition request_slot (l : bool) (q : search) : M (jcs D) unit :=
  if found l q then mret tt
  else
    s ← get;
    jc_send_hid_cmd (uart (jc l s)) JC_HID_SUBCMD_SPI_READ (Some (le_bytes 4 (slot_addr l q) ++ [0x1A])) 5;;
    t ← hw get_tmr_ms;
    upd_jc l (with_status_req (u32 (t + 15))).

Definition examine_slot (l : bool) (q : search) : M (jcs D) search :=
  if found l q then mret q
  else
    upd_jc l (with_buf (replicate 0x100 0));;
    jc_rcv_pkt l;;
    s ← get;
    let rec := drop SPI_READ_OFFSET (buf (jc l s)) in
    let '(valid, is_hos) := _jc_validate_pairing_info rec false in
    mret (if valid then if nth 0 rec 0 =? 0x95 then set_found l is_hos q else next_slot l q else q).

(** The tries of one round; [n] bounds the iterations. *)
Fixpoint pairing_tries (n : nat) (retries : Z) (q : search) : M (jcs D) search :=
  match n with
  | O => nofuel
  | S n =>
      if retries =? 0 then mret q
      else
        time_now ← hw get_tmr_ms;
        s ← get;
        let due l := negb (found l q) && (last_status_req_time (jc l s) <? u32 time_now) in
        retries ← (if due true || due false then request_slot true q;; request_slot false q;; mret (retries - 1)
                   else mret retries);
        q ← examine_slot true q;
        q ← examine_slot false q;
        if found_l q && found_r q then mret q else pairing_tries n retries q
  end.

(** The rounds, and the ten more after the first. *)
Fixpoint pairing_rounds (total_retries : nat) (q : search) : M (jcs D) search :=
  q ← pairing_tries fuel 10 q;
  if found_l q && found_r q then mret q
  else match total_retries with O => mret q | S n => pairing_rounds n q end.

Fixpoint drain (n : nat) : M (jcs D) unit :=
  match n with
  | O => nofuel
  | S n =>
      s ← get;
      t ← hw get_tmr_ms;
      if u32 t <? last_status_req_time (jc_l s) then jc_rcv_pkt false;; jc_rcv_pkt true;; drain n else mret tt
  end.


(** *** Connection *)


(** The buttons and the flag of a side are cleared. *)
Definition drop_side (l : bool) (g : jc_gamepad_rpt_t) : jc_gamepad_rpt_t :=
  with_conn (if l then false else conn_l g) (if l then conn_r g else false)
    (with_buttons (Z.land (buttons g) (u32 (Z.lnot (if l then JC_BTN_MASK_L else JC_BTN_MASK_R)))) g).

Definition jc_init_conn (l : bool) : M (jcs D) unit :=
  s ← get;
  t ← hw get_tmr_ms;
  if 1000 <? u32 (u32 t - last_received_time (jc l s)) then
    let u := uart (jc l s) in
    jc_power_supply u true;;
    upd_pad (drop_side (negb (u =? UART_B)));;
    detect u false;;
    hw (uart_init fuel u 1000000);;
    hw (uart_invert u true UART_INVERT_TXD);;
    hw (uart_set_IIR u);;
    joycon_send_raw u init_jc;;
    joycon_send_raw u init_handshake;;
    hw (usleep 5000);;
    jc_rcv_pkt l;;
    joycon_send_raw u init_get_info;;
    hw (usleep 5000);;
    jc_rcv_pkt l;;
    s ← get;
    (if c_true (Z.land (type (jc l s)) JC_ID_HORI) then mret tt
     else
       joycon_send_raw u init_finalize;;
       hw (usleep 5000);;
       jc_rcv_pkt l);;
    detect u true;;
    t ← hw get_tmr_ms;
    upd_jc l (with_received (u32 t));;
    s ← get;
    if connected (jc l s) then jc_power_supply u false else mret tt
  else mret tt.

(** A side that was detached. *)
Definition lost_side (l : bool) : M (jcs D) unit :=
  jc_power_supply (if l then UART_C else UART_B) false;;
  set_pkt_inc 0;;
  upd_jc l disconnected;;
  upd_pad (drop_side l);;
  upd_pad (fun g => with_batt (if l then 0 else batt_info_l g) (if l then batt_info_r g else 0) g);;
  upd_pad (fun g => with_bt l (JcBtConn 0 (bt_mac (bt_conn l g)) (host_mac (bt_conn l g)) (ltk (bt_conn l g))) g).

Definition jc_conn_check : M (jcs D) unit :=
  e ← hw (gpio_read GPIO_PORT_E GPIO_PIN_6);
  (if c_true e then lost_side true else mret tt);;
  h ← hw (gpio_read GPIO_PORT_H GPIO_PIN_6);
  if c_true h then lost_side false else mret tt.



End Joycon.

(** ** What holds of the state *)

Definition byte (x : Z) : Prop := 0 <= x < 256.

Record ctx_wf (c : joycon_ctxt_t) : Prop := {
  w_buf : length (buf c) = 256%nat /\ Forall byte (buf c);
  w_type : byte (uart c) /\ byte (type c);
  w_mac : length (mac c) = 6%nat /\ Forall byte (mac c);
  w_times : 0 <= hw_init_done c < 4294967296 /\ 0 <= last_received_time c < 4294967296 /\
            0 <= last_status_req_time c < 4294967296
}.
(** The buttons are those of the two controllers; a stick has 12 bits, a battery level 4. *)
Record pad_wf (g : jc_gamepad_rpt_t) : Prop := {
  w_buttons : 0 <= buttons g /\ Z.ldiff (buttons g) (Z.lor JC_BTN_MASK_L JC_BTN_MASK_R) = 0;
  w_lstick : 0 <= lstick_x g < 4096 /\ 0 <= lstick_y g < 4096;
  w_rstick : 0 <= rstick_x g < 4096 /\ 0 <= rstick_y g < 4096;
  w_batt : 0 <= batt_info_l g < 16 /\ 0 <= batt_info_r g < 16;
  w_bt_l : length (bt_mac (bt_conn_l g)) = 6%nat /\ length (host_mac (bt_conn_l g)) = 6%nat /\ length (ltk (bt_conn_l g)) = 16%nat;
  w_bt_r : length (bt_mac (bt_conn_r g)) = 6%nat /\ length (host_mac (bt_conn_r g)) = 6%nat /\ length (ltk (bt_conn_r g)) = 16%nat
}.
Definition jc_wf {D} (s : jcs D) : Prop :=
  ctx_wf (jc_l s) /\ ctx_wf (jc_r s) /\ pad_wf (jc_gamepad s).

(** *** The layout of a context *)

Lemma le_bytes_ok n v : length (le_bytes n v) = n /\ Forall byte (le_bytes n v).
Proof.
  revert v. induction n as [|n IH]; intros v; cbn [le_bytes length]; [done|]. destruct (IH (v / 256)) as [E Hb].
  split; [by rewrite E|]. constructor; [apply Z.mod_pos_bound; lia|done].
Qed.
Lemma le_word4 bs : (length bs <= 4)%nat -> 0 <= le_word bs < 4294967296.
Proof.
  intros Hl. pose proof (le_word_range bs).
  assert (256 ^ Z.of_nat (length bs) <= 256 ^ 4) by (apply Z.pow_le_mono_r; lia). change (256 ^ 4) with 4294967296 in *. lia.
Qed.
Lemma le_word_bytes4 v : 0 <= v < 4294967296 -> le_word (le_bytes 4 v) = v.
Proof.
  intros Hv. cbn [le_bytes le_word]. unfold u8. rewrite !Z.mod_mod by lia. pose proof (Z.div_mod v 256). pose proof (Z.div_mod (v / 256) 256).
  pose proof (Z.div_mod (v / 256 / 256) 256). pose proof (Z.div_mod (v / 256 / 256 / 256) 256).
  assert (v / 256 / 256 / 256 / 256 = 0) by (rewrite !Z.div_div by lia; apply Z.div_small; lia). lia.
Qed.

Lemma ctx_bytes_ok c : ctx_wf c -> length (ctx_bytes c) = 280%nat /\ Forall byte (ctx_bytes c).
Proof.
  intros [[Lb Hb] [Hu Ht] [Lm Hm] _]. unfold ctx_bytes.
  destruct (le_bytes_ok 4 (hw_init_done c)) as [L1 F1]. destruct (le_bytes_ok 4 (last_received_time c)) as [L2 F2].
  destruct (le_bytes_ok 4 (last_status_req_time c)) as [L3 F3]. split.
  - rewrite !length_app, Lb, Lm, L1, L2, L3. done.
  - rewrite !Forall_app. split_and!; try done; rewrite !Forall_cons_iff; unfold byte in *;
      destruct (rumble_sent c), (connected c); cbn; split_and!; try done; lia.
Qed.
Lemma ctx_of_wf b : length b = 280%nat -> Forall byte b -> ctx_wf (ctx_of b).
Proof.
  intros Hl Hb.
  assert (Hn : forall i, byte (nth i b 0)).
  { intros i. destruct (Nat.lt_ge_cases i (length b)); [by apply Forall_nth|]. rewrite nth_overflow by done. split; lia. }
  assert (Hw : forall i, 0 <= le_word (take 4 (drop i b)) < 4294967296).
  { intros i. apply le_word4. rewrite length_take. lia. }
  constructor; cbn [ctx_of buf uart type mac hw_init_done last_received_time last_status_req_time].
  - split; [rewrite length_take; lia|by apply Forall_take].
  - done.
  - split; [rewrite length_take, length_drop; lia|by apply Forall_take, Forall_drop].
  - done.
Qed.
(** Nothing is lost between the two. *)
Lemma ctx_of_bytes c : ctx_wf c -> ctx_of (ctx_bytes c) = c.
Proof.
  intros [[Lb _] _ [Lm _] (H1 & H2 & H3)]. destruct c as [b u t m hi lr ls ru co]. unfold ctx_of, ctx_bytes. cbn in *.
  rewrite !(take_app_length' b) by done.
  rewrite !(app_nth2 b), !(drop_app_ge b) by lia. rewrite Lb. cbn [Nat.sub app nth drop].
  change (280 - 256)%nat with 24%nat.
  do 6 (destruct m as [|? m]; [discriminate Lm|]). destruct m; [|discriminate Lm].
  cbn [app nth drop take Nat.sub]. f_equal; try (by apply le_word_bytes4); [by destruct ru|by destruct co].
Qed.

(** *** The report *)

Lemma buttons_side (l : bool) b v : let mask := if l then JC_BTN_MASK_L else JC_BTN_MASK_R in
  0 <= b -> Z.ldiff b (Z.lor JC_BTN_MASK_L JC_BTN_MASK_R) = 0 ->
  let b' := Z.lor (Z.land b (u32 (Z.lnot mask))) (Z.land v mask) in
  0 <= b' /\ Z.ldiff b' (Z.lor JC_BTN_MASK_L JC_BTN_MASK_R) = 0.
Proof.
  intros mask Hb Hm b'. assert (Hmask : 0 <= mask /\ Z.ldiff mask (Z.lor JC_BTN_MASK_L JC_BTN_MASK_R) = 0) by (by destruct l).
  destruct Hmask as [Hp Hd]. split.
  - apply Z.lor_nonneg. split; [by apply Z.land_nonneg; left|by apply Z.land_nonneg; right].
  - apply Z.bits_inj'. intros i Hi. apply (f_equal (fun z => Z.testbit z i)) in Hm, Hd. unfold b'.
    rewrite Z.ldiff_spec in *. rewrite Z.bits_0 in *. rewrite Z.lor_spec, !Z.land_spec.
    destruct (Z.testbit b i), (Z.testbit mask i), (Z.testbit (Z.lor JC_BTN_MASK_L JC_BTN_MASK_R) i); cbn in *;
      try done; by rewrite ?andb_false_r, ?orb_false_r.
Qed.

Lemma stick_x h m : byte h -> byte m -> 0 <= Z.lor h (Z.shiftl (Z.land m 0xF) 8) < 4096.
Proof.
  intros Hh Hm. change 4096 with (2 ^ 12). change 0xF with (Z.ones 4). unfold byte in *. rewrite Z.land_ones by lia.
  pose proof (Z.mod_pos_bound m (2 ^ 4)). apply lor_bound; [lia|lia|]. rewrite Z.shiftl_mul_pow2 by lia. lia.
Qed.
Lemma stick_y m v : byte m -> byte v -> 0 <= Z.lor (Z.shiftr m 4) (Z.shiftl v 4) < 4096.
Proof.
  intros Hm Hv. change 4096 with (2 ^ 12). unfold byte in *.
  apply lor_bound; [lia| |rewrite Z.shiftl_mul_pow2 by lia; lia]. rewrite Z.shiftr_div_pow2 by lia.
  split; [apply Z.div_pos; lia|apply Z.div_lt_upper_bound; lia].
Qed.
Lemma nth_byte l i : Forall byte l -> byte (nth i l 0).
Proof.
  intros Hl. destruct (Nat.lt_ge_cases i (length l)); [by apply Forall_nth|]. rewrite nth_overflow by done. split; lia.
Qed.
Lemma nibble b : byte b -> 0 <= Z.shiftr b 4 < 16.
Proof. intros Hb. unfold byte in *. rewrite Z.shiftr_div_pow2 by lia. split; [apply Z.div_pos; lia|apply Z.div_lt_upper_bound; lia]. Qed.

Lemma input_report_wf t p g : Forall byte p -> pad_wf g -> pad_wf (input_report t p g).
Proof.
  intros Hp []. assert (Hb : forall i, byte (nth i p 0)) by (intros i; by apply nth_byte). unfold input_report. cbv zeta.
  destruct (c_true _); [|destruct (c_true _); [|by constructor]]; constructor; cbn; try done.
  all: try (split; [apply stick_x|apply stick_y]; done).
  all: try (split; [try apply nibble; done|try apply nibble; done]).
  all: destruct w_buttons0.
  - by apply (buttons_side true).
  - split; [by apply nibble|lia].
  - by apply (buttons_side false).
  - split; [lia|by apply nibble].
Qed.

Lemma with_bt_wf l b g : pad_wf g -> length (bt_mac b) = 6%nat -> length (host_mac b) = 6%nat -> length (ltk b) = 16%nat ->
  pad_wf (with_bt l b g).
Proof. intros [] H1 H2 H3. constructor; cbn; try done; by destruct l. Qed.

(** A record of pairing data is complete in the buffer of a packet. *)
Lemma pairing_reply_wf c p g : ctx_wf c -> (100 <= length p)%nat -> pad_wf g -> pad_wf (pairing_reply c p g).
Proof.
  intros [? ? [] ?] Hp Hg. unfold pairing_reply. cbv zeta. destruct (_ && _); [|done]. apply with_bt_wf; cbn [bt_mac host_mac ltk]; try done.
  - rewrite length_take, !length_drop. lia.
  - rewrite length_rev, length_take, !length_drop. lia.
Qed.

Section Invariant.
Context {D : Type} `{Mmio D} (fuel : nat) (clk_normal clk_boost : M D unit).

(** What is received fills the buffer with bytes. *)
Lemma recv_loop_wf n : forall idx timeout i len b (d : D), Forall byte b ->
  wp (recv_loop fuel n idx timeout i len b) d (fun r _ => length r.2 = length b /\ Forall byte r.2) (fun _ => True).
Proof.
  induction n as [|n IH]; intros idx timeout i len b d Hb; [done|]. cbn [recv_loop].
  apply wp_bind. eapply wp_mono; [apply (keeps_wp (fun _ => True)); done| |done]. intros _ d1 _.
  apply wp_bind. eapply wp_mono; [apply (keeps_wp (fun _ => True)); done| |done]. intros t d2 _.
  destruct (timeout <? t); [done|].
  apply wp_bind. eapply wp_mono; [apply (keeps_wp (fun _ => True)); done| |done]. intros v d3 _.
  destruct (i <? _); [|done].
  apply wp_bind. eapply wp_mono; [apply (keeps_wp (fun _ => True)); done| |done]. intros t2 d4 _.
  eapply wp_mono; [apply IH| |done].
  - apply Forall_insert; [done|]. apply Z.mod_pos_bound. lia.
  - intros r d5. by rewrite length_insert.
Qed.
Lemma uart_recv_wf idx b len (d : D) : Forall byte b ->
  wp (uart_recv fuel idx b len) d (fun r _ => length r.2 = length b /\ Forall byte r.2) (fun _ => True).
Proof.
  intros Hb. unfold uart_recv. apply wp_bind. eapply wp_mono; [apply (keeps_wp (fun _ => True)); done| |done]. intros t d1 _.
  apply wp_bind. eapply wp_mono; [by apply recv_loop_wf| |done]. by intros [i b'] d2.
Qed.

(** *** Operations that keep it *)

Lemma keeps_rails {A} (m : M (rails D) A) : keeps jc_wf (on_rails m).
Proof. intros s Hs. unfold on_rails. by destruct (m (j_rails s)) as [r d]. Qed.
Lemma keeps_hw {A} (m : M D A) : keeps jc_wf (hw m).
Proof. apply keeps_rails. Qed.
Lemma keeps_pkt_inc v : keeps (S := jcs D) jc_wf (set_pkt_inc v).
Proof. by intros s Hs. Qed.
Lemma keeps_upd_jc l f : (forall c, ctx_wf c -> ctx_wf (f c)) -> keeps (S := jcs D) jc_wf (upd_jc l f).
Proof. intros Hf s (Hl & Hr & Hg). unfold jc_wf. cbn. destruct l; auto 10. Qed.
Lemma keeps_upd_pad f : (forall g, pad_wf g -> pad_wf (f g)) -> keeps (S := jcs D) jc_wf (upd_pad f).
Proof. intros Hf s (Hl & Hr & Hg). unfold jc_wf. cbn. auto 10. Qed.

Lemma drop_side_wf l g : pad_wf g -> pad_wf (drop_side l g).
Proof.
  intros [[] ? ? ? ? ?]. constructor; cbn; try done. pose proof (buttons_side l (buttons g) 0) as Hb. cbv zeta in Hb.
  rewrite Z.land_0_l, Z.lor_0_r in Hb. by apply Hb.
Qed.
Lemma with_received_wf t c : ctx_wf c -> ctx_wf (with_received (u32 t) c).
Proof. intros [? ? ? (? & ? & ?)]. pose proof (u32_range t). by constructor. Qed.
Lemma with_status_req_wf t c : ctx_wf c -> ctx_wf (with_status_req (u32 t) c).
Proof. intros [? ? ? (? & ? & ?)]. pose proof (u32_range t). by constructor. Qed.
Lemma with_rumble_wf b c : ctx_wf c -> ctx_wf (with_rumble b c).
Proof. intros []. by constructor. Qed.

#[local] Hint Resolve keeps_rails keeps_hw keeps_pkt_inc : keeps.
#[local] Hint Extern 1 (keeps _ (upd_jc _ (with_received _))) =>
  (apply keeps_upd_jc; intros ?; apply with_received_wf) : keeps.
#[local] Hint Extern 1 (keeps _ (upd_jc _ (with_status_req _))) =>
  (apply keeps_upd_jc; intros ?; apply with_status_req_wf) : keeps.
#[local] Hint Extern 1 (keeps _ (upd_jc _ (with_rumble _))) =>
  (apply keeps_upd_jc; intros ?; apply with_rumble_wf) : keeps.

Lemma keeps_power u b : keeps jc_wf (jc_power_supply (D := D) u b).
Proof. unfold jc_power_supply. kp. Qed.
Lemma keeps_send_raw u b : keeps jc_wf (joycon_send_raw (D := D) fuel u b).
Proof. unfold joycon_send_raw. kp. Qed.
#[local] Hint Resolve keeps_power keeps_send_raw : keeps.
Lemma keeps_output_rpt u p n c : keeps jc_wf (jc_send_hid_output_rpt (D := D) fuel u p n c).
Proof. unfold jc_send_hid_output_rpt. kp. Qed.
#[local] Hint Resolve keeps_output_rpt : keeps.
Lemma keeps_pkt_id : keeps jc_wf (jc_hid_pkt_id_incr (D := D)).
Proof. unfold jc_hid_pkt_id_incr. kp. Qed.
Lemma keeps_send_both r l p n : keeps jc_wf (send_both (D := D) fuel r l p n).
Proof. unfold send_both. kp. Qed.
#[local] Hint Resolve keeps_pkt_id keeps_send_both : keeps.
Lemma keeps_send_cmd u c d n : keeps jc_wf (jc_send_hid_cmd (D := D) fuel u c d n).
Proof. unfold jc_send_hid_cmd. cbv zeta. kp. Qed.
Lemma keeps_charging b u : keeps jc_wf (jc_charging_decider (D := D) b u).
Proof. unfold jc_charging_decider. cbv zeta. kp. Qed.
#[local] Hint Resolve keeps_send_cmd keeps_charging : keeps.

Lemma keeps_parse_hid l p : Forall byte p -> (100 <= length p)%nat -> keeps jc_wf (jc_parse_wired_hid (D := D) l p).
Proof.
  intros Hb Hp. unfold jc_parse_wired_hid. cbv zeta. apply keeps_bind; [|intros _; kp]. apply keeps_if; [|apply keeps_if; [apply keeps_if; [|kp]|kp]].
  - intros s (Hl & Hr & Hg). unfold mbind, M_bind. cbn [get upd_pad modify].
    apply keeps_charging. split; [done|]. split; [done|]. cbn [jc_gamepad jc_l jc_r].
    pose proof (input_report_wf (type (jc l s)) p _ Hb Hg) as []. by constructor.
  - intros s (Hl & Hr & Hg). unfold mbind, M_bind. cbn [get upd_pad modify snd].
    split; [done|]. split; [done|]. cbn [jc_gamepad jc_l jc_r].
    apply pairing_reply_wf; [by destruct l|done|done].
Qed.

Lemma keeps_parse_init l data : Forall byte data -> (13 <= length data)%nat -> keeps jc_wf (jc_parse_wired_init (D := D) l data).
Proof.
  intros Hb Hl. unfold jc_parse_wired_init. apply keeps_if; [|kp]. apply keeps_upd_jc.
  intros c [? [] ? ?]. constructor; cbn; [done|split; [done|by apply nth_byte]| |done].
  rewrite length_rev, length_take, length_drop. split; [lia|]. by apply Forall_rev, Forall_take, Forall_drop.
Qed.
Lemma keeps_pkt_parse l p : Forall byte p -> length p = 256%nat -> keeps jc_wf (jc_uart_pkt_parse (D := D) l p).
Proof.
  intros Hb Hl. unfold jc_uart_pkt_parse. cbv zeta. apply keeps_if; [|apply keeps_if; [|kp]].
  - apply keeps_parse_hid; [by apply Forall_drop|rewrite length_drop; lia].
  - apply keeps_parse_init; [by apply Forall_drop|rewrite length_drop; lia].
Qed.

Lemma keeps_get_bind {A} (k : jcs D -> M (jcs D) A) : (forall s, jc_wf s -> keeps jc_wf (k s)) -> keeps jc_wf (get ≫= k).
Proof. intros Hk s Hs. by apply Hk. Qed.
Lemma keeps_recv_bind {A} idx b len (k : Z * list Z -> M (jcs D) A) : Forall byte b ->
  (forall n b', length b' = length b -> Forall byte b' -> keeps jc_wf (k (n, b'))) ->
  keeps jc_wf (hw (uart_recv fuel idx b len) ≫= k).
Proof.
  intros Hb Hk s Hs. unfold mbind, M_bind, hw, on_rails, on_bus.
  pose proof (uart_recv_wf idx b len (r_dev (j_rails s)) Hb) as Hw. unfold wp in Hw.
  destruct (uart_recv _ _ _ _ _) as [[[n b']| |] d]; [|done|done]. apply Hk; [apply Hw|apply Hw|done].
Qed.

(** A packet that was received is parsed from a full buffer. *)
Lemma keeps_rcv l : keeps jc_wf (jc_rcv_pkt (D := D) fuel l).
Proof.
  unfold jc_rcv_pkt. apply keeps_get_bind. intros s Hs.
  assert (Hc : ctx_wf (jc l s)) by (destruct Hs as (Hl & Hr & _); by destruct l). destruct (ctx_bytes_ok _ Hc) as [Hn Hb].
  apply keeps_bind; [kp|intros e]. apply keeps_if; [kp|]. apply keeps_bind; [kp|intros h]. apply keeps_if; [kp|].
  apply keeps_bind; [kp|intros i]. apply keeps_if; [kp|]. apply keeps_recv_bind; [done|]. intros n b' Hn' Hb'.
  apply keeps_bind; [|intros _].
  - apply keeps_upd_jc. intros c _. apply ctx_of_wf; [congruence|done].
  - apply keeps_if; [|kp]. apply keeps_pkt_parse; [by apply Forall_take|rewrite length_take; lia].
Qed.
#[local] Hint Resolve keeps_rcv : keeps.
Lemma keeps_detect u b : keeps jc_wf (detect (D := D) u b).
Proof. unfold detect, detect_l, detect_r. kp. Qed.
Lemma keeps_detect_l b : keeps jc_wf (detect_l (D := D) b).
Proof. unfold detect_l. kp. Qed.
Lemma keeps_detect_r b : keeps jc_wf (detect_r (D := D) b).
Proof. unfold detect_r. kp. Qed.
#[local] Hint Resolve keeps_detect keeps_detect_l keeps_detect_r : keeps.
Lemma keeps_init_rumble l : keeps jc_wf (jc_send_init_rumble (D := D) fuel l).
Proof. unfold jc_send_init_rumble. kp. Qed.
#[local] Hint Resolve keeps_init_rumble : keeps.
Lemma keeps_pad_status l : keeps jc_wf (jc_req_nx_pad_status (D := D) fuel l).
Proof. unfold jc_req_nx_pad_status. cbv zeta. kp. Qed.
Lemma keeps_drop_side l : keeps jc_wf (upd_pad (D := D) (drop_side l)).
Proof.
  apply keeps_upd_pad, drop_side_wf.
Qed.
#[local] Hint Resolve keeps_pad_status keeps_drop_side : keeps.
Lemma keeps_init_conn l : keeps jc_wf (jc_init_conn (D := D) fuel l).
Proof. unfold jc_init_conn. cbv zeta. kp. Qed.
#[local] Hint Resolve keeps_init_conn : keeps.
Lemma keeps_lost_side l : keeps jc_wf (lost_side (D := D) l).
Proof.
  unfold lost_side. apply keeps_bind; [kp|intros _]. intros s (Hl & Hr & Hg). unfold mbind, M_bind.
  cbn [set_pkt_inc upd_jc upd_pad modify snd]. unfold jc_wf. cbn [jc_l jc_r jc_gamepad].
  pose proof (drop_side_wf l _ Hg) as [].
  destruct l; (split; [|split]); try (destruct Hl; by constructor); try (destruct Hr; by constructor);
    try done; constructor; cbn in *; try done; lia.
Qed.
#[local] Hint Resolve keeps_lost_side : keeps.
Lemma keeps_conn_check : keeps jc_wf (jc_conn_check (D := D)).
Proof. unfold jc_conn_check. kp. Qed.
#[local] Hint Resolve keeps_conn_check : keeps.


Lemma keeps_clear_host l : keeps jc_wf (clear_host (D := D) l).
Proof.
  apply keeps_upd_pad. intros g Hg. apply with_bt_wf; [done| |done|done]. destruct Hg. cbn. destruct l; naive_solver.
Qed.
#[local] Hint Resolve keeps_clear_host : keeps.
Lemma keeps_request l q : keeps jc_wf (request_slot (D := D) fuel l q).
Proof. unfold request_slot. kp. Qed.
Lemma keeps_examine l q : keeps jc_wf (examine_slot (D := D) fuel l q).
Proof.
  unfold examine_slot. apply keeps_if; [kp|]. apply keeps_bind; [|intros _].
  - apply keeps_upd_jc. intros c []. constructor; cbn [with_buf buf type mac]; [|done|done|done].
    split; [apply length_replicate|]. apply Forall_replicate. split; lia.
  - apply keeps_bind; [kp|intros _]. apply keeps_bind; [kp|intros s]. cbv zeta. destruct (_jc_validate_pairing_info _ _). kp.
Qed.
#[local] Hint Resolve keeps_request keeps_examine : keeps.
Lemma keeps_tries n : forall r q, keeps jc_wf (pairing_tries (D := D) fuel n r q).
Proof.
  induction n as [|n IH]; intros r q; cbn [pairing_tries]; [kp|]. apply keeps_if; [kp|]. apply keeps_bind; [kp|intros t].
  apply keeps_bind; [kp|intros s]. cbv zeta. apply keeps_bind; [kp|intros r']. apply keeps_bind; [kp|intros q1].
  apply keeps_bind; [kp|intros q2]. apply keeps_if; [kp|apply IH].
Qed.
Lemma keeps_rounds n : forall q, keeps jc_wf (pairing_rounds (D := D) fuel n q).
Proof.
  induction n as [|n IH]; intros q; cbn [pairing_rounds]; (apply keeps_bind; [apply keeps_tries|intros q1]); kp.
Qed.
Lemma keeps_drain n : keeps jc_wf (drain (D := D) fuel n).
Proof. induction n as [|n IH]; cbn [drain]; kp. Qed.
#[local] Hint Resolve keeps_rounds keeps_drain : keeps.


End Invariant.




(** A right controller that answers: with packets that the port takes up one by
    one when its status is read, and a clock in microseconds.  The line status
    takes 300 of them to read when there is nothing to receive. *)
Module Answers.
Record line := L { clock : Z; script : list (list Z); queue : list Z }.
Definition port : Z := UART_BASE + 0x40.
#[export] Instance mmio : Mmio line := {|
  rd32 a d :=
    if a =? port + UART_LSR then
      match queue d with
      | [] => (0x60, L (clock d + 300) (script d) [])
      | _ => (0x61, d)
      end
    else if a =? UART_BASE + 0x200 + UART_LSR then (0x60, d)
    else if a =? port + UART_THR_DLAB then (hd 0 (queue d), L (clock d) (script d) (tl (queue d)))
    else if a =? port + UART_IIR_FCR then
      match script d with
      | p :: ps => (0x8, L (clock d) ps p)
      | [] => (0, d)
      end
    else (0, d);
  wr32 _ _ d := d;
  tmr_us d := (u32 (clock d), L (clock d + 1) (script d) (queue d));
  tmr_ms d := (u32 (clock d / 1000), L (clock d + 1) (script d) (queue d));
  sleep_us n d := L (clock d + n) (script d) (queue d)
|}.



End Answers.

(** ** Packets *)

(** The checksums of the constant packets, of the bytes behind the size. *)
Lemma constant_checksums :
  map (fun p => (jc_crc (take 7 (drop 4 p)), nth 11 p 0)) [init_get_info; init_finalize; nx_pad_status; hori_pad_status] =
  [(0x24, 0x24); (0x3D, 0x3D); (0x2D, 0x2D); (0x48, 0x48)].
Proof. vm_compute. reflexivity. Qed.

(** The header that [jc_packet_add_uart_hdr] builds has a checksum that matches. *)
Lemma header_checksum cmd a b c d e :
  let p := fst (jc_packet_add_uart_hdr (replicate 12 0) cmd (Some [a; b; c; d; e]) true) in
  p = [0x19; 0x01; 0x03; 7; 0; cmd; a; b; c; d; e; jc_crc (take 7 (drop 4 p))].
Proof.
  unfold jc_packet_add_uart_hdr, poke. generalize jc_crc. intros crc. reflexivity.
Qed.

(** The checksum of a report is computed before the size is put into the bytes
    it covers: it does not match for any size of a report. *)
Lemma report_checksum_stale size : 0 < size <= 68 ->
  let p := fst (jc_hid_output_rpt_craft (replicate 0x50 0) None size true) in
  nth 11 p 0 <> jc_crc (take 7 (drop 4 p)).
Proof.
  intros Hs.
  assert (Hall : forallb (fun i => let p := fst (jc_hid_output_rpt_craft (replicate 0x50 0) None (Z.of_nat i) true) in
    negb (nth 11 p 0 =? jc_crc (take 7 (drop 4 p)))) (seq 1 68) = true) by (vm_compute; reflexivity).
  rewrite forallb_forall in Hall. specialize (Hall (Z.to_nat size) (proj2 (in_seq 68 1 (Z.to_nat size)) ltac:(lia))).
  cbv zeta in *. rewrite Z2Nat.id in Hall by lia. apply negb_true_iff in Hall. exact (proj1 (Z.eqb_neq _ _) Hall).
Qed.

(** A report of one side leaves what the other side has sent. *)
Lemma input_report_other_side t p g :
  let g' := input_report t p g in
  (c_true (Z.land t JC_ID_L) = true ->
     Z.land (buttons g') JC_BTN_MASK_R = Z.land (buttons g) JC_BTN_MASK_R /\ rstick_x g' = rstick_x g /\ rstick_y g' = rstick_y g) /\
  (c_true (Z.land t JC_ID_L) = false ->
     Z.land (buttons g') JC_BTN_MASK_L = Z.land (buttons g) JC_BTN_MASK_L /\ lstick_x g' = lstick_x g /\ lstick_y g' = lstick_y g).
Proof.
  assert (Hm : forall b v m m', Z.land m' (u32 (Z.lnot m)) = m' -> Z.land m m' = 0 ->
    Z.land (Z.lor (Z.land b (u32 (Z.lnot m))) (Z.land v m)) m' = Z.land b m').
  { intros b v m m' H1 H2. rewrite Z.land_lor_distr_l, <- !Z.land_assoc, H2, Z.land_0_r, Z.lor_0_r. f_equal.
    rewrite Z.land_comm. exact H1. }
  unfold input_report. cbv zeta. destruct (c_true (Z.land t JC_ID_L)).
  - split; [intros _|discriminate]. cbn [buttons with_stick with_buttons rstick_x rstick_y]. by rewrite Hm.
  - split; [discriminate|intros _]. destruct (c_true _); [|done].
    cbn [buttons with_stick with_buttons lstick_x lstick_y]. by rewrite Hm.
Qed.
